(* ===== verification/_CoqProject ===== *)
-Q . S2P
Prelude.v
Ids.v
RateLimit.v
Passwords.v
TokenFormat.v
Scope.v
ResponseTypes.v
Pkce.v
Jose.v
Keystore.v
JoseProofs.v
Domain.v
Accounts.v
Notification.v
Database.v
Messaging.v
Repository.v
ClientMetadata.v
ClientRepository.v
ProviderMetadata.v
FlowEngine.v
Activity.v
AccountRepository.v
Pagination.v
AdminRepository.v
AdminApi.v
NotificationRepository.v
Notifications.v
EmailWebhook.v
Outbox.v
Handlers.v
ClientAuth.v
ClientRegistration.v
Userinfo.v
TokenService.v
Registration.v
Login.v
World.v
ProviderProofs.v
FlowProofs.v
ActivityProofs.v
RepositorySpec.v
AccountSpec.v
RegistrationSpec.v
NotificationSpec.v
ClientAuthProofs.v
IdTokenProofs.v
TokenSpec.v
Introspection.v
Revocation.v
Consent.v
Authorization.v
Profile.v
Admin.v
Integrity.v
AccountServer.v
AccountIntegrity.v
NotificationIntegrity.v
NotificationJobs.v
WebhookIntegrity.v
AdminIntegrity.v
UserJobs.v
Server.v
TokenProofs.v
IntrospectionProofs.v
ConsentProofs.v
AuthorizationProofs.v
ServerProofs.v
Queue.v
QueueProofs.v
QueueSystem.v
QueueLiveness.v
RegistrationProofs.v
LoginProofs.v
NotificationProofs.v
WebhookProofs.v
ClientRegistrationProofs.v
UserinfoProofs.v
AdminProofs.v
UserJobsProofs.v
