(* ===== verification/Prelude.v ===== *)
(** * Pasion, an OAuth 2.0 and OpenID Connect server for Matrix: a verified model

    This library models the parts of the server that decide who gets a token
    and who gets an account, and the queue that does the work left for later;
    it proves what the decisions guarantee. It follows the Rust sources under
    crates/: a data model (crates/data), its storage in PostgreSQL
    (crates/data/src/pg), the message types (crates/oauth2-types), keys and
    tokens (crates/jose, crates/keystore), the endpoints and their services
    (crates/backend/src/handlers) and the workers (crates/tasks).

    ** The program

    A client reads the discovery document (oauth2/discovery.rs), registers
    itself (oauth2/registration.rs), and sends the user's browser to the authorization endpoint
    (oauth2/authorization), which creates a grant; the user consents
    (oauth2/access.rs), which fulfils it and hands a code to the client. The
    client exchanges the code at the token endpoint (token.rs,
    token_service.rs), where it authenticates
    (salvo_utils/client_authorization.rs), for an access and a refresh token,
    later refreshes them, and revokes them (revoke.rs, revocation_service.rs).
    A device without a browser asks for a device code (device/authorize.rs),
    polls the token endpoint with it, and gets tokens once a user has consented
    on another device. The homeserver introspects tokens (introspection.rs,
    introspection_service.rs), among them the personal access tokens issued
    by administrators; a client asks who its user is (userinfo.rs). A user comes to be by a registration
    (account/service/registration.rs): a username and a password, or an
    upstream identity, contacts verified with codes, a display name; the first
    administrator is appointed with a token of the configuration. All this
    state is in the database; a request runs in a transaction, which
    [repo.save()] commits and any error abandons. Activity of sessions is
    collected in memory and written in batches (activity_tracker), checks of
    rates are made in memory (rate_limit.rs), and jobs are queued in the
    database for workers (tasks/src/new_queue). Codes and tickets are sent by
    jobs (tasks/src/notifications.rs), which store them and put a message in an
    outbox of requests and deliveries; a job hands the deliveries that are due to
    a channel (messaging/src/notification.rs), again after a failure, and the
    provider of email reports what became of them (services/email_webhook.rs).
    Administrators manage users, their addresses and sessions, registration
    tokens and personal sessions over an interface of their own
    (handlers/admin), to which a session with the administrative scope of an
    active administrator is let; users change their profile, or deactivate
    their account, themselves (account/users.rs). What follows for the
    sessions, the addresses and the homeserver is left to jobs
    (tasks/src/user.rs, matrix.rs); others end the sessions nobody has used
    for long (sessions.rs).

    ** Files

    - [Prelude]: results, the state and error monad [M], its rules and the
      tactics on it ([run_inv], [solve_keeps], [solve_maintains]), texts,
      lists and maps.
    - [Ids], [TokenFormat], [Scope], [Pkce]: identifiers (data/src/lib.rs), the
      text of tokens (data/src/tokens.rs), scopes (oauth2-types/src/scope.rs
      and the administrative scopes of handlers/admin/mod.rs), PKCE
      (oauth2-types/src/pkce.rs).
    - [ResponseTypes], [ClientMetadata], [ProviderMetadata]: response types,
      the metadata of clients with their JSON form and validation
      (oauth2-types/src/{response_type.rs,registration}), the metadata of a
      provider with their verification, the URLs of the endpoints, discovery
      and WebFinger (oauth2-types/src/oidc.rs, data/src/url_builder.rs,
      oauth2/{discovery,webfinger}.rs).
    - [RateLimit], [Passwords]: the limiter and the password manager
      (handlers/rate_limit.rs, handlers/passwords.rs).
    - [Jose], [Keystore], with [JoseProofs], [IdTokenProofs]: keys, signed
      tokens and claims (crates/jose), the signers of a key store and their
      cache (crates/keystore), and ID tokens.
    - [Domain], [Accounts]: the records and state machines of crates/data/src:
      tokens, sessions, users, grants, clients, personal sessions, messages of
      oauth2-types/src/requests.rs; registrations, contacts, passwords and
      upstream identities. A method [T::f] of the source is [T_f].
    - [Database]: rows, tables, the transaction state [St] and the SQL
      primitives. [st_db] is the database as the transaction sees it,
      [st_committed] as the others do.
    - [Repository], [ClientRepository], [AccountRepository]: one definition per query of
      crates/data/src/pg, with the decoding of its rows, the number of rows it
      must affect and the constraints of
      migrations/00000000000000_initial/up.sql.
    - [Handlers], [ClientAuth], [ClientRegistration], [Userinfo],
      [TokenService], [Introspection], [Revocation], [Consent],
      [Authorization]: the endpoints of OAuth 2.0. [Consent] also
      has the callbacks of authorization/callback.rs and the device
      authorization endpoint.
    - [Registration], [Login], [AccountServer]: the service of registrations;
      login, passwords, recovery and contacts
      (account/service/{access,password,recovery,contacts}.rs); the
      registration prepared by upstream_oauth2/link_workflow.rs, the endpoints
      of the first administrator, and the requests on accounts.
    - [FlowEngine], [FlowProofs]: flows of stages (data/src/flow.rs,
      handlers/flow), the sessions that follow them and their endpoints
      (account/flow.rs).
    - [Notification], [NotificationRepository], [Messaging], [Notifications],
      [EmailWebhook]: the data of notifications, their repository, the channels,
      the jobs that queue and deliver messages, and the callbacks
      (data/src/notification.rs, pg/notification.rs,
      messaging/src/notification.rs, tasks/src/notifications.rs,
      services/email_webhook.rs). A job works on [JobSt], a transaction with
      the answers of the channels still to come and the messages handed out.
    - [Outbox], [NotificationSpec], [NotificationIntegrity],
      [NotificationJobs], [WebhookIntegrity]: the states of a delivery and its
      request that are committed ([outbox_state]), what each step does, and that
      jobs and callbacks keep the outbox.
    - [AdminRepository], [AdminApi], [Profile], [Admin]: the log of
      administration and the queries only administrators need; errors,
      parameters and resources of the interface (admin/{params,response,model}.rs,
      backend/src/error.rs); what users change about their account
      (services/user_profile.rs, account/service/profile.rs); the caller and
      the handlers of administration (admin/call_context.rs, admin/v1), with
      services/user_admin.rs. [Admin.admin_serve] serves one request.
    - [AdminIntegrity], [AdminProofs]: what is checked of a caller
      ([admin_caller]), that the handlers keep the database, and the theorems.
    - [UserJobs]: the jobs that deactivate, reactivate and provision a user,
      tell the homeserver its devices, and end inactive sessions
      (tasks/src/{user,matrix,sessions}.rs), and that they keep the database.
      The lists and the bulk ends of sessions they use are in
      [AdminRepository].
    - [Pagination]: pages of a listing (data/src/storage/pagination.rs) and
      the query that reads them.
    - [Activity], [ActivityProofs]: the activity tracker, its messages, its
      batches and the queries it writes them with.
    - [Queue], [QueueProofs], [QueueSystem], [QueueLiveness]: the tables of
      the queue, the workers and the leader as steps on them, and the theorems
      on their interleavings.
    - [RepositorySpec], [TokenSpec], [AccountSpec], [RegistrationSpec]: what
      each query, grant and step does when it succeeds, as inversion lemmas
      over the monad.
    - [Integrity], [AccountIntegrity], [Server]: the database invariant [wf]
      (unique and foreign keys), the order [evolves] on databases, and that
      every operation and every endpoint keeps them; [Server.Request] and
      [Server.serve] run one request, of OAuth 2.0, on accounts or of
      administration, a job of notifications or a callback; [requests] is a
      sequence of them, [history] one of them and of the jobs of users. The
      order has as a parameter how administrators may change: [admins_evolve]
      (not at all, or the first is appointed) for most requests, [overseen]
      for any request, [governed] for sequences of requests, [any_admins] for
      histories, since a job of deactivation does not look who remains.
    - [World]: a concrete world (externals, clients, users, grants, tokens) in
      which the witnesses run.
    - [ClientAuthProofs], [TokenProofs], [IntrospectionProofs] (with revocation),
      [ConsentProofs], [AuthorizationProofs], [ServerProofs],
      [RegistrationProofs], [LoginProofs], [ClientRegistrationProofs],
      [UserinfoProofs], [ProviderProofs], [NotificationProofs],
      [WebhookProofs], [AdminProofs], [UserJobsProofs]: the theorems on the
      endpoints, the jobs of notifications, the callbacks, administration and
      the jobs of users. Those on the JSON form of client metadata are in
      [ClientMetadata].

    ** State and effects

    An [async fn] over a repository is a function of type [M St E A]: it takes
    the transaction and returns a result and the transaction it leaves, error
    or not. [St] holds both databases, the clock as the sequence of readings
    still to come, the random bytes still to come, the outcomes of the calls to
    the homeserver, the limiter, and the calls, activity records and advisory
    locks made so far. Times are microseconds, identifiers 128-bit integers;
    the arithmetic of identifiers, checksums, counters and lock keys is done at
    its machine width. The queue has a state of its own, [Queue], in which each
    query is a step, so that the queries of workers interleave in any way.

    What is not in the sources is a parameter: the CRC and SHA-256
    ([TokenExternals], [PkceExternals]), URL parsing,
    parts and joining ([UrlExternals], [UrlPartsExternals],
    [UrlBuildExternals]), language tags and JSON values ([MetadataExternals]),
    the list of public suffixes and the AEAD ([ClientRegistrationExternals]), hashes
    and stored enumerations ([DbExternals]), JSON, base64 and signatures
    ([JoseExternals], [KeystoreExternals]), the policy engine, templates and
    locales ([HandlerExternals], [AuthorizationExternals],
    [RegistrationExternals]), URL assembly ([ConsentExternals]), header and
    form codecs and remote key sets ([ClientAuthExternals]), the decision of a
    rate limiting guard and lower case beyond ASCII ([LimiterExternals]), the
    text functions of PostgreSQL ([AccountExternals]), password hashes
    ([PasswordExternals]), the names of the homeserver ([LoginExternals]),
    addresses, locales and the texts of errors ([NotificationExternals]),
    the JSON and signatures of callbacks ([WebhookExternals]), and the JSON of
    the log ([AdminExternals]). Where something is assumed of one of them it is a
    class of its own ([TokenExternalsOk], [PasswordExternalsOk] and the like),
    which [World] satisfies.

    ** Theorems

    - Token endpoint: a granted exchange of a code, a refresh token or a device
      code was authorised, and the database then differs by exactly the rows
      named ([code_exchange_correct], [refresh_exchange_correct],
      [device_exchange_correct]); it was asked by an authenticated client;
      administrative scopes only go to administrators; a refused request
      commits no token; late replays end the session; every token answered is
      well formed; ID tokens verify against the published keys.
    - Clients: what a registration requires and stores; that it is idempotent;
      that the client it gives can authenticate; that metadata survive their
      JSON form. Userinfo answers only bearers of live tokens with the scope
      [openid].
    - Provider metadata are verified exactly by their requirements; the
      discovery document can be built, passes that verification, and names the
      algorithms there are signers for.
    - Introspection refines a specification on the tables, [live_token].
    - Revocation ends the session it names, for an entitled caller only.
    - Authorization creates grants for registered redirect URIs only; consent
      fulfils only pending grants accepted by the policy, and repeats a
      callback only to the same user.
    - Registration: what finishing one requires and makes, and that anything
      less commits nothing; it happens once; bootstrapping appoints one
      administrator; which codes are accepted; messages are a minute apart;
      passwords survive a change of scheme.
    - Login: what a login requires and makes, and that any other outcome commits
      nothing; a changed or recovered password decides the logins that follow;
      a recovery sets one password, over any history; an address comes to a
      user only with its unexpired code.
    - Notifications: what the jobs queue, to which addresses; that whatever is
      handed out is for a pending authentication or an unused recovery and goes to
      its address; how often a delivery is attempted; that only authentic
      callbacks change deliveries, and that one served again changes nothing.
    - Administration: only active administrators with a live session are served;
      over any requests an active administrator remains, and administrators
      change only as one has them changed; what a personal session is given,
      what its token is worth, and that a regenerated one replaces it.
    - Jobs of users: a deactivated user is shut out, its tokens for good,
      before the homeserver is told ([deactivated_user_is_shut_out]); a
      synchronisation names exactly the devices of the active sessions
      ([sync_tells_the_active_devices]).
    - Histories: keys, life cycles and the outbox survive every sequence of requests of
      all kinds, jobs and callbacks; codes are used once; revoked and rotated tokens are never
      active again.
    - Flows: a declared flow is planned in its order; a session passes every
      stage with an accepted response before it is completed, and every
      response is answered by the stage it leads to; no request fails
      internally. Pages enumerate a query exactly, and end.
    - Activity and queue: accepted activity is written; a job is handed out
      once, only moves forward, is started, and is recovered from lost workers.
    - Formats: tokens, scopes, grants and identifiers round-trip or have the
      stated layout; PKCE and redirect URI checks accept exactly what they
      should; the state machines accept exactly the legal runs.
    - Defects: clients without a method are given no way to authenticate,
      the accessor of an absent userinfo endpoint panics, client credentials are never granted, a device code without
      scope is unusable, requests for ID tokens are refused, required
      registration tokens block registration, expired verification codes are
      accepted, one lost session blocks the activity tracker, a stale schedule
      blocks the clean-up of jobs, certificates of SNS are taken from hosts anyone
      can make, a registration token is listed as valid at the instant it expires,
      a job of deactivation does not look whether an administrator remains,
      and the jobs of one device never schedule the synchronisation they are for.

    Fuel is used where a loop is not structural: [base62_loop], for which
    [base62_encode_u32] shows it to be enough, and the sampling of
    authorization codes, which draws until enough bytes were under the limit
    ([authorization_code_sampling] says when it ends), and [trim_start], whose
    fuel is the length of the text ([trim_start_done]), and the loop of a
    recovery over the pages of addresses, whose fuel is their number
    ([send_recovery_pages_inv]), and [collect_devices], the loop of a
    synchronisation over the pages of sessions, whose fuel is more than their
    number ([collect_inv]: it never runs out). Every other recursion is structural.

    ** Not modelled

    Requests are served one at a time: row locks and isolation levels are left
    out, except in the queue, whose queries interleave. Clean-up queries, the bulk
    updates and listings no modelled part calls, logging and metrics are left
    out; in particular the clean-up of old registrations and sessions, so that [evolves] speaks of
    databases whose rows are not deleted. A job is run as a whole by one worker,
    and its transactions do not interleave with others. Of passwords of one time, the one of the smaller key
    is taken to be the latest, which PostgreSQL leaves open; the theorems ask
    for distinct times. The effects of the stages of a flow
    (handlers/flow/stages), which nothing calls, the lists of sessions, upstream
    providers and links and policy data of the administration interface, the
    rest of the upstream workflow, the requests of the providers of
    messages and the templates, configuration and the frontend are left out.

    ** Plan

    Next: sessions and connections (account/service); then the upstream workflow, the rest of the administration interface and the clean-up jobs. *)
From Stdlib Require Export ZArith Lia Ascii.
From stdpp Require Export base gmap strings list fin_maps sorting.

Declare Scope pasion_scope.
Delimit Scope pasion_scope with pasion.

(** ** Results, as Rust's [Result] *)

Inductive result (A E : Type) : Type :=
| Ok (a : A)
| Err (e : E).
Arguments Ok {A E} a.
Arguments Err {A E} e.

#[export] Instance result_eq_dec {A E} `{EqDecision A, EqDecision E} :
  EqDecision (result A E).
Proof. solve_decision. Defined.

Definition result_map_err {A E F} (f : E → F) (r : result A E) : result A F :=
  match r with Ok a => Ok a | Err e => Err (f e) end.

Definition result_bind {A B E} (r : result A E) (k : A → result B E) : result B E :=
  match r with Ok a => k a | Err e => Err e end.

Definition is_ok {A E} (r : result A E) : bool :=
  match r with Ok _ => true | Err _ => false end.

Definition result_ok {A E} (r : result A E) : option A :=
  match r with Ok a => Some a | Err _ => None end.

(** A computation that threads a state [S] and may stop with an error: the
    shape of every handler ([async fn ... -> Result<A, E>] over a repository).
    The state survives an error: what a transaction leaves behind when it is
    dropped is read from it. *)
Definition M (S E A : Type) : Type := S → result A E * S.

#[export] Instance M_ret {S E} : MRet (M S E) := λ A a st, (Ok a, st).
#[export] Instance M_bind {S E} : MBind (M S E) := λ A B k m st,
  match m st with
  | (Ok a, st') => k a st'
  | (Err e, st') => (Err e, st')
  end.

Definition raise {S E A} (e : E) : M S E A := λ st, (Err e, st).
Definition gets {S E A} (f : S → A) : M S E A := λ st, (Ok (f st), st).
Definition modify {S E} (f : S → S) : M S E () := λ st, (Ok tt, f st).

(** [?] with a [From] conversion on the error. *)
Definition try_with {S E F A} (f : E → F) (m : M S E A) : M S F A := λ st,
  match m st with
  | (Ok a, st') => (Ok a, st')
  | (Err e, st') => (Err (f e), st')
  end.

Definition ok_or {S E A} (e : E) (o : option A) : M S E A :=
  match o with Some a => mret a | None => raise e end.

Definition of_result {S E A} (r : result A E) : M S E A := λ st, (r, st).

(** A guard: [if !cond { return Err(e) }] *)
Definition require {S E} (cond : bool) (e : E) : M S E () := if cond then mret tt else raise e.

(** [for x in l { f(x)?; }] *)
Fixpoint for_each {S E A} (f : A → M S E ()) (l : list A) : M S E () :=
  match l with
  | [] => mret tt
  | x :: l => f x ≫= λ _, for_each f l
  end.

Section monad.
Context {S E : Type}.

Lemma bind_Ok_inv {A B} (m : M S E A) (k : A → M S E B) st b st' :
  (m ≫= k) st = (Ok b, st') →
  ∃ a st1, m st = (Ok a, st1) ∧ k a st1 = (Ok b, st').
Proof.
  unfold mbind, M_bind. destruct (m st) as [[a|e] st1] eqn:Hm; [|done].
  intros Hk. by exists a, st1.
Qed.

Lemma bind_Err_inv {A B} (m : M S E A) (k : A → M S E B) st e st' :
  (m ≫= k) st = (Err e, st') →
  m st = (Err e, st') ∨
  ∃ a st1, m st = (Ok a, st1) ∧ k a st1 = (Err e, st').
Proof.
  unfold mbind, M_bind. destruct (m st) as [[a|e'] st1] eqn:Hm; intros Hk.
  - right. by exists a, st1.
  - left. by simplify_eq.
Qed.

Lemma bind_Ok {A B} (m : M S E A) (k : A → M S E B) st a st1 :
  m st = (Ok a, st1) → (m ≫= k) st = k a st1.
Proof. unfold mbind, M_bind. by intros ->. Qed.

Lemma bind_Err {A B} (m : M S E A) (k : A → M S E B) st e st1 :
  m st = (Err e, st1) → (m ≫= k) st = (Err e, st1).
Proof. unfold mbind, M_bind. by intros ->. Qed.

Lemma try_with_Ok_inv {F A} (f : F → E) (m : M S F A) st a st' :
  try_with f m st = (Ok a, st') → m st = (Ok a, st').
Proof. unfold try_with. destruct (m st) as [[]]; naive_solver. Qed.

Lemma try_with_Err_inv {F A} (f : F → E) (m : M S F A) st e st' :
  try_with f m st = (Err e, st') → ∃ e', m st = (Err e', st') ∧ e = f e'.
Proof. unfold try_with. destruct (m st) as [[]]; naive_solver. Qed.

Lemma try_with_Ok {F A} (f : F → E) (m : M S F A) st a st' :
  m st = (Ok a, st') → try_with f m st = (Ok a, st').
Proof. unfold try_with. by intros ->. Qed.

Lemma try_with_Err {F A} (f : F → E) (m : M S F A) st e st' :
  m st = (Err e, st') → try_with f m st = (Err (f e), st').
Proof. unfold try_with. by intros ->. Qed.

Lemma ok_or_Ok_inv {A} (e : E) (o : option A) (st : S) a st' :
  ok_or e o st = (Ok a, st') → o = Some a ∧ st' = st.
Proof. destruct o; simpl; [|done]. unfold mret, M_ret. naive_solver. Qed.
Lemma ok_or_Err_inv {A} (e e' : E) (o : option A) (st st' : S) :
  ok_or e o st = (Err e', st') → o = None ∧ st' = st.
Proof. destruct o; [done|]. by intros [= _ <-]. Qed.

Lemma require_inv c (e : E) (st : S) u st' :
  require c e st = (Ok u, st') → c = true ∧ st' = st.
Proof. unfold require. destruct c; [by intros [= _ <-]|done]. Qed.
Lemma require_Err_inv c (e e' : E) (st st' : S) :
  require c e st = (Err e', st') → c = false ∧ st' = st.
Proof. unfold require. destruct c; [done|by intros [= _ <-]]. Qed.

(** A run that evaluates to a success is one. *)
Lemma ok_run {A} (p : result A E * S) : is_ok p.1 = true → ∃ a st', p = (Ok a, st').
Proof. destruct p as [[a|e] st']; [by exists a, st'|done]. Qed.
End monad.

(** ** Preservation of an observation of the state *)

(** [keeps f m]: running [m], whatever its outcome, leaves the observation [f]
    of the state as it was. *)
Definition keeps {S T E A} (f : S → T) (m : M S E A) : Prop :=
  ∀ st, f (m st).2 = f st.

(** [maintains I m]: [m] preserves the state predicate [I] on every outcome. *)
Definition maintains {S E A} (I : S → Prop) (m : M S E A) : Prop :=
  ∀ st, I st → I (m st).2.

Create HintDb keeps discriminated.
Create HintDb maintains discriminated.

Section keeps.
Context {S T E : Type} (f : S → T).

Lemma keeps_ret {A} (a : A) : keeps f (mret a : M S E A).
Proof. done. Qed.
Lemma keeps_raise {A} (e : E) : keeps f (raise e : M S E A).
Proof. done. Qed.
Lemma keeps_gets {A} (g : S → A) : keeps f (gets g : M S E A).
Proof. done. Qed.
Lemma keeps_ok_or {A} (e : E) (o : option A) : keeps f (ok_or e o : M S E A).
Proof. by destruct o. Qed.
Lemma keeps_of_result {A} (r : result A E) : keeps f (of_result r : M S E A).
Proof. done. Qed.
Lemma keeps_bind {A B} (m : M S E A) (k : A → M S E B) :
  keeps f m → (∀ a, keeps f (k a)) → keeps f (m ≫= k).
Proof.
  intros Hm Hk st. unfold mbind, M_bind. specialize (Hm st).
  destruct (m st) as [[a|e] st1]; simpl in *; [|done]. by rewrite Hk.
Qed.
Lemma keeps_try_with {F A} (g : F → E) (m : M S F A) :
  keeps f m → keeps f (try_with g m).
Proof.
  intros Hm st. unfold try_with. specialize (Hm st). by destruct (m st) as [[]].
Qed.
Lemma keeps_for_each {A} (g : A → M S E ()) (l : list A) :
  (∀ x, keeps f (g x)) → keeps f (for_each g l).
Proof.
  intros Hg. induction l; simpl; [apply keeps_ret|].
  apply keeps_bind; [apply Hg|done].
Qed.
Lemma keeps_run {A} (m : M S E A) st r st' :
  keeps f m → m st = (r, st') → f st' = f st.
Proof. intros Hm Hr. specialize (Hm st). by rewrite Hr in Hm. Qed.
End keeps.

Section maintains.
Context {S E : Type} (I : S → Prop).

Lemma maintains_ret {A} (a : A) : maintains I (mret a : M S E A).
Proof. by intros st. Qed.
Lemma maintains_raise {A} (e : E) : maintains I (raise e : M S E A).
Proof. by intros st. Qed.
Lemma maintains_ok_or {A} (e : E) (o : option A) : maintains I (ok_or e o : M S E A).
Proof. by destruct o; intros st. Qed.
Lemma maintains_of_result {A} (r : result A E) : maintains I (of_result r : M S E A).
Proof. by intros st. Qed.
Lemma maintains_bind {A B} (m : M S E A) (k : A → M S E B) :
  maintains I m → (∀ a, maintains I (k a)) → maintains I (m ≫= k).
Proof.
  intros Hm Hk st HI. unfold mbind, M_bind. specialize (Hm st HI).
  destruct (m st) as [[a|e] st1]; simpl in *; [|done]. by apply Hk.
Qed.
Lemma maintains_try_with {F A} (g : F → E) (m : M S F A) :
  maintains I m → maintains I (try_with g m).
Proof.
  intros Hm st HI. unfold try_with. specialize (Hm st HI). by destruct (m st) as [[]].
Qed.
Lemma maintains_for_each {A} (g : A → M S E ()) (l : list A) :
  (∀ x, maintains I (g x)) → maintains I (for_each g l).
Proof.
  intros Hg. induction l; simpl; [apply maintains_ret|].
  apply maintains_bind; [apply Hg|done].
Qed.
Lemma maintains_run {A} (m : M S E A) st r st' :
  maintains I m → I st → m st = (r, st') → I st'.
Proof. intros Hm HI Hr. specialize (Hm st HI). by rewrite Hr in Hm. Qed.
End maintains.

#[export] Hint Resolve keeps_ret keeps_raise keeps_gets keeps_ok_or keeps_of_result : keeps.
#[export] Hint Resolve keeps_bind keeps_try_with keeps_for_each : keeps.
#[export] Hint Resolve maintains_ret maintains_raise maintains_ok_or maintains_of_result : maintains.
#[export] Hint Resolve maintains_bind maintains_try_with maintains_for_each : maintains.

(** ** Tactics *)

(** One step of inversion on a successful run. *)
Ltac run_inv_step :=
  match goal with
  | H : mbind _ _ _ = (Ok _, _) |- _ =>
      let a := fresh "a" in let st := fresh "st" in let Hm := fresh "Hm" in
      apply bind_Ok_inv in H as (a & st & Hm & H)
  | H : try_with _ _ _ = (Ok _, _) |- _ => apply try_with_Ok_inv in H
  | H : ok_or _ _ _ = (Ok _, _) |- _ =>
      let Ho := fresh "Ho" in apply ok_or_Ok_inv in H as [Ho ->]
  | H : mret _ _ = (Ok _, _) |- _ => unfold mret, M_ret in H
  | H : of_result _ _ = (Ok _, _) |- _ => unfold of_result in H
  | H : raise _ _ = (Ok _, _) |- _ => discriminate H
  | H : (Ok _, _) = (Ok _, _) |- _ => injection H as ? ?; subst
  | H : (Err _, _) = (Ok _, _) |- _ => discriminate H
  | H : (if ?b then _ else _) _ = (Ok _, _) |- _ => destruct b eqn:?
  | H : (match ?x with _ => _ end) _ = (Ok _, _) |- _ => destruct x eqn:?
  end.
Ltac run_inv := repeat run_inv_step.

(** Decompose a program along its monadic structure, closing the leaves with
    the database of the components' lemmas. *)
Ltac solve_keeps :=
  repeat first
    [ progress auto with keeps
    | apply keeps_bind; [|intros ?]
    | apply keeps_try_with
    | apply keeps_for_each; intros ?
    | case_match ].
Ltac solve_maintains :=
  repeat first
    [ progress auto with maintains
    | apply maintains_bind; [|intros ?]
    | apply maintains_try_with
    | apply maintains_for_each; intros ?
    | case_match ].

(** ** Strings: what the source uses of [str] *)

(** [s.starts_with(p)] *)
Definition starts_with (p s : string) : bool := String.prefix p s.

(** [s.contains(needle)] *)
Fixpoint str_contains (needle s : string) : bool :=
  starts_with needle s || match s with EmptyString => false | String _ s => str_contains needle s end.

(** [s.strip_prefix(p)] *)
Fixpoint strip_prefix (p s : string) : option string :=
  match p, s with
  | EmptyString, _ => Some s
  | String a p, String b s => if decide (a = b) then strip_prefix p s else None
  | String _ _, EmptyString => None
  end.

(** [s.bytes().all(f)] *)
Fixpoint str_all (f : ascii → bool) (s : string) : bool :=
  match s with
  | EmptyString => true
  | String a s => f a && str_all f s
  end.

(** [s.split(c)]: always at least one piece. *)
Fixpoint split_char (c : ascii) (s : string) : list string :=
  match s with
  | EmptyString => [EmptyString]
  | String a s =>
      if decide (a = c) then EmptyString :: split_char c s
      else match split_char c s with
           | [] => [String a EmptyString]
           | w :: ws => String a w :: ws
           end
  end.

(** The pieces of [l] separated by the character [c]. *)
Fixpoint join_char (c : ascii) (l : list string) : string :=
  match l with
  | [] => EmptyString
  | [w] => w
  | w :: l => w +:+ String c (join_char c l)
  end.

(** [s.get(i..j)] on bytes, for [i <= j]. *)
Definition str_get_range (i j : nat) (s : string) : option string :=
  if decide (j ≤ String.length s)%nat then Some (String.substring i (j - i) s) else None.

(** Code of a byte. *)
Definition byte_of (a : ascii) : Z := Z.of_N (N_of_ascii a).
Definition ascii_of_byte (z : Z) : ascii := ascii_of_N (Z.to_N z).

(** [c.to_ascii_lowercase()] *)
Definition ascii_lower (c : ascii) : ascii :=
  if (65 <=? byte_of c)%Z && (byte_of c <=? 90)%Z then ascii_of_byte (byte_of c + 32) else c.

Fixpoint str_map (f : ascii → ascii) (s : string) : string :=
  match s with
  | EmptyString => EmptyString
  | String a s => String (f a) (str_map f s)
  end.

(** The encodings of the characters [char::is_whitespace] holds of. *)
Definition white_space : list string :=
  let bytes l := foldr (λ b s, String (ascii_of_byte b) s) EmptyString l in
  bytes <$> ([[9]; [10]; [11]; [12]; [13]; [32]; [0xC2; 0x85]; [0xC2; 0xA0]; [0xE1; 0x9A; 0x80];
              [0xE2; 0x80; 0xA8]; [0xE2; 0x80; 0xA9]; [0xE2; 0x80; 0xAF]; [0xE2; 0x81; 0x9F];
              [0xE3; 0x80; 0x80]]%Z ++
             ((λ b, [0xE2; 0x80; 0x80 + Z.of_nat b]%Z) <$> seq 0 11)).

(** The rest of [s] after one white space character. *)
Definition skip_white (s : string) : option string :=
  head (omap (λ w, strip_prefix w s) white_space).

(** [s.trim_start()]; each round removes at least one byte. *)
Fixpoint trim_start_loop (fuel : nat) (s : string) : string :=
  match fuel with
  | O => s
  | S fuel => match skip_white s with Some s => trim_start_loop fuel s | None => s end
  end.
Definition trim_start (s : string) : string := trim_start_loop (String.length s) s.

Lemma strip_prefix_length p s s' :
  strip_prefix p s = Some s' → String.length s = (String.length p + String.length s')%nat.
Proof.
  revert s. induction p as [|a p IH]; intros [|b s]; simpl; try (by intros [= <-]); try done.
  case_decide; [|done]. intros Hs. by rewrite (IH _ Hs).
Qed.
Lemma skip_white_length s s' : skip_white s = Some s' → (String.length s' < String.length s)%nat.
Proof.
  unfold skip_white. intros H%head_Some_elem_of. apply list_elem_of_omap in H as (w & Hw & Hs).
  apply strip_prefix_length in Hs.
  assert (Forall (λ w, String.length w ≠ 0%nat) white_space) as Hall.
  { apply (bool_decide_eq_true_1 _). vm_compute. reflexivity. }
  rewrite Forall_forall in Hall. specialize (Hall _ Hw). lia.
Qed.
(** The length is enough fuel. *)
Lemma trim_start_done s : skip_white (trim_start s) = None.
Proof.
  assert (∀ n s, (String.length s ≤ n)%nat → skip_white (trim_start_loop n s) = None) as H.
  { clear s. induction n as [|n IH]; intros s Hs; simpl.
    - destruct (skip_white s) as [s'|] eqn:E; [|done]. apply skip_white_length in E. lia.
    - destruct (skip_white s) as [s'|] eqn:E; [|done]. apply IH. apply skip_white_length in E. lia. }
  by apply H.
Qed.

(** Whether [s] is white space from its start to its end. *)
Definition all_white (s : string) : bool := bool_decide (trim_start s = EmptyString).

(** [s.trim_end()]: cut where the rest is white space. *)
Fixpoint trim_end (s : string) : string :=
  match s with
  | EmptyString => EmptyString
  | String a s' => if all_white s then EmptyString else String a (trim_end s')
  end.

(** [s.trim()] *)
Definition trim (s : string) : string := trim_end (trim_start s).

Definition no_char (c : ascii) (s : string) : Prop := str_all (λ a, bool_decide (a ≠ c)) s = true.

Section strings.
Lemma str_app_nil_l s : EmptyString +:+ s = s.
Proof. done. Qed.
Lemma str_app_cons a s1 s2 : String a s1 +:+ s2 = String a (s1 +:+ s2).
Proof. done. Qed.
Lemma str_app_nil_r s : s +:+ EmptyString = s.
Proof. induction s as [|a s IH]; [done|]. by rewrite str_app_cons, IH. Qed.
Lemma str_app_assoc s1 s2 s3 : (s1 +:+ s2) +:+ s3 = s1 +:+ (s2 +:+ s3).
Proof. induction s1 as [|a s IH]; [done|]. by rewrite !str_app_cons, IH. Qed.
Lemma str_length_app s1 s2 :
  String.length (s1 +:+ s2) = (String.length s1 + String.length s2)%nat.
Proof. induction s1 as [|a s IH]; [done|]. rewrite str_app_cons. simpl. by rewrite IH. Qed.

Lemma str_all_app f s1 s2 : str_all f (s1 +:+ s2) = str_all f s1 && str_all f s2.
Proof.
  induction s1 as [|a s IH]; [done|].
  change (f a && str_all f (s +:+ s2) = f a && str_all f s && str_all f s2).
  by rewrite IH, andb_assoc.
Qed.
Lemma str_all_impl (f g : ascii → bool) s :
  (∀ a, f a = true → g a = true) → str_all f s = true → str_all g s = true.
Proof.
  intros Hfg. induction s as [|a s IH]; simpl; [done|].
  rewrite !andb_true_iff. naive_solver.
Qed.

Lemma no_char_nil c : no_char c EmptyString.
Proof. done. Qed.
Lemma no_char_cons c a s : no_char c (String a s) ↔ a ≠ c ∧ no_char c s.
Proof. unfold no_char. simpl. rewrite andb_true_iff, bool_decide_eq_true. done. Qed.
Lemma no_char_app c s1 s2 : no_char c (s1 +:+ s2) ↔ no_char c s1 ∧ no_char c s2.
Proof. unfold no_char. rewrite str_all_app, andb_true_iff. done. Qed.

Lemma split_char_not_nil c s : split_char c s ≠ [].
Proof.
  destruct s as [|a s]; simpl; [done|].
  destruct (decide (a = c)); [done|]. by destruct (split_char c s).
Qed.

Lemma split_char_no_char c s : no_char c s → split_char c s = [s].
Proof.
  induction s as [|a s IH]; simpl; [done|].
  rewrite no_char_cons. intros [Ha Hs]. rewrite decide_False by done. by rewrite IH.
Qed.

Lemma split_char_sep c w s :
  no_char c w → split_char c (w +:+ String c s) = w :: split_char c s.
Proof.
  induction w as [|a w IH]; simpl.
  - intros _. by rewrite decide_True.
  - rewrite no_char_cons. intros [Ha Hw].
    rewrite decide_False by done. by rewrite IH.
Qed.

(** Splitting inverts joining, when no piece holds the separator. *)
Lemma split_join c l :
  l ≠ [] → Forall (no_char c) l → split_char c (join_char c l) = l.
Proof.
  induction l as [|w l IH]; [done|]. intros _ [Hw Hl]%Forall_cons.
  destruct l as [|w' l]; [by apply split_char_no_char|].
  change (join_char c (w :: w' :: l)) with (w +:+ String c (join_char c (w' :: l))).
  rewrite split_char_sep by done. by rewrite IH.
Qed.

(** Joining inverts splitting, always; and no piece holds the separator. *)
Lemma join_split c s : join_char c (split_char c s) = s.
Proof.
  induction s as [|a s IH]; [done|]. simpl.
  pose proof (split_char_not_nil c s). case_decide as Ha.
  - subst. destruct (split_char c s) as [|w ws] eqn:E; [done|].
    change (EmptyString +:+ String c (join_char c (w :: ws)) = String c s).
    by rewrite IH.
  - destruct (split_char c s) as [|w ws] eqn:E; [done|].
    destruct ws as [|w' ws]; simpl in *; [by f_equal|].
    rewrite str_app_cons. by f_equal.
Qed.

Lemma split_no_char c s : Forall (no_char c) (split_char c s).
Proof.
  induction s as [|a s IH]; simpl; [by repeat constructor|].
  case_decide; [by constructor|].
  destruct (split_char c s) as [|w ws]; simplify_eq.
  - repeat constructor. by apply no_char_cons.
  - apply Forall_cons in IH as [??]. constructor; [|done]. by apply no_char_cons.
Qed.

Lemma strip_prefix_Some p s r : strip_prefix p s = Some r ↔ s = p +:+ r.
Proof.
  revert s. induction p as [|a p IH]; intros s; simpl.
  - rewrite str_app_nil_l. naive_solver.
  - rewrite str_app_cons. destruct s as [|b s]; [naive_solver|].
    case_decide; subst; [rewrite IH; naive_solver|naive_solver].
Qed.

Lemma starts_with_spec p s : starts_with p s = true ↔ ∃ r, s = p +:+ r.
Proof.
  unfold starts_with. split.
  - revert s. induction p as [|a p IH]; intros s; [by eexists|].
    destruct s as [|b s]; simpl; [done|].
    destruct (ascii_dec a b) as [->|]; [|done].
    intros [r ->]%IH. by exists r.
  - intros [r ->]. induction p as [|a p IH]; [by destruct r|].
    rewrite str_app_cons. simpl. by destruct (ascii_dec a a).
Qed.

Lemma str_app_inj_l w s1 s2 : w +:+ s1 = w +:+ s2 → s1 = s2.
Proof. by intros ?%(inj _). Qed.

Lemma byte_of_bound a : (0 ≤ byte_of a < 256)%Z.
Proof. unfold byte_of. pose proof (N_ascii_bounded a). lia. Qed.
Lemma ascii_of_byte_of a : ascii_of_byte (byte_of a) = a.
Proof. unfold ascii_of_byte, byte_of. by rewrite N2Z.id, ascii_N_embedding. Qed.
End strings.

(** ** Orders *)

(** The derived [Ord] of an enumeration with a catch-all: by variant, then by text. *)
Definition enum_le {A} (rank : A → Z) (text : A → string) : relation A := λ a b,
  (rank a < rank b)%Z ∨ (rank a = rank b ∧ String.le (text a) (text b)).

#[export] Instance enum_le_dec {A} (rank : A → Z) (text : A → string) :
  RelDecision (enum_le rank text).
Proof. unfold enum_le. intros a b. apply _. Defined.
#[export] Instance enum_le_trans {A} (rank : A → Z) (text : A → string) :
  Transitive (enum_le rank text).
Proof.
  intros a b c [H1|[H1 L1]] [H2|[H2 L2]]; [left; lia..|]. right. split; [lia|]. by trans (text b).
Qed.
#[export] Instance enum_le_total {A} (rank : A → Z) (text : A → string) : Total (enum_le rank text).
Proof.
  intros a b. unfold enum_le. destruct (Z.lt_trichotomy (rank a) (rank b)) as [?|[E|?]]; [tauto| |tauto].
  destruct (total String.le (text a) (text b)); rewrite E; tauto.
Qed.
Lemma enum_le_antisym {A} (rank : A → Z) (text : A → string) a b :
  enum_le rank text a b → enum_le rank text b a → rank a = rank b ∧ text a = text b.
Proof.
  intros [H1|[H1 L1]] [H2|[H2 L2]]; try lia. split; [done|]. by apply (anti_symm String.le).
Qed.

(** The sorted list of given elements is unique. *)
Lemma merge_sort_perm {A} (R : relation A) `{!RelDecision R, !Transitive R, !Total R} (l1 l2 : list A) :
  (∀ a b, R a b → R b a → a = b) → l1 ≡ₚ l2 → merge_sort R l1 = merge_sort R l2.
Proof.
  intros Ha Hp. assert (AntiSymm (=) R) by exact Ha.
  apply (StronglySorted_unique R); [by apply StronglySorted_merge_sort..|].
  by rewrite !merge_sort_Permutation.
Qed.
