(* ===== verification/Ids.v ===== *)
(** Random bytes, alphanumeric strings and identifiers.

    [rand_core::RngCore] is the random source the code is given: here an
    unbounded tape of bytes, of which [fill_bytes] consumes a prefix.  On it
    rest [new_id] ([src/crates/data/src/lib.rs]), the UUID v7 every row of the
    database is keyed by, and [generate_alphanumeric]
    ([src/crates/data/src/tokens.rs]), the random part of a token. *)
From S2P Require Import Prelude.

Local Open Scope Z_scope.

(** An instant: microseconds since the Unix epoch, the precision PostgreSQL
    stores. *)
Abbreviation DateTime := Z (only parsing).
(** [chrono::Duration], in microseconds like the timestamps. *)
Abbreviation Duration := Z (only parsing).
(** A parsed [url::Url], by its serialisation (the type's equality is the
    equality of serialisations). *)
Abbreviation Url := string (only parsing).
(** [std::net::IpAddr], by its text. *)
Abbreviation IpAddr := string (only parsing).
(** A 128-bit identifier, as the unsigned integer its bytes spell; the order
    on identifiers is the order on these integers. *)
Abbreviation Ulid := Z (only parsing).

(** The random source, as the bytes it will give out. *)
Definition Rng : Type := nat → Z.

Definition rng_skip (n : nat) (rng : Rng) : Rng := λ i, rng (i + n)%nat.

(** [rng.fill_bytes(&mut buf)] with [buf] of length [n]. *)
Definition fill_bytes (n : nat) (rng : Rng) : list Z * Rng :=
  ((λ i, rng i mod 256) <$> seq 0 n, rng_skip n rng).

(** [z.to_be_bytes()] for an [n]-byte integer. *)
Fixpoint to_be_bytes (n : nat) (z : Z) : list Z :=
  match n with
  | O => []
  | S n => (Z.shiftr z (8 * Z.of_nat n)) mod 256 :: to_be_bytes n z
  end.

(** The integer that [bs] spells, most significant byte first. *)
Definition from_be_bytes (bs : list Z) : Z := foldl (λ acc b, acc * 256 + b) 0 bs.

(** [ts.timestamp_millis()] and the [u64] conversion [new_id] applies to it. *)
Definition timestamp_millis (ts : DateTime) : Z := ts / 1000.
Definition id_millis (ts : DateTime) : Z :=
  let millis := timestamp_millis ts in
  if decide (0 ≤ millis < 2 ^ 64) then millis else 0.

(** [data::new_id]: 48 bits of milliseconds, version 7, variant 10, random. *)
Definition new_id (ts : DateTime) (rng : Rng) : Ulid * Rng :=
  let millis := id_millis ts in
  let '(random, rng') := fill_bytes 10 rng in
  let bytes := take 6 (drop 2 (to_be_bytes 8 millis)) ++ random in
  let bytes := alter (λ b, Z.lor (Z.land b 0x0F) 0x70) 6%nat bytes in
  let bytes := alter (λ b, Z.lor (Z.land b 0x3F) 0x80) 8%nat bytes in
  (from_be_bytes bytes, rng').

Definition CHARSET : string :=
  "ABCDEFGHIJKLMNOPQRSTUVWXYZabcdefghijklmnopqrstuvwxyz0123456789".

(** [CHARSET[b as usize % CHARSET.len()] as char]: the index is in range. *)
Definition charset_char (b : Z) : ascii :=
  default "A"%char
    (String.get (Z.to_nat b `mod` String.length CHARSET)%nat CHARSET).

Fixpoint string_of_chars (l : list ascii) : string :=
  match l with [] => EmptyString | a :: l => String a (string_of_chars l) end.

Definition generate_alphanumeric (len : nat) (rng : Rng) : string * Rng :=
  let '(bytes, rng') := fill_bytes len rng in
  (string_of_chars (charset_char <$> bytes), rng').

Definition is_ascii_digit (a : ascii) : bool :=
  bool_decide (48 ≤ byte_of a ≤ 57).
Definition is_ascii_alpha (a : ascii) : bool :=
  bool_decide (65 ≤ byte_of a ≤ 90 ∨ 97 ≤ byte_of a ≤ 122).
Definition is_ascii_alphanumeric (a : ascii) : bool :=
  is_ascii_alpha a || is_ascii_digit a.

(** ** Bytes and integers *)

Lemma fill_bytes_length n rng : length (fill_bytes n rng).1 = n.
Proof. simpl. by rewrite length_fmap, length_seq. Qed.

Lemma fill_bytes_bound n rng : Forall (λ b, 0 ≤ b < 256) (fill_bytes n rng).1.
Proof.
  simpl. apply Forall_fmap, Forall_true. intros i. simpl. apply Z.mod_pos_bound. lia.
Qed.

Lemma from_be_bytes_acc bs acc :
  foldl (λ acc b, acc * 256 + b) acc bs
  = acc * 256 ^ Z.of_nat (length bs) + from_be_bytes bs.
Proof.
  unfold from_be_bytes. revert acc. induction bs as [|b bs IH]; intros acc; simpl.
  - rewrite Z.pow_0_r. lia.
  - rewrite (IH (acc * 256 + b)), (IH (0 * 256 + b)).
    rewrite Nat2Z.inj_succ, Z.pow_succ_r by lia. lia.
Qed.

Lemma from_be_bytes_app bs1 bs2 :
  from_be_bytes (bs1 ++ bs2)
  = from_be_bytes bs1 * 256 ^ Z.of_nat (length bs2) + from_be_bytes bs2.
Proof. unfold from_be_bytes at 1. rewrite foldl_app. apply from_be_bytes_acc. Qed.

Lemma from_be_bytes_bound bs :
  Forall (λ b, 0 ≤ b < 256) bs →
  0 ≤ from_be_bytes bs < 256 ^ Z.of_nat (length bs).
Proof.
  induction bs as [|b bs IH] using rev_ind; [done|].
  rewrite Forall_app, Forall_singleton. intros [Hbs Hb].
  rewrite from_be_bytes_app, length_app. simpl. specialize (IH Hbs).
  unfold from_be_bytes at 2 4. simpl.
  rewrite Nat2Z.inj_add, Z.pow_add_r by lia. simpl. lia.
Qed.

Lemma to_be_bytes_length n z : length (to_be_bytes n z) = n.
Proof. induction n; simpl; congruence. Qed.

Lemma from_to_be_bytes n z :
  from_be_bytes (to_be_bytes n z) = z mod 256 ^ Z.of_nat n.
Proof.
  induction n as [|n IH]; [by rewrite Z.pow_0_r, Z.mod_1_r|].
  simpl to_be_bytes. change (?b :: ?l) with ([b] ++ l).
  rewrite from_be_bytes_app, IH, to_be_bytes_length.
  unfold from_be_bytes. simpl.
  rewrite Nat2Z.inj_succ, Z.pow_succ_r by lia.
  rewrite Z.shiftr_div_pow2 by lia.
  replace (2 ^ (8 * Z.of_nat n)) with (256 ^ Z.of_nat n)
    by (rewrite Z.pow_mul_r by lia; done).
  rewrite (Z.mul_comm 256), Z.rem_mul_r by (try apply Z.pow_nonzero; lia). lia.
Qed.

Lemma to_be_bytes_low n z :
  to_be_bytes (2 + n) z = [(Z.shiftr z (8 * Z.of_nat (S n))) mod 256;
    (Z.shiftr z (8 * Z.of_nat n)) mod 256] ++ to_be_bytes n z.
Proof. done. Qed.

(** ** Identifiers *)

Lemma version_byte b : 0 ≤ b < 256 → Z.lor (Z.land b 15) 112 = 112 + b mod 16.
Proof.
  intros Hb. change 15 with (Z.ones 4). rewrite Z.land_ones, Z.lor_comm by lia.
  change 16 with (2 ^ 4). rewrite <-(Z.add_lor_land 112).
  enough (Z.land 112 (b mod 2 ^ 4) = 0) as -> by (by rewrite Z.add_0_r).
  apply Z.bits_inj'. intros n Hn. rewrite Z.land_spec, Z.bits_0.
  destruct (decide (n < 4)).
  - replace (Z.testbit 112 n) with false; [done|].
    assert (n = 0 ∨ n = 1 ∨ n = 2 ∨ n = 3) as [->|[->|[->| ->]]] by lia; done.
  - rewrite Z.mod_pow2_bits_high by lia. apply andb_false_r.
Qed.

Lemma variant_byte b : 0 ≤ b < 256 → Z.lor (Z.land b 63) 128 = 128 + b mod 64.
Proof.
  intros Hb. change 63 with (Z.ones 6). rewrite Z.land_ones, Z.lor_comm by lia.
  change 64 with (2 ^ 6). rewrite <-(Z.add_lor_land 128).
  enough (Z.land 128 (b mod 2 ^ 6) = 0) as -> by (by rewrite Z.add_0_r).
  apply Z.bits_inj'. intros n Hn. rewrite Z.land_spec, Z.bits_0.
  destruct (decide (n < 6)).
  - replace (Z.testbit 128 n) with false; [done|].
    assert (n = 0 ∨ n = 1 ∨ n = 2 ∨ n = 3 ∨ n = 4 ∨ n = 5)
      as [->|[->|[->|[->|[->| ->]]]]] by lia; done.
  - rewrite Z.mod_pow2_bits_high by lia. apply andb_false_r.
Qed.

(** [new_id] as arithmetic: the milliseconds above 80 bits whose own layout is
    version, 12 random bits, variant and 62 random bits. *)
Lemma new_id_arith ts rng :
  ∃ hi lo, 0 ≤ hi < 2 ^ 12 ∧ 0 ≤ lo < 2 ^ 62 ∧
    (new_id ts rng).1 =
      (id_millis ts mod 2 ^ 48) * 2 ^ 80 + (7 * 2 ^ 12 + hi) * 2 ^ 64 + (2 * 2 ^ 62 + lo).
Proof.
  unfold new_id. destruct (fill_bytes 10 rng) as [random rng'] eqn:Hr.
  pose proof (fill_bytes_length 10 rng) as Hlen.
  pose proof (fill_bytes_bound 10 rng) as Hb. rewrite Hr in Hlen, Hb.
  cbn [fst] in *.
  destruct random as [|r0 [|r1 [|r2 [|r3 [|r4 [|r5 [|r6 [|r7 [|r8 [|r9 [|]]]]]]]]]]]; try done.
  rewrite !Forall_cons in Hb. destruct Hb as (?&?&?&?&?&?&?&?&?&?&_).
  rewrite (to_be_bytes_low 6). set (ms := to_be_bytes 6 (id_millis ts)).
  assert (Hms : length ms = 6%nat) by apply to_be_bytes_length.
  assert (Hv : from_be_bytes ms = id_millis ts mod 2 ^ 48) by apply from_to_be_bytes.
  rewrite drop_app_length', take_ge by (simpl; lia).
  rewrite alter_app_r_alt by lia. rewrite alter_app_r_alt by lia.
  rewrite Hms, from_be_bytes_app, Hv. simpl.
  rewrite version_byte, variant_byte by lia.
  pose proof (Z.mod_pos_bound r0 16 ltac:(lia)).
  pose proof (Z.mod_pos_bound r2 64 ltac:(lia)).
  exists (r0 mod 16 * 256 + r1).
  exists (((((((r2 mod 64 * 256 + r3) * 256 + r4) * 256 + r5) * 256 + r6) * 256 + r7) * 256
    + r8) * 256 + r9).
  unfold from_be_bytes. simpl. lia.
Qed.

Lemma shiftr_add_mul a b n : 0 ≤ n → 0 ≤ b < 2 ^ n → Z.shiftr (a * 2 ^ n + b) n = a.
Proof.
  intros Hn Hb. rewrite Z.shiftr_div_pow2 by done.
  rewrite Z.div_add_l by lia. rewrite (Z.div_small b) by done. lia.
Qed.

(** Every identifier [new_id] makes fits 128 bits and has the UUID v7
    layout: the instant's milliseconds modulo 2^48 in the high 48 bits, then
    version 7, and variant 10 in bits 62 and 63, whatever the instant and the
    random source. *)
Theorem new_id_layout ts rng :
  let id := (new_id ts rng).1 in
  0 ≤ id < 2 ^ 128 ∧
  Z.shiftr id 80 = id_millis ts mod 2 ^ 48 ∧
  Z.land (Z.shiftr id 76) 15 = 7 ∧
  Z.land (Z.shiftr id 62) 3 = 2.
Proof.
  destruct (new_id_arith ts rng) as (hi & lo & Hhi & Hlo & Hid). cbv zeta. rewrite Hid.
  pose proof (Z.mod_pos_bound (id_millis ts) (2 ^ 48) ltac:(lia)).
  set (ms := id_millis ts mod 2 ^ 48) in *.
  split; [lia|]. split; [|split].
  - rewrite <-Z.add_assoc. apply shiftr_add_mul; lia.
  - change 15 with (Z.ones 4). rewrite Z.land_ones by lia.
    replace (ms * 2 ^ 80 + (7 * 2 ^ 12 + hi) * 2 ^ 64 + (2 * 2 ^ 62 + lo))
      with ((ms * 2 ^ 4 + 7) * 2 ^ 76 + (hi * 2 ^ 64 + (2 * 2 ^ 62 + lo))) by lia.
    rewrite shiftr_add_mul, Z.add_comm, Z.mod_add by lia. done.
  - change 3 with (Z.ones 2). rewrite Z.land_ones by lia.
    replace (ms * 2 ^ 80 + (7 * 2 ^ 12 + hi) * 2 ^ 64 + (2 * 2 ^ 62 + lo))
      with ((2 + (ms * 2 ^ 16 + (7 * 2 ^ 12 + hi)) * 2 ^ 2) * 2 ^ 62 + lo) by lia.
    rewrite shiftr_add_mul, Z.mod_add by lia. done.
Qed.

(** Identifiers are ordered by the millisecond they were made in. *)
Lemma new_id_lt ts1 rng1 ts2 rng2 :
  id_millis ts1 < id_millis ts2 < 2 ^ 48 → (new_id ts1 rng1).1 < (new_id ts2 rng2).1.
Proof.
  intros [Hlt Hmax].
  destruct (new_id_arith ts1 rng1) as (hi1 & lo1 & ? & ? & ->).
  destruct (new_id_arith ts2 rng2) as (hi2 & lo2 & ? & ? & ->).
  assert (0 ≤ id_millis ts1) by (unfold id_millis; case_decide; lia).
  rewrite !Z.mod_small by lia. lia.
Qed.

(** Identifiers made in different milliseconds sort by creation time: of two
    instants after the epoch and before the year 10889, the later one's
    identifier is the greater, whatever the random bytes. The keyset
    pagination and the cleanup jobs rely on this order. *)
Theorem new_id_time_ordered ts1 rng1 ts2 rng2 :
  0 ≤ ts1 → timestamp_millis ts1 < timestamp_millis ts2 → timestamp_millis ts2 < 2 ^ 48 →
  (new_id ts1 rng1).1 < (new_id ts2 rng2).1.
Proof.
  intros Hpos Hlt Hmax. apply new_id_lt.
  assert (0 ≤ timestamp_millis ts1) by (unfold timestamp_millis; apply Z.div_pos; lia).
  unfold id_millis. rewrite !decide_True by lia. lia.
Qed.

Lemma new_id_time_ordered_witness :
  timestamp_millis 1642344000000000 < timestamp_millis 1642344000001000 ∧
  (new_id 1642344000000000 (λ _, 255)).1 < (new_id 1642344000001000 (λ _, 0)).1.
Proof.
  split; [reflexivity|].
  apply (new_id_time_ordered 1642344000000000 (λ _, 255) 1642344000001000 (λ _, 0));
    vm_compute; congruence.
Defined.

(** ** Alphanumeric strings *)

Lemma string_of_chars_length l : String.length (string_of_chars l) = length l.
Proof. induction l; simpl; congruence. Qed.

Lemma string_of_chars_all f l :
  Forall (λ a, f a = true) l → str_all f (string_of_chars l) = true.
Proof. induction 1 as [|a l Ha _ IH]; simpl; [done|]. by rewrite Ha, IH. Qed.

Lemma get_all f s n a : str_all f s = true → String.get n s = Some a → f a = true.
Proof.
  revert n. induction s as [|b s IH]; intros n; [done|]. simpl.
  rewrite andb_true_iff. intros [??]. destruct n; [naive_solver|eauto].
Qed.

Lemma charset_char_alphanumeric b : is_ascii_alphanumeric (charset_char b) = true.
Proof.
  unfold charset_char. destruct (String.get _ CHARSET) as [a|] eqn:E; [|done]. simpl.
  by eapply (get_all is_ascii_alphanumeric CHARSET).
Qed.

Lemma generate_alphanumeric_spec len rng :
  let s := (generate_alphanumeric len rng).1 in
  String.length s = len ∧ str_all is_ascii_alphanumeric s = true.
Proof.
  unfold generate_alphanumeric. simpl. split.
  - by rewrite string_of_chars_length, !length_fmap, length_seq.
  - apply string_of_chars_all, Forall_fmap, Forall_true.
    intros b. apply charset_char_alphanumeric.
Qed.

Lemma alphanumeric_no_underscore s :
  str_all is_ascii_alphanumeric s = true → no_char "_"%char s.
Proof.
  apply str_all_impl. intros a Ha. apply bool_decide_eq_true. by intros ->.
Qed.
