(* ===== verification/RateLimit.v ===== *)
(** Rate limits: crates/backend/src/handlers/rate_limit.rs.

    A [Limiter] holds, for each limited operation, one sliding window per key, and
    the moments of the last verification messages sent for a registration. It
    lives in the memory of the server, outside any transaction. *)
From S2P Require Import Prelude Ids.

Open Scope Z_scope.

(** [CelledQuota]: so many calls, over a window cut in cells. Times of the
    limiter are microseconds of the monotonic clock. *)
Record CelledQuota := {
  quota_limit : nat;
  quota_cells : nat;
  quota_period : Z;
}.

(** What salvo's [SlidingGuard] and the Unicode tables answer. *)
Class LimiterExternals := {
  (** [guard.verify(quota)] at a time, for a guard that was asked at the times of
      the list, latest first *)
  guard_verify : CelledQuota → list Z → Z → bool;
  (** [str::to_lowercase] of a text that is not ASCII *)
  unicode_lowercase : string → string;
}.

Section limiter.
Context {LX : LimiterExternals}.

(** [s.to_lowercase()] *)
Definition str_to_lowercase (s : string) : string :=
  if str_all (λ a, byte_of a <? 128) s then str_map ascii_lower s else unicode_lowercase s.

(** [RequesterFingerprint] *)
Definition RequesterFingerprint : Type := option IpAddr.

(** [KeyedLimiter<K>]: a guard is the times it was asked at. *)
Record KeyedLimiter (K : Type) `{Countable K} := {
  limiter_store : gmap K (list Z);
  limiter_quota : CelledQuota;
}.
Arguments limiter_store {K _ _}.
Arguments limiter_quota {K _ _}.

Definition KeyedLimiter_check {K} `{Countable K} (self : KeyedLimiter K) (now : Z) (key : K)
    : bool * KeyedLimiter K :=
  let guard := default [] (limiter_store self !! key) in
  (guard_verify (limiter_quota self) guard now,
   {| limiter_store := <[key := now :: guard]> (limiter_store self);
      limiter_quota := limiter_quota self |}).
End limiter.
Arguments limiter_store {K _ _}.
Arguments limiter_quota {K _ _}.

(** [LimiterInner], with the times still to come of the monotonic clock. *)
Record Limiter := mkLimiter {
  registration_email_resends : gmap Z Z;
  account_recovery_per_requester : KeyedLimiter RequesterFingerprint;
  account_recovery_per_email : KeyedLimiter string;
  password_check_for_requester : KeyedLimiter RequesterFingerprint;
  password_check_for_user : KeyedLimiter Z;
  registration_per_requester : KeyedLimiter RequesterFingerprint;
  email_authentication_per_requester : KeyedLimiter RequesterFingerprint;
  email_authentication_per_email : KeyedLimiter string;
  email_authentication_emails_per_session : KeyedLimiter Z;
  email_authentication_attempt_per_session : KeyedLimiter Z;
  phone_authentication_per_requester : KeyedLimiter RequesterFingerprint;
  phone_authentication_per_phone : KeyedLimiter string;
  phone_authentication_sms_per_session : KeyedLimiter Z;
  phone_authentication_attempt_per_session : KeyedLimiter Z;
  limiter_instants : nat → Z;
}.

(** One field of the limiter replaced. *)
Definition set_registration_email_resends (x : gmap Z Z) (l : Limiter) : Limiter :=
  mkLimiter x (account_recovery_per_requester l) (account_recovery_per_email l)
    (password_check_for_requester l) (password_check_for_user l) (registration_per_requester
    l) (email_authentication_per_requester l) (email_authentication_per_email l)
    (email_authentication_emails_per_session l) (email_authentication_attempt_per_session l)
    (phone_authentication_per_requester l) (phone_authentication_per_phone l)
    (phone_authentication_sms_per_session l) (phone_authentication_attempt_per_session l)
    (limiter_instants l).
Definition set_account_recovery_per_requester (x : KeyedLimiter RequesterFingerprint) (l : Limiter) : Limiter :=
  mkLimiter (registration_email_resends l) x (account_recovery_per_email l)
    (password_check_for_requester l) (password_check_for_user l) (registration_per_requester
    l) (email_authentication_per_requester l) (email_authentication_per_email l)
    (email_authentication_emails_per_session l) (email_authentication_attempt_per_session l)
    (phone_authentication_per_requester l) (phone_authentication_per_phone l)
    (phone_authentication_sms_per_session l) (phone_authentication_attempt_per_session l)
    (limiter_instants l).
Definition set_account_recovery_per_email (x : KeyedLimiter string) (l : Limiter) : Limiter :=
  mkLimiter (registration_email_resends l) (account_recovery_per_requester l) x
    (password_check_for_requester l) (password_check_for_user l) (registration_per_requester
    l) (email_authentication_per_requester l) (email_authentication_per_email l)
    (email_authentication_emails_per_session l) (email_authentication_attempt_per_session l)
    (phone_authentication_per_requester l) (phone_authentication_per_phone l)
    (phone_authentication_sms_per_session l) (phone_authentication_attempt_per_session l)
    (limiter_instants l).
Definition set_password_check_for_requester (x : KeyedLimiter RequesterFingerprint) (l : Limiter) : Limiter :=
  mkLimiter (registration_email_resends l) (account_recovery_per_requester l)
    (account_recovery_per_email l) x (password_check_for_user l) (registration_per_requester
    l) (email_authentication_per_requester l) (email_authentication_per_email l)
    (email_authentication_emails_per_session l) (email_authentication_attempt_per_session l)
    (phone_authentication_per_requester l) (phone_authentication_per_phone l)
    (phone_authentication_sms_per_session l) (phone_authentication_attempt_per_session l)
    (limiter_instants l).
Definition set_password_check_for_user (x : KeyedLimiter Z) (l : Limiter) : Limiter :=
  mkLimiter (registration_email_resends l) (account_recovery_per_requester l)
    (account_recovery_per_email l) (password_check_for_requester l) x
    (registration_per_requester l) (email_authentication_per_requester l)
    (email_authentication_per_email l) (email_authentication_emails_per_session l)
    (email_authentication_attempt_per_session l) (phone_authentication_per_requester l)
    (phone_authentication_per_phone l) (phone_authentication_sms_per_session l)
    (phone_authentication_attempt_per_session l) (limiter_instants l).
Definition set_registration_per_requester (x : KeyedLimiter RequesterFingerprint) (l : Limiter) : Limiter :=
  mkLimiter (registration_email_resends l) (account_recovery_per_requester l)
    (account_recovery_per_email l) (password_check_for_requester l) (password_check_for_user
    l) x (email_authentication_per_requester l) (email_authentication_per_email l)
    (email_authentication_emails_per_session l) (email_authentication_attempt_per_session l)
    (phone_authentication_per_requester l) (phone_authentication_per_phone l)
    (phone_authentication_sms_per_session l) (phone_authentication_attempt_per_session l)
    (limiter_instants l).
Definition set_email_authentication_per_requester (x : KeyedLimiter RequesterFingerprint) (l : Limiter) : Limiter :=
  mkLimiter (registration_email_resends l) (account_recovery_per_requester l)
    (account_recovery_per_email l) (password_check_for_requester l) (password_check_for_user
    l) (registration_per_requester l) x (email_authentication_per_email l)
    (email_authentication_emails_per_session l) (email_authentication_attempt_per_session l)
    (phone_authentication_per_requester l) (phone_authentication_per_phone l)
    (phone_authentication_sms_per_session l) (phone_authentication_attempt_per_session l)
    (limiter_instants l).
Definition set_email_authentication_per_email (x : KeyedLimiter string) (l : Limiter) : Limiter :=
  mkLimiter (registration_email_resends l) (account_recovery_per_requester l)
    (account_recovery_per_email l) (password_check_for_requester l) (password_check_for_user
    l) (registration_per_requester l) (email_authentication_per_requester l) x
    (email_authentication_emails_per_session l) (email_authentication_attempt_per_session l)
    (phone_authentication_per_requester l) (phone_authentication_per_phone l)
    (phone_authentication_sms_per_session l) (phone_authentication_attempt_per_session l)
    (limiter_instants l).
Definition set_email_authentication_emails_per_session (x : KeyedLimiter Z) (l : Limiter) : Limiter :=
  mkLimiter (registration_email_resends l) (account_recovery_per_requester l)
    (account_recovery_per_email l) (password_check_for_requester l) (password_check_for_user
    l) (registration_per_requester l) (email_authentication_per_requester l)
    (email_authentication_per_email l) x (email_authentication_attempt_per_session l)
    (phone_authentication_per_requester l) (phone_authentication_per_phone l)
    (phone_authentication_sms_per_session l) (phone_authentication_attempt_per_session l)
    (limiter_instants l).
Definition set_email_authentication_attempt_per_session (x : KeyedLimiter Z) (l : Limiter) : Limiter :=
  mkLimiter (registration_email_resends l) (account_recovery_per_requester l)
    (account_recovery_per_email l) (password_check_for_requester l) (password_check_for_user
    l) (registration_per_requester l) (email_authentication_per_requester l)
    (email_authentication_per_email l) (email_authentication_emails_per_session l) x
    (phone_authentication_per_requester l) (phone_authentication_per_phone l)
    (phone_authentication_sms_per_session l) (phone_authentication_attempt_per_session l)
    (limiter_instants l).
Definition set_phone_authentication_per_requester (x : KeyedLimiter RequesterFingerprint) (l : Limiter) : Limiter :=
  mkLimiter (registration_email_resends l) (account_recovery_per_requester l)
    (account_recovery_per_email l) (password_check_for_requester l) (password_check_for_user
    l) (registration_per_requester l) (email_authentication_per_requester l)
    (email_authentication_per_email l) (email_authentication_emails_per_session l)
    (email_authentication_attempt_per_session l) x (phone_authentication_per_phone l)
    (phone_authentication_sms_per_session l) (phone_authentication_attempt_per_session l)
    (limiter_instants l).
Definition set_phone_authentication_per_phone (x : KeyedLimiter string) (l : Limiter) : Limiter :=
  mkLimiter (registration_email_resends l) (account_recovery_per_requester l)
    (account_recovery_per_email l) (password_check_for_requester l) (password_check_for_user
    l) (registration_per_requester l) (email_authentication_per_requester l)
    (email_authentication_per_email l) (email_authentication_emails_per_session l)
    (email_authentication_attempt_per_session l) (phone_authentication_per_requester l) x
    (phone_authentication_sms_per_session l) (phone_authentication_attempt_per_session l)
    (limiter_instants l).
Definition set_phone_authentication_sms_per_session (x : KeyedLimiter Z) (l : Limiter) : Limiter :=
  mkLimiter (registration_email_resends l) (account_recovery_per_requester l)
    (account_recovery_per_email l) (password_check_for_requester l) (password_check_for_user
    l) (registration_per_requester l) (email_authentication_per_requester l)
    (email_authentication_per_email l) (email_authentication_emails_per_session l)
    (email_authentication_attempt_per_session l) (phone_authentication_per_requester l)
    (phone_authentication_per_phone l) x (phone_authentication_attempt_per_session l)
    (limiter_instants l).
Definition set_phone_authentication_attempt_per_session (x : KeyedLimiter Z) (l : Limiter) : Limiter :=
  mkLimiter (registration_email_resends l) (account_recovery_per_requester l)
    (account_recovery_per_email l) (password_check_for_requester l) (password_check_for_user
    l) (registration_per_requester l) (email_authentication_per_requester l)
    (email_authentication_per_email l) (email_authentication_emails_per_session l)
    (email_authentication_attempt_per_session l) (phone_authentication_per_requester l)
    (phone_authentication_per_phone l) (phone_authentication_sms_per_session l) x
    (limiter_instants l).
Definition set_limiter_instants (x : nat → Z) (l : Limiter) : Limiter :=
  mkLimiter (registration_email_resends l) (account_recovery_per_requester l)
    (account_recovery_per_email l) (password_check_for_requester l) (password_check_for_user
    l) (registration_per_requester l) (email_authentication_per_requester l)
    (email_authentication_per_email l) (email_authentication_emails_per_session l)
    (email_authentication_attempt_per_session l) (phone_authentication_per_requester l)
    (phone_authentication_per_phone l) (phone_authentication_sms_per_session l)
    (phone_authentication_attempt_per_session l) x.

(** ** The checks *)

Section checks.
Context {LX : LimiterExternals} {E : Type}.

(** [Instant::now()], or the time a guard reads *)
Definition instant_now : M Limiter E Z := λ l,
  (Ok (limiter_instants l 0%nat), set_limiter_instants (λ n, limiter_instants l (S n)) l).

(** A step of the limiter that cannot fail. *)
Definition with_limiter {A} (f : Limiter → A * Limiter) : M Limiter E A := λ l,
  (Ok (f l).1, (f l).2).

(** [self.inner.field.check(key)] *)
Definition check_keyed {K} `{Countable K} (field : Limiter → KeyedLimiter K)
    (set : KeyedLimiter K → Limiter → Limiter) (key : K) : M Limiter E bool :=
  now ← instant_now;
  with_limiter (λ l,
    let '(allowed, keyed) := KeyedLimiter_check (field l) now key in (allowed, set keyed l)).

(** The gap between two verification messages of a registration: sixty seconds. *)
Definition RESEND_GAP : Z := 60 * 1000000.

Definition check_registration_email_resend_cooldown (registration_id : Ulid) : M Limiter E bool :=
  now ← instant_now;
  with_limiter (λ l,
    let sends := filter (λ '(_, last), now - last < RESEND_GAP) (registration_email_resends l) in
    match sends !! registration_id with
    | Some _ => (false, set_registration_email_resends sends l)
    | None => (true, set_registration_email_resends (<[registration_id := now]> sends) l)
    end).
End checks.

Inductive AccountRecoveryLimitedError :=
| RecoveryLimited_Requester (requester : RequesterFingerprint)
| RecoveryLimited_Email (email : string).
Inductive PasswordCheckLimitedError :=
| PasswordLimited_Requester (requester : RequesterFingerprint)
| PasswordLimited_User (id : Ulid).
Inductive RegistrationLimitedError :=
| RegistrationLimited_Requester (requester : RequesterFingerprint).
Inductive EmailAuthenticationLimitedError :=
| EmailLimited_Requester (requester : RequesterFingerprint)
| EmailLimited_Authentication (id : Ulid)
| EmailLimited_Email (email : string).
Inductive PhoneAuthenticationLimitedError :=
| PhoneLimited_Requester (requester : RequesterFingerprint)
| PhoneLimited_Authentication (id : Ulid)
| PhoneLimited_Phone (phone : string).

Section limits.
Context {LX : LimiterExternals}.

(** [if !limiter.check(key) { return Err(error) }] *)
Definition limited {K E} `{Countable K} (field : Limiter → KeyedLimiter K)
    (set : KeyedLimiter K → Limiter → Limiter) (key : K) (error : E) : M Limiter E () :=
  allowed ← check_keyed field set key;
  if (allowed : bool) then mret tt else raise error.

Definition check_account_recovery (requester : RequesterFingerprint) (email_address : string)
    : M Limiter AccountRecoveryLimitedError () :=
  _ ← limited account_recovery_per_requester set_account_recovery_per_requester requester
        (RecoveryLimited_Requester requester);
  let canonical_email := str_to_lowercase email_address in
  limited account_recovery_per_email set_account_recovery_per_email canonical_email
    (RecoveryLimited_Email canonical_email).

Definition check_password_for_user (user_id : Ulid) : M Limiter PasswordCheckLimitedError () :=
  limited password_check_for_user set_password_check_for_user user_id (PasswordLimited_User user_id).

Definition check_password (key : RequesterFingerprint) (user_id : Ulid)
    : M Limiter PasswordCheckLimitedError () :=
  _ ← limited password_check_for_requester set_password_check_for_requester key
        (PasswordLimited_Requester key);
  check_password_for_user user_id.

Definition check_registration (requester : RequesterFingerprint)
    : M Limiter RegistrationLimitedError () :=
  limited registration_per_requester set_registration_per_requester requester
    (RegistrationLimited_Requester requester).

Definition check_email_authentication_email (requester : RequesterFingerprint) (email : string)
    : M Limiter EmailAuthenticationLimitedError () :=
  _ ← limited email_authentication_per_requester set_email_authentication_per_requester requester
        (EmailLimited_Requester requester);
  let canonical_email := str_to_lowercase email in
  limited email_authentication_per_email set_email_authentication_per_email canonical_email
    (EmailLimited_Email email).

Definition check_email_authentication_attempt (authentication_id : Ulid)
    : M Limiter EmailAuthenticationLimitedError () :=
  limited email_authentication_attempt_per_session set_email_authentication_attempt_per_session
    authentication_id (EmailLimited_Authentication authentication_id).

Definition check_email_authentication_send_code (requester : RequesterFingerprint)
    (authentication_id : Ulid) (email : string) : M Limiter EmailAuthenticationLimitedError () :=
  _ ← check_email_authentication_email requester email;
  limited email_authentication_emails_per_session set_email_authentication_emails_per_session
    authentication_id (EmailLimited_Authentication authentication_id).

Definition check_phone_authentication_phone (requester : RequesterFingerprint) (phone : string)
    : M Limiter PhoneAuthenticationLimitedError () :=
  _ ← limited phone_authentication_per_requester set_phone_authentication_per_requester requester
        (PhoneLimited_Requester requester);
  limited phone_authentication_per_phone set_phone_authentication_per_phone phone
    (PhoneLimited_Phone phone).

Definition check_phone_authentication_attempt (authentication_id : Ulid)
    : M Limiter PhoneAuthenticationLimitedError () :=
  limited phone_authentication_attempt_per_session set_phone_authentication_attempt_per_session
    authentication_id (PhoneLimited_Authentication authentication_id).

Definition check_phone_authentication_send_code (requester : RequesterFingerprint)
    (authentication_id : Ulid) (phone : string) : M Limiter PhoneAuthenticationLimitedError () :=
  _ ← check_phone_authentication_phone requester phone;
  limited phone_authentication_sms_per_session set_phone_authentication_sms_per_session
    authentication_id (PhoneLimited_Authentication authentication_id).
End limits.
