(* ===== verification/Passwords.v ===== *)
(** Passwords: crates/backend/src/handlers/passwords.rs.

    A [PasswordManager] hashes new passwords with its current scheme, verifies
    with the scheme a stored hash was made with, and makes a new hash when that
    is not the current one. The hash functions themselves are parameters. *)
From S2P Require Import Prelude Ids.

Open Scope Z_scope.

(** [anyhow::Error] *)
Inductive AnyhowError := Anyhow (what : string).

(** The crates bcrypt, argon2, pbkdf2, zxcvbn, icu_normalizer and rand_chacha. A
    result is absent when the call returns an error. *)
Class PasswordExternals := {
  normalize_nfkc : string → string;
  (** the score of a password, from 0 to 4 *)
  zxcvbn : string → Z;
  (** [ChaChaRng::from_seed] *)
  chacha_from_seed : list Z → Rng;
  (** [bcrypt::hash_with_salt(password, cost, salt)], formatted *)
  bcrypt_hash : string → Z → list Z → option string;
  bcrypt_verify : string → string → option bool;
  (** [Argon2::hash_password], under an optional secret, with a salt drawn from the generator *)
  argon2_hash : option string → string → Rng → option string;
  argon2_verify : option string → string → string → option bool;
  pbkdf2_hash : string → Rng → option string;
  pbkdf2_verify : string → string → option bool;
}.

(** A hash verifies the password it was made from. *)
Class PasswordExternalsOk (WX : PasswordExternals) : Prop := {
  bcrypt_ok p cost salt h : bcrypt_hash p cost salt = Some h → bcrypt_verify p h = Some true;
  argon2_ok secret p rng h : argon2_hash secret p rng = Some h → argon2_verify secret p h = Some true;
  pbkdf2_ok p rng h : pbkdf2_hash p rng = Some h → pbkdf2_verify p h = Some true;
}.

Inductive PasswordVerificationResult (T : Type) :=
| Password_Matched (data : T)
| Password_NotMatched.
Arguments Password_Matched {T}.
Arguments Password_NotMatched {T}.

Definition map_data {T N} (self : PasswordVerificationResult T) (data : N)
    : PasswordVerificationResult N :=
  match self with
  | Password_Matched _ => Password_Matched data
  | Password_NotMatched => Password_NotMatched
  end.

Definition PasswordVerificationResult_from (ok : bool) : PasswordVerificationResult () :=
  if ok then Password_Matched tt else Password_NotMatched.

Inductive Algorithm := Bcrypt (cost : option Z) | Argon2id | Pbkdf2.

Record Hasher := {
  hasher_algorithm : Algorithm;
  hasher_nfkc_normalize : bool;
  hasher_pepper : option string;
}.

Record InnerPasswordManager := {
  minimum_complexity : Z;
  current_hasher : Hasher;
  current_version : Z;
  other_hashers : gmap Z Hasher;
}.

(** [inner] is absent when passwords are disabled. *)
Definition PasswordManager : Type := option InnerPasswordManager.

Section passwords.
Context {WX : PasswordExternals}.

(** [?] on a call of those crates. *)
Definition or_fail {A} (what : string) (o : option A) : result A AnyhowError :=
  match o with Some a => Ok a | None => Err (Anyhow what) end.

(** The password with the pepper after it. *)
Definition peppered (password : string) (pepper : option string) : string :=
  match pepper with Some pepper => password +:+ pepper | None => password end.

Definition Algorithm_hash_blocking (self : Algorithm) (rng : Rng) (password : string)
    (pepper : option string) : result string AnyhowError :=
  match self with
  | Bcrypt cost =>
      let salt := (fill_bytes 16 rng).1 in
      or_fail "bcrypt" (bcrypt_hash (peppered password pepper) (default 13 cost) salt)
  | Argon2id => or_fail "argon2" (argon2_hash pepper password rng)
  | Pbkdf2 => or_fail "pbkdf2" (pbkdf2_hash (peppered password pepper) rng)
  end.

Definition Algorithm_verify_blocking (self : Algorithm) (hashed_password password : string)
    (pepper : option string) : result (PasswordVerificationResult ()) AnyhowError :=
  result_bind
    match self with
    | Bcrypt _ => or_fail "bcrypt" (bcrypt_verify (peppered password pepper) hashed_password)
    | Argon2id => or_fail "argon2" (argon2_verify pepper password hashed_password)
    | Pbkdf2 => or_fail "pbkdf2" (pbkdf2_verify (peppered password pepper) hashed_password)
    end (λ ok, Ok (PasswordVerificationResult_from ok)).

Definition maybe_normalize (self : Hasher) (pwd : string) : string :=
  if hasher_nfkc_normalize self then normalize_nfkc pwd else pwd.

Definition Hasher_hash_blocking (self : Hasher) (rng : Rng) (password : string)
    : result string AnyhowError :=
  Algorithm_hash_blocking (hasher_algorithm self) rng (maybe_normalize self password)
    (hasher_pepper self).

Definition Hasher_verify_blocking (self : Hasher) (hashed_password password : string)
    : result (PasswordVerificationResult ()) AnyhowError :=
  Algorithm_verify_blocking (hasher_algorithm self) hashed_password (maybe_normalize self password)
    (hasher_pepper self).

Definition get_inner (self : PasswordManager) : result InnerPasswordManager AnyhowError :=
  or_fail "Password manager is disabled" self.

(** [PasswordManager::new(minimum_complexity, iter)]: the first scheme is the current one. *)
Definition PasswordManager_new (complexity : Z) (schemes : list (Z * Hasher))
    : result PasswordManager AnyhowError :=
  match schemes with
  | [] => Err (Anyhow "Iterator must have at least one item")
  | (version, hasher) :: others =>
      Ok (Some {| minimum_complexity := complexity;
                  current_hasher := hasher;
                  current_version := version;
                  other_hashers := foldl (λ m '(v, h), <[v := h]> m) ∅ others |})
  end.

Definition is_password_complex_enough (self : PasswordManager) (password : string)
    : result bool AnyhowError :=
  result_bind (get_inner self) (λ inner, Ok (minimum_complexity inner <=? zxcvbn password)).

(** [ChaChaRng::from_rng(rng)]: thirty-two bytes are drawn. *)
Definition chacha_from_rng (rng : Rng) : Rng * Rng :=
  let '(seed, rng) := fill_bytes 32 rng in (chacha_from_seed seed, rng).

(** The hash and its scheme, with the generator after the call. *)
Definition PasswordManager_hash (self : PasswordManager) (password : string) (rng : Rng)
    : result (Z * string) AnyhowError * Rng :=
  match get_inner self with
  | Err e => (Err e, rng)
  | Ok inner =>
      let '(local, rng) := chacha_from_rng rng in
      (result_bind (Hasher_hash_blocking (current_hasher inner) local password)
         (λ hashed, Ok (current_version inner, hashed)), rng)
  end.

(** The hasher of a scheme. *)
Definition hasher_of (inner : InnerPasswordManager) (scheme : Z) : option Hasher :=
  if bool_decide (scheme = current_version inner) then Some (current_hasher inner)
  else other_hashers inner !! scheme.

Definition PasswordManager_verify (self : PasswordManager) (scheme : Z)
    (password hashed_password : string) : result (PasswordVerificationResult ()) AnyhowError :=
  result_bind (get_inner self) (λ inner,
  result_bind (or_fail "Hashing scheme not found" (hasher_of inner scheme)) (λ hasher,
  Hasher_verify_blocking hasher hashed_password password)).

Definition verify_and_upgrade (self : PasswordManager) (scheme : Z) (password hashed_password : string)
    (rng : Rng)
    : result (PasswordVerificationResult (option (Z * string))) AnyhowError * Rng :=
  match get_inner self with
  | Err e => (Err e, rng)
  | Ok inner =>
      let '(new_hash_res, rng) :=
        if bool_decide (scheme = current_version inner) then (Ok None, rng)
        else let '(res, rng) := PasswordManager_hash self password rng in
             (result_bind res (λ new_hash, Ok (Some new_hash)), rng) in
      (result_bind (PasswordManager_verify self scheme password hashed_password) (λ outcome,
       result_bind new_hash_res (λ new_hash, Ok (map_data outcome new_hash))), rng)
  end.

(** ** Round trips *)

Lemma or_fail_Ok {A} what (o : option A) a : or_fail what o = Ok a → o = Some a.
Proof. destruct o; simpl; congruence. Qed.

Lemma algorithm_roundtrip {WXok : PasswordExternalsOk WX} alg rng p pepper h :
  Algorithm_hash_blocking alg rng p pepper = Ok h →
  Algorithm_verify_blocking alg h p pepper = Ok (Password_Matched tt).
Proof.
  unfold Algorithm_hash_blocking, Algorithm_verify_blocking.
  destruct alg; intros Hh%or_fail_Ok.
  - by rewrite (bcrypt_ok _ _ _ _ Hh).
  - by rewrite (argon2_ok _ _ _ _ Hh).
  - by rewrite (pbkdf2_ok _ _ _ Hh).
Qed.

(** What a manager hashed, in terms of its current hasher. *)
Lemma hash_inv self p rng v h rng' :
  PasswordManager_hash self p rng = (Ok (v, h), rng') →
  ∃ inner local, self = Some inner ∧ v = current_version inner ∧
    Hasher_hash_blocking (current_hasher inner) local p = Ok h.
Proof.
  unfold PasswordManager_hash. destruct self as [inner|]; simpl; [|done].
  destruct (Hasher_hash_blocking _ _ p) as [x|] eqn:E; simpl; [|done].
  intros [= <- <- _]. eauto.
Qed.

Lemma hash_verifies {WXok : PasswordExternalsOk WX} self p rng v h rng' inner hasher :
  PasswordManager_hash self p rng = (Ok (v, h), rng') →
  self = Some inner → hasher = current_hasher inner →
  ∀ inner', hasher_of inner' v = Some hasher →
  PasswordManager_verify (Some inner') v p h = Ok (Password_Matched tt).
Proof.
  intros (inner0 & local & Hs & -> & Hh)%hash_inv Hs' -> inner' Hi. simplify_eq.
  unfold PasswordManager_verify. simpl. rewrite Hi. simpl. by eapply algorithm_roundtrip.
Qed.

Lemma hasher_of_current inner : hasher_of inner (current_version inner) = Some (current_hasher inner).
Proof. unfold hasher_of. by rewrite bool_decide_true. Qed.

(** A password is accepted, by any manager that still has the scheme it was hashed with. If that
    is the current scheme, nothing is to be stored. If not, the login gives a new hash, made with the
    current scheme, which is accepted in its turn; it fails only if that new hash cannot be made. *)
Theorem password_survives_scheme_change {WXok : PasswordExternalsOk WX}
    (old new : InnerPasswordManager) (p h : string) (rng rng1 rng2 : Rng) (v : Z) :
  PasswordManager_hash (Some old) p rng = (Ok (v, h), rng1) →
  hasher_of new v = Some (current_hasher old) →
  let res := (verify_and_upgrade (Some new) v p h rng2).1 in
  (v = current_version new → res = Ok (Password_Matched None)) ∧
  (v ≠ current_version new →
     (∃ h', res = Ok (Password_Matched (Some (current_version new, h'))) ∧
            PasswordManager_verify (Some new) (current_version new) p h' = Ok (Password_Matched tt)) ∨
     (∃ e, (PasswordManager_hash (Some new) p rng2).1 = Err e ∧ res = Err e)).
Proof.
  intros Hh Hi. pose proof (hash_verifies _ _ _ _ _ _ _ _ Hh eq_refl eq_refl new Hi) as Hv.
  unfold verify_and_upgrade. change (get_inner (Some new)) with (@Ok _ AnyhowError new).
  cbv beta iota zeta. split; intros Hc;
    [rewrite bool_decide_true by done|rewrite bool_decide_false by done].
  - rewrite Hv. done.
  - destruct (PasswordManager_hash (Some new) p rng2) as [[[v' h']|e] r] eqn:Hn;
      rewrite Hv; simpl; [left|right; eauto].
    apply hash_inv in Hn as Hn'. destruct Hn' as (inner & local & [= <-] & -> & _).
    exists h'. split; [done|]. eapply hash_verifies; [exact Hn|done|done|]. apply hasher_of_current.
Qed.
End passwords.
