(* ===== verification/TokenFormat.v ===== *)
(** The format of the tokens the server hands out
    ([src/crates/data/src/tokens.rs]): [prefix_random_crc], with the CRC of
    the first two parts in base 62.

    Two packages the code calls are parameters: the [crc] crate's
    CRC-32/ISO-HDLC checksum, a [u32], and [base64ct]'s unpadded URL-safe
    decoder. *)
From S2P Require Import Prelude Ids.

Local Open Scope Z_scope.

Class TokenExternals := {
  (** [Crc::<u32>::new(&CRC_32_ISO_HDLC).checksum(..)] *)
  crc32 : string → Z;
  (** [Base64UrlUnpadded::decode_vec(..)] *)
  base64url_decode : string → option string;
}.

(** What the format relies on: the checksum is a [u32], and no base64 text
    without padding has a length of 1 modulo 4 (RFC 4648, section 4). *)
Class TokenExternalsOk (X : TokenExternals) : Prop := {
  crc32_u32 : ∀ s, 0 ≤ crc32 s < 2 ^ 32;
  base64url_decode_length : ∀ s,
    (String.length s `mod` 4 = 1)%nat → base64url_decode s = None;
}.

Inductive TokenType := TokenType_AccessToken | TokenType_RefreshToken | TokenType_PersonalAccessToken.

#[export] Instance TokenType_eq_dec : EqDecision TokenType.
Proof. solve_decision. Defined.

(** [pasion_iana::oauth::OAuthTokenTypeHint], an open enumeration. *)
Inductive OAuthTokenTypeHint :=
| Hint_AccessToken
| Hint_RefreshToken
| Hint_Pct
| Hint_Unknown (name : string).

Inductive TokenFormatError :=
| TokenFormatError_InvalidFormat
| TokenFormatError_UnknownPrefix (prefix : string)
| TokenFormatError_InvalidCrc (expected got : string).

Definition TokenType_prefix (t : TokenType) : string :=
  match t with
  | TokenType_AccessToken => "mat"
  | TokenType_RefreshToken => "mar"
  | TokenType_PersonalAccessToken => "mpt"
  end.

Definition TokenType_match_prefix (prefix : string) : option TokenType :=
  if decide (prefix = "mat") then Some TokenType_AccessToken
  else if decide (prefix = "mar") then Some TokenType_RefreshToken
  else if decide (prefix = "mpt") then Some TokenType_PersonalAccessToken
  else None.

(** [impl PartialEq<OAuthTokenTypeHint> for TokenType] *)
Definition TokenType_eq_hint (t : TokenType) (h : OAuthTokenTypeHint) : bool :=
  match t, h with
  | TokenType_AccessToken, Hint_AccessToken => true
  | TokenType_PersonalAccessToken, Hint_AccessToken => true
  | TokenType_RefreshToken, Hint_RefreshToken => true
  | _, _ => false
  end.

Definition NUM : string :=
  "0123456789ABCDEFGHIJKLMNOPQRSTUVWXYZabcdefghijklmnopqrstuvwxyz".

(** [NUM[(num % 62) as usize] as char] *)
Definition num_char (num : Z) : ascii :=
  default "0"%char (String.get (Z.to_nat (num mod 62)) NUM).

(** [while num > 0 { res.push(NUM[num % 62]); num /= 62; }]. Each round divides
    [num] by 62, so [fuel] rounds are enough below [62 ^ fuel]; a [u32] needs 6. *)
Fixpoint base62_loop (fuel : nat) (num : Z) (res : string) : string :=
  match fuel with
  | O => res
  | S fuel =>
      if decide (num > 0)
      then base62_loop fuel (num / 62) (res +:+ String (num_char num) EmptyString)
      else res
  end.

(** [format!("{res:0>6}")]: pad on the left with zeros to six characters. *)
Definition pad_left_zero (width : nat) (s : string) : string :=
  string_of_chars (replicate (width - String.length s)%nat "0"%char) +:+ s.

Definition base62_encode (num : Z) : string := pad_left_zero 6 (base62_loop 6 num EmptyString).

Section tokens.
Context `{X : TokenExternals}.

(** The decoded text starts with a macaroon's [location] constraint. *)
Definition is_likely_palpo_macaroon (token : string) : bool :=
  match base64url_decode token with
  | None => false
  | Some decoded => bool_decide (str_get_range 4 13 decoded = Some "location ")
  end.

Definition TokenType_generate (t : TokenType) (rng : Rng) : string * Rng :=
  let '(random_part, rng') := generate_alphanumeric 30 rng in
  let base := TokenType_prefix t +:+ "_" +:+ random_part in
  let crc := base62_encode (crc32 base) in
  (base +:+ "_" +:+ crc, rng').

Definition TokenType_check (token : string) : result TokenType TokenFormatError :=
  if starts_with "pst_" token || starts_with "syr_" token || is_likely_palpo_macaroon token
  then Err TokenFormatError_InvalidFormat
  else
    match split_char "_"%char token with
    | [prefix; random_part; crc] =>
        if negb (bool_decide (String.length prefix = 3%nat))
           || negb (bool_decide (String.length random_part = 30%nat))
           || negb (bool_decide (String.length crc = 6%nat))
        then Err TokenFormatError_InvalidFormat
        else
          match TokenType_match_prefix prefix with
          | None => Err (TokenFormatError_UnknownPrefix prefix)
          | Some token_type =>
              let base := TokenType_prefix token_type +:+ "_" +:+ random_part in
              let expected_crc := base62_encode (crc32 base) in
              if negb (bool_decide (crc = expected_crc))
              then Err (TokenFormatError_InvalidCrc expected_crc crc)
              else Ok token_type
          end
    | _ => Err TokenFormatError_InvalidFormat
    end.
End tokens.

(** ** Base 62 *)

(** The value of a digit, and of a string of digits written least significant
    first: what [base62_loop] writes. *)
Definition num_value (a : ascii) : Z :=
  let b := byte_of a in
  if decide (b ≤ 57) then b - 48 else if decide (b ≤ 90) then b - 55 else b - 61.
Fixpoint base62_value (s : string) : Z :=
  match s with
  | EmptyString => 0
  | String a s => num_value a + 62 * base62_value s
  end.

Lemma num_char_value num : num_value (num_char num) = num mod 62.
Proof.
  unfold num_char. pose proof (Z.mod_pos_bound num 62 ltac:(lia)) as Hb.
  set (d := num mod 62) in *.
  assert (Hall : Forall (λ d, num_value (default "0"%char (String.get d NUM)) = Z.of_nat d)
                   (seq 0 62)) by (repeat (constructor; [reflexivity|]); constructor).
  rewrite Forall_forall in Hall. specialize (Hall (Z.to_nat d)).
  rewrite Hall; [lia|]. apply elem_of_seq. lia.
Qed.

Lemma num_char_alphanumeric num : is_ascii_alphanumeric (num_char num) = true.
Proof.
  unfold num_char. destruct (String.get _ NUM) as [a|] eqn:E; [|done]. simpl.
  by eapply (get_all is_ascii_alphanumeric NUM).
Qed.

Lemma base62_value_snoc s a :
  base62_value (s +:+ String a EmptyString)
  = base62_value s + 62 ^ Z.of_nat (String.length s) * num_value a.
Proof.
  induction s as [|b s IH]; [rewrite str_app_nil_l; simpl; lia|].
  rewrite str_app_cons. simpl base62_value. rewrite IH. simpl String.length.
  rewrite Nat2Z.inj_succ, Z.pow_succ_r by lia. lia.
Qed.

(** With enough fuel the loop has written all of [num]. *)
Lemma base62_loop_value fuel num res :
  0 ≤ num < 62 ^ Z.of_nat fuel →
  base62_value (base62_loop fuel num res)
  = base62_value res + 62 ^ Z.of_nat (String.length res) * num.
Proof.
  revert num res. induction fuel as [|fuel IH]; intros num res Hnum; simpl.
  - assert (num = 0) as -> by (simpl in Hnum; lia). lia.
  - rewrite Nat2Z.inj_succ, Z.pow_succ_r in Hnum by lia.
    case_decide; [|assert (num = 0) as -> by lia; lia].
    rewrite IH.
    + rewrite base62_value_snoc, str_length_app, num_char_value. simpl.
      rewrite Nat2Z.inj_add, Z.pow_add_r by lia. simpl.
      rewrite (Z.div_mod num 62) at 3 by lia. lia.
    + split; [apply Z.div_pos; lia|]. apply Z.div_lt_upper_bound; lia.
Qed.

Lemma base62_loop_length fuel num res :
  (String.length (base62_loop fuel num res) ≤ String.length res + fuel)%nat.
Proof.
  revert num res. induction fuel as [|fuel IH]; intros num res; simpl; [lia|].
  case_decide; [|lia]. etrans; [apply IH|]. rewrite str_length_app. simpl. lia.
Qed.

Lemma base62_loop_alphanumeric fuel num res :
  str_all is_ascii_alphanumeric res = true →
  str_all is_ascii_alphanumeric (base62_loop fuel num res) = true.
Proof.
  revert num res. induction fuel as [|fuel IH]; intros num res Hres; simpl; [done|].
  case_decide; [|done]. apply IH. rewrite str_all_app, Hres. simpl.
  by rewrite num_char_alphanumeric.
Qed.

Lemma base62_encode_length num : String.length (base62_encode num) = 6%nat.
Proof.
  unfold base62_encode, pad_left_zero.
  pose proof (base62_loop_length 6 num EmptyString) as Hlen. simpl in Hlen.
  rewrite str_length_app, string_of_chars_length, length_replicate. simpl in *. lia.
Qed.

Lemma base62_encode_alphanumeric num :
  str_all is_ascii_alphanumeric (base62_encode num) = true.
Proof.
  unfold base62_encode, pad_left_zero. rewrite str_all_app.
  rewrite base62_loop_alphanumeric, andb_true_r by done.
  apply string_of_chars_all, Forall_replicate. done.
Qed.

(** More fuel than the six rounds a [u32] needs changes nothing. *)
Lemma base62_loop_fuel fuel fuel' num res :
  0 ≤ num < 62 ^ Z.of_nat fuel → (fuel ≤ fuel')%nat →
  base62_loop fuel' num res = base62_loop fuel num res.
Proof.
  revert fuel' num res. induction fuel as [|fuel IH]; intros fuel' num res Hnum Hle.
  - assert (num = 0) as -> by (simpl in Hnum; lia).
    by destruct fuel'.
  - destruct fuel' as [|fuel']; [lia|]. simpl. case_decide; [|done].
    rewrite Nat2Z.inj_succ, Z.pow_succ_r in Hnum by lia.
    apply IH; [|lia]. split; [apply Z.div_pos; lia|]. apply Z.div_lt_upper_bound; lia.
Qed.

(** [base62_encode] on a [u32]: the loop ends within its six rounds (any
    larger fuel gives the same digits), the digits spell [num] least
    significant first, and the text is six alphanumeric characters. *)
Theorem base62_encode_u32 num fuel :
  0 ≤ num < 2 ^ 32 → (6 ≤ fuel)%nat →
  base62_encode num = pad_left_zero 6 (base62_loop fuel num EmptyString) ∧
  base62_value (base62_loop fuel num EmptyString) = num ∧
  String.length (base62_encode num) = 6%nat ∧
  str_all is_ascii_alphanumeric (base62_encode num) = true.
Proof.
  intros Hnum Hfuel.
  assert (0 ≤ num < 62 ^ Z.of_nat 6) by (simpl; lia).
  rewrite (base62_loop_fuel 6) by done. split; [done|].
  rewrite base62_loop_value by done. simpl. split; [lia|].
  split; [apply base62_encode_length|apply base62_encode_alphanumeric].
Qed.

Lemma base62_encode_u32_witness :
  base62_value (base62_loop 6 4294967295 EmptyString) = 4294967295 ∧
  base62_encode 4294967295 = "3CFfg4".
Proof.
  split; [|reflexivity].
  destruct (base62_encode_u32 4294967295 6) as (_ & H & _); [lia|lia|exact H].
Defined.

(** The zero padding goes to the wrong end for digits written least
    significant first: different checksums get the same text, so the
    checksum a token carries does not determine the CRC. *)
Theorem base62_encode_collides :
  ∃ a b, 0 ≤ a < 2 ^ 32 ∧ 0 ≤ b < 2 ^ 32 ∧ a ≠ b ∧ base62_encode a = base62_encode b.
Proof. exists 1, (62 ^ 5). repeat split; lia. Qed.

(** ** Tokens *)

Lemma match_prefix_spec p t : TokenType_match_prefix p = Some t ↔ p = TokenType_prefix t.
Proof.
  unfold TokenType_match_prefix. split.
  - repeat case_decide; intros; by simplify_eq.
  - intros ->. by destruct t.
Qed.

Lemma prefix_length t : String.length (TokenType_prefix t) = 3%nat.
Proof. by destruct t. Qed.
Lemma prefix_no_underscore t : no_char "_"%char (TokenType_prefix t).
Proof. by destruct t. Qed.

(** The text a token of type [t] with random part [r] has. *)
Definition token_text `{TokenExternals} (t : TokenType) (r : string) : string :=
  let base := TokenType_prefix t +:+ "_" +:+ r in
  base +:+ "_" +:+ base62_encode (crc32 base).

Section token_facts.
Context `{X : TokenExternals}.

Lemma token_text_split t r :
  no_char "_"%char r →
  split_char "_"%char (token_text t r)
  = [TokenType_prefix t; r; base62_encode (crc32 (TokenType_prefix t +:+ "_" +:+ r))].
Proof.
  intros Hr. unfold token_text. rewrite !str_app_assoc, !str_app_cons, !str_app_nil_l.
  rewrite split_char_sep by apply prefix_no_underscore.
  rewrite split_char_sep by done.
  rewrite split_char_no_char; [done|].
  apply alphanumeric_no_underscore, base62_encode_alphanumeric.
Qed.

Lemma token_text_length t r :
  String.length (token_text t r) = (11 + String.length r)%nat.
Proof.
  unfold token_text. rewrite !str_length_app, base62_encode_length, prefix_length. simpl. lia.
Qed.

(** A token whose random part has 30 characters is never mistaken for one of
    the rejected legacy formats. *)
Lemma token_text_not_legacy `{!TokenExternalsOk X} t r :
  String.length r = 30%nat →
  starts_with "pst_" (token_text t r) || starts_with "syr_" (token_text t r)
  || is_likely_palpo_macaroon (token_text t r) = false.
Proof.
  intros Hr. rewrite !orb_false_iff. split; [split; by destruct t|].
  unfold is_likely_palpo_macaroon.
  rewrite base64url_decode_length; [done|]. by rewrite token_text_length, Hr.
Qed.

Lemma check_token_text `{!TokenExternalsOk X} t r :
  String.length r = 30%nat → no_char "_"%char r →
  TokenType_check (token_text t r) = Ok t.
Proof.
  intros Hlen Hr. unfold TokenType_check.
  rewrite token_text_not_legacy, token_text_split by done.
  rewrite prefix_length, Hlen, base62_encode_length. simpl.
  rewrite (proj2 (match_prefix_spec _ t)) by done. by rewrite bool_decide_eq_true_2.
Qed.

Lemma check_Ok_inv tok t :
  TokenType_check tok = Ok t →
  ∃ r, tok = token_text t r ∧ String.length r = 30%nat ∧ no_char "_"%char r.
Proof.
  unfold TokenType_check. case_match; [done|].
  pose proof (join_split "_"%char tok) as Hjoin.
  pose proof (split_no_char "_"%char tok) as Hno.
  destruct (split_char _ tok) as [|p [|r [|c [|]]]] eqn:Hsplit; try done.
  case_match eqn:Hlen; [done|].
  rewrite !orb_false_iff, !negb_false_iff, !bool_decide_eq_true in Hlen.
  destruct Hlen as [[_ Hr] _].
  destruct (TokenType_match_prefix p) as [t'|] eqn:Hp; [|done].
  apply match_prefix_spec in Hp as ->.
  case_bool_decide as Hc; simpl; [|done]. intros [= <-].
  exists r. rewrite !Forall_cons in Hno. destruct Hno as (_ & Hr' & _). split; [|done].
  rewrite <-Hjoin, Hc. unfold token_text. simpl.
  by rewrite !str_app_assoc.
Qed.
End token_facts.

Lemma check_generated (X : TokenExternals) (HX : TokenExternalsOk X) t rng :
  TokenType_check (TokenType_generate t rng).1 = Ok t.
Proof.
  unfold TokenType_generate.
  pose proof (generate_alphanumeric_spec 30 rng) as [Hlen Hall].
  destruct (generate_alphanumeric 30 rng) as [r rng']. simpl in *.
  apply (check_token_text t r); [done|by apply alphanumeric_no_underscore].
Qed.

(** A token the server generates is accepted by [check], with its own type:
    for every token type and random source. *)
Theorem generate_check_roundtrip (X : TokenExternals) (HX : TokenExternalsOk X) t rng :
  TokenType_check (TokenType_generate t rng).1 = Ok t.
Proof. by apply check_generated. Qed.

(** [check] accepts exactly the tokens of the format: a known prefix, a
    random part of 30 characters without underscore, and the base-62 CRC of
    both; the type it returns is the prefix's. *)
Theorem check_characterisation (X : TokenExternals) (HX : TokenExternalsOk X) tok t :
  TokenType_check tok = Ok t ↔
  ∃ r, String.length r = 30%nat ∧ no_char "_"%char r ∧ tok = token_text t r.
Proof.
  split.
  - intros (r & -> & ? & ?)%check_Ok_inv. by exists r.
  - intros (r & ? & ? & ->). by apply check_token_text.
Qed.

(** An instance of the parameters, for the witnesses: a bitwise CRC-32 with
    the reflected polynomial, and a decoder that rejects everything. *)
Definition crc32_bit (c : Z) : Z :=
  if Z.testbit c 0 then Z.lxor (Z.shiftr c 1) 0xEDB88320 else Z.shiftr c 1.
Fixpoint crc32_bytes (s : string) (c : Z) : Z :=
  match s with
  | EmptyString => c
  | String a s => crc32_bytes s (Nat.iter 8 crc32_bit (Z.lxor c (byte_of a)))
  end.
Definition token_externals_example : TokenExternals := {|
  crc32 s := Z.lxor (crc32_bytes s 0xFFFFFFFF) 0xFFFFFFFF mod 2 ^ 32;
  base64url_decode _ := None;
|}.
Lemma token_externals_example_ok : TokenExternalsOk token_externals_example.
Proof. split; [|done]. intros s. apply Z.mod_pos_bound. lia. Qed.

Lemma generate_check_roundtrip_witness :
  (TokenType_generate (X:=token_externals_example) TokenType_RefreshToken Z.of_nat).1
    = "mar_ABCDEFGHIJKLMNOPQRSTUVWXYZabcd_0f7rdl" ∧
  TokenType_check (X:=token_externals_example)
    (TokenType_generate (X:=token_externals_example) TokenType_RefreshToken Z.of_nat).1
    = Ok TokenType_RefreshToken.
Proof.
  split; [vm_compute; reflexivity|].
  apply (generate_check_roundtrip token_externals_example token_externals_example_ok).
Defined.

Lemma check_characterisation_witness :
  ∃ r, TokenType_check (X:=token_externals_example)
         (@token_text token_externals_example TokenType_AccessToken r)
       = Ok TokenType_AccessToken.
Proof.
  exists "ABCDEFGHIJKLMNOPQRSTUVWXYZabcd".
  apply (check_characterisation token_externals_example token_externals_example_ok).
  exists "ABCDEFGHIJKLMNOPQRSTUVWXYZabcd". repeat split.
Defined.

(** The instance computes the catalogued check value of CRC-32/ISO-HDLC. *)
Example crc32_example_check_value :
  @crc32 token_externals_example "123456789" = 0xCBF43926.
Proof. vm_compute. reflexivity. Qed.
