(* ===== verification/Scope.v ===== *)
(** OAuth 2.0 scopes ([src/crates/oauth2-types/src/scope.rs]) and what the
    server does with them: the administrative scopes
    ([src/crates/backend/src/handlers/admin/mod.rs]), the Matrix device scopes
    ([.../oauth2/token_service.rs]) and the normalisation introspection
    applies ([.../oauth2/introspection_service.rs]).

    A [BTreeSet<ScopeToken>] is a finite set of strings with an iteration in
    byte order: [gset string], iterated by [scope_iter]. *)
From S2P Require Import Prelude.

Local Open Scope Z_scope.

Abbreviation ScopeToken := string (only parsing).
Abbreviation Scope := (gset string) (only parsing).

Inductive InvalidScope := invalid_scope.

(** [matches!(ch, '\x21' | '\x23'..='\x5B' | '\x5D'..='\x7E')] *)
Definition is_nqchar (ch : ascii) : bool :=
  let b := byte_of ch in
  bool_decide (b = 0x21) || bool_decide (0x23 ≤ b ≤ 0x5B) || bool_decide (0x5D ≤ b ≤ 0x7E).

(** [impl FromStr for ScopeToken] *)
Definition ScopeToken_from_str (s : string) : result ScopeToken InvalidScope :=
  if bool_decide (s = EmptyString) || negb (str_all is_nqchar s)
  then Err invalid_scope else Ok s.

(** Collecting an iterator of results into a result. *)
Fixpoint collect_results {A E} (l : list (result A E)) : result (list A) E :=
  match l with
  | [] => Ok []
  | Err e :: _ => Err e
  | Ok a :: l => match collect_results l with Ok l => Ok (a :: l) | Err e => Err e end
  end.

(** The [BTreeSet] collected from tokens, and its iteration order. *)
Definition scope_of_list (l : list ScopeToken) : Scope := list_to_set l.
Definition scope_iter (s : Scope) : list ScopeToken := merge_sort String.le (elements s).

(** [impl FromStr for Scope] *)
Definition Scope_from_str (s : string) : result Scope InvalidScope :=
  match collect_results (ScopeToken_from_str <$> split_char " "%char s) with
  | Ok tokens => Ok (scope_of_list tokens)
  | Err e => Err e
  end.

(** [impl Display for Scope] *)
Definition Scope_to_string (s : Scope) : string := join_char " "%char (scope_iter s).

Definition Scope_is_empty (s : Scope) : bool := bool_decide (s = ∅).

(** [Scope::contains(&self, token: &str)] *)
Definition Scope_contains (s : Scope) (token : string) : bool :=
  match ScopeToken_from_str token with
  | Ok t => bool_decide (t ∈ s)
  | Err _ => false
  end.

(** [Scope::insert], returning whether the token is new. *)
Definition Scope_insert (value : ScopeToken) (s : Scope) : bool * Scope :=
  (bool_decide (value ∉ s), {[ value ]} ∪ s).

Definition OPENID : ScopeToken := "openid".

(** Parsing a stored list of tokens, one column entry per token. *)
Definition Scope_from_list (l : list string) : result Scope InvalidScope :=
  match collect_results (ScopeToken_from_str <$> l) with
  | Ok tokens => Ok (scope_of_list tokens)
  | Err e => Err e
  end.

(** ** Administrative scopes *)

Definition ADMIN_SCOPE : string := "urn:pasion:admin".
Definition ADMIN_SCOPE_LEGACY : string := "urn:mas:admin".

Definition is_privileged_scope_token (token : string) : bool :=
  bool_decide (token = ADMIN_SCOPE)
  || bool_decide (token = ADMIN_SCOPE_LEGACY)
  || starts_with "urn:palpo:admin" token
  || starts_with "urn:synapse:admin" token.

Definition strip_admin_scope_unless (scope : Scope) (is_admin : bool) : Scope :=
  if is_admin then scope
  else scope_of_list (filter (λ t, negb (is_privileged_scope_token t)) (scope_iter scope)).

Definition requires_admin (scope : Scope) : bool :=
  existsb is_privileged_scope_token (scope_iter scope).

(** ** Matrix scopes *)

Definition STABLE_API_SCOPE : ScopeToken := "urn:matrix:client:api:*".
Definition UNSTABLE_API_SCOPE : ScopeToken := "urn:matrix:org.matrix.msc2967.client:api:*".
Definition STABLE_DEVICE_PREFIX : string := "urn:matrix:client:device:".
Definition UNSTABLE_DEVICE_PREFIX : string := "urn:matrix:org.matrix.msc2967.client:device:".

(** The device a scope token names, if it is a device scope. *)
Definition device_of_token (token : string) : option string :=
  match strip_prefix STABLE_DEVICE_PREFIX token with
  | Some d => Some d
  | None => strip_prefix UNSTABLE_DEVICE_PREFIX token
  end.

(** [token_service::matrix_device_ids] *)
Definition matrix_device_ids (scope : Scope) : list string :=
  omap device_of_token (scope_iter scope).

(** What [normalize_scope] adds for one token. *)
Definition normalize_token (token : ScopeToken) : list ScopeToken :=
  if bool_decide (token = STABLE_API_SCOPE) then [UNSTABLE_API_SCOPE]
  else if bool_decide (token = UNSTABLE_API_SCOPE) then [STABLE_API_SCOPE]
  else
    match device_of_token token with
    | Some device_id =>
        match ScopeToken_from_str (STABLE_DEVICE_PREFIX +:+ device_id),
              ScopeToken_from_str (UNSTABLE_DEVICE_PREFIX +:+ device_id) with
        | Ok stable, Ok unstable => [stable; unstable]
        | _, _ => []
        end
    | None => []
    end.

(** [introspection_service::normalize_scope] *)
Definition normalize_scope (scope : Scope) : Scope :=
  scope ∪ scope_of_list (concat (normalize_token <$> scope_iter scope)).

(** ** Facts *)

Lemma elem_of_scope_iter t (s : Scope) : t ∈ scope_iter s ↔ t ∈ s.
Proof. unfold scope_iter. by rewrite merge_sort_Permutation, elem_of_elements. Qed.

Lemma scope_of_iter (s : Scope) : scope_of_list (scope_iter s) = s.
Proof.
  apply set_eq. intros t. unfold scope_of_list.
  by rewrite elem_of_list_to_set, elem_of_scope_iter.
Qed.

Lemma scope_iter_nil (s : Scope) : scope_iter s = [] ↔ s = ∅.
Proof.
  split.
  - intros Hs. apply set_eq. intros t. rewrite <-elem_of_scope_iter, Hs. set_solver.
  - by intros ->.
Qed.

Lemma ScopeToken_from_str_Ok s t :
  ScopeToken_from_str s = Ok t ↔ t = s ∧ s ≠ EmptyString ∧ str_all is_nqchar s = true.
Proof.
  unfold ScopeToken_from_str. case_bool_decide; simpl; [by split; [|intros (_&?&_)]|].
  destruct (str_all is_nqchar s); simpl; split; try done.
  - by intros [= <-].
  - by intros [-> _].
  - by intros (_&_&?).
Qed.

(** A token of a well-formed scope: non-empty, of [NQCHAR]s. *)
Definition valid_scope_token (t : ScopeToken) : Prop :=
  t ≠ EmptyString ∧ str_all is_nqchar t = true.
Definition valid_scope (s : Scope) : Prop := ∀ t, t ∈ s → valid_scope_token t.

Lemma ScopeToken_from_str_valid t : valid_scope_token t ↔ ScopeToken_from_str t = Ok t.
Proof. rewrite ScopeToken_from_str_Ok. unfold valid_scope_token. tauto. Qed.

Lemma collect_results_Ok {A B E} (f : A → result B E) (l : list A) (k : list B) :
  collect_results (f <$> l) = Ok k ↔ Forall2 (λ a b, f a = Ok b) l k.
Proof.
  revert k. induction l as [|a l IH]; intros k; csimpl.
  - split; [intros [= <-]; by constructor|intros Hk; by inversion Hk].
  - split.
    + destruct (f a) as [b|] eqn:Hf; [|done].
      destruct (collect_results (f <$> l)) as [k'|] eqn:Hl; [|done].
      intros [= <-]. constructor; [done|by apply IH].
    + intros (b & k' & Hf & Hl & ->)%Forall2_cons_inv_l.
      rewrite Hf. by rewrite (proj2 (IH k')).
Qed.

Lemma collect_tokens_Ok l k :
  collect_results (ScopeToken_from_str <$> l) = Ok k ↔ k = l ∧ Forall valid_scope_token l.
Proof.
  rewrite collect_results_Ok. split.
  - induction 1 as [|a b l k Ht _ [-> IH]]; [done|].
    apply ScopeToken_from_str_Ok in Ht as (-> & ? & ?). split; [done|]. by constructor.
  - intros [-> Hl]. induction Hl; constructor; [by apply ScopeToken_from_str_valid|done].
Qed.

Lemma Scope_from_list_Ok l s :
  Scope_from_list l = Ok s ↔ s = scope_of_list l ∧ Forall valid_scope_token l.
Proof.
  unfold Scope_from_list. destruct (collect_results _) as [k|e] eqn:Hc.
  - apply collect_tokens_Ok in Hc as [-> Hl]. naive_solver.
  - split; [done|]. intros [_ Hl].
    by rewrite (proj2 (collect_tokens_Ok l l)) in Hc.
Qed.

Lemma valid_scope_iter s : valid_scope s ↔ Forall valid_scope_token (scope_iter s).
Proof.
  rewrite Forall_forall. unfold valid_scope. by setoid_rewrite elem_of_scope_iter.
Qed.

Lemma scope_of_list_valid l : Forall valid_scope_token l → valid_scope (scope_of_list l).
Proof.
  rewrite Forall_forall. intros Hl t Ht. apply Hl.
  by apply elem_of_list_to_set in Ht.
Qed.

Lemma nqchar_no_space s : str_all is_nqchar s = true → no_char " "%char s.
Proof. apply str_all_impl. intros a Ha. apply bool_decide_eq_true. by intros ->. Qed.

(** What parsing accepts: at least one token, every token valid. *)
Lemma Scope_from_str_sound str s :
  Scope_from_str str = Ok s → valid_scope s ∧ s ≠ ∅ ∧ s = scope_of_list (split_char " "%char str).
Proof.
  unfold Scope_from_str. destruct (collect_results _) as [k|e] eqn:Hc; [|done].
  apply collect_tokens_Ok in Hc as [-> Hl]. intros [= <-].
  split; [by apply scope_of_list_valid|]. split; [|done].
  pose proof (split_char_not_nil " "%char str) as Hne.
  destruct (split_char " "%char str); [done|]. unfold scope_of_list. set_solver.
Qed.

Lemma Scope_parse_print s : valid_scope s → s ≠ ∅ → Scope_from_str (Scope_to_string s) = Ok s.
Proof.
  intros Hv Hne. unfold Scope_from_str, Scope_to_string.
  apply valid_scope_iter in Hv. rewrite split_join.
  - rewrite (proj2 (collect_tokens_Ok _ (scope_iter s))) by done. by rewrite scope_of_iter.
  - by rewrite scope_iter_nil.
  - eapply Forall_impl; [exact Hv|]. intros t [_ Ht]. by apply nqchar_no_space.
Qed.

(** Printing a scope and parsing it back gives the scope exactly when it is
    non-empty and its tokens are valid: the text column of a grant is readable
    for those scopes and no others. In particular the empty scope is not. *)
Theorem scope_roundtrip_iff s :
  Scope_from_str (Scope_to_string s) = Ok s ↔ valid_scope s ∧ s ≠ ∅.
Proof.
  split.
  - intros (? & ? & _)%Scope_from_str_sound. done.
  - intros [??]. by apply Scope_parse_print.
Qed.

Lemma Scope_empty_unreadable : Scope_from_str (Scope_to_string ∅) = Err invalid_scope.
Proof. vm_compute. reflexivity. Qed.

(** A list column holds every valid scope, the empty one included. *)
Lemma Scope_list_roundtrip s : valid_scope s → Scope_from_list (scope_iter s) = Ok s.
Proof.
  intros Hv. apply Scope_from_list_Ok. split; [by rewrite scope_of_iter|].
  by apply valid_scope_iter.
Qed.

Lemma Scope_from_list_iter l s : Scope_from_list l = Ok s → valid_scope s.
Proof. intros [-> Hl]%Scope_from_list_Ok. by apply scope_of_list_valid. Qed.

(** ** Administrative scopes *)

Lemma requires_admin_spec s :
  requires_admin s = true ↔ ∃ t, t ∈ s ∧ is_privileged_scope_token t = true.
Proof.
  unfold requires_admin. rewrite existsb_exists.
  split; intros (t & Ht & ?); exists t; (split; [|done]).
  - by apply elem_of_scope_iter, list_elem_of_In.
  - by apply list_elem_of_In, elem_of_scope_iter.
Qed.

Lemma requires_admin_false s :
  requires_admin s = false ↔ ∀ t, t ∈ s → is_privileged_scope_token t = false.
Proof.
  rewrite <-not_true_iff_false, requires_admin_spec. split.
  - intros Hn t Ht. apply not_true_iff_false. intros Hp. apply Hn. by exists t.
  - intros Hall (t & Ht & Hp). by rewrite Hall in Hp.
Qed.

Lemma elem_of_strip_admin t s b :
  t ∈ strip_admin_scope_unless s b ↔ t ∈ s ∧ (b = true ∨ is_privileged_scope_token t = false).
Proof.
  unfold strip_admin_scope_unless. destruct b; [set_solver|].
  unfold scope_of_list. rewrite elem_of_list_to_set, list_elem_of_filter, elem_of_scope_iter.
  destruct (is_privileged_scope_token t); naive_solver.
Qed.

(** ** Device and API scopes *)

Lemma device_of_stable d : device_of_token (STABLE_DEVICE_PREFIX +:+ d) = Some d.
Proof.
  unfold device_of_token. by rewrite (proj2 (strip_prefix_Some STABLE_DEVICE_PREFIX _ d)).
Qed.
Lemma device_of_unstable d : device_of_token (UNSTABLE_DEVICE_PREFIX +:+ d) = Some d.
Proof.
  unfold device_of_token.
  destruct (strip_prefix STABLE_DEVICE_PREFIX _) eqn:E; [by apply strip_prefix_Some in E|].
  by apply strip_prefix_Some.
Qed.
Lemma device_of_token_Some t d :
  device_of_token t = Some d ↔
  t = STABLE_DEVICE_PREFIX +:+ d ∨ t = UNSTABLE_DEVICE_PREFIX +:+ d.
Proof.
  split.
  - unfold device_of_token. destruct (strip_prefix STABLE_DEVICE_PREFIX t) eqn:E.
    + intros [= ->]. left. by apply strip_prefix_Some.
    + intros ?%strip_prefix_Some. by right.
  - intros [->| ->]; [apply device_of_stable|apply device_of_unstable].
Qed.

Lemma elem_of_matrix_device_ids d s :
  d ∈ matrix_device_ids s ↔
  STABLE_DEVICE_PREFIX +:+ d ∈ s ∨ UNSTABLE_DEVICE_PREFIX +:+ d ∈ s.
Proof.
  unfold matrix_device_ids. rewrite list_elem_of_omap.
  setoid_rewrite elem_of_scope_iter. setoid_rewrite device_of_token_Some. naive_solver.
Qed.

Lemma elem_of_normalize t s :
  t ∈ normalize_scope s ↔ t ∈ s ∨ ∃ u, u ∈ s ∧ t ∈ normalize_token u.
Proof.
  unfold normalize_scope, scope_of_list. rewrite elem_of_union, elem_of_list_to_set.
  rewrite list_elem_of_In, in_concat. setoid_rewrite <-list_elem_of_In.
  setoid_rewrite list_elem_of_fmap. setoid_rewrite elem_of_scope_iter. naive_solver.
Qed.

(** What normalisation adds, by cases on the token. *)
Lemma elem_of_normalize_token t u :
  t ∈ normalize_token u →
  (u = STABLE_API_SCOPE ∧ t = UNSTABLE_API_SCOPE) ∨
  (u = UNSTABLE_API_SCOPE ∧ t = STABLE_API_SCOPE) ∨
  ∃ d, (u = STABLE_DEVICE_PREFIX +:+ d ∨ u = UNSTABLE_DEVICE_PREFIX +:+ d) ∧
       (t = STABLE_DEVICE_PREFIX +:+ d ∨ t = UNSTABLE_DEVICE_PREFIX +:+ d) ∧
       normalize_token u = [STABLE_DEVICE_PREFIX +:+ d; UNSTABLE_DEVICE_PREFIX +:+ d].
Proof.
  unfold normalize_token. case_bool_decide; [set_solver|]. case_bool_decide; [set_solver|].
  destruct (device_of_token u) as [d|] eqn:Hd; [|set_solver].
  apply device_of_token_Some in Hd.
  destruct (ScopeToken_from_str (STABLE_DEVICE_PREFIX +:+ d)) as [x|] eqn:Hx; [|set_solver].
  destruct (ScopeToken_from_str (UNSTABLE_DEVICE_PREFIX +:+ d)) as [y|] eqn:Hy; [|set_solver].
  apply ScopeToken_from_str_Ok in Hx as [-> _]. apply ScopeToken_from_str_Ok in Hy as [-> _].
  intros Ht. right. right. exists d. set_solver.
Qed.

(** Both spellings of a device scope are normalised alike. *)
Lemma normalize_token_device d :
  normalize_token (STABLE_DEVICE_PREFIX +:+ d) = normalize_token (UNSTABLE_DEVICE_PREFIX +:+ d).
Proof.
  unfold normalize_token. rewrite device_of_stable, device_of_unstable.
  by rewrite !bool_decide_eq_false_2.
Qed.

(** Normalisation adds Matrix scopes only. *)
Lemma normalize_token_not_privileged t u :
  t ∈ normalize_token u → is_privileged_scope_token t = false.
Proof.
  intros [[_ ->]|[[_ ->]|(d & _ & [->| ->] & _)]]%elem_of_normalize_token;
    [reflexivity|reflexivity|..]; unfold is_privileged_scope_token;
    by rewrite !bool_decide_eq_false_2.
Qed.

Lemma requires_admin_normalize s : requires_admin (normalize_scope s) = requires_admin s.
Proof.
  apply eq_true_iff_eq. rewrite !requires_admin_spec. split.
  - intros (t & [Ht|(u & Hu & Ht)]%elem_of_normalize & Hp); [eauto|].
    apply normalize_token_not_privileged in Ht. congruence.
  - intros (t & Ht & Hp). exists t. split; [|done]. apply elem_of_normalize. by left.
Qed.

(** The scope introspection reports for a user who is not (or no longer) an
    administrator holds no administrative token, and loses nothing else:
    stripping and normalising keep every other token of the session's scope. *)
Theorem introspected_scope_admin_gate s is_admin :
  requires_admin (normalize_scope (strip_admin_scope_unless s is_admin))
    = requires_admin s && is_admin ∧
  ∀ t, t ∈ s → is_privileged_scope_token t = false →
       t ∈ normalize_scope (strip_admin_scope_unless s is_admin).
Proof.
  rewrite requires_admin_normalize. split.
  - destruct is_admin; [by rewrite andb_true_r|]. rewrite andb_false_r.
    apply requires_admin_false. intros t [_ [?|?]]%elem_of_strip_admin; done.
  - intros t Ht Hp. apply elem_of_normalize. left. apply elem_of_strip_admin. auto.
Qed.

(** Normalisation is idempotent, and treats the stable and unstable spelling
    of the Matrix scopes alike: one API scope is reported exactly when the
    other is. *)
Theorem normalize_scope_closed s :
  normalize_scope (normalize_scope s) = normalize_scope s ∧
  (STABLE_API_SCOPE ∈ normalize_scope s ↔ UNSTABLE_API_SCOPE ∈ normalize_scope s).
Proof.
  assert (Hclosed : ∀ t u, u ∈ normalize_scope s → t ∈ normalize_token u → t ∈ normalize_scope s).
  { intros t u [Hu|(v & Hv & Hu)]%elem_of_normalize Ht; apply elem_of_normalize; [eauto|].
    apply elem_of_normalize_token in Hu as [[-> ->]|[[-> ->]|(d & Hvd & Hud & Hnv)]].
    1,2: left; assert (Heq : t ∈ [_]) by exact Ht; apply list_elem_of_singleton in Heq as ->; done.
    right. exists v. split; [done|].
    destruct Hvd as [->| ->], Hud as [->| ->]; rewrite ?normalize_token_device in *; done. }
  split.
  - apply set_eq. intros t. rewrite elem_of_normalize. split; [|by left].
    intros [?|(u & ? & ?)]; eauto.
  - split; intros H; apply (Hclosed _ _ H); vm_compute; left.
Qed.
