(* ===== verification/ResponseTypes.v ===== *)
(** Response types and prompts (crates/oauth2-types/src/response_type.rs and
    requests.rs), with their texts. *)
From S2P Require Import Prelude.

Local Open Scope Z_scope.

(** ** Response types *)

Inductive ResponseTypeToken :=
| ResponseType_Code
| ResponseType_IdToken
| ResponseType_Token
| ResponseType_Unknown (value : string).

#[export] Instance ResponseTypeToken_eq_dec : EqDecision ResponseTypeToken.
Proof. solve_decision. Defined.
#[export] Instance ResponseTypeToken_countable : Countable ResponseTypeToken.
Proof.
  refine (inj_countable' (λ t, match t with
      | ResponseType_Code => inl 0 | ResponseType_IdToken => inl 1
      | ResponseType_Token => inl 2 | ResponseType_Unknown s => inr s
      end)
    (λ x : Z + string, match x with
      | inl 0 => ResponseType_Code | inl 1 => ResponseType_IdToken
      | inl _ => ResponseType_Token | inr s => ResponseType_Unknown s
      end) _).
  by intros [].
Defined.

Definition ResponseTypeToken_to_string (self : ResponseTypeToken) : string :=
  match self with
  | ResponseType_Code => "code"
  | ResponseType_IdToken => "id_token"
  | ResponseType_Token => "token"
  | ResponseType_Unknown v => v
  end.

Definition ResponseTypeToken_from_str (s : string) : ResponseTypeToken :=
  if bool_decide (s = "code") then ResponseType_Code
  else if bool_decide (s = "id_token") then ResponseType_IdToken
  else if bool_decide (s = "token") then ResponseType_Token
  else ResponseType_Unknown s.

(** The derived order: by variant, then by text. *)
Definition token_rank (t : ResponseTypeToken) : Z :=
  match t with
  | ResponseType_Code => 0 | ResponseType_IdToken => 1 | ResponseType_Token => 2
  | ResponseType_Unknown _ => 3
  end.
Definition token_le : relation ResponseTypeToken := enum_le token_rank ResponseTypeToken_to_string.

(** A [BTreeSet] of them. *)
Abbreviation ResponseType := (gset ResponseTypeToken) (only parsing).

Definition ResponseType_has_code (self : gset ResponseTypeToken) : bool := bool_decide (ResponseType_Code ∈ self).
Definition ResponseType_has_id_token (self : gset ResponseTypeToken) : bool :=
  bool_decide (ResponseType_IdToken ∈ self).
Definition ResponseType_has_token (self : gset ResponseTypeToken) : bool := bool_decide (ResponseType_Token ∈ self).

(** The tokens in the order of the set. *)
Definition ResponseType_iter (self : gset ResponseTypeToken) : list ResponseTypeToken :=
  merge_sort token_le (elements self).

Inductive InvalidResponseType := invalid_response_type.

(** [str::split_ascii_whitespace]: the texts between spaces, tabs, line feeds, form feeds and
    carriage returns, without the empty ones. *)
Definition is_ascii_whitespace (a : ascii) : bool :=
  bool_decide (byte_of a ∈ [32; 9; 10; 12; 13]).
Fixpoint split_on (sep : ascii → bool) (s : string) : list string :=
  match s with
  | EmptyString => [EmptyString]
  | String a s =>
      if sep a then EmptyString :: split_on sep s
      else match split_on sep s with
           | [] => [String a EmptyString]
           | w :: ws => String a w :: ws
           end
  end.
Definition split_ascii_whitespace (s : string) : list string :=
  filter (λ w, w ≠ EmptyString) (split_on is_ascii_whitespace s).

Definition ResponseType_from_str (s : string) : result (gset ResponseTypeToken) InvalidResponseType :=
  let trimmed := trim s in
  if bool_decide (trimmed = "") then Err invalid_response_type
  else if bool_decide (trimmed = "none") then Ok ∅
  else Ok (list_to_set (ResponseTypeToken_from_str <$> split_ascii_whitespace trimmed)).

Definition ResponseType_to_string (self : gset ResponseTypeToken) : string :=
  if bool_decide (self = ∅) then "none"
  else join_char " "%char (ResponseTypeToken_to_string <$> ResponseType_iter self).

Inductive OAuthAuthorizationEndpointResponseType :=
| Iana_Code | Iana_CodeIdToken | Iana_CodeIdTokenToken | Iana_CodeToken | Iana_IdToken
| Iana_IdTokenToken | Iana_None | Iana_Token.

(** [ResponseType::from] and the conversion back, which refuses unknown tokens. *)
Definition ResponseType_from (iana : OAuthAuthorizationEndpointResponseType)
    : gset ResponseTypeToken :=
  match iana with
  | Iana_Code => {[ResponseType_Code]}
  | Iana_IdToken => {[ResponseType_IdToken]}
  | Iana_Token => {[ResponseType_Token]}
  | Iana_CodeIdToken => {[ResponseType_Code; ResponseType_IdToken]}
  | Iana_CodeToken => {[ResponseType_Code; ResponseType_Token]}
  | Iana_IdTokenToken => {[ResponseType_IdToken; ResponseType_Token]}
  | Iana_CodeIdTokenToken => {[ResponseType_Code; ResponseType_IdToken; ResponseType_Token]}
  | Iana_None => ∅
  end.

Definition is_unknown (t : ResponseTypeToken) : bool :=
  match t with ResponseType_Unknown _ => true | _ => false end.

Definition ResponseType_try_into (rt : gset ResponseTypeToken)
    : option OAuthAuthorizationEndpointResponseType :=
  if existsb is_unknown (elements rt) then None
  else Some match ResponseType_has_code rt, ResponseType_has_id_token rt, ResponseType_has_token rt with
       | true, false, false => Iana_Code
       | false, true, false => Iana_IdToken
       | false, false, true => Iana_Token
       | true, true, false => Iana_CodeIdToken
       | true, false, true => Iana_CodeToken
       | false, true, true => Iana_IdTokenToken
       | true, true, true => Iana_CodeIdTokenToken
       | false, false, false => Iana_None
       end.

(** ** Prompts *)

Inductive Prompt :=
| Prompt_None | Prompt_Login | Prompt_Consent | Prompt_SelectAccount | Prompt_Create
| Prompt_Unknown (value : string).
#[export] Instance Prompt_eq_dec : EqDecision Prompt.
Proof. solve_decision. Defined.

(** The texts of the registered response types are read back. *)
Lemma ResponseType_roundtrip iana :
  ResponseType_from_str (ResponseType_to_string (ResponseType_from iana)) = Ok (ResponseType_from iana).
Proof. destruct iana; vm_compute; reflexivity. Qed.
