(* ===== verification/Pkce.v ===== *)
(** Proof Key for Code Exchange: crates/oauth2-types/src/pkce.rs and the [Pkce]
    value of crates/data/src/oauth2/authorization_grant.rs.

    SHA-256 and base64url are third-party code: one parameter, the challenge
    [base64url(sha256(verifier))] of a verifier. *)
From S2P Require Import Prelude Ids.

Class PkceExternals := {
  (** [Base64UrlUnpadded::encode_string(&Sha256::digest(verifier))] *)
  s256_challenge : string → string;
}.

(** [open_enum!] adds a constructor for the unknown names. *)
Inductive PkceCodeChallengeMethod :=
| Plain
| S256
| PkceMethod_Unknown (name : string).

#[export] Instance PkceCodeChallengeMethod_eq_dec : EqDecision PkceCodeChallengeMethod.
Proof. solve_decision. Defined.

(** [Display] of the generated enum. *)
Definition PkceCodeChallengeMethod_to_string (m : PkceCodeChallengeMethod) : string :=
  match m with
  | Plain => "plain"
  | S256 => "S256"
  | PkceMethod_Unknown name => name
  end.

Inductive CodeChallengeError :=
| TooShort
| TooLong
| InvalidCharacters
| VerificationFailed
| UnknownChallengeMethod.

#[export] Instance CodeChallengeError_eq_dec : EqDecision CodeChallengeError.
Proof. solve_decision. Defined.

Definition VERIFIER_MIN_LEN : nat := 43.
Definition VERIFIER_MAX_LEN : nat := 128.

(** [b.is_ascii_alphanumeric() || b == b'-' || b == b'.' || b == b'_' || b == b'~'] *)
Definition is_unreserved (b : ascii) : bool :=
  is_ascii_alphanumeric b
  || bool_decide (b = "-"%char) || bool_decide (b = "."%char)
  || bool_decide (b = "_"%char) || bool_decide (b = "~"%char).

Definition check_verifier (verifier : string) : result () CodeChallengeError :=
  if bool_decide (String.length verifier < VERIFIER_MIN_LEN)%nat then Err TooShort
  else if bool_decide (VERIFIER_MAX_LEN < String.length verifier)%nat then Err TooLong
  else if negb (str_all is_unreserved verifier) then Err InvalidCharacters
  else Ok tt.

Record Pkce := {
  pkce_challenge_method : PkceCodeChallengeMethod;
  pkce_challenge : string;
}.

#[export] Instance Pkce_eq_dec : EqDecision Pkce.
Proof. solve_decision. Defined.

Section pkce.
Context {X : PkceExternals}.

Definition compute_challenge (self : PkceCodeChallengeMethod) (verifier : string)
    : result string CodeChallengeError :=
  result_bind (check_verifier verifier) (λ _,
  match self with
  | Plain => Ok verifier
  | S256 => Ok (s256_challenge verifier)
  | PkceMethod_Unknown _ => Err UnknownChallengeMethod
  end).

(** [CodeChallengeMethodExt::verify] *)
Definition method_verify (self : PkceCodeChallengeMethod) (challenge verifier : string)
    : result () CodeChallengeError :=
  result_bind (compute_challenge self verifier) (λ computed,
  if bool_decide (computed = challenge) then Ok tt else Err VerificationFailed).

Definition Pkce_verify (self : Pkce) (verifier : string) : result () CodeChallengeError :=
  method_verify (pkce_challenge_method self) (pkce_challenge self) verifier.

(** ** Properties *)

(** The verifiers RFC 7636 section 4.1 allows. *)
Definition rfc7636_verifier (v : string) : Prop :=
  (43 ≤ String.length v ≤ 128)%nat ∧ str_all is_unreserved v = true.

Lemma check_verifier_Ok v : check_verifier v = Ok tt ↔ rfc7636_verifier v.
Proof.
  unfold check_verifier, rfc7636_verifier, VERIFIER_MIN_LEN, VERIFIER_MAX_LEN.
  case_bool_decide; [split; [done|lia]|]. case_bool_decide; [split; [done|lia]|].
  destruct (str_all is_unreserved v); simpl; split; [split; [lia|done]|done..|].
  by intros [_ ?].
Qed.

Lemma compute_challenge_Ok m v c :
  compute_challenge m v = Ok c ↔
  rfc7636_verifier v ∧
  ((m = Plain ∧ c = v) ∨ (m = S256 ∧ c = s256_challenge v)).
Proof.
  unfold compute_challenge. rewrite <-check_verifier_Ok.
  destruct (check_verifier v) as [[]|]; simpl; [destruct m|]; naive_solver.
Qed.

(** A PKCE check accepts exactly the verifiers RFC 7636 allows whose challenge,
    under the method fixed at the authorization endpoint, is the stored one;
    a method the server does not know accepts nothing. *)
Theorem Pkce_verify_accepts p v :
  Pkce_verify p v = Ok tt ↔
  rfc7636_verifier v ∧
  match pkce_challenge_method p with
  | Plain => pkce_challenge p = v
  | S256 => pkce_challenge p = s256_challenge v
  | PkceMethod_Unknown _ => False
  end.
Proof.
  unfold Pkce_verify, method_verify.
  destruct (compute_challenge (pkce_challenge_method p) v) as [c|e] eqn:Hc; simpl.
  - apply compute_challenge_Ok in Hc as [Hv Hm].
    case_bool_decide; destruct (pkce_challenge_method p); naive_solver.
  - split; [done|]. intros [Hv Hm]. destruct (pkce_challenge_method p) eqn:Hp; [| |done].
    + assert (compute_challenge Plain v = Ok v) by (apply compute_challenge_Ok; auto). congruence.
    + assert (compute_challenge S256 v = Ok (s256_challenge v))
        by (apply compute_challenge_Ok; auto). congruence.
Qed.

(** The error of a verifier the grammar refuses does not depend on the
    challenge: it says nothing of the stored value. *)
Lemma Pkce_verify_malformed p v e :
  check_verifier v = Err e → Pkce_verify p v = Err e.
Proof. unfold Pkce_verify, method_verify, compute_challenge. by intros ->. Qed.
End pkce.
