(* ===== verification/Jose.v ===== *)
(** JSON Web Tokens and keys: crates/jose/src.

    The compact form (jwt/raw.rs, jwt/signed/decode.rs), the choice of keys
    (constraints.rs, jwk/mod.rs), signature verification (jwt/signed/verify.rs,
    jwa) and the extraction of claims (claims.rs). Base64, JSON parsing and the
    cryptographic primitives are parameters. *)
From S2P Require Import Prelude Ids.

Open Scope Z_scope.

(** ** Registries (crates/iana/src/jose.rs) *)

Inductive JsonWebSignatureAlg :=
| Hs256 | Hs384 | Hs512 | Rs256 | Rs384 | Rs512 | Es256 | Es384 | Es512
| Ps256 | Ps384 | Ps512 | Alg_None | EdDsa | Es256K | Ed25519 | Ed448
| Alg_Unknown (name : string).

#[export] Instance JsonWebSignatureAlg_eq_dec : EqDecision JsonWebSignatureAlg.
Proof. solve_decision. Defined.

(** [FromStr] of an open enumeration: every name is accepted. *)
Definition JsonWebSignatureAlg_from_str (s : string) : JsonWebSignatureAlg :=
  let known := [("HS256", Hs256); ("HS384", Hs384); ("HS512", Hs512); ("RS256", Rs256);
    ("RS384", Rs384); ("RS512", Rs512); ("ES256", Es256); ("ES384", Es384); ("ES512", Es512);
    ("PS256", Ps256); ("PS384", Ps384); ("PS512", Ps512); ("none", Alg_None); ("EdDSA", EdDsa);
    ("ES256K", Es256K); ("Ed25519", Ed25519); ("Ed448", Ed448)] in
  match list_find (λ na, na.1 = s) known with
  | Some (_, (_, alg)) => alg
  | None => Alg_Unknown s
  end.

Inductive JsonWebKeyType := Kty_Ec | Kty_Rsa | Kty_Oct | Kty_Okp | Kty_Unknown (name : string).
Inductive JsonWebKeyUse := Use_Sig | Use_Enc | Use_Unknown (name : string).
Inductive JsonWebKeyOperation :=
| Op_Sign | Op_Verify | Op_Encrypt | Op_Decrypt | Op_WrapKey | Op_UnwrapKey
| Op_DeriveKey | Op_DeriveBits | Op_Unknown (name : string).
Inductive JsonWebKeyEcEllipticCurve :=
| Crv_P256 | Crv_P384 | Crv_P521 | Crv_Secp256K1 | Crv_EcUnknown (name : string).
Inductive JsonWebKeyOkpEllipticCurve :=
| Crv_Ed25519 | Crv_Ed448 | Crv_X25519 | Crv_X448 | Crv_OkpUnknown (name : string).

#[export] Instance JsonWebKeyType_eq_dec : EqDecision JsonWebKeyType.
Proof. solve_decision. Defined.
#[export] Instance JsonWebKeyUse_eq_dec : EqDecision JsonWebKeyUse.
Proof. solve_decision. Defined.

(** ** Keys (jwk/mod.rs, jwk/public_parameters.rs) *)

(** The trait of the parameters of a key. *)
Class ParametersInfo (P : Type) := {
  kty : P → JsonWebKeyType;
  possible_algs : P → list JsonWebSignatureAlg;
}.

Inductive JsonWebKeyPublicParameters :=
| Public_Rsa (n e : string)
| Public_Ec (crv : JsonWebKeyEcEllipticCurve) (x y : string)
| Public_Okp (crv : JsonWebKeyOkpEllipticCurve) (x : string).

Definition RSA_COMPATIBLE_ALGS : list JsonWebSignatureAlg :=
  [Rs256; Rs384; Rs512; Ps256; Ps384; Ps512].

Definition algs_for_curve (crv : JsonWebKeyEcEllipticCurve) : list JsonWebSignatureAlg :=
  match crv with
  | Crv_P256 => [Es256]
  | Crv_P384 => [Es384]
  | Crv_P521 => [Es512]
  | Crv_Secp256K1 => [Es256K]
  | Crv_EcUnknown _ => []
  end.

#[export] Instance public_parameters_info : ParametersInfo JsonWebKeyPublicParameters := {|
  kty p := match p with
           | Public_Rsa _ _ => Kty_Rsa | Public_Ec _ _ _ => Kty_Ec | Public_Okp _ _ => Kty_Okp
           end;
  possible_algs p := match p with
                     | Public_Rsa _ _ => RSA_COMPATIBLE_ALGS
                     | Public_Ec crv _ _ => algs_for_curve crv
                     | Public_Okp _ _ => [EdDsa]
                     end;
|}.

(** The certificate fields ([x5u], [x5c], [x5t]) are never read. *)
Record JsonWebKey (P : Type) := {
  jwk_parameters : P;
  jwk_use : option JsonWebKeyUse;
  jwk_key_ops : option (list JsonWebKeyOperation);
  jwk_alg : option JsonWebSignatureAlg;
  jwk_kid : option string;
}.
Arguments jwk_parameters {P}.
Arguments jwk_use {P}.
Arguments jwk_key_ops {P}.
Arguments jwk_alg {P}.
Arguments jwk_kid {P}.

Definition PublicJsonWebKeySet : Type := list (JsonWebKey JsonWebKeyPublicParameters).

(** *** Consistency of the metadata of a key *)

Inductive JsonWebKeyCapability := Cap_Signature | Cap_Encryption.

#[export] Instance JsonWebKeyCapability_eq_dec : EqDecision JsonWebKeyCapability.
Proof. solve_decision. Defined.

Definition capability_for_alg (alg : JsonWebSignatureAlg) : option JsonWebKeyCapability :=
  match alg with
  | Alg_None | Alg_Unknown _ => None
  | _ => Some Cap_Signature
  end.

Definition capability_for_use (use : JsonWebKeyUse) : option JsonWebKeyCapability :=
  match use with
  | Use_Sig => Some Cap_Signature
  | Use_Enc => Some Cap_Encryption
  | Use_Unknown _ => None
  end.

Definition capability_for_key_op (op : JsonWebKeyOperation) : option JsonWebKeyCapability :=
  match op with
  | Op_Sign | Op_Verify => Some Cap_Signature
  | Op_Encrypt | Op_Decrypt | Op_WrapKey | Op_UnwrapKey | Op_DeriveKey | Op_DeriveBits =>
      Some Cap_Encryption
  | Op_Unknown _ => None
  end.

Inductive JsonWebKeyValidationError :=
| IncompatibleAlgorithm (alg : JsonWebSignatureAlg) (kty : JsonWebKeyType)
| IncompatibleUseAndAlgorithm (use : JsonWebKeyUse) (alg : JsonWebSignatureAlg)
| IncompatibleUseAndKeyOperation (use : JsonWebKeyUse) (op : JsonWebKeyOperation)
| IncompatibleAlgorithmAndKeyOperation (alg : JsonWebSignatureAlg) (op : JsonWebKeyOperation)
| MixedKeyOperations (first second : JsonWebKeyOperation).

(** Two known capabilities differ. *)
Definition capabilities_differ (a b : option JsonWebKeyCapability) : bool :=
  match a, b with Some a, Some b => bool_decide (a ≠ b) | _, _ => false end.

Definition validate_use_and_alg (use : JsonWebKeyUse) (alg : JsonWebSignatureAlg)
    : result () JsonWebKeyValidationError :=
  if capabilities_differ (capability_for_use use) (capability_for_alg alg)
  then Err (IncompatibleUseAndAlgorithm use alg) else Ok tt.

Definition validate_use_and_key_op (use : JsonWebKeyUse) (op : JsonWebKeyOperation)
    : result () JsonWebKeyValidationError :=
  if capabilities_differ (capability_for_use use) (capability_for_key_op op)
  then Err (IncompatibleUseAndKeyOperation use op) else Ok tt.

Definition validate_alg_and_key_op (alg : JsonWebSignatureAlg) (op : JsonWebKeyOperation)
    : result () JsonWebKeyValidationError :=
  if capabilities_differ (capability_for_alg alg) (capability_for_key_op op)
  then Err (IncompatibleAlgorithmAndKeyOperation alg op) else Ok tt.

Section keys.
Context {P : Type} `{ParametersInfo P}.

(** The loop over [key_ops], with the capability and operation first seen. *)
Fixpoint validate_key_ops (key : JsonWebKey P) (ops : list JsonWebKeyOperation)
    (seen : option (JsonWebKeyCapability * JsonWebKeyOperation))
    : result () JsonWebKeyValidationError :=
  match ops with
  | [] => Ok tt
  | op :: ops =>
      result_bind match jwk_use key with Some u => validate_use_and_key_op u op | None => Ok tt end
        (λ _, result_bind match jwk_alg key with
                          | Some a => validate_alg_and_key_op a op
                          | None => Ok tt
                          end
        (λ _, match capability_for_key_op op, seen with
              | Some cap, Some (previous, previous_op) =>
                  if bool_decide (previous ≠ cap) then Err (MixedKeyOperations previous_op op)
                  else validate_key_ops key ops seen
              | Some cap, None => validate_key_ops key ops (Some (cap, op))
              | None, _ => validate_key_ops key ops seen
              end))
  end.

Definition JsonWebKey_validate (key : JsonWebKey P) : result () JsonWebKeyValidationError :=
  result_bind
    match jwk_alg key with
    | Some alg =>
        if bool_decide (alg ∉ possible_algs (jwk_parameters key))
        then Err (IncompatibleAlgorithm alg (kty (jwk_parameters key)))
        else match jwk_use key with Some u => validate_use_and_alg u alg | None => Ok tt end
    | None => Ok tt
    end
    (λ _, match jwk_key_ops key with
          | Some ops => validate_key_ops key ops None
          | None => Ok tt
          end).

(** ** Constraints (constraints.rs) *)

Inductive Constraint :=
| Constraint_Alg (alg : JsonWebSignatureAlg)
| Constraint_Algs (algs : list JsonWebSignatureAlg)
| Constraint_Kid (kid : string)
| Constraint_Use (use : JsonWebKeyUse)
| Constraint_Kty (kty : JsonWebKeyType).

#[export] Instance Constraint_eq_dec : EqDecision Constraint.
Proof. solve_decision. Defined.

Inductive ConstraintDecision := Positive | Neutral | Negative.

Definition decision_of (b : bool) : ConstraintDecision := if b then Positive else Negative.

(** [Constraint::decide], at the [Constrainable] instance of [JsonWebKey]. *)
Definition Constraint_decide (c : Constraint) (key : JsonWebKey P) : ConstraintDecision :=
  match c with
  | Constraint_Alg alg =>
      match jwk_alg key with
      | Some a => decision_of (bool_decide (a = alg))
      | None => if bool_decide (alg ∈ possible_algs (jwk_parameters key)) then Neutral else Negative
      end
  | Constraint_Algs algs =>
      match jwk_alg key with
      | Some a => decision_of (bool_decide (a ∈ algs))
      | None => if existsb (λ a, bool_decide (a ∈ algs)) (possible_algs (jwk_parameters key))
                then Neutral else Negative
      end
  | Constraint_Kid kid =>
      match jwk_kid key with Some k => decision_of (bool_decide (k = kid)) | None => Neutral end
  | Constraint_Use use =>
      match jwk_use key with Some u => decision_of (bool_decide (u = use)) | None => Neutral end
  | Constraint_Kty k => decision_of (bool_decide (k = kty (jwk_parameters key)))
  end.

(** The inner loop of [filter]: the score of a key, [None] if a constraint is
    negative. *)
Fixpoint constraint_score (cs : list Constraint) (score : nat) (key : JsonWebKey P) : option nat :=
  match cs with
  | [] => Some score
  | c :: cs =>
      match Constraint_decide c key with
      | Positive => constraint_score cs (S score) key
      | Neutral => constraint_score cs score key
      | Negative => None
      end
  end.

(** [sort_by_key(|(score, _)| *score)]: a stable sort. *)
Fixpoint insert_by_score (x : nat * JsonWebKey P) (l : list (nat * JsonWebKey P))
    : list (nat * JsonWebKey P) :=
  match l with
  | [] => [x]
  | y :: l' => if (x.1 <=? y.1)%nat then x :: l else y :: insert_by_score x l'
  end.
Definition sort_by_score : list (nat * JsonWebKey P) → list (nat * JsonWebKey P) :=
  foldr insert_by_score [].

(** [ConstraintSet::filter]; a set is a list in some order of iteration. *)
Definition ConstraintSet_filter (cs : list Constraint) (keys : list (JsonWebKey P))
    : list (JsonWebKey P) :=
  snd <$> sort_by_score (omap (λ k, (λ s, (s, k)) <$> constraint_score cs 0 k) keys).

(** [JsonWebKeySet::find_keys], [find_key] and [signing_key_for_algorithm] *)
Definition find_keys (keys : list (JsonWebKey P)) (cs : list Constraint) : list (JsonWebKey P) :=
  ConstraintSet_filter cs (filter (λ k, is_ok (JsonWebKey_validate k) = true) keys).
Definition find_key (keys : list (JsonWebKey P)) (cs : list Constraint) : option (JsonWebKey P) :=
  last (find_keys keys cs).
Definition signing_key_for_algorithm (keys : list (JsonWebKey P)) (alg : JsonWebSignatureAlg)
    : option (JsonWebKey P) :=
  find_key keys [Constraint_Alg alg; Constraint_Use Use_Sig].
End keys.

(** ** The compact form (jwt/raw.rs) *)

Record RawJwt := {
  raw_inner : string;
  raw_first_dot : nat;
  raw_second_dot : nat;
}.

Inductive DecodeError := NoDots | OnlyOneDot | TooManyDots.

(** The indices of the dots, from [i] on. *)
Fixpoint dot_indices (i : nat) (s : string) : list nat :=
  match s with
  | EmptyString => []
  | String c s =>
      if bool_decide (c = "."%char) then i :: dot_indices (S i) s else dot_indices (S i) s
  end.

Definition RawJwt_try_from (value : string) : result RawJwt DecodeError :=
  match dot_indices 0 value with
  | [] => Err NoDots
  | [_] => Err OnlyOneDot
  | [first_dot; second_dot] =>
      Ok {| raw_inner := value; raw_first_dot := first_dot; raw_second_dot := second_dot |}
  | _ => Err TooManyDots
  end.

(** [&inner[i..j]] and [&inner[i..]] *)
Definition str_slice (i j : nat) (s : string) : string := String.substring i (j - i) s.

Definition RawJwt_header (r : RawJwt) : string := str_slice 0 (raw_first_dot r) (raw_inner r).
Definition RawJwt_payload (r : RawJwt) : string :=
  str_slice (raw_first_dot r + 1) (raw_second_dot r) (raw_inner r).
Definition RawJwt_signature (r : RawJwt) : string :=
  str_slice (raw_second_dot r + 1) (String.length (raw_inner r)) (raw_inner r).
Definition RawJwt_signed_part (r : RawJwt) : string :=
  str_slice 0 (raw_second_dot r) (raw_inner r).

(** ** JSON values and tokens *)

(** [serde_json::Value]; a number is an integer or a fraction, whose digits no
    claim reads. *)
Inductive Json :=
| Json_Null
| Json_Bool (b : bool)
| Json_Int (n : Z)
| Json_Float
| Json_String (s : string)
| Json_Array (l : list Json)
| Json_Object (fields : list (string * Json)).

(** [HashMap<String, Value>] *)
Abbreviation Claims := (gmap string Json) (only parsing).

(** The fields of the header that are read. *)
Record JsonWebSignatureHeader := {
  header_alg : JsonWebSignatureAlg;
  header_kid : option string;
}.

Record Jwt := {
  Jwt_raw : RawJwt;
  Jwt_header : JsonWebSignatureHeader;
  Jwt_payload : Claims;
  Jwt_signature : list Z;
}.

Inductive JwtDecodeError :=
| Jwt_RawDecode (inner : DecodeError)
| Jwt_DecodeHeader | Jwt_DeserializeHeader
| Jwt_DecodePayload | Jwt_DeserializePayload
| Jwt_DecodeSignature.

Class JoseExternals := {
  (** [base64ct::Decoder::<Base64UrlUnpadded>::new] succeeds *)
  base64_decoder_new : string → bool;
  (** [serde_json::from_reader] through the decoder *)
  header_from_reader : string → option JsonWebSignatureHeader;
  claims_from_reader : string → option Claims;
  (** [Base64UrlUnpadded::decode_vec] *)
  base64_decode_vec : string → option (list Z);
  (** [params.try_into()]: the numbers of the key make a key *)
  verifying_key_parses : JsonWebKeyPublicParameters → bool;
  (** [S::try_from(signature)] and [key.verify(msg, signature)] *)
  asymmetric_verify : JsonWebSignatureAlg → JsonWebKeyPublicParameters → string → list Z → bool;
  hmac_verify : JsonWebSignatureAlg → list Z → string → list Z → bool;
  (** [DateTime::from_timestamp(secs, 0)], in microseconds *)
  datetime_from_timestamp : Z → option DateTime;
  (** [serde_json::to_vec], then [Base64UrlUnpadded::encode_string] *)
  header_to_b64url : JsonWebSignatureHeader → option string;
  claims_to_b64url : Claims → option string;
  base64_encode : list Z → string;
  (** the digests of the [sha2] crate *)
  sha256_bytes : string → list Z;
  sha384_bytes : string → list Z;
  sha512_bytes : string → list Z;
}.

Section jwt.
Context {JX : JoseExternals}.

(** [parse_compact_parts] (jwt/signed/decode.rs) *)
Definition parse_compact_parts (raw : RawJwt) : result Jwt JwtDecodeError :=
  if negb (base64_decoder_new (RawJwt_header raw)) then Err Jwt_DecodeHeader
  else match header_from_reader (RawJwt_header raw) with
  | None => Err Jwt_DeserializeHeader
  | Some header =>
      if negb (base64_decoder_new (RawJwt_payload raw)) then Err Jwt_DecodePayload
      else match claims_from_reader (RawJwt_payload raw) with
      | None => Err Jwt_DeserializePayload
      | Some payload =>
          match base64_decode_vec (RawJwt_signature raw) with
          | None => Err Jwt_DecodeSignature
          | Some sig_bytes => Ok {| Jwt_raw := raw; Jwt_header := header;
                                    Jwt_payload := payload; Jwt_signature := sig_bytes |}
          end
      end
  end.

Definition Jwt_try_from (input : string) : result Jwt JwtDecodeError :=
  result_bind (result_map_err Jwt_RawDecode (RawJwt_try_from input)) parse_compact_parts.

(** ** Verification (jwt/signed/verify.rs, jwa) *)

(** An [AsymmetricVerifyingKey]: the algorithm it is for, and the parameters. *)
Record AsymmetricVerifyingKey := {
  vk_alg : JsonWebSignatureAlg;
  vk_params : JsonWebKeyPublicParameters;
}.

(** The table of [AsymmetricVerifyingKey::from_jwk_and_alg]. *)
Definition key_suitable (params : JsonWebKeyPublicParameters) (alg : JsonWebSignatureAlg) : bool :=
  match params, alg with
  | Public_Rsa _ _, (Rs256 | Rs384 | Rs512 | Ps256 | Ps384 | Ps512) => true
  | Public_Ec Crv_P256 _ _, Es256 => true
  | Public_Ec Crv_P384 _ _, Es384 => true
  | Public_Ec Crv_P521 _ _, Es512 => true
  | Public_Ec Crv_Secp256K1 _ _, Es256K => true
  | Public_Okp Crv_Ed25519 _, EdDsa => true
  | _, _ => false
  end.

Definition from_jwk_and_alg (params : JsonWebKeyPublicParameters) (alg : JsonWebSignatureAlg)
    : option AsymmetricVerifyingKey :=
  if key_suitable params alg && verifying_key_parses params
  then Some {| vk_alg := alg; vk_params := params |} else None.

(** [Jwt::verify] with such a key. *)
Definition Jwt_verify (self : Jwt) (key : AsymmetricVerifyingKey) : bool :=
  asymmetric_verify (vk_alg key) (vk_params key) (RawJwt_signed_part (Jwt_raw self))
    (Jwt_signature self).

(** [ConstraintSet::from(&header)] *)
Definition header_constraints (h : JsonWebSignatureHeader) : list Constraint :=
  Constraint_Alg (header_alg h) ::
  match header_kid h with Some kid => [Constraint_Kid kid] | None => [] end.

(** The loop over the candidates. *)
Fixpoint try_candidates (self : Jwt) (candidates : PublicJsonWebKeySet) : bool :=
  match candidates with
  | [] => false
  | candidate :: candidates =>
      match from_jwk_and_alg (jwk_parameters candidate) (header_alg (Jwt_header self)) with
      | None => try_candidates self candidates
      | Some vk => if Jwt_verify self vk then true else try_candidates self candidates
      end
  end.

Definition verify_with_jwks (self : Jwt) (jwks : PublicJsonWebKeySet) : bool :=
  try_candidates self (ConstraintSet_filter (header_constraints (Jwt_header self)) jwks).

(** [SymmetricKey::new_for_alg] *)
Definition symmetric_alg (alg : JsonWebSignatureAlg) : bool :=
  match alg with Hs256 | Hs384 | Hs512 => true | _ => false end.

Definition verify_with_shared_secret (self : Jwt) (secret : list Z) : bool :=
  symmetric_alg (header_alg (Jwt_header self)) &&
  hmac_verify (header_alg (Jwt_header self)) secret (RawJwt_signed_part (Jwt_raw self))
    (Jwt_signature self).

(** ** Signing (jwt/signed/sign.rs) *)

Inductive JwtSignatureError := Jwt_EncodeHeader | Jwt_EncodePayload | Jwt_SignatureFailed.

(** [Jwt::sign_with_rng]; [sign] is [key.try_sign_with_rng]. *)
Definition sign_with_rng (sign : string → Rng → option (list Z) * Rng)
    (header : JsonWebSignatureHeader) (payload : Claims) (rng : Rng)
    : result Jwt JwtSignatureError * Rng :=
  match header_to_b64url header with
  | None => (Err Jwt_EncodeHeader, rng)
  | Some encoded_hdr =>
      match claims_to_b64url payload with
      | None => (Err Jwt_EncodePayload, rng)
      | Some encoded_pay =>
          let message := encoded_hdr +:+ "." +:+ encoded_pay in
          match sign message rng with
          | (None, rng) => (Err Jwt_SignatureFailed, rng)
          | (Some raw_sig, rng) =>
              (Ok {| Jwt_raw := {| raw_inner := message +:+ "." +:+ base64_encode raw_sig;
                                   raw_first_dot := String.length encoded_hdr;
                                   raw_second_dot := String.length message |};
                     Jwt_header := header;
                     Jwt_payload := payload;
                     Jwt_signature := raw_sig |}, rng)
          end
      end
  end.

(** [Jwt::into_string] *)
Definition Jwt_into_string (self : Jwt) : string := raw_inner (Jwt_raw self).

(** ** Hashes of tokens (claims.rs) *)

Inductive ShaFamily := Sha256 | Sha384 | Sha512.

(** The algorithms whose name ends in 256, 384 or 512, [ES256K], and [EdDSA] and
    [Ed25519]; an algorithm of another name goes by its suffix. *)
Definition JsonWebSignatureAlg_to_string (alg : JsonWebSignatureAlg) : string :=
  match alg with
  | Hs256 => "HS256" | Hs384 => "HS384" | Hs512 => "HS512"
  | Rs256 => "RS256" | Rs384 => "RS384" | Rs512 => "RS512"
  | Es256 => "ES256" | Es384 => "ES384" | Es512 => "ES512"
  | Ps256 => "PS256" | Ps384 => "PS384" | Ps512 => "PS512"
  | Alg_None => "none" | EdDsa => "EdDSA" | Es256K => "ES256K"
  | Ed25519 => "Ed25519" | Ed448 => "Ed448" | Alg_Unknown name => name
  end.

(** [s.ends_with(suffix)] *)
Definition ends_with (suffix s : string) : bool :=
  (String.length suffix <=? String.length s)%nat &&
  bool_decide (String.substring (String.length s - String.length suffix)
                 (String.length suffix) s = suffix).

Definition sha_family_for (alg : JsonWebSignatureAlg) : option ShaFamily :=
  let name := JsonWebSignatureAlg_to_string alg in
  if ends_with "256" name || bool_decide (name = "ES256K") then Some Sha256
  else if ends_with "384" name then Some Sha384
  else if ends_with "512" name || bool_decide (alg = EdDsa) || bool_decide (alg = Ed25519)
  then Some Sha512 else None.

Definition hash_token (alg : JsonWebSignatureAlg) (token : string) : option string :=
  family ← sha_family_for alg;
  Some (base64_encode
    match family with
    | Sha256 => take 16 (sha256_bytes token)
    | Sha384 => take 24 (sha384_bytes token)
    | Sha512 => take 32 (sha512_bytes token)
    end).

(** ** Claims (claims.rs) *)

Inductive ClaimError :=
| MissingClaim (claim : string)
| InvalidClaim (claim : string)
| ValidationError (claim : string).

(** [Claim<T, V>]: its key, the decoding of [T], and the validator once its
    options are given. *)
Record Claim (T : Type) := {
  claim_key : string;
  claim_decode : Json → option T;
}.
Arguments claim_key {T}.
Arguments claim_decode {T}.

Definition decode_and_validate {T} (claim : Claim T) (validate : T → bool) (raw : Json)
    : result T ClaimError :=
  match claim_decode claim raw with
  | None => Err (InvalidClaim (claim_key claim))
  | Some decoded =>
      if validate decoded then Ok decoded else Err (ValidationError (claim_key claim))
  end.

(** The claim is removed from the map, whatever its value. *)
Definition extract_required_with_options {T} (claim : Claim T) (validate : T → bool)
    (claims : Claims) : result T ClaimError * Claims :=
  match claims !! claim_key claim with
  | None => (Err (MissingClaim (claim_key claim)), claims)
  | Some raw => (decode_and_validate claim validate raw, delete (claim_key claim) claims)
  end.

Definition extract_optional_with_options {T} (claim : Claim T) (validate : T → bool)
    (claims : Claims) : result (option T) ClaimError * Claims :=
  match claims !! claim_key claim with
  | None => (Ok None, claims)
  | Some raw =>
      (match decode_and_validate claim validate raw with
       | Ok v => Ok (Some v) | Err e => Err e
       end, delete (claim_key claim) claims)
  end.

Definition extract_required {T} (claim : Claim T) (claims : Claims) : result T ClaimError * Claims :=
  extract_required_with_options claim (λ _, true) claims.

Record TimeOptions := {
  time_when : DateTime;
  time_leeway : Duration;
}.
Definition DEFAULT_LEEWAY : Duration := 5 * 60 * 1000 * 1000.
Definition TimeOptions_new (when : DateTime) : TimeOptions :=
  {| time_when := when; time_leeway := DEFAULT_LEEWAY |}.

(** The validators; instants do not overflow. *)
Definition TimeNotAfter (o : TimeOptions) (ts : DateTime) : bool :=
  time_when o <=? ts + time_leeway o.
Definition TimeNotBefore (o : TimeOptions) (ts : DateTime) : bool :=
  ts - time_leeway o <=? time_when o.
Definition Equality (value actual : string) : bool := bool_decide (value = actual).
Definition Contains (value : string) (collection : list string) : bool :=
  bool_decide (value ∈ collection).

(** Decoding of [String], [Timestamp] and [OneOrMany<String>]. *)
Definition decode_string (j : Json) : option string :=
  match j with Json_String s => Some s | _ => None end.
Definition decode_timestamp (j : Json) : option DateTime :=
  match j with Json_Int n => datetime_from_timestamp n | _ => None end.
Definition decode_one_or_many (j : Json) : option (list string) :=
  match j with
  | Json_String s => Some [s]
  | Json_Array l => mapM decode_string l
  | _ => None
  end.

Definition ISS : Claim string := {| claim_key := "iss"; claim_decode := decode_string |}.
Definition SUB : Claim string := {| claim_key := "sub"; claim_decode := decode_string |}.
Definition AUD : Claim (list string) := {| claim_key := "aud"; claim_decode := decode_one_or_many |}.
Definition NBF : Claim DateTime := {| claim_key := "nbf"; claim_decode := decode_timestamp |}.
Definition EXP : Claim DateTime := {| claim_key := "exp"; claim_decode := decode_timestamp |}.
Definition IAT : Claim DateTime := {| claim_key := "iat"; claim_decode := decode_timestamp |}.
End jwt.
Arguments claim_key {T}.
Arguments claim_decode {T}.
