(* ===== verification/Keystore.v ===== *)
(** The server's signing keys: crates/keystore/src/lib.rs.

    The choice of a signer for an algorithm, with the cache of signers, and the
    published key set. Key material is opaque. *)
From S2P Require Import Prelude Ids Jose.

Open Scope Z_scope.

(** [PrivateKey]; the text stands for the key material. *)
Inductive PrivateKey :=
| Private_Rsa (material : string)
| Private_EcP256 (material : string)
| Private_EcP384 (material : string)
| Private_EcP521 (material : string)
| Private_EcK256 (material : string)
| Private_OkpEd25519 (material : string).

#[export] Instance private_key_info : ParametersInfo PrivateKey := {|
  kty k := match k with
           | Private_Rsa _ => Kty_Rsa
           | Private_EcP256 _ | Private_EcP384 _ | Private_EcP521 _ | Private_EcK256 _ => Kty_Ec
           | Private_OkpEd25519 _ => Kty_Okp
           end;
  possible_algs k := match k with
                     | Private_Rsa _ => [Rs256; Rs384; Rs512; Ps256; Ps384; Ps512]
                     | Private_EcP256 _ => [Es256]
                     | Private_EcP384 _ => [Es384]
                     | Private_EcP521 _ => [Es512]
                     | Private_EcK256 _ => [Es256K]
                     | Private_OkpEd25519 _ => [EdDsa]
                     end;
|}.

(** [AsymmetricSigningKey]: the algorithm it signs for, and its key. *)
Record AsymmetricSigningKey := {
  sk_alg : JsonWebSignatureAlg;
  sk_key : PrivateKey;
}.

(** [PrivateKey::try_build_signer] *)
Definition try_build_signer (self : PrivateKey) (alg : JsonWebSignatureAlg)
    : option AsymmetricSigningKey :=
  match self, alg with
  | Private_Rsa _, (Rs256 | Rs384 | Rs512 | Ps256 | Ps384 | Ps512)
  | Private_EcP256 _, Es256
  | Private_EcP384 _, Es384
  | Private_EcP521 _, Es512
  | Private_EcK256 _, Es256K
  | Private_OkpEd25519 _, EdDsa => Some {| sk_alg := alg; sk_key := self |}
  | _, _ => None
  end.

Class KeystoreExternals := {
  (** [to_public_key], [public_key] and [verifying_key]: the numbers of the
      public key of some key material *)
  public_numbers : string → string * string;
  (** [RandomizedSigner::try_sign_with_rng] *)
  asymmetric_sign : JsonWebSignatureAlg → PrivateKey → string → Rng → option (list Z) * Rng;
}.

Section keystore.
Context {KX : KeystoreExternals}.

(** [JsonWebKeyPublicParameters::from(&PrivateKey)] *)
Definition public_parameters_from (k : PrivateKey) : JsonWebKeyPublicParameters :=
  match k with
  | Private_Rsa m => Public_Rsa (public_numbers m).1 (public_numbers m).2
  | Private_EcP256 m => Public_Ec Crv_P256 (public_numbers m).1 (public_numbers m).2
  | Private_EcP384 m => Public_Ec Crv_P384 (public_numbers m).1 (public_numbers m).2
  | Private_EcP521 m => Public_Ec Crv_P521 (public_numbers m).1 (public_numbers m).2
  | Private_EcK256 m => Public_Ec Crv_Secp256K1 (public_numbers m).1 (public_numbers m).2
  | Private_OkpEd25519 m => Public_Okp Crv_Ed25519 (public_numbers m).1
  end.

(** [JsonWebKey::cloned_map] *)
Definition cloned_map {P O} (f : P → O) (key : JsonWebKey P) : JsonWebKey O := {|
  jwk_parameters := f (jwk_parameters key);
  jwk_use := jwk_use key;
  jwk_key_ops := jwk_key_ops key;
  jwk_alg := jwk_alg key;
  jwk_kid := jwk_kid key |}.

(** The set [Keystore::new] publishes. *)
Definition public_jwks (keys : list (JsonWebKey PrivateKey)) : PublicJsonWebKeySet :=
  cloned_map public_parameters_from <$> keys.

(** The cache of prebuilt signers, keyed by [(kid, alg)]. *)
Definition SignerCache : Type := list ((string * JsonWebSignatureAlg) * AsymmetricSigningKey).

Fixpoint cache_get (cache : SignerCache) (kid : string) (alg : JsonWebSignatureAlg)
    : option AsymmetricSigningKey :=
  match cache with
  | [] => None
  | ((k, a), signer) :: cache =>
      if bool_decide (k = kid ∧ a = alg) then Some signer else cache_get cache kid alg
  end.

(** [Keystore::signer_for_algorithm] *)
Definition signer_for_algorithm (keys : list (JsonWebKey PrivateKey)) (cache : SignerCache)
    (alg : JsonWebSignatureAlg) : option (string * AsymmetricSigningKey) * SignerCache :=
  match signing_key_for_algorithm keys alg with
  | None => (None, cache)
  | Some key =>
      match jwk_kid key with
      | None => (None, cache)
      | Some kid =>
          match cache_get cache kid alg with
          | Some signer => (Some (kid, signer), cache)
          | None =>
              match try_build_signer (jwk_parameters key) alg with
              | None => (None, cache)
              | Some signer => (Some (kid, signer), ((kid, alg), signer) :: cache)
              end
          end
      end
  end.

(** The same without a cache. *)
Definition uncached_signer (keys : list (JsonWebKey PrivateKey)) (alg : JsonWebSignatureAlg)
    : option (string * AsymmetricSigningKey) :=
  key ← signing_key_for_algorithm keys alg;
  kid ← jwk_kid key;
  signer ← try_build_signer (jwk_parameters key) alg;
  Some (kid, signer).

(** The signers asked for, one after the other. *)
Fixpoint signers_for (keys : list (JsonWebKey PrivateKey)) (cache : SignerCache)
    (algs : list JsonWebSignatureAlg) : list (option (string * AsymmetricSigningKey)) :=
  match algs with
  | [] => []
  | alg :: algs =>
      (signer_for_algorithm keys cache alg).1 ::
      signers_for keys (signer_for_algorithm keys cache alg).2 algs
  end.
End keystore.
