(* ===== verification/JoseProofs.v ===== *)
(** Theorems on keys and tokens: the choice of keys, the consistency of their
    metadata, the compact form, and which signatures are accepted. *)
From S2P Require Import Prelude Ids Jose Keystore.

Open Scope Z_scope.

(** ** The choice of keys *)

Section keys.
Context {P : Type} `{ParametersInfo P}.
Implicit Types (k : JsonWebKey P) (cs : list Constraint).

Lemma constraint_score_add cs n k :
  constraint_score cs n k = (λ s, (n + s)%nat) <$> constraint_score cs 0 k.
Proof.
  revert n. induction cs as [|c cs IH]; intros n; simpl; [by rewrite Nat.add_0_r|].
  destruct (Constraint_decide c k); [|by rewrite IH|done].
  rewrite IH, (IH 1%nat), <-option_fmap_compose. apply option_fmap_ext. intros s. simpl. lia.
Qed.

(** A key is compatible when no constraint is negative. *)
Definition compatible cs k : Prop := Forall (λ c, Constraint_decide c k ≠ Negative) cs.

Lemma constraint_score_is_Some cs n k : is_Some (constraint_score cs n k) ↔ compatible cs k.
Proof.
  unfold compatible. revert n. induction cs as [|c cs IH]; intros n; simpl; [by split|].
  rewrite Forall_cons. destruct (Constraint_decide c k) eqn:Hc; rewrite ?IH.
  - naive_solver.
  - naive_solver.
  - split; [by intros []|naive_solver].
Qed.

(** The order in which a set is iterated is not specified: it does not matter. *)
Lemma constraint_score_perm cs cs' n k :
  cs ≡ₚ cs' → constraint_score cs n k = constraint_score cs' n k.
Proof.
  intros Hp. revert n. induction Hp as [|c l l' Hl IH|c c' l|l1 l2 l3 H1 IH1 H2 IH2]; intros n; simpl.
  - done.
  - by destruct (Constraint_decide c k); rewrite ?IH.
  - by destruct (Constraint_decide c k), (Constraint_decide c' k).
  - by rewrite IH1, IH2.
Qed.

Lemma filter_perm cs cs' ks : cs ≡ₚ cs' → ConstraintSet_filter cs ks = ConstraintSet_filter cs' ks.
Proof.
  intros Hp. unfold ConstraintSet_filter. do 2 f_equal.
  apply list_omap_ext. induction ks; constructor; [|done]. by rewrite (constraint_score_perm cs cs').
Qed.

Lemma insert_by_score_perm (x : nat * JsonWebKey P) l : insert_by_score x l ≡ₚ x :: l.
Proof.
  induction l as [|y l IH]; simpl; [done|]. destruct (_ <=? _)%nat; [done|].
  rewrite IH. apply Permutation_swap.
Qed.
Lemma sort_by_score_perm (l : list (nat * JsonWebKey P)) : sort_by_score l ≡ₚ l.
Proof. induction l as [|x l IH]; simpl; [done|]. by rewrite insert_by_score_perm, IH. Qed.

Lemma insert_by_score_sorted (x : nat * JsonWebKey P) l :
  Sorted (λ a b, a.1 ≤ b.1)%nat l → Sorted (λ a b, a.1 ≤ b.1)%nat (insert_by_score x l).
Proof.
  induction l as [|y l IH]; simpl; intros Hs; [by repeat constructor|].
  destruct (Nat.leb_spec x.1 y.1); [by constructor; [done|constructor]|].
  apply Sorted_inv in Hs as [Hs Hy]. constructor; [by apply IH|].
  destruct l as [|z l]; simpl; [constructor; lia|].
  apply HdRel_inv in Hy. destruct (_ <=? _)%nat; constructor; lia.
Qed.
Lemma sort_by_score_sorted (l : list (nat * JsonWebKey P)) :
  Sorted (λ a b, a.1 ≤ b.1)%nat (sort_by_score l).
Proof. induction l; simpl; [constructor|by apply insert_by_score_sorted]. Qed.

(** The last of a sorted list is a greatest one. *)
Lemma sorted_last (l : list (nat * JsonWebKey P)) x :
  Sorted (λ a b, a.1 ≤ b.1)%nat l → last l = Some x → ∀ y, y ∈ l → (y.1 ≤ x.1)%nat.
Proof.
  intros Hs%Sorted_StronglySorted; [|intros ???; simpl; lia].
  induction Hs as [|a l Hs IH Ha]; [done|]. intros Hl y Hy.
  destruct l as [|b l].
  - simplify_eq/=. apply list_elem_of_singleton in Hy as ->. done.
  - simpl in Hl. apply elem_of_cons in Hy as [->|Hy]; [|by apply IH].
    rewrite Forall_forall in Ha. apply (Ha x). change (last (b :: l) = Some x) in Hl.
    by apply last_Some_elem_of.
Qed.

Lemma elem_of_scored cs (ks : list (JsonWebKey P)) s k :
  (s, k) ∈ omap (λ k, (λ s, (s, k)) <$> constraint_score cs 0 k) ks ↔
  k ∈ ks ∧ constraint_score cs 0 k = Some s.
Proof.
  rewrite list_elem_of_omap. split.
  - intros (k' & Hk & (s' & Hs & [= -> ->])%fmap_Some). done.
  - intros [Hk Hs]. exists k. split; [done|]. by rewrite Hs.
Qed.

(** [filter] keeps the compatible keys, each as often as it occurs. *)
Lemma filter_keeps cs ks :
  ConstraintSet_filter cs ks ≡ₚ filter (λ k, is_Some (constraint_score cs 0 k)) ks.
Proof.
  unfold ConstraintSet_filter. rewrite sort_by_score_perm.
  induction ks as [|k ks IH]; [done|]. csimpl.
  destruct (constraint_score cs 0 k) as [s|] eqn:Hs; csimpl.
  - rewrite filter_cons_True by (by rewrite Hs). by rewrite IH.
  - rewrite filter_cons_False; [done|]. rewrite Hs. by intros [].
Qed.

Lemma elem_of_filter_compatible cs ks k :
  k ∈ ConstraintSet_filter cs ks ↔ k ∈ ks ∧ compatible cs k.
Proof.
  rewrite filter_keeps, list_elem_of_filter, constraint_score_is_Some. naive_solver.
Qed.

(** The best key: valid, compatible, and of the highest score. *)
Lemma find_key_Some ks cs k :
  find_key ks cs = Some k →
  k ∈ ks ∧ is_ok (JsonWebKey_validate k) = true ∧
  ∃ s, constraint_score cs 0 k = Some s ∧
    ∀ k' s', k' ∈ ks → is_ok (JsonWebKey_validate k') = true →
             constraint_score cs 0 k' = Some s' → (s' ≤ s)%nat.
Proof.
  unfold find_key, find_keys, ConstraintSet_filter. rewrite fmap_last.
  intros ([s k'] & Hl & ->)%fmap_Some. simpl.
  pose proof (sorted_last _ _ (sort_by_score_sorted _) Hl) as Hmax.
  apply last_Some_elem_of in Hl. rewrite sort_by_score_perm, elem_of_scored in Hl.
  destruct Hl as [[Hv Hk]%list_elem_of_filter Hs]. split_and!; [done..|].
  exists s. split; [done|]. intros k2 s2 Hk2 Hv2 Hs2. apply (Hmax (s2, k2)).
  rewrite sort_by_score_perm, elem_of_scored. split; [|done]. by apply list_elem_of_filter.
Qed.

Lemma find_key_None ks cs :
  find_key ks cs = None →
  ∀ k, k ∈ ks → is_ok (JsonWebKey_validate k) = true → ¬ compatible cs k.
Proof.
  unfold find_key. intros Hl%last_None k Hk Hv Hc.
  assert (k ∈ find_keys ks cs) as Hin.
  { apply elem_of_filter_compatible. split; [|done]. by apply list_elem_of_filter. }
  rewrite Hl in Hin. by apply not_elem_of_nil in Hin.
Qed.

(** The key chosen for some constraints is in the set, consistent with itself,
    contradicts no constraint, and no such key satisfies more of them; no key is
    chosen only if there is no such key. *)
Theorem find_key_best ks cs :
  match find_key ks cs with
  | Some k => k ∈ ks ∧ is_ok (JsonWebKey_validate k) = true ∧
      ∃ s, constraint_score cs 0 k = Some s ∧
        ∀ k' s', k' ∈ ks → is_ok (JsonWebKey_validate k') = true →
                 constraint_score cs 0 k' = Some s' → (s' ≤ s)%nat
  | None => ∀ k, k ∈ ks → is_ok (JsonWebKey_validate k) = true → ¬ compatible cs k
  end.
Proof. destruct (find_key ks cs) eqn:Hf; [by apply find_key_Some|by apply find_key_None]. Qed.

(** ** Metadata *)

(** The capabilities a key claims, by its use, algorithm and operations. *)
Definition key_capabilities (k : JsonWebKey P) : list JsonWebKeyCapability :=
  option_list (jwk_use k ≫= capability_for_use) ++
  option_list (jwk_alg k ≫= capability_for_alg) ++
  omap capability_for_key_op (default [] (jwk_key_ops k)).

Lemma capabilities_differ_false a b :
  capabilities_differ a b = false ↔ ∀ x y, a = Some x → b = Some y → x = y.
Proof.
  destruct a as [x|], b as [y|]; simpl; try naive_solver.
  rewrite bool_decide_eq_false. destruct (decide (x = y)); naive_solver.
Qed.

Lemma is_ok_then {E B} (r : result () E) (f : () → result B E) :
  is_ok (result_bind r f) = is_ok r && is_ok (f tt).
Proof. by destruct r as [[]|]. Qed.

(** The three pairwise checks, on optional metadata. *)
Lemma is_ok_use_op (o : option JsonWebKeyUse) op :
  is_ok match o with Some u => validate_use_and_key_op u op | None => Ok tt end =
  negb (capabilities_differ (o ≫= capability_for_use) (capability_for_key_op op)).
Proof. destruct o as [u|]; [|done]. simpl. unfold validate_use_and_key_op. by case_match. Qed.
Lemma is_ok_alg_op (o : option JsonWebSignatureAlg) op :
  is_ok match o with Some a => validate_alg_and_key_op a op | None => Ok tt end =
  negb (capabilities_differ (o ≫= capability_for_alg) (capability_for_key_op op)).
Proof. destruct o as [u|]; [|done]. simpl. unfold validate_alg_and_key_op. by case_match. Qed.
Lemma is_ok_use_alg (o : option JsonWebKeyUse) alg :
  is_ok match o with Some u => validate_use_and_alg u alg | None => Ok tt end =
  negb (capabilities_differ (o ≫= capability_for_use) (capability_for_alg alg)).
Proof. destruct o as [u|]; [|done]. simpl. unfold validate_use_and_alg. by case_match. Qed.

(** All the values of a list are the same. *)
Definition agree (l : list JsonWebKeyCapability) : Prop := ∀ x y, x ∈ l → y ∈ l → x = y.

Lemma agree_nil : agree [].
Proof. intros x y Hx. by apply not_elem_of_nil in Hx. Qed.
Lemma agree_cons x l : agree (x :: l) ↔ Forall (eq x) l.
Proof.
  unfold agree. rewrite Forall_forall. split; [set_solver|].
  intros Hl a b [->|Ha]%elem_of_cons [->|Hb]%elem_of_cons; try done; [by apply Hl|by symmetry; apply Hl|].
  by rewrite <-(Hl _ Ha), <-(Hl _ Hb).
Qed.

Lemma validate_key_ops_ok k ops seen :
  is_ok (validate_key_ops k ops seen) = true ↔
  Forall (λ op, capabilities_differ (jwk_use k ≫= capability_for_use) (capability_for_key_op op) = false ∧
                capabilities_differ (jwk_alg k ≫= capability_for_alg) (capability_for_key_op op) = false)
    ops ∧
  agree (option_list (fst <$> seen) ++ omap capability_for_key_op ops).
Proof.
  revert seen. induction ops as [|op ops IH]; intros seen; simpl.
  { split; [|done]. intros _. split; [constructor|]. destruct seen as [[c o]|]; simpl;
      [by apply agree_cons|apply agree_nil]. }
  rewrite Forall_cons, !is_ok_then, !andb_true_iff, is_ok_use_op, is_ok_alg_op, !negb_true_iff.
  destruct (capability_for_key_op op) as [cap|] eqn:Hcap; [|rewrite IH; naive_solver].
  destruct seen as [[prev pop]|]; simpl.
  - case_bool_decide as Hd; simpl.
    + split; [naive_solver|]. intros (_ & Ha). rewrite agree_cons, Forall_cons in Ha. naive_solver.
    + rewrite IH. simpl. rewrite !agree_cons, Forall_cons. naive_solver.
  - rewrite IH. simpl. naive_solver.
Qed.

Lemma agree_Forall x l : Forall (eq x) l → agree l.
Proof. intros Hf a b Ha Hb. rewrite Forall_forall in Hf. by rewrite <-(Hf _ Ha), <-(Hf _ Hb). Qed.

Lemma agree_options u a l :
  agree (option_list u ++ option_list a ++ l) ↔
  capabilities_differ u a = false ∧ (∀ x, u = Some x → Forall (eq x) l) ∧
  (∀ x, a = Some x → Forall (eq x) l) ∧ agree l.
Proof.
  pose proof (agree_Forall) as Hf. rewrite capabilities_differ_false.
  destruct u as [x|], a as [y|]; simpl; rewrite ?agree_cons, ?Forall_cons; naive_solver.
Qed.

Lemma differ_Forall o ops :
  Forall (λ op, capabilities_differ o (capability_for_key_op op) = false) ops ↔
  ∀ x, o = Some x → Forall (eq x) (omap capability_for_key_op ops).
Proof.
  setoid_rewrite capabilities_differ_false. setoid_rewrite Forall_forall.
  setoid_rewrite list_elem_of_omap. naive_solver.
Qed.

(** A key is accepted exactly when its algorithm fits its type and its use,
    algorithm and operations all claim the same capability. *)
Lemma validate_iff k :
  is_ok (JsonWebKey_validate k) = true ↔
  (∀ alg, jwk_alg k = Some alg → alg ∈ possible_algs (jwk_parameters k)) ∧
  agree (key_capabilities k).
Proof.
  assert (is_ok match jwk_key_ops k with Some ops => validate_key_ops k ops None | None => Ok tt end
          = is_ok (validate_key_ops k (default [] (jwk_key_ops k)) None)) as Hops
    by (by destruct (jwk_key_ops k)).
  unfold JsonWebKey_validate, key_capabilities.
  rewrite is_ok_then, andb_true_iff, agree_options, Hops, validate_key_ops_ok, Forall_and, !differ_Forall.
  clear Hops. simpl. destruct (jwk_alg k) as [alg|]; simpl.
  - case_bool_decide as Hin; simpl; [naive_solver|].
    rewrite is_ok_use_alg, negb_true_iff. naive_solver.
  - destruct (jwk_use k ≫= capability_for_use); naive_solver.
Qed.
End keys.

(** ** The compact form *)

Lemma dot_indices_no_dot i s : no_char "."%char s → dot_indices i s = [].
Proof.
  revert i. induction s as [|c s IH]; intros i; [done|]. rewrite no_char_cons. intros [Hc Hs].
  simpl. rewrite bool_decide_eq_false_2 by done. by apply IH.
Qed.
Lemma dot_indices_sep i w s :
  no_char "."%char w →
  dot_indices i (w +:+ String "." s) =
    (i + String.length w)%nat :: dot_indices (S (i + String.length w)) s.
Proof.
  revert i. induction w as [|c w IH]; intros i.
  - intros _. rewrite str_app_nil_l. simpl. by rewrite Nat.add_0_r.
  - rewrite no_char_cons. intros [Hc Hw]. rewrite str_app_cons. simpl.
    rewrite bool_decide_eq_false_2, IH by done. by rewrite Nat.add_succ_r.
Qed.

Lemma substring_app_l w s : String.substring 0 (String.length w) (w +:+ s) = w.
Proof. induction w as [|c w IH]; [by destruct s|]. rewrite str_app_cons. simpl. by rewrite IH. Qed.
Lemma substring_app_r w s n m :
  String.substring (String.length w + n) m (w +:+ s) = String.substring n m s.
Proof. induction w as [|c w IH]; [done|]. rewrite str_app_cons. done. Qed.
Lemma substring_full s : String.substring 0 (String.length s) s = s.
Proof. pose proof (substring_app_l s EmptyString) as Hs. by rewrite str_app_nil_r in Hs. Qed.

(** The token [h.p.s], with the positions of its dots. *)
Definition compact (h p s : string) : RawJwt := {|
  raw_inner := h +:+ String "." (p +:+ String "." s);
  raw_first_dot := String.length h;
  raw_second_dot := S (String.length h + String.length p) |}.

Lemma compact_parts h p s :
  RawJwt_header (compact h p s) = h ∧ RawJwt_payload (compact h p s) = p ∧
  RawJwt_signature (compact h p s) = s ∧
  RawJwt_signed_part (compact h p s) = h +:+ String "." p.
Proof.
  unfold RawJwt_header, RawJwt_payload, RawJwt_signature, RawJwt_signed_part, str_slice, compact.
  cbn [raw_inner raw_first_dot raw_second_dot]. split_and!.
  - rewrite Nat.sub_0_r. apply substring_app_l.
  - replace (S (String.length h + String.length p) - (String.length h + 1))%nat
      with (String.length p) by lia.
    rewrite (substring_app_r h (String "." _) 1). simpl. apply substring_app_l.
  - replace (S (String.length h + String.length p) + 1)%nat
      with (String.length h + S (String.length p + 1))%nat by lia.
    rewrite substring_app_r. simpl. rewrite (substring_app_r p (String "." s) 1). simpl.
    rewrite str_length_app. simpl. rewrite str_length_app. simpl.
    replace (_ - _)%nat with (String.length s) by lia. apply substring_full.
  - rewrite Nat.sub_0_r.
    replace (h +:+ String "." (p +:+ String "." s)) with ((h +:+ String "." p) +:+ String "." s)
      by (by rewrite str_app_assoc).
    replace (S (String.length h + String.length p)) with (String.length (h +:+ String "." p))
      by (rewrite str_length_app; simpl; lia).
    apply substring_app_l.
Qed.

Lemma RawJwt_try_from_compact h p s :
  no_char "."%char h → no_char "."%char p → no_char "."%char s →
  RawJwt_try_from (raw_inner (compact h p s)) = Ok (compact h p s).
Proof.
  intros Hh Hp Hs. unfold RawJwt_try_from, compact. cbn [raw_inner].
  rewrite dot_indices_sep, dot_indices_sep, dot_indices_no_dot by done. done.
Qed.

(** A text is split exactly when it is three parts without dots, which are
    then the header, the payload and the signature. *)
Lemma RawJwt_try_from_iff t r :
  RawJwt_try_from t = Ok r ↔
  ∃ h p s, no_char "."%char h ∧ no_char "."%char p ∧ no_char "."%char s ∧
    r = compact h p s ∧ t = raw_inner r.
Proof.
  split; [|intros (h & p & s & ? & ? & ? & -> & ->); by apply RawJwt_try_from_compact].
  pose proof (split_no_char "."%char t) as Hn. pose proof (split_char_not_nil "."%char t) as H0.
  rewrite <-(join_split "."%char t).
  destruct (split_char "."%char t) as [|h [|p [|s [|x l]]]]; [done|..];
    rewrite !Forall_cons in Hn; destruct_and? Hn; simpl; unfold RawJwt_try_from.
  - rewrite dot_indices_no_dot by done. done.
  - rewrite dot_indices_sep, dot_indices_no_dot by done. done.
  - intros Hr. change (RawJwt_try_from (raw_inner (compact h p s)) = Ok r) in Hr.
    rewrite RawJwt_try_from_compact in Hr by done. injection Hr as <-. by exists h, p, s.
  - rewrite !dot_indices_sep by done. done.
Qed.

(** ** Signatures *)

Section jwt.
Context {JX : JoseExternals}.

Definition key_verifies (j : Jwt) (k : JsonWebKey JsonWebKeyPublicParameters) : bool :=
  key_suitable (jwk_parameters k) (header_alg (Jwt_header j)) &&
  verifying_key_parses (jwk_parameters k) &&
  asymmetric_verify (header_alg (Jwt_header j)) (jwk_parameters k)
    (RawJwt_signed_part (Jwt_raw j)) (Jwt_signature j).

Lemma try_candidates_true j ks : try_candidates j ks = true ↔ ∃ k, k ∈ ks ∧ key_verifies j k = true.
Proof.
  induction ks as [|k ks IH]; simpl.
  - split; [done|]. intros (k & Hk & _). by apply not_elem_of_nil in Hk.
  - setoid_rewrite elem_of_cons. unfold key_verifies, from_jwk_and_alg, Jwt_verify.
    destruct (key_suitable _ _ && verifying_key_parses _) eqn:Hs; simpl.
    + destruct (asymmetric_verify _ _ _ _) eqn:Hv; [|rewrite IH; unfold key_verifies].
      * split; [|done]. intros _. exists k. rewrite Hs, Hv. naive_solver.
      * split; [naive_solver|]. intros (k' & [->|Hk'] & Hv'); [|naive_solver].
        rewrite Hs, Hv in Hv'. done.
    + rewrite IH. unfold key_verifies. split; [naive_solver|].
      intros (k' & [->|Hk'] & Hv'); [|naive_solver]. by rewrite Hs in Hv'.
Qed.

(** What the header of a token asks of a key. *)
Definition header_admits (h : JsonWebSignatureHeader) (k : JsonWebKey JsonWebKeyPublicParameters)
    : Prop :=
  (match jwk_alg k with
   | Some a => a = header_alg h
   | None => header_alg h ∈ possible_algs (jwk_parameters k)
   end) ∧
  ∀ kid kid', header_kid h = Some kid → jwk_kid k = Some kid' → kid' = kid.

Lemma header_compatible h k : compatible (header_constraints h) k ↔ header_admits h k.
Proof.
  unfold compatible, header_constraints, header_admits. rewrite Forall_cons. f_equiv.
  - simpl. destruct (jwk_alg k); unfold decision_of; case_bool_decide; naive_solver.
  - destruct (header_kid h) as [kid|]; [|split; [done|constructor]].
    rewrite Forall_singleton. simpl. destruct (jwk_kid k) as [kid'|]; [|naive_solver].
    unfold decision_of. case_bool_decide; naive_solver.
Qed.

Lemma verify_with_jwks_true j jwks :
  verify_with_jwks j jwks = true ↔
  ∃ k, k ∈ jwks ∧ header_admits (Jwt_header j) k ∧ key_verifies j k = true.
Proof.
  unfold verify_with_jwks. rewrite try_candidates_true.
  setoid_rewrite elem_of_filter_compatible. setoid_rewrite header_compatible. naive_solver.
Qed.

Definition asymmetric_algs : list JsonWebSignatureAlg :=
  RSA_COMPATIBLE_ALGS ++ [Es256; Es384; Es512; Es256K; EdDsa].

Lemma key_suitable_asymmetric params alg : key_suitable params alg = true → alg ∈ asymmetric_algs.
Proof.
  destruct params as [n e|[]|[]], alg; simpl; try done; intros _;
    apply (bool_decide_eq_true _); vm_compute; done.
Qed.

(** A signature is accepted against a key set exactly if a key the header admits
    verifies it, and then its algorithm is an asymmetric one; it is accepted
    against a shared secret only for an HMAC algorithm. So a token cannot choose
    the kind of key it is checked with, and an unsigned one is never accepted. *)
Theorem signature_accepted j jwks secret :
  (verify_with_jwks j jwks = true ↔
   ∃ k, k ∈ jwks ∧ header_admits (Jwt_header j) k ∧ key_verifies j k = true) ∧
  (verify_with_jwks j jwks = true → header_alg (Jwt_header j) ∈ asymmetric_algs) ∧
  (verify_with_shared_secret j secret = true →
   header_alg (Jwt_header j) ∈ [Hs256; Hs384; Hs512]).
Proof.
  split_and!; [apply verify_with_jwks_true| |].
  - rewrite verify_with_jwks_true. intros (k & _ & _ & Hv). unfold key_verifies in Hv.
    rewrite !andb_true_iff in Hv. by eapply key_suitable_asymmetric, Hv.
  - unfold verify_with_shared_secret, symmetric_alg. destruct (header_alg _); simpl; try done; set_solver.
Qed.
End jwt.

(** ** Signing *)

(** What the codecs and the cryptography promise. *)
Class JoseExternalsOk (JX : JoseExternals) (KX : KeystoreExternals) : Prop := {
  header_codec h t : header_to_b64url h = Some t →
    no_char "."%char t ∧ base64_decoder_new t = true ∧ header_from_reader t = Some h;
  claims_codec c t : claims_to_b64url c = Some t →
    no_char "."%char t ∧ base64_decoder_new t = true ∧ claims_from_reader t = Some c;
  base64_codec bs : no_char "."%char (base64_encode bs) ∧
    base64_decode_vec (base64_encode bs) = Some bs;
  sign_verify alg k signer msg rng sig rng' :
    try_build_signer k alg = Some signer →
    asymmetric_sign alg k msg rng = (Some sig, rng') →
    verifying_key_parses (public_parameters_from k) = true ∧
    asymmetric_verify alg (public_parameters_from k) msg sig = true;
}.

Section signing.
Context (JX : JoseExternals) (KX : KeystoreExternals).

(** The tokens the server makes have the compact form. *)
Lemma sign_with_rng_inv sign h c rng j rng' :
  sign_with_rng sign h c rng = (Ok j, rng') →
  ∃ th tc sig, header_to_b64url h = Some th ∧ claims_to_b64url c = Some tc ∧
    sign (th +:+ String "." tc) rng = (Some sig, rng') ∧
    j = {| Jwt_raw := compact th tc (base64_encode sig); Jwt_header := h;
           Jwt_payload := c; Jwt_signature := sig |}.
Proof.
  unfold sign_with_rng. destruct (header_to_b64url h) as [th|] eqn:Hh; [|done].
  destruct (claims_to_b64url c) as [tc|] eqn:Hc; [|done].
  change (th +:+ "." +:+ tc) with (th +:+ String "." tc).
  destruct (sign (th +:+ String "." tc) rng) as [[sig|] rng1] eqn:Hs; [|done]. intros [= <- <-].
  exists th, tc, sig. split_and!; [done..|]. f_equal. unfold compact. f_equal.
  - change ("." +:+ base64_encode sig) with (String "." (base64_encode sig)).
    by rewrite str_app_assoc.
  - rewrite str_length_app. simpl. lia.
Qed.

Lemma signed_decodes (OK : JoseExternalsOk JX KX) sign h c rng j rng' :
  sign_with_rng sign h c rng = (Ok j, rng') → Jwt_try_from (Jwt_into_string j) = Ok j.
Proof.
  intros (th & tc & sig & Hh & Hc & _ & ->)%sign_with_rng_inv.
  apply header_codec in Hh as (Hh1 & Hh2 & Hh3); apply claims_codec in Hc as (Hc1 & Hc2 & Hc3).
  destruct (base64_codec sig) as [Hs1 Hs2].
  unfold Jwt_try_from, Jwt_into_string. cbn [Jwt_raw].
  rewrite RawJwt_try_from_compact by done. cbn [result_map_err result_bind].
  unfold parse_compact_parts. destruct (compact_parts th tc (base64_encode sig)) as (-> & -> & -> & _).
  by rewrite Hh2, Hh3, Hc2, Hc3, Hs2.
Qed.

Lemma possible_algs_public k : possible_algs (public_parameters_from k) = possible_algs k.
Proof. by destruct k. Qed.
Lemma try_build_signer_Some k alg signer :
  try_build_signer k alg = Some signer →
  signer = {| sk_alg := alg; sk_key := k |} ∧ key_suitable (public_parameters_from k) alg = true.
Proof. destruct k, alg; intros [=]; by subst. Qed.

Lemma uncached_signer_inv keys alg kid signer :
  uncached_signer keys alg = Some (kid, signer) →
  ∃ key, key ∈ keys ∧ jwk_kid key = Some kid ∧
    try_build_signer (jwk_parameters key) alg = Some signer ∧
    match jwk_alg key with
    | Some a => a = alg
    | None => alg ∈ possible_algs (jwk_parameters key)
    end ∧ (∀ u, jwk_use key = Some u → u = Use_Sig).
Proof.
  unfold uncached_signer, signing_key_for_algorithm. intros (key & Hk & Hs)%bind_Some.
  apply bind_Some in Hs as (kid' & Hkid & Hs). apply bind_Some in Hs as (s & Hb & [= -> ->]).
  apply find_key_Some in Hk as (Hk & _ & n & Hn & _). exists key.
  assert (is_Some (constraint_score [Constraint_Alg alg; Constraint_Use Use_Sig] 0 key)) as Hc
    by (by rewrite Hn).
  apply constraint_score_is_Some in Hc. unfold compatible in Hc.
  rewrite Forall_cons, Forall_singleton in Hc. destruct Hc as [Ha Hu]. simpl in Ha, Hu.
  split_and!; [done..| |].
  - destruct (jwk_alg key); unfold decision_of in Ha; by case_bool_decide.
  - destruct (jwk_use key); unfold decision_of in Hu; case_bool_decide; naive_solver.
Qed.

Lemma signed_verifies (OK : JoseExternalsOk JX KX) keys alg kid signer c rng j rng' :
  uncached_signer keys alg = Some (kid, signer) →
  sign_with_rng (asymmetric_sign (sk_alg signer) (sk_key signer))
    {| header_alg := alg; header_kid := Some kid |} c rng = (Ok j, rng') →
  verify_with_jwks j (public_jwks keys) = true.
Proof.
  intros (key & Hk & Hkid & Hb & Ha & _)%uncached_signer_inv.
  pose proof (try_build_signer_Some _ _ _ Hb) as [-> Hsuit]. cbn [sk_alg sk_key].
  intros (th & tc & sig & _ & _ & Hs & ->)%sign_with_rng_inv.
  destruct (sign_verify _ _ _ _ _ _ _ Hb Hs) as [Hp Hv].
  apply verify_with_jwks_true. exists (cloned_map public_parameters_from key). split_and!.
  - by apply list_elem_of_fmap_2.
  - split; [|simpl; naive_solver].
    cbn [jwk_alg jwk_parameters cloned_map Jwt_header header_alg]. by rewrite possible_algs_public.
  - unfold key_verifies. cbn [jwk_parameters cloned_map Jwt_header header_alg Jwt_raw Jwt_signature].
    destruct (compact_parts th tc (base64_encode sig)) as (_ & _ & _ & ->). by rewrite Hsuit, Hp, Hv.
Qed.

(** ** The cache of signers *)

Definition cache_sound keys (cache : SignerCache) : Prop :=
  ∀ kid alg s, cache_get cache kid alg = Some s → uncached_signer keys alg = Some (kid, s).

Lemma signer_for_algorithm_sound keys cache alg :
  cache_sound keys cache →
  (signer_for_algorithm keys cache alg).1 = uncached_signer keys alg ∧
  cache_sound keys (signer_for_algorithm keys cache alg).2.
Proof.
  intros Hc. unfold signer_for_algorithm.
  destruct (signing_key_for_algorithm keys alg) as [key|] eqn:Hk;
    [|unfold uncached_signer; by rewrite Hk].
  destruct (jwk_kid key) as [kid|] eqn:Hkid; [|unfold uncached_signer; by rewrite Hk; simpl; rewrite Hkid].
  destruct (cache_get cache kid alg) as [s|] eqn:Hg; [by apply Hc in Hg as ->|].
  destruct (try_build_signer (jwk_parameters key) alg) as [s|] eqn:Hb.
  - assert (uncached_signer keys alg = Some (kid, s)) as Hu.
    { unfold uncached_signer. rewrite Hk. simpl. rewrite Hkid. simpl. by rewrite Hb. }
    split; [done|]. intros kid' alg' s'. simpl. case_bool_decide as Hd; [|by apply Hc].
    destruct Hd as [<- <-]. intros [= <-]. done.
  - unfold uncached_signer. rewrite Hk. simpl. rewrite Hkid. simpl. by rewrite Hb.
Qed.

Lemma signers_for_uncached keys cache algs :
  cache_sound keys cache → signers_for keys cache algs = uncached_signer keys <$> algs.
Proof.
  revert cache. induction algs as [|alg algs IH]; intros cache Hc; [done|]. simpl.
  destruct (signer_for_algorithm_sound keys cache alg Hc) as [-> Hc']. by rewrite IH.
Qed.

(** The cache of signers is transparent: whatever algorithms are asked for, in
    whichever order, the signers given out are those of the best signing keys of
    the store. *)
Theorem signer_cache_transparent keys algs : signers_for keys [] algs = uncached_signer keys <$> algs.
Proof. by apply signers_for_uncached. Qed.
End signing.
