(* ===== verification/Domain.v ===== *)
(** The domain model: the values and state machines of crates/data/src.

    tokens.rs, oauth2/{authorization_grant,device_code_grant,session,client}.rs,
    personal/{mod,session}.rs and users.rs. Every transition is the method of
    the source, with its [InvalidTransitionError]; the legal steps of the grant
    machines are given again as step relations, and the methods refine them. *)
From S2P Require Import Prelude Ids Scope Pkce Jose.

Open Scope Z_scope.

(** [oauth2_types::scope::Scope] *)
Abbreviation ScopeSet := (gset string) (only parsing).

(** The parts of the [url] crate the source calls. *)
Class UrlExternals := {
  url_parse : string → option string;
  url_host_str : string → option string;
  (** [set_port(None)] *)
  url_set_port_none : string → option string;
}.

(** [InvalidTransitionError] *)
Inductive InvalidTransitionError := InvalidTransition.

(** ** Access tokens *)

Inductive AccessTokenState :=
| AccessToken_Valid
| AccessToken_Revoked (revoked_at : DateTime).

Definition AccessTokenState_revoke (self : AccessTokenState) (revoked_at : DateTime)
    : result AccessTokenState InvalidTransitionError :=
  match self with
  | AccessToken_Valid => Ok (AccessToken_Revoked revoked_at)
  | AccessToken_Revoked _ => Err InvalidTransition
  end.

Definition AccessTokenState_is_valid (self : AccessTokenState) : bool :=
  match self with AccessToken_Valid => true | AccessToken_Revoked _ => false end.

Definition AccessTokenState_is_revoked (self : AccessTokenState) : bool :=
  match self with AccessToken_Revoked _ => true | AccessToken_Valid => false end.

Record AccessToken := {
  AccessToken_id : Ulid;
  AccessToken_state : AccessTokenState;
  AccessToken_session_id : Ulid;
  AccessToken_access_token : string;
  AccessToken_created_at : DateTime;
  AccessToken_expires_at : option DateTime;
  AccessToken_first_used_at : option DateTime;
}.

Definition AccessToken_is_expired (self : AccessToken) (now : DateTime) : bool :=
  match AccessToken_expires_at self with
  | Some expires_at => expires_at <? now
  | None => false
  end.

Definition AccessToken_is_valid (self : AccessToken) (now : DateTime) : bool :=
  AccessTokenState_is_valid (AccessToken_state self) && negb (AccessToken_is_expired self now).

Definition AccessToken_is_used (self : AccessToken) : bool :=
  bool_decide (is_Some (AccessToken_first_used_at self)).

Definition AccessToken_revoke (self : AccessToken) (revoked_at : DateTime)
    : result AccessToken InvalidTransitionError :=
  result_bind (AccessTokenState_revoke (AccessToken_state self) revoked_at) (λ state,
  Ok {| AccessToken_id := AccessToken_id self;
        AccessToken_state := state;
        AccessToken_session_id := AccessToken_session_id self;
        AccessToken_access_token := AccessToken_access_token self;
        AccessToken_created_at := AccessToken_created_at self;
        AccessToken_expires_at := AccessToken_expires_at self;
        AccessToken_first_used_at := AccessToken_first_used_at self |}).

(** ** Refresh tokens *)

Inductive RefreshTokenState :=
| RefreshToken_Valid
| RefreshToken_Consumed (consumed_at : DateTime) (next_refresh_token_id : option Ulid)
| RefreshToken_Revoked (revoked_at : DateTime).

Record RefreshToken := {
  RefreshToken_id : Ulid;
  RefreshToken_state : RefreshTokenState;
  RefreshToken_refresh_token : string;
  RefreshToken_session_id : Ulid;
  RefreshToken_created_at : DateTime;
  RefreshToken_access_token_id : option Ulid;
}.

Definition RefreshTokenState_consume (self : RefreshTokenState) (consumed_at : DateTime)
    (replaced_by : RefreshToken) : result RefreshTokenState InvalidTransitionError :=
  match self with
  | RefreshToken_Valid | RefreshToken_Consumed _ _ =>
      Ok (RefreshToken_Consumed consumed_at (Some (RefreshToken_id replaced_by)))
  | RefreshToken_Revoked _ => Err InvalidTransition
  end.

Definition RefreshTokenState_revoke (self : RefreshTokenState) (revoked_at : DateTime)
    : result RefreshTokenState InvalidTransitionError :=
  match self with
  | RefreshToken_Valid => Ok (RefreshToken_Revoked revoked_at)
  | RefreshToken_Consumed _ _ | RefreshToken_Revoked _ => Err InvalidTransition
  end.

Definition RefreshTokenState_is_valid (self : RefreshTokenState) : bool :=
  match self with RefreshToken_Valid => true | _ => false end.

Definition RefreshTokenState_next_refresh_token_id (self : RefreshTokenState) : option Ulid :=
  match self with
  | RefreshToken_Valid | RefreshToken_Revoked _ => None
  | RefreshToken_Consumed _ next_refresh_token_id => next_refresh_token_id
  end.

(** Replace the state of a token, the other fields kept. *)
Definition RefreshToken_with_state (self : RefreshToken) (state : RefreshTokenState) : RefreshToken :=
  {| RefreshToken_id := RefreshToken_id self;
     RefreshToken_state := state;
     RefreshToken_refresh_token := RefreshToken_refresh_token self;
     RefreshToken_session_id := RefreshToken_session_id self;
     RefreshToken_created_at := RefreshToken_created_at self;
     RefreshToken_access_token_id := RefreshToken_access_token_id self |}.

Definition RefreshToken_consume (self : RefreshToken) (consumed_at : DateTime)
    (replaced_by : RefreshToken) : result RefreshToken InvalidTransitionError :=
  result_bind (RefreshTokenState_consume (RefreshToken_state self) consumed_at replaced_by)
    (λ state, Ok (RefreshToken_with_state self state)).

Definition RefreshToken_revoke (self : RefreshToken) (revoked_at : DateTime)
    : result RefreshToken InvalidTransitionError :=
  result_bind (RefreshTokenState_revoke (RefreshToken_state self) revoked_at)
    (λ state, Ok (RefreshToken_with_state self state)).

(** ** OAuth 2.0 sessions *)

Inductive SessionState :=
| Session_Valid
| Session_Finished (finished_at : DateTime).

Definition SessionState_is_valid (self : SessionState) : bool :=
  match self with Session_Valid => true | Session_Finished _ => false end.

Definition SessionState_is_finished (self : SessionState) : bool :=
  match self with Session_Finished _ => true | Session_Valid => false end.

Definition SessionState_finish (self : SessionState) (finished_at : DateTime)
    : result SessionState InvalidTransitionError :=
  match self with
  | Session_Valid => Ok (Session_Finished finished_at)
  | Session_Finished _ => Err InvalidTransition
  end.

Definition SessionState_finished_at (self : SessionState) : option DateTime :=
  match self with
  | Session_Valid => None
  | Session_Finished finished_at => Some finished_at
  end.

Record Session := {
  Session_id : Ulid;
  Session_state : SessionState;
  Session_created_at : DateTime;
  Session_user_id : option Ulid;
  Session_user_session_id : option Ulid;
  Session_client_id : Ulid;
  Session_scope : ScopeSet;
  Session_user_agent : option string;
  Session_last_active_at : option DateTime;
  Session_last_active_ip : option IpAddr;
  Session_human_name : option string;
}.

Definition Session_is_valid (self : Session) : bool := SessionState_is_valid (Session_state self).

Definition Session_finish (self : Session) (finished_at : DateTime)
    : result Session InvalidTransitionError :=
  result_bind (SessionState_finish (Session_state self) finished_at) (λ state,
  Ok {| Session_id := Session_id self;
        Session_state := state;
        Session_created_at := Session_created_at self;
        Session_user_id := Session_user_id self;
        Session_user_session_id := Session_user_session_id self;
        Session_client_id := Session_client_id self;
        Session_scope := Session_scope self;
        Session_user_agent := Session_user_agent self;
        Session_last_active_at := Session_last_active_at self;
        Session_last_active_ip := Session_last_active_ip self;
        Session_human_name := Session_human_name self |}).

(** ** Users and browser sessions *)

Record User := {
  User_id : Ulid;
  User_username : string;
  User_sub : string;
  User_created_at : DateTime;
  User_updated_at : DateTime;
  User_locked_at : option DateTime;
  User_deactivated_at : option DateTime;
  User_can_request_admin : bool;
  User_is_guest : bool;
  User_display_name : option string;
  User_avatar_url : option string;
  User_preferred_locale : option string;
}.

Definition User_is_valid (self : User) : bool :=
  bool_decide (User_locked_at self = None) && bool_decide (User_deactivated_at self = None).

Definition User_is_valid_actor (self : User) : bool :=
  bool_decide (User_deactivated_at self = None).

Inductive AuthenticationMethod :=
| AuthenticationMethod_Password (user_password_id : Ulid)
| AuthenticationMethod_UpstreamOAuth2 (upstream_oauth2_session_id : Ulid)
| AuthenticationMethod_Unknown.

Record Authentication := {
  Authentication_id : Ulid;
  Authentication_created_at : DateTime;
  Authentication_authentication_method : AuthenticationMethod;
}.

Record BrowserSession := {
  BrowserSession_id : Ulid;
  BrowserSession_user : User;
  BrowserSession_created_at : DateTime;
  BrowserSession_finished_at : option DateTime;
  BrowserSession_user_agent : option string;
  BrowserSession_last_active_at : option DateTime;
  BrowserSession_last_active_ip : option IpAddr;
}.

Definition BrowserSession_active (self : BrowserSession) : bool :=
  bool_decide (BrowserSession_finished_at self = None) && User_is_valid (BrowserSession_user self).

(** ** Registration tokens *)

Record UserRegistrationToken := {
  UserRegistrationToken_id : Ulid;
  UserRegistrationToken_token : string;
  UserRegistrationToken_usage_limit : option Z;
  UserRegistrationToken_times_used : Z;
  UserRegistrationToken_created_at : DateTime;
  UserRegistrationToken_last_used_at : option DateTime;
  UserRegistrationToken_expires_at : option DateTime;
  UserRegistrationToken_revoked_at : option DateTime;
}.

Definition UserRegistrationToken_is_valid (self : UserRegistrationToken) (now : DateTime) : bool :=
  if bool_decide (is_Some (UserRegistrationToken_revoked_at self)) then false
  else if match UserRegistrationToken_expires_at self with
          | Some expires_at => expires_at <=? now
          | None => false
          end then false
  else if match UserRegistrationToken_usage_limit self with
          | Some usage_limit => usage_limit <=? UserRegistrationToken_times_used self
          | None => false
          end then false
  else true.

(** ** Authorization grants *)

Record AuthorizationCode := {
  AuthorizationCode_code : string;
  AuthorizationCode_pkce : option Pkce;
}.

Inductive ResponseMode :=
| ResponseMode_Query
| ResponseMode_Fragment
| ResponseMode_FormPost
| ResponseMode_Unknown (value : string).

#[export] Instance ResponseMode_eq_dec : EqDecision ResponseMode.
Proof. solve_decision. Defined.

Definition ResponseMode_to_string (m : ResponseMode) : string :=
  match m with
  | ResponseMode_Query => "query"
  | ResponseMode_Fragment => "fragment"
  | ResponseMode_FormPost => "form_post"
  | ResponseMode_Unknown s => s
  end.

(** [FromStr] of the generated enum; it cannot fail. *)
Definition ResponseMode_from_str (s : string) : ResponseMode :=
  if bool_decide (s = "query") then ResponseMode_Query
  else if bool_decide (s = "fragment") then ResponseMode_Fragment
  else if bool_decide (s = "form_post") then ResponseMode_FormPost
  else ResponseMode_Unknown s.

Inductive AuthorizationGrantStage :=
| Grant_Pending
| Grant_Fulfilled (session_id : Ulid) (fulfilled_at : DateTime)
| Grant_Exchanged (session_id : Ulid) (fulfilled_at exchanged_at : DateTime)
| Grant_Cancelled (cancelled_at : DateTime).

Definition AuthorizationGrantStage_fulfill (self : AuthorizationGrantStage)
    (fulfilled_at : DateTime) (session : Session)
    : result AuthorizationGrantStage InvalidTransitionError :=
  match self with
  | Grant_Pending => Ok (Grant_Fulfilled (Session_id session) fulfilled_at)
  | _ => Err InvalidTransition
  end.

Definition AuthorizationGrantStage_exchange (self : AuthorizationGrantStage)
    (exchanged_at : DateTime) : result AuthorizationGrantStage InvalidTransitionError :=
  match self with
  | Grant_Fulfilled session_id fulfilled_at =>
      Ok (Grant_Exchanged session_id fulfilled_at exchanged_at)
  | _ => Err InvalidTransition
  end.

Definition AuthorizationGrantStage_cancel (self : AuthorizationGrantStage)
    (cancelled_at : DateTime) : result AuthorizationGrantStage InvalidTransitionError :=
  match self with
  | Grant_Pending => Ok (Grant_Cancelled cancelled_at)
  | _ => Err InvalidTransition
  end.

Definition AuthorizationGrantStage_is_pending (self : AuthorizationGrantStage) : bool :=
  match self with Grant_Pending => true | _ => false end.

Record AuthorizationGrant := {
  AuthorizationGrant_id : Ulid;
  AuthorizationGrant_stage : AuthorizationGrantStage;
  AuthorizationGrant_code : option AuthorizationCode;
  AuthorizationGrant_client_id : Ulid;
  AuthorizationGrant_redirect_uri : Url;
  AuthorizationGrant_raw_redirect_uri : string;
  AuthorizationGrant_scope : ScopeSet;
  AuthorizationGrant_state : option string;
  AuthorizationGrant_nonce : option string;
  AuthorizationGrant_response_mode : ResponseMode;
  AuthorizationGrant_response_type_id_token : bool;
  AuthorizationGrant_created_at : DateTime;
  AuthorizationGrant_login_hint : option string;
  AuthorizationGrant_locale : option string;
}.

Definition AuthorizationGrant_with_stage (self : AuthorizationGrant)
    (stage : AuthorizationGrantStage) : AuthorizationGrant :=
  {| AuthorizationGrant_id := AuthorizationGrant_id self;
     AuthorizationGrant_stage := stage;
     AuthorizationGrant_code := AuthorizationGrant_code self;
     AuthorizationGrant_client_id := AuthorizationGrant_client_id self;
     AuthorizationGrant_redirect_uri := AuthorizationGrant_redirect_uri self;
     AuthorizationGrant_raw_redirect_uri := AuthorizationGrant_raw_redirect_uri self;
     AuthorizationGrant_scope := AuthorizationGrant_scope self;
     AuthorizationGrant_state := AuthorizationGrant_state self;
     AuthorizationGrant_nonce := AuthorizationGrant_nonce self;
     AuthorizationGrant_response_mode := AuthorizationGrant_response_mode self;
     AuthorizationGrant_response_type_id_token := AuthorizationGrant_response_type_id_token self;
     AuthorizationGrant_created_at := AuthorizationGrant_created_at self;
     AuthorizationGrant_login_hint := AuthorizationGrant_login_hint self;
     AuthorizationGrant_locale := AuthorizationGrant_locale self |}.

Definition AuthorizationGrant_exchange (self : AuthorizationGrant) (exchanged_at : DateTime)
    : result AuthorizationGrant InvalidTransitionError :=
  result_bind (AuthorizationGrantStage_exchange (AuthorizationGrant_stage self) exchanged_at)
    (λ stage, Ok (AuthorizationGrant_with_stage self stage)).

Definition AuthorizationGrant_fulfill (self : AuthorizationGrant) (fulfilled_at : DateTime)
    (session : Session) : result AuthorizationGrant InvalidTransitionError :=
  result_bind (AuthorizationGrantStage_fulfill (AuthorizationGrant_stage self) fulfilled_at session)
    (λ stage, Ok (AuthorizationGrant_with_stage self stage)).

Definition AuthorizationGrant_cancel (self : AuthorizationGrant) (canceld_at : DateTime)
    : result AuthorizationGrant InvalidTransitionError :=
  result_bind (AuthorizationGrantStage_cancel (AuthorizationGrant_stage self) canceld_at)
    (λ stage, Ok (AuthorizationGrant_with_stage self stage)).

(** ** Device code grants *)

Inductive DeviceCodeGrantState :=
| Device_Pending
| Device_Fulfilled (browser_session_id : Ulid) (fulfilled_at : DateTime)
| Device_Rejected (browser_session_id : Ulid) (rejected_at : DateTime)
| Device_Exchanged (browser_session_id : Ulid) (fulfilled_at exchanged_at : DateTime)
    (session_id : Ulid).

Definition DeviceCodeGrantState_fulfill (self : DeviceCodeGrantState)
    (browser_session : BrowserSession) (fulfilled_at : DateTime)
    : result DeviceCodeGrantState InvalidTransitionError :=
  match self with
  | Device_Pending => Ok (Device_Fulfilled (BrowserSession_id browser_session) fulfilled_at)
  | _ => Err InvalidTransition
  end.

Definition DeviceCodeGrantState_reject (self : DeviceCodeGrantState)
    (browser_session : BrowserSession) (rejected_at : DateTime)
    : result DeviceCodeGrantState InvalidTransitionError :=
  match self with
  | Device_Pending => Ok (Device_Rejected (BrowserSession_id browser_session) rejected_at)
  | _ => Err InvalidTransition
  end.

Definition DeviceCodeGrantState_exchange (self : DeviceCodeGrantState)
    (session : Session) (exchanged_at : DateTime)
    : result DeviceCodeGrantState InvalidTransitionError :=
  match self with
  | Device_Fulfilled browser_session_id fulfilled_at =>
      Ok (Device_Exchanged browser_session_id fulfilled_at exchanged_at (Session_id session))
  | _ => Err InvalidTransition
  end.

Definition DeviceCodeGrantState_is_pending (self : DeviceCodeGrantState) : bool :=
  match self with Device_Pending => true | _ => false end.

Record DeviceCodeGrant := {
  DeviceCodeGrant_id : Ulid;
  DeviceCodeGrant_state : DeviceCodeGrantState;
  DeviceCodeGrant_client_id : Ulid;
  DeviceCodeGrant_scope : ScopeSet;
  DeviceCodeGrant_user_code : string;
  DeviceCodeGrant_device_code : string;
  DeviceCodeGrant_created_at : DateTime;
  DeviceCodeGrant_expires_at : DateTime;
  DeviceCodeGrant_ip_address : option IpAddr;
  DeviceCodeGrant_user_agent : option string;
}.

Definition DeviceCodeGrant_with_state (self : DeviceCodeGrant) (state : DeviceCodeGrantState)
    : DeviceCodeGrant :=
  {| DeviceCodeGrant_id := DeviceCodeGrant_id self;
     DeviceCodeGrant_state := state;
     DeviceCodeGrant_client_id := DeviceCodeGrant_client_id self;
     DeviceCodeGrant_scope := DeviceCodeGrant_scope self;
     DeviceCodeGrant_user_code := DeviceCodeGrant_user_code self;
     DeviceCodeGrant_device_code := DeviceCodeGrant_device_code self;
     DeviceCodeGrant_created_at := DeviceCodeGrant_created_at self;
     DeviceCodeGrant_expires_at := DeviceCodeGrant_expires_at self;
     DeviceCodeGrant_ip_address := DeviceCodeGrant_ip_address self;
     DeviceCodeGrant_user_agent := DeviceCodeGrant_user_agent self |}.

Definition DeviceCodeGrant_fulfill (self : DeviceCodeGrant) (browser_session : BrowserSession)
    (fulfilled_at : DateTime) : result DeviceCodeGrant InvalidTransitionError :=
  result_bind (DeviceCodeGrantState_fulfill (DeviceCodeGrant_state self) browser_session fulfilled_at)
    (λ state, Ok (DeviceCodeGrant_with_state self state)).

Definition DeviceCodeGrant_reject (self : DeviceCodeGrant) (browser_session : BrowserSession)
    (rejected_at : DateTime) : result DeviceCodeGrant InvalidTransitionError :=
  result_bind (DeviceCodeGrantState_reject (DeviceCodeGrant_state self) browser_session rejected_at)
    (λ state, Ok (DeviceCodeGrant_with_state self state)).

Definition DeviceCodeGrant_exchange (self : DeviceCodeGrant) (session : Session)
    (exchanged_at : DateTime) : result DeviceCodeGrant InvalidTransitionError :=
  result_bind (DeviceCodeGrantState_exchange (DeviceCodeGrant_state self) session exchanged_at)
    (λ state, Ok (DeviceCodeGrant_with_state self state)).

(** ** Personal sessions and their tokens *)

Inductive PersonalSessionState :=
| Personal_Valid
| Personal_Revoked (revoked_at : DateTime).

Definition PersonalSessionState_is_valid (self : PersonalSessionState) : bool :=
  match self with Personal_Valid => true | Personal_Revoked _ => false end.

Definition PersonalSessionState_is_revoked (self : PersonalSessionState) : bool :=
  match self with Personal_Revoked _ => true | Personal_Valid => false end.

Definition PersonalSessionState_revoke (self : PersonalSessionState) (revoked_at : DateTime)
    : result PersonalSessionState InvalidTransitionError :=
  match self with
  | Personal_Valid => Ok (Personal_Revoked revoked_at)
  | Personal_Revoked _ => Err InvalidTransition
  end.

Inductive PersonalSessionOwner :=
| Owner_User (id : Ulid)
| Owner_OAuth2Client (id : Ulid).

Record PersonalSession := {
  PersonalSession_id : Ulid;
  PersonalSession_state : PersonalSessionState;
  PersonalSession_owner : PersonalSessionOwner;
  PersonalSession_actor_user_id : Ulid;
  PersonalSession_human_name : string;
  PersonalSession_scope : ScopeSet;
  PersonalSession_created_at : DateTime;
  PersonalSession_last_active_at : option DateTime;
  PersonalSession_last_active_ip : option IpAddr;
}.

Definition PersonalSession_finish (self : PersonalSession) (revoked_at : DateTime)
    : result PersonalSession InvalidTransitionError :=
  result_bind (PersonalSessionState_revoke (PersonalSession_state self) revoked_at) (λ state,
  Ok {| PersonalSession_id := PersonalSession_id self;
        PersonalSession_state := state;
        PersonalSession_owner := PersonalSession_owner self;
        PersonalSession_actor_user_id := PersonalSession_actor_user_id self;
        PersonalSession_human_name := PersonalSession_human_name self;
        PersonalSession_scope := PersonalSession_scope self;
        PersonalSession_created_at := PersonalSession_created_at self;
        PersonalSession_last_active_at := PersonalSession_last_active_at self;
        PersonalSession_last_active_ip := PersonalSession_last_active_ip self |}).

Definition PersonalSession_has_device (self : PersonalSession) : bool :=
  existsb (λ tok, starts_with STABLE_DEVICE_PREFIX tok || starts_with UNSTABLE_DEVICE_PREFIX tok)
    (scope_iter (PersonalSession_scope self)).

Record PersonalAccessToken := {
  PersonalAccessToken_id : Ulid;
  PersonalAccessToken_session_id : Ulid;
  PersonalAccessToken_created_at : DateTime;
  PersonalAccessToken_expires_at : option DateTime;
  PersonalAccessToken_revoked_at : option DateTime;
}.

Definition PersonalAccessToken_is_valid (self : PersonalAccessToken) (now : DateTime) : bool :=
  if bool_decide (is_Some (PersonalAccessToken_revoked_at self)) then false
  else match PersonalAccessToken_expires_at self with
       | Some deadline => now <? deadline
       | None => true
       end.

(** ** Clients *)

Inductive GrantType :=
| GrantType_AuthorizationCode
| GrantType_RefreshToken
| GrantType_Implicit
| GrantType_ClientCredentials
| GrantType_Password
| GrantType_DeviceCode
| GrantType_JwtBearer
| GrantType_ClientInitiatedBackchannelAuthentication
| GrantType_Unknown (value : string).

#[export] Instance GrantType_eq_dec : EqDecision GrantType.
Proof. solve_decision. Defined.

(** [OAuthClientAuthenticationMethod] (crates/iana/src/oauth.rs) *)
Inductive OAuthClientAuthenticationMethod :=
| Auth_None
| Auth_ClientSecretPost
| Auth_ClientSecretBasic
| Auth_ClientSecretJwt
| Auth_PrivateKeyJwt
| Auth_TlsClientAuth
| Auth_SelfSignedTlsClientAuth
| Auth_Unknown (name : string).

#[export] Instance OAuthClientAuthenticationMethod_eq_dec :
  EqDecision OAuthClientAuthenticationMethod.
Proof. solve_decision. Defined.

(** [FromStr] of an open enumeration: every name is accepted. *)
Definition auth_method_from_str (s : string) : OAuthClientAuthenticationMethod :=
  if bool_decide (s = "none") then Auth_None
  else if bool_decide (s = "client_secret_post") then Auth_ClientSecretPost
  else if bool_decide (s = "client_secret_basic") then Auth_ClientSecretBasic
  else if bool_decide (s = "client_secret_jwt") then Auth_ClientSecretJwt
  else if bool_decide (s = "private_key_jwt") then Auth_PrivateKeyJwt
  else if bool_decide (s = "tls_client_auth") then Auth_TlsClientAuth
  else if bool_decide (s = "self_signed_tls_client_auth") then Auth_SelfSignedTlsClientAuth
  else Auth_Unknown s.

Inductive ApplicationType := Application_Web | Application_Native | Application_Unknown (name : string).

Definition application_type_from_str (s : string) : ApplicationType :=
  if bool_decide (s = "web") then Application_Web
  else if bool_decide (s = "native") then Application_Native
  else Application_Unknown s.

Inductive LocalizableField :=
| Field_ClientName | Field_LogoUri | Field_ClientUri | Field_PolicyUri | Field_TosUri.

Definition LocalizableField_parse (value : string) : option LocalizableField :=
  if bool_decide (value = "client_name") then Some Field_ClientName
  else if bool_decide (value = "logo_uri") then Some Field_LogoUri
  else if bool_decide (value = "client_uri") then Some Field_ClientUri
  else if bool_decide (value = "policy_uri") then Some Field_PolicyUri
  else if bool_decide (value = "tos_uri") then Some Field_TosUri
  else None.

Record LocalizedClientMetadata := {
  localized_client_name : gmap string string;
  localized_logo_uri : gmap string Url;
  localized_client_uri : gmap string Url;
  localized_policy_uri : gmap string Url;
  localized_tos_uri : gmap string Url;
}.

Definition LocalizedClientMetadata_default : LocalizedClientMetadata :=
  {| localized_client_name := ∅; localized_logo_uri := ∅; localized_client_uri := ∅;
     localized_policy_uri := ∅; localized_tos_uri := ∅ |}.

(** A URL that does not parse is dropped. *)
Definition LocalizedClientMetadata_set `{UrlExternals} (self : LocalizedClientMetadata)
    (field : LocalizableField) (locale value : string) : LocalizedClientMetadata :=
  let put (m : gmap string Url) :=
    match url_parse value with Some url => <[locale := url]> m | None => m end in
  let '(Build_LocalizedClientMetadata name logo client policy tos) := self in
  match field with
  | Field_ClientName => Build_LocalizedClientMetadata (<[locale := value]> name) logo client policy tos
  | Field_LogoUri => Build_LocalizedClientMetadata name (put logo) client policy tos
  | Field_ClientUri => Build_LocalizedClientMetadata name logo (put client) policy tos
  | Field_PolicyUri => Build_LocalizedClientMetadata name logo client (put policy) tos
  | Field_TosUri => Build_LocalizedClientMetadata name logo client policy (put tos)
  end.

Inductive JwksOrJwksUri :=
| Jwks (jwks : PublicJsonWebKeySet)
| JwksUri (uri : Url).

Record Client := {
  Client_id : Ulid;
  Client_client_id : string;
  Client_metadata_digest : option string;
  Client_encrypted_client_secret : option string;
  Client_application_type : option ApplicationType;
  Client_redirect_uris : list Url;
  Client_grant_types : list GrantType;
  Client_client_name : option string;
  Client_logo_uri : option Url;
  Client_client_uri : option Url;
  Client_policy_uri : option Url;
  Client_tos_uri : option Url;
  Client_localized_metadata : LocalizedClientMetadata;
  Client_jwks : option JwksOrJwksUri;
  Client_id_token_signed_response_alg : option JsonWebSignatureAlg;
  Client_userinfo_signed_response_alg : option JsonWebSignatureAlg;
  Client_token_endpoint_auth_method : option OAuthClientAuthenticationMethod;
  Client_token_endpoint_auth_signing_alg : option JsonWebSignatureAlg;
  Client_initiate_login_uri : option Url;
}.

(** [client.grant_types.contains(&t)] *)
Definition Client_has_grant_type (client : Client) (t : GrantType) : bool :=
  bool_decide (t ∈ Client_grant_types client).

Inductive InvalidRedirectUriError :=
| RedirectUri_NotAllowed
| RedirectUri_MultipleRegistered
| RedirectUri_NoneRegistered.

Definition LOCAL_HOSTS : list string := ["localhost"; "127.0.0.1"; "[::1]"].

Definition uri_matches_one_of `{UrlExternals} (uri : Url) (registered_uris : list Url) : bool :=
  if bool_decide (default EmptyString (url_host_str uri) ∈ LOCAL_HOSTS) then
    match url_set_port_none uri with
    | Some uri' =>
        if bool_decide (uri' ∈ registered_uris) then true
        else bool_decide (uri ∈ registered_uris)
    | None => bool_decide (uri ∈ registered_uris)
    end
  else bool_decide (uri ∈ registered_uris).

Definition Client_resolve_redirect_uri `{UrlExternals} (self : Client) (redirect_uri : option Url)
    : result Url InvalidRedirectUriError :=
  match Client_redirect_uris self, redirect_uri with
  | [], _ => Err RedirectUri_NoneRegistered
  | [one], None => Ok one
  | _, None => Err RedirectUri_MultipleRegistered
  | uris, Some uri => if uri_matches_one_of uri uris then Ok uri else Err RedirectUri_NotAllowed
  end.

(** ** Requests and responses of the token endpoint *)

Record AuthorizationCodeGrant := {
  code_grant_code : string;
  code_grant_redirect_uri : option string;
  code_grant_code_verifier : option string;
}.

Record RefreshTokenGrant := {
  refresh_grant_refresh_token : string;
  refresh_grant_scope : option ScopeSet;
}.

Record ClientCredentialsGrant := { cc_grant_scope : option ScopeSet; }.

Record DeviceCodeGrantRequest := { device_grant_device_code : string; }.

Inductive AccessTokenRequest :=
| Request_AuthorizationCode (grant : AuthorizationCodeGrant)
| Request_RefreshToken (grant : RefreshTokenGrant)
| Request_ClientCredentials (grant : ClientCredentialsGrant)
| Request_DeviceCode (grant : DeviceCodeGrantRequest)
| Request_Unsupported.

(** The token type is [Bearer] in every response. *)
Record AccessTokenResponse := {
  Response_access_token : string;
  Response_refresh_token : option string;
  Response_id_token : option string;
  Response_expires_in : option Duration;
  Response_scope : option ScopeSet;
}.

Definition AccessTokenResponse_new (access_token : string) : AccessTokenResponse :=
  {| Response_access_token := access_token;
     Response_refresh_token := None;
     Response_id_token := None;
     Response_expires_in := None;
     Response_scope := None |}.

Definition with_refresh_token (refresh_token : string) (self : AccessTokenResponse) :=
  {| Response_access_token := Response_access_token self;
     Response_refresh_token := Some refresh_token;
     Response_id_token := Response_id_token self;
     Response_expires_in := Response_expires_in self;
     Response_scope := Response_scope self |}.

Definition with_id_token (id_token : string) (self : AccessTokenResponse) :=
  {| Response_access_token := Response_access_token self;
     Response_refresh_token := Response_refresh_token self;
     Response_id_token := Some id_token;
     Response_expires_in := Response_expires_in self;
     Response_scope := Response_scope self |}.

Definition with_scope (scope : ScopeSet) (self : AccessTokenResponse) :=
  {| Response_access_token := Response_access_token self;
     Response_refresh_token := Response_refresh_token self;
     Response_id_token := Response_id_token self;
     Response_expires_in := Response_expires_in self;
     Response_scope := Some scope |}.

Definition with_expires_in (expires_in : Duration) (self : AccessTokenResponse) :=
  {| Response_access_token := Response_access_token self;
     Response_refresh_token := Response_refresh_token self;
     Response_id_token := Response_id_token self;
     Response_expires_in := Some expires_in;
     Response_scope := Response_scope self |}.

(** ** Lifecycles *)

(** Attempting a list of transitions, in order: the final state and the
    attempts that were accepted. A refused attempt leaves the state alone. *)
Section machine.
Context {St Ev : Type} (step : St → Ev → result St InvalidTransitionError).

Fixpoint attempts (s : St) (evs : list Ev) : St * list Ev :=
  match evs with
  | [] => (s, [])
  | ev :: evs =>
      match step s ev with
      | Ok s' => let '(s'', acc) := attempts s' evs in (s'', ev :: acc)
      | Err _ => attempts s evs
      end
  end.

(** A state no transition leaves. *)
Definition stuck (s : St) : Prop := ∀ ev, step s ev = Err InvalidTransition.

Lemma attempts_stuck s evs : stuck s → attempts s evs = (s, []).
Proof. intros Hs. induction evs as [|ev evs IH]; simpl; [done|]. by rewrite Hs. Qed.
End machine.

Inductive GrantEvent :=
| Ev_Fulfill (at_ : DateTime) (session : Session)
| Ev_Exchange (at_ : DateTime)
| Ev_Cancel (at_ : DateTime).

Definition grant_event (s : AuthorizationGrantStage) (ev : GrantEvent) :=
  match ev with
  | Ev_Fulfill t session => AuthorizationGrantStage_fulfill s t session
  | Ev_Exchange t => AuthorizationGrantStage_exchange s t
  | Ev_Cancel t => AuthorizationGrantStage_cancel s t
  end.

Inductive DeviceEvent :=
| DevEv_Fulfill (browser_session : BrowserSession) (at_ : DateTime)
| DevEv_Reject (browser_session : BrowserSession) (at_ : DateTime)
| DevEv_Exchange (session : Session) (at_ : DateTime).

Definition device_event (s : DeviceCodeGrantState) (ev : DeviceEvent) :=
  match ev with
  | DevEv_Fulfill bs t => DeviceCodeGrantState_fulfill s bs t
  | DevEv_Reject bs t => DeviceCodeGrantState_reject s bs t
  | DevEv_Exchange session t => DeviceCodeGrantState_exchange s session t
  end.

Inductive RefreshEvent :=
| RefEv_Consume (at_ : DateTime) (replaced_by : RefreshToken)
| RefEv_Revoke (at_ : DateTime).

Definition refresh_event (s : RefreshTokenState) (ev : RefreshEvent) :=
  match ev with
  | RefEv_Consume t next => RefreshTokenState_consume s t next
  | RefEv_Revoke t => RefreshTokenState_revoke s t
  end.

(** ** Properties *)

Section lifecycles.
Lemma exchanged_stuck sid f e : stuck grant_event (Grant_Exchanged sid f e).
Proof. by intros []. Qed.
Lemma cancelled_stuck c : stuck grant_event (Grant_Cancelled c).
Proof. by intros []. Qed.
Lemma device_exchanged_stuck b f e sid : stuck device_event (Device_Exchanged b f e sid).
Proof. by intros []. Qed.
Lemma device_rejected_stuck b r : stuck device_event (Device_Rejected b r).
Proof. by intros []. Qed.
Lemma refresh_revoked_stuck r : stuck refresh_event (RefreshToken_Revoked r).
Proof. by intros []. Qed.

Lemma attempts_fulfilled sid f evs :
  attempts grant_event (Grant_Fulfilled sid f) evs = (Grant_Fulfilled sid f, []) ∨
  ∃ e, attempts grant_event (Grant_Fulfilled sid f) evs = (Grant_Exchanged sid f e, [Ev_Exchange e]).
Proof.
  induction evs as [|[t s|t|t] evs IH]; simpl; [by left|done| |done].
  right. exists t. by rewrite (attempts_stuck _ _ _ (exchanged_stuck _ _ _)).
Qed.

(** Whatever transitions are attempted on a new authorization grant, those
    accepted are nothing, one fulfilment, one fulfilment then one exchange, or
    one cancellation; the final stage records exactly their arguments. So a
    grant is exchanged at most once, and never without having been fulfilled
    or after a cancellation. *)
Theorem grant_lifecycle evs :
  match attempts grant_event Grant_Pending evs with
  | (Grant_Pending, acc) => acc = []
  | (Grant_Fulfilled sid f, acc) =>
      ∃ s, Session_id s = sid ∧ acc = [Ev_Fulfill f s]
  | (Grant_Exchanged sid f e, acc) =>
      ∃ s, Session_id s = sid ∧ acc = [Ev_Fulfill f s; Ev_Exchange e]
  | (Grant_Cancelled c, acc) => acc = [Ev_Cancel c]
  end.
Proof.
  induction evs as [|[t s|t|t] evs IH]; simpl; [done| |done|].
  - destruct (attempts_fulfilled (Session_id s) t evs) as [->|[e ->]]; eauto.
  - by rewrite (attempts_stuck _ _ _ (cancelled_stuck _)).
Qed.

Lemma attempts_device_fulfilled b f evs :
  attempts device_event (Device_Fulfilled b f) evs = (Device_Fulfilled b f, []) ∨
  ∃ s e, attempts device_event (Device_Fulfilled b f) evs =
           (Device_Exchanged b f e (Session_id s), [DevEv_Exchange s e]).
Proof.
  induction evs as [|[s t|s t|s t] evs IH]; simpl; [by left|done|done|].
  right. exists s, t. by rewrite (attempts_stuck _ _ _ (device_exchanged_stuck _ _ _ _)).
Qed.

(** The same for a device code grant: a user's fulfilment or rejection is
    final but for one exchange after a fulfilment, and the browser session
    recorded is the one that took the decision. *)
Theorem device_grant_lifecycle evs :
  match attempts device_event Device_Pending evs with
  | (Device_Pending, acc) => acc = []
  | (Device_Fulfilled b f, acc) =>
      ∃ bs, BrowserSession_id bs = b ∧ acc = [DevEv_Fulfill bs f]
  | (Device_Rejected b r, acc) =>
      ∃ bs, BrowserSession_id bs = b ∧ acc = [DevEv_Reject bs r]
  | (Device_Exchanged b f e sid, acc) =>
      ∃ bs s, BrowserSession_id bs = b ∧ Session_id s = sid ∧
              acc = [DevEv_Fulfill bs f; DevEv_Exchange s e]
  end.
Proof.
  induction evs as [|[bs t|bs t|s t] evs IH]; simpl; [done| | |done].
  - destruct (attempts_device_fulfilled (BrowserSession_id bs) t evs) as [->|(s & e & ->)];
      eauto 10.
  - rewrite (attempts_stuck _ _ _ (device_rejected_stuck _ _)). eauto.
Qed.

Lemma attempts_consumed c n evs :
  ∃ c' n', (attempts refresh_event (RefreshToken_Consumed c n) evs).1 = RefreshToken_Consumed c' n' ∧
  Forall (λ ev, ∃ t r, ev = RefEv_Consume t r)
    (attempts refresh_event (RefreshToken_Consumed c n) evs).2.
Proof.
  revert c n. induction evs as [|[t r|t] evs IH]; intros c n; simpl; [eauto| |eauto].
  destruct (IH t (Some (RefreshToken_id r))) as (c' & n' & Hs & Hacc).
  destruct (attempts _ _ evs). simpl in *. eauto 10.
Qed.

(** A refresh token is revoked at most once and is never consumed after that;
    once consumed it is never revoked, and stays consumed (it may be consumed
    again, when the reply to the first refresh was lost). *)
Theorem refresh_token_lifecycle evs :
  match attempts refresh_event RefreshToken_Valid evs with
  | (RefreshToken_Valid, acc) => acc = []
  | (RefreshToken_Revoked r, acc) => acc = [RefEv_Revoke r]
  | (RefreshToken_Consumed _ _, acc) =>
      acc ≠ [] ∧ Forall (λ ev, ∃ t r, ev = RefEv_Consume t r) acc
  end.
Proof.
  destruct evs as [|[t r|t] evs]; simpl; [done| |].
  - destruct (attempts_consumed t (Some (RefreshToken_id r)) evs) as (c' & n' & Hs & Hacc).
    destruct (attempts _ _ evs) as [s acc]. simpl in *. subst. split; [done|]. eauto 10.
  - by rewrite (attempts_stuck _ _ _ (refresh_revoked_stuck _)).
Qed.
End lifecycles.

Section redirect.
Context `{UrlExternals}.

Lemma uri_matches_one_of_spec uri uris :
  uri_matches_one_of uri uris = true ↔
  uri ∈ uris ∨
  (default EmptyString (url_host_str uri) ∈ LOCAL_HOSTS ∧
   ∃ uri', url_set_port_none uri = Some uri' ∧ uri' ∈ uris).
Proof.
  unfold uri_matches_one_of.
  repeat (case_bool_decide || case_match); naive_solver.
Qed.

(** Redirect URI resolution accepts exactly the registered URIs: the only
    registered one when none is requested, a requested one that is registered
    as it is, or a loopback one that is registered once its port is dropped. *)
Theorem resolve_redirect_uri_registered c req u :
  Client_resolve_redirect_uri c req = Ok u ↔
  match req with
  | None => Client_redirect_uris c = [u]
  | Some r =>
      u = r ∧ (r ∈ Client_redirect_uris c ∨
        (default EmptyString (url_host_str r) ∈ LOCAL_HOSTS ∧
         ∃ r', url_set_port_none r = Some r' ∧ r' ∈ Client_redirect_uris c))
  end.
Proof.
  unfold Client_resolve_redirect_uri.
  destruct (Client_redirect_uris c) as [|one rest] eqn:Hu.
  - split; [done|]. destruct req as [r|]; [set_solver|done].
  - destruct req as [r|].
    + assert (uri_matches_one_of r (one :: rest) = true ↔ _) as Hm
        by apply uri_matches_one_of_spec.
      transitivity (uri_matches_one_of r (one :: rest) = true ∧ u = r).
      * destruct rest; case_match; naive_solver.
      * rewrite Hm. naive_solver.
    + destruct rest; naive_solver.
Qed.
End redirect.

(** Validity of a user implies validity as an actor. *)
Lemma User_is_valid_actor_weaker u : User_is_valid u = true → User_is_valid_actor u = true.
Proof. unfold User_is_valid, User_is_valid_actor. by intros [_ ?]%andb_true_iff. Qed.
