(* ===== verification/Accounts.v ===== *)
(** Accounts: the values of crates/data/src/users.rs and
    crates/data/src/upstream_oauth2/{link,session}.rs that registration works on,
    and the rows of their tables (crates/data/src/pg/user, pg/upstream_oauth2). *)
From S2P Require Import Prelude Ids Scope Pkce Jose Domain.

Open Scope Z_scope.

(** ** Registrations and contacts (users.rs) *)

Record UserRegistrationPassword := {
  RegistrationPassword_hashed_password : string;
  RegistrationPassword_version : Z;
}.

Record UserRegistration := {
  UserRegistration_id : Ulid;
  UserRegistration_username : string;
  UserRegistration_display_name : option string;
  UserRegistration_avatar_url : option string;
  UserRegistration_terms_url : option Url;
  UserRegistration_email_authentication_id : option Ulid;
  UserRegistration_phone_authentication_id : option Ulid;
  UserRegistration_user_registration_token_id : option Ulid;
  UserRegistration_password : option UserRegistrationPassword;
  UserRegistration_upstream_oauth_authorization_session_id : option Ulid;
  UserRegistration_post_auth_action : option Json;
  UserRegistration_ip_address : option IpAddr;
  UserRegistration_user_agent : option string;
  UserRegistration_created_at : DateTime;
  UserRegistration_completed_at : option DateTime;
}.

Definition UserRegistration_set_display_name (x : string) (r : UserRegistration) : UserRegistration :=
  {| UserRegistration_id := UserRegistration_id r;
     UserRegistration_username := UserRegistration_username r;
     UserRegistration_display_name := Some x;
     UserRegistration_avatar_url := UserRegistration_avatar_url r;
     UserRegistration_terms_url := UserRegistration_terms_url r;
     UserRegistration_email_authentication_id := UserRegistration_email_authentication_id r;
     UserRegistration_phone_authentication_id := UserRegistration_phone_authentication_id r;
     UserRegistration_user_registration_token_id := UserRegistration_user_registration_token_id r;
     UserRegistration_password := UserRegistration_password r;
     UserRegistration_upstream_oauth_authorization_session_id := UserRegistration_upstream_oauth_authorization_session_id r;
     UserRegistration_post_auth_action := UserRegistration_post_auth_action r;
     UserRegistration_ip_address := UserRegistration_ip_address r;
     UserRegistration_user_agent := UserRegistration_user_agent r;
     UserRegistration_created_at := UserRegistration_created_at r;
     UserRegistration_completed_at := UserRegistration_completed_at r |}.
Definition UserRegistration_set_avatar_url (x : string) (r : UserRegistration) : UserRegistration :=
  {| UserRegistration_id := UserRegistration_id r;
     UserRegistration_username := UserRegistration_username r;
     UserRegistration_display_name := UserRegistration_display_name r;
     UserRegistration_avatar_url := Some x;
     UserRegistration_terms_url := UserRegistration_terms_url r;
     UserRegistration_email_authentication_id := UserRegistration_email_authentication_id r;
     UserRegistration_phone_authentication_id := UserRegistration_phone_authentication_id r;
     UserRegistration_user_registration_token_id := UserRegistration_user_registration_token_id r;
     UserRegistration_password := UserRegistration_password r;
     UserRegistration_upstream_oauth_authorization_session_id := UserRegistration_upstream_oauth_authorization_session_id r;
     UserRegistration_post_auth_action := UserRegistration_post_auth_action r;
     UserRegistration_ip_address := UserRegistration_ip_address r;
     UserRegistration_user_agent := UserRegistration_user_agent r;
     UserRegistration_created_at := UserRegistration_created_at r;
     UserRegistration_completed_at := UserRegistration_completed_at r |}.
Definition UserRegistration_set_terms_url (x : Url) (r : UserRegistration) : UserRegistration :=
  {| UserRegistration_id := UserRegistration_id r;
     UserRegistration_username := UserRegistration_username r;
     UserRegistration_display_name := UserRegistration_display_name r;
     UserRegistration_avatar_url := UserRegistration_avatar_url r;
     UserRegistration_terms_url := Some x;
     UserRegistration_email_authentication_id := UserRegistration_email_authentication_id r;
     UserRegistration_phone_authentication_id := UserRegistration_phone_authentication_id r;
     UserRegistration_user_registration_token_id := UserRegistration_user_registration_token_id r;
     UserRegistration_password := UserRegistration_password r;
     UserRegistration_upstream_oauth_authorization_session_id := UserRegistration_upstream_oauth_authorization_session_id r;
     UserRegistration_post_auth_action := UserRegistration_post_auth_action r;
     UserRegistration_ip_address := UserRegistration_ip_address r;
     UserRegistration_user_agent := UserRegistration_user_agent r;
     UserRegistration_created_at := UserRegistration_created_at r;
     UserRegistration_completed_at := UserRegistration_completed_at r |}.
Definition UserRegistration_set_email_authentication_id (x : Ulid) (r : UserRegistration) : UserRegistration :=
  {| UserRegistration_id := UserRegistration_id r;
     UserRegistration_username := UserRegistration_username r;
     UserRegistration_display_name := UserRegistration_display_name r;
     UserRegistration_avatar_url := UserRegistration_avatar_url r;
     UserRegistration_terms_url := UserRegistration_terms_url r;
     UserRegistration_email_authentication_id := Some x;
     UserRegistration_phone_authentication_id := UserRegistration_phone_authentication_id r;
     UserRegistration_user_registration_token_id := UserRegistration_user_registration_token_id r;
     UserRegistration_password := UserRegistration_password r;
     UserRegistration_upstream_oauth_authorization_session_id := UserRegistration_upstream_oauth_authorization_session_id r;
     UserRegistration_post_auth_action := UserRegistration_post_auth_action r;
     UserRegistration_ip_address := UserRegistration_ip_address r;
     UserRegistration_user_agent := UserRegistration_user_agent r;
     UserRegistration_created_at := UserRegistration_created_at r;
     UserRegistration_completed_at := UserRegistration_completed_at r |}.
Definition UserRegistration_set_phone_authentication_id (x : Ulid) (r : UserRegistration) : UserRegistration :=
  {| UserRegistration_id := UserRegistration_id r;
     UserRegistration_username := UserRegistration_username r;
     UserRegistration_display_name := UserRegistration_display_name r;
     UserRegistration_avatar_url := UserRegistration_avatar_url r;
     UserRegistration_terms_url := UserRegistration_terms_url r;
     UserRegistration_email_authentication_id := UserRegistration_email_authentication_id r;
     UserRegistration_phone_authentication_id := Some x;
     UserRegistration_user_registration_token_id := UserRegistration_user_registration_token_id r;
     UserRegistration_password := UserRegistration_password r;
     UserRegistration_upstream_oauth_authorization_session_id := UserRegistration_upstream_oauth_authorization_session_id r;
     UserRegistration_post_auth_action := UserRegistration_post_auth_action r;
     UserRegistration_ip_address := UserRegistration_ip_address r;
     UserRegistration_user_agent := UserRegistration_user_agent r;
     UserRegistration_created_at := UserRegistration_created_at r;
     UserRegistration_completed_at := UserRegistration_completed_at r |}.
Definition UserRegistration_set_user_registration_token_id (x : Ulid) (r : UserRegistration) : UserRegistration :=
  {| UserRegistration_id := UserRegistration_id r;
     UserRegistration_username := UserRegistration_username r;
     UserRegistration_display_name := UserRegistration_display_name r;
     UserRegistration_avatar_url := UserRegistration_avatar_url r;
     UserRegistration_terms_url := UserRegistration_terms_url r;
     UserRegistration_email_authentication_id := UserRegistration_email_authentication_id r;
     UserRegistration_phone_authentication_id := UserRegistration_phone_authentication_id r;
     UserRegistration_user_registration_token_id := Some x;
     UserRegistration_password := UserRegistration_password r;
     UserRegistration_upstream_oauth_authorization_session_id := UserRegistration_upstream_oauth_authorization_session_id r;
     UserRegistration_post_auth_action := UserRegistration_post_auth_action r;
     UserRegistration_ip_address := UserRegistration_ip_address r;
     UserRegistration_user_agent := UserRegistration_user_agent r;
     UserRegistration_created_at := UserRegistration_created_at r;
     UserRegistration_completed_at := UserRegistration_completed_at r |}.
Definition UserRegistration_set_password (x : UserRegistrationPassword) (r : UserRegistration) : UserRegistration :=
  {| UserRegistration_id := UserRegistration_id r;
     UserRegistration_username := UserRegistration_username r;
     UserRegistration_display_name := UserRegistration_display_name r;
     UserRegistration_avatar_url := UserRegistration_avatar_url r;
     UserRegistration_terms_url := UserRegistration_terms_url r;
     UserRegistration_email_authentication_id := UserRegistration_email_authentication_id r;
     UserRegistration_phone_authentication_id := UserRegistration_phone_authentication_id r;
     UserRegistration_user_registration_token_id := UserRegistration_user_registration_token_id r;
     UserRegistration_password := Some x;
     UserRegistration_upstream_oauth_authorization_session_id := UserRegistration_upstream_oauth_authorization_session_id r;
     UserRegistration_post_auth_action := UserRegistration_post_auth_action r;
     UserRegistration_ip_address := UserRegistration_ip_address r;
     UserRegistration_user_agent := UserRegistration_user_agent r;
     UserRegistration_created_at := UserRegistration_created_at r;
     UserRegistration_completed_at := UserRegistration_completed_at r |}.
Definition UserRegistration_set_upstream_oauth_authorization_session_id (x : Ulid) (r : UserRegistration) : UserRegistration :=
  {| UserRegistration_id := UserRegistration_id r;
     UserRegistration_username := UserRegistration_username r;
     UserRegistration_display_name := UserRegistration_display_name r;
     UserRegistration_avatar_url := UserRegistration_avatar_url r;
     UserRegistration_terms_url := UserRegistration_terms_url r;
     UserRegistration_email_authentication_id := UserRegistration_email_authentication_id r;
     UserRegistration_phone_authentication_id := UserRegistration_phone_authentication_id r;
     UserRegistration_user_registration_token_id := UserRegistration_user_registration_token_id r;
     UserRegistration_password := UserRegistration_password r;
     UserRegistration_upstream_oauth_authorization_session_id := Some x;
     UserRegistration_post_auth_action := UserRegistration_post_auth_action r;
     UserRegistration_ip_address := UserRegistration_ip_address r;
     UserRegistration_user_agent := UserRegistration_user_agent r;
     UserRegistration_created_at := UserRegistration_created_at r;
     UserRegistration_completed_at := UserRegistration_completed_at r |}.
Definition UserRegistration_set_completed_at (x : DateTime) (r : UserRegistration) : UserRegistration :=
  {| UserRegistration_id := UserRegistration_id r;
     UserRegistration_username := UserRegistration_username r;
     UserRegistration_display_name := UserRegistration_display_name r;
     UserRegistration_avatar_url := UserRegistration_avatar_url r;
     UserRegistration_terms_url := UserRegistration_terms_url r;
     UserRegistration_email_authentication_id := UserRegistration_email_authentication_id r;
     UserRegistration_phone_authentication_id := UserRegistration_phone_authentication_id r;
     UserRegistration_user_registration_token_id := UserRegistration_user_registration_token_id r;
     UserRegistration_password := UserRegistration_password r;
     UserRegistration_upstream_oauth_authorization_session_id := UserRegistration_upstream_oauth_authorization_session_id r;
     UserRegistration_post_auth_action := UserRegistration_post_auth_action r;
     UserRegistration_ip_address := UserRegistration_ip_address r;
     UserRegistration_user_agent := UserRegistration_user_agent r;
     UserRegistration_created_at := UserRegistration_created_at r;
     UserRegistration_completed_at := Some x |}.

Record UserEmail := {
  UserEmail_id : Ulid;
  UserEmail_user_id : Ulid;
  UserEmail_email : string;
  UserEmail_created_at : DateTime;
  UserEmail_updated_at : DateTime;
  UserEmail_confirmed_at : option DateTime;
  UserEmail_is_primary : bool;
}.

Record UserEmailAuthentication := {
  UserEmailAuthentication_id : Ulid;
  UserEmailAuthentication_user_session_id : option Ulid;
  UserEmailAuthentication_user_registration_id : option Ulid;
  UserEmailAuthentication_email : string;
  UserEmailAuthentication_created_at : DateTime;
  UserEmailAuthentication_completed_at : option DateTime;
}.
Definition UserEmailAuthentication_set_completed_at (x : DateTime) (r : UserEmailAuthentication) : UserEmailAuthentication :=
  {| UserEmailAuthentication_id := UserEmailAuthentication_id r;
     UserEmailAuthentication_user_session_id := UserEmailAuthentication_user_session_id r;
     UserEmailAuthentication_user_registration_id := UserEmailAuthentication_user_registration_id r;
     UserEmailAuthentication_email := UserEmailAuthentication_email r;
     UserEmailAuthentication_created_at := UserEmailAuthentication_created_at r;
     UserEmailAuthentication_completed_at := Some x |}.

Record UserEmailAuthenticationCode := {
  EmailCode_id : Ulid;
  EmailCode_user_email_authentication_id : Ulid;
  EmailCode_code : string;
  EmailCode_created_at : DateTime;
  EmailCode_expires_at : DateTime;
}.

Record UserPhone := {
  UserPhone_id : Ulid;
  UserPhone_user_id : Ulid;
  UserPhone_phone : string;
  UserPhone_created_at : DateTime;
}.

Record UserPhoneAuthentication := {
  UserPhoneAuthentication_id : Ulid;
  UserPhoneAuthentication_user_registration_id : option Ulid;
  UserPhoneAuthentication_phone : string;
  UserPhoneAuthentication_created_at : DateTime;
  UserPhoneAuthentication_completed_at : option DateTime;
}.
Definition UserPhoneAuthentication_set_completed_at (x : DateTime) (r : UserPhoneAuthentication) : UserPhoneAuthentication :=
  {| UserPhoneAuthentication_id := UserPhoneAuthentication_id r;
     UserPhoneAuthentication_user_registration_id := UserPhoneAuthentication_user_registration_id r;
     UserPhoneAuthentication_phone := UserPhoneAuthentication_phone r;
     UserPhoneAuthentication_created_at := UserPhoneAuthentication_created_at r;
     UserPhoneAuthentication_completed_at := Some x |}.

Record UserPhoneAuthenticationCode := {
  PhoneCode_id : Ulid;
  PhoneCode_user_phone_authentication_id : Ulid;
  PhoneCode_code : string;
  PhoneCode_created_at : DateTime;
  PhoneCode_expires_at : DateTime;
}.

Record Password := {
  Password_id : Ulid;
  Password_hashed_password : string;
  Password_version : Z;
  Password_upgraded_from_id : option Ulid;
  Password_created_at : DateTime;
}.

(** [UserPatch]; in [UserProfilePatch] the last three are absent. *)
Record UserPatch := {
  patch_display_name : option (option string);
  patch_avatar_url : option (option string);
  patch_preferred_locale : option (option string);
  patch_can_request_admin : option bool;
  patch_locked : option bool;
  patch_deactivated : option bool;
}.

Definition UserPatch_is_empty (self : UserPatch) : bool :=
  bool_decide (patch_display_name self = None) && bool_decide (patch_avatar_url self = None) &&
  bool_decide (patch_preferred_locale self = None) &&
  bool_decide (patch_can_request_admin self = None) && bool_decide (patch_locked self = None) &&
  bool_decide (patch_deactivated self = None).

Record UserProfilePatch := {
  profile_display_name : option (option string);
  profile_avatar_url : option (option string);
  profile_preferred_locale : option (option string);
}.

(** [From<UserProfilePatch> for UserPatch] *)
Definition UserPatch_from (value : UserProfilePatch) : UserPatch :=
  {| patch_display_name := profile_display_name value;
     patch_avatar_url := profile_avatar_url value;
     patch_preferred_locale := profile_preferred_locale value;
     patch_can_request_admin := None;
     patch_locked := None;
     patch_deactivated := None |}.

(** ** Upstream links and authorization sessions *)

Record UpstreamOAuthLink := {
  UpstreamLink_id : Ulid;
  UpstreamLink_provider_id : Ulid;
  UpstreamLink_user_id : option Ulid;
  UpstreamLink_subject : string;
  UpstreamLink_human_account_name : option string;
  UpstreamLink_created_at : DateTime;
  UpstreamLink_updated_at : DateTime;
}.

Inductive UpstreamOAuthAuthorizationSessionState :=
| Upstream_Pending
| Upstream_Completed (completed_at : DateTime) (link_id : Ulid) (id_token : option string)
    (id_token_claims extra_callback_parameters userinfo : option Json)
| Upstream_Consumed (completed_at consumed_at : DateTime) (link_id : Ulid) (id_token : option string)
    (id_token_claims extra_callback_parameters userinfo : option Json)
| Upstream_Unlinked (completed_at : DateTime) (consumed_at : option DateTime)
    (unlinked_at : DateTime) (id_token : option string) (id_token_claims : option Json).

Definition UpstreamState_complete (self : UpstreamOAuthAuthorizationSessionState)
    (completed_at : DateTime) (link : UpstreamOAuthLink) (id_token : option string)
    (id_token_claims extra_callback_parameters userinfo : option Json)
    : result UpstreamOAuthAuthorizationSessionState InvalidTransitionError :=
  match self with
  | Upstream_Pending =>
      Ok (Upstream_Completed completed_at (UpstreamLink_id link) id_token id_token_claims
            extra_callback_parameters userinfo)
  | Upstream_Completed _ _ _ _ _ _ | Upstream_Consumed _ _ _ _ _ _ _
  | Upstream_Unlinked _ _ _ _ _ => Err InvalidTransition
  end.

Definition UpstreamState_consume (self : UpstreamOAuthAuthorizationSessionState)
    (consumed_at : DateTime)
    : result UpstreamOAuthAuthorizationSessionState InvalidTransitionError :=
  match self with
  | Upstream_Completed completed_at link_id id_token id_token_claims extra userinfo =>
      Ok (Upstream_Consumed completed_at consumed_at link_id id_token id_token_claims extra userinfo)
  | Upstream_Pending | Upstream_Consumed _ _ _ _ _ _ _ | Upstream_Unlinked _ _ _ _ _ =>
      Err InvalidTransition
  end.

Definition UpstreamState_link_id (self : UpstreamOAuthAuthorizationSessionState) : option Ulid :=
  match self with
  | Upstream_Pending | Upstream_Unlinked _ _ _ _ _ => None
  | Upstream_Completed _ link_id _ _ _ _ | Upstream_Consumed _ _ link_id _ _ _ _ => Some link_id
  end.

Record UpstreamOAuthAuthorizationSession := {
  UpstreamSession_id : Ulid;
  UpstreamSession_state : UpstreamOAuthAuthorizationSessionState;
  UpstreamSession_provider_id : Ulid;
  UpstreamSession_state_str : string;
  UpstreamSession_code_challenge_verifier : option string;
  UpstreamSession_nonce : option string;
  UpstreamSession_created_at : DateTime;
}.

Definition UpstreamSession_with_state (self : UpstreamOAuthAuthorizationSession)
    (state : UpstreamOAuthAuthorizationSessionState) : UpstreamOAuthAuthorizationSession :=
  {| UpstreamSession_id := UpstreamSession_id self;
     UpstreamSession_state := state;
     UpstreamSession_provider_id := UpstreamSession_provider_id self;
     UpstreamSession_state_str := UpstreamSession_state_str self;
     UpstreamSession_code_challenge_verifier := UpstreamSession_code_challenge_verifier self;
     UpstreamSession_nonce := UpstreamSession_nonce self;
     UpstreamSession_created_at := UpstreamSession_created_at self |}.

Definition UpstreamSession_consume (self : UpstreamOAuthAuthorizationSession)
    (consumed_at : DateTime) : result UpstreamOAuthAuthorizationSession InvalidTransitionError :=
  result_bind (UpstreamState_consume (UpstreamSession_state self) consumed_at)
    (λ state, Ok (UpstreamSession_with_state self state)).

(** ** Rows *)

Record UserPasswordRow := {
  PasswordRow_user_id : Ulid;
  PasswordRow_hashed_password : string;
  PasswordRow_version : Z;
  PasswordRow_upgraded_from_id : option Ulid;
  PasswordRow_created_at : DateTime;
}.

Record UserEmailRow := {
  EmailRow_user_id : Ulid;
  EmailRow_email : string;
  EmailRow_created_at : DateTime;
  EmailRow_updated_at : DateTime;
  EmailRow_confirmed_at : option DateTime;
  EmailRow_is_primary : bool;
}.

Record UserEmailAuthenticationRow := {
  EmailAuthRow_user_session_id : option Ulid;
  EmailAuthRow_user_registration_id : option Ulid;
  EmailAuthRow_email : string;
  EmailAuthRow_created_at : DateTime;
  EmailAuthRow_completed_at : option DateTime;
}.
Definition EmailAuthRow_set_completed_at (x : DateTime) (r : UserEmailAuthenticationRow) : UserEmailAuthenticationRow :=
  {| EmailAuthRow_user_session_id := EmailAuthRow_user_session_id r;
     EmailAuthRow_user_registration_id := EmailAuthRow_user_registration_id r;
     EmailAuthRow_email := EmailAuthRow_email r;
     EmailAuthRow_created_at := EmailAuthRow_created_at r;
     EmailAuthRow_completed_at := Some x |}.

Record UserEmailAuthenticationCodeRow := {
  EmailCodeRow_user_email_authentication_id : Ulid;
  EmailCodeRow_code : string;
  EmailCodeRow_created_at : DateTime;
  EmailCodeRow_expires_at : DateTime;
}.

Record UserPhoneRow := {
  PhoneRow_user_id : Ulid;
  PhoneRow_phone : string;
  PhoneRow_created_at : DateTime;
}.

Record UserPhoneAuthenticationRow := {
  PhoneAuthRow_user_registration_id : option Ulid;
  PhoneAuthRow_phone : string;
  PhoneAuthRow_created_at : DateTime;
  PhoneAuthRow_completed_at : option DateTime;
}.
Definition PhoneAuthRow_set_completed_at (x : DateTime) (r : UserPhoneAuthenticationRow) : UserPhoneAuthenticationRow :=
  {| PhoneAuthRow_user_registration_id := PhoneAuthRow_user_registration_id r;
     PhoneAuthRow_phone := PhoneAuthRow_phone r;
     PhoneAuthRow_created_at := PhoneAuthRow_created_at r;
     PhoneAuthRow_completed_at := Some x |}.

Record UserPhoneAuthenticationCodeRow := {
  PhoneCodeRow_user_phone_authentication_id : Ulid;
  PhoneCodeRow_code : string;
  PhoneCodeRow_created_at : DateTime;
  PhoneCodeRow_expires_at : DateTime;
}.

Record UserRegistrationRow := {
  RegistrationRow_ip_address : option IpAddr;
  RegistrationRow_user_agent : option string;
  RegistrationRow_post_auth_action : option Json;
  RegistrationRow_username : string;
  RegistrationRow_display_name : option string;
  RegistrationRow_avatar_url : option string;
  RegistrationRow_terms_url : option string;
  RegistrationRow_email_authentication_id : option Ulid;
  RegistrationRow_phone_authentication_id : option Ulid;
  RegistrationRow_user_registration_token_id : option Ulid;
  RegistrationRow_hashed_password : option string;
  RegistrationRow_hashed_password_version : option Z;
  RegistrationRow_upstream_oauth_authorization_session_id : option Ulid;
  RegistrationRow_created_at : DateTime;
  RegistrationRow_completed_at : option DateTime;
}.

Definition RegistrationRow_set_display_name (x : string) (r : UserRegistrationRow) : UserRegistrationRow :=
  {| RegistrationRow_ip_address := RegistrationRow_ip_address r;
     RegistrationRow_user_agent := RegistrationRow_user_agent r;
     RegistrationRow_post_auth_action := RegistrationRow_post_auth_action r;
     RegistrationRow_username := RegistrationRow_username r;
     RegistrationRow_display_name := Some x;
     RegistrationRow_avatar_url := RegistrationRow_avatar_url r;
     RegistrationRow_terms_url := RegistrationRow_terms_url r;
     RegistrationRow_email_authentication_id := RegistrationRow_email_authentication_id r;
     RegistrationRow_phone_authentication_id := RegistrationRow_phone_authentication_id r;
     RegistrationRow_user_registration_token_id := RegistrationRow_user_registration_token_id r;
     RegistrationRow_hashed_password := RegistrationRow_hashed_password r;
     RegistrationRow_hashed_password_version := RegistrationRow_hashed_password_version r;
     RegistrationRow_upstream_oauth_authorization_session_id := RegistrationRow_upstream_oauth_authorization_session_id r;
     RegistrationRow_created_at := RegistrationRow_created_at r;
     RegistrationRow_completed_at := RegistrationRow_completed_at r |}.
Definition RegistrationRow_set_avatar_url (x : string) (r : UserRegistrationRow) : UserRegistrationRow :=
  {| RegistrationRow_ip_address := RegistrationRow_ip_address r;
     RegistrationRow_user_agent := RegistrationRow_user_agent r;
     RegistrationRow_post_auth_action := RegistrationRow_post_auth_action r;
     RegistrationRow_username := RegistrationRow_username r;
     RegistrationRow_display_name := RegistrationRow_display_name r;
     RegistrationRow_avatar_url := Some x;
     RegistrationRow_terms_url := RegistrationRow_terms_url r;
     RegistrationRow_email_authentication_id := RegistrationRow_email_authentication_id r;
     RegistrationRow_phone_authentication_id := RegistrationRow_phone_authentication_id r;
     RegistrationRow_user_registration_token_id := RegistrationRow_user_registration_token_id r;
     RegistrationRow_hashed_password := RegistrationRow_hashed_password r;
     RegistrationRow_hashed_password_version := RegistrationRow_hashed_password_version r;
     RegistrationRow_upstream_oauth_authorization_session_id := RegistrationRow_upstream_oauth_authorization_session_id r;
     RegistrationRow_created_at := RegistrationRow_created_at r;
     RegistrationRow_completed_at := RegistrationRow_completed_at r |}.
Definition RegistrationRow_set_terms_url (x : string) (r : UserRegistrationRow) : UserRegistrationRow :=
  {| RegistrationRow_ip_address := RegistrationRow_ip_address r;
     RegistrationRow_user_agent := RegistrationRow_user_agent r;
     RegistrationRow_post_auth_action := RegistrationRow_post_auth_action r;
     RegistrationRow_username := RegistrationRow_username r;
     RegistrationRow_display_name := RegistrationRow_display_name r;
     RegistrationRow_avatar_url := RegistrationRow_avatar_url r;
     RegistrationRow_terms_url := Some x;
     RegistrationRow_email_authentication_id := RegistrationRow_email_authentication_id r;
     RegistrationRow_phone_authentication_id := RegistrationRow_phone_authentication_id r;
     RegistrationRow_user_registration_token_id := RegistrationRow_user_registration_token_id r;
     RegistrationRow_hashed_password := RegistrationRow_hashed_password r;
     RegistrationRow_hashed_password_version := RegistrationRow_hashed_password_version r;
     RegistrationRow_upstream_oauth_authorization_session_id := RegistrationRow_upstream_oauth_authorization_session_id r;
     RegistrationRow_created_at := RegistrationRow_created_at r;
     RegistrationRow_completed_at := RegistrationRow_completed_at r |}.
Definition RegistrationRow_set_email_authentication_id (x : Ulid) (r : UserRegistrationRow) : UserRegistrationRow :=
  {| RegistrationRow_ip_address := RegistrationRow_ip_address r;
     RegistrationRow_user_agent := RegistrationRow_user_agent r;
     RegistrationRow_post_auth_action := RegistrationRow_post_auth_action r;
     RegistrationRow_username := RegistrationRow_username r;
     RegistrationRow_display_name := RegistrationRow_display_name r;
     RegistrationRow_avatar_url := RegistrationRow_avatar_url r;
     RegistrationRow_terms_url := RegistrationRow_terms_url r;
     RegistrationRow_email_authentication_id := Some x;
     RegistrationRow_phone_authentication_id := RegistrationRow_phone_authentication_id r;
     RegistrationRow_user_registration_token_id := RegistrationRow_user_registration_token_id r;
     RegistrationRow_hashed_password := RegistrationRow_hashed_password r;
     RegistrationRow_hashed_password_version := RegistrationRow_hashed_password_version r;
     RegistrationRow_upstream_oauth_authorization_session_id := RegistrationRow_upstream_oauth_authorization_session_id r;
     RegistrationRow_created_at := RegistrationRow_created_at r;
     RegistrationRow_completed_at := RegistrationRow_completed_at r |}.
Definition RegistrationRow_set_phone_authentication_id (x : Ulid) (r : UserRegistrationRow) : UserRegistrationRow :=
  {| RegistrationRow_ip_address := RegistrationRow_ip_address r;
     RegistrationRow_user_agent := RegistrationRow_user_agent r;
     RegistrationRow_post_auth_action := RegistrationRow_post_auth_action r;
     RegistrationRow_username := RegistrationRow_username r;
     RegistrationRow_display_name := RegistrationRow_display_name r;
     RegistrationRow_avatar_url := RegistrationRow_avatar_url r;
     RegistrationRow_terms_url := RegistrationRow_terms_url r;
     RegistrationRow_email_authentication_id := RegistrationRow_email_authentication_id r;
     RegistrationRow_phone_authentication_id := Some x;
     RegistrationRow_user_registration_token_id := RegistrationRow_user_registration_token_id r;
     RegistrationRow_hashed_password := RegistrationRow_hashed_password r;
     RegistrationRow_hashed_password_version := RegistrationRow_hashed_password_version r;
     RegistrationRow_upstream_oauth_authorization_session_id := RegistrationRow_upstream_oauth_authorization_session_id r;
     RegistrationRow_created_at := RegistrationRow_created_at r;
     RegistrationRow_completed_at := RegistrationRow_completed_at r |}.
Definition RegistrationRow_set_user_registration_token_id (x : Ulid) (r : UserRegistrationRow) : UserRegistrationRow :=
  {| RegistrationRow_ip_address := RegistrationRow_ip_address r;
     RegistrationRow_user_agent := RegistrationRow_user_agent r;
     RegistrationRow_post_auth_action := RegistrationRow_post_auth_action r;
     RegistrationRow_username := RegistrationRow_username r;
     RegistrationRow_display_name := RegistrationRow_display_name r;
     RegistrationRow_avatar_url := RegistrationRow_avatar_url r;
     RegistrationRow_terms_url := RegistrationRow_terms_url r;
     RegistrationRow_email_authentication_id := RegistrationRow_email_authentication_id r;
     RegistrationRow_phone_authentication_id := RegistrationRow_phone_authentication_id r;
     RegistrationRow_user_registration_token_id := Some x;
     RegistrationRow_hashed_password := RegistrationRow_hashed_password r;
     RegistrationRow_hashed_password_version := RegistrationRow_hashed_password_version r;
     RegistrationRow_upstream_oauth_authorization_session_id := RegistrationRow_upstream_oauth_authorization_session_id r;
     RegistrationRow_created_at := RegistrationRow_created_at r;
     RegistrationRow_completed_at := RegistrationRow_completed_at r |}.
Definition RegistrationRow_set_password (hashed : string) (version : Z) (r : UserRegistrationRow) : UserRegistrationRow :=
  {| RegistrationRow_ip_address := RegistrationRow_ip_address r;
     RegistrationRow_user_agent := RegistrationRow_user_agent r;
     RegistrationRow_post_auth_action := RegistrationRow_post_auth_action r;
     RegistrationRow_username := RegistrationRow_username r;
     RegistrationRow_display_name := RegistrationRow_display_name r;
     RegistrationRow_avatar_url := RegistrationRow_avatar_url r;
     RegistrationRow_terms_url := RegistrationRow_terms_url r;
     RegistrationRow_email_authentication_id := RegistrationRow_email_authentication_id r;
     RegistrationRow_phone_authentication_id := RegistrationRow_phone_authentication_id r;
     RegistrationRow_user_registration_token_id := RegistrationRow_user_registration_token_id r;
     RegistrationRow_hashed_password := Some hashed;
     RegistrationRow_hashed_password_version := Some version;
     RegistrationRow_upstream_oauth_authorization_session_id := RegistrationRow_upstream_oauth_authorization_session_id r;
     RegistrationRow_created_at := RegistrationRow_created_at r;
     RegistrationRow_completed_at := RegistrationRow_completed_at r |}.
Definition RegistrationRow_set_upstream_oauth_authorization_session_id (x : Ulid) (r : UserRegistrationRow) : UserRegistrationRow :=
  {| RegistrationRow_ip_address := RegistrationRow_ip_address r;
     RegistrationRow_user_agent := RegistrationRow_user_agent r;
     RegistrationRow_post_auth_action := RegistrationRow_post_auth_action r;
     RegistrationRow_username := RegistrationRow_username r;
     RegistrationRow_display_name := RegistrationRow_display_name r;
     RegistrationRow_avatar_url := RegistrationRow_avatar_url r;
     RegistrationRow_terms_url := RegistrationRow_terms_url r;
     RegistrationRow_email_authentication_id := RegistrationRow_email_authentication_id r;
     RegistrationRow_phone_authentication_id := RegistrationRow_phone_authentication_id r;
     RegistrationRow_user_registration_token_id := RegistrationRow_user_registration_token_id r;
     RegistrationRow_hashed_password := RegistrationRow_hashed_password r;
     RegistrationRow_hashed_password_version := RegistrationRow_hashed_password_version r;
     RegistrationRow_upstream_oauth_authorization_session_id := Some x;
     RegistrationRow_created_at := RegistrationRow_created_at r;
     RegistrationRow_completed_at := RegistrationRow_completed_at r |}.
Definition RegistrationRow_set_completed_at (x : DateTime) (r : UserRegistrationRow) : UserRegistrationRow :=
  {| RegistrationRow_ip_address := RegistrationRow_ip_address r;
     RegistrationRow_user_agent := RegistrationRow_user_agent r;
     RegistrationRow_post_auth_action := RegistrationRow_post_auth_action r;
     RegistrationRow_username := RegistrationRow_username r;
     RegistrationRow_display_name := RegistrationRow_display_name r;
     RegistrationRow_avatar_url := RegistrationRow_avatar_url r;
     RegistrationRow_terms_url := RegistrationRow_terms_url r;
     RegistrationRow_email_authentication_id := RegistrationRow_email_authentication_id r;
     RegistrationRow_phone_authentication_id := RegistrationRow_phone_authentication_id r;
     RegistrationRow_user_registration_token_id := RegistrationRow_user_registration_token_id r;
     RegistrationRow_hashed_password := RegistrationRow_hashed_password r;
     RegistrationRow_hashed_password_version := RegistrationRow_hashed_password_version r;
     RegistrationRow_upstream_oauth_authorization_session_id := RegistrationRow_upstream_oauth_authorization_session_id r;
     RegistrationRow_created_at := RegistrationRow_created_at r;
     RegistrationRow_completed_at := Some x |}.

Record UserRegistrationTokenRow := {
  RegistrationTokenRow_token : string;
  RegistrationTokenRow_usage_limit : option Z;
  RegistrationTokenRow_times_used : Z;
  RegistrationTokenRow_created_at : DateTime;
  RegistrationTokenRow_last_used_at : option DateTime;
  RegistrationTokenRow_expires_at : option DateTime;
  RegistrationTokenRow_revoked_at : option DateTime;
}.
Definition RegistrationTokenRow_set (usage_limit : option Z) (times_used : Z)
    (last_used_at expires_at revoked_at : option DateTime) (r : UserRegistrationTokenRow) : UserRegistrationTokenRow :=
  {| RegistrationTokenRow_token := RegistrationTokenRow_token r;
     RegistrationTokenRow_usage_limit := usage_limit;
     RegistrationTokenRow_times_used := times_used;
     RegistrationTokenRow_created_at := RegistrationTokenRow_created_at r;
     RegistrationTokenRow_last_used_at := last_used_at;
     RegistrationTokenRow_expires_at := expires_at;
     RegistrationTokenRow_revoked_at := revoked_at |}.

Record UserTermsRow := {
  TermsRow_user_id : Ulid;
  TermsRow_terms_url : string;
  TermsRow_created_at : DateTime;
}.

Record UpstreamOAuthLinkRow := {
  UpstreamLinkRow_provider_id : Ulid;
  UpstreamLinkRow_user_id : option Ulid;
  UpstreamLinkRow_subject : string;
  UpstreamLinkRow_human_account_name : option string;
  UpstreamLinkRow_created_at : DateTime;
  UpstreamLinkRow_updated_at : DateTime;
}.
Definition UpstreamLinkRow_set_user (user_id : Ulid) (updated_at : DateTime) (r : UpstreamOAuthLinkRow) : UpstreamOAuthLinkRow :=
  {| UpstreamLinkRow_provider_id := UpstreamLinkRow_provider_id r;
     UpstreamLinkRow_user_id := Some user_id;
     UpstreamLinkRow_subject := UpstreamLinkRow_subject r;
     UpstreamLinkRow_human_account_name := UpstreamLinkRow_human_account_name r;
     UpstreamLinkRow_created_at := UpstreamLinkRow_created_at r;
     UpstreamLinkRow_updated_at := updated_at |}.

Record UpstreamOAuthAuthorizationSessionRow := {
  UpstreamSessionRow_provider_id : Ulid;
  UpstreamSessionRow_link_id : option Ulid;
  UpstreamSessionRow_state : string;
  UpstreamSessionRow_code_challenge_verifier : option string;
  UpstreamSessionRow_nonce : option string;
  UpstreamSessionRow_id_token : option string;
  UpstreamSessionRow_id_token_claims : option Json;
  UpstreamSessionRow_userinfo : option Json;
  UpstreamSessionRow_created_at : DateTime;
  UpstreamSessionRow_completed_at : option DateTime;
  UpstreamSessionRow_consumed_at : option DateTime;
  UpstreamSessionRow_extra_callback_parameters : option Json;
  UpstreamSessionRow_unlinked_at : option DateTime;
  UpstreamSessionRow_user_session_id : option Ulid;
}.
Definition UpstreamSessionRow_set_consumed (consumed_at : DateTime) (user_session_id : Ulid) (r : UpstreamOAuthAuthorizationSessionRow) : UpstreamOAuthAuthorizationSessionRow :=
  {| UpstreamSessionRow_provider_id := UpstreamSessionRow_provider_id r;
     UpstreamSessionRow_link_id := UpstreamSessionRow_link_id r;
     UpstreamSessionRow_state := UpstreamSessionRow_state r;
     UpstreamSessionRow_code_challenge_verifier := UpstreamSessionRow_code_challenge_verifier r;
     UpstreamSessionRow_nonce := UpstreamSessionRow_nonce r;
     UpstreamSessionRow_id_token := UpstreamSessionRow_id_token r;
     UpstreamSessionRow_id_token_claims := UpstreamSessionRow_id_token_claims r;
     UpstreamSessionRow_userinfo := UpstreamSessionRow_userinfo r;
     UpstreamSessionRow_created_at := UpstreamSessionRow_created_at r;
     UpstreamSessionRow_completed_at := UpstreamSessionRow_completed_at r;
     UpstreamSessionRow_consumed_at := Some consumed_at;
     UpstreamSessionRow_extra_callback_parameters := UpstreamSessionRow_extra_callback_parameters r;
     UpstreamSessionRow_unlinked_at := UpstreamSessionRow_unlinked_at r;
     UpstreamSessionRow_user_session_id := Some user_session_id |}.

(** ** Recovery *)

Record UserRecoverySession := {
  RecoverySession_id : Ulid;
  RecoverySession_email : string;
  RecoverySession_user_agent : string;
  RecoverySession_ip_address : option IpAddr;
  RecoverySession_locale : string;
  RecoverySession_created_at : DateTime;
  RecoverySession_consumed_at : option DateTime;
}.

Definition RecoverySession_set_consumed_at (consumed_at : DateTime) (self : UserRecoverySession)
    : UserRecoverySession :=
  {| RecoverySession_id := RecoverySession_id self;
     RecoverySession_email := RecoverySession_email self;
     RecoverySession_user_agent := RecoverySession_user_agent self;
     RecoverySession_ip_address := RecoverySession_ip_address self;
     RecoverySession_locale := RecoverySession_locale self;
     RecoverySession_created_at := RecoverySession_created_at self;
     RecoverySession_consumed_at := Some consumed_at |}.

Record UserRecoveryTicket := {
  RecoveryTicket_id : Ulid;
  RecoveryTicket_user_recovery_session_id : Ulid;
  RecoveryTicket_user_email_id : Ulid;
  RecoveryTicket_ticket : string;
  RecoveryTicket_created_at : DateTime;
  RecoveryTicket_expires_at : DateTime;
}.

Definition RecoveryTicket_active (self : UserRecoveryTicket) (now : DateTime) : bool :=
  now <? RecoveryTicket_expires_at self.

Record UserRecoverySessionRow := {
  RecoverySessionRow_email : string;
  RecoverySessionRow_user_agent : string;
  RecoverySessionRow_ip_address : option IpAddr;
  RecoverySessionRow_locale : string;
  RecoverySessionRow_created_at : DateTime;
  RecoverySessionRow_consumed_at : option DateTime;
}.

Definition RecoverySessionRow_set_consumed_at (consumed_at : DateTime) (r : UserRecoverySessionRow)
    : UserRecoverySessionRow :=
  {| RecoverySessionRow_email := RecoverySessionRow_email r;
     RecoverySessionRow_user_agent := RecoverySessionRow_user_agent r;
     RecoverySessionRow_ip_address := RecoverySessionRow_ip_address r;
     RecoverySessionRow_locale := RecoverySessionRow_locale r;
     RecoverySessionRow_created_at := RecoverySessionRow_created_at r;
     RecoverySessionRow_consumed_at := Some consumed_at |}.

Record UserRecoveryTicketRow := {
  RecoveryTicketRow_user_recovery_session_id : Ulid;
  RecoveryTicketRow_user_email_id : Ulid;
  RecoveryTicketRow_ticket : string;
  RecoveryTicketRow_created_at : DateTime;
  RecoveryTicketRow_expires_at : DateTime;
}.

(** ** Tables *)

(** The tables of accounts; those of users and of their sessions are elsewhere. *)
Record AccountTables := mkAccounts {
  acc_passwords : gmap Z UserPasswordRow;
  acc_emails : gmap Z UserEmailRow;
  acc_email_authentications : gmap Z UserEmailAuthenticationRow;
  acc_email_codes : gmap Z UserEmailAuthenticationCodeRow;
  acc_phones : gmap Z UserPhoneRow;
  acc_phone_authentications : gmap Z UserPhoneAuthenticationRow;
  acc_phone_codes : gmap Z UserPhoneAuthenticationCodeRow;
  acc_registrations : gmap Z UserRegistrationRow;
  acc_registration_tokens : gmap Z UserRegistrationTokenRow;
  acc_terms : gmap Z UserTermsRow;
  acc_links : gmap Z UpstreamOAuthLinkRow;
  acc_upstream_sessions : gmap Z UpstreamOAuthAuthorizationSessionRow;
  acc_recovery_sessions : gmap Z UserRecoverySessionRow;
  acc_recovery_tickets : gmap Z UserRecoveryTicketRow;
}.

Definition no_accounts : AccountTables :=
  mkAccounts ∅ ∅ ∅ ∅ ∅ ∅ ∅ ∅ ∅ ∅ ∅ ∅ ∅ ∅.
