(* ===== verification/Notification.v ===== *)
(** Notifications: the records and life cycles of crates/data/src/notification.rs, the drafts of
    crates/data/src/storage/notification.rs, and the rows of the tables [notification_requests],
    [notification_deliveries], [notification_event_logs] and [notification_preferences]. *)
From S2P Require Import Prelude Ids Jose Domain.

Open Scope Z_scope.

(** ** Data (data/src/notification.rs) *)

Inductive NotificationRequestSource :=
| Source_UserEmailAuthentication (user_email_authentication_id : Ulid)
| Source_UserPhoneAuthentication (user_phone_authentication_id : Ulid)
| Source_UserRecoverySession (user_recovery_session_id : Ulid)
| Source_WorkflowInstance (workflow_instance_id : Ulid)
| Source_AdminOperation (admin_operation_id : Ulid)
| Source_System (source_key : string).

Inductive NotificationRequestStatus :=
| Request_Pending | Request_Processing | Request_Succeeded | Request_Failed | Request_Cancelled.
#[export] Instance NotificationRequestStatus_eq_dec : EqDecision NotificationRequestStatus.
Proof. solve_decision. Defined.

Definition NotificationRequestStatus_is_terminal (self : NotificationRequestStatus) : bool :=
  match self with
  | Request_Succeeded | Request_Failed | Request_Cancelled => true
  | Request_Pending | Request_Processing => false
  end.

Inductive NotificationChannel := Channel_Email | Channel_Sms | Channel_Webhook | Channel_InApp.
#[export] Instance NotificationChannel_eq_dec : EqDecision NotificationChannel.
Proof. solve_decision. Defined.

Inductive NotificationDestination :=
| Destination_Email (email : string)
| Destination_Sms (phone_number : string)
| Destination_Webhook (url : string)
| Destination_InApp (user_id : Ulid).

Inductive NotificationDeliveryStatus :=
| Delivery_Pending | Delivery_Reserved | Delivery_Sending | Delivery_Delivered | Delivery_Failed
| Delivery_Cancelled.
#[export] Instance NotificationDeliveryStatus_eq_dec : EqDecision NotificationDeliveryStatus.
Proof. solve_decision. Defined.

Definition NotificationDeliveryStatus_is_terminal (self : NotificationDeliveryStatus) : bool :=
  match self with
  | Delivery_Delivered | Delivery_Failed | Delivery_Cancelled => true
  | Delivery_Pending | Delivery_Reserved | Delivery_Sending => false
  end.

Record NotificationDeliveryFailure := {
  failure_code : option string;
  failure_message : option string;
  failure_retryable : bool;
}.
#[export] Instance NotificationDeliveryFailure_eq_dec : EqDecision NotificationDeliveryFailure.
Proof. solve_decision. Defined.

Inductive NotificationEventKind :=
| Event_RequestCreated | Event_RequestScheduled | Event_DeliveryQueued | Event_DeliveryReserved
| Event_DeliverySendStarted | Event_DeliveryAccepted | Event_DeliveryDelivered
| Event_DeliveryFailed | Event_DeliveryRetried | Event_RequestCompleted | Event_RequestFailed
| Event_RequestCancelled.
#[export] Instance NotificationEventKind_eq_dec : EqDecision NotificationEventKind.
Proof. solve_decision. Defined.

Inductive NotificationEventActor :=
| Actor_System
| Actor_Worker (worker : string)
| Actor_Admin (user_id : Ulid)
| Actor_User (user_id : Ulid).

(** The payload of a request, as the structs that it is encoded from and decoded to
    (tasks/src/notifications.rs): [EmailVerificationPayload] and [SmsVerificationPayload] have the
    same fields, so that either decodes as the other; [EmailRecoveryPayload] shares none with
    them. *)
Inductive NotificationPayload :=
| Payload_Verification (code language : string)
| Payload_EmailRecovery (user_id : Ulid) (ticket : string).

Record NotificationRequest := mkRequest {
  nreq_id : Ulid;
  nreq_template_key : string;
  nreq_locale : string;
  nreq_source : NotificationRequestSource;
  nreq_payload : NotificationPayload;
  nreq_status : NotificationRequestStatus;
  nreq_dedupe_key : option string;
  nreq_correlation_key : option string;
  nreq_created_at : DateTime;
  nreq_scheduled_at : DateTime;
  nreq_started_at : option DateTime;
  nreq_completed_at : option DateTime;
  nreq_cancelled_at : option DateTime;
}.

Record NotificationDelivery := mkDelivery {
  ndel_id : Ulid;
  ndel_notification_request_id : Ulid;
  ndel_channel : NotificationChannel;
  ndel_destination : NotificationDestination;
  ndel_provider_binding_key : option string;
  ndel_provider_message_id : option string;
  ndel_attempt_count : Z;
  ndel_status : NotificationDeliveryStatus;
  ndel_last_failure : option NotificationDeliveryFailure;
  ndel_created_at : DateTime;
  ndel_reserved_at : option DateTime;
  ndel_sent_at : option DateTime;
  ndel_delivered_at : option DateTime;
  ndel_failed_at : option DateTime;
  ndel_next_retry_at : option DateTime;
}.

Definition NotificationDelivery_should_retry (self : NotificationDelivery) : bool :=
  bool_decide (ndel_status self = Delivery_Failed) &&
  match ndel_last_failure self with Some failure => failure_retryable failure | None => false end &&
  bool_decide (is_Some (ndel_next_retry_at self)).

Record NotificationEventLog := {
  nev_id : Ulid;
  nev_notification_request_id : Ulid;
  nev_notification_delivery_id : option Ulid;
  nev_kind : NotificationEventKind;
  nev_actor : NotificationEventActor;
  nev_summary : option string;
  nev_metadata : Json;
  nev_occurred_at : DateTime;
}.

Record NotificationPreference := {
  npref_id : Ulid;
  npref_user_id : Ulid;
  npref_channel : NotificationChannel;
  npref_enabled : bool;
  npref_updated_at : DateTime;
}.

(** ** Drafts (data/src/storage/notification.rs) *)

Record NewNotificationRequest := {
  newreq_template_key : string;
  newreq_locale : string;
  newreq_source : NotificationRequestSource;
  newreq_payload : NotificationPayload;
  newreq_dedupe_key : option string;
  newreq_correlation_key : option string;
  newreq_scheduled_at : option DateTime;
}.
Definition NewNotificationRequest_new (template_key locale : string)
    (source : NotificationRequestSource) (payload : NotificationPayload) : NewNotificationRequest :=
  {| newreq_template_key := template_key; newreq_locale := locale; newreq_source := source;
     newreq_payload := payload; newreq_dedupe_key := None; newreq_correlation_key := None;
     newreq_scheduled_at := None |}.

Record NewNotificationDelivery := {
  newdel_channel : NotificationChannel;
  newdel_destination : NotificationDestination;
  newdel_provider_binding_key : option string;
}.
Definition NewNotificationDelivery_new (channel : NotificationChannel)
    (destination : NotificationDestination) : NewNotificationDelivery :=
  {| newdel_channel := channel; newdel_destination := destination;
     newdel_provider_binding_key := None |}.
Definition with_provider_binding_key (key : string) (self : NewNotificationDelivery)
    : NewNotificationDelivery :=
  {| newdel_channel := newdel_channel self; newdel_destination := newdel_destination self;
     newdel_provider_binding_key := Some key |}.

Record NewNotificationEventLog := {
  newev_kind : NotificationEventKind;
  newev_actor : NotificationEventActor;
  newev_summary : option string;
  newev_metadata : Json;
}.
Definition NewNotificationEventLog_new (kind : NotificationEventKind)
    (actor : NotificationEventActor) (metadata : Json) : NewNotificationEventLog :=
  {| newev_kind := kind; newev_actor := actor; newev_summary := None; newev_metadata := metadata |}.
Definition with_summary (summary : string) (self : NewNotificationEventLog)
    : NewNotificationEventLog :=
  {| newev_kind := newev_kind self; newev_actor := newev_actor self;
     newev_summary := Some summary; newev_metadata := newev_metadata self |}.

(** ** Rows

    A JSON column holds the value it is encoded from; the columns of statuses, channels and kinds
    are texts. *)

Record NotificationRequestRow := {
  RequestRow_template_key : string;
  RequestRow_locale : string;
  RequestRow_source : NotificationRequestSource;
  RequestRow_payload : NotificationPayload;
  RequestRow_status : string;
  RequestRow_dedupe_key : option string;
  RequestRow_correlation_key : option string;
  RequestRow_created_at : DateTime;
  RequestRow_scheduled_at : DateTime;
  RequestRow_started_at : option DateTime;
  RequestRow_completed_at : option DateTime;
  RequestRow_cancelled_at : option DateTime;
}.

Record NotificationDeliveryRow := {
  DeliveryRow_notification_request_id : Ulid;
  DeliveryRow_channel : string;
  DeliveryRow_destination : NotificationDestination;
  DeliveryRow_provider_binding_key : option string;
  DeliveryRow_provider_message_id : option string;
  DeliveryRow_attempt_count : Z;
  DeliveryRow_status : string;
  DeliveryRow_last_failure : option NotificationDeliveryFailure;
  DeliveryRow_created_at : DateTime;
  DeliveryRow_reserved_at : option DateTime;
  DeliveryRow_sent_at : option DateTime;
  DeliveryRow_delivered_at : option DateTime;
  DeliveryRow_failed_at : option DateTime;
  DeliveryRow_next_retry_at : option DateTime;
}.

Record NotificationEventLogRow := {
  EventRow_notification_request_id : Ulid;
  EventRow_notification_delivery_id : option Ulid;
  EventRow_kind : string;
  EventRow_actor : NotificationEventActor;
  EventRow_summary : option string;
  EventRow_metadata : Json;
  EventRow_occurred_at : DateTime;
}.

Record NotificationPreferenceRow := {
  PreferenceRow_user_id : Ulid;
  PreferenceRow_channel : string;
  PreferenceRow_enabled : bool;
  PreferenceRow_updated_at : DateTime;
}.

Record NotificationTables := mkNotifications {
  ntf_requests : gmap Z NotificationRequestRow;
  ntf_deliveries : gmap Z NotificationDeliveryRow;
  ntf_events : gmap Z NotificationEventLogRow;
  ntf_preferences : gmap Z NotificationPreferenceRow;
}.
