(* ===== verification/Database.v ===== *)
(** The database the repositories work on, and the state of a request.

    A table is a finite map from the primary key (the [id] column) to the other
    columns of its row; the tables are those of
    crates/data/migrations/00000000000000_initial/up.sql the OAuth 2.0 code
    reads or writes. A request runs in one transaction: it works on its own
    copy of the database, [save] makes that copy the committed one, and a
    repository that is dropped (an early return) leaves the committed one
    alone. The clock and the random generator are tapes; what is sent to the
    homeserver, to the activity tracker and to the advisory lock is logged. *)
From S2P Require Import Prelude Ids RateLimit Scope Pkce Jose Domain Accounts Notification.

Open Scope Z_scope.

(** ** Errors (crates/data/src/pg/errors.rs) *)

(** The constraint violations the driver reports. *)
Inductive DieselError :=
| UniqueViolation (table column : string)
| ForeignKeyViolation (table column : string)
| NotNullViolation (table column : string)
| NumericOutOfRange
(** [diesel::result::Error::NotFound]: a statement that had to give a row gave none *)
| NoRow.

Record DatabaseInconsistencyError := {
  inconsistency_table : string;
  inconsistency_column : option string;
  inconsistency_row : option Ulid;
}.

Inductive DatabaseError :=
| Db_Diesel (source : DieselError)
| Db_Inconsistency (source : DatabaseInconsistencyError)
| Db_InvalidOperation
| Db_RowsAffected (expected actual : nat).

(** [DatabaseError::to_invalid_operation] of a failed transition. *)
Definition to_invalid_operation (_ : InvalidTransitionError) : DatabaseError := Db_InvalidOperation.

(** [DatabaseInconsistencyError::on(table).column(column).row(row)] *)
Definition inconsistent (table column : string) (row : Ulid) : DatabaseError :=
  Db_Inconsistency {| inconsistency_table := table;
                      inconsistency_column := Some column;
                      inconsistency_row := Some row |}.

(** Without a column. *)
Definition inconsistent_row (table : string) (row : Ulid) : DatabaseError :=
  Db_Inconsistency {| inconsistency_table := table;
                      inconsistency_column := None;
                      inconsistency_row := Some row |}.

(** ** Rows *)

Record UserRow := {
  UserRow_username : string;
  UserRow_created_at : DateTime;
  UserRow_updated_at : DateTime;
  UserRow_locked_at : option DateTime;
  UserRow_deactivated_at : option DateTime;
  UserRow_can_request_admin : bool;
  UserRow_is_guest : bool;
  UserRow_display_name : option string;
  UserRow_avatar_url : option string;
  UserRow_preferred_locale : option string;
}.

Record UserSessionRow := {
  UserSessionRow_user_id : Ulid;
  UserSessionRow_created_at : DateTime;
  UserSessionRow_finished_at : option DateTime;
  UserSessionRow_user_agent : option string;
  UserSessionRow_last_active_at : option DateTime;
  UserSessionRow_last_active_ip : option IpAddr;
}.

Record AuthenticationRow := {
  AuthenticationRow_user_session_id : Ulid;
  AuthenticationRow_created_at : DateTime;
  AuthenticationRow_user_password_id : option Ulid;
  AuthenticationRow_upstream_oauth_authorization_session_id : option Ulid;
}.

(** A row of [oauth2_clients], with the rows of
    [oauth2_client_localized_metadata] that refer to it. *)
Record OAuth2ClientRow := {
  ClientRow_metadata_digest : option string;
  ClientRow_encrypted_client_secret : option string;
  ClientRow_application_type : option string;
  ClientRow_redirect_uris : list string;
  ClientRow_grant_type_authorization_code : bool;
  ClientRow_grant_type_refresh_token : bool;
  ClientRow_grant_type_client_credentials : bool;
  ClientRow_grant_type_device_code : option bool;
  ClientRow_client_name : option string;
  ClientRow_logo_uri : option string;
  ClientRow_client_uri : option string;
  ClientRow_policy_uri : option string;
  ClientRow_tos_uri : option string;
  ClientRow_jwks_uri : option string;
  ClientRow_jwks : option Json;
  ClientRow_id_token_signed_response_alg : option string;
  ClientRow_userinfo_signed_response_alg : option string;
  ClientRow_token_endpoint_auth_method : option string;
  ClientRow_token_endpoint_auth_signing_alg : option string;
  ClientRow_initiate_login_uri : option string;
  ClientRow_is_static : option bool;
  (** locale, field and value *)
  ClientRow_localized : list (string * string * string);
}.

Record OAuthSessionRow := {
  OAuthSessionRow_user_id : option Ulid;
  OAuthSessionRow_user_session_id : option Ulid;
  OAuthSessionRow_oauth2_client_id : Ulid;
  OAuthSessionRow_scope_list : list string;
  OAuthSessionRow_created_at : DateTime;
  OAuthSessionRow_finished_at : option DateTime;
  OAuthSessionRow_user_agent : option string;
  OAuthSessionRow_last_active_at : option DateTime;
  OAuthSessionRow_last_active_ip : option IpAddr;
  OAuthSessionRow_human_name : option string;
}.

Record OAuth2AccessTokenRow := {
  AccessTokenRow_oauth2_session_id : Ulid;
  AccessTokenRow_access_token : string;
  AccessTokenRow_created_at : DateTime;
  AccessTokenRow_expires_at : option DateTime;
  AccessTokenRow_revoked_at : option DateTime;
  AccessTokenRow_first_used_at : option DateTime;
}.

Record OAuth2RefreshTokenRow := {
  RefreshTokenRow_refresh_token : string;
  RefreshTokenRow_created_at : DateTime;
  RefreshTokenRow_consumed_at : option DateTime;
  RefreshTokenRow_revoked_at : option DateTime;
  RefreshTokenRow_oauth2_access_token_id : option Ulid;
  RefreshTokenRow_oauth2_session_id : Ulid;
  RefreshTokenRow_next_oauth2_refresh_token_id : option Ulid;
}.

(** [GrantLookup] *)
Record GrantRow := {
  GrantRow_created_at : DateTime;
  GrantRow_cancelled_at : option DateTime;
  GrantRow_fulfilled_at : option DateTime;
  GrantRow_exchanged_at : option DateTime;
  GrantRow_scope : string;
  GrantRow_state : option string;
  GrantRow_nonce : option string;
  GrantRow_redirect_uri : string;
  GrantRow_response_mode : string;
  GrantRow_response_type_code : bool;
  GrantRow_response_type_id_token : bool;
  GrantRow_authorization_code : option string;
  GrantRow_code_challenge : option string;
  GrantRow_code_challenge_method : option string;
  GrantRow_login_hint : option string;
  GrantRow_locale : option string;
  GrantRow_oauth2_client_id : Ulid;
  GrantRow_oauth2_session_id : option Ulid;
}.

(** [OAuth2DeviceGrantLookup] *)
Record DeviceGrantRow := {
  DeviceGrantRow_oauth2_client_id : Ulid;
  DeviceGrantRow_scope : string;
  DeviceGrantRow_device_code : string;
  DeviceGrantRow_user_code : string;
  DeviceGrantRow_created_at : DateTime;
  DeviceGrantRow_expires_at : DateTime;
  DeviceGrantRow_fulfilled_at : option DateTime;
  DeviceGrantRow_rejected_at : option DateTime;
  DeviceGrantRow_exchanged_at : option DateTime;
  DeviceGrantRow_user_session_id : option Ulid;
  DeviceGrantRow_oauth2_session_id : option Ulid;
  DeviceGrantRow_ip_address : option IpAddr;
  DeviceGrantRow_user_agent : option string;
}.

Record PersonalSessionRow := {
  PersonalSessionRow_owner_user_id : option Ulid;
  PersonalSessionRow_owner_oauth2_client_id : option Ulid;
  PersonalSessionRow_actor_user_id : Ulid;
  PersonalSessionRow_human_name : string;
  PersonalSessionRow_scope_list : list string;
  PersonalSessionRow_created_at : DateTime;
  PersonalSessionRow_revoked_at : option DateTime;
  PersonalSessionRow_last_active_at : option DateTime;
  PersonalSessionRow_last_active_ip : option IpAddr;
}.

Record PersonalAccessTokenRow := {
  PersonalTokenRow_personal_session_id : Ulid;
  PersonalTokenRow_access_token_sha256 : string;
  PersonalTokenRow_created_at : DateTime;
  PersonalTokenRow_expires_at : option DateTime;
  PersonalTokenRow_revoked_at : option DateTime;
}.

(** [ContactVerificationTarget] *)
Inductive ContactVerificationTarget :=
| Target_Email (user_email_authentication_id : Ulid)
| Target_Phone (user_phone_authentication_id : Ulid).

(** The payload of a job, before it is encoded: [SyncDevicesJob], [ProvisionUserJob],
    [DispatchNotificationJob], [ProcessNotificationDeliveriesJob] and [DeactivateUserJob]. *)
Inductive JobPayload :=
| Payload_SyncDevices (user_id : Ulid)
| Payload_ProvisionUser (user_id : Ulid) (set_display_name set_avatar_url : option string)
| Payload_ContactVerification (target : ContactVerificationTarget) (language : string)
| Payload_EmailAuthenticationCode (user_email_authentication_id : Ulid) (language : string)
| Payload_SmsAuthenticationCode (user_phone_authentication_id : Ulid) (language : string)
| Payload_AccountRecovery (user_recovery_session_id : Ulid)
| Payload_ProcessNotificationDeliveries (limit : Z)
| Payload_DeactivateUser (user_id : Ulid) (hs_erase : bool)
| Payload_ReactivateUser (user_id : Ulid)
| Payload_ProvisionDevice (user_id : Ulid) (device_id : string)
| Payload_DeleteDevice (user_id : Ulid) (device_id : string)
| Payload_ExpireInactiveSessions
| Payload_ExpireInactiveOAuthSessions (threshold : DateTime) (after : option Ulid)
| Payload_ExpireInactiveUserSessions (threshold : DateTime) (after : option Ulid).

(** A queued job. *)
Record QueueJobRow := {
  QueueJobRow_queue_name : string;
  QueueJobRow_payload : JobPayload;
  QueueJobRow_created_at : DateTime;
  QueueJobRow_scheduled_at : option DateTime;
}.

(** An entry of the log of administration. *)
Record AdminOperationLogRow := {
  AuditRow_admin_user_id : Ulid;
  AuditRow_operation : string;
  AuditRow_resource_type : string;
  AuditRow_resource_id : option Ulid;
  AuditRow_details : Json;
  AuditRow_ip_address : option IpAddr;
  AuditRow_user_agent : option string;
  AuditRow_created_at : DateTime;
}.

(** ** Tables *)

Record DB := mkDB {
  db_users : gmap Z UserRow;
  db_user_sessions : gmap Z UserSessionRow;
  db_authentications : gmap Z AuthenticationRow;
  db_clients : gmap Z OAuth2ClientRow;
  db_sessions : gmap Z OAuthSessionRow;
  db_access_tokens : gmap Z OAuth2AccessTokenRow;
  db_refresh_tokens : gmap Z OAuth2RefreshTokenRow;
  db_grants : gmap Z GrantRow;
  db_device_grants : gmap Z DeviceGrantRow;
  db_personal_sessions : gmap Z PersonalSessionRow;
  db_personal_tokens : gmap Z PersonalAccessTokenRow;
  db_jobs : gmap Z QueueJobRow;
  db_accounts : AccountTables;
  db_notifications : NotificationTables;
  (** [admin_operation_logs] *)
  db_audit : gmap Z AdminOperationLogRow;
}.

Definition on_users (f : gmap Z UserRow → gmap Z UserRow)
    (db : DB) : DB :=
  mkDB (f (db_users db)) (db_user_sessions db) (db_authentications db) (db_clients db)
    (db_sessions db) (db_access_tokens db) (db_refresh_tokens db) (db_grants db)
    (db_device_grants db) (db_personal_sessions db) (db_personal_tokens db) (db_jobs db)
    (db_accounts db) (db_notifications db) (db_audit db).
Definition on_user_sessions (f : gmap Z UserSessionRow → gmap Z UserSessionRow)
    (db : DB) : DB :=
  mkDB (db_users db) (f (db_user_sessions db)) (db_authentications db) (db_clients db)
    (db_sessions db) (db_access_tokens db) (db_refresh_tokens db) (db_grants db)
    (db_device_grants db) (db_personal_sessions db) (db_personal_tokens db) (db_jobs db)
    (db_accounts db) (db_notifications db) (db_audit db).
Definition on_authentications (f : gmap Z AuthenticationRow → gmap Z AuthenticationRow)
    (db : DB) : DB :=
  mkDB (db_users db) (db_user_sessions db) (f (db_authentications db)) (db_clients db)
    (db_sessions db) (db_access_tokens db) (db_refresh_tokens db) (db_grants db)
    (db_device_grants db) (db_personal_sessions db) (db_personal_tokens db) (db_jobs db)
    (db_accounts db) (db_notifications db) (db_audit db).
Definition on_clients (f : gmap Z OAuth2ClientRow → gmap Z OAuth2ClientRow)
    (db : DB) : DB :=
  mkDB (db_users db) (db_user_sessions db) (db_authentications db) (f (db_clients db))
    (db_sessions db) (db_access_tokens db) (db_refresh_tokens db) (db_grants db)
    (db_device_grants db) (db_personal_sessions db) (db_personal_tokens db) (db_jobs db)
    (db_accounts db) (db_notifications db) (db_audit db).
Definition on_sessions (f : gmap Z OAuthSessionRow → gmap Z OAuthSessionRow)
    (db : DB) : DB :=
  mkDB (db_users db) (db_user_sessions db) (db_authentications db) (db_clients db)
    (f (db_sessions db)) (db_access_tokens db) (db_refresh_tokens db) (db_grants db)
    (db_device_grants db) (db_personal_sessions db) (db_personal_tokens db) (db_jobs db)
    (db_accounts db) (db_notifications db) (db_audit db).
Definition on_access_tokens (f : gmap Z OAuth2AccessTokenRow → gmap Z OAuth2AccessTokenRow)
    (db : DB) : DB :=
  mkDB (db_users db) (db_user_sessions db) (db_authentications db) (db_clients db)
    (db_sessions db) (f (db_access_tokens db)) (db_refresh_tokens db) (db_grants db)
    (db_device_grants db) (db_personal_sessions db) (db_personal_tokens db) (db_jobs db)
    (db_accounts db) (db_notifications db) (db_audit db).
Definition on_refresh_tokens (f : gmap Z OAuth2RefreshTokenRow → gmap Z OAuth2RefreshTokenRow)
    (db : DB) : DB :=
  mkDB (db_users db) (db_user_sessions db) (db_authentications db) (db_clients db)
    (db_sessions db) (db_access_tokens db) (f (db_refresh_tokens db)) (db_grants db)
    (db_device_grants db) (db_personal_sessions db) (db_personal_tokens db) (db_jobs db)
    (db_accounts db) (db_notifications db) (db_audit db).
Definition on_grants (f : gmap Z GrantRow → gmap Z GrantRow)
    (db : DB) : DB :=
  mkDB (db_users db) (db_user_sessions db) (db_authentications db) (db_clients db)
    (db_sessions db) (db_access_tokens db) (db_refresh_tokens db) (f (db_grants db))
    (db_device_grants db) (db_personal_sessions db) (db_personal_tokens db) (db_jobs db)
    (db_accounts db) (db_notifications db) (db_audit db).
Definition on_device_grants (f : gmap Z DeviceGrantRow → gmap Z DeviceGrantRow)
    (db : DB) : DB :=
  mkDB (db_users db) (db_user_sessions db) (db_authentications db) (db_clients db)
    (db_sessions db) (db_access_tokens db) (db_refresh_tokens db) (db_grants db)
    (f (db_device_grants db)) (db_personal_sessions db) (db_personal_tokens db) (db_jobs db)
    (db_accounts db) (db_notifications db) (db_audit db).
Definition on_personal_sessions (f : gmap Z PersonalSessionRow → gmap Z PersonalSessionRow)
    (db : DB) : DB :=
  mkDB (db_users db) (db_user_sessions db) (db_authentications db) (db_clients db)
    (db_sessions db) (db_access_tokens db) (db_refresh_tokens db) (db_grants db)
    (db_device_grants db) (f (db_personal_sessions db)) (db_personal_tokens db) (db_jobs db)
    (db_accounts db) (db_notifications db) (db_audit db).
Definition on_personal_tokens (f : gmap Z PersonalAccessTokenRow → gmap Z PersonalAccessTokenRow)
    (db : DB) : DB :=
  mkDB (db_users db) (db_user_sessions db) (db_authentications db) (db_clients db)
    (db_sessions db) (db_access_tokens db) (db_refresh_tokens db) (db_grants db)
    (db_device_grants db) (db_personal_sessions db) (f (db_personal_tokens db)) (db_jobs db)
    (db_accounts db) (db_notifications db) (db_audit db).
Definition on_jobs (f : gmap Z QueueJobRow → gmap Z QueueJobRow)
    (db : DB) : DB :=
  mkDB (db_users db) (db_user_sessions db) (db_authentications db) (db_clients db)
    (db_sessions db) (db_access_tokens db) (db_refresh_tokens db) (db_grants db)
    (db_device_grants db) (db_personal_sessions db) (db_personal_tokens db) (f (db_jobs db))
    (db_accounts db) (db_notifications db) (db_audit db).

Definition on_accounts (f : AccountTables → AccountTables) (db : DB) : DB :=
  mkDB (db_users db) (db_user_sessions db) (db_authentications db) (db_clients db)
    (db_sessions db) (db_access_tokens db) (db_refresh_tokens db) (db_grants db)
    (db_device_grants db) (db_personal_sessions db) (db_personal_tokens db) (db_jobs db)
    (f (db_accounts db)) (db_notifications db) (db_audit db).

Definition on_notifications (f : NotificationTables → NotificationTables) (db : DB) : DB :=
  mkDB (db_users db) (db_user_sessions db) (db_authentications db) (db_clients db)
    (db_sessions db) (db_access_tokens db) (db_refresh_tokens db) (db_grants db)
    (db_device_grants db) (db_personal_sessions db) (db_personal_tokens db) (db_jobs db)
    (db_accounts db) (f (db_notifications db)) (db_audit db).

Definition on_audit (f : gmap Z AdminOperationLogRow → gmap Z AdminOperationLogRow) (db : DB) : DB :=
  mkDB (db_users db) (db_user_sessions db) (db_authentications db) (db_clients db)
    (db_sessions db) (db_access_tokens db) (db_refresh_tokens db) (db_grants db)
    (db_device_grants db) (db_personal_sessions db) (db_personal_tokens db) (db_jobs db)
    (db_accounts db) (db_notifications db) (f (db_audit db)).

(** The tables of accounts. *)
Definition db_passwords (db : DB) : gmap Z UserPasswordRow := acc_passwords (db_accounts db).
Definition db_emails (db : DB) : gmap Z UserEmailRow := acc_emails (db_accounts db).
Definition db_email_authentications (db : DB) : gmap Z UserEmailAuthenticationRow := acc_email_authentications (db_accounts db).
Definition db_email_codes (db : DB) : gmap Z UserEmailAuthenticationCodeRow := acc_email_codes (db_accounts db).
Definition db_phones (db : DB) : gmap Z UserPhoneRow := acc_phones (db_accounts db).
Definition db_phone_authentications (db : DB) : gmap Z UserPhoneAuthenticationRow := acc_phone_authentications (db_accounts db).
Definition db_phone_codes (db : DB) : gmap Z UserPhoneAuthenticationCodeRow := acc_phone_codes (db_accounts db).
Definition db_registrations (db : DB) : gmap Z UserRegistrationRow := acc_registrations (db_accounts db).
Definition db_registration_tokens (db : DB) : gmap Z UserRegistrationTokenRow := acc_registration_tokens (db_accounts db).
Definition db_terms (db : DB) : gmap Z UserTermsRow := acc_terms (db_accounts db).
Definition db_links (db : DB) : gmap Z UpstreamOAuthLinkRow := acc_links (db_accounts db).
Definition db_upstream_sessions (db : DB) : gmap Z UpstreamOAuthAuthorizationSessionRow := acc_upstream_sessions (db_accounts db).
Definition db_recovery_sessions (db : DB) : gmap Z UserRecoverySessionRow := acc_recovery_sessions (db_accounts db).
Definition db_recovery_tickets (db : DB) : gmap Z UserRecoveryTicketRow := acc_recovery_tickets (db_accounts db).
Definition on_passwords (f : gmap Z UserPasswordRow → gmap Z UserPasswordRow)
    : DB → DB :=
  on_accounts (λ a, mkAccounts (f (acc_passwords a)) (acc_emails a)
    (acc_email_authentications a) (acc_email_codes a) (acc_phones a)
    (acc_phone_authentications a) (acc_phone_codes a) (acc_registrations a)
    (acc_registration_tokens a) (acc_terms a) (acc_links a) (acc_upstream_sessions a)
    (acc_recovery_sessions a) (acc_recovery_tickets a)).
Definition on_emails (f : gmap Z UserEmailRow → gmap Z UserEmailRow)
    : DB → DB :=
  on_accounts (λ a, mkAccounts (acc_passwords a) (f (acc_emails a))
    (acc_email_authentications a) (acc_email_codes a) (acc_phones a)
    (acc_phone_authentications a) (acc_phone_codes a) (acc_registrations a)
    (acc_registration_tokens a) (acc_terms a) (acc_links a) (acc_upstream_sessions a)
    (acc_recovery_sessions a) (acc_recovery_tickets a)).
Definition on_email_authentications (f : gmap Z UserEmailAuthenticationRow → gmap Z UserEmailAuthenticationRow)
    : DB → DB :=
  on_accounts (λ a, mkAccounts (acc_passwords a) (acc_emails a) (f
    (acc_email_authentications a)) (acc_email_codes a) (acc_phones a)
    (acc_phone_authentications a) (acc_phone_codes a) (acc_registrations a)
    (acc_registration_tokens a) (acc_terms a) (acc_links a) (acc_upstream_sessions a)
    (acc_recovery_sessions a) (acc_recovery_tickets a)).
Definition on_email_codes (f : gmap Z UserEmailAuthenticationCodeRow → gmap Z UserEmailAuthenticationCodeRow)
    : DB → DB :=
  on_accounts (λ a, mkAccounts (acc_passwords a) (acc_emails a) (acc_email_authentications
    a) (f (acc_email_codes a)) (acc_phones a) (acc_phone_authentications a) (acc_phone_codes
    a) (acc_registrations a) (acc_registration_tokens a) (acc_terms a) (acc_links a)
    (acc_upstream_sessions a)
    (acc_recovery_sessions a) (acc_recovery_tickets a)).
Definition on_phones (f : gmap Z UserPhoneRow → gmap Z UserPhoneRow)
    : DB → DB :=
  on_accounts (λ a, mkAccounts (acc_passwords a) (acc_emails a) (acc_email_authentications
    a) (acc_email_codes a) (f (acc_phones a)) (acc_phone_authentications a) (acc_phone_codes
    a) (acc_registrations a) (acc_registration_tokens a) (acc_terms a) (acc_links a)
    (acc_upstream_sessions a)
    (acc_recovery_sessions a) (acc_recovery_tickets a)).
Definition on_phone_authentications (f : gmap Z UserPhoneAuthenticationRow → gmap Z UserPhoneAuthenticationRow)
    : DB → DB :=
  on_accounts (λ a, mkAccounts (acc_passwords a) (acc_emails a) (acc_email_authentications
    a) (acc_email_codes a) (acc_phones a) (f (acc_phone_authentications a)) (acc_phone_codes
    a) (acc_registrations a) (acc_registration_tokens a) (acc_terms a) (acc_links a)
    (acc_upstream_sessions a)
    (acc_recovery_sessions a) (acc_recovery_tickets a)).
Definition on_phone_codes (f : gmap Z UserPhoneAuthenticationCodeRow → gmap Z UserPhoneAuthenticationCodeRow)
    : DB → DB :=
  on_accounts (λ a, mkAccounts (acc_passwords a) (acc_emails a) (acc_email_authentications
    a) (acc_email_codes a) (acc_phones a) (acc_phone_authentications a) (f (acc_phone_codes
    a)) (acc_registrations a) (acc_registration_tokens a) (acc_terms a) (acc_links a)
    (acc_upstream_sessions a)
    (acc_recovery_sessions a) (acc_recovery_tickets a)).
Definition on_registrations (f : gmap Z UserRegistrationRow → gmap Z UserRegistrationRow)
    : DB → DB :=
  on_accounts (λ a, mkAccounts (acc_passwords a) (acc_emails a) (acc_email_authentications
    a) (acc_email_codes a) (acc_phones a) (acc_phone_authentications a) (acc_phone_codes a)
    (f (acc_registrations a)) (acc_registration_tokens a) (acc_terms a) (acc_links a)
    (acc_upstream_sessions a)
    (acc_recovery_sessions a) (acc_recovery_tickets a)).
Definition on_registration_tokens (f : gmap Z UserRegistrationTokenRow → gmap Z UserRegistrationTokenRow)
    : DB → DB :=
  on_accounts (λ a, mkAccounts (acc_passwords a) (acc_emails a) (acc_email_authentications
    a) (acc_email_codes a) (acc_phones a) (acc_phone_authentications a) (acc_phone_codes a)
    (acc_registrations a) (f (acc_registration_tokens a)) (acc_terms a) (acc_links a)
    (acc_upstream_sessions a)
    (acc_recovery_sessions a) (acc_recovery_tickets a)).
Definition on_terms (f : gmap Z UserTermsRow → gmap Z UserTermsRow)
    : DB → DB :=
  on_accounts (λ a, mkAccounts (acc_passwords a) (acc_emails a) (acc_email_authentications
    a) (acc_email_codes a) (acc_phones a) (acc_phone_authentications a) (acc_phone_codes a)
    (acc_registrations a) (acc_registration_tokens a) (f (acc_terms a)) (acc_links a)
    (acc_upstream_sessions a)
    (acc_recovery_sessions a) (acc_recovery_tickets a)).
Definition on_links (f : gmap Z UpstreamOAuthLinkRow → gmap Z UpstreamOAuthLinkRow)
    : DB → DB :=
  on_accounts (λ a, mkAccounts (acc_passwords a) (acc_emails a) (acc_email_authentications
    a) (acc_email_codes a) (acc_phones a) (acc_phone_authentications a) (acc_phone_codes a)
    (acc_registrations a) (acc_registration_tokens a) (acc_terms a) (f (acc_links a))
    (acc_upstream_sessions a)
    (acc_recovery_sessions a) (acc_recovery_tickets a)).
Definition on_upstream_sessions (f : gmap Z UpstreamOAuthAuthorizationSessionRow → gmap Z UpstreamOAuthAuthorizationSessionRow)
    : DB → DB :=
  on_accounts (λ a, mkAccounts (acc_passwords a) (acc_emails a) (acc_email_authentications
    a) (acc_email_codes a) (acc_phones a) (acc_phone_authentications a) (acc_phone_codes a)
    (acc_registrations a) (acc_registration_tokens a) (acc_terms a) (acc_links a) (f
    (acc_upstream_sessions a))
    (acc_recovery_sessions a) (acc_recovery_tickets a)).
Definition on_recovery_sessions (f : gmap Z UserRecoverySessionRow → gmap Z UserRecoverySessionRow) : DB → DB :=
  on_accounts (λ a, mkAccounts
    (acc_passwords a) (acc_emails a) (acc_email_authentications a) (acc_email_codes a)
    (acc_phones a) (acc_phone_authentications a) (acc_phone_codes a) (acc_registrations a)
    (acc_registration_tokens a) (acc_terms a) (acc_links a) (acc_upstream_sessions a) (f
    (acc_recovery_sessions a)) (acc_recovery_tickets a)).
Definition on_recovery_tickets (f : gmap Z UserRecoveryTicketRow → gmap Z UserRecoveryTicketRow) : DB → DB :=
  on_accounts (λ a, mkAccounts
    (acc_passwords a) (acc_emails a) (acc_email_authentications a) (acc_email_codes a)
    (acc_phones a) (acc_phone_authentications a) (acc_phone_codes a) (acc_registrations a)
    (acc_registration_tokens a) (acc_terms a) (acc_links a) (acc_upstream_sessions a)
    (acc_recovery_sessions a) (f (acc_recovery_tickets a))).

(** The tables of notifications. *)
Definition db_notification_requests (db : DB) : gmap Z NotificationRequestRow :=
  ntf_requests (db_notifications db).
Definition db_notification_deliveries (db : DB) : gmap Z NotificationDeliveryRow :=
  ntf_deliveries (db_notifications db).
Definition db_notification_events (db : DB) : gmap Z NotificationEventLogRow :=
  ntf_events (db_notifications db).
Definition db_notification_preferences (db : DB) : gmap Z NotificationPreferenceRow :=
  ntf_preferences (db_notifications db).
Definition on_notification_requests
    (f : gmap Z NotificationRequestRow → gmap Z NotificationRequestRow) : DB → DB :=
  on_notifications (λ n, mkNotifications (f (ntf_requests n)) (ntf_deliveries n) (ntf_events n)
    (ntf_preferences n)).
Definition on_notification_deliveries
    (f : gmap Z NotificationDeliveryRow → gmap Z NotificationDeliveryRow) : DB → DB :=
  on_notifications (λ n, mkNotifications (ntf_requests n) (f (ntf_deliveries n)) (ntf_events n)
    (ntf_preferences n)).
Definition on_notification_events
    (f : gmap Z NotificationEventLogRow → gmap Z NotificationEventLogRow) : DB → DB :=
  on_notifications (λ n, mkNotifications (ntf_requests n) (ntf_deliveries n) (f (ntf_events n))
    (ntf_preferences n)).
Definition on_notification_preferences
    (f : gmap Z NotificationPreferenceRow → gmap Z NotificationPreferenceRow) : DB → DB :=
  on_notifications (λ n, mkNotifications (ntf_requests n) (ntf_deliveries n) (ntf_events n)
    (f (ntf_preferences n))).

(** ** The state of a request *)

(** What the activity tracker is told. *)
Inductive SessionKind := Kind_OAuth2 | Kind_Browser | Kind_Personal.
#[export] Instance SessionKind_eq_dec : EqDecision SessionKind.
Proof. solve_decision. Defined.

Record Activity := {
  activity_kind : SessionKind;
  activity_session_id : Ulid;
  activity_date_time : DateTime;
  activity_ip : option IpAddr;
}.

(** A device provisioned on the homeserver. *)
Record DeviceUpsert := {
  upsert_localpart : string;
  upsert_device_id : string;
  upsert_display_name : option string;
}.

Inductive FieldUpdate (T : Type) := Field_Unchanged | Field_Assign (value : T) | Field_Clear.
Arguments Field_Unchanged {T}.
Arguments Field_Assign {T} value.
Arguments Field_Clear {T}.

Record ProvisionRequest := {
  provision_localpart : string;
  provision_sub : string;
  provision_displayname : FieldUpdate string;
  provision_avatar_url : FieldUpdate string;
  provision_emails : FieldUpdate (list string);
  provision_admin : option bool;
}.

Definition ProvisionRequest_new (localpart sub : string) : ProvisionRequest :=
  {| provision_localpart := localpart; provision_sub := sub;
     provision_displayname := Field_Unchanged; provision_avatar_url := Field_Unchanged;
     provision_emails := Field_Unchanged; provision_admin := None |}.
Definition ProvisionRequest_set_admin (admin : bool) (self : ProvisionRequest) : ProvisionRequest :=
  {| provision_localpart := provision_localpart self; provision_sub := provision_sub self;
     provision_displayname := provision_displayname self;
     provision_avatar_url := provision_avatar_url self;
     provision_emails := provision_emails self; provision_admin := Some admin |}.
Definition ProvisionRequest_set_displayname (displayname : string) (self : ProvisionRequest)
    : ProvisionRequest :=
  {| provision_localpart := provision_localpart self; provision_sub := provision_sub self;
     provision_displayname := Field_Assign displayname;
     provision_avatar_url := provision_avatar_url self;
     provision_emails := provision_emails self; provision_admin := provision_admin self |}.
Definition ProvisionRequest_set_avatar_url (avatar_url : string) (self : ProvisionRequest)
    : ProvisionRequest :=
  {| provision_localpart := provision_localpart self; provision_sub := provision_sub self;
     provision_displayname := provision_displayname self;
     provision_avatar_url := Field_Assign avatar_url;
     provision_emails := provision_emails self; provision_admin := provision_admin self |}.
Definition ProvisionRequest_set_emails (emails : list string) (self : ProvisionRequest)
    : ProvisionRequest :=
  {| provision_localpart := provision_localpart self; provision_sub := provision_sub self;
     provision_displayname := provision_displayname self;
     provision_avatar_url := provision_avatar_url self;
     provision_emails := Field_Assign emails; provision_admin := provision_admin self |}.

(** The other requests to the homeserver. *)
Inductive HomeserverCall :=
| Hs_ProvisionUser (request : ProvisionRequest)
| Hs_ReactivateUser (localpart : string)
| Hs_SetDisplayname (localpart displayname : string)
| Hs_UnsetDisplayname (localpart : string)
| Hs_SyncDevices (localpart : string) (devices : gset string)
| Hs_DeleteUser (localpart : string) (erase : bool).

Record St := mkSt {
  (** the transaction's view of the database *)
  st_db : DB;
  (** what is committed *)
  st_committed : DB;
  st_clock : nat → DateTime;
  st_rng : Rng;
  (** the homeserver's answers: [true] for a success *)
  st_homeserver : nat → bool;
  st_devices : list DeviceUpsert;
  st_activity : list Activity;
  st_locks : list Z;
  (** the rate limits, kept by the server *)
  st_limiter : Limiter;
  (** the requests the homeserver took, those for devices apart *)
  st_calls : list HomeserverCall;
}.

Definition on_db (f : DB → DB) (st : St) : St :=
  mkSt (f (st_db st)) (st_committed st) (st_clock st) (st_rng st) (st_homeserver st)
    (st_devices st) (st_activity st) (st_locks st) (st_limiter st) (st_calls st).
Definition with_clock (cl : nat → DateTime) (st : St) : St :=
  mkSt (st_db st) (st_committed st) cl (st_rng st) (st_homeserver st)
    (st_devices st) (st_activity st) (st_locks st) (st_limiter st) (st_calls st).
Definition with_committed (db co : DB) (st : St) : St :=
  mkSt db co (st_clock st) (st_rng st) (st_homeserver st)
    (st_devices st) (st_activity st) (st_locks st) (st_limiter st) (st_calls st).
Definition set_rng (r : Rng) (st : St) : St :=
  mkSt (st_db st) (st_committed st) (st_clock st) r (st_homeserver st)
    (st_devices st) (st_activity st) (st_locks st) (st_limiter st) (st_calls st).

Definition set_limiter (l : Limiter) (st : St) : St :=
  mkSt (st_db st) (st_committed st) (st_clock st) (st_rng st) (st_homeserver st)
    (st_devices st) (st_activity st) (st_locks st) l (st_calls st).

(** A step of the rate limiter. *)
Definition on_limiter {E A} (m : M Limiter E A) : M St E A := λ st,
  ((m (st_limiter st)).1, set_limiter (m (st_limiter st)).2 st).

Section primitives.
Context {E : Type}.

(** [clock.now()] *)
Definition clock_now : M St E DateTime := λ st,
  (Ok (st_clock st 0%nat), with_clock (λ n, st_clock st (S n)) st).

(** A draw from the random generator. *)
Definition with_rng {A} (f : Rng → A * Rng) : M St E A := λ st,
  (Ok (f (st_rng st)).1, set_rng (f (st_rng st)).2 st).

(** [repo.save()] *)
Definition repo_save : M St E () := λ st, (Ok tt, with_committed (st_db st) (st_db st) st).

(** [repo.cancel()], or the repository dropped *)
Definition repo_cancel : M St E () := λ st,
  (Ok tt, with_committed (st_committed st) (st_committed st) st).

(** [homeserver.upsert_device(localpart, device_id, display_name)] *)
Definition upsert_device (err : E) (u : DeviceUpsert) : M St E () := λ st,
  let h' n := st_homeserver st (S n) in
  if st_homeserver st 0%nat then
    (Ok tt, mkSt (st_db st) (st_committed st) (st_clock st) (st_rng st) h'
              (st_devices st ++ [u]) (st_activity st) (st_locks st) (st_limiter st) (st_calls st))
  else
    (Err err, mkSt (st_db st) (st_committed st) (st_clock st) (st_rng st) h'
                (st_devices st) (st_activity st) (st_locks st) (st_limiter st) (st_calls st)).

(** One of the other requests. *)
Definition homeserver_call (err : E) (c : HomeserverCall) : M St E () := λ st,
  let h' n := st_homeserver st (S n) in
  if st_homeserver st 0%nat then
    (Ok tt, mkSt (st_db st) (st_committed st) (st_clock st) (st_rng st) h' (st_devices st)
              (st_activity st) (st_locks st) (st_limiter st) (st_calls st ++ [c]))
  else
    (Err err, mkSt (st_db st) (st_committed st) (st_clock st) (st_rng st) h' (st_devices st)
                (st_activity st) (st_locks st) (st_limiter st) (st_calls st)).

(** The message to the activity tracker's channel. *)
Definition send_activity (act : Activity) : M St E () := λ st,
  (Ok tt, mkSt (st_db st) (st_committed st) (st_clock st) (st_rng st) (st_homeserver st)
            (st_devices st) (st_activity st ++ [act]) (st_locks st) (st_limiter st) (st_calls st)).

(** [activity_tracker.record_*_session(clock, session, ip)] *)
Definition record_session_activity (kind : SessionKind) (id : Ulid) (ip : option IpAddr)
    : M St E () :=
  date_time ← clock_now;
  send_activity {| activity_kind := kind; activity_session_id := id;
                   activity_date_time := date_time; activity_ip := ip |}.

(** [pg_advisory_xact_lock(lock_id)] *)
Definition advisory_lock (lock_id : Z) : M St E () := λ st,
  (Ok tt, mkSt (st_db st) (st_committed st) (st_clock st) (st_rng st) (st_homeserver st)
            (st_devices st) (st_activity st) (st_locks st ++ [lock_id]) (st_limiter st) (st_calls st)).
End primitives.

(** ** SQL *)

(** [SELECT ... WHERE P LIMIT 1] *)
Definition find_first {R} (P : R → bool) (m : gmap Z R) : option (Z * R) :=
  head (filter (λ kr, P kr.2 = true) (map_to_list m)).

Section sql.
Context {R : Type} (tbl : DB → gmap Z R) (on : (gmap Z R → gmap Z R) → DB → DB).

(** [table.find(id).first().optional()] *)
Definition select_by_id (id : Ulid) : M St DatabaseError (option R) :=
  gets (λ st, tbl (st_db st) !! id).

(** [table.filter(P).first().optional()] *)
Definition select_first (P : R → bool) : M St DatabaseError (option (Z * R)) :=
  gets (λ st, find_first P (tbl (st_db st))).

(** [diesel::update(table.find(id)).set(f).execute()]: the rows affected.
    [violation] is the constraint the new values break, if any. *)
Definition update_by_id (violation : DB → option DieselError) (id : Ulid) (f : R → R)
    : M St DatabaseError nat := λ st,
  match tbl (st_db st) !! id with
  | None => (Ok 0%nat, st)
  | Some r =>
      match violation (st_db st) with
      | Some e => (Err (Db_Diesel e), st)
      | None => (Ok 1%nat, on_db (on (alter f id)) st)
      end
  end.

(** [diesel::update(table.find(id).filter(P)).set(f).execute()] *)
Definition update_where (violation : DB → option DieselError) (id : Ulid) (P : R → bool) (f : R → R)
    : M St DatabaseError nat := λ st,
  match tbl (st_db st) !! id with
  | None => (Ok 0%nat, st)
  | Some r => if P r then update_by_id violation id f st else (Ok 0%nat, st)
  end.

(** [diesel::delete(table.find(id)).execute()] *)
Definition delete_by_id (id : Ulid) : M St DatabaseError nat := λ st,
  match tbl (st_db st) !! id with
  | None => (Ok 0%nat, st)
  | Some _ => (Ok 1%nat, on_db (on (delete id)) st)
  end.

(** [diesel::insert_into(table).values(row).execute()] *)
Definition insert_row (violation : DB → option DieselError) (id : Ulid) (r : R)
    : M St DatabaseError () := λ st,
  match violation (st_db st) with
  | Some e => (Err (Db_Diesel e), st)
  | None => (Ok tt, on_db (on <[id := r]>) st)
  end.
End sql.

Definition no_violation : DB → option DieselError := λ _, None.

(** [DatabaseError::ensure_affected_rows_usize(actual, expected)] *)
Definition ensure_affected_rows_usize (actual expected : nat) : M St DatabaseError () :=
  if bool_decide (actual = expected) then mret tt else raise (Db_RowsAffected expected actual).

(** The first violated constraint of a list. *)
Fixpoint first_violation (l : list (bool * DieselError)) : option DieselError :=
  match l with
  | [] => None
  | (broken, e) :: l => if broken then Some e else first_violation l
  end.

(** Whether a key, or a value of a column, is already taken. *)
Definition pk_taken {R} (id : Ulid) (m : gmap Z R) : bool := bool_decide (is_Some (m !! id)).
Definition col_taken {R} (P : R → bool) (m : gmap Z R) : bool :=
  bool_decide (is_Some (find_first P m)).
(** Whether a foreign key points nowhere. *)
Definition fk_broken {R} (id : Ulid) (m : gmap Z R) : bool := bool_decide (m !! id = None).
Definition fk_broken_opt {R} (id : option Ulid) (m : gmap Z R) : bool :=
  match id with Some id => fk_broken id m | None => false end.

(** ** Lemmas *)

Section find_first.
Context {R : Type} (P : R → bool).
Implicit Types m : gmap Z R.

Lemma find_first_Some m k r : find_first P m = Some (k, r) → m !! k = Some r ∧ P r = true.
Proof.
  unfold find_first. intros H%head_Some_elem_of.
  apply list_elem_of_filter in H as [HP Hin]. simpl in HP.
  by apply elem_of_map_to_list in Hin.
Qed.

Lemma find_first_None m : find_first P m = None ↔ ∀ k r, m !! k = Some r → P r = false.
Proof.
  unfold find_first. split.
  - intros Hh k r Hk. apply not_true_iff_false. intros HP.
    assert ((k, r) ∈ filter (λ kr, P kr.2 = true) (map_to_list m)) as Hin.
    { apply list_elem_of_filter. split; [done|]. by apply elem_of_map_to_list. }
    destruct (filter _ _); [by apply elem_of_nil in Hin|done].
  - intros Hall. destruct (filter _ (map_to_list m)) as [|[k r] l] eqn:Hf; [done|].
    assert ((k, r) ∈ filter (λ kr, P kr.2 = true) (map_to_list m)) as Hin
      by (rewrite Hf; left).
    apply list_elem_of_filter in Hin as [HP Hin]. apply elem_of_map_to_list in Hin.
    apply Hall in Hin. simpl in HP. congruence.
Qed.

Lemma find_first_unique m k r :
  m !! k = Some r → P r = true →
  (∀ k' r', m !! k' = Some r' → P r' = true → k' = k) →
  find_first P m = Some (k, r).
Proof.
  intros Hk HP Hu. destruct (find_first P m) as [[k' r']|] eqn:Hf.
  - apply find_first_Some in Hf as [Hk' HP']. pose proof (Hu _ _ Hk' HP'). naive_solver.
  - rewrite find_first_None in Hf. specialize (Hf _ _ Hk). congruence.
Qed.
End find_first.

Lemma col_taken_false {R} (P : R → bool) (m : gmap Z R) :
  col_taken P m = false ↔ ∀ k r, m !! k = Some r → P r = false.
Proof.
  unfold col_taken. rewrite bool_decide_eq_false, <-find_first_None.
  by rewrite eq_None_not_Some.
Qed.

Lemma pk_taken_false {R} id (m : gmap Z R) : pk_taken id m = false ↔ m !! id = None.
Proof. unfold pk_taken. by rewrite bool_decide_eq_false, <-eq_None_not_Some. Qed.

Lemma fk_broken_false {R} id (m : gmap Z R) : fk_broken id m = false ↔ is_Some (m !! id).
Proof. unfold fk_broken. rewrite bool_decide_eq_false, not_eq_None_Some. done. Qed.

(** The observations of the state the primitives leave alone. *)
Section keeps_primitives.
Context {E : Type} {T : Type} (f : St → T).

Lemma keeps_clock_now :
  (∀ cl st, f (with_clock cl st) = f st) → keeps f (clock_now : M St E _).
Proof. intros H st. apply H. Qed.

Lemma keeps_with_rng {A} (g : Rng → A * Rng) :
  (∀ r st, f (set_rng r st) = f st) → keeps f (with_rng g : M St E _).
Proof. intros H st. apply H. Qed.
End keeps_primitives.

Lemma keeps_on_limiter {E A T} (f : St → T) (m : M Limiter E A) :
  (∀ l st, f (set_limiter l st) = f st) → keeps f (on_limiter m).
Proof. intros H st. apply H. Qed.

#[export] Hint Extern 1 (keeps _ (on_limiter _)) => apply keeps_on_limiter; reflexivity : keeps.
#[export] Hint Extern 1 (keeps _ clock_now) => apply keeps_clock_now; reflexivity : keeps.
#[export] Hint Extern 1 (keeps _ (with_rng _)) => apply keeps_with_rng; reflexivity : keeps.
#[export] Hint Extern 1 (keeps _ (select_by_id _ _)) => intros ?; reflexivity : keeps.
#[export] Hint Extern 1 (keeps _ (select_first _ _)) => intros ?; reflexivity : keeps.
#[export] Hint Extern 1 (keeps _ (send_activity _)) => intros ?; reflexivity : keeps.
#[export] Hint Extern 1 (keeps _ (advisory_lock _)) => intros ?; reflexivity : keeps.

Lemma keeps_upsert_device_db {E} (err : E) u : keeps st_db (upsert_device err u).
Proof. intros st. unfold upsert_device. by destruct (st_homeserver st 0). Qed.
Lemma keeps_upsert_device_committed {E} (err : E) u : keeps st_committed (upsert_device err u).
Proof. intros st. unfold upsert_device. by destruct (st_homeserver st 0). Qed.
Lemma keeps_call_db {E} (err : E) c : keeps st_db (homeserver_call err c).
Proof. intros st. unfold homeserver_call. by destruct (st_homeserver st 0). Qed.
Lemma keeps_call_committed {E} (err : E) c : keeps st_committed (homeserver_call err c).
Proof. intros st. unfold homeserver_call. by destruct (st_homeserver st 0). Qed.
Lemma keeps_ensure_rows {T} (f : St → T) a e : keeps f (ensure_affected_rows_usize a e).
Proof. unfold ensure_affected_rows_usize. by case_match. Qed.
Lemma keeps_record_db {E} k id ip : keeps st_db (record_session_activity k id ip : M St E ()).
Proof. done. Qed.
Lemma keeps_record_committed {E} k id ip :
  keeps st_committed (record_session_activity k id ip : M St E ()).
Proof. done. Qed.

(** Writes go to the transaction, never to the committed database. *)
Lemma keeps_update_committed {R} (tbl : DB → gmap Z R) on v id g :
  keeps st_committed (update_by_id tbl on v id g).
Proof. intros st. unfold update_by_id. by repeat case_match. Qed.
Lemma keeps_insert_committed {R} (on : (gmap Z R → gmap Z R) → DB → DB) v id r :
  keeps st_committed (insert_row on v id r).
Proof. intros st. unfold insert_row. by repeat case_match. Qed.

#[export] Hint Resolve keeps_upsert_device_db keeps_upsert_device_committed keeps_call_db
  keeps_call_committed
  keeps_ensure_rows keeps_record_db keeps_record_committed
  keeps_update_committed keeps_insert_committed : keeps.

(** The outcomes of an insertion, and of an update of one row. *)
Lemma insert_row_Ok {R} (on : (gmap Z R → gmap Z R) → DB → DB) v id r st u st' :
  insert_row on v id r st = (Ok u, st') →
  v (st_db st) = None ∧ st' = on_db (on <[id := r]>) st.
Proof. unfold insert_row. case_match; naive_solver. Qed.

Lemma update_one_Ok {R} (tbl : DB → gmap Z R) on v id g st u st' :
  (update_by_id tbl on v id g ≫= λ n, ensure_affected_rows_usize n 1) st = (Ok u, st') →
  ∃ r, tbl (st_db st) !! id = Some r ∧ v (st_db st) = None ∧
       st' = on_db (on (alter g id)) st.
Proof.
  unfold mbind, M_bind, update_by_id.
  destruct (tbl (st_db st) !! id) as [r|]; [|done].
  destruct (v (st_db st)) eqn:Hv; [done|]. intros [= _ <-]. eauto.
Qed.

Lemma first_violation_None l :
  first_violation l = None ↔ Forall (λ be, be.1 = false) l.
Proof.
  induction l as [|[b e] l IH]; simpl; [by split|].
  rewrite Forall_cons. destruct b; simpl; [split; [done|by intros [??]]|].
  rewrite IH. split; [done|by intros [_ ?]].
Qed.
