(* ===== verification/Messaging.v ===== *)
(** Messaging: what is handed to the channels of email and SMS (crates/messaging/src/notification.rs)
    and the errors they answer with (messaging/src/{email,sms}/transport.rs, email/mailer.rs).

    What a channel answers is an input: the answers still to come are a tape of the state of a
    worker, which also keeps the messages it handed out. *)
From stdpp Require Import pretty.
From S2P Require Import Prelude Ids RateLimit Passwords TokenFormat Scope Pkce Jose Keystore Domain Accounts Notification Database.

Open Scope Z_scope.

(** ** Errors *)

(** An error of a library, as its text followed by the texts of its sources. *)
Definition ErrorChain : Type := string * list string.

Inductive EmailTransportError :=
| Transport_Message (error : ErrorChain)
| Transport_Smtp (error : ErrorChain)
| Transport_Sendmail (error : ErrorChain)
| Transport_Json (error : ErrorChain)
| Transport_Http (error : ErrorChain)
| Transport_ProviderError (status : Z) (code : option string) (body : string) (retryable : bool).

Inductive MailerError :=
| Mailer_Transport (error : EmailTransportError)
| Mailer_Templates (error : string).

Inductive SmsTransportError :=
| Sms_Http (error : ErrorChain)
| Sms_ProviderError (status : Z) (body : string).

Inductive NotificationError :=
| Notification_EmailNotConfigured
| Notification_SmsNotConfigured
| Notification_Email (error : MailerError)
| Notification_Sms (error : SmsTransportError).

(** [EmailTransportError::to_string] *)
Definition EmailTransportError_to_string (self : EmailTransportError) : string :=
  match self with
  | Transport_Message error | Transport_Smtp error | Transport_Sendmail error => error.1
  | Transport_Json error => "failed to serialize email payload: " +:+ error.1
  | Transport_Http error => "HTTP request failed: " +:+ error.1
  | Transport_ProviderError status _ body _ =>
      "email provider returned status " +:+ pretty status +:+ ": " +:+ body
  end.

(** ** Messages *)

Record Mailbox := { mailbox_name : option string; mailbox_email : string }.

(** [messaging::NotificationRequest], with the contexts of its templates. *)
Inductive OutboundNotification :=
| Outbound_EmailVerification (to : Mailbox) (authentication_code : UserEmailAuthenticationCode)
    (browser_session : option BrowserSession) (registration : option UserRegistration)
    (language : string) (tags : gmap string string)
| Outbound_EmailRecovery (to : Mailbox) (user : User) (session : UserRecoverySession)
    (recovery_link : string) (language : string) (tags : gmap string string)
| Outbound_SmsVerificationCode (to code language : string).

Definition DELIVERY_ID_TAG : string := "pasion_delivery_id".
Definition REQUEST_ID_TAG : string := "pasion_notification_request_id".

(** [NotificationCenter]: a channel by the key of its transport. *)
Record NotificationCenter := {
  nc_email : option string;
  nc_sms : option string;
  nc_fixed_verification_code : option string;
}.

Record NotificationDispatchResult := { dispatch_provider_message_id : option string }.

(** ** The state of a worker *)

Record SendOutcome := {
  (** [SendResult]'s message identifier *)
  outcome_email : result (option string) MailerError;
  outcome_sms : result () SmsTransportError;
}.

Record JobSt := mkJobSt {
  js_st : St;
  (** the readings of [Utc::now()] *)
  js_utc : nat → DateTime;
  js_outcomes : nat → SendOutcome;
  (** the messages handed to a channel *)
  js_handed : list OutboundNotification;
}.

Definition with_js_st (st : St) (js : JobSt) : JobSt :=
  mkJobSt st (js_utc js) (js_outcomes js) (js_handed js).

(** A step of the repository. *)
Definition lift {E A} (m : M St E A) : M JobSt E A := λ js,
  ((m (js_st js)).1, with_js_st (m (js_st js)).2 js).

Definition utc_now {E} : M JobSt E DateTime := λ js,
  (Ok (js_utc js 0%nat),
   mkJobSt (js_st js) (λ n, js_utc js (S n)) (js_outcomes js) (js_handed js)).

(** A message is handed to a channel, which answers. *)
Definition hand_out {E} (n : OutboundNotification) : M JobSt E SendOutcome := λ js,
  (Ok (js_outcomes js 0%nat),
   mkJobSt (js_st js) (js_utc js) (λ n, js_outcomes js (S n)) (js_handed js ++ [n])).

(** ** Dispatch (messaging/src/notification.rs) *)

Definition email_provider_binding_key (self : NotificationCenter) : option string := nc_email self.
Definition sms_provider_binding_key (self : NotificationCenter) : option string := nc_sms self.

(** [send_email_verification] and [send_email_recovery] *)
Definition send_email (self : NotificationCenter) (request : OutboundNotification)
    : M JobSt NotificationError NotificationDispatchResult :=
  _ ← ok_or Notification_EmailNotConfigured (nc_email self);
  outcome ← hand_out request;
  match outcome_email outcome with
  | Ok provider_message_id => mret {| dispatch_provider_message_id := provider_message_id |}
  | Err error => raise (Notification_Email error)
  end.

Definition send_sms_verification_code (self : NotificationCenter) (request : OutboundNotification)
    : M JobSt NotificationError NotificationDispatchResult :=
  _ ← ok_or Notification_SmsNotConfigured (nc_sms self);
  outcome ← hand_out request;
  match outcome_sms outcome with
  | Ok _ => mret {| dispatch_provider_message_id := None |}
  | Err error => raise (Notification_Sms error)
  end.

Definition dispatch (self : NotificationCenter) (request : OutboundNotification)
    : M JobSt NotificationError NotificationDispatchResult :=
  match request with
  | Outbound_EmailVerification _ _ _ _ _ _ => send_email self request
  | Outbound_EmailRecovery _ _ _ _ _ _ => send_email self request
  | Outbound_SmsVerificationCode _ _ _ => send_sms_verification_code self request
  end.
