(* ===== verification/Repository.v ===== *)
(** The repositories over the database (crates/data/src/pg).

    oauth2/{access_token,refresh_token,session,authorization_grant,
    device_code_grant}.rs, user/session.rs (browser sessions), user/mod.rs
    (lookups and the sync lock), personal/{session,access_token}.rs and
    queue/job.rs ([schedule]). One definition per repository method, in the
    order of effects of the source: the clock is read, an identifier drawn, the
    statement executed, the rows counted and the domain transition checked.
    The decoding of a row ([From]/[TryFrom]) is a definition of its own, its
    inconsistencies included. *)
From S2P Require Import Prelude Ids Scope Pkce Jose Domain Database.

Open Scope Z_scope.

(** Third-party code the repositories call. *)
Class DbExternals := {
  (** [Ulid::to_string] *)
  ulid_to_string : Ulid → string;
  (** [str::parse::<Ulid>] *)
  ulid_from_string : string → option Ulid;
  (** [Sha256::digest(..).to_vec()] *)
  sha256_digest : string → string;
  (** [serde_json::from_value] of a key set *)
  jwks_from_value : Json → option PublicJsonWebKeySet;
}.

(** [res.map(decode)] for a decoding that may fail. *)
Definition try_into {R A} (decode : Ulid → R → result A DatabaseError) (res : option (Z * R))
    : M St DatabaseError (option A) :=
  match res with
  | None => mret None
  | Some (id, row) => a ← of_result (decode id row); mret (Some a)
  end.

(** A row found by its primary key, with the key. *)
Definition keyed {R} (id : Ulid) (res : option R) : option (Z * R) := pair id <$> res.

(** ** Access tokens (pg/oauth2/access_token.rs) *)

Definition AccessToken_from (id : Ulid) (value : OAuth2AccessTokenRow) : AccessToken :=
  {| AccessToken_id := id;
     AccessToken_state :=
       match AccessTokenRow_revoked_at value with
       | None => AccessToken_Valid
       | Some revoked_at => AccessToken_Revoked revoked_at
       end;
     AccessToken_session_id := AccessTokenRow_oauth2_session_id value;
     AccessToken_access_token := AccessTokenRow_access_token value;
     AccessToken_created_at := AccessTokenRow_created_at value;
     AccessToken_expires_at := AccessTokenRow_expires_at value;
     AccessToken_first_used_at := AccessTokenRow_first_used_at value |}.

Definition access_token_lookup (id : Ulid) : M St DatabaseError (option AccessToken) :=
  res ← select_by_id db_access_tokens id;
  mret (AccessToken_from id <$> res).

Definition has_access_token (t : string) (r : OAuth2AccessTokenRow) : bool :=
  bool_decide (AccessTokenRow_access_token r = t).

Definition access_token_find_by_token (access_token : string)
    : M St DatabaseError (option AccessToken) :=
  res ← select_first db_access_tokens (has_access_token access_token);
  mret ((λ kr, AccessToken_from kr.1 kr.2) <$> res).

(** The constraints of the table: primary key, UNIQUE token, session exists. *)
Definition access_token_violation (id session_id : Ulid) (access_token : string) (db : DB)
    : option DieselError :=
  first_violation
    [ (pk_taken id (db_access_tokens db), UniqueViolation "oauth2_access_tokens" "id");
      (col_taken (has_access_token access_token) (db_access_tokens db),
        UniqueViolation "oauth2_access_tokens" "access_token");
      (fk_broken session_id (db_sessions db),
        ForeignKeyViolation "oauth2_access_tokens" "oauth2_session_id") ].

Definition new_access_token_row (session_id : Ulid) (access_token : string)
    (created_at : DateTime) (expires_at : option DateTime) : OAuth2AccessTokenRow :=
  {| AccessTokenRow_oauth2_session_id := session_id;
     AccessTokenRow_access_token := access_token;
     AccessTokenRow_created_at := created_at;
     AccessTokenRow_expires_at := expires_at;
     AccessTokenRow_revoked_at := None;
     AccessTokenRow_first_used_at := None |}.

Definition access_token_add (session : Session) (access_token : string)
    (expires_after : option Duration) : M St DatabaseError AccessToken :=
  created_at ← clock_now;
  let expires_at := (λ d, created_at + d) <$> expires_after in
  id ← with_rng (new_id created_at);
  _ ← insert_row on_access_tokens (access_token_violation id (Session_id session) access_token) id
        (new_access_token_row (Session_id session) access_token created_at expires_at);
  mret {| AccessToken_id := id;
          AccessToken_state := AccessToken_Valid;
          AccessToken_session_id := Session_id session;
          AccessToken_access_token := access_token;
          AccessToken_created_at := created_at;
          AccessToken_expires_at := expires_at;
          AccessToken_first_used_at := None |}.

Definition AccessTokenRow_set_revoked_at (t : DateTime) (r : OAuth2AccessTokenRow) :=
  {| AccessTokenRow_oauth2_session_id := AccessTokenRow_oauth2_session_id r;
     AccessTokenRow_access_token := AccessTokenRow_access_token r;
     AccessTokenRow_created_at := AccessTokenRow_created_at r;
     AccessTokenRow_expires_at := AccessTokenRow_expires_at r;
     AccessTokenRow_revoked_at := Some t;
     AccessTokenRow_first_used_at := AccessTokenRow_first_used_at r |}.

Definition AccessTokenRow_set_first_used_at (t : DateTime) (r : OAuth2AccessTokenRow) :=
  {| AccessTokenRow_oauth2_session_id := AccessTokenRow_oauth2_session_id r;
     AccessTokenRow_access_token := AccessTokenRow_access_token r;
     AccessTokenRow_created_at := AccessTokenRow_created_at r;
     AccessTokenRow_expires_at := AccessTokenRow_expires_at r;
     AccessTokenRow_revoked_at := AccessTokenRow_revoked_at r;
     AccessTokenRow_first_used_at := Some t |}.

(** [diesel::update(table.find(id)).set(..)] then [ensure_affected_rows_usize(.., 1)] *)
Definition update_one {R} (tbl : DB → gmap Z R) (on : (gmap Z R → gmap Z R) → DB → DB)
    (violation : DB → option DieselError) (id : Ulid) (f : R → R) : M St DatabaseError () :=
  rows_affected ← update_by_id tbl on violation id f;
  ensure_affected_rows_usize rows_affected 1.

Definition access_token_revoke (access_token : AccessToken) : M St DatabaseError AccessToken :=
  revoked_at ← clock_now;
  _ ← update_one db_access_tokens on_access_tokens no_violation (AccessToken_id access_token)
        (AccessTokenRow_set_revoked_at revoked_at);
  of_result (result_map_err to_invalid_operation (AccessToken_revoke access_token revoked_at)).

Definition access_token_mark_used (access_token : AccessToken) : M St DatabaseError AccessToken :=
  now ← clock_now;
  _ ← update_one db_access_tokens on_access_tokens no_violation (AccessToken_id access_token)
        (AccessTokenRow_set_first_used_at now);
  mret {| AccessToken_id := AccessToken_id access_token;
          AccessToken_state := AccessToken_state access_token;
          AccessToken_session_id := AccessToken_session_id access_token;
          AccessToken_access_token := AccessToken_access_token access_token;
          AccessToken_created_at := AccessToken_created_at access_token;
          AccessToken_expires_at := AccessToken_expires_at access_token;
          AccessToken_first_used_at := Some now |}.

(** ** Refresh tokens (pg/oauth2/refresh_token.rs) *)

Definition RefreshToken_try_from (id : Ulid) (value : OAuth2RefreshTokenRow)
    : result RefreshToken DatabaseError :=
  result_bind
    match RefreshTokenRow_revoked_at value, RefreshTokenRow_consumed_at value,
          RefreshTokenRow_next_oauth2_refresh_token_id value with
    | None, None, None => Ok RefreshToken_Valid
    | Some revoked_at, None, None => Ok (RefreshToken_Revoked revoked_at)
    | None, Some consumed_at, None => Ok (RefreshToken_Consumed consumed_at None)
    | None, Some consumed_at, Some id => Ok (RefreshToken_Consumed consumed_at (Some id))
    | _, _, _ => Err (inconsistent "oauth2_refresh_tokens" "next_oauth2_refresh_token_id" id)
    end
  (λ state,
  Ok {| RefreshToken_id := id;
        RefreshToken_state := state;
        RefreshToken_refresh_token := RefreshTokenRow_refresh_token value;
        RefreshToken_session_id := RefreshTokenRow_oauth2_session_id value;
        RefreshToken_created_at := RefreshTokenRow_created_at value;
        RefreshToken_access_token_id := RefreshTokenRow_oauth2_access_token_id value |}).

Definition refresh_token_lookup (id : Ulid) : M St DatabaseError (option RefreshToken) :=
  res ← select_by_id db_refresh_tokens id;
  try_into RefreshToken_try_from (keyed id res).

Definition has_refresh_token (t : string) (r : OAuth2RefreshTokenRow) : bool :=
  bool_decide (RefreshTokenRow_refresh_token r = t).

Definition refresh_token_find_by_token (refresh_token : string)
    : M St DatabaseError (option RefreshToken) :=
  res ← select_first db_refresh_tokens (has_refresh_token refresh_token);
  try_into RefreshToken_try_from res.

Definition refresh_token_violation (id session_id access_token_id : Ulid) (refresh_token : string)
    (db : DB) : option DieselError :=
  first_violation
    [ (pk_taken id (db_refresh_tokens db), UniqueViolation "oauth2_refresh_tokens" "id");
      (col_taken (has_refresh_token refresh_token) (db_refresh_tokens db),
        UniqueViolation "oauth2_refresh_tokens" "refresh_token");
      (fk_broken session_id (db_sessions db),
        ForeignKeyViolation "oauth2_refresh_tokens" "oauth2_session_id");
      (fk_broken access_token_id (db_access_tokens db),
        ForeignKeyViolation "oauth2_refresh_tokens" "oauth2_access_token_id") ].

Definition new_refresh_token_row (session_id access_token_id : Ulid) (refresh_token : string)
    (created_at : DateTime) : OAuth2RefreshTokenRow :=
  {| RefreshTokenRow_refresh_token := refresh_token;
     RefreshTokenRow_created_at := created_at;
     RefreshTokenRow_consumed_at := None;
     RefreshTokenRow_revoked_at := None;
     RefreshTokenRow_oauth2_access_token_id := Some access_token_id;
     RefreshTokenRow_oauth2_session_id := session_id;
     RefreshTokenRow_next_oauth2_refresh_token_id := None |}.

Definition refresh_token_add (session : Session) (access_token : AccessToken)
    (refresh_token : string) : M St DatabaseError RefreshToken :=
  created_at ← clock_now;
  id ← with_rng (new_id created_at);
  _ ← insert_row on_refresh_tokens
        (refresh_token_violation id (Session_id session) (AccessToken_id access_token) refresh_token) id
        (new_refresh_token_row (Session_id session) (AccessToken_id access_token) refresh_token created_at);
  mret {| RefreshToken_id := id;
          RefreshToken_state := RefreshToken_Valid;
          RefreshToken_refresh_token := refresh_token;
          RefreshToken_session_id := Session_id session;
          RefreshToken_created_at := created_at;
          RefreshToken_access_token_id := Some (AccessToken_id access_token) |}.

Definition RefreshTokenRow_set_consumed (t : DateTime) (next : Ulid) (r : OAuth2RefreshTokenRow) :=
  {| RefreshTokenRow_refresh_token := RefreshTokenRow_refresh_token r;
     RefreshTokenRow_created_at := RefreshTokenRow_created_at r;
     RefreshTokenRow_consumed_at := Some t;
     RefreshTokenRow_revoked_at := RefreshTokenRow_revoked_at r;
     RefreshTokenRow_oauth2_access_token_id := RefreshTokenRow_oauth2_access_token_id r;
     RefreshTokenRow_oauth2_session_id := RefreshTokenRow_oauth2_session_id r;
     RefreshTokenRow_next_oauth2_refresh_token_id := Some next |}.

Definition RefreshTokenRow_set_revoked_at (t : DateTime) (r : OAuth2RefreshTokenRow) :=
  {| RefreshTokenRow_refresh_token := RefreshTokenRow_refresh_token r;
     RefreshTokenRow_created_at := RefreshTokenRow_created_at r;
     RefreshTokenRow_consumed_at := RefreshTokenRow_consumed_at r;
     RefreshTokenRow_revoked_at := Some t;
     RefreshTokenRow_oauth2_access_token_id := RefreshTokenRow_oauth2_access_token_id r;
     RefreshTokenRow_oauth2_session_id := RefreshTokenRow_oauth2_session_id r;
     RefreshTokenRow_next_oauth2_refresh_token_id := RefreshTokenRow_next_oauth2_refresh_token_id r |}.

(** The new value of [next_oauth2_refresh_token_id] must exist. *)
Definition next_refresh_token_violation (next : Ulid) (db : DB) : option DieselError :=
  first_violation
    [ (fk_broken next (db_refresh_tokens db),
        ForeignKeyViolation "oauth2_refresh_tokens" "next_oauth2_refresh_token_id") ].

Definition refresh_token_consume (refresh_token replaced_by : RefreshToken)
    : M St DatabaseError RefreshToken :=
  consumed_at ← clock_now;
  _ ← update_one db_refresh_tokens on_refresh_tokens
        (next_refresh_token_violation (RefreshToken_id replaced_by)) (RefreshToken_id refresh_token)
        (RefreshTokenRow_set_consumed consumed_at (RefreshToken_id replaced_by));
  of_result (result_map_err to_invalid_operation
               (RefreshToken_consume refresh_token consumed_at replaced_by)).

Definition refresh_token_revoke (refresh_token : RefreshToken) : M St DatabaseError RefreshToken :=
  revoked_at ← clock_now;
  _ ← update_one db_refresh_tokens on_refresh_tokens no_violation (RefreshToken_id refresh_token)
        (RefreshTokenRow_set_revoked_at revoked_at);
  of_result (result_map_err to_invalid_operation (RefreshToken_revoke refresh_token revoked_at)).

(** ** OAuth 2.0 sessions (pg/oauth2/session.rs) *)

Definition Session_try_from (id : Ulid) (value : OAuthSessionRow) : result Session DatabaseError :=
  result_bind
    (result_map_err (λ _, inconsistent "oauth2_sessions" "scope" id)
       (Scope_from_list (OAuthSessionRow_scope_list value)))
  (λ scope,
  Ok {| Session_id := id;
        Session_state :=
          match OAuthSessionRow_finished_at value with
          | None => Session_Valid
          | Some finished_at => Session_Finished finished_at
          end;
        Session_created_at := OAuthSessionRow_created_at value;
        Session_user_id := OAuthSessionRow_user_id value;
        Session_user_session_id := OAuthSessionRow_user_session_id value;
        Session_client_id := OAuthSessionRow_oauth2_client_id value;
        Session_scope := scope;
        Session_user_agent := OAuthSessionRow_user_agent value;
        Session_last_active_at := OAuthSessionRow_last_active_at value;
        Session_last_active_ip := OAuthSessionRow_last_active_ip value;
        Session_human_name := OAuthSessionRow_human_name value |}).

Definition oauth2_session_lookup (id : Ulid) : M St DatabaseError (option Session) :=
  res ← select_by_id db_sessions id;
  try_into Session_try_from (keyed id res).

(** The constraints of the table; [user_id] is NOT NULL in the schema. *)
Definition oauth2_session_violation (id : Ulid) (user_id user_session_id : option Ulid)
    (client_id : Ulid) (db : DB) : option DieselError :=
  first_violation
    [ (bool_decide (user_id = None), NotNullViolation "oauth2_sessions" "user_id");
      (pk_taken id (db_sessions db), UniqueViolation "oauth2_sessions" "id");
      (fk_broken_opt user_session_id (db_user_sessions db),
        ForeignKeyViolation "oauth2_sessions" "user_session_id");
      (fk_broken client_id (db_clients db),
        ForeignKeyViolation "oauth2_sessions" "oauth2_client_id");
      (fk_broken_opt user_id (db_users db), ForeignKeyViolation "oauth2_sessions" "user_id") ].

Definition new_session_row (user_id user_session_id : option Ulid) (client_id : Ulid)
    (scope : ScopeSet) (created_at : DateTime) : OAuthSessionRow :=
  {| OAuthSessionRow_user_id := user_id;
     OAuthSessionRow_user_session_id := user_session_id;
     OAuthSessionRow_oauth2_client_id := client_id;
     OAuthSessionRow_scope_list := scope_iter scope;
     OAuthSessionRow_created_at := created_at;
     OAuthSessionRow_finished_at := None;
     OAuthSessionRow_user_agent := None;
     OAuthSessionRow_last_active_at := None;
     OAuthSessionRow_last_active_ip := None;
     OAuthSessionRow_human_name := None |}.

Definition oauth2_session_add (client : Client) (user : option User)
    (user_session : option BrowserSession) (scope : ScopeSet) : M St DatabaseError Session :=
  created_at ← clock_now;
  id ← with_rng (new_id created_at);
  let user_id := User_id <$> user in
  let user_session_id := BrowserSession_id <$> user_session in
  _ ← insert_row on_sessions
        (oauth2_session_violation id user_id user_session_id (Client_id client)) id
        (new_session_row user_id user_session_id (Client_id client) scope created_at);
  mret {| Session_id := id;
          Session_state := Session_Valid;
          Session_created_at := created_at;
          Session_user_id := user_id;
          Session_user_session_id := user_session_id;
          Session_client_id := Client_id client;
          Session_scope := scope;
          Session_user_agent := None;
          Session_last_active_at := None;
          Session_last_active_ip := None;
          Session_human_name := None |}.

Definition oauth2_session_add_from_browser_session (client : Client)
    (user_session : BrowserSession) (scope : ScopeSet) : M St DatabaseError Session :=
  oauth2_session_add client (Some (BrowserSession_user user_session)) (Some user_session) scope.

Definition oauth2_session_add_from_client_credentials (client : Client) (scope : ScopeSet)
    : M St DatabaseError Session :=
  oauth2_session_add client None None scope.

Definition OAuthSessionRow_set (finished_at : option DateTime) (user_agent human_name : option string)
    (r : OAuthSessionRow) : OAuthSessionRow :=
  {| OAuthSessionRow_user_id := OAuthSessionRow_user_id r;
     OAuthSessionRow_user_session_id := OAuthSessionRow_user_session_id r;
     OAuthSessionRow_oauth2_client_id := OAuthSessionRow_oauth2_client_id r;
     OAuthSessionRow_scope_list := OAuthSessionRow_scope_list r;
     OAuthSessionRow_created_at := OAuthSessionRow_created_at r;
     OAuthSessionRow_finished_at := finished_at;
     OAuthSessionRow_user_agent := user_agent;
     OAuthSessionRow_last_active_at := OAuthSessionRow_last_active_at r;
     OAuthSessionRow_last_active_ip := OAuthSessionRow_last_active_ip r;
     OAuthSessionRow_human_name := human_name |}.

Definition OAuthSessionRow_set_finished_at (t : DateTime) (r : OAuthSessionRow) :=
  OAuthSessionRow_set (Some t) (OAuthSessionRow_user_agent r) (OAuthSessionRow_human_name r) r.
Definition OAuthSessionRow_set_user_agent (ua : string) (r : OAuthSessionRow) :=
  OAuthSessionRow_set (OAuthSessionRow_finished_at r) (Some ua) (OAuthSessionRow_human_name r) r.
Definition OAuthSessionRow_set_human_name (n : option string) (r : OAuthSessionRow) :=
  OAuthSessionRow_set (OAuthSessionRow_finished_at r) (OAuthSessionRow_user_agent r) n r.

Definition oauth2_session_finish (session : Session) : M St DatabaseError Session :=
  finished_at ← clock_now;
  _ ← update_one db_sessions on_sessions no_violation (Session_id session)
        (OAuthSessionRow_set_finished_at finished_at);
  of_result (result_map_err to_invalid_operation (Session_finish session finished_at)).

Definition Session_with_names (self : Session) (user_agent human_name : option string) : Session :=
  {| Session_id := Session_id self;
     Session_state := Session_state self;
     Session_created_at := Session_created_at self;
     Session_user_id := Session_user_id self;
     Session_user_session_id := Session_user_session_id self;
     Session_client_id := Session_client_id self;
     Session_scope := Session_scope self;
     Session_user_agent := user_agent;
     Session_last_active_at := Session_last_active_at self;
     Session_last_active_ip := Session_last_active_ip self;
     Session_human_name := human_name |}.

Definition oauth2_session_record_user_agent (session : Session) (user_agent : string)
    : M St DatabaseError Session :=
  _ ← update_one db_sessions on_sessions no_violation (Session_id session)
        (OAuthSessionRow_set_user_agent user_agent);
  mret (Session_with_names session (Some user_agent) (Session_human_name session)).

Definition oauth2_session_set_human_name (session : Session) (human_name : option string)
    : M St DatabaseError Session :=
  _ ← update_one db_sessions on_sessions no_violation (Session_id session)
        (OAuthSessionRow_set_human_name human_name);
  mret (Session_with_names session (Session_user_agent session) human_name).

(** [count(OAuth2SessionFilter::new().active_only().for_user(user))] *)
Definition oauth2_session_count_active_for_user (user : User) : M St DatabaseError nat :=
  gets (λ st, size (filter (λ kr : Z * OAuthSessionRow,
    OAuthSessionRow_user_id kr.2 = Some (User_id user) ∧ OAuthSessionRow_finished_at kr.2 = None)
    (db_sessions (st_db st)))).

(** ** Authorization grants (pg/oauth2/authorization_grant.rs) *)

Section grants.
Context {UX : UrlExternals}.

Definition Grant_decode_stage (id : Ulid) (value : GrantRow)
    : result AuthorizationGrantStage DatabaseError :=
  match GrantRow_fulfilled_at value, GrantRow_exchanged_at value,
        GrantRow_cancelled_at value, GrantRow_oauth2_session_id value with
  | None, None, None, None => Ok Grant_Pending
  | Some fulfilled_at, None, None, Some session_id => Ok (Grant_Fulfilled session_id fulfilled_at)
  | Some fulfilled_at, Some exchanged_at, None, Some session_id =>
      Ok (Grant_Exchanged session_id fulfilled_at exchanged_at)
  | None, None, Some cancelled_at, None => Ok (Grant_Cancelled cancelled_at)
  | _, _, _, _ => Err (inconsistent "oauth2_authorization_grants" "stage" id)
  end.

Definition Grant_decode_pkce (id : Ulid) (value : GrantRow) : result (option Pkce) DatabaseError :=
  match GrantRow_code_challenge value, GrantRow_code_challenge_method value with
  | Some challenge, Some challenge_method =>
      if bool_decide (challenge_method = "plain") then
        Ok (Some {| pkce_challenge_method := Plain; pkce_challenge := challenge |})
      else if bool_decide (challenge_method = "S256") then
        Ok (Some {| pkce_challenge_method := S256; pkce_challenge := challenge |})
      else Err (inconsistent "oauth2_authorization_grants" "code_challenge_method" id)
  | None, None => Ok None
  | _, _ => Err (inconsistent "oauth2_authorization_grants" "code_challenge_method" id)
  end.

Definition Grant_decode_code (id : Ulid) (value : GrantRow) (pkce : option Pkce)
    : result (option AuthorizationCode) DatabaseError :=
  match GrantRow_response_type_code value, GrantRow_authorization_code value, pkce with
  | false, None, None => Ok None
  | true, Some code, pkce =>
      Ok (Some {| AuthorizationCode_code := code; AuthorizationCode_pkce := pkce |})
  | _, _, _ => Err (inconsistent "oauth2_authorization_grants" "authorization_code" id)
  end.

Definition AuthorizationGrant_try_from (id : Ulid) (value : GrantRow)
    : result AuthorizationGrant DatabaseError :=
  result_bind
    (result_map_err (λ _, inconsistent "oauth2_authorization_grants" "scope" id)
       (Scope_from_str (GrantRow_scope value))) (λ scope,
  result_bind (Grant_decode_stage id value) (λ stage,
  result_bind (Grant_decode_pkce id value) (λ pkce,
  result_bind (Grant_decode_code id value pkce) (λ code,
  match url_parse (GrantRow_redirect_uri value) with
  | None => Err (inconsistent "oauth2_authorization_grants" "redirect_uri" id)
  | Some redirect_uri =>
      Ok {| AuthorizationGrant_id := id;
            AuthorizationGrant_stage := stage;
            AuthorizationGrant_code := code;
            AuthorizationGrant_client_id := GrantRow_oauth2_client_id value;
            AuthorizationGrant_redirect_uri := redirect_uri;
            AuthorizationGrant_raw_redirect_uri := GrantRow_redirect_uri value;
            AuthorizationGrant_scope := scope;
            AuthorizationGrant_state := GrantRow_state value;
            AuthorizationGrant_nonce := GrantRow_nonce value;
            AuthorizationGrant_response_mode := ResponseMode_from_str (GrantRow_response_mode value);
            AuthorizationGrant_response_type_id_token := GrantRow_response_type_id_token value;
            AuthorizationGrant_created_at := GrantRow_created_at value;
            AuthorizationGrant_login_hint := GrantRow_login_hint value;
            AuthorizationGrant_locale := GrantRow_locale value |}
  end)))).

(** The value of a UNIQUE nullable column: NULLs never clash. *)
Definition has_code (code : string) (r : GrantRow) : bool :=
  bool_decide (GrantRow_authorization_code r = Some code).

Definition grant_violation (id client_id : Ulid) (code : option string) (db : DB)
    : option DieselError :=
  first_violation
    [ (pk_taken id (db_grants db), UniqueViolation "oauth2_authorization_grants" "id");
      (match code with Some c => col_taken (has_code c) (db_grants db) | None => false end,
        UniqueViolation "oauth2_authorization_grants" "authorization_code");
      (fk_broken client_id (db_clients db),
        ForeignKeyViolation "oauth2_authorization_grants" "oauth2_client_id") ].

Definition new_grant_row (client_id : Ulid) (raw_redirect_uri : string) (scope : ScopeSet)
    (code : option AuthorizationCode) (state nonce : option string) (response_mode : ResponseMode)
    (response_type_id_token : bool) (login_hint locale : option string) (created_at : DateTime)
    : GrantRow :=
  let pkce := code ≫= AuthorizationCode_pkce in
  {| GrantRow_created_at := created_at;
     GrantRow_cancelled_at := None;
     GrantRow_fulfilled_at := None;
     GrantRow_exchanged_at := None;
     GrantRow_scope := Scope_to_string scope;
     GrantRow_state := state;
     GrantRow_nonce := nonce;
     GrantRow_redirect_uri := raw_redirect_uri;
     GrantRow_response_mode := ResponseMode_to_string response_mode;
     GrantRow_response_type_code := bool_decide (is_Some code);
     GrantRow_response_type_id_token := response_type_id_token;
     GrantRow_authorization_code := AuthorizationCode_code <$> code;
     GrantRow_code_challenge := pkce_challenge <$> pkce;
     GrantRow_code_challenge_method :=
       (λ p, PkceCodeChallengeMethod_to_string (pkce_challenge_method p)) <$> pkce;
     GrantRow_login_hint := login_hint;
     GrantRow_locale := locale;
     GrantRow_oauth2_client_id := client_id;
     GrantRow_oauth2_session_id := None |}.

Definition authorization_grant_add (client : Client) (redirect_uri : Url)
    (raw_redirect_uri : string) (scope : ScopeSet) (code : option AuthorizationCode)
    (state nonce : option string) (response_mode : ResponseMode) (response_type_id_token : bool)
    (login_hint locale : option string) : M St DatabaseError AuthorizationGrant :=
  created_at ← clock_now;
  id ← with_rng (new_id created_at);
  _ ← insert_row on_grants
        (grant_violation id (Client_id client) (AuthorizationCode_code <$> code)) id
        (new_grant_row (Client_id client) raw_redirect_uri scope code state nonce response_mode
           response_type_id_token login_hint locale created_at);
  mret {| AuthorizationGrant_id := id;
          AuthorizationGrant_stage := Grant_Pending;
          AuthorizationGrant_code := code;
          AuthorizationGrant_client_id := Client_id client;
          AuthorizationGrant_redirect_uri := redirect_uri;
          AuthorizationGrant_raw_redirect_uri := raw_redirect_uri;
          AuthorizationGrant_scope := scope;
          AuthorizationGrant_state := state;
          AuthorizationGrant_nonce := nonce;
          AuthorizationGrant_response_mode := response_mode;
          AuthorizationGrant_response_type_id_token := response_type_id_token;
          AuthorizationGrant_created_at := created_at;
          AuthorizationGrant_login_hint := login_hint;
          AuthorizationGrant_locale := locale |}.

Definition authorization_grant_lookup (id : Ulid) : M St DatabaseError (option AuthorizationGrant) :=
  res ← select_by_id db_grants id;
  try_into AuthorizationGrant_try_from (keyed id res).

Definition authorization_grant_find_by_code (code : string)
    : M St DatabaseError (option AuthorizationGrant) :=
  res ← select_first db_grants (has_code code);
  try_into AuthorizationGrant_try_from res.
End grants.

Definition GrantRow_set (fulfilled_at exchanged_at : option DateTime) (session_id : option Ulid)
    (r : GrantRow) : GrantRow :=
  {| GrantRow_created_at := GrantRow_created_at r;
     GrantRow_cancelled_at := GrantRow_cancelled_at r;
     GrantRow_fulfilled_at := fulfilled_at;
     GrantRow_exchanged_at := exchanged_at;
     GrantRow_scope := GrantRow_scope r;
     GrantRow_state := GrantRow_state r;
     GrantRow_nonce := GrantRow_nonce r;
     GrantRow_redirect_uri := GrantRow_redirect_uri r;
     GrantRow_response_mode := GrantRow_response_mode r;
     GrantRow_response_type_code := GrantRow_response_type_code r;
     GrantRow_response_type_id_token := GrantRow_response_type_id_token r;
     GrantRow_authorization_code := GrantRow_authorization_code r;
     GrantRow_code_challenge := GrantRow_code_challenge r;
     GrantRow_code_challenge_method := GrantRow_code_challenge_method r;
     GrantRow_login_hint := GrantRow_login_hint r;
     GrantRow_locale := GrantRow_locale r;
     GrantRow_oauth2_client_id := GrantRow_oauth2_client_id r;
     GrantRow_oauth2_session_id := session_id |}.

Definition GrantRow_set_fulfilled (t : DateTime) (session_id : Ulid) (r : GrantRow) :=
  GrantRow_set (Some t) (GrantRow_exchanged_at r) (Some session_id) r.
Definition GrantRow_set_exchanged_at (t : DateTime) (r : GrantRow) :=
  GrantRow_set (GrantRow_fulfilled_at r) (Some t) (GrantRow_oauth2_session_id r) r.

(** The session a grant is fulfilled with must exist. *)
Definition grant_session_violation (session_id : Ulid) (db : DB) : option DieselError :=
  first_violation
    [ (fk_broken session_id (db_sessions db),
        ForeignKeyViolation "oauth2_authorization_grants" "oauth2_session_id") ].

Definition authorization_grant_fulfill (session : Session) (grant : AuthorizationGrant)
    : M St DatabaseError AuthorizationGrant :=
  fulfilled_at ← clock_now;
  _ ← update_one db_grants on_grants (grant_session_violation (Session_id session))
        (AuthorizationGrant_id grant) (GrantRow_set_fulfilled fulfilled_at (Session_id session));
  of_result (result_map_err to_invalid_operation
               (AuthorizationGrant_fulfill grant fulfilled_at session)).

Definition authorization_grant_exchange (grant : AuthorizationGrant)
    : M St DatabaseError AuthorizationGrant :=
  exchanged_at ← clock_now;
  _ ← update_one db_grants on_grants no_violation (AuthorizationGrant_id grant)
        (GrantRow_set_exchanged_at exchanged_at);
  of_result (result_map_err to_invalid_operation (AuthorizationGrant_exchange grant exchanged_at)).

(** ** Device code grants (pg/oauth2/device_code_grant.rs) *)

Definition Device_decode_state (id : Ulid) (value : DeviceGrantRow)
    : result DeviceCodeGrantState DatabaseError :=
  match DeviceGrantRow_fulfilled_at value, DeviceGrantRow_rejected_at value,
        DeviceGrantRow_exchanged_at value, DeviceGrantRow_user_session_id value,
        DeviceGrantRow_oauth2_session_id value with
  | None, None, None, None, None => Ok Device_Pending
  | Some fulfilled_at, None, None, Some user_session_id, None =>
      Ok (Device_Fulfilled user_session_id fulfilled_at)
  | None, Some rejected_at, None, Some user_session_id, None =>
      Ok (Device_Rejected user_session_id rejected_at)
  | Some fulfilled_at, None, Some exchanged_at, Some user_session_id, Some oauth2_session_id =>
      Ok (Device_Exchanged user_session_id fulfilled_at exchanged_at oauth2_session_id)
  | _, _, _, _, _ => Err (inconsistent_row "oauth2_device_code_grant" id)
  end.

Definition DeviceCodeGrant_try_from (id : Ulid) (value : DeviceGrantRow)
    : result DeviceCodeGrant DatabaseError :=
  result_bind
    (result_map_err (λ _, inconsistent "oauth2_device_code_grant" "scope" id)
       (Scope_from_str (DeviceGrantRow_scope value))) (λ scope,
  result_bind (Device_decode_state id value) (λ state,
  Ok {| DeviceCodeGrant_id := id;
        DeviceCodeGrant_state := state;
        DeviceCodeGrant_client_id := DeviceGrantRow_oauth2_client_id value;
        DeviceCodeGrant_scope := scope;
        DeviceCodeGrant_user_code := DeviceGrantRow_user_code value;
        DeviceCodeGrant_device_code := DeviceGrantRow_device_code value;
        DeviceCodeGrant_created_at := DeviceGrantRow_created_at value;
        DeviceCodeGrant_expires_at := DeviceGrantRow_expires_at value;
        DeviceCodeGrant_ip_address := DeviceGrantRow_ip_address value;
        DeviceCodeGrant_user_agent := DeviceGrantRow_user_agent value |})).

Definition has_device_code (code : string) (r : DeviceGrantRow) : bool :=
  bool_decide (DeviceGrantRow_device_code r = code).
Definition has_user_code (code : string) (r : DeviceGrantRow) : bool :=
  bool_decide (DeviceGrantRow_user_code r = code).

(** [OAuth2DeviceCodeGrantParams] *)
Record DeviceGrantParams := {
  dg_client : Client;
  dg_scope : ScopeSet;
  dg_device_code : string;
  dg_user_code : string;
  dg_expires_in : Duration;
  dg_ip_address : option IpAddr;
  dg_user_agent : option string;
}.

Definition device_grant_violation (id client_id : Ulid) (device_code user_code : string) (db : DB)
    : option DieselError :=
  first_violation
    [ (pk_taken id (db_device_grants db), UniqueViolation "oauth2_device_code_grant" "id");
      (col_taken (has_user_code user_code) (db_device_grants db),
        UniqueViolation "oauth2_device_code_grant" "user_code");
      (col_taken (has_device_code device_code) (db_device_grants db),
        UniqueViolation "oauth2_device_code_grant" "device_code");
      (fk_broken client_id (db_clients db),
        ForeignKeyViolation "oauth2_device_code_grant" "oauth2_client_id") ].

Definition new_device_grant_row (params : DeviceGrantParams) (created_at expires_at : DateTime)
    : DeviceGrantRow :=
  {| DeviceGrantRow_oauth2_client_id := Client_id (dg_client params);
     DeviceGrantRow_scope := Scope_to_string (dg_scope params);
     DeviceGrantRow_device_code := dg_device_code params;
     DeviceGrantRow_user_code := dg_user_code params;
     DeviceGrantRow_created_at := created_at;
     DeviceGrantRow_expires_at := expires_at;
     DeviceGrantRow_fulfilled_at := None;
     DeviceGrantRow_rejected_at := None;
     DeviceGrantRow_exchanged_at := None;
     DeviceGrantRow_user_session_id := None;
     DeviceGrantRow_oauth2_session_id := None;
     DeviceGrantRow_ip_address := dg_ip_address params;
     DeviceGrantRow_user_agent := dg_user_agent params |}.

Definition device_grant_add (params : DeviceGrantParams) : M St DatabaseError DeviceCodeGrant :=
  now ← clock_now;
  id ← with_rng (new_id now);
  let created_at := now in
  let expires_at := now + dg_expires_in params in
  let client_id := Client_id (dg_client params) in
  _ ← insert_row on_device_grants
        (device_grant_violation id client_id (dg_device_code params) (dg_user_code params)) id
        (new_device_grant_row params created_at expires_at);
  mret {| DeviceCodeGrant_id := id;
          DeviceCodeGrant_state := Device_Pending;
          DeviceCodeGrant_client_id := client_id;
          DeviceCodeGrant_scope := dg_scope params;
          DeviceCodeGrant_user_code := dg_user_code params;
          DeviceCodeGrant_device_code := dg_device_code params;
          DeviceCodeGrant_created_at := created_at;
          DeviceCodeGrant_expires_at := expires_at;
          DeviceCodeGrant_ip_address := dg_ip_address params;
          DeviceCodeGrant_user_agent := dg_user_agent params |}.

Definition device_grant_lookup (id : Ulid) : M St DatabaseError (option DeviceCodeGrant) :=
  res ← select_by_id db_device_grants id;
  try_into DeviceCodeGrant_try_from (keyed id res).

Definition device_grant_find_by_user_code (user_code : string)
    : M St DatabaseError (option DeviceCodeGrant) :=
  res ← select_first db_device_grants (has_user_code user_code);
  try_into DeviceCodeGrant_try_from res.

Definition device_grant_find_by_device_code (device_code : string)
    : M St DatabaseError (option DeviceCodeGrant) :=
  res ← select_first db_device_grants (has_device_code device_code);
  try_into DeviceCodeGrant_try_from res.

Definition DeviceGrantRow_set (fulfilled_at rejected_at exchanged_at : option DateTime)
    (user_session_id session_id : option Ulid) (r : DeviceGrantRow) : DeviceGrantRow :=
  {| DeviceGrantRow_oauth2_client_id := DeviceGrantRow_oauth2_client_id r;
     DeviceGrantRow_scope := DeviceGrantRow_scope r;
     DeviceGrantRow_device_code := DeviceGrantRow_device_code r;
     DeviceGrantRow_user_code := DeviceGrantRow_user_code r;
     DeviceGrantRow_created_at := DeviceGrantRow_created_at r;
     DeviceGrantRow_expires_at := DeviceGrantRow_expires_at r;
     DeviceGrantRow_fulfilled_at := fulfilled_at;
     DeviceGrantRow_rejected_at := rejected_at;
     DeviceGrantRow_exchanged_at := exchanged_at;
     DeviceGrantRow_user_session_id := user_session_id;
     DeviceGrantRow_oauth2_session_id := session_id;
     DeviceGrantRow_ip_address := DeviceGrantRow_ip_address r;
     DeviceGrantRow_user_agent := DeviceGrantRow_user_agent r |}.

Definition DeviceGrantRow_set_fulfilled (t : DateTime) (bs : Ulid) (r : DeviceGrantRow) :=
  DeviceGrantRow_set (Some t) (DeviceGrantRow_rejected_at r) (DeviceGrantRow_exchanged_at r)
    (Some bs) (DeviceGrantRow_oauth2_session_id r) r.
Definition DeviceGrantRow_set_rejected (t : DateTime) (bs : Ulid) (r : DeviceGrantRow) :=
  DeviceGrantRow_set (DeviceGrantRow_fulfilled_at r) (Some t) (DeviceGrantRow_exchanged_at r)
    (Some bs) (DeviceGrantRow_oauth2_session_id r) r.
Definition DeviceGrantRow_set_exchanged (t : DateTime) (sid : Ulid) (r : DeviceGrantRow) :=
  DeviceGrantRow_set (DeviceGrantRow_fulfilled_at r) (DeviceGrantRow_rejected_at r) (Some t)
    (DeviceGrantRow_user_session_id r) (Some sid) r.

Definition device_user_session_violation (user_session_id : Ulid) (db : DB) : option DieselError :=
  first_violation
    [ (fk_broken user_session_id (db_user_sessions db),
        ForeignKeyViolation "oauth2_device_code_grant" "user_session_id") ].
Definition device_session_violation (session_id : Ulid) (db : DB) : option DieselError :=
  first_violation
    [ (fk_broken session_id (db_sessions db),
        ForeignKeyViolation "oauth2_device_code_grant" "oauth2_session_id") ].

(** The device grant repository checks the transition before it writes. *)
Definition device_grant_fulfill (grant : DeviceCodeGrant) (browser_session : BrowserSession)
    : M St DatabaseError DeviceCodeGrant :=
  fulfilled_at ← clock_now;
  grant ← of_result (result_map_err to_invalid_operation
            (DeviceCodeGrant_fulfill grant browser_session fulfilled_at));
  _ ← update_one db_device_grants on_device_grants
        (device_user_session_violation (BrowserSession_id browser_session)) (DeviceCodeGrant_id grant)
        (DeviceGrantRow_set_fulfilled fulfilled_at (BrowserSession_id browser_session));
  mret grant.

Definition device_grant_reject (grant : DeviceCodeGrant) (browser_session : BrowserSession)
    : M St DatabaseError DeviceCodeGrant :=
  fulfilled_at ← clock_now;
  grant ← of_result (result_map_err to_invalid_operation
            (DeviceCodeGrant_reject grant browser_session fulfilled_at));
  _ ← update_one db_device_grants on_device_grants
        (device_user_session_violation (BrowserSession_id browser_session)) (DeviceCodeGrant_id grant)
        (DeviceGrantRow_set_rejected fulfilled_at (BrowserSession_id browser_session));
  mret grant.

Definition device_grant_exchange (grant : DeviceCodeGrant) (session : Session)
    : M St DatabaseError DeviceCodeGrant :=
  exchanged_at ← clock_now;
  grant ← of_result (result_map_err to_invalid_operation
            (DeviceCodeGrant_exchange grant session exchanged_at));
  _ ← update_one db_device_grants on_device_grants
        (device_session_violation (Session_id session)) (DeviceCodeGrant_id grant)
        (DeviceGrantRow_set_exchanged exchanged_at (Session_id session));
  mret grant.

(** ** Users and browser sessions (users.rs, pg/user/mod.rs, pg/user/session.rs) *)

Section users.
Context {DX : DbExternals}.

(** [Queryable::build] of [User] *)
Definition User_build (id : Ulid) (row : UserRow) : User :=
  {| User_id := id;
     User_username := UserRow_username row;
     User_sub := ulid_to_string id;
     User_created_at := UserRow_created_at row;
     User_updated_at := UserRow_updated_at row;
     User_locked_at := UserRow_locked_at row;
     User_deactivated_at := UserRow_deactivated_at row;
     User_can_request_admin := UserRow_can_request_admin row;
     User_is_guest := UserRow_is_guest row;
     User_display_name := UserRow_display_name row;
     User_avatar_url := UserRow_avatar_url row;
     User_preferred_locale := UserRow_preferred_locale row |}.

Definition user_lookup (id : Ulid) : M St DatabaseError (option User) :=
  res ← select_by_id db_users id;
  mret (User_build id <$> res).

(** [From<SessionLookup>] *)
Definition BrowserSession_from (id : Ulid) (session : UserSessionRow) (user : User)
    : BrowserSession :=
  {| BrowserSession_id := id;
     BrowserSession_user := user;
     BrowserSession_created_at := UserSessionRow_created_at session;
     BrowserSession_finished_at := UserSessionRow_finished_at session;
     BrowserSession_user_agent := UserSessionRow_user_agent session;
     BrowserSession_last_active_at := UserSessionRow_last_active_at session;
     BrowserSession_last_active_ip := UserSessionRow_last_active_ip session |}.

(** [load_session_lookup], converted. *)
Definition browser_session_lookup (id : Ulid) : M St DatabaseError (option BrowserSession) :=
  session_row ← select_by_id db_user_sessions id;
  match session_row with
  | None => mret None
  | Some session_row =>
      user_row ← select_by_id db_users (UserSessionRow_user_id session_row);
      match user_row with
      | None => mret None
      | Some user_row =>
          mret (Some (BrowserSession_from id session_row
                        (User_build (UserSessionRow_user_id session_row) user_row)))
      end
  end.
End users.

Definition Authentication_try_from (id : Ulid) (value : AuthenticationRow)
    : result Authentication DatabaseError :=
  result_bind
    match AuthenticationRow_user_password_id value,
          AuthenticationRow_upstream_oauth_authorization_session_id value with
    | Some user_password_id, None => Ok (AuthenticationMethod_Password user_password_id)
    | None, Some upstream_oauth2_session_id =>
        Ok (AuthenticationMethod_UpstreamOAuth2 upstream_oauth2_session_id)
    | None, None => Ok AuthenticationMethod_Unknown
    | Some _, Some _ => Err (inconsistent_row "user_session_authentications" id)
    end
  (λ method,
  Ok {| Authentication_id := id;
        Authentication_created_at := AuthenticationRow_created_at value;
        Authentication_authentication_method := method |}).

(** [ORDER BY created_at DESC LIMIT 1] over the rows of a list. *)
Fixpoint latest (l : list (Z * AuthenticationRow)) : option (Z * AuthenticationRow) :=
  match l with
  | [] => None
  | kr :: l =>
      match latest l with
      | Some kr' =>
          if AuthenticationRow_created_at kr.2 <? AuthenticationRow_created_at kr'.2
          then Some kr' else Some kr
      | None => Some kr
      end
  end.

Definition browser_session_get_last_authentication (user_session : BrowserSession)
    : M St DatabaseError (option Authentication) :=
  authentication ← gets (λ st, latest (filter
    (λ kr, AuthenticationRow_user_session_id kr.2 = BrowserSession_id user_session)
    (map_to_list (db_authentications (st_db st)))));
  try_into Authentication_try_from authentication.

(** [as i64] of the low 64 bits. *)
Definition as_i64 (z : Z) : Z := if 2 ^ 63 <=? z then z - 2 ^ 64 else z.

Definition user_acquire_lock_for_sync (user : User) : M St DatabaseError () :=
  let lock_id := as_i64 (Z.land (User_id user) 0xffffffffffffffff) in
  advisory_lock lock_id.

(** ** Clients (pg/oauth2/client.rs) *)

Section clients.
Context {UX : UrlExternals} {DX : DbExternals}.

(** [column.map(|s| s.parse()).transpose()] for a URL column. *)
Definition parse_url_column (id : Ulid) (column : string) (value : option string)
    : result (option Url) DatabaseError :=
  match value with
  | None => Ok None
  | Some s => match url_parse s with
              | Some u => Ok (Some u)
              | None => Err (inconsistent "oauth2_clients" column id)
              end
  end.

Definition Client_decode_jwks (id : Ulid) (row : OAuth2ClientRow)
    : result (option JwksOrJwksUri) DatabaseError :=
  match ClientRow_jwks row, ClientRow_jwks_uri row with
  | None, None => Ok None
  | Some jwks, None =>
      match jwks_from_value jwks with
      | Some jwks => Ok (Some (Jwks jwks))
      | None => Err (inconsistent "oauth2_clients" "jwks" id)
      end
  | None, Some jwks_uri =>
      match url_parse jwks_uri with
      | Some u => Ok (Some (JwksUri u))
      | None => Err (inconsistent "oauth2_clients" "jwks_uri" id)
      end
  | Some _, Some _ => Err (inconsistent "oauth2_clients" "jwks(_uri)" id)
  end.

Definition Client_decode_grant_types (row : OAuth2ClientRow) : list GrantType :=
  (if ClientRow_grant_type_authorization_code row then [GrantType_AuthorizationCode] else []) ++
  (if ClientRow_grant_type_refresh_token row then [GrantType_RefreshToken] else []) ++
  (if ClientRow_grant_type_client_credentials row then [GrantType_ClientCredentials] else []) ++
  (if default false (ClientRow_grant_type_device_code row) then [GrantType_DeviceCode] else []).

(** [load_localized_for_clients], for one client. *)
Definition load_localized (rows : list (string * string * string)) : LocalizedClientMetadata :=
  foldl (λ meta '(locale, field, value),
    match LocalizableField_parse field with
    | None => meta
    | Some field_kind => LocalizedClientMetadata_set meta field_kind locale value
    end) LocalizedClientMetadata_default rows.

Definition Client_try_from (id : Ulid) (row : OAuth2ClientRow) : result Client DatabaseError :=
  result_bind match mapM url_parse (ClientRow_redirect_uris row) with
              | Some uris => Ok uris
              | None => Err (inconsistent "oauth2_clients" "redirect_uris" id)
              end (λ redirect_uris,
  result_bind (parse_url_column id "logo_uri" (ClientRow_logo_uri row)) (λ logo_uri,
  result_bind (parse_url_column id "client_uri" (ClientRow_client_uri row)) (λ client_uri,
  result_bind (parse_url_column id "policy_uri" (ClientRow_policy_uri row)) (λ policy_uri,
  result_bind (parse_url_column id "tos_uri" (ClientRow_tos_uri row)) (λ tos_uri,
  result_bind (parse_url_column id "initiate_login_uri" (ClientRow_initiate_login_uri row))
    (λ initiate_login_uri,
  result_bind (Client_decode_jwks id row) (λ jwks,
  Ok {| Client_id := id;
        Client_client_id := ulid_to_string id;
        Client_metadata_digest := ClientRow_metadata_digest row;
        Client_encrypted_client_secret := ClientRow_encrypted_client_secret row;
        Client_application_type := application_type_from_str <$> ClientRow_application_type row;
        Client_redirect_uris := redirect_uris;
        Client_grant_types := Client_decode_grant_types row;
        Client_client_name := ClientRow_client_name row;
        Client_logo_uri := logo_uri;
        Client_client_uri := client_uri;
        Client_policy_uri := policy_uri;
        Client_tos_uri := tos_uri;
        Client_localized_metadata := load_localized (ClientRow_localized row);
        Client_jwks := jwks;
        Client_id_token_signed_response_alg :=
          JsonWebSignatureAlg_from_str <$> ClientRow_id_token_signed_response_alg row;
        Client_userinfo_signed_response_alg :=
          JsonWebSignatureAlg_from_str <$> ClientRow_userinfo_signed_response_alg row;
        Client_token_endpoint_auth_method :=
          auth_method_from_str <$> ClientRow_token_endpoint_auth_method row;
        Client_token_endpoint_auth_signing_alg :=
          JsonWebSignatureAlg_from_str <$> ClientRow_token_endpoint_auth_signing_alg row;
        Client_initiate_login_uri := initiate_login_uri |}))))))).

Definition oauth2_client_lookup (id : Ulid) : M St DatabaseError (option Client) :=
  res ← select_by_id db_clients id;
  try_into Client_try_from (keyed id res).

(** [find_by_client_id] (storage/oauth2/client.rs) *)
Definition oauth2_client_find_by_client_id (client_id : string)
    : M St DatabaseError (option Client) :=
  match ulid_from_string client_id with
  | None => mret None
  | Some id => oauth2_client_lookup id
  end.
End clients.

(** ** Personal sessions and tokens (pg/personal) *)

Definition PersonalSession_try_from (id : Ulid) (value : PersonalSessionRow)
    : result PersonalSession DatabaseError :=
  result_bind
    (result_map_err (λ _, inconsistent "personal_sessions" "scope" id)
       (Scope_from_list (PersonalSessionRow_scope_list value))) (λ scope,
  result_bind
    match PersonalSessionRow_owner_user_id value, PersonalSessionRow_owner_oauth2_client_id value with
    | Some owner_user_id, None => Ok (Owner_User owner_user_id)
    | None, Some owner_oauth2_client_id => Ok (Owner_OAuth2Client owner_oauth2_client_id)
    | _, _ => Err (inconsistent "personal_sessions" "owner_user_id, owner_oauth2_client_id" id)
    end (λ owner,
  Ok {| PersonalSession_id := id;
        PersonalSession_state :=
          match PersonalSessionRow_revoked_at value with
          | None => Personal_Valid
          | Some revoked_at => Personal_Revoked revoked_at
          end;
        PersonalSession_owner := owner;
        PersonalSession_actor_user_id := PersonalSessionRow_actor_user_id value;
        PersonalSession_human_name := PersonalSessionRow_human_name value;
        PersonalSession_scope := scope;
        PersonalSession_created_at := PersonalSessionRow_created_at value;
        PersonalSession_last_active_at := PersonalSessionRow_last_active_at value;
        PersonalSession_last_active_ip := PersonalSessionRow_last_active_ip value |})).

Definition personal_session_lookup (id : Ulid) : M St DatabaseError (option PersonalSession) :=
  res ← select_by_id db_personal_sessions id;
  try_into PersonalSession_try_from (keyed id res).

Definition personal_session_violation (id : Ulid) (owner_user owner_client : option Ulid)
    (actor : Ulid) (db : DB) : option DieselError :=
  first_violation
    [ (pk_taken id (db_personal_sessions db), UniqueViolation "personal_sessions" "id");
      (fk_broken_opt owner_user (db_users db),
        ForeignKeyViolation "personal_sessions" "owner_user_id");
      (fk_broken_opt owner_client (db_clients db),
        ForeignKeyViolation "personal_sessions" "owner_oauth2_client_id");
      (fk_broken actor (db_users db), ForeignKeyViolation "personal_sessions" "actor_user_id") ].

(** The two owner columns. *)
Definition owner_columns (owner : PersonalSessionOwner) : option Ulid * option Ulid :=
  match owner with
  | Owner_User ulid => (Some ulid, None)
  | Owner_OAuth2Client ulid => (None, Some ulid)
  end.

Definition new_personal_session_row (owner : PersonalSessionOwner) (actor : Ulid)
    (human_name : string) (scope : ScopeSet) (created_at : DateTime) : PersonalSessionRow :=
  {| PersonalSessionRow_owner_user_id := (owner_columns owner).1;
     PersonalSessionRow_owner_oauth2_client_id := (owner_columns owner).2;
     PersonalSessionRow_actor_user_id := actor;
     PersonalSessionRow_human_name := human_name;
     PersonalSessionRow_scope_list := scope_iter scope;
     PersonalSessionRow_created_at := created_at;
     PersonalSessionRow_revoked_at := None;
     PersonalSessionRow_last_active_at := None;
     PersonalSessionRow_last_active_ip := None |}.

Definition personal_session_add (owner : PersonalSessionOwner) (actor_user : User)
    (human_name : string) (scope : ScopeSet) : M St DatabaseError PersonalSession :=
  created_at ← clock_now;
  id ← with_rng (new_id created_at);
  _ ← insert_row on_personal_sessions
        (personal_session_violation id (owner_columns owner).1 (owner_columns owner).2
           (User_id actor_user)) id
        (new_personal_session_row owner (User_id actor_user) human_name scope created_at);
  mret {| PersonalSession_id := id;
          PersonalSession_state := Personal_Valid;
          PersonalSession_owner := owner;
          PersonalSession_actor_user_id := User_id actor_user;
          PersonalSession_human_name := human_name;
          PersonalSession_scope := scope;
          PersonalSession_created_at := created_at;
          PersonalSession_last_active_at := None;
          PersonalSession_last_active_ip := None |}.

Definition PersonalSessionRow_set_revoked_at (t : DateTime) (r : PersonalSessionRow) :=
  {| PersonalSessionRow_owner_user_id := PersonalSessionRow_owner_user_id r;
     PersonalSessionRow_owner_oauth2_client_id := PersonalSessionRow_owner_oauth2_client_id r;
     PersonalSessionRow_actor_user_id := PersonalSessionRow_actor_user_id r;
     PersonalSessionRow_human_name := PersonalSessionRow_human_name r;
     PersonalSessionRow_scope_list := PersonalSessionRow_scope_list r;
     PersonalSessionRow_created_at := PersonalSessionRow_created_at r;
     PersonalSessionRow_revoked_at := Some t;
     PersonalSessionRow_last_active_at := PersonalSessionRow_last_active_at r;
     PersonalSessionRow_last_active_ip := PersonalSessionRow_last_active_ip r |}.

Definition PersonalTokenRow_set_revoked_at (t : DateTime) (r : PersonalAccessTokenRow) :=
  {| PersonalTokenRow_personal_session_id := PersonalTokenRow_personal_session_id r;
     PersonalTokenRow_access_token_sha256 := PersonalTokenRow_access_token_sha256 r;
     PersonalTokenRow_created_at := PersonalTokenRow_created_at r;
     PersonalTokenRow_expires_at := PersonalTokenRow_expires_at r;
     PersonalTokenRow_revoked_at := Some t |}.

(** [UPDATE personal_access_tokens SET revoked_at = t
     WHERE personal_session_id = id AND revoked_at IS NULL] *)
Definition revoke_session_tokens (session_id : Ulid) (t : DateTime) (r : PersonalAccessTokenRow)
    : PersonalAccessTokenRow :=
  if bool_decide (PersonalTokenRow_personal_session_id r = session_id ∧
                  PersonalTokenRow_revoked_at r = None)
  then PersonalTokenRow_set_revoked_at t r else r.

Definition personal_session_revoke (session : PersonalSession) : M St DatabaseError PersonalSession :=
  revoked_at ← clock_now;
  _ ← modify (on_db (on_personal_tokens (fmap (revoke_session_tokens (PersonalSession_id session) revoked_at))));
  _ ← update_one db_personal_sessions on_personal_sessions no_violation (PersonalSession_id session)
        (PersonalSessionRow_set_revoked_at revoked_at);
  of_result (result_map_err to_invalid_operation (PersonalSession_finish session revoked_at)).

(** [count(PersonalSessionFilter::new().active_only().for_actor_user(user).for_owner_user(user))]:
    the LEFT JOIN yields a row per unrevoked token, and one for a session without any. *)
Definition personal_session_count_active_for_user (user : User) : M St DatabaseError nat :=
  gets (λ st,
    sum_list ((λ kr : Z * PersonalSessionRow,
      Nat.max 1 (size (filter (λ kt : Z * PersonalAccessTokenRow,
        PersonalTokenRow_personal_session_id kt.2 = kr.1 ∧ PersonalTokenRow_revoked_at kt.2 = None)
        (db_personal_tokens (st_db st)))))
      <$> filter (λ kr : Z * PersonalSessionRow,
            PersonalSessionRow_owner_user_id kr.2 = Some (User_id user) ∧
            PersonalSessionRow_actor_user_id kr.2 = User_id user ∧
            PersonalSessionRow_revoked_at kr.2 = None)
          (map_to_list (db_personal_sessions (st_db st))))).

Definition PersonalAccessToken_from (id : Ulid) (value : PersonalAccessTokenRow)
    : PersonalAccessToken :=
  {| PersonalAccessToken_id := id;
     PersonalAccessToken_session_id := PersonalTokenRow_personal_session_id value;
     PersonalAccessToken_created_at := PersonalTokenRow_created_at value;
     PersonalAccessToken_expires_at := PersonalTokenRow_expires_at value;
     PersonalAccessToken_revoked_at := PersonalTokenRow_revoked_at value |}.

Definition has_token_sha256 (digest : string) (r : PersonalAccessTokenRow) : bool :=
  bool_decide (PersonalTokenRow_access_token_sha256 r = digest).

Definition personal_token_lookup (id : Ulid) : M St DatabaseError (option PersonalAccessToken) :=
  res ← select_by_id db_personal_tokens id;
  mret (PersonalAccessToken_from id <$> res).

Definition personal_token_find_active_for_session (session : PersonalSession)
    : M St DatabaseError (option PersonalAccessToken) :=
  res ← select_first db_personal_tokens (λ r, bool_decide
          (PersonalTokenRow_personal_session_id r = PersonalSession_id session ∧
           PersonalTokenRow_revoked_at r = None));
  mret ((λ kr, PersonalAccessToken_from kr.1 kr.2) <$> res).

Section personal_tokens.
Context {DX : DbExternals}.

Definition personal_token_find_by_token (access_token : string)
    : M St DatabaseError (option PersonalAccessToken) :=
  let token_sha256 := sha256_digest access_token in
  res ← select_first db_personal_tokens (has_token_sha256 token_sha256);
  mret ((λ kr, PersonalAccessToken_from kr.1 kr.2) <$> res).

Definition personal_token_violation (id session_id : Ulid) (digest : string) (db : DB)
    : option DieselError :=
  first_violation
    [ (pk_taken id (db_personal_tokens db), UniqueViolation "personal_access_tokens" "id");
      (col_taken (has_token_sha256 digest) (db_personal_tokens db),
        UniqueViolation "personal_access_tokens" "access_token_sha256");
      (fk_broken session_id (db_personal_sessions db),
        ForeignKeyViolation "personal_access_tokens" "personal_session_id") ].

Definition new_personal_token_row (session_id : Ulid) (digest : string) (created_at : DateTime)
    (expires_at : option DateTime) : PersonalAccessTokenRow :=
  {| PersonalTokenRow_personal_session_id := session_id;
     PersonalTokenRow_access_token_sha256 := digest;
     PersonalTokenRow_created_at := created_at;
     PersonalTokenRow_expires_at := expires_at;
     PersonalTokenRow_revoked_at := None |}.

Definition personal_token_add (session : PersonalSession) (access_token : string)
    (expires_after : option Duration) : M St DatabaseError PersonalAccessToken :=
  created_at ← clock_now;
  id ← with_rng (new_id created_at);
  let token_sha256 := sha256_digest access_token in
  let expires_at := (λ d, created_at + d) <$> expires_after in
  _ ← insert_row on_personal_tokens
        (personal_token_violation id (PersonalSession_id session) token_sha256) id
        (new_personal_token_row (PersonalSession_id session) token_sha256 created_at expires_at);
  mret {| PersonalAccessToken_id := id;
          PersonalAccessToken_session_id := PersonalSession_id session;
          PersonalAccessToken_created_at := created_at;
          PersonalAccessToken_expires_at := expires_at;
          PersonalAccessToken_revoked_at := None |}.
End personal_tokens.

Definition personal_token_revoke (access_token : PersonalAccessToken)
    : M St DatabaseError PersonalAccessToken :=
  revoked_at ← clock_now;
  _ ← update_one db_personal_tokens on_personal_tokens no_violation
        (PersonalAccessToken_id access_token) (PersonalTokenRow_set_revoked_at revoked_at);
  mret {| PersonalAccessToken_id := PersonalAccessToken_id access_token;
          PersonalAccessToken_session_id := PersonalAccessToken_session_id access_token;
          PersonalAccessToken_created_at := PersonalAccessToken_created_at access_token;
          PersonalAccessToken_expires_at := PersonalAccessToken_expires_at access_token;
          PersonalAccessToken_revoked_at := Some revoked_at |}.

(** ** The job queue (pg/queue/job.rs, [schedule]) *)

Definition SYNC_DEVICES_QUEUE_NAME : string := "sync-devices".

Definition queue_job_insert (queue_name : string) (payload : JobPayload)
    (scheduled_at : option DateTime) : M St DatabaseError () :=
  created_at ← clock_now;
  id ← with_rng (new_id created_at);
  insert_row on_jobs
    (λ db, first_violation [(pk_taken id (db_jobs db), UniqueViolation "queue_jobs" "id")]) id
    {| QueueJobRow_queue_name := queue_name;
       QueueJobRow_payload := payload;
       QueueJobRow_created_at := created_at;
       QueueJobRow_scheduled_at := scheduled_at |}.
Definition queue_job_schedule (queue_name : string) (payload : JobPayload) : M St DatabaseError () :=
  queue_job_insert queue_name payload None.
(** [schedule_later], without a schedule *)
Definition queue_job_schedule_later (queue_name : string) (payload : JobPayload)
    (scheduled_at : DateTime) : M St DatabaseError () :=
  queue_job_insert queue_name payload (Some scheduled_at).

(** [schedule_job(rng, clock, SyncDevicesJob::new_for_id(user_id))] *)
Definition schedule_sync_devices_job (user_id : Ulid) : M St DatabaseError () :=
  queue_job_schedule SYNC_DEVICES_QUEUE_NAME (Payload_SyncDevices user_id).
