(* ===== verification/ClientMetadata.v ===== *)
(** The metadata of clients (crates/oauth2-types/src/registration): localised
    values, the JSON form and its two directions, the checks of a registration,
    and the open enumerations of oidc.rs and of crates/iana they are made of. *)
From S2P Require Import Prelude Ids ResponseTypes Scope Pkce Jose Domain Database Repository.

Open Scope Z_scope.

(** ** Open enumerations *)

(** [FromStr] of an enumeration with a catch-all: every text is accepted. *)
Definition open_from_str {A} (known : list (string * A)) (unknown : string → A) (s : string) : A :=
  match list_find (λ na, na.1 = s) known with
  | Some (_, (_, a)) => a
  | None => unknown s
  end.

Inductive JsonWebEncryptionAlg :=
| Enc_Rsa15 | Enc_RsaOaep | Enc_RsaOaep256 | Enc_A128Kw | Enc_A192Kw | Enc_A256Kw | Enc_Dir
| Enc_EcdhEs | Enc_EcdhEsA128Kw | Enc_EcdhEsA192Kw | Enc_EcdhEsA256Kw | Enc_A128Gcmkw
| Enc_A192Gcmkw | Enc_A256Gcmkw | Enc_Pbes2Hs256A128Kw | Enc_Pbes2Hs384A192Kw
| Enc_Pbes2Hs512A256Kw | Enc_RsaOaep384 | Enc_RsaOaep512 | EncAlg_Unknown (name : string).
#[export] Instance JsonWebEncryptionAlg_eq_dec : EqDecision JsonWebEncryptionAlg.
Proof. solve_decision. Defined.

Definition JsonWebEncryptionAlg_known : list (string * JsonWebEncryptionAlg) :=
  [("RSA1_5", Enc_Rsa15); ("RSA-OAEP", Enc_RsaOaep); ("RSA-OAEP-256", Enc_RsaOaep256);
   ("A128KW", Enc_A128Kw); ("A192KW", Enc_A192Kw); ("A256KW", Enc_A256Kw); ("dir", Enc_Dir);
   ("ECDH-ES", Enc_EcdhEs); ("ECDH-ES+A128KW", Enc_EcdhEsA128Kw);
   ("ECDH-ES+A192KW", Enc_EcdhEsA192Kw); ("ECDH-ES+A256KW", Enc_EcdhEsA256Kw);
   ("A128GCMKW", Enc_A128Gcmkw); ("A192GCMKW", Enc_A192Gcmkw); ("A256GCMKW", Enc_A256Gcmkw);
   ("PBES2-HS256+A128KW", Enc_Pbes2Hs256A128Kw); ("PBES2-HS384+A192KW", Enc_Pbes2Hs384A192Kw);
   ("PBES2-HS512+A256KW", Enc_Pbes2Hs512A256Kw); ("RSA-OAEP-384", Enc_RsaOaep384);
   ("RSA-OAEP-512", Enc_RsaOaep512)].
Definition JsonWebEncryptionAlg_from_str (s : string) : JsonWebEncryptionAlg :=
  open_from_str JsonWebEncryptionAlg_known EncAlg_Unknown s.
Definition JsonWebEncryptionAlg_to_string (self : JsonWebEncryptionAlg) : string :=
  match self with
  | Enc_Rsa15 => "RSA1_5" | Enc_RsaOaep => "RSA-OAEP" | Enc_RsaOaep256 => "RSA-OAEP-256"
  | Enc_A128Kw => "A128KW" | Enc_A192Kw => "A192KW" | Enc_A256Kw => "A256KW" | Enc_Dir => "dir"
  | Enc_EcdhEs => "ECDH-ES" | Enc_EcdhEsA128Kw => "ECDH-ES+A128KW"
  | Enc_EcdhEsA192Kw => "ECDH-ES+A192KW" | Enc_EcdhEsA256Kw => "ECDH-ES+A256KW"
  | Enc_A128Gcmkw => "A128GCMKW" | Enc_A192Gcmkw => "A192GCMKW" | Enc_A256Gcmkw => "A256GCMKW"
  | Enc_Pbes2Hs256A128Kw => "PBES2-HS256+A128KW" | Enc_Pbes2Hs384A192Kw => "PBES2-HS384+A192KW"
  | Enc_Pbes2Hs512A256Kw => "PBES2-HS512+A256KW" | Enc_RsaOaep384 => "RSA-OAEP-384"
  | Enc_RsaOaep512 => "RSA-OAEP-512" | EncAlg_Unknown name => name
  end.

Inductive JsonWebEncryptionEnc :=
| A128CbcHs256 | A192CbcHs384 | A256CbcHs512 | A128Gcm | A192Gcm | A256Gcm
| EncEnc_Unknown (name : string).
#[export] Instance JsonWebEncryptionEnc_eq_dec : EqDecision JsonWebEncryptionEnc.
Proof. solve_decision. Defined.

Definition JsonWebEncryptionEnc_known : list (string * JsonWebEncryptionEnc) :=
  [("A128CBC-HS256", A128CbcHs256); ("A192CBC-HS384", A192CbcHs384);
   ("A256CBC-HS512", A256CbcHs512); ("A128GCM", A128Gcm); ("A192GCM", A192Gcm);
   ("A256GCM", A256Gcm)].
Definition JsonWebEncryptionEnc_from_str (s : string) : JsonWebEncryptionEnc :=
  open_from_str JsonWebEncryptionEnc_known EncEnc_Unknown s.
Definition JsonWebEncryptionEnc_to_string (self : JsonWebEncryptionEnc) : string :=
  match self with
  | A128CbcHs256 => "A128CBC-HS256" | A192CbcHs384 => "A192CBC-HS384"
  | A256CbcHs512 => "A256CBC-HS512" | A128Gcm => "A128GCM" | A192Gcm => "A192GCM"
  | A256Gcm => "A256GCM" | EncEnc_Unknown name => name
  end.

Inductive SubjectType :=
| Subject_Public | Subject_Pairwise | Subject_Unknown (name : string).
#[export] Instance SubjectType_eq_dec : EqDecision SubjectType.
Proof. solve_decision. Defined.

Definition SubjectType_known : list (string * SubjectType) :=
  [("public", Subject_Public); ("pairwise", Subject_Pairwise)].
Definition SubjectType_from_str (s : string) : SubjectType :=
  open_from_str SubjectType_known Subject_Unknown s.
Definition SubjectType_to_string (self : SubjectType) : string :=
  match self with
  | Subject_Public => "public" | Subject_Pairwise => "pairwise" | Subject_Unknown name => name
  end.

Definition ApplicationType_to_string (self : ApplicationType) : string :=
  match self with
  | Application_Web => "web" | Application_Native => "native" | Application_Unknown raw => raw
  end.

Definition auth_method_to_string (self : OAuthClientAuthenticationMethod) : string :=
  match self with
  | Auth_None => "none"
  | Auth_ClientSecretPost => "client_secret_post"
  | Auth_ClientSecretBasic => "client_secret_basic"
  | Auth_ClientSecretJwt => "client_secret_jwt"
  | Auth_PrivateKeyJwt => "private_key_jwt"
  | Auth_TlsClientAuth => "tls_client_auth"
  | Auth_SelfSignedTlsClientAuth => "self_signed_tls_client_auth"
  | Auth_Unknown name => name
  end.

Definition GrantType_known : list (string * GrantType) :=
  [("authorization_code", GrantType_AuthorizationCode); ("refresh_token", GrantType_RefreshToken);
   ("implicit", GrantType_Implicit); ("client_credentials", GrantType_ClientCredentials);
   ("password", GrantType_Password);
   ("urn:ietf:params:oauth:grant-type:device_code", GrantType_DeviceCode);
   ("urn:ietf:params:oauth:grant-type:jwt-bearer", GrantType_JwtBearer);
   ("urn:openid:params:grant-type:ciba", GrantType_ClientInitiatedBackchannelAuthentication)].
Definition GrantType_from_str (s : string) : GrantType :=
  open_from_str GrantType_known GrantType_Unknown s.
Definition GrantType_to_string (self : GrantType) : string :=
  match self with
  | GrantType_AuthorizationCode => "authorization_code"
  | GrantType_RefreshToken => "refresh_token"
  | GrantType_Implicit => "implicit"
  | GrantType_ClientCredentials => "client_credentials"
  | GrantType_Password => "password"
  | GrantType_DeviceCode => "urn:ietf:params:oauth:grant-type:device_code"
  | GrantType_JwtBearer => "urn:ietf:params:oauth:grant-type:jwt-bearer"
  | GrantType_ClientInitiatedBackchannelAuthentication => "urn:openid:params:grant-type:ciba"
  | GrantType_Unknown value => value
  end.
(** The derived order. *)
Definition grant_type_rank (t : GrantType) : Z :=
  match t with
  | GrantType_AuthorizationCode => 0 | GrantType_RefreshToken => 1 | GrantType_Implicit => 2
  | GrantType_ClientCredentials => 3 | GrantType_Password => 4 | GrantType_DeviceCode => 5
  | GrantType_JwtBearer => 6 | GrantType_ClientInitiatedBackchannelAuthentication => 7
  | GrantType_Unknown _ => 8
  end.
Definition grant_type_le : relation GrantType := enum_le grant_type_rank GrantType_to_string.

(** The derived order of response types: that of their sets, read in order. *)
Fixpoint tokens_leb (l1 l2 : list ResponseTypeToken) : bool :=
  match l1, l2 with
  | [], _ => true
  | _ :: _, [] => false
  | a :: l1, b :: l2 =>
      if bool_decide (a = b) then tokens_leb l1 l2 else bool_decide (token_le a b)
  end.
Definition response_type_le : relation (gset ResponseTypeToken) := λ a b,
  tokens_leb (ResponseType_iter a) (ResponseType_iter b) = true.
#[export] Instance response_type_le_dec : RelDecision response_type_le.
Proof. unfold response_type_le. intros a b. apply _. Defined.

(** ** Localised values (localized.rs) *)

(** Language tags are their texts. *)
Record Localized (T : Type) := {
  localized_default_value : option T;
  localized_tagged : list (string * T);
}.
Arguments localized_default_value {T}.
Arguments localized_tagged {T}.

Definition sort_tagged {T} (tagged : list (string * T)) : list (string * T) :=
  merge_sort (λ a b, String.le a.1 b.1) tagged.

Definition Localized_new {T} (non_localized : T) (localized : list (string * T)) : Localized T :=
  {| localized_default_value := Some non_localized; localized_tagged := sort_tagged localized |}.

Definition Localized_from_parts {T} (default_value : option T) (tagged : list (string * T))
    : Localized T :=
  {| localized_default_value := default_value; localized_tagged := sort_tagged tagged |}.

Definition Localized_sort {T} (self : Localized T) : Localized T :=
  Localized_from_parts (localized_default_value self) (localized_tagged self).

Definition Localized_len {T} (self : Localized T) : nat :=
  (length (localized_tagged self) + match localized_default_value self with Some _ => 1 | None => 0 end)%nat.

(** [non_localized] and [to_non_localized] panic without a default value. *)
Definition Localized_non_localized {T} (self : Localized T) : option T := localized_default_value self.

Definition Localized_get {T} (self : Localized T) (language : option string) : option T :=
  match language with
  | Some tag => (λ '(_, (_, val)), val) <$> list_find (λ tv, tv.1 = tag) (localized_tagged self)
  | None => localized_default_value self
  end.

Definition Localized_iter {T} (self : Localized T) : list (option string * T) :=
  match localized_default_value self with Some val => [(None, val)] | None => [] end ++
  ((λ '(tag, val), (Some tag, val)) <$> localized_tagged self).

(** ** Client metadata (metadata.rs) *)

Record ClientMetadata := {
  cm_redirect_uris : option (list Url);
  cm_response_types : option (list (gset ResponseTypeToken));
  cm_grant_types : option (list GrantType);
  cm_token_endpoint_auth_method : option OAuthClientAuthenticationMethod;
  cm_token_endpoint_auth_signing_alg : option JsonWebSignatureAlg;
  cm_client_name : option (Localized string);
  cm_logo_uri : option (Localized Url);
  cm_client_uri : option (Localized Url);
  cm_policy_uri : option (Localized Url);
  cm_tos_uri : option (Localized Url);
  cm_contacts : option (list string);
  cm_jwks_uri : option Url;
  cm_jwks : option PublicJsonWebKeySet;
  cm_software_id : option string;
  cm_software_version : option string;
  cm_application_type : option ApplicationType;
  cm_sector_identifier_uri : option Url;
  cm_subject_type : option SubjectType;
  cm_id_token_signed_response_alg : option JsonWebSignatureAlg;
  cm_id_token_encrypted_response_alg : option JsonWebEncryptionAlg;
  cm_id_token_encrypted_response_enc : option JsonWebEncryptionEnc;
  cm_userinfo_signed_response_alg : option JsonWebSignatureAlg;
  cm_userinfo_encrypted_response_alg : option JsonWebEncryptionAlg;
  cm_userinfo_encrypted_response_enc : option JsonWebEncryptionEnc;
  cm_request_object_signing_alg : option JsonWebSignatureAlg;
  cm_request_object_encryption_alg : option JsonWebEncryptionAlg;
  cm_request_object_encryption_enc : option JsonWebEncryptionEnc;
  cm_default_max_age : option Duration;
  cm_require_auth_time : option bool;
  cm_default_acr_values : option (list string);
  cm_initiate_login_uri : option Url;
  cm_request_uris : option (list Url);
  cm_require_signed_request_object : option bool;
  cm_require_pushed_authorization_requests : option bool;
  cm_introspection_signed_response_alg : option JsonWebSignatureAlg;
  cm_introspection_encrypted_response_alg : option JsonWebEncryptionAlg;
  cm_introspection_encrypted_response_enc : option JsonWebEncryptionEnc;
  cm_post_logout_redirect_uris : option (list Url);
}.

Definition ClientMetadata_default : ClientMetadata :=
  {| cm_redirect_uris := None; cm_response_types := None; cm_grant_types := None;
     cm_token_endpoint_auth_method := None; cm_token_endpoint_auth_signing_alg := None;
     cm_client_name := None; cm_logo_uri := None; cm_client_uri := None; cm_policy_uri := None;
     cm_tos_uri := None; cm_contacts := None; cm_jwks_uri := None; cm_jwks := None;
     cm_software_id := None; cm_software_version := None; cm_application_type := None;
     cm_sector_identifier_uri := None; cm_subject_type := None;
     cm_id_token_signed_response_alg := None; cm_id_token_encrypted_response_alg := None;
     cm_id_token_encrypted_response_enc := None; cm_userinfo_signed_response_alg := None;
     cm_userinfo_encrypted_response_alg := None; cm_userinfo_encrypted_response_enc := None;
     cm_request_object_signing_alg := None; cm_request_object_encryption_alg := None;
     cm_request_object_encryption_enc := None; cm_default_max_age := None;
     cm_require_auth_time := None; cm_default_acr_values := None; cm_initiate_login_uri := None;
     cm_request_uris := None; cm_require_signed_request_object := None;
     cm_require_pushed_authorization_requests := None;
     cm_introspection_signed_response_alg := None;
     cm_introspection_encrypted_response_alg := None;
     cm_introspection_encrypted_response_enc := None; cm_post_logout_redirect_uris := None |}.

(** ** The parts of URLs and of JSON that are read *)

(** More of the [url] crate. *)
Class UrlPartsExternals := {
  url_scheme : string → string;
  url_query : string → option string;
  url_fragment : string → option string;
  url_username : string → string;
  url_password : string → option string;
  (** [port()]: absent when it is the default one of the scheme *)
  url_port : string → option Z;
  (** [matches!(url.host(), Some(Host::Ipv6(ip)) if ip.is_loopback())] *)
  url_is_ipv6_loopback : string → bool;
}.

(** Libraries the JSON form is read and written with. *)
Class MetadataExternals := {
  (** [LanguageTag::parse], with the text of the tag *)
  language_tag_parse : string → option string;
  (** [serde_json::to_value] of a key set *)
  jwks_to_value : PublicJsonWebKeySet → Json;
  (** [DurationSeconds<i64>] *)
  duration_to_value : Duration → Json;
  duration_from_value : Json → option Duration;
  (** the text of an object with these entries *)
  object_to_string : list (string * Json) → string;
}.

(** [Serialize] and [Deserialize] of the type of a field. *)
Record Codec (A : Type) := { codec_to : A → Json; codec_from : Json → option A }.
Arguments codec_to {A}.
Arguments codec_from {A}.

Section metadata.
Context {UX : UrlExternals} {VX : UrlPartsExternals} {DX : DbExternals} {KX : MetadataExternals}.

(** [SerializeDisplay] and [DeserializeFromStr] *)
Definition text_codec {A} (to : A → string) (from : string → option A) : Codec A :=
  {| codec_to a := Json_String (to a);
     codec_from v := match v with Json_String s => from s | _ => None end |}.
Definition string_codec : Codec string := text_codec id Some.
Definition url_codec : Codec Url := text_codec id url_parse.
Definition bool_codec : Codec bool :=
  {| codec_to := Json_Bool; codec_from v := match v with Json_Bool b => Some b | _ => None end |}.
Definition jwks_codec : Codec PublicJsonWebKeySet :=
  {| codec_to := jwks_to_value; codec_from := jwks_from_value |}.
Definition duration_codec : Codec Duration :=
  {| codec_to := duration_to_value; codec_from := duration_from_value |}.
Definition list_codec {A} (c : Codec A) : Codec (list A) :=
  {| codec_to l := Json_Array (codec_to c <$> l);
     codec_from v := match v with Json_Array l => mapM (codec_from c) l | _ => None end |}.
Definition response_type_codec : Codec (gset ResponseTypeToken) :=
  text_codec ResponseType_to_string (λ s, result_ok (ResponseType_from_str s)).
Definition grant_type_codec : Codec GrantType :=
  text_codec GrantType_to_string (λ s, Some (GrantType_from_str s)).
Definition auth_method_codec : Codec OAuthClientAuthenticationMethod :=
  text_codec auth_method_to_string (λ s, Some (auth_method_from_str s)).
Definition signature_alg_codec : Codec JsonWebSignatureAlg :=
  text_codec JsonWebSignatureAlg_to_string (λ s, Some (JsonWebSignatureAlg_from_str s)).
Definition encryption_alg_codec : Codec JsonWebEncryptionAlg :=
  text_codec JsonWebEncryptionAlg_to_string (λ s, Some (JsonWebEncryptionAlg_from_str s)).
Definition encryption_enc_codec : Codec JsonWebEncryptionEnc :=
  text_codec JsonWebEncryptionEnc_to_string (λ s, Some (JsonWebEncryptionEnc_from_str s)).
Definition application_type_codec : Codec ApplicationType :=
  text_codec ApplicationType_to_string (λ s, Some (application_type_from_str s)).
Definition subject_type_codec : Codec SubjectType :=
  text_codec SubjectType_to_string (λ s, Some (SubjectType_from_str s)).

(** ** The JSON form (client_metadata_serde.rs) *)

(** [FlatFields]: the name and the value of each field that is not localised, in the order in which
    they are written. *)
Definition flat_fields (md : ClientMetadata) : list (string * option Json) :=
  [("redirect_uris", codec_to (list_codec url_codec) <$> cm_redirect_uris md);
   ("response_types", codec_to (list_codec response_type_codec) <$> cm_response_types md);
   ("grant_types", codec_to (list_codec grant_type_codec) <$> cm_grant_types md);
   ("token_endpoint_auth_method", codec_to auth_method_codec <$> cm_token_endpoint_auth_method md);
   ("token_endpoint_auth_signing_alg", codec_to signature_alg_codec <$> cm_token_endpoint_auth_signing_alg md);
   ("contacts", codec_to (list_codec string_codec) <$> cm_contacts md);
   ("jwks_uri", codec_to url_codec <$> cm_jwks_uri md);
   ("jwks", codec_to jwks_codec <$> cm_jwks md);
   ("software_id", codec_to string_codec <$> cm_software_id md);
   ("software_version", codec_to string_codec <$> cm_software_version md);
   ("application_type", codec_to application_type_codec <$> cm_application_type md);
   ("sector_identifier_uri", codec_to url_codec <$> cm_sector_identifier_uri md);
   ("subject_type", codec_to subject_type_codec <$> cm_subject_type md);
   ("id_token_signed_response_alg", codec_to signature_alg_codec <$> cm_id_token_signed_response_alg md);
   ("id_token_encrypted_response_alg", codec_to encryption_alg_codec <$> cm_id_token_encrypted_response_alg md);
   ("id_token_encrypted_response_enc", codec_to encryption_enc_codec <$> cm_id_token_encrypted_response_enc md);
   ("userinfo_signed_response_alg", codec_to signature_alg_codec <$> cm_userinfo_signed_response_alg md);
   ("userinfo_encrypted_response_alg", codec_to encryption_alg_codec <$> cm_userinfo_encrypted_response_alg md);
   ("userinfo_encrypted_response_enc", codec_to encryption_enc_codec <$> cm_userinfo_encrypted_response_enc md);
   ("request_object_signing_alg", codec_to signature_alg_codec <$> cm_request_object_signing_alg md);
   ("request_object_encryption_alg", codec_to encryption_alg_codec <$> cm_request_object_encryption_alg md);
   ("request_object_encryption_enc", codec_to encryption_enc_codec <$> cm_request_object_encryption_enc md);
   ("default_max_age", codec_to duration_codec <$> cm_default_max_age md);
   ("require_auth_time", codec_to bool_codec <$> cm_require_auth_time md);
   ("default_acr_values", codec_to (list_codec string_codec) <$> cm_default_acr_values md);
   ("initiate_login_uri", codec_to url_codec <$> cm_initiate_login_uri md);
   ("request_uris", codec_to (list_codec url_codec) <$> cm_request_uris md);
   ("require_signed_request_object", codec_to bool_codec <$> cm_require_signed_request_object md);
   ("require_pushed_authorization_requests", codec_to bool_codec <$> cm_require_pushed_authorization_requests md);
   ("introspection_signed_response_alg", codec_to signature_alg_codec <$> cm_introspection_signed_response_alg md);
   ("introspection_encrypted_response_alg", codec_to encryption_alg_codec <$> cm_introspection_encrypted_response_alg md);
   ("introspection_encrypted_response_enc", codec_to encryption_enc_codec <$> cm_introspection_encrypted_response_enc md);
   ("post_logout_redirect_uris", codec_to (list_codec url_codec) <$> cm_post_logout_redirect_uris md)].

(** [#[skip_serializing_none]] *)
Definition present (fields : list (string * option Json)) : list (string * Json) :=
  omap (λ '(key, value), (key,.) <$> value) fields.

(** [serialize_localized_field] *)
Definition localized_entries {T} (c : Codec T) (field_name : string) (localized : option (Localized T))
    : list (string * Json) :=
  match localized with
  | None => []
  | Some localized =>
      match localized_default_value localized with
      | Some default_val => [(field_name, codec_to c default_val)]
      | None => []
      end ++
      ((λ '(tag, value), (field_name +:+ "#" +:+ tag, codec_to c value)) <$> localized_tagged localized)
  end.

Definition emit_localized_fields (md : ClientMetadata) : list (string * Json) :=
  localized_entries string_codec "client_name" (cm_client_name md) ++
  localized_entries url_codec "logo_uri" (cm_logo_uri md) ++
  localized_entries url_codec "client_uri" (cm_client_uri md) ++
  localized_entries url_codec "policy_uri" (cm_policy_uri md) ++
  localized_entries url_codec "tos_uri" (cm_tos_uri md).

(** The localised fields come after [contacts], or at the end. *)
Fixpoint inject_localized (flat localized : list (string * Json)) : list (string * Json) :=
  match flat with
  | [] => localized
  | (key, value) :: flat =>
      (key, value) ::
        if bool_decide (key = "contacts") then localized ++ flat else inject_localized flat localized
  end.

Definition metadata_entries (md : ClientMetadata) : list (string * Json) :=
  inject_localized (present (flat_fields md)) (emit_localized_fields md).

Definition metadata_to_string (md : ClientMetadata) : string := object_to_string (metadata_entries md).

Definition LOCALIZED_FIELD_NAMES : list string :=
  ["client_name"; "logo_uri"; "client_uri"; "policy_uri"; "tos_uri"].

(** [s.split_once(c)] *)
Fixpoint split_once (c : ascii) (s : string) : option (string * string) :=
  match s with
  | EmptyString => None
  | String a s =>
      if bool_decide (a = c) then Some (EmptyString, s)
      else (λ '(before, after), (String a before, after)) <$> split_once c s
  end.

Definition localized_base (key : string) : string :=
  match split_once "#"%char key with Some (base, _) => base | None => key end.
Definition is_localized_key (key : string) : bool :=
  bool_decide (localized_base key ∈ LOCALIZED_FIELD_NAMES).

(** A localised entry, by the name of its field: the tag and the value. *)
Abbreviation Grouped := (list (string * (option string * Json))) (only parsing).

(** [visit_map]: the entries, split into those of flat fields and those of localised ones. A tag that
    is not one is refused. *)
Fixpoint split_entries (entries : list (string * Json))
    : option (list (string * Json) * Grouped) :=
  match entries with
  | [] => Some ([], [])
  | (key, value) :: entries =>
      if is_localized_key key then
        tag ← match split_once "#"%char key with
              | Some (_, lang_str) => Some <$> language_tag_parse lang_str
              | None => Some None
              end;
        '(flat, grouped) ← split_entries entries;
        Some (flat, (localized_base key, (tag, value)) :: grouped)
      else
        '(flat, grouped) ← split_entries entries;
        Some ((key, value) :: flat, grouped)
  end.

(** The entries of a group, in order. *)
Definition group_of (grouped : Grouped) (field_name : string) : list (option string * Json) :=
  omap (λ '(name, entry), if bool_decide (name = field_name) then Some entry else None) grouped.

Fixpoint parse_group {T} (c : Codec T) (entries : list (option string * Json))
    : option (option T * list (string * T)) :=
  match entries with
  | [] => Some (None, [])
  | (maybe_tag, raw_value) :: entries =>
      parsed ← codec_from c raw_value;
      '(default_value, tagged) ← parse_group c entries;
      Some match maybe_tag with
           | None => (match default_value with Some d => Some d | None => Some parsed end, tagged)
           | Some tag => (default_value, (tag, parsed) :: tagged)
           end
  end.

(** [parse_localized_field]: absent, or refused without a default value. *)
Definition parse_localized_field {T} (c : Codec T) (grouped : Grouped) (field_name : string)
    : option (option (Localized T)) :=
  match group_of grouped field_name with
  | [] => Some None
  | entries =>
      '(default_value, tagged) ← parse_group c entries;
      match default_value with
      | Some _ => Some (Some (Localized_from_parts default_value tagged))
      | None => None
      end
  end.

(** The value of a key of a JSON object. *)
Definition json_get (key : string) (entries : list (string * Json)) : option Json :=
  (λ '(_, (_, v)), v) <$> list_find (λ kv, kv.1 = key) entries.

(** An optional field: absent or null, or decoded. *)
Definition flat_field {A} (c : Codec A) (entries : list (string * Json)) (key : string)
    : option (option A) :=
  match json_get key entries with
  | None | Some Json_Null => Some None
  | Some v => Some <$> codec_from c v
  end.

Definition metadata_from_entries (entries : list (string * Json)) : option ClientMetadata :=
  '(flat, grouped) ← split_entries entries;
  redirect_uris ← flat_field (list_codec url_codec) flat "redirect_uris";
  response_types ← flat_field (list_codec response_type_codec) flat "response_types";
  grant_types ← flat_field (list_codec grant_type_codec) flat "grant_types";
  token_endpoint_auth_method ← flat_field auth_method_codec flat "token_endpoint_auth_method";
  token_endpoint_auth_signing_alg ← flat_field signature_alg_codec flat "token_endpoint_auth_signing_alg";
  contacts ← flat_field (list_codec string_codec) flat "contacts";
  jwks_uri ← flat_field url_codec flat "jwks_uri";
  jwks ← flat_field jwks_codec flat "jwks";
  software_id ← flat_field string_codec flat "software_id";
  software_version ← flat_field string_codec flat "software_version";
  application_type ← flat_field application_type_codec flat "application_type";
  sector_identifier_uri ← flat_field url_codec flat "sector_identifier_uri";
  subject_type ← flat_field subject_type_codec flat "subject_type";
  id_token_signed_response_alg ← flat_field signature_alg_codec flat "id_token_signed_response_alg";
  id_token_encrypted_response_alg ← flat_field encryption_alg_codec flat "id_token_encrypted_response_alg";
  id_token_encrypted_response_enc ← flat_field encryption_enc_codec flat "id_token_encrypted_response_enc";
  userinfo_signed_response_alg ← flat_field signature_alg_codec flat "userinfo_signed_response_alg";
  userinfo_encrypted_response_alg ← flat_field encryption_alg_codec flat "userinfo_encrypted_response_alg";
  userinfo_encrypted_response_enc ← flat_field encryption_enc_codec flat "userinfo_encrypted_response_enc";
  request_object_signing_alg ← flat_field signature_alg_codec flat "request_object_signing_alg";
  request_object_encryption_alg ← flat_field encryption_alg_codec flat "request_object_encryption_alg";
  request_object_encryption_enc ← flat_field encryption_enc_codec flat "request_object_encryption_enc";
  default_max_age ← flat_field duration_codec flat "default_max_age";
  require_auth_time ← flat_field bool_codec flat "require_auth_time";
  default_acr_values ← flat_field (list_codec string_codec) flat "default_acr_values";
  initiate_login_uri ← flat_field url_codec flat "initiate_login_uri";
  request_uris ← flat_field (list_codec url_codec) flat "request_uris";
  require_signed_request_object ← flat_field bool_codec flat "require_signed_request_object";
  require_pushed_authorization_requests ← flat_field bool_codec flat "require_pushed_authorization_requests";
  introspection_signed_response_alg ← flat_field signature_alg_codec flat "introspection_signed_response_alg";
  introspection_encrypted_response_alg ← flat_field encryption_alg_codec flat "introspection_encrypted_response_alg";
  introspection_encrypted_response_enc ← flat_field encryption_enc_codec flat "introspection_encrypted_response_enc";
  post_logout_redirect_uris ← flat_field (list_codec url_codec) flat "post_logout_redirect_uris";
  client_name ← parse_localized_field string_codec grouped "client_name";
  logo_uri ← parse_localized_field url_codec grouped "logo_uri";
  client_uri ← parse_localized_field url_codec grouped "client_uri";
  policy_uri ← parse_localized_field url_codec grouped "policy_uri";
  tos_uri ← parse_localized_field url_codec grouped "tos_uri";
  Some
    {| cm_redirect_uris := redirect_uris; cm_response_types := response_types;
       cm_grant_types := grant_types; cm_token_endpoint_auth_method := token_endpoint_auth_method;
       cm_token_endpoint_auth_signing_alg := token_endpoint_auth_signing_alg;
       cm_client_name := client_name; cm_logo_uri := logo_uri; cm_client_uri := client_uri;
       cm_policy_uri := policy_uri; cm_tos_uri := tos_uri; cm_contacts := contacts;
       cm_jwks_uri := jwks_uri; cm_jwks := jwks; cm_software_id := software_id;
       cm_software_version := software_version; cm_application_type := application_type;
       cm_sector_identifier_uri := sector_identifier_uri; cm_subject_type := subject_type;
       cm_id_token_signed_response_alg := id_token_signed_response_alg;
       cm_id_token_encrypted_response_alg := id_token_encrypted_response_alg;
       cm_id_token_encrypted_response_enc := id_token_encrypted_response_enc;
       cm_userinfo_signed_response_alg := userinfo_signed_response_alg;
       cm_userinfo_encrypted_response_alg := userinfo_encrypted_response_alg;
       cm_userinfo_encrypted_response_enc := userinfo_encrypted_response_enc;
       cm_request_object_signing_alg := request_object_signing_alg;
       cm_request_object_encryption_alg := request_object_encryption_alg;
       cm_request_object_encryption_enc := request_object_encryption_enc;
       cm_default_max_age := default_max_age; cm_require_auth_time := require_auth_time;
       cm_default_acr_values := default_acr_values; cm_initiate_login_uri := initiate_login_uri;
       cm_request_uris := request_uris;
       cm_require_signed_request_object := require_signed_request_object;
       cm_require_pushed_authorization_requests := require_pushed_authorization_requests;
       cm_introspection_signed_response_alg := introspection_signed_response_alg;
       cm_introspection_encrypted_response_alg := introspection_encrypted_response_alg;
       cm_introspection_encrypted_response_enc := introspection_encrypted_response_enc;
       cm_post_logout_redirect_uris := post_logout_redirect_uris |}.

(** [serde_json::from_value]: anything but an object is refused. *)
Definition metadata_from_value (v : Json) : option ClientMetadata :=
  match v with Json_Object entries => metadata_from_entries entries | _ => None end.
End metadata.

(** ** Defaults and accessors (mod.rs, metadata.rs) *)

Definition DEFAULT_RESPONSE_TYPES : list OAuthAuthorizationEndpointResponseType := [Iana_Code].
Definition DEFAULT_GRANT_TYPES : list GrantType := [GrantType_AuthorizationCode].
Definition DEFAULT_APPLICATION_TYPE : ApplicationType := Application_Web.
Definition DEFAULT_TOKEN_AUTH_METHOD : OAuthClientAuthenticationMethod := Auth_ClientSecretBasic.
Definition DEFAULT_SIGNING_ALGORITHM : JsonWebSignatureAlg := Rs256.
Definition DEFAULT_ENCRYPTION_ENC_ALGORITHM : JsonWebEncryptionEnc := A128CbcHs256.

Definition ClientMetadata_response_types (self : ClientMetadata) : list (gset ResponseTypeToken) :=
  default (ResponseType_from <$> DEFAULT_RESPONSE_TYPES) (cm_response_types self).
Definition ClientMetadata_grant_types (self : ClientMetadata) : list GrantType :=
  default DEFAULT_GRANT_TYPES (cm_grant_types self).
Definition ClientMetadata_application_type (self : ClientMetadata) : ApplicationType :=
  default DEFAULT_APPLICATION_TYPE (cm_application_type self).
Definition ClientMetadata_token_endpoint_auth_method (self : ClientMetadata)
    : OAuthClientAuthenticationMethod :=
  default DEFAULT_TOKEN_AUTH_METHOD (cm_token_endpoint_auth_method self).
Definition ClientMetadata_id_token_signed_response_alg (self : ClientMetadata) : JsonWebSignatureAlg :=
  default DEFAULT_SIGNING_ALGORITHM (cm_id_token_signed_response_alg self).

(** An encryption algorithm with its content encryption. *)
Definition encryption_pair (alg : option JsonWebEncryptionAlg) (enc : option JsonWebEncryptionEnc)
    : option (JsonWebEncryptionAlg * JsonWebEncryptionEnc) :=
  (λ alg, (alg, default DEFAULT_ENCRYPTION_ENC_ALGORITHM enc)) <$> alg.
Definition ClientMetadata_id_token_encrypted_response (self : ClientMetadata) :=
  encryption_pair (cm_id_token_encrypted_response_alg self) (cm_id_token_encrypted_response_enc self).
Definition ClientMetadata_userinfo_encrypted_response (self : ClientMetadata) :=
  encryption_pair (cm_userinfo_encrypted_response_alg self) (cm_userinfo_encrypted_response_enc self).
Definition ClientMetadata_request_object_encryption (self : ClientMetadata) :=
  encryption_pair (cm_request_object_encryption_alg self) (cm_request_object_encryption_enc self).
Definition ClientMetadata_introspection_encrypted_response (self : ClientMetadata) :=
  encryption_pair (cm_introspection_encrypted_response_alg self)
    (cm_introspection_encrypted_response_enc self).
Definition ClientMetadata_require_auth_time (self : ClientMetadata) : bool :=
  default false (cm_require_auth_time self).
Definition ClientMetadata_require_signed_request_object (self : ClientMetadata) : bool :=
  default false (cm_require_signed_request_object self).
Definition ClientMetadata_require_pushed_authorization_requests (self : ClientMetadata) : bool :=
  default false (cm_require_pushed_authorization_requests self).

(** ** The checks of a registration (metadata.rs, validation.rs) *)

Inductive ClientMetadataVerificationError :=
| MissingRedirectUris
| RedirectUriWithFragment (uri : Url)
| IncoherentResponseType (response_type : gset ResponseTypeToken)
| JwksUriAndJwksMutuallyExclusive
| ClientUrlNonHttpsScheme (field : string) (url : Url)
| MissingJwksForTokenMethod
| UnauthorizedSigningAlgNone (endpoint : string)
| MissingAuthSigningAlg (endpoint : string)
| IdTokenSigningAlgNone
| MissingEncryptionAlg (what : string)
| MultipleErrors (errors : list ClientMetadataVerificationError).

(** [VerifiedClientMetadata] *)
Record VerifiedClientMetadata := { verified_inner : ClientMetadata }.

Definition Verified_redirect_uris (self : VerifiedClientMetadata) : list Url :=
  default [] (cm_redirect_uris (verified_inner self)).

Section validation.
Context {VX : UrlPartsExternals}.

(** [if cond { collected_errors.push(error) }] *)
Definition push_if (cond : bool) (error : ClientMetadataVerificationError)
    : list ClientMetadataVerificationError :=
  if cond then [error] else [].

Definition has_implicit (self : ClientMetadata) : bool :=
  bool_decide (GrantType_Implicit ∈ ClientMetadata_grant_types self).
Definition has_authorization_code (self : ClientMetadata) : bool :=
  bool_decide (GrantType_AuthorizationCode ∈ ClientMetadata_grant_types self).

Definition redirect_uri_errors (self : ClientMetadata) : list ClientMetadataVerificationError :=
  match cm_redirect_uris self with
  | Some uris =>
      RedirectUriWithFragment <$> filter (λ uri, is_Some (url_fragment uri)) uris
  | None => push_if (has_authorization_code self || has_implicit self) MissingRedirectUris
  end.

(** The response types as they are checked: the default only where a flow uses it. *)
Definition checked_response_types (self : ClientMetadata) : list (gset ResponseTypeToken) :=
  match cm_response_types self with
  | Some types => types
  | None => if has_authorization_code self || has_implicit self
            then [ResponseType_from Iana_Code] else []
  end.

Definition response_type_ok (implicit authorization_code : bool) (rt : gset ResponseTypeToken) : bool :=
  let has_code := ResponseType_has_code rt in
  let has_id_token := ResponseType_has_id_token rt in
  let has_token := ResponseType_has_token rt in
  (has_code && (implicit && authorization_code))
  || (negb has_code && implicit)
  || (authorization_code && negb has_id_token && negb has_token)
  || (negb has_code && negb has_id_token && negb has_token).

Definition response_type_errors (self : ClientMetadata) : list ClientMetadataVerificationError :=
  IncoherentResponseType <$>
    filter (λ rt, response_type_ok (has_implicit self) (has_authorization_code self) rt = false)
      (checked_response_types self).

Definition non_https (field : string) (url : option Url) : list ClientMetadataVerificationError :=
  match url with
  | Some url => push_if (negb (bool_decide (url_scheme url = "https"))) (ClientUrlNonHttpsScheme field url)
  | None => []
  end.

Definition token_method_errors (self : ClientMetadata) : list ClientMetadataVerificationError :=
  push_if (bool_decide (ClientMetadata_token_endpoint_auth_method self = Auth_PrivateKeyJwt)
           && bool_decide (cm_jwks_uri self = None) && negb (bool_decide (is_Some (cm_jwks self))))
    MissingJwksForTokenMethod ++
  match cm_token_endpoint_auth_signing_alg self with
  | Some alg => push_if (bool_decide (alg = Alg_None)) (UnauthorizedSigningAlgNone "token_endpoint")
  | None =>
      push_if (bool_decide (ClientMetadata_token_endpoint_auth_method self
                 ∈ [Auth_PrivateKeyJwt; Auth_ClientSecretJwt]))
        (MissingAuthSigningAlg "token_endpoint")
  end.

(** A content encryption without an algorithm. *)
Definition lone_enc (what : string) (alg : option JsonWebEncryptionAlg)
    (enc : option JsonWebEncryptionEnc) : list ClientMetadataVerificationError :=
  push_if (bool_decide (is_Some enc) && bool_decide (alg = None)) (MissingEncryptionAlg what).

Definition collected_errors (self : ClientMetadata) : list ClientMetadataVerificationError :=
  redirect_uri_errors self ++
  response_type_errors self ++
  push_if (bool_decide (is_Some (cm_jwks_uri self)) && bool_decide (is_Some (cm_jwks self)))
    JwksUriAndJwksMutuallyExclusive ++
  non_https "sector_identifier_uri" (cm_sector_identifier_uri self) ++
  token_method_errors self ++
  push_if (bool_decide (ClientMetadata_id_token_signed_response_alg self = Alg_None)
           && existsb ResponseType_has_id_token (checked_response_types self))
    IdTokenSigningAlgNone ++
  lone_enc "id_token" (cm_id_token_encrypted_response_alg self)
    (cm_id_token_encrypted_response_enc self) ++
  lone_enc "userinfo" (cm_userinfo_encrypted_response_alg self)
    (cm_userinfo_encrypted_response_enc self) ++
  lone_enc "request_object" (cm_request_object_encryption_alg self)
    (cm_request_object_encryption_enc self) ++
  non_https "initiate_login_uri" (cm_initiate_login_uri self) ++
  lone_enc "introspection" (cm_introspection_encrypted_response_alg self)
    (cm_introspection_encrypted_response_enc self).

Definition ClientMetadata_validate (self : ClientMetadata)
    : result VerifiedClientMetadata ClientMetadataVerificationError :=
  match collected_errors self with
  | [] => Ok {| verified_inner := self |}
  | [first] => Err first
  | errors => Err (MultipleErrors errors)
  end.
End validation.

(** [sorted]: the lists in order, so that equal metadata have one text. *)
Definition ClientMetadata_sorted (self : ClientMetadata) : ClientMetadata :=
  {| cm_redirect_uris := merge_sort String.le <$> cm_redirect_uris self;
     cm_response_types := merge_sort response_type_le <$> cm_response_types self;
     cm_grant_types := merge_sort grant_type_le <$> cm_grant_types self;
     cm_token_endpoint_auth_method := cm_token_endpoint_auth_method self;
     cm_token_endpoint_auth_signing_alg := cm_token_endpoint_auth_signing_alg self;
     cm_client_name := Localized_sort <$> cm_client_name self;
     cm_logo_uri := Localized_sort <$> cm_logo_uri self;
     cm_client_uri := Localized_sort <$> cm_client_uri self;
     cm_policy_uri := Localized_sort <$> cm_policy_uri self;
     cm_tos_uri := Localized_sort <$> cm_tos_uri self;
     cm_contacts := merge_sort String.le <$> cm_contacts self;
     cm_jwks_uri := cm_jwks_uri self;
     cm_jwks := cm_jwks self;
     cm_software_id := cm_software_id self;
     cm_software_version := cm_software_version self;
     cm_application_type := cm_application_type self;
     cm_sector_identifier_uri := cm_sector_identifier_uri self;
     cm_subject_type := cm_subject_type self;
     cm_id_token_signed_response_alg := cm_id_token_signed_response_alg self;
     cm_id_token_encrypted_response_alg := cm_id_token_encrypted_response_alg self;
     cm_id_token_encrypted_response_enc := cm_id_token_encrypted_response_enc self;
     cm_userinfo_signed_response_alg := cm_userinfo_signed_response_alg self;
     cm_userinfo_encrypted_response_alg := cm_userinfo_encrypted_response_alg self;
     cm_userinfo_encrypted_response_enc := cm_userinfo_encrypted_response_enc self;
     cm_request_object_signing_alg := cm_request_object_signing_alg self;
     cm_request_object_encryption_alg := cm_request_object_encryption_alg self;
     cm_request_object_encryption_enc := cm_request_object_encryption_enc self;
     cm_default_max_age := cm_default_max_age self;
     cm_require_auth_time := cm_require_auth_time self;
     cm_default_acr_values := merge_sort String.le <$> cm_default_acr_values self;
     cm_initiate_login_uri := cm_initiate_login_uri self;
     cm_request_uris := merge_sort String.le <$> cm_request_uris self;
     cm_require_signed_request_object := cm_require_signed_request_object self;
     cm_require_pushed_authorization_requests := cm_require_pushed_authorization_requests self;
     cm_introspection_signed_response_alg := cm_introspection_signed_response_alg self;
     cm_introspection_encrypted_response_alg := cm_introspection_encrypted_response_alg self;
     cm_introspection_encrypted_response_enc := cm_introspection_encrypted_response_enc self;
     cm_post_logout_redirect_uris := merge_sort String.le <$> cm_post_logout_redirect_uris self |}.

(** * Laws: the JSON form is read back, sorting makes it canonical, and what
    the checks of a registration accept *)

(** ** Lists with keys *)

Lemma json_get_app key a b : json_get key a = None → json_get key (a ++ b) = json_get key b.
Proof.
  unfold json_get. intros Ha. destruct (list_find _ a) as [[? []]|] eqn:E; [done|].
  rewrite list_find_app_r by done. by destruct (list_find _ b) as [[? []]|].
Qed.
Lemma json_get_None key a : key ∉ a.*1 → json_get key a = None.
Proof.
  intros Hn. unfold json_get. destruct (list_find _ a) as [[i [k v]]|] eqn:E; [|done].
  apply list_find_Some in E as (Hi & Hk & _). simpl in Hk. subst. destruct Hn.
  apply list_elem_of_fmap. exists (key, v). split; [done|]. by eapply list_elem_of_lookup_2.
Qed.

Lemma present_keys fields key : key ∉ fields.*1 → key ∉ (present fields).*1.
Proof.
  induction fields as [|[k [v|]] fields IH]; simpl; [done|..]; rewrite ?not_elem_of_cons; naive_solver.
Qed.
Lemma json_get_present fields key v :
  NoDup fields.*1 → (key, v) ∈ fields → json_get key (present fields) = v.
Proof.
  induction fields as [|[k w] fields IH]; simpl; [by intros _ ?%elem_of_nil|].
  rewrite NoDup_cons. intros [Hk Hn] [[= -> ->]|Hin]%elem_of_cons.
  - destruct w as [w|]; simpl.
    + unfold json_get. simpl. rewrite decide_True by done. done.
    + by apply json_get_None, present_keys.
  - assert (key ≠ k) by (intros ->; apply Hk, list_elem_of_fmap; by exists (k, v)).
    destruct w as [w|]; simpl; [|by apply IH].
    change ((k, w) :: present fields) with ([(k, w)] ++ present fields).
    rewrite json_get_app; [by apply IH|]. apply json_get_None. set_solver.
Qed.

Lemma bind_some {A B} (x : option A) a (f : A → option B) r : x = Some a → f a = r → x ≫= f = r.
Proof. by intros -> <-. Qed.

(** A key has one value. *)
Lemma keys_functional {A} (l : list (string * A)) k v w :
  NoDup l.*1 → (k, v) ∈ l → (k, w) ∈ l → v = w.
Proof.
  intros Hn [i Hi]%list_elem_of_lookup [j Hj]%list_elem_of_lookup.
  assert (i = j) as ->; [|congruence].
  apply (NoDup_lookup l.*1 i j k); [done|..]; rewrite list_lookup_fmap; [by rewrite Hi|by rewrite Hj].
Qed.

(** ** Splitting the entries *)

Section roundtrip.
Context {UX : UrlExternals} {VX : UrlPartsExternals} {DX : DbExternals} {KX : MetadataExternals}.

Lemma split_entries_app a b fa ga fb gb :
  split_entries a = Some (fa, ga) → split_entries b = Some (fb, gb) →
  split_entries (a ++ b) = Some (fa ++ fb, ga ++ gb).
Proof.
  revert fa ga. induction a as [|[k v] a IH]; intros fa ga; simpl; [by intros [= <- <-]|].
  destruct (is_localized_key k).
  - destruct (match split_once "#"%char k with Some _ => _ | None => _ end) as [tag|]; simpl; [|done].
    destruct (split_entries a) as [[f g]|]; simpl; [|done]. intros [= <- <-] Hb.
    by rewrite (IH _ _ eq_refl Hb).
  - destruct (split_entries a) as [[f g]|]; simpl; [|done]. intros [= <- <-] Hb.
    by rewrite (IH _ _ eq_refl Hb).
Qed.
Lemma split_entries_flat a :
  Forall (λ kv, is_localized_key kv.1 = false) a → split_entries a = Some (a, []).
Proof. induction 1 as [|[k v] a Hk _ IH]; simpl in *; [done|]. by rewrite Hk, IH. Qed.

(** The entries of a localised value, tagged. *)
Definition localized_pairs {T} (c : Codec T) (l : option (Localized T)) : list (option string * Json) :=
  match l with
  | None => []
  | Some l => (λ '(tag, v), (tag, codec_to c v)) <$> Localized_iter l
  end.

(** A value that is read back. *)
Definition codec_ok {A} (c : Codec A) (v : A) : Prop :=
  codec_from c (codec_to c v) = Some v ∧ codec_to c v ≠ Json_Null.
Definition field_ok {A} (c : Codec A) (v : option A) : Prop := ∀ a, v = Some a → codec_ok c a.

(** A default value, and tags in order, each once. *)
Record localized_ok {T} (c : Codec T) (l : option (Localized T)) : Prop := {
  lok_default v : l = Some v → ∃ d, localized_default_value v = Some d ∧ codec_ok c d;
  lok_tags v : l = Some v → Forall (λ tv, language_tag_parse tv.1 = Some tv.1 ∧ codec_ok c tv.2)
                              (localized_tagged v);
  lok_sorted v : l = Some v → StronglySorted (λ a b, String.le a.1 b.1) (localized_tagged v);
  lok_unique v : l = Some v → NoDup (localized_tagged v).*1;
}.

Lemma split_localized_tagged {T} (c : Codec T) name (tagged : list (string * T)) :
  name ∈ LOCALIZED_FIELD_NAMES →
  Forall (λ tv, language_tag_parse tv.1 = Some tv.1) tagged →
  split_entries ((λ '(tag, value), (name +:+ "#" +:+ tag, codec_to c value)) <$> tagged) =
  Some ([], (λ '(tag, value), (name, (Some tag, codec_to c value))) <$> tagged).
Proof.
  intros Hn. induction 1 as [|[tag v] tagged Ht _ IH]; [done|]. simpl in Ht. rewrite !fmap_cons.
  cbn [split_entries].
  assert (split_once "#"%char (name +:+ "#" +:+ tag) = Some (name, tag)) as Hs.
  { unfold LOCALIZED_FIELD_NAMES in Hn.
    repeat (apply elem_of_cons in Hn as [->|Hn]; [done|]). by apply elem_of_nil in Hn. }
  assert (is_localized_key (name +:+ "#" +:+ tag) = true) as ->.
  { unfold is_localized_key, localized_base. rewrite Hs. by apply bool_decide_eq_true. }
  unfold localized_base. rewrite Hs, Ht, IH. done.
Qed.

Lemma split_localized {T} (c : Codec T) name (l : option (Localized T)) :
  name ∈ LOCALIZED_FIELD_NAMES → localized_ok c l →
  split_entries (localized_entries c name l) = Some ([], (name,.) <$> localized_pairs c l).
Proof.
  intros Hn Hl. destruct l as [l|]; [|done].
  destruct (lok_default _ _ Hl l eq_refl) as (d & Hd & _). simpl. unfold Localized_iter. rewrite Hd.
  assert (split_entries [(name, codec_to c d)] = Some ([], [(name, (None, codec_to c d))])) as H1.
  { unfold LOCALIZED_FIELD_NAMES in Hn.
    repeat (apply elem_of_cons in Hn as [->|Hn]; [done|]). by apply elem_of_nil in Hn. }
  rewrite (split_entries_app _ _ _ _ _ _ H1 (split_localized_tagged c name _ Hn
    (Forall_impl _ _ _ (lok_tags _ _ Hl l eq_refl) (λ _ H, proj1 H)))).
  simpl. f_equal. f_equal. rewrite <-!list_fmap_compose. f_equal.
  apply list_fmap_ext. by intros ? [].
Qed.

(** ** Groups *)

Lemma group_of_app g1 g2 name : group_of (g1 ++ g2) name = group_of g1 name ++ group_of g2 name.
Proof. apply omap_app. Qed.
Lemma group_of_named name name' (l : list (option string * Json)) :
  group_of ((name',.) <$> l) name = if bool_decide (name' = name) then l else [].
Proof.
  induction l as [|e l IH]; [by case_bool_decide|]. rewrite fmap_cons.
  change (group_of ((name', e) :: ((name',.) <$> l)) name) with
    (match (if bool_decide (name' = name) then Some e else None) with
     | Some y => y :: group_of ((name',.) <$> l) name | None => group_of ((name',.) <$> l) name end).
  rewrite IH. by case_bool_decide.
Qed.

Lemma parse_group_tagged {T} (c : Codec T) (tagged : list (string * T)) :
  Forall (λ tv, codec_ok c tv.2) tagged →
  parse_group c ((λ '(tag, v), (tag, codec_to c v)) <$> ((λ '(tag, val), (Some tag, val)) <$> tagged)) =
  Some (None, tagged).
Proof.
  induction 1 as [|[t v] tagged [Hv _] _ IH]; [done|]. rewrite !fmap_cons.
  cbn [parse_group]. simpl in Hv. rewrite Hv, IH. done.
Qed.

Lemma sort_sorted {T} (l : list (string * T)) :
  StronglySorted (λ a b, String.le a.1 b.1) l → NoDup l.*1 → sort_tagged l = l.
Proof.
  intros Hs Hn. unfold sort_tagged.
  assert (Transitive (λ a b : string * T, String.le a.1 b.1)) by (intros a b c ??; by trans b.1).
  assert (Total (λ a b : string * T, String.le a.1 b.1)) by (intros a b; apply (total String.le)).
  apply (StronglySorted_unique_strong (λ a b : string * T, String.le a.1 b.1));
    [|by apply StronglySorted_merge_sort|done|by rewrite merge_sort_Permutation].
  intros [t1 v1] [t2 v2] H1 H2 L1 L2. simpl in *. assert (t1 = t2) as -> by by apply (anti_symm String.le).
  rewrite merge_sort_Permutation in H1. f_equal. by eapply keys_functional.
Qed.

Lemma parse_localized_ok {T} (c : Codec T) grouped name (l : option (Localized T)) :
  localized_ok c l → group_of grouped name = localized_pairs c l →
  parse_localized_field c grouped name = Some l.
Proof.
  intros Hl Hg. unfold parse_localized_field. rewrite Hg. destruct l as [[d tagged]|]; [|done].
  destruct (lok_default _ _ Hl _ eq_refl) as (v & Hd & Hv & _).
  pose proof (lok_tags _ _ Hl _ eq_refl) as Ht. pose proof (lok_sorted _ _ Hl _ eq_refl) as Hs.
  pose proof (lok_unique _ _ Hl _ eq_refl) as Hu. simpl in *. subst d. simpl. rewrite Hv. simpl.
  rewrite parse_group_tagged by (eapply Forall_impl; [exact Ht|by intros ? []]). simpl.
  unfold Localized_from_parts. by rewrite sort_sorted.
Qed.

Lemma flat_field_ok {A} (c : Codec A) entries key (v : option A) :
  json_get key entries = codec_to c <$> v → field_ok c v → flat_field c entries key = Some v.
Proof.
  intros Hg Hv. unfold flat_field. rewrite Hg. destruct v as [a|]; [|done].
  destruct (Hv a eq_refl) as [H1 H2]. simpl. destruct (codec_to c a); by rewrite ?H1.
Qed.

Lemma inject_parts flat loc : ∃ a b, flat = a ++ b ∧ inject_localized flat loc = a ++ loc ++ b.
Proof.
  induction flat as [|[k v] flat (a & b & -> & IH)]; [exists [], []; simpl; by rewrite app_nil_r|].
  simpl. case_bool_decide.
  - exists [(k, v)], (a ++ b). done.
  - exists ((k, v) :: a), b. split; [done|]. by rewrite IH.
Qed.

(** Metadata whose values are read back: URLs, tags and names in the form their parsers give. *)
Record metadata_wf (m : ClientMetadata) : Prop := {
  mw_redirect_uris : field_ok (list_codec url_codec) (cm_redirect_uris m);
  mw_response_types : field_ok (list_codec response_type_codec) (cm_response_types m);
  mw_grant_types : field_ok (list_codec grant_type_codec) (cm_grant_types m);
  mw_token_endpoint_auth_method : field_ok auth_method_codec (cm_token_endpoint_auth_method m);
  mw_token_endpoint_auth_signing_alg : field_ok signature_alg_codec (cm_token_endpoint_auth_signing_alg m);
  mw_contacts : field_ok (list_codec string_codec) (cm_contacts m);
  mw_jwks_uri : field_ok url_codec (cm_jwks_uri m);
  mw_jwks : field_ok jwks_codec (cm_jwks m);
  mw_software_id : field_ok string_codec (cm_software_id m);
  mw_software_version : field_ok string_codec (cm_software_version m);
  mw_application_type : field_ok application_type_codec (cm_application_type m);
  mw_sector_identifier_uri : field_ok url_codec (cm_sector_identifier_uri m);
  mw_subject_type : field_ok subject_type_codec (cm_subject_type m);
  mw_id_token_signed_response_alg : field_ok signature_alg_codec (cm_id_token_signed_response_alg m);
  mw_id_token_encrypted_response_alg : field_ok encryption_alg_codec (cm_id_token_encrypted_response_alg m);
  mw_id_token_encrypted_response_enc : field_ok encryption_enc_codec (cm_id_token_encrypted_response_enc m);
  mw_userinfo_signed_response_alg : field_ok signature_alg_codec (cm_userinfo_signed_response_alg m);
  mw_userinfo_encrypted_response_alg : field_ok encryption_alg_codec (cm_userinfo_encrypted_response_alg m);
  mw_userinfo_encrypted_response_enc : field_ok encryption_enc_codec (cm_userinfo_encrypted_response_enc m);
  mw_request_object_signing_alg : field_ok signature_alg_codec (cm_request_object_signing_alg m);
  mw_request_object_encryption_alg : field_ok encryption_alg_codec (cm_request_object_encryption_alg m);
  mw_request_object_encryption_enc : field_ok encryption_enc_codec (cm_request_object_encryption_enc m);
  mw_default_max_age : field_ok duration_codec (cm_default_max_age m);
  mw_require_auth_time : field_ok bool_codec (cm_require_auth_time m);
  mw_default_acr_values : field_ok (list_codec string_codec) (cm_default_acr_values m);
  mw_initiate_login_uri : field_ok url_codec (cm_initiate_login_uri m);
  mw_request_uris : field_ok (list_codec url_codec) (cm_request_uris m);
  mw_require_signed_request_object : field_ok bool_codec (cm_require_signed_request_object m);
  mw_require_pushed_authorization_requests : field_ok bool_codec (cm_require_pushed_authorization_requests m);
  mw_introspection_signed_response_alg : field_ok signature_alg_codec (cm_introspection_signed_response_alg m);
  mw_introspection_encrypted_response_alg : field_ok encryption_alg_codec (cm_introspection_encrypted_response_alg m);
  mw_introspection_encrypted_response_enc : field_ok encryption_enc_codec (cm_introspection_encrypted_response_enc m);
  mw_post_logout_redirect_uris : field_ok (list_codec url_codec) (cm_post_logout_redirect_uris m);
  mw_client_name : localized_ok string_codec (cm_client_name m);
  mw_logo_uri : localized_ok url_codec (cm_logo_uri m);
  mw_client_uri : localized_ok url_codec (cm_client_uri m);
  mw_policy_uri : localized_ok url_codec (cm_policy_uri m);
  mw_tos_uri : localized_ok url_codec (cm_tos_uri m);
}.

Lemma flat_fields_keys m : NoDup (flat_fields m).*1.
Proof. apply (bool_decide_eq_true_1 _). vm_compute. reflexivity. Qed.
Lemma flat_fields_flat m : Forall (λ kv, is_localized_key kv.1 = false) (present (flat_fields m)).
Proof.
  assert (Forall (λ k, is_localized_key k = false) (flat_fields m).*1) as H.
  { apply (bool_decide_eq_true_1 _). vm_compute. reflexivity. }
  induction (flat_fields m) as [|[k [v|]] l IH]; simpl in *; [constructor|..];
    apply Forall_cons in H as [??]; [constructor; [done|]|]; auto.
Qed.

(** The groups of the localised fields of [m]. *)
Definition localized_groups (m : ClientMetadata) : list (string * (option string * Json)) :=
  ((("client_name",.) <$> localized_pairs string_codec (cm_client_name m)) ++
   (("logo_uri",.) <$> localized_pairs url_codec (cm_logo_uri m)) ++
   (("client_uri",.) <$> localized_pairs url_codec (cm_client_uri m)) ++
   (("policy_uri",.) <$> localized_pairs url_codec (cm_policy_uri m)) ++
   (("tos_uri",.) <$> localized_pairs url_codec (cm_tos_uri m))).

Lemma split_emitted m :
  metadata_wf m → split_entries (emit_localized_fields m) = Some ([], localized_groups m).
Proof.
  intros Hm. unfold emit_localized_fields, localized_groups.
  repeat (eapply (split_entries_app _ _ [] _ [] _);
    [apply split_localized; [apply (bool_decide_eq_true_1 _); vm_compute; reflexivity|by apply Hm]|]).
  apply split_localized; [apply (bool_decide_eq_true_1 _); vm_compute; reflexivity|by apply Hm].
Qed.
Lemma split_metadata m :
  metadata_wf m →
  split_entries (metadata_entries m) = Some (present (flat_fields m), localized_groups m).
Proof.
  intros Hm. unfold metadata_entries. pose proof (flat_fields_flat m) as Hf.
  destruct (inject_parts (present (flat_fields m)) (emit_localized_fields m)) as (a & b & Hab & ->).
  rewrite Hab in Hf |- *. apply Forall_app in Hf as [Ha Hb].
  pose proof (split_entries_app _ _ _ _ _ _ (split_emitted m Hm) (split_entries_flat b Hb)) as H.
  rewrite (split_entries_app _ _ _ _ _ _ (split_entries_flat a Ha) H). by rewrite app_nil_r.
Qed.

Lemma group_of_groups m :
  group_of (localized_groups m) "client_name" = localized_pairs string_codec (cm_client_name m) ∧
  group_of (localized_groups m) "logo_uri" = localized_pairs url_codec (cm_logo_uri m) ∧
  group_of (localized_groups m) "client_uri" = localized_pairs url_codec (cm_client_uri m) ∧
  group_of (localized_groups m) "policy_uri" = localized_pairs url_codec (cm_policy_uri m) ∧
  group_of (localized_groups m) "tos_uri" = localized_pairs url_codec (cm_tos_uri m).
Proof.
  unfold localized_groups. rewrite !group_of_app, !group_of_named. simpl. by rewrite !app_nil_r.
Qed.

(** An element of a list that is written out. *)
Ltac solve_listed := unfold flat_fields; repeat (first [left; reflexivity | right]).

(** The JSON form of client metadata is read back: every field, and every localised variant. *)
Lemma metadata_read_back m :
  metadata_wf m → metadata_from_entries (metadata_entries m) = Some m.
Proof.
  intros Hm. unfold metadata_from_entries. eapply bind_some; [by apply split_metadata|]. cbv beta iota.
  destruct (group_of_groups m) as (G1 & G2 & G3 & G4 & G5).
  do 33 (eapply bind_some; [apply flat_field_ok;
    [apply json_get_present; [apply flat_fields_keys|solve_listed]|by apply Hm]|cbv beta]).
  eapply bind_some; [apply (parse_localized_ok _ _ _ _ (mw_client_name _ Hm) G1)|].
  eapply bind_some; [apply (parse_localized_ok _ _ _ _ (mw_logo_uri _ Hm) G2)|].
  eapply bind_some; [apply (parse_localized_ok _ _ _ _ (mw_client_uri _ Hm) G3)|].
  eapply bind_some; [apply (parse_localized_ok _ _ _ _ (mw_policy_uri _ Hm) G4)|].
  eapply bind_some; [apply (parse_localized_ok _ _ _ _ (mw_tos_uri _ Hm) G5)|].
  by destruct m.
Qed.
End roundtrip.

(** ** Sorting *)

Lemma token_le_antisym a b : token_le a b → token_le b a → a = b.
Proof. intros H1 H2. destruct (enum_le_antisym _ _ _ _ H1 H2). destruct a, b; simplify_eq/=; done. Qed.
Lemma token_le_refl a : token_le a a.
Proof. right. split; [done|]. reflexivity. Qed.
Lemma tokens_leb_trans l1 l2 l3 :
  tokens_leb l1 l2 = true → tokens_leb l2 l3 = true → tokens_leb l1 l3 = true.
Proof.
  revert l2 l3. induction l1 as [|a l1 IH]; intros [|b l2] [|c l3]; simpl; try done.
  repeat case_bool_decide; subst; try done; eauto; exfalso.
  - eauto using token_le_antisym.
  - assert (token_le a c) by (by trans b). done.
Qed.
Lemma tokens_leb_total l1 l2 : tokens_leb l1 l2 = true ∨ tokens_leb l2 l1 = true.
Proof.
  revert l2. induction l1 as [|a l1 IH]; intros [|b l2]; simpl; auto.
  destruct (total token_le a b); repeat case_bool_decide; subst; auto; congruence.
Qed.
Lemma tokens_leb_antisym l1 l2 : tokens_leb l1 l2 = true → tokens_leb l2 l1 = true → l1 = l2.
Proof.
  revert l2. induction l1 as [|a l1 IH]; intros [|b l2]; simpl; try done.
  repeat case_bool_decide; subst; try done; [naive_solver|]. intros _ _. exfalso.
  eauto using token_le_antisym.
Qed.

#[export] Instance response_type_le_trans : Transitive response_type_le.
Proof. intros a b c. apply tokens_leb_trans. Qed.
#[export] Instance response_type_le_total : Total response_type_le.
Proof. intros a b. apply tokens_leb_total. Qed.
Lemma response_type_le_antisym a b : response_type_le a b → response_type_le b a → a = b.
Proof.
  intros H1 H2. pose proof (tokens_leb_antisym _ _ H1 H2) as E.
  unfold ResponseType_iter in E. apply set_eq. intros t.
  rewrite <-!(elem_of_elements (C := gset ResponseTypeToken)).
  by rewrite <-(merge_sort_Permutation token_le (elements a)),
    <-(merge_sort_Permutation token_le (elements b)), E.
Qed.
Lemma grant_type_le_antisym a b : grant_type_le a b → grant_type_le b a → a = b.
Proof. intros H1 H2. destruct (enum_le_antisym _ _ _ _ H1 H2). destruct a, b; simplify_eq/=; done. Qed.

(** Lists in any order. *)
Definition same_list {A} (a b : option (list A)) : Prop := option_Forall2 (≡ₚ) a b.
(** Variants in any order, with a language once. *)
Record same_localized {T} (a b : Localized T) : Prop := {
  sl_default : localized_default_value a = localized_default_value b;
  sl_tagged : localized_tagged a ≡ₚ localized_tagged b;
  sl_unique : NoDup (localized_tagged a).*1;
}.

Lemma sorted_same {A} (R : relation A) `{!RelDecision R, !Transitive R, !Total R} (a b : option (list A)) :
  (∀ x y, R x y → R y x → x = y) → same_list a b → merge_sort R <$> a = merge_sort R <$> b.
Proof. intros Ha []; simpl; [|done]. f_equal. by apply merge_sort_perm. Qed.

Lemma sort_tagged_perm {T} (a b : list (string * T)) :
  NoDup a.*1 → a ≡ₚ b → sort_tagged a = sort_tagged b.
Proof.
  intros Hn Hp. unfold sort_tagged.
  assert (Transitive (λ a b : string * T, String.le a.1 b.1)) by (intros x y z ??; by trans y.1).
  assert (Total (λ a b : string * T, String.le a.1 b.1)) by (intros x y; apply (total String.le)).
  apply (StronglySorted_unique_strong (λ a b : string * T, String.le a.1 b.1));
    [|by apply StronglySorted_merge_sort..|by rewrite !merge_sort_Permutation].
  intros [t1 v1] [t2 v2]. rewrite !merge_sort_Permutation, <-Hp. intros H1 H2 L1 L2. simpl in *.
  assert (t1 = t2) as -> by by apply (anti_symm String.le).
  f_equal. by eapply keys_functional.
Qed.
Lemma localized_sort_same {T} (a b : option (Localized T)) :
  option_Forall2 same_localized a b → Localized_sort <$> a = Localized_sort <$> b.
Proof.
  intros [x y [E Hp Hn]|]; simpl; [|done]. f_equal. unfold Localized_sort, Localized_from_parts.
  f_equal; [done|]. by apply sort_tagged_perm.
Qed.

(** Metadata that differ in the order of their lists only. *)
Record same_metadata (m m' : ClientMetadata) : Prop := {
  sm_redirect_uris : same_list (cm_redirect_uris m) (cm_redirect_uris m');
  sm_response_types : same_list (cm_response_types m) (cm_response_types m');
  sm_grant_types : same_list (cm_grant_types m) (cm_grant_types m');
  sm_token_endpoint_auth_method : cm_token_endpoint_auth_method m = cm_token_endpoint_auth_method m';
  sm_token_endpoint_auth_signing_alg : cm_token_endpoint_auth_signing_alg m = cm_token_endpoint_auth_signing_alg m';
  sm_client_name : option_Forall2 same_localized (cm_client_name m) (cm_client_name m');
  sm_logo_uri : option_Forall2 same_localized (cm_logo_uri m) (cm_logo_uri m');
  sm_client_uri : option_Forall2 same_localized (cm_client_uri m) (cm_client_uri m');
  sm_policy_uri : option_Forall2 same_localized (cm_policy_uri m) (cm_policy_uri m');
  sm_tos_uri : option_Forall2 same_localized (cm_tos_uri m) (cm_tos_uri m');
  sm_contacts : same_list (cm_contacts m) (cm_contacts m');
  sm_jwks_uri : cm_jwks_uri m = cm_jwks_uri m';
  sm_jwks : cm_jwks m = cm_jwks m';
  sm_software_id : cm_software_id m = cm_software_id m';
  sm_software_version : cm_software_version m = cm_software_version m';
  sm_application_type : cm_application_type m = cm_application_type m';
  sm_sector_identifier_uri : cm_sector_identifier_uri m = cm_sector_identifier_uri m';
  sm_subject_type : cm_subject_type m = cm_subject_type m';
  sm_id_token_signed_response_alg : cm_id_token_signed_response_alg m = cm_id_token_signed_response_alg m';
  sm_id_token_encrypted_response_alg : cm_id_token_encrypted_response_alg m = cm_id_token_encrypted_response_alg m';
  sm_id_token_encrypted_response_enc : cm_id_token_encrypted_response_enc m = cm_id_token_encrypted_response_enc m';
  sm_userinfo_signed_response_alg : cm_userinfo_signed_response_alg m = cm_userinfo_signed_response_alg m';
  sm_userinfo_encrypted_response_alg : cm_userinfo_encrypted_response_alg m = cm_userinfo_encrypted_response_alg m';
  sm_userinfo_encrypted_response_enc : cm_userinfo_encrypted_response_enc m = cm_userinfo_encrypted_response_enc m';
  sm_request_object_signing_alg : cm_request_object_signing_alg m = cm_request_object_signing_alg m';
  sm_request_object_encryption_alg : cm_request_object_encryption_alg m = cm_request_object_encryption_alg m';
  sm_request_object_encryption_enc : cm_request_object_encryption_enc m = cm_request_object_encryption_enc m';
  sm_default_max_age : cm_default_max_age m = cm_default_max_age m';
  sm_require_auth_time : cm_require_auth_time m = cm_require_auth_time m';
  sm_default_acr_values : same_list (cm_default_acr_values m) (cm_default_acr_values m');
  sm_initiate_login_uri : cm_initiate_login_uri m = cm_initiate_login_uri m';
  sm_request_uris : same_list (cm_request_uris m) (cm_request_uris m');
  sm_require_signed_request_object : cm_require_signed_request_object m = cm_require_signed_request_object m';
  sm_require_pushed_authorization_requests : cm_require_pushed_authorization_requests m = cm_require_pushed_authorization_requests m';
  sm_introspection_signed_response_alg : cm_introspection_signed_response_alg m = cm_introspection_signed_response_alg m';
  sm_introspection_encrypted_response_alg : cm_introspection_encrypted_response_alg m = cm_introspection_encrypted_response_alg m';
  sm_introspection_encrypted_response_enc : cm_introspection_encrypted_response_enc m = cm_introspection_encrypted_response_enc m';
  sm_post_logout_redirect_uris : same_list (cm_post_logout_redirect_uris m) (cm_post_logout_redirect_uris m');
}.

(** Sorting forgets the order of the lists, so that the digest does not depend on it. *)
Lemma sorted_canonical m m' : same_metadata m m' → ClientMetadata_sorted m = ClientMetadata_sorted m'.
Proof.
  intros []. unfold ClientMetadata_sorted.
  assert (∀ x y, String.le x y → String.le y x → x = y) by apply (anti_symm String.le).
  f_equal; first
    [ done
    | by apply localized_sort_same
    | by eapply (sorted_same String.le)
    | by eapply (sorted_same response_type_le); [exact response_type_le_antisym|]
    | by eapply (sorted_same grant_type_le); [exact grant_type_le_antisym|] ].
Qed.

(** ** Validation *)

Section validation.
Context {VX : UrlPartsExternals}.

(** A response type asks for what the grant types give: a code for the authorization code
    grant, the tokens for the implicit one. *)
Definition response_type_coherent (m : ClientMetadata) (rt : gset ResponseTypeToken) : Prop :=
  (ResponseType_Code ∈ rt → GrantType_AuthorizationCode ∈ ClientMetadata_grant_types m) ∧
  (ResponseType_IdToken ∈ rt ∨ ResponseType_Token ∈ rt →
   GrantType_Implicit ∈ ClientMetadata_grant_types m).

Definition uses_redirects (m : ClientMetadata) : Prop :=
  GrantType_AuthorizationCode ∈ ClientMetadata_grant_types m ∨
  GrantType_Implicit ∈ ClientMetadata_grant_types m.

(** What OpenID Connect Dynamic Client Registration asks of client metadata. *)
Record metadata_valid (m : ClientMetadata) : Prop := {
  mv_redirects_present : uses_redirects m → is_Some (cm_redirect_uris m);
  mv_redirects uri : uri ∈ default [] (cm_redirect_uris m) → url_fragment uri = None;
  mv_response_types rt : rt ∈ checked_response_types m → response_type_coherent m rt;
  mv_one_key_set : ¬ (is_Some (cm_jwks_uri m) ∧ is_Some (cm_jwks m));
  mv_sector u : cm_sector_identifier_uri m = Some u → url_scheme u = "https";
  mv_private_key : ClientMetadata_token_endpoint_auth_method m = Auth_PrivateKeyJwt →
                   is_Some (cm_jwks_uri m) ∨ is_Some (cm_jwks m);
  mv_signing_alg_none : cm_token_endpoint_auth_signing_alg m ≠ Some Alg_None;
  mv_signing_alg : ClientMetadata_token_endpoint_auth_method m = Auth_PrivateKeyJwt ∨
                   ClientMetadata_token_endpoint_auth_method m = Auth_ClientSecretJwt →
                   is_Some (cm_token_endpoint_auth_signing_alg m);
  mv_id_token_alg rt : ClientMetadata_id_token_signed_response_alg m = Alg_None →
                       rt ∈ checked_response_types m → ResponseType_IdToken ∉ rt;
  mv_id_token_enc : is_Some (cm_id_token_encrypted_response_enc m) →
                    is_Some (cm_id_token_encrypted_response_alg m);
  mv_userinfo_enc : is_Some (cm_userinfo_encrypted_response_enc m) →
                    is_Some (cm_userinfo_encrypted_response_alg m);
  mv_request_object_enc : is_Some (cm_request_object_encryption_enc m) →
                          is_Some (cm_request_object_encryption_alg m);
  mv_login u : cm_initiate_login_uri m = Some u → url_scheme u = "https";
  mv_introspection_enc : is_Some (cm_introspection_encrypted_response_enc m) →
                         is_Some (cm_introspection_encrypted_response_alg m);
}.

Lemma push_if_nil b e : push_if b e = [] ↔ b = false.
Proof. by destruct b. Qed.
Lemma response_type_ok_coherent m rt :
  response_type_ok (has_implicit m) (has_authorization_code m) rt = true ↔ response_type_coherent m rt.
Proof.
  unfold response_type_ok, has_implicit, has_authorization_code, ResponseType_has_code,
    ResponseType_has_id_token, ResponseType_has_token, response_type_coherent.
  repeat case_bool_decide; simpl; naive_solver.
Qed.
Lemma filter_nil_iff {A} (P : A → Prop) `{!∀ x, Decision (P x)} l : filter P l = [] ↔ ∀ x, x ∈ l → ¬ P x.
Proof.
  split.
  - intros E x Hx HP. assert (x ∈ filter P l) as Hin by by apply list_elem_of_filter.
    rewrite E in Hin. by apply elem_of_nil in Hin.
  - intros Hl. destruct (filter P l) as [|x l'] eqn:E; [done|].
    assert (x ∈ filter P l) as [HP Hx]%list_elem_of_filter by (rewrite E; left). by destruct (Hl x Hx).
Qed.
Lemma fmap_is_nil {A B} (f : A → B) l : f <$> l = [] ↔ l = [].
Proof. by destruct l. Qed.
Lemma uses_redirects_b m : has_authorization_code m || has_implicit m = true ↔ uses_redirects m.
Proof. unfold has_authorization_code, has_implicit, uses_redirects. by rewrite orb_true_iff, !bool_decide_eq_true. Qed.

Lemma redirect_errors_nil m :
  redirect_uri_errors m = [] ↔
  (uses_redirects m → is_Some (cm_redirect_uris m)) ∧
  (∀ uri, uri ∈ default [] (cm_redirect_uris m) → url_fragment uri = None).
Proof.
  unfold redirect_uri_errors. destruct (cm_redirect_uris m) as [uris|] eqn:E; simpl.
  - rewrite fmap_is_nil, filter_nil_iff. setoid_rewrite eq_None_not_Some. naive_solver.
  - rewrite push_if_nil, <-not_true_iff_false, uses_redirects_b. split.
    + intros H. split; [done|]. by intros ? ?%elem_of_nil.
    + intros [H _] Hu. by destruct (H Hu).
Qed.
Lemma response_errors_nil m :
  response_type_errors m = [] ↔ ∀ rt, rt ∈ checked_response_types m → response_type_coherent m rt.
Proof.
  unfold response_type_errors. rewrite fmap_is_nil, filter_nil_iff.
  setoid_rewrite <-response_type_ok_coherent. setoid_rewrite not_false_iff_true. done.
Qed.
Lemma non_https_nil field url :
  non_https field url = [] ↔ ∀ u, url = Some u → url_scheme u = "https".
Proof.
  destruct url as [u|]; simpl; [|naive_solver]. rewrite push_if_nil, negb_false_iff, bool_decide_eq_true.
  naive_solver.
Qed.
Lemma lone_enc_nil what alg enc : lone_enc what alg enc = [] ↔ (is_Some enc → is_Some alg).
Proof.
  unfold lone_enc. rewrite push_if_nil, andb_false_iff, !bool_decide_eq_false, <-not_eq_None_Some.
  destruct alg, enc; naive_solver.
Qed.
Lemma token_method_nil m :
  token_method_errors m = [] ↔
  (ClientMetadata_token_endpoint_auth_method m = Auth_PrivateKeyJwt →
   is_Some (cm_jwks_uri m) ∨ is_Some (cm_jwks m)) ∧
  cm_token_endpoint_auth_signing_alg m ≠ Some Alg_None ∧
  (ClientMetadata_token_endpoint_auth_method m = Auth_PrivateKeyJwt ∨
   ClientMetadata_token_endpoint_auth_method m = Auth_ClientSecretJwt →
   is_Some (cm_token_endpoint_auth_signing_alg m)).
Proof.
  unfold token_method_errors. rewrite app_nil, push_if_nil.
  assert (∀ a b c : bool, a && b && c = false ↔ (a = true → b = false ∨ c = false)) as ->.
  { intros [] [] []; naive_solver. }
  rewrite bool_decide_eq_true, bool_decide_eq_false, negb_false_iff, bool_decide_eq_true, not_eq_None_Some.
  apply and_iff_compat_l. destruct (cm_token_endpoint_auth_signing_alg m) as [alg|]; simpl;
    rewrite push_if_nil, bool_decide_eq_false; [naive_solver|].
  rewrite !elem_of_cons, elem_of_nil. split; [|naive_solver].
  intros H. split; [done|]. intros []; tauto.
Qed.
Lemma existsb_false {A} (f : A → bool) l : existsb f l = false ↔ ∀ x, x ∈ l → f x = false.
Proof.
  induction l as [|a l IH]; simpl; [split; [by intros _ ? ?%elem_of_nil|done]|].
  rewrite orb_false_iff, IH. setoid_rewrite elem_of_cons. naive_solver.
Qed.

Lemma collected_errors_nil m : collected_errors m = [] ↔ metadata_valid m.
Proof.
  unfold collected_errors.
  rewrite !app_nil, redirect_errors_nil, response_errors_nil, !non_https_nil, token_method_nil,
    !lone_enc_nil, !push_if_nil, !andb_false_iff, !bool_decide_eq_false, existsb_false.
  unfold ResponseType_has_id_token. setoid_rewrite bool_decide_eq_false.
  split.
  - intros ((?&?)&?&?&?&(?&?&?)&Hid&?&?&?&?&?). constructor; try done; [tauto|].
    intros rt Ha Hrt. destruct Hid; [done|auto].
  - intros []. split_and!; try done.
    + destruct (decide (is_Some (cm_jwks_uri m))); tauto.
    + destruct (decide (ClientMetadata_id_token_signed_response_alg m = Alg_None)); [right|left]; eauto.
Qed.

(** Validation accepts exactly the metadata that are valid, unchanged. *)
Lemma validate_Ok m v :
  ClientMetadata_validate m = Ok v ↔ v = {| verified_inner := m |} ∧ metadata_valid m.
Proof.
  unfold ClientMetadata_validate. rewrite <-collected_errors_nil.
  destruct (collected_errors m) as [|e [|e' es]]; naive_solver.
Qed.
End validation.
