(* ===== verification/ClientRepository.v ===== *)
(** The clients the server keeps: the writing half of the repository of
    crates/data/src/pg/oauth2/client.rs, and the metadata of a stored client
    (crates/data/src/oauth2/client.rs). *)
From S2P Require Import Prelude Ids ResponseTypes Scope Pkce Jose Domain Database Repository ClientMetadata.

Open Scope Z_scope.

(** The entries of a [BTreeMap], in the order of its keys. *)
Definition btree_iter {A} (m : gmap string A) : list (string * A) :=
  merge_sort (λ a b, String.le a.1 b.1) (map_to_list m).

(** ** Localised metadata (data/src/oauth2/client.rs) *)

Definition LocalizableField_as_str (self : LocalizableField) : string :=
  match self with
  | Field_ClientName => "client_name"
  | Field_LogoUri => "logo_uri"
  | Field_ClientUri => "client_uri"
  | Field_PolicyUri => "policy_uri"
  | Field_TosUri => "tos_uri"
  end.

Definition LocalizedClientMetadata_is_empty (self : LocalizedClientMetadata) : bool :=
  bool_decide (localized_client_name self = ∅) && bool_decide (localized_logo_uri self = ∅)
  && bool_decide (localized_client_uri self = ∅) && bool_decide (localized_policy_uri self = ∅)
  && bool_decide (localized_tos_uri self = ∅).

(** [pick_localized_str] and [pick_localized_url]: the exact tag, else the first of the language. *)
Definition primary_subtag (tag : string) : option string := head (split_char "-"%char tag).
Definition pick_localized {A} (m : gmap string A) (locale : string) : option A :=
  match m !! locale with
  | Some value => Some value
  | None =>
      prefix ← primary_subtag locale;
      (λ '(_, (_, v)), v) <$> list_find (λ tv, primary_subtag tv.1 = Some prefix) (btree_iter m)
  end.

Definition or_else {A} (x y : option A) : option A := match x with Some a => Some a | None => y end.

Definition Client_localized_client_name (self : Client) (locale : string) : option string :=
  or_else (pick_localized (localized_client_name (Client_localized_metadata self)) locale)
    (Client_client_name self).
Definition Client_localized_logo_uri (self : Client) (locale : string) : option Url :=
  or_else (pick_localized (localized_logo_uri (Client_localized_metadata self)) locale)
    (Client_logo_uri self).
Definition Client_localized_client_uri (self : Client) (locale : string) : option Url :=
  or_else (pick_localized (localized_client_uri (Client_localized_metadata self)) locale)
    (Client_client_uri self).
Definition Client_localized_policy_uri (self : Client) (locale : string) : option Url :=
  or_else (pick_localized (localized_policy_uri (Client_localized_metadata self)) locale)
    (Client_policy_uri self).
Definition Client_localized_tos_uri (self : Client) (locale : string) : option Url :=
  or_else (pick_localized (localized_tos_uri (Client_localized_metadata self)) locale)
    (Client_tos_uri self).

Section metadata.
Context {KX : MetadataExternals}.

Definition build_localized {T} (default_value : option T) (by_locale : gmap string T)
    : option (Localized T) :=
  let pairs := omap (λ '(tag, value), (λ l, (l, value)) <$> language_tag_parse tag)
                 (btree_iter by_locale) in
  match default_value, pairs with
  | Some value, _ => Some (Localized_new value pairs)
  | None, (_, first) :: rest => Some (Localized_new first rest)
  | None, [] => None
  end.

Definition Client_into_metadata (self : Client) : ClientMetadata :=
  let '(jwks, jwks_uri) :=
    match Client_jwks self with
    | Some (Jwks jwks) => (Some jwks, None)
    | Some (JwksUri jwks_uri) => (None, Some jwks_uri)
    | None => (None, None)
    end in
  let localized := Client_localized_metadata self in
  {| cm_redirect_uris := Some (Client_redirect_uris self);
     cm_response_types := None;
     cm_grant_types := Some (Client_grant_types self);
     cm_token_endpoint_auth_method := Client_token_endpoint_auth_method self;
     cm_token_endpoint_auth_signing_alg := Client_token_endpoint_auth_signing_alg self;
     cm_client_name := build_localized (Client_client_name self) (localized_client_name localized);
     cm_logo_uri := build_localized (Client_logo_uri self) (localized_logo_uri localized);
     cm_client_uri := build_localized (Client_client_uri self) (localized_client_uri localized);
     cm_policy_uri := build_localized (Client_policy_uri self) (localized_policy_uri localized);
     cm_tos_uri := build_localized (Client_tos_uri self) (localized_tos_uri localized);
     cm_contacts := None;
     cm_jwks_uri := jwks_uri;
     cm_jwks := jwks;
     cm_software_id := None; cm_software_version := None;
     cm_application_type := Client_application_type self;
     cm_sector_identifier_uri := None; cm_subject_type := None;
     cm_id_token_signed_response_alg := Client_id_token_signed_response_alg self;
     cm_id_token_encrypted_response_alg := None; cm_id_token_encrypted_response_enc := None;
     cm_userinfo_signed_response_alg := Client_userinfo_signed_response_alg self;
     cm_userinfo_encrypted_response_alg := None; cm_userinfo_encrypted_response_enc := None;
     cm_request_object_signing_alg := None; cm_request_object_encryption_alg := None;
     cm_request_object_encryption_enc := None; cm_default_max_age := None;
     cm_require_auth_time := None; cm_default_acr_values := None;
     cm_initiate_login_uri := Client_initiate_login_uri self;
     cm_request_uris := None; cm_require_signed_request_object := None;
     cm_require_pushed_authorization_requests := None;
     cm_introspection_signed_response_alg := None;
     cm_introspection_encrypted_response_alg := None;
     cm_introspection_encrypted_response_enc := None; cm_post_logout_redirect_uris := None |}.
End metadata.

(** ** The repository (pg/oauth2/client.rs) *)

Definition Client_with_localized (self : Client) (localized : LocalizedClientMetadata) : Client :=
  {| Client_id := Client_id self;
     Client_client_id := Client_client_id self;
     Client_metadata_digest := Client_metadata_digest self;
     Client_encrypted_client_secret := Client_encrypted_client_secret self;
     Client_application_type := Client_application_type self;
     Client_redirect_uris := Client_redirect_uris self;
     Client_grant_types := Client_grant_types self;
     Client_client_name := Client_client_name self;
     Client_logo_uri := Client_logo_uri self;
     Client_client_uri := Client_client_uri self;
     Client_policy_uri := Client_policy_uri self;
     Client_tos_uri := Client_tos_uri self;
     Client_localized_metadata := localized;
     Client_jwks := Client_jwks self;
     Client_id_token_signed_response_alg := Client_id_token_signed_response_alg self;
     Client_userinfo_signed_response_alg := Client_userinfo_signed_response_alg self;
     Client_token_endpoint_auth_method := Client_token_endpoint_auth_method self;
     Client_token_endpoint_auth_signing_alg := Client_token_endpoint_auth_signing_alg self;
     Client_initiate_login_uri := Client_initiate_login_uri self |}.

(** The arguments of [add]. *)
Record NewClient := {
  nc_redirect_uris : list Url;
  nc_metadata_digest : option string;
  nc_encrypted_client_secret : option string;
  nc_application_type : option ApplicationType;
  nc_grant_types : list GrantType;
  nc_client_name : option string;
  nc_logo_uri : option Url;
  nc_client_uri : option Url;
  nc_policy_uri : option Url;
  nc_tos_uri : option Url;
  nc_jwks_uri : option Url;
  nc_jwks : option PublicJsonWebKeySet;
  nc_id_token_signed_response_alg : option JsonWebSignatureAlg;
  nc_userinfo_signed_response_alg : option JsonWebSignatureAlg;
  nc_token_endpoint_auth_method : option OAuthClientAuthenticationMethod;
  nc_token_endpoint_auth_signing_alg : option JsonWebSignatureAlg;
  nc_initiate_login_uri : option Url;
}.

(** [match (jwks, jwks_uri)]; both is an invalid operation. *)
Definition jwks_or_uri (jwks : option PublicJsonWebKeySet) (jwks_uri : option Url)
    : result (option JwksOrJwksUri) DatabaseError :=
  match jwks, jwks_uri with
  | None, None => Ok None
  | Some jwks, None => Ok (Some (Jwks jwks))
  | None, Some uri => Ok (Some (JwksUri uri))
  | Some _, Some _ => Err Db_InvalidOperation
  end.

Definition has_metadata_digest (digest : string) (r : OAuth2ClientRow) : bool :=
  bool_decide (ClientRow_metadata_digest r = Some digest).

(** The primary key, and the UNIQUE digest. *)
Definition client_violation (id : Ulid) (digest : option string) (db : DB) : option DieselError :=
  first_violation
    [ (pk_taken id (db_clients db), UniqueViolation "oauth2_clients" "id");
      (match digest with Some d => col_taken (has_metadata_digest d) (db_clients db) | None => false end,
        UniqueViolation "oauth2_clients" "metadata_digest") ].

Section repository.
Context {UX : UrlExternals} {DX : DbExternals} {KX : MetadataExternals}.

Definition new_client_row (c : NewClient) : OAuth2ClientRow :=
  {| ClientRow_metadata_digest := nc_metadata_digest c;
     ClientRow_encrypted_client_secret := nc_encrypted_client_secret c;
     ClientRow_application_type := ApplicationType_to_string <$> nc_application_type c;
     ClientRow_redirect_uris := nc_redirect_uris c;
     ClientRow_grant_type_authorization_code := bool_decide (GrantType_AuthorizationCode ∈ nc_grant_types c);
     ClientRow_grant_type_refresh_token := bool_decide (GrantType_RefreshToken ∈ nc_grant_types c);
     ClientRow_grant_type_client_credentials := bool_decide (GrantType_ClientCredentials ∈ nc_grant_types c);
     ClientRow_grant_type_device_code := Some (bool_decide (GrantType_DeviceCode ∈ nc_grant_types c));
     ClientRow_client_name := nc_client_name c;
     ClientRow_logo_uri := nc_logo_uri c;
     ClientRow_client_uri := nc_client_uri c;
     ClientRow_policy_uri := nc_policy_uri c;
     ClientRow_tos_uri := nc_tos_uri c;
     ClientRow_jwks_uri := nc_jwks_uri c;
     ClientRow_jwks := jwks_to_value <$> nc_jwks c;
     ClientRow_id_token_signed_response_alg :=
       JsonWebSignatureAlg_to_string <$> nc_id_token_signed_response_alg c;
     ClientRow_userinfo_signed_response_alg :=
       JsonWebSignatureAlg_to_string <$> nc_userinfo_signed_response_alg c;
     ClientRow_token_endpoint_auth_method := auth_method_to_string <$> nc_token_endpoint_auth_method c;
     ClientRow_token_endpoint_auth_signing_alg :=
       JsonWebSignatureAlg_to_string <$> nc_token_endpoint_auth_signing_alg c;
     ClientRow_initiate_login_uri := nc_initiate_login_uri c;
     ClientRow_is_static := Some false;
     ClientRow_localized := [] |}.

(** The client [add] returns: not the stored digest, and every grant type asked for. *)
Definition added_client (id : Ulid) (jwks : option JwksOrJwksUri) (c : NewClient) : Client :=
  {| Client_id := id;
     Client_client_id := ulid_to_string id;
     Client_metadata_digest := None;
     Client_encrypted_client_secret := nc_encrypted_client_secret c;
     Client_application_type := nc_application_type c;
     Client_redirect_uris := nc_redirect_uris c;
     Client_grant_types := nc_grant_types c;
     Client_client_name := nc_client_name c;
     Client_logo_uri := nc_logo_uri c;
     Client_client_uri := nc_client_uri c;
     Client_policy_uri := nc_policy_uri c;
     Client_tos_uri := nc_tos_uri c;
     Client_localized_metadata := LocalizedClientMetadata_default;
     Client_jwks := jwks;
     Client_id_token_signed_response_alg := nc_id_token_signed_response_alg c;
     Client_userinfo_signed_response_alg := nc_userinfo_signed_response_alg c;
     Client_token_endpoint_auth_method := nc_token_endpoint_auth_method c;
     Client_token_endpoint_auth_signing_alg := nc_token_endpoint_auth_signing_alg c;
     Client_initiate_login_uri := nc_initiate_login_uri c |}.

Definition oauth2_client_add (c : NewClient) : M St DatabaseError Client :=
  now ← clock_now;
  id ← with_rng (new_id now);
  _ ← insert_row on_clients (client_violation id (nc_metadata_digest c)) id (new_client_row c);
  jwks ← of_result (jwks_or_uri (nc_jwks c) (nc_jwks_uri c));
  mret (added_client id jwks c).

Definition oauth2_client_find_by_metadata_digest (digest : string) : M St DatabaseError (option Client) :=
  res ← select_first db_clients (has_metadata_digest digest);
  try_into Client_try_from res.

(** [load_batch]: the clients found, by identifier. *)
Definition oauth2_client_load_batch (ids : gset Ulid) : M St DatabaseError (gmap Ulid Client) :=
  rows ← gets (λ st, map_to_list (filter (λ kr, kr.1 ∈ ids) (db_clients (st_db st))));
  clients ← of_result (collect_results
    ((λ '(id, row), result_bind (Client_try_from id row) (λ c, Ok (id, c))) <$> rows));
  mret (list_to_map clients).

Definition oauth2_client_all_static : M St DatabaseError (list Client) :=
  rows ← gets (λ st, map_to_list (filter (λ kr, ClientRow_is_static kr.2 = Some true) (db_clients (st_db st))));
  of_result (collect_results ((λ '(id, row), Client_try_from id row) <$> rows)).

Definition oauth2_client_load_localized_metadata (id : Ulid) : M St DatabaseError LocalizedClientMetadata :=
  row ← select_by_id db_clients id;
  mret (match row with
        | Some row => load_localized (ClientRow_localized row)
        | None => LocalizedClientMetadata_default
        end).

(** A row for each locale and field. *)
Definition localized_rows (m : LocalizedClientMetadata) : list (string * string * string) :=
  ((λ '(locale, value), (locale, LocalizableField_as_str Field_ClientName, value)) <$> btree_iter (localized_client_name m)) ++
  ((λ '(locale, value), (locale, LocalizableField_as_str Field_LogoUri, value)) <$> btree_iter (localized_logo_uri m)) ++
  ((λ '(locale, value), (locale, LocalizableField_as_str Field_ClientUri, value)) <$> btree_iter (localized_client_uri m)) ++
  ((λ '(locale, value), (locale, LocalizableField_as_str Field_PolicyUri, value)) <$> btree_iter (localized_policy_uri m)) ++
  ((λ '(locale, value), (locale, LocalizableField_as_str Field_TosUri, value)) <$> btree_iter (localized_tos_uri m)).

Definition ClientRow_set_localized (rows : list (string * string * string)) (r : OAuth2ClientRow)
    : OAuth2ClientRow :=
  {| ClientRow_metadata_digest := ClientRow_metadata_digest r;
     ClientRow_encrypted_client_secret := ClientRow_encrypted_client_secret r;
     ClientRow_application_type := ClientRow_application_type r;
     ClientRow_redirect_uris := ClientRow_redirect_uris r;
     ClientRow_grant_type_authorization_code := ClientRow_grant_type_authorization_code r;
     ClientRow_grant_type_refresh_token := ClientRow_grant_type_refresh_token r;
     ClientRow_grant_type_client_credentials := ClientRow_grant_type_client_credentials r;
     ClientRow_grant_type_device_code := ClientRow_grant_type_device_code r;
     ClientRow_client_name := ClientRow_client_name r;
     ClientRow_logo_uri := ClientRow_logo_uri r;
     ClientRow_client_uri := ClientRow_client_uri r;
     ClientRow_policy_uri := ClientRow_policy_uri r;
     ClientRow_tos_uri := ClientRow_tos_uri r;
     ClientRow_jwks_uri := ClientRow_jwks_uri r;
     ClientRow_jwks := ClientRow_jwks r;
     ClientRow_id_token_signed_response_alg := ClientRow_id_token_signed_response_alg r;
     ClientRow_userinfo_signed_response_alg := ClientRow_userinfo_signed_response_alg r;
     ClientRow_token_endpoint_auth_method := ClientRow_token_endpoint_auth_method r;
     ClientRow_token_endpoint_auth_signing_alg := ClientRow_token_endpoint_auth_signing_alg r;
     ClientRow_initiate_login_uri := ClientRow_initiate_login_uri r;
     ClientRow_is_static := ClientRow_is_static r;
     ClientRow_localized := rows |}.

(** The old rows are deleted, then the new ones inserted; they refer to the client. *)
Definition replace_localized_metadata (id : Ulid) (metadata : LocalizedClientMetadata)
    : M St DatabaseError () :=
  _ ← update_by_id db_clients on_clients no_violation id (ClientRow_set_localized []);
  let new_rows := localized_rows metadata in
  if bool_decide (new_rows = []) then mret tt
  else
    n ← update_by_id db_clients on_clients no_violation id (ClientRow_set_localized new_rows);
    if bool_decide (n = 0%nat)
    then raise (Db_Diesel (ForeignKeyViolation "oauth2_client_localized_metadata" "client_id"))
    else mret tt.

(** *** Clients of the configuration *)

(** The arguments of [upsert_static]. *)
Record StaticClient := {
  sc_client_id : Ulid;
  sc_client_name : option string;
  sc_client_auth_method : OAuthClientAuthenticationMethod;
  sc_encrypted_client_secret : option string;
  sc_jwks : option PublicJsonWebKeySet;
  sc_jwks_uri : option Url;
  sc_redirect_uris : list Url;
}.

Definition static_client_row (c : StaticClient) : OAuth2ClientRow :=
  {| ClientRow_metadata_digest := None;
     ClientRow_encrypted_client_secret := sc_encrypted_client_secret c;
     ClientRow_application_type := None;
     ClientRow_redirect_uris := sc_redirect_uris c;
     ClientRow_grant_type_authorization_code := true;
     ClientRow_grant_type_refresh_token := true;
     ClientRow_grant_type_client_credentials := true;
     ClientRow_grant_type_device_code := Some true;
     ClientRow_client_name := sc_client_name c;
     ClientRow_logo_uri := None; ClientRow_client_uri := None;
     ClientRow_policy_uri := None; ClientRow_tos_uri := None;
     ClientRow_jwks_uri := sc_jwks_uri c;
     ClientRow_jwks := jwks_to_value <$> sc_jwks c;
     ClientRow_id_token_signed_response_alg := None;
     ClientRow_userinfo_signed_response_alg := None;
     ClientRow_token_endpoint_auth_method := Some (auth_method_to_string (sc_client_auth_method c));
     ClientRow_token_endpoint_auth_signing_alg := None;
     ClientRow_initiate_login_uri := None;
     ClientRow_is_static := Some true;
     ClientRow_localized := [] |}.

(** [ON CONFLICT (id) DO UPDATE SET ...] *)
Definition ClientRow_set_static (c : StaticClient) (r : OAuth2ClientRow) : OAuth2ClientRow :=
  {| ClientRow_metadata_digest := ClientRow_metadata_digest r;
     ClientRow_encrypted_client_secret := sc_encrypted_client_secret c;
     ClientRow_application_type := ClientRow_application_type r;
     ClientRow_redirect_uris := sc_redirect_uris c;
     ClientRow_grant_type_authorization_code := true;
     ClientRow_grant_type_refresh_token := true;
     ClientRow_grant_type_client_credentials := true;
     ClientRow_grant_type_device_code := Some true;
     ClientRow_client_name := sc_client_name c;
     ClientRow_logo_uri := ClientRow_logo_uri r;
     ClientRow_client_uri := ClientRow_client_uri r;
     ClientRow_policy_uri := ClientRow_policy_uri r;
     ClientRow_tos_uri := ClientRow_tos_uri r;
     ClientRow_jwks_uri := sc_jwks_uri c;
     ClientRow_jwks := jwks_to_value <$> sc_jwks c;
     ClientRow_id_token_signed_response_alg := ClientRow_id_token_signed_response_alg r;
     ClientRow_userinfo_signed_response_alg := ClientRow_userinfo_signed_response_alg r;
     ClientRow_token_endpoint_auth_method := Some (auth_method_to_string (sc_client_auth_method c));
     ClientRow_token_endpoint_auth_signing_alg := ClientRow_token_endpoint_auth_signing_alg r;
     ClientRow_initiate_login_uri := ClientRow_initiate_login_uri r;
     ClientRow_is_static := Some true;
     ClientRow_localized := ClientRow_localized r |}.

(** The client [upsert_static] returns: without the device code grant, and without a method. *)
Definition upserted_client (jwks : option JwksOrJwksUri) (c : StaticClient) : Client :=
  {| Client_id := sc_client_id c;
     Client_client_id := ulid_to_string (sc_client_id c);
     Client_metadata_digest := None;
     Client_encrypted_client_secret := sc_encrypted_client_secret c;
     Client_application_type := None;
     Client_redirect_uris := sc_redirect_uris c;
     Client_grant_types := [GrantType_AuthorizationCode; GrantType_RefreshToken; GrantType_ClientCredentials];
     Client_client_name := sc_client_name c;
     Client_logo_uri := None; Client_client_uri := None; Client_policy_uri := None; Client_tos_uri := None;
     Client_localized_metadata := LocalizedClientMetadata_default;
     Client_jwks := jwks;
     Client_id_token_signed_response_alg := None;
     Client_userinfo_signed_response_alg := None;
     Client_token_endpoint_auth_method := None;
     Client_token_endpoint_auth_signing_alg := None;
     Client_initiate_login_uri := None |}.

Definition oauth2_client_upsert_static (c : StaticClient) : M St DatabaseError Client :=
  n ← update_by_id db_clients on_clients no_violation (sc_client_id c) (ClientRow_set_static c);
  _ ← (if bool_decide (n = 0%nat)
       then insert_row on_clients no_violation (sc_client_id c) (static_client_row c)
       else mret tt);
  jwks ← of_result (jwks_or_uri (sc_jwks c) (sc_jwks_uri c));
  mret (upserted_client jwks c).
End repository.

(** *** Deletion *)

(** [diesel::delete(table.filter(P)).execute()], with what the foreign keys that point to the table
    do: refuse, or follow. *)
Definition delete_rows (violation : DB → option DieselError) (effect : DB → DB) : M St DatabaseError () :=
  λ st, match violation (st_db st) with
        | Some e => (Err (Db_Diesel e), st)
        | None => (Ok tt, on_db effect st)
        end.

Definition keep {R} (P : R → bool) (m : gmap Z R) : gmap Z R := filter (λ kr, P kr.2 = false) m.

(** A column that refers to a row that is gone is cleared. *)
Definition set_null {R} (live : gmap Z R) (col : option Ulid) : option Ulid :=
  match col with
  | Some id => if bool_decide (is_Some (live !! id)) then Some id else None
  | None => None
  end.
Definition RefreshTokenRow_set_null (db : DB) (r : OAuth2RefreshTokenRow) : OAuth2RefreshTokenRow :=
  {| RefreshTokenRow_refresh_token := RefreshTokenRow_refresh_token r;
     RefreshTokenRow_created_at := RefreshTokenRow_created_at r;
     RefreshTokenRow_consumed_at := RefreshTokenRow_consumed_at r;
     RefreshTokenRow_revoked_at := RefreshTokenRow_revoked_at r;
     RefreshTokenRow_oauth2_access_token_id :=
       set_null (db_access_tokens db) (RefreshTokenRow_oauth2_access_token_id r);
     RefreshTokenRow_oauth2_session_id := RefreshTokenRow_oauth2_session_id r;
     RefreshTokenRow_next_oauth2_refresh_token_id :=
       set_null (db_refresh_tokens db) (RefreshTokenRow_next_oauth2_refresh_token_id r) |}.

(** [ON DELETE SET NULL] *)
Definition refresh_set_null (db : DB) : DB := on_refresh_tokens (fmap (RefreshTokenRow_set_null db)) db.

Section deletion.
Variable id : Ulid.

Definition session_of_client (r : OAuthSessionRow) : bool :=
  bool_decide (OAuthSessionRow_oauth2_client_id r = id).
Definition personal_of_client (r : PersonalSessionRow) : bool :=
  bool_decide (PersonalSessionRow_owner_oauth2_client_id r = Some id).
Definition grant_of_client (r : GrantRow) : bool := bool_decide (GrantRow_oauth2_client_id r = id).
Definition device_of_client (r : DeviceGrantRow) : bool :=
  bool_decide (DeviceGrantRow_oauth2_client_id r = id).

(** [eq_any] of the sessions of the client. *)
Definition in_client_session (db : DB) (session : Ulid) : bool :=
  match db_sessions db !! session with Some r => session_of_client r | None => false end.
Definition in_client_personal_session (db : DB) (session : Ulid) : bool :=
  match db_personal_sessions db !! session with Some r => personal_of_client r | None => false end.

(** Rows that still refer to a session of the client. *)
Definition session_violation (db : DB) : option DieselError :=
  first_violation
    [ (col_taken (λ r, in_client_session db (AccessTokenRow_oauth2_session_id r)) (db_access_tokens db),
        ForeignKeyViolation "oauth2_access_tokens" "oauth2_session_id");
      (col_taken (λ r, in_client_session db (RefreshTokenRow_oauth2_session_id r)) (db_refresh_tokens db),
        ForeignKeyViolation "oauth2_refresh_tokens" "oauth2_session_id");
      (col_taken (λ r, match GrantRow_oauth2_session_id r with
                       | Some s => in_client_session db s | None => false end) (db_grants db),
        ForeignKeyViolation "oauth2_authorization_grants" "oauth2_session_id") ].
Definition personal_session_delete_violation (db : DB) : option DieselError :=
  first_violation
    [ (col_taken (λ r, in_client_personal_session db (PersonalTokenRow_personal_session_id r))
         (db_personal_tokens db),
        ForeignKeyViolation "personal_access_tokens" "personal_session_id") ].
Definition client_delete_violation (db : DB) : option DieselError :=
  first_violation
    [ (col_taken session_of_client (db_sessions db),
        ForeignKeyViolation "oauth2_sessions" "oauth2_client_id");
      (col_taken grant_of_client (db_grants db),
        ForeignKeyViolation "oauth2_authorization_grants" "oauth2_client_id");
      (col_taken personal_of_client (db_personal_sessions db),
        ForeignKeyViolation "personal_sessions" "owner_oauth2_client_id") ].

Definition delete_client_grants (db : DB) : DB := on_grants (keep grant_of_client) db.
Definition delete_client_access_tokens (db : DB) : DB :=
  refresh_set_null
    (on_access_tokens (keep (λ r, in_client_session db (AccessTokenRow_oauth2_session_id r))) db).
Definition delete_client_refresh_tokens (db : DB) : DB :=
  refresh_set_null
    (on_refresh_tokens (keep (λ r, in_client_session db (RefreshTokenRow_oauth2_session_id r))) db).
(** The device code grants of the sessions go with them. *)
Definition delete_client_sessions (db : DB) : DB :=
  on_device_grants (keep (λ r, match DeviceGrantRow_oauth2_session_id r with
                               | Some s => in_client_session db s | None => false end))
    (on_sessions (keep session_of_client) db).
Definition delete_client_personal_tokens (db : DB) : DB :=
  on_personal_tokens
    (keep (λ r, in_client_personal_session db (PersonalTokenRow_personal_session_id r))) db.
Definition delete_client_personal_sessions (db : DB) : DB :=
  on_personal_sessions (keep personal_of_client) db.
Definition delete_client_row (db : DB) : DB :=
  on_device_grants (keep device_of_client) (on_clients (delete id) db).

Definition oauth2_client_delete_by_id : M St DatabaseError () :=
  _ ← delete_rows no_violation delete_client_grants;
  _ ← delete_rows no_violation delete_client_access_tokens;
  _ ← delete_rows no_violation delete_client_refresh_tokens;
  _ ← delete_rows session_violation delete_client_sessions;
  _ ← delete_rows no_violation delete_client_personal_tokens;
  _ ← delete_rows personal_session_delete_violation delete_client_personal_sessions;
  rows_affected ← gets (λ st, if bool_decide (is_Some (db_clients (st_db st) !! id)) then 1%nat else 0%nat);
  _ ← delete_rows client_delete_violation delete_client_row;
  ensure_affected_rows_usize rows_affected 1.
End deletion.
