(* ===== verification/ProviderMetadata.v ===== *)
(** What the server says of itself and what it reads of other servers: the
    provider metadata of crates/oauth2-types/src/oidc.rs with its checks, the URLs
    of crates/data/src/url_builder.rs, the discovery document
    (handlers/oauth2/discovery.rs) and WebFinger (handlers/oauth2/webfinger.rs). *)
From S2P Require Import Prelude Ids ResponseTypes Scope Pkce Jose Keystore Domain Database Repository ClientMetadata.

Open Scope Z_scope.

(** ** Enumerations *)

Inductive OAuthAccessTokenType :=
| TokenType_Bearer | TokenType_Na | TokenType_PoP | TokenType_DPoP
| OAuthTokenType_Unknown (name : string).
#[export] Instance OAuthAccessTokenType_eq_dec : EqDecision OAuthAccessTokenType.
Proof. solve_decision. Defined.
Definition OAuthAccessTokenType_known : list (string * OAuthAccessTokenType) :=
  [("Bearer", TokenType_Bearer); ("N_A", TokenType_Na); ("PoP", TokenType_PoP);
   ("DPoP", TokenType_DPoP)].
Definition OAuthAccessTokenType_from_str (s : string) : OAuthAccessTokenType :=
  open_from_str OAuthAccessTokenType_known OAuthTokenType_Unknown s.
Definition OAuthAccessTokenType_to_string (self : OAuthAccessTokenType) : string :=
  match self with
  | TokenType_Bearer => "Bearer" | TokenType_Na => "N_A" | TokenType_PoP => "PoP"
  | TokenType_DPoP => "DPoP" | OAuthTokenType_Unknown name => name
  end.

Inductive AuthenticationMethodOrAccessTokenType :=
| Either_AuthenticationMethod (m : OAuthClientAuthenticationMethod)
| Either_AccessTokenType (t : OAuthAccessTokenType)
| Either_Unknown (raw : string).

Definition Either_to_string (self : AuthenticationMethodOrAccessTokenType) : string :=
  match self with
  | Either_AuthenticationMethod m => auth_method_to_string m
  | Either_AccessTokenType t => OAuthAccessTokenType_to_string t
  | Either_Unknown raw => raw
  end.
Definition Either_from_str (s : string) : AuthenticationMethodOrAccessTokenType :=
  match OAuthAccessTokenType_from_str s with
  | OAuthTokenType_Unknown _ =>
      match auth_method_from_str s with
      | Auth_Unknown _ => Either_Unknown s
      | m => Either_AuthenticationMethod m
      end
  | t => Either_AccessTokenType t
  end.
Definition Either_authentication_method (self : AuthenticationMethodOrAccessTokenType)
    : option OAuthClientAuthenticationMethod :=
  match self with Either_AuthenticationMethod m => Some m | _ => None end.
Definition Either_access_token_type (self : AuthenticationMethodOrAccessTokenType)
    : option OAuthAccessTokenType :=
  match self with Either_AccessTokenType t => Some t | _ => None end.

Inductive ClaimType :=
| Claim_Normal | Claim_Aggregated | Claim_Distributed | Claim_Unknown (raw : string).
Definition ClaimType_to_string (self : ClaimType) : string :=
  match self with
  | Claim_Normal => "normal" | Claim_Aggregated => "aggregated"
  | Claim_Distributed => "distributed" | Claim_Unknown raw => raw
  end.
Definition ClaimType_from_str : string → ClaimType :=
  open_from_str [("normal", Claim_Normal); ("aggregated", Claim_Aggregated);
                 ("distributed", Claim_Distributed)] Claim_Unknown.

Inductive Display :=
| Display_Page | Display_Popup | Display_Touch | Display_Wap | Display_Unknown (value : string).
Definition Display_to_string (self : Display) : string :=
  match self with
  | Display_Page => "page" | Display_Popup => "popup" | Display_Touch => "touch"
  | Display_Wap => "wap" | Display_Unknown value => value
  end.
Definition Display_from_str : string → Display :=
  open_from_str [("page", Display_Page); ("popup", Display_Popup); ("touch", Display_Touch);
                 ("wap", Display_Wap)] Display_Unknown.

Inductive AccountManagementAction :=
| Action_Profile | Action_SessionsList | Action_SessionView | Action_SessionEnd
| Action_AccountDeactivate | Action_CrossSigningReset | Action_Unknown (raw : string).
Definition AccountManagementAction_to_string (self : AccountManagementAction) : string :=
  match self with
  | Action_Profile => "org.matrix.profile"
  | Action_SessionsList => "org.matrix.sessions_list"
  | Action_SessionView => "org.matrix.session_view"
  | Action_SessionEnd => "org.matrix.session_end"
  | Action_AccountDeactivate => "org.matrix.account_deactivate"
  | Action_CrossSigningReset => "org.matrix.cross_signing_reset"
  | Action_Unknown raw => raw
  end.
Definition AccountManagementAction_from_str : string → AccountManagementAction :=
  open_from_str
    [("org.matrix.profile", Action_Profile); ("org.matrix.sessions_list", Action_SessionsList);
     ("org.matrix.session_view", Action_SessionView); ("org.matrix.session_end", Action_SessionEnd);
     ("org.matrix.account_deactivate", Action_AccountDeactivate);
     ("org.matrix.cross_signing_reset", Action_CrossSigningReset)] Action_Unknown.

(** ** Provider metadata (oidc.rs) *)

Record ProviderMetadata := {
  pm_issuer : option string;
  pm_authorization_endpoint : option Url;
  pm_token_endpoint : option Url;
  pm_jwks_uri : option Url;
  pm_registration_endpoint : option Url;
  pm_scopes_supported : option (list string);
  pm_response_types_supported : option (list (gset ResponseTypeToken));
  pm_response_modes_supported : option (list ResponseMode);
  pm_grant_types_supported : option (list GrantType);
  pm_token_endpoint_auth_methods_supported : option (list OAuthClientAuthenticationMethod);
  pm_token_endpoint_auth_signing_alg_values_supported : option (list JsonWebSignatureAlg);
  pm_service_documentation : option Url;
  pm_ui_locales_supported : option (list string);
  pm_op_policy_uri : option Url;
  pm_op_tos_uri : option Url;
  pm_revocation_endpoint : option Url;
  pm_revocation_endpoint_auth_methods_supported : option (list OAuthClientAuthenticationMethod);
  pm_revocation_endpoint_auth_signing_alg_values_supported : option (list JsonWebSignatureAlg);
  pm_introspection_endpoint : option Url;
  pm_introspection_endpoint_auth_methods_supported : option (list AuthenticationMethodOrAccessTokenType);
  pm_introspection_endpoint_auth_signing_alg_values_supported : option (list JsonWebSignatureAlg);
  pm_code_challenge_methods_supported : option (list PkceCodeChallengeMethod);
  pm_userinfo_endpoint : option Url;
  pm_acr_values_supported : option (list string);
  pm_subject_types_supported : option (list SubjectType);
  pm_id_token_signing_alg_values_supported : option (list JsonWebSignatureAlg);
  pm_id_token_encryption_alg_values_supported : option (list JsonWebEncryptionAlg);
  pm_id_token_encryption_enc_values_supported : option (list JsonWebEncryptionEnc);
  pm_userinfo_signing_alg_values_supported : option (list JsonWebSignatureAlg);
  pm_userinfo_encryption_alg_values_supported : option (list JsonWebEncryptionAlg);
  pm_userinfo_encryption_enc_values_supported : option (list JsonWebEncryptionEnc);
  pm_request_object_signing_alg_values_supported : option (list JsonWebSignatureAlg);
  pm_request_object_encryption_alg_values_supported : option (list JsonWebEncryptionAlg);
  pm_request_object_encryption_enc_values_supported : option (list JsonWebEncryptionEnc);
  pm_display_values_supported : option (list Display);
  pm_claim_types_supported : option (list ClaimType);
  pm_claims_supported : option (list string);
  pm_claims_locales_supported : option (list string);
  pm_claims_parameter_supported : option bool;
  pm_request_parameter_supported : option bool;
  pm_request_uri_parameter_supported : option bool;
  pm_require_request_uri_registration : option bool;
  pm_require_signed_request_object : option bool;
  pm_pushed_authorization_request_endpoint : option Url;
  pm_require_pushed_authorization_requests : option bool;
  pm_prompt_values_supported : option (list Prompt);
  pm_device_authorization_endpoint : option Url;
  pm_end_session_endpoint : option Url;
  pm_account_management_uri : option Url;
  pm_account_management_actions_supported : option (list AccountManagementAction);
}.

Definition ProviderMetadata_default : ProviderMetadata :=
  {| pm_issuer := None; pm_authorization_endpoint := None; pm_token_endpoint := None;
     pm_jwks_uri := None; pm_registration_endpoint := None; pm_scopes_supported := None;
     pm_response_types_supported := None; pm_response_modes_supported := None;
     pm_grant_types_supported := None; pm_token_endpoint_auth_methods_supported := None;
     pm_token_endpoint_auth_signing_alg_values_supported := None;
     pm_service_documentation := None; pm_ui_locales_supported := None; pm_op_policy_uri := None;
     pm_op_tos_uri := None; pm_revocation_endpoint := None;
     pm_revocation_endpoint_auth_methods_supported := None;
     pm_revocation_endpoint_auth_signing_alg_values_supported := None;
     pm_introspection_endpoint := None; pm_introspection_endpoint_auth_methods_supported := None;
     pm_introspection_endpoint_auth_signing_alg_values_supported := None;
     pm_code_challenge_methods_supported := None; pm_userinfo_endpoint := None;
     pm_acr_values_supported := None; pm_subject_types_supported := None;
     pm_id_token_signing_alg_values_supported := None;
     pm_id_token_encryption_alg_values_supported := None;
     pm_id_token_encryption_enc_values_supported := None;
     pm_userinfo_signing_alg_values_supported := None;
     pm_userinfo_encryption_alg_values_supported := None;
     pm_userinfo_encryption_enc_values_supported := None;
     pm_request_object_signing_alg_values_supported := None;
     pm_request_object_encryption_alg_values_supported := None;
     pm_request_object_encryption_enc_values_supported := None;
     pm_display_values_supported := None; pm_claim_types_supported := None;
     pm_claims_supported := None; pm_claims_locales_supported := None;
     pm_claims_parameter_supported := None; pm_request_parameter_supported := None;
     pm_request_uri_parameter_supported := None; pm_require_request_uri_registration := None;
     pm_require_signed_request_object := None; pm_pushed_authorization_request_endpoint := None;
     pm_require_pushed_authorization_requests := None; pm_prompt_values_supported := None;
     pm_device_authorization_endpoint := None; pm_end_session_endpoint := None;
     pm_account_management_uri := None; pm_account_management_actions_supported := None |}.

Definition DEFAULT_RESPONSE_MODES_SUPPORTED : list ResponseMode :=
  [ResponseMode_Query; ResponseMode_Fragment].
Definition DEFAULT_GRANT_TYPES_SUPPORTED : list GrantType :=
  [GrantType_AuthorizationCode; GrantType_Implicit].
Definition DEFAULT_AUTH_METHODS_SUPPORTED : list OAuthClientAuthenticationMethod :=
  [Auth_ClientSecretBasic].
Definition DEFAULT_CLAIM_TYPES_SUPPORTED : list ClaimType := [Claim_Normal].

Definition Provider_response_modes_supported (self : ProviderMetadata) : list ResponseMode :=
  default DEFAULT_RESPONSE_MODES_SUPPORTED (pm_response_modes_supported self).
Definition Provider_grant_types_supported (self : ProviderMetadata) : list GrantType :=
  default DEFAULT_GRANT_TYPES_SUPPORTED (pm_grant_types_supported self).
Definition Provider_token_endpoint_auth_methods_supported (self : ProviderMetadata)
    : list OAuthClientAuthenticationMethod :=
  default DEFAULT_AUTH_METHODS_SUPPORTED (pm_token_endpoint_auth_methods_supported self).
Definition Provider_revocation_endpoint_auth_methods_supported (self : ProviderMetadata)
    : list OAuthClientAuthenticationMethod :=
  default DEFAULT_AUTH_METHODS_SUPPORTED (pm_revocation_endpoint_auth_methods_supported self).
Definition Provider_claim_types_supported (self : ProviderMetadata) : list ClaimType :=
  default DEFAULT_CLAIM_TYPES_SUPPORTED (pm_claim_types_supported self).
Definition Provider_claims_parameter_supported (self : ProviderMetadata) : bool :=
  default false (pm_claims_parameter_supported self).
Definition Provider_request_parameter_supported (self : ProviderMetadata) : bool :=
  default false (pm_request_parameter_supported self).
Definition Provider_request_uri_parameter_supported (self : ProviderMetadata) : bool :=
  default true (pm_request_uri_parameter_supported self).
Definition Provider_require_request_uri_registration (self : ProviderMetadata) : bool :=
  default false (pm_require_request_uri_registration self).
Definition Provider_require_signed_request_object (self : ProviderMetadata) : bool :=
  default false (pm_require_signed_request_object self).
Definition Provider_require_pushed_authorization_requests (self : ProviderMetadata) : bool :=
  default false (pm_require_pushed_authorization_requests self).

Inductive ProviderMetadataVerificationError :=
| MissingIssuer
| IssuerNotUrl
| MissingAuthorizationEndpoint
| MissingTokenEndpoint
| MissingJwksUri
| MissingResponseTypesSupported
| MissingSubjectTypesSupported
| MissingIdTokenSigningAlgValuesSupported
| UrlNonHttpsScheme (field : string) (url : Url)
| UrlWithQuery (field : string) (url : Url)
| UrlWithFragment (field : string) (url : Url)
| IssuerUrlsDontMatch (expected actual : string)
| ScopesMissingOpenid
| ResponseTypesMissingCode
| ResponseTypesMissingIdToken
| ResponseTypesMissingIdTokenToken
| GrantTypesMissingAuthorizationCode
| GrantTypesMissingImplicit
| SigningAlgValuesWithNone (endpoint : string).

Record VerifiedProviderMetadata := { provider_inner : ProviderMetadata }.

(** The accessors of required fields; [expect] panics on [None]. *)
Definition Verified_issuer (self : VerifiedProviderMetadata) : option string :=
  pm_issuer (provider_inner self).
Definition Verified_authorization_endpoint (self : VerifiedProviderMetadata) : option Url :=
  pm_authorization_endpoint (provider_inner self).
Definition Verified_userinfo_endpoint (self : VerifiedProviderMetadata) : option Url :=
  pm_userinfo_endpoint (provider_inner self).
Definition Verified_token_endpoint (self : VerifiedProviderMetadata) : option Url :=
  pm_token_endpoint (provider_inner self).
Definition Verified_jwks_uri (self : VerifiedProviderMetadata) : option Url :=
  pm_jwks_uri (provider_inner self).
Definition Verified_response_types_supported (self : VerifiedProviderMetadata)
    : option (list (gset ResponseTypeToken)) :=
  pm_response_types_supported (provider_inner self).
Definition Verified_subject_types_supported (self : VerifiedProviderMetadata)
    : option (list SubjectType) :=
  pm_subject_types_supported (provider_inner self).
Definition Verified_id_token_signing_alg_values_supported (self : VerifiedProviderMetadata)
    : option (list JsonWebSignatureAlg) :=
  pm_id_token_signing_alg_values_supported (provider_inner self).

Abbreviation Verdict := (result unit ProviderMetadataVerificationError).

(** [UrlValidator], a builder of the constraints on a URL. *)
Record UrlValidator := {
  validator_field_name : string;
  validator_allow_query : bool;
  validator_allow_fragment : bool;
}.
Definition UrlValidator_new (field_name : string) : UrlValidator :=
  {| validator_field_name := field_name; validator_allow_query := true;
     validator_allow_fragment := true |}.
Definition forbid_fragment (self : UrlValidator) : UrlValidator :=
  {| validator_field_name := validator_field_name self;
     validator_allow_query := validator_allow_query self; validator_allow_fragment := false |}.
Definition forbid_query (self : UrlValidator) : UrlValidator :=
  {| validator_field_name := validator_field_name self; validator_allow_query := false;
     validator_allow_fragment := validator_allow_fragment self |}.

(** [reject_none_signing_alg] over [Option<Vec<_>>::iter().flatten()] *)
Fixpoint reject_none_loop (endpoint : string) (alg_values : list JsonWebSignatureAlg) : Verdict :=
  match alg_values with
  | [] => Ok tt
  | alg :: algs =>
      if bool_decide (alg = Alg_None) then Err (SigningAlgValuesWithNone endpoint)
      else reject_none_loop endpoint algs
  end.
Definition reject_none_signing_alg (endpoint : string) (alg_values : option (list JsonWebSignatureAlg))
    : Verdict :=
  reject_none_loop endpoint (default [] alg_values).

(** [require_field!] *)
Definition require_field {A} (field : option A) (e : ProviderMetadataVerificationError) : Verdict :=
  match field with Some _ => Ok tt | None => Err e end.

Definition insecure_verify_metadata (self : ProviderMetadata)
    : result VerifiedProviderMetadata ProviderMetadataVerificationError :=
  result_bind (require_field (pm_issuer self) MissingIssuer) (λ _,
  result_bind (require_field (pm_authorization_endpoint self) MissingAuthorizationEndpoint) (λ _,
  result_bind (require_field (pm_token_endpoint self) MissingTokenEndpoint) (λ _,
  result_bind (require_field (pm_jwks_uri self) MissingJwksUri) (λ _,
  result_bind (require_field (pm_response_types_supported self) MissingResponseTypesSupported) (λ _,
  result_bind (require_field (pm_subject_types_supported self) MissingSubjectTypesSupported) (λ _,
  result_bind (require_field (pm_id_token_signing_alg_values_supported self)
                 MissingIdTokenSigningAlgValuesSupported) (λ _,
  Ok {| provider_inner := self |}))))))).

Section provider.
Context {UX : UrlExternals} {VX : UrlPartsExternals}.

Definition UrlValidator_check (self : UrlValidator) (url : Url) : Verdict :=
  if negb (bool_decide (url_scheme url = "https")) then
    Err (UrlNonHttpsScheme (validator_field_name self) url)
  else if negb (validator_allow_query self) && bool_decide (is_Some (url_query url)) then
    Err (UrlWithQuery (validator_field_name self) url)
  else if negb (validator_allow_fragment self) && bool_decide (is_Some (url_fragment url)) then
    Err (UrlWithFragment (validator_field_name self) url)
  else Ok tt.

(** A rule; [None] if it panics. *)
Definition ValidationRule : Type := VerifiedProviderMetadata → option Verdict.

Definition required_url_rule (v : UrlValidator) (get : VerifiedProviderMetadata → option Url)
    : ValidationRule := λ m, UrlValidator_check v <$> get m.
Definition optional_url_rule (v : UrlValidator) (get : ProviderMetadata → option Url)
    : ValidationRule := λ m,
  Some match get (provider_inner m) with Some url => UrlValidator_check v url | None => Ok tt end.
Definition signing_alg_rule (endpoint : string)
    (get : ProviderMetadata → option (list JsonWebSignatureAlg)) : ValidationRule := λ m,
  Some (reject_none_signing_alg endpoint (get (provider_inner m))).

Definition issuer_matches_rule (expected : string) : ValidationRule := λ m,
  issuer ← Verified_issuer m;
  Some (if bool_decide (issuer = expected) then Ok tt else Err (IssuerUrlsDontMatch expected issuer)).
Definition issuer_url_rule : ValidationRule := λ m,
  issuer ← Verified_issuer m;
  Some match url_parse issuer with
       | None => Err IssuerNotUrl
       | Some url => UrlValidator_check (forbid_fragment (forbid_query (UrlValidator_new "issuer"))) url
       end.
Definition scopes_rule : ValidationRule := λ m,
  Some match pm_scopes_supported (provider_inner m) with
       | Some scopes =>
           if existsb (λ s, bool_decide (s = "openid")) scopes then Ok tt else Err ScopesMissingOpenid
       | None => Ok tt
       end.

Definition validation_rules (issuer : string) : list ValidationRule :=
  [issuer_matches_rule issuer;
   issuer_url_rule;
   required_url_rule (forbid_fragment (UrlValidator_new "authorization_endpoint"))
     Verified_authorization_endpoint;
   required_url_rule (forbid_fragment (UrlValidator_new "token_endpoint")) Verified_token_endpoint;
   required_url_rule (UrlValidator_new "jwks_uri") Verified_jwks_uri;
   optional_url_rule (UrlValidator_new "registration_endpoint") pm_registration_endpoint;
   scopes_rule;
   signing_alg_rule "token_endpoint" pm_token_endpoint_auth_signing_alg_values_supported;
   optional_url_rule (forbid_fragment (UrlValidator_new "revocation_endpoint")) pm_revocation_endpoint;
   signing_alg_rule "revocation_endpoint" pm_revocation_endpoint_auth_signing_alg_values_supported;
   optional_url_rule (UrlValidator_new "introspection_endpoint") pm_introspection_endpoint;
   signing_alg_rule "introspection_endpoint"
     pm_introspection_endpoint_auth_signing_alg_values_supported;
   optional_url_rule (UrlValidator_new "userinfo_endpoint") pm_userinfo_endpoint;
   optional_url_rule (UrlValidator_new "pushed_authorization_request_endpoint")
     pm_pushed_authorization_request_endpoint;
   optional_url_rule (UrlValidator_new "end_session_endpoint") pm_end_session_endpoint].

(** [for rule in rules { rule(&verified)?; }] *)
Fixpoint run_rules (rules : list ValidationRule) (m : VerifiedProviderMetadata) : option Verdict :=
  match rules with
  | [] => Some (Ok tt)
  | rule :: rules =>
      match rule m with
      | None => None
      | Some (Err e) => Some (Err e)
      | Some (Ok _) => run_rules rules m
      end
  end.

Definition ProviderMetadata_validate (self : ProviderMetadata) (issuer : string)
    : option (result VerifiedProviderMetadata ProviderMetadataVerificationError) :=
  match insecure_verify_metadata self with
  | Err e => Some (Err e)
  | Ok verified =>
      match run_rules (validation_rules issuer) verified with
      | None => None
      | Some (Err e) => Some (Err e)
      | Some (Ok _) => Some (Ok verified)
      end
  end.
End provider.

(** ** The URLs of the server (url_builder.rs) *)

(** [trim_start_matches] and [trim_end_matches] of a character. *)
Fixpoint trim_start_matches (c : ascii) (s : string) : string :=
  match s with
  | String a s' => if bool_decide (a = c) then trim_start_matches c s' else s
  | EmptyString => EmptyString
  end.
Fixpoint trim_end_matches (c : ascii) (s : string) : string :=
  match s with
  | EmptyString => EmptyString
  | String a s' =>
      if str_all (λ b, bool_decide (b = c)) s then EmptyString else String a (trim_end_matches c s')
  end.

Class UrlBuildExternals := {
  url_path : string → string;
  url_join : string → string → option string;
  url_set_query : string → option string → string;
}.

(** A path of plain segments: joined to a base, it replaces the path of the base only. *)
Definition plain_char (a : ascii) : bool :=
  ((97 <=? byte_of a) && (byte_of a <=? 122)) || ((48 <=? byte_of a) && (byte_of a <=? 57))
  || bool_decide (a ∈ ["/"%char; "."%char; "-"%char]).
Definition plain_path (s : string) : bool :=
  match s with
  | EmptyString => false
  | String a _ => negb (bool_decide (a = "/"%char)) && str_all plain_char s
  end.

(** The URL standard, for bases with the scheme [http] or [https]. *)
Class UrlBuildExternalsOk {UX : UrlExternals} {VX : UrlPartsExternals} (BX : UrlBuildExternals)
    : Prop := {
  url_join_plain base path :
    url_scheme base = "http" ∨ url_scheme base = "https" → plain_path path = true →
    ∃ u, url_join base path = Some u ∧ url_scheme u = url_scheme base ∧
      url_query u = None ∧ url_fragment u = None;
}.

Record UrlBuilder := {
  ub_http_base : Url;
  ub_prefix : string;
  ub_assets_base : string;
  ub_issuer : Url;
}.

Section url_builder.
Context {VX : UrlPartsExternals} {BX : UrlBuildExternals}.

(** [None] for a failed assertion. *)
Definition UrlBuilder_new (base : Url) (issuer : option Url) (assets_base : option string)
    : option UrlBuilder :=
  if negb (bool_decide (url_scheme base = "http" ∨ url_scheme base = "https")) then None
  else if negb (bool_decide (url_query base = None)) then None
  else if negb (bool_decide (url_fragment base = None)) then None
  else if negb (bool_decide (url_username base = "")) then None
  else if negb (bool_decide (url_password base = None)) then None
  else
    let prefix := trim_end_matches "/"%char (url_path base) in
    Some {| ub_http_base := base;
            ub_prefix := prefix;
            ub_assets_base := default (prefix +:+ "/assets/") assets_base;
            ub_issuer := default base issuer |}.

(** [join(..).unwrap()] panics on [None]. *)
Definition absolute_url (self : UrlBuilder) (path : string) : option Url :=
  url_join (ub_http_base self) (trim_start_matches "/"%char path).
Definition absolute_url_for_issuer (self : UrlBuilder) (path : string) : option Url :=
  url_join (ub_issuer self) (trim_start_matches "/"%char path).
Definition relative_url (self : UrlBuilder) (path : string) : string := ub_prefix self +:+ path.
Definition UrlBuilder_prefix (self : UrlBuilder) : option string :=
  if bool_decide (ub_prefix self = "") then None else Some (ub_prefix self).

Definition builder_oidc_issuer (self : UrlBuilder) : Url := ub_issuer self.
Definition oidc_discovery (self : UrlBuilder) : option Url :=
  absolute_url_for_issuer self "/.well-known/openid-configuration".
Definition builder_oauth_authorization_endpoint (self : UrlBuilder) := absolute_url self "/authorize".
Definition builder_oauth_token_endpoint (self : UrlBuilder) := absolute_url self "/oauth2/token".
Definition builder_oauth_introspection_endpoint (self : UrlBuilder) :=
  absolute_url self "/oauth2/introspect".
Definition builder_oauth_revocation_endpoint (self : UrlBuilder) := absolute_url self "/oauth2/revoke".
Definition builder_oauth_registration_endpoint (self : UrlBuilder) :=
  absolute_url self "/oauth2/registration".
Definition builder_oauth_device_authorization_endpoint (self : UrlBuilder) :=
  absolute_url self "/oauth2/device".
Definition builder_oidc_userinfo_endpoint (self : UrlBuilder) := absolute_url self "/oauth2/userinfo".
Definition builder_jwks_uri (self : UrlBuilder) := absolute_url self "/oauth2/keys.json".
Definition account_management_uri (self : UrlBuilder) := absolute_url self "/account/".
Definition builder_device_code_link (self : UrlBuilder) := absolute_url self "/link".
Definition builder_device_code_link_full (self : UrlBuilder) (code : string) : option Url :=
  (λ url, url_set_query url (Some ("code=" +:+ code))) <$> absolute_url self "/link".
Definition account_recovery_link (self : UrlBuilder) (ticket : string) : option Url :=
  (λ url, url_set_query url (Some ("ticket=" +:+ ticket))) <$>
    absolute_url self "/account/password/recovery".
End url_builder.

(** ** The algorithms the server signs with (jwk/mod.rs) *)

(** The derived order. *)
Definition signature_alg_rank (a : JsonWebSignatureAlg) : Z :=
  match a with
  | Hs256 => 0 | Hs384 => 1 | Hs512 => 2 | Rs256 => 3 | Rs384 => 4 | Rs512 => 5 | Es256 => 6
  | Es384 => 7 | Es512 => 8 | Ps256 => 9 | Ps384 => 10 | Ps512 => 11 | Alg_None => 12 | EdDsa => 13
  | Es256K => 14 | Ed25519 => 15 | Ed448 => 16 | Alg_Unknown _ => 17
  end.
Definition signature_alg_le : relation JsonWebSignatureAlg :=
  enum_le signature_alg_rank (λ a, match a with Alg_Unknown name => name | _ => "" end).

(** [dedup] removes neighbours that are equal. *)
Fixpoint dedup {A} `{!EqDecision A} (l : list A) : list A :=
  match l with
  | [] => []
  | a :: l =>
      match dedup l with
      | [] => [a]
      | b :: l' => if bool_decide (a = b) then b :: l' else a :: b :: l'
      end
  end.

Definition available_signing_algorithms {P} `{!ParametersInfo P} (keys : list (JsonWebKey P))
    : list JsonWebSignatureAlg :=
  let algs := find_keys keys [Constraint_Use Use_Sig] ≫= (λ key,
    match jwk_alg key with
    | Some alg => [alg]
    | None => possible_algs (jwk_parameters key)
    end) in
  dedup (merge_sort signature_alg_le algs).

Definition SUPPORTED_SIGNING_ALGORITHMS : list JsonWebSignatureAlg :=
  [Hs256; Hs384; Hs512; Rs256; Rs384; Rs512; Ps256; Ps384; Ps512; Es256; Es384; Es256K; Es512; EdDsa].

(** ** Discovery (discovery.rs) *)

Record DiscoveryResponse := {
  dr_standard : ProviderMetadata;
  dr_api_endpoint : string;
  dr_account_management_uri : Url;
  dr_account_management_actions_supported : list string;
}.

Definition EMAIL : string := "email".

Definition client_auth_methods_supported : list OAuthClientAuthenticationMethod :=
  [Auth_ClientSecretBasic; Auth_ClientSecretPost; Auth_ClientSecretJwt; Auth_PrivateKeyJwt; Auth_None].

Section discovery.
Context {VX : UrlPartsExternals} {BX : UrlBuildExternals}.

(** [None] if the URL of an endpoint cannot be built. *)
Definition build_discovery (key_store : list (JsonWebKey PrivateKey)) (url_builder : UrlBuilder)
    (password_registration_enabled : bool) : option DiscoveryResponse :=
  authorization_endpoint ← builder_oauth_authorization_endpoint url_builder;
  token_endpoint ← builder_oauth_token_endpoint url_builder;
  device_authorization_endpoint ← builder_oauth_device_authorization_endpoint url_builder;
  jwks_uri ← builder_jwks_uri url_builder;
  introspection_endpoint ← builder_oauth_introspection_endpoint url_builder;
  revocation_endpoint ← builder_oauth_revocation_endpoint url_builder;
  userinfo_endpoint ← builder_oidc_userinfo_endpoint url_builder;
  registration_endpoint ← builder_oauth_registration_endpoint url_builder;
  account_management_uri ← account_management_uri url_builder;
  Some {| dr_standard := {|
         pm_issuer := Some (builder_oidc_issuer url_builder);
         pm_authorization_endpoint := Some authorization_endpoint;
         pm_token_endpoint := Some token_endpoint; pm_jwks_uri := Some jwks_uri;
         pm_registration_endpoint := Some registration_endpoint;
         pm_scopes_supported := Some [OPENID; EMAIL; "urn:matrix:client:api:*"];
         pm_response_types_supported := Some (ResponseType_from <$> [Iana_Code; Iana_IdToken; Iana_CodeIdToken]);
         pm_response_modes_supported := Some [ResponseMode_FormPost; ResponseMode_Query; ResponseMode_Fragment];
         pm_grant_types_supported := Some [GrantType_AuthorizationCode; GrantType_RefreshToken;
                                         GrantType_ClientCredentials; GrantType_DeviceCode];
         pm_token_endpoint_auth_methods_supported := Some client_auth_methods_supported;
         pm_token_endpoint_auth_signing_alg_values_supported := Some SUPPORTED_SIGNING_ALGORITHMS;
         pm_service_documentation := None; pm_ui_locales_supported := None;
         pm_op_policy_uri := None; pm_op_tos_uri := None;
         pm_revocation_endpoint := Some revocation_endpoint;
         pm_revocation_endpoint_auth_methods_supported := Some client_auth_methods_supported;
         pm_revocation_endpoint_auth_signing_alg_values_supported := Some SUPPORTED_SIGNING_ALGORITHMS;
         pm_introspection_endpoint := Some introspection_endpoint;
         pm_introspection_endpoint_auth_methods_supported :=
           Some (Either_AuthenticationMethod <$> client_auth_methods_supported);
         pm_introspection_endpoint_auth_signing_alg_values_supported := Some SUPPORTED_SIGNING_ALGORITHMS;
         pm_code_challenge_methods_supported := Some [Plain; S256];
         pm_userinfo_endpoint := Some userinfo_endpoint; pm_acr_values_supported := None;
         pm_subject_types_supported := Some [Subject_Public];
         pm_id_token_signing_alg_values_supported :=
           Some (available_signing_algorithms key_store);
         pm_id_token_encryption_alg_values_supported := None;
         pm_id_token_encryption_enc_values_supported := None;
         pm_userinfo_signing_alg_values_supported :=
           Some (available_signing_algorithms key_store);
         pm_userinfo_encryption_alg_values_supported := None;
         pm_userinfo_encryption_enc_values_supported := None;
         pm_request_object_signing_alg_values_supported := None;
         pm_request_object_encryption_alg_values_supported := None;
         pm_request_object_encryption_enc_values_supported := None;
         pm_display_values_supported := Some [Display_Page];
         pm_claim_types_supported := Some [Claim_Normal];
         pm_claims_supported :=
           Some ["iss"; "sub"; "aud"; "iat"; "exp"; "nonce"; "auth_time"; "at_hash"; "c_hash"];
         pm_claims_locales_supported := None; pm_claims_parameter_supported := Some false;
         pm_request_parameter_supported := Some false;
         pm_request_uri_parameter_supported := Some false;
         pm_require_request_uri_registration := None; pm_require_signed_request_object := None;
         pm_pushed_authorization_request_endpoint := None;
         pm_require_pushed_authorization_requests := None;
         pm_prompt_values_supported :=
           Some (Prompt_Login :: if password_registration_enabled then [Prompt_Create] else []);
         pm_device_authorization_endpoint := Some device_authorization_endpoint;
         pm_end_session_endpoint := None; pm_account_management_uri := None;
         pm_account_management_actions_supported := None |};
     dr_api_endpoint := default "" (UrlBuilder_prefix url_builder) +:+ "/api/v1";
     dr_account_management_uri := account_management_uri;
     dr_account_management_actions_supported :=
       ["org.matrix.profile"; "org.matrix.sessions_list"; "org.matrix.session_view";
        "org.matrix.session_end"; "org.matrix.cross_signing_reset"] |}.
End discovery.

(** ** WebFinger (webfinger.rs) *)

Inductive WebFingerLink := OidcIssuer (href : Url).

Record WebFingerResponse := {
  wf_subject : string;
  wf_links : list WebFingerLink;
}.
Definition WebFingerResponse_new (subject : string) : WebFingerResponse :=
  {| wf_subject := subject; wf_links := [] |}.
Definition with_link (self : WebFingerResponse) (link : WebFingerLink) : WebFingerResponse :=
  {| wf_subject := wf_subject self; wf_links := wf_links self ++ [link] |}.
Definition with_issuer (self : WebFingerResponse) (issuer : Url) : WebFingerResponse :=
  with_link self (OidcIssuer issuer).

(** [serde] of the response: the variant is the [rel] of the link. *)
Definition ISSUER_REL : string := "http://openid.net/specs/connect/1.0/issuer".
Definition WebFingerLink_to_value (self : WebFingerLink) : Json :=
  match self with
  | OidcIssuer href => Json_Object [("rel", Json_String ISSUER_REL); ("href", Json_String href)]
  end.
Definition WebFingerResponse_to_value (self : WebFingerResponse) : Json :=
  Json_Object [("subject", Json_String (wf_subject self));
               ("links", Json_Array (WebFingerLink_to_value <$> wf_links self))].

(** The handler, once its parameters are read. *)
Definition webfinger_get (url_builder : UrlBuilder) (resource : string) (rel : option string)
    : WebFingerResponse :=
  let wants_issuer := match rel with Some i => bool_decide (i = ISSUER_REL) | None => false end in
  if wants_issuer
  then with_issuer (WebFingerResponse_new resource) (builder_oidc_issuer url_builder)
  else WebFingerResponse_new resource.
