(* ===== verification/FlowEngine.v ===== *)
(** The flow engine: crates/data/src/flow.rs (flows, stages, sessions, challenges, responses),
    crates/backend/src/handlers/flow/{definition,defaults,executor,mod}.rs (declarative and
    built-in flows, the executor, the store of sessions) and
    crates/backend/src/handlers/account/flow.rs (its endpoints).

    The store of sessions is a map in memory, shared by all requests and locked for the whole of
    each of them; what a request changed in a session before an error stays. What the CAPTCHA
    provider answers is an input of each response. *)
From S2P Require Import Prelude Ids TokenFormat Scope Pkce Jose Keystore Domain Database Repository.

Open Scope Z_scope.

(** ** Data (flow.rs) *)

Inductive FlowDesignation :=
| Flow_Registration | Flow_Recovery | Flow_PasswordChange | Flow_Authentication
| Flow_Authorization | Flow_Enrollment | Flow_StageConfiguration.

Record FlowDefinition := {
  flow_id : Ulid;
  flow_slug : string;
  flow_title : string;
  flow_designation : FlowDesignation;
  flow_enabled : bool;
  flow_template_override : option string;
  flow_created_at : DateTime;
  flow_updated_at : DateTime
}.

Inductive IdentificationField := Identify_Username | Identify_Email | Identify_Phone.
Inductive AuthenticatorType := Authenticator_Totp | Authenticator_WebAuthn.
Inductive PromptFieldType :=
| Prompt_Text | Prompt_Email | Prompt_Password | Prompt_Checkbox | Prompt_Hidden | Prompt_Select.

Record PromptField := {
  prompt_field_key : string;
  prompt_label : string;
  prompt_field_type : PromptFieldType;
  prompt_required : bool;
  prompt_placeholder : option string;
  prompt_order : Z
}.

Inductive StageKind :=
| Stage_Identification (user_fields : list IdentificationField) (password_stage : bool)
| Stage_EmailVerification (purpose template_key : string) (code_expiry_seconds max_attempts : Z)
| Stage_PasswordWrite (require_current : bool)
| Stage_UserWrite (create_users_as_inactive : bool)
| Stage_Captcha
| Stage_Consent
| Stage_Prompt (fields : list PromptField)
| Stage_AuthenticatorValidate (allowed_types : list AuthenticatorType)
| Stage_EnrollmentToken (required : bool).

Record FlowStageBinding := {
  binding_id : Ulid;
  binding_flow_id : Ulid;
  binding_stage : StageKind;
  binding_order : Z;
  binding_evaluate_on_plan : bool;
  binding_policy_expression : option Json;
  binding_created_at : DateTime
}.

Inductive FlowSessionStatus := Flow_InProgress | Flow_Completed | Flow_Cancelled | Flow_Expired.

Definition FlowSessionStatus_is_terminal (self : FlowSessionStatus) : bool :=
  match self with Flow_Completed | Flow_Cancelled | Flow_Expired => true | Flow_InProgress => false end.

Record FlowSession := {
  fsn_id : Ulid;
  fsn_flow_id : Ulid;
  fsn_current_stage_index : nat;
  fsn_status : FlowSessionStatus;
  fsn_context : Json;
  fsn_ip_address : option IpAddr;
  fsn_user_agent : option string;
  fsn_created_at : DateTime;
  fsn_updated_at : DateTime;
  fsn_expires_at : DateTime;
  fsn_completed_at : option DateTime
}.

Inductive StageChallenge :=
| Challenge_Identification (user_fields : list IdentificationField) (password_stage : bool)
| Challenge_EmailVerification (email purpose : string)
| Challenge_PasswordWrite (require_current : bool)
| Challenge_UserWrite (suggested_username : option string)
| Challenge_Captcha (site_key : string)
| Challenge_Consent (scope : string) (client_name : option string)
| Challenge_Prompt (fields : list PromptField)
| Challenge_AuthenticatorValidate (allowed_types : list AuthenticatorType)
| Challenge_EnrollmentToken (required : bool)
| Challenge_FlowDone (redirect_to : option string).

Inductive StageResponse :=
| Response_Identification (uid_field : string) (password : option string)
| Response_EmailVerification (code : string)
| Response_PasswordWrite (current_password : option string) (new_password : string)
| Response_UserWrite (username : string) (display_name : option string)
| Response_Captcha (token : string)
| Response_Consent (granted : bool)
| Response_Prompt (data : Json)
| Response_AuthenticatorValidate (authenticator_type : AuthenticatorType) (code : string)
| Response_EnrollmentToken (token : string).

Record StageValidationError := {
  sve_field : option string;
  sve_message : string;
  sve_code : string
}.

Inductive StageOutcome :=
| Outcome_Continue
| Outcome_Retry (errors : list StageValidationError)
| Outcome_Done (redirect_to : option string).

(** The fields of a session that change. *)
Definition FlowSession_set_stage (i : nat) (s : FlowSession) : FlowSession :=
  {| fsn_id := fsn_id s; fsn_flow_id := fsn_flow_id s; fsn_current_stage_index := i;
     fsn_status := fsn_status s; fsn_context := fsn_context s; fsn_ip_address := fsn_ip_address s;
     fsn_user_agent := fsn_user_agent s; fsn_created_at := fsn_created_at s;
     fsn_updated_at := fsn_updated_at s; fsn_expires_at := fsn_expires_at s;
     fsn_completed_at := fsn_completed_at s |}.
Definition FlowSession_set_context (context : Json) (now : DateTime) (s : FlowSession) : FlowSession :=
  {| fsn_id := fsn_id s; fsn_flow_id := fsn_flow_id s;
     fsn_current_stage_index := fsn_current_stage_index s;
     fsn_status := fsn_status s; fsn_context := context; fsn_ip_address := fsn_ip_address s;
     fsn_user_agent := fsn_user_agent s; fsn_created_at := fsn_created_at s;
     fsn_updated_at := now; fsn_expires_at := fsn_expires_at s;
     fsn_completed_at := fsn_completed_at s |}.
Definition FlowSession_complete (stages : nat) (now : DateTime) (s : FlowSession) : FlowSession :=
  {| fsn_id := fsn_id s; fsn_flow_id := fsn_flow_id s; fsn_current_stage_index := stages;
     fsn_status := Flow_Completed; fsn_context := fsn_context s; fsn_ip_address := fsn_ip_address s;
     fsn_user_agent := fsn_user_agent s; fsn_created_at := fsn_created_at s;
     fsn_updated_at := fsn_updated_at s; fsn_expires_at := fsn_expires_at s;
     fsn_completed_at := Some now |}.

(** [Value::get] *)
Definition value_get (key : string) (v : Json) : option Json :=
  match v with
  | Json_Object fields => (λ '(_, (_, x)), x) <$> list_find (λ kv, kv.1 = key) fields
  | _ => None
  end.
Definition value_as_str (v : Json) : option string :=
  match v with Json_String s => Some s | _ => None end.
Definition get_str (key : string) (v : Json) : option string := value_get key v ≫= value_as_str.

(** [Map::insert], which keeps the order of the keys. *)
Fixpoint fields_insert (key : string) (x : Json) (fields : list (string * Json)) : list (string * Json) :=
  match fields with
  | [] => [(key, x)]
  | (k, y) :: fields =>
      if bool_decide (k = key) then (k, x) :: fields else (k, y) :: fields_insert key x fields
  end.
(** [if let Some(ctx) = context.as_object_mut() { ctx.insert(key, x); }] *)
Definition context_insert (key : string) (x : Json) (context : Json) : Json :=
  match context with
  | Json_Object fields => Json_Object (fields_insert key x fields)
  | _ => context
  end.

(** ** Declarative flows (definition.rs) *)

Inductive StageDefinition :=
| Def_Identification (order : Z) (user_fields : option (list string)) (password_stage : option bool)
| Def_EmailVerification (order : Z) (purpose template_key : string)
    (code_expiry_seconds max_attempts : Z)
| Def_PasswordWrite (order : Z) (require_current : option bool)
| Def_UserWrite (order : Z) (create_users_as_inactive : option bool)
| Def_Captcha (order : Z)
| Def_Consent (order : Z)
| Def_Prompt (order : Z) (fields : list PromptField)
| Def_AuthenticatorValidate (order : Z) (allowed_types : list AuthenticatorType).

Record FlowDefinitionFile := {
  fdf_slug : string;
  fdf_title : string;
  fdf_designation : string;
  fdf_template_override : option string;
  fdf_stages : list StageDefinition
}.

(** Names that are not known make the conversion panic, which is [None]. *)
Definition designation_of (s : string) : option FlowDesignation :=
  if String.eqb s "registration" then Some Flow_Registration
  else if String.eqb s "recovery" then Some Flow_Recovery
  else if String.eqb s "password_change" then Some Flow_PasswordChange
  else if String.eqb s "authentication" then Some Flow_Authentication
  else if String.eqb s "authorization" then Some Flow_Authorization
  else if String.eqb s "enrollment" then Some Flow_Enrollment
  else if String.eqb s "stage_configuration" then Some Flow_StageConfiguration
  else None.
Definition identification_field_of (s : string) : option IdentificationField :=
  if String.eqb s "username" then Some Identify_Username
  else if String.eqb s "email" then Some Identify_Email
  else if String.eqb s "phone" then Some Identify_Phone
  else None.

Definition into_stage_kind (self : StageDefinition) : option (StageKind * Z) :=
  match self with
  | Def_Identification order user_fields password_stage =>
      fields ← mapM identification_field_of (default [] user_fields);
      Some (Stage_Identification fields (default false password_stage), order)
  | Def_EmailVerification order purpose template_key expiry max_attempts =>
      Some (Stage_EmailVerification purpose template_key expiry max_attempts, order)
  | Def_PasswordWrite order require_current =>
      Some (Stage_PasswordWrite (default false require_current), order)
  | Def_UserWrite order inactive => Some (Stage_UserWrite (default false inactive), order)
  | Def_Captcha order => Some (Stage_Captcha, order)
  | Def_Consent order => Some (Stage_Consent, order)
  | Def_Prompt order fields => Some (Stage_Prompt fields, order)
  | Def_AuthenticatorValidate order allowed => Some (Stage_AuthenticatorValidate allowed, order)
  end.

(** A binding of a stage to a flow, with a fresh identifier. *)
Definition bind_stage (flow : Ulid) (now : DateTime) (stage : StageKind) (order : Z) (rng : Rng)
    : FlowStageBinding * Rng :=
  let '(id, rng) := new_id now rng in
  ({| binding_id := id; binding_flow_id := flow; binding_stage := stage; binding_order := order;
      binding_evaluate_on_plan := false; binding_policy_expression := None;
      binding_created_at := now |}, rng).
Fixpoint bind_stages (flow : Ulid) (now : DateTime) (stages : list (StageKind * Z)) (rng : Rng)
    : list FlowStageBinding * Rng :=
  match stages with
  | [] => ([], rng)
  | (stage, order) :: stages =>
      let '(b, rng) := bind_stage flow now stage order rng in
      let '(bs, rng) := bind_stages flow now stages rng in
      (b :: bs, rng)
  end.

(** A flow whose stages are given, all created at one time. *)
Definition build_flow (slug title : string) (designation : FlowDesignation)
    (template_override : option string) (stages : list (StageKind * Z)) (now : DateTime) (rng : Rng)
    : (FlowDefinition * list FlowStageBinding) * Rng :=
  let '(id, rng) := new_id now rng in
  let flow := {| flow_id := id; flow_slug := slug; flow_title := title;
                 flow_designation := designation; flow_enabled := true;
                 flow_template_override := template_override;
                 flow_created_at := now; flow_updated_at := now |} in
  let '(bindings, rng) := bind_stages id now stages rng in
  ((flow, bindings), rng).

Definition into_flow (self : FlowDefinitionFile) (now : DateTime) (rng : Rng)
    : option ((FlowDefinition * list FlowStageBinding) * Rng) :=
  designation ← designation_of (fdf_designation self);
  stages ← mapM into_stage_kind (fdf_stages self);
  Some (build_flow (fdf_slug self) (fdf_title self) designation (fdf_template_override self)
          stages now rng).

(** ** Built-in flows (defaults.rs) *)

Definition default_registration_flow : DateTime → Rng → (FlowDefinition * list FlowStageBinding) * Rng :=
  build_flow "default-registration" "Default Registration" Flow_Registration None
    [(Stage_UserWrite false, 10);
     (Stage_EmailVerification "registration" "verification" 300 5, 20)].
Definition default_recovery_flow : DateTime → Rng → (FlowDefinition * list FlowStageBinding) * Rng :=
  build_flow "default-recovery" "Default Recovery" Flow_Recovery None
    [(Stage_Identification [Identify_Email] false, 10);
     (Stage_EmailVerification "recovery" "recovery" 600 5, 20);
     (Stage_PasswordWrite false, 30)].
Definition default_password_change_flow : DateTime → Rng → (FlowDefinition * list FlowStageBinding) * Rng :=
  build_flow "default-password-change" "Default Password Change" Flow_PasswordChange None
    [(Stage_PasswordWrite true, 10)].
Definition default_authentication_flow : DateTime → Rng → (FlowDefinition * list FlowStageBinding) * Rng :=
  build_flow "default-authentication" "Default Authentication" Flow_Authentication None
    [(Stage_Identification [Identify_Username; Identify_Email] true, 10)].
Definition default_authorization_flow : DateTime → Rng → (FlowDefinition * list FlowStageBinding) * Rng :=
  build_flow "default-authorization" "Authorization Consent" Flow_Authorization None
    [(Stage_Consent, 10)].
Definition default_enrollment_flow : DateTime → Rng → (FlowDefinition * list FlowStageBinding) * Rng :=
  build_flow "default-enrollment" "Invitation Registration" Flow_Enrollment None
    [(Stage_EnrollmentToken true, 10);
     (Stage_UserWrite false, 20);
     (Stage_EmailVerification "registration" "verification" 300 5, 30)].

(** ** The executor (executor.rs) *)

Inductive FlowPlannerError :=
| Planner_FlowNotFound (slug : string)
| Planner_SessionExpired
| Planner_AlreadyCompleted
| Planner_NoMoreStages.

Record FlowPlan := { plan_flow : FlowDefinition; plan_stages : list FlowStageBinding }.

(** [sort_by_key], which is stable. *)
Fixpoint insert_binding (b : FlowStageBinding) (l : list FlowStageBinding) : list FlowStageBinding :=
  match l with
  | [] => [b]
  | c :: l' => if binding_order b <=? binding_order c then b :: l else c :: insert_binding b l'
  end.
Definition sort_bindings (l : list FlowStageBinding) : list FlowStageBinding :=
  foldr insert_binding [] l.

Definition FlowExecutor_plan (flow : FlowDefinition) (bindings : list FlowStageBinding) : FlowPlan :=
  {| plan_flow := flow; plan_stages := sort_bindings bindings |}.

(** [context.get(key) == Some(&Value::Bool(true))] *)
Definition is_true (key : string) (context : Json) : bool :=
  match value_get key context with Some (Json_Bool true) => true | _ => false end.

Definition is_stage_satisfied (stage : StageKind) (context : Json) : bool :=
  match stage with
  | Stage_Identification _ _ => bool_decide (is_Some (value_get "user_id" context))
  | Stage_EmailVerification _ _ _ _ => is_true "email_verified" context
  | Stage_PasswordWrite _ => is_true "password_set" context
  | Stage_UserWrite _ => is_true "user_created" context
  | Stage_AuthenticatorValidate _ => is_true "mfa_validated" context
  | Stage_Captcha => is_true "captcha_verified" context
  | Stage_EnrollmentToken _ => bool_decide (is_Some (value_get "enrollment_token_id" context))
  | Stage_Consent | Stage_Prompt _ => false
  end.

Definition challenge_for_stage (stage : StageKind) (context : Json) : StageChallenge :=
  match stage with
  | Stage_Identification user_fields password_stage =>
      Challenge_Identification user_fields password_stage
  | Stage_EmailVerification purpose _ _ _ =>
      Challenge_EmailVerification (default "" (get_str "email" context)) purpose
  | Stage_PasswordWrite require_current => Challenge_PasswordWrite require_current
  | Stage_UserWrite _ => Challenge_UserWrite (get_str "username" context)
  | Stage_Captcha => Challenge_Captcha (default "" (get_str "captcha_site_key" context))
  | Stage_Consent =>
      Challenge_Consent (default "" (get_str "scope" context)) (get_str "client_name" context)
  | Stage_Prompt fields => Challenge_Prompt fields
  | Stage_AuthenticatorValidate allowed_types => Challenge_AuthenticatorValidate allowed_types
  | Stage_EnrollmentToken required => Challenge_EnrollmentToken required
  end.

(** The loop of [current_challenge], over the stages from the current one on. *)
Fixpoint skip_satisfied (context : Json) (stages : list FlowStageBinding) (index : nat) : nat :=
  match stages with
  | [] => index
  | binding :: stages =>
      if is_stage_satisfied (binding_stage binding) context
      then skip_satisfied context stages (S index) else index
  end.

(** The session comes back too: it is moved past the satisfied stages even if none is left. *)
Definition current_challenge (plan : FlowPlan) (session : FlowSession)
    : result StageChallenge FlowPlannerError * FlowSession :=
  if FlowSessionStatus_is_terminal (fsn_status session) then (Err Planner_AlreadyCompleted, session)
  else
    let i := fsn_current_stage_index session in
    let i := skip_satisfied (fsn_context session) (drop i (plan_stages plan)) i in
    let session := FlowSession_set_stage i session in
    match plan_stages plan !! i with
    | Some binding => (Ok (challenge_for_stage (binding_stage binding) (fsn_context session)), session)
    | None => (Err Planner_NoMoreStages, session)
    end.

Definition retry (field : option string) (message code : string) : StageOutcome :=
  Outcome_Retry [{| sve_field := field; sve_message := message; sve_code := code |}].

Inductive CaptchaService := RecaptchaV2 | CloudflareTurnstile | HCaptcha.
Record CaptchaConfig := {
  captcha_service : CaptchaService;
  captcha_site_key : string;
  captcha_secret_key : string
}.
Definition verify_url (service : CaptchaService) : string :=
  match service with
  | RecaptchaV2 => "https://www.google.com/recaptcha/api/siteverify"
  | HCaptcha => "https://api.hcaptcha.com/siteverify"
  | CloudflareTurnstile => "https://challenges.cloudflare.com/turnstile/v0/siteverify"
  end.

(** What comes of the call: no connection, an answer that is no JSON of the right form, or one. *)
Inductive CaptchaReply :=
| Captcha_Unreachable
| Captcha_Unreadable
| Captcha_Body (success : bool) (hostname : option string).
Record CaptchaVerifyContext := {
  cvc_captcha_config : option CaptchaConfig;
  cvc_site_hostname : string;
  cvc_remote_ip : option IpAddr;
  (** the provider at an URL, asked with a secret, a response and an address *)
  cvc_call : string → string → string → option IpAddr → CaptchaReply
}.

(** The response to a CAPTCHA; another host than the expected one is only logged. *)
Definition validate_captcha (token : string) (captcha_ctx : option CaptchaVerifyContext)
    : StageOutcome :=
  if String.eqb token "" then retry (Some "token") "CAPTCHA token is required" "required"
  else
    match captcha_ctx with
    | Some ctx =>
        match cvc_captcha_config ctx with
        | Some config =>
            match cvc_call ctx (verify_url (captcha_service config)) (captcha_secret_key config)
                    token (cvc_remote_ip ctx) with
            | Captcha_Body true _ => Outcome_Continue
            | Captcha_Body false _ =>
                retry (Some "token") "CAPTCHA verification failed" "captcha_failed"
            | Captcha_Unreadable | Captcha_Unreachable =>
                retry (Some "token") "CAPTCHA verification error" "captcha_error"
            end
        | None => Outcome_Continue
        end
    | None => Outcome_Continue
    end.

Definition is_missing (value : option Json) : bool :=
  match value with
  | None | Some Json_Null => true
  | Some (Json_String s) => String.eqb s ""
  | _ => false
  end.
Definition prompt_errors (fields : list PromptField) (data : Json) : list StageValidationError :=
  (λ f, {| sve_field := Some (prompt_field_key f); sve_message := prompt_label f +:+ " is required";
           sve_code := "required" |})
  <$> filter (λ f, prompt_required f && is_missing (value_get (prompt_field_key f) data)) fields.

Definition password_write_errors (require_current : bool) (current_password : option string)
    (new_password : string) : list StageValidationError :=
  (if require_current && negb (bool_decide (is_Some current_password))
   then [{| sve_field := Some "current_password"; sve_message := "Current password is required";
            sve_code := "required" |}] else [])
  ++ (if String.eqb new_password ""
      then [{| sve_field := Some "new_password"; sve_message := "New password is required";
               sve_code := "required" |}] else []).

Definition is_totp_code (code : string) : bool :=
  Nat.eqb (String.length code) 6 && str_all is_ascii_digit code.

(** The outcome of a response, and the context it leaves. *)
Definition validate_response (stage : StageKind) (response : StageResponse) (context : Json)
    (captcha_ctx : option CaptchaVerifyContext) : StageOutcome * Json :=
  match stage, response with
  | Stage_Identification _ _, Response_Identification uid_field password =>
      let context := context_insert "uid_field" (Json_String uid_field) context in
      (Outcome_Continue,
       match password with
       | Some _ => context_insert "password_provided" (Json_Bool true) context
       | None => context
       end)
  | Stage_EmailVerification _ _ _ _, Response_EmailVerification code =>
      (if String.eqb code "" then retry (Some "code") "Verification code is required" "required"
       else Outcome_Continue, context)
  | Stage_PasswordWrite require_current, Response_PasswordWrite current_password new_password =>
      (match password_write_errors require_current current_password new_password with
       | [] => Outcome_Continue
       | errors => Outcome_Retry errors
       end, context)
  | Stage_UserWrite _, Response_UserWrite username display_name =>
      let context := context_insert "username" (Json_String username) context in
      (Outcome_Continue,
       match display_name with
       | Some dn => context_insert "display_name" (Json_String dn) context
       | None => context
       end)
  | Stage_Consent, Response_Consent granted =>
      (if granted then Outcome_Continue else Outcome_Done None, context)
  | Stage_Captcha, Response_Captcha token => (validate_captcha token captcha_ctx, context)
  | Stage_Prompt fields, Response_Prompt data =>
      match prompt_errors fields data with
      | [] => (Outcome_Continue, context_insert "prompt_data" data context)
      | errors => (Outcome_Retry errors, context)
      end
  | Stage_AuthenticatorValidate _, Response_AuthenticatorValidate _ code =>
      if is_totp_code code then (Outcome_Continue, context_insert "mfa_validated" (Json_Bool true) context)
      else (retry (Some "code") "Code must be exactly 6 digits" "invalid_totp_code", context)
  | Stage_EnrollmentToken required, Response_EnrollmentToken token =>
      (if String.eqb token "" && required
       then retry (Some "token") "Enrollment token is required" "required"
       else Outcome_Continue, context)
  | _, _ => (retry None "Invalid response for this stage" "invalid_response", context)
  end.

Definition process_response (plan : FlowPlan) (session : FlowSession) (response : StageResponse)
    (captcha_ctx : option CaptchaVerifyContext) : result (StageOutcome * Json) FlowPlannerError :=
  if FlowSessionStatus_is_terminal (fsn_status session) then Err Planner_AlreadyCompleted
  else
    match plan_stages plan !! fsn_current_stage_index session with
    | None => Err Planner_NoMoreStages
    | Some binding =>
        Ok (validate_response (binding_stage binding) response (fsn_context session) captcha_ctx)
    end.

Definition has_next_stage (plan : FlowPlan) (session : FlowSession) : bool :=
  Nat.ltb (fsn_current_stage_index session + 1) (length (plan_stages plan)).

(** ** The forms of the interface (account/flow.rs) *)

Inductive ApiIdentificationField := ApiIdentify_Username | ApiIdentify_Email | ApiIdentify_Phone.
Definition ApiIdentificationField_from (value : IdentificationField) : ApiIdentificationField :=
  match value with
  | Identify_Username => ApiIdentify_Username
  | Identify_Email => ApiIdentify_Email
  | Identify_Phone => ApiIdentify_Phone
  end.

Inductive ApiAuthenticatorType := ApiAuthenticator_Totp | ApiAuthenticator_WebAuthn.
Definition ApiAuthenticatorType_from (value : AuthenticatorType) : ApiAuthenticatorType :=
  match value with
  | Authenticator_Totp => ApiAuthenticator_Totp
  | Authenticator_WebAuthn => ApiAuthenticator_WebAuthn
  end.
Definition AuthenticatorType_from (value : ApiAuthenticatorType) : AuthenticatorType :=
  match value with
  | ApiAuthenticator_Totp => Authenticator_Totp
  | ApiAuthenticator_WebAuthn => Authenticator_WebAuthn
  end.

Inductive ApiPromptFieldType :=
| ApiPrompt_Text | ApiPrompt_Email | ApiPrompt_Password | ApiPrompt_Checkbox | ApiPrompt_Hidden
| ApiPrompt_Select.
Definition ApiPromptFieldType_from (value : PromptFieldType) : ApiPromptFieldType :=
  match value with
  | Prompt_Text => ApiPrompt_Text
  | Prompt_Email => ApiPrompt_Email
  | Prompt_Password => ApiPrompt_Password
  | Prompt_Checkbox => ApiPrompt_Checkbox
  | Prompt_Hidden => ApiPrompt_Hidden
  | Prompt_Select => ApiPrompt_Select
  end.

Record ApiPromptField := {
  api_field_key : string;
  api_label : string;
  api_field_type : ApiPromptFieldType;
  api_required : bool;
  api_placeholder : option string;
  api_order : Z
}.
Definition ApiPromptField_from (value : PromptField) : ApiPromptField :=
  {| api_field_key := prompt_field_key value; api_label := prompt_label value;
     api_field_type := ApiPromptFieldType_from (prompt_field_type value);
     api_required := prompt_required value; api_placeholder := prompt_placeholder value;
     api_order := prompt_order value |}.

Inductive FlowChallenge :=
| Api_Identification (user_fields : list ApiIdentificationField) (password_stage : bool)
| Api_EmailVerification (email purpose : string)
| Api_PasswordWrite (require_current : bool)
| Api_UserWrite (suggested_username : option string)
| Api_Captcha (site_key : string)
| Api_Consent (scope : string) (client_name : option string)
| Api_Prompt (fields : list ApiPromptField)
| Api_AuthenticatorValidate (allowed_types : list ApiAuthenticatorType)
| Api_EnrollmentToken (required : bool)
| Api_FlowDone (redirect_to : option string).
Definition FlowChallenge_from (value : StageChallenge) : FlowChallenge :=
  match value with
  | Challenge_Identification user_fields password_stage =>
      Api_Identification (ApiIdentificationField_from <$> user_fields) password_stage
  | Challenge_EmailVerification email purpose => Api_EmailVerification email purpose
  | Challenge_PasswordWrite require_current => Api_PasswordWrite require_current
  | Challenge_UserWrite suggested_username => Api_UserWrite suggested_username
  | Challenge_Captcha site_key => Api_Captcha site_key
  | Challenge_Consent scope client_name => Api_Consent scope client_name
  | Challenge_Prompt fields => Api_Prompt (ApiPromptField_from <$> fields)
  | Challenge_AuthenticatorValidate allowed_types =>
      Api_AuthenticatorValidate (ApiAuthenticatorType_from <$> allowed_types)
  | Challenge_EnrollmentToken required => Api_EnrollmentToken required
  | Challenge_FlowDone redirect_to => Api_FlowDone redirect_to
  end.

Record FlowValidationError := {
  fve_field : option string;
  fve_message : string;
  fve_code : string
}.
Definition FlowValidationError_from (value : StageValidationError) : FlowValidationError :=
  {| fve_field := sve_field value; fve_message := sve_message value; fve_code := sve_code value |}.

Record FlowResponse := {
  fr_session_id : string;
  fr_flow_slug : string;
  fr_challenge : FlowChallenge;
  fr_stage_index : nat;
  fr_total_stages : nat;
  fr_errors : option (list FlowValidationError)
}.

Inductive FlowStageResponse :=
| ApiResponse_Identification (uid_field : string) (password : option string)
| ApiResponse_EmailVerification (code : string)
| ApiResponse_PasswordWrite (current_password : option string) (new_password : string)
| ApiResponse_UserWrite (username : string) (display_name : option string)
| ApiResponse_Captcha (token : string)
| ApiResponse_Consent (granted : bool)
| ApiResponse_Prompt (data : Json)
| ApiResponse_AuthenticatorValidate (authenticator_type : ApiAuthenticatorType) (code : string)
| ApiResponse_EnrollmentToken (token : string).
Definition StageResponse_from (value : FlowStageResponse) : StageResponse :=
  match value with
  | ApiResponse_Identification uid_field password => Response_Identification uid_field password
  | ApiResponse_EmailVerification code => Response_EmailVerification code
  | ApiResponse_PasswordWrite current_password new_password =>
      Response_PasswordWrite current_password new_password
  | ApiResponse_UserWrite username display_name => Response_UserWrite username display_name
  | ApiResponse_Captcha token => Response_Captcha token
  | ApiResponse_Consent granted => Response_Consent granted
  | ApiResponse_Prompt data => Response_Prompt data
  | ApiResponse_AuthenticatorValidate authenticator_type code =>
      Response_AuthenticatorValidate (AuthenticatorType_from authenticator_type) code
  | ApiResponse_EnrollmentToken token => Response_EnrollmentToken token
  end.

(** ** The endpoints (account/flow.rs) *)

Inductive FlowRouteError :=
| FlowRoute_Internal (e : FlowPlannerError)
| FlowRoute_NotFound
| FlowRoute_BadRequest (message : string).

(** [FLOW_SESSION_STORE], the clock and the random bytes to come. *)
Record FlowSt := {
  fst_store : gmap Ulid (FlowPlan * FlowSession);
  fst_clock : nat → DateTime;
  fst_rng : Rng
}.

Section endpoints.
Context {DX : DbExternals}.

Definition resolve_flow_by_slug (slug : string)
    : option (DateTime → Rng → (FlowDefinition * list FlowStageBinding) * Rng) :=
  if String.eqb slug "default-registration" then Some default_registration_flow
  else if String.eqb slug "default-recovery" then Some default_recovery_flow
  else if String.eqb slug "default-password-change" then Some default_password_change_flow
  else if String.eqb slug "default-authentication" then Some default_authentication_flow
  else if String.eqb slug "default-authorization" then Some default_authorization_flow
  else if String.eqb slug "default-enrollment" then Some default_enrollment_flow
  else None.

Definition build_response (plan : FlowPlan) (session : FlowSession) (challenge : StageChallenge)
    (errors : option (list StageValidationError)) : FlowResponse :=
  {| fr_session_id := ulid_to_string (fsn_id session);
     fr_flow_slug := flow_slug (plan_flow plan);
     fr_challenge := FlowChallenge_from challenge;
     fr_stage_index := fsn_current_stage_index session;
     fr_total_stages := length (plan_stages plan);
     fr_errors := option_map (map FlowValidationError_from) errors |}.

Definition flow_now : M FlowSt FlowRouteError DateTime := λ st,
  (Ok (fst_clock st 0%nat),
   {| fst_store := fst_store st; fst_clock := λ n, fst_clock st (S n); fst_rng := fst_rng st |}).
Definition flow_draw {A} (f : Rng → A * Rng) : M FlowSt FlowRouteError A := λ st,
  (Ok (f (fst_rng st)).1,
   {| fst_store := fst_store st; fst_clock := fst_clock st; fst_rng := (f (fst_rng st)).2 |}).
Definition flow_store (id : Ulid) (plan : FlowPlan) (session : FlowSession)
    : M FlowSt FlowRouteError () := λ st,
  (Ok tt, {| fst_store := <[id := (plan, session)]> (fst_store st); fst_clock := fst_clock st;
             fst_rng := fst_rng st |}).
Definition flow_get (id : Ulid) : M FlowSt FlowRouteError (option (FlowPlan * FlowSession)) :=
  gets (λ st, fst_store st !! id).

Definition FLOW_LIFETIME : Duration := 3600000000.

(** A session at the first stage of a flow. *)
Definition new_flow_session (id : Ulid) (plan : FlowPlan) (now : DateTime) : FlowSession :=
  {| fsn_id := id; fsn_flow_id := flow_id (plan_flow plan); fsn_current_stage_index := 0;
     fsn_status := Flow_InProgress; fsn_context := Json_Object []; fsn_ip_address := None;
     fsn_user_agent := None; fsn_created_at := now; fsn_updated_at := now;
     fsn_expires_at := now + FLOW_LIFETIME; fsn_completed_at := None |}.

(** A built-in flow, planned, and a new session of it. *)
Definition plan_session (flow : DateTime → Rng → (FlowDefinition * list FlowStageBinding) * Rng)
    : M FlowSt FlowRouteError (FlowPlan * FlowSession) :=
  created ← flow_now;
  '(flow_def, bindings) ← flow_draw (flow created);
  let plan := FlowExecutor_plan flow_def bindings in
  now ← flow_now;
  id ← flow_draw (new_id now);
  mret (plan, new_flow_session id plan now).

Definition start_flow (slug : option string) : M FlowSt FlowRouteError FlowResponse :=
  slug ← ok_or (FlowRoute_BadRequest "missing flow slug") slug;
  flow ← ok_or FlowRoute_NotFound (resolve_flow_by_slug slug);
  '(plan, session) ← plan_session flow;
  let '(challenge, session) := current_challenge plan session in
  challenge ← of_result (result_map_err FlowRoute_Internal challenge);
  let response := build_response plan session challenge None in
  _ ← flow_store (fsn_id session) plan session;
  mret response.

(** The session that a registration, a recovery or a change of password begins when the flow engine
    is enabled; its first challenge is not computed. *)
Definition begin_flow (flow : DateTime → Rng → (FlowDefinition * list FlowStageBinding) * Rng)
    : M FlowSt FlowRouteError string :=
  '(plan, session) ← plan_session flow;
  _ ← flow_store (fsn_id session) plan session;
  mret (ulid_to_string (fsn_id session)).

Definition parse_flow_session_id (id : option string) : result Ulid FlowRouteError :=
  match id with
  | None => Err (FlowRoute_BadRequest "missing session id")
  | Some text =>
      match ulid_from_string text with
      | Some id => Ok id
      | None => Err (FlowRoute_BadRequest "invalid session id")
      end
  end.

Definition ACCOUNT_PAGE : option string := Some "/account".

Definition get_flow_session (id : option string) : M FlowSt FlowRouteError FlowResponse :=
  id ← of_result (parse_flow_session_id id);
  found ← flow_get id;
  '(plan, session) ← ok_or FlowRoute_NotFound found;
  if FlowSessionStatus_is_terminal (fsn_status session) then
    mret (build_response plan session (Challenge_FlowDone ACCOUNT_PAGE) None)
  else
    let '(challenge, session) := current_challenge plan session in
    _ ← flow_store id plan session;
    challenge ← of_result (result_map_err FlowRoute_Internal challenge);
    mret (build_response plan session challenge None).

(** A stage is shown, with the errors of the response if any. *)
Definition show_stage (id : Ulid) (plan : FlowPlan) (session : FlowSession)
    (errors : option (list StageValidationError)) : M FlowSt FlowRouteError FlowResponse :=
  let '(challenge, session) := current_challenge plan session in
  _ ← flow_store id plan session;
  challenge ← of_result (result_map_err FlowRoute_Internal challenge);
  mret (build_response plan session challenge errors).

(** The session is over. *)
Definition finish_flow (id : Ulid) (plan : FlowPlan) (session : FlowSession)
    (redirect_to : option string) : M FlowSt FlowRouteError FlowResponse :=
  now ← flow_now;
  let session := FlowSession_complete (length (plan_stages plan)) now session in
  _ ← flow_store id plan session;
  mret (build_response plan session (Challenge_FlowDone redirect_to) None).

(** [call] is the HTTP client, if there is one. *)
Definition respond_captcha_context (config : option CaptchaConfig)
    (call : option (string → string → string → option IpAddr → CaptchaReply))
    : option CaptchaVerifyContext :=
  (λ c, {| cvc_captcha_config := config; cvc_site_hostname := "localhost"; cvc_remote_ip := None;
           cvc_call := c |}) <$> call.

Definition respond_flow (config : option CaptchaConfig)
    (call : option (string → string → string → option IpAddr → CaptchaReply))
    (id : option string) (input : option FlowStageResponse) : M FlowSt FlowRouteError FlowResponse :=
  id ← of_result (parse_flow_session_id id);
  input ← ok_or (FlowRoute_BadRequest "invalid json body") input;
  found ← flow_get id;
  '(plan, session) ← ok_or FlowRoute_NotFound found;
  _ ← require (negb (FlowSessionStatus_is_terminal (fsn_status session)))
        (FlowRoute_BadRequest "flow session is no longer active");
  '(outcome, updated_context) ← of_result (result_map_err FlowRoute_Internal
    (process_response plan session (StageResponse_from input) (respond_captcha_context config call)));
  now ← flow_now;
  let session := FlowSession_set_context updated_context now session in
  match outcome with
  | Outcome_Continue =>
      if has_next_stage plan session
      then show_stage id plan
             (FlowSession_set_stage (S (fsn_current_stage_index session)) session) None
      else finish_flow id plan session ACCOUNT_PAGE
  | Outcome_Retry errors => show_stage id plan session (Some errors)
  | Outcome_Done redirect_to => finish_flow id plan session redirect_to
  end.
End endpoints.
