(* ===== verification/Activity.v ===== *)
(** The activity tracker: crates/backend/src/handlers/activity_tracker/worker.rs and
    the [record_batch_activity] of the three session repositories
    (crates/data/src/pg/{oauth2,user,personal}/session.rs).

    Handlers send messages over a channel; one worker aggregates them in memory
    and writes them in batches. Whether a connection is available at a flush is an
    input of each step, and the database may change between two messages. *)
From S2P Require Import Prelude Ids TokenFormat Scope Pkce Jose Keystore Domain Database Repository.

Open Scope Z_scope.

#[export] Instance SessionKind_countable : Countable SessionKind.
Proof.
  refine (inj_countable' (λ k, match k with Kind_OAuth2 => 0 | Kind_Browser => 1 | Kind_Personal => 2 end)
    (λ z : Z, match z with 0 => Kind_OAuth2 | 1 => Kind_Browser | _ => Kind_Personal end) _).
  by intros [].
Defined.

(** ** Batches *)

(** [GREATEST(t.last_active_at, row.last_active_at)]: a null is ignored. *)
Definition greatest (t : DateTime) (old : option DateTime) : option DateTime :=
  Some (match old with Some o => t `max` o | None => t end).
(** [COALESCE(t.last_active_ip, row.last_active_ip)] *)
Definition coalesce {A} (new old : option A) : option A :=
  match new with Some x => Some x | None => old end.

Definition UserSessionRow_touch (at_ : DateTime) (ip : option IpAddr) (r : UserSessionRow)
    : UserSessionRow :=
  {| UserSessionRow_user_id := UserSessionRow_user_id r;
     UserSessionRow_created_at := UserSessionRow_created_at r;
     UserSessionRow_finished_at := UserSessionRow_finished_at r;
     UserSessionRow_user_agent := UserSessionRow_user_agent r;
     UserSessionRow_last_active_at := greatest at_ (UserSessionRow_last_active_at r);
     UserSessionRow_last_active_ip := coalesce ip (UserSessionRow_last_active_ip r) |}.

Definition OAuthSessionRow_touch (at_ : DateTime) (ip : option IpAddr) (r : OAuthSessionRow)
    : OAuthSessionRow :=
  {| OAuthSessionRow_user_id := OAuthSessionRow_user_id r;
     OAuthSessionRow_user_session_id := OAuthSessionRow_user_session_id r;
     OAuthSessionRow_oauth2_client_id := OAuthSessionRow_oauth2_client_id r;
     OAuthSessionRow_scope_list := OAuthSessionRow_scope_list r;
     OAuthSessionRow_created_at := OAuthSessionRow_created_at r;
     OAuthSessionRow_finished_at := OAuthSessionRow_finished_at r;
     OAuthSessionRow_user_agent := OAuthSessionRow_user_agent r;
     OAuthSessionRow_last_active_at := greatest at_ (OAuthSessionRow_last_active_at r);
     OAuthSessionRow_last_active_ip := coalesce ip (OAuthSessionRow_last_active_ip r);
     OAuthSessionRow_human_name := OAuthSessionRow_human_name r |}.

Definition PersonalSessionRow_touch (at_ : DateTime) (ip : option IpAddr) (r : PersonalSessionRow)
    : PersonalSessionRow :=
  {| PersonalSessionRow_owner_user_id := PersonalSessionRow_owner_user_id r;
     PersonalSessionRow_owner_oauth2_client_id := PersonalSessionRow_owner_oauth2_client_id r;
     PersonalSessionRow_actor_user_id := PersonalSessionRow_actor_user_id r;
     PersonalSessionRow_human_name := PersonalSessionRow_human_name r;
     PersonalSessionRow_scope_list := PersonalSessionRow_scope_list r;
     PersonalSessionRow_created_at := PersonalSessionRow_created_at r;
     PersonalSessionRow_revoked_at := PersonalSessionRow_revoked_at r;
     PersonalSessionRow_last_active_at := greatest at_ (PersonalSessionRow_last_active_at r);
     PersonalSessionRow_last_active_ip := coalesce ip (PersonalSessionRow_last_active_ip r) |}.

Abbreviation Batch := (list (Ulid * DateTime * option IpAddr)) (only parsing).

Section batch.
Context {R : Type} (tbl : DB → gmap Z R) (on : (gmap Z R → gmap Z R) → DB → DB)
        (touch : DateTime → option IpAddr → R → R).

(** The rows joined with the batch, one after the other. *)
Definition touch_rows (activities : Batch) (rows : gmap Z R) : gmap Z R :=
  foldl (λ rows '(id, at_, ip), alter (touch at_ ip) id rows) rows activities.
Definition rows_joined (activities : Batch) (rows : gmap Z R) : nat :=
  length (filter (λ '(id, _, _), is_Some (rows !! id)) activities).

(** [record_batch_activity]: as many rows as activities must be updated. *)
Definition record_batch_activity (activities : Batch) : M St DatabaseError () :=
  rows_affected ← gets (λ st, rows_joined activities (tbl (st_db st)));
  _ ← modify (on_db (on (touch_rows activities)));
  ensure_affected_rows_usize rows_affected (length activities).
End batch.

Definition browser_session_record_batch_activity : Batch → M St DatabaseError () :=
  record_batch_activity db_user_sessions on_user_sessions UserSessionRow_touch.
Definition oauth2_session_record_batch_activity : Batch → M St DatabaseError () :=
  record_batch_activity db_sessions on_sessions OAuthSessionRow_touch.
Definition personal_session_record_batch_activity : Batch → M St DatabaseError () :=
  record_batch_activity db_personal_sessions on_personal_sessions PersonalSessionRow_touch.

(** ** The worker *)

Record ActivityRecord := {
  record_end_time : DateTime;
  record_ip : option IpAddr;
}.

Abbreviation PendingRecords := (gmap (SessionKind * Z) ActivityRecord) (only parsing).

Definition MAX_PENDING_RECORDS : nat := 1000.

(** The records of one kind. *)
Definition pending_of (kind : SessionKind) (pending : PendingRecords) : Batch :=
  omap (λ '(k, id, record),
          if bool_decide (k = kind) then Some (id, record_end_time record, record_ip record) else None)
    (map_to_list pending).

(** The transaction of [try_flush]; [repository_factory.create] begins it. *)
Definition flush_transaction (pending : PendingRecords) : M St DatabaseError () :=
  _ ← repo_cancel;
  _ ← browser_session_record_batch_activity (pending_of Kind_Browser pending);
  _ ← oauth2_session_record_batch_activity (pending_of Kind_OAuth2 pending);
  _ ← personal_session_record_batch_activity (pending_of Kind_Personal pending);
  repo_save.

(** [flush]: with [try_flush] inlined; an error is only logged. *)
Definition worker_flush (connects : bool) (pending : PendingRecords) (st : St)
    : PendingRecords * St :=
  if bool_decide (pending = ∅) then (pending, st)
  else if connects then
    match flush_transaction pending st with
    | (Ok _, st) => (∅, st)
    | (Err _, st) => (pending, st)
    end
  else (pending, st).

Inductive Message :=
| Message_Record (activity : Activity)
| Message_Flush.

(** [entry(..).or_insert_with(..)], then the later of both times. *)
Definition pending_record (a : Activity) (pending : PendingRecords) : PendingRecords :=
  let key := (activity_kind a, activity_session_id a) in
  let record := default {| record_end_time := activity_date_time a; record_ip := activity_ip a |}
                  (pending !! key) in
  <[key := {| record_end_time := activity_date_time a `max` record_end_time record;
              record_ip := record_ip record |}]> pending.

(** One round of the loop of [run]: what is pending, and whether the message
    was dropped. *)
Definition handle_message (connects : bool) (message : Message) (pending : PendingRecords) (st : St)
    : PendingRecords * bool * St :=
  match message with
  | Message_Record a =>
      let '(pending, st) :=
        if (MAX_PENDING_RECORDS <=? size pending)%nat then worker_flush connects pending st
        else (pending, st) in
      if (MAX_PENDING_RECORDS <=? size pending)%nat then (pending, true, st)
      else (pending_record a pending, false, st)
  | Message_Flush =>
      let '(pending, st) := worker_flush connects pending st in (pending, false, st)
  end.

(** What happens while the worker runs: a message arrives, or another
    transaction changes the database. *)
Inductive TrackerEvent :=
| Ev_Message (connects : bool) (message : Message)
| Ev_Commit (transaction : DB → DB).

(** The loop over the events; the messages that were not dropped are collected. *)
Fixpoint worker_loop (events : list TrackerEvent) (pending : PendingRecords) (st : St)
    : PendingRecords * list Activity * St :=
  match events with
  | [] => (pending, [], st)
  | Ev_Commit f :: events =>
      let db := f (st_committed st) in worker_loop events pending (with_committed db db st)
  | Ev_Message connects message :: events =>
      let '(pending, dropped, st) := handle_message connects message pending st in
      let '(pending, accepted, st) := worker_loop events pending st in
      (pending,
       match message with
       | Message_Record a => if dropped then accepted else a :: accepted
       | Message_Flush => accepted
       end, st)
  end.

(** [run]: the loop, and one last flush. *)
Definition worker_run (events : list TrackerEvent) (last_connects : bool) (st : St)
    : PendingRecords * list Activity * St :=
  let '(pending, accepted, st) := worker_loop events ∅ st in
  let '(pending, st) := worker_flush last_connects pending st in
  (pending, accepted, st).
