(* ===== verification/AccountRepository.v ===== *)
(** The repositories of accounts (crates/data/src/pg/user and
    crates/data/src/pg/upstream_oauth2).

    user/{mod,session,password,email,phone,registration,registration_token,terms}.rs,
    upstream_oauth2/{session,link}.rs, and [schedule] for the jobs of registration:
    one definition per method, in the order of effects of the source. *)
From S2P Require Import Prelude Ids RateLimit Scope Pkce Jose Domain Accounts Database Repository.

Open Scope Z_scope.

(** PostgreSQL's functions on texts. *)
Class AccountExternals := {
  (** [lower(text)] *)
  sql_lower : string → string;
  (** [text ILIKE pattern] *)
  sql_ilike : string → string → bool;
}.

(** [UPDATE .. WHERE id = .. AND P], then [ensure_affected_rows_usize(.., 1)] *)
Definition update_one_where {R} (tbl : DB → gmap Z R) (on : (gmap Z R → gmap Z R) → DB → DB)
    (violation : DB → option DieselError) (id : Ulid) (P : R → bool) (f : R → R)
    : M St DatabaseError () :=
  rows_affected ← update_where tbl on violation id P f;
  ensure_affected_rows_usize rows_affected 1.

(** [table.filter(P).load()], in the order of the keys. *)
Definition select_all {R} (tbl : DB → gmap Z R) (P : R → bool) : M St DatabaseError (list (Z * R)) :=
  gets (λ st, filter (λ kr, P kr.2 = true) (map_to_list (tbl (st_db st)))).

(** A single row, or none: [if res.len() != 1 { return Ok(None) }] *)
Definition the_only {R} (rows : list (Z * R)) : option (Z * R) :=
  match rows with [row] => Some row | _ => None end.

(** The insertion of a row with a new key and references. *)
Definition new_row_violation {R} (table : string) (id : Ulid) (m : gmap Z R)
    (others : list (bool * DieselError)) : option DieselError :=
  first_violation ((pk_taken id m, UniqueViolation table "id") :: others).

(** ** Users (pg/user/mod.rs) *)

Section users.
Context {DX : DbExternals} {LX : LimiterExternals} {XX : AccountExternals}.

(** [lower(username) = username.to_lowercase()] *)
Definition same_username (username : string) (r : UserRow) : bool :=
  bool_decide (sql_lower (UserRow_username r) = str_to_lowercase username).
Definition has_username (username : string) (r : UserRow) : bool :=
  bool_decide (UserRow_username r = username).

Definition user_find_by_username (username : string) : M St DatabaseError (option User) :=
  res ← select_all db_users (same_username username);
  mret match res with
       | [(id, user)] => Some (User_build id user)
       | [] => None
       | list =>
           (λ '(id, user), User_build id user) <$>
             head (filter (λ kr, has_username username kr.2 = true) list)
       end.

Definition user_exists (username : string) : M St DatabaseError bool :=
  gets (λ st, col_taken (same_username username) (db_users (st_db st))).

Definition new_user_row (username : string) (created_at : DateTime) : UserRow :=
  {| UserRow_username := username;
     UserRow_created_at := created_at;
     UserRow_updated_at := created_at;
     UserRow_locked_at := None;
     UserRow_deactivated_at := None;
     UserRow_can_request_admin := false;
     UserRow_is_guest := false;
     UserRow_display_name := None;
     UserRow_avatar_url := None;
     UserRow_preferred_locale := None |}.

(** [INSERT .. ON CONFLICT (username) DO NOTHING]: the rows affected. *)
Definition insert_user (id : Ulid) (row : UserRow) : M St DatabaseError nat := λ st,
  if col_taken (has_username (UserRow_username row)) (db_users (st_db st)) then (Ok 0%nat, st)
  else match new_row_violation "users" id (db_users (st_db st)) [] with
       | Some e => (Err (Db_Diesel e), st)
       | None => (Ok 1%nat, on_db (on_users <[id := row]>) st)
       end.

Definition user_add (username : string) : M St DatabaseError User :=
  created_at ← clock_now;
  id ← with_rng (new_id created_at);
  rows_affected ← insert_user id (new_user_row username created_at);
  _ ← ensure_affected_rows_usize rows_affected 1;
  mret {| User_id := id;
          User_username := username;
          User_sub := ulid_to_string id;
          User_created_at := created_at;
          User_updated_at := created_at;
          User_locked_at := None;
          User_deactivated_at := None;
          User_can_request_admin := false;
          User_is_guest := false;
          User_display_name := None;
          User_avatar_url := None;
          User_preferred_locale := None |}.

(** The columns [patch] writes, from a user. *)
Definition UserRow_set (user : User) (r : UserRow) : UserRow :=
  {| UserRow_username := UserRow_username r;
     UserRow_created_at := UserRow_created_at r;
     UserRow_updated_at := User_updated_at user;
     UserRow_locked_at := User_locked_at user;
     UserRow_deactivated_at := User_deactivated_at user;
     UserRow_can_request_admin := User_can_request_admin user;
     UserRow_is_guest := UserRow_is_guest r;
     UserRow_display_name := User_display_name user;
     UserRow_avatar_url := User_avatar_url user;
     UserRow_preferred_locale := User_preferred_locale user |}.

(** A user with the columns [patch] may change. *)
Definition User_set (self : User) (updated_at : DateTime) (locked_at deactivated_at : option DateTime)
    (can_request_admin : bool) (display_name avatar_url preferred_locale : option string) : User :=
  {| User_id := User_id self;
     User_username := User_username self;
     User_sub := User_sub self;
     User_created_at := User_created_at self;
     User_updated_at := updated_at;
     User_locked_at := locked_at;
     User_deactivated_at := deactivated_at;
     User_can_request_admin := can_request_admin;
     User_is_guest := User_is_guest self;
     User_display_name := display_name;
     User_avatar_url := avatar_url;
     User_preferred_locale := preferred_locale |}.

(** [if flag { old.or(Some(now)) } else { None }] *)
Definition patch_time (flag : option bool) (old : option DateTime) (now : DateTime)
    : option DateTime :=
  match flag with
  | None => old
  | Some true => match old with Some t => Some t | None => Some now end
  | Some false => None
  end.

Definition user_patch (user : User) (patch : UserPatch) : M St DatabaseError User :=
  if UserPatch_is_empty patch then mret user
  else
    now ← clock_now;
    let locked_at := patch_time (patch_locked patch) (User_locked_at user) now in
    let deactivated_at := patch_time (patch_deactivated patch) (User_deactivated_at user) now in
    let changed :=
      negb (bool_decide (patch_display_name patch = None)) ||
      negb (bool_decide (patch_avatar_url patch = None)) ||
      negb (bool_decide (patch_preferred_locale patch = None)) ||
      negb (bool_decide (patch_can_request_admin patch = None)) ||
      negb (bool_decide (locked_at = User_locked_at user)) ||
      negb (bool_decide (deactivated_at = User_deactivated_at user)) in
    let patched updated_at :=
      User_set user updated_at locked_at deactivated_at
        (default (User_can_request_admin user) (patch_can_request_admin patch))
        (default (User_display_name user) (patch_display_name patch))
        (default (User_avatar_url user) (patch_avatar_url patch))
        (default (User_preferred_locale user) (patch_preferred_locale patch)) in
    if changed then
      _ ← update_one db_users on_users no_violation (User_id user) (UserRow_set (patched now));
      mret (patched now)
    else mret (patched (User_updated_at user)).

Definition user_update_profile (user : User) (patch : UserProfilePatch) : M St DatabaseError User :=
  user_patch user (UserPatch_from patch).

Definition UserRow_set_admin (can_request_admin : bool) (updated_at : DateTime) (r : UserRow) : UserRow :=
  {| UserRow_username := UserRow_username r;
     UserRow_created_at := UserRow_created_at r;
     UserRow_updated_at := updated_at;
     UserRow_locked_at := UserRow_locked_at r;
     UserRow_deactivated_at := UserRow_deactivated_at r;
     UserRow_can_request_admin := can_request_admin;
     UserRow_is_guest := UserRow_is_guest r;
     UserRow_display_name := UserRow_display_name r;
     UserRow_avatar_url := UserRow_avatar_url r;
     UserRow_preferred_locale := UserRow_preferred_locale r |}.

(** [Utc::now()] is the clock the handlers pass around. *)
Definition user_set_can_request_admin (user : User) (can_request_admin : bool)
    : M St DatabaseError User :=
  updated_at ← clock_now;
  _ ← update_one db_users on_users no_violation (User_id user)
        (UserRow_set_admin can_request_admin updated_at);
  mret (User_set user updated_at (User_locked_at user) (User_deactivated_at user) can_request_admin
          (User_display_name user) (User_avatar_url user) (User_preferred_locale user)).

Inductive UserState := UserState_Deactivated | UserState_Locked | UserState_Active.

Record UserFilter := {
  user_filter_state : option UserState;
  user_filter_can_request_admin : option bool;
  user_filter_is_guest : option bool;
  user_filter_search : option string;
}.

(** [UserFilter::new().can_request_admin_only()] *)
Definition can_request_admin_only : UserFilter :=
  {| user_filter_state := None; user_filter_can_request_admin := Some true;
     user_filter_is_guest := None; user_filter_search := None |}.

Definition user_matches (filter : UserFilter) (r : UserRow) : bool :=
  match user_filter_state filter with
  | None => true
  | Some UserState_Deactivated => bool_decide (is_Some (UserRow_deactivated_at r))
  | Some UserState_Locked => bool_decide (is_Some (UserRow_locked_at r))
  | Some UserState_Active =>
      bool_decide (UserRow_locked_at r = None) && bool_decide (UserRow_deactivated_at r = None)
  end &&
  match user_filter_can_request_admin filter with
  | None => true
  | Some b => bool_decide (UserRow_can_request_admin r = b)
  end &&
  match user_filter_is_guest filter with
  | None => true
  | Some b => bool_decide (UserRow_is_guest r = b)
  end &&
  match user_filter_search filter with
  | None => true
  | Some search => sql_ilike (UserRow_username r) ("%" +:+ search +:+ "%")
  end.

Definition user_count (filter : UserFilter) : M St DatabaseError nat :=
  rows ← select_all db_users (user_matches filter);
  mret (length rows).

Definition BOOTSTRAP_ADMIN_LOCK_ID : Z := 0x706173696f6e4144.

Definition user_acquire_bootstrap_admin_lock : M St DatabaseError () :=
  advisory_lock BOOTSTRAP_ADMIN_LOCK_ID.
End users.

(** ** Browser sessions (pg/user/session.rs) *)

Definition new_user_session_row (user_id : Ulid) (created_at : DateTime) (user_agent : option string)
    : UserSessionRow :=
  {| UserSessionRow_user_id := user_id;
     UserSessionRow_created_at := created_at;
     UserSessionRow_finished_at := None;
     UserSessionRow_user_agent := user_agent;
     UserSessionRow_last_active_at := None;
     UserSessionRow_last_active_ip := None |}.

Definition browser_session_add (user : User) (user_agent : option string)
    : M St DatabaseError BrowserSession :=
  created_at ← clock_now;
  id ← with_rng (new_id created_at);
  _ ← insert_row on_user_sessions
        (λ db, new_row_violation "user_sessions" id (db_user_sessions db)
                 [(fk_broken (User_id user) (db_users db),
                   ForeignKeyViolation "user_sessions" "user_id")])
        id (new_user_session_row (User_id user) created_at user_agent);
  mret {| BrowserSession_id := id;
          BrowserSession_user := user;
          BrowserSession_created_at := created_at;
          BrowserSession_finished_at := None;
          BrowserSession_user_agent := user_agent;
          BrowserSession_last_active_at := None;
          BrowserSession_last_active_ip := None |}.

Definition insert_authentication (id : Ulid) (row : AuthenticationRow) : M St DatabaseError () :=
  insert_row on_authentications
    (λ db, new_row_violation "user_session_authentications" id (db_authentications db)
       [(fk_broken (AuthenticationRow_user_session_id row) (db_user_sessions db),
         ForeignKeyViolation "user_session_authentications" "user_session_id");
        (fk_broken_opt (AuthenticationRow_user_password_id row) (db_passwords db),
         ForeignKeyViolation "user_session_authentications" "user_password_id");
        (fk_broken_opt (AuthenticationRow_upstream_oauth_authorization_session_id row)
           (db_upstream_sessions db),
         ForeignKeyViolation "user_session_authentications"
           "upstream_oauth_authorization_session_id")]) id row.

Definition browser_session_authenticate_with_password (user_session : BrowserSession)
    (user_password : Password) : M St DatabaseError Authentication :=
  created_at ← clock_now;
  id ← with_rng (new_id created_at);
  _ ← insert_authentication id
        {| AuthenticationRow_user_session_id := BrowserSession_id user_session;
           AuthenticationRow_created_at := created_at;
           AuthenticationRow_user_password_id := Some (Password_id user_password);
           AuthenticationRow_upstream_oauth_authorization_session_id := None |};
  mret {| Authentication_id := id;
          Authentication_created_at := created_at;
          Authentication_authentication_method :=
            AuthenticationMethod_Password (Password_id user_password) |}.

Definition browser_session_authenticate_with_upstream (user_session : BrowserSession)
    (upstream_oauth_session : UpstreamOAuthAuthorizationSession) : M St DatabaseError Authentication :=
  created_at ← clock_now;
  id ← with_rng (new_id created_at);
  _ ← insert_authentication id
        {| AuthenticationRow_user_session_id := BrowserSession_id user_session;
           AuthenticationRow_created_at := created_at;
           AuthenticationRow_user_password_id := None;
           AuthenticationRow_upstream_oauth_authorization_session_id :=
             Some (UpstreamSession_id upstream_oauth_session) |};
  mret {| Authentication_id := id;
          Authentication_created_at := created_at;
          Authentication_authentication_method :=
            AuthenticationMethod_UpstreamOAuth2 (UpstreamSession_id upstream_oauth_session) |}.

Definition UserSessionRow_set_finished_at (finished_at : DateTime) (r : UserSessionRow)
    : UserSessionRow :=
  {| UserSessionRow_user_id := UserSessionRow_user_id r;
     UserSessionRow_created_at := UserSessionRow_created_at r;
     UserSessionRow_finished_at := Some finished_at;
     UserSessionRow_user_agent := UserSessionRow_user_agent r;
     UserSessionRow_last_active_at := UserSessionRow_last_active_at r;
     UserSessionRow_last_active_ip := UserSessionRow_last_active_ip r |}.

Definition BrowserSession_set_finished_at (finished_at : DateTime) (self : BrowserSession)
    : BrowserSession :=
  {| BrowserSession_id := BrowserSession_id self;
     BrowserSession_user := BrowserSession_user self;
     BrowserSession_created_at := BrowserSession_created_at self;
     BrowserSession_finished_at := Some finished_at;
     BrowserSession_user_agent := BrowserSession_user_agent self;
     BrowserSession_last_active_at := BrowserSession_last_active_at self;
     BrowserSession_last_active_ip := BrowserSession_last_active_ip self |}.

Definition browser_session_finish (user_session : BrowserSession)
    : M St DatabaseError BrowserSession :=
  finished_at ← clock_now;
  _ ← update_one db_user_sessions on_user_sessions no_violation (BrowserSession_id user_session)
        (UserSessionRow_set_finished_at finished_at);
  mret (BrowserSession_set_finished_at finished_at user_session).

(** ** Passwords and terms (pg/user/password.rs, pg/user/terms.rs) *)

(** [i32::try_into::<u16>()] and [u32::try_from(i32)] *)
Definition u16_of_i32 (z : Z) : option Z := if (0 <=? z) && (z <? 2 ^ 16) then Some z else None.
Definition u32_of_i32 (z : Z) : option Z := if 0 <=? z then Some z else None.
(** [i32::try_from(u32)] *)
Definition i32_of_u32 (z : Z) : option Z := if z <? 2 ^ 31 then Some z else None.

(** [ORDER BY created_at DESC LIMIT 1]; of rows of one time, the first. *)
Fixpoint latest_password (l : list (Z * UserPasswordRow)) : option (Z * UserPasswordRow) :=
  match l with
  | [] => None
  | kr :: l =>
      match latest_password l with
      | Some kr' =>
          if PasswordRow_created_at kr.2 <? PasswordRow_created_at kr'.2 then Some kr' else Some kr
      | None => Some kr
      end
  end.

Definition Password_try_from (id : Ulid) (res : UserPasswordRow) : result Password DatabaseError :=
  match u16_of_i32 (PasswordRow_version res) with
  | Some version =>
      Ok {| Password_id := id;
            Password_hashed_password := PasswordRow_hashed_password res;
            Password_version := version;
            Password_upgraded_from_id := PasswordRow_upgraded_from_id res;
            Password_created_at := PasswordRow_created_at res |}
  | None => Err (inconsistent "user_passwords" "version" id)
  end.

Definition user_password_active (user : User) : M St DatabaseError (option Password) :=
  rows ← select_all db_passwords (λ r, bool_decide (PasswordRow_user_id r = User_id user));
  try_into Password_try_from (latest_password rows).

Definition user_password_add (user : User) (version : Z) (hashed_password : string)
    (upgraded_from : option Password) : M St DatabaseError Password :=
  created_at ← clock_now;
  id ← with_rng (new_id created_at);
  let upgraded_from_id := Password_id <$> upgraded_from in
  _ ← insert_row on_passwords
        (λ db, new_row_violation "user_passwords" id (db_passwords db)
                 [(fk_broken (User_id user) (db_users db),
                   ForeignKeyViolation "user_passwords" "user_id");
                  (fk_broken_opt upgraded_from_id (db_passwords db),
                   ForeignKeyViolation "user_passwords" "upgraded_from_id")])
        id {| PasswordRow_user_id := User_id user;
              PasswordRow_hashed_password := hashed_password;
              PasswordRow_version := version;
              PasswordRow_upgraded_from_id := upgraded_from_id;
              PasswordRow_created_at := created_at |};
  mret {| Password_id := id;
          Password_hashed_password := hashed_password;
          Password_version := version;
          Password_upgraded_from_id := upgraded_from_id;
          Password_created_at := created_at |}.

(** [INSERT .. ON CONFLICT (user_id, terms_url) DO NOTHING] *)
Definition user_terms_accept_terms (user : User) (terms_url : Url) : M St DatabaseError () :=
  created_at ← clock_now;
  id ← with_rng (new_id created_at);
  let row := {| TermsRow_user_id := User_id user;
                TermsRow_terms_url := terms_url;
                TermsRow_created_at := created_at |} in
  accepted ← gets (λ st, col_taken (λ r, bool_decide (TermsRow_user_id r = User_id user) &&
                                         bool_decide (TermsRow_terms_url r = terms_url))
                           (db_terms (st_db st)));
  if (accepted : bool) then mret tt
  else insert_row on_terms
         (λ db, new_row_violation "user_terms" id (db_terms db)
                  [(fk_broken (User_id user) (db_users db), ForeignKeyViolation "user_terms" "user_id")])
         id row.

(** ** Email addresses (pg/user/email.rs) *)

Definition UserEmail_from (id : Ulid) (e : UserEmailRow) : UserEmail :=
  {| UserEmail_id := id;
     UserEmail_user_id := EmailRow_user_id e;
     UserEmail_email := EmailRow_email e;
     UserEmail_created_at := EmailRow_created_at e;
     UserEmail_updated_at := EmailRow_updated_at e;
     UserEmail_confirmed_at := EmailRow_confirmed_at e;
     UserEmail_is_primary := EmailRow_is_primary e |}.

Definition UserEmailAuthentication_from (id : Ulid) (value : UserEmailAuthenticationRow)
    : UserEmailAuthentication :=
  {| UserEmailAuthentication_id := id;
     UserEmailAuthentication_user_session_id := EmailAuthRow_user_session_id value;
     UserEmailAuthentication_user_registration_id := EmailAuthRow_user_registration_id value;
     UserEmailAuthentication_email := EmailAuthRow_email value;
     UserEmailAuthentication_created_at := EmailAuthRow_created_at value;
     UserEmailAuthentication_completed_at := EmailAuthRow_completed_at value |}.

Definition UserEmailAuthenticationCode_from (id : Ulid) (value : UserEmailAuthenticationCodeRow)
    : UserEmailAuthenticationCode :=
  {| EmailCode_id := id;
     EmailCode_user_email_authentication_id := EmailCodeRow_user_email_authentication_id value;
     EmailCode_code := EmailCodeRow_code value;
     EmailCode_created_at := EmailCodeRow_created_at value;
     EmailCode_expires_at := EmailCodeRow_expires_at value |}.

Section emails.
Context {LX : LimiterExternals} {XX : AccountExternals}.

(** [lower(email) = email.to_lowercase()] *)
Definition same_email (email : string) (r : UserEmailRow) : bool :=
  bool_decide (sql_lower (EmailRow_email r) = str_to_lowercase email).
Definition email_of_user (user_id : Ulid) (r : UserEmailRow) : bool :=
  bool_decide (EmailRow_user_id r = user_id).

Definition user_email_lookup (id : Ulid) : M St DatabaseError (option UserEmail) :=
  res ← select_by_id db_emails id;
  mret (UserEmail_from id <$> res).

Definition user_email_find (user : User) (email : string) : M St DatabaseError (option UserEmail) :=
  res ← select_first db_emails (λ r, email_of_user (User_id user) r && same_email email r);
  mret ((λ '(id, r), UserEmail_from id r) <$> res).

Definition user_email_find_by_email (email : string) : M St DatabaseError (option UserEmail) :=
  res ← select_all db_emails (same_email email);
  mret ((λ '(id, r), UserEmail_from id r) <$> the_only res).

(** [UserEmailFilter] *)
Record UserEmailFilter := {
  email_filter_user : option Ulid;
  email_filter_email : option string;
}.
Definition for_email (email : string) : UserEmailFilter :=
  {| email_filter_user := None; email_filter_email := Some email |}.
Definition email_matches (filter : UserEmailFilter) (r : UserEmailRow) : bool :=
  match email_filter_user filter with None => true | Some user_id => email_of_user user_id r end &&
  match email_filter_email filter with None => true | Some email => same_email email r end.

Definition user_email_count (filter : UserEmailFilter) : M St DatabaseError nat :=
  rows ← select_all db_emails (email_matches filter);
  mret (length rows).

Definition user_email_add (user : User) (email : string) : M St DatabaseError UserEmail :=
  created_at ← clock_now;
  id ← with_rng (new_id created_at);
  existing ← select_all db_emails (email_of_user (User_id user));
  let row := {| EmailRow_user_id := User_id user;
                EmailRow_email := email;
                EmailRow_created_at := created_at;
                EmailRow_updated_at := created_at;
                EmailRow_confirmed_at := Some created_at;
                EmailRow_is_primary := bool_decide (length existing = 0%nat) |} in
  _ ← insert_row on_emails
        (λ db, new_row_violation "user_emails" id (db_emails db)
                 [(fk_broken (User_id user) (db_users db), ForeignKeyViolation "user_emails" "user_id")])
        id row;
  mret (UserEmail_from id row).
End emails.

(** The tickets sent to an address go with it ([ON DELETE CASCADE]). *)
Definition on_emails_cascade (id : Ulid) (f : gmap Z UserEmailRow → gmap Z UserEmailRow) (db : DB)
    : DB :=
  on_recovery_tickets (filter (λ '(_, r), RecoveryTicketRow_user_email_id r ≠ id)) (on_emails f db).

Definition user_email_remove (user_email : UserEmail) : M St DatabaseError () :=
  rows_affected ← delete_by_id db_emails (on_emails_cascade (UserEmail_id user_email))
                    (UserEmail_id user_email);
  ensure_affected_rows_usize rows_affected 1.

Definition insert_email_authentication (id : Ulid) (row : UserEmailAuthenticationRow)
    : M St DatabaseError () :=
  insert_row on_email_authentications
    (λ db, new_row_violation "user_email_authentications" id (db_email_authentications db)
       [(fk_broken_opt (EmailAuthRow_user_session_id row) (db_user_sessions db),
         ForeignKeyViolation "user_email_authentications" "user_session_id");
        (fk_broken_opt (EmailAuthRow_user_registration_id row) (db_registrations db),
         ForeignKeyViolation "user_email_authentications" "user_registration_id")]) id row.

Definition user_email_add_authentication_for_session (email : string) (session : BrowserSession)
    : M St DatabaseError UserEmailAuthentication :=
  created_at ← clock_now;
  id ← with_rng (new_id created_at);
  let row := {| EmailAuthRow_user_session_id := Some (BrowserSession_id session);
                EmailAuthRow_user_registration_id := None;
                EmailAuthRow_email := email;
                EmailAuthRow_created_at := created_at;
                EmailAuthRow_completed_at := None |} in
  _ ← insert_email_authentication id row;
  mret (UserEmailAuthentication_from id row).

Definition user_email_add_authentication_for_registration (email : string)
    (user_registration : UserRegistration) : M St DatabaseError UserEmailAuthentication :=
  created_at ← clock_now;
  id ← with_rng (new_id created_at);
  let row := {| EmailAuthRow_user_session_id := None;
                EmailAuthRow_user_registration_id := Some (UserRegistration_id user_registration);
                EmailAuthRow_email := email;
                EmailAuthRow_created_at := created_at;
                EmailAuthRow_completed_at := None |} in
  _ ← insert_email_authentication id row;
  mret (UserEmailAuthentication_from id row).

(** The code of an authentication. *)
Definition is_email_code (authentication_id : Ulid) (code : string)
    (r : UserEmailAuthenticationCodeRow) : bool :=
  bool_decide (EmailCodeRow_user_email_authentication_id r = authentication_id) &&
  bool_decide (EmailCodeRow_code r = code).

(** [INSERT .. ON CONFLICT (authentication, code) DO UPDATE SET id, created_at, expires_at] *)
Definition user_email_add_authentication_code (duration : Z)
    (user_email_authentication : UserEmailAuthentication) (code : string)
    : M St DatabaseError UserEmailAuthenticationCode :=
  created_at ← clock_now;
  let expires_at := created_at + duration in
  id ← with_rng (new_id created_at);
  let authentication_id := UserEmailAuthentication_id user_email_authentication in
  let row := {| EmailCodeRow_user_email_authentication_id := authentication_id;
                EmailCodeRow_code := code;
                EmailCodeRow_created_at := created_at;
                EmailCodeRow_expires_at := expires_at |} in
  conflict ← select_first db_email_codes (is_email_code authentication_id code);
  let old := match conflict with Some (old, _) => {[ old ]} | None => ∅ end : gset Z in
  _ ← insert_row (λ f, on_email_codes (λ m, f (filter (λ '(k, _), k ∉ old) m)))
        (λ db, new_row_violation "user_email_authentication_codes" id
                 (filter (λ '(k, _), k ∉ old) (db_email_codes db))
                 [(fk_broken authentication_id (db_email_authentications db),
                   ForeignKeyViolation "user_email_authentication_codes"
                     "user_email_authentication_id")])
        id row;
  mret (UserEmailAuthenticationCode_from id row).

Definition user_email_lookup_authentication (id : Ulid)
    : M St DatabaseError (option UserEmailAuthentication) :=
  res ← select_by_id db_email_authentications id;
  mret (UserEmailAuthentication_from id <$> res).

Definition user_email_find_authentication_code (authentication : UserEmailAuthentication)
    (code : string) : M St DatabaseError (option UserEmailAuthenticationCode) :=
  res ← select_first db_email_codes (is_email_code (UserEmailAuthentication_id authentication) code);
  mret ((λ '(id, r), UserEmailAuthenticationCode_from id r) <$> res).

Definition email_authentication_pending (r : UserEmailAuthenticationRow) : bool :=
  bool_decide (EmailAuthRow_completed_at r = None).

(** The code is only asked for; it is not looked at. *)
Definition user_email_complete_authentication_with_code
    (user_email_authentication : UserEmailAuthentication)
    (user_email_authentication_code : UserEmailAuthenticationCode)
    : M St DatabaseError UserEmailAuthentication :=
  completed_at ← clock_now;
  _ ← update_one_where db_email_authentications on_email_authentications no_violation
        (UserEmailAuthentication_id user_email_authentication) email_authentication_pending
        (EmailAuthRow_set_completed_at completed_at);
  mret (UserEmailAuthentication_set_completed_at completed_at user_email_authentication).

Definition user_email_complete_authentication_with_upstream
    (user_email_authentication : UserEmailAuthentication)
    (upstream_oauth_authorization_session : UpstreamOAuthAuthorizationSession)
    : M St DatabaseError UserEmailAuthentication :=
  completed_at ← clock_now;
  _ ← update_one_where db_email_authentications on_email_authentications no_violation
        (UserEmailAuthentication_id user_email_authentication) email_authentication_pending
        (EmailAuthRow_set_completed_at completed_at);
  mret (UserEmailAuthentication_set_completed_at completed_at user_email_authentication).

(** ** Phone numbers (pg/user/phone.rs) *)

Definition UserPhone_from (id : Ulid) (row : UserPhoneRow) : UserPhone :=
  {| UserPhone_id := id;
     UserPhone_user_id := PhoneRow_user_id row;
     UserPhone_phone := PhoneRow_phone row;
     UserPhone_created_at := PhoneRow_created_at row |}.

Definition UserPhoneAuthentication_from (id : Ulid) (row : UserPhoneAuthenticationRow)
    : UserPhoneAuthentication :=
  {| UserPhoneAuthentication_id := id;
     UserPhoneAuthentication_user_registration_id := PhoneAuthRow_user_registration_id row;
     UserPhoneAuthentication_phone := PhoneAuthRow_phone row;
     UserPhoneAuthentication_created_at := PhoneAuthRow_created_at row;
     UserPhoneAuthentication_completed_at := PhoneAuthRow_completed_at row |}.

Definition UserPhoneAuthenticationCode_from (id : Ulid) (row : UserPhoneAuthenticationCodeRow)
    : UserPhoneAuthenticationCode :=
  {| PhoneCode_id := id;
     PhoneCode_user_phone_authentication_id := PhoneCodeRow_user_phone_authentication_id row;
     PhoneCode_code := PhoneCodeRow_code row;
     PhoneCode_created_at := PhoneCodeRow_created_at row;
     PhoneCode_expires_at := PhoneCodeRow_expires_at row |}.

Definition has_phone (phone : string) (r : UserPhoneRow) : bool :=
  bool_decide (PhoneRow_phone r = phone).

Definition user_phone_find_by_phone (phone : string) : M St DatabaseError (option UserPhone) :=
  res ← select_all db_phones (has_phone phone);
  mret ((λ '(id, r), UserPhone_from id r) <$> the_only res).

Definition user_phone_add (user : User) (phone : string) : M St DatabaseError UserPhone :=
  created_at ← clock_now;
  id ← with_rng (new_id created_at);
  let row := {| PhoneRow_user_id := User_id user;
                PhoneRow_phone := phone;
                PhoneRow_created_at := created_at |} in
  _ ← insert_row on_phones
        (λ db, new_row_violation "user_phones" id (db_phones db)
                 [(fk_broken (User_id user) (db_users db), ForeignKeyViolation "user_phones" "user_id")])
        id row;
  mret (UserPhone_from id row).

Definition user_phone_add_authentication_for_registration (phone : string)
    (user_registration : UserRegistration) : M St DatabaseError UserPhoneAuthentication :=
  created_at ← clock_now;
  id ← with_rng (new_id created_at);
  let registration_id := UserRegistration_id user_registration in
  let row := {| PhoneAuthRow_user_registration_id := Some registration_id;
                PhoneAuthRow_phone := phone;
                PhoneAuthRow_created_at := created_at;
                PhoneAuthRow_completed_at := None |} in
  _ ← insert_row on_phone_authentications
        (λ db, new_row_violation "user_phone_authentications" id (db_phone_authentications db)
                 [(fk_broken registration_id (db_registrations db),
                   ForeignKeyViolation "user_phone_authentications" "user_registration_id")])
        id row;
  mret (UserPhoneAuthentication_from id row).

Definition user_phone_add_authentication_code (duration : Z)
    (user_phone_authentication : UserPhoneAuthentication) (code : string)
    : M St DatabaseError UserPhoneAuthenticationCode :=
  created_at ← clock_now;
  let expires_at := created_at + duration in
  id ← with_rng (new_id created_at);
  let authentication_id := UserPhoneAuthentication_id user_phone_authentication in
  let row := {| PhoneCodeRow_user_phone_authentication_id := authentication_id;
                PhoneCodeRow_code := code;
                PhoneCodeRow_created_at := created_at;
                PhoneCodeRow_expires_at := expires_at |} in
  _ ← insert_row on_phone_codes
        (λ db, new_row_violation "user_phone_authentication_codes" id (db_phone_codes db)
                 [(fk_broken authentication_id (db_phone_authentications db),
                   ForeignKeyViolation "user_phone_authentication_codes"
                     "user_phone_authentication_id")])
        id row;
  mret (UserPhoneAuthenticationCode_from id row).

Definition user_phone_lookup_authentication (id : Ulid)
    : M St DatabaseError (option UserPhoneAuthentication) :=
  res ← select_by_id db_phone_authentications id;
  mret (UserPhoneAuthentication_from id <$> res).

Definition is_phone_code (authentication_id : Ulid) (code : string)
    (r : UserPhoneAuthenticationCodeRow) : bool :=
  bool_decide (PhoneCodeRow_user_phone_authentication_id r = authentication_id) &&
  bool_decide (PhoneCodeRow_code r = code).

(** [ORDER BY created_at DESC, id DESC LIMIT 1] *)
Definition later_code (x y : Z * UserPhoneAuthenticationCodeRow) : bool :=
  (PhoneCodeRow_created_at y.2 <? PhoneCodeRow_created_at x.2) ||
  ((PhoneCodeRow_created_at x.2 =? PhoneCodeRow_created_at y.2) && (y.1 <? x.1)).
Fixpoint latest_code (l : list (Z * UserPhoneAuthenticationCodeRow))
    : option (Z * UserPhoneAuthenticationCodeRow) :=
  match l with
  | [] => None
  | kr :: l =>
      match latest_code l with
      | Some kr' => if later_code kr' kr then Some kr' else Some kr
      | None => Some kr
      end
  end.

Definition user_phone_find_authentication_code (authentication : UserPhoneAuthentication)
    (code : string) : M St DatabaseError (option UserPhoneAuthenticationCode) :=
  rows ← select_all db_phone_codes (is_phone_code (UserPhoneAuthentication_id authentication) code);
  mret ((λ '(id, r), UserPhoneAuthenticationCode_from id r) <$> latest_code rows).

Definition user_phone_complete_authentication_with_code
    (user_phone_authentication : UserPhoneAuthentication)
    (user_phone_authentication_code : UserPhoneAuthenticationCode)
    : M St DatabaseError UserPhoneAuthentication :=
  completed_at ← clock_now;
  _ ← update_one_where db_phone_authentications on_phone_authentications no_violation
        (UserPhoneAuthentication_id user_phone_authentication)
        (λ r, bool_decide (PhoneAuthRow_completed_at r = None))
        (PhoneAuthRow_set_completed_at completed_at);
  mret (UserPhoneAuthentication_set_completed_at completed_at user_phone_authentication).

(** ** Registrations (pg/user/registration.rs) *)

Section registrations.
Context {UX : UrlExternals}.

Definition Registration_decode_password (id : Ulid) (value : UserRegistrationRow)
    : result (option UserRegistrationPassword) DatabaseError :=
  match RegistrationRow_hashed_password value, RegistrationRow_hashed_password_version value with
  | Some hashed_password, Some version =>
      match u16_of_i32 version with
      | Some version =>
          Ok (Some {| RegistrationPassword_hashed_password := hashed_password;
                      RegistrationPassword_version := version |})
      | None => Err (inconsistent "user_registrations" "hashed_password_version" id)
      end
  | None, None => Ok None
  | _, _ => Err (inconsistent "user_registrations" "hashed_password" id)
  end.

Definition Registration_decode_terms (id : Ulid) (value : UserRegistrationRow)
    : result (option Url) DatabaseError :=
  match RegistrationRow_terms_url value with
  | None => Ok None
  | Some u =>
      match url_parse u with
      | Some url => Ok (Some url)
      | None => Err (inconsistent "user_registrations" "terms_url" id)
      end
  end.

Definition UserRegistration_try_from (id : Ulid) (value : UserRegistrationRow)
    : result UserRegistration DatabaseError :=
  result_bind (Registration_decode_password id value) (λ password,
  result_bind (Registration_decode_terms id value) (λ terms_url,
  Ok {| UserRegistration_id := id;
        UserRegistration_username := RegistrationRow_username value;
        UserRegistration_display_name := RegistrationRow_display_name value;
        UserRegistration_avatar_url := RegistrationRow_avatar_url value;
        UserRegistration_terms_url := terms_url;
        UserRegistration_email_authentication_id := RegistrationRow_email_authentication_id value;
        UserRegistration_phone_authentication_id := RegistrationRow_phone_authentication_id value;
        UserRegistration_user_registration_token_id :=
          RegistrationRow_user_registration_token_id value;
        UserRegistration_password := password;
        UserRegistration_upstream_oauth_authorization_session_id :=
          RegistrationRow_upstream_oauth_authorization_session_id value;
        UserRegistration_post_auth_action := RegistrationRow_post_auth_action value;
        UserRegistration_ip_address := RegistrationRow_ip_address value;
        UserRegistration_user_agent := RegistrationRow_user_agent value;
        UserRegistration_created_at := RegistrationRow_created_at value;
        UserRegistration_completed_at := RegistrationRow_completed_at value |})).

Definition user_registration_lookup (id : Ulid) : M St DatabaseError (option UserRegistration) :=
  res ← select_by_id db_registrations id;
  try_into UserRegistration_try_from (keyed id res).
End registrations.

Definition new_registration_row (username : string) (ip_address : option IpAddr)
    (user_agent : option string) (post_auth_action : option Json) (created_at : DateTime)
    : UserRegistrationRow :=
  {| RegistrationRow_ip_address := ip_address;
     RegistrationRow_user_agent := user_agent;
     RegistrationRow_post_auth_action := post_auth_action;
     RegistrationRow_username := username;
     RegistrationRow_display_name := None;
     RegistrationRow_avatar_url := None;
     RegistrationRow_terms_url := None;
     RegistrationRow_email_authentication_id := None;
     RegistrationRow_phone_authentication_id := None;
     RegistrationRow_user_registration_token_id := None;
     RegistrationRow_hashed_password := None;
     RegistrationRow_hashed_password_version := None;
     RegistrationRow_upstream_oauth_authorization_session_id := None;
     RegistrationRow_created_at := created_at;
     RegistrationRow_completed_at := None |}.

Definition user_registration_add (username : string) (ip_address : option IpAddr)
    (user_agent : option string) (post_auth_action : option Json)
    : M St DatabaseError UserRegistration :=
  created_at ← clock_now;
  id ← with_rng (new_id created_at);
  _ ← insert_row on_registrations
        (λ db, new_row_violation "user_registrations" id (db_registrations db) []) id
        (new_registration_row username ip_address user_agent post_auth_action created_at);
  mret {| UserRegistration_id := id;
          UserRegistration_username := username;
          UserRegistration_display_name := None;
          UserRegistration_avatar_url := None;
          UserRegistration_terms_url := None;
          UserRegistration_email_authentication_id := None;
          UserRegistration_phone_authentication_id := None;
          UserRegistration_user_registration_token_id := None;
          UserRegistration_password := None;
          UserRegistration_upstream_oauth_authorization_session_id := None;
          UserRegistration_post_auth_action := post_auth_action;
          UserRegistration_ip_address := ip_address;
          UserRegistration_user_agent := user_agent;
          UserRegistration_created_at := created_at;
          UserRegistration_completed_at := None |}.

Definition registration_pending (r : UserRegistrationRow) : bool :=
  bool_decide (RegistrationRow_completed_at r = None).

(** The updates of a registration leave a completed one alone. *)
Definition update_registration (violation : DB → option DieselError)
    (user_registration : UserRegistration) (f : UserRegistrationRow → UserRegistrationRow)
    : M St DatabaseError () :=
  update_one_where db_registrations on_registrations violation (UserRegistration_id user_registration)
    registration_pending f.

Definition user_registration_set_display_name (user_registration : UserRegistration)
    (display_name : string) : M St DatabaseError UserRegistration :=
  _ ← update_registration no_violation user_registration
        (RegistrationRow_set_display_name display_name);
  mret (UserRegistration_set_display_name display_name user_registration).

Definition user_registration_set_avatar_url (user_registration : UserRegistration)
    (avatar_url : string) : M St DatabaseError UserRegistration :=
  _ ← update_registration no_violation user_registration (RegistrationRow_set_avatar_url avatar_url);
  mret (UserRegistration_set_avatar_url avatar_url user_registration).

Definition user_registration_set_terms_url (user_registration : UserRegistration)
    (terms_url : Url) : M St DatabaseError UserRegistration :=
  _ ← update_registration no_violation user_registration (RegistrationRow_set_terms_url terms_url);
  mret (UserRegistration_set_terms_url terms_url user_registration).

Definition user_registration_set_email_authentication (user_registration : UserRegistration)
    (user_email_authentication : UserEmailAuthentication) : M St DatabaseError UserRegistration :=
  let id := UserEmailAuthentication_id user_email_authentication in
  _ ← update_registration
        (λ db, first_violation [(fk_broken id (db_email_authentications db),
           ForeignKeyViolation "user_registrations" "email_authentication_id")])
        user_registration (RegistrationRow_set_email_authentication_id id);
  mret (UserRegistration_set_email_authentication_id id user_registration).

Definition user_registration_set_phone_authentication (user_registration : UserRegistration)
    (user_phone_authentication : UserPhoneAuthentication) : M St DatabaseError UserRegistration :=
  let id := UserPhoneAuthentication_id user_phone_authentication in
  _ ← update_registration
        (λ db, first_violation [(fk_broken id (db_phone_authentications db),
           ForeignKeyViolation "user_registrations" "phone_authentication_id")])
        user_registration (RegistrationRow_set_phone_authentication_id id);
  mret (UserRegistration_set_phone_authentication_id id user_registration).

Definition user_registration_set_password (user_registration : UserRegistration)
    (hashed_password : string) (version : Z) : M St DatabaseError UserRegistration :=
  _ ← update_registration no_violation user_registration
        (RegistrationRow_set_password hashed_password version);
  mret (UserRegistration_set_password
          {| RegistrationPassword_hashed_password := hashed_password;
             RegistrationPassword_version := version |} user_registration).

Definition user_registration_set_registration_token (user_registration : UserRegistration)
    (user_registration_token : UserRegistrationToken) : M St DatabaseError UserRegistration :=
  let id := UserRegistrationToken_id user_registration_token in
  _ ← update_registration
        (λ db, first_violation [(fk_broken id (db_registration_tokens db),
           ForeignKeyViolation "user_registrations" "user_registration_token_id")])
        user_registration (RegistrationRow_set_user_registration_token_id id);
  mret (UserRegistration_set_user_registration_token_id id user_registration).

Definition user_registration_set_upstream_oauth_authorization_session
    (user_registration : UserRegistration)
    (upstream_oauth_authorization_session : UpstreamOAuthAuthorizationSession)
    : M St DatabaseError UserRegistration :=
  let id := UpstreamSession_id upstream_oauth_authorization_session in
  _ ← update_registration
        (λ db, first_violation [(fk_broken id (db_upstream_sessions db),
           ForeignKeyViolation "user_registrations" "upstream_oauth_authorization_session_id")])
        user_registration (RegistrationRow_set_upstream_oauth_authorization_session_id id);
  mret (UserRegistration_set_upstream_oauth_authorization_session_id id user_registration).

Definition user_registration_complete (user_registration : UserRegistration)
    : M St DatabaseError UserRegistration :=
  completed_at ← clock_now;
  _ ← update_registration no_violation user_registration
        (RegistrationRow_set_completed_at completed_at);
  mret (UserRegistration_set_completed_at completed_at user_registration).

(** ** Recovery (pg/user/recovery.rs) *)

Definition UserRecoverySession_from (id : Ulid) (row : UserRecoverySessionRow) : UserRecoverySession :=
  {| RecoverySession_id := id;
     RecoverySession_email := RecoverySessionRow_email row;
     RecoverySession_user_agent := RecoverySessionRow_user_agent row;
     RecoverySession_ip_address := RecoverySessionRow_ip_address row;
     RecoverySession_locale := RecoverySessionRow_locale row;
     RecoverySession_created_at := RecoverySessionRow_created_at row;
     RecoverySession_consumed_at := RecoverySessionRow_consumed_at row |}.

Definition UserRecoveryTicket_from (id : Ulid) (row : UserRecoveryTicketRow) : UserRecoveryTicket :=
  {| RecoveryTicket_id := id;
     RecoveryTicket_user_recovery_session_id := RecoveryTicketRow_user_recovery_session_id row;
     RecoveryTicket_user_email_id := RecoveryTicketRow_user_email_id row;
     RecoveryTicket_ticket := RecoveryTicketRow_ticket row;
     RecoveryTicket_created_at := RecoveryTicketRow_created_at row;
     RecoveryTicket_expires_at := RecoveryTicketRow_expires_at row |}.

Definition user_recovery_lookup_session (id : Ulid)
    : M St DatabaseError (option UserRecoverySession) :=
  row ← select_by_id db_recovery_sessions id;
  mret (UserRecoverySession_from id <$> row).

Definition user_recovery_add_session (email user_agent : string) (ip_address : option IpAddr)
    (locale : string) : M St DatabaseError UserRecoverySession :=
  created_at ← clock_now;
  id ← with_rng (new_id created_at);
  let row := {| RecoverySessionRow_email := email;
                RecoverySessionRow_user_agent := user_agent;
                RecoverySessionRow_ip_address := ip_address;
                RecoverySessionRow_locale := locale;
                RecoverySessionRow_created_at := created_at;
                RecoverySessionRow_consumed_at := None |} in
  _ ← insert_row on_recovery_sessions
        (λ db, new_row_violation "user_recovery_sessions" id (db_recovery_sessions db) []) id row;
  mret (UserRecoverySession_from id row).

Definition has_ticket (ticket : string) (r : UserRecoveryTicketRow) : bool :=
  bool_decide (RecoveryTicketRow_ticket r = ticket).

Definition user_recovery_find_ticket (ticket : string)
    : M St DatabaseError (option UserRecoveryTicket) :=
  row ← select_first db_recovery_tickets (has_ticket ticket);
  mret ((λ '(id, r), UserRecoveryTicket_from id r) <$> row).

(** Ten minutes. *)
Definition TICKET_LIFETIME : Z := 600 * 1000000.

Definition user_recovery_add_ticket (user_recovery_session : UserRecoverySession)
    (user_email : UserEmail) (ticket : string) : M St DatabaseError UserRecoveryTicket :=
  created_at ← clock_now;
  id ← with_rng (new_id created_at);
  let row := {| RecoveryTicketRow_user_recovery_session_id := RecoverySession_id user_recovery_session;
                RecoveryTicketRow_user_email_id := UserEmail_id user_email;
                RecoveryTicketRow_ticket := ticket;
                RecoveryTicketRow_created_at := created_at;
                RecoveryTicketRow_expires_at := created_at + TICKET_LIFETIME |} in
  _ ← insert_row on_recovery_tickets
        (λ db, new_row_violation "user_recovery_tickets" id (db_recovery_tickets db)
                 [(fk_broken (RecoverySession_id user_recovery_session) (db_recovery_sessions db),
                   ForeignKeyViolation "user_recovery_tickets" "user_recovery_session_id");
                  (fk_broken (UserEmail_id user_email) (db_emails db),
                   ForeignKeyViolation "user_recovery_tickets" "user_email_id")])
        id row;
  mret (UserRecoveryTicket_from id row).

(** The ticket is only asked for. *)
Definition user_recovery_consume_ticket (user_recovery_ticket : UserRecoveryTicket)
    (user_recovery_session : UserRecoverySession) : M St DatabaseError UserRecoverySession :=
  if bool_decide (is_Some (RecoverySession_consumed_at user_recovery_session))
  then raise Db_InvalidOperation
  else
    consumed_at ← clock_now;
    _ ← update_one db_recovery_sessions on_recovery_sessions no_violation
          (RecoverySession_id user_recovery_session)
          (RecoverySessionRow_set_consumed_at consumed_at);
    mret (RecoverySession_set_consumed_at consumed_at user_recovery_session).

(** ** Registration tokens (pg/user/registration_token.rs) *)

Definition UserRegistrationToken_try_from (id : Ulid) (res : UserRegistrationTokenRow)
    : result UserRegistrationToken DatabaseError :=
  result_bind
    match RegistrationTokenRow_usage_limit res with
    | None => Ok None
    | Some limit =>
        match u32_of_i32 limit with
        | Some limit => Ok (Some limit)
        | None => Err (inconsistent "user_registration_tokens" "usage_limit" id)
        end
    end (λ usage_limit,
  result_bind
    match u32_of_i32 (RegistrationTokenRow_times_used res) with
    | Some times_used => Ok times_used
    | None => Err (inconsistent "user_registration_tokens" "times_used" id)
    end (λ times_used,
  Ok {| UserRegistrationToken_id := id;
        UserRegistrationToken_token := RegistrationTokenRow_token res;
        UserRegistrationToken_usage_limit := usage_limit;
        UserRegistrationToken_times_used := times_used;
        UserRegistrationToken_created_at := RegistrationTokenRow_created_at res;
        UserRegistrationToken_last_used_at := RegistrationTokenRow_last_used_at res;
        UserRegistrationToken_expires_at := RegistrationTokenRow_expires_at res;
        UserRegistrationToken_revoked_at := RegistrationTokenRow_revoked_at res |})).

Definition user_registration_token_lookup (id : Ulid)
    : M St DatabaseError (option UserRegistrationToken) :=
  res ← select_by_id db_registration_tokens id;
  try_into UserRegistrationToken_try_from (keyed id res).

(** The token with other counters and dates. *)
Definition UserRegistrationToken_set (usage_limit : option Z) (times_used : Z)
    (last_used_at expires_at revoked_at : option DateTime) (token : UserRegistrationToken)
    : UserRegistrationToken :=
  {| UserRegistrationToken_id := UserRegistrationToken_id token;
     UserRegistrationToken_token := UserRegistrationToken_token token;
     UserRegistrationToken_usage_limit := usage_limit;
     UserRegistrationToken_times_used := times_used;
     UserRegistrationToken_created_at := UserRegistrationToken_created_at token;
     UserRegistrationToken_last_used_at := last_used_at;
     UserRegistrationToken_expires_at := expires_at;
     UserRegistrationToken_revoked_at := revoked_at |}.

(** [SET times_used = times_used + 1, last_used_at = ..] *)
Definition RegistrationTokenRow_use (now : DateTime) (r : UserRegistrationTokenRow) :=
  RegistrationTokenRow_set (RegistrationTokenRow_usage_limit r)
    (RegistrationTokenRow_times_used r + 1) (Some now) (RegistrationTokenRow_expires_at r)
    (RegistrationTokenRow_revoked_at r) r.

(** [UPDATE .. WHERE id = .. AND revoked_at IS NULL RETURNING times_used]: an [INTEGER]
    column, and a row must come back. *)
Definition user_registration_token_use_token (token : UserRegistrationToken)
    : M St DatabaseError UserRegistrationToken :=
  now ← clock_now;
  row ← select_by_id db_registration_tokens (UserRegistrationToken_id token);
  match row with
  | None => raise (Db_Diesel NoRow)
  | Some r =>
      if bool_decide (is_Some (RegistrationTokenRow_revoked_at r)) then raise (Db_Diesel NoRow)
      else
        let new_times_used := RegistrationTokenRow_times_used r + 1 in
        if 2 ^ 31 <=? new_times_used then raise (Db_Diesel NumericOutOfRange)
        else
          _ ← modify (on_db (on_registration_tokens
                (alter (RegistrationTokenRow_use now) (UserRegistrationToken_id token))));
          match u32_of_i32 new_times_used with
          | None => raise Db_InvalidOperation
          | Some new_times_used =>
              mret (UserRegistrationToken_set (UserRegistrationToken_usage_limit token)
                      new_times_used (Some now) (UserRegistrationToken_expires_at token)
                      (UserRegistrationToken_revoked_at token) token)
          end
  end.

(** ** Upstream identities (pg/upstream_oauth2/session.rs, link.rs) *)

Definition UpstreamState_try_from (id : Ulid) (value : UpstreamOAuthAuthorizationSessionRow)
    : result UpstreamOAuthAuthorizationSessionState DatabaseError :=
  let inconsistent := Err (inconsistent_row "upstream_oauth_authorization_sessions" id) in
  match UpstreamSessionRow_link_id value, UpstreamSessionRow_completed_at value,
        UpstreamSessionRow_consumed_at value, UpstreamSessionRow_unlinked_at value with
  | None, None, None, None =>
      match UpstreamSessionRow_id_token value, UpstreamSessionRow_id_token_claims value,
            UpstreamSessionRow_extra_callback_parameters value, UpstreamSessionRow_userinfo value with
      | None, None, None, None => Ok Upstream_Pending
      | _, _, _, _ => inconsistent
      end
  | Some link_id, Some completed_at, None, None =>
      Ok (Upstream_Completed completed_at link_id (UpstreamSessionRow_id_token value)
            (UpstreamSessionRow_id_token_claims value)
            (UpstreamSessionRow_extra_callback_parameters value) (UpstreamSessionRow_userinfo value))
  | Some link_id, Some completed_at, Some consumed_at, None =>
      Ok (Upstream_Consumed completed_at consumed_at link_id (UpstreamSessionRow_id_token value)
            (UpstreamSessionRow_id_token_claims value)
            (UpstreamSessionRow_extra_callback_parameters value) (UpstreamSessionRow_userinfo value))
  | _, Some completed_at, consumed_at, Some unlinked_at =>
      Ok (Upstream_Unlinked completed_at consumed_at unlinked_at (UpstreamSessionRow_id_token value)
            (UpstreamSessionRow_id_token_claims value))
  | _, _, _, _ => inconsistent
  end.

Definition UpstreamSession_try_from (id : Ulid) (value : UpstreamOAuthAuthorizationSessionRow)
    : result UpstreamOAuthAuthorizationSession DatabaseError :=
  result_bind (UpstreamState_try_from id value) (λ state,
  Ok {| UpstreamSession_id := id;
        UpstreamSession_state := state;
        UpstreamSession_provider_id := UpstreamSessionRow_provider_id value;
        UpstreamSession_state_str := UpstreamSessionRow_state value;
        UpstreamSession_code_challenge_verifier := UpstreamSessionRow_code_challenge_verifier value;
        UpstreamSession_nonce := UpstreamSessionRow_nonce value;
        UpstreamSession_created_at := UpstreamSessionRow_created_at value |}).

Definition upstream_oauth_session_lookup (id : Ulid)
    : M St DatabaseError (option UpstreamOAuthAuthorizationSession) :=
  res ← select_by_id db_upstream_sessions id;
  try_into UpstreamSession_try_from (keyed id res).

Definition upstream_oauth_session_consume
    (upstream_oauth_authorization_session : UpstreamOAuthAuthorizationSession)
    (browser_session : BrowserSession) : M St DatabaseError UpstreamOAuthAuthorizationSession :=
  consumed_at ← clock_now;
  _ ← update_by_id db_upstream_sessions on_upstream_sessions
        (λ db, first_violation [(fk_broken (BrowserSession_id browser_session) (db_user_sessions db),
           ForeignKeyViolation "upstream_oauth_authorization_sessions" "user_session_id")])
        (UpstreamSession_id upstream_oauth_authorization_session)
        (UpstreamSessionRow_set_consumed consumed_at (BrowserSession_id browser_session));
  of_result (result_map_err to_invalid_operation
    (UpstreamSession_consume upstream_oauth_authorization_session consumed_at)).

Definition UpstreamOAuthLink_from (id : Ulid) (value : UpstreamOAuthLinkRow) : UpstreamOAuthLink :=
  {| UpstreamLink_id := id;
     UpstreamLink_provider_id := UpstreamLinkRow_provider_id value;
     UpstreamLink_user_id := UpstreamLinkRow_user_id value;
     UpstreamLink_subject := UpstreamLinkRow_subject value;
     UpstreamLink_human_account_name := UpstreamLinkRow_human_account_name value;
     UpstreamLink_created_at := UpstreamLinkRow_created_at value;
     UpstreamLink_updated_at := UpstreamLinkRow_updated_at value |}.

Definition upstream_oauth_link_lookup (id : Ulid) : M St DatabaseError (option UpstreamOAuthLink) :=
  res ← select_by_id db_links id;
  mret (UpstreamOAuthLink_from id <$> res).

Definition upstream_oauth_link_associate_to_user (upstream_oauth_link : UpstreamOAuthLink)
    (user : User) : M St DatabaseError () :=
  updated_at ← clock_now;
  _ ← update_by_id db_links on_links
        (λ db, first_violation [(fk_broken (User_id user) (db_users db),
           ForeignKeyViolation "upstream_oauth_links" "user_id")])
        (UpstreamLink_id upstream_oauth_link)
        (UpstreamLinkRow_set_user (User_id user) updated_at);
  mret tt.

(** ** Jobs (storage/queue/tasks.rs, handlers/notification_dispatch.rs) *)

Definition PROVISION_USER_QUEUE_NAME : string := "provision-user".
Definition DISPATCH_NOTIFICATION_QUEUE_NAME : string := "dispatch-notification".

(** [schedule_job(rng, clock, ProvisionUserJob::new(user)..)] *)
Definition schedule_provision_user_job (user_id : Ulid) (display_name avatar_url : option string)
    : M St DatabaseError () :=
  queue_job_schedule PROVISION_USER_QUEUE_NAME (Payload_ProvisionUser user_id display_name avatar_url).

(** [schedule_notification] of [account_recovery] *)
Definition schedule_recovery_notification (session : UserRecoverySession) : M St DatabaseError () :=
  queue_job_schedule DISPATCH_NOTIFICATION_QUEUE_NAME
    (Payload_AccountRecovery (RecoverySession_id session)).

(** [schedule_notification] of [verify_email] and of [verify_phone] *)
Definition schedule_notification (target : ContactVerificationTarget) (language : string)
    : M St DatabaseError () :=
  queue_job_schedule DISPATCH_NOTIFICATION_QUEUE_NAME (Payload_ContactVerification target language).
