(* ===== verification/Pagination.v ===== *)
(** Pagination: crates/data/src/storage/pagination.rs, the limit of crates/data/src/pg/mod.rs, the
    way every listing query of crates/data/src/pg uses them, and the list of email addresses of
    crates/data/src/pg/user/email.rs. *)
From S2P Require Import Prelude Ids RateLimit TokenFormat Scope Pkce Jose Keystore Domain Accounts Database Repository AccountRepository.

Open Scope Z_scope.

(** ** Pages (pagination.rs) *)

Inductive InvalidPagination := Invalid_pagination.
Inductive PaginationDirection := Page_Forward | Page_Backward.

Record Pagination := {
  page_before : option Ulid;
  page_after : option Ulid;
  page_count : Z;
  page_direction : PaginationDirection
}.

Definition Pagination_try_new (before after : option Ulid) (first last : option Z)
    : result Pagination InvalidPagination :=
  match first, last with
  | Some first, _ =>
      Ok {| page_before := before; page_after := after; page_count := first;
            page_direction := Page_Forward |}
  | None, Some last =>
      Ok {| page_before := before; page_after := after; page_count := last;
            page_direction := Page_Backward |}
  | None, None => Err Invalid_pagination
  end.
Definition Pagination_first (first : Z) : Pagination :=
  {| page_before := None; page_after := None; page_count := first; page_direction := Page_Forward |}.
Definition Pagination_last (last : Z) : Pagination :=
  {| page_before := None; page_after := None; page_count := last; page_direction := Page_Backward |}.
Definition Pagination_set_before (cursor : option Ulid) (self : Pagination) : Pagination :=
  {| page_before := cursor; page_after := page_after self; page_count := page_count self;
     page_direction := page_direction self |}.
Definition Pagination_set_after (cursor : option Ulid) (self : Pagination) : Pagination :=
  {| page_before := page_before self; page_after := cursor; page_count := page_count self;
     page_direction := page_direction self |}.
Definition Pagination_before (self : Pagination) (cursor : Ulid) := Pagination_set_before (Some cursor) self.
Definition Pagination_clear_before (self : Pagination) := Pagination_set_before None self.
Definition Pagination_after (self : Pagination) (cursor : Ulid) := Pagination_set_after (Some cursor) self.
Definition Pagination_clear_after (self : Pagination) := Pagination_set_after None self.

Record Edge (A : Type) := { edge_cursor : Ulid; edge_node : A }.
Arguments edge_cursor {A} _.
Arguments edge_node {A} _.
Record Page (A : Type) := { has_next_page : bool; has_previous_page : bool; edges : list (Edge A) }.
Arguments has_next_page {A} _.
Arguments has_previous_page {A} _.
Arguments edges {A} _.

(** [Vec::pop] *)
Definition list_pop {A} (l : list A) : list A := take (length l - 1) l.

Definition Pagination_process {A} (cursor : A → Ulid) (self : Pagination) (nodes : list A) : Page A :=
  let is_full := bool_decide (Z.of_nat (length nodes) = page_count self + 1) in
  let nodes := if is_full then list_pop nodes else nodes in
  let '(prev, next, nodes) :=
    match page_direction self with
    | Page_Forward => (false, is_full, nodes)
    | Page_Backward => (is_full, false, reverse nodes)
    end in
  {| has_next_page := next; has_previous_page := prev;
     edges := (λ node, {| edge_cursor := cursor node; edge_node := node |}) <$> nodes |}.

Definition Page_map {A B} (f : A → B) (self : Page A) : Page B :=
  {| has_next_page := has_next_page self; has_previous_page := has_previous_page self;
     edges := (λ e, {| edge_cursor := edge_cursor e; edge_node := f (edge_node e) |}) <$> edges self |}.
Fixpoint edges_try_map {A B E} (f : A → result B E) (l : list (Edge A)) : result (list (Edge B)) E :=
  match l with
  | [] => Ok []
  | e :: l =>
      result_bind (f (edge_node e)) (λ node,
      result_bind (edges_try_map f l) (λ l,
      Ok ({| edge_cursor := edge_cursor e; edge_node := node |} :: l)))
  end.
Definition Page_try_map {A B E} (f : A → result B E) (self : Page A) : result (Page B) E :=
  result_bind (edges_try_map f (edges self)) (λ l,
  Ok {| has_next_page := has_next_page self; has_previous_page := has_previous_page self; edges := l |}).

(** ** Queries (pg/mod.rs) *)

Definition USIZE_MAX : Z := 2 ^ 64 - 1.
Definition LIMIT_MAX : Z := 2 ^ 63 - 1.
(** [i64::try_from(count.saturating_add(1)).unwrap_or(i64::MAX)] *)
Definition pagination_limit (count : Z) : Z := (count + 1) `min` USIZE_MAX `min` LIMIT_MAX.

Definition key_le {R} (a b : Z * R) : Prop := a.1 ≤ b.1.
#[export] Instance key_le_dec {R} : RelDecision (@key_le R).
Proof. intros a b. unfold key_le. apply _. Defined.
(** The rows in the order of their keys. *)
Definition ordered_rows {R} (m : gmap Z R) : list (Z * R) := merge_sort key_le (map_to_list m).

(** The filters, the order and the limit that a listing query adds for a page. *)
Definition in_window {R} (p : Pagination) (row : Z * R) : bool :=
  match page_after p with Some a => a <? row.1 | None => true end &&
  match page_before p with Some b => row.1 <? b | None => true end.
Definition page_rows {R} (p : Pagination) (P : R → bool) (rows : list (Z * R)) : list (Z * R) :=
  let rows := filter (λ row, P row.2 && in_window p row = true) rows in
  let rows := match page_direction p with Page_Forward => rows | Page_Backward => reverse rows end in
  take (Z.to_nat (pagination_limit (page_count p))) rows.
Definition paginated {R} (p : Pagination) (P : R → bool) (m : gmap Z R) : list (Z * R) :=
  page_rows p P (ordered_rows m).
Definition list_page {R} (p : Pagination) (P : R → bool) (m : gmap Z R) : Page (Z * R) :=
  Pagination_process fst p (paginated p P m).

Section emails.
Context {LX : LimiterExternals} {XX : AccountExternals}.
Definition user_email_list (filter : UserEmailFilter) (pagination : Pagination)
    : M St DatabaseError (Page UserEmail) :=
  page ← gets (λ st, list_page pagination (email_matches filter) (db_emails (st_db st)));
  mret (Page_map (λ '(id, r), UserEmail_from id r) page).
End emails.

(** ** Laws *)

#[export] Instance key_le_total {R} : Total (@key_le R).
Proof. intros a b. unfold key_le. lia. Qed.
#[export] Instance key_le_trans {R} : Transitive (@key_le R).
Proof. intros a b c. unfold key_le. lia. Qed.

Section laws.
Context {R : Type}.
Implicit Types (m : gmap Z R) (P : R → bool) (p : Pagination) (rows : list (Z * R)).

Definition key_lt (a b : Z * R) : Prop := a.1 < b.1.

Lemma elem_ordered_rows m k r : (k, r) ∈ ordered_rows m ↔ m !! k = Some r.
Proof. unfold ordered_rows. by rewrite merge_sort_Permutation, elem_of_map_to_list. Qed.

Lemma ordered_rows_sorted m : StronglySorted key_lt (ordered_rows m).
Proof.
  assert (NoDup (ordered_rows m).*1) as Hnd.
  { unfold ordered_rows. rewrite merge_sort_Permutation. apply NoDup_fst_map_to_list. }
  assert (StronglySorted key_le (ordered_rows m)) as Hs
    by (apply StronglySorted_merge_sort; apply _).
  revert Hnd. induction Hs as [|a l Hl IH Ha]; [constructor|]. rewrite fmap_cons, NoDup_cons.
  intros [Hna Hnd]. constructor; [by apply IH|]. rewrite Forall_forall in *. intros b Hb.
  specialize (Ha b Hb). unfold key_le, key_lt in *. assert (a.1 ≠ b.1); [|lia]. intros E. apply Hna.
  rewrite E. by apply list_elem_of_fmap_2.
Qed.

Lemma sorted_filter (Q : Z * R → Prop) `{∀ x, Decision (Q x)} rows :
  StronglySorted key_lt rows → StronglySorted key_lt (filter Q rows).
Proof.
  induction 1 as [|a l Hl IH Ha]; [constructor|]. rewrite filter_cons. destruct (decide _); [|done].
  constructor; [done|]. rewrite Forall_forall in *. intros b [_ Hb]%list_elem_of_filter. by apply Ha.
Qed.

(** All rows of a query, and those after a cursor. *)
Definition matching P rows : list (Z * R) := filter (λ row, P row.2 = true) rows.
Definition all_rows P m : list (Z * R) := matching P (ordered_rows m).
Definition rows_after (c : option Ulid) rows : list (Z * R) :=
  match c with Some c => filter (λ row, c < row.1) rows | None => rows end.

Lemma all_rows_sorted P m : StronglySorted key_lt (all_rows P m).
Proof. apply sorted_filter, ordered_rows_sorted. Qed.
Lemma elem_all_rows P m k r : (k, r) ∈ all_rows P m ↔ m !! k = Some r ∧ P r = true.
Proof. unfold all_rows, matching. rewrite list_elem_of_filter, elem_ordered_rows. naive_solver. Qed.

(** What is after an element of a sorted list is the rest of the list. *)
Lemma rows_after_split l x l' :
  StronglySorted key_lt (l ++ x :: l') → rows_after (Some x.1) (l ++ x :: l') = l'.
Proof.
  intros Hs. simpl. rewrite filter_app, filter_cons. rewrite decide_False by lia.
  apply StronglySorted_app in Hs as (Hl & _ & Hs). inversion Hs as [|? ? _ Hx]; subst.
  assert (filter (λ row, x.1 < row.1) l = []) as ->.
  { destruct (filter _ l) as [|y l2] eqn:E; [done|].
    assert (y ∈ y :: l2) as Hy by (by apply elem_of_cons; left). rewrite <-E in Hy.
    apply list_elem_of_filter in Hy as [Hy Hin]. exfalso.
    assert (key_lt y x); [|unfold key_lt in *; lia].
    apply Hl; [done|]. by apply elem_of_cons; left. }
  simpl. clear Hl Hs. induction Hx as [|y l' Hy Hx IH]; [done|]. unfold key_lt in Hy.
  rewrite filter_cons, decide_True by done. by f_equal.
Qed.

(** A page forward: [n] rows after the cursor, fewer at the end, and whether there are more. *)
Definition forward (p : Pagination) (n : nat) : Prop :=
  page_direction p = Page_Forward ∧ page_before p = None ∧ page_count p = Z.of_nat n ∧
  Z.of_nat n < LIMIT_MAX.

Lemma pagination_limit_small n : Z.of_nat n < LIMIT_MAX → Z.to_nat (pagination_limit (Z.of_nat n)) = S n.
Proof. unfold pagination_limit, LIMIT_MAX, USIZE_MAX. lia. Qed.

Lemma page_rows_take p n P rows :
  forward p n → page_rows p P rows = take (S n) (rows_after (page_after p) (matching P rows)).
Proof.
  intros (Hd & Hb & Hc & Hn). unfold page_rows. rewrite Hd, Hc, pagination_limit_small by done. f_equal.
  unfold in_window, matching, rows_after. rewrite Hb. destruct (page_after p) as [c|].
  - rewrite list_filter_filter. apply list_filter_iff. intros x. rewrite !andb_true_r, andb_true_iff, Z.ltb_lt.
    tauto.
  - apply list_filter_iff. intros x. by rewrite !andb_true_r.
Qed.

Lemma take_pop {A} n (l : list A) :
  (if decide (length (take (S n) l) = S n) then list_pop (take (S n) l) else take (S n) l) = take n l.
Proof.
  unfold list_pop. rewrite length_take. destruct (decide _) as [E|E].
  - rewrite take_take. f_equal. lia.
  - rewrite !take_ge by lia. done.
Qed.

Lemma page_rows_forward p n P l :
  forward p n →
  let rows := rows_after (page_after p) (matching P l) in
  Pagination_process fst p (page_rows p P l) =
    {| has_next_page := bool_decide (n < length rows)%nat; has_previous_page := false;
       edges := (λ row, {| edge_cursor := row.1; edge_node := row |}) <$> take n rows |}.
Proof.
  intros Hp rows. unfold Pagination_process. rewrite (page_rows_take p n P l Hp).
  destruct Hp as (Hd & _ & Hc & _). rewrite Hd, Hc. fold rows. rewrite length_take. f_equal.
  - apply bool_decide_ext. lia.
  - f_equal. rewrite <-(take_pop n rows), length_take.
    case_bool_decide as E1; destruct (decide _) as [E2|E2]; try done; lia.
Qed.

Lemma list_page_forward p n P m :
  forward p n →
  let rows := rows_after (page_after p) (all_rows P m) in
  list_page p P m =
    {| has_next_page := bool_decide (n < length rows)%nat; has_previous_page := false;
       edges := (λ row, {| edge_cursor := row.1; edge_node := row |}) <$> take n rows |}.
Proof. apply page_rows_forward. Qed.

(** The pages one after the other, each after the last row of the one before. *)
Fixpoint all_pages (fuel : nat) (p : Pagination) P m : list (Z * R) :=
  match fuel with
  | O => []
  | S fuel =>
      let page := list_page p P m in
      (edge_node <$> edges page) ++
      if has_next_page page then
        match last (edges page) with
        | Some e => all_pages fuel (Pagination_after p (edge_cursor e)) P m
        | None => []
        end
      else []
  end.

Lemma forward_after p n c : forward p n → forward (Pagination_after p c) n.
Proof. done. Qed.

(** The rows after the last row of a page are the rest. *)
Lemma rows_after_page c P m n x :
  let rows := rows_after c (all_rows P m) in
  last (take n rows) = Some x → rows_after (Some x.1) (all_rows P m) = drop n rows.
Proof.
  intros rows Hx. apply last_Some in Hx as [l Hl].
  assert (rows = l ++ x :: drop n rows) as Erows.
  { rewrite <-(take_drop n rows) at 1. rewrite Hl. by rewrite <-app_assoc. }
  assert (∃ l0, all_rows P m = l0 ++ rows) as [l0 El].
  { subst rows. destruct c as [c|]; [|by exists []]. simpl.
    pose proof (all_rows_sorted P m) as Hs. clear -Hs. induction Hs as [|a l Hs IH Ha]; [by exists []|].
    rewrite filter_cons. destruct (decide (c < a.1)) as [Hc|Hc].
    - exists []. simpl. f_equal. symmetry. clear -Ha Hc. induction Ha as [|b l Hb Ha IH]; [done|].
      unfold key_lt in Hb. rewrite filter_cons, decide_True by lia. by f_equal.
    - destruct IH as [l0 IH]. exists (a :: l0). simpl. by f_equal. }
  pose proof (all_rows_sorted P m) as Hs. rewrite Erows, app_assoc in El. rewrite El in Hs |- *.
  exact (rows_after_split _ _ _ Hs).
Qed.

Lemma all_pages_rest fuel p n P m :
  forward p n → (0 < n)%nat → (length (rows_after (page_after p) (all_rows P m)) < fuel)%nat →
  all_pages fuel p P m = rows_after (page_after p) (all_rows P m).
Proof.
  intros Hp Hn. revert p Hp. induction fuel as [|fuel IH]; intros p Hp Hlen; [lia|]. simpl.
  rewrite (list_page_forward p n P m Hp). simpl. set (rows := rows_after (page_after p) (all_rows P m)) in *.
  rewrite <-list_fmap_compose. unfold compose. simpl. rewrite list_fmap_id. case_bool_decide as Hlt.
  - rewrite fmap_last. destruct (last (take n rows)) as [x|] eqn:Hx.
    + simpl. pose proof (rows_after_page (page_after p) P m n x Hx) as Hrest. fold rows in Hrest.
      rewrite IH; [|by apply forward_after|].
      * simpl in *. rewrite Hrest. by rewrite take_drop.
      * simpl in *. rewrite Hrest, length_drop. lia.
    + apply last_None in Hx. apply (f_equal length) in Hx. rewrite length_take in Hx. simpl in Hx. lia.
  - by rewrite app_nil_r, take_ge by lia.
Qed.

(** Reading a query page by page, each page after the last row of the one before, ends, and gives every row
    of the query exactly once and in the order of the keys, whatever the size of the pages. *)
Theorem pages_enumerate_the_query n P m :
  (0 < n)%nat → Z.of_nat n < LIMIT_MAX →
  let rows := all_pages (S (length (all_rows P m))) (Pagination_first (Z.of_nat n)) P m in
  StronglySorted key_lt rows ∧ ∀ k r, (k, r) ∈ rows ↔ m !! k = Some r ∧ P r = true.
Proof.
  intros Hn Hmax rows. assert (rows = all_rows P m) as ->.
  { unfold rows. by rewrite (all_pages_rest _ _ n) by (try done; simpl; lia). }
  split; [apply all_rows_sorted|]. intros k r. apply elem_all_rows.
Qed.
End laws.

Lemma pages_enumerate_the_query_witness :
  let m : gmap Z bool := {[1 := true; 5 := false; 7 := true; 9 := true]} in
  all_pages 4 (Pagination_first 2) (λ b, b) m = [(1, true); (7, true); (9, true)] ∧
  StronglySorted key_lt (all_pages 4 (Pagination_first 2) (λ b, b) m).
Proof.
  intros m. split; [vm_compute; reflexivity|].
  exact (proj1 (pages_enumerate_the_query 2 (λ b, b) m ltac:(lia) ltac:(vm_compute; reflexivity))).
Defined.
