(* ===== verification/AdminRepository.v ===== *)
(** The repository methods the administration interface calls besides those of
    accounts and of OAuth 2.0: the log of administration (data/src/audit.rs,
    storage/audit.rs, pg/audit.rs), the locking and listing of users, the end of
    all sessions of a user, registration tokens (pg/user/registration_token.rs)
    and changes of addresses (pg/user/email.rs). *)
From S2P Require Import Prelude Ids RateLimit Scope Pkce Jose Domain Accounts Database Repository AccountRepository Pagination.

Open Scope Z_scope.

(** ** The log of administration *)

Class AdminExternals := {
  (** [serde_json::to_string] of a value without floats *)
  json_to_string : Json → string;
}.

Inductive AdminOperation :=
| Op_UserCreated
| Op_UserLocked
| Op_UserUnlocked
| Op_UserDeactivated
| Op_UserReactivated
| Op_UserPasswordSet
| Op_UserAdminSet
| Op_UserUpdated
| Op_UserEmailAdded
| Op_UserEmailUpdated
| Op_UserEmailRemoved
| Op_SessionTerminated
| Op_RegistrationTokenCreated
| Op_RegistrationTokenRevoked
| Op_PolicyDataUpdated
| Op_UpstreamProviderModified
| Op_UpstreamLinkCreated
| Op_UpstreamLinkUpdated
| Op_UpstreamLinkDeleted
| Op_OAuth2ClientLocalizedMetadataUpdated
| Op_Other (name : string).

(** [#[serde(rename_all = "snake_case")]]: a unit variant is its name, the last one an object. *)
Definition AdminOperation_to_value (op : AdminOperation) : Json :=
  match op with
  | Op_UserCreated => Json_String "user_created"
  | Op_UserLocked => Json_String "user_locked"
  | Op_UserUnlocked => Json_String "user_unlocked"
  | Op_UserDeactivated => Json_String "user_deactivated"
  | Op_UserReactivated => Json_String "user_reactivated"
  | Op_UserPasswordSet => Json_String "user_password_set"
  | Op_UserAdminSet => Json_String "user_admin_set"
  | Op_UserUpdated => Json_String "user_updated"
  | Op_UserEmailAdded => Json_String "user_email_added"
  | Op_UserEmailUpdated => Json_String "user_email_updated"
  | Op_UserEmailRemoved => Json_String "user_email_removed"
  | Op_SessionTerminated => Json_String "session_terminated"
  | Op_RegistrationTokenCreated => Json_String "registration_token_created"
  | Op_RegistrationTokenRevoked => Json_String "registration_token_revoked"
  | Op_PolicyDataUpdated => Json_String "policy_data_updated"
  | Op_UpstreamProviderModified => Json_String "upstream_provider_modified"
  | Op_UpstreamLinkCreated => Json_String "upstream_link_created"
  | Op_UpstreamLinkUpdated => Json_String "upstream_link_updated"
  | Op_UpstreamLinkDeleted => Json_String "upstream_link_deleted"
  | Op_OAuth2ClientLocalizedMetadataUpdated =>
      Json_String "o_auth2_client_localized_metadata_updated"
  | Op_Other name => Json_Object [("other", Json_String name)]
  end.

Record NewAdminOperationLog := {
  newlog_admin_user_id : Ulid;
  newlog_operation : AdminOperation;
  newlog_resource_type : string;
  newlog_resource_id : option Ulid;
  newlog_details : Json;
  newlog_ip_address : option IpAddr;
  newlog_user_agent : option string;
}.

Definition NewAdminOperationLog_new (admin_user_id : Ulid) (operation : AdminOperation)
    (resource_type : string) (details : Json) : NewAdminOperationLog :=
  {| newlog_admin_user_id := admin_user_id; newlog_operation := operation;
     newlog_resource_type := resource_type; newlog_resource_id := None;
     newlog_details := details; newlog_ip_address := None; newlog_user_agent := None |}.

Definition with_resource_id (resource_id : Ulid) (self : NewAdminOperationLog) : NewAdminOperationLog :=
  {| newlog_admin_user_id := newlog_admin_user_id self; newlog_operation := newlog_operation self;
     newlog_resource_type := newlog_resource_type self; newlog_resource_id := Some resource_id;
     newlog_details := newlog_details self; newlog_ip_address := newlog_ip_address self;
     newlog_user_agent := newlog_user_agent self |}.

Section audit.
Context {QX : AdminExternals}.

Definition admin_operation_to_db (op : AdminOperation) : string :=
  json_to_string (AdminOperation_to_value op).

Definition new_audit_row (params : NewAdminOperationLog) (created_at : DateTime)
    : AdminOperationLogRow :=
  {| AuditRow_admin_user_id := newlog_admin_user_id params;
     AuditRow_operation := admin_operation_to_db (newlog_operation params);
     AuditRow_resource_type := newlog_resource_type params;
     AuditRow_resource_id := newlog_resource_id params;
     AuditRow_details := newlog_details params;
     AuditRow_ip_address := newlog_ip_address params;
     AuditRow_user_agent := newlog_user_agent params;
     AuditRow_created_at := created_at |}.

(** The entry that is given back is not used by any caller. *)
Definition add_admin_operation (params : NewAdminOperationLog) : M St DatabaseError () :=
  created_at ← clock_now;
  id ← with_rng (new_id created_at);
  insert_row on_audit (λ db, new_row_violation "admin_operation_logs" id (db_audit db) []) id
    (new_audit_row params created_at).

(** [record_admin_operation] of admin/audit_helper.rs *)
Definition record_admin_operation (admin_user : option User) (operation : AdminOperation)
    (resource_type : string) (resource_id : option Ulid) (details : Json) : M St DatabaseError () :=
  match admin_user with
  | None => mret tt
  | Some admin =>
      let params := NewAdminOperationLog_new (User_id admin) operation resource_type details in
      add_admin_operation
        (match resource_id with Some id => with_resource_id id params | None => params end)
  end.
End audit.

(** ** Users (pg/user/mod.rs) *)

Definition user_lock (user : User) : M St DatabaseError User :=
  if bool_decide (is_Some (User_locked_at user)) then mret user
  else user_patch user
    {| patch_display_name := None; patch_avatar_url := None; patch_preferred_locale := None;
       patch_can_request_admin := None; patch_locked := Some true; patch_deactivated := None |}.

Definition user_deactivate (user : User) : M St DatabaseError User :=
  if bool_decide (is_Some (User_deactivated_at user)) then mret user
  else user_patch user
    {| patch_display_name := None; patch_avatar_url := None; patch_preferred_locale := None;
       patch_can_request_admin := None; patch_locked := None; patch_deactivated := Some true |}.

Definition UserRow_set_deactivated_at (deactivated_at : option DateTime) (updated_at : DateTime)
    (r : UserRow) : UserRow :=
  {| UserRow_username := UserRow_username r;
     UserRow_created_at := UserRow_created_at r;
     UserRow_updated_at := updated_at;
     UserRow_locked_at := UserRow_locked_at r;
     UserRow_deactivated_at := deactivated_at;
     UserRow_can_request_admin := UserRow_can_request_admin r;
     UserRow_is_guest := UserRow_is_guest r;
     UserRow_display_name := UserRow_display_name r;
     UserRow_avatar_url := UserRow_avatar_url r;
     UserRow_preferred_locale := UserRow_preferred_locale r |}.

(** [utc_now] is what [Utc::now()] reads. *)
Definition user_reactivate (utc_now : DateTime) (user : User) : M St DatabaseError User :=
  if bool_decide (User_deactivated_at user = None) then mret user
  else
    _ ← update_one db_users on_users no_violation (User_id user)
          (UserRow_set_deactivated_at None utc_now);
    mret (User_set user utc_now (User_locked_at user) None (User_can_request_admin user)
            (User_display_name user) (User_avatar_url user) (User_preferred_locale user)).

(** [UserFilter::new().can_request_admin_only().active_only()] *)
Definition active_admins_only : UserFilter :=
  {| user_filter_state := Some UserState_Active; user_filter_can_request_admin := Some true;
     user_filter_is_guest := None; user_filter_search := None |}.

Section users.
Context {DX : DbExternals} {XX : AccountExternals}.

Definition user_list (filter : UserFilter) (pagination : Pagination) : M St DatabaseError (Page User) :=
  page ← gets (λ st, list_page pagination (user_matches filter) (db_users (st_db st)));
  mret (Page_map (λ '(id, r), User_build id r) page).
End users.

(** ** All browser sessions of a user (pg/user/session.rs) *)

(** [BrowserSessionFilter]; the last field is that of [authenticated_by_upstream_sessions], the
    provider it asks for. *)
Record BrowserSessionFilter := {
  bsf_user : option Ulid;
  bsf_active : option bool;
  bsf_last_active_after : option DateTime;
  bsf_last_active_before : option DateTime;
  bsf_upstream : option (option Ulid);
}.

(** [BrowserSessionFilter::new().for_user(user).active_only()] *)
Definition active_sessions_of (user : User) : BrowserSessionFilter :=
  {| bsf_user := Some (User_id user); bsf_active := Some true; bsf_last_active_after := None;
     bsf_last_active_before := None; bsf_upstream := None |}.

(** A session authenticated through an upstream session, of the provider if one is given. *)
Definition authenticated_upstream (db : DB) (provider : option Ulid) (id : Ulid) : bool :=
  existsb (λ a : Z * AuthenticationRow,
    bool_decide (AuthenticationRow_user_session_id a.2 = id) &&
    match AuthenticationRow_upstream_oauth_authorization_session_id a.2 ≫= λ s,
            db_upstream_sessions db !! s with
    | None => false
    | Some s => match provider with
                | None => true
                | Some p => bool_decide (UpstreamSessionRow_provider_id s = p)
                end
    end) (map_to_list (db_authentications db)).

(** [apply_session_filter!] *)
Definition browser_session_matches (filter : BrowserSessionFilter) (db : DB) (id : Ulid)
    (r : UserSessionRow) : bool :=
  match bsf_user filter with
  | None => true | Some u => bool_decide (UserSessionRow_user_id r = u)
  end &&
  match bsf_active filter with
  | None => true
  | Some true => bool_decide (UserSessionRow_finished_at r = None)
  | Some false => bool_decide (is_Some (UserSessionRow_finished_at r))
  end &&
  match bsf_last_active_after filter, UserSessionRow_last_active_at r with
  | None, _ => true | Some t, Some a => t <? a | Some _, None => false
  end &&
  match bsf_last_active_before filter, UserSessionRow_last_active_at r with
  | None, _ => true | Some t, Some a => a <? t | Some _, None => false
  end &&
  match bsf_upstream filter with
  | None => true | Some provider => authenticated_upstream db provider id
  end.

(** [UPDATE user_sessions SET finished_at = .. WHERE ..] *)
Definition finish_matching (filter : BrowserSessionFilter) (finished_at : DateTime) (db : DB) : DB :=
  on_user_sessions (map_imap (λ id r, Some
    (if browser_session_matches filter db id r then UserSessionRow_set_finished_at finished_at r
     else r))) db.

Definition browser_session_finish_bulk (filter : BrowserSessionFilter) : M St DatabaseError nat :=
  finished_at ← clock_now;
  rows_affected ← gets (λ st, length (List.filter
    (λ '(id, r), browser_session_matches filter (st_db st) id r)
    (map_to_list (db_user_sessions (st_db st)))));
  _ ← modify (on_db (finish_matching filter finished_at));
  mret rows_affected.

(** [SELECT .. WHERE ..] and a page of it, in the order of the keys *)
Definition browser_session_list `{DbExternals} (filter : BrowserSessionFilter) (pagination : Pagination)
    : M St DatabaseError (Page BrowserSession) :=
  db ← gets st_db;
  let session_rows := paginated pagination (λ _, true)
    (base.filter (λ kr : Z * UserSessionRow, browser_session_matches filter db kr.1 kr.2 = true)
       (db_user_sessions db)) in
  let edges := omap (λ kr : Z * UserSessionRow,
    user_row ← db_users db !! UserSessionRow_user_id kr.2;
    Some (kr.1, BrowserSession_from kr.1 kr.2 (User_build (UserSessionRow_user_id kr.2) user_row)))
    session_rows in
  mret (Page_map snd (Pagination_process fst pagination edges)).

(** ** All sessions of a client, or of a user (storage/oauth2/session.rs, pg/oauth2/session.rs) *)

Inductive ClientKind := ClientKind_Static | ClientKind_Dynamic.

Record OAuth2SessionFilter := {
  osf_user : option Ulid;
  osf_any_user : option bool;
  osf_browser_session : option Ulid;
  osf_browser_session_filter : option BrowserSessionFilter;
  osf_device : option string;
  osf_client : option Ulid;
  osf_client_kind : option ClientKind;
  osf_active : option bool;
  osf_scope : option ScopeSet;
  osf_last_active_before : option DateTime;
  osf_last_active_after : option DateTime;
}.

(** [OAuth2SessionFilter::new().for_user(user).active_only()] *)
Definition active_oauth2_sessions_of (user : User) : OAuth2SessionFilter :=
  {| osf_user := Some (User_id user); osf_any_user := None; osf_browser_session := None;
     osf_browser_session_filter := None; osf_device := None; osf_client := None;
     osf_client_kind := None; osf_active := Some true; osf_scope := None;
     osf_last_active_before := None; osf_last_active_after := None |}.

(** The SQL tests of an optional column. *)
Definition column_before (t : DateTime) (column : option DateTime) : bool :=
  match column with Some a => a <? t | None => false end.
Definition column_after (t : DateTime) (column : option DateTime) : bool :=
  match column with Some a => t <? a | None => false end.
Definition column_null {A} (column : option A) : bool :=
  match column with None => true | Some _ => false end.
(** [column @> list] *)
Definition array_contains (column l : list string) : bool := forallb (λ t, bool_decide (t ∈ column)) l.

(** The subquery over browser sessions; how they were authenticated is not asked for. *)
Definition session_subquery (filter : BrowserSessionFilter) (r : UserSessionRow) : bool :=
  match bsf_user filter with
  | None => true | Some u => bool_decide (UserSessionRow_user_id r = u)
  end &&
  match bsf_active filter with
  | None => true | Some active => eqb (column_null (UserSessionRow_finished_at r)) active
  end &&
  match bsf_last_active_before filter with
  | None => true | Some t => column_before t (UserSessionRow_last_active_at r)
  end &&
  match bsf_last_active_after filter with
  | None => true | Some t => column_after t (UserSessionRow_last_active_at r)
  end.

(** The client is one of the static ones. *)
Definition client_is_static (db : DB) (client_id : Ulid) : bool :=
  match db_clients db !! client_id with
  | Some c => bool_decide (ClientRow_is_static c = Some true)
  | None => false
  end.

(** [apply_session_filter!] *)
Definition oauth2_session_matches (filter : OAuth2SessionFilter) (db : DB) (r : OAuthSessionRow) : bool :=
  match osf_user filter with
  | None => true | Some u => bool_decide (OAuthSessionRow_user_id r = Some u)
  end &&
  match osf_client filter with
  | None => true | Some c => bool_decide (OAuthSessionRow_oauth2_client_id r = c)
  end &&
  match osf_client_kind filter with
  | None => true
  | Some ClientKind_Static => client_is_static db (OAuthSessionRow_oauth2_client_id r)
  | Some ClientKind_Dynamic => negb (client_is_static db (OAuthSessionRow_oauth2_client_id r))
  end &&
  match osf_device filter with
  | None => true
  | Some device =>
      array_contains (OAuthSessionRow_scope_list r) [STABLE_DEVICE_PREFIX +:+ device] ||
      array_contains (OAuthSessionRow_scope_list r) [UNSTABLE_DEVICE_PREFIX +:+ device]
  end &&
  match osf_browser_session filter with
  | None => true | Some s => bool_decide (OAuthSessionRow_user_session_id r = Some s)
  end &&
  match osf_browser_session_filter filter with
  | None => true
  | Some f =>
      match OAuthSessionRow_user_session_id r ≫= λ s, db_user_sessions db !! s with
      | Some s => session_subquery f s
      | None => false
      end
  end &&
  match osf_active filter with
  | None => true | Some active => eqb (column_null (OAuthSessionRow_finished_at r)) active
  end &&
  match osf_scope filter with
  | None => true | Some scope => array_contains (OAuthSessionRow_scope_list r) (scope_iter scope)
  end &&
  match osf_any_user filter with
  | None => true | Some any_user => eqb (negb (column_null (OAuthSessionRow_user_id r))) any_user
  end &&
  match osf_last_active_after filter with
  | None => true | Some t => column_after t (OAuthSessionRow_last_active_at r)
  end &&
  match osf_last_active_before filter with
  | None => true | Some t => column_before t (OAuthSessionRow_last_active_at r)
  end.

(** [UPDATE oauth2_sessions SET finished_at = .. WHERE id IN (SELECT ..)] *)
Definition finish_matching_oauth2 (filter : OAuth2SessionFilter) (finished_at : DateTime) (db : DB) : DB :=
  on_sessions (fmap (λ r, if oauth2_session_matches filter db r
                          then OAuthSessionRow_set_finished_at finished_at r else r)) db.

Definition oauth2_session_finish_bulk (filter : OAuth2SessionFilter) : M St DatabaseError nat :=
  finished_at ← clock_now;
  rows_affected ← gets (λ st, length (List.filter
    (λ kr, oauth2_session_matches filter (st_db st) kr.2) (map_to_list (db_sessions (st_db st)))));
  _ ← modify (on_db (finish_matching_oauth2 filter finished_at));
  mret rows_affected.

Definition oauth2_session_list (filter : OAuth2SessionFilter) (pagination : Pagination)
    : M St DatabaseError (Page Session) :=
  page ← gets (λ st, list_page pagination (oauth2_session_matches filter (st_db st))
                       (db_sessions (st_db st)));
  of_result (Page_try_map (λ '(id, r), Session_try_from id r) page).

Definition oauth2_session_count (filter : OAuth2SessionFilter) : M St DatabaseError nat :=
  gets (λ st, length (List.filter
    (λ kr, oauth2_session_matches filter (st_db st) kr.2) (map_to_list (db_sessions (st_db st))))).

(** ** All personal sessions (storage/personal/session.rs, pg/personal/session.rs) *)

(** [PersonalSessionFilter], the device apart. *)
Record PersonalSessionFilter := {
  psf_owner_user : option Ulid;
  psf_owner_client : option Ulid;
  psf_actor_user : option Ulid;
  psf_active : option bool;
  psf_scope : option ScopeSet;
  psf_last_active_before : option DateTime;
  psf_last_active_after : option DateTime;
  psf_expires_before : option DateTime;
  psf_expires_after : option DateTime;
  psf_expires : option bool;
}.

(** [PersonalSessionFilter::new().for_actor_user(user).active_only()], and of an owner *)
Definition active_personal_sessions_acting (user : User) : PersonalSessionFilter :=
  {| psf_owner_user := None; psf_owner_client := None; psf_actor_user := Some (User_id user);
     psf_active := Some true; psf_scope := None; psf_last_active_before := None;
     psf_last_active_after := None; psf_expires_before := None; psf_expires_after := None;
     psf_expires := None |}.
Definition active_personal_sessions_owned (user : User) : PersonalSessionFilter :=
  {| psf_owner_user := Some (User_id user); psf_owner_client := None; psf_actor_user := None;
     psf_active := Some true; psf_scope := None; psf_last_active_before := None;
     psf_last_active_after := None; psf_expires_before := None; psf_expires_after := None;
     psf_expires := None |}.

(** The LEFT JOIN with the tokens that are not revoked: a row per token, one without any. *)
Definition joined_tokens (db : DB) (session_id : Ulid) : list (option (Z * PersonalAccessTokenRow)) :=
  match List.filter (λ kt, bool_decide (PersonalTokenRow_personal_session_id kt.2 = session_id) &&
                           column_null (PersonalTokenRow_revoked_at kt.2))
          (ordered_rows (db_personal_tokens db)) with
  | [] => [None]
  | tokens => Some <$> tokens
  end.
Definition personal_join (db : DB)
    : list (Z * (PersonalSessionRow * option (Z * PersonalAccessTokenRow))) :=
  concat ((λ kr, (λ token, (kr.1, (kr.2, token))) <$> joined_tokens db kr.1) <$>
          ordered_rows (db_personal_sessions db)).

Definition personal_session_matches (filter : PersonalSessionFilter) (r : PersonalSessionRow)
    (token : option (Z * PersonalAccessTokenRow)) : bool :=
  let expires_at := token ≫= λ kt, PersonalTokenRow_expires_at kt.2 in
  match psf_owner_user filter with
  | None => true | Some u => bool_decide (PersonalSessionRow_owner_user_id r = Some u)
  end &&
  match psf_owner_client filter with
  | None => true | Some c => bool_decide (PersonalSessionRow_owner_oauth2_client_id r = Some c)
  end &&
  match psf_actor_user filter with
  | None => true | Some u => bool_decide (PersonalSessionRow_actor_user_id r = u)
  end &&
  match psf_active filter with
  | None => true | Some active => eqb (column_null (PersonalSessionRow_revoked_at r)) active
  end &&
  match psf_scope filter with
  | None => true | Some scope => array_contains (PersonalSessionRow_scope_list r) (scope_iter scope)
  end &&
  match psf_last_active_before filter with
  | None => true | Some t => column_before t (PersonalSessionRow_last_active_at r)
  end &&
  match psf_last_active_after filter with
  | None => true | Some t => column_after t (PersonalSessionRow_last_active_at r)
  end &&
  match psf_expires_before filter with None => true | Some t => column_before t expires_at end &&
  match psf_expires_after filter with None => true | Some t => column_after t expires_at end &&
  match psf_expires filter with
  | None => true | Some expires => eqb (negb (column_null expires_at)) expires
  end.

(** [UPDATE personal_sessions SET revoked_at = .. WHERE id IN (SELECT ..)]; their tokens are left. *)
Definition revoke_matching (filter : PersonalSessionFilter) (revoked_at : DateTime) (db : DB) : DB :=
  on_personal_sessions (map_imap (λ id r, Some
    (if existsb (personal_session_matches filter r) (joined_tokens db id)
     then PersonalSessionRow_set_revoked_at revoked_at r else r))) db.

Definition personal_session_revoke_bulk (filter : PersonalSessionFilter) : M St DatabaseError nat :=
  revoked_at ← clock_now;
  rows_affected ← gets (λ st, length (List.filter
    (λ '(id, r), existsb (personal_session_matches filter r) (joined_tokens (st_db st) id))
    (map_to_list (db_personal_sessions (st_db st)))));
  _ ← modify (on_db (revoke_matching filter revoked_at));
  mret rows_affected.

(** [TryFrom<PersonalSessionAndAccessTokenRow>] *)
Definition PersonalSessionAndAccessToken_try_from (id : Ulid) (r : PersonalSessionRow)
    (token : option (Z * PersonalAccessTokenRow))
    : result (PersonalSession * option PersonalAccessToken) DatabaseError :=
  result_bind (PersonalSession_try_from id r) (λ session,
  Ok (session, (λ kt : Z * PersonalAccessTokenRow,
    {| PersonalAccessToken_id := kt.1;
       PersonalAccessToken_session_id := PersonalSession_id session;
       PersonalAccessToken_created_at := PersonalTokenRow_created_at kt.2;
       PersonalAccessToken_expires_at := PersonalTokenRow_expires_at kt.2;
       PersonalAccessToken_revoked_at := None |}) <$> token)).

Definition personal_session_list (filter : PersonalSessionFilter) (pagination : Pagination)
    : M St DatabaseError (Page (PersonalSession * option PersonalAccessToken)) :=
  edges ← gets (λ st,
    page_rows pagination (λ row, personal_session_matches filter row.1 row.2)
      (personal_join (st_db st)));
  of_result (Page_try_map (λ '(id, (r, token)), PersonalSessionAndAccessToken_try_from id r token)
               (Pagination_process fst pagination edges)).

Definition personal_session_count (filter : PersonalSessionFilter) : M St DatabaseError nat :=
  gets (λ st, length (List.filter (λ row, personal_session_matches filter row.2.1 row.2.2)
                        (personal_join (st_db st)))).

(** ** Registration tokens (pg/user/registration_token.rs) *)

Definition has_registration_token (token : string) (r : UserRegistrationTokenRow) : bool :=
  bool_decide (RegistrationTokenRow_token r = token).

Definition user_registration_token_find_by_token (token : string)
    : M St DatabaseError (option UserRegistrationToken) :=
  res ← select_first db_registration_tokens (has_registration_token token);
  try_into UserRegistrationToken_try_from res.

(** [usage_limit.map(i32::try_from).transpose()] *)
Definition usage_limit_i32 (usage_limit : option Z) : M St DatabaseError (option Z) :=
  match usage_limit with
  | None => mret None
  | Some limit =>
      match i32_of_u32 limit with
      | Some limit => mret (Some limit)
      | None => raise Db_InvalidOperation
      end
  end.

Definition new_registration_token_row (token : string) (usage_limit : option Z)
    (created_at : DateTime) (expires_at : option DateTime) : UserRegistrationTokenRow :=
  {| RegistrationTokenRow_token := token;
     RegistrationTokenRow_usage_limit := usage_limit;
     RegistrationTokenRow_times_used := 0;
     RegistrationTokenRow_created_at := created_at;
     RegistrationTokenRow_last_used_at := None;
     RegistrationTokenRow_expires_at := expires_at;
     RegistrationTokenRow_revoked_at := None |}.

Definition user_registration_token_add (token : string) (usage_limit : option Z)
    (expires_at : option DateTime) : M St DatabaseError UserRegistrationToken :=
  created_at ← clock_now;
  id ← with_rng (new_id created_at);
  limit ← usage_limit_i32 usage_limit;
  _ ← insert_row on_registration_tokens
        (λ db, new_row_violation "user_registration_tokens" id (db_registration_tokens db)
           [(col_taken (has_registration_token token) (db_registration_tokens db),
             UniqueViolation "user_registration_tokens" "token")]) id
        (new_registration_token_row token limit created_at expires_at);
  mret {| UserRegistrationToken_id := id;
          UserRegistrationToken_token := token;
          UserRegistrationToken_usage_limit := usage_limit;
          UserRegistrationToken_times_used := 0;
          UserRegistrationToken_created_at := created_at;
          UserRegistrationToken_last_used_at := None;
          UserRegistrationToken_expires_at := expires_at;
          UserRegistrationToken_revoked_at := None |}.

(** The columns the updates write. *)
Definition RegistrationTokenRow_set_revoked_at (revoked_at : option DateTime)
    (r : UserRegistrationTokenRow) : UserRegistrationTokenRow :=
  RegistrationTokenRow_set (RegistrationTokenRow_usage_limit r) (RegistrationTokenRow_times_used r)
    (RegistrationTokenRow_last_used_at r) (RegistrationTokenRow_expires_at r) revoked_at r.
Definition RegistrationTokenRow_set_expires_at (expires_at : option DateTime)
    (r : UserRegistrationTokenRow) : UserRegistrationTokenRow :=
  RegistrationTokenRow_set (RegistrationTokenRow_usage_limit r) (RegistrationTokenRow_times_used r)
    (RegistrationTokenRow_last_used_at r) expires_at (RegistrationTokenRow_revoked_at r) r.
Definition RegistrationTokenRow_set_usage_limit (usage_limit : option Z)
    (r : UserRegistrationTokenRow) : UserRegistrationTokenRow :=
  RegistrationTokenRow_set usage_limit (RegistrationTokenRow_times_used r)
    (RegistrationTokenRow_last_used_at r) (RegistrationTokenRow_expires_at r)
    (RegistrationTokenRow_revoked_at r) r.

Definition update_registration_token (token : UserRegistrationToken)
    (f : UserRegistrationTokenRow → UserRegistrationTokenRow) : M St DatabaseError () :=
  update_one db_registration_tokens on_registration_tokens no_violation
    (UserRegistrationToken_id token) f.

Definition user_registration_token_revoke (token : UserRegistrationToken)
    : M St DatabaseError UserRegistrationToken :=
  revoked_at ← clock_now;
  _ ← update_registration_token token (RegistrationTokenRow_set_revoked_at (Some revoked_at));
  mret (UserRegistrationToken_set (UserRegistrationToken_usage_limit token)
          (UserRegistrationToken_times_used token) (UserRegistrationToken_last_used_at token)
          (UserRegistrationToken_expires_at token) (Some revoked_at) token).

Definition user_registration_token_unrevoke (token : UserRegistrationToken)
    : M St DatabaseError UserRegistrationToken :=
  _ ← update_registration_token token (RegistrationTokenRow_set_revoked_at None);
  mret (UserRegistrationToken_set (UserRegistrationToken_usage_limit token)
          (UserRegistrationToken_times_used token) (UserRegistrationToken_last_used_at token)
          (UserRegistrationToken_expires_at token) None token).

Definition user_registration_token_set_expiry (token : UserRegistrationToken)
    (expires_at : option DateTime) : M St DatabaseError UserRegistrationToken :=
  _ ← update_registration_token token (RegistrationTokenRow_set_expires_at expires_at);
  mret (UserRegistrationToken_set (UserRegistrationToken_usage_limit token)
          (UserRegistrationToken_times_used token) (UserRegistrationToken_last_used_at token)
          expires_at (UserRegistrationToken_revoked_at token) token).

Definition user_registration_token_set_usage_limit (token : UserRegistrationToken)
    (usage_limit : option Z) : M St DatabaseError UserRegistrationToken :=
  limit ← usage_limit_i32 usage_limit;
  _ ← update_registration_token token (RegistrationTokenRow_set_usage_limit limit);
  mret (UserRegistrationToken_set usage_limit (UserRegistrationToken_times_used token)
          (UserRegistrationToken_last_used_at token) (UserRegistrationToken_expires_at token)
          (UserRegistrationToken_revoked_at token) token).

(** [UserRegistrationTokenFilter] *)
Record RegistrationTokenFilter := {
  rtf_now : DateTime;
  rtf_has_been_used : option bool;
  rtf_is_revoked : option bool;
  rtf_is_expired : option bool;
  rtf_is_valid : option bool;
}.

(** [apply_token_filter!] *)
Definition registration_token_expired (now : DateTime) (r : UserRegistrationTokenRow) : bool :=
  match RegistrationTokenRow_expires_at r with Some t => t <? now | None => false end.
Definition registration_token_exhausted (r : UserRegistrationTokenRow) : bool :=
  match RegistrationTokenRow_usage_limit r with
  | Some limit => limit <=? RegistrationTokenRow_times_used r
  | None => false
  end.
Definition registration_token_revoked (r : UserRegistrationTokenRow) : bool :=
  bool_decide (is_Some (RegistrationTokenRow_revoked_at r)).

Definition registration_token_matches (filter : RegistrationTokenFilter)
    (r : UserRegistrationTokenRow) : bool :=
  match rtf_has_been_used filter with
  | None => true
  | Some true => 0 <? RegistrationTokenRow_times_used r
  | Some false => RegistrationTokenRow_times_used r =? 0
  end &&
  match rtf_is_revoked filter with
  | None => true | Some b => eqb (registration_token_revoked r) b
  end &&
  match rtf_is_expired filter with
  | None => true | Some b => eqb (registration_token_expired (rtf_now filter) r) b
  end &&
  match rtf_is_valid filter with
  | None => true
  | Some true => negb (registration_token_exhausted r) && negb (registration_token_revoked r) &&
                 negb (registration_token_expired (rtf_now filter) r)
  | Some false => registration_token_exhausted r || registration_token_revoked r ||
                  registration_token_expired (rtf_now filter) r
  end.

Definition user_registration_token_list (filter : RegistrationTokenFilter) (pagination : Pagination)
    : M St DatabaseError (Page UserRegistrationToken) :=
  page ← gets (λ st, list_page pagination (registration_token_matches filter)
                       (db_registration_tokens (st_db st)));
  of_result (Page_try_map (λ '(id, r), UserRegistrationToken_try_from id r) page).

Definition user_registration_token_count (filter : RegistrationTokenFilter) : M St DatabaseError nat :=
  rows ← select_all db_registration_tokens (registration_token_matches filter);
  mret (length rows).

(** ** Addresses (pg/user/email.rs, [patch]) *)

Record UserEmailPatch := {
  email_patch_email : option string;
  email_patch_confirmed : option bool;
  email_patch_is_primary : option bool;
}.

Definition UserEmailPatch_is_empty (self : UserEmailPatch) : bool :=
  bool_decide (email_patch_email self = None) && bool_decide (email_patch_confirmed self = None) &&
  bool_decide (email_patch_is_primary self = None).

Definition UserEmail_set (self : UserEmail) (email : string) (updated_at : DateTime)
    (confirmed_at : option DateTime) (is_primary : bool) : UserEmail :=
  {| UserEmail_id := UserEmail_id self;
     UserEmail_user_id := UserEmail_user_id self;
     UserEmail_email := email;
     UserEmail_created_at := UserEmail_created_at self;
     UserEmail_updated_at := updated_at;
     UserEmail_confirmed_at := confirmed_at;
     UserEmail_is_primary := is_primary |}.

Definition EmailRow_set (email : string) (updated_at : DateTime) (confirmed_at : option DateTime)
    (is_primary : bool) (r : UserEmailRow) : UserEmailRow :=
  {| EmailRow_user_id := EmailRow_user_id r;
     EmailRow_email := email;
     EmailRow_created_at := EmailRow_created_at r;
     EmailRow_updated_at := updated_at;
     EmailRow_confirmed_at := confirmed_at;
     EmailRow_is_primary := is_primary |}.

(** The other addresses of the user are no longer primary. *)
Definition demote_others (user_id id : Ulid) (updated_at : DateTime)
    (emails : gmap Z UserEmailRow) : gmap Z UserEmailRow :=
  map_imap (λ k r, Some
    (if bool_decide (EmailRow_user_id r = user_id ∧ k ≠ id)
     then EmailRow_set (EmailRow_email r) updated_at (EmailRow_confirmed_at r) false r else r)) emails.

(** [clock.now()] is read for an address that is to be confirmed. *)
Definition patched_confirmed_at (confirmed : option bool) (old : option DateTime)
    : M St DatabaseError (option DateTime) :=
  match confirmed with
  | None => mret old
  | Some false => mret None
  | Some true => now ← clock_now; mret (Some (default now old))
  end.

Definition user_email_patch (user_email : UserEmail) (patch : UserEmailPatch)
    : M St DatabaseError UserEmail :=
  if UserEmailPatch_is_empty patch then mret user_email
  else
    let email := default (UserEmail_email user_email) (email_patch_email patch) in
    confirmed_at ← patched_confirmed_at (email_patch_confirmed patch)
                     (UserEmail_confirmed_at user_email);
    let is_primary := default (UserEmail_is_primary user_email) (email_patch_is_primary patch) in
    let changed :=
      bool_decide (is_Some (email_patch_email patch)) ||
      negb (bool_decide (UserEmail_confirmed_at user_email = confirmed_at)) ||
      negb (eqb (UserEmail_is_primary user_email) is_primary) in
    if negb changed then
      mret (UserEmail_set user_email email (UserEmail_updated_at user_email) confirmed_at is_primary)
    else
      updated_at ← clock_now;
      _ ← (if (is_primary : bool) then
             modify (on_db (on_emails (demote_others (UserEmail_user_id user_email)
                                         (UserEmail_id user_email) updated_at)))
           else mret tt);
      _ ← update_one db_emails on_emails no_violation (UserEmail_id user_email)
            (EmailRow_set email updated_at confirmed_at is_primary);
      mret (UserEmail_set user_email email updated_at confirmed_at is_primary).

(** Removal from the list of addresses, of one, or of all a filter selects; the order of texts is that
    of the collation of the database. *)
Class CollationExternals := { text_le : string → string → bool }.

Section addresses.
Context {LX : LimiterExternals} {XX : AccountExternals} {CO : CollationExternals}.

Definition email_le (a b : Z * UserEmailRow) : Prop :=
  text_le (EmailRow_email a.2) (EmailRow_email b.2) = true.
#[export] Instance email_le_dec : RelDecision email_le.
Proof. intros a b. unfold email_le. apply _. Defined.

Definition user_email_all (user : User) : M St DatabaseError (list UserEmail) :=
  rows ← select_all db_emails (email_of_user (User_id user));
  mret ((λ kr : Z * UserEmailRow, UserEmail_from kr.1 kr.2) <$> merge_sort email_le rows).

Definition remove_matching (filter : UserEmailFilter) (db : DB) : DB :=
  let removed := base.filter (λ kr : Z * UserEmailRow, email_matches filter kr.2 = true)
                   (db_emails db) in
  on_recovery_tickets
    (base.filter (λ kr : Z * UserRecoveryTicketRow, removed !! RecoveryTicketRow_user_email_id kr.2 = None))
    (on_emails (λ emails, emails ∖ removed) db).

Definition user_email_remove_bulk (filter : UserEmailFilter) : M St DatabaseError nat :=
  matching_ids ← select_all db_emails (email_matches filter);
  if bool_decide (matching_ids = []) then mret 0%nat
  else
    _ ← modify (on_db (remove_matching filter));
    mret (length matching_ids).
End addresses.

(** ** Jobs *)

Definition DEACTIVATE_USER_QUEUE_NAME : string := "deactivate-user".
(** [schedule_job(rng, clock, DeactivateUserJob::new(user, hs_erase))] *)
Definition schedule_deactivate_user_job (user : User) (hs_erase : bool) : M St DatabaseError () :=
  queue_job_schedule DEACTIVATE_USER_QUEUE_NAME (Payload_DeactivateUser (User_id user) hs_erase).
