(* ===== verification/AdminApi.v ===== *)
(** The messages of the administration interface (backend/src/handlers/admin):
    params.rs, response.rs, model.rs, and the errors of backend/src/error.rs.

    Bodies and query strings are given as the frameworks parse them. The texts of
    the messages of errors are left out: an error is the status it is answered
    with, and what caused it. *)
From stdpp Require Import pretty.
From S2P Require Import Prelude Ids RateLimit TokenFormat Scope Pkce Jose Domain Accounts Database Repository AccountRepository Pagination AdminRepository.

Open Scope Z_scope.

(** ** Errors (call_context.rs, error.rs) *)

Inductive Rejection :=
| Rej_MissingAuthorizationHeader
| Rej_InvalidAuthorizationHeader
| Rej_Repository (e : DatabaseError)
| Rej_InvalidAccessTokenType (e : option TokenFormatError)
| Rej_UnknownAccessToken
| Rej_TokenExpired
| Rej_SessionRevoked
| Rej_UserLocked
| Rej_LoadSession (id : Ulid)
| Rej_LoadUser (id : Ulid)
| Rej_MissingScope
| Rej_NotAdmin.

Inductive PaginationRejection := Pagination_FirstAndLast.

Inductive AppError :=
| App_BadRequest
| App_Unauthorized
| App_Forbidden
| App_NotFound
| App_Conflict
| App_Gone
| App_UnprocessableEntity
| App_Repository (e : DatabaseError)
| App_Homeserver
| App_PasswordHashing
| App_LoadSession (id : Ulid)
| App_LoadUser (id : Ulid)
(** [InconsistentPersonalSession] *)
| App_InconsistentPersonalSession (session_id : Ulid)
(** the handler panics; its transaction is dropped *)
| App_Panic.

Definition AppError_status (self : AppError) : Z :=
  match self with
  | App_BadRequest => 400
  | App_Unauthorized => 401
  | App_Forbidden => 403
  | App_NotFound => 404
  | App_Conflict => 409
  | App_Gone => 410
  | App_UnprocessableEntity => 422
  | App_Repository _ | App_Homeserver | App_PasswordHashing | App_LoadSession _ | App_LoadUser _
  | App_InconsistentPersonalSession _ | App_Panic => 500
  end.

(** [From<AdminCallContextRejection> for AppError] *)
Definition AppError_from_rejection (error : Rejection) : AppError :=
  match error with
  | Rej_MissingAuthorizationHeader | Rej_InvalidAuthorizationHeader => App_BadRequest
  | Rej_InvalidAccessTokenType _ | Rej_UnknownAccessToken | Rej_TokenExpired | Rej_SessionRevoked
  | Rej_UserLocked | Rej_MissingScope => App_Unauthorized
  | Rej_NotAdmin => App_Forbidden
  | Rej_Repository source => App_Repository source
  | Rej_LoadSession id => App_LoadSession id
  | Rej_LoadUser id => App_LoadUser id
  end.

(** [Scribe for Rejection]: the status of a rejection that is rendered as it is. *)
Definition Rejection_status (self : Rejection) : Z :=
  match self with
  | Rej_InvalidAuthorizationHeader | Rej_MissingAuthorizationHeader => 400
  | Rej_UnknownAccessToken | Rej_TokenExpired | Rej_SessionRevoked | Rej_UserLocked
  | Rej_MissingScope | Rej_InvalidAccessTokenType _ => 401
  | Rej_NotAdmin => 403
  | Rej_Repository _ | Rej_LoadSession _ | Rej_LoadUser _ => 500
  end.

(** ** Parameters (params.rs) *)

Definition DEFAULT_PAGE_SIZE : Z := 10.

Inductive IncludeCount := Count_True | Count_False | Count_Only.

Record PaginationParams := {
  params_before : option Ulid;
  params_after : option Ulid;
  (** [NonZeroUsize] *)
  params_first : option Z;
  params_last : option Z;
  params_include_count : option IncludeCount;
}.

(** What [parse_queries] gives; a query that does not parse counts as an empty one. *)
Definition extract_pagination (parsed : option PaginationParams)
    : result (Pagination * IncludeCount) PaginationRejection :=
  let params := default {| params_before := None; params_after := None; params_first := None;
                           params_last := None; params_include_count := None |} parsed in
  result_bind
    match params_first params, params_last params with
    | Some _, Some _ => Err Pagination_FirstAndLast
    | None, None => Ok (Page_Forward, DEFAULT_PAGE_SIZE)
    | Some first, None => Ok (Page_Forward, first)
    | None, Some last => Ok (Page_Backward, last)
    end (λ '(direction, count),
  Ok ({| page_before := params_before params; page_after := params_after params;
         page_count := count; page_direction := direction |},
      default Count_True (params_include_count params))).

Definition str_has_char (c : ascii) (s : string) : bool :=
  existsb (λ a, bool_decide (a = c)) (String.list_ascii_of_string s).

Definition add_to_base (self : IncludeCount) (base : string) : string :=
  let separator := if str_has_char "?"%char base then "&" else "?" in
  match self with
  | Count_True => base
  | Count_False => base +:+ separator +:+ "count=false"
  | Count_Only => base +:+ separator +:+ "count=only"
  end.

(** ** Resources (model.rs) *)

Class Resource (T : Type) := {
  KIND : string;
  PATH : string;
  resource_id : T → Ulid;
}.
Arguments KIND T {_}.
Arguments PATH T {_}.

Record ApiUser := {
  ApiUser_id : Ulid;
  ApiUser_username : string;
  ApiUser_created_at : DateTime;
  ApiUser_updated_at : DateTime;
  ApiUser_locked_at : option DateTime;
  ApiUser_deactivated_at : option DateTime;
  ApiUser_admin : bool;
  ApiUser_legacy_guest : bool;
  ApiUser_display_name : option string;
  ApiUser_avatar_url : option string;
  ApiUser_preferred_locale : option string;
}.
Definition ApiUser_from (user : User) : ApiUser :=
  {| ApiUser_id := User_id user;
     ApiUser_username := User_username user;
     ApiUser_created_at := User_created_at user;
     ApiUser_updated_at := User_updated_at user;
     ApiUser_locked_at := User_locked_at user;
     ApiUser_deactivated_at := User_deactivated_at user;
     ApiUser_admin := User_can_request_admin user;
     ApiUser_legacy_guest := User_is_guest user;
     ApiUser_display_name := User_display_name user;
     ApiUser_avatar_url := User_avatar_url user;
     ApiUser_preferred_locale := User_preferred_locale user |}.
#[export] Instance ApiUser_resource : Resource ApiUser :=
  {| KIND := "user"; PATH := "/api/admin/v1/users"; resource_id := ApiUser_id |}.

Record ApiUserEmail := {
  ApiUserEmail_id : Ulid;
  ApiUserEmail_created_at : DateTime;
  ApiUserEmail_updated_at : DateTime;
  ApiUserEmail_user_id : Ulid;
  ApiUserEmail_email : string;
  ApiUserEmail_confirmed_at : option DateTime;
  ApiUserEmail_is_primary : bool;
}.
Definition ApiUserEmail_from (value : UserEmail) : ApiUserEmail :=
  {| ApiUserEmail_id := UserEmail_id value;
     ApiUserEmail_created_at := UserEmail_created_at value;
     ApiUserEmail_updated_at := UserEmail_updated_at value;
     ApiUserEmail_user_id := UserEmail_user_id value;
     ApiUserEmail_email := UserEmail_email value;
     ApiUserEmail_confirmed_at := UserEmail_confirmed_at value;
     ApiUserEmail_is_primary := UserEmail_is_primary value |}.
#[export] Instance ApiUserEmail_resource : Resource ApiUserEmail :=
  {| KIND := "user-email"; PATH := "/api/admin/v1/user-emails"; resource_id := ApiUserEmail_id |}.

Record ApiOAuth2Session := {
  ApiOAuth2Session_id : Ulid;
  ApiOAuth2Session_created_at : DateTime;
  ApiOAuth2Session_finished_at : option DateTime;
  ApiOAuth2Session_user_id : option Ulid;
  ApiOAuth2Session_user_session_id : option Ulid;
  ApiOAuth2Session_client_id : Ulid;
  ApiOAuth2Session_scope : string;
  ApiOAuth2Session_user_agent : option string;
  ApiOAuth2Session_last_active_at : option DateTime;
  ApiOAuth2Session_last_active_ip : option IpAddr;
  ApiOAuth2Session_human_name : option string;
}.
Definition Session_finished_at (self : Session) : option DateTime :=
  match Session_state self with Session_Valid => None | Session_Finished t => Some t end.
Definition ApiOAuth2Session_from (session : Session) : ApiOAuth2Session :=
  {| ApiOAuth2Session_id := Session_id session;
     ApiOAuth2Session_created_at := Session_created_at session;
     ApiOAuth2Session_finished_at := Session_finished_at session;
     ApiOAuth2Session_user_id := Session_user_id session;
     ApiOAuth2Session_user_session_id := Session_user_session_id session;
     ApiOAuth2Session_client_id := Session_client_id session;
     ApiOAuth2Session_scope := Scope_to_string (Session_scope session);
     ApiOAuth2Session_user_agent := Session_user_agent session;
     ApiOAuth2Session_last_active_at := Session_last_active_at session;
     ApiOAuth2Session_last_active_ip := Session_last_active_ip session;
     ApiOAuth2Session_human_name := Session_human_name session |}.
#[export] Instance ApiOAuth2Session_resource : Resource ApiOAuth2Session :=
  {| KIND := "oauth2-session"; PATH := "/api/admin/v1/oauth2-sessions";
     resource_id := ApiOAuth2Session_id |}.

Record ApiUserSession := {
  ApiUserSession_id : Ulid;
  ApiUserSession_created_at : DateTime;
  ApiUserSession_finished_at : option DateTime;
  ApiUserSession_user_id : Ulid;
  ApiUserSession_user_agent : option string;
  ApiUserSession_last_active_at : option DateTime;
  ApiUserSession_last_active_ip : option IpAddr;
}.
Definition ApiUserSession_from (value : BrowserSession) : ApiUserSession :=
  {| ApiUserSession_id := BrowserSession_id value;
     ApiUserSession_created_at := BrowserSession_created_at value;
     ApiUserSession_finished_at := BrowserSession_finished_at value;
     ApiUserSession_user_id := User_id (BrowserSession_user value);
     ApiUserSession_user_agent := BrowserSession_user_agent value;
     ApiUserSession_last_active_at := BrowserSession_last_active_at value;
     ApiUserSession_last_active_ip := BrowserSession_last_active_ip value |}.
#[export] Instance ApiUserSession_resource : Resource ApiUserSession :=
  {| KIND := "user-session"; PATH := "/api/admin/v1/user-sessions"; resource_id := ApiUserSession_id |}.

Record ApiRegistrationToken := {
  ApiRegistrationToken_id : Ulid;
  ApiRegistrationToken_token : string;
  ApiRegistrationToken_valid : bool;
  ApiRegistrationToken_usage_limit : option Z;
  ApiRegistrationToken_times_used : Z;
  ApiRegistrationToken_created_at : DateTime;
  ApiRegistrationToken_last_used_at : option DateTime;
  ApiRegistrationToken_expires_at : option DateTime;
  ApiRegistrationToken_revoked_at : option DateTime;
}.
Definition ApiRegistrationToken_new (token : UserRegistrationToken) (now : DateTime)
    : ApiRegistrationToken :=
  {| ApiRegistrationToken_id := UserRegistrationToken_id token;
     ApiRegistrationToken_token := UserRegistrationToken_token token;
     ApiRegistrationToken_valid := UserRegistrationToken_is_valid token now;
     ApiRegistrationToken_usage_limit := UserRegistrationToken_usage_limit token;
     ApiRegistrationToken_times_used := UserRegistrationToken_times_used token;
     ApiRegistrationToken_created_at := UserRegistrationToken_created_at token;
     ApiRegistrationToken_last_used_at := UserRegistrationToken_last_used_at token;
     ApiRegistrationToken_expires_at := UserRegistrationToken_expires_at token;
     ApiRegistrationToken_revoked_at := UserRegistrationToken_revoked_at token |}.
#[export] Instance ApiRegistrationToken_resource : Resource ApiRegistrationToken :=
  {| KIND := "user-registration_token"; PATH := "/api/admin/v1/user-registration-tokens";
     resource_id := ApiRegistrationToken_id |}.

Record ApiPersonalSession := {
  ApiPersonalSession_id : Ulid;
  ApiPersonalSession_created_at : DateTime;
  ApiPersonalSession_revoked_at : option DateTime;
  ApiPersonalSession_owner_user_id : option Ulid;
  ApiPersonalSession_owner_client_id : option Ulid;
  ApiPersonalSession_actor_user_id : Ulid;
  ApiPersonalSession_human_name : string;
  ApiPersonalSession_scope : string;
  ApiPersonalSession_last_active_at : option DateTime;
  ApiPersonalSession_last_active_ip : option IpAddr;
  ApiPersonalSession_expires_at : option DateTime;
  ApiPersonalSession_access_token : option string;
}.
Definition PersonalSession_revoked_at (self : PersonalSession) : option DateTime :=
  match PersonalSession_state self with Personal_Valid => None | Personal_Revoked t => Some t end.
(** [TryFrom<(PersonalSession, Option<PersonalAccessToken>)>] *)
Definition ApiPersonalSession_try_from (session : PersonalSession) (token : option PersonalAccessToken)
    : result ApiPersonalSession AppError :=
  result_bind
    match token with
    | Some token => Ok (PersonalAccessToken_expires_at token)
    | None =>
        if PersonalSessionState_is_revoked (PersonalSession_state session) then Ok None
        else Err (App_InconsistentPersonalSession (PersonalSession_id session))
    end (λ expires_at,
  Ok {| ApiPersonalSession_id := PersonalSession_id session;
        ApiPersonalSession_created_at := PersonalSession_created_at session;
        ApiPersonalSession_revoked_at := PersonalSession_revoked_at session;
        ApiPersonalSession_owner_user_id := (owner_columns (PersonalSession_owner session)).1;
        ApiPersonalSession_owner_client_id := (owner_columns (PersonalSession_owner session)).2;
        ApiPersonalSession_actor_user_id := PersonalSession_actor_user_id session;
        ApiPersonalSession_human_name := PersonalSession_human_name session;
        ApiPersonalSession_scope := Scope_to_string (PersonalSession_scope session);
        ApiPersonalSession_last_active_at := PersonalSession_last_active_at session;
        ApiPersonalSession_last_active_ip := PersonalSession_last_active_ip session;
        ApiPersonalSession_expires_at := expires_at;
        ApiPersonalSession_access_token := None |}).
Definition with_token (access_token : string) (self : ApiPersonalSession) : ApiPersonalSession :=
  {| ApiPersonalSession_id := ApiPersonalSession_id self;
     ApiPersonalSession_created_at := ApiPersonalSession_created_at self;
     ApiPersonalSession_revoked_at := ApiPersonalSession_revoked_at self;
     ApiPersonalSession_owner_user_id := ApiPersonalSession_owner_user_id self;
     ApiPersonalSession_owner_client_id := ApiPersonalSession_owner_client_id self;
     ApiPersonalSession_actor_user_id := ApiPersonalSession_actor_user_id self;
     ApiPersonalSession_human_name := ApiPersonalSession_human_name self;
     ApiPersonalSession_scope := ApiPersonalSession_scope self;
     ApiPersonalSession_last_active_at := ApiPersonalSession_last_active_at self;
     ApiPersonalSession_last_active_ip := ApiPersonalSession_last_active_ip self;
     ApiPersonalSession_expires_at := ApiPersonalSession_expires_at self;
     ApiPersonalSession_access_token := Some access_token |}.
#[export] Instance ApiPersonalSession_resource : Resource ApiPersonalSession :=
  {| KIND := "personal-session"; PATH := "/api/admin/v1/personal-sessions";
     resource_id := ApiPersonalSession_id |}.

(** ** Responses (response.rs) *)

(** A [SingleResource], without and with its place in a page. *)
Record SingleResource (T : Type) := {
  single_type : string;
  single_id : Ulid;
  single_attributes : T;
  single_self : string;
  single_cursor : option string;
}.
Arguments single_type {T} _.
Arguments single_id {T} _.
Arguments single_attributes {T} _.
Arguments single_self {T} _.
Arguments single_cursor {T} _.

Record SingleResponse (T : Type) := { single_data : SingleResource T; single_link : string }.
Arguments single_data {T} _.
Arguments single_link {T} _.

Record PaginationLinks := {
  links_self : string;
  links_first : option string;
  links_last : option string;
  links_next : option string;
  links_prev : option string;
}.

Record PaginatedResponse (T : Type) := {
  response_count : option nat;
  response_data : option (list (SingleResource T));
  response_links : PaginationLinks;
}.
Arguments response_count {T} _.
Arguments response_data {T} _.
Arguments response_links {T} _.

(** [base.split_once('?').unwrap_or((base, ""))] *)
Fixpoint split_query (base : string) : string * string :=
  match base with
  | EmptyString => (EmptyString, EmptyString)
  | String c rest =>
      if bool_decide (c = "?"%char) then (EmptyString, rest)
      else let '(path, query) := split_query rest in (String c path, query)
  end.

(** [query.trim_start_matches('&')] *)
Fixpoint trim_ampersands (query : string) : string :=
  match query with
  | String c rest => if bool_decide (c = "&"%char) then trim_ampersands rest else query
  | EmptyString => EmptyString
  end.

Section responses.
Context {DX : DbExternals}.

Definition resource_path {T} `{Resource T} (resource : T) : string :=
  PATH T +:+ "/" +:+ ulid_to_string (resource_id resource).

Definition SingleResource_new {T} `{Resource T} (resource : T) : SingleResource T :=
  {| single_type := KIND T; single_id := resource_id resource; single_attributes := resource;
     single_self := resource_path resource; single_cursor := None |}.
Definition SingleResource_from_edge {T} `{Resource T} (edge : Edge T) : SingleResource T :=
  {| single_type := KIND T; single_id := resource_id (edge_node edge);
     single_attributes := edge_node edge; single_self := resource_path (edge_node edge);
     single_cursor := Some (ulid_to_string (edge_cursor edge)) |}.

Definition SingleResponse_new {T} `{Resource T} (resource : T) (self_ : string) : SingleResponse T :=
  {| single_data := SingleResource_new resource; single_link := self_ |}.
Definition new_canonical {T} `{Resource T} (resource : T) : SingleResponse T :=
  SingleResponse_new resource (resource_path resource).

Definition url_with_pagination (base : string) (pagination : Pagination) : string :=
  let '(path, query) := split_query base in
  let query := match page_before pagination with
               | Some before => query +:+ "&page[before]=" +:+ ulid_to_string before
               | None => query
               end in
  let query := match page_after pagination with
               | Some after => query +:+ "&page[after]=" +:+ ulid_to_string after
               | None => query
               end in
  let query := match page_direction pagination with
               | Page_Forward => query +:+ "&page[first]=" +:+ pretty (page_count pagination)
               | Page_Backward => query +:+ "&page[last]=" +:+ pretty (page_count pagination)
               end in
  path +:+ "?" +:+ trim_ampersands query.

(** The unwrapped ends of a page that has a next or a previous one are there: such a page is full,
    and its size is not zero. *)
Definition for_page {T} `{Resource T} (page : Page T) (current : Pagination) (count : option nat)
    (base : string) : PaginatedResponse T :=
  {| response_count := count;
     response_data := Some (SingleResource_from_edge <$> edges page);
     response_links :=
       {| links_self := url_with_pagination base current;
          links_first := Some (url_with_pagination base (Pagination_first (page_count current)));
          links_last := Some (url_with_pagination base (Pagination_last (page_count current)));
          links_next :=
            if has_next_page page then
              (λ e, url_with_pagination base
                      (Pagination_after (Pagination_clear_before current) (edge_cursor e)))
              <$> last (edges page)
            else None;
          links_prev :=
            if has_previous_page page then
              (λ e, url_with_pagination base
                      (Pagination_before (Pagination_clear_after current) (edge_cursor e)))
              <$> head (edges page)
            else None |} |}.

Definition for_count_only {T} (count : nat) (base : string) : PaginatedResponse T :=
  {| response_count := Some count; response_data := None;
     response_links := {| links_self := base; links_first := None; links_last := None;
                          links_next := None; links_prev := None |} |}.

(** The answer of a listing, by what is asked to be counted. *)
Definition paginated_response {T A} `{Resource T} (include_count : IncludeCount)
    (list_page : M St DatabaseError (Page A)) (count : M St DatabaseError nat)
    (convert : A → T) (pagination : Pagination) (base : string)
    : M St AppError (PaginatedResponse T) :=
  match include_count with
  | Count_True =>
      page ← try_with App_Repository list_page;
      total ← try_with App_Repository count;
      mret (for_page (Page_map convert page) pagination (Some total) base)
  | Count_False =>
      page ← try_with App_Repository list_page;
      mret (for_page (Page_map convert page) pagination None base)
  | Count_Only =>
      total ← try_with App_Repository count;
      mret (for_count_only total base)
  end.
End responses.

(** ** The query of a listing, printed back *)

(** [write!(f, "{sep}{name}={value}")] for every parameter, the first one after a question mark. *)
Fixpoint print_params (sep : string) (params : list (string * string)) : string :=
  match params with
  | [] => ""
  | (name, value) :: params => sep +:+ name +:+ "=" +:+ value +:+ print_params "&" params
  end.
Definition opt_param {A} (name : string) (show : A → string) (o : option A) : list (string * string) :=
  match o with Some a => [(name, show a)] | None => [] end.
Definition show_bool (b : bool) : string := if b then "true" else "false".
