(* ===== verification/NotificationRepository.v ===== *)
(** The repository of notifications (crates/data/src/pg/notification.rs): the texts of its
    enumerations, the decoding of its rows, and one definition per method, with the constraints of
    migrations/00000000000000_initial, 20260331000100_profile_patch_refactor and
    20260420000100_notification_delivery_provider_lookup. *)
From S2P Require Import Prelude Ids RateLimit TokenFormat Scope Pkce Jose Domain Accounts Notification Database Repository AccountRepository Pagination.

Open Scope Z_scope.

(** ** Texts of the enumerations *)

Definition request_status_to_db (status : NotificationRequestStatus) : string :=
  match status with
  | Request_Pending => "pending"
  | Request_Processing => "processing"
  | Request_Succeeded => "succeeded"
  | Request_Failed => "failed"
  | Request_Cancelled => "cancelled"
  end.
Definition delivery_status_to_db (status : NotificationDeliveryStatus) : string :=
  match status with
  | Delivery_Pending => "pending"
  | Delivery_Reserved => "reserved"
  | Delivery_Sending => "sending"
  | Delivery_Delivered => "delivered"
  | Delivery_Failed => "failed"
  | Delivery_Cancelled => "cancelled"
  end.
Definition channel_to_db (channel : NotificationChannel) : string :=
  match channel with
  | Channel_Email => "email"
  | Channel_Sms => "sms"
  | Channel_Webhook => "webhook"
  | Channel_InApp => "in_app"
  end.
Definition event_kind_to_db (kind : NotificationEventKind) : string :=
  match kind with
  | Event_RequestCreated => "request_created"
  | Event_RequestScheduled => "request_scheduled"
  | Event_DeliveryQueued => "delivery_queued"
  | Event_DeliveryReserved => "delivery_reserved"
  | Event_DeliverySendStarted => "delivery_send_started"
  | Event_DeliveryAccepted => "delivery_accepted"
  | Event_DeliveryDelivered => "delivery_delivered"
  | Event_DeliveryFailed => "delivery_failed"
  | Event_DeliveryRetried => "delivery_retried"
  | Event_RequestCompleted => "request_completed"
  | Event_RequestFailed => "request_failed"
  | Event_RequestCancelled => "request_cancelled"
  end.

Definition parse_request_status (value : string) (row : Ulid)
    : result NotificationRequestStatus DatabaseError :=
  if String.eqb value "pending" then Ok Request_Pending
  else if String.eqb value "processing" then Ok Request_Processing
  else if String.eqb value "succeeded" then Ok Request_Succeeded
  else if String.eqb value "failed" then Ok Request_Failed
  else if String.eqb value "cancelled" then Ok Request_Cancelled
  else Err (inconsistent "notification_requests" "status" row).
Definition parse_delivery_status (value : string) (row : Ulid)
    : result NotificationDeliveryStatus DatabaseError :=
  if String.eqb value "pending" then Ok Delivery_Pending
  else if String.eqb value "reserved" then Ok Delivery_Reserved
  else if String.eqb value "sending" then Ok Delivery_Sending
  else if String.eqb value "delivered" then Ok Delivery_Delivered
  else if String.eqb value "failed" then Ok Delivery_Failed
  else if String.eqb value "cancelled" then Ok Delivery_Cancelled
  else Err (inconsistent "notification_deliveries" "status" row).
Definition parse_channel (value : string) (row : Ulid) : result NotificationChannel DatabaseError :=
  if String.eqb value "email" then Ok Channel_Email
  else if String.eqb value "sms" then Ok Channel_Sms
  else if String.eqb value "webhook" then Ok Channel_Webhook
  else if String.eqb value "in_app" then Ok Channel_InApp
  else Err (inconsistent "notification_deliveries" "channel" row).
Definition parse_event_kind (value : string) (row : Ulid)
    : result NotificationEventKind DatabaseError :=
  if String.eqb value "request_created" then Ok Event_RequestCreated
  else if String.eqb value "request_scheduled" then Ok Event_RequestScheduled
  else if String.eqb value "delivery_queued" then Ok Event_DeliveryQueued
  else if String.eqb value "delivery_reserved" then Ok Event_DeliveryReserved
  else if String.eqb value "delivery_send_started" || String.eqb value "delivery_sending"
  then Ok Event_DeliverySendStarted
  else if String.eqb value "delivery_accepted" then Ok Event_DeliveryAccepted
  else if String.eqb value "delivery_delivered" then Ok Event_DeliveryDelivered
  else if String.eqb value "delivery_failed" then Ok Event_DeliveryFailed
  else if String.eqb value "delivery_retried" then Ok Event_DeliveryRetried
  else if String.eqb value "request_completed" then Ok Event_RequestCompleted
  else if String.eqb value "request_failed" then Ok Event_RequestFailed
  else if String.eqb value "request_cancelled" then Ok Event_RequestCancelled
  else Err (inconsistent "notification_event_logs" "kind" row).

(** ** Rows *)

Definition NotificationRequest_try_from (id : Ulid) (value : NotificationRequestRow)
    : result NotificationRequest DatabaseError :=
  result_bind (parse_request_status (RequestRow_status value) id) (λ status,
  Ok {| nreq_id := id;
        nreq_template_key := RequestRow_template_key value;
        nreq_locale := RequestRow_locale value;
        nreq_source := RequestRow_source value;
        nreq_payload := RequestRow_payload value;
        nreq_status := status;
        nreq_dedupe_key := RequestRow_dedupe_key value;
        nreq_correlation_key := RequestRow_correlation_key value;
        nreq_created_at := RequestRow_created_at value;
        nreq_scheduled_at := RequestRow_scheduled_at value;
        nreq_started_at := RequestRow_started_at value;
        nreq_completed_at := RequestRow_completed_at value;
        nreq_cancelled_at := RequestRow_cancelled_at value |}).

Definition NotificationDelivery_try_from (id : Ulid) (value : NotificationDeliveryRow)
    : result NotificationDelivery DatabaseError :=
  result_bind (parse_channel (DeliveryRow_channel value) id) (λ channel,
  result_bind (if DeliveryRow_attempt_count value <? 0
               then Err (inconsistent "notification_deliveries" "attempt_count" id)
               else Ok (DeliveryRow_attempt_count value)) (λ attempt_count,
  result_bind (parse_delivery_status (DeliveryRow_status value) id) (λ status,
  Ok {| ndel_id := id;
        ndel_notification_request_id := DeliveryRow_notification_request_id value;
        ndel_channel := channel;
        ndel_destination := DeliveryRow_destination value;
        ndel_provider_binding_key := DeliveryRow_provider_binding_key value;
        ndel_provider_message_id := DeliveryRow_provider_message_id value;
        ndel_attempt_count := attempt_count;
        ndel_status := status;
        ndel_last_failure := DeliveryRow_last_failure value;
        ndel_created_at := DeliveryRow_created_at value;
        ndel_reserved_at := DeliveryRow_reserved_at value;
        ndel_sent_at := DeliveryRow_sent_at value;
        ndel_delivered_at := DeliveryRow_delivered_at value;
        ndel_failed_at := DeliveryRow_failed_at value;
        ndel_next_retry_at := DeliveryRow_next_retry_at value |}))).

Definition NotificationEventLog_try_from (id : Ulid) (value : NotificationEventLogRow)
    : result NotificationEventLog DatabaseError :=
  result_bind (parse_event_kind (EventRow_kind value) id) (λ kind,
  Ok {| nev_id := id;
        nev_notification_request_id := EventRow_notification_request_id value;
        nev_notification_delivery_id := EventRow_notification_delivery_id value;
        nev_kind := kind;
        nev_actor := EventRow_actor value;
        nev_summary := EventRow_summary value;
        nev_metadata := EventRow_metadata value;
        nev_occurred_at := EventRow_occurred_at value |}).

Definition NotificationPreference_try_from (id : Ulid) (value : NotificationPreferenceRow)
    : result NotificationPreference DatabaseError :=
  result_bind (parse_channel (PreferenceRow_channel value) id) (λ channel,
  Ok {| npref_id := id;
        npref_user_id := PreferenceRow_user_id value;
        npref_channel := channel;
        npref_enabled := PreferenceRow_enabled value;
        npref_updated_at := PreferenceRow_updated_at value |}).

(** [rows.into_iter().map(TryInto::try_into).collect::<Result<Vec<_>, _>>()] *)
Fixpoint try_collect {R A} (decode : Ulid → R → result A DatabaseError) (rows : list (Z * R))
    : result (list A) DatabaseError :=
  match rows with
  | [] => Ok []
  | (id, row) :: rows =>
      result_bind (decode id row) (λ a,
      result_bind (try_collect decode rows) (λ l, Ok (a :: l)))
  end.

(** ** Requests *)

Definition notification_lookup_request (id : Ulid)
    : M St DatabaseError (option NotificationRequest) :=
  request ← select_by_id db_notification_requests id;
  try_into NotificationRequest_try_from (keyed id request).

Definition has_dedupe_key (key : option string) (r : NotificationRequestRow) : bool :=
  match key with
  | Some _ => bool_decide (RequestRow_dedupe_key r = key)
  | None => false
  end.

Definition notification_add_request (params : NewNotificationRequest)
    : M St DatabaseError NotificationRequest :=
  created_at ← clock_now;
  id ← with_rng (new_id created_at);
  let scheduled_at := default created_at (newreq_scheduled_at params) in
  let row :=
    {| RequestRow_template_key := newreq_template_key params;
       RequestRow_locale := newreq_locale params;
       RequestRow_source := newreq_source params;
       RequestRow_payload := newreq_payload params;
       RequestRow_status := request_status_to_db Request_Pending;
       RequestRow_dedupe_key := newreq_dedupe_key params;
       RequestRow_correlation_key := newreq_correlation_key params;
       RequestRow_created_at := created_at;
       RequestRow_scheduled_at := scheduled_at;
       RequestRow_started_at := None;
       RequestRow_completed_at := None;
       RequestRow_cancelled_at := None |} in
  _ ← insert_row on_notification_requests
        (λ db, new_row_violation "notification_requests" id (db_notification_requests db)
                 [(col_taken (has_dedupe_key (newreq_dedupe_key params))
                     (db_notification_requests db),
                   UniqueViolation "notification_requests" "dedupe_key")])
        id row;
  mret {| nreq_id := id;
          nreq_template_key := newreq_template_key params;
          nreq_locale := newreq_locale params;
          nreq_source := newreq_source params;
          nreq_payload := newreq_payload params;
          nreq_status := Request_Pending;
          nreq_dedupe_key := newreq_dedupe_key params;
          nreq_correlation_key := newreq_correlation_key params;
          nreq_created_at := created_at;
          nreq_scheduled_at := scheduled_at;
          nreq_started_at := None;
          nreq_completed_at := None;
          nreq_cancelled_at := None |}.

(** [Option::get_or_insert] *)
Definition get_or_insert (now : DateTime) (o : option DateTime) : option DateTime :=
  Some (default now o).

(** The request with its new status and times. *)
Definition request_with_status (now : DateTime) (status : NotificationRequestStatus)
    (r : NotificationRequest) : NotificationRequest :=
  let times :=
    match status with
    | Request_Pending => (None, None, None)
    | Request_Processing | Request_Failed => (get_or_insert now (nreq_started_at r), None, None)
    | Request_Succeeded => (get_or_insert now (nreq_started_at r), Some now, None)
    | Request_Cancelled => (nreq_started_at r, nreq_completed_at r, Some now)
    end in
  {| nreq_id := nreq_id r; nreq_template_key := nreq_template_key r; nreq_locale := nreq_locale r;
     nreq_source := nreq_source r; nreq_payload := nreq_payload r; nreq_status := status;
     nreq_dedupe_key := nreq_dedupe_key r; nreq_correlation_key := nreq_correlation_key r;
     nreq_created_at := nreq_created_at r; nreq_scheduled_at := nreq_scheduled_at r;
     nreq_started_at := times.1.1; nreq_completed_at := times.1.2;
     nreq_cancelled_at := times.2 |}.

(** The columns an update of a request writes. *)
Definition RequestRow_persist (request : NotificationRequest) (r : NotificationRequestRow)
    : NotificationRequestRow :=
  {| RequestRow_template_key := RequestRow_template_key r;
     RequestRow_locale := RequestRow_locale r;
     RequestRow_source := RequestRow_source r;
     RequestRow_payload := RequestRow_payload r;
     RequestRow_status := request_status_to_db (nreq_status request);
     RequestRow_dedupe_key := RequestRow_dedupe_key r;
     RequestRow_correlation_key := RequestRow_correlation_key r;
     RequestRow_created_at := RequestRow_created_at r;
     RequestRow_scheduled_at := RequestRow_scheduled_at r;
     RequestRow_started_at := nreq_started_at request;
     RequestRow_completed_at := nreq_completed_at request;
     RequestRow_cancelled_at := nreq_cancelled_at request |}.

Definition notification_set_request_status (notification_request : NotificationRequest)
    (status : NotificationRequestStatus) : M St DatabaseError NotificationRequest :=
  now ← clock_now;
  let notification_request := request_with_status now status notification_request in
  _ ← update_one db_notification_requests on_notification_requests no_violation
        (nreq_id notification_request) (RequestRow_persist notification_request);
  mret notification_request.

(** ** Deliveries *)

Definition notification_lookup_delivery (id : Ulid)
    : M St DatabaseError (option NotificationDelivery) :=
  delivery ← select_by_id db_notification_deliveries id;
  try_into NotificationDelivery_try_from (keyed id delivery).

Definition has_provider_message (key id : option string) (r : NotificationDeliveryRow) : bool :=
  match key, id with
  | Some _, Some _ =>
      bool_decide (DeliveryRow_provider_binding_key r = key) &&
      bool_decide (DeliveryRow_provider_message_id r = id)
  | _, _ => false
  end.

Definition notification_lookup_delivery_by_provider_message_id
    (provider_binding_key provider_message_id : string)
    : M St DatabaseError (option NotificationDelivery) :=
  res ← select_first db_notification_deliveries
          (has_provider_message (Some provider_binding_key) (Some provider_message_id));
  try_into NotificationDelivery_try_from res.

Definition is_delivery_of (request : Ulid) (r : NotificationDeliveryRow) : bool :=
  bool_decide (DeliveryRow_notification_request_id r = request).

Definition notification_list_deliveries (notification_request : NotificationRequest)
    : M St DatabaseError (list NotificationDelivery) :=
  rows ← gets (λ st, filter (λ row, is_delivery_of (nreq_id notification_request) row.2 = true)
                       (ordered_rows (db_notification_deliveries (st_db st))));
  of_result (try_collect NotificationDelivery_try_from rows).

Definition new_delivery_row (created_at : DateTime) (request : Ulid)
    (params : NewNotificationDelivery) : NotificationDeliveryRow :=
  {| DeliveryRow_notification_request_id := request;
     DeliveryRow_channel := channel_to_db (newdel_channel params);
     DeliveryRow_destination := newdel_destination params;
     DeliveryRow_provider_binding_key := newdel_provider_binding_key params;
     DeliveryRow_provider_message_id := None;
     DeliveryRow_attempt_count := 0;
     DeliveryRow_status := delivery_status_to_db Delivery_Pending;
     DeliveryRow_last_failure := None;
     DeliveryRow_created_at := created_at;
     DeliveryRow_reserved_at := None;
     DeliveryRow_sent_at := None;
     DeliveryRow_delivered_at := None;
     DeliveryRow_failed_at := None;
     DeliveryRow_next_retry_at := None |}.

Definition notification_add_delivery (notification_request : NotificationRequest)
    (params : NewNotificationDelivery) : M St DatabaseError NotificationDelivery :=
  created_at ← clock_now;
  id ← with_rng (new_id created_at);
  let request := nreq_id notification_request in
  _ ← insert_row on_notification_deliveries
        (λ db, new_row_violation "notification_deliveries" id (db_notification_deliveries db)
                 [(fk_broken request (db_notification_requests db),
                   ForeignKeyViolation "notification_deliveries" "notification_request_id")])
        id (new_delivery_row created_at request params);
  mret {| ndel_id := id;
          ndel_notification_request_id := request;
          ndel_channel := newdel_channel params;
          ndel_destination := newdel_destination params;
          ndel_provider_binding_key := newdel_provider_binding_key params;
          ndel_provider_message_id := None;
          ndel_attempt_count := 0;
          ndel_status := Delivery_Pending;
          ndel_last_failure := None;
          ndel_created_at := created_at;
          ndel_reserved_at := None;
          ndel_sent_at := None;
          ndel_delivered_at := None;
          ndel_failed_at := None;
          ndel_next_retry_at := None |}.

(** A delivery to attempt now. *)
Definition delivery_is_due (now : DateTime) (r : NotificationDeliveryRow) : bool :=
  String.eqb (DeliveryRow_status r) "pending" ||
  (String.eqb (DeliveryRow_status r) "failed" &&
   match DeliveryRow_next_retry_at r with Some t => t <=? now | None => false end).

(** [ORDER BY COALESCE(next_retry_at, created_at), id] *)
Definition due_time (r : NotificationDeliveryRow) : DateTime :=
  default (DeliveryRow_created_at r) (DeliveryRow_next_retry_at r).
Definition due_le (a b : Z * NotificationDeliveryRow) : Prop :=
  due_time a.2 < due_time b.2 ∨ due_time a.2 = due_time b.2 ∧ a.1 ≤ b.1.
#[export] Instance due_le_dec : RelDecision due_le.
Proof. intros a b. unfold due_le. apply _. Defined.
Definition due_deliveries (now : DateTime) (m : gmap Z NotificationDeliveryRow)
    : list (Z * NotificationDeliveryRow) :=
  merge_sort due_le (filter (λ row, delivery_is_due now row.2 = true) (map_to_list m)).

Definition DeliveryRow_reserve (now : DateTime) (r : NotificationDeliveryRow)
    : NotificationDeliveryRow :=
  {| DeliveryRow_notification_request_id := DeliveryRow_notification_request_id r;
     DeliveryRow_channel := DeliveryRow_channel r;
     DeliveryRow_destination := DeliveryRow_destination r;
     DeliveryRow_provider_binding_key := DeliveryRow_provider_binding_key r;
     DeliveryRow_provider_message_id := DeliveryRow_provider_message_id r;
     DeliveryRow_attempt_count := DeliveryRow_attempt_count r + 1;
     DeliveryRow_status := "reserved";
     DeliveryRow_last_failure := DeliveryRow_last_failure r;
     DeliveryRow_created_at := DeliveryRow_created_at r;
     DeliveryRow_reserved_at := Some now;
     DeliveryRow_sent_at := DeliveryRow_sent_at r;
     DeliveryRow_delivered_at := DeliveryRow_delivered_at r;
     DeliveryRow_failed_at := DeliveryRow_failed_at r;
     DeliveryRow_next_retry_at := DeliveryRow_next_retry_at r |}.

Definition INTEGER_MAX : Z := 2 ^ 31 - 1.

(** The statement updates the chosen rows at once; [RETURNING] gives them in some order, here
    that of the choice. *)
Definition notification_reserve_deliveries (limit : Z)
    : M St DatabaseError (list NotificationDelivery) :=
  now ← clock_now;
  let max_count := limit `min` LIMIT_MAX in
  rows ← gets (λ st, take (Z.to_nat max_count)
                       (due_deliveries now (db_notification_deliveries (st_db st))));
  _ ← require (forallb (λ row, DeliveryRow_attempt_count row.2 <? INTEGER_MAX) rows)
        (Db_Diesel NumericOutOfRange);
  _ ← modify (λ st, foldr (λ row, on_db (on_notification_deliveries
                                    (alter (DeliveryRow_reserve now) row.1))) st rows);
  of_result (try_collect NotificationDelivery_try_from
               ((λ row, (row.1, DeliveryRow_reserve now row.2)) <$> rows)).

(** The columns an update of a delivery writes. *)
Definition DeliveryRow_persist (delivery : NotificationDelivery) (r : NotificationDeliveryRow)
    : NotificationDeliveryRow :=
  {| DeliveryRow_notification_request_id := DeliveryRow_notification_request_id r;
     DeliveryRow_channel := DeliveryRow_channel r;
     DeliveryRow_destination := DeliveryRow_destination r;
     DeliveryRow_provider_binding_key := DeliveryRow_provider_binding_key r;
     DeliveryRow_provider_message_id := ndel_provider_message_id delivery;
     DeliveryRow_attempt_count := DeliveryRow_attempt_count r;
     DeliveryRow_status := delivery_status_to_db (ndel_status delivery);
     DeliveryRow_last_failure := ndel_last_failure delivery;
     DeliveryRow_created_at := DeliveryRow_created_at r;
     DeliveryRow_reserved_at := ndel_reserved_at delivery;
     DeliveryRow_sent_at := ndel_sent_at delivery;
     DeliveryRow_delivered_at := ndel_delivered_at delivery;
     DeliveryRow_failed_at := ndel_failed_at delivery;
     DeliveryRow_next_retry_at := ndel_next_retry_at delivery |}.

(** The unique index on the key of the provider and its message. *)
Definition provider_message_taken (id : Ulid) (message_id : option string)
    (m : gmap Z NotificationDeliveryRow) : bool :=
  match m !! id with
  | None => false
  | Some r =>
      col_taken (has_provider_message (DeliveryRow_provider_binding_key r) message_id) (delete id m)
  end.

Definition persist_delivery (notification_delivery : NotificationDelivery)
    : M St DatabaseError () :=
  update_one db_notification_deliveries on_notification_deliveries
    (λ db, first_violation
             [(provider_message_taken (ndel_id notification_delivery)
                 (ndel_provider_message_id notification_delivery) (db_notification_deliveries db),
               UniqueViolation "notification_deliveries" "provider_message_id")])
    (ndel_id notification_delivery) (DeliveryRow_persist notification_delivery).

(** [provider_message_id.or(self.provider_message_id.take())] *)
Definition option_or {A} (a b : option A) : option A := match a with Some _ => a | None => b end.

(** A delivery with the fields that change. *)
Definition delivery_with (d : NotificationDelivery) (status : NotificationDeliveryStatus)
    (message_id : option string) (failure : option NotificationDeliveryFailure)
    (sent_at delivered_at failed_at next_retry_at : option DateTime) : NotificationDelivery :=
  {| ndel_id := ndel_id d;
     ndel_notification_request_id := ndel_notification_request_id d;
     ndel_channel := ndel_channel d;
     ndel_destination := ndel_destination d;
     ndel_provider_binding_key := ndel_provider_binding_key d;
     ndel_provider_message_id := message_id;
     ndel_attempt_count := ndel_attempt_count d;
     ndel_status := status;
     ndel_last_failure := failure;
     ndel_created_at := ndel_created_at d;
     ndel_reserved_at := ndel_reserved_at d;
     ndel_sent_at := sent_at;
     ndel_delivered_at := delivered_at;
     ndel_failed_at := failed_at;
     ndel_next_retry_at := next_retry_at |}.

Definition notification_mark_delivery_sending (d : NotificationDelivery)
    (provider_message_id : option string) : M St DatabaseError NotificationDelivery :=
  now ← clock_now;
  let d := delivery_with d Delivery_Sending
             (option_or provider_message_id (ndel_provider_message_id d)) None
             (get_or_insert now (ndel_sent_at d)) (ndel_delivered_at d) None None in
  _ ← persist_delivery d;
  mret d.

Definition notification_mark_delivery_delivered (d : NotificationDelivery)
    (provider_message_id : option string) : M St DatabaseError NotificationDelivery :=
  now ← clock_now;
  let d := delivery_with d Delivery_Delivered
             (option_or provider_message_id (ndel_provider_message_id d)) None
             (get_or_insert now (ndel_sent_at d)) (Some now) None None in
  _ ← persist_delivery d;
  mret d.

Definition notification_mark_delivery_failed (d : NotificationDelivery)
    (failure : NotificationDeliveryFailure) (provider_message_id : option string)
    (next_retry_at : option DateTime) : M St DatabaseError NotificationDelivery :=
  now ← clock_now;
  let d := delivery_with d Delivery_Failed
             (option_or provider_message_id (ndel_provider_message_id d)) (Some failure)
             (ndel_sent_at d) None (Some now) next_retry_at in
  _ ← persist_delivery d;
  mret d.

Definition notification_cancel_delivery (d : NotificationDelivery)
    : M St DatabaseError NotificationDelivery :=
  now ← clock_now;
  let d := delivery_with d Delivery_Cancelled (ndel_provider_message_id d) (ndel_last_failure d)
             (ndel_sent_at d) (ndel_delivered_at d) (Some now) None in
  _ ← persist_delivery d;
  mret d.

(** ** Events *)

Definition notification_append_event (notification_request : NotificationRequest)
    (notification_delivery : option NotificationDelivery) (params : NewNotificationEventLog)
    : M St DatabaseError NotificationEventLog :=
  occurred_at ← clock_now;
  id ← with_rng (new_id occurred_at);
  let delivery_id := ndel_id <$> notification_delivery in
  let row :=
    {| EventRow_notification_request_id := nreq_id notification_request;
       EventRow_notification_delivery_id := delivery_id;
       EventRow_kind := event_kind_to_db (newev_kind params);
       EventRow_actor := newev_actor params;
       EventRow_summary := newev_summary params;
       EventRow_metadata := newev_metadata params;
       EventRow_occurred_at := occurred_at |} in
  _ ← insert_row on_notification_events
        (λ db, new_row_violation "notification_event_logs" id (db_notification_events db)
                 [(fk_broken (nreq_id notification_request) (db_notification_requests db),
                   ForeignKeyViolation "notification_event_logs" "notification_request_id");
                  (fk_broken_opt delivery_id (db_notification_deliveries db),
                   ForeignKeyViolation "notification_event_logs" "notification_delivery_id")])
        id row;
  mret {| nev_id := id;
          nev_notification_request_id := nreq_id notification_request;
          nev_notification_delivery_id := delivery_id;
          nev_kind := newev_kind params;
          nev_actor := newev_actor params;
          nev_summary := newev_summary params;
          nev_metadata := newev_metadata params;
          nev_occurred_at := occurred_at |}.

Definition log_event_le (a b : Z * NotificationEventLogRow) : Prop :=
  EventRow_occurred_at a.2 < EventRow_occurred_at b.2 ∨
  EventRow_occurred_at a.2 = EventRow_occurred_at b.2 ∧ a.1 ≤ b.1.
#[export] Instance log_event_le_dec : RelDecision log_event_le.
Proof. intros a b. unfold log_event_le. apply _. Defined.

Definition notification_list_events (notification_request : NotificationRequest)
    : M St DatabaseError (list NotificationEventLog) :=
  rows ← gets (λ st,
    merge_sort log_event_le
      (filter (λ row, EventRow_notification_request_id row.2 = nreq_id notification_request)
         (map_to_list (db_notification_events (st_db st)))));
  of_result (try_collect NotificationEventLog_try_from rows).

(** ** Preferences *)

(** [ORDER BY channel] *)
Definition channel_le (a b : Z * NotificationPreferenceRow) : Prop :=
  String.leb (PreferenceRow_channel a.2) (PreferenceRow_channel b.2) = true.
#[export] Instance channel_le_dec : RelDecision channel_le.
Proof. intros a b. unfold channel_le. apply _. Defined.

Definition notification_list_preferences (user : User)
    : M St DatabaseError (list NotificationPreference) :=
  rows ← gets (λ st,
    merge_sort channel_le
      (filter (λ row, PreferenceRow_user_id row.2 = User_id user)
         (map_to_list (db_notification_preferences (st_db st)))));
  of_result (try_collect NotificationPreference_try_from rows).

Definition is_preference (user : Ulid) (channel : string) (r : NotificationPreferenceRow) : bool :=
  bool_decide (PreferenceRow_user_id r = user) && bool_decide (PreferenceRow_channel r = channel).

(** The rows, each with a new identifier. *)
Fixpoint new_preference_rows (user : Ulid) (updated_at : DateTime)
    (preferences : list (NotificationChannel * bool))
    : M St DatabaseError (list (Z * NotificationPreferenceRow)) :=
  match preferences with
  | [] => mret []
  | (channel, enabled) :: preferences =>
      id ← with_rng (new_id updated_at);
      rows ← new_preference_rows user updated_at preferences;
      mret ((id, {| PreferenceRow_user_id := user; PreferenceRow_channel := channel_to_db channel;
                    PreferenceRow_enabled := enabled; PreferenceRow_updated_at := updated_at |})
            :: rows)
  end.

Definition notification_replace_preferences (user : User)
    (preferences : list (NotificationChannel * bool))
    : M St DatabaseError (list NotificationPreference) :=
  _ ← modify (on_db (on_notification_preferences
        (filter (λ kr, PreferenceRow_user_id kr.2 ≠ User_id user))));
  updated_at ← clock_now;
  rows ← new_preference_rows (User_id user) updated_at preferences;
  _ ← for_each (λ '(id, row),
        insert_row on_notification_preferences
          (λ db, new_row_violation "notification_preferences" id (db_notification_preferences db)
                   [(col_taken (is_preference (User_id user) (PreferenceRow_channel row))
                       (db_notification_preferences db),
                     UniqueViolation "notification_preferences" "channel");
                    (fk_broken (User_id user) (db_users db),
                     ForeignKeyViolation "notification_preferences" "user_id")])
          id row) rows;
  of_result (try_collect NotificationPreference_try_from rows).
