(* ===== verification/Notifications.v ===== *)
(** The jobs of notifications (crates/tasks/src/notifications.rs): generating and storing the codes
    and tickets that are sent, and delivering the messages of the outbox.

    A job works on the state of a worker, [JobSt]; it opens a transaction of its own, or one per
    delivery. *)
From stdpp Require Import pretty.
From S2P Require Import Prelude Ids RateLimit Passwords TokenFormat Scope Pkce Jose Keystore Domain Accounts Notification Database Messaging Repository ClientMetadata ProviderMetadata AccountRepository Pagination NotificationRepository.

Open Scope Z_scope.

(** ** Errors of jobs (new_queue/job_types.rs) *)

Inductive JobCause :=
| Cause_Database (error : DatabaseError)
| Cause_Message (text : string)
| Cause_Homeserver.

(** A job fails, to be retried or for good; or it panics; [Job_OutOfFuel] is a loop of the model
    that has not ended. *)
Inductive JobError :=
| JobError_retry (error : JobCause)
| JobError_fail (error : JobCause)
| Job_Panicked
| Job_OutOfFuel.

(** Third-party code the jobs call. *)
Class NotificationExternals := {
  (** the serialisation of [DateTime<Utc>] *)
  datetime_text : DateTime → string;
  (** [str::parse::<Address>], with the text of its error *)
  address_parse : string → result string string;
  (** [str::parse::<DataLocale>], with the text of its error *)
  locale_parse : string → result string string;
  (** [DatabaseError::to_string] *)
  database_error_text : DatabaseError → string;
}.

Definition TEMPLATE_EMAIL_VERIFICATION : string := "email_verification".
Definition TEMPLATE_SMS_VERIFICATION : string := "sms_verification_code".
Definition TEMPLATE_EMAIL_RECOVERY : string := "email_recovery".
Definition EMAIL_VERIFICATION_LANGUAGE : string := "en".

Definition MINUTES (n : Z) : Z := n * 60000000.
Definition SECONDS (n : Z) : Z := n * 1000000.

(** [rng.next_u32()] *)
Definition next_u32 (rng : Rng) : Z * Rng :=
  let '(bytes, rng) := fill_bytes 4 rng in (from_be_bytes (reverse bytes), rng).

(** [format!("{:06}", n)] *)
Definition pad6 (n : Z) : string :=
  let text := pretty n in
  String.concat "" (replicate (6 - String.length text) "0") +:+ text.

Definition verification_code (notifications : NotificationCenter) (rng : Rng) : string * Rng :=
  match nc_fixed_verification_code notifications with
  | Some code => (code, rng)
  | None => let '(n, rng) := next_u32 rng in (pad6 (n mod 1000000), rng)
  end.

(** ** Failures *)

Definition error_chain_contains_any (error : ErrorChain) (needles : list string) : bool :=
  existsb (λ message, existsb (λ needle, str_contains needle (str_map ascii_lower message)) needles)
    (error.1 :: error.2).

Definition is_permanent_tls_validation_error (error : ErrorChain) : bool :=
  error_chain_contains_any error
    ["invalid peer certificate"; "unknownissuer"; "certificate verify failed";
     "self-signed certificate"; "certificate has expired"; "not valid for name";
     "hostname mismatch"].

Definition notification_failure_from_error (error : NotificationError) : NotificationDeliveryFailure :=
  let failure code message retryable :=
    {| failure_code := Some code; failure_message := Some message;
       failure_retryable := retryable |} in
  match error with
  | Notification_EmailNotConfigured =>
      failure "email_not_configured" "email notifications are not configured" false
  | Notification_SmsNotConfigured =>
      failure "sms_not_configured" "sms notifications are not configured" false
  | Notification_Email (Mailer_Transport error) =>
      failure
        match error with
        | Transport_Message _ => "email_message"
        | Transport_Smtp _ => "email_smtp"
        | Transport_Sendmail _ => "email_sendmail"
        | Transport_Json _ => "email_json"
        | Transport_Http error =>
            if is_permanent_tls_validation_error error then "email_tls_certificate" else "email_http"
        | Transport_ProviderError status _ _ _ => "email_provider_" +:+ pretty status
        end
        (EmailTransportError_to_string error)
        match error with
        | Transport_ProviderError _ _ _ retryable => retryable
        | Transport_Message _ | Transport_Json _ => false
        | Transport_Smtp _ | Transport_Sendmail _ => true
        | Transport_Http error => negb (is_permanent_tls_validation_error error)
        end
  | Notification_Email (Mailer_Templates error) => failure "email_template" error false
  | Notification_Sms (Sms_Http error) =>
      let is_permanent_tls := is_permanent_tls_validation_error error in
      failure (if is_permanent_tls then "sms_tls_certificate" else "sms_http") error.1
        (negb is_permanent_tls)
  | Notification_Sms (Sms_ProviderError status body) =>
      failure ("sms_provider_" +:+ pretty status) body ((500 <=? status) || (status =? 429))
  end.

Definition terminal_failure (code message : string) : NotificationDeliveryFailure :=
  {| failure_code := Some code; failure_message := Some message; failure_retryable := false |}.

(** The wall clock is only read for the templates that expire. *)
Definition next_retry_delay (utc_now : DateTime) (request : NotificationRequest)
    (delivery : NotificationDelivery) (failure : NotificationDeliveryFailure) : option Z :=
  if negb (failure_retryable failure) then None
  else
    delay ← (if ndel_attempt_count delivery =? 1 then Some (SECONDS 30)
             else if ndel_attempt_count delivery =? 2 then Some (MINUTES 2)
             else if (ndel_attempt_count delivery =? 3) &&
                     String.eqb (nreq_template_key request) TEMPLATE_EMAIL_RECOVERY
             then Some (MINUTES 10)
             else None);
    if (String.eqb (nreq_template_key request) TEMPLATE_EMAIL_VERIFICATION ||
        String.eqb (nreq_template_key request) TEMPLATE_SMS_VERIFICATION) &&
       (nreq_created_at request + MINUTES 5 <=? utc_now + delay)
    then None
    else Some delay.

(** ** The metadata of events *)

Definition option_json {A} (f : A → Json) (o : option A) : Json :=
  match o with Some a => f a | None => Json_Null end.

Definition failure_to_value (failure : NotificationDeliveryFailure) : Json :=
  Json_Object [("code", option_json Json_String (failure_code failure));
               ("message", option_json Json_String (failure_message failure));
               ("retryable", Json_Bool (failure_retryable failure))].

Section jobs.
Context {UX : UrlExternals} {VX : UrlPartsExternals} {BX : UrlBuildExternals} {DX : DbExternals} {LX : LimiterExternals}
  {XX : AccountExternals} {NX : NotificationExternals}.

Definition destination_to_value (destination : NotificationDestination) : Json :=
  match destination with
  | Destination_Email email => Json_Object [("type", Json_String "email"); ("email", Json_String email)]
  | Destination_Sms phone_number =>
      Json_Object [("type", Json_String "sms"); ("phone_number", Json_String phone_number)]
  | Destination_Webhook url => Json_Object [("type", Json_String "webhook"); ("url", Json_String url)]
  | Destination_InApp user_id =>
      Json_Object [("type", Json_String "in_app"); ("user_id", Json_String (ulid_to_string user_id))]
  end.

Definition payload_to_value (payload : NotificationPayload) : Json :=
  match payload with
  | Payload_Verification code language =>
      Json_Object [("code", Json_String code); ("language", Json_String language)]
  | Payload_EmailRecovery user_id ticket =>
      Json_Object [("user_id", Json_String (ulid_to_string user_id)); ("ticket", Json_String ticket)]
  end.

Definition time_json (t : DateTime) : Json := Json_String (datetime_text t).

(** ** Requests of messages *)

Definition or_retry {A} (m : M St DatabaseError A) : M JobSt JobError A :=
  lift (try_with (λ e, JobError_retry (Cause_Database e)) m).

(** [state.repository()]: a new transaction; one still open is abandoned *)
Definition job_repository : M JobSt JobError () := lift repo_cancel.
Definition job_save : M JobSt JobError () := lift repo_save.
Definition job_cancel : M JobSt JobError () := lift repo_cancel.
Definition job_rng {A} (f : Rng → A * Rng) : M JobSt JobError A := lift (with_rng f).

Definition append_event (notification_request : NotificationRequest)
    (notification_delivery : option NotificationDelivery) (kind : NotificationEventKind)
    (summary : option string) (metadata : Json) : M JobSt JobError () :=
  let params :=
    match summary with
    | None => NewNotificationEventLog_new kind Actor_System metadata
    | Some summary => with_summary summary (NewNotificationEventLog_new kind Actor_System metadata)
    end in
  _ ← or_retry (notification_append_event notification_request notification_delivery params);
  mret tt.

Definition enqueue_notification_request (template_key locale : string)
    (source : NotificationRequestSource) (payload : NotificationPayload)
    (destination : NotificationDestination) (channel : NotificationChannel)
    (provider_binding_key : option string) : M JobSt JobError () :=
  request ← or_retry (notification_add_request
                        (NewNotificationRequest_new template_key locale source payload));
  _ ← append_event request None Event_RequestCreated (Some "Notification request created")
        (Json_Object [("template_key", Json_String template_key);
                      ("payload", payload_to_value payload); ("locale", Json_String locale)]);
  let delivery := NewNotificationDelivery_new channel destination in
  let delivery :=
    match provider_binding_key with
    | Some key => with_provider_binding_key key delivery
    | None => delivery
    end in
  delivery ← or_retry (notification_add_delivery request delivery);
  append_event request (Some delivery) Event_DeliveryQueued (Some "Notification delivery queued")
    (Json_Object [("channel", Json_String (channel_to_db (ndel_channel delivery)));
                  ("destination", destination_to_value destination);
                  ("provider_binding_key",
                   option_json Json_String (ndel_provider_binding_key delivery))]).

Definition PROCESS_DELIVERIES_QUEUE_NAME : string := "process-notification-deliveries".
(** [ProcessNotificationDeliveriesJob::default()] *)
Definition process_deliveries_payload : JobPayload := Payload_ProcessNotificationDeliveries 10.

Definition schedule_processing_job : M JobSt JobError () :=
  or_retry (queue_job_schedule PROCESS_DELIVERIES_QUEUE_NAME process_deliveries_payload).

(** The language is that of the templates, whatever the job asks for. *)
Definition send_email_authentication_code (notifications : NotificationCenter)
    (user_email_authentication_id : Ulid) (_language : string) : M JobSt JobError () :=
  _ ← job_repository;
  found ← or_retry (user_email_lookup_authentication user_email_authentication_id);
  user_email_authentication ←
    ok_or (JobError_fail (Cause_Message "User email authentication not found")) found;
  if bool_decide (is_Some (UserEmailAuthentication_completed_at user_email_authentication))
  then job_cancel
  else
    code ← job_rng (verification_code notifications);
    code ← or_retry (user_email_add_authentication_code (MINUTES 5) user_email_authentication code);
    if bool_decide (is_Some (nc_fixed_verification_code notifications)) then job_save
    else
      _ ← enqueue_notification_request TEMPLATE_EMAIL_VERIFICATION EMAIL_VERIFICATION_LANGUAGE
            (Source_UserEmailAuthentication user_email_authentication_id)
            (Payload_Verification (EmailCode_code code)
               EMAIL_VERIFICATION_LANGUAGE)
            (Destination_Email (UserEmailAuthentication_email user_email_authentication))
            Channel_Email (email_provider_binding_key notifications);
      _ ← schedule_processing_job;
      job_save.

Definition send_sms_authentication_code (notifications : NotificationCenter)
    (user_phone_authentication_id : Ulid) (language : string) : M JobSt JobError () :=
  _ ← job_repository;
  found ← or_retry (user_phone_lookup_authentication user_phone_authentication_id);
  user_phone_authentication ←
    ok_or (JobError_fail (Cause_Message "User phone authentication not found")) found;
  if bool_decide (is_Some (UserPhoneAuthentication_completed_at user_phone_authentication))
  then job_cancel
  else
    code ← job_rng (verification_code notifications);
    code ← or_retry (user_phone_add_authentication_code (MINUTES 5) user_phone_authentication code);
    if bool_decide (is_Some (nc_fixed_verification_code notifications)) then job_save
    else
      _ ← enqueue_notification_request TEMPLATE_SMS_VERIFICATION language
            (Source_UserPhoneAuthentication user_phone_authentication_id)
            (Payload_Verification (PhoneCode_code code) language)
            (Destination_Sms (UserPhoneAuthentication_phone user_phone_authentication))
            Channel_Sms (sms_provider_binding_key notifications);
      _ ← schedule_processing_job;
      job_save.

(** One address of a recovery. *)
Definition send_recovery_ticket (notifications : NotificationCenter) (session_id : Ulid)
    (session : UserRecoverySession) (email : UserEmail) : M JobSt JobError () :=
  ticket ← job_rng (generate_alphanumeric 32);
  ticket ← or_retry (user_recovery_add_ticket session email ticket);
  enqueue_notification_request TEMPLATE_EMAIL_RECOVERY (RecoverySession_locale session)
    (Source_UserRecoverySession session_id)
    (Payload_EmailRecovery (UserEmail_user_id email) (RecoveryTicket_ticket ticket))
    (Destination_Email (UserEmail_email email)) Channel_Email
    (email_provider_binding_key notifications).

(** The loop over the pages of addresses; [queued_any] is returned. *)
Fixpoint send_recovery_pages (fuel : nat) (notifications : NotificationCenter)
    (session_id : Ulid) (session : UserRecoverySession) (cursor : Pagination) (queued_any : bool)
    : M JobSt JobError bool :=
  match fuel with
  | O => raise Job_OutOfFuel
  | S fuel =>
      page ← or_retry (user_email_list (for_email (RecoverySession_email session)) cursor);
      _ ← for_each (λ edge, send_recovery_ticket notifications session_id session (edge_node edge)) (edges page);
      let queued_any := queued_any || negb (bool_decide (edges page = [])) in
      if has_next_page page then
        match last (edges page) with
        | Some last_edge =>
            send_recovery_pages fuel notifications session_id session
              (Pagination_after cursor (edge_cursor last_edge)) queued_any
        | None => mret queued_any
        end
      else mret queued_any
  end.

Definition send_account_recovery (notifications : NotificationCenter)
    (user_recovery_session_id : Ulid) : M JobSt JobError () :=
  _ ← job_repository;
  found ← or_retry (user_recovery_lookup_session user_recovery_session_id);
  session ← ok_or (JobError_fail (Cause_Message "User recovery session not found")) found;
  if bool_decide (is_Some (RecoverySession_consumed_at session)) then job_cancel
  else
    fuel ← gets (λ js, S (size (db_emails (st_db (js_st js)))));
    queued_any ← send_recovery_pages fuel notifications user_recovery_session_id session
                   (Pagination_first 50) false;
    _ ← (if queued_any : bool then schedule_processing_job else mret tt);
    job_save.

(** ** Deliveries *)

Inductive PreparedDelivery :=
| Prepared_Ready (request : OutboundNotification)
| Prepared_Cancelled (summary : string) (metadata : Json).

(** The errors of the preparation, as texts; [UrlBuilder] panics where a URL cannot be joined. *)
Inductive PrepareError :=
| Prepare_Failed (text : string)
| Prepare_Panicked.

Definition delivery_tracking_tags (request : NotificationRequest) (delivery : NotificationDelivery)
    : gmap string string :=
  {[ DELIVERY_ID_TAG := ulid_to_string (ndel_id delivery);
     REQUEST_ID_TAG := ulid_to_string (nreq_id request) ]}.

(** [repo.x().await?] *)
Definition or_fail {A} (m : M St DatabaseError A) : M St PrepareError A :=
  try_with (λ e, Prepare_Failed (database_error_text e)) m.
Definition bail {A} (text : string) : M St PrepareError A := raise (Prepare_Failed text).
(** [.context(text)?] *)
Definition context {A} (text : string) (o : option A) : M St PrepareError A :=
  ok_or (Prepare_Failed text) o.
Definition parsed {A} (r : result A string) : M St PrepareError A :=
  of_result (result_map_err Prepare_Failed r).

(** [parse_payload] for a struct of a verification, and for that of a recovery *)
Definition payload_context (request : NotificationRequest) : string :=
  "Failed to deserialize payload for notification request " +:+ ulid_to_string (nreq_id request).
Definition parse_verification_payload (request : NotificationRequest)
    : M St PrepareError (string * string) :=
  match nreq_payload request with
  | Payload_Verification code language => mret (code, language)
  | Payload_EmailRecovery _ _ => bail (payload_context request)
  end.
Definition parse_recovery_payload (request : NotificationRequest)
    : M St PrepareError (Ulid * string) :=
  match nreq_payload request with
  | Payload_EmailRecovery user_id ticket => mret (user_id, ticket)
  | Payload_Verification _ _ => bail (payload_context request)
  end.

(** [let Source { id } = &request.source else { bail }] *)
Definition email_source (request : NotificationRequest) : M St PrepareError Ulid :=
  match nreq_source request with
  | Source_UserEmailAuthentication id => mret id
  | _ => bail "Notification source does not match email verification payload"
  end.
Definition phone_source (request : NotificationRequest) : M St PrepareError Ulid :=
  match nreq_source request with
  | Source_UserPhoneAuthentication id => mret id
  | _ => bail "Notification source does not match SMS verification payload"
  end.
Definition recovery_source (request : NotificationRequest) : M St PrepareError Ulid :=
  match nreq_source request with
  | Source_UserRecoverySession id => mret id
  | _ => bail "Notification source does not match recovery payload"
  end.

(** [let Destination { .. } = &delivery.destination else { bail }] *)
Definition email_destination (text : string) (delivery : NotificationDelivery)
    : M St PrepareError string :=
  match ndel_destination delivery with Destination_Email email => mret email | _ => bail text end.
Definition sms_destination (text : string) (delivery : NotificationDelivery)
    : M St PrepareError string :=
  match ndel_destination delivery with
  | Destination_Sms phone_number => mret phone_number
  | _ => bail text
  end.

(** [if let Some(id) = id { Some(lookup(id).await?.context(text)?) } else { None }] *)
Definition load_opt {A} (text : string) (lookup : Ulid → M St DatabaseError (option A))
    (id : option Ulid) : M St PrepareError (option A) :=
  match id with
  | None => mret None
  | Some id =>
      found ← or_fail (lookup id);
      a ← context text found;
      mret (Some a)
  end.

Definition prepare_email_verification (request : NotificationRequest)
    (delivery : NotificationDelivery) : M St PrepareError PreparedDelivery :=
  '(code, language) ← parse_verification_payload request;
  user_email_authentication_id ← email_source request;
  found ← or_fail (user_email_lookup_authentication user_email_authentication_id);
  auth ← context "User email authentication not found" found;
  if bool_decide (is_Some (UserEmailAuthentication_completed_at auth))
  then mret (Prepared_Cancelled "Email authentication already completed"
               (Json_Object [("user_email_authentication_id",
                              Json_String (ulid_to_string user_email_authentication_id))]))
  else
    browser_session ← load_opt "Failed to load browser session" browser_session_lookup
                        (UserEmailAuthentication_user_session_id auth);
    registration ← load_opt "Failed to load registration" user_registration_lookup
                     (UserEmailAuthentication_user_registration_id auth);
    let username := option_or (UserRegistration_username <$> registration)
                      ((λ s, User_username (BrowserSession_user s)) <$> browser_session) in
    found ← or_fail (user_email_find_authentication_code auth code);
    authentication_code ← context "User email authentication code not found" found;
    email ← email_destination "Email verification delivery is not an email destination" delivery;
    address ← parsed (address_parse email);
    language ← parsed (locale_parse language);
    mret (Prepared_Ready (Outbound_EmailVerification
            {| mailbox_name := username; mailbox_email := address |}
            authentication_code browser_session registration language
            (delivery_tracking_tags request delivery))).

Definition prepare_sms_verification (request : NotificationRequest)
    (delivery : NotificationDelivery) : M St PrepareError PreparedDelivery :=
  '(code, language) ← parse_verification_payload request;
  user_phone_authentication_id ← phone_source request;
  found ← or_fail (user_phone_lookup_authentication user_phone_authentication_id);
  auth ← context "User phone authentication not found" found;
  if bool_decide (is_Some (UserPhoneAuthentication_completed_at auth))
  then mret (Prepared_Cancelled "Phone authentication already completed"
               (Json_Object [("user_phone_authentication_id",
                              Json_String (ulid_to_string user_phone_authentication_id))]))
  else
    phone_number ← sms_destination "SMS verification delivery is not an SMS destination" delivery;
    mret (Prepared_Ready (Outbound_SmsVerificationCode phone_number code language)).

Definition prepare_email_recovery (url_builder : UrlBuilder) (request : NotificationRequest)
    (delivery : NotificationDelivery) : M St PrepareError PreparedDelivery :=
  '(user_id, ticket) ← parse_recovery_payload request;
  user_recovery_session_id ← recovery_source request;
  found ← or_fail (user_recovery_lookup_session user_recovery_session_id);
  session ← context "User recovery session not found" found;
  if bool_decide (is_Some (RecoverySession_consumed_at session))
  then mret (Prepared_Cancelled "Recovery session already consumed"
               (Json_Object [("user_recovery_session_id",
                              Json_String (ulid_to_string user_recovery_session_id))]))
  else
    found ← or_fail (user_lookup user_id);
    user ← context "Recovery email user not found" found;
    language ← parsed (locale_parse (RecoverySession_locale session));
    url ← ok_or Prepare_Panicked (account_recovery_link url_builder ticket);
    email ← email_destination "Recovery delivery is not an email destination" delivery;
    address ← parsed (address_parse email);
    mret (Prepared_Ready (Outbound_EmailRecovery
            {| mailbox_name := Some (User_username user); mailbox_email := address |}
            user session url language (delivery_tracking_tags request delivery))).

Definition prepare_delivery (url_builder : UrlBuilder) (request : NotificationRequest)
    (delivery : NotificationDelivery) : M St PrepareError PreparedDelivery :=
  if String.eqb (nreq_template_key request) TEMPLATE_EMAIL_VERIFICATION
  then prepare_email_verification request delivery
  else if String.eqb (nreq_template_key request) TEMPLATE_SMS_VERIFICATION
  then prepare_sms_verification request delivery
  else if String.eqb (nreq_template_key request) TEMPLATE_EMAIL_RECOVERY
  then prepare_email_recovery url_builder request delivery
  else bail ("Unsupported notification template key: " +:+ nreq_template_key request).

Definition attempt_json (delivery : NotificationDelivery) : string * Json :=
  ("attempt_count", Json_Int (ndel_attempt_count delivery)).

Definition complete_delivery_with_failure (request : NotificationRequest)
    (delivery : NotificationDelivery) (failure : NotificationDeliveryFailure)
    : M JobSt JobError () :=
  now ← lift clock_now;
  utc ← utc_now;
  let next_retry_at := (λ delay, now + delay) <$> next_retry_delay utc request delivery failure in
  delivery ← or_retry (notification_mark_delivery_failed delivery failure None next_retry_at);
  _ ← append_event request (Some delivery) Event_DeliveryFailed
        (Some "Notification delivery failed")
        (Json_Object [("failure", failure_to_value failure);
                      ("next_retry_at", option_json time_json next_retry_at);
                      attempt_json delivery]);
  match next_retry_at with
  | Some next_retry_at =>
      _ ← append_event request (Some delivery) Event_DeliveryRetried
            (Some "Notification delivery scheduled for retry")
            (Json_Object [("next_retry_at", time_json next_retry_at); attempt_json delivery]);
      _ ← or_retry (queue_job_schedule_later PROCESS_DELIVERIES_QUEUE_NAME
                      process_deliveries_payload next_retry_at);
      _ ← or_retry (notification_set_request_status request Request_Processing);
      mret tt
  | None =>
      request ← or_retry (notification_set_request_status request Request_Failed);
      append_event request (Some delivery) Event_RequestFailed
        (Some "Notification request reached terminal failure")
        (Json_Object [("failure", failure_to_value failure)])
  end.

Definition cancel_request (request : NotificationRequest) (delivery : NotificationDelivery)
    (summary : string) (metadata : Json) : M JobSt JobError () :=
  delivery ← or_retry (notification_cancel_delivery delivery);
  request ← or_retry (notification_set_request_status request Request_Cancelled);
  append_event request (Some delivery) Event_RequestCancelled (Some summary) metadata.

Definition complete_delivery_with_success (request : NotificationRequest)
    (delivery : NotificationDelivery) (result : NotificationDispatchResult)
    : M JobSt JobError () :=
  delivery ← or_retry (notification_mark_delivery_delivered delivery
                         (dispatch_provider_message_id result));
  request ← or_retry (notification_set_request_status request Request_Succeeded);
  _ ← append_event request (Some delivery) Event_DeliveryAccepted
        (Some "Notification delivery accepted by provider")
        (Json_Object [attempt_json delivery;
                      ("provider_message_id",
                       option_json Json_String (ndel_provider_message_id delivery))]);
  append_event request (Some delivery) Event_RequestCompleted
    (Some "Notification request completed")
    (Json_Object [("delivery_id", Json_String (ulid_to_string (ndel_id delivery)))]).

(** [match m.await { .. }]: the error is a value. *)
Definition attempt {S E F A} (m : M S E A) : M S F (result A E) := λ st,
  (Ok (m st).1, (m st).2).

Definition send_delivery (notifications : NotificationCenter) (request : NotificationRequest)
    (delivery : NotificationDelivery) (outbound_request : OutboundNotification)
    : M JobSt JobError () :=
  delivery ← or_retry (notification_mark_delivery_sending delivery None);
  _ ← append_event request (Some delivery) Event_DeliverySendStarted
        (Some "Notification delivery send started") (Json_Object [attempt_json delivery]);
  answer ← attempt (dispatch notifications outbound_request);
  match answer with
  | Ok result => complete_delivery_with_success request delivery result
  | Err error =>
      complete_delivery_with_failure request delivery (notification_failure_from_error error)
  end.

(** The reserved delivery, up to the commit. *)
Definition attempt_delivery (notifications : NotificationCenter) (url_builder : UrlBuilder)
    (request : NotificationRequest) (delivery : NotificationDelivery) : M JobSt JobError () :=
  prepared ← attempt (lift (prepare_delivery url_builder request delivery));
  match prepared with
  | Ok (Prepared_Cancelled summary metadata) => cancel_request request delivery summary metadata
  | Ok (Prepared_Ready outbound_request) =>
      send_delivery notifications request delivery outbound_request
  | Err (Prepare_Failed text) =>
      complete_delivery_with_failure request delivery
        (terminal_failure "notification_prepare_failed" text)
  | Err Prepare_Panicked => raise Job_Panicked
  end.

Definition begin_delivery (delivery : NotificationDelivery) : M JobSt JobError NotificationRequest :=
  found ← or_retry (notification_lookup_request (ndel_notification_request_id delivery));
  request ← ok_or (JobError_fail (Cause_Message
                     ("Notification request not found for delivery " +:+
                      ulid_to_string (ndel_id delivery)))) found;
  _ ← append_event request (Some delivery) Event_DeliveryReserved
        (Some "Notification delivery reserved")
        (Json_Object [attempt_json delivery;
                      ("provider_binding_key",
                       option_json Json_String (ndel_provider_binding_key delivery))]);
  or_retry (notification_set_request_status request Request_Processing).

Definition process_single_delivery (notifications : NotificationCenter) (url_builder : UrlBuilder)
    : M JobSt JobError bool :=
  _ ← job_repository;
  reserved ← or_retry (notification_reserve_deliveries 1);
  match reserved with
  | [] => _ ← job_cancel; mret false
  | delivery :: _ =>
      request ← begin_delivery delivery;
      _ ← attempt_delivery notifications url_builder request delivery;
      _ ← job_save;
      mret true
  end.

(** [while processed < limit]: the number of deliveries processed *)
Fixpoint process_deliveries (limit : nat) (notifications : NotificationCenter)
    (url_builder : UrlBuilder) : M JobSt JobError nat :=
  match limit with
  | O => mret O
  | S limit =>
      more ← process_single_delivery notifications url_builder;
      if more : bool then
        processed ← process_deliveries limit notifications url_builder;
        mret (S processed)
      else mret O
  end.

Definition process_notification_deliveries (notifications : NotificationCenter)
    (url_builder : UrlBuilder) (limit : nat) : M JobSt JobError () :=
  processed ← process_deliveries limit notifications url_builder;
  if bool_decide (processed = limit) then
    _ ← job_repository;
    _ ← schedule_processing_job;
    job_save
  else mret tt.

(** [RunnableJob::run] of [DispatchNotificationJob] and [ProcessNotificationDeliveriesJob];
    the other jobs are not of this file. *)
Definition run_job (notifications : NotificationCenter) (url_builder : UrlBuilder)
    (job : JobPayload) : option (M JobSt JobError ()) :=
  match job with
  | Payload_ContactVerification (Target_Email id) language
  | Payload_EmailAuthenticationCode id language =>
      Some (send_email_authentication_code notifications id language)
  | Payload_ContactVerification (Target_Phone id) language
  | Payload_SmsAuthenticationCode id language =>
      Some (send_sms_authentication_code notifications id language)
  | Payload_AccountRecovery id => Some (send_account_recovery notifications id)
  | Payload_ProcessNotificationDeliveries limit =>
      Some (process_notification_deliveries notifications url_builder (Z.to_nat limit))
  | _ => None
  end.
End jobs.
