(* ===== verification/EmailWebhook.v ===== *)
(** The callbacks of email providers: crates/backend/src/services/email_webhook.rs and
    handlers/email_webhooks.rs.

    A body is decoded as its JSON, whose structs are read from objects. Cryptography, base64 and
    what the network answers to the requests the service makes are parameters. The texts of the
    errors are left out. *)
From stdpp Require Import pretty.
From S2P Require Import Prelude Ids RateLimit Passwords TokenFormat Scope Pkce Jose Keystore Domain Accounts Notification Database Messaging Repository ClientMetadata ProviderMetadata AccountRepository Pagination NotificationRepository Notifications.

Open Scope Z_scope.

(** Third-party code the service calls. *)
Class WebhookExternals := {
  (** [serde_json::from_slice] and [from_str], as the value *)
  json_from_slice : string → option Json;
  (** [std::str::from_utf8] *)
  is_utf8 : string → bool;
  (** [Base64::decode_vec] *)
  base64_standard_decode : string → option (list Z);
  (** [HmacSha256]'s [verify_slice] *)
  hmac_sha256_verify : list Z → string → list Z → bool;
  (** [P256Signature::from_der], then [verify] with a key *)
  p256_verify : string → string → list Z → bool;
  (** [Certificate::from_pem] and [RsaPublicKey::from_public_key_der], then [verify] with SHA-1 or
      SHA-256 *)
  certificate_parses : string → bool;
  rsa_verify : bool → string → string → list Z → bool;
}.

(** ** The service *)

Inductive ProviderRuntime :=
| Runtime_Resend (signing_secret : list Z) (max_age_seconds : Z)
| Runtime_Sendgrid (binding_key : string) (verifying_key : string)
| Runtime_Brevo (expected_headers : list (string * string))
| Runtime_AwsSes (topic_arn : string) (auto_confirm_subscription : bool)
    (allowed_signing_cert_url_prefixes : list string).

Inductive WebhookError :=
| Webhook_NotConfigured
| Webhook_ProviderMismatch (provider : string)
| Webhook_BadRequest
| Webhook_Unauthorized
| Webhook_Internal.

Record EmailWebhookProcessResult := {
  whr_processed : nat;
  whr_ignored : nat;
  whr_subscription_confirmed : bool;
}.

Inductive DeliveryLookup :=
| Lookup_DeliveryId (id : Ulid)
| Lookup_ProviderMessageId (id : string).

Inductive DeliveryTerminalStatus :=
| Terminal_Delivered
| Terminal_Failed (failure : NotificationDeliveryFailure).

Record DeliveryUpdate := {
  du_lookup : DeliveryLookup;
  du_provider_message_id : option string;
  du_event_kind : NotificationEventKind;
  du_event_summary : string;
  du_metadata : Json;
  du_status : DeliveryTerminalStatus;
}.

Record ParsedWebhook := {
  pw_updates : list DeliveryUpdate;
  pw_subscription_confirmed : bool;
}.
Definition no_updates : ParsedWebhook := {| pw_updates := []; pw_subscription_confirmed := false |}.

(** The request: the headers by their names in lower case, those that are texts, and the body. *)
Record WebhookRequest := {
  wrq_headers : gmap string string;
  wrq_body : string;
}.

(** What the network answers: the certificate, and the confirmation of a subscription. *)
Record WebhookNetwork := {
  net_certificate : option string;
  net_confirmed : bool;
}.

(** [str::replace('_', "-")] and [to_ascii_lowercase] *)
Definition dashed (s : string) : string :=
  str_map (λ a, if bool_decide (a = "_"%char) then "-"%char else a) s.
Definition to_ascii_lowercase (s : string) : string := str_map ascii_lower s.

Definition accepts_provider (self : ProviderRuntime) (provider : string) : bool :=
  let provider := dashed (to_ascii_lowercase (trim provider)) in
  match self with
  | Runtime_Resend _ _ => String.eqb provider "resend"
  | Runtime_Sendgrid binding_key _ =>
      if String.eqb binding_key "email.sendgrid" then String.eqb provider "sendgrid"
      else String.eqb provider "twilio" || String.eqb provider "sendgrid"
  | Runtime_Brevo _ => String.eqb provider "brevo"
  | Runtime_AwsSes _ _ _ =>
      String.eqb provider "aws-ses" || String.eqb provider "aws_ses" || String.eqb provider "ses"
  end.

Definition binding_key (self : ProviderRuntime) : string :=
  match self with
  | Runtime_Resend _ _ => "email.resend"
  | Runtime_Sendgrid binding_key _ => binding_key
  | Runtime_Brevo _ => "email.brevo"
  | Runtime_AwsSes _ _ _ => "email.aws_ses"
  end.

(** ** The kinds of events *)

Definition webhook_failure (code message : string) : DeliveryTerminalStatus :=
  Terminal_Failed {| failure_code := Some code; failure_message := Some message;
                     failure_retryable := false |}.

(** The first pair of the list with a key. *)
Definition lookup_text {A} (key : string) (l : list (string * A)) : option A :=
  (λ '(_, (_, x)), x) <$> list_find (λ kv, kv.1 = key) l.

Definition resend_event_status (event_type : string) : option DeliveryTerminalStatus :=
  lookup_text (to_ascii_lowercase (trim event_type))
    [("email.delivered", Terminal_Delivered);
     ("email.bounced", webhook_failure "email_bounced" "Resend reported that the email bounced");
     ("email.complained", webhook_failure "email_complained" "Resend reported a recipient complaint")].

Definition sendgrid_event_status (event_type : string) : option DeliveryTerminalStatus :=
  lookup_text (to_ascii_lowercase (trim event_type))
    [("delivered", Terminal_Delivered);
     ("bounce", webhook_failure "bounce" "SendGrid reported that the email bounced");
     ("blocked", webhook_failure "blocked" "SendGrid blocked the email");
     ("dropped", webhook_failure "dropped" "SendGrid dropped the email before delivery");
     ("spamreport", webhook_failure "spamreport" "SendGrid reported the email as spam")].

Fixpoint str_filter (f : ascii → bool) (s : string) : string :=
  match s with
  | EmptyString => EmptyString
  | String a s => if f a then String a (str_filter f s) else str_filter f s
  end.
Definition normalize_event_type (value : string) : string :=
  to_ascii_lowercase (str_filter is_ascii_alphanumeric value).

Definition brevo_event_status (event_type : string) : option DeliveryTerminalStatus :=
  lookup_text (normalize_event_type event_type)
    [("delivered", Terminal_Delivered);
     ("hardbounce", webhook_failure "hard_bounce" "Brevo reported a hard bounce");
     ("softbounce", webhook_failure "soft_bounce" "Brevo reported a soft bounce");
     ("blocked", webhook_failure "blocked" "Brevo blocked the email");
     ("error", webhook_failure "error" "Brevo reported a delivery error");
     ("invalid", webhook_failure "invalid" "Brevo reported an invalid recipient");
     ("spam", webhook_failure "spam" "Brevo reported the email as spam")].

Definition ses_event_status (event_type : string) : option DeliveryTerminalStatus :=
  lookup_text (normalize_event_type event_type)
    [("delivery", Terminal_Delivered);
     ("delivered", Terminal_Delivered);
     ("bounce", webhook_failure "bounce" "AWS SES reported that the email bounced");
     ("complaint", webhook_failure "complaint" "AWS SES reported a recipient complaint");
     ("reject", webhook_failure "reject" "AWS SES rejected the email");
     ("rejected", webhook_failure "reject" "AWS SES rejected the email");
     ("renderingfailure",
      webhook_failure "rendering_failure" "AWS SES reported a rendering failure")].

(** ** Headers and signatures *)

Definition header_str (headers : gmap string string) (name : string) : option string :=
  value ← headers !! name;
  let value := trim value in
  if String.eqb value "" then None else Some value.

Definition normalize_expected_headers (headers : list (string * string)) : list (string * string) :=
  (λ '(name, value), (to_ascii_lowercase name, value)) <$> headers.

Fixpoint verify_expected_headers (headers : gmap string string)
    (expected_headers : list (string * string)) : result () WebhookError :=
  match expected_headers with
  | [] => Ok tt
  | (name, expected) :: expected_headers =>
      match header_str headers name with
      | None => Err Webhook_Unauthorized
      | Some actual =>
          if String.eqb actual expected then verify_expected_headers headers expected_headers
          else Err Webhook_Unauthorized
      end
  end.

(** [str::parse::<i64>] *)
Fixpoint digits_loop (acc : Z) (s : string) : option Z :=
  match s with
  | EmptyString => Some acc
  | String a s => if is_ascii_digit a then digits_loop (acc * 10 + (byte_of a - 48)) s else None
  end.
Definition digits_value (s : string) : option Z :=
  if String.eqb s "" then None else digits_loop 0 s.
Definition parse_i64 (s : string) : option Z :=
  n ← match s with
      | String "-" rest => Z.opp <$> digits_value rest
      | String "+" rest => digits_value rest
      | _ => digits_value s
      end;
  if (- 2 ^ 63 <=? n) && (n <? 2 ^ 63) then Some n else None.

(** [split_whitespace] of a header *)
Fixpoint split_white (acc : string) (s : string) : list string :=
  let flush l := if String.eqb acc "" then l else acc :: l in
  match s with
  | EmptyString => flush []
  | String a s =>
      if bool_decide (byte_of a = 32 ∨ byte_of a = 9) then flush (split_white "" s)
      else split_white (acc +:+ String a "") s
  end.

Definition ok_or_r {A} (e : WebhookError) (o : option A) : result A WebhookError :=
  match o with Some a => Ok a | None => Err e end.
Definition check (b : bool) (e : WebhookError) : result () WebhookError := if b then Ok tt else Err e.

Section webhook.
Context {UX : UrlExternals} {VX : UrlPartsExternals} {BX : UrlBuildExternals} {JX : JoseExternals}
  {DX : DbExternals} {NX : NotificationExternals} {WX : WebhookExternals}.

(** [secret] is [None] where it is not base64 *)
Definition decode_resend_signing_secret (secret : string) : option (list Z) :=
  base64_standard_decode (default secret (strip_prefix "whsec_" secret)).

Definition resend_signature_matches (signing_secret : list Z) (signed_content part : string) : bool :=
  match strip_prefix "v1," part ≫= base64_standard_decode with
  | Some signature => hmac_sha256_verify signing_secret signed_content signature
  | None => false
  end.

Definition verify_resend_signature (utc_now : DateTime) (signing_secret : list Z)
    (max_age_seconds : Z) (message_id timestamp signature_header body : string)
    : result () WebhookError :=
  result_bind (ok_or_r Webhook_Unauthorized (parse_i64 timestamp)) (λ timestamp,
  result_bind (ok_or_r Webhook_Unauthorized (datetime_from_timestamp timestamp)) (λ signed_at,
  (* [num_seconds] rounds toward zero *)
  let age := Z.abs (Z.quot (utc_now - signed_at) 1000000) in
  result_bind (check (age <=? max_age_seconds) Webhook_Unauthorized) (λ _,
  result_bind (check (is_utf8 body) Webhook_BadRequest) (λ _,
  let signed_content := message_id +:+ "." +:+ pretty timestamp +:+ "." +:+ body in
  check (existsb (resend_signature_matches signing_secret signed_content)
           (split_white "" signature_header)) Webhook_Unauthorized)))).

Definition verify_sendgrid_signature (verifying_key timestamp signature body : string)
    : result () WebhookError :=
  let signed_payload := timestamp +:+ body in
  result_bind (ok_or_r Webhook_Unauthorized (base64_standard_decode signature)) (λ signature,
  check (p256_verify verifying_key signed_payload signature) Webhook_Unauthorized).

Record SnsEnvelope := {
  sns_message_type : string;
  sns_message_id : string;
  sns_topic_arn : string;
  sns_subject : option string;
  sns_message : string;
  sns_timestamp : string;
  sns_signature_version : string;
  sns_signature : string;
  sns_signing_cert_url : string;
  sns_subscribe_url : option string;
  sns_token : option string;
}.

Definition LF : string := String "010"%char EmptyString.
Definition sns_field (name value : string) : string := name +:+ LF +:+ value +:+ LF.

Definition sns_signed_content (envelope : SnsEnvelope) : result string WebhookError :=
  if String.eqb (sns_message_type envelope) "Notification" then
    Ok (sns_field "Message" (sns_message envelope) +:+
        sns_field "MessageId" (sns_message_id envelope) +:+
        match sns_subject envelope with Some subject => sns_field "Subject" subject | None => "" end +:+
        sns_field "Timestamp" (sns_timestamp envelope) +:+
        sns_field "TopicArn" (sns_topic_arn envelope) +:+
        sns_field "Type" (sns_message_type envelope))
  else if String.eqb (sns_message_type envelope) "SubscriptionConfirmation" ||
          String.eqb (sns_message_type envelope) "UnsubscribeConfirmation" then
    result_bind (ok_or_r Webhook_BadRequest (sns_subscribe_url envelope)) (λ subscribe_url,
    result_bind (ok_or_r Webhook_BadRequest (sns_token envelope)) (λ token,
    Ok (sns_field "Message" (sns_message envelope) +:+
        sns_field "MessageId" (sns_message_id envelope) +:+
        sns_field "SubscribeURL" subscribe_url +:+
        sns_field "Timestamp" (sns_timestamp envelope) +:+
        sns_field "Token" token +:+
        sns_field "TopicArn" (sns_topic_arn envelope) +:+
        sns_field "Type" (sns_message_type envelope))))
  else Err Webhook_BadRequest.

(** [trim_start_matches(prefix)] of a text *)
Fixpoint trim_start_prefix (fuel : nat) (p s : string) : string :=
  match fuel, strip_prefix p s with
  | S fuel, Some s => trim_start_prefix fuel p s
  | _, _ => s
  end.

Definition prefix_allows (host path prefix : string) : bool :=
  let prefix := to_ascii_lowercase (trim_end_matches "/"%char (trim prefix)) in
  if String.eqb prefix "" then false
  else if starts_with "https://" prefix then starts_with prefix ("https://" +:+ host +:+ path)
  else
    let strip p s := trim_start_prefix (String.length s) p s in
    starts_with (strip "https://" (strip "http://" prefix)) host.

Definition validate_sns_signing_cert_url (signing_cert_url : string) (allowed_prefixes : list string)
    : result () WebhookError :=
  result_bind (ok_or_r Webhook_Unauthorized (url_parse signing_cert_url)) (λ url,
  result_bind (check (String.eqb (url_scheme url) "https") Webhook_Unauthorized) (λ _,
  result_bind
    (check (String.eqb (url_username url) "" && bool_decide (url_password url = None) &&
            bool_decide (url_port url = None) && bool_decide (url_query url = None) &&
            bool_decide (url_fragment url = None)) Webhook_Unauthorized) (λ _,
  result_bind (ok_or_r Webhook_Unauthorized (url_host_str url)) (λ host,
  let host := to_ascii_lowercase host in
  let path := url_path url in
  result_bind
    (check (ends_with ".amazonaws.com" host || ends_with ".amazonaws.com.cn" host)
       Webhook_Unauthorized) (λ _,
  result_bind
    (check (starts_with "/SimpleNotificationService-" path && ends_with ".pem" path)
       Webhook_Unauthorized) (λ _,
  check (existsb (prefix_allows host path) allowed_prefixes) Webhook_Unauthorized)))))).

Definition verify_sns_signature (net : WebhookNetwork) (allowed_prefixes : list string)
    (envelope : SnsEnvelope) : result () WebhookError :=
  result_bind (validate_sns_signing_cert_url (sns_signing_cert_url envelope) allowed_prefixes) (λ _,
  result_bind (ok_or_r Webhook_Internal (net_certificate net)) (λ certificate,
  result_bind (check (certificate_parses certificate) Webhook_Unauthorized) (λ _,
  result_bind (ok_or_r Webhook_Unauthorized (base64_standard_decode (sns_signature envelope)))
    (λ signature,
  result_bind (sns_signed_content envelope) (λ signed_content,
  if String.eqb (sns_signature_version envelope) "1" then
    check (rsa_verify true certificate signed_content signature) Webhook_Unauthorized
  else if String.eqb (sns_signature_version envelope) "2" then
    check (rsa_verify false certificate signed_content signature) Webhook_Unauthorized
  else Err Webhook_Unauthorized))))).

(** ** The structs of the bodies *)

(** A field of an object: an error where it is there twice. *)
Definition json_field (key : string) (fields : list (string * Json)) : option (option Json) :=
  match filter (λ kv, kv.1 = key) fields with
  | [] => Some None
  | [(_, v)] => Some (Some v)
  | _ => None
  end.
Definition string_field (key : string) (fields : list (string * Json)) : option string :=
  match json_field key fields with Some (Some (Json_String s)) => Some s | _ => None end.
(** [Option<String>] *)
Definition opt_string_field (key : string) (fields : list (string * Json)) : option (option string) :=
  match json_field key fields with
  | Some None | Some (Some Json_Null) => Some None
  | Some (Some (Json_String s)) => Some (Some s)
  | _ => None
  end.
Definition json_string (v : Json) : option string :=
  match v with Json_String s => Some s | _ => None end.
(** [BTreeMap<String, T>], the last of equal keys *)
Definition json_map {A} (f : Json → option A) (v : Json) : option (gmap string A) :=
  match v with
  | Json_Object fields =>
      l ← mapM (λ '(k, v), a ← f v; Some (k, a)) fields; Some (list_to_map (reverse l))
  | _ => None
  end.
Definition map_field {A} (f : Json → option A) (key : string) (fields : list (string * Json))
    : option (gmap string A) :=
  match json_field key fields with
  | Some None => Some ∅
  | Some (Some v) => json_map f v
  | None => None
  end.
Definition json_strings (v : Json) : option (list string) :=
  match v with Json_Array l => mapM json_string l | _ => None end.

Record ResendWebhookEvent := {
  rwe_event_type : string;
  rwe_email_id : option string;
  rwe_tags : option (list (string * string));
}.
Definition resend_tag (v : Json) : option (string * string) :=
  match v with
  | Json_Object fields =>
      name ← string_field "name" fields; value ← string_field "value" fields; Some (name, value)
  | _ => None
  end.
Definition resend_event (v : Json) : option ResendWebhookEvent :=
  match v with
  | Json_Object fields =>
      event_type ← string_field "type" fields;
      data ← json_field "data" fields;
      match data with
      | Some (Json_Object data) =>
          email_id ← opt_string_field "email_id" data;
          tags ← match json_field "tags" data with
                 | Some None | Some (Some Json_Null) => Some None
                 | Some (Some (Json_Array l)) => Some <$> mapM resend_tag l
                 | _ => None
                 end;
          Some {| rwe_event_type := event_type; rwe_email_id := email_id; rwe_tags := tags |}
      | _ => None
      end
  | _ => None
  end.

Record SendgridWebhookEvent := {
  swe_event_type : string;
  swe_sg_message_id : option string;
  swe_smtp_id : option string;
  swe_custom_args : gmap string string;
  swe_unique_args : gmap string string;
  swe_extra : gmap string Json;
}.
Definition sendgrid_fields : list string :=
  ["event"; "sg_message_id"; "smtp-id"; "custom_args"; "unique_args"].
Definition sendgrid_event (v : Json) : option SendgridWebhookEvent :=
  match v with
  | Json_Object fields =>
      event_type ← string_field "event" fields;
      sg_message_id ← opt_string_field "sg_message_id" fields;
      smtp_id ← opt_string_field "smtp-id" fields;
      custom_args ← map_field json_string "custom_args" fields;
      unique_args ← map_field json_string "unique_args" fields;
      Some {| swe_event_type := event_type; swe_sg_message_id := sg_message_id;
              swe_smtp_id := smtp_id; swe_custom_args := custom_args;
              swe_unique_args := unique_args;
              swe_extra := list_to_map (reverse (filter (λ kv, kv.1 ∉ sendgrid_fields) fields)) |}
  | _ => None
  end.

(** [.filter(|value| !value.trim().is_empty())] *)
Definition non_blank (o : option string) : option string :=
  value ← o; if String.eqb (trim value) "" then None else Some value.
Definition sendgrid_message_id (self : SendgridWebhookEvent) : option string :=
  non_blank (option_or (swe_sg_message_id self) (swe_smtp_id self)).

Record BrevoWebhookEvent := {
  bwe_event_type : string;
  bwe_message_id : option string;
  bwe_tag : option string;
  (** [BrevoTagList], as its texts *)
  bwe_tags : list string;
}.
Definition brevo_event (v : Json) : option BrevoWebhookEvent :=
  match v with
  | Json_Object fields =>
      event_type ← string_field "event" fields;
      message_id ← opt_string_field "message-id" fields;
      tag ← opt_string_field "tag" fields;
      tags ← match json_field "tags" fields with
             | Some None | Some (Some Json_Null) => Some []
             | Some (Some (Json_String s)) => Some [s]
             | Some (Some v) => json_strings v
             | None => None
             end;
      Some {| bwe_event_type := event_type; bwe_message_id := message_id; bwe_tag := tag;
              bwe_tags := tags |}
  | _ => None
  end.
Definition brevo_tags (self : BrevoWebhookEvent) : list string :=
  match bwe_tag self with Some tag => [tag] | None => [] end ++ bwe_tags self.

Definition sns_envelope (v : Json) : option SnsEnvelope :=
  match v with
  | Json_Object fields =>
      message_type ← string_field "Type" fields;
      message_id ← string_field "MessageId" fields;
      topic_arn ← string_field "TopicArn" fields;
      subject ← opt_string_field "Subject" fields;
      message ← string_field "Message" fields;
      timestamp ← string_field "Timestamp" fields;
      signature_version ← string_field "SignatureVersion" fields;
      signature ← string_field "Signature" fields;
      signing_cert_url ← string_field "SigningCertURL" fields;
      subscribe_url ← opt_string_field "SubscribeURL" fields;
      token ← opt_string_field "Token" fields;
      Some {| sns_message_type := message_type; sns_message_id := message_id;
              sns_topic_arn := topic_arn; sns_subject := subject; sns_message := message;
              sns_timestamp := timestamp; sns_signature_version := signature_version;
              sns_signature := signature; sns_signing_cert_url := signing_cert_url;
              sns_subscribe_url := subscribe_url; sns_token := token |}
  | _ => None
  end.

(** [SesSnsMessage]: the kind of event, and of the mail its identifier and its tags *)
Record SesSnsMessage := {
  ses_event_type : string;
  ses_message_id : option string;
  ses_tags : gmap string (list string);
}.
(** Of a value, the last of equal keys is kept. *)
Definition value_field (key : string) (fields : list (string * Json)) : option Json :=
  lookup_text key (reverse fields).
Definition ses_message (v : Json) : option SesSnsMessage :=
  match v with
  | Json_Object fields =>
      let key := if bool_decide (is_Some (value_field "notificationType" fields))
                 then "notificationType" else "eventType" in
      event_type ← value_field key fields ≫= json_string;
      mail ← value_field "mail" fields;
      match mail with
      | Json_Object mail =>
          message_id ← match value_field "messageId" mail with
                       | None | Some Json_Null => Some None
                       | Some (Json_String s) => Some (Some s)
                       | Some _ => None
                       end;
          tags ← match value_field "tags" mail with
                 | None => Some ∅
                 | Some v => json_map json_strings v
                 end;
          Some {| ses_event_type := event_type; ses_message_id := message_id; ses_tags := tags |}
      | _ => None
      end
  | _ => None
  end.
Definition flatten_ses_tags (tags : gmap string (list string)) : gmap string string :=
  omap head tags.

(** ** Which delivery an event is about *)

Definition delivery_id (value : string) : result DeliveryLookup WebhookError :=
  match ulid_from_string value with
  | Some id => Ok (Lookup_DeliveryId id)
  | None => Err Webhook_BadRequest
  end.
Definition by_message_id (provider_message_id : option string) : result DeliveryLookup WebhookError :=
  match provider_message_id with
  | Some id => Ok (Lookup_ProviderMessageId id)
  | None => Err Webhook_BadRequest
  end.

Definition lookup_from_string_map_tags (tags : gmap string string)
    (provider_message_id : option string) : result DeliveryLookup WebhookError :=
  match tags !! DELIVERY_ID_TAG with
  | Some value => delivery_id value
  | None => by_message_id provider_message_id
  end.
Definition lookup_from_key_value_tags (tags : list (string * string))
    (provider_message_id : option string) : result DeliveryLookup WebhookError :=
  lookup_from_string_map_tags (list_to_map (reverse tags)) provider_message_id.
Definition lookup_from_sendgrid_event (event : SendgridWebhookEvent)
    (provider_message_id : option string) : result DeliveryLookup WebhookError :=
  match option_or (swe_custom_args event !! DELIVERY_ID_TAG)
                  (swe_unique_args event !! DELIVERY_ID_TAG) with
  | Some value => delivery_id value
  | None =>
      match swe_extra event !! DELIVERY_ID_TAG ≫= json_string with
      | Some value => delivery_id value
      | None => by_message_id provider_message_id
      end
  end.

Definition parse_key_value_tag (tag : string) : option (string * string) :=
  option_or (split_once "=" tag) (split_once ":" tag).
Fixpoint lookup_from_string_tags (tags : list string) (provider_message_id : option string)
    : result DeliveryLookup WebhookError :=
  match tags with
  | [] => by_message_id provider_message_id
  | tag :: tags =>
      match parse_key_value_tag tag with
      | Some (name, value) =>
          if String.eqb name DELIVERY_ID_TAG then delivery_id value
          else lookup_from_string_tags tags provider_message_id
      | None => lookup_from_string_tags tags provider_message_id
      end
  end.

(** ** Parsing *)

Definition status_kind (status : DeliveryTerminalStatus) : NotificationEventKind :=
  match status with
  | Terminal_Delivered => Event_DeliveryDelivered
  | Terminal_Failed _ => Event_DeliveryFailed
  end.
Definition delivery_update (provider name event_type : string)
    (provider_message_id : option string) (lookup : DeliveryLookup)
    (status : DeliveryTerminalStatus) : DeliveryUpdate :=
  {| du_lookup := lookup;
     du_provider_message_id := provider_message_id;
     du_event_kind := status_kind status;
     du_event_summary :=
       match status with
       | Terminal_Delivered => "Notification delivery confirmed by " +:+ name
       | Terminal_Failed _ => "Notification delivery failed according to " +:+ name
       end;
     du_metadata :=
       Json_Object [("provider", Json_String provider); ("event_type", Json_String event_type);
                    ("provider_message_id", option_json Json_String provider_message_id)];
     du_status := status |}.

(** [serde_json::from_slice::<T>] *)
Definition from_slice {A} (decode : Json → option A) (body : string) : result A WebhookError :=
  ok_or_r Webhook_BadRequest (json_from_slice body ≫= decode).
Definition parse_json_array_or_single {A} (decode : Json → option A) (body : string)
    : result (list A) WebhookError :=
  match from_slice (λ v, match v with Json_Array l => mapM decode l | _ => None end) body with
  | Ok l => Ok l
  | Err _ => result_bind (from_slice decode body) (λ event, Ok [event])
  end.

Definition resend_parse (utc_now : DateTime) (signing_secret : list Z) (max_age_seconds : Z)
    (req : WebhookRequest) : result ParsedWebhook WebhookError :=
  let header name := ok_or_r Webhook_Unauthorized (header_str (wrq_headers req) name) in
  result_bind (header "svix-id") (λ message_id,
  result_bind (header "svix-timestamp") (λ timestamp,
  result_bind (header "svix-signature") (λ signature,
  result_bind (verify_resend_signature utc_now signing_secret max_age_seconds message_id timestamp
                 signature (wrq_body req)) (λ _,
  result_bind (from_slice resend_event (wrq_body req)) (λ event,
  match resend_event_status (rwe_event_type event) with
  | None => Ok no_updates
  | Some status =>
      let provider_message_id := rwe_email_id event in
      result_bind (lookup_from_key_value_tags (default [] (rwe_tags event)) provider_message_id)
        (λ lookup,
      Ok {| pw_updates := [delivery_update "resend" "Resend" (rwe_event_type event)
                             provider_message_id lookup status];
            pw_subscription_confirmed := false |})
  end))))).

Definition sendgrid_update (binding_key : string) (event : SendgridWebhookEvent)
    : option DeliveryUpdate :=
  status ← sendgrid_event_status (swe_event_type event);
  let provider_message_id := sendgrid_message_id event in
  lookup ← result_ok (lookup_from_sendgrid_event event provider_message_id);
  Some (delivery_update (if String.eqb binding_key "email.twilio" then "twilio" else "sendgrid")
          "SendGrid" (swe_event_type event) provider_message_id lookup status).
Definition sendgrid_parse (binding_key verifying_key : string) (req : WebhookRequest)
    : result ParsedWebhook WebhookError :=
  let header name := ok_or_r Webhook_Unauthorized (header_str (wrq_headers req) name) in
  result_bind (header "x-twilio-email-event-webhook-signature") (λ signature,
  result_bind (header "x-twilio-email-event-webhook-timestamp") (λ timestamp,
  result_bind (verify_sendgrid_signature verifying_key timestamp signature (wrq_body req)) (λ _,
  result_bind (parse_json_array_or_single sendgrid_event (wrq_body req)) (λ events,
  Ok {| pw_updates := omap (sendgrid_update binding_key) events;
        pw_subscription_confirmed := false |})))).

Definition brevo_update (event : BrevoWebhookEvent) : option DeliveryUpdate :=
  status ← brevo_event_status (bwe_event_type event);
  let provider_message_id := non_blank (bwe_message_id event) in
  lookup ← result_ok (lookup_from_string_tags (brevo_tags event) provider_message_id);
  Some (delivery_update "brevo" "Brevo" (bwe_event_type event) provider_message_id lookup status).
Definition brevo_parse (expected_headers : list (string * string)) (req : WebhookRequest)
    : result ParsedWebhook WebhookError :=
  result_bind (verify_expected_headers (wrq_headers req) expected_headers) (λ _,
  result_bind (parse_json_array_or_single brevo_event (wrq_body req)) (λ events,
  Ok {| pw_updates := omap brevo_update events; pw_subscription_confirmed := false |})).

Definition aws_ses_notification (envelope : SnsEnvelope) : result ParsedWebhook WebhookError :=
  result_bind (from_slice ses_message (sns_message envelope)) (λ message,
  match ses_event_status (ses_event_type message) with
  | None => Ok no_updates
  | Some status =>
      let provider_message_id := ses_message_id message in
      result_bind (lookup_from_string_map_tags (flatten_ses_tags (ses_tags message))
                     provider_message_id) (λ lookup,
      Ok {| pw_updates := [delivery_update "aws_ses" "AWS SES" (ses_event_type message)
                             provider_message_id lookup status];
            pw_subscription_confirmed := false |})
  end).
Definition aws_ses_parse (net : WebhookNetwork) (topic_arn : string) (auto_confirm : bool)
    (allowed_prefixes : list string) (req : WebhookRequest) : result ParsedWebhook WebhookError :=
  result_bind (from_slice sns_envelope (wrq_body req)) (λ envelope,
  result_bind (check (String.eqb (sns_topic_arn envelope) topic_arn) Webhook_Unauthorized) (λ _,
  result_bind (verify_sns_signature net allowed_prefixes envelope) (λ _,
  if String.eqb (sns_message_type envelope) "SubscriptionConfirmation" then
    result_bind
      (if auto_confirm then
         result_bind (ok_or_r Webhook_BadRequest (sns_subscribe_url envelope)) (λ _,
         check (net_confirmed net) Webhook_Internal)
       else Ok tt) (λ _,
    Ok {| pw_updates := []; pw_subscription_confirmed := auto_confirm |})
  else if String.eqb (sns_message_type envelope) "Notification" then aws_ses_notification envelope
  else if String.eqb (sns_message_type envelope) "UnsubscribeConfirmation" then Ok no_updates
  else Err Webhook_BadRequest))).

Definition runtime_parse (utc_now : DateTime) (net : WebhookNetwork) (self : ProviderRuntime)
    (req : WebhookRequest) : result ParsedWebhook WebhookError :=
  match self with
  | Runtime_Resend signing_secret max_age_seconds =>
      resend_parse utc_now signing_secret max_age_seconds req
  | Runtime_Sendgrid binding_key verifying_key => sendgrid_parse binding_key verifying_key req
  | Runtime_Brevo expected_headers => brevo_parse expected_headers req
  | Runtime_AwsSes topic_arn auto_confirm allowed_prefixes =>
      aws_ses_parse net topic_arn auto_confirm allowed_prefixes req
  end.

(** ** Processing *)

Definition or_internal {A} (m : M St DatabaseError A) : M St WebhookError A :=
  try_with (λ _, Webhook_Internal) m.

Definition should_apply_delivery_update (current_status : NotificationDeliveryStatus)
    (current_failure : option NotificationDeliveryFailure) (update : DeliveryTerminalStatus) : bool :=
  match update with
  | Terminal_Delivered =>
      match current_status with
      | Delivery_Delivered | Delivery_Failed | Delivery_Cancelled => false
      | Delivery_Pending | Delivery_Reserved | Delivery_Sending => true
      end
  | Terminal_Failed failure =>
      negb (bool_decide (current_status = Delivery_Failed) &&
            bool_decide (current_failure = Some failure))
  end.

Definition webhook_lookup_delivery (self : ProviderRuntime) (lookup : DeliveryLookup)
    : M St WebhookError (option NotificationDelivery) :=
  match lookup with
  | Lookup_DeliveryId id => or_internal (notification_lookup_delivery id)
  | Lookup_ProviderMessageId provider_message_id =>
      or_internal (notification_lookup_delivery_by_provider_message_id (binding_key self)
                     provider_message_id)
  end.

Definition apply_delivery_update (delivery : NotificationDelivery) (update : DeliveryUpdate)
    : M St WebhookError (option NotificationDelivery) :=
  if should_apply_delivery_update (ndel_status delivery) (ndel_last_failure delivery)
       (du_status update)
  then
    delivery ← match du_status update with
               | Terminal_Delivered =>
                   or_internal (notification_mark_delivery_delivered delivery
                                  (du_provider_message_id update))
               | Terminal_Failed failure =>
                   or_internal (notification_mark_delivery_failed delivery failure
                                  (du_provider_message_id update) None)
               end;
    mret (Some delivery)
  else mret None.

(** One update: the request it touched, if it changed a delivery. *)
Definition process_update (self : ProviderRuntime) (update : DeliveryUpdate)
    : M St WebhookError (option Ulid) :=
  found ← webhook_lookup_delivery self (du_lookup update);
  match found with
  | None => mret None
  | Some delivery =>
      if bool_decide (ndel_status delivery = Delivery_Cancelled) then mret None
      else
        found ← or_internal (notification_lookup_request (ndel_notification_request_id delivery));
        request ← ok_or Webhook_Internal found;
        changed ← apply_delivery_update delivery update;
        match changed with
        | None => mret None
        | Some changed_delivery =>
            _ ← or_internal (notification_append_event request (Some changed_delivery)
                  (with_summary (du_event_summary update)
                     (NewNotificationEventLog_new (du_event_kind update) Actor_System
                        (du_metadata update))));
            mret (Some (nreq_id request))
        end
  end.

(** The updates in their order: the requests touched, and how many updates were ignored. *)
Fixpoint process_updates (self : ProviderRuntime) (updates : list DeliveryUpdate)
    : M St WebhookError (list Ulid * nat) :=
  match updates with
  | [] => mret ([], O)
  | update :: updates =>
      touched ← process_update self update;
      '(l, ignored) ← process_updates self updates;
      mret match touched with
           | Some request => (request :: l, ignored)
           | None => (l, S ignored)
           end
  end.

Definition reconciled_status (deliveries : list NotificationDelivery) : NotificationRequestStatus :=
  if existsb (λ d, negb (NotificationDeliveryStatus_is_terminal (ndel_status d))) deliveries
  then Request_Processing
  else if existsb (λ d, bool_decide (ndel_status d = Delivery_Delivered)) deliveries
  then Request_Succeeded
  else Request_Failed.

Definition reconcile_event (status : NotificationRequestStatus)
    : option (NotificationEventKind * string) :=
  match status with
  | Request_Succeeded =>
      Some (Event_RequestCompleted, "Notification request completed after provider callback")
  | Request_Failed =>
      Some (Event_RequestFailed,
            "Notification request reached terminal failure after provider callback")
  | Request_Pending | Request_Processing | Request_Cancelled => None
  end.

Definition reconcile_request_status (self : ProviderRuntime) (request_id : Ulid)
    : M St WebhookError () :=
  found ← or_internal (notification_lookup_request request_id);
  match found with
  | None => mret tt
  | Some request =>
      if bool_decide (nreq_status request = Request_Cancelled) then mret tt
      else
        deliveries ← or_internal (notification_list_deliveries request);
        let next_status := reconciled_status deliveries in
        if bool_decide (next_status = nreq_status request) then mret tt
        else
          request ← or_internal (notification_set_request_status request next_status);
          match reconcile_event next_status with
          | None => mret tt
          | Some (kind, summary) =>
              _ ← or_internal (notification_append_event request None
                    (with_summary summary
                       (NewNotificationEventLog_new kind Actor_System
                          (Json_Object
                             [("provider_binding_key", Json_String (binding_key self));
                              ("notification_request_id", Json_String (ulid_to_string (nreq_id request)));
                              ("status", Json_String (request_status_to_db next_status))]))));
              mret tt
          end
  end.

(** The requests touched, each once and by increasing identifier: a [BTreeSet]. *)
Definition btree_set (l : list Ulid) : list Ulid := merge_sort Z.le (elements (list_to_set l : gset Z)).

(** [EmailWebhookService::process] *)
Definition webhook_process (utc_now : DateTime) (net : WebhookNetwork) (self : ProviderRuntime)
    (provider : string) (req : WebhookRequest) : M St WebhookError EmailWebhookProcessResult :=
  _ ← require (accepts_provider self provider) (Webhook_ProviderMismatch provider);
  parsed ← of_result (runtime_parse utc_now net self req);
  '(touched, ignored) ← process_updates self (pw_updates parsed);
  _ ← for_each (reconcile_request_status self) (btree_set touched);
  mret {| whr_processed := length touched; whr_ignored := ignored;
          whr_subscription_confirmed := pw_subscription_confirmed parsed |}.

(** ** The endpoint (handlers/email_webhooks.rs) *)

Inductive WebhookRouteError :=
| WebhookRoute_NotFound | WebhookRoute_BadRequest | WebhookRoute_Unauthorized | WebhookRoute_Internal.
Definition map_email_webhook_error (error : WebhookError) : WebhookRouteError :=
  match error with
  | Webhook_NotConfigured | Webhook_ProviderMismatch _ => WebhookRoute_NotFound
  | Webhook_BadRequest => WebhookRoute_BadRequest
  | Webhook_Unauthorized => WebhookRoute_Unauthorized
  | Webhook_Internal => WebhookRoute_Internal
  end.

Definition WEBHOOK_BODY_MAX_SIZE : Z := 256 * 1024.

(** [service] is the configured one *)
Definition webhook_post (utc_now : DateTime) (net : WebhookNetwork) (service : option ProviderRuntime)
    (provider : string) (req : WebhookRequest) : M St WebhookRouteError EmailWebhookProcessResult :=
  _ ← require (Z.of_nat (String.length (wrq_body req)) <=? WEBHOOK_BODY_MAX_SIZE)
        WebhookRoute_BadRequest;
  service ← ok_or WebhookRoute_NotFound service;
  result ← try_with map_email_webhook_error (webhook_process utc_now net service provider req);
  _ ← repo_save;
  mret result.
End webhook.
