(* ===== verification/Outbox.v ===== *)
(** The outbox: which rows the tables of notifications may hold ([outbox_wf]), how they may evolve
    ([delivery_evolves], [request_evolves]), and that a change of one delivery with its request, and
    the addition of a new pair, keep it. *)
From S2P Require Import Prelude Ids RateLimit TokenFormat Scope Pkce Jose Domain Accounts Notification Database Repository AccountRepository Pagination NotificationRepository Notifications.

Open Scope Z_scope.

(** ** States of a delivery and of its request *)

(** How often a delivery of a template is attempted. *)
Definition attempt_limit (template_key : string) : Z :=
  if String.eqb template_key TEMPLATE_EMAIL_RECOVERY then 4 else 3.

(** The states of a delivery that are committed, with that of its request: a delivery that is
    reserved or being sent is never seen outside of its transaction. *)
Inductive outbox_state : NotificationDeliveryRow → NotificationRequestRow → Prop :=
| outbox_pending d r :
    DeliveryRow_status d = "pending" → DeliveryRow_attempt_count d = 0 →
    DeliveryRow_next_retry_at d = None → RequestRow_status r = "pending" → outbox_state d r
| outbox_retrying d r :
    DeliveryRow_status d = "failed" → is_Some (DeliveryRow_next_retry_at d) →
    1 ≤ DeliveryRow_attempt_count d < attempt_limit (RequestRow_template_key r) →
    RequestRow_status r = "processing" → outbox_state d r
| outbox_failed d r :
    DeliveryRow_status d = "failed" → DeliveryRow_next_retry_at d = None →
    RequestRow_status r = "failed" → outbox_state d r
| outbox_delivered d r :
    DeliveryRow_status d = "delivered" → DeliveryRow_next_retry_at d = None →
    RequestRow_status r = "succeeded" → outbox_state d r
| outbox_cancelled d r :
    DeliveryRow_status d = "cancelled" → DeliveryRow_next_retry_at d = None →
    RequestRow_status r = "cancelled" → outbox_state d r.

Definition attempts_ok (d : NotificationDeliveryRow) (r : NotificationRequestRow) : Prop :=
  0 ≤ DeliveryRow_attempt_count d ≤ attempt_limit (RequestRow_template_key r).

(** A verification goes to the address it is about. *)
Definition addressed (emails : gmap Z UserEmailAuthenticationRow)
    (phones : gmap Z UserPhoneAuthenticationRow) (d : NotificationDeliveryRow)
    (r : NotificationRequestRow) : Prop :=
  match RequestRow_source r with
  | Source_UserEmailAuthentication a =>
      ∃ auth, emails !! a = Some auth ∧
        DeliveryRow_destination d = Destination_Email (EmailAuthRow_email auth)
  | Source_UserPhoneAuthentication a =>
      ∃ auth, phones !! a = Some auth ∧
        DeliveryRow_destination d = Destination_Sms (PhoneAuthRow_phone auth)
  | Source_UserRecoverySession _ => ∃ email, DeliveryRow_destination d = Destination_Email email
  | _ => False
  end.

(** The columns of the state can be read. *)
Definition delivery_readable (d : NotificationDeliveryRow) : Prop :=
  ∃ channel, DeliveryRow_channel d = channel_to_db channel.

(** Every delivery has its request and every request its one delivery, in states that [state],
    which is given the key of the request, allows. *)
Record outbox_sat (state : Ulid → NotificationDeliveryRow → NotificationRequestRow → Prop)
    (ntf : NotificationTables) (emails : gmap Z UserEmailAuthenticationRow)
    (phones : gmap Z UserPhoneAuthenticationRow) : Prop := {
  ob_one : ∀ k1 k2 d1 d2,
    ntf_deliveries ntf !! k1 = Some d1 → ntf_deliveries ntf !! k2 = Some d2 →
    DeliveryRow_notification_request_id d1 = DeliveryRow_notification_request_id d2 → k1 = k2;
  ob_delivery : ∀ k d, ntf_deliveries ntf !! k = Some d →
    ∃ r, ntf_requests ntf !! DeliveryRow_notification_request_id d = Some r ∧
      state (DeliveryRow_notification_request_id d) d r ∧ attempts_ok d r ∧
      addressed emails phones d r ∧ delivery_readable d;
  ob_request : ∀ q r, ntf_requests ntf !! q = Some r →
    ∃ k d, ntf_deliveries ntf !! k = Some d ∧ DeliveryRow_notification_request_id d = q;
}.

(** What is committed. *)
Definition outbox_wf : NotificationTables → gmap Z UserEmailAuthenticationRow →
    gmap Z UserPhoneAuthenticationRow → Prop := outbox_sat (λ _, outbox_state).

(** ** How rows evolve *)

(** A delivery keeps where it goes; its attempts are counted up; a cancelled one stays so, a failed
    one that is not retried too, and a delivered one may only turn out to have failed. *)
Definition delivery_final (d : NotificationDeliveryRow) : Prop :=
  DeliveryRow_status d = "failed" ∧ DeliveryRow_next_retry_at d = None.
Definition delivery_evolves (d d' : NotificationDeliveryRow) : Prop :=
  DeliveryRow_notification_request_id d' = DeliveryRow_notification_request_id d ∧
  DeliveryRow_channel d' = DeliveryRow_channel d ∧
  DeliveryRow_destination d' = DeliveryRow_destination d ∧
  DeliveryRow_provider_binding_key d' = DeliveryRow_provider_binding_key d ∧
  DeliveryRow_created_at d' = DeliveryRow_created_at d ∧
  DeliveryRow_attempt_count d ≤ DeliveryRow_attempt_count d' ∧
  (DeliveryRow_status d = "cancelled" → DeliveryRow_status d' = "cancelled") ∧
  (delivery_final d → delivery_final d') ∧
  (DeliveryRow_status d = "delivered" → DeliveryRow_status d' = "delivered" ∨ delivery_final d').

(** A request keeps what is to be sent. *)
Definition request_evolves (r r' : NotificationRequestRow) : Prop :=
  RequestRow_template_key r' = RequestRow_template_key r ∧
  RequestRow_locale r' = RequestRow_locale r ∧
  RequestRow_source r' = RequestRow_source r ∧
  RequestRow_payload r' = RequestRow_payload r ∧
  RequestRow_created_at r' = RequestRow_created_at r.

#[export] Instance delivery_evolves_preorder : PreOrder delivery_evolves.
Proof.
  split; [intros d; unfold delivery_evolves; split_and!; try done; by left|].
  intros d1 d2 d3 (?&?&?&?&?&?&Hc1&Hf1&Hd1) (?&?&?&?&?&?&Hc2&Hf2&Hd2).
  unfold delivery_evolves. split_and!; try congruence; try lia; auto.
  intros [?|?]%Hd1; auto.
Qed.
#[export] Instance request_evolves_preorder : PreOrder request_evolves.
Proof.
  split; [by intros r|]. intros r1 r2 r3 (?&?&?&?&?) (?&?&?&?&?).
  unfold request_evolves. split_and!; congruence.
Qed.

(** ** Changes that keep the outbox *)

Lemma addressed_mono emails phones emails' phones' d r :
  (∀ a x, emails !! a = Some x → ∃ x', emails' !! a = Some x' ∧ EmailAuthRow_email x' = EmailAuthRow_email x) →
  (∀ a x, phones !! a = Some x → ∃ x', phones' !! a = Some x' ∧ PhoneAuthRow_phone x' = PhoneAuthRow_phone x) →
  addressed emails phones d r → addressed emails' phones' d r.
Proof.
  intros He Hp. unfold addressed. destruct (RequestRow_source r); try done.
  - intros (x & (x' & ? & <-)%He & ?). eauto.
  - intros (x & (x' & ? & <-)%Hp & ?). eauto.
Qed.

Lemma outbox_mono state ntf emails phones emails' phones' :
  (∀ a x, emails !! a = Some x → ∃ x', emails' !! a = Some x' ∧ EmailAuthRow_email x' = EmailAuthRow_email x) →
  (∀ a x, phones !! a = Some x → ∃ x', phones' !! a = Some x' ∧ PhoneAuthRow_phone x' = PhoneAuthRow_phone x) →
  outbox_sat state ntf emails phones → outbox_sat state ntf emails' phones'.
Proof.
  intros He Hp [H1 H2 H3]. split; [done| |done]. intros k d (r & ? & ? & ? & ? & ?)%H2.
  exists r. split_and!; try done. by eapply addressed_mono.
Qed.

Section changes.
Context (state : Ulid → NotificationDeliveryRow → NotificationRequestRow → Prop).
Context (ntf : NotificationTables) (emails : gmap Z UserEmailAuthenticationRow)
  (phones : gmap Z UserPhoneAuthenticationRow) (Hwf : outbox_sat state ntf emails phones).

(** A delivery and its request change together; the states allowed for the others stay. *)
Lemma outbox_step state' k d d' r r' events prefs :
  let q := DeliveryRow_notification_request_id d in
  (∀ q' x rx, q' ≠ q → state q' x rx → state' q' x rx) →
  ntf_deliveries ntf !! k = Some d →
  ntf_requests ntf !! DeliveryRow_notification_request_id d = Some r →
  DeliveryRow_notification_request_id d' = DeliveryRow_notification_request_id d →
  DeliveryRow_destination d' = DeliveryRow_destination d →
  DeliveryRow_channel d' = DeliveryRow_channel d →
  request_evolves r r' → state' q d' r' → attempts_ok d' r' →
  outbox_sat state' (mkNotifications (<[q := r']> (ntf_requests ntf))
               (<[k := d']> (ntf_deliveries ntf)) events prefs) emails phones.
Proof.
  intros q Hother Hd Hr Hq Hdest Hch (Ht & _ & Hs & _) Hst Ha. subst q. destruct Hwf as [H1 H2 H3].
  destruct (H2 k d Hd) as (r0 & Hr0 & _ & _ & Had & Hre). rewrite Hr in Hr0. injection Hr0 as <-.
  split; simpl.
  - intros k1 k2 d1 d2 [[-> <-]|[? Hl1]]%lookup_insert_Some [[-> <-]|[? Hl2]]%lookup_insert_Some Heq;
      try done; try rewrite Hq in Heq; eauto.
  - intros j x [[-> <-]|[Hj Hx]]%lookup_insert_Some.
    + exists r'. rewrite Hq, lookup_insert_eq. split_and!; try done.
      * revert Had. unfold addressed. rewrite Hs, Hdest. done.
      * unfold delivery_readable in *. by rewrite Hch.
    + destruct (H2 j x Hx) as (rx & Hrx & Hsx & Hrest). exists rx.
      assert (DeliveryRow_notification_request_id x ≠ DeliveryRow_notification_request_id d) as Hne
        by (intros E; apply Hj; symmetry; by eapply H1).
      rewrite lookup_insert_ne by done. split_and!; [done|by apply Hother|apply Hrest..].
  - intros q rq [[<- <-]|[Hq' Hrq]]%lookup_insert_Some.
    + exists k, d'. by rewrite lookup_insert_eq.
    + destruct (H3 q rq Hrq) as (j & x & Hx & Heq). exists j, x. split; [|done].
      rewrite lookup_insert_ne; [done|]. intros ->. congruence.
Qed.

(** A new request with its delivery. *)
Lemma outbox_add q r k d events prefs :
  ntf_requests ntf !! q = None → ntf_deliveries ntf !! k = None →
  DeliveryRow_notification_request_id d = q → state q d r → attempts_ok d r →
  addressed emails phones d r → delivery_readable d →
  outbox_sat state (mkNotifications (<[q := r]> (ntf_requests ntf)) (<[k := d]> (ntf_deliveries ntf)) events prefs)
    emails phones.
Proof.
  intros Hr Hd Hq Hst Ha Had Hre. destruct Hwf as [H1 H2 H3].
  assert (∀ j x, ntf_deliveries ntf !! j = Some x → DeliveryRow_notification_request_id x ≠ q) as Hnew.
  { intros j x (rx & Hrx & _)%H2 E. rewrite E in Hrx. congruence. }
  split; simpl.
  - intros k1 k2 d1 d2 [[-> <-]|[? Hl1]]%lookup_insert_Some [[-> <-]|[? Hl2]]%lookup_insert_Some Heq;
      try done; eauto; exfalso; [by eapply Hnew; [exact Hl2|congruence]|by eapply Hnew; [exact Hl1|congruence]].
  - intros j x [[-> <-]|[Hj Hx]]%lookup_insert_Some.
    + exists r. rewrite Hq, lookup_insert_eq. done.
    + destruct (H2 j x Hx) as (rx & Hrx & Hrest). exists rx. split; [|done].
      rewrite lookup_insert_ne; [done|]. intros ->. by eapply Hnew.
  - intros q' rq [[-> <-]|[Hq' Hrq]]%lookup_insert_Some.
    + exists k, d. by rewrite lookup_insert_eq.
    + destruct (H3 q' rq Hrq) as (j & x & Hx & Heq). exists j, x. split; [|done].
      rewrite lookup_insert_ne; [done|]. intros ->. congruence.
Qed.
End changes.
