(* ===== verification/Handlers.v ===== *)
(** What the OAuth 2.0 handlers share (crates/backend/src/handlers):
    oauth2/mod.rs ([generate_token_pair], [generate_id_token]), admin/mod.rs
    ([may_hold_admin_scope]), oauth2/access.rs ([admin_scope_allowed]) and
    session.rs ([count_user_sessions_for_limiting]).

    The templates, the locales and the policy engine are parameters. *)
From S2P Require Import Prelude Ids TokenFormat Scope Pkce Jose Keystore Domain Database Repository.

Open Scope Z_scope.

Inductive PolicyGrantType :=
| Policy_AuthorizationCode
| Policy_ClientCredentials
| Policy_DeviceCode.

Record SessionCounts := {
  counts_total : Z;
  counts_oauth2 : Z;
  counts_personal : Z;
}.

(** [AuthorizationGrantInput], the requester's address and agent included. *)
Record AuthorizationGrantInput := {
  input_user : option User;
  input_client : Client;
  input_session_counts : option SessionCounts;
  input_scope : ScopeSet;
  input_grant_type : PolicyGrantType;
  input_ip_address : option IpAddr;
  input_user_agent : option string;
}.

(** The violations found, by their messages. *)
Definition EvaluationResult : Type := list string.
Definition EvaluationResult_valid (r : EvaluationResult) : bool := bool_decide (r = []).

Class HandlerExternals := {
  (** [policy.evaluate_authorization_grant(input)]; [None] for an evaluation error *)
  policy_evaluate : AuthorizationGrantInput → option EvaluationResult;
  (** [policy_factory.instantiate()] succeeds *)
  policy_instantiates : bool;
  (** [str::parse::<DataLocale>] succeeds *)
  locale_parses : string → bool;
  (** [templates.render_device_name(ctx)] *)
  render_device_name : Client → option string → string → option string;
  (** [url_builder.oidc_issuer()] *)
  oidc_issuer : string;
  (** the [Keystore], and the libraries below it *)
  key_store : list (JsonWebKey PrivateKey);
  handler_jose :: JoseExternals;
  handler_keystore :: KeystoreExternals;
}.

(** ** Administrators (admin/mod.rs, oauth2/access.rs) *)

Definition may_hold_admin_scope (user : option User) : bool :=
  match user with Some user => User_can_request_admin user | None => false end.

Definition admin_scope_allowed (user : User) (scope : ScopeSet) : bool :=
  negb (requires_admin scope) || may_hold_admin_scope (Some user).

(** ** Session limits (session.rs) *)

Definition count_user_sessions_for_limiting (user : User) : M St DatabaseError SessionCounts :=
  num_oauth2 ← oauth2_session_count_active_for_user user;
  num_personal ← personal_session_count_active_for_user user;
  mret {| counts_total := Z.of_nat num_oauth2 + Z.of_nat num_personal;
          counts_oauth2 := Z.of_nat num_oauth2;
          counts_personal := Z.of_nat num_personal |}.

Inductive IdTokenSignatureError :=
| InvalidSigningKey
| JwtSignature
| TokenHash.

Section tokens.
Context {TX : TokenExternals} {HX : HandlerExternals}.

(** ** ID tokens (oauth2/mod.rs) *)

Definition HOUR : Duration := 3600 * 1000 * 1000.

(** A [Timestamp] serialises as the seconds since the epoch. *)
Definition json_timestamp (t : DateTime) : Json := Json_Int (t / 1000000).

Definition insert_claim (key : string) (value : option Json) (claims : gmap string Json)
    : gmap string Json :=
  match value with Some v => <[key := v]> claims | None => claims end.

(** [hash_token(&alg, &x)?] for an optional [x]. *)
Definition hash_optional (alg : JsonWebSignatureAlg) (x : option string)
    : result (option string) IdTokenSignatureError :=
  match x with
  | None => Ok None
  | Some x => match hash_token alg x with Some h => Ok (Some h) | None => Err TokenHash end
  end.

(** The claims inserted before the hashes. *)
Definition id_token_claims (now : DateTime) (client : Client) (grant : option AuthorizationGrant)
    (browser_session : BrowserSession) (last_authentication : option Authentication)
    : gmap string Json :=
  insert_claim "auth_time"
    (json_timestamp ∘ Authentication_created_at <$> last_authentication)
  (insert_claim "nonce" (Json_String <$> (grant ≫= AuthorizationGrant_nonce))
  (<["exp" := json_timestamp (now + HOUR)]>
  (<["iat" := json_timestamp now]>
  (<["aud" := Json_String (Client_client_id client)]>
  (<["sub" := Json_String (User_sub (BrowserSession_user browser_session))]>
  (<["iss" := Json_String oidc_issuer]> ∅)))))).

(** The signer is the one the cache of the key store would give. *)
Definition generate_id_token (client : Client) (grant : option AuthorizationGrant)
    (browser_session : BrowserSession) (access_token : option AccessToken)
    (last_authentication : option Authentication) : M St IdTokenSignatureError string :=
  now ← clock_now;
  let claims := id_token_claims now client grant browser_session last_authentication in
  let alg := default Rs256 (Client_id_token_signed_response_alg client) in
  kid_signer ← ok_or InvalidSigningKey (uncached_signer key_store alg);
  at_hash ← of_result (hash_optional alg (AccessToken_access_token <$> access_token));
  let claims := insert_claim "at_hash" (Json_String <$> at_hash) claims in
  c_hash ← of_result (hash_optional alg
             (AuthorizationCode_code <$> (grant ≫= AuthorizationGrant_code)));
  let claims := insert_claim "c_hash" (Json_String <$> c_hash) claims in
  signed ← with_rng (sign_with_rng
             (asymmetric_sign (sk_alg kid_signer.2) (sk_key kid_signer.2))
             {| header_alg := alg; header_kid := Some kid_signer.1 |} claims);
  id_token ← of_result (result_map_err (λ _, JwtSignature) signed);
  mret (Jwt_into_string id_token).

(** ** Token pairs (oauth2/mod.rs) *)

Definition generate_token_pair (session : Session) (ttl : Duration)
    : M St DatabaseError (AccessToken * RefreshToken) :=
  access_token_str ← with_rng (TokenType_generate TokenType_AccessToken);
  refresh_token_str ← with_rng (TokenType_generate TokenType_RefreshToken);
  access_token ← access_token_add session access_token_str (Some ttl);
  refresh_token ← refresh_token_add session access_token refresh_token_str;
  mret (access_token, refresh_token).
End tokens.
