(* ===== verification/ClientAuth.v ===== *)
(** Client authentication: crates/backend/src/salvo_utils/client_authorization.rs
    and crates/keystore/src/encrypter.rs.

    What a request presents ([extract_from_request]), the client it names
    ([fetch]) and whether the credentials are right ([verify]). The header
    codecs, form decoding, decryption and remote calls are parameters. *)
From S2P Require Import Prelude Ids TokenFormat Scope Pkce Jose Keystore Domain Database Repository Handlers.

Open Scope Z_scope.

Definition JWT_BEARER_CLIENT_ASSERTION : string :=
  "urn:ietf:params:oauth:client-assertion-type:jwt-bearer".

(** The form of a request: the credentials it may hold and the rest, [F]. *)
Record AuthorizedForm (F : Type) := {
  form_client_id : option string;
  form_client_secret : option string;
  form_client_assertion_type : option string;
  form_client_assertion : option string;
  form_inner : F;
}.
Arguments form_client_id {F}.
Arguments form_client_secret {F}.
Arguments form_client_assertion_type {F}.
Arguments form_client_assertion {F}.
Arguments form_inner {F}.

Inductive Credentials :=
| Credentials_None (client_id : string)
| Credentials_ClientSecretBasic (client_id client_secret : string)
| Credentials_ClientSecretPost (client_id client_secret : string)
| Credentials_ClientAssertionJwtBearer (client_id : string) (jwt : Jwt)
| Credentials_BearerToken (token : string).

Definition bearer_token (self : Credentials) : option string :=
  match self with Credentials_BearerToken token => Some token | _ => None end.

Definition Credentials_client_id (self : Credentials) : option string :=
  match self with
  | Credentials_None client_id
  | Credentials_ClientSecretBasic client_id _
  | Credentials_ClientSecretPost client_id _
  | Credentials_ClientAssertionJwtBearer client_id _ => Some client_id
  | Credentials_BearerToken _ => None
  end.

Inductive CredentialsVerificationError :=
| Cve_DecryptionError
| Cve_InvalidClientConfig
| Cve_ClientSecretMismatch
| Cve_AuthenticationMethodMismatch
| Cve_InvalidAssertionSignature
| Cve_InvalidAssertionClaims (e : ClaimError)
| Cve_InvalidAssertionSubject
| Cve_AssertionExpirationTooLong
| Cve_AssertionAlgorithmMismatch
| Cve_JwksFetchFailed.

Definition is_internal (self : CredentialsVerificationError) : bool :=
  match self with
  | Cve_DecryptionError | Cve_InvalidClientConfig | Cve_JwksFetchFailed => true
  | _ => false
  end.

Inductive ClientAuthorizationError :=
| Cae_InvalidHeader
| Cae_BadForm (e : string)
| Cae_ClientIdMismatch (credential form : string)
| Cae_UnsupportedClientAssertion (client_assertion_type : string)
| Cae_MissingCredentials
| Cae_InvalidRequest
| Cae_InvalidAssertion
| Cae_Internal.

(** The codes of RFC 6749 and RFC 8628 the endpoints answer with. *)
Inductive ClientErrorCode :=
| InvalidRequest | InvalidClient | InvalidGrant | UnauthorizedClient | UnsupportedGrantType
| AccessDenied | UnsupportedResponseType | InvalidScope | ServerError | TemporarilyUnavailable
| InteractionRequired | LoginRequired | AccountSelectionRequired | ConsentRequired
| InvalidRequestUri | InvalidRequestObject | RequestNotSupported | RequestUriNotSupported
| RegistrationNotSupported | InvalidRedirectUri | InvalidClientMetadata | AuthorizationPending
| SlowDown | ExpiredToken | UnsupportedTokenType.

(** The status and code of a [ClientAuthorizationError], rendered. *)
Definition ClientAuthorizationError_render (e : ClientAuthorizationError) : Z * ClientErrorCode :=
  match e with
  | Cae_ClientIdMismatch _ _ => (400, InvalidGrant)
  | Cae_InvalidHeader | Cae_BadForm _ | Cae_UnsupportedClientAssertion _ | Cae_MissingCredentials
  | Cae_InvalidRequest | Cae_InvalidAssertion => (400, InvalidRequest)
  | Cae_Internal => (500, ServerError)
  end.

Class ClientAuthExternals := {
  (** [Basic::decode] and [Bearer::decode] of the header *)
  basic_decode : string → option (string * string);
  bearer_decode : string → option string;
  (** [Base64::decode_vec], and the AEAD with the server's key *)
  base64_standard_decode : string → option (list Z);
  aead_decrypt : list Z → list Z → option (list Z);
  (** the key set behind a URL, if it can be fetched *)
  http_get_jwks : Url → option PublicJsonWebKeySet;
  (** [url_builder.oauth_token_endpoint()] *)
  oauth_token_endpoint : Url;
  (** [homeserver.verify_token(token)] *)
  homeserver_verify_token : string → option bool;
}.

(** A request: its [Authorization] and [Content-Type] headers, and what
    [parse_form] gives. *)
Record ClientRequest (F : Type) := {
  req_authorization : option string;
  req_content_type : option string;
  req_parse_form : result (AuthorizedForm F) string;
}.
Arguments req_authorization {F}.
Arguments req_content_type {F}.
Arguments req_parse_form {F}.

Record ClientAuthorization (F : Type) := {
  authorization_credentials : Credentials;
  authorization_form : option F;
}.
Arguments authorization_credentials {F}.
Arguments authorization_form {F}.

(** [bytes[..n].eq_ignore_ascii_case(prefix)], with the length checked. *)
Fixpoint starts_with_ignore_case (prefix s : string) : bool :=
  match prefix, s with
  | EmptyString, _ => true
  | String a prefix, String b s =>
      bool_decide (ascii_lower a = ascii_lower b) && starts_with_ignore_case prefix s
  | String _ _, EmptyString => false
  end.

Inductive Authorization :=
| Authorization_Basic (username password : string)
| Authorization_Bearer (token : string).

(** [s.as_bytes()] *)
Fixpoint as_bytes (s : string) : list Z :=
  match s with EmptyString => [] | String c s => byte_of c :: as_bytes s end.

Section client_auth.
Context {UX : UrlExternals} {DX : DbExternals} {HX : HandlerExternals} {AX : ClientAuthExternals}.

(** *** Extraction *)

Definition parse_authorization (header : option string)
    : result (option Authorization) ClientAuthorizationError :=
  match header with
  | None => Ok None
  | Some header =>
      if starts_with_ignore_case "Basic " header then
        match basic_decode header with
        | Some (username, password) => Ok (Some (Authorization_Basic username password))
        | None => Err Cae_InvalidHeader
        end
      else if starts_with_ignore_case "Bearer " header then
        match bearer_decode header with
        | Some token => Ok (Some (Authorization_Bearer token))
        | None => Err Cae_InvalidHeader
        end
      else Err Cae_InvalidHeader
  end.

(** If the client is named in the body too, it is the same. *)
Definition check_form_client_id (client_id : string) (from_form : option string)
    : result () ClientAuthorizationError :=
  match from_form with
  | Some form => if bool_decide (client_id ≠ form) then Err (Cae_ClientIdMismatch client_id form)
                 else Ok tt
  | None => Ok tt
  end.

(** The client a JWT assertion names is its subject. *)
Definition extract_assertion (client_id_from_form : option string) (client_assertion : string)
    : result Credentials ClientAuthorizationError :=
  match Jwt_try_from client_assertion with
  | Err _ => Err Cae_InvalidAssertion
  | Ok jwt =>
      match Jwt_payload jwt !! "sub" with
      | Some (Json_String client_id) =>
          result_bind (check_form_client_id client_id client_id_from_form)
            (λ _, Ok (Credentials_ClientAssertionJwtBearer client_id jwt))
      | _ => Err Cae_InvalidAssertion
      end
  end.

(** The match on what was presented, and where. *)
Definition extract_credentials (authorization : option Authorization)
    (client_id client_secret assertion_type assertion : option string)
    : result Credentials ClientAuthorizationError :=
  match authorization, client_id, client_secret, assertion_type, assertion with
  | Some (Authorization_Basic id secret), from_form, None, None, None =>
      result_bind (check_form_client_id id from_form)
        (λ _, Ok (Credentials_ClientSecretBasic id secret))
  | None, Some id, Some secret, None, None => Ok (Credentials_ClientSecretPost id secret)
  | None, Some id, None, None, None => Ok (Credentials_None id)
  | None, from_form, None, Some ty, Some assertion =>
      if bool_decide (ty = JWT_BEARER_CLIENT_ASSERTION) then extract_assertion from_form assertion
      else match from_form with
           | None => Err (Cae_UnsupportedClientAssertion ty)
           | Some _ => Err Cae_InvalidRequest
           end
  | Some (Authorization_Bearer token), None, None, None, None => Ok (Credentials_BearerToken token)
  | None, None, None, None, None => Err Cae_MissingCredentials
  | _, _, _, _, _ => Err Cae_InvalidRequest
  end.

Definition extract_from_request {F} (req : ClientRequest F)
    : result (ClientAuthorization F) ClientAuthorizationError :=
  result_bind (parse_authorization (req_authorization req)) (λ authorization,
  if starts_with "application/x-www-form-urlencoded" (default EmptyString (req_content_type req))
  then match req_parse_form req with
       | Err e => Err (Cae_BadForm e)
       | Ok form =>
           result_bind (extract_credentials authorization (form_client_id form)
                          (form_client_secret form) (form_client_assertion_type form)
                          (form_client_assertion form))
             (λ credentials, Ok {| authorization_credentials := credentials;
                                   authorization_form := Some (form_inner form) |})
       end
  else result_bind (extract_credentials authorization None None None None)
         (λ credentials, Ok {| authorization_credentials := credentials;
                               authorization_form := None |})).

(** *** Verification *)

(** [Credentials::fetch] *)
Definition credentials_fetch (self : Credentials) : M St DatabaseError (option Client) :=
  match Credentials_client_id self with
  | Some client_id => oauth2_client_find_by_client_id client_id
  | None => mret None
  end.

(** [Encrypter::decrypt_string]: a nonce of twelve bytes, then the payload. *)
Definition decrypt_string (encrypted : string) : option (list Z) :=
  encrypted ← base64_standard_decode encrypted;
  if (length encrypted <? 12)%nat then None
  else aead_decrypt (take 12 encrypted) (drop 12 encrypted).

(** The secret of the client, decrypted. *)
Definition client_secret (client : Client) : result (list Z) CredentialsVerificationError :=
  match Client_encrypted_client_secret client with
  | None => Err Cve_InvalidClientConfig
  | Some encrypted =>
      match decrypt_string encrypted with
      | Some secret => Ok secret
      | None => Err Cve_DecryptionError
      end
  end.

Definition fetch_jwks (jwks : JwksOrJwksUri) : option PublicJsonWebKeySet :=
  match jwks with Jwks j => Some j | JwksUri u => http_get_jwks u end.

(** Five minutes. *)
Definition max_client_assertion_lifetime : Duration := 5 * 60 * 1000 * 1000.

Definition validate_client_assertion_alg (jwt : Jwt) (expected : option JsonWebSignatureAlg)
    : result () CredentialsVerificationError :=
  match expected with
  | Some expected =>
      if bool_decide (header_alg (Jwt_header jwt) ≠ expected)
      then Err Cve_AssertionAlgorithmMismatch else Ok tt
  | None => Ok tt
  end.

(** The loop over the accepted audiences, on copies of the claims. *)
Fixpoint audience_loop (claims : gmap string Json) (accepted : list string)
    (last_error : option ClaimError) : result () ClaimError :=
  match accepted with
  | [] => Err (default (MissingClaim "aud") last_error)
  | audience :: accepted =>
      match (extract_required_with_options AUD (Contains audience) claims).1 with
      | Ok _ => Ok tt
      | Err e => audience_loop claims accepted (Some e)
      end
  end.

Definition validate_client_assertion_audience (claims : gmap string Json)
    (token_endpoint issuer : Url) : result () ClaimError :=
  audience_loop claims [token_endpoint; issuer] None.

Definition validate_client_assertion_claims (jwt : Jwt) (expected_client_id : string)
    (token_endpoint issuer : Url) (now : DateTime) : result () CredentialsVerificationError :=
  let time_options := TimeOptions_new now in
  let claims := Jwt_payload jwt in
  let '(r, claims) := extract_required_with_options ISS (Equality expected_client_id) claims in
  result_bind (result_map_err Cve_InvalidAssertionClaims r) (λ _,
  let '(r, claims) := extract_required SUB claims in
  result_bind (result_map_err Cve_InvalidAssertionClaims r) (λ subject,
  if bool_decide (subject ≠ expected_client_id) then Err Cve_InvalidAssertionSubject else
  result_bind (result_map_err Cve_InvalidAssertionClaims
    (validate_client_assertion_audience claims token_endpoint issuer)) (λ _,
  let '(r, claims) := extract_required_with_options EXP (TimeNotAfter time_options) claims in
  result_bind (result_map_err Cve_InvalidAssertionClaims r) (λ expires_at,
  if max_client_assertion_lifetime <? expires_at - now then Err Cve_AssertionExpirationTooLong else
  let '(r, claims) := extract_optional_with_options NBF (TimeNotBefore time_options) claims in
  result_bind (result_map_err Cve_InvalidAssertionClaims r) (λ _,
  let '(r, claims) := extract_optional_with_options IAT (TimeNotBefore time_options) claims in
  result_bind (result_map_err Cve_InvalidAssertionClaims r) (λ _, Ok tt)))))).

Definition verify_client_secret (client : Client) (presented : string)
    : result () CredentialsVerificationError :=
  result_bind (client_secret client) (λ decrypted,
  if bool_decide (as_bytes presented ≠ decrypted) then Err Cve_ClientSecretMismatch else Ok tt).

Definition verify_private_key_jwt (client : Client) (jwt : Jwt) (now : DateTime)
    : result () CredentialsVerificationError :=
  result_bind (validate_client_assertion_alg jwt (Client_token_endpoint_auth_signing_alg client)) (λ _,
  match Client_jwks client with
  | None => Err Cve_InvalidClientConfig
  | Some jwks =>
      match fetch_jwks jwks with
      | None => Err Cve_JwksFetchFailed
      | Some jwks =>
          if negb (verify_with_jwks jwt jwks) then Err Cve_InvalidAssertionSignature
          else validate_client_assertion_claims jwt (Client_client_id client)
                 oauth_token_endpoint oidc_issuer now
      end
  end).

Definition verify_client_secret_jwt (client : Client) (jwt : Jwt) (now : DateTime)
    : result () CredentialsVerificationError :=
  result_bind (validate_client_assertion_alg jwt (Client_token_endpoint_auth_signing_alg client)) (λ _,
  result_bind (client_secret client) (λ secret,
  if negb (verify_with_shared_secret jwt secret) then Err Cve_InvalidAssertionSignature
  else validate_client_assertion_claims jwt (Client_client_id client)
         oauth_token_endpoint oidc_issuer now)).

(** [Credentials::verify] *)
Definition credentials_verify (self : Credentials) (method : OAuthClientAuthenticationMethod)
    (client : Client) (now : DateTime) : result () CredentialsVerificationError :=
  match self, method with
  | Credentials_None _, Auth_None => Ok tt
  | Credentials_ClientSecretPost _ secret, Auth_ClientSecretPost
  | Credentials_ClientSecretBasic _ secret, Auth_ClientSecretBasic =>
      verify_client_secret client secret
  | Credentials_ClientAssertionJwtBearer _ jwt, Auth_PrivateKeyJwt =>
      verify_private_key_jwt client jwt now
  | Credentials_ClientAssertionJwtBearer _ jwt, Auth_ClientSecretJwt =>
      verify_client_secret_jwt client jwt now
  | _, _ => Err Cve_AuthenticationMethodMismatch
  end.

(** What the token, revocation and device endpoints do with the outcome: the
    client has an authentication method, and the credentials are right. *)
Definition check_credentials {E} (not_allowed invalid internal : E) (credentials : Credentials)
    (client : Client) : M St E () :=
  method ← ok_or not_allowed (Client_token_endpoint_auth_method client);
  now ← clock_now;
  of_result (result_map_err (λ e, if is_internal e then internal else invalid)
    (credentials_verify credentials method client now)).
End client_auth.
