(* ===== verification/ClientRegistration.v ===== *)
(** Dynamic client registration: handlers/oauth2/registration.rs. *)
From S2P Require Import Prelude Ids RateLimit TokenFormat ResponseTypes Scope Pkce Jose Keystore Domain Accounts Database Repository ClientMetadata ClientRepository Handlers ClientAuth.

Open Scope Z_scope.

(** What [evaluate_client_registration] reads. *)
Record ClientRegistrationInput := {
  cri_client_metadata : VerifiedClientMetadata;
  cri_ip_address : option IpAddr;
  cri_user_agent : option string;
}.

Class ClientRegistrationExternals := {
  (** [psl::List.suffix(host)]: the suffix, and whether it is known *)
  psl_suffix : string → option (string * bool);
  (** [policy.evaluate_client_registration]; [None] for an evaluation error *)
  evaluate_client_registration : ClientRegistrationInput → option EvaluationResult;
  (** [Base64::encode_string], and the AEAD with the server's key *)
  base64_standard_encode : list Z → string;
  aead_encrypt : list Z → list Z → option (list Z);
  (** [hex::encode(sha2::Sha256::digest(text))] *)
  sha256_hex : string → string;
  (** [Display] of an error of the metadata *)
  verification_error_to_string : ClientMetadataVerificationError → string;
}.

Definition is_byte (b : Z) : Prop := 0 ≤ b < 256.

(** What is encoded and encrypted is read back. *)
Class ClientRegistrationExternalsOk {AX : ClientAuthExternals} (CX : ClientRegistrationExternals)
    : Prop := {
  base64_standard_roundtrip bs :
    Forall is_byte bs → base64_standard_decode (base64_standard_encode bs) = Some bs;
  aead_roundtrip nonce payload encrypted :
    length nonce = 12%nat → Forall is_byte payload → aead_encrypt nonce payload = Some encrypted →
    Forall is_byte encrypted ∧ aead_decrypt nonce encrypted = Some payload;
}.

(** ** Texts *)

Definition contains_char (c : ascii) (s : string) : bool :=
  negb (str_all (λ a, negb (bool_decide (a = c))) s).

(** [s.split_once("://")] *)
Fixpoint split_once_str (pattern s : string) : option (string * string) :=
  match strip_prefix pattern s with
  | Some rest => Some (EmptyString, rest)
  | None =>
      match s with
      | EmptyString => None
      | String a s => (λ '(before, after), (String a before, after)) <$> split_once_str pattern s
      end
  end.

(** [s.rsplit_once(c)]: the text after the last [c], the whole text without one. *)
Definition after_last (c : ascii) (s : string) : string := default s (last (split_char c s)).

Definition eq_ignore_ascii_case (s t : string) : bool :=
  bool_decide (str_map ascii_lower s = str_map ascii_lower t).

(** ** Errors *)

Inductive ClientRegistrationError :=
| ClientReg_Internal
| ClientReg_InvalidJson
| ClientReg_InvalidClientMetadata (e : ClientMetadataVerificationError)
| ClientReg_UrlIsPublicSuffix (field : string)
| ClientReg_InvalidMatrixRedirectUri (reason : string)
| ClientReg_PolicyDenied (res : EvaluationResult).

(** The reply. *)
Record ClientRegistrationResponse := {
  crr_client_id : string;
  crr_client_secret : option string;
  crr_client_id_issued_at : option DateTime;
  crr_client_secret_expires_at : option DateTime;
}.
Record RegistrationRouteResponse := {
  rrr_response : ClientRegistrationResponse;
  rrr_metadata : VerifiedClientMetadata;
}.

(** [Ulid::datetime]: the upper 48 bits are milliseconds. *)
Definition Ulid_datetime (id : Ulid) : DateTime := Z.shiftr id 80 * 1000.

Section registration.
Context {UX : UrlExternals} {VX : UrlPartsExternals} {DX : DbExternals} {KX : MetadataExternals}.
Context {HX : HandlerExternals} {CX : ClientRegistrationExternals}.

(** The status, code and description of an error; an unreadable body is described by the parser. *)
Definition ClientRegistrationError_render (self : ClientRegistrationError)
    : Z * ClientErrorCode * option string :=
  match self with
  | ClientReg_Internal => (500, ServerError, None)
  | ClientReg_InvalidJson => (400, InvalidClientMetadata, None)
  | ClientReg_InvalidClientMetadata (MissingRedirectUris | RedirectUriWithFragment _) =>
      (400, InvalidRedirectUri, None)
  | ClientReg_InvalidClientMetadata e =>
      (400, InvalidClientMetadata, Some (verification_error_to_string e))
  | ClientReg_UrlIsPublicSuffix field =>
      if bool_decide (field = "redirect_uri")
      then (400, InvalidRedirectUri, Some "redirect_uri is not using a valid domain")
      else (400, InvalidClientMetadata, Some (field +:+ " is not using a valid domain"))
  | ClientReg_InvalidMatrixRedirectUri reason => (400, InvalidRedirectUri, Some reason)
  | ClientReg_PolicyDenied violations =>
      (400, if existsb (str_contains "redirect_uri") violations
            then InvalidRedirectUri else InvalidClientMetadata,
       Some (String.concat "; " violations))
  end.

(** ** Checks on the URLs *)

Definition host_is_public_suffix (url : Url) : bool :=
  let host := default "" (url_host_str url) in
  match psl_suffix host with
  | None => false
  | Some (_, false) => false
  | Some (suffix, true) => (String.length host <=? String.length suffix + 1)%nat
  end.

Definition localised_url_has_public_suffix (url : Localized Url) : bool :=
  existsb (λ '(_, url), host_is_public_suffix url) (Localized_iter url).

(** A host is the one of the client, or below it. *)
Definition https_client_host (base_host : string) (uri : Url) : bool :=
  bool_decide (url_scheme uri = "https") && bool_decide (url_username uri = "")
  && bool_decide (url_password uri = None)
  && match url_host_str uri with
     | Some host => bool_decide (host = base_host) || ends_with ("." +:+ base_host) host
     | None => false
     end.
Definition is_loopback_host (uri : Url) : bool :=
  bool_decide (url_host_str uri = Some "localhost") || bool_decide (url_host_str uri = Some "127.0.0.1")
  || url_is_ipv6_loopback uri.
Definition loopback_redirect (uri : Url) : bool :=
  bool_decide (url_scheme uri = "http") && bool_decide (url_port uri = None)
  && bool_decide (url_username uri = "") && bool_decide (url_password uri = None)
  && is_loopback_host uri.
Definition private_scheme (reverse_dns : string) (uri : Url) : bool :=
  bool_decide (url_host_str uri = None) && negb (bool_decide (url_scheme uri = "http"))
  && negb (bool_decide (url_scheme uri = "https"))
  && (bool_decide (url_scheme uri = reverse_dns) || starts_with (reverse_dns +:+ ".") (url_scheme uri)).

Definition reverse_host (host : string) : string :=
  join_char "."%char (reverse (split_char "."%char host)).
Definition is_native (metadata : ClientMetadata) : bool :=
  match cm_application_type metadata with Some Application_Native => true | _ => false end.

(** The test of the loop over the redirect URIs. *)
Definition redirect_uri_allowed (base_host : string) (native : bool) (uri : Url) : bool :=
  https_client_host base_host uri
  || (native && (loopback_redirect uri || private_scheme (reverse_host base_host) uri)).

Definition check_redirect_uris (base_host : string) (native : bool)
    : list Url → result () ClientRegistrationError :=
  fix loop uris :=
  match uris with
  | [] => Ok tt
  | uri :: uris =>
      if redirect_uri_allowed base_host native uri then loop uris
      else Err (ClientReg_InvalidMatrixRedirectUri
                  ("redirect_uri is not valid for this client: " +:+ uri))
  end.

(** [non_localized] panics without a default value, which a parsed value has: an error of the
    server here. *)
Definition validate_matrix_redirect_uris (metadata : VerifiedClientMetadata)
    : result () ClientRegistrationError :=
  let m := verified_inner metadata in
  match cm_client_uri m with
  | None => Err (ClientReg_InvalidMatrixRedirectUri "client_uri is required")
  | Some localized =>
      match Localized_non_localized localized with
      | None => Err ClientReg_Internal
      | Some client_uri =>
          if negb (bool_decide (url_scheme client_uri = "https"))
             || negb (bool_decide (url_username client_uri = ""))
             || bool_decide (is_Some (url_password client_uri))
          then Err (ClientReg_InvalidMatrixRedirectUri
                      "client_uri must be an HTTPS URL without credentials")
          else
            match url_host_str client_uri with
            | None => Err (ClientReg_InvalidMatrixRedirectUri "client_uri must have a host")
            | Some base_host =>
                check_redirect_uris base_host (is_native m) (Verified_redirect_uris metadata)
            end
      end
  end.

(** [rest.split(['/', '?', '#']).next()] *)
Definition is_authority_end (a : ascii) : bool :=
  bool_decide (a = "/"%char) || bool_decide (a = "?"%char) || bool_decide (a = "#"%char).

Definition loopback_redirect_has_explicit_port (uri : string) : bool :=
  match url_parse uri with
  | None => false
  | Some parsed =>
      if negb (bool_decide (url_scheme parsed = "http")) || negb (is_loopback_host parsed) then false
      else match split_once_str "://" uri with
           | None => false
           | Some (scheme, rest) =>
               if negb (eq_ignore_ascii_case scheme "http") then false
               else
                 let authority := default "" (head (split_on is_authority_end rest)) in
                 let host_port := after_last "@"%char authority in
                 match strip_prefix "[" host_port with
                 | Some after_bracket =>
                     match split_once "]"%char after_bracket with
                     | Some (_, suffix) => starts_with ":" suffix
                     | None => false
                     end
                 | None => contains_char ":"%char host_port
                 end
           end
  end.

(** [raw_body.get("redirect_uris").and_then(as_array)], the strings of it. *)
Definition raw_redirect_uris (raw_body : Json) : list string :=
  match raw_body with
  | Json_Object entries =>
      match json_get "redirect_uris" entries with
      | Some (Json_Array uris) => omap (λ v, match v with Json_String s => Some s | _ => None end) uris
      | _ => []
      end
  | _ => []
  end.

(** The URLs of the metadata whose host is a public suffix, in the order of the checks. *)
Definition public_suffix_field (metadata : VerifiedClientMetadata) : option string :=
  let m := verified_inner metadata in
  let localised f := match f with Some u => localised_url_has_public_suffix u | None => false end in
  if localised (cm_client_uri m) then Some "client_uri"
  else if localised (cm_logo_uri m) then Some "logo_uri"
  else if localised (cm_policy_uri m) then Some "policy_uri"
  else if localised (cm_tos_uri m) then Some "tos_uri"
  else if match cm_initiate_login_uri m with Some u => host_is_public_suffix u | None => false end
  then Some "initiate_login_uri"
  else if existsb host_is_public_suffix (Verified_redirect_uris metadata) then Some "redirect_uri"
  else None.

(** ** Localised variants *)

Definition collect_tagged {T} (field : option (Localized T)) : gmap string T :=
  match field with
  | Some localized =>
      foldl (λ m '(tag, value), match tag with Some tag => <[tag := value]> m | None => m end)
        ∅ (Localized_iter localized)
  | None => ∅
  end.
Definition collect_localized_metadata (metadata : VerifiedClientMetadata) : LocalizedClientMetadata :=
  let m := verified_inner metadata in
  {| localized_client_name := collect_tagged (cm_client_name m);
     localized_logo_uri := collect_tagged (cm_logo_uri m);
     localized_client_uri := collect_tagged (cm_client_uri m);
     localized_policy_uri := collect_tagged (cm_policy_uri m);
     localized_tos_uri := collect_tagged (cm_tos_uri m) |}.

(** ** The handler *)

(** [Encrypter::encrypt_to_string] with the nonce drawn. *)
Definition encrypt_to_string (nonce decrypted : list Z) : option string :=
  (λ encrypted, base64_standard_encode (nonce ++ encrypted)) <$> aead_encrypt nonce decrypted.

Definition secret_method (m : option OAuthClientAuthenticationMethod) : bool :=
  match m with
  | Some (Auth_ClientSecretJwt | Auth_ClientSecretPost | Auth_ClientSecretBasic) => true
  | _ => false
  end.

(** The secret and its encrypted form, for the methods with a secret. *)
Definition generate_client_secret (sample20 : string) (nonce : list Z) (metadata : ClientMetadata)
    : M St ClientRegistrationError (option string * option string) :=
  if secret_method (cm_token_endpoint_auth_method metadata) then
    encrypted ← ok_or ClientReg_Internal (encrypt_to_string nonce (as_bytes sample20));
    mret (Some sample20, Some encrypted)
  else mret (None, None).

(** The arguments of [add]. *)
Definition new_client (metadata : VerifiedClientMetadata) (digest_hash encrypted_client_secret : option string)
    : NewClient :=
  let m := verified_inner metadata in
  {| nc_redirect_uris := Verified_redirect_uris metadata;
     nc_metadata_digest := digest_hash;
     nc_encrypted_client_secret := encrypted_client_secret;
     nc_application_type := cm_application_type m;
     nc_grant_types := ClientMetadata_grant_types m;
     nc_client_name := cm_client_name m ≫= Localized_non_localized;
     nc_logo_uri := cm_logo_uri m ≫= Localized_non_localized;
     nc_client_uri := cm_client_uri m ≫= Localized_non_localized;
     nc_policy_uri := cm_policy_uri m ≫= Localized_non_localized;
     nc_tos_uri := cm_tos_uri m ≫= Localized_non_localized;
     nc_jwks_uri := cm_jwks_uri m;
     nc_jwks := cm_jwks m;
     nc_id_token_signed_response_alg := cm_id_token_signed_response_alg m;
     nc_userinfo_signed_response_alg := cm_userinfo_signed_response_alg m;
     nc_token_endpoint_auth_method := cm_token_endpoint_auth_method m;
     nc_token_endpoint_auth_signing_alg := cm_token_endpoint_auth_signing_alg m;
     nc_initiate_login_uri := cm_initiate_login_uri m |}.

(** The client that is kept for the metadata: one with their digest, else a new one. *)
Definition find_existing (client_secret : option string) (body_json : string)
    : M St ClientRegistrationError (option string * option Client) :=
  match client_secret with
  | None =>
      let hash := sha256_hex body_json in
      client ← try_with (λ _, ClientReg_Internal) (oauth2_client_find_by_metadata_digest hash);
      mret (Some hash, client)
  | Some _ => mret (None, None)
  end.
Definition add_client (metadata : VerifiedClientMetadata) (digest_hash encrypted : option string)
    : M St ClientRegistrationError Client :=
  client ← try_with (λ _, ClientReg_Internal) (oauth2_client_add (new_client metadata digest_hash encrypted));
  let localized := collect_localized_metadata metadata in
  if negb (LocalizedClientMetadata_is_empty localized) then
    _ ← try_with (λ _, ClientReg_Internal) (replace_localized_metadata (Client_id client) localized);
    mret (Client_with_localized client localized)
  else mret client.

(** [raw_body] is what [parse_json] gives; [sample20] and [nonce] are drawn from the thread's generator. *)
Definition client_registration_handle_post (raw_body : option Json) (ip_address : option IpAddr)
    (user_agent : option string) (sample20 : string) (nonce : list Z)
    : M St ClientRegistrationError RegistrationRouteResponse :=
  _ ← require policy_instantiates ClientReg_Internal;
  raw_body ← ok_or ClientReg_InvalidJson raw_body;
  _ ← require (negb (existsb loopback_redirect_has_explicit_port (raw_redirect_uris raw_body)))
        (ClientReg_InvalidMatrixRedirectUri "native loopback redirect_uri must not specify a port");
  body ← ok_or ClientReg_InvalidJson (metadata_from_value raw_body);
  let body := ClientMetadata_sorted body in
  let body_json := metadata_to_string body in
  metadata ← of_result (result_map_err ClientReg_InvalidClientMetadata (ClientMetadata_validate body));
  _ ← of_result (validate_matrix_redirect_uris metadata);
  _ ← match public_suffix_field metadata with
      | Some field => raise (ClientReg_UrlIsPublicSuffix field)
      | None => mret tt
      end;
  res ← ok_or ClientReg_Internal (evaluate_client_registration
    {| cri_client_metadata := metadata; cri_ip_address := ip_address; cri_user_agent := user_agent |});
  _ ← require (EvaluationResult_valid res) (ClientReg_PolicyDenied res);
  '(client_secret, encrypted_client_secret) ←
    generate_client_secret sample20 nonce (verified_inner metadata);
  '(digest_hash, existing_client) ← find_existing client_secret body_json;
  client ← match existing_client with
           | Some client => mret client
           | None => add_client metadata digest_hash encrypted_client_secret
           end;
  let response :=
    {| crr_client_id := Client_client_id client;
       crr_client_secret := client_secret;
       crr_client_id_issued_at := Some (Ulid_datetime (Client_id client));
       crr_client_secret_expires_at := None |} in
  metadata ← of_result (result_map_err ClientReg_InvalidClientMetadata
    (ClientMetadata_validate (Client_into_metadata client)));
  _ ← repo_save;
  mret {| rrr_response := response; rrr_metadata := metadata |}.
End registration.
