(* ===== verification/Userinfo.v ===== *)
(** Bearer tokens of users and the userinfo endpoint:
    salvo_utils/user_authorization.rs and handlers/oauth2/userinfo.rs. *)
From S2P Require Import Prelude Ids RateLimit TokenFormat Scope Pkce Jose Keystore Domain Accounts Database Repository Handlers ClientAuth.

Open Scope Z_scope.

(** ** The token of a request (user_authorization.rs) *)

Inductive RequestToken :=
| Token_Form (t : string)
| Token_Header (t : string)
| Token_None.

Record UserAuthorization (F : Type) := {
  user_access_token : RequestToken;
  user_form : option F;
}.
Arguments user_access_token {F}.
Arguments user_form {F}.

Inductive UserAuthorizationError :=
| Uae_InvalidHeader
| Uae_TokenInFormAndHeader
| Uae_BadForm (e : string)
| Uae_Internal.

(** The headers, and what [parse_form] gives: the token and the rest. *)
Record UserRequest (F : Type) := {
  ureq_authorization : option string;
  ureq_content_type : option string;
  ureq_parse_form : result (option string * F) string;
}.
Arguments ureq_authorization {F}.
Arguments ureq_content_type {F}.
Arguments ureq_parse_form {F}.

Inductive AuthorizationVerificationError :=
| Ave_MissingToken
| Ave_InvalidToken
| Ave_InsufficientScope
| Ave_MissingForm
| Ave_Internal (e : DatabaseError).

(** The status and the [error] of the [WWW-Authenticate] header. *)
Inductive BearerError := Bearer_InvalidRequest | Bearer_InvalidToken.
Definition UserAuthorizationError_render (self : UserAuthorizationError) : Z * option BearerError :=
  match self with
  | Uae_BadForm _ | Uae_InvalidHeader | Uae_TokenInFormAndHeader => (400, Some Bearer_InvalidRequest)
  | Uae_Internal => (500, None)
  end.
Definition AuthorizationVerificationError_render (self : AuthorizationVerificationError)
    : Z * option BearerError :=
  match self with
  | Ave_MissingForm | Ave_MissingToken => (400, Some Bearer_InvalidRequest)
  | Ave_InvalidToken | Ave_InsufficientScope => (400, Some Bearer_InvalidToken)
  | Ave_Internal _ => (500, None)
  end.

(** ** Userinfo (userinfo.rs) *)

Record UserInfo := {
  ui_sub : string;
  ui_username : string;
  ui_preferred_username : string;
  ui_name : option string;
  ui_picture : option string;
  ui_locale : option string;
}.

Inductive UserinfoResponse :=
| Userinfo_Json (user_info : UserInfo)
| Userinfo_Jwt (token : string).

Inductive UserinfoRouteError :=
| Userinfo_Internal
| Userinfo_AuthorizationVerificationError (e : AuthorizationVerificationError)
| Userinfo_Unauthorized
| Userinfo_InvalidSigningKey
| Userinfo_NoSuchClient (id : Ulid)
| Userinfo_NoSuchUser (id : Ulid).

Definition UserinfoRouteError_status (self : UserinfoRouteError) : Z :=
  match self with
  | Userinfo_Internal | Userinfo_InvalidSigningKey | Userinfo_NoSuchClient _ | Userinfo_NoSuchUser _ => 500
  | Userinfo_AuthorizationVerificationError _ | Userinfo_Unauthorized => 401
  end.

Section userinfo.
Context {TX : TokenExternals} {UX : UrlExternals} {DX : DbExternals}.
Context {HX : HandlerExternals} {AX : ClientAuthExternals}.

(** [bytes.len() >= 7 && bytes[..7].eq_ignore_ascii_case(b"Bearer ")], then [Bearer::decode] *)
Definition token_from_header (header : option string) : result (option string) UserAuthorizationError :=
  match header with
  | None => Ok None
  | Some header =>
      if bool_decide (str_map ascii_lower (String.substring 0 7 header) = "bearer ") then
        match bearer_decode header with
        | Some token => Ok (Some token)
        | None => Err Uae_InvalidHeader
        end
      else Err Uae_InvalidHeader
  end.

Definition user_extract_from_request {F} (req : UserRequest F)
    : result (UserAuthorization F) UserAuthorizationError :=
  result_bind (token_from_header (ureq_authorization req)) (λ from_header,
  let is_form := starts_with "application/x-www-form-urlencoded" (default "" (ureq_content_type req)) in
  result_bind
    (if is_form then
       match ureq_parse_form req with
       | Ok (token, inner) => Ok (token, Some inner)
       | Err e => Err (Uae_BadForm e)
       end
     else Ok (None, None)) (λ '(from_form, form),
  match from_header, from_form with
  | Some _, Some _ => Err Uae_TokenInFormAndHeader
  | Some t, None => Ok {| user_access_token := Token_Header t; user_form := form |}
  | None, Some t => Ok {| user_access_token := Token_Form t; user_form := form |}
  | None, None => Ok {| user_access_token := Token_None; user_form := form |}
  end)).

(** [AccessToken::fetch] *)
Definition request_token_fetch (self : RequestToken)
    : M St AuthorizationVerificationError (AccessToken * Session) :=
  token ← ok_or Ave_MissingToken
            match self with Token_Form t | Token_Header t => Some t | Token_None => None end;
  found ← try_with Ave_Internal (access_token_find_by_token token);
  token ← ok_or Ave_InvalidToken found;
  found ← try_with Ave_Internal (oauth2_session_lookup (AccessToken_session_id token));
  session ← ok_or Ave_InvalidToken found;
  mret (token, session).

Fixpoint ensure_required_scopes (session : Session) (required_scopes : list ScopeToken)
    : result () AuthorizationVerificationError :=
  match required_scopes with
  | [] => Ok tt
  | scope :: scopes =>
      if negb (Scope_contains (Session_scope session) scope) then Err Ave_InsufficientScope
      else ensure_required_scopes session scopes
  end.

Definition protected {F} (self : UserAuthorization F) (required_scopes : list ScopeToken)
    : M St AuthorizationVerificationError Session :=
  '(token, session) ← request_token_fetch (user_access_token self);
  now ← clock_now;
  _ ← require (AccessToken_is_valid token now && Session_is_valid session) Ave_InvalidToken;
  _ ← of_result (ensure_required_scopes session required_scopes);
  _ ← (if negb (AccessToken_is_used token)
       then _ ← try_with Ave_Internal (access_token_mark_used token); mret tt
       else mret tt);
  mret session.

Definition protected_form {F} (self : UserAuthorization F) (required_scopes : list ScopeToken)
    : M St AuthorizationVerificationError (Session * F) :=
  form ← ok_or Ave_MissingForm (user_form self);
  '(token, session) ← request_token_fetch (user_access_token self);
  now ← clock_now;
  _ ← require (AccessToken_is_valid token now && Session_is_valid session) Ave_InvalidToken;
  _ ← of_result (ensure_required_scopes session required_scopes);
  mret (session, form).

Definition user_info_of (user : User) : UserInfo :=
  {| ui_sub := User_sub user;
     ui_username := User_username user;
     ui_preferred_username := User_username user;
     ui_name := User_display_name user;
     ui_picture := User_avatar_url user;
     ui_locale := User_preferred_locale user |}.

(** [SignedUserInfo], serialised. *)
Definition signed_user_info (aud : string) (info : UserInfo) : gmap string Json :=
  insert_claim "locale" (Json_String <$> ui_locale info)
  (insert_claim "picture" (Json_String <$> ui_picture info)
  (insert_claim "name" (Json_String <$> ui_name info)
  (<["preferred_username" := Json_String (ui_preferred_username info)]>
  (<["username" := Json_String (ui_username info)]>
  (<["sub" := Json_String (ui_sub info)]>
  (<["aud" := Json_String aud]>
  (<["iss" := Json_String oidc_issuer]> ∅))))))).

(** The end of the handler: plain, or signed for the client. *)
Definition userinfo_response (client : Client) (user_info : UserInfo)
    : M St UserinfoRouteError UserinfoResponse :=
  match Client_userinfo_signed_response_alg client with
  | Some alg =>
      kid_signer ← ok_or Userinfo_InvalidSigningKey (uncached_signer key_store alg);
      signed ← with_rng (sign_with_rng
                 (asymmetric_sign (sk_alg kid_signer.2) (sk_key kid_signer.2))
                 {| header_alg := alg; header_kid := Some kid_signer.1 |}
                 (signed_user_info (Client_client_id client) user_info));
      token ← of_result (result_map_err (λ _, Userinfo_Internal) signed);
      mret (Userinfo_Jwt (Jwt_into_string token))
  | None => mret (Userinfo_Json user_info)
  end.

Definition userinfo_handle_get {F} (req : UserRequest F) (ip : option IpAddr)
    : M St UserinfoRouteError UserinfoResponse :=
  user_authorization ← of_result (result_map_err
    (λ e, match e with Uae_Internal => Userinfo_Internal | _ => Userinfo_Unauthorized end)
    (user_extract_from_request req));
  session ← try_with Userinfo_AuthorizationVerificationError (protected user_authorization [OPENID]);
  user_id ← ok_or Userinfo_Unauthorized (Session_user_id session);
  _ ← record_session_activity Kind_OAuth2 (Session_id session) ip;
  user ← try_with (λ _, Userinfo_Internal) (user_lookup user_id);
  user ← ok_or (Userinfo_NoSuchUser user_id) user;
  let user_info := user_info_of user in
  client ← try_with (λ _, Userinfo_Internal) (oauth2_client_lookup (Session_client_id session));
  client ← ok_or (Userinfo_NoSuchClient (Session_client_id session)) client;
  _ ← repo_save;
  userinfo_response client user_info.
End userinfo.
