(* ===== verification/TokenService.v ===== *)
(** The grants of the token endpoint
    (crates/backend/src/handlers/oauth2/token_service.rs) and the endpoint
    itself (oauth2/token.rs).

    Each service function is modelled whole, cut into the phases the source
    goes through in order; log statements are left out. The authenticated
    client is an argument, as in the source. *)
From S2P Require Import Prelude Ids TokenFormat Scope Pkce Jose Keystore Domain Database Repository Handlers ClientAuth.

Open Scope Z_scope.

(** ** Errors *)

Inductive AuthorizationCodeExchangeError :=
| Ace_UnauthorizedClient (id : Ulid)
| Ace_GrantNotFound
| Ace_InvalidGrant (id : Ulid)
| Ace_PkceVerification (e : CodeChallengeError)
| Ace_BadRequest
| Ace_AdminScopeNotAllowed
| Ace_UnexpectedClient (was expected : Ulid)
| Ace_NoSuchBrowserSession (id : Ulid)
| Ace_NoSuchOAuthSession (id : Ulid)
| Ace_ProvisionDeviceFailed
| Ace_Repository (e : DatabaseError)
| Ace_Internal.

Inductive RefreshTokenExchangeError :=
| Rte_UnauthorizedClient (id : Ulid)
| Rte_RefreshTokenNotFound
| Rte_RefreshTokenInvalid (id : Ulid)
| Rte_SessionInvalid (id : Ulid)
| Rte_ClientIdMismatch (expected actual : Ulid)
| Rte_NoSuchOAuthSession (id : Ulid)
| Rte_NoSuchNextRefreshToken (next previous : Ulid)
| Rte_NoSuchNextAccessToken (access_token refresh_token : Ulid)
| Rte_NoAccessTokenOnRefreshToken (refresh_token : Ulid)
| Rte_Repository (e : DatabaseError).

Inductive ClientCredentialsGrantError :=
| Cce_AdminScopeNotAllowed
| Cce_UnauthorizedClient (id : Ulid)
| Cce_DeniedByPolicy (res : EvaluationResult)
| Cce_Repository (e : DatabaseError)
| Cce_Internal.

Inductive DeviceCodeExchangeError :=
| Dce_AdminScopeNotAllowed
| Dce_UnauthorizedClient (id : Ulid)
| Dce_GrantNotFound
| Dce_ClientIdMismatch (expected actual : Ulid)
| Dce_DeviceCodeExpired
| Dce_DeviceCodePending
| Dce_DeviceCodeRejected
| Dce_DeviceCodeExchanged
| Dce_NoSuchBrowserSession (id : Ulid)
| Dce_ProvisionDeviceFailed
| Dce_Repository (e : DatabaseError)
| Dce_Internal.

(** [Duration::microseconds(20 * 1000 * 1000)] and [10 * 60 * 1000 * 1000] *)
Definition REPLAY_GRACE : Duration := 20 * 1000 * 1000.
Definition CODE_LIFETIME : Duration := 10 * 60 * 1000 * 1000.

Section token_service.
Context {TX : TokenExternals} {PX : PkceExternals} {UX : UrlExternals}
        {DX : DbExternals} {HX : HandlerExternals}.

(** Whether the session has no administrative scope, or a user who is an administrator. *)
Definition session_may_keep_admin_scope (session : Session) : M St DatabaseError bool :=
  if negb (requires_admin (Session_scope session)) then mret true
  else
    user ← match Session_user_id session with
           | Some user_id => user_lookup user_id
           | None => mret None
           end;
    mret (may_hold_admin_scope user).

(** [if let Some(user_agent) = user_agent { session = record_user_agent(..) }] *)
Definition record_user_agent_opt (session : Session) (user_agent : option string)
    : M St DatabaseError Session :=
  match user_agent with
  | Some user_agent => oauth2_session_record_user_agent session user_agent
  | None => mret session
  end.

(** Provisioning of the devices of a scope. *)
Definition provision_devices {E} (err : E) (user : User) (device_ids : list string)
    (display_name : option string) : M St E () :=
  for_each (λ device_id, upsert_device err
    {| upsert_localpart := User_username user;
       upsert_device_id := device_id;
       upsert_display_name := display_name |}) device_ids.

(** ** Authorization code *)

(** The client may use the grant, and the code is known. *)
Definition code_exchange_grant (grant : AuthorizationCodeGrant) (client : Client)
    : M St AuthorizationCodeExchangeError AuthorizationGrant :=
  _ ← require (Client_has_grant_type client GrantType_AuthorizationCode)
        (Ace_UnauthorizedClient (Client_id client));
  res ← try_with Ace_Repository (authorization_grant_find_by_code (code_grant_code grant));
  ok_or Ace_GrantNotFound res.

(** The stage of the grant: the session to issue tokens for. *)
Definition code_exchange_stage (authz_grant : AuthorizationGrant)
    : M St AuthorizationCodeExchangeError Ulid :=
  now ← clock_now;
  match AuthorizationGrant_stage authz_grant with
  | Grant_Cancelled _ => raise (Ace_InvalidGrant (AuthorizationGrant_id authz_grant))
  | Grant_Exchanged session_id fulfilled_at exchanged_at =>
      _ ← (if bool_decide (REPLAY_GRACE < now - exchanged_at) then
             session ← try_with Ace_Repository (oauth2_session_lookup session_id);
             session ← ok_or (Ace_NoSuchOAuthSession session_id) session;
             _ ← try_with Ace_Repository (oauth2_session_finish session);
             repo_save
           else mret tt);
      raise (Ace_InvalidGrant (AuthorizationGrant_id authz_grant))
  | Grant_Pending => raise (Ace_InvalidGrant (AuthorizationGrant_id authz_grant))
  | Grant_Fulfilled session_id fulfilled_at =>
      _ ← require (negb (bool_decide (CODE_LIFETIME < now - fulfilled_at)))
            (Ace_InvalidGrant (AuthorizationGrant_id authz_grant));
      mret session_id
  end.

(** The session, and the name of the device. *)
Definition code_exchange_session (authz_grant : AuthorizationGrant) (client : Client)
    (session_id : Ulid) (user_agent : option string)
    : M St AuthorizationCodeExchangeError (Session * string) :=
  session ← try_with Ace_Repository (oauth2_session_lookup session_id);
  session ← ok_or (Ace_NoSuchOAuthSession session_id) session;
  let lang := default "en" (AuthorizationGrant_locale authz_grant) in
  _ ← require (locale_parses lang) Ace_Internal;
  device_name ← ok_or Ace_Internal (render_device_name client user_agent lang);
  session ← try_with Ace_Repository (record_user_agent_opt session user_agent);
  mret (session, device_name).

(** The caller owns the code: client, redirect URI and PKCE verifier. *)
Definition code_exchange_proof (grant : AuthorizationCodeGrant) (authz_grant : AuthorizationGrant)
    (client : Client) (session : Session) : M St AuthorizationCodeExchangeError () :=
  code ← ok_or (Ace_InvalidGrant (AuthorizationGrant_id authz_grant))
           (AuthorizationGrant_code authz_grant);
  _ ← require (bool_decide (Client_id client = Session_client_id session))
        (Ace_UnexpectedClient (Client_id client) (Session_client_id session));
  _ ← require (bool_decide (code_grant_redirect_uri grant =
                            Some (AuthorizationGrant_raw_redirect_uri authz_grant)))
        (Ace_InvalidGrant (AuthorizationGrant_id authz_grant));
  match AuthorizationCode_pkce code, code_grant_code_verifier grant with
  | None, None => mret tt
  | Some _, None | None, Some _ => raise Ace_BadRequest
  | Some pkce, Some verifier =>
      of_result (result_map_err Ace_PkceVerification (Pkce_verify pkce verifier))
  end.

(** A demoted administrator loses the session. *)
Definition code_exchange_admin (session : Session) : M St AuthorizationCodeExchangeError () :=
  may_keep ← try_with Ace_Repository (session_may_keep_admin_scope session);
  if negb may_keep then
    _ ← try_with Ace_Repository (oauth2_session_finish session);
    _ ← repo_save;
    raise Ace_AdminScopeNotAllowed
  else mret tt.

(** Issue the tokens, provision the devices, mark the grant as exchanged. *)
Definition code_exchange_issue (authz_grant : AuthorizationGrant) (client : Client)
    (session : Session) (device_ids : list string) (device_name : string) (ttl : Duration)
    (ip : option IpAddr) : M St AuthorizationCodeExchangeError AccessTokenResponse :=
  user_session_id ← ok_or (Ace_InvalidGrant (AuthorizationGrant_id authz_grant))
                      (Session_user_session_id session);
  browser_session ← try_with Ace_Repository (browser_session_lookup user_session_id);
  browser_session ← ok_or (Ace_NoSuchBrowserSession user_session_id) browser_session;
  last_authentication ← try_with Ace_Repository
                          (browser_session_get_last_authentication browser_session);
  pair ← try_with Ace_Repository (generate_token_pair session ttl);
  let access_token := pair.1 in
  let refresh_token := pair.2 in
  id_token ← (if Scope_contains (Session_scope session) OPENID then
                id_token ← try_with (λ _, Ace_Internal)
                  (generate_id_token client (Some authz_grant) browser_session (Some access_token)
                     last_authentication);
                mret (Some id_token)
              else mret None);
  let params :=
    with_scope (Session_scope session)
      (with_refresh_token (RefreshToken_refresh_token refresh_token)
         (with_expires_in ttl (AccessTokenResponse_new (AccessToken_access_token access_token)))) in
  let params := match id_token with Some t => with_id_token t params | None => params end in
  _ ← try_with Ace_Repository (user_acquire_lock_for_sync (BrowserSession_user browser_session));
  _ ← provision_devices Ace_ProvisionDeviceFailed (BrowserSession_user browser_session)
        device_ids (Some device_name);
  _ ← try_with Ace_Repository (authorization_grant_exchange authz_grant);
  _ ← record_session_activity Kind_OAuth2 (Session_id session) ip;
  mret params.

Definition exchange_authorization_code (grant : AuthorizationCodeGrant) (client : Client)
    (ttl : Duration) (ip : option IpAddr) (user_agent : option string)
    : M St AuthorizationCodeExchangeError AccessTokenResponse :=
  authz_grant ← code_exchange_grant grant client;
  session_id ← code_exchange_stage authz_grant;
  sd ← code_exchange_session authz_grant client session_id user_agent;
  let session := sd.1 in
  let device_name := sd.2 in
  let requested_matrix_device_ids := matrix_device_ids (Session_scope session) in
  _ ← code_exchange_proof grant authz_grant client session;
  _ ← code_exchange_admin session;
  code_exchange_issue authz_grant client session requested_matrix_device_ids device_name ttl ip.

(** ** Refresh token *)

Definition refresh_find (grant : RefreshTokenGrant) (client : Client)
    (user_agent : option string) : M St RefreshTokenExchangeError (RefreshToken * Session) :=
  _ ← require (Client_has_grant_type client GrantType_RefreshToken)
        (Rte_UnauthorizedClient (Client_id client));
  refresh_token ← try_with Rte_Repository
                    (refresh_token_find_by_token (refresh_grant_refresh_token grant));
  refresh_token ← ok_or Rte_RefreshTokenNotFound refresh_token;
  session ← try_with Rte_Repository (oauth2_session_lookup (RefreshToken_session_id refresh_token));
  session ← ok_or (Rte_NoSuchOAuthSession (RefreshToken_session_id refresh_token)) session;
  session ← try_with Rte_Repository (record_user_agent_opt session user_agent);
  mret (refresh_token, session).

Definition refresh_check_session (client : Client) (session : Session)
    : M St RefreshTokenExchangeError () :=
  _ ← require (Session_is_valid session) (Rte_SessionInvalid (Session_id session));
  may_keep ← try_with Rte_Repository (session_may_keep_admin_scope session);
  _ ← (if negb may_keep then
         _ ← try_with Rte_Repository (oauth2_session_finish session);
         _ ← repo_save;
         raise (Rte_SessionInvalid (Session_id session))
       else mret tt);
  require (bool_decide (Client_id client = Session_client_id session))
    (Rte_ClientIdMismatch (Session_client_id session) (Client_id client)).

(** A token already consumed: a lost reply, or a replay. *)
Definition refresh_double (refresh_token : RefreshToken) : M St RefreshTokenExchangeError () :=
  if RefreshTokenState_is_valid (RefreshToken_state refresh_token) then mret tt
  else
    next_refresh_token_id ← ok_or (Rte_RefreshTokenInvalid (RefreshToken_id refresh_token))
      (RefreshTokenState_next_refresh_token_id (RefreshToken_state refresh_token));
    next_refresh_token ← try_with Rte_Repository (refresh_token_lookup next_refresh_token_id);
    next_refresh_token ← ok_or
      (Rte_NoSuchNextRefreshToken next_refresh_token_id (RefreshToken_id refresh_token))
      next_refresh_token;
    _ ← require (RefreshTokenState_is_valid (RefreshToken_state next_refresh_token))
          (Rte_RefreshTokenInvalid (RefreshToken_id next_refresh_token));
    access_token_id ← ok_or (Rte_NoAccessTokenOnRefreshToken (RefreshToken_id next_refresh_token))
      (RefreshToken_access_token_id next_refresh_token);
    next_access_token ← try_with Rte_Repository (access_token_lookup access_token_id);
    next_access_token ← ok_or (Rte_NoSuchNextAccessToken access_token_id next_refresh_token_id)
      next_access_token;
    _ ← require (negb (AccessToken_is_used next_access_token))
          (Rte_RefreshTokenInvalid (RefreshToken_id next_refresh_token));
    _ ← try_with Rte_Repository (access_token_revoke next_access_token);
    _ ← try_with Rte_Repository (refresh_token_revoke next_refresh_token);
    mret tt.

Definition refresh_issue (refresh_token : RefreshToken) (session : Session) (ttl : Duration)
    (ip : option IpAddr) : M St RefreshTokenExchangeError AccessTokenResponse :=
  _ ← record_session_activity Kind_OAuth2 (Session_id session) ip;
  pair ← try_with Rte_Repository (generate_token_pair session ttl);
  let new_access_token := pair.1 in
  let new_refresh_token := pair.2 in
  refresh_token ← try_with Rte_Repository (refresh_token_consume refresh_token new_refresh_token);
  _ ← match RefreshToken_access_token_id refresh_token with
      | None => mret tt
      | Some access_token_id =>
          access_token ← try_with Rte_Repository (access_token_lookup access_token_id);
          match access_token with
          | None => mret tt
          | Some access_token =>
              if AccessTokenState_is_revoked (AccessToken_state access_token) then mret tt
              else _ ← try_with Rte_Repository (access_token_revoke access_token); mret tt
          end
      end;
  mret (with_scope (Session_scope session)
    (with_refresh_token (RefreshToken_refresh_token new_refresh_token)
      (with_expires_in ttl (AccessTokenResponse_new (AccessToken_access_token new_access_token))))).

Definition handle_refresh_token (grant : RefreshTokenGrant) (client : Client) (ttl : Duration)
    (ip : option IpAddr) (user_agent : option string)
    : M St RefreshTokenExchangeError AccessTokenResponse :=
  rs ← refresh_find grant client user_agent;
  let refresh_token := rs.1 in
  let session := rs.2 in
  _ ← refresh_check_session client session;
  _ ← refresh_double refresh_token;
  refresh_issue refresh_token session ttl ip.

(** ** Client credentials *)

Definition handle_client_credentials (grant : ClientCredentialsGrant) (client : Client)
    (ttl : Duration) (ip : option IpAddr) (user_agent : option string)
    : M St ClientCredentialsGrantError AccessTokenResponse :=
  _ ← require (Client_has_grant_type client GrantType_ClientCredentials)
        (Cce_UnauthorizedClient (Client_id client));
  let scope := default ∅ (cc_grant_scope grant) in
  _ ← require (negb (requires_admin scope)) Cce_AdminScopeNotAllowed;
  res ← ok_or Cce_Internal (policy_evaluate
    {| input_user := None;
       input_client := client;
       input_session_counts := None;
       input_scope := scope;
       input_grant_type := Policy_ClientCredentials;
       input_ip_address := ip;
       input_user_agent := user_agent |});
  _ ← require (EvaluationResult_valid res) (Cce_DeniedByPolicy res);
  session ← try_with Cce_Repository (oauth2_session_add_from_client_credentials client scope);
  session ← try_with Cce_Repository (record_user_agent_opt session user_agent);
  access_token_str ← with_rng (TokenType_generate TokenType_AccessToken);
  access_token ← try_with Cce_Repository (access_token_add session access_token_str (Some ttl));
  let params := with_expires_in ttl (AccessTokenResponse_new (AccessToken_access_token access_token)) in
  _ ← record_session_activity Kind_OAuth2 (Session_id session) ip;
  mret (if Scope_is_empty (Session_scope session) then params
        else with_scope (Session_scope session) params).

(** ** Device code *)

Definition device_exchange_grant (grant : DeviceCodeGrantRequest) (client : Client)
    : M St DeviceCodeExchangeError DeviceCodeGrant :=
  _ ← require (Client_has_grant_type client GrantType_DeviceCode)
        (Dce_UnauthorizedClient (Client_id client));
  res ← try_with Dce_Repository (device_grant_find_by_device_code (device_grant_device_code grant));
  grant ← ok_or Dce_GrantNotFound res;
  _ ← require (bool_decide (Client_id client = DeviceCodeGrant_client_id grant))
        (Dce_ClientIdMismatch (DeviceCodeGrant_client_id grant) (Client_id client));
  now ← clock_now;
  _ ← require (negb (DeviceCodeGrant_expires_at grant <? now)) Dce_DeviceCodeExpired;
  mret grant.

Definition device_exchange_browser_session (grant : DeviceCodeGrant)
    : M St DeviceCodeExchangeError BrowserSession :=
  browser_session_id ←
    match DeviceCodeGrant_state grant with
    | Device_Pending => raise Dce_DeviceCodePending
    | Device_Rejected _ _ => raise Dce_DeviceCodeRejected
    | Device_Exchanged _ _ _ _ => raise Dce_DeviceCodeExchanged
    | Device_Fulfilled browser_session_id _ => mret browser_session_id
    end;
  browser_session ← try_with Dce_Repository (browser_session_lookup browser_session_id);
  browser_session ← ok_or (Dce_NoSuchBrowserSession browser_session_id) browser_session;
  _ ← require (admin_scope_allowed (BrowserSession_user browser_session) (DeviceCodeGrant_scope grant))
        Dce_AdminScopeNotAllowed;
  mret browser_session.

Definition device_exchange_session (grant : DeviceCodeGrant) (client : Client)
    (browser_session : BrowserSession) (user_agent : option string)
    : M St DeviceCodeExchangeError Session :=
  session ← try_with Dce_Repository
    (oauth2_session_add_from_browser_session client browser_session (DeviceCodeGrant_scope grant));
  _ ← try_with Dce_Repository (device_grant_exchange grant session);
  try_with Dce_Repository (record_user_agent_opt session user_agent).

Definition device_exchange_issue (client : Client) (browser_session : BrowserSession)
    (session : Session) (device_ids : list string) (ttl : Duration) (ip : option IpAddr)
    : M St DeviceCodeExchangeError AccessTokenResponse :=
  access_token_str ← with_rng (TokenType_generate TokenType_AccessToken);
  access_token ← try_with Dce_Repository (access_token_add session access_token_str (Some ttl));
  let params := with_expires_in ttl (AccessTokenResponse_new (AccessToken_access_token access_token)) in
  params ← (if Client_has_grant_type client GrantType_RefreshToken then
              refresh_token_str ← with_rng (TokenType_generate TokenType_RefreshToken);
              refresh_token ← try_with Dce_Repository
                (refresh_token_add session access_token refresh_token_str);
              mret (with_refresh_token (RefreshToken_refresh_token refresh_token) params)
            else mret params);
  params ← (if Scope_contains (Session_scope session) OPENID then
              id_token ← try_with (λ _, Dce_Internal)
                (generate_id_token client None browser_session (Some access_token) None);
              mret (with_id_token id_token params)
            else mret params);
  _ ← try_with Dce_Repository (user_acquire_lock_for_sync (BrowserSession_user browser_session));
  _ ← provision_devices Dce_ProvisionDeviceFailed (BrowserSession_user browser_session)
        device_ids None;
  _ ← record_session_activity Kind_OAuth2 (Session_id session) ip;
  mret (if Scope_is_empty (Session_scope session) then params
        else with_scope (Session_scope session) params).

Definition exchange_device_code (grant : DeviceCodeGrantRequest) (client : Client) (ttl : Duration)
    (ip : option IpAddr) (user_agent : option string)
    : M St DeviceCodeExchangeError AccessTokenResponse :=
  grant ← device_exchange_grant grant client;
  browser_session ← device_exchange_browser_session grant;
  session ← device_exchange_session grant client browser_session user_agent;
  let requested_matrix_device_ids := matrix_device_ids (Session_scope session) in
  device_exchange_issue client browser_session session requested_matrix_device_ids ttl ip.
End token_service.

(** ** The endpoint (oauth2/token.rs) *)

Inductive TokenRouteError :=
| Route_Internal
| Route_BadRequest
| Route_PkceVerification (e : CodeChallengeError)
| Route_ClientNotFound
| Route_ClientNotAllowed (id : Ulid)
| Route_InvalidClientCredentials (client_id : Ulid)
| Route_ClientCredentialsVerification (client_id : Ulid)
| Route_GrantNotFound
| Route_InvalidGrant (id : Ulid)
| Route_RefreshTokenNotFound
| Route_RefreshTokenInvalid (id : Ulid)
| Route_SessionInvalid (id : Ulid)
| Route_ClientIDMismatch (expected actual : Ulid)
| Route_DeniedByPolicy (res : EvaluationResult)
| Route_AdminScopeNotAllowed
| Route_UnsupportedGrantType
| Route_UnauthorizedClient (id : Ulid)
| Route_UnexptectedClient (was expected : Ulid)
| Route_NoSuchBrowserSession (id : Ulid)
| Route_NoSuchOAuthSession (id : Ulid)
| Route_NoSuchNextRefreshToken (next previous : Ulid)
| Route_NoSuchNextAccessToken (access_token refresh_token : Ulid)
| Route_NoAccessTokenOnRefreshToken (refresh_token : Ulid)
| Route_DeviceCodeExpired
| Route_DeviceCodePending
| Route_DeviceCodeRejected
| Route_DeviceCodeExchanged
| Route_ProvisionDeviceFailed.

(** The status and code of a rendered error. *)
Definition TokenRouteError_render (e : TokenRouteError) : Z * ClientErrorCode :=
  match e with
  | Route_Internal | Route_ClientCredentialsVerification _ | Route_NoSuchBrowserSession _
  | Route_NoSuchOAuthSession _ | Route_ProvisionDeviceFailed | Route_NoSuchNextRefreshToken _ _
  | Route_NoSuchNextAccessToken _ _ | Route_NoAccessTokenOnRefreshToken _ => (500, ServerError)
  | Route_BadRequest => (400, InvalidRequest)
  | Route_PkceVerification _ => (400, InvalidGrant)
  | Route_ClientNotFound | Route_InvalidClientCredentials _ => (401, InvalidClient)
  | Route_ClientNotAllowed _ | Route_UnauthorizedClient _ | Route_UnexptectedClient _ _ =>
      (401, UnauthorizedClient)
  | Route_DeniedByPolicy _ => (403, InvalidScope)
  | Route_AdminScopeNotAllowed => (400, InvalidScope)
  | Route_DeviceCodeRejected => (403, AccessDenied)
  | Route_DeviceCodeExpired => (403, ExpiredToken)
  | Route_DeviceCodePending => (403, AuthorizationPending)
  | Route_InvalidGrant _ | Route_DeviceCodeExchanged | Route_RefreshTokenNotFound
  | Route_RefreshTokenInvalid _ | Route_SessionInvalid _ | Route_ClientIDMismatch _ _
  | Route_GrantNotFound => (400, InvalidGrant)
  | Route_UnsupportedGrantType => (400, UnsupportedGrantType)
  end.

Definition route_of_code_error (e : AuthorizationCodeExchangeError) : TokenRouteError :=
  match e with
  | Ace_UnauthorizedClient id => Route_UnauthorizedClient id
  | Ace_GrantNotFound => Route_GrantNotFound
  | Ace_InvalidGrant id => Route_InvalidGrant id
  | Ace_PkceVerification err => Route_PkceVerification err
  | Ace_BadRequest => Route_BadRequest
  | Ace_AdminScopeNotAllowed => Route_AdminScopeNotAllowed
  | Ace_UnexpectedClient was expected => Route_UnexptectedClient was expected
  | Ace_NoSuchBrowserSession id => Route_NoSuchBrowserSession id
  | Ace_NoSuchOAuthSession id => Route_NoSuchOAuthSession id
  | Ace_ProvisionDeviceFailed => Route_ProvisionDeviceFailed
  | Ace_Repository _ => Route_Internal
  | Ace_Internal => Route_Internal
  end.

Definition route_of_refresh_error (e : RefreshTokenExchangeError) : TokenRouteError :=
  match e with
  | Rte_UnauthorizedClient id => Route_UnauthorizedClient id
  | Rte_RefreshTokenNotFound => Route_RefreshTokenNotFound
  | Rte_RefreshTokenInvalid id => Route_RefreshTokenInvalid id
  | Rte_SessionInvalid id => Route_SessionInvalid id
  | Rte_ClientIdMismatch expected actual => Route_ClientIDMismatch expected actual
  | Rte_NoSuchOAuthSession id => Route_NoSuchOAuthSession id
  | Rte_NoSuchNextRefreshToken next previous => Route_NoSuchNextRefreshToken next previous
  | Rte_NoSuchNextAccessToken access_token refresh_token =>
      Route_NoSuchNextAccessToken access_token refresh_token
  | Rte_NoAccessTokenOnRefreshToken refresh_token => Route_NoAccessTokenOnRefreshToken refresh_token
  | Rte_Repository _ => Route_Internal
  end.

Definition route_of_credentials_error (e : ClientCredentialsGrantError) : TokenRouteError :=
  match e with
  | Cce_UnauthorizedClient id => Route_UnauthorizedClient id
  | Cce_DeniedByPolicy res => Route_DeniedByPolicy res
  | Cce_AdminScopeNotAllowed => Route_AdminScopeNotAllowed
  | Cce_Repository _ => Route_Internal
  | Cce_Internal => Route_Internal
  end.

Definition route_of_device_error (e : DeviceCodeExchangeError) : TokenRouteError :=
  match e with
  | Dce_UnauthorizedClient id => Route_UnauthorizedClient id
  | Dce_GrantNotFound => Route_GrantNotFound
  | Dce_AdminScopeNotAllowed => Route_AdminScopeNotAllowed
  | Dce_ClientIdMismatch expected actual => Route_ClientIDMismatch expected actual
  | Dce_DeviceCodeExpired => Route_DeviceCodeExpired
  | Dce_DeviceCodePending => Route_DeviceCodePending
  | Dce_DeviceCodeRejected => Route_DeviceCodeRejected
  | Dce_DeviceCodeExchanged => Route_DeviceCodeExchanged
  | Dce_NoSuchBrowserSession id => Route_NoSuchBrowserSession id
  | Dce_ProvisionDeviceFailed => Route_ProvisionDeviceFailed
  | Dce_Repository _ => Route_Internal
  | Dce_Internal => Route_Internal
  end.

Section endpoint.
Context {TX : TokenExternals} {PX : PkceExternals} {UX : UrlExternals}
        {DX : DbExternals} {HX : HandlerExternals} {AX : ClientAuthExternals}.

(** The grant is served: what follows the authentication of the client. *)
Definition token_dispatch (form : AccessTokenRequest) (client : Client) (ttl : Duration)
    (ip : option IpAddr) (user_agent : option string) : M St TokenRouteError AccessTokenResponse :=
  reply ←
    match form with
    | Request_AuthorizationCode grant =>
        try_with route_of_code_error (exchange_authorization_code grant client ttl ip user_agent)
    | Request_RefreshToken grant =>
        try_with route_of_refresh_error (handle_refresh_token grant client ttl ip user_agent)
    | Request_ClientCredentials grant =>
        try_with route_of_credentials_error (handle_client_credentials grant client ttl ip user_agent)
    | Request_DeviceCode grant =>
        try_with route_of_device_error (exchange_device_code grant client ttl ip user_agent)
    | Request_Unsupported => raise Route_UnsupportedGrantType
    end;
  _ ← repo_save;
  mret reply.

(** [handle_post]; a failed extraction is an internal error
    ([impl_from_error_for_route!]). *)
Definition token_handle_post (req : ClientRequest AccessTokenRequest) (ttl : Duration)
    (ip : option IpAddr) (user_agent : option string) : M St TokenRouteError AccessTokenResponse :=
  client_authorization ← of_result (result_map_err (λ _, Route_Internal) (extract_from_request req));
  let credentials := authorization_credentials client_authorization in
  _ ← require policy_instantiates Route_Internal;
  client ← try_with (λ _, Route_Internal) (credentials_fetch credentials);
  client ← ok_or Route_ClientNotFound client;
  _ ← check_credentials (Route_ClientNotAllowed (Client_id client))
        (Route_InvalidClientCredentials (Client_id client))
        (Route_ClientCredentialsVerification (Client_id client)) credentials client;
  form ← ok_or Route_BadRequest (authorization_form client_authorization);
  token_dispatch form client ttl ip user_agent.

(** [post]: the reply, or the rendered error. *)
Definition token_post (req : ClientRequest AccessTokenRequest) (ttl : Duration)
    (ip : option IpAddr) (user_agent : option string) (st : St)
    : result AccessTokenResponse (Z * ClientErrorCode) * St :=
  let '(r, st) := token_handle_post req ttl ip user_agent st in
  (result_map_err TokenRouteError_render r, st).
End endpoint.
