(* ===== verification/Registration.v ===== *)
(** Registration of users: crates/backend/src/handlers/account/service/registration.rs.

    A registration is started with a username and a password, its contacts are
    verified with the codes sent to them, a display name is chosen, and finishing it
    creates the user. The first administrator is appointed with a token of the
    configuration. *)
From S2P Require Import Prelude Ids RateLimit Passwords Scope Pkce Jose Domain Accounts Database Repository Handlers AccountRepository.

Open Scope Z_scope.

(** ** The workflow *)

Record RegistrationProgress := {
  progress_registration : UserRegistration;
  progress_email_authentication : option UserEmailAuthentication;
  progress_phone_authentication : option UserPhoneAuthentication;
}.

Inductive RegistrationWorkflowState :=
| PendingEmailVerification
| PendingPhoneVerification
| PendingDisplayName
| ReadyToFinish
| Completed.

Inductive RegistrationWorkflowEventKind :=
| Event_Started
| Event_EmailVerificationRequested
| Event_EmailVerified
| Event_PhoneVerificationRequested
| Event_PhoneVerified
| Event_Completed.

Record RegistrationWorkflowEvent := {
  event_kind : RegistrationWorkflowEventKind;
  event_occurred_at : DateTime;
}.

Inductive RegistrationWorkflowDeadlineKind := RegistrationExpiresAt.

Record RegistrationWorkflowDeadline := {
  deadline_kind : RegistrationWorkflowDeadlineKind;
  deadline_due_at : DateTime;
}.

Record RegistrationWorkflowSnapshot := {
  snapshot_state : RegistrationWorkflowState;
  snapshot_next_step : option string;
  snapshot_completed_steps : list string;
  snapshot_events : list RegistrationWorkflowEvent;
  snapshot_deadlines : list RegistrationWorkflowDeadline;
}.

(** [Duration::hours(1)], [Duration::seconds(60)] *)
Definition HOUR : Z := 3600 * 1000000.
Definition SIXTY_SECONDS : Z := 60 * 1000000.

Definition is_some {A} (o : option A) : bool := match o with Some _ => true | None => false end.

Definition email_verified (self : RegistrationProgress) : bool :=
  match progress_email_authentication self with
  | None => negb (is_some (UserRegistration_email_authentication_id (progress_registration self)))
  | Some auth => is_some (UserEmailAuthentication_completed_at auth)
  end.

Definition phone_verified (self : RegistrationProgress) : bool :=
  match progress_phone_authentication self with
  | None => negb (is_some (UserRegistration_phone_authentication_id (progress_registration self)))
  | Some auth => is_some (UserPhoneAuthentication_completed_at auth)
  end.

Definition workflow_state (self : RegistrationProgress) : RegistrationWorkflowState :=
  let registration := progress_registration self in
  if is_some (UserRegistration_completed_at registration) then Completed
  else if is_some (UserRegistration_email_authentication_id registration) &&
          negb (email_verified self) then PendingEmailVerification
  else if is_some (UserRegistration_phone_authentication_id registration) &&
          negb (phone_verified self) then PendingPhoneVerification
  else if negb (is_some (UserRegistration_display_name registration)) then PendingDisplayName
  else ReadyToFinish.

Definition next_registration_step (registration : UserRegistration)
    (email_verified phone_verified : bool) : string :=
  if is_some (UserRegistration_email_authentication_id registration) && negb email_verified
  then "verify_email"
  else if is_some (UserRegistration_phone_authentication_id registration) && negb phone_verified
  then "verify_phone"
  else if negb (is_some (UserRegistration_display_name registration)) then "display_name"
  else "finish".

Definition completed_registration_steps (registration : UserRegistration)
    (email_verified phone_verified : bool) : list string :=
  ["register"] ++
  (if is_some (UserRegistration_email_authentication_id registration) && email_verified
   then ["verify_email"] else []) ++
  (if is_some (UserRegistration_phone_authentication_id registration) && phone_verified
   then ["verify_phone"] else []) ++
  (if is_some (UserRegistration_display_name registration) then ["display_name"] else []) ++
  (if is_some (UserRegistration_completed_at registration) then ["finish"] else []).

Definition next_step (self : RegistrationProgress) : string :=
  next_registration_step (progress_registration self) (email_verified self) (phone_verified self).

Definition completed_steps (self : RegistrationProgress) : list string :=
  completed_registration_steps (progress_registration self) (email_verified self)
    (phone_verified self).

Definition event_le (x y : RegistrationWorkflowEvent) : Prop :=
  event_occurred_at x ≤ event_occurred_at y.
#[export] Instance event_le_dec : RelDecision event_le.
Proof. intros x y. unfold event_le. apply _. Defined.

(** The events in the order the source pushes them, then [sort_by_key] (which is stable). *)
Definition pushed_events (self : RegistrationProgress) : list RegistrationWorkflowEvent :=
  let at_ kind t := {| event_kind := kind; event_occurred_at := t |} in
  [at_ Event_Started (UserRegistration_created_at (progress_registration self))] ++
  match progress_email_authentication self with
  | None => []
  | Some auth =>
      at_ Event_EmailVerificationRequested (UserEmailAuthentication_created_at auth) ::
      match UserEmailAuthentication_completed_at auth with
      | None => []
      | Some completed_at => [at_ Event_EmailVerified completed_at]
      end
  end ++
  match progress_phone_authentication self with
  | None => []
  | Some auth =>
      at_ Event_PhoneVerificationRequested (UserPhoneAuthentication_created_at auth) ::
      match UserPhoneAuthentication_completed_at auth with
      | None => []
      | Some completed_at => [at_ Event_PhoneVerified completed_at]
      end
  end ++
  match UserRegistration_completed_at (progress_registration self) with
  | None => []
  | Some completed_at => [at_ Event_Completed completed_at]
  end.

Definition workflow_events (self : RegistrationProgress) : list RegistrationWorkflowEvent :=
  merge_sort event_le (pushed_events self).

Definition workflow_deadlines (self : RegistrationProgress) : list RegistrationWorkflowDeadline :=
  let registration := progress_registration self in
  if is_some (UserRegistration_completed_at registration) then []
  else [{| deadline_kind := RegistrationExpiresAt;
           deadline_due_at := UserRegistration_created_at registration + HOUR |}].

Definition workflow_snapshot (self : RegistrationProgress) : RegistrationWorkflowSnapshot :=
  let state := workflow_state self in
  {| snapshot_state := state;
     snapshot_next_step := match state with Completed => None | _ => Some (next_step self) end;
     snapshot_completed_steps := completed_steps self;
     snapshot_events := workflow_events self;
     snapshot_deadlines := workflow_deadlines self |}.

(** ** Requests, answers and errors *)

Record StartPasswordRegistrationRequest := {
  start_username : string;
  start_email : option string;
  start_phone : option string;
  start_password : string;
  start_user_agent : option string;
  start_ip_address : option IpAddr;
  start_post_auth_action : option Json;
  start_terms_url : option Url;
  start_notification_language : string;
}.

Record BeginPasswordRegistrationRequest := {
  begin_username : string;
  begin_email : option string;
  begin_phone : option string;
  begin_password : string;
  begin_password_confirm : string;
  begin_user_agent : option string;
  begin_ip_address : option IpAddr;
  begin_requester : RequesterFingerprint;
  begin_notification_language : string;
  begin_post_auth_action : option Json;
  begin_password_registration_enabled : bool;
  begin_password_registration_contact_required : bool;
  begin_terms_url : option Url;
}.

Inductive BeginPasswordRegistrationIssue :=
| Issue_RegistrationDisabled
| Issue_UsernameRequired
| Issue_UsernameExists
| Issue_EmailOrPhoneRequired
| Issue_EmailInvalid
| Issue_EmailInUse
| Issue_PhoneInUse
| Issue_PasswordRequired
| Issue_PasswordConfirmRequired
| Issue_PasswordMismatch
| Issue_PasswordTooWeak
| Issue_RateLimited
| Issue_Policy (field code : option string) (message : string).

Definition Issue_as_api_error (self : BeginPasswordRegistrationIssue) : string :=
  match self with
  | Issue_RegistrationDisabled => "registration_disabled"
  | Issue_UsernameRequired => "username_required"
  | Issue_UsernameExists => "username_exists"
  | Issue_EmailOrPhoneRequired => "email_or_phone_required"
  | Issue_EmailInvalid => "email_invalid"
  | Issue_EmailInUse => "email_in_use"
  | Issue_PhoneInUse => "phone_in_use"
  | Issue_PasswordRequired => "password_required"
  | Issue_PasswordConfirmRequired => "password_confirm_required"
  | Issue_PasswordMismatch => "password_mismatch"
  | Issue_PasswordTooWeak => "password_too_weak"
  | Issue_RateLimited => "rate_limited"
  | Issue_Policy field _ message => "policy_" +:+ default "form" field +:+ ":" +:+ message
  end.

Record StartedPasswordRegistration := {
  started_registration : UserRegistration;
  started_email_verified : bool;
  started_phone_verified : bool;
}.

Inductive BeginPasswordRegistrationResult :=
| Begin_Started (started : StartedPasswordRegistration)
| Begin_Rejected (issues : list BeginPasswordRegistrationIssue).

Record RegistrationStatusSummary := {
  status_registration : UserRegistration;
  status_email_pending : bool;
  status_pending_email : option string;
  status_pending_email_sent_at : option DateTime;
  status_phone_pending : bool;
  status_steps_completed : list string;
  status_next_step : string;
}.

Record CompleteRegistrationRequest := {
  complete_registration_ : UserRegistration;
  complete_registration_token : option UserRegistrationToken;
  complete_email_authentication : option UserEmailAuthentication;
  complete_phone_authentication : option UserPhoneAuthentication;
  complete_user_agent : option string;
  complete_upstream_oauth : option (UpstreamOAuthAuthorizationSession * UpstreamOAuthLink);
}.

Record CompletedRegistration := {
  completed_registration : UserRegistration;
  completed_user_session : BrowserSession;
}.

Record PreparedRegistrationCompletion := {
  prepared_registration : UserRegistration;
  prepared_registration_token : option UserRegistrationToken;
  prepared_email_authentication : option UserEmailAuthentication;
  prepared_phone_authentication : option UserPhoneAuthentication;
  prepared_upstream_oauth : option (UpstreamOAuthAuthorizationSession * UpstreamOAuthLink);
}.

Definition into_request (self : PreparedRegistrationCompletion) (user_agent : option string)
    : CompleteRegistrationRequest :=
  {| complete_registration_ := prepared_registration self;
     complete_registration_token := prepared_registration_token self;
     complete_email_authentication := prepared_email_authentication self;
     complete_phone_authentication := prepared_phone_authentication self;
     complete_user_agent := user_agent;
     complete_upstream_oauth := prepared_upstream_oauth self |}.

(** [StartPasswordRegistrationError] and [BeginPasswordRegistrationError] *)
Inductive PasswordRegistrationError :=
| Register_Repository (error : DatabaseError)
| Register_Internal (error : AnyhowError).

Inductive LoadRegistrationProgressError :=
| Load_NotFound
| Load_Repository (error : DatabaseError).

Inductive ResendRegistrationVerificationStatus :=
| Status_RegistrationCompleted
| Status_RegistrationExpired
| Status_Resent
| Status_AlreadyVerified.

Inductive ResendRegistrationVerificationError :=
| ResendVerification_NotFound
| ResendVerification_RateLimited
| ResendVerification_Repository (error : DatabaseError).

(** [VerifyRegistrationEmailCodeError] and [VerifyRegistrationPhoneCodeError] *)
Inductive VerifyRegistrationCodeError :=
| Verify_NotFound
| Verify_RegistrationCompleted
| Verify_NoAuthentication
| Verify_AuthenticationMissing
| Verify_AlreadyVerified
| Verify_RateLimited
| Verify_InvalidCode
| Verify_Repository (error : DatabaseError).

Inductive SetRegistrationDisplayNameError :=
| DisplayName_NotFound
| DisplayName_RegistrationCompleted
| DisplayName_Invalid
| DisplayName_Repository (error : DatabaseError).

Inductive RegistrationVerificationOutcome :=
| Verification_Advanced (next_step : string)
| Verification_RegistrationCompleted
| Verification_AlreadyVerified
| Verification_InvalidCode
| Verification_RateLimited.

Inductive RegistrationVerificationError :=
| VerificationError_NotFound
| VerificationError_NotAvailable
| VerificationError_Repository (error : DatabaseError).

Inductive RegistrationResendOutcome :=
| Resend_Resent
| Resend_AlreadyVerified
| Resend_RegistrationCompleted
| Resend_RegistrationExpired
| Resend_RateLimited.

Inductive RegistrationResendError :=
| ResendError_NotFound
| ResendError_Repository (error : DatabaseError).

Inductive RegistrationEmailChangeOutcome :=
| Change_Updated
| Change_AlreadyVerified
| Change_RegistrationCompleted
| Change_RegistrationExpired
| Change_InvalidEmail
| Change_EmailInUse
| Change_RateLimited.

Inductive RegistrationEmailChangeError :=
| ChangeError_NotFound
| ChangeError_NotAvailable
| ChangeError_Repository (error : DatabaseError).

Inductive RegistrationDisplayNameOutcome :=
| Name_Advanced (next_step : string)
| Name_RegistrationCompleted
| Name_InvalidDisplayName.

Inductive RegistrationDisplayNameWorkflowError :=
| NameError_NotFound
| NameError_Repository (error : DatabaseError).

Inductive RegistrationFinishOutcome :=
| Finish_Completed (completed : CompletedRegistration)
| Finish_Rejected (error : string).

Inductive RegistrationFinishError :=
| Finish_NotFound
| Finish_Repository (error : DatabaseError)
| Finish_Internal (error : AnyhowError).

Inductive CheckRegistrationFinishEligibilityError :=
| Eligibility_RegistrationExpired
| Eligibility_BrowserSessionMissing
| Eligibility_UsernameTaken
| Eligibility_UsernameNotAvailable
| Eligibility_Repository (error : DatabaseError).

Inductive PrepareRegistrationCompletionError :=
| Prepare_RegistrationTokenRequired
| Prepare_RegistrationTokenMissing
| Prepare_RegistrationTokenInvalid
| Prepare_EmailAuthenticationMissing
| Prepare_EmailNotVerified
| Prepare_EmailInUse (email : string)
| Prepare_PhoneAuthenticationMissing
| Prepare_PhoneNotVerified
| Prepare_PhoneInUse
| Prepare_UpstreamOAuthSessionMissing
| Prepare_UpstreamOAuthLinkMissing
| Prepare_UpstreamOAuthLinkAlreadyUsed
| Prepare_DisplayNameRequired
| Prepare_Repository (error : DatabaseError).

Inductive LoadRegistrationFinishPreparationError :=
| Preparation_NotFound
| Preparation_AlreadyCompleted (registration : UserRegistration)
| Preparation_Repository (error : DatabaseError)
| Preparation_Eligibility (registration : UserRegistration)
    (source : CheckRegistrationFinishEligibilityError)
| Preparation_Prepare (registration : UserRegistration)
    (source : PrepareRegistrationCompletionError).

Inductive PrepareAdminBootstrapError :=
| Bootstrap_InvalidToken
| Bootstrap_Repository (error : DatabaseError).

Inductive ClaimBootstrapAdminOutcome := Claim_Claimed | Claim_Unavailable | Claim_InvalidToken.

Inductive ClaimBootstrapAdminError :=
| Claim_NotFound
| Claim_Repository (error : DatabaseError).

(** ** What registration is given *)

(** [pasion_policy::RegisterInput] of a password registration. *)
Record RegisterInput := {
  register_username : string;
  register_email : option string;
  register_ip_address : option IpAddr;
  register_user_agent : option string;
}.

(** [pasion_policy::Violation], with its code as a text. *)
Record RegisterViolation := {
  register_violation_msg : string;
  register_violation_field : option string;
  register_violation_code : option string;
}.

Class RegistrationExternals := {
  (** [lettre::Address::from_str(..).is_ok()] *)
  address_is_ok : string → bool;
  (** [policy_factory.instantiate()] and [evaluate_register] *)
  evaluate_register : RegisterInput → result (list RegisterViolation) AnyhowError;
}.

(** [homeserver.is_localpart_available(localpart)] *)
Definition Homeserver : Type := string → result bool AnyhowError.

(** ** The service *)

Section registration.
Context {UX : UrlExternals} {DX : DbExternals} {LX : LimiterExternals} {XX : AccountExternals}
        {WX : PasswordExternals} {RX : RegistrationExternals}.

Definition load_registration_progress (registration_id : Ulid)
    : M St LoadRegistrationProgressError RegistrationProgress :=
  registration ← try_with Load_Repository (user_registration_lookup registration_id);
  registration ← ok_or Load_NotFound registration;
  email_authentication ←
    match UserRegistration_email_authentication_id registration with
    | Some id => try_with Load_Repository (user_email_lookup_authentication id)
    | None => mret None
    end;
  phone_authentication ←
    match UserRegistration_phone_authentication_id registration with
    | Some id => try_with Load_Repository (user_phone_lookup_authentication id)
    | None => mret None
    end;
  mret {| progress_registration := registration;
          progress_email_authentication := email_authentication;
          progress_phone_authentication := phone_authentication |}.

Definition registration_status (progress : RegistrationProgress) : RegistrationStatusSummary :=
  let workflow := workflow_snapshot progress in
  let registration := progress_registration progress in
  let pending :=
    match progress_email_authentication progress with
    | Some auth => if is_some (UserEmailAuthentication_completed_at auth) then None else Some auth
    | None => None
    end in
  {| status_registration := registration;
     status_email_pending :=
       is_some (UserRegistration_email_authentication_id registration) &&
       negb (email_verified progress);
     status_pending_email := UserEmailAuthentication_email <$> pending;
     status_pending_email_sent_at := UserEmailAuthentication_created_at <$> pending;
     status_phone_pending :=
       is_some (UserRegistration_phone_authentication_id registration) &&
       negb (phone_verified progress);
     status_steps_completed := snapshot_completed_steps workflow;
     status_next_step := default (next_step progress) (snapshot_next_step workflow) |}.

Definition load_registration_status (registration_id : Ulid)
    : M St LoadRegistrationProgressError RegistrationStatusSummary :=
  progress ← load_registration_progress registration_id;
  mret (registration_status progress).

(** The verification of an email address, begun. *)
Definition start_email_authentication (email : string) (registration : UserRegistration)
    (language : string) : M St DatabaseError UserRegistration :=
  user_email_authentication ← user_email_add_authentication_for_registration email registration;
  _ ← schedule_notification
        (Target_Email (UserEmailAuthentication_id user_email_authentication)) language;
  user_registration_set_email_authentication registration user_email_authentication.

Definition start_phone_authentication (phone : string) (registration : UserRegistration)
    (language : string) : M St DatabaseError UserRegistration :=
  user_phone_authentication ← user_phone_add_authentication_for_registration phone registration;
  _ ← schedule_notification
        (Target_Phone (UserPhoneAuthentication_id user_phone_authentication)) language;
  user_registration_set_phone_authentication registration user_phone_authentication.

(** [password_manager.hash(rng, password)] *)
Definition hash_password (password_manager : PasswordManager) (password : string)
    : M St AnyhowError (Z * string) :=
  hashed ← with_rng (PasswordManager_hash password_manager password);
  of_result hashed.

Definition start_password_registration (password_manager : PasswordManager)
    (request : StartPasswordRegistrationRequest)
    : M St PasswordRegistrationError StartedPasswordRegistration :=
  registration ← try_with Register_Repository
    (user_registration_add (start_username request) (start_ip_address request)
       (start_user_agent request) (start_post_auth_action request));
  registration ←
    match start_terms_url request with
    | Some terms_url =>
        try_with Register_Repository (user_registration_set_terms_url registration terms_url)
    | None => mret registration
    end;
  registration ←
    match start_email request with
    | Some email =>
        try_with Register_Repository
          (start_email_authentication email registration (start_notification_language request))
    | None => mret registration
    end;
  registration ←
    match start_phone request with
    | Some phone =>
        try_with Register_Repository
          (start_phone_authentication phone registration (start_notification_language request))
    | None => mret registration
    end;
  hashed ← try_with Register_Internal (hash_password password_manager (start_password request));
  let '(version, hashed_password) := hashed in
  registration ← try_with Register_Repository
    (user_registration_set_password registration hashed_password version);
  _ ← repo_save;
  mret {| started_registration := registration;
          started_email_verified := negb (is_some (start_email request));
          started_phone_verified := negb (is_some (start_phone request)) |}.

(** The issues with the username; a homeserver that does not answer is not asked again. *)
Definition username_issues (homeserver : Homeserver) (username : string)
    : M St DatabaseError (list BeginPasswordRegistrationIssue) :=
  if bool_decide (username = "") then mret [Issue_UsernameRequired]
  else
    exists_ ← user_exists username;
    mret (if (exists_ : bool) then [Issue_UsernameExists]
          else match homeserver username with
               | Ok false => [Issue_UsernameExists]
               | Ok true | Err _ => []
               end).

Definition email_issues (email_str : string)
    : M St DatabaseError (option string * list BeginPasswordRegistrationIssue) :=
  if bool_decide (email_str = "") then mret (None, [])
  else if negb (address_is_ok email_str) then mret (None, [Issue_EmailInvalid])
  else
    count ← user_email_count (for_email email_str);
    mret (if bool_decide (0 < count)%nat then (None, [Issue_EmailInUse]) else (Some email_str, [])).

Definition phone_issues (phone_str : string)
    : M St DatabaseError (option string * list BeginPasswordRegistrationIssue) :=
  if bool_decide (phone_str = "") then mret (None, [])
  else
    phone ← user_phone_find_by_phone phone_str;
    mret (if is_some phone then (None, [Issue_PhoneInUse]) else (Some phone_str, [])).

Definition password_issues (password password_confirm : string)
    : list BeginPasswordRegistrationIssue :=
  (if bool_decide (password = "") then [Issue_PasswordRequired] else []) ++
  (if bool_decide (password_confirm = "") then [Issue_PasswordConfirmRequired] else []) ++
  (if bool_decide (password = password_confirm) then [] else [Issue_PasswordMismatch]).

(** Whether a check of the limiter refused. *)
Definition is_limited {E F} (m : M Limiter E ()) : M St F bool := λ st,
  match on_limiter m st with
  | (Ok _, st') => (Ok false, st')
  | (Err _, st') => (Ok true, st')
  end.

(** The three limits of a registration are all asked. *)
Definition rate_limit_issues {F} (requester : RequesterFingerprint) (email phone : option string)
    : M St F (list BeginPasswordRegistrationIssue) :=
  by_requester ← is_limited (check_registration requester);
  by_email ← match email with
             | Some email => is_limited (check_email_authentication_email requester email)
             | None => mret false
             end;
  by_phone ← match phone with
             | Some phone => is_limited (check_phone_authentication_phone requester phone)
             | None => mret false
             end;
  mret (if by_requester || by_email || by_phone then [Issue_RateLimited] else []).

(** [if issues.is_empty() { .. }] *)
Definition if_no_issue {F} (issues : list BeginPasswordRegistrationIssue)
    (more : M St F (list BeginPasswordRegistrationIssue)) : M St F (list BeginPasswordRegistrationIssue) :=
  match issues with [] => more | _ => mret issues end.

Definition begin_password_registration (password_manager : PasswordManager)
    (homeserver : Homeserver) (request : BeginPasswordRegistrationRequest)
    : M St PasswordRegistrationError BeginPasswordRegistrationResult :=
  if negb (begin_password_registration_enabled request)
  then mret (Begin_Rejected [Issue_RegistrationDisabled])
  else
    issues ← try_with Register_Repository (username_issues homeserver (begin_username request));
    let email_str := default "" (begin_email request) in
    let phone_str := default "" (begin_phone request) in
    let issues := issues ++
      if begin_password_registration_contact_required request &&
         bool_decide (email_str = "") && bool_decide (phone_str = "")
      then [Issue_EmailOrPhoneRequired] else [] in
    checked ← try_with Register_Repository (email_issues email_str);
    let '(email, more) := checked in
    let issues := issues ++ more in
    checked ← try_with Register_Repository (phone_issues phone_str);
    let '(phone, more) := checked in
    let issues := issues ++ more ++
      password_issues (begin_password request) (begin_password_confirm request) in
    issues ← if_no_issue issues
      (complex ← try_with Register_Internal
                   (of_result (is_password_complex_enough password_manager (begin_password request)));
       mret (if (complex : bool) then [] else [Issue_PasswordTooWeak]));
    issues ← if_no_issue issues
      (violations ← try_with Register_Internal (of_result (evaluate_register
         {| register_username := begin_username request;
            register_email := email;
            register_ip_address := begin_ip_address request;
            register_user_agent := begin_user_agent request |}));
       mret ((λ v, Issue_Policy (register_violation_field v) (register_violation_code v)
                     (register_violation_msg v)) <$> violations));
    issues ← if_no_issue issues (rate_limit_issues (begin_requester request) email phone);
    match issues with
    | [] =>
        started ← start_password_registration password_manager
          {| start_username := begin_username request;
             start_email := email;
             start_phone := phone;
             start_password := begin_password request;
             start_user_agent := begin_user_agent request;
             start_ip_address := begin_ip_address request;
             start_post_auth_action := begin_post_auth_action request;
             start_terms_url := begin_terms_url request;
             start_notification_language := begin_notification_language request |};
        mret (Begin_Started started)
    | _ => mret (Begin_Rejected issues)
    end.

Definition registration_has_expired (created_at now : DateTime) : bool := created_at + HOUR <=? now.

(** Sending the code of an email address again. *)
Definition resend_email_code (requester : RequesterFingerprint) (registration : UserRegistration)
    (auth : UserEmailAuthentication) (language : string)
    : M St ResendRegistrationVerificationError ResendRegistrationVerificationStatus :=
  now ← clock_now;
  _ ← require (negb (now <? UserEmailAuthentication_created_at auth + SIXTY_SECONDS))
        ResendVerification_RateLimited;
  limited ← is_limited (check_email_authentication_send_code requester
              (UserEmailAuthentication_id auth) (UserEmailAuthentication_email auth));
  _ ← require (negb limited) ResendVerification_RateLimited;
  allowed ← on_limiter (check_registration_email_resend_cooldown (UserRegistration_id registration));
  _ ← require allowed ResendVerification_RateLimited;
  _ ← try_with ResendVerification_Repository
        (schedule_notification (Target_Email (UserEmailAuthentication_id auth)) language);
  _ ← repo_save;
  mret Status_Resent.

Definition resend_phone_code (requester : RequesterFingerprint) (auth : UserPhoneAuthentication)
    (language : string)
    : M St ResendRegistrationVerificationError ResendRegistrationVerificationStatus :=
  limited ← is_limited (check_phone_authentication_send_code requester
              (UserPhoneAuthentication_id auth) (UserPhoneAuthentication_phone auth));
  _ ← require (negb limited) ResendVerification_RateLimited;
  _ ← try_with ResendVerification_Repository
        (schedule_notification (Target_Phone (UserPhoneAuthentication_id auth)) language);
  _ ← repo_save;
  mret Status_Resent.

Definition resend_pending_registration_verification (requester : RequesterFingerprint)
    (registration_id : Ulid) (language : string)
    : M St ResendRegistrationVerificationError ResendRegistrationVerificationStatus :=
  registration ← try_with ResendVerification_Repository (user_registration_lookup registration_id);
  registration ← ok_or ResendVerification_NotFound registration;
  if is_some (UserRegistration_completed_at registration) then mret Status_RegistrationCompleted
  else
    now ← clock_now;
    if registration_has_expired (UserRegistration_created_at registration) now
    then mret Status_RegistrationExpired
    else
      email_auth ←
        match UserRegistration_email_authentication_id registration with
        | None => mret None
        | Some id =>
            auth ← try_with ResendVerification_Repository (user_email_lookup_authentication id);
            auth ← ok_or ResendVerification_NotFound auth;
            mret (if is_some (UserEmailAuthentication_completed_at auth) then None else Some auth)
        end;
      match email_auth with
      | Some auth => resend_email_code requester registration auth language
      | None =>
          phone_auth ←
            match UserRegistration_phone_authentication_id registration with
            | None => mret None
            | Some id =>
                auth ← try_with ResendVerification_Repository (user_phone_lookup_authentication id);
                auth ← ok_or ResendVerification_NotFound auth;
                mret (if is_some (UserPhoneAuthentication_completed_at auth) then None else Some auth)
            end;
          match phone_auth with
          | Some auth => resend_phone_code requester auth language
          | None => mret Status_AlreadyVerified
          end
      end.

Definition verify_load_error (error : LoadRegistrationProgressError) : VerifyRegistrationCodeError :=
  match error with
  | Load_NotFound => Verify_NotFound
  | Load_Repository error => Verify_Repository error
  end.

Definition verify_registration_email_code (registration_id : Ulid) (code : string)
    : M St VerifyRegistrationCodeError RegistrationProgress :=
  progress ← try_with verify_load_error (load_registration_progress registration_id);
  let registration := progress_registration progress in
  _ ← require (negb (is_some (UserRegistration_completed_at registration)))
        Verify_RegistrationCompleted;
  _ ← require (is_some (UserRegistration_email_authentication_id registration))
        Verify_NoAuthentication;
  email_authentication ← ok_or Verify_AuthenticationMissing (progress_email_authentication progress);
  _ ← require (negb (is_some (UserEmailAuthentication_completed_at email_authentication)))
        Verify_AlreadyVerified;
  limited ← is_limited
    (check_email_authentication_attempt (UserEmailAuthentication_id email_authentication));
  _ ← require (negb limited) Verify_RateLimited;
  code ← try_with Verify_Repository (user_email_find_authentication_code email_authentication code);
  code ← ok_or Verify_InvalidCode code;
  email_authentication ← try_with Verify_Repository
    (user_email_complete_authentication_with_code email_authentication code);
  _ ← repo_save;
  mret {| progress_registration := registration;
          progress_email_authentication := Some email_authentication;
          progress_phone_authentication := progress_phone_authentication progress |}.

Definition verify_registration_phone_code (registration_id : Ulid) (code : string)
    : M St VerifyRegistrationCodeError RegistrationProgress :=
  progress ← try_with verify_load_error (load_registration_progress registration_id);
  let registration := progress_registration progress in
  _ ← require (negb (is_some (UserRegistration_completed_at registration)))
        Verify_RegistrationCompleted;
  _ ← require (is_some (UserRegistration_phone_authentication_id registration))
        Verify_NoAuthentication;
  phone_authentication ← ok_or Verify_AuthenticationMissing (progress_phone_authentication progress);
  _ ← require (negb (is_some (UserPhoneAuthentication_completed_at phone_authentication)))
        Verify_AlreadyVerified;
  limited ← is_limited
    (check_phone_authentication_attempt (UserPhoneAuthentication_id phone_authentication));
  _ ← require (negb limited) Verify_RateLimited;
  code ← try_with Verify_Repository (user_phone_find_authentication_code phone_authentication code);
  code ← ok_or Verify_InvalidCode code;
  phone_authentication ← try_with Verify_Repository
    (user_phone_complete_authentication_with_code phone_authentication code);
  _ ← repo_save;
  mret {| progress_registration := registration;
          progress_email_authentication := progress_email_authentication progress;
          progress_phone_authentication := Some phone_authentication |}.

(** The name to keep: the username when skipped, else the trimmed text, of 1 to 255 bytes. *)
Definition chosen_display_name (registration : UserRegistration) (display_name : option string)
    (skip : bool) : option string :=
  if skip then Some (UserRegistration_username registration)
  else
    let display_name := trim (default "" display_name) in
    if bool_decide (display_name = "") || bool_decide (255 < String.length display_name)%nat
    then None else Some display_name.

Definition set_registration_display_name (registration_id : Ulid) (display_name : option string)
    (skip : bool) : M St SetRegistrationDisplayNameError UserRegistration :=
  registration ← try_with DisplayName_Repository (user_registration_lookup registration_id);
  registration ← ok_or DisplayName_NotFound registration;
  _ ← require (negb (is_some (UserRegistration_completed_at registration)))
        DisplayName_RegistrationCompleted;
  display_name ← ok_or DisplayName_Invalid (chosen_display_name registration display_name skip);
  registration ← try_with DisplayName_Repository
    (user_registration_set_display_name registration display_name);
  _ ← repo_save;
  mret registration.

(** The answers made from the outcome of a run, errors included. *)
Definition catch {E F A B} (m : M St E A) (handle : result A E → result B F) : M St F B := λ st,
  (handle (m st).1, (m st).2).

Definition resend_registration_verification (requester : RequesterFingerprint)
    (registration_id : Ulid) (language : string)
    : M St RegistrationResendError RegistrationResendOutcome :=
  catch (resend_pending_registration_verification requester registration_id language) (λ res,
    match res with
    | Ok Status_Resent => Ok Resend_Resent
    | Ok Status_AlreadyVerified => Ok Resend_AlreadyVerified
    | Ok Status_RegistrationCompleted => Ok Resend_RegistrationCompleted
    | Ok Status_RegistrationExpired => Ok Resend_RegistrationExpired
    | Err ResendVerification_NotFound => Err ResendError_NotFound
    | Err ResendVerification_RateLimited => Ok Resend_RateLimited
    | Err (ResendVerification_Repository error) => Err (ResendError_Repository error)
    end).

Definition change_load_error (error : LoadRegistrationProgressError) : RegistrationEmailChangeError :=
  match error with
  | Load_NotFound => ChangeError_NotFound
  | Load_Repository error => ChangeError_Repository error
  end.

(** The checks of a new address, in their order: the first that refuses gives the outcome. *)
Definition email_change_refused (requester : RequesterFingerprint) (registration : UserRegistration)
    (current_auth : UserEmailAuthentication) (email : string)
    : M St RegistrationEmailChangeError (option RegistrationEmailChangeOutcome) :=
  if negb (address_is_ok email) then mret (Some Change_InvalidEmail)
  else
    found ← try_with ChangeError_Repository (user_email_find_by_email email);
    if is_some found then mret (Some Change_EmailInUse)
    else
      limited ← is_limited (check_email_authentication_email requester email);
      if (limited : bool) then mret (Some Change_RateLimited)
      else
        now ← clock_now;
        if now <? UserEmailAuthentication_created_at current_auth + SIXTY_SECONDS
        then mret (Some Change_RateLimited)
        else
          allowed ← on_limiter
            (check_registration_email_resend_cooldown (UserRegistration_id registration));
          mret (if (allowed : bool) then None else Some Change_RateLimited).

Definition change_registration_email (requester : RequesterFingerprint) (registration_id : Ulid)
    (email language : string) : M St RegistrationEmailChangeError RegistrationEmailChangeOutcome :=
  progress ← try_with change_load_error (load_registration_progress registration_id);
  let registration := progress_registration progress in
  if is_some (UserRegistration_completed_at registration) then mret Change_RegistrationCompleted
  else
    now ← clock_now;
    if registration_has_expired (UserRegistration_created_at registration) now
    then mret Change_RegistrationExpired
    else
      _ ← require (is_some (UserRegistration_email_authentication_id registration))
            ChangeError_NotAvailable;
      current_auth ← ok_or ChangeError_NotFound (progress_email_authentication progress);
      if is_some (UserEmailAuthentication_completed_at current_auth)
      then mret Change_AlreadyVerified
      else
        let email := trim email in
        refused ← email_change_refused requester registration current_auth email;
        match refused with
        | Some outcome => mret outcome
        | None =>
            _ ← try_with ChangeError_Repository
                  (start_email_authentication email registration language);
            _ ← repo_save;
            mret Change_Updated
        end.

Definition code_outcome (res : result RegistrationProgress VerifyRegistrationCodeError)
    : result RegistrationVerificationOutcome RegistrationVerificationError :=
  match res with
  | Ok progress => Ok (Verification_Advanced (next_step progress))
  | Err Verify_NotFound | Err Verify_AuthenticationMissing => Err VerificationError_NotFound
  | Err Verify_NoAuthentication => Err VerificationError_NotAvailable
  | Err Verify_RegistrationCompleted => Ok Verification_RegistrationCompleted
  | Err Verify_AlreadyVerified => Ok Verification_AlreadyVerified
  | Err Verify_RateLimited => Ok Verification_RateLimited
  | Err Verify_InvalidCode => Ok Verification_InvalidCode
  | Err (Verify_Repository error) => Err (VerificationError_Repository error)
  end.

Definition submit_registration_email_code (registration_id : Ulid) (code : string)
    : M St RegistrationVerificationError RegistrationVerificationOutcome :=
  catch (verify_registration_email_code registration_id code) code_outcome.

Definition submit_registration_phone_code (registration_id : Ulid) (code : string)
    : M St RegistrationVerificationError RegistrationVerificationOutcome :=
  catch (verify_registration_phone_code registration_id code) code_outcome.

Definition submit_registration_display_name (registration_id : Ulid) (display_name : option string)
    (skip : bool) : M St RegistrationDisplayNameWorkflowError RegistrationDisplayNameOutcome :=
  catch (set_registration_display_name registration_id display_name skip) (λ res,
    match res with
    | Ok _ => Ok (Name_Advanced "finish")
    | Err DisplayName_NotFound => Err NameError_NotFound
    | Err DisplayName_RegistrationCompleted => Ok Name_RegistrationCompleted
    | Err DisplayName_Invalid => Ok Name_InvalidDisplayName
    | Err (DisplayName_Repository error) => Err (NameError_Repository error)
    end).

(** ** Finishing *)

Definition check_registration_finish_eligibility (homeserver : Homeserver)
    (registration : UserRegistration) (browser_session_present : option bool)
    : M St CheckRegistrationFinishEligibilityError () :=
  now ← clock_now;
  _ ← require (negb (HOUR <? now - UserRegistration_created_at registration))
        Eligibility_RegistrationExpired;
  _ ← require (negb (bool_decide (browser_session_present = Some false)))
        Eligibility_BrowserSessionMissing;
  exists_ ← try_with Eligibility_Repository (user_exists (UserRegistration_username registration));
  _ ← require (negb exists_) Eligibility_UsernameTaken;
  match homeserver (UserRegistration_username registration) with
  | Ok true | Err _ => mret tt
  | Ok false => raise Eligibility_UsernameNotAvailable
  end.

Definition prepare_registration_token (registration : UserRegistration)
    (registration_token_required : bool)
    : M St PrepareRegistrationCompletionError (option UserRegistrationToken) :=
  if registration_token_required then
    match UserRegistration_user_registration_token_id registration with
    | Some registration_token_id =>
        registration_token ← try_with Prepare_Repository
          (user_registration_token_lookup registration_token_id);
        registration_token ← ok_or Prepare_RegistrationTokenMissing registration_token;
        now ← clock_now;
        _ ← require (UserRegistrationToken_is_valid registration_token now)
              Prepare_RegistrationTokenInvalid;
        mret (Some registration_token)
    | None => raise Prepare_RegistrationTokenRequired
    end
  else mret None.

Definition prepare_email (progress : RegistrationProgress)
    : M St PrepareRegistrationCompletionError (option UserEmailAuthentication) :=
  if is_some (UserRegistration_email_authentication_id (progress_registration progress)) then
    email_authentication ← ok_or Prepare_EmailAuthenticationMissing
      (progress_email_authentication progress);
    _ ← require (is_some (UserEmailAuthentication_completed_at email_authentication))
          Prepare_EmailNotVerified;
    count ← try_with Prepare_Repository
      (user_email_count (for_email (UserEmailAuthentication_email email_authentication)));
    _ ← require (negb (bool_decide (0 < count)%nat))
          (Prepare_EmailInUse (UserEmailAuthentication_email email_authentication));
    mret (Some email_authentication)
  else mret None.

Definition prepare_phone (progress : RegistrationProgress)
    : M St PrepareRegistrationCompletionError (option UserPhoneAuthentication) :=
  if is_some (UserRegistration_phone_authentication_id (progress_registration progress)) then
    phone_authentication ← ok_or Prepare_PhoneAuthenticationMissing
      (progress_phone_authentication progress);
    _ ← require (is_some (UserPhoneAuthentication_completed_at phone_authentication))
          Prepare_PhoneNotVerified;
    found ← try_with Prepare_Repository
      (user_phone_find_by_phone (UserPhoneAuthentication_phone phone_authentication));
    _ ← require (negb (is_some found)) Prepare_PhoneInUse;
    mret (Some phone_authentication)
  else mret None.

Definition prepare_upstream (registration : UserRegistration)
    : M St PrepareRegistrationCompletionError
        (option (UpstreamOAuthAuthorizationSession * UpstreamOAuthLink)) :=
  match UserRegistration_upstream_oauth_authorization_session_id registration with
  | Some session_id =>
      session ← try_with Prepare_Repository (upstream_oauth_session_lookup session_id);
      session ← ok_or Prepare_UpstreamOAuthSessionMissing session;
      link_id ← ok_or Prepare_UpstreamOAuthLinkMissing
        (UpstreamState_link_id (UpstreamSession_state session));
      link ← try_with Prepare_Repository (upstream_oauth_link_lookup link_id);
      link ← ok_or Prepare_UpstreamOAuthLinkMissing link;
      _ ← require (negb (is_some (UpstreamLink_user_id link))) Prepare_UpstreamOAuthLinkAlreadyUsed;
      mret (Some (session, link))
  | None => mret None
  end.

Definition prepare_registration_completion (progress : RegistrationProgress)
    (registration_token_required : bool)
    : M St PrepareRegistrationCompletionError PreparedRegistrationCompletion :=
  let registration := progress_registration progress in
  registration_token ← prepare_registration_token registration registration_token_required;
  email_authentication ← prepare_email progress;
  phone_authentication ← prepare_phone progress;
  upstream_oauth ← prepare_upstream registration;
  _ ← require (is_some (UserRegistration_display_name registration)) Prepare_DisplayNameRequired;
  mret {| prepared_registration := registration;
          prepared_registration_token := registration_token;
          prepared_email_authentication := email_authentication;
          prepared_phone_authentication := phone_authentication;
          prepared_upstream_oauth := upstream_oauth |}.

Definition preparation_load_error (error : LoadRegistrationProgressError)
    : LoadRegistrationFinishPreparationError :=
  match error with
  | Load_NotFound => Preparation_NotFound
  | Load_Repository error => Preparation_Repository error
  end.

Definition load_registration_finish_preparation (homeserver : Homeserver) (registration_id : Ulid)
    (browser_session_present : option bool) (registration_token_required : bool)
    : M St LoadRegistrationFinishPreparationError PreparedRegistrationCompletion :=
  progress ← try_with preparation_load_error (load_registration_progress registration_id);
  let registration := progress_registration progress in
  _ ← require (negb (is_some (UserRegistration_completed_at registration)))
        (Preparation_AlreadyCompleted registration);
  _ ← try_with (Preparation_Eligibility registration)
        (check_registration_finish_eligibility homeserver registration browser_session_present);
  try_with (Preparation_Prepare registration)
    (prepare_registration_completion progress registration_token_required).

Definition normalize_optional_token (token : option string) : option string :=
  match trim <$> token with
  | Some token => if bool_decide (token = "") then None else Some token
  | None => None
  end.

Definition prepare_admin_bootstrap (configured_bootstrap_admin_token : option string)
    (requested_bootstrap_admin_token : option string) : M St PrepareAdminBootstrapError bool :=
  _ ← try_with Bootstrap_Repository user_acquire_bootstrap_admin_lock;
  admin_count ← try_with Bootstrap_Repository (user_count can_request_admin_only);
  if bool_decide (0 < admin_count)%nat then mret false
  else
    match normalize_optional_token configured_bootstrap_admin_token with
    | None => mret false
    | Some configured =>
        match normalize_optional_token requested_bootstrap_admin_token with
        | Some requested =>
            if bool_decide (requested = configured) then mret true else raise Bootstrap_InvalidToken
        | None => mret false
        end
    end.

(** The user of a registration, with its profile. *)
Definition complete_user (registration : UserRegistration) (grant_admin : bool)
    : M St DatabaseError User :=
  user ← user_add (UserRegistration_username registration);
  user ← (if grant_admin then user_set_can_request_admin user true else mret user);
  if is_some (UserRegistration_display_name registration) ||
     is_some (UserRegistration_avatar_url registration)
  then user_update_profile user
         {| profile_display_name := Some <$> UserRegistration_display_name registration;
            profile_avatar_url := Some <$> UserRegistration_avatar_url registration;
            profile_preferred_locale := None |}
  else mret user.

Definition complete_password (registration : UserRegistration) (user : User)
    (user_session : BrowserSession) : M St DatabaseError () :=
  match UserRegistration_password registration with
  | Some password =>
      user_password ← user_password_add user (RegistrationPassword_version password)
        (RegistrationPassword_hashed_password password) None;
      _ ← browser_session_authenticate_with_password user_session user_password;
      mret tt
  | None => mret tt
  end.

Definition complete_upstream
    (upstream_oauth : option (UpstreamOAuthAuthorizationSession * UpstreamOAuthLink))
    (user : User) (user_session : BrowserSession) : M St DatabaseError () :=
  match upstream_oauth with
  | Some (upstream_session, upstream_link) =>
      upstream_session ← upstream_oauth_session_consume upstream_session user_session;
      _ ← upstream_oauth_link_associate_to_user upstream_link user;
      _ ← browser_session_authenticate_with_upstream user_session upstream_session;
      mret tt
  | None => mret tt
  end.

Definition complete_registration (request : CompleteRegistrationRequest) (grant_admin : bool)
    : M St DatabaseError CompletedRegistration :=
  registration ← user_registration_complete (complete_registration_ request);
  _ ← match complete_registration_token request with
      | Some registration_token =>
          _ ← user_registration_token_use_token registration_token; mret tt
      | None => mret tt
      end;
  user ← complete_user registration grant_admin;
  user_session ← browser_session_add user (complete_user_agent request);
  _ ← match complete_email_authentication request with
      | Some email_authentication =>
          _ ← user_email_add user (UserEmailAuthentication_email email_authentication); mret tt
      | None => mret tt
      end;
  _ ← match complete_phone_authentication request with
      | Some phone_authentication =>
          _ ← user_phone_add user (UserPhoneAuthentication_phone phone_authentication); mret tt
      | None => mret tt
      end;
  _ ← complete_password registration user user_session;
  _ ← complete_upstream (complete_upstream_oauth request) user user_session;
  _ ← match UserRegistration_terms_url registration with
      | Some terms_url => user_terms_accept_terms user terms_url
      | None => mret tt
      end;
  _ ← schedule_provision_user_job (User_id user) (UserRegistration_display_name registration)
        (UserRegistration_avatar_url registration);
  _ ← repo_save;
  mret {| completed_registration := registration; completed_user_session := user_session |}.

(** What a preparation that failed is answered with. *)
Definition eligibility_outcome (source : CheckRegistrationFinishEligibilityError)
    : result RegistrationFinishOutcome RegistrationFinishError :=
  match source with
  | Eligibility_RegistrationExpired => Ok (Finish_Rejected "registration_expired")
  | Eligibility_UsernameTaken => Ok (Finish_Rejected "username_taken")
  | Eligibility_UsernameNotAvailable => Ok (Finish_Rejected "username_not_available")
  | Eligibility_BrowserSessionMissing =>
      Err (Finish_Internal (Anyhow "Registration browser session is required"))
  | Eligibility_Repository error => Err (Finish_Repository error)
  end.

Definition prepare_outcome (source : PrepareRegistrationCompletionError)
    : result RegistrationFinishOutcome RegistrationFinishError :=
  let internal what := Err (Finish_Internal (Anyhow what)) in
  match source with
  | Prepare_RegistrationTokenRequired => Ok (Finish_Rejected "registration_token_required")
  | Prepare_RegistrationTokenInvalid => Ok (Finish_Rejected "registration_token_invalid")
  | Prepare_EmailNotVerified => Ok (Finish_Rejected "email_not_verified")
  | Prepare_EmailInUse _ => Ok (Finish_Rejected "email_in_use")
  | Prepare_PhoneNotVerified => Ok (Finish_Rejected "phone_not_verified")
  | Prepare_PhoneInUse => Ok (Finish_Rejected "phone_in_use")
  | Prepare_DisplayNameRequired => Ok (Finish_Rejected "display_name_required")
  | Prepare_RegistrationTokenMissing => internal "Could not load the registration token"
  | Prepare_EmailAuthenticationMissing => internal "Could not load the email authentication"
  | Prepare_PhoneAuthenticationMissing => internal "Could not load the phone authentication"
  | Prepare_UpstreamOAuthSessionMissing =>
      internal "Could not load the upstream OAuth authorization session"
  | Prepare_UpstreamOAuthLinkMissing => internal "Could not load the upstream OAuth link"
  | Prepare_UpstreamOAuthLinkAlreadyUsed =>
      internal "The upstream identity was already linked to a user"
  | Prepare_Repository error => Err (Finish_Repository error)
  end.

Definition preparation_outcome (error : LoadRegistrationFinishPreparationError)
    : result RegistrationFinishOutcome RegistrationFinishError :=
  match error with
  | Preparation_NotFound => Err Finish_NotFound
  | Preparation_AlreadyCompleted _ => Ok (Finish_Rejected "registration_already_completed")
  | Preparation_Eligibility _ source => eligibility_outcome source
  | Preparation_Prepare _ source => prepare_outcome source
  | Preparation_Repository error => Err (Finish_Repository error)
  end.

(** [match m.await { Ok(a) => a, Err(e) => return handle(e) }] *)
Definition or_return {E F A B} (m : M St E A) (handle : E → result B F) (k : A → M St F B)
    : M St F B := λ st,
  match m st with
  | (Ok a, st') => k a st'
  | (Err e, st') => (handle e, st')
  end.

Definition finish_registration (homeserver : Homeserver) (registration_id : Ulid)
    (browser_session_present : option bool) (registration_token_required : bool)
    (configured_bootstrap_admin_token requested_bootstrap_admin_token : option string)
    (user_agent : option string) : M St RegistrationFinishError RegistrationFinishOutcome :=
  or_return (load_registration_finish_preparation homeserver registration_id browser_session_present
               registration_token_required) preparation_outcome (λ prepared,
  or_return (prepare_admin_bootstrap configured_bootstrap_admin_token requested_bootstrap_admin_token)
    (λ error, match error with
              | Bootstrap_InvalidToken => Ok (Finish_Rejected "bootstrap_admin_token_invalid")
              | Bootstrap_Repository error => Err (Finish_Repository error)
              end) (λ grant_admin,
  completed ← try_with Finish_Repository
    (complete_registration (into_request prepared user_agent) grant_admin);
  mret (Finish_Completed completed))).

Definition claim_bootstrap_admin (user_id : Ulid) (configured_token : option string)
    (submitted_token : string) : M St ClaimBootstrapAdminError ClaimBootstrapAdminOutcome :=
  user ← try_with Claim_Repository (user_lookup user_id);
  user ← ok_or Claim_NotFound user;
  or_return (prepare_admin_bootstrap configured_token (Some submitted_token))
    (λ error, match error with
              | Bootstrap_InvalidToken => Ok Claim_InvalidToken
              | Bootstrap_Repository error => Err (Claim_Repository error)
              end) (λ grant : bool,
  if grant then
    _ ← try_with Claim_Repository (user_set_can_request_admin user true);
    mret Claim_Claimed
  else mret Claim_Unavailable).
End registration.
