(* ===== verification/Login.v ===== *)
(** Login, passwords, recovery and the contacts of a user:
    crates/backend/src/handlers/account/service/{access,password,recovery,contacts}.rs. *)
From S2P Require Import Prelude Ids RateLimit Passwords Scope Pkce Jose Domain Accounts Database Repository Handlers AccountRepository Registration.

Open Scope Z_scope.

Class LoginExternals := {
  (** [homeserver.localpart(mxid)] *)
  localpart_of : string → option string;
}.

(** What a login reads of [SiteConfig]. *)
Record LoginConfig := {
  password_login_enabled : bool;
  login_with_email_allowed : bool;
}.

Record PasswordLoginRequest := {
  login_username_or_email : string;
  login_password : string;
  login_user_agent : option string;
  login_requester : RequesterFingerprint;
  login_skip_requester_limit : bool;
}.

Inductive PasswordLoginOutcome :=
| Login_Disabled
| Login_InvalidCredentials
| Login_RateLimited
| Login_AccountDeactivated
| Login_AccountLocked
| Login_Authenticated (user : User) (user_session : BrowserSession).

Inductive PasswordVerificationOutcome :=
| Verified_Disabled
| Verified_InvalidCredentials
| Verified_RateLimited
| Verified_AccountDeactivated
| Verified_AccountLocked
| Verified_Authenticated (user : User) (user_password : Password).

Inductive PasswordLoginError :=
| Login_Password (error : AnyhowError)
| Login_Repository (error : DatabaseError).

Inductive ChangePasswordError :=
| Change_PasswordDisabled
| Change_PasswordTooWeak
| Change_UserNotFound
| Change_PasswordChangesDisabled
| Change_NoCurrentPassword
| Change_CurrentPasswordRequired
| Change_WrongPassword
| Change_Password (error : AnyhowError)
| Change_Repository (error : DatabaseError).

Inductive VerifyPasswordIfNeededError :=
| IfNeeded_Password (error : AnyhowError)
| IfNeeded_Repository (error : DatabaseError).

Inductive StartAccountRecoveryError :=
| StartRecovery_InvalidEmail
| StartRecovery_RateLimited
| StartRecovery_Repository (error : DatabaseError).

Inductive LoadAccountRecoverySessionError :=
| LoadRecovery_NotFound
| LoadRecovery_Repository (error : DatabaseError).

Inductive ResendAccountRecoveryError :=
| ResendRecovery_NotFound
| ResendRecovery_AlreadyConsumed
| ResendRecovery_RateLimited
| ResendRecovery_Repository (error : DatabaseError).

Inductive ResendAccountRecoveryByTicketError :=
| ByTicket_TicketNotFound
| ByTicket_SessionNotFound
| ByTicket_AlreadyConsumed
| ByTicket_RateLimited
| ByTicket_Repository (error : DatabaseError).

Inductive CompleteAccountRecoveryError :=
| Recovery_PasswordDisabled
| Recovery_PasswordTooWeak
| Recovery_TicketNotFound
| Recovery_SessionNotFound
| Recovery_AlreadyConsumed
| Recovery_TicketExpired
| Recovery_EmailNotFound
| Recovery_UserNotFound
| Recovery_AccountLocked
| Recovery_Password (error : AnyhowError)
| Recovery_Repository (error : DatabaseError).

Inductive LoadAccountRecoveryTicketError :=
| LoadTicket_TicketNotFound
| LoadTicket_SessionNotFound
| LoadTicket_Repository (error : DatabaseError).

Inductive StartEmailVerificationError :=
| StartEmail_Unauthorized
| StartEmail_Disabled
| StartEmail_InvalidEmail
| StartEmail_IncorrectPassword
| StartEmail_RateLimited
| StartEmail_Password (error : AnyhowError)
| StartEmail_Repository (error : DatabaseError).

Inductive CompleteEmailVerificationError :=
| CompleteEmail_Unauthorized
| CompleteEmail_NotFound
| CompleteEmail_NotOwned
| CompleteEmail_AlreadyCompleted
| CompleteEmail_RateLimited
| CompleteEmail_InvalidCode
| CompleteEmail_CodeExpired
| CompleteEmail_Repository (error : DatabaseError).

Inductive ResendEmailVerificationError :=
| ResendEmail_Unauthorized
| ResendEmail_NotFound
| ResendEmail_NotOwned
| ResendEmail_AlreadyCompleted
| ResendEmail_RateLimited
| ResendEmail_Repository (error : DatabaseError).

Inductive RemoveUserEmailError :=
| RemoveEmail_Unauthorized
| RemoveEmail_NotFound
| RemoveEmail_UserNotFound
| RemoveEmail_IncorrectPassword
| RemoveEmail_Password (error : AnyhowError)
| RemoveEmail_Repository (error : DatabaseError).

(** [s.contains('@')] *)
Definition contains_at (s : string) : bool :=
  negb (str_all (λ a, negb (bool_decide (a = "@"%char))) s).

Section login.
Context {UX : UrlExternals} {DX : DbExternals} {LX : LimiterExternals} {XX : AccountExternals}
        {WX : PasswordExternals} {RX : RegistrationExternals} {GX : LoginExternals}.

(** ** Login (access.rs) *)

Definition find_user_by_email_or_by_username (site_config : LoginConfig)
    (username_or_email : string) : M St DatabaseError (option User) :=
  by_email ←
    (if login_with_email_allowed site_config && contains_at username_or_email then
       maybe_user_email ← user_email_find_by_email username_or_email;
       match maybe_user_email with
       | Some user_email => user_lookup (UserEmail_user_id user_email)
       | None => mret None
       end
     else mret None);
  match by_email with
  | Some user => mret (Some user)
  | None => user_find_by_username username_or_email
  end.

(** The limit of attempts, of the user alone or of the requester too. *)
Definition login_limited (request : PasswordLoginRequest) (user : User)
    : M St PasswordLoginError bool :=
  if login_skip_requester_limit request
  then is_limited (check_password_for_user (User_id user))
  else is_limited (check_password (login_requester request) (User_id user)).

Definition verify_password_login (password_manager : PasswordManager) (site_config : LoginConfig)
    (request : PasswordLoginRequest) : M St PasswordLoginError PasswordVerificationOutcome :=
  if negb (password_login_enabled site_config) then mret Verified_Disabled
  else
    let username := default (login_username_or_email request)
                      (localpart_of (login_username_or_email request)) in
    user ← try_with Login_Repository (find_user_by_email_or_by_username site_config username);
    match user with
    | None => mret Verified_InvalidCredentials
    | Some user =>
        limited ← login_limited request user;
        if (limited : bool) then mret Verified_RateLimited
        else
          user_password ← try_with Login_Repository (user_password_active user);
          match user_password with
          | None => mret Verified_InvalidCredentials
          | Some user_password =>
              res ← with_rng (verify_and_upgrade password_manager (Password_version user_password)
                      (login_password request) (Password_hashed_password user_password));
              res ← try_with Login_Password (of_result res);
              match res with
              | Password_NotMatched => mret Verified_InvalidCredentials
              | Password_Matched upgrade =>
                  user_password ←
                    match upgrade with
                    | Some (version, new_password_hash) =>
                        try_with Login_Repository
                          (user_password_add user version new_password_hash (Some user_password))
                    | None => mret user_password
                    end;
                  mret (if bool_decide (is_Some (User_deactivated_at user))
                        then Verified_AccountDeactivated
                        else if bool_decide (is_Some (User_locked_at user))
                        then Verified_AccountLocked
                        else Verified_Authenticated user user_password)
              end
          end
    end.

Definition login_with_password (password_manager : PasswordManager) (site_config : LoginConfig)
    (request : PasswordLoginRequest) : M St PasswordLoginError PasswordLoginOutcome :=
  outcome ← verify_password_login password_manager site_config request;
  match outcome with
  | Verified_Disabled => mret Login_Disabled
  | Verified_InvalidCredentials => mret Login_InvalidCredentials
  | Verified_RateLimited => mret Login_RateLimited
  | Verified_AccountDeactivated => mret Login_AccountDeactivated
  | Verified_AccountLocked => mret Login_AccountLocked
  | Verified_Authenticated user user_password =>
      user_session ← try_with Login_Repository (browser_session_add user (login_user_agent request));
      _ ← try_with Login_Repository
            (browser_session_authenticate_with_password user_session user_password);
      _ ← repo_save;
      mret (Login_Authenticated user user_session)
  end.

Definition logout_browser_session (session_id : option Ulid)
    : M St DatabaseError (option BrowserSession) :=
  maybe_session ←
    match session_id with
    | None => mret None
    | Some session_id =>
        maybe_session ← browser_session_lookup session_id;
        match maybe_session with
        | Some session =>
            if bool_decide (BrowserSession_finished_at session = None) then
              _ ← browser_session_finish session; mret (Some session)
            else mret None
        | None => mret None
        end
    end;
  _ ← repo_save;
  mret maybe_session.

(** ** Passwords (password.rs) *)

(** [password_manager.hash(make_rng_from(rng), password)] *)
Definition hash_with_fresh_rng (password_manager : PasswordManager) (password : string)
    : M St AnyhowError (Z * string) :=
  hashed ← with_rng (λ rng,
    let '(local, rng) := chacha_from_rng rng in
    ((PasswordManager_hash password_manager password local).1, rng));
  of_result hashed.

Definition is_success {T} (res : PasswordVerificationResult T) : bool :=
  match res with Password_Matched _ => true | Password_NotMatched => false end.

(** The password a user who is not an administrator must give. *)
Definition check_current_password (password_manager : PasswordManager) (user : User)
    (current_password : option string) (password_change_allowed : bool)
    : M St ChangePasswordError () :=
  _ ← require password_change_allowed Change_PasswordChangesDisabled;
  active_password ← try_with Change_Repository (user_password_active user);
  active_password ← ok_or Change_NoCurrentPassword active_password;
  current ← ok_or Change_CurrentPasswordRequired current_password;
  res ← try_with Change_Password (of_result (PasswordManager_verify password_manager
          (Password_version active_password) current (Password_hashed_password active_password)));
  require (is_success res) Change_WrongPassword.

Definition change_password (password_manager : PasswordManager) (user_id : Ulid)
    (current_password : option string) (new_password : string)
    (is_admin password_change_allowed : bool) : M St ChangePasswordError () :=
  _ ← require (negb (bool_decide (new_password = ""))) Change_PasswordTooWeak;
  _ ← require (bool_decide (is_Some password_manager)) Change_PasswordDisabled;
  complex ← try_with Change_Password
              (of_result (is_password_complex_enough password_manager new_password));
  _ ← require complex Change_PasswordTooWeak;
  user ← try_with Change_Repository (user_lookup user_id);
  user ← ok_or Change_UserNotFound user;
  _ ← (if is_admin then mret tt
       else check_current_password password_manager user current_password password_change_allowed);
  hashed ← try_with Change_Password (hash_with_fresh_rng password_manager new_password);
  let '(version, hash) := hashed in
  _ ← try_with Change_Repository (user_password_add user version hash None);
  repo_save.

Definition verify_password_if_needed (is_admin password_login_enabled : bool)
    (password_manager : PasswordManager) (password : option string) (user : User)
    : M St VerifyPasswordIfNeededError bool :=
  if is_admin then mret true
  else if negb password_login_enabled then mret true
  else
    user_password ← try_with IfNeeded_Repository (user_password_active user);
    match user_password, password with
    | None, _ => mret true
    | Some _, None => mret false
    | Some user_password, Some password =>
        res ← try_with IfNeeded_Password (of_result (PasswordManager_verify password_manager
                (Password_version user_password) password (Password_hashed_password user_password)));
        mret (is_success res)
    end.

(** ** Recovery (recovery.rs) *)

Definition start_account_recovery (requester : RequesterFingerprint) (email user_agent : string)
    (ip_address : option IpAddr) (locale : string)
    : M St StartAccountRecoveryError UserRecoverySession :=
  _ ← require (address_is_ok email) StartRecovery_InvalidEmail;
  limited ← is_limited (check_account_recovery requester email);
  _ ← require (negb limited) StartRecovery_RateLimited;
  session ← try_with StartRecovery_Repository
              (user_recovery_add_session email user_agent ip_address locale);
  _ ← try_with StartRecovery_Repository (schedule_recovery_notification session);
  _ ← repo_save;
  mret session.

Definition load_account_recovery_session (id : Ulid)
    : M St LoadAccountRecoverySessionError UserRecoverySession :=
  session ← try_with LoadRecovery_Repository (user_recovery_lookup_session id);
  ok_or LoadRecovery_NotFound session.

Definition resend_load_error (error : LoadAccountRecoverySessionError) : ResendAccountRecoveryError :=
  match error with
  | LoadRecovery_NotFound => ResendRecovery_NotFound
  | LoadRecovery_Repository error => ResendRecovery_Repository error
  end.

Definition resend_account_recovery (requester : RequesterFingerprint) (session_id : Ulid)
    : M St ResendAccountRecoveryError UserRecoverySession :=
  session ← try_with resend_load_error (load_account_recovery_session session_id);
  _ ← require (negb (is_some (RecoverySession_consumed_at session))) ResendRecovery_AlreadyConsumed;
  limited ← is_limited (check_account_recovery requester (RecoverySession_email session));
  _ ← require (negb limited) ResendRecovery_RateLimited;
  _ ← try_with ResendRecovery_Repository (schedule_recovery_notification session);
  _ ← repo_save;
  mret session.

Definition load_account_recovery_ticket (ticket_string : string)
    : M St LoadAccountRecoveryTicketError (UserRecoveryTicket * UserRecoverySession) :=
  ticket ← try_with LoadTicket_Repository (user_recovery_find_ticket ticket_string);
  ticket ← ok_or LoadTicket_TicketNotFound ticket;
  session ← try_with LoadTicket_Repository
    (user_recovery_lookup_session (RecoveryTicket_user_recovery_session_id ticket));
  session ← ok_or LoadTicket_SessionNotFound session;
  mret (ticket, session).

Definition by_ticket_load_error (error : LoadAccountRecoveryTicketError)
    : ResendAccountRecoveryByTicketError :=
  match error with
  | LoadTicket_TicketNotFound => ByTicket_TicketNotFound
  | LoadTicket_SessionNotFound => ByTicket_SessionNotFound
  | LoadTicket_Repository error => ByTicket_Repository error
  end.

Definition by_ticket_resend_error (error : ResendAccountRecoveryError)
    : ResendAccountRecoveryByTicketError :=
  match error with
  | ResendRecovery_NotFound => ByTicket_SessionNotFound
  | ResendRecovery_AlreadyConsumed => ByTicket_AlreadyConsumed
  | ResendRecovery_RateLimited => ByTicket_RateLimited
  | ResendRecovery_Repository error => ByTicket_Repository error
  end.

Definition resend_account_recovery_by_ticket (requester : RequesterFingerprint)
    (ticket_string : string) : M St ResendAccountRecoveryByTicketError UserRecoverySession :=
  loaded ← try_with by_ticket_load_error (load_account_recovery_ticket ticket_string);
  let '(_, session) := loaded in
  _ ← try_with by_ticket_resend_error
        (resend_account_recovery requester (RecoverySession_id session));
  mret session.

Definition complete_load_error (error : LoadAccountRecoveryTicketError)
    : CompleteAccountRecoveryError :=
  match error with
  | LoadTicket_TicketNotFound => Recovery_TicketNotFound
  | LoadTicket_SessionNotFound => Recovery_SessionNotFound
  | LoadTicket_Repository error => Recovery_Repository error
  end.

Definition complete_account_recovery (password_manager : PasswordManager) (ticket_string : string)
    (new_password : string) (recovery_allowed : bool) : M St CompleteAccountRecoveryError () :=
  _ ← require (bool_decide (is_Some password_manager) && recovery_allowed) Recovery_PasswordDisabled;
  complex ← try_with Recovery_Password
              (of_result (is_password_complex_enough password_manager new_password));
  _ ← require complex Recovery_PasswordTooWeak;
  loaded ← try_with complete_load_error (load_account_recovery_ticket ticket_string);
  let '(ticket, session) := loaded in
  _ ← require (negb (is_some (RecoverySession_consumed_at session))) Recovery_AlreadyConsumed;
  now ← clock_now;
  _ ← require (RecoveryTicket_active ticket now) Recovery_TicketExpired;
  user_email ← try_with Recovery_Repository (user_email_lookup (RecoveryTicket_user_email_id ticket));
  user_email ← ok_or Recovery_EmailNotFound user_email;
  user ← try_with Recovery_Repository (user_lookup (UserEmail_user_id user_email));
  user ← ok_or Recovery_UserNotFound user;
  _ ← require (User_is_valid user) Recovery_AccountLocked;
  hashed ← try_with Recovery_Password (hash_with_fresh_rng password_manager new_password);
  let '(version, hash) := hashed in
  _ ← try_with Recovery_Repository (user_password_add user version hash None);
  _ ← try_with Recovery_Repository (user_recovery_consume_ticket ticket session);
  repo_save.

Definition recovery_session_status (session : UserRecoverySession) : string :=
  if is_some (RecoverySession_consumed_at session) then "consumed" else "pending".

(** ** Contacts (contacts.rs) *)

Definition start_if_needed_error (error : VerifyPasswordIfNeededError) : StartEmailVerificationError :=
  match error with
  | IfNeeded_Password error => StartEmail_Password error
  | IfNeeded_Repository error => StartEmail_Repository error
  end.

Definition start_email_verification (password_manager : PasswordManager)
    (email_change_allowed password_login_enabled requester_is_admin : bool)
    (requester : RequesterFingerprint) (browser_session : option BrowserSession) (email : string)
    (password : option string) (notification_language : string)
    : M St StartEmailVerificationError UserEmailAuthentication :=
  browser_session ← ok_or StartEmail_Unauthorized browser_session;
  _ ← require email_change_allowed StartEmail_Disabled;
  _ ← require (contains_at email) StartEmail_InvalidEmail;
  ok ← try_with start_if_needed_error (verify_password_if_needed requester_is_admin
         password_login_enabled password_manager password (BrowserSession_user browser_session));
  _ ← require ok StartEmail_IncorrectPassword;
  limited ← is_limited (check_email_authentication_email requester email);
  _ ← require (negb limited) StartEmail_RateLimited;
  auth ← try_with StartEmail_Repository
           (user_email_add_authentication_for_session email browser_session);
  _ ← try_with StartEmail_Repository
        (schedule_notification (Target_Email (UserEmailAuthentication_id auth)) notification_language);
  _ ← repo_save;
  mret auth.

(** [auth.user_session_id != Some(browser_session.id)] *)
Definition owns_authentication (auth : UserEmailAuthentication) (browser_session : BrowserSession)
    : bool :=
  bool_decide (UserEmailAuthentication_user_session_id auth = Some (BrowserSession_id browser_session)).

Definition complete_email_verification (authentication_id : Ulid)
    (browser_session : option BrowserSession) (code : string)
    : M St CompleteEmailVerificationError () :=
  browser_session ← ok_or CompleteEmail_Unauthorized browser_session;
  auth ← try_with CompleteEmail_Repository (user_email_lookup_authentication authentication_id);
  auth ← ok_or CompleteEmail_NotFound auth;
  _ ← require (owns_authentication auth browser_session) CompleteEmail_NotOwned;
  _ ← require (negb (is_some (UserEmailAuthentication_completed_at auth)))
        CompleteEmail_AlreadyCompleted;
  limited ← is_limited (check_email_authentication_attempt (UserEmailAuthentication_id auth));
  _ ← require (negb limited) CompleteEmail_RateLimited;
  found_code ← try_with CompleteEmail_Repository (user_email_find_authentication_code auth code);
  found_code ← ok_or CompleteEmail_InvalidCode found_code;
  now ← clock_now;
  _ ← require (negb (EmailCode_expires_at found_code <? now)) CompleteEmail_CodeExpired;
  _ ← try_with CompleteEmail_Repository
        (user_email_complete_authentication_with_code auth found_code);
  existing ← try_with CompleteEmail_Repository
    (user_email_find (BrowserSession_user browser_session) (UserEmailAuthentication_email auth));
  _ ← (if is_some existing then mret tt
       else _ ← try_with CompleteEmail_Repository
                  (user_email_add (BrowserSession_user browser_session)
                     (UserEmailAuthentication_email auth));
            mret tt);
  repo_save.

Definition resend_email_verification_code (requester : RequesterFingerprint)
    (authentication_id : Ulid) (browser_session : option BrowserSession)
    (notification_language : string) : M St ResendEmailVerificationError () :=
  browser_session ← ok_or ResendEmail_Unauthorized browser_session;
  auth ← try_with ResendEmail_Repository (user_email_lookup_authentication authentication_id);
  auth ← ok_or ResendEmail_NotFound auth;
  _ ← require (owns_authentication auth browser_session) ResendEmail_NotOwned;
  _ ← require (negb (is_some (UserEmailAuthentication_completed_at auth))) ResendEmail_AlreadyCompleted;
  limited ← is_limited (check_email_authentication_send_code requester
              (UserEmailAuthentication_id auth) (UserEmailAuthentication_email auth));
  _ ← require (negb limited) ResendEmail_RateLimited;
  _ ← try_with ResendEmail_Repository
        (schedule_notification (Target_Email (UserEmailAuthentication_id auth)) notification_language);
  repo_save.

Definition remove_if_needed_error (error : VerifyPasswordIfNeededError) : RemoveUserEmailError :=
  match error with
  | IfNeeded_Password error => RemoveEmail_Password error
  | IfNeeded_Repository error => RemoveEmail_Repository error
  end.

Definition remove_user_email (password_manager : PasswordManager) (requester_user_id : option Ulid)
    (requester_is_admin password_login_enabled : bool) (password : option string) (email_id : Ulid)
    : M St RemoveUserEmailError () :=
  email ← try_with RemoveEmail_Repository (user_email_lookup email_id);
  email ← ok_or RemoveEmail_NotFound email;
  _ ← require (requester_is_admin || bool_decide (requester_user_id = Some (UserEmail_user_id email)))
        RemoveEmail_Unauthorized;
  user ← try_with RemoveEmail_Repository (user_lookup (UserEmail_user_id email));
  user ← ok_or RemoveEmail_UserNotFound user;
  ok ← try_with remove_if_needed_error (verify_password_if_needed requester_is_admin
         password_login_enabled password_manager password user);
  _ ← require ok RemoveEmail_IncorrectPassword;
  _ ← try_with RemoveEmail_Repository (user_email_remove email);
  _ ← try_with RemoveEmail_Repository (schedule_provision_user_job (User_id user) None None);
  repo_save.

Inductive LoadEmailVerificationStatusError :=
| LoadEmail_NotFound
| LoadEmail_Repository (error : DatabaseError).

Definition load_email_verification_status (authentication_id : Ulid)
    : M St LoadEmailVerificationStatusError UserEmailAuthentication :=
  auth ← try_with LoadEmail_Repository (user_email_lookup_authentication authentication_id);
  ok_or LoadEmail_NotFound auth.
End login.
