(* ===== verification/World.v ===== *)
(** A small concrete world: the external functions instantiated, a user with a
    browser session, a client, a fulfilled authorization grant, a live session
    with its tokens, a fulfilled device grant and a personal session. The
    theorems about the handlers are evaluated on it. *)
From S2P Require Import Prelude Ids RateLimit Passwords TokenFormat ResponseTypes Scope Pkce Jose Keystore Domain Accounts Notification Database Messaging Repository ClientMetadata ClientRepository ProviderMetadata AccountRepository Pagination AdminRepository Notifications EmailWebhook Handlers ClientAuth ClientRegistration Userinfo TokenService Registration Login.

Open Scope Z_scope.

Module World.

(** Decimal identifiers. *)
Fixpoint parse_digits (acc : Z) (s : string) : option Z :=
  match s with
  | EmptyString => Some acc
  | String c s =>
      if (48 <=? byte_of c) && (byte_of c <=? 57)
      then parse_digits (acc * 10 + (byte_of c - 48)) s else None
  end.

#[export] Instance TX : TokenExternals := token_externals_example.
#[export] Instance PX : PkceExternals := {| s256_challenge v := "s256:" +:+ v |}.
#[export] Instance UX : UrlExternals :=
  {| url_parse s := Some s; url_host_str _ := Some "app.example"; url_set_port_none s := Some s |}.
#[export] Instance DX : DbExternals :=
  {| ulid_to_string id := pretty.pretty id;
     ulid_from_string s := parse_digits 0 s;
     sha256_digest s := "sha256:" +:+ s;
     jwks_from_value _ := Some [] |}.

Definition NOW : DateTime := 1700000000000000.
Definition TTL : Duration := 300 * 1000 * 1000.

(** An assertion of the client 101: the header ["hs256"], the claims ["claims"]
    and a signature that repeats the secret. *)
Definition assertion_claims : gmap string Json :=
  <["iss" := Json_String "101"]> (<["sub" := Json_String "101"]>
  (<["aud" := Json_Array [Json_String "https://other.example/"; Json_String "https://id.example/"]]>
  (<["exp" := Json_Int 1700000060]> (<["iat" := Json_Int 1700000000]> ∅)))).

#[export] Instance JX : JoseExternals :=
  {| base64_decoder_new _ := true;
     header_from_reader s :=
       if bool_decide (s = "hs256") then Some {| header_alg := Hs256; header_kid := None |} else None;
     claims_from_reader s := if bool_decide (s = "claims") then Some assertion_claims else None;
     base64_decode_vec s := Some (as_bytes s);
     verifying_key_parses _ := true;
     asymmetric_verify _ _ _ _ := true;
     hmac_verify _ secret _ sig := bool_decide (secret = sig);
     datetime_from_timestamp n := Some (n * 1000000);
     header_to_b64url _ := Some "header";
     claims_to_b64url _ := Some "claims";
     base64_encode bs := "bytes";
     sha256_bytes s := as_bytes s;
     sha384_bytes s := as_bytes s;
     sha512_bytes s := as_bytes s |}.

#[export] Instance KX : KeystoreExternals :=
  {| public_numbers m := (m, "AQAB"); asymmetric_sign _ _ _ rng := (Some [1; 2; 3], rng) |}.

#[export] Instance HX : HandlerExternals :=
  {| policy_evaluate _ := Some [];
     policy_instantiates := true;
     locale_parses _ := true;
     render_device_name _ _ _ := Some "Example device";
     oidc_issuer := "https://id.example/";
     key_store := [{| jwk_parameters := Private_Rsa "rsa"; jwk_use := Some Use_Sig;
                      jwk_key_ops := None; jwk_alg := None; jwk_kid := Some "kid" |}];
     handler_jose := JX;
     handler_keystore := KX |}.

(** A secret is encrypted as itself behind twelve bytes. *)
#[export] Instance AX : ClientAuthExternals :=
  {| basic_decode h := if bool_decide (h = "Basic MTAyOmh1bnRlcjI=") then Some ("102", "hunter2") else None;
     bearer_decode h := if bool_decide (h = "Bearer homeserver") then Some "homeserver" else None;
     base64_standard_decode s := Some (as_bytes s);
     aead_decrypt _ m := Some m;
     http_get_jwks _ := None;
     oauth_token_endpoint := "https://id.example/oauth2/token";
     homeserver_verify_token t := Some (bool_decide (t = "homeserver")) |}.

(** Limits that always let pass, ASCII texts, transparent hashes, and a policy without rules. *)
#[export] Instance LX : LimiterExternals :=
  {| guard_verify _ _ _ := true; unicode_lowercase s := s |}.
#[export] Instance XX : AccountExternals :=
  {| sql_lower s := str_map ascii_lower s;
     sql_ilike s p := bool_decide (str_map ascii_lower s = str_map ascii_lower p) |}.
#[export] Instance WX : PasswordExternals :=
  {| normalize_nfkc s := s;
     zxcvbn _ := 4;
     chacha_from_seed _ := λ n, Z.of_nat n;
     bcrypt_hash p _ _ := Some ("bcrypt:" +:+ p);
     bcrypt_verify p h := Some (bool_decide (h = "bcrypt:" +:+ p));
     argon2_hash _ p _ := Some ("argon2:" +:+ p);
     argon2_verify _ p h := Some (bool_decide (h = "argon2:" +:+ p));
     pbkdf2_hash p _ := Some ("pbkdf2:" +:+ p);
     pbkdf2_verify p h := Some (bool_decide (h = "pbkdf2:" +:+ p)) |}.
#[export] Instance WX_ok : PasswordExternalsOk WX.
Proof. split; simpl; intros; simplify_eq; by rewrite bool_decide_eq_true_2. Qed.
#[export] Instance RX : RegistrationExternals :=
  {| address_is_ok s := negb (str_all (λ a, negb (bool_decide (a = "@"%char))) s);
     evaluate_register _ := Ok [] |}.

#[export] Instance GX : LoginExternals := {| localpart_of _ := None |}.

(** Callbacks of two bodies, signed by their own text behind the secret. *)
#[export] Instance NX : NotificationExternals :=
  {| datetime_text t := pretty.pretty t;
     address_parse s := if str_all (λ a, negb (bool_decide (a = "@"%char))) s then Err "no address" else Ok s;
     locale_parse s := Ok s;
     database_error_text _ := "database error" |}.
#[export] Instance YX : WebhookExternals :=
  {| json_from_slice s :=
       if bool_decide (s = "bounced") then
         Some (Json_Object [("type", Json_String "email.bounced");
                            ("data", Json_Object [("email_id", Json_String "message-1")])])
       else if bool_decide (s = "tagged") then
         Some (Json_Object [("type", Json_String "email.bounced");
                            ("data", Json_Object
                               [("email_id", Json_String "message-1");
                                ("tags", Json_Array [Json_Object
                                   [("name", Json_String DELIVERY_ID_TAG);
                                    ("value", Json_String "500")]])])])
       else None;
     is_utf8 _ := true;
     EmailWebhook.base64_standard_decode s := Some (as_bytes s);
     hmac_sha256_verify key text sig := bool_decide (sig = key ++ as_bytes text);
     p256_verify _ _ _ := false;
     certificate_parses _ := true;
     rsa_verify _ _ _ _ := false |}.

(** A text in quotes; the log of administration has no other values. *)
#[export] Instance CO : CollationExternals := {| text_le := String.leb |}.
#[export] Instance QX : AdminExternals :=
  {| json_to_string v := match v with
                         | Json_String s => String (Ascii.ascii_of_nat 34) s +:+ String (Ascii.ascii_of_nat 34) ""
                         | _ => "{}"
                         end |}.

(** URLs by their first separators; paths replace the path of the base. *)
#[export] Instance VX : UrlPartsExternals :=
  {| url_scheme s := default "" (fst <$> split_once ":"%char s);
     url_query s := snd <$> split_once "?"%char s;
     url_fragment s := snd <$> split_once "#"%char s;
     url_username _ := ""; url_password _ := None; url_port _ := None;
     url_is_ipv6_loopback _ := false |}.
#[export] Instance BX : UrlBuildExternals :=
  {| url_path _ := "/";
     url_join base path := Some (url_scheme base +:+ "://id.example/" +:+ path);
     url_set_query s q := match q with Some q => s +:+ "?" +:+ q | None => s end |}.
Lemma split_once_absent c s : str_all (λ a, negb (bool_decide (a = c))) s = true → split_once c s = None.
Proof.
  induction s as [|a s IH]; [done|]. cbn [str_all split_once]. rewrite andb_true_iff, negb_true_iff.
  intros [-> H]. by rewrite IH.
Qed.
Lemma plain_path_absent c path :
  plain_char c = false → plain_path path = true →
  str_all (λ a, negb (bool_decide (a = c))) path = true.
Proof.
  intros Hc Hp. destruct path as [|a path]; [done|]. unfold plain_path in Hp.
  apply andb_true_iff in Hp as [_ Hp]. eapply str_all_impl; [|exact Hp]. intros b Hb. simpl.
  apply negb_true_iff, bool_decide_eq_false. intros ->. congruence.
Qed.
#[export] Instance BX_ok : UrlBuildExternalsOk BX.
Proof.
  split. intros base path Hs Hp. eexists. split; [reflexivity|].
  pose proof (plain_path_absent "?"%char _ eq_refl Hp) as Hq.
  pose proof (plain_path_absent "#"%char _ eq_refl Hp) as Hf.
  cbn [url_scheme url_query url_fragment VX] in Hs |- *.
  destruct Hs as [->| ->]; (split; [reflexivity|]); split; rewrite split_once_absent;
    rewrite ?str_all_app, ?Hq, ?Hf; done.
Qed.

#[export] Instance MX : MetadataExternals :=
  {| language_tag_parse s := Some s;
     jwks_to_value _ := Json_Array [];
     duration_to_value d := Json_Int d;
     duration_from_value v := match v with Json_Int d => Some d | _ => None end;
     object_to_string entries := String.concat "," entries.*1 |}.

(** No public suffixes, no policy; bytes are their own text and cipher. *)
Definition string_of_bytes (bs : list Z) : string :=
  string_of_chars ((λ b, ascii_of_N (Z.to_N b)) <$> bs).
#[export] Instance CX : ClientRegistrationExternals :=
  {| psl_suffix _ := None;
     evaluate_client_registration _ := Some [];
     base64_standard_encode := string_of_bytes;
     aead_encrypt _ m := Some m;
     sha256_hex s := "sha256:" +:+ s;
     verification_error_to_string _ := "" |}.
#[export] Instance CX_ok : ClientRegistrationExternalsOk CX.
Proof.
  split; simpl; [|by intros nonce payload encrypted _ ? [= <-]]. intros bs Hbs. f_equal.
  induction Hbs as [|b bs [Hb Hb'] _ IH]; [done|].
  change (byte_of (ascii_of_N (Z.to_N b)) :: as_bytes (string_of_bytes bs) = b :: bs). rewrite IH. f_equal.
  unfold byte_of. rewrite N_ascii_embedding by lia. lia.
Qed.

Definition alice : UserRow :=
  {| UserRow_username := "alice"; UserRow_created_at := 0; UserRow_updated_at := 0;
     UserRow_locked_at := None; UserRow_deactivated_at := None;
     UserRow_can_request_admin := false; UserRow_is_guest := false;
     UserRow_display_name := None; UserRow_avatar_url := None; UserRow_preferred_locale := None |}.

Definition browser : UserSessionRow :=
  {| UserSessionRow_user_id := 1; UserSessionRow_created_at := 0; UserSessionRow_finished_at := None;
     UserSessionRow_user_agent := None; UserSessionRow_last_active_at := None;
     UserSessionRow_last_active_ip := None |}.

(** A client with an authentication method, and possibly a secret. *)
Definition client_row (method : string) (secret : option string) : OAuth2ClientRow :=
  {| ClientRow_metadata_digest := None;
     ClientRow_encrypted_client_secret := secret;
     ClientRow_application_type := Some "web";
     ClientRow_redirect_uris := ["https://app.example/cb"];
     ClientRow_grant_type_authorization_code := true;
     ClientRow_grant_type_refresh_token := true;
     ClientRow_grant_type_client_credentials := true;
     ClientRow_grant_type_device_code := Some true;
     ClientRow_client_name := None;
     ClientRow_logo_uri := None;
     ClientRow_client_uri := None;
     ClientRow_policy_uri := None;
     ClientRow_tos_uri := None;
     ClientRow_jwks_uri := None;
     ClientRow_jwks := None;
     ClientRow_id_token_signed_response_alg := None;
     ClientRow_userinfo_signed_response_alg := None;
     ClientRow_token_endpoint_auth_method := Some method;
     ClientRow_token_endpoint_auth_signing_alg := None;
     ClientRow_initiate_login_uri := None;
     ClientRow_is_static := Some false;
     ClientRow_localized := [] |}.

(** The client a row decodes to. *)
Definition decoded (id : Ulid) (method : OAuthClientAuthenticationMethod) (secret : option string)
    : Client :=
  {| Client_id := id;
     Client_client_id := ulid_to_string id;
     Client_metadata_digest := None;
     Client_encrypted_client_secret := secret;
     Client_application_type := Some Application_Web;
     Client_redirect_uris := ["https://app.example/cb"];
     Client_grant_types := [GrantType_AuthorizationCode; GrantType_RefreshToken;
                            GrantType_ClientCredentials; GrantType_DeviceCode];
     Client_client_name := None;
     Client_logo_uri := None;
     Client_client_uri := None;
     Client_policy_uri := None;
     Client_tos_uri := None;
     Client_localized_metadata := LocalizedClientMetadata_default;
     Client_jwks := None;
     Client_id_token_signed_response_alg := None;
     Client_userinfo_signed_response_alg := None;
     Client_token_endpoint_auth_method := Some method;
     Client_token_endpoint_auth_signing_alg := None;
     Client_initiate_login_uri := None |}.

(** A public client, one that signs assertions with its secret, and one with a password. *)
Definition app : Client := decoded 100 Auth_None None.
Definition signing_app : Client := decoded 101 Auth_ClientSecretJwt (Some "nonce-nonce-sesame").
Definition secret_app : Client := decoded 102 Auth_ClientSecretBasic (Some "nonce-nonce-hunter2").

Definition session_scopes : list string := ["openid"; "urn:matrix:client:device:DEV"].

Definition session_row : OAuthSessionRow :=
  new_session_row (Some 1) (Some 10) 100 (scope_of_list session_scopes) 0.

Definition pkce_verifier : string := "dBjftJeZ4CVP-mB92K27uhbUJU1p1r_wW1gFWFOEjXk".

(** Fulfilled one minute ago. *)
Definition grant_row : GrantRow :=
  GrantRow_set_fulfilled (NOW - 60000000) 1000
    (new_grant_row 100 "https://app.example/cb" (scope_of_list session_scopes)
       (Some {| AuthorizationCode_code := "the-code";
                AuthorizationCode_pkce :=
                  Some {| pkce_challenge_method := S256; pkce_challenge := "s256:" +:+ pkce_verifier |} |})
       None None ResponseMode_Query false None None (NOW - 120000000)).

(** Texts that pass the format check. *)
Definition live_access : string := (TokenType_generate TokenType_AccessToken (λ n, Z.of_nat n + 3)).1.
Definition live_refresh : string := (TokenType_generate TokenType_RefreshToken (λ n, Z.of_nat n + 5)).1.
Definition live_personal : string :=
  (TokenType_generate TokenType_PersonalAccessToken (λ n, Z.of_nat n + 7)).1.

Definition device_row : DeviceGrantRow :=
  DeviceGrantRow_set_fulfilled (NOW - 60000000) 10
    (new_device_grant_row
       {| dg_client := app; dg_scope := scope_of_list session_scopes; dg_device_code := "device-code";
          dg_user_code := "USERCD"; dg_expires_in := 0; dg_ip_address := None; dg_user_agent := None |}
       (NOW - 120000000) (NOW + 600000000)).

Definition pending_device_row : DeviceGrantRow :=
  new_device_grant_row
    {| dg_client := app; dg_scope := scope_of_list session_scopes; dg_device_code := "device-code-2";
       dg_user_code := "USERC2"; dg_expires_in := 0; dg_ip_address := None; dg_user_agent := None |}
    (NOW - 120000000) (NOW + 600000000).

Definition pending_grant_row : GrantRow :=
  new_grant_row 100 "https://app.example/cb" (scope_of_list session_scopes)
    (Some {| AuthorizationCode_code := "pending-code"; AuthorizationCode_pkce := None |})
    None None ResponseMode_Query true None None (NOW - 120000000).

Definition db : DB :=
  mkDB {[ 1 := alice ]} {[ 10 := browser ]}
    {[ 30 := {| AuthenticationRow_user_session_id := 10; AuthenticationRow_created_at := 5;
                AuthenticationRow_user_password_id := Some 77;
                AuthenticationRow_upstream_oauth_authorization_session_id := None |} ]}
    {[ 100 := client_row "none" None;
       101 := client_row "client_secret_jwt" (Some "nonce-nonce-sesame");
       102 := client_row "client_secret_basic" (Some "nonce-nonce-hunter2") ]}
    {[ 1000 := session_row ]}
    {[ 3000 := new_access_token_row 1000 live_access (NOW - 60000000) (Some (NOW + 240000000)) ]}
    {[ 4000 := new_refresh_token_row 1000 3000 live_refresh (NOW - 60000000) ]}
    {[ 2000 := grant_row; 2001 := pending_grant_row ]}
    {[ 5000 := device_row; 5001 := pending_device_row ]}
    {[ 6000 := new_personal_session_row (Owner_User 1) 1 "cli" (scope_of_list session_scopes) 0 ]}
    {[ 7000 := new_personal_token_row 6000 (sha256_digest live_personal) 0 None ]}
    ∅ no_accounts (mkNotifications ∅ ∅ ∅ ∅) ∅.

(** A limiter without history. *)
Definition limiter : Limiter :=
  let quota := {| quota_limit := 3; quota_cells := 10; quota_period := 60000000 |} in
  let fresh (K : Type) `{Countable K} : KeyedLimiter K :=
    {| limiter_store := ∅; limiter_quota := quota |} in
  mkLimiter ∅ (fresh _) (fresh _) (fresh _) (fresh _) (fresh _) (fresh _) (fresh _) (fresh _)
    (fresh _) (fresh _) (fresh _) (fresh _) (fresh _) (λ n, Z.of_nat n * 1000000).

Definition st : St :=
  mkSt db db (λ n, NOW + Z.of_nat n) (λ n, Z.of_nat (n * 7 + 1)) (λ _, true) [] [] [] limiter [].

(** The same, with another database. *)
Definition at_db (d : DB) : St :=
  mkSt d d (λ n, NOW + Z.of_nat n) (λ n, Z.of_nat (n * 7 + 1)) (λ _, true) [] [] [] limiter [].

(** The code was exchanged thirty seconds ago; its session is live, or finished. *)
Definition exchanged_db : DB := on_grants (alter (GrantRow_set_exchanged_at (NOW - 30000000)) 2000) db.
Definition exchanged_finished_db : DB :=
  on_sessions (alter (OAuthSessionRow_set_finished_at (NOW - 20000000)) 1000) exchanged_db.

Definition code_request : AuthorizationCodeGrant :=
  {| code_grant_code := "the-code"; code_grant_redirect_uri := Some "https://app.example/cb";
     code_grant_code_verifier := Some pkce_verifier |}.
Definition refresh_request : RefreshTokenGrant :=
  {| refresh_grant_refresh_token := live_refresh; refresh_grant_scope := None |}.
Definition device_request : DeviceCodeGrantRequest := {| device_grant_device_code := "device-code" |}.

(** A form from the public client, and from the client that signs assertions. *)
Definition public_request {F} (client_id : string) (form : F) : ClientRequest F :=
  {| req_authorization := None;
     req_content_type := Some "application/x-www-form-urlencoded";
     req_parse_form := Ok {| form_client_id := Some client_id; form_client_secret := None;
                             form_client_assertion_type := None; form_client_assertion := None;
                             form_inner := form |} |}.
Definition signed_request {F} (form : F) : ClientRequest F :=
  {| req_authorization := None;
     req_content_type := Some "application/x-www-form-urlencoded; charset=utf-8";
     req_parse_form := Ok {| form_client_id := None; form_client_secret := None;
                             form_client_assertion_type := Some JWT_BEARER_CLIENT_ASSERTION;
                             form_client_assertion := Some "hs256.claims.sesame";
                             form_inner := form |} |}.
(** A form under an [Authorization] header. *)
Definition header_request {F} (authorization : string) (form : F) : ClientRequest F :=
  {| req_authorization := Some authorization;
     req_content_type := Some "application/x-www-form-urlencoded";
     req_parse_form := Ok {| form_client_id := None; form_client_secret := None;
                             form_client_assertion_type := None; form_client_assertion := None;
                             form_inner := form |} |}.

End World.
