(* ===== verification/ProviderProofs.v ===== *)
(** The provider metadata: what [validate] accepts, the accessors that cannot
    panic, the server's own discovery document, and the algorithms it names. *)
From S2P Require Import Prelude Ids ResponseTypes Scope Pkce Jose Keystore JoseProofs Domain Database Repository ClientMetadata ProviderMetadata World.

Open Scope Z_scope.

(** ** Rules *)

Section rules.
Context {UX : UrlExternals} {VX : UrlPartsExternals}.

(** [https], and the forbidden parts absent. *)
Definition url_allowed (v : UrlValidator) (url : Url) : Prop :=
  url_scheme url = "https" ∧
  (validator_allow_query v = false → url_query url = None) ∧
  (validator_allow_fragment v = false → url_fragment url = None).

Lemma check_Ok v url : UrlValidator_check v url = Ok tt ↔ url_allowed v url.
Proof.
  unfold UrlValidator_check, url_allowed.
  destruct (validator_allow_query v), (validator_allow_fragment v); simpl;
    repeat case_bool_decide; simpl; rewrite ?eq_None_not_Some; naive_solver.
Qed.
Lemma reject_none_Ok endpoint algs :
  reject_none_signing_alg endpoint algs = Ok tt ↔ Alg_None ∉ default [] algs.
Proof.
  unfold reject_none_signing_alg. induction (default [] algs) as [|a l IH]; simpl; [set_solver|].
  case_bool_decide; [set_solver|]. rewrite IH. set_solver.
Qed.
Lemma require_field_Ok {A} (f : option A) e : require_field f e = Ok tt ↔ is_Some f.
Proof. destruct f; simpl; split; [by eauto|done|done|by intros [? [=]]]. Qed.
Lemma run_rules_Ok rules m :
  run_rules rules m = Some (Ok tt) ↔ Forall (λ r : ValidationRule, r m = Some (Ok tt)) rules.
Proof.
  induction rules as [|r rules IH]; simpl; [done|]. rewrite Forall_cons, <-IH.
  destruct (r m) as [[[]|]|]; naive_solver.
Qed.
Lemma run_rules_total rules m :
  Forall (λ r : ValidationRule, is_Some (r m)) rules → is_Some (run_rules rules m).
Proof.
  induction 1 as [|r rules [[[]|e] Hr] _ IH]; simpl; rewrite ?Hr; eauto.
Qed.

(** The required fields. *)
Record required_present (m : ProviderMetadata) : Prop := {
  rp_issuer : is_Some (pm_issuer m);
  rp_authorization_endpoint : is_Some (pm_authorization_endpoint m);
  rp_token_endpoint : is_Some (pm_token_endpoint m);
  rp_jwks_uri : is_Some (pm_jwks_uri m);
  rp_response_types : is_Some (pm_response_types_supported m);
  rp_subject_types : is_Some (pm_subject_types_supported m);
  rp_id_token_algs : is_Some (pm_id_token_signing_alg_values_supported m);
}.

Lemma result_bind_Ok_unit {A E} (x : result unit E) (k : unit → result A E) a :
  result_bind x k = Ok a ↔ x = Ok tt ∧ k tt = Ok a.
Proof. destruct x as [[]|]; simpl; naive_solver. Qed.

Lemma insecure_verify_Ok m v :
  insecure_verify_metadata m = Ok v ↔ v = {| provider_inner := m |} ∧ required_present m.
Proof.
  unfold insecure_verify_metadata. rewrite !result_bind_Ok_unit, !require_field_Ok.
  split; [intros (?&?&?&?&?&?&?&[= <-]); split; [done|by constructor]|intros [-> []]; done].
Qed.

(** What OpenID Connect Discovery asks of the metadata of [issuer]. *)
Record provider_ok (issuer : string) (m : ProviderMetadata) : Prop := {
  po_required : required_present m;
  po_issuer : pm_issuer m = Some issuer;
  po_issuer_url : ∃ url, url_parse issuer = Some url ∧ url_scheme url = "https" ∧
                    url_query url = None ∧ url_fragment url = None;
  po_authorization u : pm_authorization_endpoint m = Some u → url_scheme u = "https" ∧ url_fragment u = None;
  po_token u : pm_token_endpoint m = Some u → url_scheme u = "https" ∧ url_fragment u = None;
  po_jwks u : pm_jwks_uri m = Some u → url_scheme u = "https";
  po_registration u : pm_registration_endpoint m = Some u → url_scheme u = "https";
  po_scopes l : pm_scopes_supported m = Some l → "openid" ∈ l;
  po_token_algs : Alg_None ∉ default [] (pm_token_endpoint_auth_signing_alg_values_supported m);
  po_revocation u : pm_revocation_endpoint m = Some u → url_scheme u = "https" ∧ url_fragment u = None;
  po_revocation_algs : Alg_None ∉ default [] (pm_revocation_endpoint_auth_signing_alg_values_supported m);
  po_introspection u : pm_introspection_endpoint m = Some u → url_scheme u = "https";
  po_introspection_algs :
    Alg_None ∉ default [] (pm_introspection_endpoint_auth_signing_alg_values_supported m);
  po_userinfo u : pm_userinfo_endpoint m = Some u → url_scheme u = "https";
  po_par u : pm_pushed_authorization_request_endpoint m = Some u → url_scheme u = "https";
  po_end_session u : pm_end_session_endpoint m = Some u → url_scheme u = "https";
}.

Lemma required_url_Ok v get m :
  is_Some (get m) →
  required_url_rule v get m = Some (Ok tt) ↔ ∀ u, get m = Some u → url_allowed v u.
Proof.
  intros [u Hu]. unfold required_url_rule. rewrite Hu. simpl. setoid_rewrite <-check_Ok.
  split; [intros [= H] ? [= <-]; exact H|intros H; f_equal; by apply H].
Qed.
Lemma optional_url_Ok v get m :
  optional_url_rule v get m = Some (Ok tt) ↔ ∀ u, get (provider_inner m) = Some u → url_allowed v u.
Proof.
  unfold optional_url_rule. setoid_rewrite <-check_Ok. destruct (get (provider_inner m)) as [u|]; [|done].
  split; [intros [= H] ? [= <-]; exact H|intros H; f_equal; by apply H].
Qed.
Lemma signing_alg_Ok endpoint get m :
  signing_alg_rule endpoint get m = Some (Ok tt) ↔ Alg_None ∉ default [] (get (provider_inner m)).
Proof. unfold signing_alg_rule. by rewrite (inj_iff Some), reject_none_Ok. Qed.
Lemma issuer_matches_Ok expected m :
  issuer_matches_rule expected m = Some (Ok tt) ↔ pm_issuer (provider_inner m) = Some expected.
Proof.
  unfold issuer_matches_rule, Verified_issuer. destruct (pm_issuer _); simpl; [|naive_solver].
  case_bool_decide; naive_solver.
Qed.
Lemma issuer_url_Ok issuer m :
  pm_issuer (provider_inner m) = Some issuer →
  issuer_url_rule m = Some (Ok tt) ↔
  ∃ url, url_parse issuer = Some url ∧ url_scheme url = "https" ∧
    url_query url = None ∧ url_fragment url = None.
Proof.
  intros Hi. unfold issuer_url_rule, Verified_issuer. rewrite Hi. simpl.
  destruct (url_parse issuer) as [url|]; [|naive_solver].
  rewrite (inj_iff Some), check_Ok. unfold url_allowed. simpl.
  split; [intros (?&?&?); exists url; tauto|intros (? & [= <-] & ? & ? & ?); tauto].
Qed.
Lemma scopes_Ok m :
  scopes_rule m = Some (Ok tt) ↔ ∀ l, pm_scopes_supported (provider_inner m) = Some l → "openid" ∈ l.
Proof.
  unfold scopes_rule. destruct (pm_scopes_supported _) as [l|]; [|naive_solver].
  destruct (existsb _ l) eqn:E.
  - apply existsb_exists in E as (s & Hs & Heq%bool_decide_eq_true). subst.
    split; [intros _ ? [= <-]; by apply list_elem_of_In|done].
  - split; [done|]. intros Hl. specialize (Hl l eq_refl). apply list_elem_of_In in Hl.
    assert (existsb (λ s, bool_decide (s = "openid")) l = true); [|congruence].
    apply existsb_exists. eauto using bool_decide_eq_true_2.
Qed.

Lemma validate_inner m issuer v :
  ProviderMetadata_validate m issuer = Some (Ok v) ↔
  v = {| provider_inner := m |} ∧ required_present m ∧
  Forall (λ r : ValidationRule, r {| provider_inner := m |} = Some (Ok tt)) (validation_rules issuer).
Proof.
  unfold ProviderMetadata_validate. rewrite <-run_rules_Ok.
  destruct (insecure_verify_metadata m) as [w|e] eqn:E.
  - apply insecure_verify_Ok in E as [-> Hr].
    destruct (run_rules _ _) as [[[]|]|]; naive_solver.
  - split; [done|]. intros (-> & Hr & _).
    assert (insecure_verify_metadata m = Ok {| provider_inner := m |}); [|congruence].
    by apply insecure_verify_Ok.
Qed.

Lemma validation_rules_Ok issuer m :
  required_present m →
  Forall (λ r : ValidationRule, r {| provider_inner := m |} = Some (Ok tt)) (validation_rules issuer) ↔
  provider_ok issuer m.
Proof.
  intros Hr. unfold validation_rules. rewrite !Forall_cons, Forall_nil.
  rewrite !required_url_Ok by (destruct Hr; done).
  rewrite !optional_url_Ok, !signing_alg_Ok, issuer_matches_Ok, scopes_Ok. unfold url_allowed. simpl.
  split.
  - intros (Hi & Hu & H). rewrite issuer_url_Ok in Hu by done.
    destruct H as (?&?&?&?&?&?&?&?&?&?&?&?&?&_). constructor; naive_solver.
  - intros []. rewrite issuer_url_Ok by done. naive_solver.
Qed.

(** None of the accessors of required fields panics. *)
Definition accessors_safe (v : VerifiedProviderMetadata) : Prop :=
  is_Some (Verified_issuer v) ∧ is_Some (Verified_authorization_endpoint v) ∧
  is_Some (Verified_token_endpoint v) ∧ is_Some (Verified_jwks_uri v) ∧
  is_Some (Verified_response_types_supported v) ∧ is_Some (Verified_subject_types_supported v) ∧
  is_Some (Verified_id_token_signing_alg_values_supported v).

Lemma verified_accessors m issuer v :
  ProviderMetadata_validate m issuer = Some (Ok v) →
  accessors_safe v ∧ (Verified_userinfo_endpoint v = None ↔ pm_userinfo_endpoint m = None).
Proof. rewrite validate_inner. intros (-> & [] & _). split; [by unfold accessors_safe|done]. Qed.

(** Provider metadata pass [validate] for an issuer exactly when the required fields are
    present, the issuer is the expected one and an [https] URL without query and fragment, every
    endpoint named is [https] (without a fragment where that is forbidden), [openid] is among
    the scopes if any are listed, and no endpoint offers the signature algorithm [none]; the
    metadata are returned unchanged, and the check itself never panics. Afterwards the accessors of
    the required fields do not panic, while the one of the userinfo endpoint, which is documented
    as verified too, does exactly if that endpoint is absent. *)
Theorem provider_metadata_verified m issuer :
  is_Some (ProviderMetadata_validate m issuer) ∧
  (∀ v, ProviderMetadata_validate m issuer = Some (Ok v) ↔
        v = {| provider_inner := m |} ∧ provider_ok issuer m) ∧
  (∀ v, ProviderMetadata_validate m issuer = Some (Ok v) →
        accessors_safe v ∧ (Verified_userinfo_endpoint v = None ↔ pm_userinfo_endpoint m = None)).
Proof.
  split; [|split; [|intros v; apply verified_accessors]].
  - unfold ProviderMetadata_validate. destruct (insecure_verify_metadata m) as [v|] eqn:E; [|by eauto].
    apply insecure_verify_Ok in E as [-> Hr].
    destruct (run_rules_total (validation_rules issuer) {| provider_inner := m |}) as [[[]|] ->]; eauto.
    destruct Hr as [[? H1] [? H2] [? H3] [? H4] _ _ _].
    unfold validation_rules, required_url_rule, issuer_matches_rule, issuer_url_rule, Verified_issuer,
      Verified_authorization_endpoint, Verified_token_endpoint, Verified_jwks_uri.
    repeat (apply Forall_cons; split); [..|by apply Forall_nil];
      simpl; rewrite ?H1, ?H2, ?H3, ?H4; simpl; unfold optional_url_rule, signing_alg_rule, scopes_rule; eauto.
  - intros v. rewrite validate_inner. split.
    + intros (-> & Hr & H). split; [done|]. by apply validation_rules_Ok.
    + intros [-> H]. pose proof (po_required _ _ H). by rewrite validation_rules_Ok.
Qed.

End rules.

(** ** The discovery document *)

Section discovery.
Context {UX : UrlExternals} {VX : UrlPartsExternals} {BX : UrlBuildExternals}.
Context {BXok : UrlBuildExternalsOk BX}.

(** A builder of the configuration: its base passed the assertions of [new]. *)
Lemma builder_scheme base issuer assets ub :
  UrlBuilder_new base issuer assets = Some ub →
  ub_http_base ub = base ∧ (url_scheme base = "http" ∨ url_scheme base = "https") ∧
  ub_issuer ub = default base issuer.
Proof.
  unfold UrlBuilder_new. repeat case_bool_decide; simpl; try done. intros [= <-]. simpl. tauto.
Qed.

Lemma absolute_url_plain ub path :
  url_scheme (ub_http_base ub) = "http" ∨ url_scheme (ub_http_base ub) = "https" →
  plain_path (trim_start_matches "/"%char path) = true →
  ∃ u, absolute_url ub path = Some u ∧ url_scheme u = url_scheme (ub_http_base ub) ∧
    url_query u = None ∧ url_fragment u = None.
Proof. intros Hs Hp. unfold absolute_url. by apply url_join_plain. Qed.

(** The server's own discovery document can always be built, and names the configured
    issuer. It passes the checks of the client side for that issuer, every one of them, exactly
    when the server is reached by [https] and its issuer is an [https] URL without query and
    fragment. *)
Theorem discovery_is_valid base issuer assets ub keys registration :
  UrlBuilder_new base issuer assets = Some ub →
  url_parse (builder_oidc_issuer ub) = Some (builder_oidc_issuer ub) →
  ∃ doc, build_discovery keys ub registration = Some doc ∧
    pm_issuer (dr_standard doc) = Some (builder_oidc_issuer ub) ∧
    (provider_ok (builder_oidc_issuer ub) (dr_standard doc) ↔
     url_scheme base = "https" ∧ url_scheme (builder_oidc_issuer ub) = "https" ∧
     url_query (builder_oidc_issuer ub) = None ∧ url_fragment (builder_oidc_issuer ub) = None).
Proof.
  intros Hub Hparse. destruct (builder_scheme _ _ _ _ Hub) as (Hb & Hs & _). rewrite <-Hb in Hs |- *.
  unfold build_discovery, builder_oauth_authorization_endpoint, builder_oauth_token_endpoint,
    builder_oauth_device_authorization_endpoint, builder_jwks_uri, builder_oauth_introspection_endpoint,
    builder_oauth_revocation_endpoint, builder_oidc_userinfo_endpoint,
    builder_oauth_registration_endpoint, account_management_uri.
  destruct (absolute_url_plain ub "/authorize" Hs eq_refl) as (u1 & -> & S1 & Q1 & F1).
  destruct (absolute_url_plain ub "/oauth2/token" Hs eq_refl) as (u2 & -> & S2 & Q2 & F2).
  destruct (absolute_url_plain ub "/oauth2/device" Hs eq_refl) as (u3 & -> & S3 & _).
  destruct (absolute_url_plain ub "/oauth2/keys.json" Hs eq_refl) as (u4 & -> & S4 & _).
  destruct (absolute_url_plain ub "/oauth2/introspect" Hs eq_refl) as (u5 & -> & S5 & _).
  destruct (absolute_url_plain ub "/oauth2/revoke" Hs eq_refl) as (u6 & -> & S6 & Q6 & F6).
  destruct (absolute_url_plain ub "/oauth2/userinfo" Hs eq_refl) as (u7 & -> & S7 & _).
  destruct (absolute_url_plain ub "/oauth2/registration" Hs eq_refl) as (u8 & -> & S8 & _).
  destruct (absolute_url_plain ub "/account/" Hs eq_refl) as (u9 & -> & _).
  eexists. split; [reflexivity|]. split; [reflexivity|]. split.
  - intros Hok. pose proof (po_jwks _ _ Hok u4 eq_refl) as Hj. rewrite S4 in Hj.
    destruct (po_issuer_url _ _ Hok) as (url & Hu & ?). rewrite Hparse in Hu. injection Hu as <-. done.
  - intros (Hb' & Hi & Hq & Hf). rewrite Hb' in *. constructor; simpl; eauto 10; try naive_solver.
    + constructor; simpl; eauto.
    + intros l [= <-]. by left.
    + apply (bool_decide_eq_true_1 _). vm_compute. reflexivity.
    + apply (bool_decide_eq_true_1 _). vm_compute. reflexivity.
    + apply (bool_decide_eq_true_1 _). vm_compute. reflexivity.
Qed.
End discovery.

#[local] Existing Instances World.UX World.VX World.BX World.BX_ok.

Lemma discovery_is_valid_witness :
  ∃ ub doc, UrlBuilder_new "https://id.example/" None None = Some ub ∧
    build_discovery [] ub true = Some doc ∧ provider_ok "https://id.example/" (dr_standard doc).
Proof.
  destruct (UrlBuilder_new "https://id.example/" None None) as [ub|] eqn:E; [|vm_compute in E; discriminate].
  assert (builder_oidc_issuer ub = "https://id.example/") as Hi by (vm_compute in E; by injection E as <-).
  destruct (discovery_is_valid _ _ _ ub [] true E) as (doc & Hd & _ & Hiff); [by rewrite Hi|].
  exists ub, doc. split; [reflexivity|]. split; [exact Hd|]. rewrite <-Hi. apply Hiff. rewrite Hi.
  vm_compute. done.
Defined.

(** ** The algorithms named *)

Lemma elem_of_dedup {A} `{!EqDecision A} (l : list A) x : x ∈ dedup l ↔ x ∈ l.
Proof.
  induction l as [|a l IH]; simpl; [done|]. rewrite elem_of_cons, <-IH.
  destruct (dedup l) as [|b l']; [set_solver|]. case_bool_decide; set_solver.
Qed.

(** The algorithms a key may sign with. *)
Definition key_signs {P} `{!ParametersInfo P} (key : JsonWebKey P) (alg : JsonWebSignatureAlg) : Prop :=
  match jwk_alg key with Some a => a = alg | None => alg ∈ possible_algs (jwk_parameters key) end.
Definition key_for_signatures {P} (key : JsonWebKey P) : Prop := ∀ u, jwk_use key = Some u → u = Use_Sig.

Section algorithms.
Context {P : Type} `{!ParametersInfo P}.

Lemma compatible_alg_use (key : JsonWebKey P) alg :
  compatible [Constraint_Alg alg; Constraint_Use Use_Sig] key ↔ key_signs key alg ∧ key_for_signatures key.
Proof.
  unfold compatible, key_signs, key_for_signatures. rewrite Forall_cons, Forall_singleton. simpl.
  unfold decision_of. destruct (jwk_alg key), (jwk_use key); repeat case_bool_decide; naive_solver.
Qed.
Lemma compatible_use (key : JsonWebKey P) :
  compatible [Constraint_Use Use_Sig] key ↔ key_for_signatures key.
Proof.
  unfold compatible, key_for_signatures. rewrite Forall_singleton. simpl.
  unfold decision_of. destruct (jwk_use key); repeat case_bool_decide; naive_solver.
Qed.

Lemma elem_of_available (keys : list (JsonWebKey P)) alg :
  alg ∈ available_signing_algorithms keys ↔
  ∃ key, key ∈ keys ∧ is_ok (JsonWebKey_validate key) = true ∧ key_signs key alg ∧ key_for_signatures key.
Proof.
  unfold available_signing_algorithms. rewrite elem_of_dedup, merge_sort_Permutation, list_elem_of_bind.
  unfold find_keys. setoid_rewrite elem_of_filter_compatible. setoid_rewrite compatible_use.
  setoid_rewrite list_elem_of_filter. unfold key_signs.
  split.
  - intros (key & Ha & (Hv & Hk) & Hu). exists key. destruct (jwk_alg key); [|done].
    apply list_elem_of_singleton in Ha as ->. done.
  - intros (key & Hk & Hv & Ha & Hu). exists key. destruct (jwk_alg key); subst; [|done].
    split; [by left|done].
Qed.
End algorithms.

Lemma validate_alg_possible (key : JsonWebKey PrivateKey) alg :
  is_ok (JsonWebKey_validate key) = true → key_signs key alg → alg ∈ possible_algs (jwk_parameters key).
Proof.
  unfold JsonWebKey_validate, key_signs. destruct (jwk_alg key) as [a|]; [|done].
  destruct (decide (a ∈ possible_algs (jwk_parameters key))) as [Hin|Hn]; [by intros _ <-|].
  rewrite bool_decide_eq_true_2 by done. done.
Qed.
Lemma possible_alg_builds (k : PrivateKey) alg :
  alg ∈ possible_algs k → is_Some (try_build_signer k alg).
Proof.
  destruct k; simpl; rewrite ?elem_of_cons, ?elem_of_nil; intros; destruct_or?; subst; simpl; eauto; done.
Qed.

(** The discovery document names for ID tokens and user information exactly the algorithms the
    server can sign with: an algorithm is listed if and only if the key store has a signer for
    it, provided every key has an identifier. *)
Theorem advertised_algorithms_have_signers keys alg :
  Forall (λ key, is_Some (jwk_kid key)) keys →
  alg ∈ available_signing_algorithms keys ↔ is_Some (uncached_signer keys alg).
Proof.
  intros Hkid. rewrite elem_of_available. unfold uncached_signer, signing_key_for_algorithm. split.
  - intros (key & Hk & Hv & Hs & Hu).
    destruct (find_key keys _) as [k|] eqn:E; simpl.
    + apply find_key_Some in E as (Hin & Hval & n & Hn & _).
      assert (compatible [Constraint_Alg alg; Constraint_Use Use_Sig] k) as [Hks _]%compatible_alg_use
        by (apply (constraint_score_is_Some _ 0); by rewrite Hn).
      rewrite Forall_forall in Hkid. destruct (Hkid k Hin) as [kid ->]. simpl.
      destruct (possible_alg_builds (jwk_parameters k) alg) as [s ->]; [by apply validate_alg_possible|].
      by eexists.
    + destruct (find_key_None _ _ E key Hk Hv). by apply compatible_alg_use.
  - intros [[kid s] (k & E & _)%bind_Some].
    apply find_key_Some in E as (Hin & Hval & n & Hn & _). exists k.
    assert (compatible [Constraint_Alg alg; Constraint_Use Use_Sig] k) as [??]%compatible_alg_use
      by (apply (constraint_score_is_Some _ 0); by rewrite Hn).
    done.
Qed.

Lemma advertised_algorithms_have_signers_witness :
  let keys := [{| jwk_parameters := Private_Rsa "k"; jwk_use := Some Use_Sig; jwk_key_ops := None;
                  jwk_alg := None; jwk_kid := Some "1" |}] in
  Ps384 ∈ available_signing_algorithms keys ∧ Es256 ∉ available_signing_algorithms keys.
Proof.
  intros keys. assert (Forall (λ key, is_Some (jwk_kid key)) keys) as Hk by (repeat constructor; by eexists).
  split.
  - apply (advertised_algorithms_have_signers keys Ps384 Hk). vm_compute. by eexists.
  - intros [x Hx]%(advertised_algorithms_have_signers keys Es256 Hk). vm_compute in Hx. discriminate.
Defined.

