(* ===== verification/FlowProofs.v ===== *)
(** Flows: which responses a stage accepts, what planning does to the stages, and that over every
    sequence of requests a flow is completed stage by stage. *)
From S2P Require Import Prelude Ids TokenFormat Scope Pkce Jose Keystore Domain Database Repository FlowEngine World.

Open Scope Z_scope.

(** ** Contexts *)

Lemma value_get_insert key k x context :
  k ≠ key → value_get k (context_insert key x context) = value_get k context.
Proof.
  intros Hk. destruct context as [| | | | | |fields]; try done. simpl. f_equal.
  induction fields as [|[k' y] fields IH]; simpl.
  - by rewrite decide_False.
  - case_bool_decide as E; simpl.
    + subst k'. by rewrite !decide_False.
    + destruct (decide (k' = k)); [done|]. rewrite IH. done.
Qed.

(** The keys that satisfy a stage. *)
Definition markers : list string :=
  ["user_id"; "email_verified"; "password_set"; "user_created"; "mfa_validated"; "captcha_verified";
   "enrollment_token_id"].
Definition unmarked (context : Json) : Prop := Forall (λ k, value_get k context = None) markers.

Lemma unmarked_insert key x context :
  key ∉ markers → unmarked context → unmarked (context_insert key x context).
Proof.
  unfold unmarked. intros Hk H. rewrite Forall_forall in *. intros k Hin. specialize (H k Hin).
  rewrite value_get_insert; [done|]. by intros ->.
Qed.

Lemma unmarked_unsatisfied context stage : unmarked context → is_stage_satisfied stage context = false.
Proof.
  unfold unmarked, markers. rewrite !Forall_cons. intros (H1 & H2 & H3 & H4 & H5 & H6 & H7 & _).
  destruct stage; simpl; unfold is_true; rewrite ?H1, ?H2, ?H3, ?H4, ?H5, ?H6, ?H7; try done;
    by apply bool_decide_eq_false_2; intros [? ?].
Qed.

Lemma skip_unmarked context stages i : unmarked context → skip_satisfied context stages i = i.
Proof. intros H. destruct stages; simpl; [done|]. by rewrite unmarked_unsatisfied. Qed.

(** ** What a stage accepts *)

(** A required field is there and not empty. *)
Definition filled (data : Json) (f : PromptField) : Prop :=
  ∃ v, value_get (prompt_field_key f) data = Some v ∧ v ≠ Json_Null ∧ v ≠ Json_String "".

(** The provider, if one is configured and there is a connection to it, agreed. *)
Definition captcha_agreed (token : string) (ctx : option CaptchaVerifyContext) : Prop :=
  ∀ c config, ctx = Some c → cvc_captcha_config c = Some config →
    ∃ host, cvc_call c (verify_url (captcha_service config)) (captcha_secret_key config) token
              (cvc_remote_ip c) = Captcha_Body true host.

Definition accepts (stage : StageKind) (response : StageResponse)
    (ctx : option CaptchaVerifyContext) : Prop :=
  match stage, response with
  | Stage_Identification _ _, Response_Identification _ _ => True
  | Stage_EmailVerification _ _ _ _, Response_EmailVerification code => code ≠ ""
  | Stage_PasswordWrite required, Response_PasswordWrite current new =>
      (required = true → is_Some current) ∧ new ≠ ""
  | Stage_UserWrite _, Response_UserWrite _ _ => True
  | Stage_Captcha, Response_Captcha token => token ≠ "" ∧ captcha_agreed token ctx
  | Stage_Consent, Response_Consent granted => granted = true
  | Stage_Prompt fields, Response_Prompt data =>
      Forall (λ f, prompt_required f = true → filled data f) fields
  | Stage_AuthenticatorValidate _, Response_AuthenticatorValidate _ code =>
      String.length code = 6%nat ∧ str_all is_ascii_digit code = true
  | Stage_EnrollmentToken required, Response_EnrollmentToken token => required = true → token ≠ ""
  | _, _ => False
  end.

(** The user refused to consent. *)
Definition declines (stage : StageKind) (response : StageResponse) : Prop :=
  stage = Stage_Consent ∧ response = Response_Consent false.

Lemma is_missing_filled data f :
  is_missing (value_get (prompt_field_key f) data) = false ↔ filled data f.
Proof.
  unfold filled. destruct (value_get _ _) as [v|]; simpl; split.
  - intros H. exists v. split; [done|]. destruct v; simpl in *; try done.
    apply String.eqb_neq in H. split; [done|]. by intros [= ->].
  - intros (? & [= <-] & H1 & H2). destruct v; simpl; try done. apply String.eqb_neq. by intros ->.
  - done.
  - by intros (? & ? & _).
Qed.

Lemma prompt_errors_nil fields data :
  prompt_errors fields data = [] ↔ Forall (λ f, prompt_required f = true → filled data f) fields.
Proof.
  unfold prompt_errors. split.
  - intros H%fmap_nil_inv. apply Forall_forall. intros f Hin Hr.
    apply is_missing_filled. destruct (is_missing _) eqn:E; [|done]. exfalso.
    assert (f ∈ filter (λ f, prompt_required f && is_missing (value_get (prompt_field_key f) data)) fields)
      as Hf by (apply list_elem_of_filter; by rewrite Hr, E).
    rewrite H in Hf. by apply elem_of_nil in Hf.
  - intros H. rewrite Forall_forall in H. destruct (filter _ _) as [|f l] eqn:E; [done|]. exfalso.
    assert (f ∈ f :: l) as Hf by (by apply elem_of_cons; left). rewrite <-E in Hf.
    apply list_elem_of_filter in Hf as [[Hr Hm]%andb_prop_elim Hin].
    apply Is_true_true in Hr, Hm. apply (H f Hin) in Hr. apply is_missing_filled in Hr. congruence.
Qed.

Lemma password_errors_nil required current new :
  password_write_errors required current new = [] ↔ (required = true → is_Some current) ∧ new ≠ "".
Proof.
  unfold password_write_errors. rewrite app_nil. f_equiv.
  - destruct required; simpl; [|by split]. case_bool_decide as E; simpl; split; try done; naive_solver.
  - destruct (String.eqb_spec new ""); by split.
Qed.

Lemma captcha_continues token ctx :
  validate_captcha token ctx = Outcome_Continue ↔ token ≠ "" ∧ captcha_agreed token ctx.
Proof.
  unfold validate_captcha, captcha_agreed. destruct (String.eqb_spec token "") as [->|Hne].
  { split; [done|]. by intros [? _]. }
  destruct ctx as [c|]; [|naive_solver]. destruct (cvc_captcha_config c) as [config|] eqn:Ec; [|naive_solver].
  destruct (cvc_call _ _ _ _ _) as [| |[] host] eqn:E; split; try done.
  - intros [_ H]. destruct (H c config eq_refl Ec). congruence.
  - intros [_ H]. destruct (H c config eq_refl Ec). congruence.
  - intros _. split; [done|]. intros c' config' [= <-] Hc. simplify_eq. eauto.
  - intros [_ H]. destruct (H c config eq_refl Ec). congruence.
Qed.

(** The executor accepts exactly the responses that answer the stage. *)
Lemma validate_continues stage response context ctx :
  (validate_response stage response context ctx).1 = Outcome_Continue ↔ accepts stage response ctx.
Proof.
  destruct stage, response; simpl; try done.
  - destruct (String.eqb_spec code ""); by split.
  - rewrite <-password_errors_nil. by destruct (password_write_errors _ _ _).
  - apply captcha_continues.
  - by destruct granted.
  - rewrite <-prompt_errors_nil. by destruct (prompt_errors _ _).
  - unfold is_totp_code. destruct (Nat.eqb_spec (String.length code) 6); simpl; [|naive_solver].
    destruct (str_all _ _); simpl; naive_solver.
  - destruct (String.eqb_spec token ""), required; simpl; naive_solver.
Qed.

Lemma validate_done stage response context ctx redirect :
  (validate_response stage response context ctx).1 = Outcome_Done redirect ↔
  declines stage response ∧ redirect = None.
Proof.
  unfold declines. destruct stage, response; simpl; try (by split; [|intros [[??] ?]]).
  - destruct (String.eqb _ _); by split; [|intros [[??] ?]].
  - destruct (password_write_errors _ _ _); by split; [|intros [[??] ?]].
  - unfold validate_captcha. destruct (String.eqb _ _); [by split; [|intros [[??] ?]]|].
    destruct ctx as [c|]; [|by split; [|intros [[??] ?]]].
    destruct (cvc_captcha_config c); [|by split; [|intros [[??] ?]]].
    destruct (cvc_call _ _ _ _ _) as [| |[]]; by split; [|intros [[??] ?]].
  - destruct granted; naive_solver.
  - destruct (prompt_errors _ _); by split; [|intros [[??] ?]].
  - destruct (is_totp_code _); by split; [|intros [[??] ?]].
  - destruct (String.eqb _ _ && _); by split; [|intros [[??] ?]].
Qed.

(** Only a second factor marks the context. *)
Definition is_authenticator (stage : StageKind) : bool :=
  match stage with Stage_AuthenticatorValidate _ => true | _ => false end.

Ltac solve_unmarked :=
  repeat match goal with
  | |- unmarked (context_insert _ _ _) =>
      apply unmarked_insert; [by apply (bool_decide_unpack _); vm_compute|]
  | |- unmarked (match ?x with _ => _ end) => destruct x
  end; try done.
Lemma validate_unmarked stage response context ctx :
  is_authenticator stage = false → unmarked context →
  unmarked (validate_response stage response context ctx).2.
Proof.
  intros Hs Hc. destruct stage, response; simpl; try done; solve_unmarked.
  destruct (prompt_errors _ _); simpl; solve_unmarked.
Qed.

(** ** Planning *)

Definition le_order (b c : FlowStageBinding) : Prop := binding_order b ≤ binding_order c.

Lemma insert_binding_perm b l : insert_binding b l ≡ₚ b :: l.
Proof.
  induction l as [|c l IH]; simpl; [done|]. destruct (_ <=? _); [done|].
  rewrite IH. apply Permutation_swap.
Qed.
Lemma sort_bindings_perm l : sort_bindings l ≡ₚ l.
Proof. induction l as [|b l IH]; simpl; [done|]. by rewrite insert_binding_perm, IH. Qed.

Lemma insert_binding_sorted b l :
  StronglySorted le_order l → StronglySorted le_order (insert_binding b l).
Proof.
  induction 1 as [|c l Hl IH Hc]; simpl; [repeat constructor|].
  destruct (Z.leb_spec (binding_order b) (binding_order c)) as [Hle|Hlt].
  - constructor; [by constructor|]. constructor; [done|].
    eapply Forall_impl; [exact Hc|]. unfold le_order. intros d. lia.
  - constructor; [done|]. rewrite insert_binding_perm. constructor; [|done]. unfold le_order. lia.
Qed.
Lemma sort_bindings_sorted l : StronglySorted le_order (sort_bindings l).
Proof. induction l; simpl; [constructor|]. by apply insert_binding_sorted. Qed.

(** Bindings of one order stay in the order they were declared in. *)
Lemma insert_binding_filter n b l :
  StronglySorted le_order l →
  filter (λ c, binding_order c = n) (insert_binding b l) = filter (λ c, binding_order c = n) (b :: l).
Proof.
  induction 1 as [|c l Hl IH Hc]; simpl; [done|].
  destruct (Z.leb_spec (binding_order b) (binding_order c)) as [Hle|Hlt]; [done|].
  rewrite filter_cons, IH, !filter_cons.
  destruct (decide (binding_order b = n)), (decide (binding_order c = n)); try done. lia.
Qed.
Lemma sort_bindings_stable n l :
  filter (λ c, binding_order c = n) (sort_bindings l) = filter (λ c, binding_order c = n) l.
Proof.
  induction l as [|b l IH]; simpl; [done|].
  by rewrite insert_binding_filter, !filter_cons, IH by apply sort_bindings_sorted.
Qed.

Lemma sort_bindings_id l : StronglySorted le_order l → sort_bindings l = l.
Proof.
  induction 1 as [|b l Hl IH Hb]; simpl; [done|]. rewrite IH.
  destruct l as [|c l]; simpl; [done|]. apply Forall_cons in Hb as [Hb _]. unfold le_order in Hb.
  by rewrite (proj2 (Z.leb_le _ _)).
Qed.

Lemma bind_stages_spec flow now stages rng :
  let bs := (bind_stages flow now stages rng).1 in
  (λ b, (binding_stage b, binding_order b)) <$> bs = stages ∧
  Forall (λ b, binding_flow_id b = flow ∧ binding_policy_expression b = None) bs.
Proof.
  revert rng. induction stages as [|[stage order] stages IH]; intros rng; [by repeat constructor|].
  cbn [bind_stages]. unfold bind_stage. destruct (new_id now rng) as [id rng1]. specialize (IH rng1).
  destruct (bind_stages flow now stages rng1) as [bs rng2]. simpl in *. destruct IH as [IH1 IH2].
  split; [f_equal; exact IH1|by constructor].
Qed.

(** A declared flow is refused exactly if it names an unknown designation or an unknown field of an
    identification; otherwise its plan has the declared stages, by increasing order and, for one
    order, as they were declared, and all of them belong to the new flow. *)
Theorem declared_flow_is_planned file now rng :
  match into_flow file now rng with
  | None =>
      designation_of (fdf_designation file) = None ∨
      Exists (λ d, into_stage_kind d = None) (fdf_stages file)
  | Some ((flow, bindings), _) =>
      ∃ stages, Forall2 (λ d s, into_stage_kind d = Some s) (fdf_stages file) stages ∧
        designation_of (fdf_designation file) = Some (flow_designation flow) ∧
        let planned := plan_stages (FlowExecutor_plan flow bindings) in
        StronglySorted le_order planned ∧
        (λ b, (binding_stage b, binding_order b)) <$> planned ≡ₚ stages ∧
        (∀ n, (λ b, (binding_stage b, binding_order b)) <$> filter (λ b, binding_order b = n) planned =
              filter (λ s, s.2 = n) stages) ∧
        Forall (λ b, binding_flow_id b = flow_id flow) planned
  end.
Proof.
  unfold into_flow. destruct (designation_of _) as [d|] eqn:Ed; simpl; [|by left].
  destruct (mapM into_stage_kind _) as [stages|] eqn:Em; simpl; [|right; by apply mapM_None_1].
  unfold build_flow. destruct (new_id now rng) as [id rng1].
  pose proof (bind_stages_spec id now stages rng1) as [Hs Hf].
  destruct (bind_stages id now stages rng1) as [bs rng2]. simpl in *. exists stages.
  split; [by apply mapM_Some|]. split; [done|]. split; [apply sort_bindings_sorted|].
  split; [by rewrite sort_bindings_perm, Hs|]. split.
  - intros n. rewrite sort_bindings_stable. rewrite <-Hs. clear. induction bs as [|b bs IH]; simpl; [done|].
    rewrite !filter_cons. cbn [snd]. destruct (decide _); [|exact IH].
    change (?f <$> ?b :: ?l) with (f b :: (f <$> l)). by f_equal.
  - rewrite sort_bindings_perm. eapply Forall_impl; [exact Hf|]. by intros b [? _].
Qed.

(** ** Built-in flows *)

Abbreviation Flow := (DateTime → Rng → (FlowDefinition * list FlowStageBinding) * Rng).

Definition builtin_flows : list Flow :=
  [default_registration_flow; default_recovery_flow; default_password_change_flow;
   default_authentication_flow; default_authorization_flow; default_enrollment_flow].

(** A plan without second factors, and with a stage. *)
Definition plain_plan (plan : FlowPlan) : Prop :=
  plan_stages plan ≠ [] ∧ Forall (λ b, is_authenticator (binding_stage b) = false) (plan_stages plan).

Lemma build_flow_plain slug title d o stages now rng :
  stages ≠ [] → Forall (λ s, is_authenticator s.1 = false) stages →
  plain_plan (FlowExecutor_plan (build_flow slug title d o stages now rng).1.1
                                (build_flow slug title d o stages now rng).1.2).
Proof.
  intros Hne Hp. unfold build_flow. destruct (new_id now rng) as [id rng1].
  pose proof (bind_stages_spec id now stages rng1) as [Hs _].
  destruct (bind_stages id now stages rng1) as [bs rng2]. unfold plain_plan. simpl in *. split.
  - intros E. pose proof (sort_bindings_perm bs) as H. rewrite E in H. apply Permutation_nil_l in H.
    by subst.
  - rewrite sort_bindings_perm. rewrite <-Hs in Hp. by rewrite Forall_fmap in Hp.
Qed.

Lemma builtin_plain flow now rng :
  flow ∈ builtin_flows →
  plain_plan (FlowExecutor_plan (flow now rng).1.1 (flow now rng).1.2).
Proof.
  unfold builtin_flows. rewrite !elem_of_cons, elem_of_nil.
  intros [->|[->|[->|[->|[->|[->|[]]]]]]]; (apply build_flow_plain; [done|by repeat constructor]).
Qed.

Lemma resolved_builtin slug flow : resolve_flow_by_slug slug = Some flow → flow ∈ builtin_flows.
Proof.
  unfold resolve_flow_by_slug, builtin_flows.
  repeat (destruct (String.eqb slug _); [intros [= <-]; rewrite !elem_of_cons; tauto|]). done.
Qed.

(** ** Responses to a session in progress *)

(** The invariant of a stored session: no stage is satisfied without a response. *)
Definition plain_session (plan : FlowPlan) (s : FlowSession) : Prop :=
  plain_plan plan ∧ unmarked (fsn_context s).
Definition at_stage (plan : FlowPlan) (s : FlowSession) (b : FlowStageBinding) : Prop :=
  fsn_status s = Flow_InProgress ∧ plan_stages plan !! fsn_current_stage_index s = Some b.

Lemma plain_stage plan b i :
  plain_plan plan → plan_stages plan !! i = Some b → is_authenticator (binding_stage b) = false.
Proof. intros [_ H] Hb. by eapply (Forall_lookup_1 _ _ _ _ H Hb). Qed.

Lemma has_next_stage_true plan s :
  has_next_stage plan s = bool_decide (is_Some (plan_stages plan !! S (fsn_current_stage_index s))).
Proof.
  unfold has_next_stage. case_bool_decide as E; rewrite lookup_lt_is_Some in E;
    [apply Nat.ltb_lt|apply Nat.ltb_ge]; lia.
Qed.

#[local] Arguments has_next_stage : simpl never.

Lemma set_stage_id s : FlowSession_set_stage (fsn_current_stage_index s) s = s.
Proof. by destruct s. Qed.

(** The stage of an unmarked session is shown and not skipped. *)
Lemma current_challenge_plain plan s b :
  unmarked (fsn_context s) → at_stage plan s b →
  current_challenge plan s = (Ok (challenge_for_stage (binding_stage b) (fsn_context s)), s).
Proof.
  intros Hu [Hs Hb]. unfold current_challenge. rewrite Hs. cbn [FlowSessionStatus_is_terminal].
  cbv zeta. rewrite skip_unmarked by done. by rewrite set_stage_id, Hb.
Qed.

Section responses.
Context {DX : DbExternals}.

Definition stored (id : Ulid) (plan : FlowPlan) (s : FlowSession) (st st' : FlowSt) : Prop :=
  fst_store st' = <[id := (plan, s)]> (fst_store st).

Lemma show_stage_plain id plan s b errors st :
  unmarked (fsn_context s) → at_stage plan s b →
  ∃ st', show_stage id plan s errors st =
      (Ok (build_response plan s (challenge_for_stage (binding_stage b) (fsn_context s)) errors), st') ∧
    stored id plan s st st'.
Proof. intros Hu Hb. unfold show_stage. rewrite (current_challenge_plain _ _ _ Hu Hb). by eexists. Qed.

Lemma finish_flow_run id plan s redirect st :
  ∃ now st', let s' := FlowSession_complete (length (plan_stages plan)) now s in
    finish_flow id plan s redirect st =
      (Ok (build_response plan s' (Challenge_FlowDone redirect) None), st') ∧
    stored id plan s' st st'.
Proof. by exists (fst_clock st 0%nat), (finish_flow id plan s redirect st).2. Qed.

(** What follows an accepted response: the next stage, or the end. *)
Definition moved_on (plan : FlowPlan) (s s' : FlowSession) (context : Json) (reply : FlowResponse) : Prop :=
  fsn_context s' = context ∧ fr_errors reply = None ∧
  match plan_stages plan !! S (fsn_current_stage_index s) with
  | Some next =>
      at_stage plan s' next ∧ fsn_current_stage_index s' = S (fsn_current_stage_index s) ∧
      fr_challenge reply = FlowChallenge_from (challenge_for_stage (binding_stage next) context)
  | None => fsn_status s' = Flow_Completed ∧ fr_challenge reply = Api_FlowDone (Some "/account")
  end.

(** The whole of [respond_flow] on a stored session in progress. *)
Lemma respond_plain config call text id input st plan s b :
  ulid_from_string text = Some id → fst_store st !! id = Some (plan, s) →
  plain_session plan s → at_stage plan s b →
  let ctx := respond_captcha_context config call in
  let response := StageResponse_from input in
  ∃ reply s' st', respond_flow config call (Some text) (Some input) st = (Ok reply, st') ∧
    stored id plan s' st st' ∧ plain_session plan s' ∧
    ((accepts (binding_stage b) response ctx ∧
      moved_on plan s s' (validate_response (binding_stage b) response (fsn_context s) ctx).2 reply) ∨
     (declines (binding_stage b) response ∧ fsn_status s' = Flow_Completed ∧
      fr_challenge reply = Api_FlowDone None) ∨
     (¬ accepts (binding_stage b) response ctx ∧ ¬ declines (binding_stage b) response ∧
      at_stage plan s' b ∧ fsn_current_stage_index s' = fsn_current_stage_index s ∧
      is_Some (fr_errors reply) ∧
      fr_challenge reply = FlowChallenge_from (challenge_for_stage (binding_stage b) (fsn_context s')))).
Proof.
  intros Hid Hst [Hplan Hu] [Hs Hb] ctx response. unfold respond_flow, parse_flow_session_id.
  rewrite Hid. cbn [of_result]. unfold mbind, M_bind, flow_get, gets, of_result, ok_or, mret, M_ret. rewrite Hst.
  cbn. rewrite Hs. cbn. unfold process_response. rewrite Hs, Hb. cbn. fold ctx response.
  pose proof (validate_unmarked _ response _ ctx (plain_stage _ _ _ Hplan Hb) Hu) as Hu'.
  pose proof (validate_continues (binding_stage b) response (fsn_context s) ctx) as Hc.
  pose proof (validate_done (binding_stage b) response (fsn_context s) ctx) as Hd.
  destruct (validate_response _ _ _ _) as [outcome context]. cbn [fst snd] in *.
  set (s1 := FlowSession_set_context context _ s). set (st1 := Build_FlowSt _ _ _).
  assert (at_stage plan s1 b) as Hb1 by done.
  destruct outcome as [|errors|redirect].
  - change (fsn_current_stage_index s1) with (fsn_current_stage_index s).
    destruct (plan_stages plan !! S (fsn_current_stage_index s)) as [next|] eqn:En.
    + change (fsn_current_stage_index s) with (fsn_current_stage_index s1) in En.
      assert (has_next_stage plan s1 = true) as -> by (rewrite has_next_stage_true, En; done).
      destruct (show_stage_plain id plan (FlowSession_set_stage (S (fsn_current_stage_index s)) s1)
        next None st1) as (st' & -> & Hst'); [done|by split|].
      eexists _, _, st'. split; [reflexivity|]. split; [done|]. split; [by split|]. left.
      split; [by apply Hc|]. unfold moved_on.
      change (fsn_current_stage_index s1) with (fsn_current_stage_index s) in En. by rewrite En.
    + change (fsn_current_stage_index s) with (fsn_current_stage_index s1) in En.
      assert (has_next_stage plan s1 = false) as ->
        by (rewrite has_next_stage_true, En; by apply bool_decide_eq_false_2; intros [? ?]).
      destruct (finish_flow_run id plan s1 ACCOUNT_PAGE st1) as (now & st' & -> & Hst').
      eexists _, _, st'. split; [reflexivity|]. split; [done|]. split; [by split|]. left.
      split; [by apply Hc|]. unfold moved_on.
      change (fsn_current_stage_index s1) with (fsn_current_stage_index s) in En. by rewrite En.
  - destruct (show_stage_plain id plan s1 b (Some errors) st1) as (st' & -> & Hst'); [done..|].
    eexists _, _, st'. split; [reflexivity|]. split; [done|]. split; [by split|]. right; right.
    split; [by rewrite <-Hc|]. split; [|done].
    intros Hdec. discriminate (proj2 (Hd None) (conj Hdec eq_refl)).
  - destruct (proj1 (Hd redirect) eq_refl) as [Hdec ->].
    destruct (finish_flow_run id plan s1 None st1) as (now & st' & -> & Hst').
    eexists _, _, st'. split; [reflexivity|]. split; [done|]. split; [by split|]. right; left. done.
Qed.
End responses.

(** ** Histories *)

(** Where a flow is begun besides its own endpoint (register.rs, recovery.rs, password.rs). *)
Inductive BeginFlow := Begin_Registration | Begin_Recovery | Begin_PasswordChange.
Definition begun_flow (b : BeginFlow) : Flow :=
  match b with
  | Begin_Registration => default_registration_flow
  | Begin_Recovery => default_recovery_flow
  | Begin_PasswordChange => default_password_change_flow
  end.

Inductive FlowRequest :=
| FlowReq_Start (slug : option string)
| FlowReq_Begin (flow : BeginFlow)
| FlowReq_Get (id : option string)
| FlowReq_Respond (config : option CaptchaConfig)
    (call : option (string → string → string → option IpAddr → CaptchaReply))
    (id : option string) (input : option FlowStageResponse).

Section histories.
Context {DX : DbExternals}.

Definition flow_serve (req : FlowRequest) : M FlowSt FlowRouteError () :=
  match req with
  | FlowReq_Start slug => _ ← start_flow slug; mret tt
  | FlowReq_Begin flow => _ ← begin_flow (begun_flow flow); mret tt
  | FlowReq_Get id => _ ← get_flow_session id; mret tt
  | FlowReq_Respond config call id input => _ ← respond_flow config call id input; mret tt
  end.

(** Requests in turn, from an empty store; clock and random bytes are arbitrary at each of them. *)
Inductive flow_history : list FlowRequest → gmap Ulid (FlowPlan * FlowSession) → Prop :=
| flow_history_nil : flow_history [] ∅
| flow_history_snoc reqs req st :
    flow_history reqs (fst_store st) → flow_history (reqs ++ [req]) (fst_store (flow_serve req st).2).

(** The responses that were submitted for a session, and what the CAPTCHA provider was. *)
Definition response_to (id : Ulid) (req : FlowRequest)
    : option (StageResponse * option CaptchaVerifyContext) :=
  match req with
  | FlowReq_Respond config call (Some text) (Some input) =>
      if bool_decide (ulid_from_string text = Some id)
      then Some (StageResponse_from input, respond_captcha_context config call) else None
  | _ => None
  end.
Definition responses_to (id : Ulid) (reqs : list FlowRequest) := omap (response_to id) reqs.

(** An accepted answer to a stage. *)
Abbreviation Answer := (StageKind * (StageResponse * option CaptchaVerifyContext))%type.
Definition accepted (a : Answer) : Prop := accepts a.1 a.2.1 a.2.2.

(** [l] are the accepted answers to the first stages of the plan, among the responses given; the
    session is at the stage after them, or complete because all stages were answered, or because the
    user refused the consent that was the next stage. *)
Definition journey (plan : FlowPlan) (s : FlowSession)
    (given : list (StageResponse * option CaptchaVerifyContext)) (l : list Answer) : Prop :=
  l.*2 `sublist_of` given ∧ Forall accepted l ∧
  l.*1 = binding_stage <$> take (length l) (plan_stages plan) ∧
  match fsn_status s with
  | Flow_InProgress =>
      fsn_current_stage_index s = length l ∧ (length l < length (plan_stages plan))%nat
  | Flow_Completed =>
      length l = length (plan_stages plan) ∨
      (∃ b ctx, plan_stages plan !! length l = Some b ∧ binding_stage b = Stage_Consent ∧
        l.*2 ++ [(Response_Consent false, ctx)] `sublist_of` given)
  | _ => False
  end.

Definition flow_inv (reqs : list FlowRequest) (store : gmap Ulid (FlowPlan * FlowSession)) : Prop :=
  ∀ id plan s, store !! id = Some (plan, s) →
    plain_session plan s ∧ ∃ l, journey plan s (responses_to id reqs) l.

Lemma journey_mono plan s given given' l :
  given `sublist_of` given' → journey plan s given l → journey plan s given' l.
Proof.
  intros Hsub (H1 & H2 & H3 & H4). split_and!; [by etrans|done..|].
  destruct (fsn_status s); try done. destruct H4 as [?|(b & ctx & ? & ? & ?)]; [by left|right].
  exists b, ctx. split_and!; [done..|]. by etrans.
Qed.
Lemma responses_snoc id reqs req :
  responses_to id (reqs ++ [req]) = responses_to id reqs ++ option_list (response_to id req).
Proof. unfold responses_to. rewrite omap_app. simpl. by destruct (response_to id req). Qed.
Lemma responses_mono id reqs req : responses_to id reqs `sublist_of` responses_to id (reqs ++ [req]).
Proof. rewrite responses_snoc. by apply sublist_inserts_r. Qed.
Lemma flow_inv_mono reqs req store : flow_inv reqs store → flow_inv (reqs ++ [req]) store.
Proof.
  intros H id plan s Hs. destruct (H id plan s Hs) as (Hp & l & Hl). split; [done|].
  exists l. eapply journey_mono; [apply responses_mono|done].
Qed.

(** A stored session that has a journey. *)
Lemma flow_inv_insert reqs store id plan s l :
  flow_inv reqs store → plain_session plan s → journey plan s (responses_to id reqs) l →
  flow_inv reqs (<[id := (plan, s)]> store).
Proof.
  intros H Hp Hl id' plan' s' Hs. apply lookup_insert_Some in Hs as [[<- [= <- <-]]|[_ Hs]]; eauto.
Qed.

(** The first stage of a new session is not skipped. *)
Lemma new_session_plain id plan now :
  plain_plan plan →
  let s := new_flow_session id plan now in
  plain_session plan s ∧ (∃ b, at_stage plan s b) ∧ journey plan s [] [].
Proof.
  intros Hp s. split; [by split; [|by repeat constructor]|]. destruct Hp as [Hne _].
  destruct (plan_stages plan) as [|b bs] eqn:E; [done|]. split.
  - exists b. split; [done|]. by rewrite E.
  - split_and!; [done|done|done|]. simpl. rewrite E. simpl. split; [done|lia].
Qed.

Lemma plan_session_run (flow : Flow) st :
  flow ∈ builtin_flows →
  ∃ plan id now st', plan_session flow st = (Ok (plan, new_flow_session id plan now), st') ∧
    plain_plan plan ∧ fst_store st' = fst_store st.
Proof.
  intros Hf. unfold plan_session, mbind, M_bind, flow_now, flow_draw. cbn.
  pose proof (builtin_plain flow (fst_clock st 0%nat) (fst_rng st) Hf) as Hp.
  destruct (flow (fst_clock st 0%nat) (fst_rng st)) as [[def bindings] rng]. cbn in *.
  eexists _, _, _, _. split; [reflexivity|]. split; [exact Hp|reflexivity].
Qed.

(** What a request does: it answers without an internal error, and keeps the invariant. *)
Definition serves (reqs : list FlowRequest) (req : FlowRequest) (st : FlowSt) : Prop :=
  (∀ e, (flow_serve req st).1 ≠ Err (FlowRoute_Internal e)) ∧
  flow_inv (reqs ++ [req]) (fst_store (flow_serve req st).2).

Lemma new_session_stored reqs req st id plan now :
  flow_inv reqs (fst_store st) → plain_plan plan →
  flow_inv (reqs ++ [req]) (<[id := (plan, new_flow_session id plan now)]> (fst_store st)).
Proof.
  intros Hinv Hp. destruct (new_session_plain id plan now Hp) as (Hs & _ & Hj).
  eapply flow_inv_insert; [by apply flow_inv_mono|done|].
  eapply journey_mono; [|exact Hj]. apply sublist_nil_l.
Qed.

Lemma serves_begin reqs b st : flow_inv reqs (fst_store st) → serves reqs (FlowReq_Begin b) st.
Proof.
  intros Hinv. assert (begun_flow b ∈ builtin_flows) as Hb
    by (destruct b; unfold builtin_flows; simpl; rewrite !elem_of_cons; tauto).
  destruct (plan_session_run _ st Hb) as (plan & id & now & st' & Hrun & Hp & Hst).
  unfold serves. cbn [flow_serve]. unfold begin_flow, mbind, M_bind. rewrite Hrun.
  cbn. split; [done|]. rewrite Hst. by apply new_session_stored.
Qed.

Lemma serves_start reqs slug st : flow_inv reqs (fst_store st) → serves reqs (FlowReq_Start slug) st.
Proof.
  intros Hinv. unfold serves. cbn [flow_serve]. unfold start_flow, mbind, M_bind.
  destruct slug as [slug|]; [|by split; [|apply flow_inv_mono]]. cbn.
  destruct (resolve_flow_by_slug slug) as [flow|] eqn:Hf; [|by split; [|apply flow_inv_mono]].
  apply resolved_builtin in Hf. cbn.
  destruct (plan_session_run _ st Hf) as (plan & id & now & st' & Hrun & Hp & Hst). rewrite Hrun.
  destruct (new_session_plain id plan now Hp) as ([_ Hu] & [b Hb] & _).
  rewrite (current_challenge_plain _ _ _ Hu Hb). cbn. split; [done|]. rewrite Hst.
  by apply new_session_stored.
Qed.

(** A session in progress is at a stage of its plan. *)
Lemma journey_stage plan s given l :
  journey plan s given l → FlowSessionStatus_is_terminal (fsn_status s) = false →
  ∃ b, at_stage plan s b ∧ fsn_current_stage_index s = length l.
Proof.
  intros (_ & _ & _ & Hs) Ht. unfold at_stage. destruct (fsn_status s); try done. destruct Hs as [E Hlt].
  destruct (lookup_lt_is_Some_2 _ _ Hlt) as [b Hb]. exists b. by rewrite E.
Qed.

Lemma serves_get reqs text st : flow_inv reqs (fst_store st) → serves reqs (FlowReq_Get text) st.
Proof.
  intros Hinv. unfold serves. cbn [flow_serve].
  unfold get_flow_session, parse_flow_session_id, mbind, M_bind, of_result, flow_get, gets.
  destruct text as [text|]; [|by split; [|apply flow_inv_mono]].
  destruct (ulid_from_string text) as [id|]; [|by split; [|apply flow_inv_mono]]. cbn.
  destruct (fst_store st !! id) as [[plan s]|] eqn:Hs; [|by split; [|apply flow_inv_mono]]. cbn.
  destruct (FlowSessionStatus_is_terminal (fsn_status s)) eqn:Ht; [by split; [|apply flow_inv_mono]|].
  destruct (Hinv id plan s Hs) as ([Hp Hu] & l & Hl). destruct (journey_stage _ _ _ _ Hl Ht) as (b & Hb & _).
  rewrite (current_challenge_plain _ _ _ Hu Hb). cbn. split; [done|]. rewrite insert_id by done.
  by apply flow_inv_mono.
Qed.

(** The answer to the next stage goes on with a journey. *)
Lemma journey_answered plan s s' given l b response ctx context reply :
  journey plan s given l → at_stage plan s b → fsn_current_stage_index s = length l →
  accepts (binding_stage b) response ctx → moved_on plan s s' context reply →
  journey plan s' (given ++ [(response, ctx)]) (l ++ [(binding_stage b, (response, ctx))]).
Proof.
  intros (H1 & H2 & H3 & _) [_ Hb] E Hacc (_ & _ & Hm). rewrite E in Hb, Hm.
  assert (take (S (length l)) (plan_stages plan) = take (length l) (plan_stages plan) ++ [b]) as Htake
    by by apply take_S_r.
  unfold journey. rewrite !fmap_app, length_app, Nat.add_1_r, Htake, fmap_app, H3. split_and!.
  - by apply sublist_app.
  - apply Forall_app. split; [done|]. by repeat constructor.
  - done.
  - apply lookup_lt_Some in Hb.
    destruct (plan_stages plan !! S (length l)) as [next|] eqn:En.
    + destruct Hm as ([Hs _] & Hi & _). rewrite Hs, Hi. split; [done|].
      by apply lookup_lt_Some in En.
    + destruct Hm as [Hs _]. rewrite Hs. left. apply lookup_ge_None in En. lia.
Qed.

Lemma serves_respond reqs config call text input st :
  flow_inv reqs (fst_store st) → serves reqs (FlowReq_Respond config call text input) st.
Proof.
  intros Hinv. unfold serves. cbn [flow_serve].
  destruct (respond_flow config call text input st) as [r st'] eqn:Hrun. unfold mbind, M_bind. rewrite Hrun.
  revert Hrun. unfold respond_flow at 1.
  destruct text as [text|]; [|intros [= <- <-]; by split; [|apply flow_inv_mono]].
  destruct (ulid_from_string text) as [id|] eqn:Hid;
    [|unfold parse_flow_session_id; cbn; rewrite Hid; intros [= <- <-]; by split; [|apply flow_inv_mono]].
  destruct input as [input|];
    [|unfold parse_flow_session_id; cbn; rewrite Hid; intros [= <- <-]; by split; [|apply flow_inv_mono]].
  destruct (fst_store st !! id) as [[plan s]|] eqn:Hs;
    [|unfold parse_flow_session_id, mbind, M_bind, flow_get, gets; cbn; rewrite Hid; cbn; rewrite Hs;
      intros [= <- <-]; by split; [|apply flow_inv_mono]].
  destruct (FlowSessionStatus_is_terminal (fsn_status s)) eqn:Ht;
    [unfold parse_flow_session_id, mbind, M_bind, flow_get, gets; cbn; rewrite Hid; cbn; rewrite Hs; cbn;
     rewrite Ht; intros [= <- <-]; by split; [|apply flow_inv_mono]|].
  destruct (Hinv id plan s Hs) as (Hp & l & Hl). destruct (journey_stage _ _ _ _ Hl Ht) as (b & Hb & E).
  destruct (respond_plain config call text id input st plan s b Hid Hs Hp Hb)
    as (reply & s' & st2 & Hr & Hst & Hp' & Hcase).
  unfold respond_flow at 1 in Hr. rewrite Hr. intros [= <- <-]. split; [done|]. cbn. rewrite Hst.
  assert (response_to id (FlowReq_Respond config call (Some text) (Some input)) =
    Some (StageResponse_from input, respond_captcha_context config call)) as Hresp
    by (simpl; by rewrite bool_decide_eq_true_2).
  destruct Hcase as [[Hacc Hm]|[(Hdec & Hs' & _)|(_ & _ & Hb' & Hi & _)]].
  - eapply flow_inv_insert; [by apply flow_inv_mono|done|]. rewrite responses_snoc, Hresp.
    by eapply journey_answered.
  - eapply (flow_inv_insert _ _ _ _ _ l); [by apply flow_inv_mono|done|]. rewrite responses_snoc, Hresp.
    destruct Hl as (H1 & H2 & H3 & _), Hdec as [Hk ->], Hb as [_ Hb]. rewrite E in Hb.
    unfold journey. rewrite Hs'. split_and!; [by apply sublist_inserts_r|done|done|].
    right. exists b, (respond_captcha_context config call). split_and!; [done..|]. by apply sublist_app.
  - eapply (flow_inv_insert _ _ _ _ _ l); [by apply flow_inv_mono|done|].
    eapply journey_mono; [apply responses_mono|]. destruct Hl as (H1 & H2 & H3 & H4).
    destruct Hb as [Hb _], Hb' as [Hb' _]. unfold journey. rewrite Hb', Hi. by rewrite Hb in H4.
Qed.

Lemma flow_serves reqs req st : flow_inv reqs (fst_store st) → serves reqs req st.
Proof.
  destruct req; [apply serves_start|apply serves_begin|apply serves_get|apply serves_respond].
Qed.
Lemma flow_history_inv reqs store : flow_history reqs store → flow_inv reqs store.
Proof.
  induction 1 as [|reqs req st _ IH]; [|by apply flow_serves]. intros id plan s Hs.
  by rewrite lookup_empty in Hs.
Qed.
End histories.

Section theorems.
Context {DX : DbExternals}.

(** C34. Whatever requests were made of the flows, a session in progress was answered by accepted
    responses, among those submitted for it and in their order, at each of the stages of its plan before the current
    one. A completed session was so answered at every stage, or its user refused the
    consent it was at; there is no other way to complete it. *)
Theorem flow_is_completed_stage_by_stage reqs store id plan s :
  flow_history reqs store → store !! id = Some (plan, s) →
  ∃ l, journey plan s (responses_to id reqs) l.
Proof. intros Hh Hs. by destruct (flow_history_inv _ _ Hh id plan s Hs) as [_ Hl]. Qed.

(** A response to a session in progress is always answered, and decides what comes next: an accepted one shows
    the next stage of the plan, none being skipped, or completes the session at the last stage; a refused consent
    completes it; any other response shows the same stage again, with the errors. *)
Theorem flow_response_correct reqs st id plan s text config call input :
  flow_history reqs (fst_store st) → fst_store st !! id = Some (plan, s) →
  fsn_status s = Flow_InProgress → ulid_from_string text = Some id →
  let ctx := respond_captcha_context config call in
  let response := StageResponse_from input in
  ∃ b reply s' st', plan_stages plan !! fsn_current_stage_index s = Some b ∧
    respond_flow config call (Some text) (Some input) st = (Ok reply, st') ∧
    fst_store st' = <[id := (plan, s')]> (fst_store st) ∧
    ((accepts (binding_stage b) response ctx ∧
      moved_on plan s s' (validate_response (binding_stage b) response (fsn_context s) ctx).2 reply) ∨
     (declines (binding_stage b) response ∧ fsn_status s' = Flow_Completed ∧
      fr_challenge reply = Api_FlowDone None) ∨
     (¬ accepts (binding_stage b) response ctx ∧ ¬ declines (binding_stage b) response ∧
      at_stage plan s' b ∧ fsn_current_stage_index s' = fsn_current_stage_index s ∧
      is_Some (fr_errors reply) ∧
      fr_challenge reply = FlowChallenge_from (challenge_for_stage (binding_stage b) (fsn_context s')))).
Proof.
  intros Hh Hs Hp Hid ctx response. destruct (flow_history_inv _ _ Hh id plan s Hs) as (Hplain & l & Hl).
  destruct (journey_stage _ _ _ _ Hl) as (b & Hb & _); [by rewrite Hp|].
  destruct (respond_plain config call text id input st plan s b Hid Hs Hplain Hb)
    as (reply & s' & st' & Hr & Hst & _ & Hcase).
  exists b, reply, s', st'. split; [apply Hb|]. done.
Qed.

(** Over every sequence of requests, no request of the flows ends in an internal error. *)
Theorem flows_never_fail_internally reqs st req e :
  flow_history reqs (fst_store st) → (flow_serve req st).1 ≠ Err (FlowRoute_Internal e).
Proof. intros Hh%flow_history_inv. apply (flow_serves reqs req st Hh). Qed.
End theorems.

(** ** Examples *)

Module FlowExamples.
#[local] Existing Instance World.DX.

Definition st0 : FlowSt :=
  {| fst_store := ∅; fst_clock := λ _, World.NOW; fst_rng := λ _, 0 |}.
Definition start : FlowRequest := FlowReq_Start (Some "default-registration").
Definition st1 : FlowSt := (flow_serve start st0).2.
Definition id : Ulid := Eval vm_compute in default 0 (head (map_to_list (fst_store st1)).*1).
Definition answer (input : FlowStageResponse) : FlowRequest :=
  FlowReq_Respond None None (Some (ulid_to_string id)) (Some input).
Definition name_it : FlowRequest := answer (ApiResponse_UserWrite "alice" None).
Definition any_code : FlowRequest := answer (ApiResponse_EmailVerification "no code was sent").
Definition st2 : FlowSt := (flow_serve name_it st1).2.
Definition st3 : FlowSt := (flow_serve any_code st2).2.

Lemma history2 : flow_history [start; name_it] (fst_store st2).
Proof.
  change [start; name_it] with (([] ++ [start]) ++ [name_it]).
  apply flow_history_snoc, (flow_history_snoc [] start st0), flow_history_nil.
Qed.
Lemma history3 : flow_history [start; name_it; any_code] (fst_store st3).
Proof. exact (flow_history_snoc [start; name_it] any_code st2 history2). Qed.

(** Nothing is done with the code of a stage but to see that it is not empty: the stage is passed
    without a message having been sent, and the session is complete. *)
Example any_code_completes :
  (λ ps, fsn_status ps.2) <$> fst_store st3 !! id = Some Flow_Completed.
Proof. vm_compute. reflexivity. Qed.

(** The time a session expires at is written and never read. *)
Definition st2_late : FlowSt :=
  {| fst_store := fst_store st2; fst_clock := λ _, World.NOW + 1000 * FLOW_LIFETIME; fst_rng := λ _, 0 |}.
Example expired_session_completes :
  (λ ps, bool_decide (fsn_expires_at ps.2 < World.NOW + 1000 * FLOW_LIFETIME) ) <$> fst_store st2 !! id = Some true ∧
  (λ ps, fsn_status ps.2) <$> fst_store (flow_serve any_code st2_late).2 !! id = Some Flow_Completed.
Proof. vm_compute. by split. Qed.

Lemma flow_is_completed_stage_by_stage_witness :
  ∃ plan s, fst_store st3 !! id = Some (plan, s) ∧ fsn_status s = Flow_Completed ∧
    ∃ l, journey plan s (responses_to id [start; name_it; any_code]) l.
Proof.
  destruct (fst_store st3 !! id) as [[plan s]|] eqn:E; [|vm_compute in E; discriminate E].
  exists plan, s. split; [reflexivity|]. split.
  - pose proof any_code_completes as H. rewrite E in H. injection H as H. exact H.
  - exact (flow_is_completed_stage_by_stage _ _ _ _ _ history3 E).
Defined.

Lemma flow_response_correct_witness :
  ∃ plan s b, fst_store st2 !! id = Some (plan, s) ∧
    plan_stages plan !! fsn_current_stage_index s = Some b ∧
    ∃ reply st', respond_flow None None (Some (ulid_to_string id))
      (Some (ApiResponse_EmailVerification "no code was sent")) st2 = (Ok reply, st').
Proof.
  destruct (fst_store st2 !! id) as [[plan s]|] eqn:E; [|vm_compute in E; discriminate E].
  assert (fsn_status s = Flow_InProgress) as Hs.
  { assert ((λ ps, fsn_status ps.2) <$> fst_store st2 !! id = Some Flow_InProgress) as H
      by (vm_compute; reflexivity). rewrite E in H. injection H as H. exact H. }
  assert (ulid_from_string (ulid_to_string id) = Some id) as Hid by (vm_compute; reflexivity).
  destruct (flow_response_correct _ st2 id plan s (ulid_to_string id) None None
    (ApiResponse_EmailVerification "no code was sent") history2 E Hs Hid) as (b & reply & s' & st' & Hb & Hr & _).
  exists plan, s, b. split; [reflexivity|]. split; [exact Hb|]. exists reply, st'. exact Hr.
Defined.
End FlowExamples.
