(* ===== verification/ActivityProofs.v ===== *)
(** Theorems on the activity tracker: what is written for a run of the worker,
    the memory it takes, and the failure that stops it. *)
From S2P Require Import Prelude Ids TokenFormat Scope Pkce Jose Keystore Domain Database Repository Handlers ClientAuth TokenService World Activity.

Open Scope Z_scope.

(** ** The column the tracker maintains *)

Abbreviation Key := (SessionKind * Z)%type (only parsing).

(** The activity of a session, if there is such a session. *)
Definition activity_column (db : DB) (key : Key) : option (option DateTime) :=
  match key.1 with
  | Kind_OAuth2 => OAuthSessionRow_last_active_at <$> db_sessions db !! key.2
  | Kind_Browser => UserSessionRow_last_active_at <$> db_user_sessions db !! key.2
  | Kind_Personal => PersonalSessionRow_last_active_at <$> db_personal_sessions db !! key.2
  end.
Definition last_active (db : DB) (key : Key) : option DateTime := mjoin (activity_column db key).
Definition known (db : DB) (key : Key) : Prop := is_Some (activity_column db key).

Definition Activity_key (a : Activity) : Key := (activity_kind a, activity_session_id a).

(** The latest time of a list of records of a session, and of a given time. *)
Definition latest_time (key : Key) (l : list Activity) (old : option DateTime) : option DateTime :=
  foldl (λ old a, if decide (Activity_key a = key) then greatest (activity_date_time a) old else old)
    old l.

Lemma greatest_max s t o : greatest s (greatest t o) = greatest (s `max` t) o.
Proof. unfold greatest. destruct o; simpl; f_equal; lia. Qed.

(** ** Batches *)

Section batches.
Context {R : Type} (touch : DateTime → option IpAddr → R → R).
Implicit Types (rows : gmap Z R) (l : list (Ulid * DateTime * option IpAddr)).

Lemma touch_rows_notin l rows id : id ∉ l.*1.*1 → touch_rows touch l rows !! id = rows !! id.
Proof.
  revert rows. induction l as [|[[i t] ip] l IH]; intros rows; [done|].
  rewrite !fmap_cons, not_elem_of_cons. intros [Hne Hl]. unfold touch_rows in *. simpl.
  rewrite IH by done. by apply lookup_alter_ne.
Qed.
Lemma touch_rows_in l rows id t ip :
  NoDup l.*1.*1 → (id, t, ip) ∈ l → touch_rows touch l rows !! id = touch t ip <$> rows !! id.
Proof.
  revert rows. induction l as [|[[i t'] ip'] l IH]; intros rows; [by intros _ ?%elem_of_nil|].
  rewrite !fmap_cons. intros [Hi Hnd]%NoDup_cons [[= -> -> ->]|Hin]%elem_of_cons;
    unfold touch_rows in *; simpl.
  - fold (touch_rows touch l (alter (touch t' ip') i rows)).
    rewrite touch_rows_notin by done. by rewrite lookup_alter_eq.
  - rewrite (IH _ Hnd Hin). rewrite lookup_alter_ne; [done|]. intros ->.
    apply Hi. apply list_elem_of_fmap. exists (id, t). split; [done|].
    apply list_elem_of_fmap. by exists (id, t, ip).
Qed.

End batches.

Lemma rows_joined_all {R} l (rows : gmap Z R) :
  rows_joined l rows = length l ↔ ∀ id t ip, (id, t, ip) ∈ l → is_Some (rows !! id).
Proof.
  unfold rows_joined. induction l as [|[[i t] ip] l IH]; simpl.
  - split; [by intros _ ??? ?%elem_of_nil|done].
  - rewrite filter_cons. pose proof (length_filter (λ '(id, _, _), is_Some (rows !! id)) l) as Hle.
    case_decide as Hd; simpl.
    + rewrite Nat.succ_inj_wd, IH. setoid_rewrite elem_of_cons. naive_solver.
    + split; [lia|]. intros H. destruct Hd. apply (H i t ip). by left.
Qed.

Lemma elem_of_pending_of kind pending id t ip :
  (id, t, ip) ∈ pending_of kind pending ↔
  pending !! (kind, id) = Some {| record_end_time := t; record_ip := ip |}.
Proof.
  unfold pending_of. rewrite list_elem_of_omap. split.
  - intros ([[k i] [t' ip']] & Hin & H). apply elem_of_map_to_list in Hin.
    case_bool_decide; [|done]. simpl in H. by simplify_eq.
  - intros H. exists (kind, id, {| record_end_time := t; record_ip := ip |}).
    rewrite elem_of_map_to_list. by rewrite bool_decide_true.
Qed.

Lemma pending_of_NoDup kind pending : NoDup (pending_of kind pending).*1.*1.
Proof.
  unfold pending_of. pose proof (NoDup_fst_map_to_list pending) as Hnd.
  induction (map_to_list pending) as [|[[k i] r] l IH]; simpl; [constructor|].
  apply NoDup_cons in Hnd as [Hi Hnd]. case_bool_decide as Hk; [|by apply IH].
  simpl. apply NoDup_cons. split; [|by apply IH]. intros Hin. apply Hi.
  apply list_elem_of_fmap in Hin as ([i' t'] & -> & Hin).
  apply list_elem_of_fmap in Hin as ([[i'' t''] ip] & Heq & Hin). simpl in *. simplify_eq.
  apply list_elem_of_omap in Hin as ([[k' i'] r'] & Hin & H). case_bool_decide; [|done]. simplify_eq.
  apply list_elem_of_fmap. by exists (kind, i'', r').
Qed.

(** What a batch does to the rows of a kind. *)
Lemma batch_lookup {R} (touch : DateTime → option IpAddr → R → R) kind pending rows id :
  touch_rows touch (pending_of kind pending) rows !! id =
  match pending !! (kind, id) with
  | Some r => touch (record_end_time r) (record_ip r) <$> rows !! id
  | None => rows !! id
  end.
Proof.
  destruct (pending !! (kind, id)) as [[t ip]|] eqn:Hp.
  - apply touch_rows_in; [apply pending_of_NoDup|]. by apply elem_of_pending_of.
  - apply touch_rows_notin. intros Hin.
    apply list_elem_of_fmap in Hin as ([i t] & -> & Hin).
    apply list_elem_of_fmap in Hin as ([[i' t'] ip] & [= -> ->] & Hin). simpl in *.
    apply elem_of_pending_of in Hin. congruence.
Qed.

(** ** Flushes *)

(** All pending records written. *)
Definition flushed (pending : gmap Key ActivityRecord) (db : DB) : DB :=
  on_personal_sessions (touch_rows PersonalSessionRow_touch (pending_of Kind_Personal pending))
    (on_sessions (touch_rows OAuthSessionRow_touch (pending_of Kind_OAuth2 pending))
      (on_user_sessions (touch_rows UserSessionRow_touch (pending_of Kind_Browser pending)) db)).

Definition all_known (pending : gmap Key ActivityRecord) (db : DB) : Prop :=
  ∀ key, is_Some (pending !! key) → known db key.

Lemma known_of {R} (rows : gmap Z R) kind pending :
  rows_joined (pending_of kind pending) rows = length (pending_of kind pending) ↔
  ∀ id, is_Some (pending !! (kind, id)) → is_Some (rows !! id).
Proof.
  rewrite rows_joined_all. split.
  - intros H id [[t ip] Hp]. apply (H id t ip). by apply elem_of_pending_of.
  - intros H id t ip Hp. apply H. apply elem_of_pending_of in Hp. by rewrite Hp.
Qed.

Lemma all_known_kinds pending db :
  all_known pending db ↔
  (∀ id, is_Some (pending !! (Kind_Browser, id)) → is_Some (db_user_sessions db !! id)) ∧
  (∀ id, is_Some (pending !! (Kind_OAuth2, id)) → is_Some (db_sessions db !! id)) ∧
  (∀ id, is_Some (pending !! (Kind_Personal, id)) → is_Some (db_personal_sessions db !! id)).
Proof.
  unfold all_known, known, activity_column. split.
  - intros H. split_and!; intros id Hp; apply H in Hp; simpl in Hp; by rewrite fmap_is_Some in Hp.
  - intros (H1 & H2 & H3) [[] id] Hp; simpl; rewrite fmap_is_Some; auto.
Qed.

Lemma record_batch_run {R} (tbl : DB → gmap Z R) on touch l st :
  record_batch_activity tbl on touch l st =
    (if decide (rows_joined l (tbl (st_db st)) = length l) then Ok tt
     else Err (Db_RowsAffected (length l) (rows_joined l (tbl (st_db st)))),
     on_db (on (touch_rows touch l)) st).
Proof.
  unfold record_batch_activity, mbind, M_bind, gets, modify, ensure_affected_rows_usize. simpl.
  case_bool_decide; by case_decide.
Qed.

(** A flush writes everything, or nothing. *)
Lemma flush_transaction_run pending st :
  (all_known pending (st_committed st) ∧
   flush_transaction pending st =
     (Ok tt, with_committed (flushed pending (st_committed st)) (flushed pending (st_committed st)) st))
  ∨ (¬ all_known pending (st_committed st) ∧
     ∃ e st', flush_transaction pending st = (Err e, st') ∧ st_committed st' = st_committed st).
Proof.
  rewrite all_known_kinds, <-!known_of.
  unfold flush_transaction, browser_session_record_batch_activity,
    oauth2_session_record_batch_activity, personal_session_record_batch_activity.
  unfold mbind, M_bind, repo_cancel, repo_save. simpl.
  repeat (rewrite record_batch_run; simpl; case_decide; [|right; split; [tauto|by eexists _, _]]).
  left. split; [done|]. done.
Qed.

Lemma flushed_column pending db key :
  activity_column (flushed pending db) key =
  match pending !! key with
  | Some r => greatest (record_end_time r) <$> activity_column db key
  | None => activity_column db key
  end.
Proof.
  destruct key as [[] id]; unfold activity_column, flushed; simpl; rewrite batch_lookup;
    (destruct (pending !! _); [|done]); by destruct (_ !! id).
Qed.

(** What is known of a session: its column, and what is pending. *)
Definition effective (pending : gmap Key ActivityRecord) (db : DB) (key : Key) : option DateTime :=
  match pending !! key with
  | Some r => greatest (record_end_time r) (last_active db key)
  | None => last_active db key
  end.

Lemma flush_effective c pending st pending' st' key :
  worker_flush c pending st = (pending', st') →
  effective pending' (st_committed st') key = effective pending (st_committed st) key.
Proof.
  unfold worker_flush. case_bool_decide; [by intros [= <- <-]|].
  destruct c; [|by intros [= <- <-]].
  destruct (flush_transaction_run pending st) as [[Hk ->]|(_ & e & st1 & -> & Hc)].
  - intros [= <- <-]. unfold effective, last_active. simpl. rewrite lookup_empty, flushed_column.
    destruct (pending !! key) as [r|] eqn:Hp; [|done].
    destruct (Hk key) as [x Hx]; [by rewrite Hp|]. by rewrite Hx.
  - intros [= <- <-]. by rewrite Hc.
Qed.

Lemma pending_record_effective a pending db key :
  effective (pending_record a pending) db key =
  latest_time key [a] (effective pending db key).
Proof.
  unfold effective, pending_record, latest_time. cbn [foldl]. case_decide as Hk.
  - subst key. unfold Activity_key. rewrite lookup_insert_eq.
    destruct (pending !! _) as [r|]; simpl; rewrite ?greatest_max; [done|].
    f_equal. f_equal. lia.
  - by rewrite lookup_insert_ne.
Qed.

Lemma latest_app key l k old : latest_time key (l ++ k) old = latest_time key k (latest_time key l old).
Proof. apply foldl_app. Qed.
Lemma latest_cons key a l old : latest_time key (a :: l) old = latest_time key l (latest_time key [a] old).
Proof. done. Qed.

Lemma handle_message_effective c m pending st pending' dropped st' key :
  handle_message c m pending st = (pending', dropped, st') →
  effective pending' (st_committed st') key =
    latest_time key (match m with Message_Record a => if dropped then [] else [a] | Message_Flush => [] end)
      (effective pending (st_committed st) key).
Proof.
  destruct m as [a|]; cbn [handle_message].
  - destruct (MAX_PENDING_RECORDS <=? size pending)%nat.
    + destruct (worker_flush c pending st) as [p1 st1] eqn:Hf.
      apply flush_effective with (key := key) in Hf. rewrite <-Hf.
      destruct (MAX_PENDING_RECORDS <=? size p1)%nat; intros [= <- <- <-]; [done|].
      apply pending_record_effective.
    + destruct (MAX_PENDING_RECORDS <=? size pending)%nat; intros [= <- <- <-]; [done|].
      apply pending_record_effective.
  - destruct (worker_flush c pending st) as [p1 st1] eqn:Hf.
    apply flush_effective with (key := key) in Hf. intros [= <- <- <-]. done.
Qed.

(** The other transactions leave the column as it is, and begin sessions without it. *)
Definition keeps_activity (f : DB → DB) : Prop :=
  ∀ db key, last_active (f db) key = last_active db key.
Definition other_commits_keep_activity (events : list TrackerEvent) : Prop :=
  Forall (λ e, match e with Ev_Commit f => keeps_activity f | Ev_Message _ _ => True end) events.

Lemma worker_loop_effective events pending st pending' accepted st' key :
  other_commits_keep_activity events →
  worker_loop events pending st = (pending', accepted, st') →
  effective pending' (st_committed st') key =
    latest_time key accepted (effective pending (st_committed st) key).
Proof.
  intros Hev. revert pending st accepted.
  induction Hev as [|[c m|f] events Hf Hev IH]; intros pending st accepted; simpl.
  - by intros [= <- <- <-].
  - destruct (handle_message c m pending st) as [[p1 d] st1] eqn:Hm.
    apply handle_message_effective with (key := key) in Hm.
    destruct (worker_loop events p1 st1) as [[p2 acc] st2] eqn:Hl. intros [= -> <- ->].
    apply IH in Hl. rewrite Hm in Hl. rewrite Hl. by destruct m; [destruct d|].
  - intros H. rewrite (IH _ _ _ H). simpl. f_equal. unfold effective.
    by destruct (pending !! key); rewrite Hf.
Qed.

(** ** Memory *)

Definition bounded (pending : gmap Key ActivityRecord) : Prop :=
  (size pending <= MAX_PENDING_RECORDS)%nat.

Lemma flush_cases c pending st pending' st' :
  worker_flush c pending st = (pending', st') →
  (pending' = ∅ ∧ (pending = ∅ ∨ all_known pending (st_committed st))) ∨
  (pending' = pending ∧ st_committed st' = st_committed st ∧
   pending ≠ ∅ ∧ (c = false ∨ ¬ all_known pending (st_committed st))).
Proof.
  unfold worker_flush. case_bool_decide as Hne; [intros [= <- <-]; by auto|].
  destruct c; [|intros [= <- <-]; right; by auto].
  destruct (flush_transaction_run pending st) as [[Hk ->]|(Hn & e & st1 & -> & Hc)];
    intros [= <- <-]; [left|right]; by auto.
Qed.

Lemma pending_record_size a pending : (size (pending_record a pending) <= S (size pending))%nat.
Proof.
  unfold pending_record. destruct (pending !! (activity_kind a, activity_session_id a)) eqn:Hp.
  - rewrite map_size_insert_Some by done. lia.
  - rewrite map_size_insert_None by done. lia.
Qed.

Lemma handle_message_bounded c m pending st :
  bounded pending → bounded (handle_message c m pending st).1.1.
Proof.
  intros Hb.
  assert (∀ p p1 st1, bounded p → worker_flush c p st = (p1, st1) → bounded p1) as Hflush.
  { intros p p1 st1 Hp Hf.
    apply flush_cases in Hf as [[-> _]|(-> & _)]; [unfold bounded; rewrite map_size_empty; lia|done]. }
  destruct m as [a|]; cbn [handle_message].
  - destruct (if (MAX_PENDING_RECORDS <=? size pending)%nat then _ else _) as [p1 st1] eqn:Hf.
    assert (bounded p1) as Hb1
      by (destruct (MAX_PENDING_RECORDS <=? size pending)%nat; [by eapply Hflush|by injection Hf as <- <-]).
    destruct (Nat.leb_spec MAX_PENDING_RECORDS (size p1)); simpl; [done|].
    pose proof (pending_record_size a p1). unfold bounded. lia.
  - destruct (worker_flush c pending st) as [p1 st1] eqn:Hf. by eapply Hflush.
Qed.

(** The worker never holds more than a thousand records, whatever it is sent
    and however its flushes end. *)
Theorem pending_records_bounded events st :
  bounded (worker_loop events ∅ st).1.1.
Proof.
  assert (∀ p, bounded p → bounded (worker_loop events p st).1.1) as H.
  { revert st. induction events as [|[c m|f] events IH]; intros st p Hp; simpl; [done| |by apply IH].
    destruct (handle_message c m p st) as [[p1 d] st1] eqn:Hm.
    pose proof (handle_message_bounded c m p st Hp) as Hb. rewrite Hm in Hb.
    specialize (IH st1 p1 Hb). by destruct (worker_loop events p1 st1) as [[p2 acc] st2]. }
  apply H. unfold bounded. rewrite map_size_empty. lia.
Qed.

(** ** What is written *)

Lemma run_effective events last_connects st accepted st' key :
  other_commits_keep_activity events →
  worker_run events last_connects st = (∅, accepted, st') →
  last_active (st_committed st') key = latest_time key accepted (last_active (st_committed st) key).
Proof.
  intros Hev. unfold worker_run.
  destruct (worker_loop events ∅ st) as [[p acc] st1] eqn:Hl.
  destruct (worker_flush last_connects p st1) as [p2 st2] eqn:Hf. intros [= -> <- <-].
  apply flush_effective with (key := key) in Hf.
  apply worker_loop_effective with (key := key) in Hl; [|done].
  unfold effective in Hf at 1. rewrite lookup_empty in Hf. by rewrite Hf, Hl.
Qed.

(** C32. Once the last flush succeeds, the activity of every session is the latest
    of what it was and of the times of all the messages the worker accepted, as if
    each had been written on its own: failed flushes in between lose nothing, and
    nothing is written that was not sent. *)
Theorem accepted_activity_is_written events last_connects st pending accepted st' :
  other_commits_keep_activity events →
  worker_run events last_connects st = (pending, accepted, st') →
  pending = ∅ →
  ∀ key, last_active (st_committed st') key = latest_time key accepted (last_active (st_committed st) key).
Proof.
  intros Hev H -> key. by eapply run_effective.
Qed.

(** ** No record is dropped while the flushes succeed *)

(** The messages are about sessions of the database, and none is deleted. *)
Definition sessions_stay (known_keys : Key → Prop) (events : list TrackerEvent) : Prop :=
  Forall (λ e, match e with
    | Ev_Message c m => c = true ∧
        match m with Message_Record a => known_keys (Activity_key a) | Message_Flush => True end
    | Ev_Commit f => ∀ db key, known db key → known (f db) key
    end) events.
Fixpoint records_sent (events : list TrackerEvent) : list Activity :=
  match events with
  | [] => []
  | Ev_Message _ (Message_Record a) :: events => a :: records_sent events
  | _ :: events => records_sent events
  end.

Lemma flush_known c pending st pending' st' key :
  worker_flush c pending st = (pending', st') →
  known (st_committed st) key → known (st_committed st') key.
Proof.
  unfold worker_flush. case_bool_decide; [by intros [= <- <-]|].
  destruct c; [|by intros [= <- <-]].
  destruct (flush_transaction_run pending st) as [[_ ->]|(_ & e & st1 & -> & Hc)];
    intros [= <- <-]; [|by rewrite Hc].
  simpl. unfold known. rewrite flushed_column.
  destruct (pending !! key); [by rewrite fmap_is_Some|done].
Qed.

Section no_drop.
Context (K : Key → Prop).
Definition tracker_ok (pending : gmap Key ActivityRecord) (db : DB) : Prop :=
  (∀ key, is_Some (pending !! key) → K key) ∧ ∀ key, K key → known db key.

Lemma tracker_ok_flush pending st pending' st' :
  tracker_ok pending (st_committed st) → worker_flush true pending st = (pending', st') →
  pending' = ∅ ∧ tracker_ok pending' (st_committed st').
Proof.
  intros [Hp Hk] Hf. assert (pending' = ∅) as ->.
  { apply flush_cases in Hf as [[-> _]|(-> & _ & Hne & [?|Hn])]; [done|done|].
    destruct Hn. intros key Hkey. auto. }
  split; [done|]. split; [by intros key [? ?]|].
  intros key Hkey. eapply flush_known; [done|auto].
Qed.

Lemma tracker_ok_message m pending st pending' dropped st' :
  match m with Message_Record a => K (Activity_key a) | Message_Flush => True end →
  tracker_ok pending (st_committed st) →
  handle_message true m pending st = (pending', dropped, st') →
  dropped = false ∧ tracker_ok pending' (st_committed st').
Proof.
  intros Hm Hok. destruct m as [a|]; cbn [handle_message].
  - destruct (if (MAX_PENDING_RECORDS <=? size pending)%nat then _ else _) as [p1 st1] eqn:Hf.
    assert ((size p1 < MAX_PENDING_RECORDS)%nat ∧ tracker_ok p1 (st_committed st1)) as [Hs Hok1].
    { destruct (Nat.leb_spec MAX_PENDING_RECORDS (size pending)).
      - apply tracker_ok_flush in Hf as [-> Hok']; [|done]. split; [|done].
        rewrite map_size_empty. unfold MAX_PENDING_RECORDS. lia.
      - by injection Hf as <- <-. }
    destruct (Nat.leb_spec MAX_PENDING_RECORDS (size p1)); [lia|]. intros [= <- <- <-].
    split; [done|]. destruct Hok1 as [Hp Hk]. split; [|done].
    intros key. unfold pending_record. rewrite lookup_insert_is_Some. intros [<-|[_ ?]]; auto.
  - destruct (worker_flush true pending st) as [p1 st1] eqn:Hf. intros [= <- <- <-].
    split; [done|]. by apply tracker_ok_flush in Hf as [].
Qed.

Lemma tracker_ok_loop events pending st :
  sessions_stay K events → tracker_ok pending (st_committed st) →
  let '(pending', accepted, st') := worker_loop events pending st in
  accepted = records_sent events ∧ tracker_ok pending' (st_committed st').
Proof.
  intros Hev. revert pending st. induction Hev as [|[c m|f] events He Hev IH]; intros pending st Hok; simpl.
  - done.
  - destruct He as [-> Hm]. destruct (handle_message true m pending st) as [[p1 d] st1] eqn:Hh.
    apply tracker_ok_message in Hh as [-> Hok1]; [|done..]. specialize (IH p1 st1 Hok1).
    destruct (worker_loop events p1 st1) as [[p2 acc] st2]. destruct IH as [-> IH].
    by destruct m.
  - apply IH. destruct Hok as [Hp Hk]. split; [done|]. simpl. auto.
Qed.
End no_drop.

(** While connections are available and the sessions the messages are about
    are in the database, no message is dropped, and a run that ends leaves nothing
    pending: every activity that was sent is written. *)
Theorem activity_is_eventually_written K events st :
  sessions_stay K events → other_commits_keep_activity events →
  (∀ key, K key → known (st_committed st) key) →
  ∃ st', worker_run events true st = (∅, records_sent events, st') ∧
    ∀ key, last_active (st_committed st') key =
             latest_time key (records_sent events) (last_active (st_committed st) key).
Proof.
  intros Hs Hkeep Hk.
  assert (∃ st', worker_run events true st = (∅, records_sent events, st')) as [st' Hrun].
  { unfold worker_run. pose proof (tracker_ok_loop K events ∅ st Hs) as Hl.
    destruct (worker_loop events ∅ st) as [[p acc] st1].
    destruct Hl as [-> Hok]; [split; [by intros key [? ?]|done]|].
    destruct (worker_flush true p st1) as [p2 st2] eqn:Hf.
    apply (tracker_ok_flush K) in Hf as [-> _]; [|done]. by eexists. }
  exists st'. split; [done|]. intros key. by eapply run_effective.
Qed.

(** ** A record without a session *)

(** No other transaction creates the session. *)
Definition never_created (key : Key) (events : list TrackerEvent) : Prop :=
  Forall (λ e, match e with
    | Ev_Commit f => ∀ db, ¬ known db key → ¬ known (f db) key
    | Ev_Message _ _ => True
    end) events.
(** The database as the other transactions leave it. *)
Fixpoint commits_alone (events : list TrackerEvent) (db : DB) : DB :=
  match events with
  | [] => db
  | Ev_Commit f :: events => commits_alone events (f db)
  | Ev_Message _ _ :: events => commits_alone events db
  end.

Lemma blocked_flush c pending st key :
  is_Some (pending !! key) → ¬ known (st_committed st) key →
  ∃ st', worker_flush c pending st = (pending, st') ∧ st_committed st' = st_committed st.
Proof.
  intros Hp Hk. destruct (worker_flush c pending st) as [p1 st1] eqn:Hf.
  apply flush_cases in Hf as [[-> [->|H]]|(-> & Hc & _)].
  - by destruct Hp.
  - destruct Hk. by apply H.
  - by exists st1.
Qed.

Lemma blocked_message c m pending st key :
  is_Some (pending !! key) → ¬ known (st_committed st) key →
  let '(pending', dropped, st') := handle_message c m pending st in
  st_committed st' = st_committed st ∧ dom pending ⊆ dom pending' ∧
  match m with Message_Record a => dropped = false → Activity_key a ∈ dom pending' | Message_Flush => True end.
Proof.
  intros Hp Hk. destruct (blocked_flush c pending st key Hp Hk) as (st1 & Hf & Hc).
  destruct m as [a|]; cbn [handle_message]; rewrite Hf; [|done].
  destruct (MAX_PENDING_RECORDS <=? size pending)%nat eqn:Hs; rewrite Hs; [done|].
  unfold pending_record. rewrite dom_insert. split_and!; [done|set_solver|]. intros _.
  apply elem_of_union_l. by apply elem_of_singleton.
Qed.

(** A pending record of a session that is not in the database, and that no
    transaction creates, stops the tracker: no flush writes anything any more,
    for any session, no record is ever given up, and so at most a thousand
    sessions are remembered and all further records are dropped. *)
Theorem record_without_session_blocks_tracker events pending st key :
  is_Some (pending !! key) → ¬ known (st_committed st) key → never_created key events →
  let '(pending', accepted, st') := worker_loop events pending st in
  st_committed st' = commits_alone events (st_committed st) ∧
  dom pending ⊆ dom pending' ∧ Forall (λ a, Activity_key a ∈ dom pending') accepted.
Proof.
  intros Hp Hk Hev. revert pending st Hp Hk.
  induction Hev as [|[c m|f] events He Hev IH]; intros pending st Hp Hk; simpl; [done| |].
  - pose proof (blocked_message c m pending st key Hp Hk) as Hm.
    destruct (handle_message c m pending st) as [[p1 d] st1]. destruct Hm as (Hc & Hdom & Ha).
    assert (is_Some (p1 !! key)) as Hp1
      by (apply elem_of_dom; apply Hdom; by apply elem_of_dom).
    rewrite <-Hc in Hk |- *. specialize (IH p1 st1 Hp1 Hk).
    destruct (worker_loop events p1 st1) as [[p2 acc] st2]. destruct IH as (? & ? & Hacc).
    split_and!; [done|set_solver|]. destruct m as [a|]; [|done]. destruct d; [done|].
    constructor; [|done]. set_solver.
  - apply (IH pending (with_committed (f (st_committed st)) (f (st_committed st)) st)); [done|].
    by apply He.
Qed.

(** ** The theorems evaluated on a concrete world *)

(** The session 1000 of the world, seen without and then with an address. *)
Definition seen (at_ : DateTime) (ip : option IpAddr) : Activity :=
  {| activity_kind := Kind_OAuth2; activity_session_id := 1000;
     activity_date_time := at_; activity_ip := ip |}.
Definition world_events : list TrackerEvent :=
  [Ev_Message true (Message_Record (seen 7 None)); Ev_Message false Message_Flush;
   Ev_Message true (Message_Record (seen 9 (Some "192.0.2.1")));
   Ev_Message true (Message_Record (seen 8 None))].

Lemma world_events_keep : other_commits_keep_activity world_events.
Proof. by repeat constructor. Qed.

Lemma accepted_activity_is_written_witness :
  (worker_run world_events true World.st).1.1 = ∅ ∧
  last_active (st_committed (worker_run world_events true World.st).2) (Kind_OAuth2, 1000) = Some 9.
Proof.
  assert ((worker_run world_events true World.st).1.1 = ∅) as E by (vm_compute; reflexivity).
  split; [exact E|].
  destruct (worker_run world_events true World.st) as [[p acc] st'] eqn:Hrun.
  etransitivity;
    [exact (accepted_activity_is_written _ _ _ _ _ _ world_events_keep Hrun E (Kind_OAuth2, 1000))|].
  apply (f_equal (λ x, latest_time (Kind_OAuth2, 1000) x.1.2 None)) in Hrun.
  etransitivity; [symmetry; exact Hrun|]. vm_compute. reflexivity.
Defined.

Definition all_connected : list TrackerEvent :=
  [Ev_Message true (Message_Record (seen 7 None)); Ev_Message true Message_Flush;
   Ev_Message true (Message_Record (seen 9 (Some "192.0.2.1")))].

Lemma activity_is_eventually_written_witness :
  ∃ st', worker_run all_connected true World.st = (∅, records_sent all_connected, st').
Proof.
  destruct (activity_is_eventually_written (λ key, key = (Kind_OAuth2, 1000)) all_connected World.st)
    as (st' & H & _).
  - repeat constructor.
  - by repeat constructor.
  - intros key ->. vm_compute. by eexists.
  - exists st'. exact H.
Defined.

Lemma record_without_session_blocks_tracker_witness :
  let '(pending', accepted, st') :=
    worker_loop world_events {[ (Kind_OAuth2, 77) := {| record_end_time := 1; record_ip := None |} ]}
      World.st in
  st_committed st' = World.db.
Proof.
  pose proof (record_without_session_blocks_tracker world_events
    {[ (Kind_OAuth2, 77) := {| record_end_time := 1; record_ip := None |} ]} World.st (Kind_OAuth2, 77))
    as H.
  destruct (worker_loop _ _ _) as [[p acc] st']. apply H.
  - vm_compute. by eexists.
  - vm_compute. intros [x Hx]. discriminate Hx.
  - by repeat constructor.
Defined.

(** The address written is that of the first message since the last flush, here
    none, although the time is that of a later message with an address. *)
Example address_of_first_message :
  (λ r, (OAuthSessionRow_last_active_at r, OAuthSessionRow_last_active_ip r)) <$>
    db_sessions (st_committed (worker_run world_events true World.st).2) !! 1000
  = Some (Some 9, None).
Proof. vm_compute. reflexivity. Qed.
