(* ===== verification/RepositorySpec.v ===== *)
(** What each repository method does, as equations on the database: the lemmas
    the handlers' theorems are proved with. Every lemma reads "if the method
    returns [Ok v], then ..."; [ran st st' f] says that the transaction's
    database is transformed by [f] and the committed one is left alone. *)
From S2P Require Import Prelude Ids TokenFormat Scope Pkce Jose Domain Database Repository.

Open Scope Z_scope.

#[global] Arguments new_id : simpl never.
#[global] Arguments TokenType_generate : simpl never.

Definition ran (st st' : St) (f : DB → DB) : Prop :=
  st_db st' = f (st_db st) ∧ st_committed st' = st_committed st.

(** Neither database changes. *)
Definition same (st st' : St) : Prop :=
  st_db st' = st_db st ∧ st_committed st' = st_committed st.

Lemma same_refl st : same st st.
Proof. done. Qed.
Lemma same_trans st1 st2 st3 : same st1 st2 → same st2 st3 → same st1 st3.
Proof. intros [E1 C1] [E2 C2]. split; congruence. Qed.
Lemma same_ran st1 st2 st3 f : same st1 st2 → ran st2 st3 f → ran st1 st3 f.
Proof. intros [E1 C1] [E2 C2]. split; congruence. Qed.
Lemma ran_same st1 st2 st3 f : ran st1 st2 f → same st2 st3 → ran st1 st3 f.
Proof. intros [E1 C1] [E2 C2]. split; congruence. Qed.
Lemma ran_ran st1 st2 st3 f g : ran st1 st2 f → ran st2 st3 g → ran st1 st3 (λ db, g (f db)).
Proof. intros [E1 C1] [E2 C2]. split; congruence. Qed.
Lemma same_keeps {E A} (m : M St E A) st r st' :
  keeps st_db m → keeps st_committed m → m st = (r, st') → same st st'.
Proof. intros Hd Hc Hr. split; [by eapply keeps_run in Hd|by eapply keeps_run in Hc]. Qed.

#[export] Instance same_preorder : PreOrder same.
Proof. split; [exact same_refl|exact same_trans]. Qed.

Section primitives.
Context {E : Type}.

Lemma clock_now_inv st (t : DateTime) st' :
  (clock_now : M St E _) st = (Ok t, st') → t = st_clock st 0%nat ∧ same st st'.
Proof. intros [= <- <-]. done. Qed.
Lemma with_rng_inv {A} (f : Rng → A * Rng) st a st' :
  (with_rng f : M St E _) st = (Ok a, st') → a = (f (st_rng st)).1 ∧ same st st'.
Proof. intros [= <- <-]. done. Qed.
Lemma record_activity_inv k id ip st u st' :
  (record_session_activity k id ip : M St E _) st = (Ok u, st') → same st st'.
Proof. by intros [= <- <-]. Qed.
End primitives.

Lemma select_by_id_inv {R} (tbl : DB → gmap Z R) id st o st' :
  select_by_id tbl id st = (Ok o, st') → o = tbl (st_db st) !! id ∧ st' = st.
Proof. by intros [= <- <-]. Qed.
Lemma select_first_inv {R} (tbl : DB → gmap Z R) P st o st' :
  select_first tbl P st = (Ok o, st') → o = find_first P (tbl (st_db st)) ∧ st' = st.
Proof. by intros [= <- <-]. Qed.
Lemma update_one_inv {R} (tbl : DB → gmap Z R) on v id g st u st' :
  update_one tbl on v id g st = (Ok u, st') →
  is_Some (tbl (st_db st) !! id) ∧ v (st_db st) = None ∧ ran st st' (on (alter g id)).
Proof. intros (r & -> & Hv & ->)%update_one_Ok. by eauto. Qed.
Lemma insert_row_inv {R} (on : (gmap Z R → gmap Z R) → DB → DB) v id r st u st' :
  insert_row on v id r st = (Ok u, st') → v (st_db st) = None ∧ ran st st' (on <[id := r]>).
Proof. by intros [? ->]%insert_row_Ok. Qed.
Lemma try_into_inv {R A} (dec : Ulid → R → result A DatabaseError) res st o st' :
  try_into dec res st = (Ok o, st') →
  st' = st ∧ match o with
             | None => res = None
             | Some a => ∃ id row, res = Some (id, row) ∧ dec id row = Ok a
             end.
Proof.
  unfold try_into. destruct res as [[id row]|]; [|by intros [= <- <-]].
  intros H. run_inv. destruct (dec id row) eqn:Hd; simplify_eq. eauto.
Qed.
Lemma of_result_map_err_inv {A E F} (g : E → F) (r : result A E) (st : St) a st' :
  of_result (result_map_err g r) st = (Ok a, st') → r = Ok a ∧ st' = st.
Proof. unfold of_result. destruct r; naive_solver. Qed.
Lemma keyed_Some {R} id (o : option R) id' r :
  keyed id o = Some (id', r) ↔ id' = id ∧ o = Some r.
Proof. destruct o; naive_solver. Qed.

(** One step of inversion on a run of repository code. *)
Ltac repo_step :=
  match goal with
  | H : clock_now _ = (Ok _, _) |- _ =>
      apply clock_now_inv in H as [-> ?]
  | H : with_rng (new_id _) _ = (Ok _, _) |- _ => apply with_rng_inv in H as [_ ?]
  | H : with_rng _ _ = (Ok _, _) |- _ =>
      let E := fresh "Hrng" in apply with_rng_inv in H as [E ?]
  | H : record_session_activity _ _ _ _ = (Ok _, _) |- _ => apply record_activity_inv in H
  | H : select_by_id _ _ _ = (Ok _, _) |- _ => apply select_by_id_inv in H as [-> ->]
  | H : select_first _ _ _ = (Ok _, _) |- _ => apply select_first_inv in H as [-> ->]
  | H : update_one _ _ _ _ _ _ = (Ok _, _) |- _ =>
      let I := fresh "Hin" in let V := fresh "Hv" in apply update_one_inv in H as (I & V & H)
  | H : insert_row _ _ _ _ _ = (Ok _, _) |- _ =>
      let V := fresh "Hv" in apply insert_row_inv in H as (V & H)
  | H : try_into _ _ _ = (Ok _, _) |- _ => apply try_into_inv in H as [-> H]
  | H : of_result (result_map_err _ _) _ = (Ok _, _) |- _ =>
      apply of_result_map_err_inv in H as [H ->]
  | H : gets _ _ = (Ok _, _) |- _ => unfold gets in H; injection H as ? ?; subst
  | H : modify _ _ = (Ok _, _) |- _ => unfold modify in H; injection H as ? ?; subst
  | _ => run_inv_step
  end.
Ltac repo_inv := repeat repo_step.

(** Replace the states reached without touching the databases by the first. *)
Ltac same_norm :=
  repeat match goal with
  | H : same ?a ?a |- _ => clear H
  | H1 : same ?a ?b, H2 : same ?b ?c |- _ => pose proof (same_trans _ _ _ H1 H2); clear H2
  | H1 : same ?a ?b, H2 : ran ?b ?c _ |- _ => apply (same_ran _ _ _ _ H1) in H2
  | H : same ?a ?b |- _ =>
      let D := fresh in let C := fresh in
      destruct H as [D C]; rewrite ?D, ?C in *; clear D C
  end.

(** Compose the steps of a run into one. *)
Ltac ran_chain :=
  repeat match goal with
  | H : same ?a ?a |- _ => clear H
  | H1 : same ?a ?b, H2 : same ?b ?c |- _ => apply (same_trans _ _ _ H1) in H2; clear H1
  | H1 : same ?a ?b, H2 : ran ?b ?c _ |- _ => apply (same_ran _ _ _ _ H1) in H2; clear H1
  | H1 : ran ?a ?b _, H2 : same ?b ?c |- _ =>
      let H := fresh "Hran" in pose proof (ran_same _ _ _ _ H1 H2) as H; clear H1 H2
  | H1 : ran ?a ?b _, H2 : ran ?b ?c _ |- _ =>
      let H := fresh "Hran" in pose proof (ran_ran _ _ _ _ _ H1 H2) as H; clear H1 H2
  end.

(** ** Access tokens *)

Lemma AccessToken_from_state id r :
  AccessToken_state (AccessToken_from id r) = AccessToken_Valid ↔ AccessTokenRow_revoked_at r = None.
Proof. unfold AccessToken_from. simpl. case_match; naive_solver. Qed.

Lemma access_token_lookup_inv id st o st' :
  access_token_lookup id st = (Ok o, st') →
  st' = st ∧ o = AccessToken_from id <$> db_access_tokens (st_db st) !! id.
Proof. unfold access_token_lookup. intros H. repo_inv. done. Qed.

Lemma access_token_find_inv t st o st' :
  access_token_find_by_token t st = (Ok o, st') →
  st' = st ∧ match o with
             | None => find_first (has_access_token t) (db_access_tokens (st_db st)) = None
             | Some a => ∃ id row, find_first (has_access_token t) (db_access_tokens (st_db st)) = Some (id, row) ∧
                                   a = AccessToken_from id row
             end.
Proof.
  unfold access_token_find_by_token. intros H. repo_inv. split; [done|].
  destruct (find_first _ _) as [[id row]|]; simpl; eauto.
Qed.

(** The token stored by [add], and where. *)
(** The token stored by [add], under a key and a text that were free. *)
Lemma access_token_add_inv session text ttl st a st' :
  access_token_add session text ttl st = (Ok a, st') →
  ∃ t row, row = new_access_token_row (Session_id session) text t ((λ d, t + d) <$> ttl) ∧
    a = AccessToken_from (AccessToken_id a) row ∧
    access_token_violation (AccessToken_id a) (Session_id session) text (st_db st) = None ∧
    ran st st' (on_access_tokens <[AccessToken_id a := row]>).
Proof.
  unfold access_token_add. intros H. repo_inv. same_norm. simpl.
  exists (st_clock st 0%nat). eexists. split; [reflexivity|]. split; [reflexivity|]. by subst.
Qed.

Lemma access_token_revoke_inv a st a' st' :
  access_token_revoke a st = (Ok a', st') →
  ∃ t, AccessToken_state a = AccessToken_Valid ∧ AccessToken_revoke a t = Ok a' ∧
    is_Some (db_access_tokens (st_db st) !! AccessToken_id a) ∧
    ran st st' (on_access_tokens (alter (AccessTokenRow_set_revoked_at t) (AccessToken_id a))).
Proof.
  unfold access_token_revoke. intros H. repo_inv. same_norm.
  exists (st_clock st 0%nat). split_and!; try done.
  unfold AccessToken_revoke in H. by destruct (AccessToken_state a).
Qed.

Lemma access_token_mark_used_inv a st a' st' :
  access_token_mark_used a st = (Ok a', st') →
  ∃ t, AccessToken_expires_at a' = AccessToken_expires_at a ∧
    AccessToken_created_at a' = AccessToken_created_at a ∧ AccessToken_id a' = AccessToken_id a ∧
    is_Some (db_access_tokens (st_db st) !! AccessToken_id a) ∧
    ran st st' (on_access_tokens (alter (AccessTokenRow_set_first_used_at t) (AccessToken_id a))).
Proof.
  unfold access_token_mark_used. intros H. repo_inv. same_norm.
  exists (st_clock st 0%nat). done.
Qed.

(** ** Refresh tokens *)

Lemma RefreshToken_try_from_inv id r rt :
  RefreshToken_try_from id r = Ok rt →
  RefreshToken_id rt = id ∧ RefreshToken_refresh_token rt = RefreshTokenRow_refresh_token r ∧
  RefreshToken_session_id rt = RefreshTokenRow_oauth2_session_id r ∧
  RefreshToken_access_token_id rt = RefreshTokenRow_oauth2_access_token_id r ∧
  RefreshToken_created_at rt = RefreshTokenRow_created_at r ∧
  match RefreshToken_state rt with
  | RefreshToken_Valid => RefreshTokenRow_revoked_at r = None ∧ RefreshTokenRow_consumed_at r = None ∧
                          RefreshTokenRow_next_oauth2_refresh_token_id r = None
  | RefreshToken_Consumed t n =>
      RefreshTokenRow_revoked_at r = None ∧ RefreshTokenRow_consumed_at r = Some t ∧
      RefreshTokenRow_next_oauth2_refresh_token_id r = n
  | RefreshToken_Revoked t =>
      RefreshTokenRow_revoked_at r = Some t ∧ RefreshTokenRow_consumed_at r = None ∧
      RefreshTokenRow_next_oauth2_refresh_token_id r = None
  end.
Proof.
  unfold RefreshToken_try_from.
  destruct (RefreshTokenRow_revoked_at r), (RefreshTokenRow_consumed_at r),
    (RefreshTokenRow_next_oauth2_refresh_token_id r); simpl; intros [= <-]; done.
Qed.

Lemma refresh_token_lookup_inv id st o st' :
  refresh_token_lookup id st = (Ok o, st') →
  st' = st ∧ match o with
             | None => db_refresh_tokens (st_db st) !! id = None
             | Some rt => ∃ row, db_refresh_tokens (st_db st) !! id = Some row ∧
                                 RefreshToken_try_from id row = Ok rt
             end.
Proof.
  unfold refresh_token_lookup. intros H. repo_inv. split; [done|].
  destruct o; [|by destruct (_ !! _)].
  destruct H as (id' & row & [-> ?]%keyed_Some & ?). eauto.
Qed.

Lemma refresh_token_find_inv t st o st' :
  refresh_token_find_by_token t st = (Ok o, st') →
  st' = st ∧ match o with
             | None => find_first (has_refresh_token t) (db_refresh_tokens (st_db st)) = None
             | Some rt => ∃ id row,
                 find_first (has_refresh_token t) (db_refresh_tokens (st_db st)) = Some (id, row) ∧
                 RefreshToken_try_from id row = Ok rt
             end.
Proof. unfold refresh_token_find_by_token. intros H. repo_inv. done. Qed.

Lemma refresh_token_add_inv session a text st rt st' :
  refresh_token_add session a text st = (Ok rt, st') →
  ∃ t row, row = new_refresh_token_row (Session_id session) (AccessToken_id a) text t ∧
    RefreshToken_try_from (RefreshToken_id rt) row = Ok rt ∧
    refresh_token_violation (RefreshToken_id rt) (Session_id session) (AccessToken_id a) text
      (st_db st) = None ∧
    ran st st' (on_refresh_tokens <[RefreshToken_id rt := row]>).
Proof.
  unfold refresh_token_add. intros H. repo_inv. same_norm. simpl.
  exists (st_clock st 0%nat). eexists. split; [reflexivity|]. done.
Qed.

Lemma refresh_token_consume_inv rt next st rt' st' :
  refresh_token_consume rt next st = (Ok rt', st') →
  ∃ t, RefreshToken_consume rt t next = Ok rt' ∧
    is_Some (db_refresh_tokens (st_db st) !! RefreshToken_id rt) ∧
    ran st st' (on_refresh_tokens
      (alter (RefreshTokenRow_set_consumed t (RefreshToken_id next)) (RefreshToken_id rt))).
Proof.
  unfold refresh_token_consume. intros H. repo_inv. same_norm.
  exists (st_clock st 0%nat). done.
Qed.

Lemma refresh_token_revoke_inv rt st rt' st' :
  refresh_token_revoke rt st = (Ok rt', st') →
  ∃ t, RefreshToken_state rt = RefreshToken_Valid ∧
    is_Some (db_refresh_tokens (st_db st) !! RefreshToken_id rt) ∧
    ran st st' (on_refresh_tokens (alter (RefreshTokenRow_set_revoked_at t) (RefreshToken_id rt))).
Proof.
  unfold refresh_token_revoke. intros H. repo_inv. same_norm.
  exists (st_clock st 0%nat). split; [|done].
  unfold RefreshToken_revoke in H. by destruct (RefreshToken_state rt).
Qed.

(** ** Sessions *)

Lemma Session_try_from_inv id r s :
  Session_try_from id r = Ok s →
  Session_id s = id ∧ Session_client_id s = OAuthSessionRow_oauth2_client_id r ∧
  Session_user_id s = OAuthSessionRow_user_id r ∧
  Session_user_session_id s = OAuthSessionRow_user_session_id r ∧
  Scope_from_list (OAuthSessionRow_scope_list r) = Ok (Session_scope s) ∧
  SessionState_finished_at (Session_state s) = OAuthSessionRow_finished_at r.
Proof.
  unfold Session_try_from. destruct (Scope_from_list _); [|done].
  intros [= <-]. simpl. by destruct (OAuthSessionRow_finished_at r).
Qed.

Lemma session_lookup_inv id st o st' :
  oauth2_session_lookup id st = (Ok o, st') →
  st' = st ∧ match o with
             | None => db_sessions (st_db st) !! id = None
             | Some s => ∃ row, db_sessions (st_db st) !! id = Some row ∧
                                Session_try_from id row = Ok s
             end.
Proof.
  unfold oauth2_session_lookup. intros H. repo_inv. split; [done|].
  destruct o; [|by destruct (_ !! _)].
  destruct H as (id' & row & [-> ?]%keyed_Some & ?). eauto.
Qed.

Lemma session_add_inv client user bs scope st s st' :
  oauth2_session_add client user bs scope st = (Ok s, st') →
  ∃ t row, row = new_session_row (User_id <$> user) (BrowserSession_id <$> bs) (Client_id client) scope t ∧
    Session_state s = Session_Valid ∧ Session_scope s = scope ∧
    Session_client_id s = Client_id client ∧ Session_user_id s = User_id <$> user ∧
    Session_user_session_id s = BrowserSession_id <$> bs ∧
    oauth2_session_violation (Session_id s) (User_id <$> user) (BrowserSession_id <$> bs)
      (Client_id client) (st_db st) = None ∧
    ran st st' (on_sessions <[Session_id s := row]>).
Proof.
  unfold oauth2_session_add. intros H. repo_inv. same_norm. simpl.
  exists (st_clock st 0%nat). eexists. split; [reflexivity|]. done.
Qed.

Lemma session_finish_inv s st s' st' :
  oauth2_session_finish s st = (Ok s', st') →
  ∃ t, Session_state s = Session_Valid ∧
    is_Some (db_sessions (st_db st) !! Session_id s) ∧
    ran st st' (on_sessions (alter (OAuthSessionRow_set_finished_at t) (Session_id s))).
Proof.
  unfold oauth2_session_finish. intros H. repo_inv. same_norm.
  exists (st_clock st 0%nat). split; [|done].
  unfold Session_finish in H. by destruct (Session_state s).
Qed.

Lemma record_user_agent_inv s ua st s' st' :
  oauth2_session_record_user_agent s ua st = (Ok s', st') →
  s' = Session_with_names s (Some ua) (Session_human_name s) ∧
  is_Some (db_sessions (st_db st) !! Session_id s) ∧
  ran st st' (on_sessions (alter (OAuthSessionRow_set_user_agent ua) (Session_id s))).
Proof. unfold oauth2_session_record_user_agent. intros H. repo_inv. done. Qed.

(** ** Authorization grants *)

Section grants.
Context {UX : UrlExternals}.

Lemma Grant_decode_stage_inv id r stage :
  Grant_decode_stage id r = Ok stage →
  match stage with
  | Grant_Pending => GrantRow_fulfilled_at r = None ∧ GrantRow_exchanged_at r = None ∧
                     GrantRow_cancelled_at r = None ∧ GrantRow_oauth2_session_id r = None
  | Grant_Fulfilled sid f => GrantRow_fulfilled_at r = Some f ∧ GrantRow_exchanged_at r = None ∧
                     GrantRow_cancelled_at r = None ∧ GrantRow_oauth2_session_id r = Some sid
  | Grant_Exchanged sid f e => GrantRow_fulfilled_at r = Some f ∧ GrantRow_exchanged_at r = Some e ∧
                     GrantRow_cancelled_at r = None ∧ GrantRow_oauth2_session_id r = Some sid
  | Grant_Cancelled c => GrantRow_fulfilled_at r = None ∧ GrantRow_exchanged_at r = None ∧
                     GrantRow_cancelled_at r = Some c ∧ GrantRow_oauth2_session_id r = None
  end.
Proof.
  unfold Grant_decode_stage.
  destruct (GrantRow_fulfilled_at r), (GrantRow_exchanged_at r), (GrantRow_cancelled_at r),
    (GrantRow_oauth2_session_id r); intros [= <-]; done.
Qed.

Lemma Grant_try_from_inv id r g :
  AuthorizationGrant_try_from id r = Ok g →
  AuthorizationGrant_id g = id ∧ Grant_decode_stage id r = Ok (AuthorizationGrant_stage g) ∧
  Scope_from_str (GrantRow_scope r) = Ok (AuthorizationGrant_scope g) ∧
  AuthorizationGrant_client_id g = GrantRow_oauth2_client_id r ∧
  AuthorizationGrant_raw_redirect_uri g = GrantRow_redirect_uri r ∧
  AuthorizationCode_code <$> AuthorizationGrant_code g = GrantRow_authorization_code r ∧
  Grant_decode_pkce id r = Ok (AuthorizationGrant_code g ≫= AuthorizationCode_pkce).
Proof.
  unfold AuthorizationGrant_try_from.
  destruct (Scope_from_str _) as [sc|]; [|done]. simpl.
  destruct (Grant_decode_stage id r) as [stage|]; [|done]. simpl.
  destruct (Grant_decode_pkce id r) as [pkce|]; [|done]. simpl.
  destruct (Grant_decode_code id r pkce) as [code|] eqn:Hc; [|done]. simpl.
  destruct (url_parse _); [|done]. intros [= <-]. simpl.
  unfold Grant_decode_code in Hc.
  destruct (GrantRow_response_type_code r), (GrantRow_authorization_code r), pkce; naive_solver.
Qed.

Lemma grant_find_inv code st o st' :
  authorization_grant_find_by_code code st = (Ok o, st') →
  st' = st ∧ match o with
             | None => find_first (has_code code) (db_grants (st_db st)) = None
             | Some g => ∃ id row,
                 find_first (has_code code) (db_grants (st_db st)) = Some (id, row) ∧
                 AuthorizationGrant_try_from id row = Ok g
             end.
Proof. unfold authorization_grant_find_by_code. intros H. repo_inv. done. Qed.

Lemma grant_lookup_inv id st o st' :
  authorization_grant_lookup id st = (Ok o, st') →
  st' = st ∧ match o with
             | None => db_grants (st_db st) !! id = None
             | Some g => ∃ row, db_grants (st_db st) !! id = Some row ∧
                                AuthorizationGrant_try_from id row = Ok g
             end.
Proof.
  unfold authorization_grant_lookup. intros H. repo_inv. split; [done|].
  destruct o; [|by destruct (_ !! _)].
  destruct H as (id' & row & [-> ?]%keyed_Some & ?). eauto.
Qed.

Lemma grant_fulfill_inv s g st g' st' :
  authorization_grant_fulfill s g st = (Ok g', st') →
  ∃ t, AuthorizationGrant_stage g = Grant_Pending ∧
    g' = AuthorizationGrant_with_stage g (Grant_Fulfilled (Session_id s) t) ∧
    is_Some (db_grants (st_db st) !! AuthorizationGrant_id g) ∧
    is_Some (db_sessions (st_db st) !! Session_id s) ∧
    ran st st' (on_grants (alter (GrantRow_set_fulfilled t (Session_id s)) (AuthorizationGrant_id g))).
Proof.
  unfold authorization_grant_fulfill. intros H. repo_inv. same_norm.
  exists (st_clock st 0%nat). unfold AuthorizationGrant_fulfill in H.
  destruct (AuthorizationGrant_stage g); simpl in H; simplify_eq.
  apply first_violation_None, Forall_singleton, fk_broken_false in Hv. done.
Qed.

Lemma grant_exchange_inv g st g' st' :
  authorization_grant_exchange g st = (Ok g', st') →
  ∃ t sid f, AuthorizationGrant_stage g = Grant_Fulfilled sid f ∧
    g' = AuthorizationGrant_with_stage g (Grant_Exchanged sid f t) ∧
    is_Some (db_grants (st_db st) !! AuthorizationGrant_id g) ∧
    ran st st' (on_grants (alter (GrantRow_set_exchanged_at t) (AuthorizationGrant_id g))).
Proof.
  unfold authorization_grant_exchange. intros H. repo_inv. same_norm.
  exists (st_clock st 0%nat). unfold AuthorizationGrant_exchange in H.
  destruct (AuthorizationGrant_stage g); simpl in H; simplify_eq. eauto 10.
Qed.
End grants.

(** ** Device grants *)

Lemma Device_try_from_inv id r g :
  DeviceCodeGrant_try_from id r = Ok g →
  DeviceCodeGrant_id g = id ∧ Device_decode_state id r = Ok (DeviceCodeGrant_state g) ∧
  Scope_from_str (DeviceGrantRow_scope r) = Ok (DeviceCodeGrant_scope g) ∧
  DeviceCodeGrant_client_id g = DeviceGrantRow_oauth2_client_id r ∧
  DeviceCodeGrant_expires_at g = DeviceGrantRow_expires_at r.
Proof.
  unfold DeviceCodeGrant_try_from.
  destruct (Scope_from_str _); [|done]. simpl.
  destruct (Device_decode_state id r); [|done]. by intros [= <-].
Qed.

Lemma Device_decode_state_inv id r s :
  Device_decode_state id r = Ok s →
  match s with
  | Device_Pending => DeviceGrantRow_fulfilled_at r = None ∧ DeviceGrantRow_rejected_at r = None ∧
      DeviceGrantRow_exchanged_at r = None ∧ DeviceGrantRow_user_session_id r = None ∧
      DeviceGrantRow_oauth2_session_id r = None
  | Device_Fulfilled b f => DeviceGrantRow_fulfilled_at r = Some f ∧ DeviceGrantRow_rejected_at r = None ∧
      DeviceGrantRow_exchanged_at r = None ∧ DeviceGrantRow_user_session_id r = Some b ∧
      DeviceGrantRow_oauth2_session_id r = None
  | Device_Rejected b t => DeviceGrantRow_fulfilled_at r = None ∧ DeviceGrantRow_rejected_at r = Some t ∧
      DeviceGrantRow_exchanged_at r = None ∧ DeviceGrantRow_user_session_id r = Some b ∧
      DeviceGrantRow_oauth2_session_id r = None
  | Device_Exchanged b f e sid => DeviceGrantRow_fulfilled_at r = Some f ∧
      DeviceGrantRow_rejected_at r = None ∧ DeviceGrantRow_exchanged_at r = Some e ∧
      DeviceGrantRow_user_session_id r = Some b ∧ DeviceGrantRow_oauth2_session_id r = Some sid
  end.
Proof.
  unfold Device_decode_state.
  destruct (DeviceGrantRow_fulfilled_at r), (DeviceGrantRow_rejected_at r),
    (DeviceGrantRow_exchanged_at r), (DeviceGrantRow_user_session_id r),
    (DeviceGrantRow_oauth2_session_id r); intros [= <-]; done.
Qed.

Lemma device_find_inv code st o st' :
  device_grant_find_by_device_code code st = (Ok o, st') →
  st' = st ∧ match o with
             | None => find_first (has_device_code code) (db_device_grants (st_db st)) = None
             | Some g => ∃ id row,
                 find_first (has_device_code code) (db_device_grants (st_db st)) = Some (id, row) ∧
                 DeviceCodeGrant_try_from id row = Ok g
             end.
Proof. unfold device_grant_find_by_device_code. intros H. repo_inv. done. Qed.

Lemma device_lookup_inv id st o st' :
  device_grant_lookup id st = (Ok o, st') →
  st' = st ∧ match o with
             | None => db_device_grants (st_db st) !! id = None
             | Some g => ∃ row, db_device_grants (st_db st) !! id = Some row ∧
                                DeviceCodeGrant_try_from id row = Ok g
             end.
Proof.
  unfold device_grant_lookup. intros H. repo_inv. split; [done|].
  destruct o; [|by destruct (_ !! _)].
  destruct H as (id' & row & [-> ?]%keyed_Some & ?). eauto.
Qed.

Lemma device_add_inv params st g st' :
  device_grant_add params st = (Ok g, st') →
  ∃ t, let row := new_device_grant_row params t (t + dg_expires_in params) in
    DeviceCodeGrant_scope g = dg_scope params ∧ DeviceCodeGrant_device_code g = dg_device_code params ∧
    DeviceCodeGrant_user_code g = dg_user_code params ∧
    device_grant_violation (DeviceCodeGrant_id g) (Client_id (dg_client params))
      (dg_device_code params) (dg_user_code params) (st_db st) = None ∧
    ran st st' (on_device_grants <[DeviceCodeGrant_id g := row]>).
Proof.
  unfold device_grant_add. intros H. repo_inv. same_norm. simpl.
  exists (st_clock st 0%nat). done.
Qed.

Lemma device_exchange_inv g s st g' st' :
  device_grant_exchange g s st = (Ok g', st') →
  ∃ t b f, DeviceCodeGrant_state g = Device_Fulfilled b f ∧
    is_Some (db_device_grants (st_db st) !! DeviceCodeGrant_id g) ∧
    ran st st' (on_device_grants
      (alter (DeviceGrantRow_set_exchanged t (Session_id s)) (DeviceCodeGrant_id g))).
Proof.
  unfold device_grant_exchange. intros H. repo_inv. same_norm.
  unfold DeviceCodeGrant_exchange in *.
  destruct (DeviceCodeGrant_state g); simpl in *; simplify_eq. simpl in *.
  exists (st_clock st 0%nat). eauto 10.
Qed.

Lemma device_fulfill_inv g bs st g' st' :
  device_grant_fulfill g bs st = (Ok g', st') →
  ∃ t, DeviceCodeGrant_state g = Device_Pending ∧
    is_Some (db_device_grants (st_db st) !! DeviceCodeGrant_id g) ∧
    ran st st' (on_device_grants
      (alter (DeviceGrantRow_set_fulfilled t (BrowserSession_id bs)) (DeviceCodeGrant_id g))).
Proof.
  unfold device_grant_fulfill. intros H. repo_inv. same_norm.
  unfold DeviceCodeGrant_fulfill in *.
  destruct (DeviceCodeGrant_state g); simpl in *; simplify_eq. simpl in *.
  exists (st_clock st 0%nat). eauto 10.
Qed.

Lemma device_reject_inv g bs st g' st' :
  device_grant_reject g bs st = (Ok g', st') →
  ∃ t, DeviceCodeGrant_state g = Device_Pending ∧
    is_Some (db_device_grants (st_db st) !! DeviceCodeGrant_id g) ∧
    ran st st' (on_device_grants
      (alter (DeviceGrantRow_set_rejected t (BrowserSession_id bs)) (DeviceCodeGrant_id g))).
Proof.
  unfold device_grant_reject. intros H. repo_inv. same_norm.
  unfold DeviceCodeGrant_reject in *.
  destruct (DeviceCodeGrant_state g); simpl in *; simplify_eq. simpl in *.
  exists (st_clock st 0%nat). eauto 10.
Qed.

(** ** Clients *)

Section clients.
Context {UX : UrlExternals} {DX : DbExternals}.

(** The client of an identifier, if its row decodes. *)
Definition client_at (db : DB) (id : Ulid) : option Client :=
  row ← db_clients db !! id;
  match Client_try_from id row with Ok c => Some c | Err _ => None end.

Lemma client_lookup_run id st :
  oauth2_client_lookup id st =
    (match db_clients (st_db st) !! id with
     | None => Ok None
     | Some row => match Client_try_from id row with Ok c => Ok (Some c) | Err e => Err e end
     end, st).
Proof.
  unfold oauth2_client_lookup, select_by_id, try_into, mbind, M_bind, gets. simpl.
  destruct (db_clients (st_db st) !! id) as [row|]; simpl; [|done].
  unfold of_result, mbind, M_bind. by destruct (Client_try_from id row).
Qed.

Lemma client_lookup_inv id st o st' :
  oauth2_client_lookup id st = (Ok o, st') → st' = st ∧ o = client_at (st_db st) id.
Proof.
  rewrite client_lookup_run. unfold client_at.
  destruct (db_clients (st_db st) !! id) as [row|]; simpl; [|by intros [= <- <-]].
  destruct (Client_try_from id row); by intros [= <- <-].
Qed.

(** A client keeps the identifier of its row, and the text it is known by. *)
Lemma client_at_id db id c :
  client_at db id = Some c → Client_id c = id ∧ Client_client_id c = ulid_to_string id.
Proof.
  unfold client_at. intros (row & _ & H)%bind_Some.
  destruct (Client_try_from id row) as [c'|] eqn:Hd; [injection H as ->|done].
  unfold Client_try_from, result_bind in Hd. repeat case_match; by simplify_eq/=.
Qed.

Lemma client_at_row db id c : client_at db id = Some c → is_Some (db_clients db !! id).
Proof. unfold client_at. intros (row & -> & _)%bind_Some. done. Qed.

Lemma find_by_client_id_inv text st o st' :
  oauth2_client_find_by_client_id text st = (Ok o, st') →
  st' = st ∧ o = (ulid_from_string text ≫= client_at (st_db st)).
Proof.
  unfold oauth2_client_find_by_client_id. destruct (ulid_from_string text) as [id|]; simpl.
  - apply client_lookup_inv.
  - by intros [= <- <-].
Qed.

Lemma find_by_client_id_st text st r st' :
  oauth2_client_find_by_client_id text st = (r, st') → st' = st.
Proof.
  unfold oauth2_client_find_by_client_id. destruct (ulid_from_string text); [|by intros [= _ <-]].
  rewrite client_lookup_run. by intros [= _ <-].
Qed.
End clients.

(** ** Users and browser sessions *)

Section users.
Context {DX : DbExternals}.

Lemma user_lookup_inv id st o st' :
  user_lookup id st = (Ok o, st') →
  st' = st ∧ o = User_build id <$> db_users (st_db st) !! id.
Proof. unfold user_lookup. intros H. repo_inv. done. Qed.

Lemma browser_session_lookup_inv id st o st' :
  browser_session_lookup id st = (Ok o, st') →
  st' = st ∧ match o with
             | None => True
             | Some bs => BrowserSession_id bs = id ∧
                 ∃ srow urow, db_user_sessions (st_db st) !! id = Some srow ∧
                   db_users (st_db st) !! UserSessionRow_user_id srow = Some urow ∧
                   bs = BrowserSession_from id srow (User_build (UserSessionRow_user_id srow) urow)
             end.
Proof.
  unfold browser_session_lookup. intros H. repo_inv; try done.
  split; [done|]. split; [done|]. eauto.
Qed.
End users.

Lemma last_authentication_inv bs st o st' :
  browser_session_get_last_authentication bs st = (Ok o, st') → st' = st.
Proof. unfold browser_session_get_last_authentication. intros H. repo_inv. done. Qed.

(** ** Personal sessions *)

Lemma PersonalSession_try_from_inv id r s :
  PersonalSession_try_from id r = Ok s →
  PersonalSession_id s = id ∧ PersonalSession_actor_user_id s = PersonalSessionRow_actor_user_id r ∧
  owner_columns (PersonalSession_owner s) =
    (PersonalSessionRow_owner_user_id r, PersonalSessionRow_owner_oauth2_client_id r) ∧
  Scope_from_list (PersonalSessionRow_scope_list r) = Ok (PersonalSession_scope s) ∧
  (PersonalSession_state s = Personal_Valid ↔ PersonalSessionRow_revoked_at r = None).
Proof.
  unfold PersonalSession_try_from. destruct (Scope_from_list _); [|done]. simpl.
  destruct (PersonalSessionRow_owner_user_id r), (PersonalSessionRow_owner_oauth2_client_id r);
    simpl; intros [= <-]; simpl; destruct (PersonalSessionRow_revoked_at r); naive_solver.
Qed.

Lemma personal_session_lookup_inv id st o st' :
  personal_session_lookup id st = (Ok o, st') →
  st' = st ∧ match o with
             | None => db_personal_sessions (st_db st) !! id = None
             | Some s => ∃ row, db_personal_sessions (st_db st) !! id = Some row ∧
                                PersonalSession_try_from id row = Ok s
             end.
Proof.
  unfold personal_session_lookup. intros H. repo_inv. split; [done|].
  destruct o; [|by destruct (_ !! _)].
  destruct H as (id' & row & [-> ?]%keyed_Some & ?). eauto.
Qed.

Lemma personal_token_find_inv {DX : DbExternals} t st o st' :
  personal_token_find_by_token t st = (Ok o, st') →
  st' = st ∧ match o with
             | None => find_first (has_token_sha256 (sha256_digest t)) (db_personal_tokens (st_db st)) = None
             | Some a => ∃ id row,
                 find_first (has_token_sha256 (sha256_digest t)) (db_personal_tokens (st_db st)) = Some (id, row) ∧
                 a = PersonalAccessToken_from id row
             end.
Proof.
  unfold personal_token_find_by_token. intros H. repo_inv. split; [done|].
  destruct (find_first _ _) as [[id row]|]; simpl; eauto.
Qed.

Lemma personal_token_revoke_inv a st a' st' :
  personal_token_revoke a st = (Ok a', st') →
  ∃ t, ran st st' (on_personal_tokens
         (alter (PersonalTokenRow_set_revoked_at t) (PersonalAccessToken_id a))).
Proof.
  unfold personal_token_revoke. intros H. repo_inv. same_norm. by exists (st_clock st 0%nat).
Qed.

Lemma personal_session_revoke_inv s st s' st' :
  personal_session_revoke s st = (Ok s', st') →
  ∃ t, PersonalSession_finish s t = Ok s' ∧
    is_Some (db_personal_sessions (st_db st) !! PersonalSession_id s) ∧
    ran st st' (λ db, on_personal_sessions
      (alter (PersonalSessionRow_set_revoked_at t) (PersonalSession_id s))
      (on_personal_tokens (fmap (revoke_session_tokens (PersonalSession_id s) t)) db)).
Proof.
  unfold personal_session_revoke. intros H. repo_inv.
  match goal with H : same _ _, H' : ran _ _ _ |- _ =>
    destruct H as [E C], H' as [E' C']; simpl in *; rewrite E in *; rewrite C in * end.
  by exists (st_clock st 0%nat).
Qed.

Lemma schedule_job_inv u st r st' :
  schedule_sync_devices_job u st = (Ok r, st') →
  ∃ id row, QueueJobRow_queue_name row = SYNC_DEVICES_QUEUE_NAME ∧ QueueJobRow_payload row = Payload_SyncDevices u ∧
    db_jobs (st_db st) !! id = None ∧ ran st st' (on_jobs <[id := row]>).
Proof.
  unfold schedule_sync_devices_job, queue_job_schedule, queue_job_insert. intros H. repo_inv. same_norm.
  apply first_violation_None, Forall_singleton, pk_taken_false in Hv. simpl in Hv.
  eexists _, _. split_and!; [| |exact Hv|exact H]; done.
Qed.
