(* ===== verification/AccountSpec.v ===== *)
(** What the repositories of accounts do when they succeed, as equations on the
    database. *)
From S2P Require Import Prelude Ids RateLimit Scope Pkce Jose Domain Accounts Database Repository AccountRepository RepositorySpec.

Open Scope Z_scope.

Section sql.
Context {R : Type} (tbl : DB → gmap Z R) (on : (gmap Z R → gmap Z R) → DB → DB).

Lemma update_one_where_inv v id P g st u st' :
  update_one_where tbl on v id P g st = (Ok u, st') →
  ∃ r, tbl (st_db st) !! id = Some r ∧ P r = true ∧ v (st_db st) = None ∧
       ran st st' (on (alter g id)).
Proof.
  unfold update_one_where. intros H. apply bind_Ok_inv in H as (n & st1 & Hu & He).
  unfold update_where, update_by_id in Hu.
  destruct (tbl (st_db st) !! id) as [r|] eqn:Hr; [|by simplify_eq].
  destruct (P r) eqn:HP; [|by simplify_eq].
  destruct (v (st_db st)) eqn:Hv; [done|]. injection Hu as <- <-. injection He as _ <-.
  exists r. done.
Qed.

Lemma update_by_id_inv v id g st n st' :
  update_by_id tbl on v id g st = (Ok n, st') →
  match tbl (st_db st) !! id with
  | Some _ => v (st_db st) = None ∧ ran st st' (on (alter g id))
  | None => st' = st
  end.
Proof.
  unfold update_by_id. destruct (tbl (st_db st) !! id); [|by intros [= _ <-]].
  destruct (v (st_db st)); [done|]. by intros [= _ <-].
Qed.

Lemma select_all_inv P st rows st' :
  select_all tbl P st = (Ok rows, st') →
  rows = filter (λ kr, P kr.2 = true) (map_to_list (tbl (st_db st))) ∧ st' = st.
Proof. by intros [= <- <-]. Qed.
End sql.

(** A selection without rows. *)
Lemma filter_rows_nil {R} (P : R → bool) (m : gmap Z R) :
  filter (λ kr, P kr.2 = true) (map_to_list m) = [] ↔ ∀ k r, m !! k = Some r → P r = false.
Proof.
  rewrite <-find_first_None. unfold find_first.
  destruct (filter _ _); simpl; split; congruence.
Qed.
Lemma filter_rows_length {R} (P : R → bool) (m : gmap Z R) :
  negb (bool_decide (0 < length (filter (λ kr, P kr.2 = true) (map_to_list m)))%nat) = true →
  ∀ k r, m !! k = Some r → P r = false.
Proof.
  intros H%negb_true_iff%bool_decide_eq_false. apply filter_rows_nil.
  destruct (filter _ _); [done|simpl in H; lia].
Qed.

Lemma new_row_violation_None {R} table id (m : gmap Z R) others :
  new_row_violation table id m others = None → m !! id = None ∧ first_violation others = None.
Proof.
  unfold new_row_violation. simpl. destruct (pk_taken id m) eqn:Hk; [done|].
  by apply pk_taken_false in Hk.
Qed.

Lemma on_limiter_same {E A} (m : M Limiter E A) st r st' : on_limiter m st = (r, st') → same st st'.
Proof. by intros [= _ <-]. Qed.

(** The steps of [repo_step], and those of this file. *)
Ltac account_step :=
  match goal with
  | H : update_one_where _ _ _ _ _ _ _ = (Ok _, _) |- _ =>
      let r := fresh "r" in let Hr := fresh "Hr" in let HP := fresh "HP" in let V := fresh "Hv" in
      apply update_one_where_inv in H as (r & Hr & HP & V & H)
  | H : update_by_id _ _ _ _ _ _ = (Ok _, _) |- _ => apply update_by_id_inv in H
  | H : select_all _ _ _ = (Ok _, _) |- _ => apply select_all_inv in H as [-> ->]
  | H : on_limiter _ _ = (_, _) |- _ => apply on_limiter_same in H
  | H : require _ _ _ = (Ok _, _) |- _ =>
      let C := fresh "Hc" in apply require_inv in H as [C ->]
  | H : repo_save _ = (Ok _, _) |- _ => unfold repo_save in H; injection H as <- <-
  | _ => repo_step
  end.
Ltac account_inv := repeat account_step.

(** ** What the programs leave alone *)

Lemma keeps_require {S E X} (o : S → X) c (e : E) : keeps o (require c e).
Proof. unfold require. solve_keeps. Qed.
Lemma keeps_lock {E T} (f : St → T) n :
  (∀ st, f (advisory_lock (E:=E) n st).2 = f st) → keeps f (advisory_lock n : M St E ()).
Proof. intros H st. apply H. Qed.
Lemma keeps_committed_update_where {R} (tbl : DB → gmap Z R) on v id P f :
  keeps st_committed (update_where tbl on v id P f).
Proof.
  intros st. unfold update_where. destruct (tbl (st_db st) !! id); [|done].
  destruct (P _); [|done]. apply keeps_update_committed.
Qed.
Lemma keeps_committed_insert_user id row : keeps st_committed (insert_user id row).
Proof. intros st. unfold insert_user. by repeat case_match. Qed.
Lemma keeps_committed_modify {E} f : keeps st_committed (modify (on_db f) : M St E ()).
Proof. by intros st. Qed.
#[export] Hint Resolve keeps_committed_modify keeps_require keeps_committed_update_where
  keeps_committed_insert_user : keeps.
#[export] Hint Extern 1 (keeps _ (advisory_lock _)) => apply keeps_lock; reflexivity : keeps.
#[export] Hint Extern 1 (keeps _ (select_by_id _ _)) => apply keeps_gets : keeps.
#[export] Hint Extern 1 (keeps _ (select_first _ _)) => apply keeps_gets : keeps.
#[export] Hint Extern 1 (keeps _ (select_all _ _)) => apply keeps_gets : keeps.
Lemma keeps_committed_update_one_where {R} (tbl : DB → gmap Z R) on v id P f :
  keeps st_committed (update_one_where tbl on v id P f).
Proof. unfold update_one_where. solve_keeps. Qed.
Lemma keeps_committed_update_one {R} (tbl : DB → gmap Z R) on v id f :
  keeps st_committed (update_one tbl on v id f).
Proof. unfold update_one. solve_keeps. Qed.
Lemma keeps_committed_schedule name payload : keeps st_committed (queue_job_schedule name payload).
Proof. unfold queue_job_schedule, queue_job_insert. solve_keeps. Qed.
#[export] Hint Resolve keeps_committed_update_one_where keeps_committed_update_one
  keeps_committed_schedule : keeps.

(** ** Users and browser sessions *)

Section users.
Context {DX : DbExternals} {LX : LimiterExternals} {XX : AccountExternals}.

Lemma user_exists_inv username st b st' :
  user_exists username st = (Ok b, st') →
  st' = st ∧ b = col_taken (same_username username) (db_users (st_db st)).
Proof. by intros [= <- <-]. Qed.

(** The new user, under a key and a name that were free. *)
Lemma user_add_inv username st u st' :
  user_add username st = (Ok u, st') →
  ∃ t, u = User_build (User_id u) (new_user_row username t) ∧
    db_users (st_db st) !! User_id u = None ∧
    (∀ k r, db_users (st_db st) !! k = Some r → UserRow_username r ≠ username) ∧
    ran st st' (on_users <[User_id u := new_user_row username t]>).
Proof.
  unfold user_add. intros H.
  apply bind_Ok_inv in H as (t & st1 & [-> S1]%clock_now_inv & H).
  apply bind_Ok_inv in H as (id & st2 & [_ S2]%with_rng_inv & H).
  apply bind_Ok_inv in H as (n & st3 & Hi & H).
  apply bind_Ok_inv in H as (? & st4 & He & H). injection H as <- <-. simpl.
  unfold insert_user in Hi. simpl in Hi.
  destruct (col_taken _ _) eqn:Ht; [by simplify_eq|].
  destruct (new_row_violation _ _ _ _) eqn:Hv; [done|]. injection Hi as <- <-.
  injection He as _ <-. rewrite col_taken_false in Ht.
  apply new_row_violation_None in Hv as [Hv _]. destruct S1 as [E1 C1], S2 as [E2 C2].
  rewrite E2, E1 in Hv. exists (st_clock st 0%nat). split; [done|]. split; [done|]. split.
  - intros k r Hk. rewrite E2, E1 in Ht. specialize (Ht _ _ Hk). unfold has_username in Ht.
    by apply bool_decide_eq_false in Ht.
  - split; simpl; congruence.
Qed.

Lemma user_set_admin_inv user b st u st' :
  user_set_can_request_admin user b st = (Ok u, st') →
  ∃ t, u = User_set user t (User_locked_at user) (User_deactivated_at user) b
             (User_display_name user) (User_avatar_url user) (User_preferred_locale user) ∧
    is_Some (db_users (st_db st) !! User_id user) ∧
    ran st st' (on_users (alter (UserRow_set_admin b t) (User_id user))).
Proof.
  unfold user_set_can_request_admin. intros H. account_inv. same_norm.
  by exists (st_clock st 0%nat).
Qed.

(** A profile that says something is written. *)
Lemma user_update_profile_inv user p st u st' :
  user_update_profile user p st = (Ok u, st') →
  (is_Some (profile_display_name p) ∨ is_Some (profile_avatar_url p)) →
  ∃ t, u = User_set user t (User_locked_at user) (User_deactivated_at user)
             (User_can_request_admin user) (default (User_display_name user) (profile_display_name p))
             (default (User_avatar_url user) (profile_avatar_url p))
             (default (User_preferred_locale user) (profile_preferred_locale p)) ∧
    is_Some (db_users (st_db st) !! User_id user) ∧
    ran st st' (on_users (alter (UserRow_set u) (User_id user))).
Proof.
  intros H Hp. unfold user_update_profile, user_patch in H.
  assert (UserPatch_is_empty (UserPatch_from p) = false) as Hne.
  { unfold UserPatch_is_empty. simpl. destruct Hp as [[x ->]|[x ->]]; simpl; [done|].
    by destruct (bool_decide _). }
  rewrite Hne in H. apply bind_Ok_inv in H as (t & st1 & [-> S1]%clock_now_inv & H). simpl in H.
  match type of H with (if ?c then _ else _) _ = _ => assert (c = true) as Hc end.
  { destruct Hp as [[x ->]|[x ->]]; simpl; [done|]. by rewrite orb_true_r. }
  rewrite Hc in H. account_inv. same_norm. by exists (st_clock st 0%nat).
Qed.

Lemma user_count_admins_inv st n st' :
  user_count can_request_admin_only st = (Ok n, st') →
  st' = st ∧
  n = length (filter (λ kr, user_matches can_request_admin_only kr.2 = true)
                (map_to_list (db_users (st_db st)))).
Proof. unfold user_count. intros H. by account_inv. Qed.

Lemma matches_admin (r : UserRow) :
  user_matches can_request_admin_only r = UserRow_can_request_admin r.
Proof.
  unfold user_matches. simpl. rewrite !andb_true_r.
  destruct (UserRow_can_request_admin r); [by rewrite bool_decide_true|by rewrite bool_decide_false].
Qed.
End users.

Lemma browser_session_add_inv user ua st bs st' :
  browser_session_add user ua st = (Ok bs, st') →
  ∃ t, BrowserSession_user bs = user ∧ BrowserSession_user_agent bs = ua ∧
    BrowserSession_finished_at bs = None ∧
    db_user_sessions (st_db st) !! BrowserSession_id bs = None ∧
    ran st st' (on_user_sessions
      <[BrowserSession_id bs := new_user_session_row (User_id user) t ua]>).
Proof.
  unfold browser_session_add. intros H. account_inv. same_norm. simpl.
  apply new_row_violation_None in Hv as [Hv _]. by exists (st_clock st 0%nat).
Qed.

Lemma authenticate_with_password_inv bs p st a st' :
  browser_session_authenticate_with_password bs p st = (Ok a, st') →
  ∃ id row, AuthenticationRow_user_session_id row = BrowserSession_id bs ∧
    AuthenticationRow_user_password_id row = Some (Password_id p) ∧
    db_authentications (st_db st) !! id = None ∧ ran st st' (on_authentications <[id := row]>).
Proof.
  unfold browser_session_authenticate_with_password, insert_authentication. intros H.
  account_inv. same_norm. apply new_row_violation_None in Hv as [Hv _].
  eexists _, _. split_and!; [| |exact Hv|eassumption]; done.
Qed.

Lemma authenticate_with_upstream_inv bs s st a st' :
  browser_session_authenticate_with_upstream bs s st = (Ok a, st') →
  ∃ id row, AuthenticationRow_user_session_id row = BrowserSession_id bs ∧
    AuthenticationRow_user_password_id row = None ∧
    db_authentications (st_db st) !! id = None ∧ ran st st' (on_authentications <[id := row]>).
Proof.
  unfold browser_session_authenticate_with_upstream, insert_authentication. intros H.
  account_inv. same_norm. apply new_row_violation_None in Hv as [Hv _].
  eexists _, _. split_and!; [| |exact Hv|eassumption]; done.
Qed.

Lemma user_password_add_inv user v h up st p st' :
  user_password_add user v h up st = (Ok p, st') →
  ∃ row, PasswordRow_user_id row = User_id user ∧ PasswordRow_hashed_password row = h ∧
    PasswordRow_version row = v ∧ PasswordRow_upgraded_from_id row = Password_id <$> up ∧
    PasswordRow_created_at row = st_clock st 0%nat ∧
    db_passwords (st_db st) !! Password_id p = None ∧
    ran st st' (on_passwords <[Password_id p := row]>).
Proof.
  unfold user_password_add. intros H. account_inv. same_norm.
  apply new_row_violation_None in Hv as [Hv _]. eexists.
  split_and!; [| | | | |exact Hv|eassumption]; done.
Qed.

(** ** Passwords *)

(** The row a login is checked against is one of the latest. *)
Lemma latest_password_Some l kr :
  latest_password l = Some kr →
  kr ∈ l ∧ ∀ kr', kr' ∈ l → PasswordRow_created_at kr'.2 ≤ PasswordRow_created_at kr.2.
Proof.
  revert kr. induction l as [|x l IH]; intros kr; simpl; [done|].
  destruct (latest_password l) as [y|] eqn:E.
  - destruct (IH _ eq_refl) as [Hy Hmax]. destruct (Z.ltb_spec (PasswordRow_created_at x.2)
      (PasswordRow_created_at y.2)); intros [= <-]; (split; [set_solver|]);
      intros z [->|Hz]%elem_of_cons; try (specialize (Hmax _ Hz)); lia.
  - intros [= <-]. assert (l = []) as -> by (destruct l; [done|]; simpl in E; by repeat case_match).
    split; [set_solver|]. intros z ->%list_elem_of_singleton. lia.
Qed.

Lemma latest_password_strict l kr :
  kr ∈ l → (∀ kr', kr' ∈ l → kr' = kr ∨ PasswordRow_created_at kr'.2 < PasswordRow_created_at kr.2) →
  latest_password l = Some kr.
Proof.
  intros Hin Hmax. destruct (latest_password l) as [x|] eqn:E.
  - apply latest_password_Some in E as [Hx Hle]. specialize (Hle _ Hin).
    destruct (Hmax _ Hx) as [->|]; [done|lia].
  - destruct l as [|y l]; [by apply elem_of_nil in Hin|]. simpl in E. by repeat case_match.
Qed.

(** The password of a user that logins are checked against. *)
Definition active_password (db : DB) (user_id : Ulid) (p : Password) : Prop :=
  ∃ row, db_passwords db !! Password_id p = Some row ∧ PasswordRow_user_id row = user_id ∧
    Password_try_from (Password_id p) row = Ok p ∧
    ∀ k r, db_passwords db !! k = Some r → PasswordRow_user_id r = user_id →
      PasswordRow_created_at r ≤ PasswordRow_created_at row.

Lemma password_rows_elem db user_id k r :
  (k, r) ∈ filter (λ kr, bool_decide (PasswordRow_user_id kr.2 = user_id) = true)
             (map_to_list (db_passwords db)) ↔
  db_passwords db !! k = Some r ∧ PasswordRow_user_id r = user_id.
Proof. rewrite list_elem_of_filter, elem_of_map_to_list, bool_decide_eq_true. naive_solver. Qed.

Lemma password_decoded id row p : Password_try_from id row = Ok p → Password_id p = id.
Proof. unfold Password_try_from. case_match; [|done]. by intros [= <-]. Qed.

Lemma user_password_active_inv user st o st' :
  user_password_active user st = (Ok o, st') →
  st' = st ∧ ∀ p, o = Some p → active_password (st_db st) (User_id user) p.
Proof.
  unfold user_password_active. intros H. account_inv. split; [done|]. intros p ->.
  destruct H as (k & row & Hl & Hd). pose proof (password_decoded _ _ _ Hd) as <-.
  apply latest_password_Some in Hl as [[Hk Hu]%password_rows_elem Hmax].
  exists row. split_and!; [done..|]. intros k' r' Hk' Hu'.
  apply (Hmax (k', r')), password_rows_elem. done.
Qed.

(** A row later than all others is the one. *)
Lemma user_password_active_run user st k row p :
  db_passwords (st_db st) !! k = Some row → PasswordRow_user_id row = User_id user →
  Password_try_from k row = Ok p →
  (∀ k' r, k' ≠ k → db_passwords (st_db st) !! k' = Some r → PasswordRow_user_id r = User_id user →
     PasswordRow_created_at r < PasswordRow_created_at row) →
  user_password_active user st = (Ok (Some p), st).
Proof.
  intros Hk Hu Hd Hmax. unfold user_password_active. erewrite bind_Ok by reflexivity.
  rewrite (latest_password_strict _ (k, row)).
  - simpl. unfold of_result. erewrite bind_Ok; [|by rewrite Hd]. done.
  - by apply password_rows_elem.
  - intros [k' r] [Hk' Hr]%password_rows_elem. simpl.
    destruct (decide (k' = k)) as [->|Hne]; [left; congruence|right; by apply (Hmax k')].
Qed.

(** The terms are accepted, by this request or an earlier one. *)
Lemma accept_terms_inv user url st u st' :
  user_terms_accept_terms user url st = (Ok u, st') →
  ∃ f, ran st st' (on_terms f) ∧
    ∃ id row, f (db_terms (st_db st)) !! id = Some row ∧
      TermsRow_user_id row = User_id user ∧ TermsRow_terms_url row = url.
Proof.
  unfold user_terms_accept_terms. intros H. account_inv.
  - assert (same st st') as [D C] by (by etrans). rewrite D in *. exists id. split.
    { split; [|done]. rewrite D. destruct (st_db st) as [???????????? []]. done. }
    unfold col_taken in *. case_bool_decide as Hs; [|done]. destruct Hs as [[k r] Hf].
    apply find_first_Some in Hf as [Hk Hr]. apply andb_true_iff in Hr as [Hu Hl].
    apply bool_decide_eq_true in Hu, Hl. simpl in Hk. unfold id. eauto.
  - same_norm. eexists. split; [eassumption|]. eexists _, _. rewrite lookup_insert_eq. done.
Qed.

(** ** Contacts *)

Section emails.
Context {LX : LimiterExternals} {XX : AccountExternals}.

Lemma user_email_count_inv filter_ st n st' :
  user_email_count filter_ st = (Ok n, st') →
  st' = st ∧ n = length (filter (λ kr, email_matches filter_ kr.2 = true)
                           (map_to_list (db_emails (st_db st)))).
Proof. unfold user_email_count. intros H. by account_inv. Qed.

Lemma matches_for_email email r : email_matches (for_email email) r = same_email email r.
Proof. done. Qed.

Lemma user_email_add_inv user email st e st' :
  user_email_add user email st = (Ok e, st') →
  ∃ row, EmailRow_user_id row = User_id user ∧ EmailRow_email row = email ∧
    is_Some (EmailRow_confirmed_at row) ∧
    ((∀ k r, db_emails (st_db st) !! k = Some r → EmailRow_user_id r ≠ User_id user) →
     EmailRow_is_primary row = true) ∧
    db_emails (st_db st) !! UserEmail_id e = None ∧
    ran st st' (on_emails <[UserEmail_id e := row]>).
Proof.
  unfold user_email_add. intros H. account_inv. same_norm.
  apply new_row_violation_None in Hv as [Hv _].
  eexists. split_and!; [| | | |exact Hv|eassumption]; try done. simpl.
  intros Hn. rewrite (proj2 (filter_rows_nil _ _)); [done|].
  intros k r Hk. unfold email_of_user. apply bool_decide_eq_false. by eapply Hn.
Qed.
End emails.

Lemma email_lookup_authentication_inv id st o st' :
  user_email_lookup_authentication id st = (Ok o, st') →
  st' = st ∧ o = UserEmailAuthentication_from id <$> db_email_authentications (st_db st) !! id.
Proof. unfold user_email_lookup_authentication. intros H. by account_inv. Qed.
Lemma phone_lookup_authentication_inv id st o st' :
  user_phone_lookup_authentication id st = (Ok o, st') →
  st' = st ∧ o = UserPhoneAuthentication_from id <$> db_phone_authentications (st_db st) !! id.
Proof. unfold user_phone_lookup_authentication. intros H. by account_inv. Qed.

Lemma email_find_code_inv auth code st o st' :
  user_email_find_authentication_code auth code st = (Ok o, st') →
  st' = st ∧
  o = (λ '(id, r), UserEmailAuthenticationCode_from id r) <$>
        find_first (is_email_code (UserEmailAuthentication_id auth) code) (db_email_codes (st_db st)).
Proof. unfold user_email_find_authentication_code. intros H. by account_inv. Qed.

Lemma email_complete_inv auth code st a st' :
  user_email_complete_authentication_with_code auth code st = (Ok a, st') →
  ∃ r t, db_email_authentications (st_db st) !! UserEmailAuthentication_id auth = Some r ∧
    EmailAuthRow_completed_at r = None ∧ a = UserEmailAuthentication_set_completed_at t auth ∧
    ran st st' (on_email_authentications
      (alter (EmailAuthRow_set_completed_at t) (UserEmailAuthentication_id auth))).
Proof.
  unfold user_email_complete_authentication_with_code. intros H. account_inv. same_norm.
  apply bool_decide_eq_true in HP. by eexists r, (st_clock st 0%nat).
Qed.
Lemma phone_complete_inv auth code st a st' :
  user_phone_complete_authentication_with_code auth code st = (Ok a, st') →
  ∃ r t, db_phone_authentications (st_db st) !! UserPhoneAuthentication_id auth = Some r ∧
    PhoneAuthRow_completed_at r = None ∧ a = UserPhoneAuthentication_set_completed_at t auth ∧
    ran st st' (on_phone_authentications
      (alter (PhoneAuthRow_set_completed_at t) (UserPhoneAuthentication_id auth))).
Proof.
  unfold user_phone_complete_authentication_with_code. intros H. account_inv. same_norm.
  apply bool_decide_eq_true in HP. by eexists r, (st_clock st 0%nat).
Qed.

Lemma email_add_authentication_inv email reg st a st' :
  user_email_add_authentication_for_registration email reg st = (Ok a, st') →
  ∃ row, a = UserEmailAuthentication_from (UserEmailAuthentication_id a) row ∧
    EmailAuthRow_email row = email ∧ EmailAuthRow_completed_at row = None ∧
    EmailAuthRow_user_registration_id row = Some (UserRegistration_id reg) ∧
    db_email_authentications (st_db st) !! UserEmailAuthentication_id a = None ∧
    ran st st' (on_email_authentications <[UserEmailAuthentication_id a := row]>).
Proof.
  unfold user_email_add_authentication_for_registration, insert_email_authentication. intros H.
  account_inv. same_norm. apply new_row_violation_None in Hv as [Hv _].
  eexists. split_and!; [reflexivity| | | |exact Hv|eassumption]; done.
Qed.
Lemma phone_add_authentication_inv phone reg st a st' :
  user_phone_add_authentication_for_registration phone reg st = (Ok a, st') →
  ∃ row, a = UserPhoneAuthentication_from (UserPhoneAuthentication_id a) row ∧
    PhoneAuthRow_phone row = phone ∧ PhoneAuthRow_completed_at row = None ∧
    PhoneAuthRow_user_registration_id row = Some (UserRegistration_id reg) ∧
    db_phone_authentications (st_db st) !! UserPhoneAuthentication_id a = None ∧
    ran st st' (on_phone_authentications <[UserPhoneAuthentication_id a := row]>).
Proof.
  unfold user_phone_add_authentication_for_registration. intros H.
  account_inv. same_norm. apply new_row_violation_None in Hv as [Hv _].
  eexists. split_and!; [reflexivity| | | |exact Hv|eassumption]; done.
Qed.

Lemma find_by_phone_inv phone st o st' :
  user_phone_find_by_phone phone st = (Ok o, st') →
  st' = st ∧ o = (λ '(id, r), UserPhone_from id r) <$>
    the_only (filter (λ kr, has_phone phone kr.2 = true) (map_to_list (db_phones (st_db st)))).
Proof. unfold user_phone_find_by_phone. intros H. by account_inv. Qed.

Lemma user_phone_add_inv user phone st p st' :
  user_phone_add user phone st = (Ok p, st') →
  ∃ row, PhoneRow_user_id row = User_id user ∧ PhoneRow_phone row = phone ∧
    db_phones (st_db st) !! UserPhone_id p = None ∧
    ran st st' (on_phones <[UserPhone_id p := row]>).
Proof.
  unfold user_phone_add. intros H. account_inv. same_norm.
  apply new_row_violation_None in Hv as [Hv _]. eexists. split_and!; [| |exact Hv|eassumption]; done.
Qed.

(** ** Registrations, tokens and upstream identities *)

Section registrations.
Context {UX : UrlExternals}.

Lemma registration_lookup_inv id st o st' :
  user_registration_lookup id st = (Ok o, st') →
  st' = st ∧
  match o with
  | None => db_registrations (st_db st) !! id = None
  | Some reg => ∃ row, db_registrations (st_db st) !! id = Some row ∧
                       UserRegistration_try_from id row = Ok reg
  end.
Proof.
  unfold user_registration_lookup. intros H. account_inv. split; [done|].
  destruct o as [reg|].
  - destruct H as (id' & row & [-> Hk]%keyed_Some & Hd). eauto.
  - by destruct (db_registrations (st_db st) !! id).
Qed.

(** The columns of a decoded registration. *)
Lemma registration_decoded id row reg :
  UserRegistration_try_from id row = Ok reg →
  UserRegistration_id reg = id ∧ UserRegistration_username reg = RegistrationRow_username row ∧
  UserRegistration_display_name reg = RegistrationRow_display_name row ∧
  UserRegistration_avatar_url reg = RegistrationRow_avatar_url row ∧
  UserRegistration_email_authentication_id reg = RegistrationRow_email_authentication_id row ∧
  UserRegistration_phone_authentication_id reg = RegistrationRow_phone_authentication_id row ∧
  UserRegistration_user_registration_token_id reg = RegistrationRow_user_registration_token_id row ∧
  UserRegistration_created_at reg = RegistrationRow_created_at row ∧
  UserRegistration_completed_at reg = RegistrationRow_completed_at row.
Proof.
  unfold UserRegistration_try_from. destruct (Registration_decode_password id row); simpl; [|done].
  destruct (Registration_decode_terms id row); simpl; [|done]. by intros [= <-].
Qed.
End registrations.

Lemma update_registration_inv v reg f st u st' :
  update_registration v reg f st = (Ok u, st') →
  ∃ r, db_registrations (st_db st) !! UserRegistration_id reg = Some r ∧
    RegistrationRow_completed_at r = None ∧ v (st_db st) = None ∧
    ran st st' (on_registrations (alter f (UserRegistration_id reg))).
Proof.
  unfold update_registration. intros H. account_inv. apply bool_decide_eq_true in HP.
  by exists r.
Qed.

Lemma registration_complete_inv reg st reg' st' :
  user_registration_complete reg st = (Ok reg', st') →
  ∃ r t, db_registrations (st_db st) !! UserRegistration_id reg = Some r ∧
    RegistrationRow_completed_at r = None ∧ reg' = UserRegistration_set_completed_at t reg ∧
    ran st st' (on_registrations (alter (RegistrationRow_set_completed_at t) (UserRegistration_id reg))).
Proof.
  unfold user_registration_complete. intros H. account_inv.
  apply update_registration_inv in Hm as (r & Hr & Hp & _ & Hran). same_norm.
  by exists r, (st_clock st 0%nat).
Qed.

Lemma registration_add_inv username ip ua paa st reg st' :
  user_registration_add username ip ua paa st = (Ok reg, st') →
  ∃ t, UserRegistration_completed_at reg = None ∧
    UserRegistration_user_registration_token_id reg = None ∧
    db_registrations (st_db st) !! UserRegistration_id reg = None ∧
    ran st st' (on_registrations
      <[UserRegistration_id reg := new_registration_row username ip ua paa t]>).
Proof.
  unfold user_registration_add. intros H. account_inv. same_norm. simpl.
  apply new_row_violation_None in Hv as [Hv _]. by exists (st_clock st 0%nat).
Qed.

Lemma token_lookup_inv id st o st' :
  user_registration_token_lookup id st = (Ok o, st') →
  st' = st ∧
  match o with
  | None => db_registration_tokens (st_db st) !! id = None
  | Some tok => ∃ row, db_registration_tokens (st_db st) !! id = Some row ∧
                       UserRegistrationToken_try_from id row = Ok tok
  end.
Proof.
  unfold user_registration_token_lookup. intros H. account_inv. split; [done|].
  destruct o as [tok|].
  - destruct H as (id' & row & [-> Hk]%keyed_Some & Hd). eauto.
  - by destruct (db_registration_tokens (st_db st) !! id).
Qed.

Lemma token_decoded id row tok :
  UserRegistrationToken_try_from id row = Ok tok →
  UserRegistrationToken_id tok = id ∧
  UserRegistrationToken_usage_limit tok = RegistrationTokenRow_usage_limit row ∧
  UserRegistrationToken_times_used tok = RegistrationTokenRow_times_used row ∧
  UserRegistrationToken_expires_at tok = RegistrationTokenRow_expires_at row ∧
  UserRegistrationToken_revoked_at tok = RegistrationTokenRow_revoked_at row.
Proof.
  unfold UserRegistrationToken_try_from, u32_of_i32.
  destruct (RegistrationTokenRow_usage_limit row) as [z|]; simpl.
  - destruct (0 <=? z); simpl; [|done]. destruct (0 <=? RegistrationTokenRow_times_used row); simpl;
      [|done]. by intros [= <-].
  - destruct (0 <=? RegistrationTokenRow_times_used row); simpl; [|done]. by intros [= <-].
Qed.

Lemma use_token_inv tok st tok' st' :
  user_registration_token_use_token tok st = (Ok tok', st') →
  ∃ row t, db_registration_tokens (st_db st) !! UserRegistrationToken_id tok = Some row ∧
    RegistrationTokenRow_revoked_at row = None ∧
    ran st st' (on_registration_tokens
      (alter (RegistrationTokenRow_use t) (UserRegistrationToken_id tok))).
Proof.
  unfold user_registration_token_use_token. intros H.
  apply bind_Ok_inv in H as (t & st1 & [-> [D C]]%clock_now_inv & H).
  apply bind_Ok_inv in H as (o & st2 & [-> ->]%select_by_id_inv & H). rewrite D in H.
  destruct (db_registration_tokens (st_db st) !! _) as [row|] eqn:Hr; [|done].
  destruct (bool_decide (is_Some _)) eqn:Hb; [done|]. apply bool_decide_eq_false in Hb.
  destruct (_ <=? _); [done|]. exists row, (st_clock st 0%nat). split; [done|].
  split; [by apply eq_None_not_Some|]. account_inv; by split; simpl; congruence.
Qed.

Lemma upstream_session_lookup_inv id st o st' :
  upstream_oauth_session_lookup id st = (Ok o, st') → st' = st.
Proof. unfold upstream_oauth_session_lookup. intros H. by account_inv. Qed.
Lemma upstream_link_lookup_inv id st o st' :
  upstream_oauth_link_lookup id st = (Ok o, st') → st' = st.
Proof. unfold upstream_oauth_link_lookup. intros H. by account_inv. Qed.

Lemma queue_schedule_inv name payload st u st' :
  queue_job_schedule name payload st = (Ok u, st') →
  ∃ id row, QueueJobRow_queue_name row = name ∧ QueueJobRow_payload row = payload ∧
    db_jobs (st_db st) !! id = None ∧ ran st st' (on_jobs <[id := row]>).
Proof.
  unfold queue_job_schedule, queue_job_insert. intros H. account_inv. same_norm.
  apply first_violation_None, Forall_singleton, pk_taken_false in Hv. simpl in Hv.
  eexists _, _. split_and!; [| |exact Hv|exact H]; done.
Qed.
