(* ===== verification/RegistrationSpec.v ===== *)
(** What the steps of a registration do when they succeed, and that a step that
    fails commits nothing. *)
From S2P Require Import Prelude Ids RateLimit Passwords Scope Pkce Jose Domain Accounts Database Repository Handlers AccountRepository Registration RepositorySpec AccountSpec.

Open Scope Z_scope.

(** ** Lemmas on the combinators *)

Lemma or_return_Ok_inv {E F A B} (m : M St E A) (h : E → result B F) (k : A → M St F B) st b st' :
  or_return m h k st = (Ok b, st') →
  (∃ a st1, m st = (Ok a, st1) ∧ k a st1 = (Ok b, st')) ∨
  (∃ e, m st = (Err e, st') ∧ h e = Ok b).
Proof.
  unfold or_return. destruct (m st) as [[a|e] st1]; intros H; [by left; eauto|].
  right. simplify_eq. eauto.
Qed.

Lemma is_limited_inv {E F} (m : M Limiter E ()) st b st' :
  (is_limited m : M St F bool) st = (Ok b, st') → same st st'.
Proof.
  unfold is_limited. destruct (on_limiter m st) as [[]] eqn:Hl; intros [= _ <-];
    by apply on_limiter_same in Hl.
Qed.

Lemma is_some_true {A} (o : option A) : is_some o = true ↔ is_Some o.
Proof. destruct o; simpl; split; try done; by intros []. Qed.
Lemma is_some_false {A} (o : option A) : negb (is_some o) = true ↔ o = None.
Proof. by destruct o. Qed.

Lemma on_users_ext f g db : f (db_users db) = g (db_users db) → on_users f db = on_users g db.
Proof. intros H. unfold on_users. by rewrite H. Qed.

Ltac reg_step :=
  match goal with
  | H : is_limited _ _ = (Ok _, _) |- _ => apply is_limited_inv in H
  | H : user_exists _ _ = (Ok _, _) |- _ => apply user_exists_inv in H as [-> ->]
  | H : user_email_count _ _ = (Ok _, _) |- _ => apply user_email_count_inv in H as [-> ->]
  | H : user_phone_find_by_phone _ _ = (Ok _, _) |- _ => apply find_by_phone_inv in H as [-> ->]
  | H : user_count can_request_admin_only _ = (Ok _, _) |- _ =>
      apply user_count_admins_inv in H as [-> ->]
  | H : upstream_oauth_session_lookup _ _ = (Ok _, _) |- _ =>
      apply upstream_session_lookup_inv in H as ->
  | H : upstream_oauth_link_lookup _ _ = (Ok _, _) |- _ => apply upstream_link_lookup_inv in H as ->
  | H : user_email_lookup_authentication _ _ = (Ok _, _) |- _ =>
      apply email_lookup_authentication_inv in H as [-> ->]
  | H : user_phone_lookup_authentication _ _ = (Ok _, _) |- _ =>
      apply phone_lookup_authentication_inv in H as [-> ->]
  | _ => account_step
  end.
Ltac reg_inv := repeat reg_step.

Section spec.
Context {UX : UrlExternals} {DX : DbExternals} {LX : LimiterExternals} {XX : AccountExternals}
        {WX : PasswordExternals} {RX : RegistrationExternals}.

(** ** Loading and preparing *)

(** The authentications a registration row points to. *)
Definition email_auth_of (db : DB) (row : UserRegistrationRow) : option UserEmailAuthentication :=
  id ← RegistrationRow_email_authentication_id row;
  UserEmailAuthentication_from id <$> db_email_authentications db !! id.
Definition phone_auth_of (db : DB) (row : UserRegistrationRow) : option UserPhoneAuthentication :=
  id ← RegistrationRow_phone_authentication_id row;
  UserPhoneAuthentication_from id <$> db_phone_authentications db !! id.

Lemma load_progress_inv id st p st' :
  load_registration_progress id st = (Ok p, st') →
  st' = st ∧ ∃ row, db_registrations (st_db st) !! id = Some row ∧
    UserRegistration_try_from id row = Ok (progress_registration p) ∧
    progress_email_authentication p = email_auth_of (st_db st) row ∧
    progress_phone_authentication p = phone_auth_of (st_db st) row.
Proof.
  unfold load_registration_progress. intros H.
  apply bind_Ok_inv in H as (o & st1 & Hl%try_with_Ok_inv & H).
  apply registration_lookup_inv in Hl as [-> Ho].
  apply bind_Ok_inv in H as (reg & st2 & [-> ->]%ok_or_Ok_inv & H).
  destruct Ho as (row & Hrow & Hd). pose proof (registration_decoded _ _ _ Hd) as Hc.
  destruct Hc as (_ & _ & _ & _ & He & Hp & _). rewrite He, Hp in H.
  unfold email_auth_of, phone_auth_of.
  destruct (RegistrationRow_email_authentication_id row) as [eid|] eqn:Ee;
    destruct (RegistrationRow_phone_authentication_id row) as [pid|] eqn:Ep;
    reg_inv; (split; [done|]); exists row; simpl; by rewrite Ee, Ep.
Qed.

Lemma eligibility_inv hs reg bsp st u st' :
  check_registration_finish_eligibility hs reg bsp st = (Ok u, st') →
  same st st' ∧ st_clock st 0%nat - UserRegistration_created_at reg ≤ HOUR ∧
  (∀ k r, db_users (st_db st) !! k = Some r →
     same_username (UserRegistration_username reg) r = false) ∧
  hs (UserRegistration_username reg) ≠ Ok false.
Proof.
  unfold check_registration_finish_eligibility. intros H.
  apply bind_Ok_inv in H as (now & st1 & [-> S1]%clock_now_inv & H). reg_inv;
    (apply negb_true_iff, Z.ltb_ge in Hc; apply negb_true_iff in Hc1;
     rewrite col_taken_false in Hc1; destruct S1 as [D C]; rewrite D in Hc1;
     split_and!; [done|done|done|congruence]).
Qed.

Lemma prepare_token_inv reg required st o st' :
  prepare_registration_token reg required st = (Ok o, st') →
  same st st' ∧
  if required then
    ∃ tok tid row now, o = Some tok ∧ UserRegistration_user_registration_token_id reg = Some tid ∧
      db_registration_tokens (st_db st) !! tid = Some row ∧
      UserRegistrationToken_try_from tid row = Ok tok ∧
      UserRegistrationToken_is_valid tok now = true
  else o = None.
Proof.
  unfold prepare_registration_token. intros H. destruct required; [|by reg_inv].
  destruct (UserRegistration_user_registration_token_id reg) as [tid|]; [|done].
  apply bind_Ok_inv in H as (o1 & st1 & Hl%try_with_Ok_inv & H).
  apply token_lookup_inv in Hl as [-> Ho].
  apply bind_Ok_inv in H as (tok & st2 & [-> ->]%ok_or_Ok_inv & H).
  destruct Ho as (row & Hrow & Hd). reg_inv. split; [done|].
  eexists _, _, _, _. by split_and!.
Qed.

Lemma prepare_email_inv p st o st' :
  prepare_email p st = (Ok o, st') →
  st' = st ∧
  if is_some (UserRegistration_email_authentication_id (progress_registration p)) then
    ∃ auth, o = Some auth ∧ progress_email_authentication p = Some auth ∧
      is_Some (UserEmailAuthentication_completed_at auth) ∧
      ∀ k r, db_emails (st_db st) !! k = Some r →
        same_email (UserEmailAuthentication_email auth) r = false
  else o = None.
Proof.
  unfold prepare_email. intros H. destruct (is_some _); [|by reg_inv]. reg_inv. split; [done|].
  apply is_some_true in Hc. eexists. split_and!; try done.
  intros k r. by apply (filter_rows_length _ _ Hc0).
Qed.

Lemma prepare_phone_inv p st o st' :
  prepare_phone p st = (Ok o, st') →
  st' = st ∧
  if is_some (UserRegistration_phone_authentication_id (progress_registration p)) then
    ∃ auth, o = Some auth ∧ progress_phone_authentication p = Some auth ∧
      is_Some (UserPhoneAuthentication_completed_at auth) ∧
      the_only (filter (λ kr, has_phone (UserPhoneAuthentication_phone auth) kr.2 = true)
                  (map_to_list (db_phones (st_db st)))) = None
  else o = None.
Proof.
  unfold prepare_phone. intros H. destruct (is_some _); [|by reg_inv]. reg_inv. split; [done|].
  apply is_some_true in Hc. apply is_some_false, fmap_None in Hc0. eexists. by split_and!.
Qed.

Lemma prepare_upstream_inv reg st o st' :
  prepare_upstream reg st = (Ok o, st') →
  st' = st ∧
  (UserRegistration_upstream_oauth_authorization_session_id reg = None → o = None).
Proof.
  unfold prepare_upstream. intros H.
  destruct (UserRegistration_upstream_oauth_authorization_session_id reg); [|by reg_inv].
  by reg_inv.
Qed.

(** What a registration must satisfy to be finished: [now] is the time of the check, [st] the
    database, [p] the registration with its authentications. *)
Record may_finish (hs : Homeserver) (required : bool) (db : DB) (now : DateTime) (id : Ulid)
    (row : UserRegistrationRow) (prepared : PreparedRegistrationCompletion) : Prop := {
  mf_row : db_registrations db !! id = Some row;
  mf_decoded : UserRegistration_try_from id row = Ok (prepared_registration prepared);
  mf_pending : RegistrationRow_completed_at row = None;
  mf_fresh : now - RegistrationRow_created_at row ≤ HOUR;
  mf_username_free : ∀ k r, db_users db !! k = Some r →
    same_username (RegistrationRow_username row) r = false;
  mf_homeserver : hs (RegistrationRow_username row) ≠ Ok false;
  mf_display_name : is_Some (RegistrationRow_display_name row);
  mf_email :
    match RegistrationRow_email_authentication_id row with
    | None => prepared_email_authentication prepared = None
    | Some aid => ∃ auth, db_email_authentications db !! aid = Some auth ∧
        is_Some (EmailAuthRow_completed_at auth) ∧
        prepared_email_authentication prepared = Some (UserEmailAuthentication_from aid auth) ∧
        ∀ k r, db_emails db !! k = Some r → same_email (EmailAuthRow_email auth) r = false
    end;
  mf_phone :
    match RegistrationRow_phone_authentication_id row with
    | None => prepared_phone_authentication prepared = None
    | Some aid => ∃ auth, db_phone_authentications db !! aid = Some auth ∧
        is_Some (PhoneAuthRow_completed_at auth) ∧
        prepared_phone_authentication prepared = Some (UserPhoneAuthentication_from aid auth)
    end;
  mf_token :
    if required then
      ∃ tok tid trow t, prepared_registration_token prepared = Some tok ∧
        RegistrationRow_user_registration_token_id row = Some tid ∧
        db_registration_tokens db !! tid = Some trow ∧
        UserRegistrationToken_try_from tid trow = Ok tok ∧
        UserRegistrationToken_is_valid tok t = true
    else prepared_registration_token prepared = None;
}.

Lemma prepare_completion_inv p required st prepared st' :
  prepare_registration_completion p required st = (Ok prepared, st') →
  ∃ st1 st2 st3 st4 token email phone upstream,
    prepare_registration_token (progress_registration p) required st = (Ok token, st1) ∧
    prepare_email p st1 = (Ok email, st2) ∧ prepare_phone p st2 = (Ok phone, st3) ∧
    prepare_upstream (progress_registration p) st3 = (Ok upstream, st4) ∧ st' = st4 ∧
    is_Some (UserRegistration_display_name (progress_registration p)) ∧
    prepared = {| prepared_registration := progress_registration p;
                  prepared_registration_token := token;
                  prepared_email_authentication := email;
                  prepared_phone_authentication := phone;
                  prepared_upstream_oauth := upstream |}.
Proof.
  unfold prepare_registration_completion. intros H.
  apply bind_Ok_inv in H as (token & st1 & H1 & H). apply bind_Ok_inv in H as (email & st2 & H2 & H).
  apply bind_Ok_inv in H as (phone & st3 & H3 & H). apply bind_Ok_inv in H as (up & st4 & H4 & H).
  reg_inv. apply is_some_true in Hc. eexists _, _, _, _, _, _, _, _. by split_and!.
Qed.

Lemma preparation_inv hs id bsp required st prepared st' :
  load_registration_finish_preparation hs id bsp required st = (Ok prepared, st') →
  same st st' ∧ ∃ row, may_finish hs required (st_db st) (st_clock st 0%nat) id row prepared.
Proof.
  unfold load_registration_finish_preparation. intros H.
  apply bind_Ok_inv in H as (p & st1 & Hl%try_with_Ok_inv & H).
  apply load_progress_inv in Hl as (-> & row & Hrow & Hd & He & Hp).
  apply bind_Ok_inv in H as (? & st2 & [Hc ->]%require_inv & H).
  apply bind_Ok_inv in H as (? & st2 & Hel%try_with_Ok_inv & H).
  apply eligibility_inv in Hel as (S2 & Hf & Hu & Hh). apply try_with_Ok_inv in H.
  apply prepare_completion_inv in H
    as (st3 & st4 & st5 & st6 & token & email & phone & up & H1 & H2 & H3 & H4 & -> & Hn & ->).
  apply prepare_token_inv in H1 as [S3 Ht]. apply prepare_email_inv in H2 as [-> Hem].
  apply prepare_phone_inv in H3 as [-> Hph]. apply prepare_upstream_inv in H4 as [-> _].
  pose proof (registration_decoded _ _ _ Hd) as (_ & Eu & En & _ & Ee & Ep & Et & Ec & Ecomp).
  rewrite Eu in Hu, Hh. rewrite Ec in Hf. rewrite En in Hn. rewrite Ecomp in Hc.
  apply is_some_false in Hc. rewrite Ee in Hem. rewrite Ep in Hph. rewrite Et in Ht.
  assert (same st st3) as [D C] by (by etrans). destruct S2 as [D2 C2]. rewrite D in Hem, Hph.
  rewrite D2 in Ht. split; [by split|]. exists row. split; simpl; try done.
  - destruct (RegistrationRow_email_authentication_id row) as [aid|] eqn:Eaid; simpl in Hem; [|done].
    destruct Hem as (auth & -> & Ha & Hcomp & Hfree). rewrite He in Ha.
    unfold email_auth_of in Ha. rewrite Eaid in Ha. simpl in Ha.
    apply fmap_Some in Ha as (arow & Harow & ->). eauto 10.
  - destruct (RegistrationRow_phone_authentication_id row) as [aid|] eqn:Eaid; simpl in Hph; [|done].
    destruct Hph as (auth & -> & Ha & Hcomp & _). rewrite Hp in Ha.
    unfold phone_auth_of in Ha. rewrite Eaid in Ha. simpl in Ha.
    apply fmap_Some in Ha as (arow & Harow & ->). eauto 10.
Qed.

(** ** The first administrator *)

Definition no_admin (db : DB) : Prop :=
  ∀ k r, db_users db !! k = Some r → UserRow_can_request_admin r = false.

(** The token of the configuration was given, and there is no administrator yet. *)
Definition bootstrap_granted (db : DB) (configured requested : option string) : Prop :=
  no_admin db ∧ ∃ token, normalize_optional_token configured = Some token ∧
                         normalize_optional_token requested = Some token.

Lemma no_admin_count db :
  no_admin db ↔ filter (λ kr, user_matches can_request_admin_only kr.2 = true)
                  (map_to_list (db_users db)) = [].
Proof.
  rewrite filter_rows_nil. unfold no_admin.
  split; intros H k r Hk; specialize (H k r Hk); by rewrite matches_admin in *.
Qed.

Lemma admin_bootstrap_inv configured requested st b st' :
  prepare_admin_bootstrap configured requested st = (Ok b, st') →
  same st st' ∧ (b = true ↔ bootstrap_granted (st_db st) configured requested).
Proof.
  unfold prepare_admin_bootstrap, bootstrap_granted. intros H.
  apply bind_Ok_inv in H as (? & st1 & Hl%try_with_Ok_inv & H). injection Hl as _ <-.
  apply bind_Ok_inv in H as (n & st2 & Hn%try_with_Ok_inv & H).
  apply user_count_admins_inv in Hn as [-> ->]. simpl in H.
  rewrite no_admin_count. destruct (filter _ _) eqn:Hf; simpl in H.
  2:{ injection H as <- <-. split; [done|]. split; [done|]. by intros [? _]. }
  destruct (normalize_optional_token configured) as [c|].
  2:{ injection H as <- <-. split; [done|]. split; [done|]. by intros (_ & ? & ? & _). }
  destruct (normalize_optional_token requested) as [r|].
  2:{ injection H as <- <-. split; [done|]. split; [done|]. by intros (_ & ? & _ & ?). }
  case_bool_decide; [|done]. subst. injection H as <- <-. split; [done|]. split; [|done].
  intros _. split; [done|]. eauto.
Qed.

(** ** Completing *)

(** The row of a user made from a registration. *)
Definition user_row_of (row : UserRow) (reg : UserRegistration) (admin : bool) : Prop :=
  UserRow_username row = UserRegistration_username reg ∧ UserRow_can_request_admin row = admin ∧
  UserRow_display_name row = UserRegistration_display_name reg ∧
  UserRow_avatar_url row = UserRegistration_avatar_url reg ∧
  UserRow_locked_at row = None ∧ UserRow_deactivated_at row = None ∧ UserRow_is_guest row = false.

(** Two steps on the users, as one. *)
Lemma ran_users st1 st2 st3 (u : Ulid) r f :
  ran st1 st2 (on_users <[u := r]>) → ran st2 st3 (on_users (alter f u)) →
  ran st1 st3 (on_users <[u := f r]>).
Proof.
  intros [D1 C1] [D2 C2]. split; [|congruence]. rewrite D2, D1.
  transitivity (on_users (λ m, alter f u (<[u := r]> m)) (st_db st1)); [done|].
  apply on_users_ext. by rewrite alter_insert_eq.
Qed.

Lemma complete_user_inv reg admin st u st' :
  complete_user reg admin st = (Ok u, st') →
  ∃ row, user_row_of row reg admin ∧ db_users (st_db st) !! User_id u = None ∧
    ran st st' (on_users <[User_id u := row]>).
Proof.
  unfold complete_user. intros H.
  apply bind_Ok_inv in H as (u0 & st1 & Ha & H). apply user_add_inv in Ha as (t & Eu0 & Hk & _ & R0).
  apply bind_Ok_inv in H as (u1 & st2 & Hadm & H).
  assert (∃ row1, ran st st2 (on_users <[User_id u0 := row1]>) ∧ User_id u1 = User_id u0 ∧
            UserRow_username row1 = UserRegistration_username reg ∧
            UserRow_can_request_admin row1 = admin ∧ UserRow_is_guest row1 = false ∧
            UserRow_display_name row1 = None ∧ UserRow_avatar_url row1 = None ∧
            UserRow_locked_at row1 = None ∧ UserRow_deactivated_at row1 = None ∧
            User_can_request_admin u1 = admin ∧ User_display_name u1 = None ∧
            User_avatar_url u1 = None ∧ User_locked_at u1 = None ∧ User_deactivated_at u1 = None)
    as (row1 & R1 & Eid & Eun & Ead & Egu & Edn & Eav & Elo & Ede & Uad & Udn & Uav & Ulo & Ude).
  { rewrite Eu0 in Hadm. destruct admin.
    - apply user_set_admin_inv in Hadm as (t1 & -> & _ & R1). simpl in R1.
      pose proof (ran_users _ _ _ _ _ _ R0 R1) as R. eexists. split; [exact R|]. by rewrite Eu0.
    - injection Hadm as <- <-. eexists. split; [exact R0|]. by rewrite Eu0. }
  destruct (is_some (UserRegistration_display_name reg) || is_some (UserRegistration_avatar_url reg))
    eqn:Hp.
  - apply user_update_profile_inv in H as (t1 & -> & _ & R2); simpl in *.
    2:{ apply orb_true_iff in Hp as [?%is_some_true|?%is_some_true]; [left|right];
          by apply fmap_is_Some. }
    rewrite Eid in *. pose proof (ran_users _ _ _ _ _ _ R1 R2) as R. eexists.
    split; [|split; [exact Hk|exact R]]. unfold user_row_of. simpl. rewrite Eun, Uad, Udn, Uav, Ulo, Ude, Egu.
    destruct (UserRegistration_display_name reg), (UserRegistration_avatar_url reg); by split_and!.
  - injection H as <- <-. rewrite Eid. exists row1. split; [|done].
    apply orb_false_iff in Hp as [H1 H2]. unfold user_row_of. rewrite Eun, Edn, Eav.
    destruct (UserRegistration_display_name reg), (UserRegistration_avatar_url reg); by split_and!.
Qed.

(** The tables that only the OAuth 2.0 endpoints write. *)
Definition same_oauth (db db' : DB) : Prop :=
  db_clients db' = db_clients db ∧ db_sessions db' = db_sessions db ∧
  db_access_tokens db' = db_access_tokens db ∧ db_refresh_tokens db' = db_refresh_tokens db ∧
  db_grants db' = db_grants db ∧ db_device_grants db' = db_device_grants db ∧
  db_personal_sessions db' = db_personal_sessions db ∧
  db_personal_tokens db' = db_personal_tokens db.

(** What finishing a registration makes of the database: a new user under a new key, a session
    for it, its verified contacts and its password, and the registration completed. *)
Record finished (db db' : DB) (id : Ulid) (prepared : PreparedRegistrationCompletion)
    (admin : bool) (user_agent : option string) (session : BrowserSession) : Prop := {
  fin_user : ∃ row, user_row_of row (prepared_registration prepared) admin ∧
    db_users db !! User_id (BrowserSession_user session) = None ∧
    db_users db' = <[User_id (BrowserSession_user session) := row]> (db_users db);
  fin_registration : ∃ t,
    db_registrations db' = alter (RegistrationRow_set_completed_at t) id (db_registrations db);
  fin_session : ∃ t, db_user_sessions db !! BrowserSession_id session = None ∧
    db_user_sessions db' =
      <[BrowserSession_id session :=
          new_user_session_row (User_id (BrowserSession_user session)) t user_agent]>
        (db_user_sessions db);
  fin_emails :
    match prepared_email_authentication prepared with
    | None => db_emails db' = db_emails db
    | Some auth => ∃ k row, db_emails db !! k = None ∧ db_emails db' = <[k := row]> (db_emails db) ∧
        EmailRow_user_id row = User_id (BrowserSession_user session) ∧
        EmailRow_email row = UserEmailAuthentication_email auth ∧ is_Some (EmailRow_confirmed_at row)
    end;
  fin_phones :
    match prepared_phone_authentication prepared with
    | None => db_phones db' = db_phones db
    | Some auth => ∃ k row, db_phones db !! k = None ∧ db_phones db' = <[k := row]> (db_phones db) ∧
        PhoneRow_user_id row = User_id (BrowserSession_user session) ∧
        PhoneRow_phone row = UserPhoneAuthentication_phone auth
    end;
  fin_password :
    match UserRegistration_password (prepared_registration prepared) with
    | None => db_passwords db' = db_passwords db
    | Some p => ∃ k row, db_passwords db !! k = None ∧
        db_passwords db' = <[k := row]> (db_passwords db) ∧
        PasswordRow_user_id row = User_id (BrowserSession_user session) ∧
        PasswordRow_hashed_password row = RegistrationPassword_hashed_password p ∧
        PasswordRow_version row = RegistrationPassword_version p
    end;
  fin_token :
    match prepared_registration_token prepared with
    | None => db_registration_tokens db' = db_registration_tokens db
    | Some tok => ∃ t, db_registration_tokens db' =
        alter (RegistrationTokenRow_use t) (UserRegistrationToken_id tok) (db_registration_tokens db)
    end;
  fin_authentications : db_email_authentications db' = db_email_authentications db ∧
    db_phone_authentications db' = db_phone_authentications db ∧
    db_notifications db' = db_notifications db;
  fin_recoveries : db_recovery_sessions db' = db_recovery_sessions db;
  fin_oauth : same_oauth db db';
}.

(** Each optional step of the completion, as a change of its tables. *)
Lemma ran_id st f : (∀ db, f db = db) → ran st st f.
Proof. intros Hf. split; [by rewrite Hf|done]. Qed.
Ltac eta_db := intros [???????????? []]; reflexivity.

Lemma token_step_inv token st u st' :
  (match token with
   | Some tok => user_registration_token_use_token tok ≫= λ _, mret tt
   | None => mret tt
   end : M St DatabaseError ()) st = (Ok u, st') →
  ∃ f, ran st st' (on_registration_tokens f) ∧
    match token with
    | None => f = id
    | Some tok => ∃ t, f = alter (RegistrationTokenRow_use t) (UserRegistrationToken_id tok)
    end.
Proof.
  destruct token as [tok|]; intros H.
  - apply bind_Ok_inv in H as (tok' & st1 & Hu & H). injection H as _ <-.
    apply use_token_inv in Hu as (row & t & _ & _ & R). eauto.
  - injection H as _ <-. exists id. split; [apply ran_id; eta_db|done].
Qed.

Lemma email_step_inv auth user st u st' :
  (match auth with
   | Some a => user_email_add user (UserEmailAuthentication_email a) ≫= λ _, mret tt
   | None => mret tt
   end : M St DatabaseError ()) st = (Ok u, st') →
  ∃ f, ran st st' (on_emails f) ∧
    match auth with
    | None => f = id
    | Some a => ∃ k row, db_emails (st_db st) !! k = None ∧ f = <[k := row]> ∧
        EmailRow_user_id row = User_id user ∧ EmailRow_email row = UserEmailAuthentication_email a ∧
        is_Some (EmailRow_confirmed_at row)
    end.
Proof.
  destruct auth as [a|]; intros H.
  - apply bind_Ok_inv in H as (e & st1 & Hu & H). injection H as _ <-.
    apply user_email_add_inv in Hu as (row & ? & ? & ? & _ & ? & R). eauto 10.
  - injection H as _ <-. exists id. split; [apply ran_id; eta_db|done].
Qed.

Lemma phone_step_inv auth user st u st' :
  (match auth with
   | Some a => user_phone_add user (UserPhoneAuthentication_phone a) ≫= λ _, mret tt
   | None => mret tt
   end : M St DatabaseError ()) st = (Ok u, st') →
  ∃ f, ran st st' (on_phones f) ∧
    match auth with
    | None => f = id
    | Some a => ∃ k row, db_phones (st_db st) !! k = None ∧ f = <[k := row]> ∧
        PhoneRow_user_id row = User_id user ∧ PhoneRow_phone row = UserPhoneAuthentication_phone a
    end.
Proof.
  destruct auth as [a|]; intros H.
  - apply bind_Ok_inv in H as (e & st1 & Hu & H). injection H as _ <-.
    apply user_phone_add_inv in Hu as (row & ? & ? & ? & R). eauto 10.
  - injection H as _ <-. exists id. split; [apply ran_id; eta_db|done].
Qed.

Lemma complete_password_inv reg user bs st u st' :
  complete_password reg user bs st = (Ok u, st') →
  ∃ f g, ran st st' (λ db, on_authentications g (on_passwords f db)) ∧
    match UserRegistration_password reg with
    | None => f = id
    | Some p => ∃ k row, db_passwords (st_db st) !! k = None ∧ f = <[k := row]> ∧
        PasswordRow_user_id row = User_id user ∧
        PasswordRow_hashed_password row = RegistrationPassword_hashed_password p ∧
        PasswordRow_version row = RegistrationPassword_version p
    end.
Proof.
  unfold complete_password. destruct (UserRegistration_password reg) as [p|]; intros H.
  - apply bind_Ok_inv in H as (pw & st1 & Hp & H). apply bind_Ok_inv in H as (a & st2 & Ha & H).
    injection H as _ <-. apply user_password_add_inv in Hp as (row & ? & ? & ? & _ & _ & ? & R1).
    apply authenticate_with_password_inv in Ha as (k & arow & _ & _ & _ & R2).
    pose proof (ran_ran _ _ _ _ _ R1 R2). eauto 12.
  - injection H as _ <-. exists id, id. split; [apply ran_id; eta_db|done].
Qed.

Lemma update_any_inv {R} (tbl : DB → gmap Z R) on v k g st n st' :
  (∀ db, on id db = db) →
  update_by_id tbl on v k g st = (Ok n, st') → ∃ f, ran st st' (on f).
Proof.
  intros Hid H. apply update_by_id_inv in H. destruct (tbl (st_db st) !! k).
  - destruct H as [_ R']. eauto.
  - subst. exists id. by apply ran_id.
Qed.

Lemma complete_upstream_inv up user bs st u st' :
  complete_upstream up user bs st = (Ok u, st') →
  ∃ f g h, ran st st' (λ db, on_authentications h (on_links g (on_upstream_sessions f db))).
Proof.
  unfold complete_upstream. destruct up as [[s l]|]; intros H.
  - apply bind_Ok_inv in H as (s' & st1 & Hs & H). apply bind_Ok_inv in H as (? & st2 & Hl & H).
    apply bind_Ok_inv in H as (a & st3 & Ha & H). injection H as _ <-.
    apply authenticate_with_upstream_inv in Ha as (k & row & _ & _ & _ & R3).
    unfold upstream_oauth_session_consume in Hs. unfold upstream_oauth_link_associate_to_user in Hl.
    apply bind_Ok_inv in Hs as (t & ? & [_ S1]%clock_now_inv & Hs).
    apply bind_Ok_inv in Hs as (n & ? & Hs & He). apply of_result_map_err_inv in He as [_ ->].
    apply update_any_inv in Hs as [f R1]; [|eta_db].
    apply bind_Ok_inv in Hl as (t' & ? & [_ S2]%clock_now_inv & Hl).
    apply bind_Ok_inv in Hl as (n' & ? & Hl & He). injection He as _ <-.
    apply update_any_inv in Hl as [g R2]; [|eta_db].
    pose proof (same_ran _ _ _ _ S1 R1) as Q1. pose proof (same_ran _ _ _ _ S2 R2) as Q2.
    pose proof (ran_ran _ _ _ _ _ (ran_ran _ _ _ _ _ Q1 Q2) R3). by eexists f, g, _.
  - injection H as _ <-. exists id, id, id. apply ran_id; eta_db.
Qed.

Lemma terms_step_inv terms user st u st' :
  (match terms with
   | Some url => user_terms_accept_terms user url
   | None => mret tt
   end : M St DatabaseError ()) st = (Ok u, st') → ∃ f, ran st st' (on_terms f).
Proof.
  destruct terms as [url|]; intros H.
  - apply accept_terms_inv in H as (f & R & _). eauto.
  - injection H as _ <-. exists id. apply ran_id; eta_db.
Qed.

Lemma complete_registration_inv prepared ua admin st c st' :
  complete_registration (into_request prepared ua) admin st = (Ok c, st') →
  finished (st_db st) (st_committed st') (UserRegistration_id (prepared_registration prepared))
    prepared admin ua (completed_user_session c) ∧
  BrowserSession_finished_at (completed_user_session c) = None ∧
  (∃ t, completed_registration c =
          UserRegistration_set_completed_at t (prepared_registration prepared)) ∧
  st_db st' = st_committed st'.
Proof.
  unfold complete_registration. simpl. intros H.
  apply bind_Ok_inv in H as (reg & st1 & H1 & H).
  apply registration_complete_inv in H1 as (r & t & Hr & Hp & -> & R1).
  apply bind_Ok_inv in H as (? & st2 & H2 & H). apply token_step_inv in H2 as (ft & R2 & Ht).
  apply bind_Ok_inv in H as (user & st3 & H3 & H).
  apply complete_user_inv in H3 as (urow & Hurow & Huk & R3).
  apply bind_Ok_inv in H as (bs & st4 & H4 & H).
  apply browser_session_add_inv in H4 as (tb & Eu & _ & Hfin & Hbk & R4).
  apply bind_Ok_inv in H as (? & st5 & H5 & H). apply email_step_inv in H5 as (fe & R5 & He).
  apply bind_Ok_inv in H as (? & st6 & H6 & H). apply phone_step_inv in H6 as (fp & R6 & Hph).
  apply bind_Ok_inv in H as (? & st7 & H7 & H). apply complete_password_inv in H7 as (fw & ga & R7 & Hw).
  apply bind_Ok_inv in H as (? & st8 & H8 & H). apply complete_upstream_inv in H8 as (fu & gl & ha & R8).
  apply bind_Ok_inv in H as (? & st9 & H9 & H). apply terms_step_inv in H9 as (fm & R9).
  apply bind_Ok_inv in H as (? & st10 & H10 & H).
  apply queue_schedule_inv in H10 as (jk & jrow & _ & _ & _ & R10).
  apply bind_Ok_inv in H as (? & st11 & H11 & H). injection H11 as _ <-. injection H as <- <-. simpl.
  destruct R1 as [D1 _], R2 as [D2 _], R3 as [D3 _], R4 as [D4 _], R5 as [D5 _], R6 as [D6 _],
    R7 as [D7 _], R8 as [D8 _], R9 as [D9 _], R10 as [D10 _].
  rewrite D2, D1 in Huk. rewrite D3, D2, D1 in Hbk.
  rewrite D4, D3, D2, D1 in He. rewrite D5, D4, D3, D2, D1 in Hph.
  rewrite D6, D5, D4, D3, D2, D1 in Hw. rewrite D10, D9, D8, D7, D6, D5, D4, D3, D2, D1.
  split; [|by eauto]. rewrite <-Eu in *. split; simpl.
  - exists urow. split; [exact Hurow|]. split; [exact Huk|reflexivity].
  - by exists t.
  - exists tb. split; [exact Hbk|reflexivity].
  - destruct (prepared_email_authentication prepared); [|by rewrite He].
    destruct He as (k & row & Hk & -> & ? & ? & ?). by exists k, row.
  - destruct (prepared_phone_authentication prepared); [|by rewrite Hph].
    destruct Hph as (k & row & Hk & -> & ? & ?). by exists k, row.
  - simpl in Hw. destruct (UserRegistration_password (prepared_registration prepared)); [|by rewrite Hw].
    destruct Hw as (k & row & Hk & -> & ? & ? & ?). by exists k, row.
  - destruct (prepared_registration_token prepared); [|by rewrite Ht].
    destruct Ht as [tt' ->]. by exists tt'.
  - done.
  - done.
  - done.
Qed.

(** A registration that is finished: what it had to satisfy, and what it made. *)
Lemma finish_registration_inv hs id bsp required configured requested ua st c st' :
  finish_registration hs id bsp required configured requested ua st = (Ok (Finish_Completed c), st') →
  ∃ row prepared admin,
    may_finish hs required (st_db st) (st_clock st 0%nat) id row prepared ∧
    (admin = true ↔ bootstrap_granted (st_db st) configured requested) ∧
    finished (st_db st) (st_committed st') id prepared admin ua (completed_user_session c) ∧
    BrowserSession_finished_at (completed_user_session c) = None ∧
    (∃ t, completed_registration c =
            UserRegistration_set_completed_at t (prepared_registration prepared)) ∧
    st_db st' = st_committed st'.
Proof.
  unfold finish_registration. intros [(prepared & st1 & H1 & H)|(e & _ & He)]%or_return_Ok_inv.
  2:{ destruct e as [| | |? []|? []]; simpl in He; simplify_eq. }
  apply preparation_inv in H1 as [[D1 _] [row Hm]].
  apply or_return_Ok_inv in H as [(admin & st2 & H2 & H)|([] & _ & He)]; [|by simplify_eq..].
  apply admin_bootstrap_inv in H2 as [[D2 _] Ha]. rewrite D1 in Ha, D2.
  apply bind_Ok_inv in H as (c' & st3 & H%try_with_Ok_inv & He). injection He as -> <-.
  apply complete_registration_inv in H as (Hf & Hs & Ht & Hd). rewrite D2 in Hf.
  pose proof (registration_decoded _ _ _ (mf_decoded _ _ _ _ _ _ _ Hm)) as (Eid & _).
  rewrite Eid in Hf. by exists row, prepared, admin.
Qed.

(** A claim of the first administrator that is granted. *)
Lemma claim_inv user_id configured token st r st' :
  claim_bootstrap_admin user_id configured token st = (Ok r, st') →
  match r with
  | Claim_Claimed => bootstrap_granted (st_db st) configured (Some token) ∧
      is_Some (db_users (st_db st) !! user_id) ∧
      ∃ t, ran st st' (on_users (alter (UserRow_set_admin true t) user_id))
  | _ => same st st'
  end.
Proof.
  unfold claim_bootstrap_admin. intros H.
  apply bind_Ok_inv in H as (o & st1 & Ho%try_with_Ok_inv & H). apply user_lookup_inv in Ho as [-> Ho].
  apply bind_Ok_inv in H as (u & st2 & [-> ->]%ok_or_Ok_inv & H). symmetry in Ho.
  apply fmap_Some in Ho as (row & Hrow & ->).
  apply or_return_Ok_inv in H as [(b & st2 & H2 & H)|([] & H2 & He)]; [| |by simplify_eq].
  - apply admin_bootstrap_inv in H2 as [S2 Hb]. destruct b; [|by injection H as <- <-].
    apply bind_Ok_inv in H as (u' & st3 & Hu%try_with_Ok_inv & He). injection He as <- <-.
    apply user_set_admin_inv in Hu as (t & _ & _ & R). simpl in R.
    split; [by apply Hb|]. split; [by eexists|]. exists t. by eapply same_ran.
  - injection He as <-. unfold prepare_admin_bootstrap in H2.
    apply (same_keeps (prepare_admin_bootstrap configured (Some token)) _ _ _) in H2; [done| |].
    all: unfold prepare_admin_bootstrap, user_acquire_bootstrap_admin_lock, user_count;
      solve_keeps.
Qed.
End spec.
