(* ===== verification/NotificationSpec.v ===== *)
(** What the methods on notifications and the steps of their jobs do when they succeed, as
    inversion lemmas over the monad. *)
From S2P Require Import Prelude Ids RateLimit TokenFormat Scope Pkce Jose Domain Accounts Notification Database Messaging Repository ClientMetadata ProviderMetadata AccountRepository Pagination NotificationRepository Notifications RepositorySpec AccountSpec Outbox.

Open Scope Z_scope.

(** ** Rows *)

(** The text of an enumeration is read by comparing it to each of its texts. *)
Ltac parse_inv :=
  repeat match goal with
  | |- context [if String.eqb ?a ?b then _ else _] =>
      destruct (String.eqb_spec a b); [subst; by intros [= <-]|]
  end; done.

Lemma parse_request_status_inv text row s :
  parse_request_status text row = Ok s → text = request_status_to_db s.
Proof.
  unfold parse_request_status. parse_inv.
Qed.
Lemma parse_delivery_status_inv text row s :
  parse_delivery_status text row = Ok s → text = delivery_status_to_db s.
Proof.
  unfold parse_delivery_status. parse_inv.
Qed.
Lemma parse_request_status_to_db s row : parse_request_status (request_status_to_db s) row = Ok s.
Proof. by destruct s. Qed.
Lemma parse_delivery_status_to_db s row : parse_delivery_status (delivery_status_to_db s) row = Ok s.
Proof. by destruct s. Qed.
Lemma parse_channel_to_db c row : parse_channel (channel_to_db c) row = Ok c.
Proof. by destruct c. Qed.

Lemma result_bind_Ok {A B E} (r : result A E) (f : A → result B E) b :
  result_bind r f = Ok b → ∃ a, r = Ok a ∧ f a = Ok b.
Proof. destruct r; simpl; naive_solver. Qed.

(** A delivery read from its row. *)
Lemma delivery_try_from_inv id row d :
  NotificationDelivery_try_from id row = Ok d →
  ndel_id d = id ∧ ndel_notification_request_id d = DeliveryRow_notification_request_id row ∧
  ndel_destination d = DeliveryRow_destination row ∧
  DeliveryRow_status row = delivery_status_to_db (ndel_status d) ∧
  ndel_attempt_count d = DeliveryRow_attempt_count row ∧
  ndel_last_failure d = DeliveryRow_last_failure row ∧
  ndel_next_retry_at d = DeliveryRow_next_retry_at row.
Proof.
  unfold NotificationDelivery_try_from. intros (c & _ & H)%result_bind_Ok.
  apply result_bind_Ok in H as (n & Hn & H). apply result_bind_Ok in H as (s & Hs & [= <-]).
  apply parse_delivery_status_inv in Hs. destruct (_ <? 0); [done|]. injection Hn as <-. done.
Qed.
Lemma request_try_from_inv id row r :
  NotificationRequest_try_from id row = Ok r →
  nreq_id r = id ∧ nreq_template_key r = RequestRow_template_key row ∧
  nreq_source r = RequestRow_source row ∧ nreq_payload r = RequestRow_payload row ∧
  nreq_created_at r = RequestRow_created_at row ∧
  RequestRow_status row = request_status_to_db (nreq_status r).
Proof.
  unfold NotificationRequest_try_from. intros (s & Hs & [= <-])%result_bind_Ok.
  by apply parse_request_status_inv in Hs.
Qed.

Lemma delivery_status_inj s s' : delivery_status_to_db s = delivery_status_to_db s' → s = s'.
Proof. by destruct s, s'. Qed.
Lemma request_status_inj s s' : request_status_to_db s = request_status_to_db s' → s = s'.
Proof. by destruct s, s'. Qed.

(** ** The repository *)

Lemma lookup_request_inv id st o st' :
  notification_lookup_request id st = (Ok o, st') → st' = st ∧
  match o with
  | None => db_notification_requests (st_db st) !! id = None
  | Some r => ∃ row, db_notification_requests (st_db st) !! id = Some row ∧
      NotificationRequest_try_from id row = Ok r
  end.
Proof.
  unfold notification_lookup_request. intros H. account_inv. split; [done|].
  destruct o as [r|]; [|by destruct (_ !! id)].
  destruct H as (? & row & [-> ?]%keyed_Some & ?). eauto.
Qed.
Lemma lookup_delivery_inv id st o st' :
  notification_lookup_delivery id st = (Ok o, st') → st' = st ∧
  match o with
  | None => db_notification_deliveries (st_db st) !! id = None
  | Some d => ∃ row, db_notification_deliveries (st_db st) !! id = Some row ∧
      NotificationDelivery_try_from id row = Ok d
  end.
Proof.
  unfold notification_lookup_delivery. intros H. account_inv. split; [done|].
  destruct o as [r|]; [|by destruct (_ !! id)].
  destruct H as (? & row & [-> ?]%keyed_Some & ?). eauto.
Qed.
Lemma lookup_by_message_inv key id st o st' :
  notification_lookup_delivery_by_provider_message_id key id st = (Ok o, st') → st' = st ∧
  match o with
  | None => True
  | Some d => ∃ k row, db_notification_deliveries (st_db st) !! k = Some row ∧
      NotificationDelivery_try_from k row = Ok d
  end.
Proof.
  unfold notification_lookup_delivery_by_provider_message_id. intros H. account_inv. split; [done|].
  destruct o as [r|]; [|done]. destruct H as (k & row & [? _]%find_first_Some & ?). eauto.
Qed.

Lemma append_event_inv q d p st ev st' :
  notification_append_event q d p st = (Ok ev, st') →
  ∃ f, ran st st' (on_notification_events f).
Proof. unfold notification_append_event. intros H. account_inv. same_norm. eauto. Qed.

Lemma set_request_status_inv q s st q' st' :
  notification_set_request_status q s st = (Ok q', st') →
  ∃ now, q' = request_with_status now s q ∧
    is_Some (db_notification_requests (st_db st) !! nreq_id q) ∧
    ran st st' (on_notification_requests (alter (RequestRow_persist q') (nreq_id q))).
Proof.
  unfold notification_set_request_status. intros H. account_inv. same_norm. simpl in *. eauto.
Qed.

Lemma persist_delivery_inv d st u st' :
  persist_delivery d st = (Ok u, st') →
  is_Some (db_notification_deliveries (st_db st) !! ndel_id d) ∧
  ran st st' (on_notification_deliveries (alter (DeliveryRow_persist d) (ndel_id d))).
Proof. unfold persist_delivery. intros H. account_inv. done. Qed.

Ltac mark_inv :=
  let H := fresh in intros H; account_inv;
  match goal with H : persist_delivery _ _ = _ |- _ => apply persist_delivery_inv in H as [??] end;
  same_norm; simpl in *; eexists; split_and!; [reflexivity|done..].

Lemma mark_sending_inv d m st d' st' :
  notification_mark_delivery_sending d m st = (Ok d', st') →
  ∃ now, d' = delivery_with d Delivery_Sending (option_or m (ndel_provider_message_id d)) None
                (get_or_insert now (ndel_sent_at d)) (ndel_delivered_at d) None None ∧
    is_Some (db_notification_deliveries (st_db st) !! ndel_id d) ∧
    ran st st' (on_notification_deliveries (alter (DeliveryRow_persist d') (ndel_id d))).
Proof. unfold notification_mark_delivery_sending. mark_inv. Qed.
Lemma mark_delivered_inv d m st d' st' :
  notification_mark_delivery_delivered d m st = (Ok d', st') →
  ∃ now, d' = delivery_with d Delivery_Delivered (option_or m (ndel_provider_message_id d)) None
                (get_or_insert now (ndel_sent_at d)) (Some now) None None ∧
    is_Some (db_notification_deliveries (st_db st) !! ndel_id d) ∧
    ran st st' (on_notification_deliveries (alter (DeliveryRow_persist d') (ndel_id d))).
Proof. unfold notification_mark_delivery_delivered. mark_inv. Qed.
Lemma mark_failed_inv d f m retry st d' st' :
  notification_mark_delivery_failed d f m retry st = (Ok d', st') →
  ∃ now, d' = delivery_with d Delivery_Failed (option_or m (ndel_provider_message_id d)) (Some f)
                (ndel_sent_at d) None (Some now) retry ∧
    is_Some (db_notification_deliveries (st_db st) !! ndel_id d) ∧
    ran st st' (on_notification_deliveries (alter (DeliveryRow_persist d') (ndel_id d))).
Proof. unfold notification_mark_delivery_failed. mark_inv. Qed.
Lemma cancel_delivery_inv d st d' st' :
  notification_cancel_delivery d st = (Ok d', st') →
  ∃ now, d' = delivery_with d Delivery_Cancelled (ndel_provider_message_id d) (ndel_last_failure d)
                (ndel_sent_at d) (ndel_delivered_at d) (Some now) None ∧
    is_Some (db_notification_deliveries (st_db st) !! ndel_id d) ∧
    ran st st' (on_notification_deliveries (alter (DeliveryRow_persist d') (ndel_id d))).
Proof. unfold notification_cancel_delivery. mark_inv. Qed.

Lemma add_request_inv p st q st' :
  notification_add_request p st = (Ok q, st') →
  ∃ row, db_notification_requests (st_db st) !! nreq_id q = None ∧
    RequestRow_template_key row = newreq_template_key p ∧ RequestRow_source row = newreq_source p ∧
    RequestRow_payload row = newreq_payload p ∧ RequestRow_status row = "pending" ∧
    RequestRow_locale row = newreq_locale p ∧
    ran st st' (on_notification_requests <[nreq_id q := row]>).
Proof.
  unfold notification_add_request. intros H. account_inv. same_norm.
  apply new_row_violation_None in Hv as [Hv _]. simpl in *.
  eexists. split_and!; [exact Hv|..|eassumption]; done.
Qed.
Lemma add_delivery_inv q p st d st' :
  notification_add_delivery q p st = (Ok d, st') →
  ∃ now, db_notification_deliveries (st_db st) !! ndel_id d = None ∧
    ran st st' (on_notification_deliveries <[ndel_id d := new_delivery_row now (nreq_id q) p]>).
Proof.
  unfold notification_add_delivery. intros H. account_inv. same_norm.
  apply new_row_violation_None in Hv as [Hv _]. simpl in *.
  eexists. split; [exact Hv|eassumption].
Qed.

Lemma queue_insert_inv name payload at_ st u st' :
  queue_job_insert name payload at_ st = (Ok u, st') → ∃ f, ran st st' (on_jobs f).
Proof. unfold queue_job_insert. intros H. account_inv. same_norm. eauto. Qed.

(** ** Steps of a worker *)

Lemma lift_inv {E A} (m : M St E A) js r js' :
  lift m js = (r, js') → m (js_st js) = (r, js_st js') ∧ js_handed js' = js_handed js.
Proof. unfold lift. destruct (m (js_st js)). by intros [= <- <-]. Qed.
Lemma or_retry_inv {A} (m : M St DatabaseError A) js a js' :
  or_retry m js = (Ok a, js') → m (js_st js) = (Ok a, js_st js') ∧ js_handed js' = js_handed js.
Proof. intros [H ?]%lift_inv. by apply try_with_Ok_inv in H. Qed.
Lemma utc_now_inv {E} js t js' :
  (utc_now : M JobSt E _) js = (Ok t, js') → js_st js' = js_st js ∧ js_handed js' = js_handed js.
Proof. by intros [= _ <-]. Qed.
Lemma attempt_inv {S E F A} (m : M S E A) (js js' : S) r :
  (attempt m : M S F _) js = (Ok r, js') → m js = (r, js').
Proof. unfold attempt. destruct (m js). by intros [= <- <-]. Qed.

(** What is handed out by a dispatch: nothing where the channel is not configured. *)
Lemma dispatch_inv nc out js r js' :
  dispatch nc out js = (r, js') →
  js_st js' = js_st js ∧
  (js_handed js' = js_handed js ++ [out] ∨
   js_handed js' = js_handed js ∧
     (r = Err Notification_EmailNotConfigured ∨ r = Err Notification_SmsNotConfigured)).
Proof.
  unfold dispatch, send_email, send_sms_verification_code.
  unfold ok_or, hand_out, mbind, M_bind, mret, M_ret, raise.
  destruct out, (nc_email nc), (nc_sms nc); cbn;
    repeat case_match; intros ?; simplify_eq; simpl; auto.
Qed.

(** The state of a worker that has changed a delivery and its request, apart from events and
    jobs, since it began its transaction. *)
Definition at_rows (c0 : DB) (k : Ulid) (d : NotificationDeliveryRow) (q : Ulid)
    (r : NotificationRequestRow) (st : St) : Prop :=
  st_committed st = c0 ∧
  ∃ jobs events, st_db st =
    on_jobs (λ _, jobs)
      (on_notifications (λ n, mkNotifications (<[q := r]> (ntf_requests n))
                                (<[k := d]> (ntf_deliveries n)) events (ntf_preferences n)) c0).

Section at_rows.
Context (c0 : DB) (k q : Ulid).
Implicit Types (d : NotificationDeliveryRow) (r : NotificationRequestRow).

Lemma at_rows_events d r f st st' :
  at_rows c0 k d q r st → ran st st' (on_notification_events f) → at_rows c0 k d q r st'.
Proof.
  intros (Hc & jobs & events & Hd) [Hd' Hc']. split; [congruence|].
  exists jobs, (f events). rewrite Hd', Hd. reflexivity.
Qed.
Lemma at_rows_jobs d r f st st' :
  at_rows c0 k d q r st → ran st st' (on_jobs f) → at_rows c0 k d q r st'.
Proof.
  intros (Hc & jobs & events & Hd) [Hd' Hc']. split; [congruence|].
  exists (f jobs), events. rewrite Hd', Hd. reflexivity.
Qed.
Lemma at_rows_delivery d r f st st' :
  at_rows c0 k d q r st → ran st st' (on_notification_deliveries (alter f k)) →
  at_rows c0 k (f d) q r st'.
Proof.
  intros (Hc & jobs & events & Hd) [Hd' Hc']. split; [congruence|].
  exists jobs, events. rewrite Hd', Hd. unfold on_notification_deliveries, on_jobs, on_notifications.
  simpl. by rewrite alter_insert_eq.
Qed.
Lemma at_rows_request d r f st st' :
  at_rows c0 k d q r st → ran st st' (on_notification_requests (alter f q)) →
  at_rows c0 k d q (f r) st'.
Proof.
  intros (Hc & jobs & events & Hd) [Hd' Hc']. split; [congruence|].
  exists jobs, events. rewrite Hd', Hd. unfold on_notification_requests, on_jobs, on_notifications.
  simpl. by rewrite alter_insert_eq.
Qed.
Lemma at_rows_same d r st st' : at_rows c0 k d q r st → same st st' → at_rows c0 k d q r st'.
Proof. intros [Hc Hd] [E1 E2]. split; [congruence|]. by rewrite E1. Qed.

Context {DX : DbExternals} {NX : NotificationExternals}.

Lemma step_event d r req del kind summary meta js u js' :
  append_event req del kind summary meta js = (Ok u, js') → at_rows c0 k d q r (js_st js) →
  at_rows c0 k d q r (js_st js') ∧ js_handed js' = js_handed js.
Proof.
  unfold append_event. intros H Ha. run_inv. apply or_retry_inv in Hm as [Hm Hh].
  apply append_event_inv in Hm as [f Hm]. split; [by eapply at_rows_events|done].
Qed.
Lemma step_request d r req s js req' js' :
  or_retry (notification_set_request_status req s) js = (Ok req', js') → nreq_id req = q →
  at_rows c0 k d q r (js_st js) →
  (∃ now, req' = request_with_status now s req) ∧
  at_rows c0 k d q (RequestRow_persist req' r) (js_st js') ∧ js_handed js' = js_handed js.
Proof.
  intros [H Hh]%or_retry_inv Hid Ha. apply set_request_status_inv in H as (now & -> & _ & H).
  rewrite Hid in H. split_and!; [by eauto|by eapply at_rows_request|done].
Qed.
Lemma step_jobs d r name payload t js u js' :
  or_retry (queue_job_insert name payload t) js = (Ok u, js') → at_rows c0 k d q r (js_st js) →
  at_rows c0 k d q r (js_st js') ∧ js_handed js' = js_handed js.
Proof.
  intros [H Hh]%or_retry_inv Ha. apply queue_insert_inv in H as [f H].
  split; [by eapply at_rows_jobs|done].
Qed.
End at_rows.

(** ** The end of a delivery *)

(** The columns no update of a delivery writes. *)
Definition delivery_same (d d' : NotificationDeliveryRow) : Prop :=
  DeliveryRow_notification_request_id d' = DeliveryRow_notification_request_id d ∧
  DeliveryRow_channel d' = DeliveryRow_channel d ∧
  DeliveryRow_destination d' = DeliveryRow_destination d ∧
  DeliveryRow_provider_binding_key d' = DeliveryRow_provider_binding_key d ∧
  DeliveryRow_created_at d' = DeliveryRow_created_at d ∧
  DeliveryRow_attempt_count d' = DeliveryRow_attempt_count d.

(** How an attempt ends: the rows of the delivery and of the request. *)
Inductive attempt_end (req : NotificationRequest) (del : NotificationDelivery)
    (d d' : NotificationDeliveryRow) (r r' : NotificationRequestRow) : Prop :=
| end_cancelled :
    DeliveryRow_status d' = "cancelled" → DeliveryRow_next_retry_at d' = None →
    RequestRow_status r' = "cancelled" → attempt_end req del d d' r r'
| end_delivered :
    DeliveryRow_status d' = "delivered" → DeliveryRow_next_retry_at d' = None →
    RequestRow_status r' = "succeeded" → attempt_end req del d d' r r'
| end_retried utc now failure delay :
    next_retry_delay utc req del failure = Some delay →
    DeliveryRow_last_failure d' = Some failure →
    DeliveryRow_status d' = "failed" → DeliveryRow_next_retry_at d' = Some (now + delay) →
    RequestRow_status r' = "processing" → attempt_end req del d d' r r'
| end_failed utc failure :
    next_retry_delay utc req del failure = None →
    DeliveryRow_last_failure d' = Some failure →
    DeliveryRow_status d' = "failed" → DeliveryRow_next_retry_at d' = None →
    RequestRow_status r' = "failed" → attempt_end req del d d' r r'.

Section ends.
Context {UX : UrlExternals} {VX : UrlPartsExternals} {BX : UrlBuildExternals} {DX : DbExternals}
  {LX : LimiterExternals} {XX : AccountExternals} {NX : NotificationExternals}.
Context (c0 : DB) (k q : Ulid).
Implicit Types (d : NotificationDeliveryRow) (r : NotificationRequestRow).

(** What a step that ends an attempt, of the request [req] and the delivery [del], leaves. *)
Definition ends (req : NotificationRequest) (del : NotificationDelivery) d r (st' : St) : Prop :=
  ∃ d' r', at_rows c0 k d' q r' st' ∧ delivery_same d d' ∧ request_evolves r r' ∧
    attempt_end req del d d' r r'.

Lemma persist_same del d : delivery_same d (DeliveryRow_persist del d).
Proof. done. Qed.
Lemma persist_evolves req r : request_evolves r (RequestRow_persist req r).
Proof. done. Qed.

Lemma complete_failure_inv req del failure d r js u js' :
  complete_delivery_with_failure req del failure js = (Ok u, js') →
  ndel_id del = k → nreq_id req = q → at_rows c0 k d q r (js_st js) →
  ends req del d r (js_st js') ∧ js_handed js' = js_handed js.
Proof.
  unfold complete_delivery_with_failure. intros H Hk Hq Ha.
  apply bind_Ok_inv in H as (now & js1 & H1 & H). apply lift_inv in H1 as [[= <- E1] Hh1].
  apply bind_Ok_inv in H as (utc & js2 & H2 & H). apply utc_now_inv in H2 as [E2 Hh2].
  apply bind_Ok_inv in H as (del' & js3 & H3 & H). apply or_retry_inv in H3 as [H3 Hh3].
  apply mark_failed_inv in H3 as (t & -> & _ & H3). rewrite Hk in H3.
  assert (at_rows c0 k d q r (js_st js2)) as Ha2.
  { rewrite E2, <-E1. eapply at_rows_same; [exact Ha|done]. }
  eapply at_rows_delivery in H3; [|exact Ha2].
  apply bind_Ok_inv in H as (? & js4 & H4 & H). eapply step_event in H4 as [Ha4 Hh4]; [|exact H3].
  destruct (next_retry_delay utc req del failure) as [delay|] eqn:Hd; simpl in H.
  - apply bind_Ok_inv in H as (? & js5 & H5 & H). eapply step_event in H5 as [Ha5 Hh5]; [|exact Ha4].
    apply bind_Ok_inv in H as (? & js6 & H6 & H). eapply step_jobs in H6 as [Ha6 Hh6]; [|exact Ha5].
    apply bind_Ok_inv in H as (req' & js7 & H7 & H).
    eapply step_request in H7 as ([t' ->] & Ha7 & Hh7); [|exact Hq|exact Ha6]. injection H as _ <-.
    split; [|congruence]. eexists _, _. split_and!; [exact Ha7|done|done|].
    by eapply end_retried; [exact Hd|..].
  - apply bind_Ok_inv in H as (req' & js5 & H5 & H).
    eapply step_request in H5 as ([t' ->] & Ha5 & Hh5); [|exact Hq|exact Ha4].
    eapply step_event in H as [Ha6 Hh6]; [|exact Ha5].
    split; [|congruence]. eexists _, _. split_and!; [exact Ha6|done|done|].
    by eapply end_failed; [exact Hd|..].
Qed.

Lemma cancel_request_inv req del summary meta d r js u js' :
  cancel_request req del summary meta js = (Ok u, js') →
  ndel_id del = k → nreq_id req = q → at_rows c0 k d q r (js_st js) →
  ends req del d r (js_st js') ∧ js_handed js' = js_handed js.
Proof.
  unfold cancel_request. intros H Hk Hq Ha.
  apply bind_Ok_inv in H as (del' & js1 & H1 & H). apply or_retry_inv in H1 as [H1 Hh1].
  apply cancel_delivery_inv in H1 as (t & -> & _ & H1). rewrite Hk in H1.
  eapply at_rows_delivery in H1; [|exact Ha].
  apply bind_Ok_inv in H as (req' & js2 & H2 & H).
  eapply step_request in H2 as ([t' ->] & Ha2 & Hh2); [|exact Hq|exact H1].
  eapply step_event in H as [Ha3 Hh3]; [|exact Ha2].
  split; [|congruence]. eexists _, _. split_and!; [exact Ha3|done|done|]. by apply end_cancelled.
Qed.

Lemma complete_success_inv req del res d r js u js' :
  complete_delivery_with_success req del res js = (Ok u, js') →
  ndel_id del = k → nreq_id req = q → at_rows c0 k d q r (js_st js) →
  ends req del d r (js_st js') ∧ js_handed js' = js_handed js.
Proof.
  unfold complete_delivery_with_success. intros H Hk Hq Ha.
  apply bind_Ok_inv in H as (del' & js1 & H1 & H). apply or_retry_inv in H1 as [H1 Hh1].
  apply mark_delivered_inv in H1 as (t & -> & _ & H1). rewrite Hk in H1.
  eapply at_rows_delivery in H1; [|exact Ha].
  apply bind_Ok_inv in H as (req' & js2 & H2 & H).
  eapply step_request in H2 as ([t' ->] & Ha2 & Hh2); [|exact Hq|exact H1].
  apply bind_Ok_inv in H as (? & js3 & H3 & H). eapply step_event in H3 as [Ha3 Hh3]; [|exact Ha2].
  eapply step_event in H as [Ha4 Hh4]; [|exact Ha3].
  split; [|congruence]. eexists _, _. split_and!; [exact Ha4|done|done|]. by apply end_delivered.
Qed.

Lemma send_delivery_inv nc req del out d r js u js' :
  send_delivery nc req del out js = (Ok u, js') →
  ndel_id del = k → nreq_id req = q → at_rows c0 k d q r (js_st js) →
  ends req del d r (js_st js') ∧
  (js_handed js' = js_handed js ∨ js_handed js' = js_handed js ++ [out]).
Proof.
  unfold send_delivery. intros H Hk Hq Ha.
  apply bind_Ok_inv in H as (del' & js1 & H1 & H). apply or_retry_inv in H1 as [H1 Hh1].
  apply mark_sending_inv in H1 as (t & -> & _ & H1). rewrite Hk in H1.
  eapply at_rows_delivery in H1; [|exact Ha].
  apply bind_Ok_inv in H as (? & js2 & H2 & H). eapply step_event in H2 as [Ha2 Hh2]; [|exact H1].
  apply bind_Ok_inv in H as (answer & js3 & H3 & H). apply attempt_inv in H3.
  apply dispatch_inv in H3 as [E3 Hh3]. rewrite <-E3 in Ha2.
  assert (ends req del d r (js_st js') ∧ js_handed js' = js_handed js3) as [He Hh].
  { destruct answer as [res|e].
    - eapply complete_success_inv in H as [(d' & r' & Hat & Hs & Hr & He) Hh];
        [|exact Hk|exact Hq|exact Ha2]. split; [|done]. exists d', r'. split_and!; [done..|].
      destruct He; [by apply end_cancelled|by apply end_delivered| |];
        [by eapply end_retried|by eapply end_failed].
    - eapply complete_failure_inv in H as [(d' & r' & Hat & Hs & Hr & He) Hh];
        [|exact Hk|exact Hq|exact Ha2]. split; [|done]. exists d', r'. split_and!; [done..|].
      destruct He; [by apply end_cancelled|by apply end_delivered| |];
        [by eapply end_retried|by eapply end_failed]. }
  split; [done|]. destruct Hh3 as [Hh3|[Hh3 _]]; [right|left]; congruence.
Qed.
End ends.

(** ** Queueing a message *)

(** A request and its one delivery are added; apart from them, only events are. *)
Inductive queued (template_key locale : string) (source : NotificationRequestSource)
    (payload : NotificationPayload) (params : NewNotificationDelivery) (db db' : DB) : Prop :=
| queued_intro q r k now events :
    db_notification_requests db !! q = None → db_notification_deliveries db !! k = None →
    RequestRow_template_key r = template_key → RequestRow_locale r = locale →
    RequestRow_source r = source → RequestRow_payload r = payload → RequestRow_status r = "pending" →
    db' = on_notifications (λ n, mkNotifications (<[q := r]> (ntf_requests n))
            (<[k := new_delivery_row now q params]> (ntf_deliveries n)) events (ntf_preferences n)) db →
    queued template_key locale source payload params db db'.

(** The delivery of a message to a destination. *)
Definition delivery_params (channel : NotificationChannel) (destination : NotificationDestination)
    (binding : option string) : NewNotificationDelivery :=
  {| newdel_channel := channel; newdel_destination := destination;
     newdel_provider_binding_key := binding |}.

Section queueing.
Context {UX : UrlExternals} {VX : UrlPartsExternals} {BX : UrlBuildExternals} {DX : DbExternals}
  {LX : LimiterExternals} {XX : AccountExternals} {NX : NotificationExternals}.

Lemma event_inv req del kind summary meta js u js' :
  append_event req del kind summary meta js = (Ok u, js') →
  (∃ f, ran (js_st js) (js_st js') (on_notification_events f)) ∧ js_handed js' = js_handed js.
Proof.
  unfold append_event. intros H. run_inv. apply or_retry_inv in Hm as [Hm Hh].
  by apply append_event_inv in Hm.
Qed.

Lemma enqueue_inv template_key locale source payload destination channel binding js u js' :
  enqueue_notification_request template_key locale source payload destination channel binding js =
    (Ok u, js') →
  queued template_key locale source payload (delivery_params channel destination binding)
    (st_db (js_st js)) (st_db (js_st js')) ∧
  st_committed (js_st js') = st_committed (js_st js) ∧ js_handed js' = js_handed js.
Proof.
  unfold enqueue_notification_request. intros H.
  apply bind_Ok_inv in H as (req & js1 & H1 & H). apply or_retry_inv in H1 as [H1 Hh1].
  apply add_request_inv in H1 as (r & Hq & R1 & R2 & R3 & R4 & R5 & [D1 C1]).
  apply bind_Ok_inv in H as (? & js2 & H2 & H). apply event_inv in H2 as [[f2 [D2 C2]] Hh2].
  apply bind_Ok_inv in H as (del & js3 & H3 & H). apply or_retry_inv in H3 as [H3 Hh3].
  apply add_delivery_inv in H3 as (now & Hk & [D3 C3]).
  apply event_inv in H as [[f4 [D4 C4]] Hh4]. split_and!; [|congruence..].
  rewrite D2, D1 in Hk. apply (queued_intro _ _ _ _ _ _ _ (nreq_id req) r (ndel_id del) now
    (f4 (f2 (db_notification_events (st_db (js_st js)))))); try done.
  rewrite D4, D3, D2, D1. by destruct binding.
Qed.
End queueing.

(** ** Codes and tickets *)

(** A code is stored in place of an equal one of the same authentication. *)
Definition email_code_added (auth : Ulid) (code : string) (now duration : Z) (db db' : DB) : Prop :=
  ∃ id codes, codes ⊆ db_email_codes db ∧ codes !! id = None ∧
    (∀ k r, db_email_codes db !! k = Some r → is_email_code auth code r = false → codes !! k = Some r) ∧
    db' = on_email_codes (λ _, <[id :=
      {| EmailCodeRow_user_email_authentication_id := auth; EmailCodeRow_code := code;
         EmailCodeRow_created_at := now; EmailCodeRow_expires_at := now + duration |}]> codes) db.
Definition phone_code_added (auth : Ulid) (code : string) (now duration : Z) (db db' : DB) : Prop :=
  ∃ id, db_phone_codes db !! id = None ∧
    db' = on_phone_codes (<[id :=
      {| PhoneCodeRow_user_phone_authentication_id := auth; PhoneCodeRow_code := code;
         PhoneCodeRow_created_at := now; PhoneCodeRow_expires_at := now + duration |}]>) db.
Definition ticket_added (session email : Ulid) (ticket : string) (now : DateTime) (db db' : DB) : Prop :=
  ∃ id, db_recovery_tickets db !! id = None ∧
    db' = on_recovery_tickets (<[id :=
      {| RecoveryTicketRow_user_recovery_session_id := session; RecoveryTicketRow_user_email_id := email;
         RecoveryTicketRow_ticket := ticket; RecoveryTicketRow_created_at := now;
         RecoveryTicketRow_expires_at := now + TICKET_LIFETIME |}]>) db.

Lemma add_email_code_inv duration auth code st c st' :
  user_email_add_authentication_code duration auth code st = (Ok c, st') →
  EmailCode_code c = code ∧ st_committed st' = st_committed st ∧
  email_code_added (UserEmailAuthentication_id auth) code (st_clock st 0%nat) duration (st_db st) (st_db st').
Proof.
  unfold user_email_add_authentication_code. intros H. account_inv. same_norm.
  apply new_row_violation_None in Hv as [Hv _]. match goal with H : ran _ _ _ |- _ => destruct H as [HD HC] end.
  split_and!; [done|done|]. eexists _, _. split_and!; [|exact Hv| |rewrite HD; reflexivity].
  - apply map_filter_subseteq.
  - intros k r Hk Hno. apply map_lookup_filter_Some. split; [done|].
    destruct (find_first _ _) as [[old r']|] eqn:Hf; [|set_solver].
    apply find_first_Some in Hf as [Hf Hp]. intros ->%elem_of_singleton. simplify_eq. congruence.
Qed.
Lemma add_phone_code_inv duration auth code st c st' :
  user_phone_add_authentication_code duration auth code st = (Ok c, st') →
  PhoneCode_code c = code ∧ st_committed st' = st_committed st ∧
  phone_code_added (UserPhoneAuthentication_id auth) code (st_clock st 0%nat) duration (st_db st) (st_db st').
Proof.
  unfold user_phone_add_authentication_code. intros H. account_inv. same_norm.
  apply new_row_violation_None in Hv as [Hv _]. match goal with H : ran _ _ _ |- _ => destruct H as [HD HC] end.
  split_and!; [done|done|]. eexists. split; [exact Hv|exact HD].
Qed.
Lemma add_ticket_inv session email ticket st t st' :
  user_recovery_add_ticket session email ticket st = (Ok t, st') →
  RecoveryTicket_ticket t = ticket ∧ st_committed st' = st_committed st ∧
  ticket_added (RecoverySession_id session) (UserEmail_id email) ticket (st_clock st 0%nat)
    (st_db st) (st_db st').
Proof.
  unfold user_recovery_add_ticket. intros H. account_inv. same_norm.
  apply new_row_violation_None in Hv as [Hv _]. match goal with H : ran _ _ _ |- _ => destruct H as [HD HC] end.
  split_and!; [done|done|]. eexists. split; [exact Hv|exact HD].
Qed.

(** ** The jobs that queue messages *)

Definition job_queued (name : string) (payload : JobPayload) (db db' : DB) : Prop :=
  ∃ id row, QueueJobRow_queue_name row = name ∧ QueueJobRow_payload row = payload ∧
    db_jobs db !! id = None ∧ db' = on_jobs <[id := row]> db.
Definition processing_queued : DB → DB → Prop :=
  job_queued PROCESS_DELIVERIES_QUEUE_NAME process_deliveries_payload.

(** What the job of a verification commits: nothing for an authentication that is completed; else
    the code, and, unless the codes are fixed, one message to the address with the job that
    delivers it. *)
Inductive email_code_sent (nc : NotificationCenter) (id : Ulid) (code : string) (now : DateTime)
    (c0 c1 : DB) : Prop :=
| email_code_late row :
    db_email_authentications c0 !! id = Some row → is_Some (EmailAuthRow_completed_at row) →
    c1 = c0 → email_code_sent nc id code now c0 c1
| email_code_fixed row :
    db_email_authentications c0 !! id = Some row → EmailAuthRow_completed_at row = None →
    nc_fixed_verification_code nc = Some code →
    email_code_added id code now (MINUTES 5) c0 c1 → email_code_sent nc id code now c0 c1
| email_code_queued row db1 db2 :
    db_email_authentications c0 !! id = Some row → EmailAuthRow_completed_at row = None →
    nc_fixed_verification_code nc = None →
    email_code_added id code now (MINUTES 5) c0 db1 →
    queued TEMPLATE_EMAIL_VERIFICATION EMAIL_VERIFICATION_LANGUAGE (Source_UserEmailAuthentication id)
      (Payload_Verification code EMAIL_VERIFICATION_LANGUAGE)
      (delivery_params Channel_Email (Destination_Email (EmailAuthRow_email row)) (nc_email nc)) db1 db2 →
    processing_queued db2 c1 → email_code_sent nc id code now c0 c1.

Inductive sms_code_sent (nc : NotificationCenter) (id : Ulid) (language code : string) (now : DateTime)
    (c0 c1 : DB) : Prop :=
| sms_code_late row :
    db_phone_authentications c0 !! id = Some row → is_Some (PhoneAuthRow_completed_at row) →
    c1 = c0 → sms_code_sent nc id language code now c0 c1
| sms_code_fixed row :
    db_phone_authentications c0 !! id = Some row → PhoneAuthRow_completed_at row = None →
    nc_fixed_verification_code nc = Some code →
    phone_code_added id code now (MINUTES 5) c0 c1 → sms_code_sent nc id language code now c0 c1
| sms_code_queued row db1 db2 :
    db_phone_authentications c0 !! id = Some row → PhoneAuthRow_completed_at row = None →
    nc_fixed_verification_code nc = None →
    phone_code_added id code now (MINUTES 5) c0 db1 →
    queued TEMPLATE_SMS_VERIFICATION language (Source_UserPhoneAuthentication id)
      (Payload_Verification code language)
      (delivery_params Channel_Sms (Destination_Sms (PhoneAuthRow_phone row)) (nc_sms nc)) db1 db2 →
    processing_queued db2 c1 → sms_code_sent nc id language code now c0 c1.

Section sending.
Context {UX : UrlExternals} {VX : UrlPartsExternals} {BX : UrlBuildExternals} {DX : DbExternals}
  {LX : LimiterExternals} {XX : AccountExternals} {NX : NotificationExternals}.

Lemma schedule_processing_inv js u js' :
  schedule_processing_job js = (Ok u, js') →
  processing_queued (st_db (js_st js)) (st_db (js_st js')) ∧
  st_committed (js_st js') = st_committed (js_st js) ∧ js_handed js' = js_handed js.
Proof.
  unfold schedule_processing_job. intros [H Hh]%or_retry_inv.
  apply queue_schedule_inv in H as (id & row & ? & ? & ? & [HD HC]).
  split_and!; [|done..]. exists id, row. done.
Qed.

(** The tail of a job that sends a code. *)
Lemma queue_and_save_inv template_key locale source payload destination channel binding js u js' :
  (_ ← enqueue_notification_request template_key locale source payload destination channel binding;
   _ ← schedule_processing_job; job_save) js = (Ok u, js') →
  ∃ db2, queued template_key locale source payload (delivery_params channel destination binding)
           (st_db (js_st js)) db2 ∧
    processing_queued db2 (st_committed (js_st js')) ∧ js_handed js' = js_handed js.
Proof.
  intros H. apply bind_Ok_inv in H as (? & js1 & H1 & H). apply enqueue_inv in H1 as (Hq & _ & Hh1).
  apply bind_Ok_inv in H as (? & js2 & H2 & H). apply schedule_processing_inv in H2 as (Hp & _ & Hh2).
  injection H as _ <-. exists (st_db (js_st js1)). split_and!; [done|done|]. simpl. congruence.
Qed.

Lemma send_email_code_inv nc id language js u js' :
  send_email_authentication_code nc id language js = (Ok u, js') →
  email_code_sent nc id (verification_code nc (st_rng (js_st js))).1 (st_clock (js_st js) 0%nat)
    (st_committed (js_st js)) (st_committed (js_st js')) ∧ js_handed js' = js_handed js.
Proof.
  unfold send_email_authentication_code. intros H.
  apply bind_Ok_inv in H as (? & js1 & H1 & H). injection H1 as _ <-.
  apply bind_Ok_inv in H as (found & js2 & H2 & H). apply or_retry_inv in H2 as [H2 Hh2].
  apply email_lookup_authentication_inv in H2 as [E2 ->]. simpl in Hh2, H.
  apply bind_Ok_inv in H as (auth & js3 & H3 & H). apply ok_or_Ok_inv in H3 as [H3 ->].
  apply fmap_Some in H3 as (row & Hrow & ->). simpl in H.
  destruct (bool_decide_reflect (is_Some (EmailAuthRow_completed_at row))) as [Hc|Hc].
  { injection H as _ <-. split; [|done]. eapply email_code_late; try done. simpl. by rewrite E2. }
  apply eq_None_not_Some in Hc.
  apply bind_Ok_inv in H as (code & js4 & H4 & H). injection H4 as H4 <-.
  rewrite E2 in H4. simpl in H4.
  apply bind_Ok_inv in H as (c & js5 & H5 & H). apply or_retry_inv in H5 as [H5 Hh5].
  apply add_email_code_inv in H5 as (Hcode & HC & Hs). simpl in Hs, HC, Hh5. rewrite E2 in Hs. simpl in Hs.
  rewrite H4. destruct (nc_fixed_verification_code nc) as [fixed|] eqn:Hf; simpl in H.
  - injection H as _ <-. split; [|simpl; congruence]. eapply email_code_fixed; try done.
    rewrite Hf. f_equal. rewrite <-H4. unfold verification_code. by rewrite Hf.
  - apply queue_and_save_inv in H as (db2 & Hq & Hp & Hh). split; [|congruence].
    rewrite Hcode in Hq. by eapply email_code_queued.
Qed.

Lemma send_sms_code_inv nc id language js u js' :
  send_sms_authentication_code nc id language js = (Ok u, js') →
  sms_code_sent nc id language (verification_code nc (st_rng (js_st js))).1 (st_clock (js_st js) 0%nat)
    (st_committed (js_st js)) (st_committed (js_st js')) ∧ js_handed js' = js_handed js.
Proof.
  unfold send_sms_authentication_code. intros H.
  apply bind_Ok_inv in H as (? & js1 & H1 & H). injection H1 as _ <-.
  apply bind_Ok_inv in H as (found & js2 & H2 & H). apply or_retry_inv in H2 as [H2 Hh2].
  apply phone_lookup_authentication_inv in H2 as [E2 ->]. simpl in Hh2, H.
  apply bind_Ok_inv in H as (auth & js3 & H3 & H). apply ok_or_Ok_inv in H3 as [H3 ->].
  apply fmap_Some in H3 as (row & Hrow & ->). simpl in H.
  destruct (bool_decide_reflect (is_Some (PhoneAuthRow_completed_at row))) as [Hc|Hc].
  { injection H as _ <-. split; [|done]. eapply sms_code_late; try done. simpl. by rewrite E2. }
  apply eq_None_not_Some in Hc.
  apply bind_Ok_inv in H as (code & js4 & H4 & H). injection H4 as H4 <-.
  rewrite E2 in H4. simpl in H4.
  apply bind_Ok_inv in H as (c & js5 & H5 & H). apply or_retry_inv in H5 as [H5 Hh5].
  apply add_phone_code_inv in H5 as (Hcode & HC & Hs). simpl in Hs, HC, Hh5. rewrite E2 in Hs. simpl in Hs.
  rewrite H4. destruct (nc_fixed_verification_code nc) as [fixed|] eqn:Hf; simpl in H.
  - injection H as _ <-. split; [|simpl; congruence]. eapply sms_code_fixed; try done.
    rewrite Hf. f_equal. rewrite <-H4. unfold verification_code. by rewrite Hf.
  - apply queue_and_save_inv in H as (db2 & Hq & Hp & Hh). split; [|congruence].
    rewrite Hcode in Hq. by eapply sms_code_queued.
Qed.
End sending.
