(* ===== verification/ClientAuthProofs.v ===== *)
(** What client authentication guarantees: the credentials a request presents,
    and when the verification accepts them. [authenticated_by] is the
    specification of [Credentials::verify], one rule per authentication method;
    the endpoints' theorems are stated with it. *)
From S2P Require Import Prelude Ids TokenFormat Scope Pkce Jose Keystore JoseProofs Domain Database Repository Handlers ClientAuth TokenService World RepositorySpec.

Open Scope Z_scope.

(** ** Claims *)

(** A claim is there, decodes, and satisfies a condition. *)
Definition claim_holds {T} (claims : gmap string Json) (claim : Claim T) (Q : T → Prop) : Prop :=
  ∃ raw v, claims !! claim_key claim = Some raw ∧ claim_decode claim raw = Some v ∧ Q v.

Lemma required_bind {T B E} (claim : Claim T) validate claims (f : ClaimError → E)
    (k : T → gmap string Json → result B E) b :
  (let '(r, claims') := extract_required_with_options claim validate claims in
   result_bind (result_map_err f r) (λ v, k v claims')) = Ok b ↔
  ∃ raw v, claims !! claim_key claim = Some raw ∧ claim_decode claim raw = Some v ∧
    validate v = true ∧ k v (delete (claim_key claim) claims) = Ok b.
Proof.
  unfold extract_required_with_options, decode_and_validate.
  destruct (claims !! claim_key claim) as [raw|] eqn:Hl; simpl.
  2:{ split; [done|]. by intros (? & ? & ? & _). }
  destruct (claim_decode claim raw) as [v|] eqn:Hd; simpl.
  2:{ split; [done|]. intros (? & ? & [= <-] & ? & _). congruence. }
  destruct (validate v) eqn:Hv; simpl; (split; [|intros (? & ? & [= <-] & ? & ? & ?); congruence]);
    [eauto 10|done].
Qed.

Lemma optional_bind {T B E} (claim : Claim T) validate claims (f : ClaimError → E)
    (k : gmap string Json → result B E) b :
  (let '(r, claims') := extract_optional_with_options claim validate claims in
   result_bind (result_map_err f r) (λ _, k claims')) = Ok b ↔
  (claims !! claim_key claim = None ∧ k claims = Ok b) ∨
  (claim_holds claims claim (λ v, validate v = true) ∧ k (delete (claim_key claim) claims) = Ok b).
Proof.
  unfold extract_optional_with_options, decode_and_validate, claim_holds.
  destruct (claims !! claim_key claim) as [raw|] eqn:Hl; simpl.
  2:{ split; [eauto|]. by intros [[_ ?]|[(? & ? & ? & _) _]]. }
  destruct (claim_decode claim raw) as [v|] eqn:Hd; simpl.
  2:{ split; [done|]. intros [[? _]|[(? & ? & [= <-] & ? & _) _]]; congruence. }
  destruct (validate v) eqn:Hv; simpl;
    (split; [|intros [[? _]|[(? & ? & [= <-] & ? & ?) ?]]; congruence]); [eauto 10|done].
Qed.

Lemma audience_loop_ok claims accepted e :
  audience_loop claims accepted e = Ok tt ↔
  ∃ a, a ∈ accepted ∧ claim_holds claims AUD (λ v, a ∈ v).
Proof.
  revert e. induction accepted as [|a accepted IH]; intros e; simpl.
  - split; [done|]. intros (a & Ha & _). by apply not_elem_of_nil in Ha.
  - setoid_rewrite elem_of_cons. unfold claim_holds in *.
    unfold extract_required_with_options, decode_and_validate, Contains.
    destruct (claims !! claim_key AUD) as [raw|] eqn:Hl; simpl.
    2:{ rewrite IH. naive_solver. }
    destruct (claim_decode AUD raw) as [v|] eqn:Hd; simpl in Hd; rewrite Hd; simpl.
    2:{ rewrite IH. naive_solver. }
    case_bool_decide; [|rewrite IH]; naive_solver.
Qed.

Lemma claim_holds_weaken {T} claims (claim : Claim T) (Q R : T → Prop) :
  (∀ v, Q v → R v) → claim_holds claims claim Q → claim_holds claims claim R.
Proof. unfold claim_holds. naive_solver. Qed.

Lemma claim_holds_delete {T} claims (claim : Claim T) (Q : T → Prop) key :
  key ≠ claim_key claim → claim_holds (delete key claims) claim Q ↔ claim_holds claims claim Q.
Proof. intros Hk. unfold claim_holds. by rewrite lookup_delete_ne. Qed.

Lemma audience_ok claims endpoint issuer :
  validate_client_assertion_audience claims endpoint issuer = Ok tt ↔
  claim_holds claims AUD (λ v, endpoint ∈ v ∨ issuer ∈ v).
Proof.
  unfold validate_client_assertion_audience. rewrite audience_loop_ok. split.
  - intros (a & Ha & H). revert H. apply claim_holds_weaken. set_solver.
  - intros (raw & v & Hl & Hd & [Hv|Hv]); [exists endpoint|exists issuer];
      (split; [set_solver|by exists raw, v]).
Qed.

Lemma optional_claim claims (claim : Claim DateTime) now :
  claim_holds claims claim (λ v, TimeNotBefore (TimeOptions_new now) v = true) ↔
  claim_holds claims claim (λ v, v ≤ now + DEFAULT_LEEWAY).
Proof.
  split; apply claim_holds_weaken; unfold TimeNotBefore; simpl; intros v; rewrite Z.leb_le; lia.
Qed.

(** ** The specification *)

Section specification.
Context {UX : UrlExternals} {DX : DbExternals} {HX : HandlerExternals} {AX : ClientAuthExternals}.

(** The claims of an assertion (RFC 7523, section 3): the client is issuer and
    subject, the server is the audience, the assertion has not expired, expires
    soon, and is not from the future. Clocks may differ by the leeway. *)
Record assertion_valid (claims : gmap string Json) (client_id : string) (now : DateTime) : Prop := {
  av_iss : claim_holds claims ISS (λ v, v = client_id);
  av_sub : claim_holds claims SUB (λ v, v = client_id);
  av_aud : claim_holds claims AUD (λ v, oauth_token_endpoint ∈ v ∨ oidc_issuer ∈ v);
  av_exp : claim_holds claims EXP
             (λ v, now - DEFAULT_LEEWAY ≤ v ∧ v ≤ now + max_client_assertion_lifetime);
  av_nbf : claims !! "nbf" = None ∨ claim_holds claims NBF (λ v, v ≤ now + DEFAULT_LEEWAY);
  av_iat : claims !! "iat" = None ∨ claim_holds claims IAT (λ v, v ≤ now + DEFAULT_LEEWAY);
}.

(** The algorithm the client registered, if any. *)
Definition alg_registered (client : Client) (jwt : Jwt) : Prop :=
  ∀ alg, Client_token_endpoint_auth_signing_alg client = Some alg → header_alg (Jwt_header jwt) = alg.

(** The secret of a client, in clear. *)
Definition has_secret (client : Client) (secret : list Z) : Prop :=
  ∃ encrypted, Client_encrypted_client_secret client = Some encrypted ∧
    decrypt_string encrypted = Some secret.

Inductive authenticated_by (client : Client) (now : DateTime) : Credentials → Prop :=
| by_public id :
    Client_token_endpoint_auth_method client = Some Auth_None →
    authenticated_by client now (Credentials_None id)
| by_secret_post id secret :
    Client_token_endpoint_auth_method client = Some Auth_ClientSecretPost →
    has_secret client (as_bytes secret) →
    authenticated_by client now (Credentials_ClientSecretPost id secret)
| by_secret_basic id secret :
    Client_token_endpoint_auth_method client = Some Auth_ClientSecretBasic →
    has_secret client (as_bytes secret) →
    authenticated_by client now (Credentials_ClientSecretBasic id secret)
| by_private_key id jwt jwks keys k :
    Client_token_endpoint_auth_method client = Some Auth_PrivateKeyJwt →
    alg_registered client jwt →
    Client_jwks client = Some jwks → fetch_jwks jwks = Some keys →
    k ∈ keys → header_admits (Jwt_header jwt) k → key_verifies jwt k = true →
    assertion_valid (Jwt_payload jwt) (Client_client_id client) now →
    authenticated_by client now (Credentials_ClientAssertionJwtBearer id jwt)
| by_secret_jwt id jwt secret :
    Client_token_endpoint_auth_method client = Some Auth_ClientSecretJwt →
    alg_registered client jwt →
    has_secret client secret →
    symmetric_alg (header_alg (Jwt_header jwt)) = true →
    hmac_verify (header_alg (Jwt_header jwt)) secret (RawJwt_signed_part (Jwt_raw jwt))
      (Jwt_signature jwt) = true →
    assertion_valid (Jwt_payload jwt) (Client_client_id client) now →
    authenticated_by client now (Credentials_ClientAssertionJwtBearer id jwt).

Lemma validate_claims_ok jwt client_id now :
  validate_client_assertion_claims jwt client_id oauth_token_endpoint oidc_issuer now = Ok tt ↔
  assertion_valid (Jwt_payload jwt) client_id now.
Proof.
  unfold validate_client_assertion_claims, extract_required, TimeNotAfter, Equality.
  split.
  - intros (r1 & iss & Hl1 & Hd1 & Hv1%bool_decide_eq_true & H)%required_bind.
    apply required_bind in H as (r2 & sub & Hl2 & Hd2 & _ & H). case_bool_decide as Hs; [done|].
    subst sub iss.
    destruct (validate_client_assertion_audience _ _ _) as [[]|] eqn:Ha; [|done].
    simpl in H. apply required_bind in H as (r3 & exp & Hl3 & Hd3 & Hv3%Z.leb_le & H).
    destruct (Z.ltb_spec max_client_assertion_lifetime (exp - now)); [done|].
    apply optional_bind in H. setoid_rewrite optional_bind in H.
    rewrite audience_ok in Ha. simpl in *. simplify_map_eq.
    rewrite !optional_claim, !claim_holds_delete in H by done.
    rewrite !claim_holds_delete in Ha by done.
    split; try done.
    + by exists r1, client_id.
    + by exists r2, client_id.
    + exists r3, exp. split_and!; try done; lia.
    + naive_solver.
    + simplify_map_eq. naive_solver.
  - intros [(r1 & iss & Hl1 & Hd1 & ->) (r2 & sub & Hl2 & Hd2 & ->) Haud (r3 & exp & Hl3 & Hd3 & Hexp) Hnbf Hiat].
    apply required_bind. exists r1, client_id. split_and!; [done|done|by apply bool_decide_eq_true|].
    apply required_bind. exists r2, client_id. simpl in *.
    split_and!; [by simplify_map_eq|done|done|]. rewrite bool_decide_eq_false_2 by naive_solver.
    destruct (validate_client_assertion_audience _ _ _) as [[]|e] eqn:Ha.
    2:{ assert (Ha' : Err e = Ok tt); [|done]. rewrite <-Ha. apply audience_ok.
        by rewrite !claim_holds_delete by done. }
    simpl. apply required_bind. exists r3, exp. simpl.
    split_and!; [by simplify_map_eq|done|apply Z.leb_le; simpl; lia|].
    destruct (Z.ltb_spec max_client_assertion_lifetime (exp - now)); [lia|].
    apply optional_bind. setoid_rewrite optional_bind.
    rewrite !optional_claim, !claim_holds_delete by done. simpl. simplify_map_eq. naive_solver.
Qed.

Lemma client_secret_ok client secret : client_secret client = Ok secret ↔ has_secret client secret.
Proof.
  unfold client_secret, has_secret. destruct (Client_encrypted_client_secret client) as [e|]; simpl.
  2:{ split; [done|]. by intros (? & ? & _). }
  destruct (decrypt_string e) as [s|] eqn:Hs; simpl.
  - split; [intros [= ->]; eauto|]. intros (e' & [= <-] & H). congruence.
  - split; [done|]. intros (e' & [= <-] & H). congruence.
Qed.

Lemma verify_client_secret_ok client presented :
  verify_client_secret client presented = Ok tt ↔ has_secret client (as_bytes presented).
Proof.
  rewrite <-client_secret_ok. unfold verify_client_secret.
  destruct (client_secret client) as [s|]; simpl; [|done]. case_bool_decide; split; congruence.
Qed.

Lemma validate_alg_ok client jwt :
  validate_client_assertion_alg jwt (Client_token_endpoint_auth_signing_alg client) = Ok tt ↔
  alg_registered client jwt.
Proof.
  unfold validate_client_assertion_alg, alg_registered.
  destruct (Client_token_endpoint_auth_signing_alg client) as [alg|]; [|done].
  case_bool_decide; split; try done; intros H'; [|by intros ? [= <-]].
  by destruct H; apply H'.
Qed.

(** A step that must succeed before the next. *)
Lemma result_then_ok {E} (r r' : result () E) :
  result_bind r (λ _, r') = Ok tt ↔ r = Ok tt ∧ r' = Ok tt.
Proof. destruct r as [[]|]; simpl; [|split; [done|by intros [? _]]]. split; [done|by intros [_ ?]]. Qed.

Lemma verify_private_key_jwt_ok client jwt now :
  verify_private_key_jwt client jwt now = Ok tt ↔
  alg_registered client jwt ∧
  (∃ jwks keys k, Client_jwks client = Some jwks ∧ fetch_jwks jwks = Some keys ∧ k ∈ keys ∧
     header_admits (Jwt_header jwt) k ∧ key_verifies jwt k = true) ∧
  assertion_valid (Jwt_payload jwt) (Client_client_id client) now.
Proof.
  unfold verify_private_key_jwt. rewrite result_then_ok, validate_alg_ok, <-validate_claims_ok. f_equiv.
  destruct (Client_jwks client) as [jwks|]; simpl; [|split; [done|by intros [(? & ? & ? & ? & _) _]]].
  destruct (fetch_jwks jwks) as [keys|] eqn:Hf; simpl;
    [|split; [done|intros [(? & ? & ? & [= <-] & ? & _) _]; congruence]].
  destruct (verify_with_jwks jwt keys) eqn:Hv; simpl.
  - apply verify_with_jwks_true in Hv as (k & Hk & Ha & Hv). split; [|by intros [_ ?]].
    intros H. split; [by exists jwks, keys, k|done].
  - split; [done|]. intros [(? & ? & k & [= <-] & Hf' & Hk & Ha & Hk') _].
    rewrite Hf in Hf'. injection Hf' as <-.
    by rewrite (proj2 (verify_with_jwks_true jwt keys)) in Hv by eauto.
Qed.

Lemma verify_client_secret_jwt_ok client jwt now :
  verify_client_secret_jwt client jwt now = Ok tt ↔
  alg_registered client jwt ∧
  (∃ secret, has_secret client secret ∧ verify_with_shared_secret jwt secret = true) ∧
  assertion_valid (Jwt_payload jwt) (Client_client_id client) now.
Proof.
  unfold verify_client_secret_jwt. rewrite result_then_ok, validate_alg_ok, <-validate_claims_ok. f_equiv.
  destruct (client_secret client) as [secret|] eqn:Hs; simpl.
  - destruct (verify_with_shared_secret jwt secret) eqn:Hv; simpl.
    + split; [|by intros [_ ?]]. intros H. split; [|done]. exists secret. by rewrite <-client_secret_ok.
    + split; [done|]. intros [(s & Hs'%client_secret_ok & Hv') _]. congruence.
  - split; [done|]. intros [(s & Hs'%client_secret_ok & _) _]. congruence.
Qed.

Lemma credentials_verify_ok cr client now :
  (∃ method, Client_token_endpoint_auth_method client = Some method ∧
     credentials_verify cr method client now = Ok tt) ↔
  authenticated_by client now cr.
Proof.
  split.
  - intros (method & Hm & H). destruct cr, method; simpl in H; try done.
    + by constructor.
    + apply verify_client_secret_ok in H. by constructor.
    + apply verify_client_secret_ok in H. by constructor.
    + apply verify_client_secret_jwt_ok in H as (Ha & (s & Hs & [? ?]%andb_true_iff) & Hv).
      by eapply by_secret_jwt.
    + apply verify_private_key_jwt_ok in H as (Ha & (j & ks & k & ? & ? & ? & ? & ?) & Hv).
      by eapply by_private_key.
  - intros [id Hm|id s Hm Hs|id s Hm Hs|id j ks keys k Hm Ha Hj Hf Hk Hh Hv Hc|id j s Hm Ha Hs Hy Hv Hc];
      eexists; (split; [exact Hm|]); simpl; [done|by apply verify_client_secret_ok..| |].
    + apply verify_private_key_jwt_ok. split_and!; [done| |done]. by exists ks, keys, k.
    + apply verify_client_secret_jwt_ok. split_and!; [done| |done]. exists s. split; [done|].
      unfold verify_with_shared_secret. by rewrite Hy, Hv.
Qed.

(** *** The client of a request *)

(** The registered client some credentials name. *)
Definition client_of (db : DB) (cr : Credentials) : option Client :=
  text ← Credentials_client_id cr; id ← ulid_from_string text; client_at db id.

Lemma credentials_fetch_inv cr st o st' :
  credentials_fetch cr st = (Ok o, st') → st' = st ∧ o = client_of (st_db st) cr.
Proof.
  unfold credentials_fetch, client_of. destruct (Credentials_client_id cr) as [id|]; simpl.
  - apply find_by_client_id_inv.
  - by intros [= <- <-].
Qed.
Lemma credentials_fetch_st cr st r st' : credentials_fetch cr st = (r, st') → st' = st.
Proof.
  unfold credentials_fetch. destruct (Credentials_client_id cr); [apply find_by_client_id_st|].
  by intros [= _ <-].
Qed.

Lemma check_credentials_st {E} (a b c : E) cr client st r st' :
  check_credentials a b c cr client st = (r, st') → same st st'.
Proof. apply same_keeps; unfold check_credentials; solve_keeps. Qed.

Lemma check_credentials_inv {E} (a b c : E) cr client st st' :
  check_credentials a b c cr client st = (Ok tt, st') →
  authenticated_by client (st_clock st 0%nat) cr ∧ same st st'.
Proof.
  intros H. split; [|by eapply check_credentials_st]. apply credentials_verify_ok.
  unfold check_credentials in H. repo_inv. simplify_eq. eauto.
Qed.
End specification.

(** ** Credentials of a request *)

Section extraction.
Context {UX : UrlExternals} {DX : DbExternals} {HX : HandlerExternals} {AX : ClientAuthExternals}.

(** A request may repeat its client identifier in the form, not contradict it. *)
Definition repeats (from_form : option string) (id : string) : Prop :=
  from_form = None ∨ from_form = Some id.

(** The five ways to present credentials, each alone: the header, then the
    client identifier, secret, assertion type and assertion of the form. *)
Inductive presents : option Authorization → option string → option string → option string →
    option string → Credentials → Prop :=
| presents_basic id secret from_form :
    repeats from_form id →
    presents (Some (Authorization_Basic id secret)) from_form None None None
      (Credentials_ClientSecretBasic id secret)
| presents_post id secret :
    presents None (Some id) (Some secret) None None (Credentials_ClientSecretPost id secret)
| presents_public id : presents None (Some id) None None None (Credentials_None id)
| presents_assertion id from_form text jwt :
    Jwt_try_from text = Ok jwt → Jwt_payload jwt !! "sub" = Some (Json_String id) →
    repeats from_form id →
    presents None from_form None (Some JWT_BEARER_CLIENT_ASSERTION) (Some text)
      (Credentials_ClientAssertionJwtBearer id jwt)
| presents_bearer token :
    presents (Some (Authorization_Bearer token)) None None None None (Credentials_BearerToken token).

Lemma check_form_client_id_ok id from_form :
  check_form_client_id id from_form = Ok tt ↔ repeats from_form id.
Proof.
  unfold check_form_client_id, repeats. destruct from_form as [f|]; [|naive_solver].
  case_bool_decide; naive_solver.
Qed.

Lemma extract_assertion_ok from_form text cr :
  extract_assertion from_form text = Ok cr ↔
  presents None from_form None (Some JWT_BEARER_CLIENT_ASSERTION) (Some text) cr.
Proof.
  unfold extract_assertion. split.
  - destruct (Jwt_try_from text) as [jwt|] eqn:Hj; [|done].
    destruct (Jwt_payload jwt !! "sub") as [[]|] eqn:Hs; try done.
    destruct (check_form_client_id s from_form) as [[]|] eqn:Hc; [|done]. intros [= <-].
    apply check_form_client_id_ok in Hc. by constructor.
  - inversion 1 as [| | |id f t jwt Hj Hs Hr|]; subst. rewrite Hj, Hs.
    apply check_form_client_id_ok in Hr. by rewrite Hr.
Qed.

Lemma extract_credentials_ok authz id secret ty assertion cr :
  extract_credentials authz id secret ty assertion = Ok cr ↔ presents authz id secret ty assertion cr.
Proof.
  split.
  - unfold extract_credentials.
    destruct authz as [[i s|tok]|], id as [id|], secret as [sec|], ty as [ty|], assertion as [a|];
      try done; try (intros [= <-]; by constructor).
    1,2: destruct (check_form_client_id i _) as [[]|] eqn:Hc; [|done]; intros [= <-];
      apply check_form_client_id_ok in Hc; by constructor.
    all: case_bool_decide as Ht; [subst|done]; apply extract_assertion_ok.
  - inversion 1 as [i sec f Hr|i sec|i|i f text jwt Hj Hs Hr|tok]; subst; try done.
    + apply check_form_client_id_ok in Hr. simpl. by rewrite Hr.
    + apply extract_assertion_ok in H. by destruct id.
Qed.

(** A request is understood exactly if its header parses and it presents
    credentials in one of the five ways and no other at once: HTTP basic, a
    secret in the form, a bare client identifier, a JWT assertion whose subject
    is the client, or a bearer token; an identifier repeated in the form is the
    same one. The rest of a form is handed on when the body is one. *)
Theorem credentials_extraction_correct {F} (req : ClientRequest F) cr form :
  extract_from_request req =
    Ok {| authorization_credentials := cr; authorization_form := form |} ↔
  ∃ authz, parse_authorization (req_authorization req) = Ok authz ∧
    if starts_with "application/x-www-form-urlencoded" (default EmptyString (req_content_type req))
    then ∃ f, req_parse_form req = Ok f ∧ form = Some (form_inner f) ∧
           presents authz (form_client_id f) (form_client_secret f) (form_client_assertion_type f)
             (form_client_assertion f) cr
    else form = None ∧ presents authz None None None None cr.
Proof.
  unfold extract_from_request.
  destruct (parse_authorization (req_authorization req)) as [authz|] eqn:Ha; simpl.
  2:{ split; [done|]. by intros (? & ? & _). }
  destruct (starts_with _ _).
  - destruct (req_parse_form req) as [f|] eqn:Hf.
    2:{ split; [done|]. by intros (? & _ & ? & ? & _). }
    split.
    + destruct (extract_credentials _ _ _ _ _) as [c|] eqn:Hc; [|done]. intros [= -> <-].
      apply extract_credentials_ok in Hc. eauto 10.
    + intros (authz' & [= <-] & f' & [= <-] & -> & Hp%extract_credentials_ok). by rewrite Hp.
  - split.
    + destruct (extract_credentials _ _ _ _ _) as [c|] eqn:Hc; [|done]. intros [= -> <-].
      apply extract_credentials_ok in Hc. eauto.
    + intros (authz' & [= <-] & -> & Hp%extract_credentials_ok). by rewrite Hp.
Qed.

(** C6. The authentication of a client succeeds exactly if the credentials are
    those of the method the client registered: none for a public client; its
    secret, for HTTP basic or the form as registered; an assertion of the
    registered algorithm, signed by a key of its key set or with its secret by an
    HMAC, that names it as issuer and subject and this server as audience, is
    not expired, expires within five minutes and does not start later. In every
    case the databases are left alone. *)
Theorem client_authentication_correct {E} (not_allowed invalid internal : E) cr client st :
  ((check_credentials not_allowed invalid internal cr client st).1 = Ok tt ↔
   authenticated_by client (st_clock st 0%nat) cr) ∧
  (Client_token_endpoint_auth_method client = None →
   (check_credentials not_allowed invalid internal cr client st).1 = Err not_allowed) ∧
  same st (check_credentials not_allowed invalid internal cr client st).2.
Proof.
  destruct (check_credentials not_allowed invalid internal cr client st) as [r st'] eqn:Hc.
  split_and!; [split| |by eapply check_credentials_st]; simpl.
  - intros ->. by eapply check_credentials_inv.
  - intros (method & Hm & Hv)%credentials_verify_ok. revert Hc. unfold check_credentials.
    rewrite Hm. unfold mbind, M_bind, ok_or, mret, M_ret, clock_now, of_result. simpl.
    rewrite Hv. by intros [= <- _].
  - intros Hm. revert Hc. unfold check_credentials. rewrite Hm. by intros [= <- _].
Qed.

(** The extraction blames the request: a bad request or a client mismatch. *)
Lemma extract_error_client {F} (req : ClientRequest F) e :
  extract_from_request req = Err e →
  ClientAuthorizationError_render e = (400, InvalidRequest) ∨
  ClientAuthorizationError_render e = (400, InvalidGrant).
Proof.
  unfold extract_from_request, parse_authorization, extract_credentials, extract_assertion,
    check_form_client_id, result_bind.
  intros H. repeat (case_match; simplify_eq/=; try by eauto).
Qed.
End extraction.

#[local] Existing Instances World.UX World.DX World.HX World.AX.

Lemma client_authentication_correct_witness :
  (authenticated_by World.signing_app World.NOW
     (Credentials_ClientAssertionJwtBearer "101"
        {| Jwt_raw := {| raw_inner := "hs256.claims.sesame"; raw_first_dot := 5; raw_second_dot := 12 |};
           Jwt_header := {| header_alg := Hs256; header_kid := None |};
           Jwt_payload := World.assertion_claims;
           Jwt_signature := as_bytes "sesame" |})) ∧
  (check_credentials tt tt tt (Credentials_ClientSecretBasic "102" "hunter3") World.secret_app
     World.st).1 = Err tt.
Proof.
  split; [|by vm_compute].
  apply (client_authentication_correct tt tt tt _ World.signing_app World.st). by vm_compute.
Defined.
