(* ===== verification/IdTokenProofs.v ===== *)
(** ID tokens: what [generate_id_token] gives out is decoded by the decoder of
    signed tokens, verified by the published keys, and says who was
    authenticated, for whom, by whom and for how long. *)
From S2P Require Import Prelude Ids TokenFormat Scope Pkce Jose Keystore JoseProofs Domain Database Repository Handlers ClientAuth TokenService World RepositorySpec.

Open Scope Z_scope.

Section id_tokens.
Context {HX : HandlerExternals}.

(** The claims of an ID token (OpenID Connect Core, section 2). *)
Record id_token_says (claims : gmap string Json) (alg : JsonWebSignatureAlg) (now : DateTime)
    (client : Client) (grant : option AuthorizationGrant) (bs : BrowserSession)
    (access_token : option AccessToken) (auth : option Authentication) : Prop := {
  says_iss : claims !! "iss" = Some (Json_String oidc_issuer);
  says_sub : claims !! "sub" = Some (Json_String (User_sub (BrowserSession_user bs)));
  says_aud : claims !! "aud" = Some (Json_String (Client_client_id client));
  says_iat : claims !! "iat" = Some (json_timestamp now);
  says_exp : claims !! "exp" = Some (json_timestamp (now + HOUR));
  says_nonce : claims !! "nonce" = Json_String <$> (grant ≫= AuthorizationGrant_nonce);
  says_auth_time : claims !! "auth_time" = json_timestamp ∘ Authentication_created_at <$> auth;
  says_at_hash : claims !! "at_hash" =
    Json_String <$> (access_token ≫= λ a, hash_token alg (AccessToken_access_token a));
  says_c_hash : claims !! "c_hash" =
    Json_String <$> ((grant ≫= AuthorizationGrant_code) ≫= λ c, hash_token alg (AuthorizationCode_code c));
}.

Lemma lookup_insert_claim k v claims :
  insert_claim k v claims !! k = match v with Some v => Some v | None => claims !! k end.
Proof. destruct v; simpl; [by rewrite lookup_insert_eq|done]. Qed.
Lemma lookup_insert_claim_ne k k' v claims : k ≠ k' → insert_claim k v claims !! k' = claims !! k'.
Proof. intros Hk. destruct v; simpl; [by rewrite lookup_insert_ne|done]. Qed.

Lemma hash_optional_inv alg x h :
  hash_optional alg x = Ok h → h = x ≫= hash_token alg.
Proof.
  unfold hash_optional. destruct x as [x|]; [|by intros [= <-]]. simpl.
  destruct (hash_token alg x); by intros [= <-].
Qed.

Ltac claim := rewrite ?lookup_insert_claim_ne, ?lookup_insert_claim by done;
  rewrite ?lookup_insert_claim_ne, ?lookup_insert_ne, ?lookup_insert_eq by done.

Lemma id_token_claims_say now client grant bs access_token auth alg at_hash c_hash :
  hash_optional alg (AccessToken_access_token <$> access_token) = Ok at_hash →
  hash_optional alg (AuthorizationCode_code <$> (grant ≫= AuthorizationGrant_code)) = Ok c_hash →
  id_token_says (insert_claim "c_hash" (Json_String <$> c_hash)
    (insert_claim "at_hash" (Json_String <$> at_hash) (id_token_claims now client grant bs auth)))
    alg now client grant bs access_token auth.
Proof.
  intros ->%hash_optional_inv ->%hash_optional_inv. unfold id_token_claims.
  split; claim; try done.
  - by destruct (grant ≫= AuthorizationGrant_nonce).
  - destruct auth; simpl; by claim.
  - destruct access_token as [a|]; simpl; [|by claim]. destruct (hash_token _ _); simpl; by claim.
  - destruct (grant ≫= AuthorizationGrant_code) as [a|]; simpl; [|by claim].
    destruct (hash_token _ _); simpl; by claim.
Qed.

(** C33. An ID token given out is decoded by the decoder of signed tokens and its
    signature is verified by the keys the server publishes, whatever else is in
    the key store. It is of the algorithm the client registered (RS256 by
    default), issued by this server about the user of the browser session for
    the client, now and for an hour, repeats the nonce of the grant, and binds
    the access token and the code by their hashes. *)
Theorem id_token_is_verifiable (OK : JoseExternalsOk handler_jose handler_keystore)
    client grant bs access_token auth st text st' :
  generate_id_token client grant bs access_token auth st = (Ok text, st') →
  ∃ jwt, Jwt_try_from text = Ok jwt ∧ verify_with_jwks jwt (public_jwks key_store) = true ∧
    header_alg (Jwt_header jwt) = default Rs256 (Client_id_token_signed_response_alg client) ∧
    id_token_says (Jwt_payload jwt) (header_alg (Jwt_header jwt)) (st_clock st 0%nat)
      client grant bs access_token auth ∧
    same st st'.
Proof.
  unfold generate_id_token. intros H.
  apply bind_Ok_inv in H as (now & st1 & Hn & H). apply clock_now_inv in Hn as [-> Hn].
  apply bind_Ok_inv in H as ([kid signer] & st2 & Hk & H). apply ok_or_Ok_inv in Hk as [Hk ->].
  apply bind_Ok_inv in H as (at_hash & st2 & Hat & H). injection Hat as Hat <-.
  apply bind_Ok_inv in H as (c_hash & st2 & Hch & H). injection Hch as Hch <-.
  apply bind_Ok_inv in H as (signed & st2 & Hs & H). apply with_rng_inv in Hs as [Hs Hst].
  apply bind_Ok_inv in H as (jwt & st3 & Hj & H). apply of_result_map_err_inv in Hj as [-> ->].
  injection H as <- <-. cbn [fst snd] in Hs.
  destruct (sign_with_rng _ _ _ (st_rng st1)) as [r rng'] eqn:Hsign. simpl in Hs. subst r.
  exists jwt. split; [by eapply signed_decodes|]. split; [by eapply signed_verifies|].
  apply sign_with_rng_inv in Hsign as (th & tc & sig & _ & _ & _ & ->). simpl.
  split; [done|]. split; [by apply id_token_claims_say|]. by etrans.
Qed.
End id_tokens.

(** ** The theorem evaluated on a concrete world *)

(** JSON values as trees of text, to compare them. *)
Fixpoint json_tree (j : Json) : gen_tree (string + Z) :=
  match j with
  | Json_Null => GenNode 0 []
  | Json_Bool b => GenNode 1 [GenLeaf (inr (if b then 1 else 0))]
  | Json_Int n => GenNode 2 [GenLeaf (inr n)]
  | Json_Float => GenNode 3 []
  | Json_String s => GenNode 4 [GenLeaf (inl s)]
  | Json_Array l => GenNode 5 (map json_tree l)
  | Json_Object fs => GenNode 6 (map (λ '(k, v), GenNode 7 [GenLeaf (inl k); json_tree v]) fs)
  end.

Fixpoint json_tree_inj (j1 j2 : Json) {struct j1} : json_tree j1 = json_tree j2 → j1 = j2.
Proof.
  destruct j1 as [|b1|n1| |s1|l1|f1], j2 as [|b2|n2| |s2|l2|f2]; simpl; intros H; try discriminate H.
  - reflexivity.
  - injection H as H. by destruct b1, b2.
  - by injection H as ->.
  - reflexivity.
  - by injection H as ->.
  - injection H as H. f_equal. revert l2 H. induction l1 as [|x l1 IH]; intros [|y l2]; simpl; try done.
    intros H. injection H as Hx Hl. f_equal; [by apply json_tree_inj|by apply IH].
  - injection H as H. f_equal. revert f2 H.
    induction f1 as [|[k x] f1 IH]; intros [|[k2 y] f2]; simpl; try done.
    intros H. injection H as Hk Hx Hl. f_equal; [|by apply IH]. f_equal; [done|by apply json_tree_inj].
Qed.

#[local] Instance Json_eq_dec : EqDecision Json.
Proof.
  intros j1 j2. destruct (decide (json_tree j1 = json_tree j2)) as [H|H].
  - left. by apply json_tree_inj.
  - right. congruence.
Defined.

(** A number in binary, least significant digit first, without its leading one. *)
Fixpoint binary (p : positive) : string :=
  match p with
  | xH => EmptyString
  | xO p => String "0" (binary p)
  | xI p => String "1" (binary p)
  end.
Fixpoint unbinary (s : string) : positive :=
  match s with
  | EmptyString => xH
  | String c s => if bool_decide (c = "0"%char) then xO (unbinary s) else xI (unbinary s)
  end.
Lemma unbinary_binary p : unbinary (binary p) = p.
Proof. induction p as [p IH|p IH|]; simpl; rewrite ?IH; done. Qed.
Lemma binary_no_dot p : no_char "."%char (binary p).
Proof. induction p; simpl; [apply no_char_cons; by split..|apply no_char_nil]. Qed.

#[local] Existing Instance World.DX.

(** The claims and the header of one ID token, under made-up codecs and a
    signature that every key verifies. *)
Definition example_claims : gmap string Json :=
  id_token_claims (HX := World.HX) World.NOW World.app None
    (BrowserSession_from 10 World.browser (User_build 1 World.alice)) None.
Definition example_header : JsonWebSignatureHeader := {| header_alg := Rs256; header_kid := Some "kid" |}.

#[local] Instance JsonWebSignatureHeader_eq_dec : EqDecision JsonWebSignatureHeader.
Proof. solve_decision. Defined.

Definition example_jose : JoseExternals :=
  {| base64_decoder_new _ := true;
     header_from_reader s := if bool_decide (s = "header") then Some example_header else None;
     claims_from_reader s := if bool_decide (s = "claims") then Some example_claims else None;
     base64_decode_vec s := decode (unbinary s);
     verifying_key_parses _ := true;
     asymmetric_verify _ _ _ sig := bool_decide (sig = [1; 2; 3]);
     hmac_verify _ _ _ _ := false;
     datetime_from_timestamp n := Some (n * 1000000);
     header_to_b64url h := if bool_decide (h = example_header) then Some "header" else None;
     claims_to_b64url c := if bool_decide (c = example_claims) then Some "claims" else None;
     base64_encode bs := binary (encode bs);
     sha256_bytes s := as_bytes s;
     sha384_bytes s := as_bytes s;
     sha512_bytes s := as_bytes s |}.

Lemma example_jose_ok : JoseExternalsOk example_jose World.KX.
Proof.
  split.
  - simpl. intros h t. case_bool_decide as Hh; [|done]. intros [= <-]. subst h.
    split; [reflexivity|]. split; [done|]. by rewrite bool_decide_eq_true_2.
  - simpl. intros c t. case_bool_decide as Hc; [|done]. intros [= <-]. subst c.
    split; [reflexivity|]. split; [done|]. by rewrite bool_decide_eq_true_2.
  - intros bs. split; [apply binary_no_dot|]. simpl. by rewrite unbinary_binary, decode_encode.
  - intros alg k signer msg rng sig rng' _ [= <- <-]. done.
Qed.

Definition example_handler : HandlerExternals :=
  {| policy_evaluate _ := Some [];
     policy_instantiates := true;
     locale_parses _ := true;
     render_device_name _ _ _ := Some "Example device";
     oidc_issuer := "https://id.example/";
     key_store := World.HX.(key_store);
     handler_jose := example_jose;
     handler_keystore := World.KX |}.

Lemma id_token_is_verifiable_witness :
  let bs := BrowserSession_from 10 World.browser (User_build 1 World.alice) in
  ∃ text st', generate_id_token (HX := example_handler) World.app None bs None None World.st
                = (Ok text, st') ∧
  ∃ jwt, Jwt_try_from (JX := example_jose) text = Ok jwt ∧
    verify_with_jwks (JX := example_jose) jwt
      (public_jwks (KX := World.KX) (key_store (HandlerExternals := example_handler))) = true.
Proof.
  intros bs.
  destruct (ok_run (generate_id_token (HX := example_handler) World.app None bs None None World.st))
    as (text & st' & E); [vm_compute; reflexivity|].
  exists text, st'. split; [exact E|].
  destruct (id_token_is_verifiable (HX := example_handler) example_jose_ok _ _ _ _ _ _ _ _ E)
    as (jwt & H1 & H2 & _).
  exists jwt. split; [exact H1|exact H2].
Defined.
