(* ===== verification/TokenSpec.v ===== *)
(** What a successful token request proves and does: every phase of
    TokenService.v inverted, with the conditions it checked and the change it
    made to the database. *)
From S2P Require Import Prelude Ids TokenFormat Scope Pkce Jose Keystore Domain Database Repository Handlers ClientAuth RepositorySpec TokenService.

Open Scope Z_scope.

Section token_spec.
Context {TX : TokenExternals} {PX : PkceExternals} {UX : UrlExternals}
        {DX : DbExternals} {HX : HandlerExternals}.

(** A user who may hold administrative scopes, in the database. *)
Definition is_admin (db : DB) (user_id : option Ulid) : Prop :=
  ∃ uid row, user_id = Some uid ∧ db_users db !! uid = Some row ∧
             UserRow_can_request_admin row = true.

Lemma may_keep_inv s st b st' :
  session_may_keep_admin_scope s st = (Ok b, st') →
  st' = st ∧ (b = true ↔ (requires_admin (Session_scope s) = true →
                          is_admin (st_db st) (Session_user_id s))).
Proof.
  unfold session_may_keep_admin_scope.
  destruct (requires_admin (Session_scope s)); simpl; [|by intros [= <- <-]].
  intros H. repo_inv.
  - apply user_lookup_inv in Hm as [-> ->]. split; [done|]. unfold is_admin.
    destruct (db_users _ !! _) eqn:Hu; simpl; naive_solver.
  - split; [done|]. unfold is_admin. naive_solver.
Qed.

(** Recording the user agent of a session, if any. *)
Definition record_ua (ua : option string) (sid : Ulid) (db : DB) : DB :=
  match ua with
  | Some ua => on_sessions (alter (OAuthSessionRow_set_user_agent ua) sid) db
  | None => db
  end.

Lemma record_ua_inv s ua st s' st' :
  record_user_agent_opt s ua st = (Ok s', st') →
  (∃ n, s' = Session_with_names s n (Session_human_name s)) ∧ ran st st' (record_ua ua (Session_id s)).
Proof.
  unfold record_user_agent_opt. destruct ua as [ua|]; simpl.
  - intros (-> & _ & Hr)%record_user_agent_inv. split; [by eexists|exact Hr].
  - intros [= <- <-]. split; [|done]. exists (Session_user_agent s). by destruct s.
Qed.

Lemma keeps_provision_db {E} (err : E) u l n : keeps st_db (provision_devices err u l n).
Proof. unfold provision_devices. solve_keeps. Qed.
Lemma keeps_provision_committed {E} (err : E) u l n :
  keeps st_committed (provision_devices err u l n).
Proof. unfold provision_devices. solve_keeps. Qed.
Lemma provision_inv {E} (err : E) u l n st r st' :
  provision_devices err u l n st = (r, st') → same st st'.
Proof. apply same_keeps; [apply keeps_provision_db|apply keeps_provision_committed]. Qed.

Lemma keeps_id_token_db c g b a l : keeps st_db (generate_id_token c g b a l).
Proof. unfold generate_id_token. solve_keeps. Qed.
Lemma keeps_id_token_committed c g b a l : keeps st_committed (generate_id_token c g b a l).
Proof. unfold generate_id_token. solve_keeps. Qed.
Lemma id_token_inv c g b a l st r st' :
  generate_id_token c g b a l st = (r, st') → same st st'.
Proof. apply same_keeps; [apply keeps_id_token_db|apply keeps_id_token_committed]. Qed.

Lemma lock_inv u st r st' : user_acquire_lock_for_sync u st = (r, st') → same st st'.
Proof. by intros [= <- <-]. Qed.

(** ** Token pairs *)

(** The two rows of a token pair inserted. *)
Definition insert_pair (a : Ulid) (arow : OAuth2AccessTokenRow) (r : Ulid)
    (rrow : OAuth2RefreshTokenRow) (db : DB) : DB :=
  on_refresh_tokens <[r := rrow]> (on_access_tokens <[a := arow]> db).

(** A fresh pair for a session: live, for that session, expiring after [ttl],
    the refresh token pointing to its access token, under free keys and texts. *)
Definition fresh_pair (db : DB) (sid : Ulid) (ttl : Duration) (a : AccessToken) (r : RefreshToken)
    (arow : OAuth2AccessTokenRow) (rrow : OAuth2RefreshTokenRow) : Prop :=
  ∃ ta tr,
    arow = new_access_token_row sid (AccessToken_access_token a) ta (Some (ta + ttl)) ∧
    a = AccessToken_from (AccessToken_id a) arow ∧
    rrow = new_refresh_token_row sid (AccessToken_id a) (RefreshToken_refresh_token r) tr ∧
    RefreshToken_try_from (RefreshToken_id r) rrow = Ok r ∧
    access_token_violation (AccessToken_id a) sid (AccessToken_access_token a) db = None ∧
    refresh_token_violation (RefreshToken_id r) sid (AccessToken_id a) (RefreshToken_refresh_token r)
      (on_access_tokens <[AccessToken_id a := arow]> db) = None.

Lemma token_pair_inv s ttl st p st' :
  generate_token_pair s ttl st = (Ok p, st') →
  ∃ arow rrow rng1 rng2,
    AccessToken_access_token p.1 = (TokenType_generate TokenType_AccessToken rng1).1 ∧
    RefreshToken_refresh_token p.2 = (TokenType_generate TokenType_RefreshToken rng2).1 ∧
    fresh_pair (st_db st) (Session_id s) ttl p.1 p.2 arow rrow ∧
    ran st st' (insert_pair (AccessToken_id p.1) arow (RefreshToken_id p.2) rrow).
Proof.
  unfold generate_token_pair. intros H. repo_inv.
  match goal with H : access_token_add _ _ _ _ = _ |- _ =>
    apply access_token_add_inv in H as (ta & arow & Harow & Ha & Hav & Har) end.
  match goal with H : refresh_token_add _ _ _ _ = _ |- _ =>
    apply refresh_token_add_inv in H as (tr & rrow & Hrrow & Hr & Hrv & Hrr) end.
  same_norm. cbn [fst snd].
  assert (Hta := f_equal AccessToken_access_token Ha). rewrite Harow in Hta.
  cbn [AccessToken_access_token AccessToken_from new_access_token_row AccessTokenRow_access_token] in Hta.
  apply RefreshToken_try_from_inv in Hr as Hr'. destruct Hr' as (_ & Htr & _).
  rewrite Hrrow in Htr. cbn [RefreshTokenRow_refresh_token new_refresh_token_row] in Htr.
  eexists arow, rrow, _, _. split; [exact Hta|]. split; [exact Htr|].
  rewrite <-Hta in Harow, Hav. rewrite <-Htr in Hrrow, Hrv. split.
  - exists ta, tr. split_and!; try done. by rewrite <-(proj1 Har).
  - exact (ran_ran _ _ _ _ _ Har Hrr).
Qed.

Lemma fresh_pair_keys db sid ttl a r arow rrow :
  fresh_pair db sid ttl a r arow rrow →
  db_access_tokens db !! AccessToken_id a = None ∧
  db_refresh_tokens db !! RefreshToken_id r = None ∧
  AccessTokenRow_oauth2_session_id arow = sid ∧
  AccessTokenRow_access_token arow = AccessToken_access_token a.
Proof.
  intros (ta & tr & -> & _ & _ & _ & Ha & Hr).
  apply first_violation_None in Ha, Hr. rewrite !Forall_cons in Ha, Hr. simpl in Ha, Hr.
  destruct Ha as (Ha%pk_taken_false & _). destruct Hr as (Hr%pk_taken_false & _). done.
Qed.

(** ** Authorization code *)

(** The verifier answers the challenge, or neither was given. *)
Definition pkce_ok (p : option Pkce) (v : option string) : Prop :=
  match p, v with
  | None, None => True
  | Some p, Some v => Pkce_verify p v = Ok tt
  | _, _ => False
  end.

Lemma code_grant_inv req c st g st' :
  code_exchange_grant req c st = (Ok g, st') →
  st' = st ∧ Client_has_grant_type c GrantType_AuthorizationCode = true ∧
  ∃ gid row, find_first (has_code (code_grant_code req)) (db_grants (st_db st)) = Some (gid, row) ∧
             AuthorizationGrant_try_from gid row = Ok g.
Proof.
  unfold code_exchange_grant. intros H. repo_inv.
  match goal with H : require _ _ _ = _ |- _ => apply require_inv in H as [Hc ->] end.
  match goal with H : authorization_grant_find_by_code _ _ = _ |- _ =>
    apply grant_find_inv in H as [-> H]; subst; destruct H as (gid & row & ? & ?) end.
  eauto 10.
Qed.

Lemma code_stage_inv g st sid st' :
  code_exchange_stage g st = (Ok sid, st') →
  same st st' ∧ ∃ f, AuthorizationGrant_stage g = Grant_Fulfilled sid f ∧
                     st_clock st 0%nat - f ≤ CODE_LIFETIME.
Proof.
  unfold code_exchange_stage. intros H. repo_inv.
  match goal with H : require _ _ _ = _ |- _ => apply require_inv in H as [Hc ->] end.
  apply negb_true_iff, bool_decide_eq_false in Hc.
  split; [done|]. eexists. split; [done|]. lia.
Qed.

Lemma code_session_inv g c sid ua st sd st' :
  code_exchange_session g c sid ua st = (Ok sd, st') →
  ∃ row s n, db_sessions (st_db st) !! sid = Some row ∧ Session_try_from sid row = Ok s ∧
    sd.1 = Session_with_names s n (Session_human_name s) ∧ ran st st' (record_ua ua sid).
Proof.
  unfold code_exchange_session. intros H. repo_inv.
  match goal with H : oauth2_session_lookup _ _ = _ |- _ =>
    apply session_lookup_inv in H as [-> H]; subst; destruct H as (row & Hrow & Hs) end.
  match goal with H : require _ _ _ = _ |- _ => apply require_inv in H as [Hc ->] end.
  match goal with H : record_user_agent_opt _ _ _ = _ |- _ =>
    apply record_ua_inv in H as [[n ->] Hr] end.
  destruct (Session_try_from_inv _ _ _ Hs) as [Hid _]. rewrite Hid in Hr.
  eexists row, _, n. done.
Qed.

Lemma code_proof_inv req g c s st u st' :
  code_exchange_proof req g c s st = (Ok u, st') →
  st' = st ∧ Client_id c = Session_client_id s ∧
  code_grant_redirect_uri req = Some (AuthorizationGrant_raw_redirect_uri g) ∧
  pkce_ok (AuthorizationGrant_code g ≫= AuthorizationCode_pkce) (code_grant_code_verifier req).
Proof.
  unfold code_exchange_proof. intros H. repo_inv;
  repeat match goal with H : require _ _ _ = _ |- _ =>
    apply require_inv in H as [H ->]; apply bool_decide_eq_true in H end;
  match goal with H : AuthorizationGrant_code _ = _ |- _ => rewrite H end; simpl;
  repeat match goal with H : AuthorizationCode_pkce _ = _ |- _ => rewrite H end;
  split_and!; try done.
  by destruct u.
Qed.

Lemma code_admin_inv s st u st' :
  code_exchange_admin s st = (Ok u, st') →
  st' = st ∧ (requires_admin (Session_scope s) = true → is_admin (st_db st) (Session_user_id s)).
Proof.
  unfold code_exchange_admin. intros H. repo_inv.
  match goal with H : session_may_keep_admin_scope _ _ = _ |- _ =>
    apply may_keep_inv in H as [-> Hk] end.
  split; [done|]. apply Hk. by destruct a.
Qed.

(** The reply to a request that issued a pair. *)
Definition pair_response (a : AccessToken) (r : RefreshToken) (ttl : Duration) (s : Session)
    (resp : AccessTokenResponse) : Prop :=
  Response_access_token resp = AccessToken_access_token a ∧
  Response_refresh_token resp = Some (RefreshToken_refresh_token r) ∧
  Response_expires_in resp = Some ttl ∧ Response_scope resp = Some (Session_scope s).

Lemma code_issue_inv g c s devs name ttl ip st resp st' :
  code_exchange_issue g c s devs name ttl ip st = (Ok resp, st') →
  ∃ a r arow rrow t, fresh_pair (st_db st) (Session_id s) ttl a r arow rrow ∧
    pair_response a r ttl s resp ∧
    (is_Some (Response_id_token resp) ↔ Scope_contains (Session_scope s) OPENID = true) ∧
    (∃ rng1 rng2, AccessToken_access_token a = (TokenType_generate TokenType_AccessToken rng1).1 ∧
       RefreshToken_refresh_token r = (TokenType_generate TokenType_RefreshToken rng2).1) ∧
    ran st st' (λ db, on_grants (alter (GrantRow_set_exchanged_at t) (AuthorizationGrant_id g))
      (insert_pair (AccessToken_id a) arow (RefreshToken_id r) rrow db)).
Proof.
  unfold code_exchange_issue. intros H.
  repeat (repo_step || match goal with
  | H : browser_session_lookup _ _ = _ |- _ => apply browser_session_lookup_inv in H as [-> _]
  | H : browser_session_get_last_authentication _ _ = _ |- _ => apply last_authentication_inv in H as ->
  | H : generate_token_pair _ _ _ = _ |- _ =>
      apply token_pair_inv in H as (arow & rrow & rng1 & rng2 & Hta & Htr & Hpair & Hpr)
  | H : generate_id_token _ _ _ _ _ _ = _ |- _ => apply id_token_inv in H
  | H : user_acquire_lock_for_sync _ _ = _ |- _ => apply lock_inv in H
  | H : provision_devices _ _ _ _ _ = _ |- _ => apply provision_inv in H
  | H : authorization_grant_exchange _ _ = _ |- _ =>
      apply grant_exchange_inv in H as (t & sid & f & _ & _ & _ & Hex)
  end); ran_chain;
  (eexists _, _, arow, rrow, t; split; [exact Hpair|]; split; [done|];
   split; [split; intros Hx; [by destruct Hx|by (discriminate Hx || eexists)]|];
   split; [by eauto|assumption]).
Qed.

(** The database after a code exchange. *)
Definition code_exchanged (ua : option string) (sid : Ulid) (a : Ulid) (arow : OAuth2AccessTokenRow)
    (r : Ulid) (rrow : OAuth2RefreshTokenRow) (t : DateTime) (gid : Ulid) (db : DB) : DB :=
  on_grants (alter (GrantRow_set_exchanged_at t) gid)
    (insert_pair a arow r rrow (record_ua ua sid db)).

(** What the caller of a code exchange has shown, in the state it began in. *)
Definition code_authorised (req : AuthorizationCodeGrant) (c : Client) (now : DateTime) (db : DB)
    (gid : Ulid) (g : AuthorizationGrant) (sid : Ulid) (s : Session) : Prop :=
  (∃ row, find_first (has_code (code_grant_code req)) (db_grants db) = Some (gid, row) ∧
          AuthorizationGrant_try_from gid row = Ok g) ∧
  (∃ row, db_sessions db !! sid = Some row ∧ Session_try_from sid row = Ok s) ∧
  (∃ f, AuthorizationGrant_stage g = Grant_Fulfilled sid f ∧ now - f ≤ CODE_LIFETIME) ∧
  Client_has_grant_type c GrantType_AuthorizationCode = true ∧
  Client_id c = Session_client_id s ∧
  code_grant_redirect_uri req = Some (AuthorizationGrant_raw_redirect_uri g) ∧
  pkce_ok (AuthorizationGrant_code g ≫= AuthorizationCode_pkce) (code_grant_code_verifier req) ∧
  (requires_admin (Session_scope s) = true → is_admin db (Session_user_id s)).

Lemma record_ua_users ua sid db : db_users (record_ua ua sid db) = db_users db.
Proof. by destruct ua. Qed.

Lemma code_exchange_inv req c ttl ip ua st resp st' :
  exchange_authorization_code req c ttl ip ua st = (Ok resp, st') →
  ∃ gid g sid s, code_authorised req c (st_clock st 0%nat) (st_db st) gid g sid s ∧
  ∃ a r arow rrow t,
    fresh_pair (record_ua ua sid (st_db st)) sid ttl a r arow rrow ∧
    pair_response a r ttl s resp ∧
    (is_Some (Response_id_token resp) ↔ Scope_contains (Session_scope s) OPENID = true) ∧
    (∃ rng1 rng2, AccessToken_access_token a = (TokenType_generate TokenType_AccessToken rng1).1 ∧
       RefreshToken_refresh_token r = (TokenType_generate TokenType_RefreshToken rng2).1) ∧
    ran st st' (code_exchanged ua sid (AccessToken_id a) arow (RefreshToken_id r) rrow t gid).
Proof.
  unfold exchange_authorization_code. intros H. run_inv.
  apply code_grant_inv in Hm as (-> & Hgt & gid & grow & Hfind & Hg).
  apply code_stage_inv in Hm0 as (Hsame & f & Hstage & Hlife).
  apply code_session_inv in Hm1 as (srow & s & n & Hsrow & Hs & Hs' & Hua).
  rewrite Hs' in *. clear Hs'.
  apply code_proof_inv in Hm2 as (-> & Hcl & Hru & Hpk).
  apply code_admin_inv in Hm3 as (-> & Hadm).
  apply code_issue_inv in H as (at_ & rt & arow & rrow & t & Hpair & Hresp & Hid & Htxt & Hran).
  destruct (Session_try_from_inv _ _ _ Hs) as [Hsid _].
  destruct (Grant_try_from_inv _ _ _ Hg) as [Hgid _].
  cbn [Session_id Session_scope Session_client_id Session_user_id Session_with_names] in *.
  rewrite Hsid, Hgid in *. destruct Hsame as [Hd Hc]. destruct Hua as [Hd' Hc'].
  rewrite Hd in *. rewrite Hd' in *.
  eexists gid, _, _, s. split.
  { split_and!; [by eauto..|]. intros Hp. unfold is_admin in *. rewrite record_ua_users in Hadm. auto. }
  exists at_, rt, arow, rrow, t. split_and!; try done.
  destruct Hran as [E C]. split; [by rewrite E, Hd'|congruence].
Qed.

(** ** Refresh token *)

Lemma on_access_tokens_id f db : f (db_access_tokens db) = db_access_tokens db → on_access_tokens f db = db.
Proof. destruct db. unfold on_access_tokens. simpl. by intros ->. Qed.

Lemma refresh_find_inv req c ua st rs st' :
  refresh_find req c ua st = (Ok rs, st') →
  Client_has_grant_type c GrantType_RefreshToken = true ∧
  ∃ rid row srow s n,
    find_first (has_refresh_token (refresh_grant_refresh_token req)) (db_refresh_tokens (st_db st))
      = Some (rid, row) ∧
    RefreshToken_try_from rid row = Ok rs.1 ∧
    db_sessions (st_db st) !! RefreshToken_session_id rs.1 = Some srow ∧
    Session_try_from (RefreshToken_session_id rs.1) srow = Ok s ∧
    rs.2 = Session_with_names s n (Session_human_name s) ∧
    ran st st' (record_ua ua (RefreshToken_session_id rs.1)).
Proof.
  unfold refresh_find. intros H. repo_inv.
  match goal with H : require _ _ _ = _ |- _ => apply require_inv in H as [Hc ->] end.
  match goal with H : refresh_token_find_by_token _ _ = _ |- _ =>
    apply refresh_token_find_inv in H as [-> H]; subst; destruct H as (rid & row & Hrid & Hrt) end.
  match goal with H : oauth2_session_lookup _ _ = _ |- _ =>
    apply session_lookup_inv in H as [-> H]; subst; destruct H as (srow & Hsrow & Hs) end.
  match goal with H : record_user_agent_opt _ _ _ = _ |- _ =>
    apply record_ua_inv in H as [[n ->] Hr] end.
  destruct (Session_try_from_inv _ _ _ Hs) as [Hid _]. rewrite Hid in Hr.
  split; [done|]. eexists rid, row, srow, _, n. done.
Qed.

Lemma refresh_check_inv c s st u st' :
  refresh_check_session c s st = (Ok u, st') →
  st' = st ∧ Session_state s = Session_Valid ∧ Client_id c = Session_client_id s ∧
  (requires_admin (Session_scope s) = true → is_admin (st_db st) (Session_user_id s)).
Proof.
  unfold refresh_check_session. intros H. repo_inv.
  repeat match goal with H : require _ _ _ = _ |- _ => apply require_inv in H as [H ->] end.
  match goal with H : session_may_keep_admin_scope _ _ = _ |- _ =>
    apply may_keep_inv in H as [-> Hk] end.
  split; [done|]. unfold Session_is_valid in *.
  match goal with H : bool_decide _ = true |- _ => apply bool_decide_eq_true in H end.
  split; [by destruct (Session_state s)|]. split; [done|]. apply Hk. by destruct a0.
Qed.

(** The tokens of a lost reply are revoked. *)
Definition revoke_lost (aid nid : Ulid) (t1 t2 : DateTime) (db : DB) : DB :=
  on_refresh_tokens (alter (RefreshTokenRow_set_revoked_at t2) nid)
    (on_access_tokens (alter (AccessTokenRow_set_revoked_at t1) aid) db).

Lemma refresh_double_inv rt st u st' :
  refresh_double rt st = (Ok u, st') →
  (RefreshToken_state rt = RefreshToken_Valid ∧ st' = st) ∨
  ∃ c nid nrow n aid arow t1 t2,
    RefreshToken_state rt = RefreshToken_Consumed c (Some nid) ∧
    db_refresh_tokens (st_db st) !! nid = Some nrow ∧
    RefreshToken_try_from nid nrow = Ok n ∧ RefreshToken_state n = RefreshToken_Valid ∧
    RefreshToken_access_token_id n = Some aid ∧ db_access_tokens (st_db st) !! aid = Some arow ∧
    AccessTokenRow_first_used_at arow = None ∧ AccessTokenRow_revoked_at arow = None ∧
    ran st st' (revoke_lost aid nid t1 t2).
Proof.
  unfold refresh_double. intros H. repo_inv.
  { left. by destruct (RefreshToken_state rt). }
  repeat match goal with H : require _ _ _ = _ |- _ => apply require_inv in H as [H ->] end.
  match goal with H : refresh_token_lookup _ _ = _ |- _ =>
    apply refresh_token_lookup_inv in H as [-> H]; subst; destruct H as (nrow & Hnrow & Hn) end.
  match goal with H : access_token_lookup _ _ = _ |- _ =>
    apply access_token_lookup_inv in H as [-> H] end.
  match goal with H : Some _ = _ <$> _ |- _ => symmetry in H; apply fmap_Some in H as (arow & Harow & ->) end.
  match goal with H : access_token_revoke _ _ = _ |- _ =>
    apply access_token_revoke_inv in H as (t1 & Hval & _ & _ & Hr1) end.
  match goal with H : refresh_token_revoke _ _ = _ |- _ =>
    apply refresh_token_revoke_inv in H as (t2 & Hnv & _ & Hr2) end.
  destruct (RefreshToken_try_from_inv _ _ _ Hn) as [Hnid _].
  apply AccessToken_from_state in Hval. rewrite Hnid in Hr2. simpl in Hr1.
  right. destruct (RefreshToken_state rt) as [|cat nxt|]; simplify_eq/=.
  eexists _, _, nrow, _, _, arow, t1, t2. split_and!; try done.
  - match goal with H : negb (AccessToken_is_used _) = true |- _ =>
      apply negb_true_iff, bool_decide_eq_false in H; simpl in H end.
    by apply eq_None_not_Some.
  - exact (ran_ran _ _ _ _ _ Hr1 Hr2).
Qed.

(** The access token of the consumed refresh token is revoked, unless it was. *)
Definition revoke_live (t : DateTime) (row : OAuth2AccessTokenRow) : OAuth2AccessTokenRow :=
  match AccessTokenRow_revoked_at row with
  | None => AccessTokenRow_set_revoked_at t row
  | Some _ => row
  end.
Definition revoke_old (old : option Ulid) (t : DateTime) (db : DB) : DB :=
  match old with
  | Some aid => on_access_tokens (alter (revoke_live t) aid) db
  | None => db
  end.

(** The database after a rotation. *)
Definition rotated (rid : Ulid) (old : option Ulid) (a : Ulid) (arow : OAuth2AccessTokenRow)
    (r : Ulid) (rrow : OAuth2RefreshTokenRow) (t1 t2 : DateTime) (db : DB) : DB :=
  revoke_old old t2 (on_refresh_tokens (alter (RefreshTokenRow_set_consumed t1 r) rid)
    (insert_pair a arow r rrow db)).

Lemma alter_same {R} (f : R → R) (i : Z) (m : gmap Z R) :
  (∀ x, m !! i = Some x → f x = x) → alter f i m = m.
Proof.
  intros Hf. apply map_eq. intros j. destruct (decide (j = i)) as [->|].
  - rewrite lookup_alter_eq. destruct (m !! i) eqn:E; simpl; [|done]. by rewrite Hf.
  - by rewrite lookup_alter_ne.
Qed.

Lemma revoke_old_inv old st u st' :
  match old with
  | None => mret tt
  | Some access_token_id =>
      access_token ← try_with Rte_Repository (access_token_lookup access_token_id);
      match access_token with
      | None => mret tt
      | Some access_token =>
          if AccessTokenState_is_revoked (AccessToken_state access_token) then mret tt
          else _ ← try_with Rte_Repository (access_token_revoke access_token); mret tt
      end
  end st = (Ok u, st') →
  ∃ t, ran st st' (revoke_old old t).
Proof.
  intros H. destruct old as [aid|]; [|exists 0; by injection H as _ <-]. simpl.
  repo_inv; match goal with H : access_token_lookup _ _ = _ |- _ =>
    apply access_token_lookup_inv in H as [-> H] end.
  - match goal with H : Some _ = _ |- _ => symmetry in H; apply fmap_Some in H as (arow & Harow & ->) end.
    exists 0. split; [|done]. unfold revoke_old. rewrite on_access_tokens_id; [done|]. apply alter_same.
    intros x Hx. unfold revoke_live. simplify_eq. simpl in *.
    by destruct (AccessTokenRow_revoked_at arow).
  - match goal with H : Some _ = _ |- _ => symmetry in H; apply fmap_Some in H as (arow & Harow & ->) end.
    match goal with H : access_token_revoke _ _ = _ |- _ =>
      apply access_token_revoke_inv in H as (t & Hval & _ & _ & [E C]) end.
    exists t. split; [|done]. rewrite E. unfold revoke_old, on_access_tokens. simpl. f_equal.
    apply AccessToken_from_state in Hval. apply map_eq. intros j.
    destruct (decide (j = aid)) as [->|]; [|by rewrite !lookup_alter_ne].
    rewrite !lookup_alter_eq, Harow. simpl. unfold revoke_live. by rewrite Hval.
  - match goal with H : None = _ |- _ => symmetry in H; apply fmap_None in H end.
    exists 0. split; [|done]. unfold revoke_old. rewrite on_access_tokens_id; [done|]. apply alter_same. congruence.
Qed.

Lemma refresh_issue_inv rt s ttl ip st resp st' :
  refresh_issue rt s ttl ip st = (Ok resp, st') →
  (∀ t, RefreshToken_state rt ≠ RefreshToken_Revoked t) ∧
  ∃ a r arow rrow t1 t2, fresh_pair (st_db st) (Session_id s) ttl a r arow rrow ∧
    pair_response a r ttl s resp ∧ Response_id_token resp = None ∧
    (∃ rng1 rng2, AccessToken_access_token a = (TokenType_generate TokenType_AccessToken rng1).1 ∧
       RefreshToken_refresh_token r = (TokenType_generate TokenType_RefreshToken rng2).1) ∧
    ran st st' (rotated (RefreshToken_id rt) (RefreshToken_access_token_id rt)
      (AccessToken_id a) arow (RefreshToken_id r) rrow t1 t2).
Proof.
  unfold refresh_issue. intros H.
  apply bind_Ok_inv in H as (u1 & st1 & Hact & H). apply record_activity_inv in Hact.
  apply bind_Ok_inv in H as (p & st2 & Hp & H). apply try_with_Ok_inv in Hp.
  apply token_pair_inv in Hp as (arow & rrow & rng1 & rng2 & Hta & Htr & Hpair & Hpr).
  apply bind_Ok_inv in H as (rt' & st3 & Hcon & H). apply try_with_Ok_inv in Hcon.
  apply refresh_token_consume_inv in Hcon as (t1 & Hrt' & _ & Hcr).
  apply bind_Ok_inv in H as (u2 & st4 & Hold & H).
  apply revoke_old_inv in Hold as (t2 & Hold). run_inv.
  unfold RefreshToken_consume in Hrt'.
  assert (RefreshToken_access_token_id rt' = RefreshToken_access_token_id rt) as Haid.
  { destruct (RefreshToken_state rt); simpl in Hrt'; by simplify_eq/=. }
  rewrite Haid in Hold. split.
  { intros t Ht. by rewrite Ht in Hrt'. }
  same_norm.
  exists p.1, p.2, arow, rrow, t1, t2. split_and!; try done; [by eauto|].
  ran_chain. done.
Qed.

(** Either the token was live, or its successor and the successor's access
    token were never used: they are the ones a lost reply held. *)
Definition lost_reply (db : DB) (rt : RefreshToken) (lost : DB → DB) : Prop :=
  (RefreshToken_state rt = RefreshToken_Valid ∧ lost = id) ∨
  ∃ c nid nrow n aid arow t1 t2,
    RefreshToken_state rt = RefreshToken_Consumed c (Some nid) ∧
    db_refresh_tokens db !! nid = Some nrow ∧
    RefreshToken_try_from nid nrow = Ok n ∧ RefreshToken_state n = RefreshToken_Valid ∧
    RefreshToken_access_token_id n = Some aid ∧ db_access_tokens db !! aid = Some arow ∧
    AccessTokenRow_first_used_at arow = None ∧ AccessTokenRow_revoked_at arow = None ∧
    lost = revoke_lost aid nid t1 t2.

(** What a refresh request has shown. *)
Definition refresh_authorised (req : RefreshTokenGrant) (c : Client) (db : DB)
    (rid : Ulid) (rt : RefreshToken) (s : Session) (lost : DB → DB) : Prop :=
  (∃ row, find_first (has_refresh_token (refresh_grant_refresh_token req)) (db_refresh_tokens db)
            = Some (rid, row) ∧ RefreshToken_try_from rid row = Ok rt) ∧
  (∃ row, db_sessions db !! RefreshToken_session_id rt = Some row ∧
          Session_try_from (RefreshToken_session_id rt) row = Ok s) ∧
  Client_has_grant_type c GrantType_RefreshToken = true ∧
  Session_state s = Session_Valid ∧ Client_id c = Session_client_id s ∧
  (requires_admin (Session_scope s) = true → is_admin db (Session_user_id s)) ∧
  lost_reply db rt lost.

Lemma refresh_inv req c ttl ip ua st resp st' :
  handle_refresh_token req c ttl ip ua st = (Ok resp, st') →
  ∃ rid rt s lost, refresh_authorised req c (st_db st) rid rt s lost ∧
  ∃ a r arow rrow t1 t2,
    fresh_pair (lost (record_ua ua (Session_id s) (st_db st))) (Session_id s) ttl a r arow rrow ∧
    pair_response a r ttl s resp ∧ Response_id_token resp = None ∧
    (∃ rng1 rng2, AccessToken_access_token a = (TokenType_generate TokenType_AccessToken rng1).1 ∧
       RefreshToken_refresh_token r = (TokenType_generate TokenType_RefreshToken rng2).1) ∧
    ran st st' (λ db, rotated rid (RefreshToken_access_token_id rt)
      (AccessToken_id a) arow (RefreshToken_id r) rrow t1 t2
      (lost (record_ua ua (Session_id s) db))).
Proof.
  unfold handle_refresh_token. intros H. run_inv.
  apply refresh_find_inv in Hm as (Hgt & rid & row & srow & s & n & Hfind & Hrt & Hsrow & Hs & Hs' & Hua).
  rewrite Hs' in *. clear Hs'.
  apply refresh_check_inv in Hm0 as (-> & Hval & Hcl & Hadm).
  apply refresh_double_inv in Hm1.
  apply refresh_issue_inv in H as (_ & at_ & rn & arow & rrow & t1 & t2 & Hpair & Hresp & Hid & Htxt & Hran).
  destruct (Session_try_from_inv _ _ _ Hs) as [Hsid _].
  destruct (RefreshToken_try_from_inv _ _ _ Hrt) as [Hrid _].
  cbn [Session_id Session_scope Session_client_id Session_user_id Session_state Session_with_names] in *.
  rewrite Hsid, Hrid in *. destruct Hua as [Hd Hc]. rewrite Hd in *.
  assert (∃ lost, lost_reply (st_db st) a.1 lost ∧
            st_db st2 = lost (record_ua ua (RefreshToken_session_id a.1) (st_db st)) ∧
            st_committed st2 = st_committed st) as (lost & Hlost & Hd2 & Hc2).
  { destruct Hm1 as [[Hv ->]|(c0 & nid & nrow & nx & aid & ar & u1 & u2 & H1 & H2 & H3 & H4 & H5 & H6 & H7 & H8 & [H9 H10])].
    - exists id. split; [by left|]. by rewrite Hd.
    - exists (revoke_lost aid nid u1 u2). split; [|by rewrite H9, Hd, H10].
      right. exists c0, nid, nrow, nx, aid, ar, u1, u2.
      by destruct ua. }
  rewrite Hd2 in *.
  exists rid, a.1, s, lost. rewrite Hsid. split.
  { split_and!; [by eauto..| |done]. intros Hp. unfold is_admin in *.
    rewrite record_ua_users in Hadm. auto. }
  exists at_, rn, arow, rrow, t1, t2. split_and!; try done.
  destruct Hran as [E C]. split; [by rewrite E, Hd2|congruence].
Qed.

(** ** Device code *)

Lemma device_grant_inv req c st g st' :
  device_exchange_grant req c st = (Ok g, st') →
  same st st' ∧ Client_has_grant_type c GrantType_DeviceCode = true ∧
  Client_id c = DeviceCodeGrant_client_id g ∧ st_clock st 0%nat ≤ DeviceCodeGrant_expires_at g ∧
  ∃ gid row, find_first (has_device_code (device_grant_device_code req)) (db_device_grants (st_db st))
               = Some (gid, row) ∧ DeviceCodeGrant_try_from gid row = Ok g.
Proof.
  unfold device_exchange_grant. intros H. repo_inv.
  repeat match goal with H : require _ _ _ = _ |- _ => apply require_inv in H as [H ->] end.
  match goal with H : device_grant_find_by_device_code _ _ = _ |- _ =>
    apply device_find_inv in H as [-> H]; subst; destruct H as (gid & row & ? & ?) end.
  match goal with H : bool_decide _ = true |- _ => apply bool_decide_eq_true in H end.
  match goal with H : negb (_ <? _) = true |- _ => apply negb_true_iff, Z.ltb_ge in H end.
  eauto 10.
Qed.

Lemma device_browser_inv g st bs st' :
  device_exchange_browser_session g st = (Ok bs, st') →
  st' = st ∧ (∃ f, DeviceCodeGrant_state g = Device_Fulfilled (BrowserSession_id bs) f) ∧
  admin_scope_allowed (BrowserSession_user bs) (DeviceCodeGrant_scope g) = true ∧
  ∃ srow urow, db_user_sessions (st_db st) !! BrowserSession_id bs = Some srow ∧
    db_users (st_db st) !! UserSessionRow_user_id srow = Some urow ∧
    BrowserSession_user bs = User_build (UserSessionRow_user_id srow) urow.
Proof.
  unfold device_exchange_browser_session. intros H. repo_inv.
  repeat match goal with H : require _ _ _ = _ |- _ => apply require_inv in H as [H ->] end.
  match goal with H : browser_session_lookup _ _ = _ |- _ =>
    apply browser_session_lookup_inv in H as [-> H]; subst; destruct H as (<- & srow & urow & ? & ? & Hbs) end.
  split; [done|]. split; [by eauto|]. split; [done|].
  exists srow, urow. split; [done|]. split; [done|]. by rewrite Hbs.
Qed.

(** The session of a device exchange is created and tied to the grant. *)
Definition device_session_created (ua : option string) (sid : Ulid) (srow : OAuthSessionRow)
    (t : DateTime) (gid : Ulid) (db : DB) : DB :=
  record_ua ua sid (on_device_grants (alter (DeviceGrantRow_set_exchanged t sid) gid)
    (on_sessions <[sid := srow]> db)).

Lemma device_session_inv g c bs ua st s st' :
  device_exchange_session g c bs ua st = (Ok s, st') →
  ∃ t1 t2 srow,
    srow = new_session_row (Some (User_id (BrowserSession_user bs))) (Some (BrowserSession_id bs))
             (Client_id c) (DeviceCodeGrant_scope g) t1 ∧
    Session_scope s = DeviceCodeGrant_scope g ∧
    db_sessions (st_db st) !! Session_id s = None ∧
    is_Some (db_device_grants (st_db st) !! DeviceCodeGrant_id g) ∧
    ran st st' (device_session_created ua (Session_id s) srow t2 (DeviceCodeGrant_id g)).
Proof.
  unfold device_exchange_session, oauth2_session_add_from_browser_session. intros H. run_inv.
  apply session_add_inv in Hm as (t1 & srow & -> & _ & Hsc & _ & _ & _ & Hv & Hr1).
  apply device_exchange_inv in Hm0 as (t2 & b & f & _ & Hin & Hr2).
  apply record_ua_inv in H as [[n ->] Hr3].
  apply first_violation_None in Hv. rewrite !Forall_cons in Hv.
  destruct Hv as (_ & Hpk & _). apply pk_taken_false in Hpk.
  cbn [Session_id Session_scope Session_with_names].
  eexists t1, t2, _. split; [done|]. split; [done|]. split; [done|]. split.
  { by rewrite (proj1 Hr1) in Hin. }
  ran_chain. done.
Qed.

(** The refresh token of a device exchange: only for a client that uses it. *)
Definition device_refresh (c : Client) (db : DB) (sid aid : Ulid) (text : option string)
    (ins : DB → DB) : Prop :=
  if Client_has_grant_type c GrantType_RefreshToken then
    ∃ r rrow t, text = Some (RefreshToken_refresh_token r) ∧
      rrow = new_refresh_token_row sid aid (RefreshToken_refresh_token r) t ∧
      RefreshToken_try_from (RefreshToken_id r) rrow = Ok r ∧
      refresh_token_violation (RefreshToken_id r) sid aid (RefreshToken_refresh_token r) db = None ∧
      (∃ rng, RefreshToken_refresh_token r = (TokenType_generate TokenType_RefreshToken rng).1) ∧
      ins = on_refresh_tokens <[RefreshToken_id r := rrow]>
  else text = None ∧ ins = id.

(** A live access token for a session, under a free key and text. *)
Definition fresh_access (db : DB) (sid : Ulid) (ttl : Duration) (a : AccessToken)
    (arow : OAuth2AccessTokenRow) : Prop :=
  ∃ ta rng, arow = new_access_token_row sid (AccessToken_access_token a) ta (Some (ta + ttl)) ∧
    a = AccessToken_from (AccessToken_id a) arow ∧
    AccessToken_access_token a = (TokenType_generate TokenType_AccessToken rng).1 ∧
    access_token_violation (AccessToken_id a) sid (AccessToken_access_token a) db = None.

Lemma access_add_fresh s text ttl rng st a st' :
  text = (TokenType_generate TokenType_AccessToken rng).1 →
  access_token_add s text (Some ttl) st = (Ok a, st') →
  AccessToken_access_token a = text ∧
  ∃ arow, fresh_access (st_db st) (Session_id s) ttl a arow ∧
          ran st st' (on_access_tokens <[AccessToken_id a := arow]>).
Proof.
  intros Htext (ta & arow & Harow & Ha & Hv & Hr)%access_token_add_inv.
  assert (Hta := f_equal AccessToken_access_token Ha). rewrite Harow in Hta.
  cbn [AccessToken_access_token AccessToken_from new_access_token_row AccessTokenRow_access_token] in Hta.
  split; [done|]. exists arow. split; [|done]. exists ta, rng. rewrite Hta. by split_and!.
Qed.

Lemma refresh_add_fresh s a text st r st' :
  refresh_token_add s a text st = (Ok r, st') →
  RefreshToken_refresh_token r = text ∧
  ∃ rrow t, rrow = new_refresh_token_row (Session_id s) (AccessToken_id a) (RefreshToken_refresh_token r) t ∧
    RefreshToken_try_from (RefreshToken_id r) rrow = Ok r ∧
    refresh_token_violation (RefreshToken_id r) (Session_id s) (AccessToken_id a)
      (RefreshToken_refresh_token r) (st_db st) = None ∧
    ran st st' (on_refresh_tokens <[RefreshToken_id r := rrow]>).
Proof.
  intros (tr & rrow & Hrrow & Hr & Hv & Hran)%refresh_token_add_inv.
  apply RefreshToken_try_from_inv in Hr as Hr'. destruct Hr' as (_ & Htr & _).
  rewrite Hrrow in Htr. cbn [RefreshTokenRow_refresh_token new_refresh_token_row] in Htr.
  split; [done|]. exists rrow, tr. rewrite Htr. by split_and!.
Qed.

Lemma device_refresh_inv c s a params st params' st' :
  (if Client_has_grant_type c GrantType_RefreshToken then
     refresh_token_str ← with_rng (TokenType_generate TokenType_RefreshToken);
     refresh_token ← try_with Dce_Repository (refresh_token_add s a refresh_token_str);
     mret (with_refresh_token (RefreshToken_refresh_token refresh_token) params)
   else mret params) st = (Ok params', st') →
  Response_refresh_token params = None →
  ∃ ins, device_refresh c (st_db st) (Session_id s) (AccessToken_id a)
           (Response_refresh_token params') ins ∧
    Response_access_token params' = Response_access_token params ∧
    Response_scope params' = Response_scope params ∧ ran st st' ins.
Proof.
  unfold device_refresh. intros H Hnone. repo_inv; [|by exists id].
  match goal with H : refresh_token_add _ _ _ _ = _ |- _ =>
    apply refresh_add_fresh in H as (Ht & rrow & t & Hrow & Hr & Hv & Hrr) end.
  same_norm. eexists. split_and!; [|done..].
  eexists _, rrow, t. split_and!; try done. by eexists.
Qed.

Lemma device_issue_inv c bs s devs ttl ip st resp st' :
  device_exchange_issue c bs s devs ttl ip st = (Ok resp, st') →
  ∃ a arow ins, fresh_access (st_db st) (Session_id s) ttl a arow ∧
    Response_access_token resp = AccessToken_access_token a ∧
    Response_scope resp = (if Scope_is_empty (Session_scope s) then None else Some (Session_scope s)) ∧
    device_refresh c (on_access_tokens <[AccessToken_id a := arow]> (st_db st)) (Session_id s)
      (AccessToken_id a) (Response_refresh_token resp) ins ∧
    ran st st' (λ db, ins (on_access_tokens <[AccessToken_id a := arow]> db)).
Proof.
  unfold device_exchange_issue. intros H.
  apply bind_Ok_inv in H as (text & st1 & Hrng & H). apply with_rng_inv in Hrng as [Htext [Hd Hc]].
  apply bind_Ok_inv in H as (a & st2 & Ha & H). apply try_with_Ok_inv in Ha.
  eapply access_add_fresh in Ha as (Ha & arow & Hfresh & Har); [|exact Htext].
  rewrite Hd in Hfresh. assert (ran st st2 (on_access_tokens <[AccessToken_id a := arow]>)) as Har'.
  { eapply same_ran; [|exact Har]. by split. }
  apply bind_Ok_inv in H as (params & st3 & Hp & H).
  apply device_refresh_inv in Hp as (ins & Hins & Hpa & Hps & Hpr); [|done].
  rewrite (proj1 Har') in Hins. pose proof (ran_ran _ _ _ _ _ Har' Hpr) as Hran.
  cbn [Response_access_token Response_scope with_expires_in AccessTokenResponse_new] in *.
  clear Har Har' Hpr Hd Hc Htext.
  repeat (repo_step || match goal with
  | H : generate_id_token _ _ _ _ _ _ = _ |- _ => apply id_token_inv in H
  | H : user_acquire_lock_for_sync _ _ = _ |- _ => apply lock_inv in H
  | H : provision_devices _ _ _ _ _ = _ |- _ => apply provision_inv in H
  end); ran_chain; exists a, arow, ins; destruct (Scope_is_empty _); by split_and!.
Qed.

(** What a device exchange has shown. *)
Definition device_authorised (req : DeviceCodeGrantRequest) (c : Client) (now : DateTime) (db : DB)
    (gid : Ulid) (g : DeviceCodeGrant) (bs : BrowserSession) : Prop :=
  (∃ row, find_first (has_device_code (device_grant_device_code req)) (db_device_grants db)
            = Some (gid, row) ∧ DeviceCodeGrant_try_from gid row = Ok g) ∧
  (∃ f, DeviceCodeGrant_state g = Device_Fulfilled (BrowserSession_id bs) f) ∧
  Client_has_grant_type c GrantType_DeviceCode = true ∧
  Client_id c = DeviceCodeGrant_client_id g ∧ now ≤ DeviceCodeGrant_expires_at g ∧
  admin_scope_allowed (BrowserSession_user bs) (DeviceCodeGrant_scope g) = true ∧
  ∃ srow urow, db_user_sessions db !! BrowserSession_id bs = Some srow ∧
    db_users db !! UserSessionRow_user_id srow = Some urow ∧
    BrowserSession_user bs = User_build (UserSessionRow_user_id srow) urow.

Lemma device_inv req c ttl ip ua st resp st' :
  exchange_device_code req c ttl ip ua st = (Ok resp, st') →
  ∃ gid g bs, device_authorised req c (st_clock st 0%nat) (st_db st) gid g bs ∧
  ∃ sid t1 t2 srow a arow ins,
    srow = new_session_row (Some (User_id (BrowserSession_user bs))) (Some (BrowserSession_id bs))
             (Client_id c) (DeviceCodeGrant_scope g) t1 ∧
    db_sessions (st_db st) !! sid = None ∧
    fresh_access (device_session_created ua sid srow t2 gid (st_db st)) sid ttl a arow ∧
    Response_access_token resp = AccessToken_access_token a ∧
    Response_scope resp = (if Scope_is_empty (DeviceCodeGrant_scope g) then None
                           else Some (DeviceCodeGrant_scope g)) ∧
    device_refresh c (on_access_tokens <[AccessToken_id a := arow]>
      (device_session_created ua sid srow t2 gid (st_db st))) sid
      (AccessToken_id a) (Response_refresh_token resp) ins ∧
    ran st st' (λ db, ins (on_access_tokens <[AccessToken_id a := arow]>
      (device_session_created ua sid srow t2 gid db))).
Proof.
  unfold exchange_device_code. intros H. run_inv.
  apply device_grant_inv in Hm as ([Hd Hc] & Hgt & Hcl & Hexp & gid & row & Hfind & Hg).
  apply device_browser_inv in Hm0 as (-> & Hful & Hadm & Hbs).
  apply device_session_inv in Hm1 as (t1 & t2 & srow & Hsrow & Hsc & Hnone & _ & [Hd' Hc']).
  apply device_issue_inv in H as (at_ & arow & ins & Hfresh & Hra & Hrs & Href & [Hd2 Hc2]).
  destruct (Device_try_from_inv _ _ _ Hg) as [Hgid _]. rewrite Hgid, Hsc in *.
  rewrite Hd', Hd in *.
  exists gid, a, a0. split; [split_and!; by eauto|].
  exists (Session_id a1), t1, t2, srow, at_, arow, ins.
  split_and!; try done. split; congruence.
Qed.
End token_spec.
