(* ===== verification/Introspection.v ===== *)
(** Token introspection (crates/backend/src/handlers/oauth2):
    introspection_service.rs ([introspect_token]) and introspection.rs (the
    endpoint, its errors and how they are rendered). [normalize_scope] and
    [strip_admin_scope_unless] are in Scope.v. *)
From S2P Require Import Prelude Ids TokenFormat Scope Pkce Jose Keystore Domain Database Repository Handlers ClientAuth TokenService.

Open Scope Z_scope.

Inductive IntrospectionError :=
| Int_Repository (e : DatabaseError)
| Int_UnexpectedTokenType
| Int_InvalidTokenFormat (e : TokenFormatError)
| Int_UnknownToken (t : TokenType)
| Int_InvalidToken (t : TokenType)
| Int_InvalidOAuthSession (id : Ulid)
| Int_CantLoadOAuthSession (id : Ulid)
| Int_InvalidPersonalSession (id : Ulid)
| Int_CantLoadPersonalSession (id : Ulid)
| Int_InvalidUser (id : Ulid)
| Int_CantLoadUser (id : Ulid)
| Int_CantLoadOAuth2Client (id : Ulid).

Record IntrospectionResponse := {
  resp_active : bool;
  resp_scope : option ScopeSet;
  resp_client_id : option string;
  resp_username : option string;
  resp_token_type : option OAuthTokenTypeHint;
  resp_exp : option DateTime;
  resp_expires_in : option Duration;
  resp_iat : option DateTime;
  resp_nbf : option DateTime;
  resp_sub : option string;
  resp_aud : option string;
  resp_iss : option string;
  resp_jti : option string;
  resp_device_id : option string;
}.

Definition INACTIVE : IntrospectionResponse :=
  {| resp_active := false; resp_scope := None; resp_client_id := None; resp_username := None;
     resp_token_type := None; resp_exp := None; resp_expires_in := None; resp_iat := None;
     resp_nbf := None; resp_sub := None; resp_aud := None; resp_iss := None; resp_jti := None;
     resp_device_id := None |}.

(** [expires_at.map(|expires_at| expires_at.signed_duration_since(clock.now()))]:
    the clock is read only if there is an expiry. *)
Definition remaining {E} (expires_at : option DateTime) : M St E (option Duration) :=
  match expires_at with
  | None => mret None
  | Some expires_at => now ← clock_now; mret (Some (expires_at - now))
  end.

Section introspection.
Context {TX : TokenExternals} {UX : UrlExternals} {DX : DbExternals} {HX : HandlerExternals} {AX : ClientAuthExternals}.

(** The live session a token belongs to. *)
Definition introspect_session (session_id : Ulid) : M St IntrospectionError Session :=
  session ← try_with Int_Repository (oauth2_session_lookup session_id);
  session ← ok_or (Int_CantLoadOAuthSession session_id) session;
  _ ← require (Session_is_valid session) (Int_InvalidOAuthSession (Session_id session));
  mret session.

(** A user who must exist and be valid. *)
Definition introspect_user (user_id : Ulid) : M St IntrospectionError User :=
  user ← try_with Int_Repository (user_lookup user_id);
  user ← ok_or (Int_CantLoadUser user_id) user;
  _ ← require (User_is_valid user) (Int_InvalidUser (User_id user));
  mret user.

(** [(sub, username, is_admin)] of the session's user, if it has one. *)
Definition introspect_subject (session : Session)
    : M St IntrospectionError (option string * option string * bool) :=
  match Session_user_id session with
  | Some user_id =>
      user ← introspect_user user_id;
      mret (Some (User_sub user), Some (User_username user), User_can_request_admin user)
  | None => mret (None, None, false)
  end.

(** The branch of access tokens. *)
Definition introspect_access_token (token_str : string)
    : M St IntrospectionError IntrospectionResponse :=
  access_token ← try_with Int_Repository (access_token_find_by_token token_str);
  access_token ← ok_or (Int_UnknownToken TokenType_AccessToken) access_token;
  now ← clock_now;
  _ ← require (AccessToken_is_valid access_token now) (Int_InvalidToken TokenType_AccessToken);
  session ← introspect_session (AccessToken_session_id access_token);
  access_token ← (if AccessToken_is_used access_token then mret access_token
                  else try_with Int_Repository (access_token_mark_used access_token));
  subject ← introspect_subject session;
  let '(sub, username, is_admin) := subject in
  _ ← record_session_activity Kind_OAuth2 (Session_id session) None;
  let scope := normalize_scope (strip_admin_scope_unless (Session_scope session) is_admin) in
  expires_in ← remaining (AccessToken_expires_at access_token);
  mret {| resp_active := true;
          resp_scope := Some scope;
          resp_client_id := Some (ulid_to_string (Session_client_id session));
          resp_username := username;
          resp_token_type := Some Hint_AccessToken;
          resp_exp := AccessToken_expires_at access_token;
          resp_expires_in := expires_in;
          resp_iat := Some (AccessToken_created_at access_token);
          resp_nbf := Some (AccessToken_created_at access_token);
          resp_sub := sub;
          resp_aud := None;
          resp_iss := None;
          resp_jti := Some (ulid_to_string (AccessToken_id access_token));
          resp_device_id := None |}.

(** The branch of refresh tokens. *)
Definition introspect_refresh_token (token_str : string)
    : M St IntrospectionError IntrospectionResponse :=
  refresh_token ← try_with Int_Repository (refresh_token_find_by_token token_str);
  refresh_token ← ok_or (Int_UnknownToken TokenType_RefreshToken) refresh_token;
  _ ← require (RefreshTokenState_is_valid (RefreshToken_state refresh_token))
        (Int_InvalidToken TokenType_RefreshToken);
  session ← introspect_session (RefreshToken_session_id refresh_token);
  subject ← introspect_subject session;
  let '(sub, username, is_admin) := subject in
  _ ← record_session_activity Kind_OAuth2 (Session_id session) None;
  let scope := normalize_scope (strip_admin_scope_unless (Session_scope session) is_admin) in
  mret {| resp_active := true;
          resp_scope := Some scope;
          resp_client_id := Some (ulid_to_string (Session_client_id session));
          resp_username := username;
          resp_token_type := Some Hint_RefreshToken;
          resp_exp := None;
          resp_expires_in := None;
          resp_iat := Some (RefreshToken_created_at refresh_token);
          resp_nbf := Some (RefreshToken_created_at refresh_token);
          resp_sub := sub;
          resp_aud := None;
          resp_iss := None;
          resp_jti := Some (ulid_to_string (RefreshToken_id refresh_token));
          resp_device_id := None |}.

(** [(is_admin, client_id)] given the owner of a personal session. *)
Definition introspect_owner (owner : PersonalSessionOwner) (is_admin : bool)
    : M St IntrospectionError (bool * option string) :=
  match owner with
  | Owner_User owner_user_id =>
      owner_user ← introspect_user owner_user_id;
      mret (is_admin && User_can_request_admin owner_user, None)
  | Owner_OAuth2Client owner_client_id =>
      owner_client ← try_with Int_Repository (oauth2_client_lookup owner_client_id);
      owner_client ← ok_or (Int_CantLoadOAuth2Client owner_client_id) owner_client;
      mret (is_admin, Some (Client_client_id owner_client))
  end.

(** The branch of personal access tokens. *)
Definition introspect_personal_token (token_str : string)
    : M St IntrospectionError IntrospectionResponse :=
  access_token ← try_with Int_Repository (personal_token_find_by_token token_str);
  access_token ← ok_or (Int_UnknownToken TokenType_AccessToken) access_token;
  now ← clock_now;
  _ ← require (PersonalAccessToken_is_valid access_token now)
        (Int_InvalidToken TokenType_AccessToken);
  session ← try_with Int_Repository
              (personal_session_lookup (PersonalAccessToken_session_id access_token));
  session ← ok_or (Int_CantLoadPersonalSession (PersonalAccessToken_session_id access_token)) session;
  _ ← require (PersonalSessionState_is_valid (PersonalSession_state session))
        (Int_InvalidPersonalSession (PersonalSession_id session));
  actor_user ← introspect_user (PersonalSession_actor_user_id session);
  owner ← introspect_owner (PersonalSession_owner session) (User_can_request_admin actor_user);
  let '(is_admin, client_id) := owner in
  _ ← record_session_activity Kind_Personal (PersonalSession_id session) None;
  let scope := normalize_scope (strip_admin_scope_unless (PersonalSession_scope session) is_admin) in
  expires_in ← remaining (PersonalAccessToken_expires_at access_token);
  mret {| resp_active := true;
          resp_scope := Some scope;
          resp_client_id := client_id;
          resp_username := Some (User_username actor_user);
          resp_token_type := Some Hint_AccessToken;
          resp_exp := PersonalAccessToken_expires_at access_token;
          resp_expires_in := expires_in;
          resp_iat := Some (PersonalAccessToken_created_at access_token);
          resp_nbf := Some (PersonalAccessToken_created_at access_token);
          resp_sub := Some (User_sub actor_user);
          resp_aud := None;
          resp_iss := None;
          resp_jti := None;
          resp_device_id := None |}.

Definition introspect_token (token_str : string) (token_type_hint : option OAuthTokenTypeHint)
    : M St IntrospectionError IntrospectionResponse :=
  token_type ← of_result (result_map_err Int_InvalidTokenFormat (TokenType_check token_str));
  _ ← (match token_type_hint with
       | Some hint => require (TokenType_eq_hint token_type hint) Int_UnexpectedTokenType
       | None => mret tt
       end);
  match token_type with
  | TokenType_AccessToken => introspect_access_token token_str
  | TokenType_RefreshToken => introspect_refresh_token token_str
  | TokenType_PersonalAccessToken => introspect_personal_token token_str
  end.

(** ** The endpoint (introspection.rs) *)

Inductive IntrospectionRouteError :=
| IntRoute_Internal
| IntRoute_ClientNotFound
| IntRoute_NotAllowed (id : Ulid)
| IntRoute_Inactive (e : IntrospectionError)
| IntRoute_BadRequest
| IntRoute_FailedToVerifyToken
| IntRoute_ClientCredentialsVerification
| IntRoute_InvalidBearerToken.

(** What is sent back: a status with an error code, or a reply. *)
Inductive IntrospectionOutput :=
| IntOut_Error (status : Z) (code : ClientErrorCode)
| IntOut_Reply (r : IntrospectionResponse).

(** [impl Scribe for RouteError] *)
Definition IntrospectionRouteError_render (e : IntrospectionRouteError) : IntrospectionOutput :=
  match e with
  | IntRoute_Internal | IntRoute_FailedToVerifyToken => IntOut_Error 500 ServerError
  | IntRoute_ClientNotFound | IntRoute_ClientCredentialsVerification =>
      IntOut_Error 401 InvalidClient
  | IntRoute_InvalidBearerToken => IntOut_Error 401 AccessDenied
  | IntRoute_Inactive inner =>
      match inner with
      | Int_Repository _ | Int_CantLoadOAuthSession _ | Int_CantLoadPersonalSession _
      | Int_CantLoadUser _ | Int_CantLoadOAuth2Client _ => IntOut_Error 500 ServerError
      | _ => IntOut_Reply INACTIVE
      end
  | IntRoute_NotAllowed _ => IntOut_Error 401 AccessDenied
  | IntRoute_BadRequest => IntOut_Error 400 InvalidRequest
  end.

(** The caller may introspect: the homeserver, or a confidential client. *)
Definition introspection_authenticate (credentials : Credentials) : M St IntrospectionRouteError () :=
  match bearer_token credentials with
  | Some token =>
      ok ← ok_or IntRoute_FailedToVerifyToken (homeserver_verify_token token);
      require ok IntRoute_InvalidBearerToken
  | None =>
      client ← try_with (λ _, IntRoute_Internal) (credentials_fetch credentials);
      client ← ok_or IntRoute_ClientNotFound client;
      method ← match Client_token_endpoint_auth_method client with
               | None | Some Auth_None => raise (IntRoute_NotAllowed (Client_id client))
               | Some c => mret c
               end;
      now ← clock_now;
      of_result (result_map_err (λ _, IntRoute_ClientCredentialsVerification)
        (credentials_verify credentials method client now))
  end.

(** An [IntrospectionRequest]: the token and the hint. *)
Definition introspection_handle_post (req : ClientRequest (string * option OAuthTokenTypeHint))
    : M St IntrospectionRouteError IntrospectionResponse :=
  client_authorization ← of_result (result_map_err (λ _, IntRoute_Internal) (extract_from_request req));
  _ ← introspection_authenticate (authorization_credentials client_authorization);
  form ← ok_or IntRoute_BadRequest (authorization_form client_authorization);
  reply ← try_with IntRoute_Inactive (introspect_token form.1 form.2);
  _ ← repo_save;
  mret reply.

(** [post]: the reply or the rendered error. *)
Definition introspection_post (req : ClientRequest (string * option OAuthTokenTypeHint)) (st : St)
    : IntrospectionOutput * St :=
  match introspection_handle_post req st with
  | (Ok reply, st) => (IntOut_Reply reply, st)
  | (Err e, st) => (IntrospectionRouteError_render e, st)
  end.
End introspection.
