(* ===== verification/Revocation.v ===== *)
(** Token revocation (crates/backend/src/handlers/oauth2):
    revocation_service.rs ([revoke_token], [revoke_personal_token]) and
    revoke.rs (the endpoint, its errors and how they are rendered). *)
From S2P Require Import Prelude Ids TokenFormat Scope Pkce Jose Keystore Domain Database Repository Handlers ClientAuth TokenService Introspection.

Open Scope Z_scope.

Inductive RevocationError :=
| Rev_Repository (e : DatabaseError)
| Rev_UnsupportedTokenType
| Rev_UnknownToken
| Rev_UnauthorizedClient.

Section revocation.
Context {TX : TokenExternals} {UX : UrlExternals} {DX : DbExternals} {HX : HandlerExternals} {AX : ClientAuthExternals}.

(** The owner check of a personal session; [None] is the homeserver. *)
Definition owner_is_client (owner : PersonalSessionOwner) (client_id : option Ulid) : bool :=
  match client_id with
  | None => true
  | Some client_id =>
      match owner with
      | Owner_OAuth2Client owner_client_id => bool_decide (owner_client_id = client_id)
      | Owner_User _ => false
      end
  end.

Definition revoke_personal_token (ip : option IpAddr) (token_str : string)
    (client_id : option Ulid) : M St RevocationError () :=
  access_token ← try_with Rev_Repository (personal_token_find_by_token token_str);
  access_token ← ok_or Rev_UnknownToken access_token;
  now ← clock_now;
  _ ← require (PersonalAccessToken_is_valid access_token now) Rev_UnknownToken;
  session ← try_with Rev_Repository
              (personal_session_lookup (PersonalAccessToken_session_id access_token));
  session ← ok_or Rev_UnknownToken session;
  _ ← require (PersonalSessionState_is_valid (PersonalSession_state session)) Rev_UnknownToken;
  _ ← require (owner_is_client (PersonalSession_owner session) client_id) Rev_UnauthorizedClient;
  _ ← record_session_activity Kind_Personal (PersonalSession_id session) ip;
  _ ← try_with Rev_Repository (personal_token_revoke access_token);
  revoked ← try_with Rev_Repository (personal_session_revoke session);
  if PersonalSession_has_device revoked then
    try_with Rev_Repository (schedule_sync_devices_job (PersonalSession_actor_user_id revoked))
  else mret tt.

(** The session of a live token, by the hint and the type of the token. *)
Definition revocation_session_id (token_str : string) (token_type_hint : option OAuthTokenTypeHint)
    (token_type : TokenType) : M St RevocationError Ulid :=
  match token_type_hint, token_type with
  | Some Hint_AccessToken, TokenType_AccessToken | None, TokenType_AccessToken =>
      access_token ← try_with Rev_Repository (access_token_find_by_token token_str);
      access_token ← ok_or Rev_UnknownToken access_token;
      now ← clock_now;
      _ ← require (AccessToken_is_valid access_token now) Rev_UnknownToken;
      mret (AccessToken_session_id access_token)
  | Some Hint_RefreshToken, TokenType_RefreshToken | None, TokenType_RefreshToken =>
      refresh_token ← try_with Rev_Repository (refresh_token_find_by_token token_str);
      refresh_token ← ok_or Rev_UnknownToken refresh_token;
      _ ← require (RefreshTokenState_is_valid (RefreshToken_state refresh_token)) Rev_UnknownToken;
      mret (RefreshToken_session_id refresh_token)
  | Some Hint_AccessToken, _ | Some Hint_RefreshToken, _ | None, _ => raise Rev_UnknownToken
  | Some _, _ => raise Rev_UnsupportedTokenType
  end.

(** The session is live, the client may end it, and it is ended. *)
Definition revoke_session (ip : option IpAddr) (session_id : Ulid) (client_id : option Ulid)
    : M St RevocationError () :=
  session ← try_with Rev_Repository (oauth2_session_lookup session_id);
  session ← ok_or Rev_UnknownToken session;
  _ ← require (Session_is_valid session) Rev_UnknownToken;
  _ ← require (match client_id with
               | Some client_id => bool_decide (client_id = Session_client_id session)
               | None => true
               end) Rev_UnauthorizedClient;
  _ ← record_session_activity Kind_OAuth2 (Session_id session) ip;
  _ ← match Session_user_id session with
      | Some user_id =>
          user ← try_with Rev_Repository (user_lookup user_id);
          user ← ok_or Rev_UnknownToken user;
          try_with Rev_Repository (schedule_sync_devices_job (User_id user))
      | None => mret tt
      end;
  _ ← try_with Rev_Repository (oauth2_session_finish session);
  mret tt.

Definition revoke_token (ip : option IpAddr) (token_str : string)
    (token_type_hint : option OAuthTokenTypeHint) (client_id : option Ulid)
    : M St RevocationError () :=
  token_type ← of_result (result_map_err (λ _, Rev_UnknownToken) (TokenType_check token_str));
  match token_type with
  | TokenType_PersonalAccessToken =>
      _ ← require (match token_type_hint with Some Hint_RefreshToken => false | _ => true end)
            Rev_UnknownToken;
      revoke_personal_token ip token_str client_id
  | _ =>
      session_id ← revocation_session_id token_str token_type_hint token_type;
      revoke_session ip session_id client_id
  end.

(** ** The endpoint (revoke.rs) *)

Inductive RevokeRouteError :=
| RevRoute_Internal
| RevRoute_BadRequest
| RevRoute_ClientNotFound
| RevRoute_ClientNotAllowed
| RevRoute_InvalidClientCredentials (client_id : Ulid)
| RevRoute_ClientCredentialsVerification (client_id : Ulid)
| RevRoute_Revocation (e : RevocationError).

Inductive RevokeErrorCode :=
| Rec_ServerError | Rec_InvalidRequest | Rec_InvalidClient | Rec_UnauthorizedClient
| Rec_UnsupportedTokenType.

(** [impl Scribe for RouteError]: the status, and the code of the body if any. *)
Definition RevokeRouteError_render (e : RevokeRouteError) : Z * option RevokeErrorCode :=
  match e with
  | RevRoute_Internal | RevRoute_ClientCredentialsVerification _ => (500, Some Rec_ServerError)
  | RevRoute_BadRequest => (400, Some Rec_InvalidRequest)
  | RevRoute_ClientNotFound | RevRoute_InvalidClientCredentials _ => (401, Some Rec_InvalidClient)
  | RevRoute_ClientNotAllowed => (401, Some Rec_UnauthorizedClient)
  | RevRoute_Revocation inner =>
      match inner with
      | Rev_Repository _ => (500, Some Rec_ServerError)
      | Rev_UnsupportedTokenType => (400, Some Rec_UnsupportedTokenType)
      | Rev_UnknownToken => (200, None)
      | Rev_UnauthorizedClient => (401, Some Rec_UnauthorizedClient)
      end
  end.

(** [None] for the homeserver, else the authenticated client. A bearer token the
    homeserver does not know falls through to the client, which it does not name. *)
Definition revoke_authenticate (credentials : Credentials) : M St RevokeRouteError (option Ulid) :=
  admin_mode ← match bearer_token credentials with
               | Some token => ok_or RevRoute_Internal (homeserver_verify_token token)
               | None => mret false
               end;
  if admin_mode : bool then mret None
  else
    client ← try_with (λ _, RevRoute_Internal) (credentials_fetch credentials);
    client ← ok_or RevRoute_ClientNotFound client;
    _ ← check_credentials RevRoute_ClientNotAllowed
          (RevRoute_InvalidClientCredentials (Client_id client))
          (RevRoute_ClientCredentialsVerification (Client_id client)) credentials client;
    mret (Some (Client_id client)).

Definition revoke_handle_post (ip : option IpAddr)
    (req : ClientRequest (string * option OAuthTokenTypeHint)) : M St RevokeRouteError () :=
  client_authorization ← of_result (result_map_err (λ _, RevRoute_Internal) (extract_from_request req));
  client_id ← revoke_authenticate (authorization_credentials client_authorization);
  form ← ok_or RevRoute_BadRequest (authorization_form client_authorization);
  _ ← try_with RevRoute_Revocation (revoke_token ip form.1 form.2 client_id);
  repo_save.
End revocation.
