(* ===== verification/Consent.v ===== *)
(** Consent (crates/backend/src/handlers/oauth2): access.rs (the consent screens
    of authorization grants and device grants, accepting and rejecting them),
    authorization/callback.rs ([CallbackDestination]) and device/authorize.rs
    (the device authorization endpoint). *)
From S2P Require Import Prelude Ids TokenFormat Scope Pkce Jose Keystore Domain Database Repository Handlers ClientAuth TokenService.

Open Scope Z_scope.

Record AuthorizationResponse := {
  authz_code : option string;
  authz_access_token : option string;
  authz_token_type : option string;
  authz_id_token : option string;
  authz_expires_in : option Duration;
}.

(** The parts of [url], [serde_urlencoded], the URL builder and the homeserver
    connection the handlers call. *)
Class ConsentExternals := {
  url_fragment : Url → option string;
  url_query : Url → option string;
  url_set_query : Url → option string → Url;
  url_set_fragment : Url → option string → Url;
  (** [serde_urlencoded::from_str] into a map *)
  urlencoded_from_str : string → option (gmap string string);
  (** [serde_urlencoded::to_string] of existing parameters, state and response *)
  urlencoded_to_string : option (gmap string string) → option string → AuthorizationResponse →
    option string;
  device_code_link : Url;
  device_code_link_full : string → Url;
  homeserver_mxid : string → string;
}.

(** ** Callback destinations (authorization/callback.rs) *)

Inductive CallbackDestinationMode :=
| Callback_Query (existing_params : gmap string string)
| Callback_Fragment
| Callback_FormPost.

Record CallbackDestination := {
  callback_mode : CallbackDestinationMode;
  callback_safe_redirect_uri : Url;
  callback_state : option string;
}.

Inductive IntoCallbackDestinationError :=
| Callback_RedirectUriFragmentNotAllowed
| Callback_RedirectUriInvalidQueryParams
| Callback_UnsupportedResponseMode.

Record RedirectInfo := {
  redirect_info_url : string;
  redirect_info_response_mode : string;
}.

Inductive OAuth2AccessError :=
| Access_NotFound
| Access_GrantNotPending
| Access_GrantExpired
| Access_PolicyViolation
| Access_Repository (e : DatabaseError)
| Access_Internal.

Section callback.
Context {CX : ConsentExternals}.

(** [redirect_uri.query().map(from_str).transpose()?.unwrap_or_default()] *)
Definition existing_query_params (redirect_uri : Url)
    : result (gmap string string) IntoCallbackDestinationError :=
  match url_query redirect_uri with
  | None => Ok ∅
  | Some q =>
      match urlencoded_from_str q with
      | Some params => Ok params
      | None => Err Callback_RedirectUriInvalidQueryParams
      end
  end.

Definition CallbackDestination_try_new (mode : ResponseMode) (redirect_uri : Url)
    (state : option string) : result CallbackDestination IntoCallbackDestinationError :=
  if bool_decide (is_Some (url_fragment redirect_uri)) then
    Err Callback_RedirectUriFragmentNotAllowed
  else
    match mode with
    | ResponseMode_Query =>
        result_bind (existing_query_params redirect_uri) (λ existing_params,
        Ok {| callback_mode := Callback_Query existing_params;
              callback_safe_redirect_uri := url_set_query redirect_uri None;
              callback_state := state |})
    | ResponseMode_Fragment =>
        Ok {| callback_mode := Callback_Fragment;
              callback_safe_redirect_uri := redirect_uri;
              callback_state := state |}
    | ResponseMode_FormPost =>
        Ok {| callback_mode := Callback_FormPost;
              callback_safe_redirect_uri := redirect_uri;
              callback_state := state |}
    | ResponseMode_Unknown _ => Err Callback_UnsupportedResponseMode
    end.

Definition CallbackDestination_try_from (value : AuthorizationGrant)
    : result CallbackDestination IntoCallbackDestinationError :=
  CallbackDestination_try_new (AuthorizationGrant_response_mode value)
    (AuthorizationGrant_redirect_uri value) (AuthorizationGrant_state value).

(** [None] when the parameters cannot be serialised. *)
Definition CallbackDestination_redirect_url (self : CallbackDestination)
    (params : AuthorizationResponse) : option RedirectInfo :=
  match callback_mode self with
  | Callback_Query existing_params =>
      (λ new_qs, {| redirect_info_url := url_set_query (callback_safe_redirect_uri self) (Some new_qs);
                    redirect_info_response_mode := "query" |})
      <$> urlencoded_to_string (Some existing_params) (callback_state self) params
  | Callback_Fragment =>
      (λ new_qs, {| redirect_info_url := url_set_fragment (callback_safe_redirect_uri self) (Some new_qs);
                    redirect_info_response_mode := "fragment" |})
      <$> urlencoded_to_string None (callback_state self) params
  | Callback_FormPost =>
      (λ new_qs, {| redirect_info_url := url_set_query (callback_safe_redirect_uri self) (Some new_qs);
                    redirect_info_response_mode := "form_post" |})
      <$> urlencoded_to_string None (callback_state self) params
  end.
End callback.

(** ** Consent screens (access.rs) *)

Record MatrixUser := {
  matrix_mxid : string;
  matrix_display_name : option string;
}.

Record AuthorizationConsentInfo := {
  consent_grant : AuthorizationGrant;
  consent_client : Client;
  consent_matrix_user : MatrixUser;
  consent_policy_violation : bool;
  consent_admin_required : bool;
}.

Record ConsentScreen := {
  screen_grant_id : Ulid;
  screen_client : Client;
  screen_scope : string;
  screen_user_mxid : string;
  screen_user_display_name : option string;
  screen_policy_violation : bool;
  screen_admin_required : bool;
}.

Definition ConsentScreen_from (info : AuthorizationConsentInfo) : ConsentScreen :=
  {| screen_grant_id := AuthorizationGrant_id (consent_grant info);
     screen_client := consent_client info;
     screen_scope := Scope_to_string (AuthorizationGrant_scope (consent_grant info));
     screen_user_mxid := matrix_mxid (consent_matrix_user info);
     screen_user_display_name := matrix_display_name (consent_matrix_user info);
     screen_policy_violation := consent_policy_violation info;
     screen_admin_required := consent_admin_required info |}.

Record AuthorizationConsentDecision := {
  decision_session : Session;
  decision_callback_destination : CallbackDestination;
  decision_params : AuthorizationResponse;
}.

Inductive DeviceConsentAction := Action_Consent | Action_Reject.
Inductive DeviceConsentStatus := Status_Fulfilled | Status_Rejected.

(** The answer of [homeserver.query_user] within a second: [None] for an error
    or a time-out, else the display name of the user. *)
Definition fetch_display_name (query_user : string → option (option string)) (localpart : string)
    : option string :=
  match query_user localpart with
  | Some displayname => displayname
  | None => None
  end.

Section consent.
Context {TX : TokenExternals} {UX : UrlExternals} {DX : DbExternals} {HX : HandlerExternals}
        {AX : ClientAuthExternals} {CX : ConsentExternals}.

Definition has_policy_violation (browser_session : BrowserSession) (client : Client)
    (scope : ScopeSet) (grant_type : PolicyGrantType) (requester_ip : option IpAddr)
    (user_agent : option string) : M St OAuth2AccessError bool :=
  if negb (admin_scope_allowed (BrowserSession_user browser_session) scope) then mret true
  else
    _ ← require policy_instantiates Access_Internal;
    session_counts ← try_with Access_Repository
                       (count_user_sessions_for_limiting (BrowserSession_user browser_session));
    eval_result ← ok_or Access_Internal (policy_evaluate
      {| input_user := Some (BrowserSession_user browser_session);
         input_client := client;
         input_session_counts := Some session_counts;
         input_scope := scope;
         input_grant_type := grant_type;
         input_ip_address := requester_ip;
         input_user_agent := user_agent |});
    mret (negb (EvaluationResult_valid eval_result)).

Definition load_authorization_consent (query_user : string → option (option string))
    (browser_session : BrowserSession) (grant_id : Ulid) (requester_ip : option IpAddr)
    (user_agent : option string) : M St OAuth2AccessError AuthorizationConsentInfo :=
  grant ← try_with Access_Repository (authorization_grant_lookup grant_id);
  grant ← ok_or Access_NotFound grant;
  _ ← require (AuthorizationGrantStage_is_pending (AuthorizationGrant_stage grant))
        Access_GrantNotPending;
  client ← try_with Access_Repository (oauth2_client_lookup (AuthorizationGrant_client_id grant));
  client ← ok_or Access_NotFound client;
  let admin_required := negb (admin_scope_allowed (BrowserSession_user browser_session)
                                (AuthorizationGrant_scope grant)) in
  policy_violation ← has_policy_violation browser_session client (AuthorizationGrant_scope grant)
                       Policy_AuthorizationCode requester_ip user_agent;
  _ ← repo_cancel;
  let localpart := User_username (BrowserSession_user browser_session) in
  mret {| consent_grant := grant;
          consent_client := client;
          consent_matrix_user :=
            {| matrix_mxid := homeserver_mxid localpart;
               matrix_display_name := fetch_display_name query_user localpart |};
          consent_policy_violation := policy_violation;
          consent_admin_required := admin_required |}.

Definition build_authorization_response (client : Client) (grant : AuthorizationGrant)
    (browser_session : BrowserSession) : M St OAuth2AccessError AuthorizationResponse :=
  id_token ← (if AuthorizationGrant_response_type_id_token grant then
                last_authentication ← try_with Access_Repository
                  (browser_session_get_last_authentication browser_session);
                id_token ← try_with (λ _, Access_Internal)
                  (generate_id_token client (Some grant) browser_session None last_authentication);
                mret (Some id_token)
              else mret None);
  mret {| authz_code := AuthorizationCode_code <$> AuthorizationGrant_code grant;
          authz_access_token := None;
          authz_token_type := None;
          authz_id_token := id_token;
          authz_expires_in := None |}.

(** The grant was already fulfilled: the callback is replayed for the same user. *)
Definition replay_authorization_consent (callback_destination : CallbackDestination)
    (client : Client) (grant : AuthorizationGrant) (browser_session : BrowserSession)
    (session_id : Ulid) : M St OAuth2AccessError AuthorizationConsentDecision :=
  session ← try_with Access_Repository (oauth2_session_lookup session_id);
  session ← ok_or Access_NotFound session;
  _ ← require (bool_decide (Session_user_id session =
                            Some (User_id (BrowserSession_user browser_session))))
        Access_GrantNotPending;
  params ← build_authorization_response client grant browser_session;
  _ ← repo_cancel;
  mret {| decision_session := session;
          decision_callback_destination := callback_destination;
          decision_params := params |}.

(** The grant is fulfilled with a new session. *)
Definition fulfill_authorization_consent (callback_destination : CallbackDestination)
    (client : Client) (grant : AuthorizationGrant) (browser_session : BrowserSession)
    (requester_ip : option IpAddr) (user_agent : option string)
    : M St OAuth2AccessError AuthorizationConsentDecision :=
  _ ← require (AuthorizationGrantStage_is_pending (AuthorizationGrant_stage grant))
        Access_GrantNotPending;
  violation ← has_policy_violation browser_session client (AuthorizationGrant_scope grant)
                Policy_AuthorizationCode requester_ip user_agent;
  _ ← require (negb violation) Access_PolicyViolation;
  session ← try_with Access_Repository
    (oauth2_session_add_from_browser_session client browser_session (AuthorizationGrant_scope grant));
  grant ← try_with Access_Repository (authorization_grant_fulfill session grant);
  params ← build_authorization_response client grant browser_session;
  _ ← repo_save;
  mret {| decision_session := session;
          decision_callback_destination := callback_destination;
          decision_params := params |}.

Definition accept_authorization_consent (browser_session : BrowserSession) (grant_id : Ulid)
    (requester_ip : option IpAddr) (user_agent : option string)
    : M St OAuth2AccessError AuthorizationConsentDecision :=
  grant ← try_with Access_Repository (authorization_grant_lookup grant_id);
  grant ← ok_or Access_NotFound grant;
  callback_destination ← of_result (result_map_err (λ _, Access_Internal)
                           (CallbackDestination_try_from grant));
  client ← try_with Access_Repository (oauth2_client_lookup (AuthorizationGrant_client_id grant));
  client ← ok_or Access_NotFound client;
  match AuthorizationGrant_stage grant with
  | Grant_Fulfilled session_id _ =>
      replay_authorization_consent callback_destination client grant browser_session session_id
  | _ =>
      fulfill_authorization_consent callback_destination client grant browser_session
        requester_ip user_agent
  end.

(** ** Device grants (access.rs) *)

Definition DeviceCodeGrantState_is_rejected (self : DeviceCodeGrantState) : bool :=
  match self with Device_Rejected _ _ => true | _ => false end.

(** [filter(is_pending).filter(|grant| grant.expires_at > clock.now())]: the
    clock is read for a pending grant only. *)
Definition lookup_device_link (code : string) : M St OAuth2AccessError (option Ulid) :=
  grant ← try_with Access_Repository (device_grant_find_by_user_code code);
  grant ← match grant with
          | Some grant =>
              if DeviceCodeGrantState_is_pending (DeviceCodeGrant_state grant) then
                now ← clock_now;
                mret (if now <? DeviceCodeGrant_expires_at grant then Some grant else None)
              else mret None
          | None => mret None
          end;
  _ ← repo_cancel;
  mret (DeviceCodeGrant_id <$> grant).

(** The grant exists and has not expired, and its client exists. *)
Definition device_consent_grant (grant_id : Ulid)
    : M St OAuth2AccessError (DeviceCodeGrant * Client) :=
  grant ← try_with Access_Repository (device_grant_lookup grant_id);
  grant ← ok_or Access_NotFound grant;
  now ← clock_now;
  _ ← require (negb (DeviceCodeGrant_expires_at grant <? now)) Access_GrantExpired;
  client ← try_with Access_Repository (oauth2_client_lookup (DeviceCodeGrant_client_id grant));
  client ← ok_or Access_NotFound client;
  mret (grant, client).

Definition load_device_consent (query_user : string → option (option string))
    (browser_session : BrowserSession) (grant_id : Ulid) (requester_ip : option IpAddr)
    (user_agent : option string) : M St OAuth2AccessError ConsentScreen :=
  gc ← device_consent_grant grant_id;
  let grant := gc.1 in
  let client := gc.2 in
  policy_violation ← has_policy_violation browser_session client (DeviceCodeGrant_scope grant)
                       Policy_DeviceCode requester_ip user_agent;
  _ ← repo_cancel;
  let localpart := User_username (BrowserSession_user browser_session) in
  mret {| screen_grant_id := DeviceCodeGrant_id grant;
          screen_client := client;
          screen_scope := Scope_to_string (DeviceCodeGrant_scope grant);
          screen_user_mxid := homeserver_mxid localpart;
          screen_user_display_name := fetch_display_name query_user localpart;
          screen_policy_violation := policy_violation;
          screen_admin_required := negb (admin_scope_allowed (BrowserSession_user browser_session)
                                           (DeviceCodeGrant_scope grant)) |}.

Definition submit_device_consent (browser_session : BrowserSession) (grant_id : Ulid)
    (action : DeviceConsentAction) (requester_ip : option IpAddr) (user_agent : option string)
    : M St OAuth2AccessError DeviceConsentStatus :=
  gc ← device_consent_grant grant_id;
  let grant := gc.1 in
  let client := gc.2 in
  violation ← has_policy_violation browser_session client (DeviceCodeGrant_scope grant)
                Policy_DeviceCode requester_ip user_agent;
  _ ← require (negb violation) Access_PolicyViolation;
  status ← (if DeviceCodeGrantState_is_pending (DeviceCodeGrant_state grant) then
              match action with
              | Action_Consent =>
                  _ ← try_with Access_Repository (device_grant_fulfill grant browser_session);
                  mret Status_Fulfilled
              | Action_Reject =>
                  _ ← try_with Access_Repository (device_grant_reject grant browser_session);
                  mret Status_Rejected
              end
            else if DeviceCodeGrantState_is_rejected (DeviceCodeGrant_state grant) then
              mret Status_Rejected
            else mret Status_Fulfilled);
  _ ← repo_save;
  mret status.

(** ** The device authorization endpoint (device/authorize.rs) *)

Inductive DeviceRouteError :=
| DevRoute_Internal
| DevRoute_ClientNotFound
| DevRoute_ClientNotAllowed (id : Ulid)
| DevRoute_InvalidClientCredentials (client_id : Ulid)
| DevRoute_ClientCredentialsVerification (client_id : Ulid).

Definition DeviceRouteError_render (e : DeviceRouteError) : Z * ClientErrorCode :=
  match e with
  | DevRoute_Internal | DevRoute_ClientCredentialsVerification _ => (500, ServerError)
  | DevRoute_ClientNotFound | DevRoute_InvalidClientCredentials _ => (401, InvalidClient)
  | DevRoute_ClientNotAllowed _ => (401, UnauthorizedClient)
  end.

Record DeviceAuthorizationResponse := {
  device_resp_device_code : string;
  device_resp_user_code : string;
  device_resp_verification_uri : Url;
  device_resp_verification_uri_complete : option Url;
  device_resp_expires_in : Duration;
  device_resp_interval : option Duration;
}.

(** [char::to_ascii_uppercase] on the alphanumeric sample. *)
Definition ascii_upper (c : ascii) : ascii :=
  if (97 <=? Z.of_nat (nat_of_ascii c)) && (Z.of_nat (nat_of_ascii c) <=? 122)
  then ascii_of_nat (nat_of_ascii c - 32) else c.
Fixpoint to_uppercase (s : string) : string :=
  match s with
  | EmptyString => EmptyString
  | String c s => String (ascii_upper c) (to_uppercase s)
  end.

Definition DEVICE_CODE_LIFETIME : Duration := 20 * 60 * 1000 * 1000.

(** The form is the scope asked for; [sample32] and [sample6] are the texts drawn
    from the thread's generator. *)
Definition device_authorize_handle_post (req : ClientRequest (option ScopeSet))
    (ip_address : option IpAddr) (user_agent : option string)
    (sample32 sample6 : string) : M St DeviceRouteError DeviceAuthorizationResponse :=
  client_authorization ← of_result (result_map_err (λ _, DevRoute_Internal) (extract_from_request req));
  let credentials := authorization_credentials client_authorization in
  client ← try_with (λ _, DevRoute_Internal) (credentials_fetch credentials);
  client ← ok_or DevRoute_ClientNotFound client;
  _ ← check_credentials (DevRoute_ClientNotAllowed (Client_id client))
        (DevRoute_InvalidClientCredentials (Client_id client))
        (DevRoute_ClientCredentialsVerification (Client_id client)) credentials client;
  _ ← require (Client_has_grant_type client GrantType_DeviceCode)
        (DevRoute_ClientNotAllowed (Client_id client));
  let scope := default ∅ (authorization_form client_authorization ≫= id) in
  device_code ← try_with (λ _, DevRoute_Internal) (device_grant_add
    {| dg_client := client;
       dg_scope := scope;
       dg_device_code := sample32;
       dg_user_code := to_uppercase sample6;
       dg_expires_in := DEVICE_CODE_LIFETIME;
       dg_ip_address := ip_address;
       dg_user_agent := user_agent |});
  _ ← repo_save;
  mret {| device_resp_device_code := DeviceCodeGrant_device_code device_code;
          device_resp_user_code := DeviceCodeGrant_user_code device_code;
          device_resp_verification_uri := device_code_link;
          device_resp_verification_uri_complete :=
            Some (device_code_link_full (DeviceCodeGrant_user_code device_code));
          device_resp_expires_in := DEVICE_CODE_LIFETIME;
          device_resp_interval := Some (5 * 1000 * 1000) |}.
End consent.
