(* ===== verification/Authorization.v ===== *)
(** The authorization endpoint: crates/backend/src/handlers/oauth2/authorization/mod.rs,
    with the comparison of redirect URIs of oauth2/mod.rs and the session cookie of
    crates/backend/src/salvo_utils/session.rs.

    The query string is decoded by the framework: a request holds what the
    decoders give. The loop that samples a code runs on fuel; running out of it
    is an outcome of the model alone ([AuthzRoute_Diverges]). *)
From S2P Require Import Prelude Ids TokenFormat Scope ResponseTypes Pkce Jose Keystore Domain Database Repository Handlers ClientAuth TokenService Consent.

Open Scope Z_scope.

(** ** Requests *)

(** The fields of an [AuthorizationRequest] the handler reads. *)
Record AuthorizationRequest := {
  auth_response_type : gset ResponseTypeToken;
  auth_client_id : string;
  auth_redirect_uri : option Url;
  auth_scope : ScopeSet;
  auth_state : option string;
  auth_response_mode : option ResponseMode;
  auth_nonce : option string;
  auth_prompt : option (list Prompt);
  auth_login_hint : option string;
  auth_request : option string;
  auth_request_uri : option Url;
  auth_registration : option string;
}.

(** [Params]: the request and its PKCE parameters (method and challenge). *)
Record Params := {
  params_auth : AuthorizationRequest;
  params_pkce : option (PkceCodeChallengeMethod * string);
}.

(** What the framework decodes of a request: the query, the value of
    [redirect_uri] in it, the identifier in the session cookie (both fallible),
    the language and
    the address of the client. *)
Record AuthorizationHttpRequest := {
  http_params : option Params;
  http_redirect_uri : option string;
  http_session : option (option Ulid);
  http_locale : string;
  http_ip : option IpAddr;
}.

Inductive AuthorizationRouteError :=
| AuthzRoute_Internal
| AuthzRoute_ClientNotFound
| AuthzRoute_InvalidResponseMode
| AuthzRoute_IntoCallbackDestination (e : IntoCallbackDestinationError)
| AuthzRoute_UnknownRedirectUri (e : InvalidRedirectUriError)
| AuthzRoute_Diverges.

(** The status of a rendered error. *)
Definition AuthorizationRouteError_render (e : AuthorizationRouteError) : Z :=
  match e with
  | AuthzRoute_Internal | AuthzRoute_Diverges => 500
  | _ => 400
  end.

(** What is sent back: a redirection, or a page that posts a form. *)
Inductive AuthorizationHttpResponse :=
| Authz_Redirect (location : string)
| Authz_FormPost (html : string).

Class AuthorizationExternals := {
  (** [url.scheme()] and [url.port()] *)
  url_scheme : Url → string;
  url_port : Url → option Z;
  (** [serde_urlencoded::to_string] of existing parameters, state and error *)
  urlencoded_error : option (gmap string string) → option string → ClientErrorCode → option string;
  (** [templates.render_form_post] with the URL, the state, the error and the language *)
  render_form_post : Url → option string → ClientErrorCode → string → option string;
  (** [serde_urlencoded::to_string] of [PostAuthAction::continue_grant] *)
  continue_grant_query : Ulid → option string;
  (** [url_builder.relative_url] *)
  relative_url : string → string;
}.

(** ** Codes *)

Definition CODE_LIMIT : Z := 248.
Definition CODE_LENGTH : nat := 32.

(** The inner loop: the bytes below the limit become characters, until the code
    is complete. *)
Fixpoint push_code_bytes (out : list ascii) (buf : list Z) : list ascii :=
  match buf with
  | [] => out
  | b :: buf =>
      if b <? CODE_LIMIT then
        let out := out ++ [charset_char b] in
        if (length out =? CODE_LENGTH)%nat then out else push_code_bytes out buf
      else push_code_bytes out buf
  end.

(** The outer loop, at most [fuel] times. *)
Fixpoint sample_code_loop (fuel : nat) (out : list ascii) (rng : Rng) : option (list ascii * Rng) :=
  if (length out <? CODE_LENGTH)%nat then
    match fuel with
    | O => None
    | S fuel =>
        let '(buf, rng) := fill_bytes 64 rng in
        sample_code_loop fuel (push_code_bytes out buf) rng
    end
  else Some (out, rng).

Definition sample_code (fuel : nat) (rng : Rng) : option string * Rng :=
  match sample_code_loop fuel [] rng with
  | Some (out, rng) => (Some (string_of_chars out), rng)
  | None => (None, rng)
  end.

Section authorization.
Context {UX : UrlExternals} {DX : DbExternals} {HX : HandlerExternals}
        {CX : ConsentExternals} {ZX : AuthorizationExternals}.

(** ** Redirect URIs and response modes *)

(** [redirect_uri_matches_authorized] (oauth2/mod.rs) *)
Definition redirect_uri_matches_authorized (raw : string) (authorized : Url) : bool :=
  if bool_decide (raw = authorized) then true
  else if bool_decide (url_scheme authorized ≠ "http") || bool_decide (is_Some (url_port authorized))
  then false
  else match url_host_str authorized with
       | None => false
       | Some host =>
           if bool_decide (host ≠ "localhost") && bool_decide (host ≠ "127.0.0.1")
              && bool_decide (host ≠ "[::1]") then false
           else
             let prefix := "http://" +:+ host in
             match strip_prefix prefix authorized with
             | Some suffix => bool_decide (raw = prefix +:+ ":80" +:+ suffix)
             | None => false
             end
       end.

Definition resolve_response_mode (response_type : gset ResponseTypeToken)
    (suggested_response_mode : option ResponseMode) : result ResponseMode AuthorizationRouteError :=
  if ResponseType_has_token response_type || ResponseType_has_id_token response_type then
    match suggested_response_mode with
    | None => Ok ResponseMode_Fragment
    | Some ResponseMode_Query => Err AuthzRoute_InvalidResponseMode
    | Some mode => Ok mode
    end
  else Ok (default ResponseMode_Query suggested_response_mode).

(** [CallbackDestination::go] with an error: [None] when it cannot be made. *)
Definition CallbackDestination_go (self : CallbackDestination) (locale : string)
    (params : ClientErrorCode) : option AuthorizationHttpResponse :=
  match callback_mode self with
  | Callback_Query existing_params =>
      (λ new_qs, Authz_Redirect (url_set_query (callback_safe_redirect_uri self) (Some new_qs)))
      <$> urlencoded_error (Some existing_params) (callback_state self) params
  | Callback_Fragment =>
      (λ new_qs, Authz_Redirect (url_set_fragment (callback_safe_redirect_uri self) (Some new_qs)))
      <$> urlencoded_error None (callback_state self) params
  | Callback_FormPost =>
      Authz_FormPost <$>
        render_form_post (callback_safe_redirect_uri self) (callback_state self) params locale
  end.

(** [callback_destination.go(..)?] *)
Definition go (dest : CallbackDestination) (locale : string) (code : ClientErrorCode)
    : M St AuthorizationRouteError AuthorizationHttpResponse :=
  ok_or AuthzRoute_Internal (CallbackDestination_go dest locale code).

(** [SessionInfo::load_active_session] *)
Definition load_active_session (current : option Ulid)
    : M St DatabaseError (option BrowserSession) :=
  match current with
  | None => mret None
  | Some session_id =>
      maybe_session ← browser_session_lookup session_id;
      mret (match maybe_session with
            | Some s => if BrowserSession_active s then Some s else None
            | None => None
            end)
  end.

(** [count] with the filter [for_browser_session], and [active_only] of it. *)
Definition oauth2_session_count_for_browser_session (user_session : BrowserSession) (active : bool)
    : M St DatabaseError nat :=
  gets (λ st, size (filter (λ kr : Z * OAuthSessionRow,
    OAuthSessionRow_user_session_id kr.2 = Some (BrowserSession_id user_session) ∧
    (active = true → OAuthSessionRow_finished_at kr.2 = None)) (db_sessions (st_db st)))).

(** *** The handler *)

(** [format!("{page}?{query}")] for the page that continues the grant. *)
Definition continue_at (page : string) (grant_id : Ulid) : AuthorizationHttpResponse :=
  let query_str := default EmptyString (continue_grant_query grant_id) in
  let path := if bool_decide (query_str = EmptyString) then page else page +:+ "?" +:+ query_str in
  Authz_Redirect (relative_url path).

(** Where the user goes with the new grant; the grant is saved first. *)
Definition authorization_redirect (maybe_session : option BrowserSession) (prompt : list Prompt)
    (grant_id : Ulid) (ip : option IpAddr) : M St AuthorizationRouteError AuthorizationHttpResponse :=
  match maybe_session with
  | None =>
      _ ← repo_save;
      mret (continue_at (if bool_decide (Prompt_Create ∈ prompt) then "/register" else "/login") grant_id)
  | Some user_session =>
      if bool_decide (Prompt_Create ∈ prompt) then
        _ ← repo_save; mret (continue_at "/register" grant_id)
      else if bool_decide (Prompt_Login ∈ prompt) then
        _ ← repo_save; mret (continue_at "/login" grant_id)
      else
        total ← try_with (λ _, AuthzRoute_Internal)
                  (oauth2_session_count_for_browser_session user_session false);
        active ← try_with (λ _, AuthzRoute_Internal)
                   (oauth2_session_count_for_browser_session user_session true);
        _ ← repo_save;
        if (0 <? total)%nat && (active =? 0)%nat then mret (continue_at "/login" grant_id)
        else
          _ ← record_session_activity Kind_Browser (BrowserSession_id user_session) ip;
          mret (Authz_Redirect (relative_url ("/consent/" +:+ ulid_to_string grant_id)))
  end.

(** The checks that end in an error for the client; [None] if there is none. *)
Definition authorization_refusal (client : Client) (params : Params) : option ClientErrorCode :=
  let auth := params_auth params in
  let response_type := auth_response_type auth in
  if bool_decide (is_Some (auth_request auth)) then Some RequestNotSupported
  else if bool_decide (is_Some (auth_request_uri auth)) then Some RequestUriNotSupported
  else if ResponseType_has_token response_type then Some UnsupportedResponseType
  else if ResponseType_has_id_token response_type && negb (Client_has_grant_type client GrantType_Implicit)
  then Some UnauthorizedClient
  else if bool_decide (is_Some (auth_registration auth)) then Some RegistrationNotSupported
  else if bool_decide (Prompt_None ∈ default [] (auth_prompt auth)) then Some LoginRequired
  else if ResponseType_has_code response_type then
    if negb (Client_has_grant_type client GrantType_AuthorizationCode) then Some UnauthorizedClient
    else None
  else if bool_decide (is_Some (params_pkce params)) then Some InvalidRequest
  else None.

(** The code of the grant, if the response type asks for one. *)
Definition authorization_code_for (fuel : nat) (params : Params)
    : M St AuthorizationRouteError (option AuthorizationCode) :=
  if ResponseType_has_code (auth_response_type (params_auth params)) then
    code ← with_rng (sample_code fuel);
    code ← ok_or AuthzRoute_Diverges code;
    mret (Some {| AuthorizationCode_code := code;
                  AuthorizationCode_pkce :=
                    (λ p, {| pkce_challenge_method := p.1; pkce_challenge := p.2 |})
                    <$> params_pkce params |})
  else mret None.

(** The inner block: everything once there is a callback destination. *)
Definition authorization_inner (fuel : nat) (client : Client) (params : Params)
    (current : option Ulid) (locale : string) (redirect_uri : Url) (raw_redirect_uri : string)
    (response_mode : ResponseMode) (dest : CallbackDestination) (ip : option IpAddr)
    : M St AuthorizationRouteError AuthorizationHttpResponse :=
  let auth := params_auth params in
  maybe_session ← try_with (λ _, AuthzRoute_Internal) (load_active_session current);
  match authorization_refusal client params with
  | Some code => go dest locale code
  | None =>
      code ← authorization_code_for fuel params;
      grant ← try_with (λ _, AuthzRoute_Internal)
                (authorization_grant_add client redirect_uri raw_redirect_uri (auth_scope auth) code
                   (auth_state auth) (auth_nonce auth) response_mode
                   (ResponseType_has_id_token (auth_response_type auth)) (auth_login_hint auth) (Some locale));
      authorization_redirect maybe_session (default [] (auth_prompt auth))
        (AuthorizationGrant_id grant) ip
  end.

(** [match inner_result { Ok(r) => r, Err(_) => go(ServerError)? }] *)
Definition or_server_error (dest : CallbackDestination) (locale : string)
    (inner : M St AuthorizationRouteError AuthorizationHttpResponse)
    : M St AuthorizationRouteError AuthorizationHttpResponse := λ st,
  match inner st with
  | (Ok response, st) => (Ok response, st)
  | (Err AuthzRoute_Diverges, st) => (Err AuthzRoute_Diverges, st)
  | (Err _, st) => go dest locale ServerError st
  end.

(** [handle_get] *)
Definition authorization_handle_get (fuel : nat) (req : AuthorizationHttpRequest)
    : M St AuthorizationRouteError AuthorizationHttpResponse :=
  params ← ok_or AuthzRoute_Internal (http_params req);
  current ← ok_or AuthzRoute_Internal (http_session req);
  let auth := params_auth params in
  client ← try_with (λ _, AuthzRoute_Internal)
             (oauth2_client_find_by_client_id (auth_client_id auth));
  client ← ok_or AuthzRoute_ClientNotFound client;
  _ ← require (negb match http_redirect_uri req, auth_redirect_uri auth with
                    | Some raw, Some uri => negb (redirect_uri_matches_authorized raw uri)
                    | _, _ => false
                    end) (AuthzRoute_UnknownRedirectUri RedirectUri_NotAllowed);
  redirect_uri ← of_result (result_map_err AuthzRoute_UnknownRedirectUri
                   (Client_resolve_redirect_uri client (auth_redirect_uri auth)));
  let raw_redirect_uri := default redirect_uri (http_redirect_uri req) in
  response_mode ← of_result (resolve_response_mode (auth_response_type auth) (auth_response_mode auth));
  dest ← of_result (result_map_err AuthzRoute_IntoCallbackDestination
           (CallbackDestination_try_new response_mode redirect_uri (auth_state auth)));
  or_server_error dest (http_locale req)
    (authorization_inner fuel client params current (http_locale req) redirect_uri raw_redirect_uri
       response_mode dest (http_ip req)).
End authorization.
