(* ===== verification/Profile.v ===== *)
(** What users change about their own account (backend/src): the profile
    (services/user_profile.rs, [patch_viewer_profile]) and the deactivation of the
    account (handlers/account/service/profile.rs), with the handlers of
    handlers/account/users.rs that call them and the requester of handlers/common.rs. *)
From S2P Require Import Prelude Ids RateLimit Passwords TokenFormat Scope Pkce Jose Keystore Domain Accounts Database Repository Handlers AccountRepository Pagination AdminRepository Registration Login ClientAuth Consent Authorization.

Open Scope Z_scope.

(** ** The requester (handlers/common.rs, admin/mod.rs) *)

Inductive RequestingEntity :=
| Entity_Anonymous
| Entity_BrowserSession (session : BrowserSession)
| Entity_OAuth2Session (session : Session) (user : option User).

Definition requester_browser_session (self : RequestingEntity) : option BrowserSession :=
  match self with Entity_BrowserSession session => Some session | _ => None end.
Definition requester_user (self : RequestingEntity) : option User :=
  match self with
  | Entity_BrowserSession session => Some (BrowserSession_user session)
  | Entity_OAuth2Session _ user => user
  | Entity_Anonymous => None
  end.

Definition has_admin_scope (scope : ScopeSet) : bool :=
  bool_decide (ADMIN_SCOPE ∈ scope) || bool_decide (ADMIN_SCOPE_LEGACY ∈ scope).

Definition requester_is_admin (self : RequestingEntity) : bool :=
  match self with
  | Entity_OAuth2Session session user =>
      has_admin_scope (Session_scope session) && may_hold_admin_scope user
  | _ => false
  end.

Section requester.
Context {DX : DbExternals}.

(** [get_requester]: the session of the cookie, if it is active. *)
Definition get_requester (current : option Ulid) (ip : option IpAddr)
    : M St DatabaseError RequestingEntity :=
  maybe_session ← load_active_session current;
  match maybe_session with
  | None => mret Entity_Anonymous
  | Some session =>
      _ ← record_session_activity Kind_Browser (BrowserSession_id session) ip;
      mret (Entity_BrowserSession session)
  end.
End requester.

(** ** The profile (services/user_profile.rs) *)

Inductive UserProfileServiceError :=
| Profile_NotFound
| Profile_Unauthorized
| Profile_InvalidDisplayName
| Profile_Homeserver
| Profile_Repository (e : DatabaseError).

Definition UserProfilePatch_is_empty (self : UserProfilePatch) : bool :=
  bool_decide (profile_display_name self = None) && bool_decide (profile_avatar_url self = None) &&
  bool_decide (profile_preferred_locale self = None).

(** A name of 1 to 256 bytes; it may be cleared. *)
Definition validate_display_name_patch (patch : UserProfilePatch) : result () UserProfileServiceError :=
  match profile_display_name patch with
  | Some (Some name) =>
      if bool_decide (name = "") || (256 <? String.length name)%nat
      then Err Profile_InvalidDisplayName else Ok tt
  | _ => Ok tt
  end.

Definition sync_display_name_patch (user : User) (patch : option (option string))
    : M St UserProfileServiceError () :=
  match patch with
  | None => mret tt
  | Some (Some name) => homeserver_call Profile_Homeserver (Hs_SetDisplayname (User_username user) name)
  | Some None => homeserver_call Profile_Homeserver (Hs_UnsetDisplayname (User_username user))
  end.

Section profile.
Context {DX : DbExternals} {XX : AccountExternals} {WX : PasswordExternals}.

Definition patch_viewer_profile (requester : RequestingEntity) (patch : UserProfilePatch)
    : M St UserProfileServiceError User :=
  requester_user ← ok_or Profile_Unauthorized (requester_user requester);
  _ ← of_result (validate_display_name_patch patch);
  user ← try_with Profile_Repository (user_lookup (User_id requester_user));
  user ← ok_or Profile_NotFound user;
  if UserProfilePatch_is_empty patch then mret user
  else
    user ← try_with Profile_Repository (user_update_profile user patch);
    _ ← sync_display_name_patch user (profile_display_name patch);
    mret user.

(** [patch_profile] of handlers/account/users.rs; what it answers is the user. *)
Definition patch_profile (current : option Ulid) (ip : option IpAddr) (patch : UserProfilePatch)
    : M St UserProfileServiceError User :=
  requester ← try_with Profile_Repository (get_requester current ip);
  user ← patch_viewer_profile requester patch;
  _ ← repo_save;
  mret user.

(** ** The deactivation of an account (account/service/profile.rs) *)

Inductive DeactivateAccountOutcome := Deactivate_IncorrectPassword | Deactivate_Deactivated.

Inductive AccountProfileError :=
| AccountProfile_NotFound
| AccountProfile_Unauthorized
| AccountProfile_BrowserSessionRequired
| AccountProfile_DeactivationDisabled
| AccountProfile_LastAdmin
| AccountProfile_Password (e : AnyhowError)
| AccountProfile_Homeserver
| AccountProfile_Repository (e : DatabaseError).

(** The settings it reads. *)
Record DeactivationConfig := {
  account_deactivation_allowed : bool;
  deactivation_password_login_enabled : bool;
}.

Definition deactivate_if_needed_error (error : VerifyPasswordIfNeededError) : AccountProfileError :=
  match error with
  | IfNeeded_Password e => AccountProfile_Password e
  | IfNeeded_Repository e => AccountProfile_Repository e
  end.

(** The deployment keeps an active administrator. *)
Definition refuse_last_admin {E} (repository : DatabaseError → E) (last : E) : M St E () :=
  _ ← try_with repository user_acquire_bootstrap_admin_lock;
  active_admins ← try_with repository (user_count active_admins_only);
  require (1 <? active_admins)%nat last.

Definition deactivate_current_account (requester : RequestingEntity) (config : DeactivationConfig)
    (password_manager : PasswordManager) (password : option string) (hs_erase : bool)
    : M St AccountProfileError DeactivateAccountOutcome :=
  browser_session ← ok_or AccountProfile_BrowserSessionRequired (requester_browser_session requester);
  _ ← require (account_deactivation_allowed config) AccountProfile_DeactivationDisabled;
  password_ok ← try_with deactivate_if_needed_error
    (verify_password_if_needed (requester_is_admin requester)
       (deactivation_password_login_enabled config) password_manager password
       (BrowserSession_user browser_session));
  if negb password_ok then
    _ ← repo_cancel;
    mret Deactivate_IncorrectPassword
  else
    let user := BrowserSession_user browser_session in
    _ ← (if User_can_request_admin user
         then refuse_last_admin AccountProfile_Repository AccountProfile_LastAdmin else mret tt);
    user ← try_with AccountProfile_Repository (user_deactivate user);
    _ ← try_with AccountProfile_Repository (schedule_deactivate_user_job user hs_erase);
    _ ← repo_save;
    mret Deactivate_Deactivated.

(** [deactivate_user] of handlers/account/users.rs *)
Definition deactivate_user (current : option Ulid) (ip : option IpAddr) (config : DeactivationConfig)
    (password_manager : PasswordManager) (password : option string) (hs_erase : bool)
    : M St AccountProfileError DeactivateAccountOutcome :=
  requester ← try_with AccountProfile_Repository (get_requester current ip);
  deactivate_current_account requester config password_manager password hs_erase.
End profile.
