(* ===== verification/Admin.v ===== *)
(** The administration interface (backend/src/handlers/admin): who may call it
    (call_context.rs), and its handlers for personal sessions, users, registration
    tokens, sessions and addresses (v1/*.rs), with the service
    services/user_admin.rs. *)
From stdpp Require Import pretty.
From S2P Require Import Prelude Ids RateLimit Passwords TokenFormat Scope Pkce Jose Keystore Domain Accounts Database Repository Handlers TokenService AccountRepository Pagination AdminRepository AdminApi Registration Login ClientAuth Consent Authorization Profile.

Open Scope Z_scope.

(** ** The caller (call_context.rs) *)

(** What a handler reads of a request besides its body: the header, if it is text, the [id] of the
    path and the address. *)
Record AdminHttp := {
  http_authorization : option (option string);
  http_id : option string;
  http_ip : option IpAddr;
}.

Inductive CallerSession :=
| Caller_OAuth2Session (session : Session)
| Caller_PersonalSession (session : PersonalSession).

Definition CallerSession_scope (self : CallerSession) : ScopeSet :=
  match self with
  | Caller_OAuth2Session session => Session_scope session
  | Caller_PersonalSession session => PersonalSession_scope session
  end.
Definition CallerSession_user_id (self : CallerSession) : option Ulid :=
  match self with
  | Caller_OAuth2Session session => Session_user_id session
  | Caller_PersonalSession session => Some (PersonalSession_actor_user_id session)
  end.

Record CallContext := { ctx_user : option User; ctx_session : CallerSession }.

(** The token of the header. *)
Definition caller_bearer (authorization : option (option string)) : result string Rejection :=
  match authorization with
  | None => Err Rej_MissingAuthorizationHeader
  | Some None => Err Rej_InvalidAuthorizationHeader
  | Some (Some auth_str) =>
      match strip_prefix "Bearer " auth_str with
      | Some token => Ok token
      | None =>
          match strip_prefix "bearer " auth_str with
          | Some token => Ok token
          | None => Err Rej_InvalidAuthorizationHeader
          end
      end
  end.

Section context.
Context {TX : TokenExternals} {DX : DbExternals}.

Definition load_user (id : Ulid) : M St Rejection User :=
  user ← try_with Rej_Repository (user_lookup id);
  ok_or (Rej_LoadUser id) user.

Definition access_token_caller (token : string) (ip : option IpAddr) : M St Rejection CallerSession :=
  access_token ← try_with Rej_Repository (access_token_find_by_token token);
  access_token ← ok_or Rej_UnknownAccessToken access_token;
  session ← try_with Rej_Repository (oauth2_session_lookup (AccessToken_session_id access_token));
  session ← ok_or (Rej_LoadSession (AccessToken_session_id access_token)) session;
  _ ← require (Session_is_valid session) Rej_SessionRevoked;
  now ← clock_now;
  _ ← require (AccessToken_is_valid access_token now) Rej_TokenExpired;
  _ ← record_session_activity Kind_OAuth2 (Session_id session) ip;
  mret (Caller_OAuth2Session session).

Definition personal_token_caller (token : string) (ip : option IpAddr) : M St Rejection CallerSession :=
  access_token ← try_with Rej_Repository (personal_token_find_by_token token);
  access_token ← ok_or Rej_UnknownAccessToken access_token;
  session ← try_with Rej_Repository
              (personal_session_lookup (PersonalAccessToken_session_id access_token));
  session ← ok_or (Rej_LoadSession (PersonalAccessToken_session_id access_token)) session;
  _ ← require (PersonalSessionState_is_valid (PersonalSession_state session)) Rej_SessionRevoked;
  now ← clock_now;
  _ ← require (PersonalAccessToken_is_valid access_token now) Rej_TokenExpired;
  _ ← match PersonalSession_owner session with
      | Owner_User owner_user_id =>
          owner_user ← load_user owner_user_id;
          require (User_is_valid owner_user) Rej_UserLocked
      | Owner_OAuth2Client _ => mret tt
      end;
  _ ← record_session_activity Kind_Personal (PersonalSession_id session) ip;
  mret (Caller_PersonalSession session).

(** The user of the session. A personal session always has one. *)
Definition caller_user (session : CallerSession) : M St Rejection (option User) :=
  match CallerSession_user_id session with
  | None => mret None
  | Some user_id =>
      user ← load_user user_id;
      _ ← match session with
          | Caller_OAuth2Session _ => require (User_is_valid user) Rej_UserLocked
          | Caller_PersonalSession _ => require (User_is_valid_actor user) Rej_UserLocked
          end;
      mret (Some user)
  end.

(** The user that owns a personal session it is not the actor of must be an administrator too. *)
Definition check_owner (session : CallerSession) (user : option User) : M St Rejection () :=
  match session with
  | Caller_PersonalSession personal =>
      match PersonalSession_owner personal with
      | Owner_User owner_id =>
          if match user with Some actor => bool_decide (User_id actor = owner_id) | None => false end
          then mret tt
          else
            owner ← load_user owner_id;
            require (may_hold_admin_scope (Some owner)) Rej_NotAdmin
      | Owner_OAuth2Client _ => mret tt
      end
  | Caller_OAuth2Session _ => mret tt
  end.

Definition extract_call_context (req : AdminHttp) : M St Rejection CallContext :=
  token ← of_result (caller_bearer (http_authorization req));
  token_type ← of_result
    (result_map_err (λ e, Rej_InvalidAccessTokenType (Some e)) (TokenType_check token));
  session ← match token_type with
            | TokenType_AccessToken => access_token_caller token (http_ip req)
            | TokenType_PersonalAccessToken => personal_token_caller token (http_ip req)
            | TokenType_RefreshToken => raise (Rej_InvalidAccessTokenType None)
            end;
  user ← caller_user session;
  _ ← require (has_admin_scope (CallerSession_scope session)) Rej_MissingScope;
  _ ← require (may_hold_admin_scope user) Rej_NotAdmin;
  _ ← require (match user with Some user => User_is_valid user | None => true end) Rej_UserLocked;
  _ ← check_owner session user;
  mret {| ctx_user := user; ctx_session := session |}.

(** [extract_call_context(req, depot).await?] in a handler *)
Definition call_context (req : AdminHttp) : M St AppError CallContext :=
  try_with AppError_from_rejection (extract_call_context req).

(** [extract_ulid_param(req)?] (params.rs) *)
Definition ulid_param (req : AdminHttp) : M St AppError Ulid :=
  ok_or App_BadRequest (http_id req ≫= ulid_from_string).
End context.

(** [..await?] and [.ok_or_else(|| AppError::not_found(..))?] *)
Definition repo {A} (m : M St DatabaseError A) : M St AppError A := try_with App_Repository m.
Definition found {A} (m : M St DatabaseError (option A)) : M St AppError A :=
  entry ← repo m; ok_or App_NotFound entry.

(** ** Personal sessions (v1/personal_sessions.rs) *)

Definition personal_session_owner_from_caller (caller : CallerSession) : PersonalSessionOwner :=
  match caller with
  | Caller_OAuth2Session entry =>
      match Session_user_id entry with
      | Some uid => Owner_User uid
      | None => Owner_OAuth2Client (Session_client_id entry)
      end
  | Caller_PersonalSession entry => Owner_User (PersonalSession_actor_user_id entry)
  end.

Record AddSessionRequest := {
  add_actor_user_id : Ulid;
  add_human_name : string;
  add_scope : string;
  (** [u32] *)
  add_expires_in : option Z;
}.

(** [Duration::seconds] *)
Definition seconds (secs : Z) : Duration := secs * 1000000.

#[export] Instance PersonalSessionOwner_eq_dec : EqDecision PersonalSessionOwner.
Proof. solve_decision. Defined.

Section personal_sessions.
Context {TX : TokenExternals} {DX : DbExternals} {QX : AdminExternals}.

(** A new token for a session: the text and what is stored of it. *)
Definition issue_personal_token (session : PersonalSession) (expires_in : option Z)
    : M St AppError (string * PersonalAccessToken) :=
  raw_token ← with_rng (TokenType_generate TokenType_PersonalAccessToken);
  record ← repo (personal_token_add session raw_token (seconds <$> expires_in));
  mret (raw_token, record).

Definition add_session (req : AdminHttp) (body : option AddSessionRequest)
    : M St AppError (SingleResponse ApiPersonalSession) :=
  ctx ← call_context req;
  body ← ok_or App_BadRequest body;
  let owner := personal_session_owner_from_caller (ctx_session ctx) in
  target_user ← found (user_lookup (add_actor_user_id body));
  _ ← require (User_is_valid_actor target_user) App_Gone;
  parsed_scope ← of_result (result_map_err (λ _, App_BadRequest) (Scope_from_str (add_scope body)));
  _ ← require (negb (requires_admin parsed_scope && negb (may_hold_admin_scope (Some target_user))))
        App_Forbidden;
  new_session ← repo (personal_session_add owner target_user (add_human_name body) parsed_scope);
  issued ← issue_personal_token new_session (add_expires_in body);
  _ ← (if PersonalSession_has_device new_session then
         _ ← repo (user_acquire_lock_for_sync target_user);
         provision_devices App_Homeserver target_user
           (matrix_device_ids (PersonalSession_scope new_session)) None
       else mret tt);
  _ ← repo_save;
  api ← of_result (ApiPersonalSession_try_from new_session (Some issued.2));
  mret (new_canonical (with_token issued.1 api)).

Definition get_session (req : AdminHttp) : M St AppError (SingleResponse ApiPersonalSession) :=
  _ ← call_context req;
  target_id ← ulid_param req;
  entry ← found (personal_session_lookup target_id);
  active_token ← (if PersonalSessionState_is_revoked (PersonalSession_state entry) then mret None
                  else repo (personal_token_find_active_for_session entry));
  api ← of_result (ApiPersonalSession_try_from entry active_token);
  mret (new_canonical api).

(** A body that does not parse is one without a lifetime. *)
Definition regenerate_session (req : AdminHttp) (body : option (option Z))
    : M St AppError (SingleResponse ApiPersonalSession) :=
  ctx ← call_context req;
  target_id ← ulid_param req;
  let expires_in := default None body in
  entry ← found (personal_session_lookup target_id);
  _ ← require (PersonalSessionState_is_valid (PersonalSession_state entry)) App_UnprocessableEntity;
  _ ← require (bool_decide (PersonalSession_owner entry =
                            personal_session_owner_from_caller (ctx_session ctx))) App_Forbidden;
  previous_token ← repo (personal_token_find_active_for_session entry);
  prev ← ok_or App_UnprocessableEntity previous_token;
  _ ← repo (personal_token_revoke prev);
  issued ← issue_personal_token entry expires_in;
  _ ← repo_save;
  api ← of_result (ApiPersonalSession_try_from entry (Some issued.2));
  mret (new_canonical (with_token issued.1 api)).

Definition revoke_personal_session (req : AdminHttp) : M St AppError (SingleResponse ApiPersonalSession) :=
  ctx ← call_context req;
  target_id ← ulid_param req;
  entry ← found (personal_session_lookup target_id);
  _ ← require (negb (PersonalSessionState_is_revoked (PersonalSession_state entry))) App_Conflict;
  revoked ← repo (personal_session_revoke entry);
  _ ← (if PersonalSession_has_device revoked then
         repo (schedule_sync_devices_job (PersonalSession_actor_user_id revoked))
       else mret tt);
  _ ← repo (record_admin_operation (ctx_user ctx) Op_SessionTerminated "personal_session"
              (Some target_id) (Json_Object []));
  _ ← repo_save;
  api ← of_result (ApiPersonalSession_try_from revoked None);
  mret (new_canonical api).
End personal_sessions.

(** ** Registration tokens (v1/user_registration_tokens.rs) *)

Record AddTokenRequest := {
  add_token : option string;
  (** [u32] *)
  add_usage_limit : option Z;
  add_expires_at : option DateTime;
}.

(** A field that is absent, [null] or a value. *)
Record UpdateTokenRequest := {
  update_expires_at : option (option DateTime);
  update_usage_limit : option (option Z);
}.

Record TokenFilterParams := {
  token_filter_used : option bool;
  token_filter_revoked : option bool;
  token_filter_expired : option bool;
  token_filter_valid : option bool;
}.
Definition TokenFilterParams_display (self : TokenFilterParams) : string :=
  print_params "?"
    (opt_param "filter[used]" show_bool (token_filter_used self) ++
     opt_param "filter[revoked]" show_bool (token_filter_revoked self) ++
     opt_param "filter[expired]" show_bool (token_filter_expired self) ++
     opt_param "filter[valid]" show_bool (token_filter_valid self)).

Section registration_tokens.
Context {TX : TokenExternals} {DX : DbExternals} {QX : AdminExternals}.

(** The resource at the present time. *)
Definition token_now (token : UserRegistrationToken) : M St AppError ApiRegistrationToken :=
  now ← clock_now; mret (ApiRegistrationToken_new token now).

Definition token_action (target_id : Ulid) (action : string) : string :=
  "/api/admin/v1/user-registration-tokens/" +:+ ulid_to_string target_id +:+ action.

(** [sample12] is what [Alphanumeric.sample_string(&mut rand::rng(), 12)] draws. *)
Definition add_registration_token (req : AdminHttp) (body : option AddTokenRequest) (sample12 : string)
    : M St AppError (SingleResponse ApiRegistrationToken) :=
  ctx ← call_context req;
  body ← ok_or App_BadRequest body;
  let token_str := default sample12 (add_token body) in
  duplicate ← repo (user_registration_token_find_by_token token_str);
  _ ← require (negb (bool_decide (is_Some duplicate))) App_Conflict;
  entry ← repo (user_registration_token_add token_str (add_usage_limit body) (add_expires_at body));
  _ ← repo (record_admin_operation (ctx_user ctx) Op_RegistrationTokenCreated "registration_token"
              (Some (UserRegistrationToken_id entry)) (Json_Object []));
  _ ← repo_save;
  api ← token_now entry;
  mret (new_canonical api).

Definition get_token (req : AdminHttp) : M St AppError (SingleResponse ApiRegistrationToken) :=
  _ ← call_context req;
  target_id ← ulid_param req;
  entry ← found (user_registration_token_lookup target_id);
  api ← token_now entry;
  mret (new_canonical api).

Definition list_tokens (req : AdminHttp) (page : option PaginationParams)
    (params : option TokenFilterParams) : M St AppError (PaginatedResponse ApiRegistrationToken) :=
  _ ← call_context req;
  paging ← of_result (result_map_err (λ _, App_BadRequest) (extract_pagination page));
  params ← ok_or App_BadRequest params;
  let base := add_to_base paging.2 (PATH ApiRegistrationToken +:+ TokenFilterParams_display params) in
  now ← clock_now;
  let filter := {| rtf_now := now; rtf_has_been_used := token_filter_used params;
                   rtf_is_revoked := token_filter_revoked params;
                   rtf_is_expired := token_filter_expired params;
                   rtf_is_valid := token_filter_valid params |} in
  paginated_response paging.2 (user_registration_token_list filter paging.1)
    (user_registration_token_count filter) (λ t, ApiRegistrationToken_new t now) paging.1 base.

Definition revoke_registration_token (req : AdminHttp)
    : M St AppError (SingleResponse ApiRegistrationToken) :=
  ctx ← call_context req;
  target_id ← ulid_param req;
  entry ← found (user_registration_token_lookup target_id);
  _ ← require (negb (bool_decide (is_Some (UserRegistrationToken_revoked_at entry)))) App_BadRequest;
  revoked ← repo (user_registration_token_revoke entry);
  _ ← repo (record_admin_operation (ctx_user ctx) Op_RegistrationTokenRevoked "registration_token"
              (Some target_id) (Json_Object []));
  _ ← repo_save;
  api ← token_now revoked;
  mret (SingleResponse_new api (token_action target_id "/revoke")).

Definition unrevoke_registration_token (req : AdminHttp)
    : M St AppError (SingleResponse ApiRegistrationToken) :=
  _ ← call_context req;
  target_id ← ulid_param req;
  entry ← found (user_registration_token_lookup target_id);
  _ ← require (bool_decide (is_Some (UserRegistrationToken_revoked_at entry))) App_BadRequest;
  restored ← repo (user_registration_token_unrevoke entry);
  _ ← repo_save;
  api ← token_now restored;
  mret (SingleResponse_new api (token_action target_id "/unrevoke")).

Definition update_registration_token_handler (req : AdminHttp) (body : option UpdateTokenRequest)
    : M St AppError (SingleResponse ApiRegistrationToken) :=
  _ ← call_context req;
  target_id ← ulid_param req;
  body ← ok_or App_BadRequest body;
  entry ← found (user_registration_token_lookup target_id);
  entry ← match update_expires_at body with
          | Some new_expiry => repo (user_registration_token_set_expiry entry new_expiry)
          | None => mret entry
          end;
  entry ← match update_usage_limit body with
          | Some new_limit => repo (user_registration_token_set_usage_limit entry new_limit)
          | None => mret entry
          end;
  _ ← repo_save;
  api ← token_now entry;
  mret (SingleResponse_new api (token_action target_id "")).
End registration_tokens.

(** ** The service for users and addresses (services/user_admin.rs) *)

Record AdminUserPatch := {
  admin_patch_display_name : option (option string);
  admin_patch_avatar_url : option (option string);
  admin_patch_preferred_locale : option (option string);
  admin_patch_can_request_admin : option bool;
  admin_patch_locked : option bool;
  admin_patch_deactivated : option bool;
}.

(** [From<AdminUserPatch> for UserPatch] *)
Definition UserPatch_from_admin (value : AdminUserPatch) : UserPatch :=
  {| patch_display_name := admin_patch_display_name value;
     patch_avatar_url := admin_patch_avatar_url value;
     patch_preferred_locale := admin_patch_preferred_locale value;
     patch_can_request_admin := admin_patch_can_request_admin value;
     patch_locked := admin_patch_locked value;
     patch_deactivated := admin_patch_deactivated value |}.

(** [AdminUserPatch::is_empty] *)
Definition AdminUserPatch_is_empty (self : AdminUserPatch) : bool :=
  bool_decide (admin_patch_display_name self = None) &&
  bool_decide (admin_patch_avatar_url self = None) &&
  bool_decide (admin_patch_preferred_locale self = None) &&
  bool_decide (admin_patch_can_request_admin self = None) &&
  bool_decide (admin_patch_locked self = None) &&
  bool_decide (admin_patch_deactivated self = None).

(** The values of a log entry: [None] is [null], inside and outside. *)
Definition json_option {A} (to_json : A → Json) (o : option A) : Json :=
  match o with Some a => to_json a | None => Json_Null end.
Definition AdminUserPatch_to_value (self : AdminUserPatch) : Json :=
  let text := json_option (json_option Json_String) in
  Json_Object
    [("avatar_url", text (admin_patch_avatar_url self));
     ("can_request_admin", json_option Json_Bool (admin_patch_can_request_admin self));
     ("deactivated", json_option Json_Bool (admin_patch_deactivated self));
     ("display_name", text (admin_patch_display_name self));
     ("locked", json_option Json_Bool (admin_patch_locked self));
     ("preferred_locale", text (admin_patch_preferred_locale self))].
Definition UserEmailPatch_to_value (self : UserEmailPatch) : Json :=
  Json_Object
    [("confirmed", json_option Json_Bool (email_patch_confirmed self));
     ("email", json_option Json_String (email_patch_email self));
     ("is_primary", json_option Json_Bool (email_patch_is_primary self))].

Inductive UserAdminServiceError :=
| UserAdmin_UserNotFound (id : Ulid)
| UserAdmin_UserEmailNotFound (id : Ulid)
| UserAdmin_InvalidDisplayName
| UserAdmin_InvalidEmail (email : string)
| UserAdmin_EmailAlreadyInUse (email : string)
| UserAdmin_LastAdmin
| UserAdmin_Homeserver
| UserAdmin_Repository (e : DatabaseError).

Definition validate_admin_patch (patch : AdminUserPatch) : result () UserAdminServiceError :=
  result_map_err (λ _, UserAdmin_InvalidDisplayName)
    (validate_display_name_patch
       {| profile_display_name := admin_patch_display_name patch;
          profile_avatar_url := admin_patch_avatar_url patch;
          profile_preferred_locale := admin_patch_preferred_locale patch |}).

(** How an error of the synchronisation of the name is passed on. *)
Definition sync_error (user_id : Ulid) (error : UserProfileServiceError) : UserAdminServiceError :=
  match error with
  | Profile_Homeserver => UserAdmin_Homeserver
  | Profile_InvalidDisplayName => UserAdmin_InvalidDisplayName
  | Profile_Repository error => UserAdmin_Repository error
  | Profile_NotFound | Profile_Unauthorized => UserAdmin_UserNotFound user_id
  end.

(** The patch takes away an active administrator. *)
Definition removes_active_admin (user : User) (patch : AdminUserPatch) : bool :=
  User_can_request_admin user && User_is_valid user &&
  (bool_decide (admin_patch_can_request_admin patch = Some false) ||
   bool_decide (admin_patch_locked patch = Some true) ||
   bool_decide (admin_patch_deactivated patch = Some true)).

Section user_admin.
Context {DX : DbExternals} {LX : LimiterExternals} {XX : AccountExternals} {RX : RegistrationExternals}
        {QX : AdminExternals}.

Definition admin_load_user (user_id : Ulid) : M St UserAdminServiceError User :=
  user ← try_with UserAdmin_Repository (user_lookup user_id);
  ok_or (UserAdmin_UserNotFound user_id) user.

(** What follows the change of the row: the homeserver, the jobs and the log. *)
Definition patch_user_effects (admin_user : option User) (user updated : User)
    (patch : AdminUserPatch) (hs_erase : bool) : M St UserAdminServiceError () :=
  let should_reactivate := bool_decide (is_Some (User_deactivated_at user)) &&
                           bool_decide (admin_patch_deactivated patch = Some false) in
  let should_schedule_deactivation := bool_decide (User_deactivated_at user = None) &&
                                      bool_decide (admin_patch_deactivated patch = Some true) in
  let admin_changed := match admin_patch_can_request_admin patch with
                       | Some admin => negb (eqb admin (User_can_request_admin user))
                       | None => false
                       end in
  _ ← (if should_reactivate then
         homeserver_call UserAdmin_Homeserver (Hs_ReactivateUser (User_username updated))
       else mret tt);
  _ ← (if bool_decide (User_deactivated_at updated = None) then
         try_with (sync_error (User_id user))
           (sync_display_name_patch updated (admin_patch_display_name patch))
       else mret tt);
  _ ← (if should_schedule_deactivation then
         try_with UserAdmin_Repository (schedule_deactivate_user_job updated hs_erase)
       else mret tt);
  _ ← try_with UserAdmin_Repository
        (record_admin_operation admin_user Op_UserUpdated "user" (Some (User_id updated))
           (Json_Object [("hs_erase", Json_Bool hs_erase);
                         ("patch", AdminUserPatch_to_value patch)]));
  if admin_changed then
    _ ← try_with UserAdmin_Repository (schedule_provision_user_job (User_id updated) None None);
    if User_can_request_admin updated then mret tt
    else homeserver_call UserAdmin_Homeserver
           (Hs_ProvisionUser (ProvisionRequest_set_admin false
              (ProvisionRequest_new (User_username updated) (User_sub updated))))
  else mret tt.

Definition patch_user (admin_user : option User) (user_id : Ulid) (patch : AdminUserPatch)
    (hs_erase : bool) : M St UserAdminServiceError User :=
  _ ← of_result (validate_admin_patch patch);
  user ← admin_load_user user_id;
  if AdminUserPatch_is_empty patch then mret user
  else
    _ ← try_with UserAdmin_Repository (user_acquire_lock_for_sync user);
    user ← admin_load_user user_id;
    _ ← (if removes_active_admin user patch
         then refuse_last_admin UserAdmin_Repository UserAdmin_LastAdmin else mret tt);
    updated ← try_with UserAdmin_Repository (user_patch user (UserPatch_from_admin patch));
    _ ← patch_user_effects admin_user user updated patch hs_erase;
    mret updated.

(** A grant that was committed; that the homeserver refuses it is only logged. *)
Definition push_admin_grant {E} (user : User) : M St E () := λ st,
  if User_can_request_admin user then
    (Ok tt, (homeserver_call tt (Hs_ProvisionUser (ProvisionRequest_set_admin true
               (ProvisionRequest_new (User_username user) (User_sub user)))) st).2)
  else (Ok tt, st).

Definition patch_user_email (admin_user : option User) (user_email_id : Ulid)
    (patch : UserEmailPatch) : M St UserAdminServiceError UserEmail :=
  user_email ← try_with UserAdmin_Repository (user_email_lookup user_email_id);
  user_email ← ok_or (UserAdmin_UserEmailNotFound user_email_id) user_email;
  if UserEmailPatch_is_empty patch then mret user_email
  else
    _ ← match email_patch_email patch with
        | None => mret tt
        | Some email =>
            _ ← require (address_is_ok email) (UserAdmin_InvalidEmail email);
            existing ← try_with UserAdmin_Repository (user_email_find_by_email email);
            require (match existing with
                     | Some existing => bool_decide (UserEmail_id existing = user_email_id)
                     | None => true
                     end) (UserAdmin_EmailAlreadyInUse email)
        end;
    updated ← try_with UserAdmin_Repository (user_email_patch user_email patch);
    _ ← try_with UserAdmin_Repository
          (record_admin_operation admin_user Op_UserEmailUpdated "user_email"
             (Some (UserEmail_id updated))
             (Json_Object [("patch", UserEmailPatch_to_value patch)]));
    mret updated.
End user_admin.

(** [map_service_error] of v1/users/update.rs *)
Definition user_service_error (error : UserAdminServiceError) : AppError :=
  match error with
  | UserAdmin_UserNotFound _ => App_NotFound
  | UserAdmin_UserEmailNotFound _ | UserAdmin_InvalidDisplayName | UserAdmin_InvalidEmail _ =>
      App_BadRequest
  | UserAdmin_EmailAlreadyInUse _ | UserAdmin_LastAdmin => App_Conflict
  | UserAdmin_Homeserver => App_Homeserver
  | UserAdmin_Repository error => App_Repository error
  end.

(** [map_service_error] of v1/user_emails.rs *)
Definition email_service_error (error : UserAdminServiceError) : AppError :=
  match error with
  | UserAdmin_UserEmailNotFound _ => App_NotFound
  | UserAdmin_UserNotFound _ | UserAdmin_InvalidDisplayName | UserAdmin_InvalidEmail _ =>
      App_BadRequest
  | UserAdmin_EmailAlreadyInUse _ | UserAdmin_LastAdmin => App_Conflict
  | UserAdmin_Homeserver => App_Homeserver
  | UserAdmin_Repository error => App_Repository error
  end.

(** ** Users (v1/users) *)

(** [valid_username_character] and [username_valid] of backend/src/util.rs: a text with another byte
    than these has another character. *)
Definition valid_username_character (c : ascii) : bool :=
  let b := byte_of c in
  ((97 <=? b) && (b <=? 122)) || ((48 <=? b) && (b <=? 57)) ||
  existsb (λ x, bool_decide (c = x)) ["="%char; "_"%char; "-"%char; "."%char; "/"%char; "+"%char].
Definition username_valid (username : string) : bool :=
  if bool_decide (username = "") || (255 <? String.length username)%nat then false
  else if starts_with "_" username then false
  else str_all valid_username_character username.

Record AddUserRequest := { add_username : string; add_skip_homeserver_check : bool }.

(** [u32], [u32] and [u64] *)
Record BatchInviteRequest := {
  invite_count : Z;
  invite_usage_limit : option Z;
  invite_expires_in_hours : option Z;
}.

(** [Duration::try_hours(hours)]: a number of milliseconds that is an [i64]. *)
Definition try_hours (hours : Z) : option Duration :=
  if bool_decide (-(2 ^ 63 - 1) ≤ hours * 3600000 ≤ 2 ^ 63 - 1) then Some (hours * 3600000000) else None.

Inductive UserStatus := Status_Active | Status_Locked | Status_Deactivated.
Record UserFilterParams := {
  user_params_admin : option bool;
  user_params_legacy_guest : option bool;
  user_params_search : option string;
  user_params_status : option UserStatus;
}.
Definition UserStatus_display (self : UserStatus) : string :=
  match self with
  | Status_Active => "active" | Status_Locked => "locked" | Status_Deactivated => "deactivated"
  end.
Definition UserFilterParams_display (self : UserFilterParams) : string :=
  print_params "?"
    (opt_param "filter[admin]" show_bool (user_params_admin self) ++
     opt_param "filter[legacy-guest]" show_bool (user_params_legacy_guest self) ++
     opt_param "filter[search]" id (user_params_search self) ++
     opt_param "filter[status]" UserStatus_display (user_params_status self)).
Definition UserStatus_state (self : UserStatus) : UserState :=
  match self with
  | Status_Active => UserState_Active
  | Status_Locked => UserState_Locked
  | Status_Deactivated => UserState_Deactivated
  end.

Record UpdateUserRequest := {
  update_patch : AdminUserPatch;
  update_hs_erase : option bool;
}.

Record RiskActionRequest := { risk_action_name : string; risk_action_reason : option string }.
Record RiskActionResponse := {
  risk_response_action : string;
  risk_response_reason : option string;
  risk_response_user : SingleResponse ApiUser;
  risk_response_sessions_terminated : option nat;
}.

Record SetPasswordRequest := {
  set_password_password : string;
  set_password_skip_password_check : option bool;
}.

Section users.
Context {TX : TokenExternals} {DX : DbExternals} {LX : LimiterExternals} {XX : AccountExternals}
        {WX : PasswordExternals} {RX : RegistrationExternals} {QX : AdminExternals}.

Definition add_user (homeserver : Homeserver) (req : AdminHttp) (body : option AddUserRequest)
    : M St AppError (SingleResponse ApiUser) :=
  ctx ← call_context req;
  params ← ok_or App_BadRequest body;
  exists_ ← repo (user_exists (add_username params));
  _ ← require (negb exists_) App_Conflict;
  _ ← require (username_valid (add_username params)) App_BadRequest;
  available ← of_result (result_map_err (λ _, App_Homeserver) (homeserver (add_username params)));
  _ ← require (available || add_skip_homeserver_check params) App_Conflict;
  user ← repo (user_add (add_username params));
  _ ← homeserver_call App_Homeserver
        (Hs_ProvisionUser (ProvisionRequest_new (User_username user) (User_sub user)));
  _ ← repo (record_admin_operation (ctx_user ctx) Op_UserCreated "user" (Some (User_id user))
              (Json_Object [("username", Json_String (User_username user))]));
  _ ← repo_save;
  mret (new_canonical (ApiUser_from user)).

(** The tokens of an invitation, one after the other; [samples] are the texts drawn for them. *)
Fixpoint invite_tokens (admin_user : option User) (usage_limit : option Z)
    (expires_at : option DateTime) (samples : list string)
    : M St AppError (list (SingleResponse ApiRegistrationToken)) :=
  match samples with
  | [] => mret []
  | token_string :: samples =>
      registration_token ← repo (user_registration_token_add token_string usage_limit expires_at);
      _ ← repo (record_admin_operation admin_user Op_RegistrationTokenCreated "registration_token"
                  (Some (UserRegistrationToken_id registration_token)) (Json_Object []));
      model ← token_now registration_token;
      tokens ← invite_tokens admin_user usage_limit expires_at samples;
      mret (new_canonical model :: tokens)
  end.

(** The range of [DateTime<Utc>], in microseconds. *)
Definition DATE_MIN : Z := -8334601228800 * 1000000.
Definition DATE_MAX : Z := 8210266876799 * 1000000 + 999999.

(** [sample n] is the text of the [n]th token. *)
Definition batch_invite (req : AdminHttp) (body : option BatchInviteRequest) (sample : nat → string)
    : M St AppError (list (SingleResponse ApiRegistrationToken)) :=
  ctx ← call_context req;
  params ← ok_or App_BadRequest body;
  _ ← require (negb ((invite_count params =? 0) || (100 <? invite_count params))) App_BadRequest;
  expires_at ← match invite_expires_in_hours params ≫= λ h, try_hours (as_i64 h) with
               | Some d =>
                   now ← clock_now;
                   _ ← require (bool_decide (DATE_MIN ≤ now + d ≤ DATE_MAX)) App_Panic;
                   mret (Some (now + d))
               | None => mret None
               end;
  tokens ← invite_tokens (ctx_user ctx) (invite_usage_limit params) expires_at
             (sample <$> seq 0 (Z.to_nat (invite_count params)));
  _ ← repo_save;
  mret tokens.

Definition get_user (req : AdminHttp) : M St AppError (SingleResponse ApiUser) :=
  _ ← call_context req;
  id ← ulid_param req;
  user ← found (user_lookup id);
  mret (new_canonical (ApiUser_from user)).

Definition get_by_username (req : AdminHttp) (username : option string)
    : M St AppError (SingleResponse ApiUser) :=
  _ ← call_context req;
  username ← ok_or App_NotFound username;
  user ← found (user_find_by_username username);
  mret (SingleResponse_new (ApiUser_from user) ("/api/admin/v1/users/by-username/" +:+ username)).

(** A query that does not parse has no filter. *)
Definition list_users (req : AdminHttp) (page : option PaginationParams)
    (params : option UserFilterParams) : M St AppError (PaginatedResponse ApiUser) :=
  _ ← call_context req;
  paging ← of_result (result_map_err (λ _, App_BadRequest) (extract_pagination page));
  let params := default {| user_params_admin := None; user_params_legacy_guest := None;
                           user_params_search := None; user_params_status := None |} params in
  let base := add_to_base paging.2 (PATH ApiUser +:+ UserFilterParams_display params) in
  let filter := {| user_filter_state := UserStatus_state <$> user_params_status params;
                   user_filter_can_request_admin := user_params_admin params;
                   user_filter_is_guest := user_params_legacy_guest params;
                   user_filter_search := user_params_search params |} in
  paginated_response paging.2 (user_list filter paging.1) (user_count filter) ApiUser_from
    paging.1 base.

Definition update_user (req : AdminHttp) (body : option UpdateUserRequest)
    : M St AppError (SingleResponse ApiUser) :=
  ctx ← call_context req;
  id ← ulid_param req;
  body ← ok_or App_BadRequest body;
  user ← try_with user_service_error
           (patch_user (ctx_user ctx) id (update_patch body) (default true (update_hs_erase body)));
  _ ← repo_save;
  _ ← (if bool_decide (admin_patch_can_request_admin (update_patch body) = Some true)
       then push_admin_grant user else mret tt);
  mret (new_canonical (ApiUser_from user)).

(** [matches!(action, "lock" | "force_password_reset")] *)
Definition locks (action : string) : bool :=
  bool_decide (action = "lock") || bool_decide (action = "force_password_reset").

(** What is done to the user, and how many sessions it ended. *)
Definition take_risk_action (action : string) (user : User) : M St AppError (User * option nat) :=
  if locks action then
    user ← repo (user_lock user);
    mret (user, None)
  else if bool_decide (action = "terminate_sessions") then
    count ← repo (browser_session_finish_bulk (active_sessions_of user));
    mret (user, Some count)
  else raise App_BadRequest.

Definition risk_action (req : AdminHttp) (body : option RiskActionRequest)
    : M St AppError RiskActionResponse :=
  ctx ← call_context req;
  id ← ulid_param req;
  params ← ok_or App_BadRequest body;
  user ← found (user_lookup id);
  let action := risk_action_name params in
  _ ← (if locks action && User_can_request_admin user && User_is_valid user
       then refuse_last_admin App_Repository App_Conflict else mret tt);
  done ← take_risk_action action user;
  _ ← repo (record_admin_operation (ctx_user ctx)
              (if locks action then Op_UserLocked else Op_Other "terminate_sessions")
              "user" (Some (User_id done.1))
              (Json_Object [("action", Json_String action);
                            ("reason", json_option Json_String (risk_action_reason params))]));
  _ ← repo_save;
  mret {| risk_response_action := action;
          risk_response_reason := risk_action_reason params;
          risk_response_user := SingleResponse_new (ApiUser_from done.1)
            ("/api/admin/v1/users/" +:+ ulid_to_string id +:+ "/risk-action");
          risk_response_sessions_terminated := done.2 |}.

Definition set_password (password_manager : PasswordManager) (req : AdminHttp)
    (body : option SetPasswordRequest) : M St AppError () :=
  ctx ← call_context req;
  id ← ulid_param req;
  params ← ok_or App_BadRequest body;
  _ ← require (bool_decide (is_Some password_manager)) App_Forbidden;
  user ← found (user_lookup id);
  let skip := default false (set_password_skip_password_check params) in
  let complex := match is_password_complex_enough password_manager (set_password_password params) with
                 | Ok complex => complex | Err _ => false
                 end in
  _ ← require (skip || complex) App_BadRequest;
  hashed ← try_with (λ _, App_PasswordHashing)
             (hash_password password_manager (set_password_password params));
  _ ← repo (user_password_add user hashed.1 hashed.2 None);
  _ ← repo (record_admin_operation (ctx_user ctx) Op_UserPasswordSet "user" (Some (User_id user))
              (Json_Object []));
  repo_save.

(** ** Addresses (v1/user_emails.rs) *)

Record AddEmailRequest := { add_email_user_id : Ulid; add_email_email : string }.

Definition address_details (user_id : Ulid) (email : string) : Json :=
  Json_Object [("email", Json_String email); ("user_id", Json_String (ulid_to_string user_id))].

Definition add_email (req : AdminHttp) (body : option AddEmailRequest)
    : M St AppError (SingleResponse ApiUserEmail) :=
  ctx ← call_context req;
  body ← ok_or App_BadRequest body;
  owner ← found (user_lookup (add_email_user_id body));
  _ ← require (address_is_ok (add_email_email body)) App_BadRequest;
  existing ← repo (user_email_count (for_email (add_email_email body)));
  _ ← require (bool_decide (existing = 0%nat)) App_Conflict;
  entry ← repo (user_email_add owner (add_email_email body));
  _ ← repo (schedule_provision_user_job (User_id owner) None None);
  _ ← repo (record_admin_operation (ctx_user ctx) Op_UserEmailAdded "user_email"
              (Some (UserEmail_id entry)) (address_details (User_id owner) (UserEmail_email entry)));
  _ ← repo_save;
  mret (new_canonical (ApiUserEmail_from entry)).

Definition delete_email (req : AdminHttp) : M St AppError () :=
  ctx ← call_context req;
  email_id ← ulid_param req;
  entry ← found (user_email_lookup email_id);
  _ ← repo (user_email_remove entry);
  _ ← repo (schedule_provision_user_job (UserEmail_user_id entry) None None);
  _ ← repo (record_admin_operation (ctx_user ctx) Op_UserEmailRemoved "user_email" (Some email_id)
              (address_details (UserEmail_user_id entry) (UserEmail_email entry)));
  repo_save.

Definition get_email (req : AdminHttp) : M St AppError (SingleResponse ApiUserEmail) :=
  _ ← call_context req;
  email_id ← ulid_param req;
  entry ← found (user_email_lookup email_id);
  mret (new_canonical (ApiUserEmail_from entry)).

Record EmailFilterParams := { email_params_user : option Ulid; email_params_email : option string }.
Definition EmailFilterParams_display (self : EmailFilterParams) : string :=
  print_params "?"
    (opt_param "filter[user]" ulid_to_string (email_params_user self) ++
     opt_param "filter[email]" id (email_params_email self)).

Definition list_emails (req : AdminHttp) (page : option PaginationParams)
    (params : option EmailFilterParams) : M St AppError (PaginatedResponse ApiUserEmail) :=
  _ ← call_context req;
  paging ← of_result (result_map_err (λ _, App_BadRequest) (extract_pagination page));
  let params := default {| email_params_user := None; email_params_email := None |} params in
  let base := add_to_base paging.2 (PATH ApiUserEmail +:+ EmailFilterParams_display params) in
  user ← match email_params_user params with
         | Some uid => user ← found (user_lookup uid); mret (Some (User_id user))
         | None => mret None
         end;
  let filter := {| email_filter_user := user; email_filter_email := email_params_email params |} in
  paginated_response paging.2 (user_email_list filter paging.1) (user_email_count filter)
    ApiUserEmail_from paging.1 base.

Definition update_email (req : AdminHttp) (body : option UserEmailPatch)
    : M St AppError (SingleResponse ApiUserEmail) :=
  ctx ← call_context req;
  id ← ulid_param req;
  patch ← ok_or App_BadRequest body;
  user_email ← try_with email_service_error (patch_user_email (ctx_user ctx) id patch);
  _ ← repo_save;
  mret (new_canonical (ApiUserEmail_from user_email)).

(** ** Sessions (v1/user_sessions.rs, v1/oauth2_sessions.rs) *)

Definition finish_user_session (req : AdminHttp) : M St AppError (SingleResponse ApiUserSession) :=
  ctx ← call_context req;
  session_id ← ulid_param req;
  browser_session ← found (browser_session_lookup session_id);
  _ ← require (negb (bool_decide (is_Some (BrowserSession_finished_at browser_session)))) App_BadRequest;
  ended ← repo (browser_session_finish browser_session);
  _ ← repo (record_admin_operation (ctx_user ctx) Op_SessionTerminated "user_session"
              (Some session_id) (Json_Object []));
  _ ← repo_save;
  mret (SingleResponse_new (ApiUserSession_from ended)
          ("/api/admin/v1/user-sessions/" +:+ ulid_to_string session_id +:+ "/finish")).

Definition get_user_session (req : AdminHttp) : M St AppError (SingleResponse ApiUserSession) :=
  _ ← call_context req;
  session_id ← ulid_param req;
  browser_session ← found (browser_session_lookup session_id);
  mret (new_canonical (ApiUserSession_from browser_session)).

Definition finish_oauth2_session (req : AdminHttp) : M St AppError (SingleResponse ApiOAuth2Session) :=
  ctx ← call_context req;
  session_id ← ulid_param req;
  oauth_session ← found (oauth2_session_lookup session_id);
  _ ← require (negb (bool_decide (is_Some (Session_finished_at oauth_session)))) App_BadRequest;
  _ ← match Session_user_id oauth_session with
      | Some uid => repo (schedule_sync_devices_job uid)
      | None => mret tt
      end;
  ended ← repo (oauth2_session_finish oauth_session);
  _ ← repo (record_admin_operation (ctx_user ctx) Op_SessionTerminated "oauth2_session"
              (Some session_id) (Json_Object []));
  _ ← repo_save;
  mret (SingleResponse_new (ApiOAuth2Session_from ended)
          ("/api/admin/v1/oauth2-sessions/" +:+ ulid_to_string session_id +:+ "/finish")).

Definition get_oauth2_session (req : AdminHttp) : M St AppError (SingleResponse ApiOAuth2Session) :=
  _ ← call_context req;
  id ← ulid_param req;
  session ← found (oauth2_session_lookup id);
  mret (new_canonical (ApiOAuth2Session_from session)).
End users.

(** ** The requests *)

Inductive AdminRequest :=
| Admin_AddSession (req : AdminHttp) (body : option AddSessionRequest)
| Admin_GetSession (req : AdminHttp)
| Admin_RegenerateSession (req : AdminHttp) (body : option (option Z))
| Admin_RevokeSession (req : AdminHttp)
| Admin_AddToken (req : AdminHttp) (body : option AddTokenRequest) (sample12 : string)
| Admin_GetToken (req : AdminHttp)
| Admin_ListTokens (req : AdminHttp) (page : option PaginationParams)
    (params : option TokenFilterParams)
| Admin_RevokeToken (req : AdminHttp)
| Admin_UnrevokeToken (req : AdminHttp)
| Admin_UpdateToken (req : AdminHttp) (body : option UpdateTokenRequest)
| Admin_AddUser (homeserver : Homeserver) (req : AdminHttp) (body : option AddUserRequest)
| Admin_BatchInvite (req : AdminHttp) (body : option BatchInviteRequest) (sample : nat → string)
| Admin_GetUser (req : AdminHttp)
| Admin_GetByUsername (req : AdminHttp) (username : option string)
| Admin_ListUsers (req : AdminHttp) (page : option PaginationParams)
    (params : option UserFilterParams)
| Admin_UpdateUser (req : AdminHttp) (body : option UpdateUserRequest)
| Admin_RiskAction (req : AdminHttp) (body : option RiskActionRequest)
| Admin_SetPassword (password_manager : PasswordManager) (req : AdminHttp)
    (body : option SetPasswordRequest)
| Admin_AddEmail (req : AdminHttp) (body : option AddEmailRequest)
| Admin_DeleteEmail (req : AdminHttp)
| Admin_GetEmail (req : AdminHttp)
| Admin_ListEmails (req : AdminHttp) (page : option PaginationParams)
    (params : option EmailFilterParams)
| Admin_UpdateEmail (req : AdminHttp) (body : option UserEmailPatch)
| Admin_FinishUserSession (req : AdminHttp)
| Admin_GetUserSession (req : AdminHttp)
| Admin_FinishOAuth2Session (req : AdminHttp)
| Admin_GetOAuth2Session (req : AdminHttp).

(** The request without its answer: whether it was served, and what it leaves behind. *)
Definition served_ok {E A} (m : M St E A) (st : St) : bool * St := (is_ok (m st).1, (m st).2).

Section serve.
Context {TX : TokenExternals} {DX : DbExternals} {LX : LimiterExternals} {XX : AccountExternals}
        {WX : PasswordExternals} {RX : RegistrationExternals} {QX : AdminExternals}.

Definition admin_serve (request : AdminRequest) : St → bool * St :=
  match request with
  | Admin_AddSession req body => served_ok (add_session req body)
  | Admin_GetSession req => served_ok (get_session req)
  | Admin_RegenerateSession req body => served_ok (regenerate_session req body)
  | Admin_RevokeSession req => served_ok (revoke_personal_session req)
  | Admin_AddToken req body sample12 => served_ok (add_registration_token req body sample12)
  | Admin_GetToken req => served_ok (get_token req)
  | Admin_ListTokens req page params => served_ok (list_tokens req page params)
  | Admin_RevokeToken req => served_ok (revoke_registration_token req)
  | Admin_UnrevokeToken req => served_ok (unrevoke_registration_token req)
  | Admin_UpdateToken req body => served_ok (update_registration_token_handler req body)
  | Admin_AddUser homeserver req body => served_ok (add_user homeserver req body)
  | Admin_BatchInvite req body sample => served_ok (batch_invite req body sample)
  | Admin_GetUser req => served_ok (get_user req)
  | Admin_GetByUsername req username => served_ok (get_by_username req username)
  | Admin_ListUsers req page params => served_ok (list_users req page params)
  | Admin_UpdateUser req body => served_ok (update_user req body)
  | Admin_RiskAction req body => served_ok (risk_action req body)
  | Admin_SetPassword password_manager req body => served_ok (set_password password_manager req body)
  | Admin_AddEmail req body => served_ok (add_email req body)
  | Admin_DeleteEmail req => served_ok (delete_email req)
  | Admin_GetEmail req => served_ok (get_email req)
  | Admin_ListEmails req page params => served_ok (list_emails req page params)
  | Admin_UpdateEmail req body => served_ok (update_email req body)
  | Admin_FinishUserSession req => served_ok (finish_user_session req)
  | Admin_GetUserSession req => served_ok (get_user_session req)
  | Admin_FinishOAuth2Session req => served_ok (finish_oauth2_session req)
  | Admin_GetOAuth2Session req => served_ok (get_oauth2_session req)
  end.

(** The header every one of them is authorised by. *)
Definition admin_http (request : AdminRequest) : AdminHttp :=
  match request with
  | Admin_AddSession req _ | Admin_GetSession req | Admin_RegenerateSession req _
  | Admin_RevokeSession req | Admin_AddToken req _ _ | Admin_GetToken req
  | Admin_ListTokens req _ _ | Admin_RevokeToken req | Admin_UnrevokeToken req
  | Admin_UpdateToken req _ | Admin_AddUser _ req _ | Admin_BatchInvite req _ _
  | Admin_GetUser req | Admin_GetByUsername req _ | Admin_ListUsers req _ _
  | Admin_UpdateUser req _ | Admin_RiskAction req _ | Admin_SetPassword _ req _
  | Admin_AddEmail req _ | Admin_DeleteEmail req | Admin_GetEmail req | Admin_ListEmails req _ _
  | Admin_UpdateEmail req _ | Admin_FinishUserSession req | Admin_GetUserSession req
  | Admin_FinishOAuth2Session req | Admin_GetOAuth2Session req => req
  end.
End serve.
