(* ===== verification/Integrity.v ===== *)
(** Integrity of the database: the keys and references the schema promises
    ([wf]), how rows may evolve ([evolves]: nothing is deleted, identities stay,
    a revoked token, a finished session, an exchanged grant, a completed
    registration or a used recovery stays so, and a second administrator does not appear), and that
    every repository method of OAuth 2.0 maintains both, whatever its outcome. *)
From S2P Require Import Prelude Ids TokenFormat Scope Pkce Jose Domain Accounts Notification Database Repository ClientMetadata ClientRepository Outbox.

Open Scope Z_scope.

(** ** Columns *)

Section columns.
Context {R R' : Type}.

(** No two rows share a value of a nullable column. *)
Definition unique {K} (col : R → option K) (m : gmap Z R) : Prop :=
  ∀ k1 k2 r1 r2 c, m !! k1 = Some r1 → m !! k2 = Some r2 →
    col r1 = Some c → col r2 = Some c → k1 = k2.

(** A nullable column only holds keys of the other table. *)
Definition refers (col : R → option Ulid) (m : gmap Z R) (m' : gmap Z R') : Prop :=
  ∀ k r i, m !! k = Some r → col r = Some i → is_Some (m' !! i).

(** Every row survives, changed as [ok] allows. *)
Definition rows_evolve (ok : R → R → Prop) (m m' : gmap Z R) : Prop :=
  ∀ k r, m !! k = Some r → ∃ r', m' !! k = Some r' ∧ ok r r'.

#[export] Instance rows_evolve_preorder ok : PreOrder ok → PreOrder (rows_evolve ok).
Proof.
  intros [Hr Ht]. split.
  - intros m k r Hk. eauto.
  - intros m1 m2 m3 H1 H2 k r (r1 & Hk1 & Ho1)%H1. apply H2 in Hk1 as (r2 & ? & ?). eauto.
Qed.

Lemma unique_insert {K} (col : R → option K) k r m :
  unique col m → (∀ k' r' c, m !! k' = Some r' → col r' = Some c → col r ≠ Some c) →
  unique col (<[k := r]> m).
Proof.
  intros Hu Hf k1 k2 r1 r2 c [[-> <-]|[? H1]]%lookup_insert_Some [[-> <-]|[? H2]]%lookup_insert_Some;
    naive_solver.
Qed.
Lemma unique_alter {K} (col : R → option K) (f : R → R) k m :
  (∀ r, col (f r) = col r) → unique col m → unique col (alter f k m).
Proof.
  intros Hf Hu k1 k2 r1 r2 c H1 H2 Hc1 Hc2.
  assert (∀ j x, alter f k m !! j = Some x → ∃ y, m !! j = Some y ∧ col x = col y) as Hl.
  { intros j x. rewrite lookup_alter. case_decide; [subst|eauto].
    intros (y & Hy & ->)%fmap_Some. eauto. }
  apply Hl in H1 as (y1 & ? & E1). apply Hl in H2 as (y2 & ? & E2). rewrite E1 in Hc1.
  rewrite E2 in Hc2. eauto.
Qed.
Lemma unique_fmap {K} (col : R → option K) (f : R → R) m :
  (∀ r, col (f r) = col r) → unique col m → unique col (f <$> m).
Proof.
  intros Hf Hu k1 k2 r1 r2 c (y1 & <- & ?)%lookup_fmap_Some (y2 & <- & ?)%lookup_fmap_Some.
  rewrite !Hf. eauto.
Qed.

Lemma refers_insert (col : R → option Ulid) k r m (m' : gmap Z R') :
  refers col m m' → (∀ i, col r = Some i → is_Some (m' !! i)) → refers col (<[k := r]> m) m'.
Proof. intros Hm Hr j x i [[-> <-]|[? Hx]]%lookup_insert_Some Hc; eauto. Qed.
Lemma refers_alter (col : R → option Ulid) (f : R → R) k m (m' : gmap Z R') :
  refers col m m' →
  (∀ r i, m !! k = Some r → col (f r) = Some i → is_Some (m' !! i)) → refers col (alter f k m) m'.
Proof.
  intros Hm Hf j x i. rewrite lookup_alter. case_decide; [subst|eauto].
  intros (y & Hy & ->)%fmap_Some. eauto.
Qed.
Lemma refers_fmap (col : R → option Ulid) (f : R → R) m (m' : gmap Z R') :
  (∀ r, col (f r) = col r) → refers col m m' → refers col (f <$> m) m'.
Proof. intros Hf Hm j x i (y & <- & ?)%lookup_fmap_Some. rewrite Hf. eauto. Qed.
Lemma rows_insert ok k r (m : gmap Z R) :
  PreOrder ok → m !! k = None → rows_evolve ok m (<[k := r]> m).
Proof.
  intros [Hr _] Hk j x Hx. exists x. split; [|apply Hr]. rewrite lookup_insert_ne; congruence.
Qed.
Lemma rows_alter ok (f : R → R) k m :
  PreOrder ok → (∀ r, ok r (f r)) → rows_evolve ok m (alter f k m).
Proof.
  intros [Hr _] Hf j x Hx. rewrite lookup_alter. case_decide as Hd; [|by exists x].
  subst. rewrite Hx. simpl. eauto.
Qed.
Lemma rows_fmap ok (f : R → R) m : (∀ r, ok r (f r)) → rows_evolve ok m (f <$> m).
Proof. intros Hf j x Hx. rewrite lookup_fmap, Hx. simpl. eauto. Qed.
End columns.

Lemma refers_grow {R R'} (col : R → option Ulid) ok (m : gmap Z R) (m1 m2 : gmap Z R') :
  rows_evolve ok m1 m2 → refers col m m1 → refers col m m2.
Proof.
  intros He Hm k r i Hk Hc. destruct (Hm k r i Hk Hc) as [r' Hr'].
  apply He in Hr' as (? & ? & _). eauto.
Qed.


(** ** How rows evolve *)

(** A timestamp that is set stays set. *)
Definition stays (o o' : option DateTime) : Prop := is_Some o → is_Some o'.

Definition access_evolves (r r' : OAuth2AccessTokenRow) : Prop :=
  AccessTokenRow_oauth2_session_id r' = AccessTokenRow_oauth2_session_id r ∧
  AccessTokenRow_access_token r' = AccessTokenRow_access_token r ∧
  AccessTokenRow_created_at r' = AccessTokenRow_created_at r ∧
  AccessTokenRow_expires_at r' = AccessTokenRow_expires_at r ∧
  stays (AccessTokenRow_revoked_at r) (AccessTokenRow_revoked_at r') ∧
  stays (AccessTokenRow_first_used_at r) (AccessTokenRow_first_used_at r').

Definition refresh_evolves (r r' : OAuth2RefreshTokenRow) : Prop :=
  RefreshTokenRow_refresh_token r' = RefreshTokenRow_refresh_token r ∧
  RefreshTokenRow_created_at r' = RefreshTokenRow_created_at r ∧
  RefreshTokenRow_oauth2_access_token_id r' = RefreshTokenRow_oauth2_access_token_id r ∧
  RefreshTokenRow_oauth2_session_id r' = RefreshTokenRow_oauth2_session_id r ∧
  stays (RefreshTokenRow_consumed_at r) (RefreshTokenRow_consumed_at r') ∧
  stays (RefreshTokenRow_revoked_at r) (RefreshTokenRow_revoked_at r').

Definition session_evolves (r r' : OAuthSessionRow) : Prop :=
  OAuthSessionRow_user_id r' = OAuthSessionRow_user_id r ∧
  OAuthSessionRow_user_session_id r' = OAuthSessionRow_user_session_id r ∧
  OAuthSessionRow_oauth2_client_id r' = OAuthSessionRow_oauth2_client_id r ∧
  OAuthSessionRow_scope_list r' = OAuthSessionRow_scope_list r ∧
  OAuthSessionRow_created_at r' = OAuthSessionRow_created_at r ∧
  stays (OAuthSessionRow_finished_at r) (OAuthSessionRow_finished_at r').

Definition grant_evolves (r r' : GrantRow) : Prop :=
  GrantRow_authorization_code r' = GrantRow_authorization_code r ∧
  GrantRow_oauth2_client_id r' = GrantRow_oauth2_client_id r ∧
  GrantRow_redirect_uri r' = GrantRow_redirect_uri r ∧
  GrantRow_scope r' = GrantRow_scope r ∧
  GrantRow_code_challenge r' = GrantRow_code_challenge r ∧
  stays (GrantRow_cancelled_at r) (GrantRow_cancelled_at r') ∧
  stays (GrantRow_fulfilled_at r) (GrantRow_fulfilled_at r') ∧
  stays (GrantRow_exchanged_at r) (GrantRow_exchanged_at r').

Definition device_evolves (r r' : DeviceGrantRow) : Prop :=
  DeviceGrantRow_device_code r' = DeviceGrantRow_device_code r ∧
  DeviceGrantRow_user_code r' = DeviceGrantRow_user_code r ∧
  DeviceGrantRow_oauth2_client_id r' = DeviceGrantRow_oauth2_client_id r ∧
  DeviceGrantRow_scope r' = DeviceGrantRow_scope r ∧
  DeviceGrantRow_expires_at r' = DeviceGrantRow_expires_at r ∧
  stays (DeviceGrantRow_fulfilled_at r) (DeviceGrantRow_fulfilled_at r') ∧
  stays (DeviceGrantRow_rejected_at r) (DeviceGrantRow_rejected_at r') ∧
  stays (DeviceGrantRow_exchanged_at r) (DeviceGrantRow_exchanged_at r').

(** A client keeps what it registered; its localised texts are replaced. *)
Definition client_evolves (r r' : OAuth2ClientRow) : Prop :=
  ClientRow_set_localized [] r' = ClientRow_set_localized [] r.

Definition personal_session_evolves (r r' : PersonalSessionRow) : Prop :=
  PersonalSessionRow_owner_user_id r' = PersonalSessionRow_owner_user_id r ∧
  PersonalSessionRow_owner_oauth2_client_id r' = PersonalSessionRow_owner_oauth2_client_id r ∧
  PersonalSessionRow_actor_user_id r' = PersonalSessionRow_actor_user_id r ∧
  PersonalSessionRow_scope_list r' = PersonalSessionRow_scope_list r ∧
  stays (PersonalSessionRow_revoked_at r) (PersonalSessionRow_revoked_at r').

Definition personal_token_evolves (r r' : PersonalAccessTokenRow) : Prop :=
  PersonalTokenRow_personal_session_id r' = PersonalTokenRow_personal_session_id r ∧
  PersonalTokenRow_access_token_sha256 r' = PersonalTokenRow_access_token_sha256 r ∧
  PersonalTokenRow_expires_at r' = PersonalTokenRow_expires_at r ∧
  stays (PersonalTokenRow_revoked_at r) (PersonalTokenRow_revoked_at r').

(** A user keeps its name. *)
Definition user_evolves (r r' : UserRow) : Prop := UserRow_username r' = UserRow_username r.

(** A browser session keeps its user and its date; it ends once. *)
Definition user_session_evolves (r r' : UserSessionRow) : Prop :=
  UserSessionRow_user_id r' = UserSessionRow_user_id r ∧
  UserSessionRow_created_at r' = UserSessionRow_created_at r ∧
  stays (UserSessionRow_finished_at r) (UserSessionRow_finished_at r').

(** An address to verify stays; once verified it stays so. *)
Definition email_auth_evolves (r r' : UserEmailAuthenticationRow) : Prop :=
  EmailAuthRow_email r' = EmailAuthRow_email r ∧
  stays (EmailAuthRow_completed_at r) (EmailAuthRow_completed_at r').
Definition phone_auth_evolves (r r' : UserPhoneAuthenticationRow) : Prop :=
  PhoneAuthRow_phone r' = PhoneAuthRow_phone r ∧
  stays (PhoneAuthRow_completed_at r) (PhoneAuthRow_completed_at r').

(** A recovery keeps its address; once used it stays used. *)
Definition recovery_evolves (r r' : UserRecoverySessionRow) : Prop :=
  RecoverySessionRow_email r' = RecoverySessionRow_email r ∧
  RecoverySessionRow_created_at r' = RecoverySessionRow_created_at r ∧
  stays (RecoverySessionRow_consumed_at r) (RecoverySessionRow_consumed_at r').

(** A registration keeps its name, its date and its token; a completed one is frozen. *)
Definition registration_evolves (r r' : UserRegistrationRow) : Prop :=
  RegistrationRow_username r' = RegistrationRow_username r ∧
  RegistrationRow_created_at r' = RegistrationRow_created_at r ∧
  RegistrationRow_user_registration_token_id r' = RegistrationRow_user_registration_token_id r ∧
  (is_Some (RegistrationRow_completed_at r) → r' = r).

Definition admin_in (users : gmap Z UserRow) (k : Ulid) : Prop :=
  ∃ r, users !! k = Some r ∧ UserRow_can_request_admin r = true.

(** An administrator that is neither locked nor deactivated. *)
Definition active_admin (r : UserRow) : Prop :=
  UserRow_can_request_admin r = true ∧ UserRow_locked_at r = None ∧ UserRow_deactivated_at r = None.
Definition active_in (users : gmap Z UserRow) (k : Ulid) : Prop :=
  ∃ r, users !! k = Some r ∧ active_admin r.

(** The administrators, and the active ones, stay; one appears where there was none. *)
Definition admins_evolve (m m' : gmap Z UserRow) : Prop :=
  (∀ k, (admin_in m' k ↔ admin_in m k) ∧ (active_in m' k ↔ active_in m k)) ∨
  ((∀ k, ¬ admin_in m k) ∧ ∃ k0, ∀ k, admin_in m' k ↔ k = k0).

(** A change by an administrator: one that is active before, and one after. *)
Definition administered (m m' : gmap Z UserRow) : Prop :=
  (∃ k, active_in m k) ∧ (∃ k, active_in m' k).

(** What one request does, and any number of them. *)
Definition overseen (m m' : gmap Z UserRow) : Prop := admins_evolve m m' ∨ administered m m'.
Definition governed : relation (gmap Z UserRow) := rtc overseen.
(** A job may deactivate or reactivate any user. *)
Definition any_admins : relation (gmap Z UserRow) := λ _ _, True.

(** The tokens of registrations that appear were there. *)
Definition tokens_evolve (m m' : gmap Z UserRegistrationRow) : Prop :=
  ∀ k r' t, m' !! k = Some r' → RegistrationRow_user_registration_token_id r' = Some t →
    ∃ r, m !! k = Some r ∧ RegistrationRow_user_registration_token_id r = Some t.

Ltac solve_preorder :=
  split; [intros ?; repeat split; unfold stays; done
         |intros ??? H1 H2; red in H1, H2; red; unfold stays in *; destruct_and!;
          split_and!; try congruence; by auto].

#[export] Instance access_evolves_preorder : PreOrder access_evolves.
Proof. solve_preorder. Qed.
#[export] Instance refresh_evolves_preorder : PreOrder refresh_evolves.
Proof. solve_preorder. Qed.
#[export] Instance session_evolves_preorder : PreOrder session_evolves.
Proof. solve_preorder. Qed.
#[export] Instance grant_evolves_preorder : PreOrder grant_evolves.
Proof. solve_preorder. Qed.
#[export] Instance device_evolves_preorder : PreOrder device_evolves.
Proof. solve_preorder. Qed.
#[export] Instance personal_session_evolves_preorder : PreOrder personal_session_evolves.
Proof. solve_preorder. Qed.
#[export] Instance personal_token_evolves_preorder : PreOrder personal_token_evolves.
Proof. solve_preorder. Qed.

#[export] Instance client_evolves_preorder : PreOrder client_evolves.
Proof. split; [by intros r|]. intros ???. unfold client_evolves. congruence. Qed.
#[export] Instance user_evolves_preorder : PreOrder user_evolves.
Proof. split; [by intros r|]. intros ???. unfold user_evolves. congruence. Qed.
#[export] Instance user_session_evolves_preorder : PreOrder user_session_evolves.
Proof. solve_preorder. Qed.
#[export] Instance email_auth_evolves_preorder : PreOrder email_auth_evolves.
Proof. solve_preorder. Qed.
#[export] Instance phone_auth_evolves_preorder : PreOrder phone_auth_evolves.
Proof. solve_preorder. Qed.
#[export] Instance recovery_evolves_preorder : PreOrder recovery_evolves.
Proof. solve_preorder. Qed.
#[export] Instance registration_evolves_preorder : PreOrder registration_evolves.
Proof.
  split; [by intros r|]. intros r1 r2 r3 (U1&C1&T1&F1) (U2&C2&T2&F2). split_and!; try congruence.
  intros Hc. rewrite <-(F1 Hc). apply F2. by rewrite (F1 Hc).
Qed.
#[export] Instance admins_evolve_preorder : PreOrder admins_evolve.
Proof.
  split; [by left|]. intros m1 m2 m3 [E1|[N1 [k1 E1]]] [E2|[N2 [k2 E2]]].
  - left. intros k. destruct (E1 k) as [A1 B1], (E2 k) as [A2 B2]. by rewrite A2, A1, B2, B1.
  - right. split; [|by exists k2]. intros k. destruct (E1 k) as [<- _]. apply N2.
  - right. split; [done|]. exists k1. intros k. destruct (E2 k) as [-> _]. apply E1.
  - by destruct (N2 k1); apply E1.
Qed.
#[export] Instance tokens_evolve_preorder : PreOrder tokens_evolve.
Proof.
  split; [intros m k r t; eauto|].
  intros m1 m2 m3 H1 H2 k r t Hk Ht. destruct (H2 _ _ _ Hk Ht) as (r2 & Hk2 & Ht2). eauto.
Qed.

(** How a database evolves, its administrators by [A]. *)
Record evolves_by (A : relation (gmap Z UserRow)) (db db' : DB) : Prop := {
  ev_users : rows_evolve user_evolves (db_users db) (db_users db');
  ev_admins : A (db_users db) (db_users db');
  ev_user_sessions :
    rows_evolve user_session_evolves (db_user_sessions db) (db_user_sessions db');
  ev_recoveries :
    rows_evolve recovery_evolves (db_recovery_sessions db) (db_recovery_sessions db');
  ev_registrations :
    rows_evolve registration_evolves (db_registrations db) (db_registrations db');
  ev_tokens : tokens_evolve (db_registrations db) (db_registrations db');
  ev_clients : rows_evolve client_evolves (db_clients db) (db_clients db');
  ev_sessions : rows_evolve session_evolves (db_sessions db) (db_sessions db');
  ev_access : rows_evolve access_evolves (db_access_tokens db) (db_access_tokens db');
  ev_refresh : rows_evolve refresh_evolves (db_refresh_tokens db) (db_refresh_tokens db');
  ev_grants : rows_evolve grant_evolves (db_grants db) (db_grants db');
  ev_devices : rows_evolve device_evolves (db_device_grants db) (db_device_grants db');
  ev_personal_sessions :
    rows_evolve personal_session_evolves (db_personal_sessions db) (db_personal_sessions db');
  ev_personal_tokens :
    rows_evolve personal_token_evolves (db_personal_tokens db) (db_personal_tokens db');
  ev_email_auths :
    rows_evolve email_auth_evolves (db_email_authentications db) (db_email_authentications db');
  ev_phone_auths :
    rows_evolve phone_auth_evolves (db_phone_authentications db) (db_phone_authentications db');
  ev_notification_requests :
    rows_evolve request_evolves (db_notification_requests db) (db_notification_requests db');
  ev_deliveries :
    rows_evolve delivery_evolves (db_notification_deliveries db) (db_notification_deliveries db');
}.

Arguments ev_users {A} db db' _.
Arguments ev_admins {A} db db' _.
Arguments ev_user_sessions {A} db db' _.
Arguments ev_recoveries {A} db db' _.
Arguments ev_registrations {A} db db' _.
Arguments ev_tokens {A} db db' _.
Arguments ev_clients {A} db db' _.
Arguments ev_sessions {A} db db' _.
Arguments ev_access {A} db db' _.
Arguments ev_refresh {A} db db' _.
Arguments ev_grants {A} db db' _.
Arguments ev_devices {A} db db' _.
Arguments ev_personal_sessions {A} db db' _.
Arguments ev_personal_tokens {A} db db' _.
Arguments ev_email_auths {A} db db' _.
Arguments ev_phone_auths {A} db db' _.
Arguments ev_notification_requests {A} db db' _.
Arguments ev_deliveries {A} db db' _.

(** By requests that are not of administration, and by anything. *)
Abbreviation evolves := (evolves_by admins_evolve).
Abbreviation changes := (evolves_by any_admins).

#[export] Instance evolves_preorder A : PreOrder A → PreOrder (evolves_by A).
Proof.
  intros HA. split.
  - intros db. by split.
  - intros db1 db2 db3 [] []. split; first [congruence | by etrans].
Qed.
#[export] Instance governed_preorder : PreOrder governed.
Proof. unfold governed. apply _. Qed.

Lemma evolves_by_mono (A B : relation (gmap Z UserRow)) db db' :
  (A (db_users db) (db_users db') → B (db_users db) (db_users db')) →
  evolves_by A db db' → evolves_by B db db'.
Proof. intros HAB []. split; eauto. Qed.
#[export] Instance any_admins_preorder : PreOrder any_admins.
Proof. by split. Qed.
Lemma evolves_changes A db db' : evolves_by A db db' → changes db db'.
Proof. by apply evolves_by_mono. Qed.

(** ** Well-formed databases: the constraints of the schema *)

Record wf (db : DB) : Prop := {
  wf_access_unique : unique (Some ∘ AccessTokenRow_access_token) (db_access_tokens db);
  wf_refresh_unique : unique (Some ∘ RefreshTokenRow_refresh_token) (db_refresh_tokens db);
  wf_code_unique : unique GrantRow_authorization_code (db_grants db);
  wf_device_code_unique : unique (Some ∘ DeviceGrantRow_device_code) (db_device_grants db);
  wf_user_code_unique : unique (Some ∘ DeviceGrantRow_user_code) (db_device_grants db);
  wf_client_digest : unique ClientRow_metadata_digest (db_clients db);
  wf_personal_unique :
    unique (Some ∘ PersonalTokenRow_access_token_sha256) (db_personal_tokens db);
  wf_session_user : refers OAuthSessionRow_user_id (db_sessions db) (db_users db);
  wf_session_user_some : ∀ k r, db_sessions db !! k = Some r → is_Some (OAuthSessionRow_user_id r);
  wf_session_client :
    refers (Some ∘ OAuthSessionRow_oauth2_client_id) (db_sessions db) (db_clients db);
  wf_access_session :
    refers (Some ∘ AccessTokenRow_oauth2_session_id) (db_access_tokens db) (db_sessions db);
  wf_refresh_session :
    refers (Some ∘ RefreshTokenRow_oauth2_session_id) (db_refresh_tokens db) (db_sessions db);
  wf_refresh_access :
    refers RefreshTokenRow_oauth2_access_token_id (db_refresh_tokens db) (db_access_tokens db);
  wf_refresh_next :
    refers RefreshTokenRow_next_oauth2_refresh_token_id (db_refresh_tokens db) (db_refresh_tokens db);
  wf_grant_session : refers GrantRow_oauth2_session_id (db_grants db) (db_sessions db);
  wf_personal_token_session :
    refers (Some ∘ PersonalTokenRow_personal_session_id) (db_personal_tokens db)
      (db_personal_sessions db);
  wf_outbox :
    outbox_wf (db_notifications db) (db_email_authentications db) (db_phone_authentications db);
}.

Definition good (db db' : DB) : Prop := wf db' ∧ evolves db db'.

(** A change that leaves a column alone. *)
Lemma refers_alter_same {R R'} (col : R → option Ulid) (f : R → R) k m (m' : gmap Z R') :
  (∀ r, col (f r) = col r) → refers col m m' → refers col (alter f k m) m'.
Proof. intros Hf Hm. apply refers_alter; [done|]. intros r i Hk. rewrite Hf. eauto. Qed.

Lemma taken_text {R} (col : R → string) (P : R → bool) (m : gmap Z R) t :
  (∀ r, P r = bool_decide (col r = t)) → col_taken P m = false →
  ∀ k r c, m !! k = Some r → (Some ∘ col) r = Some c → Some t ≠ Some c.
Proof.
  intros HP Hf k r c Hk [= <-] [= ->]. rewrite col_taken_false in Hf.
  specialize (Hf _ _ Hk). rewrite HP in Hf. by apply bool_decide_eq_false in Hf.
Qed.

(** A change of rows that leaves a column alone, by what rows may become. *)
Ltac by_evolves H :=
  let r := fresh in let E := fresh in
  intros r; specialize (H r) as E; red in E; unfold compose; destruct_and?; congruence.

(** Solve the clauses of [good] for a change to one table; [H] says how the
    rows evolve. *)
Ltac solve_good_alter Hwf H :=
  destruct Hwf; split; constructor; simpl; try done;
  first [ apply unique_alter; [by_evolves H|done]
        | apply rows_alter; [apply _|exact H]
        | apply refers_alter_same; [by_evolves H|done]
        | eapply refers_grow; [eapply rows_alter; [|exact H]; apply _|]; done
        | idtac ].
Ltac solve_good_insert Hwf :=
  destruct Hwf; split; constructor; simpl; try done;
  first [ apply rows_insert; [apply _|done]
        | eapply (refers_grow _ eq); [apply rows_insert; [apply _|eassumption]|assumption]
        | idtac ].

Section tables.
Context (db : DB) (Hwf : wf db).

Lemma good_sessions_alter f k :
  (∀ r, session_evolves r (f r)) → good db (on_sessions (alter f k) db).
Proof.
  intros H. solve_good_alter Hwf H. intros j r. rewrite lookup_alter. case_decide; [subst|eauto].
  intros (y & Hy & ->)%fmap_Some. specialize (H y) as [-> _]. eauto.
Qed.
Lemma good_sessions_insert k r :
  db_sessions db !! k = None → is_Some (OAuthSessionRow_user_id r) →
  (∀ i, OAuthSessionRow_user_id r = Some i → is_Some (db_users db !! i)) →
  is_Some (db_clients db !! OAuthSessionRow_oauth2_client_id r) →
  good db (on_sessions <[k := r]> db).
Proof.
  intros Hk Hu Hus Hc. solve_good_insert Hwf.
  - by apply refers_insert.
  - intros j x [[-> <-]|[? Hx]]%lookup_insert_Some; eauto.
  - apply refers_insert; [done|]. by intros i [= <-].
Qed.
Lemma good_access_alter f k :
  (∀ r, access_evolves r (f r)) → good db (on_access_tokens (alter f k) db).
Proof. intros H. solve_good_alter Hwf H. Qed.
Lemma good_access_insert k r :
  access_token_violation k (AccessTokenRow_oauth2_session_id r) (AccessTokenRow_access_token r) db = None →
  good db (on_access_tokens <[k := r]> db).
Proof.
  intros Hv. apply first_violation_None in Hv. rewrite !Forall_cons in Hv. simpl in Hv.
  destruct Hv as (Hk%pk_taken_false & Ht & Hs%fk_broken_false & _). solve_good_insert Hwf.
  - apply unique_insert; [done|]. by apply taken_text with (P := has_access_token (AccessTokenRow_access_token r)).
  - apply refers_insert; [done|]. by intros i [= <-].
Qed.
Lemma good_refresh_alter f k :
  (∀ r, refresh_evolves r (f r)) →
  (∀ r i, db_refresh_tokens db !! k = Some r →
     RefreshTokenRow_next_oauth2_refresh_token_id (f r) = Some i →
     RefreshTokenRow_next_oauth2_refresh_token_id r = Some i ∨ is_Some (db_refresh_tokens db !! i)) →
  good db (on_refresh_tokens (alter f k) db).
Proof.
  intros H Hn. pose proof (wf_refresh_next _ Hwf) as Hnx. solve_good_alter Hwf H.
  eapply refers_grow; [eapply rows_alter; [|exact H]; apply _|]. apply refers_alter; [done|].
  intros r i Hk Hi. destruct (Hn r i Hk Hi); eauto.
Qed.
Lemma good_refresh_insert k r aid :
  RefreshTokenRow_oauth2_access_token_id r = Some aid →
  RefreshTokenRow_next_oauth2_refresh_token_id r = None →
  refresh_token_violation k (RefreshTokenRow_oauth2_session_id r) aid
    (RefreshTokenRow_refresh_token r) db = None →
  good db (on_refresh_tokens <[k := r]> db).
Proof.
  intros Ha Hn Hv. apply first_violation_None in Hv. rewrite !Forall_cons in Hv. simpl in Hv.
  destruct Hv as (Hk%pk_taken_false & Ht & Hs%fk_broken_false & Hac%fk_broken_false & _).
  solve_good_insert Hwf.
  - apply unique_insert; [done|].
    by apply taken_text with (P := has_refresh_token (RefreshTokenRow_refresh_token r)).
  - apply refers_insert; [done|]. by intros i [= <-].
  - apply refers_insert; [done|]. intros i. rewrite Ha. by intros [= <-].
  - apply refers_insert; [|intros i; by rewrite Hn].
    eapply (refers_grow _ eq); [apply rows_insert; [apply _|eassumption]|assumption].
Qed.
Lemma good_grants_alter f k :
  (∀ r, grant_evolves r (f r)) →
  (∀ r i, db_grants db !! k = Some r → GrantRow_oauth2_session_id (f r) = Some i →
     GrantRow_oauth2_session_id r = Some i ∨ is_Some (db_sessions db !! i)) →
  good db (on_grants (alter f k) db).
Proof.
  intros H Hn. pose proof (wf_grant_session _ Hwf) as Hg. solve_good_alter Hwf H.
  apply refers_alter; [done|]. intros r i Hk Hi. destruct (Hn r i Hk Hi); eauto.
Qed.
Lemma good_grants_insert k r client_id :
  GrantRow_oauth2_session_id r = None →
  grant_violation k client_id (GrantRow_authorization_code r) db = None →
  good db (on_grants <[k := r]> db).
Proof.
  intros Hn Hv. apply first_violation_None in Hv. rewrite !Forall_cons in Hv. simpl in Hv.
  destruct Hv as (Hk%pk_taken_false & Ht & _). solve_good_insert Hwf.
  - apply unique_insert; [done|]. intros k' r' c Hk' Hc Hc'. rewrite Hc' in Ht.
    rewrite col_taken_false in Ht. apply Ht in Hk'. unfold has_code in Hk'.
    by apply bool_decide_eq_false in Hk'.
  - apply refers_insert; [done|]. intros i. by rewrite Hn.
Qed.
Lemma good_devices_alter f k :
  (∀ r, device_evolves r (f r)) → good db (on_device_grants (alter f k) db).
Proof. intros H. solve_good_alter Hwf H. Qed.
Lemma good_devices_insert k r client_id :
  device_grant_violation k client_id (DeviceGrantRow_device_code r) (DeviceGrantRow_user_code r) db
    = None →
  good db (on_device_grants <[k := r]> db).
Proof.
  intros Hv. apply first_violation_None in Hv. rewrite !Forall_cons in Hv. simpl in Hv.
  destruct Hv as (Hk%pk_taken_false & Hu & Hd & _). solve_good_insert Hwf.
  - apply unique_insert; [done|].
    by apply taken_text with (P := has_device_code (DeviceGrantRow_device_code r)).
  - apply unique_insert; [done|].
    by apply taken_text with (P := has_user_code (DeviceGrantRow_user_code r)).
Qed.
Lemma good_clients_alter f k :
  (∀ r, client_evolves r (f r)) → good db (on_clients (alter f k) db).
Proof.
  intros H. solve_good_alter Hwf H. apply unique_alter; [|done]. intros r. specialize (H r).
  apply (f_equal ClientRow_metadata_digest) in H. exact H.
Qed.
Lemma good_clients_insert k r :
  client_violation k (ClientRow_metadata_digest r) db = None → good db (on_clients <[k := r]> db).
Proof.
  intros Hv. apply first_violation_None in Hv. rewrite !Forall_cons in Hv. simpl in Hv.
  destruct Hv as (Hk%pk_taken_false & Ht & _). solve_good_insert Hwf.
  apply unique_insert; [done|]. intros k' r' c Hk' Hc Hc'. rewrite Hc' in Ht.
  rewrite col_taken_false in Ht. apply Ht in Hk'. by apply bool_decide_eq_false in Hk'.
Qed.
Lemma good_personal_sessions_alter f k :
  (∀ r, personal_session_evolves r (f r)) → good db (on_personal_sessions (alter f k) db).
Proof. intros H. solve_good_alter Hwf H. Qed.
Lemma good_personal_sessions_insert k r :
  db_personal_sessions db !! k = None → good db (on_personal_sessions <[k := r]> db).
Proof. intros Hk. solve_good_insert Hwf. Qed.
Lemma good_personal_tokens_alter f k :
  (∀ r, personal_token_evolves r (f r)) → good db (on_personal_tokens (alter f k) db).
Proof. intros H. solve_good_alter Hwf H. Qed.
Lemma good_personal_tokens_fmap f :
  (∀ r, personal_token_evolves r (f r)) → good db (on_personal_tokens (fmap f) db).
Proof.
  intros H. destruct Hwf; split; constructor; simpl; try done.
  - apply unique_fmap; [by_evolves H|done].
  - apply refers_fmap; [by_evolves H|done].
  - by apply rows_fmap.
Qed.
Lemma good_personal_tokens_insert k r :
  personal_token_violation k (PersonalTokenRow_personal_session_id r)
    (PersonalTokenRow_access_token_sha256 r) db = None →
  good db (on_personal_tokens <[k := r]> db).
Proof.
  intros Hv. apply first_violation_None in Hv. rewrite !Forall_cons in Hv. simpl in Hv.
  destruct Hv as (Hk%pk_taken_false & Ht & Hs%fk_broken_false & _). solve_good_insert Hwf.
  - apply unique_insert; [done|].
    by apply taken_text with (P := has_token_sha256 (PersonalTokenRow_access_token_sha256 r)).
  - apply refers_insert; [done|]. by intros i [= <-].
Qed.
Lemma good_jobs f : good db (on_jobs f db).
Proof. destruct Hwf. split; constructor; simpl; done. Qed.
End tables.

(** ** The invariant of a request *)

(** Both databases are well formed, the committed one has evolved from [c0], and
    the transaction's from the committed one. *)
Definition Inv_by (A : relation (gmap Z UserRow)) (c0 : DB) (st : St) : Prop :=
  wf (st_db st) ∧ wf (st_committed st) ∧
  evolves_by A c0 (st_committed st) ∧ evolves_by A (st_committed st) (st_db st).
Abbreviation Inv := (Inv_by admins_evolve).

(** The ways administrators change that include those of the other requests. *)
Class AdminOrder (A : relation (gmap Z UserRow)) : Prop := {
  admin_order_preorder :: PreOrder A;
  admin_order_evolve m m' : admins_evolve m m' → A m m';
}.
#[export] Instance admins_evolve_order : AdminOrder admins_evolve.
Proof. by split; [apply _|]. Qed.
#[export] Instance any_admins_order : AdminOrder any_admins.
Proof. by split; [apply _|]. Qed.
#[export] Instance governed_order : AdminOrder governed.
Proof. split; [apply _|]. intros m m' H. apply rtc_once. by left. Qed.

Section maintained.
Context {A : relation (gmap Z UserRow)} {HA : AdminOrder A} (c0 : DB).
Abbreviation I := (Inv_by A c0).

Lemma maintains_keeps {E B} (m : M St E B) :
  keeps st_db m → keeps st_committed m → maintains I m.
Proof. intros Hd Hc st HI. unfold Inv_by. by rewrite Hd, Hc. Qed.
Lemma maintains_clock {E} : maintains I (clock_now : M St E _).
Proof. by intros st. Qed.
Lemma maintains_rng {E B} (f : Rng → B * Rng) : maintains I (with_rng f : M St E _).
Proof. by intros st. Qed.
Lemma maintains_gets {E B} (f : St → B) : maintains I (gets f : M St E B).
Proof. by intros st. Qed.
Lemma maintains_save {E} : maintains I (repo_save : M St E ()).
Proof. intros st (H1 & H2 & H3 & H4). split_and!; try done. by etrans. Qed.
Lemma maintains_cancel {E} : maintains I (repo_cancel : M St E ()).
Proof. intros st (H1 & H2 & H3 & H4). by split_and!. Qed.
Lemma maintains_upsert {E} (err : E) u : maintains I (upsert_device err u).
Proof. apply maintains_keeps; auto with keeps. Qed.
Lemma maintains_activity {E} k id ip : maintains I (record_session_activity k id ip : M St E ()).
Proof. apply maintains_keeps; auto with keeps. Qed.
Lemma maintains_lock {E} n : maintains I (advisory_lock n : M St E ()).
Proof. by intros st. Qed.

Lemma maintains_call {E} (err : E) c : maintains I (homeserver_call err c).
Proof. apply maintains_keeps; auto with keeps. Qed.

Lemma Inv_good_by db' st :
  Inv_by A c0 st → wf db' → evolves_by A (st_db st) db' → Inv_by A c0 (on_db (λ _, db') st).
Proof. intros (H1 & H2 & H3 & H4) Hw He. split_and!; try done. by etrans. Qed.
Lemma Inv_good db' st : Inv_by A c0 st → good (st_db st) db' → Inv_by A c0 (on_db (λ _, db') st).
Proof.
  intros HI [Hw He]. apply Inv_good_by; [done..|]. eapply evolves_by_mono, He.
  apply admin_order_evolve.
Qed.

Lemma maintains_modify_db {E} f :
  (∀ db, wf db → good db (f db)) → maintains I (modify (on_db f) : M St E ()).
Proof. intros Hf st HI. apply (Inv_good (f (st_db st)) st HI). apply Hf, HI. Qed.
Lemma maintains_insert {R} (on : (gmap Z R → gmap Z R) → DB → DB) v id r :
  (∀ db, wf db → v db = None → good db (on <[id := r]> db)) →
  maintains I (insert_row on v id r).
Proof.
  intros Hg st HI. unfold insert_row. destruct (v (st_db st)) eqn:Hv; [done|].
  apply (Inv_good (on <[id := r]> (st_db st)) st HI). apply Hg; [apply HI|done].
Qed.
Lemma maintains_update {R} (tbl : DB → gmap Z R) on v id f :
  (∀ db, wf db → v db = None → good db (on (alter f id) db)) →
  maintains I (update_by_id tbl on v id f).
Proof.
  intros Hg st HI. unfold update_by_id. destruct (tbl (st_db st) !! id); [|done].
  destruct (v (st_db st)) eqn:Hv; [done|].
  apply (Inv_good (on (alter f id) (st_db st)) st HI). apply Hg; [apply HI|done].
Qed.
Lemma maintains_ensure n k : maintains I (ensure_affected_rows_usize n k).
Proof. intros st HI. unfold ensure_affected_rows_usize. by case_bool_decide. Qed.
Lemma maintains_try_into {R B} (dec : Ulid → R → result B DatabaseError) res :
  maintains I (try_into dec res).
Proof. unfold try_into. destruct res as [[]|]; solve_maintains. Qed.
End maintained.

#[export] Hint Resolve maintains_clock maintains_rng maintains_gets maintains_save maintains_cancel
  maintains_upsert maintains_call maintains_activity maintains_lock maintains_try_into maintains_ensure : maintains.
#[export] Hint Extern 1 (maintains _ (select_by_id _ _)) => apply maintains_gets : maintains.
#[export] Hint Extern 1 (maintains _ (select_first _ _)) => apply maintains_gets : maintains.

(** ** The repository methods *)

Lemma session_violation_None k user usess client db :
  oauth2_session_violation k user usess client db = None →
  db_sessions db !! k = None ∧ is_Some user ∧
  (∀ i, user = Some i → is_Some (db_users db !! i)) ∧ is_Some (db_clients db !! client).
Proof.
  intros Hv. apply first_violation_None in Hv. rewrite !Forall_cons in Hv. simpl in Hv.
  destruct Hv as (Hu & Hk%pk_taken_false & _ & Hc%fk_broken_false & Hf & _).
  apply bool_decide_eq_false in Hu. split_and!; try done.
  - by apply not_eq_None_Some.
  - intros i ->. by apply fk_broken_false.
Qed.

(** What the columns written by a method say about the rows. *)
Ltac row_evolves := intros ?; red; unfold stays; simpl; split_and!; done.

Section repositories.
Context {A : relation (gmap Z UserRow)} {HA : AdminOrder A} (c0 : DB).
Abbreviation I := (Inv_by A c0).

Lemma maintains_access_token_lookup id : maintains I (access_token_lookup id).
Proof. unfold access_token_lookup. solve_maintains. Qed.
Lemma maintains_access_token_find t : maintains I (access_token_find_by_token t).
Proof. unfold access_token_find_by_token. solve_maintains. Qed.
Lemma maintains_access_token_add s t d : maintains I (access_token_add s t d).
Proof.
  unfold access_token_add. solve_maintains. apply maintains_insert. intros db Hwf Hv.
  by apply good_access_insert.
Qed.
Lemma maintains_access_token_revoke a : maintains I (access_token_revoke a).
Proof.
  unfold access_token_revoke. solve_maintains. apply maintains_update. intros db Hwf _.
  apply good_access_alter; [done|]. row_evolves.
Qed.
Lemma maintains_access_token_mark_used a : maintains I (access_token_mark_used a).
Proof.
  unfold access_token_mark_used. solve_maintains. apply maintains_update. intros db Hwf _.
  apply good_access_alter; [done|]. row_evolves.
Qed.

Lemma maintains_refresh_token_lookup id : maintains I (refresh_token_lookup id).
Proof. unfold refresh_token_lookup. solve_maintains. Qed.
Lemma maintains_refresh_token_find t : maintains I (refresh_token_find_by_token t).
Proof. unfold refresh_token_find_by_token. solve_maintains. Qed.
Lemma maintains_refresh_token_add s a t : maintains I (refresh_token_add s a t).
Proof.
  unfold refresh_token_add. solve_maintains. apply maintains_insert. intros db Hwf Hv.
  by eapply good_refresh_insert.
Qed.
Lemma maintains_refresh_token_consume t n : maintains I (refresh_token_consume t n).
Proof.
  unfold refresh_token_consume. solve_maintains. apply maintains_update. intros db Hwf Hv.
  apply first_violation_None in Hv. rewrite !Forall_cons in Hv.
  destruct Hv as (Hn%fk_broken_false & _). apply good_refresh_alter; [done|row_evolves|].
  simpl. intros r i _ [= <-]. by right.
Qed.
Lemma maintains_refresh_token_revoke t : maintains I (refresh_token_revoke t).
Proof.
  unfold refresh_token_revoke. solve_maintains. apply maintains_update. intros db Hwf _.
  apply good_refresh_alter; [done|row_evolves|]. simpl. by left.
Qed.

Lemma maintains_session_lookup id : maintains I (oauth2_session_lookup id).
Proof. unfold oauth2_session_lookup. solve_maintains. Qed.
Lemma maintains_session_add c u bs sc : maintains I (oauth2_session_add c u bs sc).
Proof.
  unfold oauth2_session_add. solve_maintains. apply maintains_insert. intros db Hwf Hv.
  apply session_violation_None in Hv as (? & ? & ? & ?). by apply good_sessions_insert.
Qed.
Lemma maintains_session_finish s : maintains I (oauth2_session_finish s).
Proof.
  unfold oauth2_session_finish. solve_maintains. apply maintains_update. intros db Hwf _.
  apply good_sessions_alter; [done|]. row_evolves.
Qed.
Lemma maintains_session_record_user_agent s ua : maintains I (oauth2_session_record_user_agent s ua).
Proof.
  unfold oauth2_session_record_user_agent. solve_maintains. apply maintains_update. intros db Hwf _.
  apply good_sessions_alter; [done|]. row_evolves.
Qed.
Lemma maintains_session_set_human_name s n : maintains I (oauth2_session_set_human_name s n).
Proof.
  unfold oauth2_session_set_human_name. solve_maintains. apply maintains_update. intros db Hwf _.
  apply good_sessions_alter; [done|]. row_evolves.
Qed.
Lemma maintains_session_count u : maintains I (oauth2_session_count_active_for_user u).
Proof. apply maintains_gets. Qed.

Section grants.
Context {UX : UrlExternals}.
Lemma maintains_grant_lookup id : maintains I (authorization_grant_lookup id).
Proof. unfold authorization_grant_lookup. solve_maintains. Qed.
Lemma maintains_grant_find c : maintains I (authorization_grant_find_by_code c).
Proof. unfold authorization_grant_find_by_code. solve_maintains. Qed.
End grants.
Lemma maintains_grant_add c ru raw sc code s n rm it lh lo :
  maintains I (authorization_grant_add c ru raw sc code s n rm it lh lo).
Proof.
  unfold authorization_grant_add. solve_maintains. apply maintains_insert. intros db Hwf Hv.
  by eapply good_grants_insert.
Qed.
Lemma maintains_grant_fulfill s g : maintains I (authorization_grant_fulfill s g).
Proof.
  unfold authorization_grant_fulfill. solve_maintains. apply maintains_update. intros db Hwf Hv.
  apply first_violation_None in Hv. rewrite !Forall_cons in Hv.
  destruct Hv as (Hn%fk_broken_false & _). apply good_grants_alter; [done|row_evolves|].
  simpl. intros r i _ [= <-]. by right.
Qed.
Lemma maintains_grant_exchange g : maintains I (authorization_grant_exchange g).
Proof.
  unfold authorization_grant_exchange. solve_maintains. apply maintains_update. intros db Hwf _.
  apply good_grants_alter; [done|row_evolves|]. simpl. by left.
Qed.

Lemma maintains_device_lookup id : maintains I (device_grant_lookup id).
Proof. unfold device_grant_lookup. solve_maintains. Qed.
Lemma maintains_device_find c : maintains I (device_grant_find_by_device_code c).
Proof. unfold device_grant_find_by_device_code. solve_maintains. Qed.
Lemma maintains_device_find_user c : maintains I (device_grant_find_by_user_code c).
Proof. unfold device_grant_find_by_user_code. solve_maintains. Qed.
Lemma maintains_device_add p : maintains I (device_grant_add p).
Proof.
  unfold device_grant_add. solve_maintains. apply maintains_insert. intros db Hwf Hv.
  by eapply good_devices_insert.
Qed.
Lemma maintains_device_fulfill g b : maintains I (device_grant_fulfill g b).
Proof.
  unfold device_grant_fulfill. solve_maintains. apply maintains_update. intros db Hwf _.
  apply good_devices_alter; [done|]. row_evolves.
Qed.
Lemma maintains_device_reject g b : maintains I (device_grant_reject g b).
Proof.
  unfold device_grant_reject. solve_maintains. apply maintains_update. intros db Hwf _.
  apply good_devices_alter; [done|]. row_evolves.
Qed.
Lemma maintains_device_exchange g s : maintains I (device_grant_exchange g s).
Proof.
  unfold device_grant_exchange. solve_maintains. apply maintains_update. intros db Hwf _.
  apply good_devices_alter; [done|]. row_evolves.
Qed.

Section users.
Context {DX : DbExternals}.
Lemma maintains_user_lookup id : maintains I (user_lookup id).
Proof. unfold user_lookup. solve_maintains. Qed.
Lemma maintains_browser_session_lookup id : maintains I (browser_session_lookup id).
Proof. unfold browser_session_lookup. solve_maintains. Qed.
Lemma maintains_personal_find t : maintains I (personal_token_find_by_token t).
Proof. unfold personal_token_find_by_token. solve_maintains. Qed.
Lemma maintains_personal_add s t d : maintains I (personal_token_add s t d).
Proof.
  unfold personal_token_add. solve_maintains. apply maintains_insert. intros db Hwf Hv.
  by apply good_personal_tokens_insert.
Qed.
End users.
Lemma maintains_last_authentication b : maintains I (browser_session_get_last_authentication b).
Proof. unfold browser_session_get_last_authentication. solve_maintains. Qed.
Lemma maintains_user_lock u : maintains I (user_acquire_lock_for_sync u).
Proof. apply maintains_lock. Qed.
Section clients.
Context {UX : UrlExternals} {DX : DbExternals}.
Lemma maintains_client_lookup id : maintains I (oauth2_client_lookup id).
Proof. unfold oauth2_client_lookup. solve_maintains. Qed.
Lemma maintains_find_by_client_id id : maintains I (oauth2_client_find_by_client_id id).
Proof.
  unfold oauth2_client_find_by_client_id. destruct (ulid_from_string id); [|solve_maintains].
  apply maintains_client_lookup.
Qed.
End clients.

Lemma maintains_personal_session_lookup id : maintains I (personal_session_lookup id).
Proof. unfold personal_session_lookup. solve_maintains. Qed.
Lemma maintains_personal_session_add o a n sc : maintains I (personal_session_add o a n sc).
Proof.
  unfold personal_session_add. solve_maintains. apply maintains_insert. intros db Hwf Hv.
  apply first_violation_None in Hv. rewrite !Forall_cons in Hv.
  destruct Hv as (Hk%pk_taken_false & _). by apply good_personal_sessions_insert.
Qed.
Lemma maintains_personal_session_revoke s : maintains I (personal_session_revoke s).
Proof.
  unfold personal_session_revoke. solve_maintains.
  - apply maintains_modify_db. intros db Hwf. apply good_personal_tokens_fmap; [done|].
    intros r. unfold revoke_session_tokens. case_bool_decide; [|reflexivity].
    red; unfold stays; simpl; by split_and!.
  - apply maintains_update. intros db Hwf _. apply good_personal_sessions_alter; [done|]. row_evolves.
Qed.
Lemma maintains_personal_count u : maintains I (personal_session_count_active_for_user u).
Proof. apply maintains_gets. Qed.
Lemma maintains_personal_token_revoke t : maintains I (personal_token_revoke t).
Proof.
  unfold personal_token_revoke. solve_maintains. apply maintains_update. intros db Hwf _.
  apply good_personal_tokens_alter; [done|]. row_evolves.
Qed.
Lemma maintains_schedule_job uid : maintains I (schedule_sync_devices_job uid).
Proof.
  unfold schedule_sync_devices_job, queue_job_schedule, queue_job_insert. solve_maintains. apply maintains_insert.
  intros db Hwf _. by apply good_jobs.
Qed.
End repositories.

#[export] Hint Resolve maintains_access_token_lookup maintains_access_token_find
  maintains_access_token_add maintains_access_token_revoke maintains_access_token_mark_used
  maintains_refresh_token_lookup maintains_refresh_token_find maintains_refresh_token_add
  maintains_refresh_token_consume maintains_refresh_token_revoke maintains_session_lookup
  maintains_session_add maintains_session_finish maintains_session_record_user_agent
  maintains_session_set_human_name maintains_session_count maintains_grant_lookup
  maintains_grant_find maintains_grant_add maintains_grant_fulfill maintains_grant_exchange
  maintains_device_lookup maintains_device_find maintains_device_find_user maintains_device_add
  maintains_device_fulfill maintains_device_reject maintains_device_exchange maintains_user_lookup
  maintains_browser_session_lookup maintains_personal_find maintains_personal_add
  maintains_last_authentication maintains_user_lock maintains_client_lookup
  maintains_find_by_client_id
  maintains_personal_session_lookup maintains_personal_session_add
  maintains_personal_session_revoke maintains_personal_count maintains_personal_token_revoke
  maintains_schedule_job : maintains.
