(* ===== verification/AccountServer.v ===== *)
(** The requests on accounts: those that begin, advance and finish registrations,
    that claim the first administrator, log in and out, change passwords, recover
    accounts and change contacts, and what they leave behind.

    Also modelled here: the registration prepared from an upstream identity
    (handlers/upstream_oauth2/link_workflow.rs) and the endpoints of the first
    administrator (handlers/account/bootstrap_admin_status.rs). *)
From S2P Require Import Prelude Ids RateLimit Passwords Scope Pkce Jose Domain Accounts Database Repository Handlers AccountRepository Registration Login.

Open Scope Z_scope.

(** ** Registering from an upstream identity *)

Section upstream.
Context {UX : UrlExternals}.

Definition prepare_user_registration (upstream_session : UpstreamOAuthAuthorizationSession)
    (localpart : string) (displayname email avatar_url : option string)
    (ip_address : option IpAddr) (user_agent : option string) (post_auth_action : option Json)
    : M St DatabaseError UserRegistration :=
  registration ← user_registration_add localpart ip_address user_agent post_auth_action;
  registration ←
    match email with
    | Some email =>
        authentication ← user_email_add_authentication_for_registration email registration;
        authentication ← user_email_complete_authentication_with_upstream authentication
                           upstream_session;
        user_registration_set_email_authentication registration authentication
    | None => mret registration
    end;
  registration ←
    match displayname with
    | Some name => user_registration_set_display_name registration name
    | None => mret registration
    end;
  registration ←
    match avatar_url with
    | Some url => user_registration_set_avatar_url registration url
    | None => mret registration
    end;
  user_registration_set_upstream_oauth_authorization_session registration upstream_session.

(** The end of the action [Register] of [submit_upstream_link], and the [save] of its caller. *)
Definition register_upstream (upstream_session : UpstreamOAuthAuthorizationSession)
    (localpart : string) (displayname email avatar_url : option string)
    (ip_address : option IpAddr) (user_agent : option string) (post_auth_action : option Json)
    (tos_uri : option Url) : M St DatabaseError UserRegistration :=
  registration ← prepare_user_registration upstream_session localpart displayname email avatar_url
                   ip_address user_agent post_auth_action;
  registration ←
    match tos_uri with
    | Some terms_url => user_registration_set_terms_url registration terms_url
    | None => mret registration
    end;
  _ ← repo_save;
  mret registration.
End upstream.

(** ** The first administrator *)

Section bootstrap.
Context {UX : UrlExternals} {DX : DbExternals} {LX : LimiterExternals} {XX : AccountExternals}.

Record BootstrapAdminStatusResponse := {
  bootstrap_has_admin : bool;
  bootstrap_token_is_configured : bool;
  bootstrap_setup_required : bool;
}.

Definition bootstrap_token_configured (bootstrap_admin_token : option string) : bool :=
  match trim <$> bootstrap_admin_token with
  | Some token => negb (bool_decide (token = ""))
  | None => false
  end.

Definition load_bootstrap_admin_status_from (bootstrap_admin_token : option string)
    : M St DatabaseError BootstrapAdminStatusResponse :=
  count ← user_count can_request_admin_only;
  let has_admin := bool_decide (0 < count)%nat in
  let token_configured := bootstrap_token_configured bootstrap_admin_token in
  mret {| bootstrap_has_admin := has_admin;
          bootstrap_token_is_configured := token_configured;
          bootstrap_setup_required := token_configured && negb has_admin |}.

Inductive ClaimRouteError :=
| ClaimRoute_RateLimited
| ClaimRoute_NotFound
| ClaimRoute_Repository (error : DatabaseError).

(** [post_claim], for the user of the browser session that asks. *)
Definition post_claim (requester : RequesterFingerprint) (user_id : Ulid)
    (bootstrap_admin_token : option string) (token : string)
    : M St ClaimRouteError ClaimBootstrapAdminOutcome :=
  _ ← try_with (λ _, ClaimRoute_RateLimited) (on_limiter (check_password requester user_id));
  outcome ← try_with (λ error, match error with
                               | Claim_NotFound => ClaimRoute_NotFound
                               | Claim_Repository error => ClaimRoute_Repository error
                               end) (claim_bootstrap_admin user_id bootstrap_admin_token token);
  match outcome with
  | Claim_Claimed =>
      _ ← try_with ClaimRoute_Repository (schedule_provision_user_job user_id None None);
      _ ← repo_save;
      mret outcome
  | _ => mret outcome
  end.
End bootstrap.

(** ** Requests and histories *)

Inductive AccountRequest :=
| Account_Begin (manager : PasswordManager) (homeserver : Homeserver)
    (request : BeginPasswordRegistrationRequest)
| Account_Upstream (upstream_session : UpstreamOAuthAuthorizationSession) (localpart : string)
    (displayname email avatar_url : option string) (ip_address : option IpAddr)
    (user_agent : option string) (post_auth_action : option Json) (tos_uri : option Url)
| Account_Status (id : Ulid)
| Account_EmailCode (id : Ulid) (code : string)
| Account_PhoneCode (id : Ulid) (code : string)
| Account_Resend (requester : RequesterFingerprint) (id : Ulid) (language : string)
| Account_ChangeEmail (requester : RequesterFingerprint) (id : Ulid) (email language : string)
| Account_DisplayName (id : Ulid) (display_name : option string) (skip : bool)
| Account_Finish (homeserver : Homeserver) (id : Ulid) (browser_session_present : option bool)
    (registration_token_required : bool) (configured requested user_agent : option string)
| Account_BootstrapStatus (configured : option string)
| Account_Claim (requester : RequesterFingerprint) (user_id : Ulid) (configured : option string)
    (token : string)
| Account_Login (manager : PasswordManager) (site_config : LoginConfig)
    (request : PasswordLoginRequest)
| Account_Logout (session_id : option Ulid)
| Account_ChangePassword (manager : PasswordManager) (user_id : Ulid)
    (current_password : option string) (new_password : string)
    (is_admin password_change_allowed : bool)
| Account_StartRecovery (requester : RequesterFingerprint) (email user_agent : string)
    (ip_address : option IpAddr) (locale : string)
| Account_ResendRecovery (requester : RequesterFingerprint) (session_id : Ulid)
| Account_ResendByTicket (requester : RequesterFingerprint) (ticket : string)
| Account_CompleteRecovery (manager : PasswordManager) (ticket new_password : string)
    (recovery_allowed : bool)
| Account_StartEmail (manager : PasswordManager) (email_change_allowed login_enabled is_admin : bool)
    (requester : RequesterFingerprint) (browser_session : option BrowserSession) (email : string)
    (password : option string) (language : string)
| Account_CompleteEmail (id : Ulid) (browser_session : option BrowserSession) (code : string)
| Account_ResendEmail (requester : RequesterFingerprint) (id : Ulid)
    (browser_session : option BrowserSession) (language : string)
| Account_RemoveEmail (manager : PasswordManager) (requester_user_id : option Ulid)
    (is_admin login_enabled : bool) (password : option string) (email_id : Ulid).

Section server.
Context {UX : UrlExternals} {DX : DbExternals} {LX : LimiterExternals} {XX : AccountExternals}
        {WX : PasswordExternals} {RX : RegistrationExternals} {GX : LoginExternals}.

(** What a request leaves behind, its answer apart. *)
Definition account_serve (req : AccountRequest) (st : St) : St :=
  match req with
  | Account_Begin manager hs request => (begin_password_registration manager hs request st).2
  | Account_Upstream session localpart name email avatar ip ua paa tos =>
      (register_upstream session localpart name email avatar ip ua paa tos st).2
  | Account_Status id => (load_registration_status id st).2
  | Account_EmailCode id code => (submit_registration_email_code id code st).2
  | Account_PhoneCode id code => (submit_registration_phone_code id code st).2
  | Account_Resend requester id language => (resend_registration_verification requester id language st).2
  | Account_ChangeEmail requester id email language =>
      (change_registration_email requester id email language st).2
  | Account_DisplayName id name skip => (submit_registration_display_name id name skip st).2
  | Account_Finish hs id bsp required configured requested ua =>
      (finish_registration hs id bsp required configured requested ua st).2
  | Account_BootstrapStatus configured => (load_bootstrap_admin_status_from configured st).2
  | Account_Claim requester user_id configured token =>
      (post_claim requester user_id configured token st).2
  | Account_Login manager cfg request => (login_with_password manager cfg request st).2
  | Account_Logout session_id => (logout_browser_session session_id st).2
  | Account_ChangePassword manager user_id current new is_admin allowed =>
      (change_password manager user_id current new is_admin allowed st).2
  | Account_StartRecovery requester email ua ip locale =>
      (start_account_recovery requester email ua ip locale st).2
  | Account_ResendRecovery requester session_id => (resend_account_recovery requester session_id st).2
  | Account_ResendByTicket requester ticket =>
      (resend_account_recovery_by_ticket requester ticket st).2
  | Account_CompleteRecovery manager ticket new allowed =>
      (complete_account_recovery manager ticket new allowed st).2
  | Account_StartEmail manager allowed enabled is_admin requester bs email password language =>
      (start_email_verification manager allowed enabled is_admin requester bs email password
         language st).2
  | Account_CompleteEmail id bs code => (complete_email_verification id bs code st).2
  | Account_ResendEmail requester id bs language =>
      (resend_email_verification_code requester id bs language st).2
  | Account_RemoveEmail manager requester is_admin enabled password email_id =>
      (remove_user_email manager requester is_admin enabled password email_id st).2
  end.

End server.
