(* ===== verification/AccountIntegrity.v ===== *)
(** The requests on accounts maintain the integrity of the database: what they
    commit is well formed and has evolved from what was committed before, and a
    request that fails, or that refuses, commits nothing. *)
From S2P Require Import Prelude Ids RateLimit Passwords TokenFormat Scope Pkce Jose Domain Accounts Notification Database Repository Handlers AccountRepository Registration Login RepositorySpec AccountSpec RegistrationSpec Outbox Integrity AccountServer.

Open Scope Z_scope.

(** ** Changes to the tables of accounts *)

Lemma good_build_by (A : relation (gmap Z UserRow)) db db' :
  wf db → same_oauth db db' →
  rows_evolve user_evolves (db_users db) (db_users db') →
  A (db_users db) (db_users db') →
  rows_evolve user_session_evolves (db_user_sessions db) (db_user_sessions db') →
  rows_evolve recovery_evolves (db_recovery_sessions db) (db_recovery_sessions db') →
  rows_evolve email_auth_evolves (db_email_authentications db) (db_email_authentications db') →
  rows_evolve phone_auth_evolves (db_phone_authentications db) (db_phone_authentications db') →
  db_notifications db' = db_notifications db →
  rows_evolve registration_evolves (db_registrations db) (db_registrations db') →
  tokens_evolve (db_registrations db) (db_registrations db') → wf db' ∧ evolves_by A db db'.
Proof.
  intros [] (E1 & E2 & E3 & E4 & E5 & E6 & E7 & E8) Hu Ha Hs Hc Hem Hph Hn Hr Ht.
  split; constructor; unfold db_notification_requests, db_notification_deliveries;
    rewrite ?E1, ?E2, ?E3, ?E4, ?E5, ?E6, ?E7, ?E8, ?Hn; try done.
  - by eapply refers_grow.
  - eapply outbox_mono; [| |done].
    + intros a x (x' & ? & ? & _)%Hem. eauto.
    + intros a x (x' & ? & ? & _)%Hph. eauto.
Qed.
Abbreviation good_build := (good_build_by admins_evolve).

(** A change to tables that neither [wf] nor [evolves] speaks of. *)
Ltac good_frame := intros; apply good_build; [done|by split_and!|reflexivity..].

Lemma db_registrations_on f db : db_registrations (on_registrations f db) = f (db_registrations db).
Proof. done. Qed.

Section tables.
Context (db : DB) (Hwf : wf db).

Lemma good_registrations_insert k r :
  db_registrations db !! k = None → RegistrationRow_user_registration_token_id r = None →
  good db (on_registrations <[k := r]> db).
Proof.
  intros Hk Ht. apply good_build; [done|by split_and!|reflexivity..| |]; rewrite db_registrations_on.
  - by apply rows_insert; [apply _|].
  - intros j x t [[-> <-]|[? Hx]]%lookup_insert_Some Hj; [congruence|eauto].
Qed.

Lemma good_registrations_alter k f r :
  db_registrations db !! k = Some r → RegistrationRow_completed_at r = None →
  (∀ r, RegistrationRow_username (f r) = RegistrationRow_username r ∧
        RegistrationRow_created_at (f r) = RegistrationRow_created_at r ∧
        RegistrationRow_user_registration_token_id (f r) =
          RegistrationRow_user_registration_token_id r) →
  good db (on_registrations (alter f k) db).
Proof.
  intros Hk Hp Hf. apply good_build; [done|by split_and!|reflexivity..| |]; rewrite db_registrations_on.
  - intros j x Hx. rewrite lookup_alter. case_decide as Hd; [subst j|by exists x].
    rewrite Hx in Hk. injection Hk as ->. rewrite Hx. simpl. eexists. split; [done|].
    destruct (Hf r) as (?&?&?). red. rewrite Hp. split_and!; [done..|by intros []].
  - intros j x t. rewrite lookup_alter. case_decide as Hd; [subst j|eauto].
    intros (y & Hy & ->)%fmap_Some Ht. destruct (Hf y) as (_ & _ & Et). rewrite Et in Ht. eauto.
Qed.

Lemma good_email_auths_insert k r l :
  new_row_violation "user_email_authentications" k (db_email_authentications db) l = None →
  good db (on_email_authentications <[k := r]> db).
Proof.
  intros [Hk _]%new_row_violation_None.
  apply good_build; [done|by split_and!|reflexivity..| |reflexivity|reflexivity|reflexivity|reflexivity].
  by apply rows_insert; [apply _|].
Qed.
Lemma good_email_auths_complete k t :
  good db (on_email_authentications (alter (EmailAuthRow_set_completed_at t) k) db).
Proof.
  apply good_build; [done|by split_and!|reflexivity..| |reflexivity|reflexivity|reflexivity|reflexivity].
  apply rows_alter; [apply _|]. row_evolves.
Qed.
End tables.

(** ** The requests that do not make users *)

Section maintained.
Context {A : relation (gmap Z UserRow)} {HA : AdminOrder A} (c0 : DB).
Abbreviation I := (Inv_by A c0).

Lemma maintains_update_where {R} (tbl : DB → gmap Z R) on v id P f :
  (∀ db r, wf db → tbl db !! id = Some r → P r = true → v db = None → good db (on (alter f id) db)) →
  maintains I (update_where tbl on v id P f).
Proof.
  intros Hg st HI. unfold update_where, update_by_id.
  destruct (tbl (st_db st) !! id) as [r|] eqn:Hr; [|done]. destruct (P r) eqn:HP; [|done].
  destruct (v (st_db st)) eqn:Hv; [done|].
  apply (Inv_good _ (on (alter f id) (st_db st)) st HI). eapply Hg; eauto. apply HI.
Qed.
Lemma maintains_update_one_where {R} (tbl : DB → gmap Z R) on v id P f :
  (∀ db r, wf db → tbl db !! id = Some r → P r = true → v db = None → good db (on (alter f id) db)) →
  maintains I (update_one_where tbl on v id P f).
Proof.
  intros Hg. apply maintains_bind; [by apply maintains_update_where|].
  intros n. apply maintains_ensure.
Qed.
Lemma maintains_update_registration v reg f :
  (∀ r, RegistrationRow_username (f r) = RegistrationRow_username r ∧
        RegistrationRow_created_at (f r) = RegistrationRow_created_at r ∧
        RegistrationRow_user_registration_token_id (f r) =
          RegistrationRow_user_registration_token_id r) →
  maintains I (update_registration v reg f).
Proof.
  intros Hf. apply maintains_update_one_where. intros db r Hwf Hr HP _.
  eapply good_registrations_alter; try done. by apply bool_decide_eq_true in HP.
Qed.
Lemma maintains_on_limiter {E B} (m : M Limiter E B) : maintains I (on_limiter m).
Proof. by intros st. Qed.
Lemma maintains_is_limited {E F} (m : M Limiter E ()) : maintains I (is_limited m : M St F bool).
Proof.
  intros st HI. unfold is_limited. pose proof (maintains_on_limiter m st HI) as H.
  by destruct (on_limiter m st) as [[]].
Qed.
Lemma maintains_catch {E F C B} (m : M St E C) (h : result C E → result B F) :
  maintains I m → maintains I (catch m h).
Proof. intros Hm st HI. by apply Hm. Qed.
Lemma maintains_if_no_issue {F} issues (m : M St F (list BeginPasswordRegistrationIssue)) :
  maintains I m → maintains I (if_no_issue issues m).
Proof. intros Hm. destruct issues; [done|]. apply maintains_ret. Qed.
Lemma maintains_must {E} c (e : E) : maintains I (require c e).
Proof. unfold require. solve_maintains. Qed.
Lemma maintains_schedule name payload : maintains I (queue_job_schedule name payload).
Proof. unfold queue_job_schedule, queue_job_insert. solve_maintains. apply maintains_insert. good_frame. Qed.
Lemma maintains_notification t l : maintains I (schedule_notification t l).
Proof. apply maintains_schedule. Qed.
End maintained.

#[export] Hint Resolve maintains_on_limiter maintains_is_limited maintains_must maintains_schedule
  maintains_notification : maintains.
#[export] Hint Extern 1 (maintains _ (select_all _ _)) => apply maintains_gets : maintains.
#[export] Hint Extern 1 (maintains _ (update_registration _ _ _)) =>
  apply maintains_update_registration; by intros [] : maintains.

Section repositories.
Context {UX : UrlExternals} {DX : DbExternals} {LX : LimiterExternals} {XX : AccountExternals}.
Context {A : relation (gmap Z UserRow)} {HA : AdminOrder A} (c0 : DB).
Abbreviation I := (Inv_by A c0).

Lemma maintains_registration_lookup id : maintains I (user_registration_lookup id).
Proof. unfold user_registration_lookup. solve_maintains. Qed.
Lemma maintains_registration_add username ip ua paa :
  maintains I (user_registration_add username ip ua paa).
Proof.
  unfold user_registration_add. solve_maintains. apply maintains_insert. intros db Hwf Hv.
  apply new_row_violation_None in Hv as [Hv _]. by apply good_registrations_insert.
Qed.
Lemma maintains_set_display_name reg x : maintains I (user_registration_set_display_name reg x).
Proof. unfold user_registration_set_display_name. solve_maintains. Qed.
Lemma maintains_set_avatar_url reg x : maintains I (user_registration_set_avatar_url reg x).
Proof. unfold user_registration_set_avatar_url. solve_maintains. Qed.
Lemma maintains_set_terms_url reg x : maintains I (user_registration_set_terms_url reg x).
Proof. unfold user_registration_set_terms_url. solve_maintains. Qed.
Lemma maintains_set_email reg x : maintains I (user_registration_set_email_authentication reg x).
Proof. unfold user_registration_set_email_authentication. solve_maintains. Qed.
Lemma maintains_set_phone reg x : maintains I (user_registration_set_phone_authentication reg x).
Proof. unfold user_registration_set_phone_authentication. solve_maintains. Qed.
Lemma maintains_set_password reg h v : maintains I (user_registration_set_password reg h v).
Proof. unfold user_registration_set_password. solve_maintains. Qed.
Lemma maintains_set_upstream reg x :
  maintains I (user_registration_set_upstream_oauth_authorization_session reg x).
Proof. unfold user_registration_set_upstream_oauth_authorization_session. solve_maintains. Qed.
Lemma maintains_email_add_authentication email reg :
  maintains I (user_email_add_authentication_for_registration email reg).
Proof.
  unfold user_email_add_authentication_for_registration, insert_email_authentication.
  solve_maintains. apply maintains_insert. intros. by eapply good_email_auths_insert.
Qed.
Lemma maintains_phone_add_authentication phone reg :
  maintains I (user_phone_add_authentication_for_registration phone reg).
Proof.
  unfold user_phone_add_authentication_for_registration.
  solve_maintains. apply maintains_insert. intros db Hwf Hv.
  apply new_row_violation_None in Hv as [Hv _].
  apply good_build; [done|by split_and!|reflexivity..| |reflexivity|reflexivity|reflexivity].
  by apply rows_insert; [apply _|].
Qed.
Lemma maintains_email_lookup_authentication id : maintains I (user_email_lookup_authentication id).
Proof. unfold user_email_lookup_authentication. solve_maintains. Qed.
Lemma maintains_phone_lookup_authentication id : maintains I (user_phone_lookup_authentication id).
Proof. unfold user_phone_lookup_authentication. solve_maintains. Qed.
Lemma maintains_email_complete a c : maintains I (user_email_complete_authentication_with_code a c).
Proof.
  unfold user_email_complete_authentication_with_code. solve_maintains.
  apply maintains_update_where. intros. by apply good_email_auths_complete.
Qed.
Lemma maintains_email_complete_upstream a s :
  maintains I (user_email_complete_authentication_with_upstream a s).
Proof.
  unfold user_email_complete_authentication_with_upstream. solve_maintains.
  apply maintains_update_where. intros. by apply good_email_auths_complete.
Qed.
Lemma maintains_phone_complete a c : maintains I (user_phone_complete_authentication_with_code a c).
Proof.
  unfold user_phone_complete_authentication_with_code. solve_maintains.
  apply maintains_update_where. intros.
  apply good_build; [done|by split_and!|reflexivity..| |reflexivity|reflexivity|reflexivity].
  apply rows_alter; [apply _|]. row_evolves.
Qed.
Lemma maintains_browser_session_add user ua : maintains I (browser_session_add user ua).
Proof.
  unfold browser_session_add. solve_maintains. apply maintains_insert. intros db Hwf Hv.
  apply new_row_violation_None in Hv as [Hv _].
  apply good_build; [done|by split_and!|reflexivity|reflexivity| |reflexivity..].
  by apply rows_insert; [apply _|].
Qed.
Lemma maintains_browser_session_finish s : maintains I (browser_session_finish s).
Proof.
  unfold browser_session_finish. solve_maintains. apply maintains_update. intros db Hwf _.
  apply good_build; [done|by split_and!|reflexivity|reflexivity| |reflexivity..].
  apply rows_alter; [apply _|]. row_evolves.
Qed.
Lemma maintains_authenticate s p : maintains I (browser_session_authenticate_with_password s p).
Proof.
  unfold browser_session_authenticate_with_password, insert_authentication. solve_maintains.
  apply maintains_insert. good_frame.
Qed.
Lemma maintains_password_add u v h p : maintains I (user_password_add u v h p).
Proof. unfold user_password_add. solve_maintains. apply maintains_insert. good_frame. Qed.
Lemma maintains_password_active u : maintains I (user_password_active u).
Proof. unfold user_password_active. solve_maintains. Qed.
Lemma maintains_email_add u e : maintains I (user_email_add u e).
Proof. unfold user_email_add. solve_maintains. apply maintains_insert. good_frame. Qed.
Lemma maintains_email_remove e : maintains I (user_email_remove e).
Proof.
  unfold user_email_remove. solve_maintains. intros st HI. unfold delete_by_id.
  destruct (db_emails (st_db st) !! _); [|done].
  apply (Inv_good _ (on_emails_cascade (UserEmail_id e) (delete (UserEmail_id e)) (st_db st)) st HI).
  destruct HI. good_frame.
Qed.
Lemma maintains_session_authentication e s :
  maintains I (user_email_add_authentication_for_session e s).
Proof.
  unfold user_email_add_authentication_for_session, insert_email_authentication.
  solve_maintains. apply maintains_insert. intros. by eapply good_email_auths_insert.
Qed.
Lemma maintains_lookup_recovery id : maintains I (user_recovery_lookup_session id).
Proof. unfold user_recovery_lookup_session. solve_maintains. Qed.
Lemma maintains_add_recovery e ua ip l : maintains I (user_recovery_add_session e ua ip l).
Proof.
  unfold user_recovery_add_session. solve_maintains. apply maintains_insert. intros db Hwf Hv.
  apply new_row_violation_None in Hv as [Hv _].
  apply good_build; [done|by split_and!|reflexivity|reflexivity|reflexivity| |reflexivity..].
  apply (rows_insert recovery_evolves); [apply _|exact Hv].
Qed.
Lemma maintains_consume_ticket t s : maintains I (user_recovery_consume_ticket t s).
Proof.
  unfold user_recovery_consume_ticket. solve_maintains. apply maintains_update. intros db Hwf _.
  apply good_build; [done|by split_and!|reflexivity|reflexivity|reflexivity| |reflexivity..].
  apply (rows_alter recovery_evolves); [apply _|]. row_evolves.
Qed.
End repositories.

#[export] Hint Resolve maintains_browser_session_add maintains_browser_session_finish
  maintains_authenticate maintains_password_add maintains_password_active maintains_email_add
  maintains_email_remove maintains_session_authentication maintains_lookup_recovery
  maintains_add_recovery maintains_consume_ticket : maintains.
#[export] Hint Resolve maintains_registration_lookup maintains_registration_add
  maintains_set_display_name maintains_set_avatar_url maintains_set_terms_url maintains_set_email
  maintains_set_phone maintains_set_password maintains_set_upstream
  maintains_email_add_authentication maintains_phone_add_authentication
  maintains_email_lookup_authentication maintains_phone_lookup_authentication
  maintains_email_complete maintains_email_complete_upstream maintains_phone_complete : maintains.

Section requests.
Context {UX : UrlExternals} {DX : DbExternals} {LX : LimiterExternals} {XX : AccountExternals}
        {WX : PasswordExternals} {RX : RegistrationExternals} {GX : LoginExternals}.
Context {A : relation (gmap Z UserRow)} {HA : AdminOrder A} (c0 : DB).
Abbreviation I := (Inv_by A c0).

Lemma maintains_start_email e reg l : maintains I (start_email_authentication e reg l).
Proof. unfold start_email_authentication. solve_maintains. Qed.
Lemma maintains_start_phone e reg l : maintains I (start_phone_authentication e reg l).
Proof. unfold start_phone_authentication. solve_maintains. Qed.
#[local] Hint Resolve maintains_start_email maintains_start_phone : maintains.

Lemma maintains_begin manager hs request :
  maintains I (begin_password_registration manager hs request).
Proof.
  unfold begin_password_registration, username_issues, email_issues, phone_issues,
    rate_limit_issues, start_password_registration, hash_password, user_exists, user_email_count,
    user_phone_find_by_phone.
  solve_maintains; apply maintains_if_no_issue; solve_maintains.
Qed.
Lemma maintains_upstream s l n e a ip ua paa tos :
  maintains I (register_upstream s l n e a ip ua paa tos).
Proof. unfold register_upstream, prepare_user_registration. solve_maintains. Qed.
Lemma maintains_load_progress id : maintains I (load_registration_progress id).
Proof. unfold load_registration_progress. solve_maintains. Qed.
#[local] Hint Resolve maintains_load_progress : maintains.
Lemma maintains_load_status id : maintains I (load_registration_status id).
Proof. unfold load_registration_status. solve_maintains. Qed.
Lemma maintains_email_code id code : maintains I (submit_registration_email_code id code).
Proof.
  apply maintains_catch. unfold verify_registration_email_code, user_email_find_authentication_code.
  solve_maintains.
Qed.
Lemma maintains_phone_code id code : maintains I (submit_registration_phone_code id code).
Proof.
  apply maintains_catch. unfold verify_registration_phone_code, user_phone_find_authentication_code.
  solve_maintains.
Qed.
Lemma maintains_resend r id l : maintains I (resend_registration_verification r id l).
Proof.
  apply maintains_catch.
  unfold resend_pending_registration_verification, resend_email_code, resend_phone_code.
  solve_maintains.
Qed.
Lemma maintains_change_email r id e l : maintains I (change_registration_email r id e l).
Proof.
  unfold change_registration_email, email_change_refused, user_email_find_by_email. solve_maintains.
Qed.
Lemma maintains_display_name id n s : maintains I (submit_registration_display_name id n s).
Proof. apply maintains_catch. unfold set_registration_display_name. solve_maintains. Qed.

Lemma maintains_login manager cfg request : maintains I (login_with_password manager cfg request).
Proof.
  unfold login_with_password, verify_password_login, find_user_by_email_or_by_username,
    user_email_find_by_email, user_lookup, user_find_by_username, login_limited.
  solve_maintains.
Qed.
Lemma maintains_logout id : maintains I (logout_browser_session id).
Proof. unfold logout_browser_session, browser_session_lookup. solve_maintains. Qed.
Lemma maintains_hash manager p : maintains I (hash_with_fresh_rng manager p).
Proof. unfold hash_with_fresh_rng. solve_maintains. Qed.
#[local] Hint Resolve maintains_hash : maintains.
Lemma maintains_change_password manager id c n a b : maintains I (change_password manager id c n a b).
Proof. unfold change_password, check_current_password, user_lookup. solve_maintains. Qed.
Lemma maintains_if_needed a b manager p u : maintains I (verify_password_if_needed a b manager p u).
Proof. unfold verify_password_if_needed. solve_maintains. Qed.
#[local] Hint Resolve maintains_if_needed : maintains.
Lemma maintains_start_recovery r e ua ip l : maintains I (start_account_recovery r e ua ip l).
Proof. unfold start_account_recovery, schedule_recovery_notification. solve_maintains. Qed.
Lemma maintains_resend_recovery r id : maintains I (resend_account_recovery r id).
Proof.
  unfold resend_account_recovery, load_account_recovery_session, schedule_recovery_notification.
  solve_maintains.
Qed.
Lemma maintains_load_ticket t : maintains I (load_account_recovery_ticket t).
Proof. unfold load_account_recovery_ticket, user_recovery_find_ticket. solve_maintains. Qed.
#[local] Hint Resolve maintains_resend_recovery maintains_load_ticket : maintains.
Lemma maintains_resend_by_ticket r t : maintains I (resend_account_recovery_by_ticket r t).
Proof. unfold resend_account_recovery_by_ticket. solve_maintains. Qed.
Lemma maintains_complete_recovery manager t p a :
  maintains I (complete_account_recovery manager t p a).
Proof. unfold complete_account_recovery, user_email_lookup, user_lookup. solve_maintains. Qed.
Lemma maintains_start_email_verification manager a b c r s e p l :
  maintains I (start_email_verification manager a b c r s e p l).
Proof. unfold start_email_verification. solve_maintains. Qed.
Lemma maintains_complete_email id s code : maintains I (complete_email_verification id s code).
Proof.
  unfold complete_email_verification, user_email_find_authentication_code, user_email_find.
  solve_maintains.
Qed.
Lemma maintains_resend_email r id s l : maintains I (resend_email_verification_code r id s l).
Proof. unfold resend_email_verification_code. solve_maintains. Qed.
Lemma maintains_remove_email manager r a b p id : maintains I (remove_user_email manager r a b p id).
Proof.
  unfold remove_user_email, user_email_lookup, user_lookup, schedule_provision_user_job.
  solve_maintains.
Qed.
End requests.

(** ** Failing commits nothing *)

(** A program that commits, at most, when it succeeds. *)
Definition commits_on_success {E A} (m : M St E A) : Prop := ∀ st e st',
  m st = (Err e, st') → st_committed st' = st_committed st.

Lemma commits_bind {E A B} (m : M St E A) (k : A → M St E B) :
  keeps st_committed m → (∀ a, commits_on_success (k a)) → commits_on_success (m ≫= k).
Proof.
  intros Hm Hk st e st' [H|(a & st1 & H1 & H2)]%bind_Err_inv.
  - by eapply keeps_run in Hm.
  - rewrite (Hk _ _ _ _ H2). by eapply keeps_run in Hm.
Qed.
Lemma commits_keeps {E A} (m : M St E A) : keeps st_committed m → commits_on_success m.
Proof. intros Hm st e st' H. by eapply keeps_run in Hm. Qed.
Lemma commits_save {E A} (a : A) : commits_on_success (repo_save ≫= λ _, mret a : M St E A).
Proof. by intros st e st' [=]. Qed.
Lemma commits_try_with {E F A} (f : E → F) (m : M St E A) :
  commits_on_success m → commits_on_success (try_with f m).
Proof.
  intros Hm st e st'. unfold try_with. destruct (m st) as [[a|e']] eqn:H; intros [= _ <-]. eauto.
Qed.

Section finish.
Context {UX : UrlExternals} {DX : DbExternals} {LX : LimiterExternals} {XX : AccountExternals}
        {WX : PasswordExternals} {RX : RegistrationExternals} {GX : LoginExternals}.

Lemma keeps_committed_patch user patch : keeps st_committed (user_patch user patch).
Proof. unfold user_patch. solve_keeps. Qed.
Lemma keeps_committed_set_admin user b : keeps st_committed (user_set_can_request_admin user b).
Proof. unfold user_set_can_request_admin. solve_keeps. Qed.
Lemma keeps_committed_lookup_user id : keeps st_committed (user_lookup id).
Proof. unfold user_lookup. solve_keeps. Qed.
#[local] Hint Resolve keeps_committed_patch keeps_committed_set_admin keeps_committed_lookup_user
  : keeps.
Lemma keeps_committed_complete_user reg b : keeps st_committed (complete_user reg b).
Proof. unfold complete_user, user_add, user_update_profile. solve_keeps. Qed.
Lemma keeps_committed_complete_password reg u s : keeps st_committed (complete_password reg u s).
Proof.
  unfold complete_password, user_password_add, browser_session_authenticate_with_password,
    insert_authentication.
  solve_keeps.
Qed.
Lemma keeps_committed_complete_upstream o u s : keeps st_committed (complete_upstream o u s).
Proof.
  unfold complete_upstream, upstream_oauth_session_consume, upstream_oauth_link_associate_to_user,
    browser_session_authenticate_with_upstream, insert_authentication.
  solve_keeps.
Qed.
#[local] Hint Resolve keeps_committed_complete_user keeps_committed_complete_password
  keeps_committed_complete_upstream : keeps.

Lemma complete_commits_on_success request b : commits_on_success (complete_registration request b).
Proof.
  unfold complete_registration, user_registration_complete, update_registration,
    user_registration_token_use_token, browser_session_add, user_email_add, user_phone_add,
    user_terms_accept_terms, schedule_provision_user_job.
  repeat (apply commits_bind; [solve [solve_keeps]|intros ?]). apply commits_save.
Qed.

Lemma keeps_committed_preparation hs id bsp required :
  keeps st_committed (load_registration_finish_preparation hs id bsp required).
Proof.
  unfold load_registration_finish_preparation, load_registration_progress,
    check_registration_finish_eligibility, prepare_registration_completion,
    prepare_registration_token, prepare_email, prepare_phone, prepare_upstream,
    user_registration_lookup, user_email_lookup_authentication, user_phone_lookup_authentication,
    user_exists, user_registration_token_lookup, user_email_count, user_phone_find_by_phone,
    upstream_oauth_session_lookup, upstream_oauth_link_lookup, try_into.
  solve_keeps.
Qed.
Lemma keeps_committed_bootstrap configured requested :
  keeps st_committed (prepare_admin_bootstrap configured requested).
Proof.
  unfold prepare_admin_bootstrap, user_acquire_bootstrap_admin_lock, user_count. solve_keeps.
Qed.

(** A registration that is not completed commits nothing. *)
Lemma finish_commits_on_success hs id bsp required configured requested ua st r st' :
  finish_registration hs id bsp required configured requested ua st = (r, st') →
  (∃ c, r = Ok (Finish_Completed c)) ∨ st_committed st' = st_committed st.
Proof.
  unfold finish_registration, or_return. intros H.
  destruct (load_registration_finish_preparation hs id bsp required st) as [[prepared|e] st1] eqn:H1;
    apply (keeps_run _ _ _ _ _ (keeps_committed_preparation hs id bsp required)) in H1;
    [|right; by injection H as _ <-].
  destruct (prepare_admin_bootstrap configured requested st1) as [[b|e] st2] eqn:H2;
    apply (keeps_run _ _ _ _ _ (keeps_committed_bootstrap configured requested)) in H2;
    [|right; injection H as _ <-; congruence].
  destruct r as [o|e].
  - left. apply bind_Ok_inv in H as (c & st3 & _ & H). injection H as <- _. eauto.
  - right. rewrite <-H1, <-H2. apply bind_Err_inv in H as [H|(c & st3 & _ & H)]; [|done].
    eapply commits_try_with in H; [done|]. apply complete_commits_on_success.
Qed.

(** ** The first administrator *)

Lemma no_admin_iff db : no_admin db ↔ ∀ k, ¬ admin_in (db_users db) k.
Proof.
  unfold no_admin, admin_in. split.
  - intros H k (r & Hr & Ha). specialize (H _ _ Hr). congruence.
  - intros H k r Hr. apply not_true_iff_false. intros Ha. apply (H k). eauto.
Qed.

Lemma admin_in_insert users k row j :
  admin_in (<[k := row]> users) j ↔
  (j = k ∧ UserRow_can_request_admin row = true) ∨ (j ≠ k ∧ admin_in users j).
Proof.
  unfold admin_in. destruct (decide (j = k)) as [->|Hne].
  - setoid_rewrite lookup_insert_eq. naive_solver.
  - setoid_rewrite lookup_insert_ne; [|done]. naive_solver.
Qed.

Lemma active_is_admin users k : active_in users k → admin_in users k.
Proof. intros (r & Hr & Ha & _). by exists r. Qed.
Lemma active_in_insert users k row j :
  active_in (<[k := row]> users) j ↔ (j = k ∧ active_admin row) ∨ (j ≠ k ∧ active_in users j).
Proof.
  unfold active_in. destruct (decide (j = k)) as [->|Hne].
  - setoid_rewrite lookup_insert_eq. naive_solver.
  - setoid_rewrite lookup_insert_ne; [|done]. naive_solver.
Qed.

(** A row under a key that was free, or of a user that was not an administrator. *)
Lemma admins_insert users k row :
  ¬ admin_in users k →
  (UserRow_can_request_admin row = true → ∀ j, ¬ admin_in users j) →
  admins_evolve users (<[k := row]> users).
Proof.
  intros Hk Hrow. destruct (UserRow_can_request_admin row) eqn:Ha.
  - right. split; [by apply Hrow|]. exists k. intros j. rewrite admin_in_insert.
    specialize (Hrow eq_refl j). naive_solver.
  - left. intros j. rewrite admin_in_insert, active_in_insert, Ha. pose proof (active_is_admin users k).
    unfold active_admin. rewrite Ha. destruct (decide (j = k)); naive_solver.
Qed.

Lemma rows_alter_at {R} (ok : R → R → Prop) `{!PreOrder ok} (f : R → R) k m r :
  m !! k = Some r → ok r (f r) → rows_evolve ok m (alter f k m).
Proof.
  intros Hk Hok j x Hx. rewrite lookup_alter. case_decide as Hd; [subst|by exists x].
  assert (x = r) as -> by congruence. rewrite Hk. by exists (f r).
Qed.

Lemma good_finished hs required db now id row prepared admin configured requested db' ua bs :
  wf db → may_finish hs required db now id row prepared →
  (admin = true ↔ bootstrap_granted db configured requested) →
  finished db db' id prepared admin ua bs → good db db'.
Proof.
  intros Hwf Hm Ha [(urow & Hurow & Huk & Eu) (t & Er) (tb & Hbk & Eb) _ _ _ _ (Ee & Ep & En) Ec Ho].
  destruct Hurow as (_ & Eadm & _).
  apply good_build;
    [done|done|rewrite Eu|rewrite Eu|rewrite Eb|rewrite Ec|by rewrite Ee|by rewrite Ep|done
    |rewrite Er|rewrite Er].
  - by apply rows_insert; [apply _|].
  - apply admins_insert.
    + intros (r & Hr & _). congruence.
    + rewrite Eadm. intros [Hn _]%Ha. by apply no_admin_iff.
  - by apply rows_insert; [apply _|].
  - reflexivity.
  - eapply rows_alter_at; [apply _|apply (mf_row _ _ _ _ _ _ _ Hm)|]. red.
    rewrite (mf_pending _ _ _ _ _ _ _ Hm). split_and!; [done..|by intros []].
  - intros k r tok. rewrite lookup_alter. case_decide; [subst|eauto].
    intros (y & Hy & ->)%fmap_Some Ht. eauto.
Qed.

Lemma good_set_admin db k t :
  wf db → no_admin db → is_Some (db_users db !! k) →
  good db (on_users (alter (UserRow_set_admin true t) k) db).
Proof.
  intros Hwf Hn [row Hrow]. apply good_build; [done|by split_and!|simpl|simpl|reflexivity..].
  - by eapply rows_alter_at; [apply _|done|].
  - rewrite <-(insert_id _ _ _ Hrow) at 2. rewrite alter_insert_eq.
    pose proof (proj1 (no_admin_iff _) Hn) as Hn'. by apply admins_insert.
Qed.

Lemma good_jobs_after db db' f : good db db' → good db (on_jobs f db').
Proof. intros [Hw He]. destruct (good_jobs db' Hw f) as [Hw' He']. split; [done|]. by etrans. Qed.

(** ** Every request *)

Lemma finish_good hs id bsp required configured requested ua st :
  st_db st = st_committed st → wf (st_committed st) →
  good (st_committed st)
    (st_committed (finish_registration hs id bsp required configured requested ua st).2).
Proof.
  intros Hb Hwf. destruct (finish_registration _ _ _ _ _ _ _ st) as [r st'] eqn:H. simpl.
  destruct (finish_commits_on_success _ _ _ _ _ _ _ _ _ _ H) as [[c ->]| ->]; [|by split].
  apply finish_registration_inv in H as (row & prepared & admin & Hm & Ha & Hf & _).
  rewrite Hb in *. by eapply good_finished.
Qed.

Lemma keeps_or_return {E F A B T} (f : St → T) (m : M St E A) (h : E → result B F) k :
  keeps f m → (∀ a, keeps f (k a)) → keeps f (or_return m h k).
Proof.
  intros Hm Hk st. unfold or_return. specialize (Hm st).
  destruct (m st) as [[a|e] st1]; simpl in *; [|done]. by rewrite (Hk a st1).
Qed.
Lemma keeps_committed_claim user_id configured token :
  keeps st_committed (claim_bootstrap_admin user_id configured token).
Proof.
  unfold claim_bootstrap_admin. solve_keeps. apply keeps_or_return; [apply keeps_committed_bootstrap|].
  intros []; solve_keeps.
Qed.
#[local] Hint Resolve keeps_committed_claim : keeps.

Lemma claim_good requester user_id configured token st :
  st_db st = st_committed st → wf (st_committed st) →
  good (st_committed st) (st_committed (post_claim requester user_id configured token st).2).
Proof.
  intros Hb Hwf. destruct (post_claim _ _ _ _ st) as [r st'] eqn:H. simpl.
  unfold post_claim in H. destruct r as [o|e].
  - apply bind_Ok_inv in H as (? & st1 & [D1 C1]%try_with_Ok_inv%on_limiter_same & H).
    apply bind_Ok_inv in H as (o' & st2 & Hc%try_with_Ok_inv & H).
    pose proof (keeps_run _ _ _ _ _ (keeps_committed_claim user_id configured token) Hc) as C2.
    apply claim_inv in Hc.
    destruct o'; [|injection H as _ <-; rewrite C2, C1; by split..].
    destruct Hc as ([Hn _] & Hu & t & [D2 _]).
    apply bind_Ok_inv in H as (? & st3 & Hs%try_with_Ok_inv & H). injection H as _ <-. simpl.
    apply queue_schedule_inv in Hs as (k & row & _ & _ & _ & [D3 _]).
    rewrite D3, D2, D1, Hb. rewrite D1, Hb in Hn, Hu. by apply good_jobs_after, good_set_admin.
  - assert (st_committed st' = st_committed st) as ->; [|by split].
    revert H. apply commits_bind; [solve_keeps|intros _]. apply commits_bind; [solve_keeps|].
    intros []; [|apply commits_keeps; solve_keeps..].
    apply commits_bind; [unfold schedule_provision_user_job; solve_keeps|intros _].
    apply commits_save.
Qed.

Lemma account_serve_good req st :
  st_db st = st_committed st → wf (st_committed st) →
  good (st_committed st) (st_committed (account_serve req st)).
Proof.
  intros Hb Hwf.
  assert (∀ st', Inv (st_committed st) st' → good (st_committed st) (st_committed st')) as HI.
  { by intros st' (_ & ? & ? & _). }
  assert (Inv (st_committed st) st) as H0 by (split_and!; try done; by rewrite Hb).
  destruct req; simpl;
    [..|by apply finish_good| |by apply claim_good| | | | | | | | | | |]; apply HI.
  - by apply maintains_begin.
  - by apply maintains_upstream.
  - by apply maintains_load_status.
  - by apply maintains_email_code.
  - by apply maintains_phone_code.
  - by apply maintains_resend.
  - by apply maintains_change_email.
  - by apply maintains_display_name.
  - exact H0.
  - by apply maintains_login.
  - by apply maintains_logout.
  - by apply maintains_change_password.
  - by apply maintains_start_recovery.
  - by apply maintains_resend_recovery.
  - by apply maintains_resend_by_ticket.
  - by apply maintains_complete_recovery.
  - by apply maintains_start_email_verification.
  - by apply maintains_complete_email.
  - by apply maintains_resend_email.
  - by apply maintains_remove_email.
Qed.

End finish.
