(* ===== verification/NotificationIntegrity.v ===== *)
(** The jobs and the callbacks of notifications maintain the integrity of the database: what they
    commit is well formed, the outbox included, and has evolved from what was committed before. *)
From S2P Require Import Prelude Ids RateLimit TokenFormat Scope Pkce Jose Domain Accounts Notification Database Messaging Repository ClientMetadata ProviderMetadata AccountRepository Pagination NotificationRepository Notifications EmailWebhook RepositorySpec AccountSpec Outbox NotificationSpec RegistrationSpec Integrity AccountIntegrity.

Open Scope Z_scope.

(** ** Deliveries that are due *)

Lemma due_deliveries_elem now m k d :
  (k, d) ∈ due_deliveries now m ↔ m !! k = Some d ∧ delivery_is_due now d = true.
Proof.
  unfold due_deliveries. rewrite merge_sort_Permutation, list_elem_of_filter, elem_of_map_to_list.
  naive_solver.
Qed.

Lemma delivery_is_due_inv now d :
  delivery_is_due now d = true →
  DeliveryRow_status d = "pending" ∨
  DeliveryRow_status d = "failed" ∧ ∃ t, DeliveryRow_next_retry_at d = Some t ∧ t ≤ now.
Proof.
  unfold delivery_is_due. intros [H|[H1 H2]%andb_true_iff]%orb_true_iff; [left; by apply String.eqb_eq|right].
  split; [by apply String.eqb_eq|]. destruct (DeliveryRow_next_retry_at d) as [t|]; [|done].
  exists t. split; [done|by apply Z.leb_le].
Qed.

Lemma reserve_one_inv st l st' :
  notification_reserve_deliveries 1 st = (Ok l, st') →
  ∃ now, match l with
  | [] => due_deliveries now (db_notification_deliveries (st_db st)) = [] ∧ same st st'
  | del :: rest => rest = [] ∧ ∃ k d due,
      due_deliveries now (db_notification_deliveries (st_db st)) = (k, d) :: due ∧
      NotificationDelivery_try_from k (DeliveryRow_reserve now d) = Ok del ∧
      ran st st' (on_notification_deliveries (alter (DeliveryRow_reserve now) k))
  end.
Proof.
  unfold notification_reserve_deliveries. intros H.
  apply bind_Ok_inv in H as (now & st1 & H1 & H). apply clock_now_inv in H1 as [-> [D1 C1]].
  exists (st_clock st 0%nat). set (now := st_clock st 0%nat) in *.
  apply bind_Ok_inv in H as (rows & st2 & H2 & H). injection H2 as <- <-.
  apply bind_Ok_inv in H as (? & st2 & H2 & H). apply require_inv in H2 as [_ ->].
  apply bind_Ok_inv in H as (? & st2 & H2 & H). injection H2 as _ <-. unfold of_result in H.
  rewrite D1 in H. change (Z.to_nat (1 `min` LIMIT_MAX)) with 1%nat in H.
  destruct (due_deliveries now (db_notification_deliveries (st_db st))) as [|[k d] due]; simpl in H.
  - injection H as <- <-. done.
  - destruct (NotificationDelivery_try_from k (DeliveryRow_reserve now d)) as [del|] eqn:Hd; [|done].
    injection H as <- <-. split; [done|]. exists k, d, due. split_and!; [done..|].
    split; [simpl; by rewrite D1|done].
Qed.

(** A delivery that is due has an attempt left. *)
Lemma due_row ntf emails phones now k d :
  outbox_wf ntf emails phones → ntf_deliveries ntf !! k = Some d → delivery_is_due now d = true →
  ∃ r, ntf_requests ntf !! DeliveryRow_notification_request_id d = Some r ∧
    0 ≤ DeliveryRow_attempt_count d < attempt_limit (RequestRow_template_key r) ∧
    DeliveryRow_status d ≠ "cancelled" ∧ DeliveryRow_status d ≠ "delivered" ∧ ¬ delivery_final d.
Proof.
  intros Hwf Hd Hdue. destruct (ob_delivery _ _ _ _ Hwf k d Hd) as (r & Hr & Hs & Ha & _).
  exists r. split; [done|]. unfold delivery_final.
  assert (3 ≤ attempt_limit (RequestRow_template_key r)) by (unfold attempt_limit; case_match; lia).
  apply delivery_is_due_inv in Hdue as [E|(E & t & Et & _)]; destruct Hs; rewrite ?E in *; simplify_eq;
    split_and!; try done; try lia; naive_solver.
Qed.

Lemma next_retry_limit utc req del failure delay :
  next_retry_delay utc req del failure = Some delay →
  1 ≤ ndel_attempt_count del < attempt_limit (nreq_template_key req) ∧ 0 < delay.
Proof.
  unfold next_retry_delay, attempt_limit, MINUTES, SECONDS. destruct (negb _); [done|].
  set (t := String.eqb (nreq_template_key req) TEMPLATE_EMAIL_RECOVERY).
  destruct (ndel_attempt_count del =? 1) eqn:E1; [|destruct (ndel_attempt_count del =? 2) eqn:E2;
    [|destruct (ndel_attempt_count del =? 3) eqn:E3; [|done]]]; simpl.
  - destruct (_ && _); [done|]. intros [= <-]. destruct t; lia.
  - destruct (_ && _); [done|]. intros [= <-]. destruct t; lia.
  - destruct t eqn:Et; [|done]. simpl. destruct (_ && _); [done|]. intros [= <-]. lia.
Qed.

(** ** The change of one delivery *)

Lemma good_outbox c0 jobs ntf :
  wf c0 → outbox_wf ntf (db_email_authentications c0) (db_phone_authentications c0) →
  rows_evolve request_evolves (db_notification_requests c0) (ntf_requests ntf) →
  rows_evolve delivery_evolves (db_notification_deliveries c0) (ntf_deliveries ntf) →
  good c0 (on_jobs (λ _, jobs) (on_notifications (λ _, ntf) c0)).
Proof. intros [] Ho Hr Hd. split; constructor; simpl; done. Qed.

Lemma rows_insert_at {R} (ok : R → R → Prop) `{!PreOrder ok} k x y (m : gmap Z R) :
  m !! k = Some x → ok x y → rows_evolve ok m (<[k := y]> m).
Proof.
  intros Hk Hok j z Hz. destruct (decide (k = j)) as [->|Hne].
  - rewrite lookup_insert_eq. exists y. by replace z with x by congruence.
  - rewrite lookup_insert_ne by done. by exists z.
Qed.

(** An attempt at a delivery that is due, from its reservation to its end. *)
Lemma good_attempt c0 k d r now req del d' r' st :
  wf c0 → db_notification_deliveries c0 !! k = Some d → delivery_is_due now d = true →
  db_notification_requests c0 !! DeliveryRow_notification_request_id d = Some r →
  ndel_attempt_count del = DeliveryRow_attempt_count d + 1 →
  nreq_template_key req = RequestRow_template_key r →
  delivery_same (DeliveryRow_reserve now d) d' → request_evolves r r' →
  attempt_end req del (DeliveryRow_reserve now d) d' r r' →
  at_rows c0 k d' (DeliveryRow_notification_request_id d) r' st → good c0 (st_db st).
Proof.
  intros Hwf Hd Hdue Hr Hat Htk (S1 & S2 & S3 & S4 & S5 & S6) Hre Hend (_ & jobs & events & ->).
  simpl in S1, S2, S3, S4, S5, S6.
  destruct (due_row _ _ _ _ _ _ (wf_outbox _ Hwf) Hd Hdue) as (r0 & Hr0 & Ha & Hn1 & Hn2 & Hn3).
  assert (r0 = r) as -> by (unfold db_notification_requests in Hr; congruence). clear Hr0.
  assert (RequestRow_template_key r' = RequestRow_template_key r) as Et by apply Hre.
  assert (outbox_state d' r') as Hs.
  { destruct Hend as [| |utc t f delay Hdelay|];
      [by apply outbox_cancelled|by apply outbox_delivered| |by apply outbox_failed].
    apply next_retry_limit in Hdelay as [Hl _].
    apply outbox_retrying; try done. rewrite S6, Et, <-Hat, <-Htk. done. }
  apply (good_outbox c0 jobs (mkNotifications _ _ events _)); [done|..]; simpl.
  - apply (outbox_step _ _ _ _ (wf_outbox _ Hwf) _ k d d' r r'); try done.
    unfold attempts_ok. rewrite S6, Et. lia.
  - by apply (rows_insert_at _ _ r).
  - apply (rows_insert_at _ _ d); [done|]. unfold delivery_evolves. split_and!; try done. lia.
Qed.

Section jobs.
Context {UX : UrlExternals} {VX : UrlPartsExternals} {BX : UrlBuildExternals} {DX : DbExternals}
  {LX : LimiterExternals} {XX : AccountExternals} {NX : NotificationExternals}.

(** Preparing a delivery only reads. *)
Lemma keeps_prepare ub req del : keeps (λ st, st) (prepare_delivery ub req del).
Proof.
  unfold prepare_delivery, prepare_email_verification, prepare_sms_verification, prepare_email_recovery,
    parse_verification_payload, parse_recovery_payload, email_source, phone_source, recovery_source,
    email_destination, sms_destination, parsed, load_opt, or_fail, context, bail,
    user_email_lookup_authentication, user_phone_lookup_authentication, browser_session_lookup,
    user_registration_lookup, user_email_find_authentication_code, user_recovery_lookup_session,
    user_lookup, try_into.
  solve_keeps; by intros ?.
Qed.

(** The request of a delivery, as it is read and set to be processed. *)
Definition request_of (q : Ulid) (r : NotificationRequestRow) (req : NotificationRequest) : Prop :=
  nreq_id req = q ∧ nreq_template_key req = RequestRow_template_key r ∧
  nreq_source req = RequestRow_source r ∧ nreq_payload req = RequestRow_payload r ∧
  nreq_created_at req = RequestRow_created_at r.

Lemma begin_delivery_inv c0 k d q r del js req js' :
  begin_delivery del js = (Ok req, js') → ndel_notification_request_id del = q →
  at_rows c0 k d q r (js_st js) →
  ∃ r1, request_of q r req ∧ request_evolves r r1 ∧ at_rows c0 k d q r1 (js_st js') ∧
    js_handed js' = js_handed js.
Proof.
  unfold begin_delivery. intros H Hq Ha. apply bind_Ok_inv in H as (found & js1 & H1 & H).
  apply or_retry_inv in H1 as [H1 Hh1]. apply lookup_request_inv in H1 as [E1 Hf].
  apply bind_Ok_inv in H as (req0 & js2 & H2 & H). apply ok_or_Ok_inv in H2 as [-> ->].
  destruct Hf as (row & Hrow & Hdec). rewrite Hq in Hrow, Hdec.
  assert (row = r) as ->.
  { destruct Ha as (_ & jobs & events & Hd). rewrite Hd in Hrow. unfold db_notification_requests in Hrow.
    simpl in Hrow. rewrite lookup_insert_eq in Hrow. congruence. }
  apply request_try_from_inv in Hdec as (I1 & I2 & I3 & I4 & I5 & _).
  apply bind_Ok_inv in H as (? & js3 & H3 & H).
  eapply step_event in H3 as [Ha3 Hh3]; [|rewrite E1; exact Ha].
  eapply step_request in H as ([now ->] & Ha4 & Hh4); [|exact I1|exact Ha3].
  eexists. split_and!; [..|exact Ha4|congruence]; done.
Qed.

Lemma attempt_delivery_inv c0 k d q r nc ub req del js u js' :
  attempt_delivery nc ub req del js = (Ok u, js') → ndel_id del = k → nreq_id req = q →
  at_rows c0 k d q r (js_st js) →
  ends c0 k q req del d r (js_st js') ∧
  (js_handed js' = js_handed js ∨
   ∃ out, (prepare_delivery ub req del (js_st js)).1 = Ok (Prepared_Ready out) ∧
     js_handed js' = js_handed js ++ [out]).
Proof.
  unfold attempt_delivery. intros H Hk Hq Ha. apply bind_Ok_inv in H as (p & js1 & H1 & H).
  apply attempt_inv, lift_inv in H1 as [H1 Hh1].
  assert (js_st js1 = js_st js) as E1.
  { pose proof (keeps_prepare ub req del (js_st js)) as E. simpl in E. by rewrite H1 in E. }
  rewrite <-E1 in Ha. destruct p as [[out|summary meta]|[text|]]; [| | |done].
  - eapply send_delivery_inv in H as [He [Hh|Hh]]; [..|exact Hk|exact Hq|exact Ha].
    + split; [done|]. left. congruence.
    + split; [done|]. right. exists out. rewrite H1. split; [done|]. congruence.
  - eapply cancel_request_inv in H as [He Hh]; [|exact Hk|exact Hq|exact Ha].
    split; [done|]. left. congruence.
  - eapply complete_failure_inv in H as [He Hh]; [|exact Hk|exact Hq|exact Ha].
    split; [done|]. left. congruence.
Qed.

(** The delivery reserved first in a transaction. *)
Lemma reserve_at_rows c0 k d r now st st' :
  st_committed st = c0 → st_db st = c0 →
  db_notification_deliveries c0 !! k = Some d →
  db_notification_requests c0 !! DeliveryRow_notification_request_id d = Some r →
  ran st st' (on_notification_deliveries (alter (DeliveryRow_reserve now) k)) →
  at_rows c0 k (DeliveryRow_reserve now d) (DeliveryRow_notification_request_id d) r st'.
Proof.
  intros Hc Hdb Hd Hr [Hd' Hc']. split; [congruence|].
  exists (db_jobs c0), (db_notification_events c0). rewrite Hd', Hdb.
  unfold db_notification_requests, db_notification_deliveries, db_notification_events in *.
  destruct c0 as [???????????? ? [requests deliveries events prefs]]. cbn in *.
  unfold on_notification_deliveries, on_jobs, on_notifications. cbn.
  rewrite (insert_id requests) by done. f_equal. f_equal.
  apply map_eq. intros j. rewrite lookup_alter. case_decide; subst.
  - by rewrite lookup_insert_eq, Hd.
  - by rewrite lookup_insert_ne.
Qed.

(** One round of processing: nothing is due, or the delivery due first is attempted. *)
Record round (nc : NotificationCenter) (ub : UrlBuilder) (c0 c1 : DB) (now : DateTime) (k : Ulid)
    (d d' : NotificationDeliveryRow) (r r' : NotificationRequestRow) (req : NotificationRequest)
    (del : NotificationDelivery) (sent : list OutboundNotification) : Prop := {
  rd_due : ∃ due, due_deliveries now (db_notification_deliveries c0) = (k, d) :: due;
  rd_request : db_notification_requests c0 !! DeliveryRow_notification_request_id d = Some r;
  rd_delivery : NotificationDelivery_try_from k (DeliveryRow_reserve now d) = Ok del;
  rd_of : request_of (DeliveryRow_notification_request_id d) r req;
  rd_same : delivery_same (DeliveryRow_reserve now d) d';
  rd_evolves : request_evolves r r';
  rd_end : attempt_end req del (DeliveryRow_reserve now d) d' r r';
  rd_db : ∃ st, at_rows c0 k d' (DeliveryRow_notification_request_id d) r' st ∧ c1 = st_db st;
  rd_sent : sent = [] ∨ ∃ out st r1,
    at_rows c0 k (DeliveryRow_reserve now d) (DeliveryRow_notification_request_id d) r1 st ∧
    (prepare_delivery ub req del st).1 = Ok (Prepared_Ready out) ∧ sent = [out];
}.

Lemma process_single_inv nc ub js b js' :
  process_single_delivery nc ub js = (Ok b, js') → wf (st_committed (js_st js)) →
  let c0 := st_committed (js_st js) in let c1 := st_committed (js_st js') in
  if b then ∃ now k d d' r r' req del sent,
    round nc ub c0 c1 now k d d' r r' req del sent ∧ js_handed js' = js_handed js ++ sent
  else c1 = c0 ∧ js_handed js' = js_handed js ∧
    ∃ now, due_deliveries now (db_notification_deliveries c0) = [].
Proof.
  unfold process_single_delivery. intros H Hwf. set (c0 := st_committed (js_st js)) in *. simpl.
  apply bind_Ok_inv in H as (? & js1 & H1 & H). injection H1 as _ <-.
  apply bind_Ok_inv in H as (l & js2 & H2 & H). apply or_retry_inv in H2 as [H2 Hh2]. simpl in H2, Hh2.
  apply reserve_one_inv in H2 as [now H2]. destruct l as [|del rest].
  - destruct H2 as [Hdue [_ C2]]. apply bind_Ok_inv in H as (? & js3 & H3 & H). injection H3 as _ <-.
    injection H as <- <-. simpl in *. split_and!; [done|done|]. by exists now.
  - destruct H2 as (-> & k & d & due & Hdue & Hdel & Hran). simpl in Hdue. fold c0 in Hdue.
    assert (db_notification_deliveries c0 !! k = Some d ∧ delivery_is_due now d = true) as [Hd Hisdue].
    { apply due_deliveries_elem. rewrite Hdue. by left. }
    destruct (ob_delivery _ _ _ _ (wf_outbox _ Hwf) k d Hd) as (r & Hr & _).
    pose proof (delivery_try_from_inv _ _ _ Hdel) as (Ik & Iq & _ & _ & Ia & _). simpl in Iq, Ia.
    assert (at_rows c0 k (DeliveryRow_reserve now d) (DeliveryRow_notification_request_id d) r
              (js_st js2)) as Ha2 by (by eapply reserve_at_rows; [..|exact Hran]).
    apply bind_Ok_inv in H as (req & js3 & H3 & H).
    eapply begin_delivery_inv in H3 as (r1 & Hof & Hev1 & Ha3 & Hh3); [|exact Iq|exact Ha2].
    apply bind_Ok_inv in H as (? & js4 & H4 & H).
    eapply attempt_delivery_inv in H4 as [(d' & r' & Ha4 & Hs & Hev & He) Hh4];
      [|exact Ik|apply Hof|exact Ha3].
    apply bind_Ok_inv in H as (? & js5 & H5 & H). injection H5 as _ <-. injection H as <- <-.
    assert (attempt_end req del (DeliveryRow_reserve now d) d' r r') as He'.
    { destruct He; [by apply end_cancelled|by apply end_delivered|by eapply end_retried|by eapply end_failed]. }
    assert (∀ sent, (sent = [] ∨ ∃ out st r1,
        at_rows c0 k (DeliveryRow_reserve now d) (DeliveryRow_notification_request_id d) r1 st ∧
        (prepare_delivery ub req del st).1 = Ok (Prepared_Ready out) ∧ sent = [out]) →
      round nc ub c0 (st_db (js_st js4)) now k d d' r r' req del sent) as Hround.
    { intros sent Hsent. split; try done; [by eexists|by etrans|by eexists]. }
    destruct Hh4 as [Hh4|(out & Hp & Hh4)].
    + exists now, k, d, d', r, r', req, del, []. split; [by apply Hround; left|].
      simpl. rewrite app_nil_r. congruence.
    + exists now, k, d, d', r, r', req, del, [out]. split; [|simpl; congruence].
      apply Hround. right. by exists out, (js_st js3), r1.
Qed.

(** ** What is committed *)

Definition js_committed (js : JobSt) : DB := st_committed (js_st js).

Lemma keeps_lift_committed {E A} (m : M St E A) : keeps st_committed m → keeps js_committed (lift m).
Proof. intros Hm js. apply Hm. Qed.
Lemma keeps_or_retry_committed {A} (m : M St DatabaseError A) :
  keeps st_committed m → keeps js_committed (or_retry m).
Proof. intros Hm. by apply keeps_lift_committed, keeps_try_with. Qed.
Lemma keeps_attempt {S T E F A} (f : S → T) (m : M S E A) : keeps f m → keeps f (attempt (F:=F) m).
Proof. intros Hm js. apply Hm. Qed.
Lemma keeps_dispatch nc out : keeps js_committed (dispatch nc out).
Proof.
  intros js. destruct (dispatch nc out js) as [r js'] eqn:H. apply dispatch_inv in H as [E _].
  unfold js_committed. simpl. by rewrite E.
Qed.

Lemma keeps_reserve n : keeps st_committed (notification_reserve_deliveries n).
Proof.
  unfold notification_reserve_deliveries. solve_keeps; intros st; simpl; try done.
  unfold modify. simpl. induction a0 as [|row rows IH]; [done|]. simpl. exact IH.
Qed.
Lemma keeps_lookup_request id : keeps st_committed (notification_lookup_request id).
Proof. unfold notification_lookup_request, try_into. solve_keeps; by intros ?. Qed.
Lemma keeps_set_status q s : keeps st_committed (notification_set_request_status q s).
Proof. unfold notification_set_request_status, update_one. solve_keeps. Qed.
Lemma keeps_persist d : keeps st_committed (persist_delivery d).
Proof. unfold persist_delivery, update_one. solve_keeps. Qed.
Lemma keeps_append q d p : keeps st_committed (notification_append_event q d p).
Proof. unfold notification_append_event. solve_keeps. Qed.
Lemma keeps_queue_insert n p t : keeps st_committed (queue_job_insert n p t).
Proof. unfold queue_job_insert. solve_keeps. Qed.
Lemma keeps_sending d m : keeps st_committed (notification_mark_delivery_sending d m).
Proof. unfold notification_mark_delivery_sending. solve_keeps. Qed.
Lemma keeps_delivered d m : keeps st_committed (notification_mark_delivery_delivered d m).
Proof. unfold notification_mark_delivery_delivered. solve_keeps. Qed.
Lemma keeps_failed d f m t : keeps st_committed (notification_mark_delivery_failed d f m t).
Proof. unfold notification_mark_delivery_failed. solve_keeps. Qed.
Lemma keeps_cancelled d : keeps st_committed (notification_cancel_delivery d).
Proof. unfold notification_cancel_delivery. solve_keeps. Qed.
Lemma keeps_utc : keeps js_committed (utc_now : M JobSt JobError _).
Proof. done. Qed.
#[local] Hint Resolve keeps_lift_committed keeps_or_retry_committed keeps_attempt keeps_dispatch
  keeps_reserve keeps_lookup_request keeps_set_status keeps_append keeps_queue_insert keeps_sending
  keeps_delivered keeps_failed keeps_cancelled keeps_utc : keeps.

Lemma keeps_event q d kind s meta : keeps js_committed (append_event q d kind s meta).
Proof. unfold append_event. solve_keeps. Qed.
#[local] Hint Resolve keeps_event : keeps.
Lemma keeps_complete_failure q d f : keeps js_committed (complete_delivery_with_failure q d f).
Proof. unfold complete_delivery_with_failure, queue_job_schedule_later. solve_keeps. Qed.
#[local] Hint Resolve keeps_complete_failure : keeps.
Lemma keeps_begin d : keeps js_committed (begin_delivery d).
Proof. unfold begin_delivery. solve_keeps. Qed.
Lemma keeps_prepare_committed ub q d : keeps st_committed (prepare_delivery ub q d).
Proof. intros st. pose proof (keeps_prepare ub q d st) as E. simpl in E. by rewrite E. Qed.
#[local] Hint Resolve keeps_prepare_committed : keeps.
Lemma keeps_attempt_delivery nc ub q d : keeps js_committed (attempt_delivery nc ub q d).
Proof.
  unfold attempt_delivery, cancel_request, send_delivery, complete_delivery_with_success. solve_keeps.
Qed.
#[local] Hint Resolve keeps_begin keeps_attempt_delivery : keeps.

(** A failed program that saves only at its end. *)
Lemma keeps_Err_bind {S T E A B} (f : S → T) (m : M S E A) (k : A → M S E B) st e st' :
  keeps f m → (∀ a st st', k a st = (Err e, st') → f st' = f st) →
  (m ≫= k) st = (Err e, st') → f st' = f st.
Proof.
  intros Hm Hk [H|(a & st1 & H & H2)]%bind_Err_inv; specialize (Hm st); rewrite H in Hm; simpl in Hm; [done|].
  apply Hk in H2. congruence.
Qed.

Lemma process_single_Err nc ub js e js' :
  process_single_delivery nc ub js = (Err e, js') → js_committed js' = js_committed js.
Proof.
  unfold process_single_delivery. apply keeps_Err_bind; [by intros ?|]. intros _ js1 js1'.
  apply keeps_Err_bind; [auto with keeps|]. intros l js2 js2'. destruct l as [|del rest].
  - intros [H|(? & ? & _ & H)]%bind_Err_inv; done.
  - apply keeps_Err_bind; [auto with keeps|]. intros req js3 js3'.
    apply keeps_Err_bind; [auto with keeps|]. intros ? js4 js4'.
    intros [H|(? & ? & _ & H)]%bind_Err_inv; done.
Qed.

Lemma process_single_good nc ub js res js' :
  process_single_delivery nc ub js = (res, js') → wf (js_committed js) →
  good (js_committed js) (js_committed js').
Proof.
  intros H Hwf. destruct res as [b|e]; [|apply process_single_Err in H; rewrite H; by split].
  unfold js_committed in *. apply process_single_inv in H; [|done]. destruct b.
  - destruct H as (now & k & d & d' & r & r' & req & del & sent & [[due Hdue] Hr Hdel Hof Hs Hev He Hdb _] & _).
    destruct Hdb as (st & Ha & ->).
    assert (db_notification_deliveries (st_committed (js_st js)) !! k = Some d ∧ delivery_is_due now d = true)
      as [Hd Hisdue] by (apply due_deliveries_elem; rewrite Hdue; by left).
    apply delivery_try_from_inv in Hdel as (_ & _ & _ & _ & Ia & _).
    eapply good_attempt; try done. apply Hof.
  - destruct H as [E _]. rewrite E. by split.
Qed.
End jobs.

#[export] Hint Resolve keeps_lift_committed keeps_or_retry_committed keeps_attempt keeps_dispatch
  keeps_reserve keeps_lookup_request keeps_set_status keeps_append keeps_queue_insert keeps_sending
  keeps_delivered keeps_failed keeps_cancelled keeps_utc keeps_event keeps_complete_failure
  keeps_begin keeps_attempt_delivery : keeps.
