(* ===== verification/NotificationJobs.v ===== *)
(** What the jobs of notifications commit, and that it keeps the integrity of the database
    (crates/tasks/src/notifications.rs). *)
From S2P Require Import Prelude Ids RateLimit TokenFormat Scope Pkce Jose Domain Accounts Notification Database Messaging Repository ClientMetadata ProviderMetadata AccountRepository Pagination NotificationRepository Notifications RepositorySpec AccountSpec Outbox NotificationSpec RegistrationSpec Integrity AccountIntegrity NotificationIntegrity.

Open Scope Z_scope.

(** ** The tickets of a recovery *)

Definition ticket_sent (nc : NotificationCenter) (session : Ulid) (locale : string) (email : UserEmail)
    (db db' : DB) : Prop :=
  ∃ rng now db1, let ticket := (generate_alphanumeric 32 rng).1 in
    ticket_added session (UserEmail_id email) ticket now db db1 ∧
    queued TEMPLATE_EMAIL_RECOVERY locale (Source_UserRecoverySession session)
      (Payload_EmailRecovery (UserEmail_user_id email) ticket)
      (delivery_params Channel_Email (Destination_Email (UserEmail_email email)) (nc_email nc)) db1 db'.
(** One ticket for each address, in their order. *)
Inductive tickets_sent (nc : NotificationCenter) (session : Ulid) (locale : string)
    : list UserEmail → DB → DB → Prop :=
| tickets_sent_nil db : tickets_sent nc session locale [] db db
| tickets_sent_cons email emails db1 db2 db3 :
    ticket_sent nc session locale email db1 db2 → tickets_sent nc session locale emails db2 db3 →
    tickets_sent nc session locale (email :: emails) db1 db3.

Lemma tickets_sent_app nc session locale l1 l2 db1 db2 db3 :
  tickets_sent nc session locale l1 db1 db2 → tickets_sent nc session locale l2 db2 db3 →
  tickets_sent nc session locale (l1 ++ l2) db1 db3.
Proof. induction 1; [done|]. intros. simpl. eapply tickets_sent_cons; eauto. Qed.

Lemma ticket_sent_emails nc session locale email db db' :
  ticket_sent nc session locale email db db' → db_emails db' = db_emails db.
Proof. by intros (? & ? & ? & (? & _ & ->) & [? ? ? ? ? _ _ _ _ _ _ _ ->]). Qed.
Lemma tickets_sent_emails nc session locale l db db' :
  tickets_sent nc session locale l db db' → db_emails db' = db_emails db.
Proof. induction 1 as [|???? ? ?%ticket_sent_emails]; congruence. Qed.

(** What the job of a recovery commits: nothing for a session that is consumed; else a ticket and
    a message for each address, and the job that delivers them if there is any. *)
Definition recovery_emails `{LX : LimiterExternals} `{XX : !AccountExternals} (email : string) (db : DB)
    : list UserEmail :=
  (λ '(id, r), UserEmail_from id r) <$> all_rows (email_matches (for_email email)) (db_emails db).

Inductive recovery_sent `{LX : LimiterExternals} `{XX : !AccountExternals} (nc : NotificationCenter)
    (id : Ulid) (c0 c1 : DB) : Prop :=
| recovery_late row :
    db_recovery_sessions c0 !! id = Some row → is_Some (RecoverySessionRow_consumed_at row) →
    c1 = c0 → recovery_sent nc id c0 c1
| recovery_tickets row db1 :
    db_recovery_sessions c0 !! id = Some row → RecoverySessionRow_consumed_at row = None →
    tickets_sent nc id (RecoverySessionRow_locale row)
      (recovery_emails (RecoverySessionRow_email row) c0) c0 db1 →
    (if bool_decide (recovery_emails (RecoverySessionRow_email row) c0 = []) then c1 = db1
     else processing_queued db1 c1) → recovery_sent nc id c0 c1.

Lemma all_rows_length {R} (P : R → bool) (m : gmap Z R) : (length (all_rows P m) ≤ size m)%nat.
Proof.
  unfold all_rows. etrans; [apply length_filter|]. unfold ordered_rows.
  by rewrite merge_sort_Permutation, length_map_to_list.
Qed.

(** ** Integrity *)

Lemma good_refl db : wf db → good db db.
Proof. by split. Qed.
Lemma good_trans db1 db2 db3 : good db1 db2 → (wf db2 → good db2 db3) → good db1 db3.
Proof. intros [Hw He] H. destruct (H Hw) as [Hw' He']. split; [done|]. by etrans. Qed.

Lemma good_queued template_key locale source payload channel destination binding db db' :
  wf db → queued template_key locale source payload (delivery_params channel destination binding) db db' →
  (∀ d r, RequestRow_source r = source → DeliveryRow_destination d = destination →
     addressed (db_email_authentications db) (db_phone_authentications db) d r) →
  good db db'.
Proof.
  intros Hwf [q r k now events Hq Hk R1 R2 R3 R4 R5 ->] Ha.
  assert (outbox_wf (mkNotifications (<[q := r]> (db_notification_requests db))
    (<[k := new_delivery_row now q (delivery_params channel destination binding)]>
       (db_notification_deliveries db)) events (db_notification_preferences db))
    (db_email_authentications db) (db_phone_authentications db)) as Ho.
  { apply (outbox_add _ _ _ _ (wf_outbox _ Hwf)); try done.
    - by apply outbox_pending.
    - unfold attempts_ok, attempt_limit. simpl. case_match; lia.
    - by apply Ha.
    - by exists channel. }
  apply (good_outbox db (db_jobs db) (mkNotifications _ _ _ _) Hwf Ho); simpl;
    (apply rows_insert; [apply _|done]).
Qed.

Lemma good_email_code auth code now duration db db' :
  wf db → email_code_added auth code now duration db db' → good db db'.
Proof. intros Hwf (id & codes & _ & _ & _ & ->). revert Hwf. good_frame. Qed.
Lemma good_phone_code auth code now duration db db' :
  wf db → phone_code_added auth code now duration db db' → good db db'.
Proof. intros Hwf (id & _ & ->). revert Hwf. good_frame. Qed.
Lemma good_ticket session email ticket now db db' :
  wf db → ticket_added session email ticket now db db' → good db db'.
Proof. intros Hwf (id & _ & ->). revert Hwf. good_frame. Qed.
Lemma good_job_queued name payload db db' : wf db → job_queued name payload db db' → good db db'.
Proof. intros Hwf (id & row & _ & _ & _ & ->). by apply good_jobs. Qed.

Lemma good_email_code_sent nc id code now c0 c1 :
  wf c0 → email_code_sent nc id code now c0 c1 → good c0 c1.
Proof.
  intros Hwf [row _ _ ->|row _ _ _ Hs|row db1 db2 Hrow _ _ Hs Hq Hp]; [by apply good_refl|by eapply good_email_code|].
  eapply good_trans; [by eapply good_email_code|]. intros Hwf1.
  eapply good_trans; [|intros; by eapply good_job_queued].
  eapply good_queued; [done|exact Hq|]. intros d r Hs' Hd. unfold addressed. rewrite Hs', Hd.
  exists row. split; [|done]. destruct Hs as (? & ? & _ & _ & _ & ->). exact Hrow.
Qed.
Lemma good_sms_code_sent nc id language code now c0 c1 :
  wf c0 → sms_code_sent nc id language code now c0 c1 → good c0 c1.
Proof.
  intros Hwf [row _ _ ->|row _ _ _ Hs|row db1 db2 Hrow _ _ Hs Hq Hp]; [by apply good_refl|by eapply good_phone_code|].
  eapply good_trans; [by eapply good_phone_code|]. intros Hwf1.
  eapply good_trans; [|intros; by eapply good_job_queued].
  eapply good_queued; [done|exact Hq|]. intros d r Hs' Hd. unfold addressed. rewrite Hs', Hd.
  exists row. split; [|done]. destruct Hs as (? & _ & ->). exact Hrow.
Qed.
Lemma good_tickets_sent nc session locale l db db' :
  tickets_sent nc session locale l db db' → wf db → good db db'.
Proof.
  induction 1 as [|email l db1 db2 db3 (rng & now & db & Ht & Hq) _ IH]; intros Hwf; [by apply good_refl|].
  eapply good_trans; [|exact IH]. eapply good_trans; [by eapply good_ticket|]. intros Hwf1.
  eapply good_queued; [done|exact Hq|]. intros d r Hs Hd. unfold addressed. rewrite Hs, Hd. eauto.
Qed.
Lemma good_recovery_sent `{LX : LimiterExternals} `{XX : !AccountExternals} nc id c0 c1 :
  wf c0 → recovery_sent nc id c0 c1 → good c0 c1.
Proof.
  intros Hwf [row _ _ ->|row db1 _ _ Ht Hp]; [by apply good_refl|].
  eapply good_trans; [by eapply good_tickets_sent|]. intros Hwf1.
  case_bool_decide; [subst; by apply good_refl|by eapply good_job_queued].
Qed.

Section jobs.
Context {UX : UrlExternals} {VX : UrlPartsExternals} {BX : UrlBuildExternals} {DX : DbExternals}
  {LX : LimiterExternals} {XX : AccountExternals} {NX : NotificationExternals}.

Lemma send_recovery_ticket_inv nc sid session email js u js' :
  send_recovery_ticket nc sid session email js = (Ok u, js') → RecoverySession_id session = sid →
  ticket_sent nc sid (RecoverySession_locale session) email (st_db (js_st js)) (st_db (js_st js')) ∧
  st_committed (js_st js') = st_committed (js_st js) ∧ js_handed js' = js_handed js.
Proof.
  unfold send_recovery_ticket. intros H Hid. apply bind_Ok_inv in H as (ticket & js1 & H1 & H).
  injection H1 as H1 <-. apply bind_Ok_inv in H as (t & js2 & H2 & H). apply or_retry_inv in H2 as [H2 Hh2].
  apply add_ticket_inv in H2 as (Ht & HC & Hs). rewrite Hid in Hs.
  apply enqueue_inv in H as (Hq & HC' & Hh). split_and!; [|simpl in *; congruence..].
  rewrite Ht in Hq. subst ticket. eexists (st_rng (js_st js)), _, _. split; [exact Hs|exact Hq].
Qed.

Lemma send_tickets_inv nc sid session l js u js' :
  for_each (λ edge, send_recovery_ticket nc sid session (edge_node edge)) l js = (Ok u, js') →
  RecoverySession_id session = sid →
  tickets_sent nc sid (RecoverySession_locale session) (edge_node <$> l) (st_db (js_st js)) (st_db (js_st js')) ∧
  st_committed (js_st js') = st_committed (js_st js) ∧ js_handed js' = js_handed js.
Proof.
  intros H Hid. revert js H. induction l as [|e l IH]; intros js H; simpl in *.
  { injection H as _ <-. split_and!; [constructor|done..]. }
  apply bind_Ok_inv in H as (? & js1 & H1 & H).
  apply send_recovery_ticket_inv in H1 as (Ht & HC1 & Hh1); [|done].
  apply IH in H as (Hts & HC2 & Hh2). split_and!; [|congruence..]. by eapply tickets_sent_cons.
Qed.

Create HintDb only_db.

(** Steps whose only failures are those of the database, to be retried. *)
Definition only_db {A} (m : M JobSt JobError A) : Prop := ∀ js e js',
  m js = (Err e, js') → ∃ error, e = JobError_retry (Cause_Database error).
Lemma only_db_ret {A} (a : A) : only_db (mret a).
Proof. done. Qed.
Lemma only_db_retry {A} (m : M St DatabaseError A) : only_db (or_retry m).
Proof.
  intros js e js' [H _]%lift_inv. apply try_with_Err_inv in H as (e0 & _ & ->). by exists e0.
Qed.
Lemma only_db_rng {A} (f : Rng → A * Rng) : only_db (job_rng f).
Proof. done. Qed.
Lemma only_db_bind {A B} (m : M JobSt JobError A) (k : A → M JobSt JobError B) :
  only_db m → (∀ a, only_db (k a)) → only_db (m ≫= k).
Proof. intros Hm Hk js e js' [H|(a & js1 & _ & H)]%bind_Err_inv; [by eapply Hm|by eapply Hk]. Qed.
Lemma only_db_for_each {A} (f : A → M JobSt JobError ()) l :
  (∀ a, only_db (f a)) → only_db (for_each f l).
Proof. intros Hf. induction l; [done|]. simpl. by apply only_db_bind. Qed.
#[local] Hint Resolve only_db_ret only_db_retry only_db_rng only_db_for_each : only_db.
#[local] Hint Extern 2 (only_db (_ ≫= _)) => apply only_db_bind; [|intros ?] : only_db.

Lemma only_db_event q d kind s meta : only_db (append_event q d kind s meta).
Proof. unfold append_event. auto with only_db. Qed.
#[local] Hint Resolve only_db_event : only_db.
Lemma only_db_enqueue t l s p d c b : only_db (enqueue_notification_request t l s p d c b).
Proof. unfold enqueue_notification_request. auto 12 with only_db. Qed.
#[local] Hint Resolve only_db_enqueue : only_db.
Lemma only_db_ticket nc sid session email : only_db (send_recovery_ticket nc sid session email).
Proof. unfold send_recovery_ticket. auto 12 with only_db. Qed.
#[local] Hint Resolve only_db_ticket : only_db.

Lemma recovery_lookup_inv id st o st' :
  user_recovery_lookup_session id st = (Ok o, st') →
  st' = st ∧ o = UserRecoverySession_from id <$> db_recovery_sessions (st_db st) !! id.
Proof. unfold user_recovery_lookup_session. intros H. by account_inv. Qed.
Lemma email_list_inv f p st page st' :
  user_email_list f p st = (Ok page, st') →
  st' = st ∧ page = Page_map (λ '(id, r), UserEmail_from id r)
                      (list_page p (email_matches f) (db_emails (st_db st))).
Proof. unfold user_email_list. intros H. by account_inv. Qed.

#[local] Ltac page_cbn := cbn [page_after Pagination_after Pagination_set_after fst edge_cursor] in *.

(** The loop ends and has sent a ticket to each address that is left. *)
Lemma send_recovery_pages_inv fuel nc sid session p any js res js' :
  send_recovery_pages fuel nc sid session p any js = (res, js') →
  RecoverySession_id session = sid → forward p 50 →
  let P := email_matches (for_email (RecoverySession_email session)) in
  let rest := rows_after (page_after p) (all_rows P (db_emails (st_db (js_st js)))) in
  (length rest < fuel)%nat →
  match res with
  | Ok queued_any =>
      queued_any = any || negb (bool_decide (rest = [])) ∧
      tickets_sent nc sid (RecoverySession_locale session) ((λ '(id, r), UserEmail_from id r) <$> rest)
        (st_db (js_st js)) (st_db (js_st js')) ∧
      st_committed (js_st js') = st_committed (js_st js) ∧ js_handed js' = js_handed js
  | Err e => ∃ error, e = JobError_retry (Cause_Database error)
  end.
Proof.
  intros H Hid Hp. simpl. set (P := email_matches (for_email (RecoverySession_email session))).
  revert p any js H Hp. induction fuel as [|fuel IH]; intros p any js H Hp Hlen; [lia|].
  set (rest := rows_after (page_after p) (all_rows P (db_emails (st_db (js_st js))))) in *.
  cbn [send_recovery_pages] in H.
  assert (∀ page js1, or_retry (user_email_list (for_email (RecoverySession_email session)) p) js =
            (Ok page, js1) →
          js_st js1 = js_st js ∧ js_handed js1 = js_handed js ∧
          has_next_page page = bool_decide (50 < length rest)%nat ∧
          edges page = (λ '(k, r), {| edge_cursor := k; edge_node := UserEmail_from k r |}) <$> take 50 rest)
    as Hpage.
  { intros page js1 [[-> ->]%email_list_inv Hh]%or_retry_inv. split_and!; [done..| |].
    - change (has_next_page (Page_map ?f ?x)) with (has_next_page x).
      by rewrite (list_page_forward _ 50).
    - unfold Page_map. cbn [edges]. rewrite (list_page_forward _ 50) by done. cbn [edges].
      rewrite <-list_fmap_compose. apply list_fmap_ext. by intros ? []. }
  destruct res as [queued_any|e].
  - apply bind_Ok_inv in H as (page & js1 & H1 & H). apply Hpage in H1 as (E1 & Hh1 & Hnext & Hedges).
    apply bind_Ok_inv in H as (? & js2 & H2 & H). apply send_tickets_inv in H2 as (Ht & HC2 & Hh2); [|done].
    rewrite E1 in Ht, HC2. rewrite Hedges, <-list_fmap_compose in Ht.
    assert (tickets_sent nc sid (RecoverySession_locale session)
      ((λ '(id, r), UserEmail_from id r) <$> take 50 rest) (st_db (js_st js)) (st_db (js_st js2))) as Ht'.
    { erewrite list_fmap_ext; [exact Ht|]. by intros ? []. }
    clear Ht. rewrite Hnext in H. case_bool_decide as Hlt; rewrite Hedges in H.
    + rewrite fmap_last in H. destruct (last (take 50 rest)) as [[k r]|] eqn:Hx.
      2:{ apply last_None in Hx. apply (f_equal length) in Hx. rewrite length_take in Hx. cbn [length] in Hx. lia. }
      simpl in H. pose proof (rows_after_page (page_after p) P _ 50 (k, r) Hx) as Hrest. fold rest in Hrest.
      pose proof (tickets_sent_emails _ _ _ _ _ _ Ht') as Em.
      apply IH in H; [|by apply forward_after|rewrite Em; page_cbn; rewrite Hrest, length_drop; lia].
      rewrite Em in H. page_cbn. rewrite Hrest in H. destruct H as (Hany & Ht2 & HC & Hh).
      split_and!; [| |congruence..].
      * rewrite Hany. rewrite (bool_decide_eq_false_2 (_ <$> _ = [])).
        2:{ destruct rest; [simpl in Hlt; lia|done]. }
        rewrite (bool_decide_eq_false_2 (rest = [])) by (intros E; rewrite E in Hlt; simpl in Hlt; lia).
        by destruct any.
      * rewrite <-(take_drop 50 rest), fmap_app. by eapply tickets_sent_app.
    + injection H as <- <-. rewrite take_ge in * by lia. split_and!; [|done|congruence..].
      f_equal. f_equal. apply bool_decide_ext. split; [apply fmap_nil_inv|by intros ->].
  - apply bind_Err_inv in H as [H|(page & js1 & H1 & H)]; [by apply only_db_retry in H|].
    apply Hpage in H1 as (E1 & Hh1 & Hnext & Hedges).
    apply bind_Err_inv in H as [H|(? & js2 & H2 & H)].
    { revert H. apply only_db_for_each. auto with only_db. }
    apply send_tickets_inv in H2 as (Ht & _); [|done]. apply tickets_sent_emails in Ht.
    rewrite Hnext in H. case_bool_decide as Hlt; [|done]. rewrite Hedges, fmap_last in H.
    destruct (last (take 50 rest)) as [[k r]|] eqn:Hx; [|done].
    simpl in H. pose proof (rows_after_page (page_after p) P _ 50 (k, r) Hx) as Hrest. fold rest in Hrest.
    apply IH in H; [done|by apply forward_after|]. rewrite Ht, E1. page_cbn. rewrite Hrest, length_drop. lia.
Qed.

Lemma send_account_recovery_inv nc id js res js' :
  send_account_recovery nc id js = (res, js') →
  match res with
  | Ok _ => recovery_sent nc id (st_committed (js_st js)) (st_committed (js_st js')) ∧
      js_handed js' = js_handed js
  | Err e =>
      (db_recovery_sessions (st_committed (js_st js)) !! id = None ∧
       e = JobError_fail (Cause_Message "User recovery session not found")) ∨
      ∃ error, e = JobError_retry (Cause_Database error)
  end.
Proof.
  unfold send_account_recovery. intros H. destruct res as [u|e].
  - apply bind_Ok_inv in H as (? & js1 & H1 & H). injection H1 as _ <-.
    apply bind_Ok_inv in H as (found & js2 & H2 & H). apply or_retry_inv in H2 as [H2 Hh2].
    apply recovery_lookup_inv in H2 as [E2 ->].
    apply bind_Ok_inv in H as (session & js3 & H3 & H). apply ok_or_Ok_inv in H3 as [H3 ->].
    apply fmap_Some in H3 as (row & Hrow & ->). simpl in H, Hrow, Hh2.
    destruct (bool_decide_reflect (is_Some (RecoverySessionRow_consumed_at row))) as [Hc|Hc].
    { injection H as _ <-. split; [|done]. eapply recovery_late; try done. simpl. by rewrite E2. }
    apply eq_None_not_Some in Hc.
    apply bind_Ok_inv in H as (fuel & js4 & H4 & H). injection H4 as <- <-.
    apply bind_Ok_inv in H as (any & js5 & H5 & H). rewrite E2 in H5.
    apply send_recovery_pages_inv in H5; [|done|done|
      rewrite E2; simpl; pose proof (all_rows_length (email_matches (for_email (RecoverySessionRow_email row)))
        (db_emails (st_committed (js_st js)))); lia].
    rewrite E2 in H5. simpl in H5. destruct H5 as (-> & Ht & HC & Hh5).
    apply bind_Ok_inv in H as (? & js6 & H6 & H). injection H as _ <-.
    match type of H6 with (if negb (bool_decide (?l = [])) then _ else _) _ = _ => set (rows := l) in * end.
    assert (bool_decide (recovery_emails (RecoverySessionRow_email row) (st_committed (js_st js)) = []) =
            bool_decide (rows = [])) as Eb.
    { apply bool_decide_ext. unfold recovery_emails. fold rows.
      split; [apply fmap_nil_inv|by intros ->]. }
    destruct (bool_decide (rows = [])) eqn:Hrows; simpl in H6.
    + injection H6 as _ <-. split; [|simpl; congruence]. eapply recovery_tickets; [done|done|exact Ht|].
      by rewrite Eb.
    + apply schedule_processing_inv in H6 as (Hq & _ & Hh6). split; [|simpl; congruence].
      eapply recovery_tickets; [done|done|exact Ht|]. by rewrite Eb.
  - apply bind_Err_inv in H as [H|(? & js1 & H1 & H)]; [done|]. injection H1 as _ <-.
    apply bind_Err_inv in H as [H|(found & js2 & H2 & H)]; [right; by apply only_db_retry in H|].
    apply or_retry_inv in H2 as [H2 _]. apply recovery_lookup_inv in H2 as [E2 ->].
    apply bind_Err_inv in H as [H|(session & js3 & H3 & H)].
    { left. simpl in H. destruct (_ !! id); [done|]. simpl in H. by injection H as <- _. }
    apply ok_or_Ok_inv in H3 as [H3 ->]. apply fmap_Some in H3 as (row & Hrow & ->).
    simpl in H. case_bool_decide as Hc; [done|]. right.
    apply bind_Err_inv in H as [H|(fuel & js4 & H4 & H)]; [done|]. injection H4 as <- <-.
    apply bind_Err_inv in H as [H|(any & js5 & _ & H)].
    { rewrite E2 in H. apply send_recovery_pages_inv in H; [done..|].
      rewrite E2. simpl. pose proof (all_rows_length (email_matches (for_email (RecoverySessionRow_email row)))
        (db_emails (st_committed (js_st js)))). lia. }
    apply bind_Err_inv in H as [H|(? & js6 & _ & H)]; [|done].
    destruct any; [by apply only_db_retry in H|done].
Qed.

(** *** Any job *)

Lemma process_deliveries_good limit nc ub js res js' :
  process_deliveries limit nc ub js = (res, js') → wf (js_committed js) →
  good (js_committed js) (js_committed js').
Proof.
  revert js res js'. induction limit as [|limit IH]; intros js res js' H Hwf; simpl in H.
  { injection H as _ <-. by apply good_refl. }
  unfold mbind, M_bind in H. destruct (process_single_delivery nc ub js) as [[b|e] js1] eqn:H1;
    apply process_single_good in H1; [|done| |done].
  - destruct b; [|injection H as _ <-; done].
    destruct (process_deliveries limit nc ub js1) as [[n|e] js2] eqn:H2;
      injection H as _ <-; (eapply good_trans; [exact H1|]; intros; by eapply IH).
  - by injection H as _ <-.
Qed.

(** A job that fails commits nothing: it saves last. *)
Definition fails_clean {A} (m : M JobSt JobError A) : Prop := ∀ js e js',
  m js = (Err e, js') → js_committed js' = js_committed js.
Lemma fails_clean_keeps {A} (m : M JobSt JobError A) : keeps js_committed m → fails_clean m.
Proof. intros Hm js e js' H. specialize (Hm js). by rewrite H in Hm. Qed.
Lemma fails_clean_save : fails_clean job_save.
Proof. done. Qed.
Lemma fails_clean_bind {A B} (m : M JobSt JobError A) (k : A → M JobSt JobError B) :
  keeps js_committed m → (∀ a, fails_clean (k a)) → fails_clean (m ≫= k).
Proof. intros Hm Hk js e js'. apply keeps_Err_bind; [done|]. intros a ??. apply Hk. Qed.

Lemma keeps_job_repository : keeps js_committed job_repository.
Proof. done. Qed.
Lemma keeps_job_rng {A} (f : Rng → A * Rng) : keeps js_committed (job_rng f).
Proof. done. Qed.
Lemma keeps_schedule_processing : keeps js_committed schedule_processing_job.
Proof. apply keeps_or_retry_committed, keeps_queue_insert. Qed.
Lemma keeps_add_email_code t a c : keeps st_committed (user_email_add_authentication_code t a c).
Proof. unfold user_email_add_authentication_code. solve_keeps. Qed.
Lemma keeps_add_phone_code t a c : keeps st_committed (user_phone_add_authentication_code t a c).
Proof. unfold user_phone_add_authentication_code. solve_keeps. Qed.
Lemma keeps_add_ticket s e t : keeps st_committed (user_recovery_add_ticket s e t).
Proof. unfold user_recovery_add_ticket. solve_keeps. Qed.
Lemma keeps_add_request p : keeps st_committed (notification_add_request p).
Proof. unfold notification_add_request. solve_keeps. Qed.
Lemma keeps_add_delivery q p : keeps st_committed (notification_add_delivery q p).
Proof. unfold notification_add_delivery. solve_keeps. Qed.
Lemma keeps_lookup_email_auth id : keeps st_committed (user_email_lookup_authentication id).
Proof. unfold user_email_lookup_authentication. solve_keeps. Qed.
Lemma keeps_lookup_phone_auth id : keeps st_committed (user_phone_lookup_authentication id).
Proof. unfold user_phone_lookup_authentication. solve_keeps. Qed.
Lemma keeps_lookup_recovery_session id : keeps st_committed (user_recovery_lookup_session id).
Proof. unfold user_recovery_lookup_session. solve_keeps. Qed.
Lemma keeps_email_list f p : keeps st_committed (user_email_list f p).
Proof. unfold user_email_list. solve_keeps. Qed.
#[local] Hint Resolve keeps_job_repository keeps_job_rng keeps_schedule_processing keeps_add_email_code
  keeps_add_phone_code keeps_add_ticket keeps_add_request keeps_add_delivery keeps_lookup_email_auth
  keeps_lookup_phone_auth keeps_lookup_recovery_session keeps_email_list : keeps.

Lemma keeps_enqueue t l s p d c b : keeps js_committed (enqueue_notification_request t l s p d c b).
Proof. unfold enqueue_notification_request. solve_keeps. Qed.
#[local] Hint Resolve keeps_enqueue : keeps.
Lemma keeps_ticket nc sid s e : keeps js_committed (send_recovery_ticket nc sid s e).
Proof. unfold send_recovery_ticket. solve_keeps. Qed.
#[local] Hint Resolve keeps_ticket : keeps.
Lemma keeps_pages fuel nc sid s p any : keeps js_committed (send_recovery_pages fuel nc sid s p any).
Proof. revert p any. induction fuel; intros; simpl; solve_keeps. Qed.
#[local] Hint Resolve keeps_pages : keeps.

Ltac solve_clean :=
  repeat first
    [ apply fails_clean_bind; [solve [auto with keeps | solve_keeps]|intros ?]
    | apply fails_clean_save
    | apply fails_clean_keeps; solve [auto with keeps | solve_keeps]
    | case_match ].

Lemma fails_clean_email nc id l : fails_clean (send_email_authentication_code nc id l).
Proof. unfold send_email_authentication_code. solve_clean. Qed.
Lemma fails_clean_sms nc id l : fails_clean (send_sms_authentication_code nc id l).
Proof. unfold send_sms_authentication_code. solve_clean. Qed.
Lemma fails_clean_recovery nc id : fails_clean (send_account_recovery nc id).
Proof. unfold send_account_recovery. solve_clean. Qed.

Lemma process_notification_deliveries_good nc ub limit js res js' :
  process_notification_deliveries nc ub limit js = (res, js') → wf (js_committed js) →
  good (js_committed js) (js_committed js').
Proof.
  unfold process_notification_deliveries. intros H Hwf. unfold mbind at 1, M_bind at 1 in H.
  destruct (process_deliveries limit nc ub js) as [r js1] eqn:H1.
  apply process_deliveries_good in H1; [|done]. eapply good_trans; [exact H1|]. intros Hwf1.
  destruct r as [n|e]; [|by injection H as _ <-; apply good_refl].
  case_bool_decide; [|injection H as _ <-; by apply good_refl].
  destruct res as [u|e].
  - apply bind_Ok_inv in H as (? & js2 & H2 & H). injection H2 as _ <-.
    apply bind_Ok_inv in H as (? & js3 & H3 & H). apply schedule_processing_inv in H3 as (Hq & _).
    injection H as _ <-. by eapply good_job_queued.
  - assert (fails_clean (_ ← job_repository; _ ← schedule_processing_job; job_save)) as Hf by solve_clean.
    apply Hf in H. rewrite H. by apply good_refl.
Qed.

Lemma run_job_good nc ub job m js res js' :
  run_job nc ub job = Some m → m js = (res, js') → wf (js_committed js) →
  good (js_committed js) (js_committed js').
Proof.
  assert (∀ (m : M JobSt JobError ()), fails_clean m →
    (∀ js u js', m js = (Ok u, js') → wf (js_committed js) → good (js_committed js) (js_committed js')) →
    m js = (res, js') → wf (js_committed js) → good (js_committed js) (js_committed js')) as Hjob.
  { intros m0 Hc Ho H Hwf. destruct res as [u|e]; [by eapply Ho|].
    apply Hc in H. rewrite H. by apply good_refl. }
  assert (∀ id l, send_email_authentication_code nc id l js = (res, js') → wf (js_committed js) →
    good (js_committed js) (js_committed js')) as He.
  { intros id l. apply Hjob; [apply fails_clean_email|].
    intros ? ? ? [H _]%send_email_code_inv Hwf. by eapply good_email_code_sent. }
  assert (∀ id l, send_sms_authentication_code nc id l js = (res, js') → wf (js_committed js) →
    good (js_committed js) (js_committed js')) as Hs.
  { intros id l. apply Hjob; [apply fails_clean_sms|].
    intros ? ? ? [H _]%send_sms_code_inv Hwf. by eapply good_sms_code_sent. }
  destruct job as [?|? ? ?|[id|id] l|id l|id l|id|limit|? ?|?|? ?|? ?| |? ?|? ?]; simpl; intros [= <-]; eauto.
  - apply Hjob; [apply fails_clean_recovery|].
    intros ? ? ? [H _]%send_account_recovery_inv Hwf. by eapply good_recovery_sent.
  - apply process_notification_deliveries_good.
Qed.
End jobs.
