(* ===== verification/WebhookIntegrity.v ===== *)
(** The callbacks of the providers of email keep the integrity of the database: a callback may
    change several deliveries before the requests they belong to are reconciled, so that in between
    the outbox is well formed up to the requests touched ([touched_state]). *)
From S2P Require Import Prelude Ids RateLimit TokenFormat Scope Pkce Jose Domain Accounts Notification Database Messaging Repository ClientMetadata ProviderMetadata AccountRepository Pagination NotificationRepository Notifications EmailWebhook RepositorySpec AccountSpec Outbox NotificationSpec RegistrationSpec Integrity AccountIntegrity NotificationIntegrity NotificationJobs.

Open Scope Z_scope.

(** A delivery a callback has changed. *)
Definition settled (d : NotificationDeliveryRow) : Prop :=
  (DeliveryRow_status d = "delivered" ∧ DeliveryRow_next_retry_at d = None) ∨ delivery_final d.
Definition touched_state (touched : list Ulid) (q : Ulid) (d : NotificationDeliveryRow)
    (r : NotificationRequestRow) : Prop :=
  (q ∈ touched → settled d ∧ RequestRow_status r ≠ "cancelled") ∧ (q ∉ touched → outbox_state d r).

(** The tables of notifications are all a callback has changed, and they are as they should be up
    to the requests touched. *)
Record hooked (c0 : DB) (touched : list Ulid) (st : St) : Prop := {
  hk_committed : st_committed st = c0;
  hk_frame : st_db st = on_notifications (λ _, db_notifications (st_db st)) c0;
  hk_sat : outbox_sat (touched_state touched) (db_notifications (st_db st))
             (db_email_authentications c0) (db_phone_authentications c0);
  hk_requests : rows_evolve request_evolves (db_notification_requests c0)
                  (db_notification_requests (st_db st));
  hk_deliveries : rows_evolve delivery_evolves (db_notification_deliveries c0)
                    (db_notification_deliveries (st_db st));
  hk_changed : ∀ k d', db_notification_deliveries (st_db st) !! k = Some d' →
    ∃ d, db_notification_deliveries c0 !! k = Some d ∧
      DeliveryRow_attempt_count d' = DeliveryRow_attempt_count d ∧
      (d' = d ∨ (settled d' ∧ DeliveryRow_status d ≠ "cancelled"));
}.

Lemma hooked_events c0 touched f st st' :
  hooked c0 touched st → ran st st' (on_notification_events f) → hooked c0 touched st'.
Proof.
  intros [HC HF [H1 H2 H3] HR HD HX] [D C]. split; rewrite ?D; try done; [congruence|].
  rewrite HF. done.
Qed.

(** One delivery and its request are changed. *)
Lemma hooked_step c0 T T' k d d' r r' st st' :
  let q := DeliveryRow_notification_request_id d in
  hooked c0 T st → db_notification_deliveries (st_db st) !! k = Some d →
  db_notification_requests (st_db st) !! q = Some r →
  (∀ q', q' ≠ q → q' ∈ T ↔ q' ∈ T') → touched_state T' q d' r' →
  delivery_evolves d d' → DeliveryRow_attempt_count d' = DeliveryRow_attempt_count d →
  request_evolves r r' → d' = d ∨ (settled d' ∧ DeliveryRow_status d ≠ "cancelled") →
  ran st st' (on_notifications (λ n, mkNotifications (<[q := r']> (ntf_requests n))
                (<[k := d']> (ntf_deliveries n)) (ntf_events n) (ntf_preferences n))) →
  hooked c0 T' st'.
Proof.
  intros q [HC HF HS HR HD HX] Hd Hr HT Hst Hde Hat Hre Hch [D C].
  destruct (ob_delivery _ _ _ _ HS k d Hd) as (r0 & Hr0 & _ & Hao & _).
  assert (r0 = r) as -> by (unfold db_notification_requests in Hr; fold q in Hr0; congruence).
  split; rewrite ?D; [congruence| | | | |].
  - rewrite HF. done.
  - apply (outbox_step _ _ _ _ HS _ k d d' r r'); try done; try apply Hde.
    + intros q' x rx Hne [Hin Hout]. split; intros; [apply Hin|apply Hout]; by rewrite HT.
    + unfold attempts_ok in *. destruct Hre as [-> _]. rewrite Hat. exact Hao.
  - etrans; [exact HR|]. by apply (rows_insert_at _ _ r).
  - etrans; [exact HD|]. by apply (rows_insert_at _ _ d).
  - intros j x. unfold db_notification_deliveries. simpl.
    intros [[<- <-]|[_ Hx]]%lookup_insert_Some; [|by apply HX].
    destruct (HX k d Hd) as (d0 & Hd0 & Ea & Hd0'). exists d0. split_and!; [done|congruence|].
    destruct Hch as [->|[Hset Hnc]]; [done|]. right. split; [done|]. intros Hc. apply Hnc.
    destruct (HD k d0 Hd0) as (dx & Hdx & Hev). assert (dx = d) as -> by congruence.
    by apply Hev.
Qed.

Lemma ran_insert_both k d d' q r st st' :
  db_notification_deliveries (st_db st) !! k = Some d → db_notification_requests (st_db st) !! q = Some r →
  ran st st' (on_notification_deliveries (alter (λ _, d') k)) →
  ran st st' (on_notifications (λ n, mkNotifications (<[q := r]> (ntf_requests n))
                (<[k := d']> (ntf_deliveries n)) (ntf_events n) (ntf_preferences n))).
Proof.
  intros Hd Hr [D C]. split; [|done]. rewrite D. unfold on_notification_deliveries, on_notifications.
  unfold db_notification_requests, db_notification_deliveries in *. f_equal. f_equal.
  - by rewrite insert_id.
  - apply map_eq. intros j. rewrite lookup_alter. case_decide; subst.
    + by rewrite lookup_insert_eq, Hd.
    + by rewrite lookup_insert_ne.
Qed.

Lemma ran_alter_at (f : NotificationDeliveryRow → NotificationDeliveryRow) k d st st' :
  db_notification_deliveries (st_db st) !! k = Some d →
  ran st st' (on_notification_deliveries (alter f k)) →
  ran st st' (on_notification_deliveries (alter (λ _, f d) k)).
Proof.
  intros Hd [D C]. split; [|done]. rewrite D. unfold on_notification_deliveries, on_notifications.
  f_equal. f_equal. apply map_eq. intros j. rewrite !lookup_alter. case_decide; [|done]. subst.
  unfold db_notification_deliveries in Hd. by rewrite Hd.
Qed.

Section webhook.
Context {UX : UrlExternals} {VX : UrlPartsExternals} {BX : UrlBuildExternals} {JX : JoseExternals}
  {DX : DbExternals} {NX : NotificationExternals} {WX : WebhookExternals}.

(** A callback changes a delivery that is not cancelled, once for each thing it says. *)
Lemma apply_update_inv k row del update st o st' :
  apply_delivery_update del update st = (Ok o, st') →
  db_notification_deliveries (st_db st) !! k = Some row →
  NotificationDelivery_try_from k row = Ok del → DeliveryRow_status row ≠ "cancelled" →
  match o with
  | None => st' = st
  | Some del' => ∃ row', settled row' ∧ delivery_evolves row row' ∧
      DeliveryRow_attempt_count row' = DeliveryRow_attempt_count row ∧
      ran st st' (on_notification_deliveries (alter (λ _, row') k))
  end.
Proof.
  unfold apply_delivery_update. intros H Hrow Hdec Hnc.
  pose proof (delivery_try_from_inv _ _ _ Hdec) as (Hk & _ & _ & Hs & _ & _ & Hn).
  destruct (should_apply_delivery_update _ _ _) eqn:Happ; [|by injection H as <- <-].
  apply bind_Ok_inv in H as (del' & st1 & H1 & H). injection H as <- <-.
  destruct (du_status update) as [|failure]; apply try_with_Ok_inv in H1.
  - apply mark_delivered_inv in H1 as (now & -> & _ & H1). rewrite Hk in H1.
    eexists. split_and!; [..|by eapply ran_alter_at]; [by left| |done].
    unfold delivery_evolves, delivery_final. simpl. rewrite Hs in *.
    destruct (ndel_status del); simpl in *; split_and!; try done; naive_solver.
  - apply mark_failed_inv in H1 as (now & -> & _ & H1). rewrite Hk in H1.
    eexists. split_and!; [..|by eapply ran_alter_at]; [by right| |done].
    unfold delivery_evolves, delivery_final. simpl. split_and!; try done. by right.
Qed.

Lemma webhook_lookup_inv self lookup st o st' :
  webhook_lookup_delivery self lookup st = (Ok o, st') → st' = st ∧
  ∀ del, o = Some del → ∃ k row, db_notification_deliveries (st_db st) !! k = Some row ∧
    NotificationDelivery_try_from k row = Ok del.
Proof.
  unfold webhook_lookup_delivery. destruct lookup; intros H%try_with_Ok_inv.
  - apply lookup_delivery_inv in H as [-> H]. split; [done|]. intros del ->. destruct H as (row & ? & ?). eauto.
  - apply lookup_by_message_inv in H as [-> H]. split; [done|]. intros del ->. exact H.
Qed.

Lemma process_update_inv c0 T self update st o st' :
  process_update self update st = (Ok o, st') → hooked c0 T st →
  hooked c0 (match o with Some q => q :: T | None => T end) st'.
Proof.
  unfold process_update. intros H Hk. apply bind_Ok_inv in H as (found & st1 & H1 & H).
  apply webhook_lookup_inv in H1 as [-> Hf]. destruct found as [del|]; [|by injection H as <- <-].
  destruct (Hf del eq_refl) as (k & row & Hrow & Hdec). clear Hf.
  case_bool_decide as Hnc; [by injection H as <- <-|].
  apply bind_Ok_inv in H as (found & st1 & H1 & H). apply try_with_Ok_inv, lookup_request_inv in H1 as [-> Hf].
  apply bind_Ok_inv in H as (req & st1 & H1 & H). apply ok_or_Ok_inv in H1 as [-> ->].
  destruct Hf as (r & Hr & Hreq). apply request_try_from_inv in Hreq as (Hq & _ & _ & _ & _ & Hrs).
  pose proof (delivery_try_from_inv _ _ _ Hdec) as (_ & Hdq & _ & Hs & _). rewrite Hdq in Hr, Hq.
  apply bind_Ok_inv in H as (changed & st2 & H2 & H).
  assert (DeliveryRow_status row ≠ "cancelled") as Hrc.
  { rewrite Hs. by destruct (ndel_status del). }
  eapply apply_update_inv in H2; [|exact Hrow|exact Hdec|exact Hrc].
  destruct changed as [del'|]; [|subst; by injection H as <- <-].
  destruct H2 as (row' & Hset & Hev & Hat & Hran).
  apply bind_Ok_inv in H as (? & st3 & H3 & H). apply try_with_Ok_inv, append_event_inv in H3 as [f H3].
  injection H as <- <-. eapply hooked_events; [|exact H3]. rewrite Hq.
  destruct (ob_delivery _ _ _ _ (hk_sat _ _ _ Hk) k row Hrow) as (r0 & Hr0 & Hst & _).
  assert (r0 = r) as -> by (unfold db_notification_requests in Hr; congruence).
  eapply hooked_step; [exact Hk|exact Hrow|exact Hr|..|exact Hev|exact Hat|reflexivity|by right|
    by eapply ran_insert_both].
  - set_solver.
  - split; [|set_solver]. intros _. split; [done|]. destruct Hst as [Hin Hout].
    destruct (decide (DeliveryRow_notification_request_id row ∈ T)) as [Hm|Hm]; [by apply Hin|].
    destruct (Hout Hm); congruence.
Qed.

Lemma process_updates_inv c0 T self updates st l n st' :
  process_updates self updates st = (Ok (l, n), st') → hooked c0 T st →
  ∃ T', hooked c0 T' st' ∧ (∀ q, q ∈ T' ↔ q ∈ T ∨ q ∈ l).
Proof.
  revert T l n st. induction updates as [|update updates IH]; intros T l n st H Hk; simpl in H.
  { injection H as <- <- <-. exists T. split; [done|]. set_solver. }
  apply bind_Ok_inv in H as (o & st1 & H1 & H). apply process_update_inv with (c0:=c0) (T:=T) in H1; [|done].
  apply bind_Ok_inv in H as ([l' n'] & st2 & H2 & H). injection H as Hl <-.
  eapply IH in H2 as (T' & Hk' & HT); [|exact H1]. exists T'. split; [done|]. intros q. rewrite HT.
  destruct o; simplify_eq; set_solver.
Qed.

(** Reconciling makes a request agree with its delivery. *)
Lemma list_deliveries_inv req st l st' :
  notification_list_deliveries req st = (Ok l, st') → st' = st ∧
  ∀ k row, (∀ j x, db_notification_deliveries (st_db st) !! j = Some x →
      DeliveryRow_notification_request_id x = nreq_id req → j = k) →
    db_notification_deliveries (st_db st) !! k = Some row →
    DeliveryRow_notification_request_id row = nreq_id req →
    ∃ del, l = [del] ∧ NotificationDelivery_try_from k row = Ok del.
Proof.
  unfold notification_list_deliveries. intros H. apply bind_Ok_inv in H as (rows & st1 & H1 & H).
  injection H1 as <- <-. unfold of_result in H. destruct (try_collect _ _) as [l'|] eqn:Hc; [|done].
  injection H as <- <-. split; [done|]. intros k row Huniq Hrow Hq.
  assert (filter (λ x, is_delivery_of (nreq_id req) x.2 = true)
            (ordered_rows (db_notification_deliveries (st_db st))) = [(k, row)]) as E.
  { apply Permutation_singleton_r. apply NoDup_Permutation.
    - apply NoDup_filter. unfold ordered_rows. rewrite merge_sort_Permutation. apply NoDup_map_to_list.
    - apply NoDup_singleton.
    - intros [j x]. rewrite list_elem_of_filter, elem_ordered_rows, list_elem_of_singleton. simpl.
      unfold is_delivery_of. rewrite bool_decide_eq_true. split; [|by intros [= -> ->]].
      intros [Hx Hj]. assert (j = k) as -> by (by eapply Huniq). congruence. }
  rewrite E in Hc. simpl in Hc. destruct (NotificationDelivery_try_from k row) as [del|]; [|done].
  injection Hc as <-. by exists del.
Qed.

Lemma hooked_untouch c0 q T st :
  hooked c0 (q :: T) st → q ∉ T →
  (∀ k d r, db_notification_deliveries (st_db st) !! k = Some d →
     DeliveryRow_notification_request_id d = q →
     db_notification_requests (st_db st) !! q = Some r → outbox_state d r) →
  hooked c0 T st.
Proof.
  intros [HC HF [H1 H2 H3] HR HD HX] HqT Hs. split; try done. split; try done.
  intros k d Hd. destruct (H2 k d Hd) as (r & Hr & [Hin Hout] & Hrest). exists r. split_and!; [done| |apply Hrest..].
  destruct (decide (DeliveryRow_notification_request_id d = q)) as [E|E].
  - split; [by rewrite E|]. intros _. eapply Hs; [exact Hd|exact E|]. by rewrite <-E.
  - split; [intros; apply Hin; set_solver|intros; apply Hout; set_solver].
Qed.

(** The status that a request is given agrees with its settled delivery. *)
Lemma reconciled_settled k d del :
  settled d → NotificationDelivery_try_from k d = Ok del →
  ∃ s, reconciled_status [del] = s ∧ s ≠ Request_Cancelled ∧
    ∀ r, RequestRow_status r = request_status_to_db s → outbox_state d r.
Proof.
  intros Hset Hdec. apply delivery_try_from_inv in Hdec as (_ & _ & _ & Hs & _).
  destruct Hset as [[Hd Hn]|[Hd Hn]]; rewrite Hs in Hd;
    [assert (ndel_status del = Delivery_Delivered) as Es by (by destruct (ndel_status del))
    |assert (ndel_status del = Delivery_Failed) as Es by (by destruct (ndel_status del))].
  - exists Request_Succeeded. unfold reconciled_status. simpl. rewrite Es. split_and!; [done..|].
    intros r Hr. apply outbox_delivered; [by rewrite Hs, Es|done|done].
  - exists Request_Failed. unfold reconciled_status. simpl. rewrite Es. split_and!; [done..|].
    intros r Hr. apply outbox_failed; [by rewrite Hs, Es|done|done].
Qed.

Lemma ran_request_at (f : NotificationRequestRow → NotificationRequestRow) k d q r st st' :
  db_notification_deliveries (st_db st) !! k = Some d → db_notification_requests (st_db st) !! q = Some r →
  ran st st' (on_notification_requests (alter f q)) →
  ran st st' (on_notifications (λ n, mkNotifications (<[q := f r]> (ntf_requests n))
                (<[k := d]> (ntf_deliveries n)) (ntf_events n) (ntf_preferences n))).
Proof.
  intros Hd Hr [D C]. split; [|done]. rewrite D. unfold on_notification_requests, on_notifications.
  unfold db_notification_requests, db_notification_deliveries in *. f_equal. f_equal.
  - apply map_eq. intros j. rewrite lookup_alter. case_decide; subst.
    + by rewrite lookup_insert_eq, Hr.
    + by rewrite lookup_insert_ne.
  - by rewrite insert_id.
Qed.

Lemma reconcile_inv c0 q T self st u st' :
  reconcile_request_status self q st = (Ok u, st') → hooked c0 (q :: T) st → q ∉ T → hooked c0 T st'.
Proof.
  unfold reconcile_request_status. intros H Hk HqT. apply bind_Ok_inv in H as (found & st1 & H1 & H).
  apply try_with_Ok_inv, lookup_request_inv in H1 as [-> Hf]. destruct found as [req|].
  2:{ injection H as _ <-. eapply hooked_untouch; [done..|]. congruence. }
  destruct Hf as (r & Hr & Hreq). apply request_try_from_inv in Hreq as (Hq & _ & _ & _ & _ & Hrs).
  destruct (ob_request _ _ _ _ (hk_sat _ _ _ Hk) q r Hr) as (k & d & Hd & Hdq).
  destruct (ob_delivery _ _ _ _ (hk_sat _ _ _ Hk) k d Hd) as (r0 & Hr0 & [Hin _] & _). rewrite Hdq in Hr0, Hin.
  assert (r0 = r) as -> by (unfold db_notification_requests in Hr; congruence).
  destruct (Hin ltac:(set_solver)) as [Hset Hnc].
  case_bool_decide as Hcan; [rewrite Hcan in Hrs; done|].
  assert (∀ j x, db_notification_deliveries (st_db st) !! j = Some x →
    DeliveryRow_notification_request_id x = q → j = k) as Huniq.
  { intros j x Hx E. eapply (ob_one _ _ _ _ (hk_sat _ _ _ Hk)); [exact Hx|exact Hd|congruence]. }
  apply bind_Ok_inv in H as (l & st1 & H1 & H). apply try_with_Ok_inv, list_deliveries_inv in H1 as [-> Hl].
  rewrite Hq in Hl. destruct (Hl k d Huniq Hd Hdq) as (del & -> & Hdel). clear Hl.
  destruct (reconciled_settled _ _ _ Hset Hdel) as (s & Es & Hns & Hst). rewrite Es in H.
  case_bool_decide as Heq.
  - injection H as _ <-. eapply hooked_untouch; [done..|]. intros j x rx Hx Hxq Hrx.
    assert (j = k) as -> by (by eapply Huniq).
    assert (x = d) as -> by (unfold db_notification_deliveries in Hx; congruence).
    assert (rx = r) as -> by congruence. apply Hst. congruence.
  - apply bind_Ok_inv in H as (req' & st1 & H1 & H).
    apply try_with_Ok_inv, set_request_status_inv in H1 as (now & -> & _ & Hran). rewrite Hq in Hran.
    assert (hooked c0 T st1) as Hk1.
    { eapply (hooked_step _ _ _ k d d r); [exact Hk|exact Hd|by rewrite Hdq|..|rewrite Hdq; by eapply ran_request_at].
      - rewrite Hdq. set_solver.
      - rewrite Hdq. split; [done|]. intros _. by apply Hst.
      - reflexivity.
      - done.
      - by apply persist_evolves.
      - by left. }
    destruct (reconcile_event s) as [[kind summary]|]; [|by injection H as _ <-].
    apply bind_Ok_inv in H as (? & st2 & H2 & H). apply try_with_Ok_inv, append_event_inv in H2 as [f H2].
    injection H as _ <-. by eapply hooked_events.
Qed.

Lemma reconcile_all c0 self l st u st' :
  for_each (reconcile_request_status self) l st = (Ok u, st') → NoDup l → hooked c0 l st → hooked c0 [] st'.
Proof.
  revert st. induction l as [|q l IH]; intros st H Hnd Hk; simpl in H; [by injection H as _ <-|].
  apply NoDup_cons in Hnd as [Hq Hnd]. apply bind_Ok_inv in H as (? & st1 & H1 & H).
  eapply IH; [exact H|done|]. by eapply reconcile_inv.
Qed.

Lemma hooked_ext c0 T T' st : (∀ q, q ∈ T ↔ q ∈ T') → hooked c0 T st → hooked c0 T' st.
Proof.
  intros HT [HC HF [H1 H2 H3] HR HD HX]. split; try done. split; try done.
  intros k d Hd. destruct (H2 k d Hd) as (r & Hr & [Hin Hout] & Hrest). exists r. split_and!; [done| |apply Hrest..].
  split; [intros; apply Hin; by rewrite HT|intros; apply Hout; by rewrite HT].
Qed.

Lemma hooked_start st : wf (st_committed st) → st_db st = st_committed st → hooked (st_committed st) [] st.
Proof.
  intros Hwf E. destruct (wf_outbox _ Hwf) as [H1 H2 H3]. split; rewrite ?E; try done.
  - by destruct (st_committed st) as [???????????? ? []].
  - split; try done. intros k d Hd. destruct (H2 k d Hd) as (r & Hr & Hst & Hrest). exists r.
    split_and!; [done| |apply Hrest..]. split; [by intros ?%elem_of_nil|done].
  - intros k d Hd. exists d. split_and!; [done|done|by left].
Qed.
Lemma hooked_end c0 st : wf c0 → hooked c0 [] st → good c0 (st_db st).
Proof.
  intros Hwf [HC HF [H1 H2 H3] HR HD HX]. rewrite HF.
  apply (good_outbox c0 (db_jobs c0) (db_notifications (st_db st))); try done. split; try done.
  intros k d Hd. destruct (H2 k d Hd) as (r & Hr & [_ Hout] & Hrest). exists r.
  split_and!; [done|apply Hout, not_elem_of_nil|apply Hrest..].
Qed.

Lemma webhook_process_inv c0 utc net self provider req st res st' :
  webhook_process utc net self provider req st = (Ok res, st') → hooked c0 [] st → hooked c0 [] st'.
Proof.
  unfold webhook_process. intros H Hk. apply bind_Ok_inv in H as (? & st1 & H1 & H).
  apply require_inv in H1 as [_ ->]. apply bind_Ok_inv in H as (parsed & st1 & H1 & H).
  unfold of_result in H1. destruct (runtime_parse _ _ _ _); [|done]. injection H1 as -> <-.
  apply bind_Ok_inv in H as ([l n] & st2 & H2 & H). eapply process_updates_inv in H2 as (T & Hk2 & HT); [|exact Hk].
  apply bind_Ok_inv in H as (? & st3 & H3 & H). injection H as _ <-.
  assert (btree_set l ≡ₚ elements (list_to_set l : gset Z)) as Hp by apply merge_sort_Permutation.
  eapply reconcile_all; [exact H3|rewrite Hp; apply NoDup_elements|].
  eapply hooked_ext; [|exact Hk2]. intros q. rewrite HT, Hp, elem_of_elements, elem_of_list_to_set.
  set_solver.
Qed.

(** *** What is committed *)

Lemma keeps_lookup_delivery id : keeps st_committed (notification_lookup_delivery id).
Proof. unfold notification_lookup_delivery, try_into. solve_keeps; by intros ?. Qed.
Lemma keeps_lookup_by_message key id :
  keeps st_committed (notification_lookup_delivery_by_provider_message_id key id).
Proof. unfold notification_lookup_delivery_by_provider_message_id, try_into. solve_keeps; by intros ?. Qed.
Lemma keeps_list_deliveries q : keeps st_committed (notification_list_deliveries q).
Proof. unfold notification_list_deliveries. solve_keeps; by intros ?. Qed.
#[local] Hint Resolve keeps_lookup_delivery keeps_lookup_by_message keeps_list_deliveries : keeps.

Lemma keeps_process_update self u : keeps st_committed (process_update self u).
Proof.
  unfold process_update, webhook_lookup_delivery, apply_delivery_update, or_internal. solve_keeps.
Qed.
#[local] Hint Resolve keeps_process_update : keeps.
Lemma keeps_process_updates self l : keeps st_committed (process_updates self l).
Proof. induction l; simpl; solve_keeps. Qed.
Lemma keeps_reconcile self q : keeps st_committed (reconcile_request_status self q).
Proof. unfold reconcile_request_status, or_internal. solve_keeps. Qed.
#[local] Hint Resolve keeps_process_updates keeps_reconcile : keeps.
Lemma keeps_webhook_process utc net self p req : keeps st_committed (webhook_process utc net self p req).
Proof. unfold webhook_process, of_result. solve_keeps; by intros ?. Qed.

(** A callback that is answered with an error leaves no trace. *)
Lemma webhook_post_Err utc net service p req st e st' :
  webhook_post utc net service p req st = (Err e, st') → st_committed st' = st_committed st.
Proof.
  unfold webhook_post. apply keeps_Err_bind; [apply keeps_require|]. intros _ st1 st1'.
  apply keeps_Err_bind; [by destruct service|]. intros self st2 st2'.
  apply keeps_Err_bind; [apply keeps_try_with, keeps_webhook_process|]. intros r st3 st3'.
  by intros [H|(? & ? & _ & H)]%bind_Err_inv.
Qed.

Lemma webhook_post_good utc net service p req st res st' :
  webhook_post utc net service p req st = (res, st') → wf (st_committed st) → st_db st = st_committed st →
  good (st_committed st) (st_committed st').
Proof.
  intros H Hwf E. destruct res as [r|e]; [|apply webhook_post_Err in H; rewrite H; by apply good_refl].
  unfold webhook_post in H. apply bind_Ok_inv in H as (? & st1 & H1 & H). apply require_inv in H1 as [_ ->].
  apply bind_Ok_inv in H as (self & st1 & H1 & H). apply ok_or_Ok_inv in H1 as [-> ->].
  apply bind_Ok_inv in H as (res & st1 & H1 & H). apply try_with_Ok_inv in H1.
  eapply webhook_process_inv in H1; [|by apply hooked_start].
  apply bind_Ok_inv in H as (? & st2 & H2 & H). injection H2 as _ <-. injection H as _ <-.
  by apply hooked_end.
Qed.
End webhook.
