(* ===== verification/AdminIntegrity.v ===== *)
(** What the methods of AdminRepository.v and the guards of Profile.v and Admin.v do to the
    database, and that the administration interface and the changes users make to their own account maintain
    the integrity of the database: what they commit is well formed and has evolved from what was
    committed before, an active administrator remains where there was one, and a request that
    fails commits nothing. *)
From S2P Require Import Prelude Ids RateLimit Passwords TokenFormat Scope Pkce Jose Keystore Domain Accounts Notification Database Repository Handlers TokenService AccountRepository Pagination AdminRepository AdminApi Registration Login RepositorySpec AccountSpec ClientAuth Consent Authorization Profile Admin Integrity AccountServer AccountIntegrity.

Open Scope Z_scope.

(** ** The change of a user *)

(** The user after a patch, at the time of the patch. *)
Definition patched (user : User) (patch : UserPatch) (now updated : DateTime) : User :=
  User_set user updated (patch_time (patch_locked patch) (User_locked_at user) now)
    (patch_time (patch_deactivated patch) (User_deactivated_at user) now)
    (default (User_can_request_admin user) (patch_can_request_admin patch))
    (default (User_display_name user) (patch_display_name patch))
    (default (User_avatar_url user) (patch_avatar_url patch))
    (default (User_preferred_locale user) (patch_preferred_locale patch)).

Lemma on_users_same db f : f (db_users db) = db_users db → on_users f db = db.
Proof. destruct db. unfold on_users. simpl. by intros ->. Qed.

Lemma alter_fixed {R} (f : R → R) k (m : gmap Z R) r : m !! k = Some r → f r = r → alter f k m = m.
Proof.
  intros Hk Hf. apply map_eq. intros j. rewrite lookup_alter. case_decide; [subst|done].
  rewrite Hk. simpl. by rewrite Hf.
Qed.

Section users.
Context {DX : DbExternals} {XX : AccountExternals}.

(** A patch of a stored user writes the user it gives back: where nothing changes, that is the
    row that was there. *)
Lemma user_patch_inv user row patch st u st' :
  user = User_build (User_id user) row → db_users (st_db st) !! User_id user = Some row →
  user_patch user patch st = (Ok u, st') →
  ∃ now updated, u = patched user patch now updated ∧ User_id u = User_id user ∧
    ran st st' (on_users (alter (UserRow_set u) (User_id user))).
Proof.
  intros Hb Hrow H. unfold user_patch in H.
  assert (∀ st1, same st st1 → u = patched user patch (User_updated_at user) (User_updated_at user) →
    patched user patch (User_updated_at user) (User_updated_at user) = user →
    ran st st1 (on_users (alter (UserRow_set u) (User_id user)))) as Hid.
  { intros st1 [D C] -> Hu. rewrite Hu. split; [|done]. rewrite on_users_same; [done|].
    eapply alter_fixed; [done|]. rewrite Hb. by destruct row. }
  destruct (UserPatch_is_empty patch) eqn:He.
  - injection H as <- <-. unfold UserPatch_is_empty in He.
    repeat apply andb_true_iff in He as [He ?].
    repeat match goal with H : bool_decide _ = true |- _ => apply bool_decide_eq_true in H end.
    assert (patched user patch (User_updated_at user) (User_updated_at user) = user) as Hu.
    { unfold patched. destruct patch; simpl in *; subst. simpl. by rewrite Hb. }
    exists (User_updated_at user), (User_updated_at user). split; [done|]. split; [done|].
    by apply Hid.
  - apply bind_Ok_inv in H as (now & st1 & [-> S1]%clock_now_inv & H). simpl in H.
    match type of H with (if ?c then _ else _) _ = _ => destruct c eqn:Hc end.
    + account_inv. same_norm. exists (st_clock st 0%nat), (st_clock st 0%nat). done.
    + injection H as <- <-. repeat apply orb_false_iff in Hc as [Hc ?].
      repeat match goal with H : negb _ = false |- _ => apply negb_false_iff, bool_decide_eq_true in H end.
      exists (st_clock st 0%nat), (User_updated_at user). split; [done|]. split; [done|].
      assert (UserRow_set (User_set user (User_updated_at user)
        (patch_time (patch_locked patch) (User_locked_at user) (st_clock st 0%nat))
        (patch_time (patch_deactivated patch) (User_deactivated_at user) (st_clock st 0%nat))
        (default (User_can_request_admin user) (patch_can_request_admin patch))
        (default (User_display_name user) (patch_display_name patch))
        (default (User_avatar_url user) (patch_avatar_url patch))
        (default (User_preferred_locale user) (patch_preferred_locale patch))) row = row) as Hr.
      { destruct patch; simpl in *; subst. simpl in *.
        repeat match goal with H : patch_time _ _ _ = _ |- _ => rewrite H; clear H end.
        rewrite Hb. by destruct row. }
      destruct S1 as [D C]. split; [|done]. rewrite on_users_same; [done|]. by eapply alter_fixed.
Qed.

(** ** Active administrators *)

Lemma matches_active (r : UserRow) : user_matches active_admins_only r = true ↔ active_admin r.
Proof.
  unfold user_matches, active_admin. simpl. rewrite !andb_true_r, !andb_true_iff, !bool_decide_eq_true.
  tauto.
Qed.

(** Of two active administrators, one is another than a given user. *)
Lemma another_admin (m : gmap Z UserRow) k :
  (1 < length (filter (λ kr, user_matches active_admins_only kr.2 = true) (map_to_list m)))%nat →
  ∃ j, j ≠ k ∧ active_in m j.
Proof.
  set (l := filter _ _). intros Hl.
  assert (NoDup l) as Hnd by (apply NoDup_filter, NoDup_map_to_list).
  assert (∀ a, a ∈ l → active_in m a.1 ∧ m !! a.1 = Some a.2) as Hin.
  { intros [i r] [Hm Hi]%list_elem_of_filter. apply elem_of_map_to_list in Hi.
    split; [|done]. exists r. split; [done|]. by apply matches_active. }
  destruct l as [|a [|b l]]; simpl in Hl; [lia..|].
  destruct (Hin a) as [Ha Ra]; [left|]. destruct (Hin b) as [Hb Rb]; [right; left|].
  destruct (decide (a.1 = k)) as [Ea|Ea]; [|by exists a.1].
  exists b.1. split; [|done]. intros Eb. apply NoDup_cons in Hnd as [Hnd _]. apply Hnd.
  assert (a = b) as ->; [|left]. destruct a, b. simpl in *. subst. congruence.
Qed.

Lemma refuse_last_admin_inv {E} (f : DatabaseError → E) last st u st' :
  refuse_last_admin f last st = (Ok u, st') →
  same st st' ∧ ∀ k, ∃ j, j ≠ k ∧ active_in (db_users (st_db st)) j.
Proof.
  unfold refuse_last_admin, user_count. intros H. run_inv.
  unfold user_acquire_bootstrap_admin_lock, advisory_lock in Hm. injection Hm as _ <-.
  apply require_inv in H as [Hc ->]. account_inv.
  apply Nat.ltb_lt in Hc. split; [done|]. intros k. by apply another_admin.
Qed.

(** A patch that does not take away an active administrator, or one of several, leaves one. *)
Lemma patch_leaves_admin m id user row patch now updated :
  m !! id = Some row → user = User_build id row →
  (removes_active_admin user patch = true → ∃ j, j ≠ id ∧ active_in m j) →
  (∃ k, active_in m k) →
  ∃ k, active_in (alter (UserRow_set (patched user (UserPatch_from_admin patch) now updated)) id m) k.
Proof.
  intros Hrow -> Hrem [k Hk].
  assert (∀ j, j ≠ id → active_in m j →
    active_in (alter (UserRow_set (patched (User_build id row) (UserPatch_from_admin patch) now updated))
                 id m) j) as Hother.
  { intros j Hj (r & Hr & Ha). exists r. split; [|done]. by rewrite lookup_alter_ne. }
  destruct (removes_active_admin (User_build id row) patch) eqn:E.
  { destruct Hrem as (j & Hj & Ha); [done|]. eauto. }
  destruct (decide (k = id)) as [->|Hne]; [|eauto].
  destruct Hk as (r & Hr & Hadm & Hl & Hd). assert (r = row) as -> by congruence.
  exists id. eexists. rewrite lookup_alter_eq, Hrow. split; [done|].
  unfold removes_active_admin, User_is_valid in E. simpl in E. rewrite Hadm, Hl, Hd in E. simpl in E.
  apply orb_false_iff in E as [[E1 E2]%orb_false_iff E3].
  apply bool_decide_eq_false in E1, E2, E3. unfold active_admin. simpl. rewrite Hadm, Hl, Hd.
  destruct (admin_patch_can_request_admin patch) as [[]|], (admin_patch_locked patch) as [[]|],
    (admin_patch_deactivated patch) as [[]|]; try congruence; done.
Qed.
End users.

(** From a governed database with an active administrator, one always is there. *)
Lemma governed_active m m' : governed m m' → (∃ k, active_in m k) → ∃ k, active_in m' k.
Proof.
  induction 1 as [m|m m1 m2 [[E|[Hn _]]|[_ Ha]] _ IH]; [done|..|by auto].
  - intros [k Hk]. apply IH. exists k. by apply E.
  - intros [k (r & Hr & Hadm & _)]. destruct (Hn k). by exists r.
Qed.

(** ** The caller *)

(** Whoever gets past [extract_call_context] bears a token of a live session with the administrative
    scope, of a user that is an active administrator; the owner of a personal session is live too,
    and an administrator. *)
Record admin_caller {TX : TokenExternals} {DX : DbExternals} (db : DB) (now : DateTime) (token : string)
    (ctx : CallContext) (user : User) : Prop := {
  ac_user : ctx_user ctx = Some user;
  ac_row : ∃ row, db_users db !! User_id user = Some row ∧ user = User_build (User_id user) row ∧
             active_admin row;
  ac_scope : has_admin_scope (CallerSession_scope (ctx_session ctx)) = true;
  ac_user_id : CallerSession_user_id (ctx_session ctx) = Some (User_id user);
  ac_session :
    match ctx_session ctx with
    | Caller_OAuth2Session session =>
        TokenType_check token = Ok TokenType_AccessToken ∧
        ∃ tid trow srow,
          find_first (has_access_token token) (db_access_tokens db) = Some (tid, trow) ∧
          AccessToken_is_valid (AccessToken_from tid trow) now = true ∧
          AccessTokenRow_oauth2_session_id trow = Session_id session ∧
          db_sessions db !! Session_id session = Some srow ∧
          Session_try_from (Session_id session) srow = Ok session ∧
          Session_is_valid session = true
    | Caller_PersonalSession session =>
        TokenType_check token = Ok TokenType_PersonalAccessToken ∧
        (∃ tid trow srow,
          find_first (has_token_sha256 (sha256_digest token)) (db_personal_tokens db)
            = Some (tid, trow) ∧
          PersonalAccessToken_is_valid (PersonalAccessToken_from tid trow) now = true ∧
          PersonalTokenRow_personal_session_id trow = PersonalSession_id session ∧
          db_personal_sessions db !! PersonalSession_id session = Some srow ∧
          PersonalSession_try_from (PersonalSession_id session) srow = Ok session ∧
          PersonalSessionState_is_valid (PersonalSession_state session) = true) ∧
        (∀ owner, PersonalSession_owner session = Owner_User owner → active_in (db_users db) owner)
    end;
}.

Section caller.
Context {TX : TokenExternals} {DX : DbExternals}.

Lemma load_user_inv id st u st' :
  load_user id st = (Ok u, st') →
  st' = st ∧ ∃ row, db_users (st_db st) !! id = Some row ∧ u = User_build id row.
Proof.
  unfold load_user. intros H. run_inv. apply user_lookup_inv in Hm as [-> Hu].
  subst a. apply fmap_Some in Ho as (row & Hr & ->). eauto.
Qed.

Lemma User_valid_row id row :
  User_is_valid (User_build id row) = true ↔
  UserRow_locked_at row = None ∧ UserRow_deactivated_at row = None.
Proof. unfold User_is_valid. simpl. by rewrite andb_true_iff, !bool_decide_eq_true. Qed.

(** A lookup that must find something. *)
Lemma must_find_inv {A B E} (f : DatabaseError → E) (e : E) (m : M St DatabaseError (option A))
    (k : A → M St E B) st b st' :
  (o ← try_with f m; a ← ok_or e o; k a) st = (Ok b, st') →
  ∃ a st1, m st = (Ok (Some a), st1) ∧ k a st1 = (Ok b, st').
Proof.
  intros H. apply bind_Ok_inv in H as (o & st1 & H1%try_with_Ok_inv & H).
  apply bind_Ok_inv in H as (a & st2 & [-> ->]%ok_or_Ok_inv & H). eauto.
Qed.

Lemma access_token_caller_inv token ip st s st' :
  access_token_caller token ip st = (Ok s, st') →
  same st st' ∧ ∃ session tid trow srow, s = Caller_OAuth2Session session ∧
    find_first (has_access_token token) (db_access_tokens (st_db st)) = Some (tid, trow) ∧
    AccessToken_is_valid (AccessToken_from tid trow) (st_clock st 0%nat) = true ∧
    AccessTokenRow_oauth2_session_id trow = Session_id session ∧
    db_sessions (st_db st) !! Session_id session = Some srow ∧
    Session_try_from (Session_id session) srow = Ok session ∧ Session_is_valid session = true.
Proof.
  unfold access_token_caller. intros H.
  apply must_find_inv in H as (tok & st1 & Ht & H).
  apply access_token_find_inv in Ht as [-> (tid & trow & Hfind & ->)].
  apply must_find_inv in H as (session & st1 & Hs & H).
  apply session_lookup_inv in Hs as [-> (srow & Hrow & Hdec)].
  destruct (Session_try_from_inv _ _ _ Hdec) as (Eid & _). simpl in Eid.
  apply bind_Ok_inv in H as (? & st1 & [Hv ->]%require_inv & H).
  apply bind_Ok_inv in H as (now & st1 & [-> S1]%clock_now_inv & H).
  apply bind_Ok_inv in H as (? & st2 & [Ha ->]%require_inv & H).
  apply bind_Ok_inv in H as (? & st3 & S2%record_activity_inv & H). injection H as <- <-.
  split; [by eapply same_trans|]. exists session, tid, trow, srow. rewrite Eid. done.
Qed.

Lemma personal_token_caller_inv token ip st s st' :
  personal_token_caller token ip st = (Ok s, st') →
  same st st' ∧ ∃ session tid trow srow, s = Caller_PersonalSession session ∧
    find_first (has_token_sha256 (sha256_digest token)) (db_personal_tokens (st_db st))
      = Some (tid, trow) ∧
    PersonalAccessToken_is_valid (PersonalAccessToken_from tid trow) (st_clock st 0%nat) = true ∧
    PersonalTokenRow_personal_session_id trow = PersonalSession_id session ∧
    db_personal_sessions (st_db st) !! PersonalSession_id session = Some srow ∧
    PersonalSession_try_from (PersonalSession_id session) srow = Ok session ∧
    PersonalSessionState_is_valid (PersonalSession_state session) = true ∧
    (∀ owner, PersonalSession_owner session = Owner_User owner →
       ∃ row, db_users (st_db st) !! owner = Some row ∧
         UserRow_locked_at row = None ∧ UserRow_deactivated_at row = None).
Proof.
  unfold personal_token_caller. intros H.
  apply must_find_inv in H as (tok & st1 & Ht & H).
  apply personal_token_find_inv in Ht as [-> (tid & trow & Hfind & ->)].
  apply must_find_inv in H as (session & st1 & Hs & H).
  apply personal_session_lookup_inv in Hs as [-> (srow & Hrow & Hdec)].
  destruct (PersonalSession_try_from_inv _ _ _ Hdec) as (Eid & _). simpl in Eid.
  apply bind_Ok_inv in H as (? & st1 & [Hv ->]%require_inv & H).
  apply bind_Ok_inv in H as (now & st1 & [-> S1]%clock_now_inv & H).
  apply bind_Ok_inv in H as (? & st2 & [Ha ->]%require_inv & H).
  apply bind_Ok_inv in H as (? & st2 & Ho & H).
  apply bind_Ok_inv in H as (? & st3 & S2%record_activity_inv & H). injection H as <- <-.
  assert (st2 = st1 ∧ ∀ owner, PersonalSession_owner session = Owner_User owner →
    ∃ row, db_users (st_db st1) !! owner = Some row ∧
      UserRow_locked_at row = None ∧ UserRow_deactivated_at row = None) as [-> Hown].
  { destruct (PersonalSession_owner session) as [o|c]; [|by injection Ho as _ <-].
    apply bind_Ok_inv in Ho as (u & st4 & [-> (row & Hu & ->)]%load_user_inv & Ho).
    apply require_inv in Ho as [Hval ->]. apply User_valid_row in Hval.
    split; [done|]. intros owner [= <-]. eauto. }
  destruct S1 as [D C]. rewrite D in Hown.
  split; [by eapply same_trans; [split|]|]. exists session, tid, trow, srow. rewrite Eid. done.
Qed.

Lemma call_context_inv req st ctx st' :
  extract_call_context req st = (Ok ctx, st') →
  same st st' ∧ ∃ token user, caller_bearer (http_authorization req) = Ok token ∧
    admin_caller (st_db st) (st_clock st 0%nat) token ctx user.
Proof.
  unfold extract_call_context. intros H.
  apply bind_Ok_inv in H as (token & st1 & Hb & H). unfold of_result in Hb. injection Hb as Hb <-.
  apply bind_Ok_inv in H as (ty & st1 & [Hty ->]%of_result_map_err_inv & H).
  apply bind_Ok_inv in H as (s & st1 & Hs & H).
  apply bind_Ok_inv in H as (ou & st2 & Hu & H).
  apply bind_Ok_inv in H as (? & st3 & [Hscope ->]%require_inv & H).
  apply bind_Ok_inv in H as (? & st3 & [Hadm ->]%require_inv & H).
  apply bind_Ok_inv in H as (? & st3 & [Hval ->]%require_inv & H).
  apply bind_Ok_inv in H as (? & st3 & Hown & H). injection H as <- <-.
  destruct ou as [user|]; [|done]. simpl in Hadm.
  unfold caller_user in Hu. destruct (CallerSession_user_id s) as [uid|] eqn:Huid; [|done].
  apply bind_Ok_inv in Hu as (u & st4 & [-> (row & Hrow & Eu)]%load_user_inv & Hu).
  apply bind_Ok_inv in Hu as (? & st4 & Hva & Hu). injection Hu as -> <-.
  assert (st4 = st1) as -> by (by destruct s; apply require_inv in Hva as [_ ->]).
  assert (User_id user = uid) as Hid by (by rewrite Eu).
  assert (active_admin row) as Hact.
  { rewrite Eu in Hval, Hadm. apply User_valid_row in Hval. done. }
  assert (st3 = st1 ∧ ∀ p owner, s = Caller_PersonalSession p → PersonalSession_owner p = Owner_User owner →
    admin_in (db_users (st_db st1)) owner) as [-> Hao].
  { destruct s as [|p]; simpl in Hown; [by injection Hown as _ <-|].
    destruct (PersonalSession_owner p) as [o|c] eqn:Ep; [|injection Hown as _ <-; split; [done|]; intros ? ? [= <-]; by rewrite Ep].
    case_bool_decide as Ho.
    - injection Hown as _ <-. split; [done|]. intros ? ? [= <-]. rewrite Ep. intros [= <-].
      exists row. rewrite <-Ho, Hid. by destruct Hact.
    - apply bind_Ok_inv in Hown as (w & st5 & [-> (wrow & Hw & ->)]%load_user_inv & Hown).
      apply require_inv in Hown as [Hwa ->]. split; [done|]. intros ? ? [= <-]. rewrite Ep.
      intros [= <-]. by exists wrow. }
  assert (same st st1) as Hsame.
  { destruct ty; [by apply access_token_caller_inv in Hs as [? _]|done
                 |by apply personal_token_caller_inv in Hs as [? _]]. }
  split; [done|]. exists token, user. split; [done|].
  destruct Hsame as [D C]. rewrite D in Hrow, Hao.
  split; simpl; [done|by exists row; rewrite Hid|done|by rewrite Huid, Hid|].
  destruct ty; [| |].
  - apply access_token_caller_inv in Hs as (_ & session & tid & trow & srow & -> & ?). eauto 10.
  - done.
  - apply personal_token_caller_inv in Hs as (_ & session & tid & trow & srow & -> & ? & ? & ? & ? & ? & ? & Ho).
    split; [done|]. split; [by eauto 10|]. intros owner Eo.
    destruct (Ho owner Eo) as (wrow & Hw & ? & ?). destruct (Hao _ owner eq_refl Eo) as (w & Hw' & ?).
    exists wrow. split; [done|]. assert (w = wrow) as -> by congruence. done.
Qed.
End caller.

(** ** The repository methods *)

Section repositories.
Context {DX : DbExternals} {XX : AccountExternals} {QX : AdminExternals}.
Context {A : relation (gmap Z UserRow)} {HA : AdminOrder A} (c0 : DB).
Abbreviation I := (Inv_by A c0).

Lemma maintains_record_operation u op ty id d : maintains I (record_admin_operation u op ty id d).
Proof.
  unfold record_admin_operation, add_admin_operation. solve_maintains;
    apply maintains_insert; good_frame.
Qed.
Lemma maintains_finish_bulk f : maintains I (browser_session_finish_bulk f).
Proof.
  unfold browser_session_finish_bulk. solve_maintains. apply maintains_modify_db. intros db Hwf.
  apply good_build; [done|by split_and!|reflexivity|reflexivity| |reflexivity..].
  intros k r Hk. simpl. rewrite map_lookup_imap, Hk. simpl. eexists. split; [done|].
  destruct (browser_session_matches f db k r); [|reflexivity]. red. unfold stays. by split_and!.
Qed.
Lemma maintains_usage_limit o : maintains I (usage_limit_i32 o).
Proof. unfold usage_limit_i32. solve_maintains. Qed.
Lemma maintains_token_find t : maintains I (user_registration_token_find_by_token t).
Proof. unfold user_registration_token_find_by_token. solve_maintains. Qed.
Lemma maintains_update_token t f : maintains I (update_registration_token t f).
Proof. unfold update_registration_token, update_one. solve_maintains. apply maintains_update. good_frame. Qed.
#[local] Hint Resolve maintains_usage_limit maintains_update_token : maintains.
Lemma maintains_token_add t l e : maintains I (user_registration_token_add t l e).
Proof. unfold user_registration_token_add. solve_maintains. apply maintains_insert. good_frame. Qed.
Lemma maintains_token_revoke t : maintains I (user_registration_token_revoke t).
Proof. unfold user_registration_token_revoke. solve_maintains. Qed.
Lemma maintains_token_unrevoke t : maintains I (user_registration_token_unrevoke t).
Proof. unfold user_registration_token_unrevoke. solve_maintains. Qed.
Lemma maintains_token_set_expiry t e : maintains I (user_registration_token_set_expiry t e).
Proof. unfold user_registration_token_set_expiry. solve_maintains. Qed.
Lemma maintains_token_set_limit t l : maintains I (user_registration_token_set_usage_limit t l).
Proof. unfold user_registration_token_set_usage_limit. solve_maintains. Qed.
Lemma maintains_email_patch e p : maintains I (user_email_patch e p).
Proof.
  unfold user_email_patch, patched_confirmed_at, update_one. solve_maintains.
  all: first [apply maintains_modify_db | apply maintains_update]; good_frame.
Qed.
Lemma maintains_user_add username : maintains I (user_add username).
Proof.
  unfold user_add. solve_maintains. intros st HI. unfold insert_user.
  destruct (col_taken _ _); [done|]. destruct (new_row_violation _ _ _ _) eqn:Hv; [done|].
  apply new_row_violation_None in Hv as [Hv _].
  match goal with |- I (_, on_db ?f _).2 => apply (Inv_good c0 (f (st_db st)) st HI) end.
  apply good_build; [apply HI|by split_and!| | |reflexivity..]; simpl.
  - by apply rows_insert; [apply _|].
  - apply admins_insert; [|done]. intros (r & Hr & _). congruence.
Qed.
Lemma maintains_provision {E} (err : E) u l n : maintains I (provision_devices err u l n).
Proof. unfold provision_devices. solve_maintains. Qed.
End repositories.

#[export] Hint Resolve maintains_record_operation maintains_finish_bulk maintains_token_find
  maintains_token_add maintains_token_revoke maintains_token_unrevoke maintains_token_set_expiry
  maintains_token_set_limit maintains_email_patch maintains_user_add maintains_provision : maintains.
#[export] Hint Resolve governed_order admins_evolve_order any_admins_order : maintains.

(** ** The handlers that leave administrators alone *)

Section handlers.
Context {TX : TokenExternals} {DX : DbExternals} {LX : LimiterExternals} {XX : AccountExternals}
        {WX : PasswordExternals} {RX : RegistrationExternals} {QX : AdminExternals}.
Context {A : relation (gmap Z UserRow)} {HA : AdminOrder A} (c0 : DB).
Abbreviation I := (Inv_by A c0).

Lemma maintains_repo {B} (m : M St DatabaseError B) : maintains I m → maintains I (repo m).
Proof. apply maintains_try_with. Qed.
Lemma maintains_found {B} (m : M St DatabaseError (option B)) : maintains I m → maintains I (found m).
Proof. intros Hm. unfold found, repo. solve_maintains. Qed.
Lemma maintains_load_user id : maintains I (load_user id).
Proof. unfold load_user. solve_maintains. Qed.
#[local] Hint Resolve maintains_repo maintains_found maintains_load_user : maintains.
Lemma maintains_call_context req : maintains I (call_context req).
Proof.
  unfold call_context, extract_call_context, access_token_caller, personal_token_caller, caller_user,
    check_owner.
  solve_maintains.
Qed.
Lemma maintains_ulid_param req : maintains I (ulid_param req).
Proof. unfold ulid_param. solve_maintains. Qed.
#[local] Hint Resolve maintains_call_context maintains_ulid_param : maintains.
Lemma maintains_token_now t : maintains I (token_now t).
Proof. unfold token_now. solve_maintains. Qed.
#[local] Hint Resolve maintains_token_now : maintains.

Lemma maintains_add_session req body : maintains I (add_session req body).
Proof. unfold add_session, issue_personal_token. solve_maintains. Qed.
Lemma maintains_get_session req : maintains I (get_session req).
Proof. unfold get_session. solve_maintains. Qed.
Lemma maintains_regenerate req body : maintains I (regenerate_session req body).
Proof. unfold regenerate_session, issue_personal_token. solve_maintains. Qed.
Lemma maintains_revoke_personal req : maintains I (revoke_personal_session req).
Proof. unfold revoke_personal_session. solve_maintains. Qed.

Lemma maintains_add_token req body s : maintains I (add_registration_token req body s).
Proof. unfold add_registration_token. solve_maintains. Qed.
Lemma maintains_get_token req : maintains I (get_token req).
Proof. unfold get_token, user_registration_token_lookup. solve_maintains. Qed.
Lemma maintains_list_tokens req page params : maintains I (list_tokens req page params).
Proof.
  unfold list_tokens, paginated_response, user_registration_token_list, user_registration_token_count.
  solve_maintains.
Qed.
Lemma maintains_revoke_token req : maintains I (revoke_registration_token req).
Proof. unfold revoke_registration_token, user_registration_token_lookup. solve_maintains. Qed.
Lemma maintains_unrevoke_token req : maintains I (unrevoke_registration_token req).
Proof. unfold unrevoke_registration_token, user_registration_token_lookup. solve_maintains. Qed.
Lemma maintains_update_token_handler req body : maintains I (update_registration_token_handler req body).
Proof. unfold update_registration_token_handler, user_registration_token_lookup. solve_maintains. Qed.

Lemma maintains_add_user hs req body : maintains I (add_user hs req body).
Proof. unfold add_user, user_exists. solve_maintains. Qed.
Lemma maintains_invite_tokens u l e samples : maintains I (invite_tokens u l e samples).
Proof. induction samples; simpl; solve_maintains. Qed.
#[local] Hint Resolve maintains_invite_tokens : maintains.
Lemma maintains_batch_invite req body sample : maintains I (batch_invite req body sample).
Proof. unfold batch_invite. solve_maintains. Qed.
Lemma maintains_get_user req : maintains I (get_user req).
Proof. unfold get_user. solve_maintains. Qed.
Lemma maintains_get_by_username req u : maintains I (get_by_username req u).
Proof. unfold get_by_username, user_find_by_username. solve_maintains. Qed.
Lemma maintains_list_users req page params : maintains I (list_users req page params).
Proof. unfold list_users, paginated_response, user_list, user_count. solve_maintains. Qed.
Lemma maintains_admin_set_password manager req body : maintains I (Admin.set_password manager req body).
Proof. unfold Admin.set_password, hash_password. solve_maintains. Qed.
Lemma maintains_add_email req body : maintains I (add_email req body).
Proof. unfold add_email, user_email_count, schedule_provision_user_job. solve_maintains. Qed.
Lemma maintains_delete_email req : maintains I (delete_email req).
Proof. unfold delete_email, user_email_lookup, schedule_provision_user_job. solve_maintains. Qed.
Lemma maintains_get_email req : maintains I (get_email req).
Proof. unfold get_email, user_email_lookup. solve_maintains. Qed.
Lemma maintains_list_emails req page params : maintains I (list_emails req page params).
Proof. unfold list_emails, paginated_response, user_email_list, user_email_count. solve_maintains. Qed.
Lemma maintains_update_email req body : maintains I (update_email req body).
Proof.
  unfold update_email, patch_user_email, user_email_lookup, user_email_find_by_email. solve_maintains.
Qed.
Lemma maintains_finish_user_session req : maintains I (finish_user_session req).
Proof. unfold finish_user_session. solve_maintains. Qed.
Lemma maintains_get_user_session req : maintains I (get_user_session req).
Proof. unfold get_user_session. solve_maintains. Qed.
Lemma maintains_finish_oauth2_session req : maintains I (finish_oauth2_session req).
Proof. unfold finish_oauth2_session. solve_maintains. Qed.
Lemma maintains_get_oauth2_session req : maintains I (get_oauth2_session req).
Proof. unfold get_oauth2_session. solve_maintains. Qed.
End handlers.

(** ** The requests that change administrators *)

Lemma commits_always {E B} (m : M St E B) : (∀ st, is_ok (m st).1 = true) → commits_on_success m.
Proof. intros Hm st e st' H. specialize (Hm st). by rewrite H in Hm. Qed.

Lemma governed_overseen c c' :
  (∃ k, active_in (db_users c) k) → evolves_by governed c c' → evolves_by overseen c c'.
Proof. intros Ha. apply evolves_by_mono. intros Hg. right. split; [done|]. by eapply governed_active. Qed.

(** A request that fails commits nothing; one that succeeds keeps administrators as they are, or
    began with an active one. *)
Lemma overseen_good {E B} (m : M St E B) st :
  st_db st = st_committed st → wf (st_committed st) → commits_on_success m →
  (∀ b st', m st = (Ok b, st') →
     Inv (st_committed st) st' ∨
     ((∃ k, active_in (db_users (st_committed st)) k) ∧ Inv_by governed (st_committed st) st')) →
  wf (st_committed (m st).2) ∧ evolves_by overseen (st_committed st) (st_committed (m st).2).
Proof.
  intros Hb Hwf Hc Hok. destruct (m st) as [[b|e] st'] eqn:H; simpl.
  - destruct (Hok _ _ eq_refl) as [(_ & Hw & He & _)|[Ha (_ & Hw & He & _)]]; (split; [done|]).
    + eapply evolves_by_mono, He. by left.
    + by apply governed_overseen.
  - rewrite (Hc _ _ _ H). split; [done|]. eapply (evolves_by_mono admins_evolve); [by left|reflexivity].
Qed.

Lemma commits_good {E B} (m : M St E B) st :
  st_db st = st_committed st → wf (st_committed st) → commits_on_success m →
  (∀ b st', m st = (Ok b, st') → Inv (st_committed st) st') →
  good (st_committed st) (st_committed (m st).2).
Proof.
  intros Hb Hwf Hc Hok. destruct (m st) as [[b|e] st'] eqn:H; simpl.
  - by destruct (Hok _ _ eq_refl) as (_ & ? & ? & _).
  - rewrite (Hc _ _ _ H). by split.
Qed.

Lemma patched_good (A : relation (gmap Z UserRow)) u id db :
  wf db → A (db_users db) (alter (UserRow_set u) id (db_users db)) →
  wf (on_users (alter (UserRow_set u) id) db) ∧ evolves_by A db (on_users (alter (UserRow_set u) id) db).
Proof.
  intros Hwf HA. apply good_build_by; [done|by split_and!| |done|reflexivity..].
  apply (rows_alter user_evolves); [apply _|]. by intros [].
Qed.

(** The row of a user that is patched. *)
Lemma Inv_patched (A : relation (gmap Z UserRow)) `{!AdminOrder A} c0 u id st st' :
  Inv_by A c0 st → A (db_users (st_db st)) (alter (UserRow_set u) id (db_users (st_db st))) →
  ran st st' (on_users (alter (UserRow_set u) id)) → Inv_by A c0 st'.
Proof.
  intros HI HA' [D C]. destruct (patched_good A u id (st_db st)) as [Hw He]; [apply HI|done|].
  rewrite <-D in Hw, He. destruct (Inv_good_by c0 _ _ HI Hw He) as (? & ? & ? & ?).
  unfold Inv_by. by rewrite C.
Qed.

Section users.
Context {TX : TokenExternals} {DX : DbExternals} {LX : LimiterExternals} {XX : AccountExternals}
        {WX : PasswordExternals} {RX : RegistrationExternals} {QX : AdminExternals}.

Lemma maintains_patch_effects A `{!AdminOrder A} c0 admin user updated patch erase :
  maintains (Inv_by A c0) (patch_user_effects admin user updated patch erase).
Proof.
  unfold patch_user_effects, sync_display_name_patch, schedule_deactivate_user_job,
    schedule_provision_user_job.
  solve_maintains.
Qed.
Lemma push_admin_grant_same {E} user st r st' :
  push_admin_grant user st = (r, st') → r = (Ok tt : result () E) ∧ same st st'.
Proof.
  unfold push_admin_grant. destruct (User_can_request_admin user); intros [= <- <-]; [|done].
  split; [done|]. set (c := Hs_ProvisionUser _).
  destruct (homeserver_call tt c st) as [r st'] eqn:H. simpl.
  by eapply same_keeps in H; [|auto with keeps..].
Qed.

Lemma admin_load_user_inv id st u st' :
  admin_load_user id st = (Ok u, st') →
  st' = st ∧ ∃ row, db_users (st_db st) !! id = Some row ∧ u = User_build id row.
Proof.
  unfold admin_load_user. intros H. run_inv. apply user_lookup_inv in Hm as [-> Hu].
  subst a. apply fmap_Some in Ho as (row & Hr & ->). eauto.
Qed.

Lemma patch_user_maintains c0 admin id patch erase st u st' :
  Inv_by governed c0 st → (∃ k, active_in (db_users (st_db st)) k) →
  patch_user admin id patch erase st = (Ok u, st') → Inv_by governed c0 st'.
Proof.
  intros HI Ha H. unfold patch_user in H.
  apply bind_Ok_inv in H as (? & st1 & Hv & H). unfold of_result in Hv. injection Hv as _ <-.
  apply bind_Ok_inv in H as (user0 & st1 & [-> _]%admin_load_user_inv & H).
  destruct (AdminUserPatch_is_empty patch); [by injection H as _ <-|].
  apply bind_Ok_inv in H as (? & st0 & Hl%try_with_Ok_inv & H).
  assert (same st st0) as [D0 C0] by (unfold user_acquire_lock_for_sync, advisory_lock in Hl; by injection Hl as _ <-).
  assert (Inv_by governed c0 st0) as HI0 by (unfold Inv_by; by rewrite D0, C0).
  rewrite <-D0 in Ha. clear HI Hl D0 C0.
  apply bind_Ok_inv in H as (user & st1 & [-> (row & Hrow & Eu)]%admin_load_user_inv & H).
  apply bind_Ok_inv in H as (? & st1 & Hr & H).
  assert (same st0 st1 ∧ (removes_active_admin user patch = true →
            ∃ j, j ≠ id ∧ active_in (db_users (st_db st0)) j)) as [[D1 C1] Hrem].
  { destruct (removes_active_admin user patch); [|by injection Hr as _ <-].
    apply refuse_last_admin_inv in Hr as [S Hj]. eauto. }
  apply bind_Ok_inv in H as (updated & st2 & Hp%try_with_Ok_inv & H).
  apply (user_patch_inv _ row) in Hp as (now & t & -> & _ & D2 & C2); [|by subst..|by rewrite D1; subst].
  apply bind_Ok_inv in H as (? & st3 & He & H). injection H as _ <-.
  eapply maintains_run; [apply maintains_patch_effects; apply _| |exact He].
  eapply (Inv_patched governed); [exact HI0| |by split; [rewrite D2, D1|rewrite C2]].
  apply rtc_once. right. split; [done|]. subst user. by eapply patch_leaves_admin.
Qed.

Lemma keeps_committed_context req : keeps st_committed (call_context req).
Proof.
  unfold call_context, extract_call_context, access_token_caller, personal_token_caller, caller_user,
    check_owner, load_user, access_token_find_by_token, oauth2_session_lookup,
    personal_token_find_by_token, personal_session_lookup, user_lookup, try_into.
  solve_keeps.
Qed.
Lemma keeps_committed_ulid req : keeps st_committed (ulid_param req).
Proof. unfold ulid_param. solve_keeps. Qed.
Lemma keeps_committed_operation u op ty id d : keeps st_committed (record_admin_operation u op ty id d).
Proof. unfold record_admin_operation, add_admin_operation. solve_keeps. Qed.
Lemma keeps_committed_refuse {E} (f : DatabaseError → E) last : keeps st_committed (refuse_last_admin f last).
Proof. unfold refuse_last_admin, user_acquire_bootstrap_admin_lock, user_count. solve_keeps. Qed.
#[local] Hint Resolve keeps_committed_context keeps_committed_ulid keeps_committed_operation
  keeps_committed_refuse keeps_committed_patch keeps_committed_lookup_user : keeps.
Lemma keeps_committed_patch_user admin id patch erase :
  keeps st_committed (patch_user admin id patch erase).
Proof.
  unfold patch_user, admin_load_user, patch_user_effects, sync_display_name_patch,
    schedule_deactivate_user_job, schedule_provision_user_job, user_acquire_lock_for_sync.
  solve_keeps.
Qed.
#[local] Hint Resolve keeps_committed_patch_user : keeps.

(** After the caller is known, it is an active administrator. *)
Lemma context_active req st ctx st' :
  call_context req st = (Ok ctx, st') →
  same st st' ∧ ∃ k, active_in (db_users (st_db st)) k.
Proof.
  intros H%try_with_Ok_inv. apply call_context_inv in H as [S (token & user & _ & Hc)].
  split; [done|]. destruct (ac_row _ _ _ _ _ Hc) as (row & ? & _ & ?). exists (User_id user), row. done.
Qed.

Lemma update_user_good req body st :
  st_db st = st_committed st → wf (st_committed st) →
  wf (st_committed (update_user req body st).2) ∧
  evolves_by overseen (st_committed st) (st_committed (update_user req body st).2).
Proof.
  intros Hb Hwf. apply overseen_good; [done..| |].
  - unfold update_user. do 4 (apply commits_bind; [solve [solve_keeps]|intros ?]).
    apply commits_always. intros st0. unfold mbind, M_bind. simpl.
    destruct (bool_decide _); [|done]. unfold push_admin_grant. by destruct (User_can_request_admin _).
  - intros r st' H. right. unfold update_user in H.
    apply bind_Ok_inv in H as (ctx & st1 & [[D C] Ha]%context_active & H).
    apply bind_Ok_inv in H as (id & st2 & [_ ->]%ok_or_Ok_inv & H).
    apply bind_Ok_inv in H as (params & st2 & [_ ->]%ok_or_Ok_inv & H).
    apply bind_Ok_inv in H as (user & st2 & Hp%try_with_Ok_inv & H).
    apply (patch_user_maintains (st_committed st)) in Hp; [| |by rewrite D].
    + split; [by rewrite <-Hb|].
      apply bind_Ok_inv in H as (? & st3 & Hs & H).
      pose proof (maintains_run _ _ _ _ _ (maintains_save _) Hp Hs) as HI3.
      apply bind_Ok_inv in H as (? & st4 & Hg & H). injection H as _ <-.
      case_bool_decide; [|by injection Hg as _ <-].
      apply push_admin_grant_same in Hg as [_ [D3 C3]]. unfold Inv_by. by rewrite D3, C3.
    + unfold Inv_by. rewrite D, C, Hb. done.
Qed.

(** The changes of [user_lock] and [user_deactivate]. *)
Definition lock_only : AdminUserPatch :=
  {| admin_patch_display_name := None; admin_patch_avatar_url := None;
     admin_patch_preferred_locale := None; admin_patch_can_request_admin := None;
     admin_patch_locked := Some true; admin_patch_deactivated := None |}.
Definition deactivate_only : AdminUserPatch :=
  {| admin_patch_display_name := None; admin_patch_avatar_url := None;
     admin_patch_preferred_locale := None; admin_patch_can_request_admin := None;
     admin_patch_locked := None; admin_patch_deactivated := Some true |}.

Lemma user_lock_inv id row st u st' :
  db_users (st_db st) !! id = Some row → user_lock (User_build id row) st = (Ok u, st') →
  same st st' ∨ ∃ now t,
    ran st st' (on_users (alter (UserRow_set (patched (User_build id row)
                                   (UserPatch_from_admin lock_only) now t)) id)).
Proof.
  intros Hrow. unfold user_lock. case_bool_decide as Hs; [intros [= _ <-]; by left|intros H].
  apply (user_patch_inv _ row) in H as (now & t & -> & _ & R); [|done..]. right. by exists now, t.
Qed.
Lemma user_deactivate_inv id row st u st' :
  db_users (st_db st) !! id = Some row → user_deactivate (User_build id row) st = (Ok u, st') →
  User_id u = id ∧ (same st st' ∨ ∃ now t,
    ran st st' (on_users (alter (UserRow_set (patched (User_build id row)
                                   (UserPatch_from_admin deactivate_only) now t)) id))).
Proof.
  intros Hrow. unfold user_deactivate. case_bool_decide as Hs; [intros [= <- <-]; by split; [|left]|intros H].
  apply (user_patch_inv _ row) in H as (now & t & -> & E & R); [|done..].
  split; [done|]. right. by exists now, t.
Qed.

Lemma found_inv {B} (m : M St DatabaseError (option B)) st b st' :
  found m st = (Ok b, st') → m st = (Ok (Some b), st').
Proof.
  unfold found, repo. intros H. apply bind_Ok_inv in H as (o & st1 & H1%try_with_Ok_inv & H).
  by apply ok_or_Ok_inv in H as [-> ->].
Qed.
Lemma found_user_inv id st u st' :
  found (user_lookup id) st = (Ok u, st') →
  st' = st ∧ ∃ row, db_users (st_db st) !! id = Some row ∧ u = User_build id row.
Proof.
  intros [-> Hu]%found_inv%user_lookup_inv. split; [done|].
  symmetry in Hu. apply fmap_Some in Hu as (row & ? & ->). eauto.
Qed.

Lemma take_risk_action_maintains c0 action id row st r st' :
  Inv_by governed c0 st → (∃ k, active_in (db_users (st_db st)) k) →
  db_users (st_db st) !! id = Some row →
  (locks action = true → User_can_request_admin (User_build id row) = true →
   User_is_valid (User_build id row) = true → ∃ j, j ≠ id ∧ active_in (db_users (st_db st)) j) →
  take_risk_action action (User_build id row) st = (Ok r, st') → Inv_by governed c0 st'.
Proof.
  intros HI Ha Hrow Hrem H. unfold take_risk_action in H. destruct (locks action).
  - apply bind_Ok_inv in H as (u & st1 & Hl%try_with_Ok_inv & H). injection H as _ <-.
    apply user_lock_inv in Hl as [[D C]|(now & t & R)]; [unfold Inv_by; by rewrite D, C| |done].
    eapply (Inv_patched governed); [exact HI| |exact R]. apply rtc_once. right. split; [done|].
    eapply patch_leaves_admin; [done|done| |done]. unfold removes_active_admin. simpl.
    rewrite andb_true_r. intros [Hadm Hv]%andb_true_iff. by apply Hrem.
  - case_bool_decide; [|done].
    apply bind_Ok_inv in H as (n & st1 & Hf & H). injection H as _ <-.
    eapply maintains_run; [|exact HI|exact Hf]. apply maintains_try_with, maintains_finish_bulk.
Qed.

Lemma risk_action_good req body st :
  st_db st = st_committed st → wf (st_committed st) →
  wf (st_committed (risk_action req body st).2) ∧
  evolves_by overseen (st_committed st) (st_committed (risk_action req body st).2).
Proof.
  intros Hb Hwf. apply overseen_good; [done..| |].
  - unfold risk_action, found, repo, take_risk_action, user_lock, browser_session_finish_bulk.
    repeat (apply commits_bind; [solve [solve_keeps]|intros ?]). apply commits_save.
  - intros r st' H. right. unfold risk_action in H.
    apply bind_Ok_inv in H as (ctx & st1 & [[D C] Ha]%context_active & H).
    apply bind_Ok_inv in H as (id & st2 & [_ ->]%ok_or_Ok_inv & H).
    apply bind_Ok_inv in H as (params & st2 & [_ ->]%ok_or_Ok_inv & H).
    apply bind_Ok_inv in H as (user & st2 & [-> (row & Hrow & ->)]%found_user_inv & H).
    apply bind_Ok_inv in H as (? & st2 & Hr & H).
    assert (same st1 st2 ∧ (locks (risk_action_name params) = true →
      User_can_request_admin (User_build id row) = true → User_is_valid (User_build id row) = true →
      ∃ j, j ≠ id ∧ active_in (db_users (st_db st1)) j)) as [[D2 C2] Hrem].
    { destruct (_ && _ && _) eqn:E in Hr.
      - apply refuse_last_admin_inv in Hr as [S Hj]. eauto.
      - injection Hr as _ <-. split; [done|]. intros E1 E2 E3. by rewrite E1, E2, E3 in E. }
    apply bind_Ok_inv in H as (res & st3 & Ht & H).
    split; [by rewrite <-Hb|].
    apply (take_risk_action_maintains (st_committed st)) in Ht.
    + eapply maintains_run; [|exact Ht|exact H]. unfold repo. solve_maintains.
    + unfold Inv_by. rewrite D2, C2, D, C, Hb. done.
    + by rewrite D2, D.
    + by rewrite D2.
    + by rewrite D2.
Qed.

(** ** The account of the user itself *)

Lemma requester_inv current ip st requester st' :
  get_requester current ip st = (Ok requester, st') →
  same st st' ∧ ∀ session, requester_browser_session requester = Some session →
  ∃ id row, db_users (st_db st) !! id = Some row ∧ BrowserSession_user session = User_build id row.
Proof.
  unfold get_requester, load_active_session. intros H.
  apply bind_Ok_inv in H as (o & st1 & Hl & H).
  destruct current as [sid|]; [|by injection Hl as <- <-; injection H as <- <-].
  apply bind_Ok_inv in Hl as (m & st2 & [-> Hm]%browser_session_lookup_inv & Hl).
  injection Hl as <- <-. destruct m as [bs|]; [|by injection H as <- <-].
  destruct Hm as (_ & srow & urow & _ & Hu & ->).
  destruct (BrowserSession_active _); [|by injection H as <- <-].
  apply bind_Ok_inv in H as (? & st2 & S%record_activity_inv & H). injection H as <- <-.
  split; [done|]. intros session [= <-]. by exists (UserSessionRow_user_id srow), urow.
Qed.

(** The write of a user that stays an administrator, and active, or stays none. *)
Lemma admins_patched m id row u :
  m !! id = Some row → User_can_request_admin u = UserRow_can_request_admin row →
  (UserRow_can_request_admin row = true →
   User_locked_at u = UserRow_locked_at row ∧ User_deactivated_at u = UserRow_deactivated_at row) →
  admins_evolve m (alter (UserRow_set u) id m).
Proof.
  intros Hrow Ha Hl. left. intros k. unfold admin_in, active_in, active_admin.
  rewrite lookup_alter. case_decide as Hk; [subst k|done]. rewrite Hrow. simpl.
  split; (split; intros (r & [= <-] & H); eexists; (split; [done|]); simpl in *; [..]).
  - by rewrite <-Ha.
  - by rewrite Ha.
  - destruct H as (H1 & H2 & H3). rewrite Ha in H1. destruct (Hl H1). split_and!; congruence.
  - destruct H as (H1 & H2 & H3). destruct (Hl H1). split_and!; congruence.
Qed.

Lemma keeps_committed_requester current ip : keeps st_committed (get_requester current ip).
Proof. unfold get_requester, load_active_session, browser_session_lookup. solve_keeps. Qed.
#[local] Hint Resolve keeps_committed_requester : keeps.

Lemma patch_profile_good current ip patch st :
  st_db st = st_committed st → wf (st_committed st) →
  good (st_committed st) (st_committed (patch_profile current ip patch st).2).
Proof.
  intros Hb Hwf. apply commits_good; [done..| |].
  - unfold patch_profile, patch_viewer_profile, user_update_profile, sync_display_name_patch.
    repeat (apply commits_bind; [solve [solve_keeps]|intros ?]). apply commits_save.
  - intros r st' H. unfold patch_profile, patch_viewer_profile in H.
    apply bind_Ok_inv in H as (requester & st1 & [[D C] _]%try_with_Ok_inv%requester_inv & H).
    assert (Inv (st_committed st) st1) as HI by (unfold Inv_by; by rewrite D, C, Hb).
    apply bind_Ok_inv in H as (user & st2 & Hu & H).
    eapply maintains_run; [|  |exact H]; [solve_maintains|].
    apply bind_Ok_inv in Hu as (requesting & st3 & [_ ->]%ok_or_Ok_inv & Hu).
    apply bind_Ok_inv in Hu as (? & st3 & Hv & Hu). unfold of_result in Hv. injection Hv as _ <-.
    apply must_find_inv in Hu as (loaded & st3 & [-> Hl]%user_lookup_inv & Hu).
    symmetry in Hl. apply fmap_Some in Hl as (row & Hrow & ->).
    destruct (UserProfilePatch_is_empty patch); [by injection Hu as _ <-|].
    apply bind_Ok_inv in Hu as (updated & st3 & Hp%try_with_Ok_inv & Hu).
    apply (user_patch_inv _ row) in Hp as (now & t & -> & _ & R); [|done..].
    eapply maintains_run; [| |exact Hu]; [unfold sync_display_name_patch; solve_maintains|].
    eapply (Inv_patched admins_evolve); [exact HI| |exact R]. by eapply admins_patched.
Qed.

Lemma deactivate_maintains A `{!AdminOrder A} c0 id row st u st' :
  Inv_by A c0 st → db_users (st_db st) !! id = Some row →
  (∀ now t, A (db_users (st_db st)) (alter (UserRow_set (patched (User_build id row)
     (UserPatch_from_admin deactivate_only) now t)) id (db_users (st_db st)))) →
  user_deactivate (User_build id row) st = (Ok u, st') → Inv_by A c0 st'.
Proof.
  intros HI Hrow HA' H. apply user_deactivate_inv in H as [_ [[D C]|(now & t & R)]]; [| |done].
  - unfold Inv_by. by rewrite D, C.
  - by eapply (Inv_patched A); [|apply HA'|exact R].
Qed.

Lemma deactivate_user_good current ip config manager password erase st :
  st_db st = st_committed st → wf (st_committed st) →
  wf (st_committed (deactivate_user current ip config manager password erase st).2) ∧
  evolves_by overseen (st_committed st)
    (st_committed (deactivate_user current ip config manager password erase st).2).
Proof.
  intros Hb Hwf. apply overseen_good; [done..| |].
  - unfold deactivate_user, deactivate_current_account, user_deactivate, schedule_deactivate_user_job,
      verify_password_if_needed, user_password_active, try_into.
    do 4 (apply commits_bind; [solve [solve_keeps]|intros ?]). destruct (negb _); [by intros ??? [=]|].
    repeat (apply commits_bind; [solve [solve_keeps]|intros ?]). apply commits_save.
  - intros r st' H. unfold deactivate_user in H.
    apply bind_Ok_inv in H as (requester & st1 & [[D C] Hreq]%try_with_Ok_inv%requester_inv & H).
    unfold deactivate_current_account in H.
    apply bind_Ok_inv in H as (session & st2 & [Hs ->]%ok_or_Ok_inv & H).
    destruct (Hreq _ Hs) as (id & row & Hrow & Eu).
    apply bind_Ok_inv in H as (? & st2 & [_ ->]%require_inv & H).
    apply bind_Ok_inv in H as (ok & st2 & Hv%try_with_Ok_inv & H).
    apply same_keeps in Hv as [D2 C2];
      [|unfold verify_password_if_needed, user_password_active, try_into; solve_keeps..].
    rewrite D in D2. rewrite C in C2. rewrite <-D2 in Hrow.
    assert (∀ A, AdminOrder A → Inv_by A (st_committed st) st2) as HI.
    { intros A HA. unfold Inv_by. by rewrite D2, C2, Hb. }
    destruct ok; simpl in H.
    2: { injection H as _ <-. left. destruct (HI _ admins_evolve_order) as (? & ? & ? & ?). by split_and!. }
    rewrite Eu in H. apply bind_Ok_inv in H as (? & st3 & Hr & H).
    apply bind_Ok_inv in H as (u & st4 & Hd%try_with_Ok_inv & H).
    destruct (User_can_request_admin (User_build id row)) eqn:Ha.
    + right. apply refuse_last_admin_inv in Hr as [[D3 C3] Hj].
      destruct (Hj id) as (j & Hne & Hja). rewrite D2, Hb in Hja. split; [by exists j|].
      eapply maintains_run; [| |exact H]; [unfold schedule_deactivate_user_job; solve_maintains|].
      rewrite <-Hb, <-D2, <-D3 in Hja. rewrite <-D3 in Hrow.
      eapply deactivate_maintains; [apply _| |exact Hrow| |exact Hd].
      { unfold Inv_by. rewrite D3, C3. by apply HI, _. }
      intros now t. apply rtc_once. right. split; [by exists j|]. exists j.
      destruct Hja as (rj & Hrj & ?). exists rj. by rewrite lookup_alter_ne.
    + left. injection Hr as _ <-.
      eapply maintains_run; [| |exact H]; [unfold schedule_deactivate_user_job; solve_maintains|].
      eapply deactivate_maintains; [apply _|by apply HI, _|exact Hrow| |exact Hd].
      intros now t. eapply admins_patched; [exact Hrow|done|]. simpl in Ha. congruence.
Qed.

(** ** Every request *)

Lemma admin_serve_good request st :
  st_db st = st_committed st → wf (st_committed st) →
  wf (st_committed (admin_serve request st).2) ∧
  evolves_by overseen (st_committed st) (st_committed (admin_serve request st).2).
Proof.
  intros Hb Hwf.
  assert (∀ E B (m : M St E B), maintains (Inv (st_committed st)) m →
    wf (st_committed (m st).2) ∧ evolves_by overseen (st_committed st) (st_committed (m st).2)) as HI.
  { intros E B m Hm. destruct (Hm st) as (_ & Hw & He & _).
    - split_and!; try done; by rewrite Hb.
    - split; [done|]. eapply evolves_by_mono, He. by left. }
  destruct request; simpl;
    [..|by apply update_user_good|by apply risk_action_good| | | | | | | | | |]; apply HI.
  - apply maintains_add_session.
  - apply maintains_get_session.
  - apply maintains_regenerate.
  - apply maintains_revoke_personal.
  - apply maintains_add_token.
  - apply maintains_get_token.
  - apply maintains_list_tokens.
  - apply maintains_revoke_token.
  - apply maintains_unrevoke_token.
  - apply maintains_update_token_handler.
  - apply maintains_add_user.
  - apply maintains_batch_invite.
  - apply maintains_get_user.
  - apply maintains_get_by_username.
  - apply maintains_list_users.
  - apply maintains_admin_set_password.
  - apply maintains_add_email.
  - apply maintains_delete_email.
  - apply maintains_get_email.
  - apply maintains_list_emails.
  - apply maintains_update_email.
  - apply maintains_finish_user_session.
  - apply maintains_get_user_session.
  - apply maintains_finish_oauth2_session.
  - apply maintains_get_oauth2_session.
Qed.
End users.
