(* ===== verification/UserJobs.v ===== *)
(** The jobs of users and of their sessions: deactivation and reactivation (crates/tasks/src/user.rs),
    the synchronisation with the homeserver (matrix.rs) and the end of inactive sessions (sessions.rs),
    with the jobs they are queued as (crates/data/src/storage/queue/tasks.rs). *)
From S2P Require Import Prelude Ids RateLimit Scope Pkce Jose Domain Accounts Notification Database Messaging Repository AccountRepository Pagination AdminRepository NotificationRepository Notifications Outbox Integrity AccountIntegrity NotificationIntegrity AdminIntegrity.

Open Scope Z_scope.

Definition REACTIVATE_USER_QUEUE_NAME : string := "reactivate-user".
Definition PROVISION_DEVICE_QUEUE_NAME : string := "provision-device".
Definition DELETE_DEVICE_QUEUE_NAME : string := "delete-device".
Definition EXPIRE_SESSIONS_QUEUE_NAME : string := "expire-inactive-sessions".
Definition EXPIRE_OAUTH_SESSIONS_QUEUE_NAME : string := "expire-inactive-oauth-sessions".
Definition EXPIRE_USER_SESSIONS_QUEUE_NAME : string := "expire-inactive-user-sessions".

(** The times after which inactive sessions end (data/src/site_config.rs). *)
Record SessionExpirationConfig := {
  user_session_inactivity_ttl : option Duration;
  oauth_session_inactivity_ttl : option Duration;
}.

(** [pagination(batch_size)] of the jobs that end inactive sessions *)
Definition expire_pagination (after : option Ulid) (batch_size : Z) : Pagination :=
  match after with
  | Some after => Pagination_after (Pagination_first batch_size) after
  | None => Pagination_first batch_size
  end.
(** [next(page)]: where the next batch begins *)
Definition expire_next {A} (page : Page A) : option Ulid :=
  if has_next_page page then edge_cursor <$> last (edges page) else None.

Definition SESSION_BATCH_SIZE : Z := 100.
Definition INITIAL_DEVICE_SYNC_DELAY : Duration := MINUTES 1.
Definition DEVICE_SYNC_SPACING : Duration := SECONDS 10.
(** The size of the pages of sessions a synchronisation reads. *)
Definition SYNC_PAGE_SIZE : Z := 5000.

(** ** Devices *)

Definition DEVICE_SCOPE_PREFIXES : list string :=
  ["urn:matrix:client:device:"; "urn:matrix:org.matrix.msc2967.client:device:"].
(** [prefixes.iter().find_map(|prefix| s.strip_prefix(prefix))] *)
Definition extract_device_id (token : string) : option string :=
  head (omap (λ prefix, strip_prefix prefix token) DEVICE_SCOPE_PREFIXES).
(** What one session adds. *)
Definition insert_devices (scope : ScopeSet) (devices : gset string) : gset string :=
  foldl (λ devices token, match extract_device_id token with
                          | Some id => {[ id ]} ∪ devices
                          | None => devices
                          end) devices (scope_iter scope).

Section jobs.
Context {DX : DbExternals} {LX : LimiterExternals} {XX : AccountExternals} {CO : CollationExternals}.

(** A request to the homeserver; a failure is retried. *)
Definition hs_call (call : HomeserverCall) : M JobSt JobError () :=
  lift (homeserver_call (JobError_retry Cause_Homeserver) call).

(** [repo.user().lookup(id)], with [.context(message).map_err(JobError::fail)] *)
Definition job_user (message : string) (user_id : Ulid) : M JobSt JobError User :=
  found ← or_retry (user_lookup user_id);
  ok_or (JobError_fail (Cause_Message message)) found.

(** ** The life of a user (user.rs) *)

Definition terminate_all_sessions_for (target : User) : M JobSt JobError () :=
  browser_count ← or_retry (browser_session_finish_bulk (active_sessions_of target));
  oauth_count ← or_retry (oauth2_session_finish_bulk (active_oauth2_sessions_of target));
  actor_count ← or_retry (personal_session_revoke_bulk (active_personal_sessions_acting target));
  owner_count ← or_retry (personal_session_revoke_bulk (active_personal_sessions_owned target));
  mret tt.

(** [UserEmailFilter::new().for_user(user)] *)
Definition emails_of (user : User) : UserEmailFilter :=
  {| email_filter_user := Some (User_id user); email_filter_email := None |}.

Definition deactivate_user_job (user_id : Ulid) (hs_erase : bool) : M JobSt JobError () :=
  _ ← job_repository;
  target ← job_user "target user does not exist" user_id;
  target ← or_retry (user_deactivate target);
  _ ← terminate_all_sessions_for target;
  email_count ← or_retry (user_email_remove_bulk (emails_of target));
  _ ← job_save;
  hs_call (Hs_DeleteUser (User_username target) hs_erase).

(** The wall clock is read for a user that is deactivated; the reading is not used for another. *)
Definition reactivate_user_job (user_id : Ulid) : M JobSt JobError () :=
  _ ← job_repository;
  target ← job_user "target user does not exist" user_id;
  _ ← hs_call (Hs_ReactivateUser (User_username target));
  now ← utc_now;
  _ ← or_retry (user_reactivate now target);
  job_save.

(** ** The homeserver (matrix.rs) *)

Definition provision_request (user : User) (emails : list string)
    (set_display_name set_avatar_url : option string) : ProvisionRequest :=
  let req := ProvisionRequest_set_emails emails
               (ProvisionRequest_new (User_username user) (User_sub user)) in
  let req := match set_display_name with
             | Some name => ProvisionRequest_set_displayname name req | None => req end in
  let req := match set_avatar_url with
             | Some avatar_url => ProvisionRequest_set_avatar_url avatar_url req | None => req end in
  ProvisionRequest_set_admin (User_can_request_admin user) req.

Definition provision_user_job (user_id : Ulid) (set_display_name set_avatar_url : option string)
    : M JobSt JobError () :=
  _ ← job_repository;
  user ← job_user "user not found" user_id;
  _ ← or_retry (user_acquire_lock_for_sync user);
  user ← job_user "user not found" user_id;
  emails ← or_retry (user_email_all user);
  _ ← hs_call (Hs_ProvisionUser
        (provision_request user (UserEmail_email <$> emails) set_display_name set_avatar_url));
  _ ← or_retry (schedule_sync_devices_job (User_id user));
  job_save.

(** The deprecated jobs of one device; the transaction is left to be rolled back. *)
Definition schedule_device_sync (user_id : Ulid) : M JobSt JobError () :=
  _ ← job_repository;
  user ← job_user "user not found" user_id;
  or_retry (schedule_sync_devices_job (User_id user)).
Definition provision_device_job (user_id : Ulid) (_device_id : string) : M JobSt JobError () :=
  schedule_device_sync user_id.
Definition delete_device_job (user_id : Ulid) (_device_id : string) : M JobSt JobError () :=
  schedule_device_sync user_id.

(** The loop over the pages of sessions, of either kind. *)
Fixpoint collect_devices {A} (fuel : nat) (list : Pagination → M St DatabaseError (Page A))
    (scope : A → ScopeSet) (cursor : Pagination) (devices : gset string)
    : M JobSt JobError (gset string) :=
  match fuel with
  | O => raise Job_OutOfFuel
  | S fuel =>
      page ← or_retry (list cursor);
      let devices := foldl (λ devices edge, insert_devices (scope (edge_node edge)) devices)
                       devices (edges page) in
      let cursor := foldl (λ cursor edge, Pagination_after cursor (edge_cursor edge))
                      cursor (edges page) in
      if has_next_page page then collect_devices fuel list scope cursor devices
      else mret devices
  end.

Definition collect_devices_from_oauth2 (user : User) (devices : gset string)
    : M JobSt JobError (gset string) :=
  fuel ← gets (λ js, S (size (db_sessions (st_db (js_st js)))));
  collect_devices fuel (oauth2_session_list (active_oauth2_sessions_of user)) Session_scope
    (Pagination_first SYNC_PAGE_SIZE) devices.

Definition collect_devices_from_personal (user : User) (devices : gset string)
    : M JobSt JobError (gset string) :=
  fuel ← gets (λ js, S (length (personal_join (st_db (js_st js)))));
  collect_devices fuel (personal_session_list (active_personal_sessions_acting user))
    (λ node, PersonalSession_scope node.1) (Pagination_first SYNC_PAGE_SIZE) devices.

Definition sync_devices_job (user_id : Ulid) : M JobSt JobError () :=
  _ ← job_repository;
  user ← job_user "user not found" user_id;
  _ ← or_retry (user_acquire_lock_for_sync user);
  devices ← collect_devices_from_oauth2 user ∅;
  devices ← collect_devices_from_personal user devices;
  _ ← hs_call (Hs_SyncDevices (User_username user) devices);
  job_save.

(** ** Inactive sessions (sessions.rs) *)

Definition schedule_job_now (queue_name : string) (payload : JobPayload) : M JobSt JobError () :=
  or_retry (queue_job_schedule queue_name payload).
Definition schedule_job_later (queue_name : string) (when : DateTime) (payload : JobPayload)
    : M JobSt JobError () :=
  or_retry (queue_job_schedule_later queue_name payload when).
Definition schedule_job_if_present (queue_name : string) (payload : option JobPayload)
    : M JobSt JobError () :=
  match payload with
  | Some payload => schedule_job_now queue_name payload
  | None => mret tt
  end.

Definition enqueue_expiration_children (config : option SessionExpirationConfig) (now : DateTime)
    : M JobSt JobError bool :=
  match config with
  | None => mret false
  | Some config =>
      oauth ← match oauth_session_inactivity_ttl config with
              | Some ttl =>
                  _ ← schedule_job_now EXPIRE_OAUTH_SESSIONS_QUEUE_NAME
                        (Payload_ExpireInactiveOAuthSessions (now - ttl) None);
                  mret true
              | None => mret false
              end;
      user ← match user_session_inactivity_ttl config with
             | Some ttl =>
                 _ ← schedule_job_now EXPIRE_USER_SESSIONS_QUEUE_NAME
                       (Payload_ExpireInactiveUserSessions (now - ttl) None);
                 mret true
             | None => mret oauth
             end;
      mret user
  end.

Definition oauth_inactivity_filter (threshold : DateTime) : OAuth2SessionFilter :=
  {| osf_user := None; osf_any_user := Some true; osf_browser_session := None;
     osf_browser_session_filter := None; osf_device := None; osf_client := None;
     osf_client_kind := Some ClientKind_Dynamic; osf_active := Some true; osf_scope := None;
     osf_last_active_before := Some threshold; osf_last_active_after := None |}.
Definition browser_inactivity_filter (threshold : DateTime) : BrowserSessionFilter :=
  {| bsf_user := None; bsf_active := Some true; bsf_last_active_after := None;
     bsf_last_active_before := Some threshold; bsf_upstream := None |}.

Definition expire_inactive_sessions_job (config : option SessionExpirationConfig)
    : M JobSt JobError () :=
  if bool_decide (config = None) then mret tt
  else
    now ← lift clock_now;
    _ ← job_repository;
    any ← enqueue_expiration_children config now;
    if any : bool then job_save else mret tt.

(** The sessions of a batch end; the devices of each user are synchronised once, later. *)
Fixpoint expire_oauth_edges (seen_users : gset Z) (next_sync_at : DateTime)
    (edges : list (Edge Session)) : M JobSt JobError () :=
  match edges with
  | [] => mret tt
  | edge :: edges =>
      next ← match Session_user_id (edge_node edge) with
             | Some user_id =>
                 if bool_decide (user_id ∈ seen_users) then mret (seen_users, next_sync_at)
                 else
                   _ ← schedule_job_later SYNC_DEVICES_QUEUE_NAME next_sync_at
                         (Payload_SyncDevices user_id);
                   mret ({[ user_id ]} ∪ seen_users, next_sync_at + DEVICE_SYNC_SPACING)
             | None => mret (seen_users, next_sync_at)
             end;
      _ ← or_retry (oauth2_session_finish (edge_node edge));
      expire_oauth_edges next.1 next.2 edges
  end.

Definition expire_inactive_oauth_sessions_job (threshold : DateTime) (after : option Ulid)
    : M JobSt JobError () :=
  _ ← job_repository;
  page ← or_retry (oauth2_session_list (oauth_inactivity_filter threshold)
                     (expire_pagination after SESSION_BATCH_SIZE));
  _ ← schedule_job_if_present EXPIRE_OAUTH_SESSIONS_QUEUE_NAME
        ((λ cursor, Payload_ExpireInactiveOAuthSessions threshold (Some cursor)) <$> expire_next page);
  now ← lift clock_now;
  _ ← expire_oauth_edges ∅ (now + INITIAL_DEVICE_SYNC_DELAY) (edges page);
  job_save.

Definition expire_inactive_user_sessions_job (threshold : DateTime) (after : option Ulid)
    : M JobSt JobError () :=
  _ ← job_repository;
  page ← or_retry (browser_session_list (browser_inactivity_filter threshold)
                     (expire_pagination after SESSION_BATCH_SIZE));
  _ ← schedule_job_if_present EXPIRE_USER_SESSIONS_QUEUE_NAME
        ((λ cursor, Payload_ExpireInactiveUserSessions threshold (Some cursor)) <$> expire_next page);
  _ ← for_each (λ edge, _ ← or_retry (browser_session_finish (edge_node edge)); mret tt) (edges page);
  job_save.

(** [RunnableJob::run] of these jobs; those of notifications are [run_job]'s. *)
Definition run_user_job (config : option SessionExpirationConfig) (job : JobPayload)
    : option (M JobSt JobError ()) :=
  match job with
  | Payload_SyncDevices user_id => Some (sync_devices_job user_id)
  | Payload_ProvisionUser user_id name avatar => Some (provision_user_job user_id name avatar)
  | Payload_DeactivateUser user_id hs_erase => Some (deactivate_user_job user_id hs_erase)
  | Payload_ReactivateUser user_id => Some (reactivate_user_job user_id)
  | Payload_ProvisionDevice user_id device_id => Some (provision_device_job user_id device_id)
  | Payload_DeleteDevice user_id device_id => Some (delete_device_job user_id device_id)
  | Payload_ExpireInactiveSessions => Some (expire_inactive_sessions_job config)
  | Payload_ExpireInactiveOAuthSessions threshold after =>
      Some (expire_inactive_oauth_sessions_job threshold after)
  | Payload_ExpireInactiveUserSessions threshold after =>
      Some (expire_inactive_user_sessions_job threshold after)
  | _ => None
  end.
End jobs.

(** * The jobs keep the database consistent *)

Section tables.
Context (db : DB) (Hwf : wf db).

Lemma good_sessions_fmap f :
  (∀ r, session_evolves r (f r)) → good db (on_sessions (fmap f) db).
Proof.
  intros H. pose proof (rows_fmap session_evolves f (db_sessions db) H) as Hr.
  destruct Hwf; split; constructor; simpl; try done.
  all: first [by apply refers_fmap; [by_evolves H|] | by eapply refers_grow | idtac].
  intros j r. rewrite lookup_fmap. intros (y & Hy & ->)%fmap_Some. specialize (H y) as [-> _]. eauto.
Qed.
Lemma good_personal_sessions_rows f :
  rows_evolve personal_session_evolves (db_personal_sessions db) (f (db_personal_sessions db)) →
  good db (on_personal_sessions f db).
Proof.
  intros H. destruct Hwf; split; constructor; simpl; try done. by eapply refers_grow.
Qed.
End tables.

Section repositories.
Context {DX : DbExternals} {LX : LimiterExternals} {XX : AccountExternals} {CO : CollationExternals}.
Context {A : relation (gmap Z UserRow)} {HA : AdminOrder A} (c0 : DB).
Abbreviation I := (Inv_by A c0).

Lemma maintains_oauth2_finish_bulk f : maintains I (oauth2_session_finish_bulk f).
Proof.
  unfold oauth2_session_finish_bulk. solve_maintains. apply maintains_modify_db. intros db Hwf.
  apply good_sessions_fmap; [done|]. intros r.
  destruct (oauth2_session_matches f db r); [|reflexivity]. red. unfold stays. by split_and!.
Qed.
Lemma maintains_oauth2_list f p : maintains I (oauth2_session_list f p).
Proof. unfold oauth2_session_list. solve_maintains. Qed.
Lemma maintains_personal_revoke_bulk f : maintains I (personal_session_revoke_bulk f).
Proof.
  unfold personal_session_revoke_bulk. solve_maintains. apply maintains_modify_db. intros db Hwf.
  apply good_personal_sessions_rows; [done|]. intros k r Hk. rewrite map_lookup_imap, Hk. simpl.
  eexists. split; [done|]. destruct (existsb _ _); [|reflexivity]. red. unfold stays. by split_and!.
Qed.
Lemma maintains_personal_list f p : maintains I (personal_session_list f p).
Proof. unfold personal_session_list. solve_maintains. Qed.
Lemma maintains_browser_list f p : maintains I (browser_session_list f p).
Proof. unfold browser_session_list. solve_maintains. Qed.
Lemma maintains_email_all u : maintains I (user_email_all u).
Proof. unfold user_email_all, select_all. solve_maintains. Qed.
Lemma maintains_email_remove_bulk f : maintains I (user_email_remove_bulk f).
Proof.
  unfold user_email_remove_bulk, select_all. solve_maintains. apply maintains_modify_db. good_frame.
Qed.
End repositories.

#[export] Hint Resolve maintains_oauth2_finish_bulk maintains_oauth2_list
  maintains_personal_revoke_bulk maintains_personal_list maintains_browser_list
  maintains_email_all maintains_email_remove_bulk : maintains.

(** A user that is deactivated or reactivated; whoever it is. *)
Section users.
Context {DX : DbExternals} (c0 : DB).
Abbreviation I := (Inv_by any_admins c0).

Lemma maintains_user_row f id :
  (∀ r, user_evolves r (f r)) →
  maintains I (update_by_id db_users on_users no_violation id f).
Proof.
  intros Hf st HI. unfold update_by_id.
  destruct (db_users (st_db st) !! id); [|done].
  destruct (good_build_by any_admins (st_db st) (on_users (alter f id) (st_db st))) as [Hw He];
    [apply HI|by split_and!|by apply rows_alter; [apply _|]|done|reflexivity..|].
  exact (Inv_good_by c0 _ _ HI Hw He).
Qed.
Lemma maintains_user_patch u p : maintains I (user_patch u p).
Proof. unfold user_patch. solve_maintains. apply maintains_user_row. by intros []. Qed.
Lemma maintains_user_deactivate u : maintains I (user_deactivate u).
Proof. unfold user_deactivate. case_match; [solve_maintains|apply maintains_user_patch]. Qed.
Lemma maintains_user_reactivate now u : maintains I (user_reactivate now u).
Proof. unfold user_reactivate. solve_maintains. apply maintains_user_row. by intros []. Qed.
End users.
#[export] Hint Resolve maintains_user_deactivate maintains_user_reactivate : maintains.

(** The invariant of a job is that of its transaction. *)
Definition job_Inv (c0 : DB) (js : JobSt) : Prop := Inv_by any_admins c0 (js_st js).

Section job_invariant.
Context {DX : DbExternals} {LX : LimiterExternals} {XX : AccountExternals} {CO : CollationExternals}.
Context (c0 : DB).
Abbreviation I := (Inv_by any_admins c0).

Lemma maintains_lift {E B} (m : M St E B) : maintains I m → maintains (job_Inv c0) (lift m).
Proof. intros Hm js HI. exact (Hm (js_st js) HI). Qed.
Lemma maintains_or_retry {B} (m : M St DatabaseError B) :
  maintains I m → maintains (job_Inv c0) (or_retry m).
Proof. intros Hm. by apply maintains_lift, maintains_try_with. Qed.
Lemma maintains_job_repository : maintains (job_Inv c0) job_repository.
Proof. apply maintains_lift, maintains_cancel; apply _. Qed.
Lemma maintains_job_save : maintains (job_Inv c0) job_save.
Proof. apply maintains_lift, maintains_save; apply _. Qed.
Lemma maintains_utc_now {E} : maintains (job_Inv c0) (utc_now : M JobSt E _).
Proof. intros js HI. exact HI. Qed.
Lemma maintains_job_gets {E B} (f : JobSt → B) : maintains (job_Inv c0) (gets f : M JobSt E B).
Proof. intros js HI. exact HI. Qed.
Lemma maintains_hs_call c : maintains (job_Inv c0) (hs_call c).
Proof. apply maintains_lift, maintains_call; apply _. Qed.
#[local] Hint Resolve maintains_lift maintains_or_retry maintains_job_repository maintains_job_save
  maintains_utc_now maintains_job_gets maintains_hs_call : maintains.

Lemma maintains_job_user text id : maintains (job_Inv c0) (job_user text id).
Proof. unfold job_user. solve_maintains. Qed.
Lemma maintains_queue_insert queue payload at_ : maintains (job_Inv c0) (or_retry (queue_job_insert queue payload at_)).
Proof.
  apply maintains_or_retry. unfold queue_job_insert. solve_maintains. apply maintains_insert. good_frame.
Qed.
#[local] Hint Resolve maintains_job_user maintains_queue_insert : maintains.
Lemma maintains_collect {B} fuel (list : Pagination → M St DatabaseError (Page B)) scope cursor devices :
  (∀ p, maintains I (list p)) → maintains (job_Inv c0) (collect_devices fuel list scope cursor devices).
Proof. intros Hl. revert cursor devices. induction fuel; intros; simpl; solve_maintains. Qed.
Lemma maintains_expire_edges seen at_ edges : maintains (job_Inv c0) (expire_oauth_edges seen at_ edges).
Proof.
  revert seen at_. induction edges as [|e edges IH]; intros; simpl; [solve_maintains|].
  unfold schedule_job_later, queue_job_schedule_later. solve_maintains.
Qed.
#[local] Hint Resolve maintains_collect maintains_expire_edges : maintains.

Lemma maintains_user_job config job m :
  run_user_job config job = Some m → maintains (job_Inv c0) m.
Proof.
  destruct job; intros [= <-];
    unfold sync_devices_job, provision_user_job, deactivate_user_job, reactivate_user_job,
      provision_device_job, delete_device_job, schedule_device_sync, expire_inactive_sessions_job,
      expire_inactive_oauth_sessions_job, expire_inactive_user_sessions_job,
      collect_devices_from_oauth2, collect_devices_from_personal, terminate_all_sessions_for,
      enqueue_expiration_children, schedule_job_if_present, schedule_job_now, queue_job_schedule,
      schedule_sync_devices_job; solve_maintains.
Qed.
End job_invariant.

(** A job begins with a transaction of its own. *)
Definition fresh (js : JobSt) : JobSt := (job_repository js).2.

Section committed.
Context {DX : DbExternals} {LX : LimiterExternals} {XX : AccountExternals} {CO : CollationExternals}.

Lemma user_job_fresh config job m js :
  run_user_job config job = Some m → js_committed (m js).2 = js_committed (m (fresh js)).2.
Proof. destruct job; intros [= <-]; try reflexivity. destruct config; reflexivity. Qed.

Lemma user_job_good config job m js :
  run_user_job config job = Some m → wf (js_committed js) →
  wf (js_committed (m js).2) ∧ changes (js_committed js) (js_committed (m js).2).
Proof.
  intros Hm Hw. rewrite (user_job_fresh _ _ _ _ Hm).
  destruct (maintains_user_job (js_committed js) _ _ _ Hm (fresh js)) as (_ & ? & ? & _); [|done].
  unfold job_Inv, Inv_by. by split_and!.
Qed.
End committed.
