(* ===== verification/Server.v ===== *)
(** The server: the requests of the modelled endpoints, of OAuth 2.0 and of
    accounts and administration, each served in a transaction of its own that is rolled back unless
    the handler saved it, and the histories of the committed database they make
    with the jobs that send messages, those of users and their sessions, and the callbacks of the
    providers of email. Requests
    are served one after the other; between them, and for each of them, the clock, the random
    generator, the homeserver and what the channels answer are arbitrary. *)
From S2P Require Import Prelude Ids TokenFormat Scope Pkce Jose Keystore Domain Database Repository Handlers ClientAuth RepositorySpec TokenService TokenSpec Introspection Revocation Consent Authorization Integrity RateLimit Passwords Accounts AccountRepository Notification Messaging ProviderMetadata Notifications EmailWebhook Registration Login AccountServer AccountIntegrity NotificationIntegrity NotificationJobs WebhookIntegrity Pagination AdminRepository AdminApi Profile Admin AdminIntegrity UserJobs ClientMetadata ClientRepository ClientRegistration Userinfo.

Open Scope Z_scope.

(** ** Every handler maintains the invariant *)

Section handlers.
Context {TX : TokenExternals} {PX : PkceExternals} {UX : UrlExternals}
        {DX : DbExternals} {HX : HandlerExternals} {AX : ClientAuthExternals}
        {CX : ConsentExternals} {ZX : AuthorizationExternals}
        {VX : UrlPartsExternals} {KX : MetadataExternals} {EX : ClientRegistrationExternals}.
Context {A : relation (gmap Z UserRow)} {HA : AdminOrder A} (c0 : DB).
Abbreviation I := (Inv_by A c0).

Lemma maintains_remaining {E} o : maintains I (remaining o : M St E _).
Proof. unfold remaining. solve_maintains. Qed.
Lemma maintains_may_keep s : maintains I (session_may_keep_admin_scope s).
Proof. unfold session_may_keep_admin_scope. solve_maintains. Qed.
Lemma maintains_record_ua s ua : maintains I (record_user_agent_opt s ua).
Proof. unfold record_user_agent_opt. solve_maintains. Qed.
Lemma maintains_id_token c g b a l : maintains I (generate_id_token c g b a l).
Proof. unfold generate_id_token. solve_maintains. Qed.
Lemma maintains_token_pair s ttl : maintains I (generate_token_pair s ttl).
Proof. unfold generate_token_pair. solve_maintains. Qed.
Lemma maintains_count_sessions u : maintains I (count_user_sessions_for_limiting u).
Proof. unfold count_user_sessions_for_limiting. solve_maintains. Qed.
#[local] Hint Resolve maintains_remaining maintains_may_keep maintains_record_ua
  maintains_id_token maintains_token_pair maintains_count_sessions : maintains.

Lemma maintains_code_exchange g c ttl ip ua :
  maintains I (exchange_authorization_code g c ttl ip ua).
Proof.
  unfold exchange_authorization_code, code_exchange_grant, code_exchange_stage,
    code_exchange_session, code_exchange_proof, code_exchange_admin, code_exchange_issue.
  solve_maintains.
Qed.
Lemma maintains_refresh g c ttl ip ua : maintains I (handle_refresh_token g c ttl ip ua).
Proof.
  unfold handle_refresh_token, refresh_find, refresh_check_session, refresh_double, refresh_issue.
  solve_maintains.
Qed.
Lemma maintains_client_credentials g c ttl ip ua :
  maintains I (handle_client_credentials g c ttl ip ua).
Proof.
  unfold handle_client_credentials, oauth2_session_add_from_client_credentials. solve_maintains.
Qed.
Lemma maintains_device_exchange_code g c ttl ip ua :
  maintains I (exchange_device_code g c ttl ip ua).
Proof.
  unfold exchange_device_code, device_exchange_grant, device_exchange_browser_session,
    device_exchange_session, device_exchange_issue, oauth2_session_add_from_browser_session.
  solve_maintains.
Qed.
#[local] Hint Resolve maintains_code_exchange maintains_refresh maintains_client_credentials
  maintains_device_exchange_code : maintains.
Lemma maintains_fetch cr : maintains I (credentials_fetch cr).
Proof. unfold credentials_fetch. solve_maintains. Qed.
Lemma maintains_credentials {E} (a b c : E) cr cl : maintains I (check_credentials a b c cr cl).
Proof. unfold check_credentials. solve_maintains. Qed.
#[local] Hint Resolve maintains_fetch maintains_credentials : maintains.
Lemma maintains_token_post req ttl ip ua : maintains I (token_handle_post req ttl ip ua).
Proof. unfold token_handle_post, token_dispatch. solve_maintains. Qed.

Lemma maintains_introspection req : maintains I (introspection_handle_post req).
Proof.
  unfold introspection_handle_post, introspection_authenticate, introspect_token,
    introspect_access_token, introspect_refresh_token, introspect_personal_token,
    introspect_session, introspect_subject, introspect_owner, introspect_user.
  solve_maintains.
Qed.
Lemma maintains_revocation ip req : maintains I (revoke_handle_post ip req).
Proof.
  unfold revoke_handle_post, revoke_authenticate, revoke_token, revocation_session_id,
    revoke_session, revoke_personal_token.
  solve_maintains.
Qed.
Lemma maintains_policy b c s g ip ua : maintains I (has_policy_violation b c s g ip ua).
Proof. unfold has_policy_violation. solve_maintains. Qed.
Lemma maintains_response c g b : maintains I (build_authorization_response c g b).
Proof. unfold build_authorization_response. solve_maintains. Qed.
#[local] Hint Resolve maintains_policy maintains_response : maintains.
Lemma maintains_accept_consent b g ip ua : maintains I (accept_authorization_consent b g ip ua).
Proof.
  unfold accept_authorization_consent, replay_authorization_consent, fulfill_authorization_consent,
    oauth2_session_add_from_browser_session.
  solve_maintains.
Qed.
Lemma maintains_load_consent q b g ip ua : maintains I (load_authorization_consent q b g ip ua).
Proof. unfold load_authorization_consent. solve_maintains. Qed.
Lemma maintains_lookup_link c : maintains I (lookup_device_link c).
Proof. unfold lookup_device_link. solve_maintains. Qed.
Lemma maintains_load_device q b g ip ua : maintains I (load_device_consent q b g ip ua).
Proof. unfold load_device_consent, device_consent_grant. solve_maintains. Qed.
Lemma maintains_submit_device b g a ip ua : maintains I (submit_device_consent b g a ip ua).
Proof. unfold submit_device_consent, device_consent_grant. solve_maintains. Qed.
Lemma maintains_device_authorize req ip ua s32 s6 :
  maintains I (device_authorize_handle_post req ip ua s32 s6).
Proof. unfold device_authorize_handle_post. solve_maintains. Qed.

Lemma maintains_load_active_session c : maintains I (load_active_session c).
Proof. unfold load_active_session. solve_maintains. Qed.
Lemma maintains_authorization_code fuel p : maintains I (authorization_code_for fuel p).
Proof. unfold authorization_code_for. solve_maintains. Qed.
Lemma maintains_authorization_redirect s p g ip : maintains I (authorization_redirect s p g ip).
Proof.
  unfold authorization_redirect, oauth2_session_count_for_browser_session. solve_maintains.
Qed.
#[local] Hint Resolve maintains_load_active_session maintains_authorization_code
  maintains_authorization_redirect : maintains.
Lemma maintains_go d l c : maintains I (go d l c).
Proof. unfold go. solve_maintains. Qed.
#[local] Hint Resolve maintains_go : maintains.
Lemma maintains_or_server_error d l m : maintains I m → maintains I (or_server_error d l m).
Proof.
  intros Hm st HI. unfold or_server_error. specialize (Hm st HI).
  destruct (m st) as [[r|[]] st1]; simpl in *; try done; by apply maintains_go.
Qed.
Lemma maintains_authorization fuel req : maintains I (authorization_handle_get fuel req).
Proof.
  unfold authorization_handle_get.
  solve_maintains.
  apply maintains_or_server_error. unfold authorization_inner. solve_maintains.
Qed.

Lemma maintains_client_add c : maintains I (oauth2_client_add c).
Proof.
  unfold oauth2_client_add. solve_maintains.
  apply maintains_insert. intros db Hdb Hv. by apply good_clients_insert.
Qed.
Lemma maintains_replace_localized k m : maintains I (replace_localized_metadata k m).
Proof.
  unfold replace_localized_metadata. solve_maintains;
    apply maintains_update; intros db Hdb _; by apply good_clients_alter.
Qed.
#[local] Hint Resolve maintains_client_add maintains_replace_localized : maintains.
Lemma maintains_client_registration body ip ua s20 nonce :
  maintains I (client_registration_handle_post body ip ua s20 nonce).
Proof.
  unfold client_registration_handle_post, generate_client_secret, find_existing,
    oauth2_client_find_by_metadata_digest, add_client.
  solve_maintains.
Qed.
Lemma maintains_userinfo {F} (req : UserRequest F) ip : maintains I (userinfo_handle_get req ip).
Proof.
  unfold userinfo_handle_get, protected, request_token_fetch, userinfo_response. solve_maintains.
Qed.
End handlers.

(** ** Requests and histories *)

Inductive Request :=
| Req_Token (req : ClientRequest AccessTokenRequest) (ttl : Duration) (ip : option IpAddr)
    (user_agent : option string)
| Req_Introspect (req : ClientRequest (string * option OAuthTokenTypeHint))
| Req_Revoke (ip : option IpAddr) (req : ClientRequest (string * option OAuthTokenTypeHint))
| Req_LoadConsent (query_user : string → option (option string)) (browser_session : BrowserSession)
    (grant_id : Ulid) (ip : option IpAddr) (user_agent : option string)
| Req_AcceptConsent (browser_session : BrowserSession) (grant_id : Ulid) (ip : option IpAddr)
    (user_agent : option string)
| Req_LookupDevice (code : string)
| Req_LoadDeviceConsent (query_user : string → option (option string))
    (browser_session : BrowserSession) (grant_id : Ulid) (ip : option IpAddr)
    (user_agent : option string)
| Req_DeviceConsent (browser_session : BrowserSession) (grant_id : Ulid)
    (action : DeviceConsentAction) (ip : option IpAddr) (user_agent : option string)
| Req_DeviceAuthorize (req : ClientRequest (option ScopeSet)) (ip : option IpAddr)
    (user_agent : option string) (sample32 sample6 : string)
| Req_Authorize (fuel : nat) (req : AuthorizationHttpRequest)
| Req_RegisterClient (raw_body : option Json) (ip : option IpAddr) (user_agent : option string)
    (sample20 : string) (nonce : list Z)
| Req_Userinfo (req : UserRequest ()) (ip : option IpAddr)
| Req_Account (req : AccountRequest)
| Req_PatchProfile (current : option Ulid) (ip : option IpAddr) (patch : UserProfilePatch)
| Req_Deactivate (current : option Ulid) (ip : option IpAddr) (config : DeactivationConfig)
    (password_manager : PasswordManager) (password : option string) (hs_erase : bool)
| Req_Admin (request : AdminRequest).

(** The requests that may change who administers. *)
Definition administers (req : Request) : bool :=
  match req with Req_Admin _ | Req_Deactivate _ _ _ _ _ _ => true | _ => false end.

(** The state a handler begins in: its transaction sees what is committed. *)
Definition begins (st : St) : Prop := st_db st = st_committed st.

Section server.
Context {TX : TokenExternals} {PX : PkceExternals} {UX : UrlExternals}
        {DX : DbExternals} {HX : HandlerExternals} {AX : ClientAuthExternals}
        {CX : ConsentExternals} {ZX : AuthorizationExternals} {LX : LimiterExternals}
        {XX : AccountExternals} {WX : PasswordExternals} {RX : RegistrationExternals}
        {GX : LoginExternals} {VX : UrlPartsExternals} {KX : MetadataExternals}
        {EX : ClientRegistrationExternals}
        {BX : UrlBuildExternals} {NX : NotificationExternals} {YX : WebhookExternals}
        {QX : AdminExternals} {CO : CollationExternals}.

(** What a request leaves behind, its answer apart. *)
Definition serve (req : Request) (st : St) : St :=
  match req with
  | Req_Token req ttl ip ua => (token_handle_post req ttl ip ua st).2
  | Req_Introspect req => (introspection_handle_post req st).2
  | Req_Revoke ip req => (revoke_handle_post ip req st).2
  | Req_LoadConsent q bs gid ip ua => (load_authorization_consent q bs gid ip ua st).2
  | Req_AcceptConsent bs gid ip ua => (accept_authorization_consent bs gid ip ua st).2
  | Req_LookupDevice code => (lookup_device_link code st).2
  | Req_LoadDeviceConsent q bs gid ip ua => (load_device_consent q bs gid ip ua st).2
  | Req_DeviceConsent bs gid action ip ua => (submit_device_consent bs gid action ip ua st).2
  | Req_DeviceAuthorize req ip ua s32 s6 =>
      (device_authorize_handle_post req ip ua s32 s6 st).2
  | Req_Authorize fuel req => (authorization_handle_get fuel req st).2
  | Req_RegisterClient body ip ua s20 nonce =>
      (client_registration_handle_post body ip ua s20 nonce st).2
  | Req_Userinfo req ip => (userinfo_handle_get req ip st).2
  | Req_Account req => account_serve req st
  | Req_PatchProfile current ip patch => (patch_profile current ip patch st).2
  | Req_Deactivate current ip config manager password erase =>
      (deactivate_user current ip config manager password erase st).2
  | Req_Admin request => (admin_serve request st).2
  end.

(** One request, seen from the committed database; a job of notifications, whether it succeeds or
    fails; or a callback of the provider of email, authentic or not. *)
Inductive served : DB → DB → Prop :=
| served_intro req st : begins st → served (st_committed st) (st_committed (serve req st))
| served_job nc ub job m js :
    run_job nc ub job = Some m → served (js_committed js) (js_committed (m js).2)
| served_webhook utc_now net service provider req st :
    begins st →
    served (st_committed st) (st_committed (webhook_post utc_now net service provider req st).2).

(** A step of the server is one of these, or a job of users and their sessions. *)
Inductive step : DB → DB → Prop :=
| step_served db db' : served db db' → step db db'
| step_user_job config job m js :
    run_user_job config job = Some m → step (js_committed js) (js_committed (m js).2).

(** Any number of the first, and of all. *)
Definition requests : DB → DB → Prop := rtc served.
Definition history : DB → DB → Prop := rtc step.

Lemma begins_Inv st : begins st → wf (st_committed st) → Inv (st_committed st) st.
Proof. intros Hb Hw. split_and!; try done; by rewrite Hb. Qed.

Lemma serve_plain req st :
  begins st → wf (st_committed st) → administers req = false →
  good (st_committed st) (st_committed (serve req st)).
Proof.
  intros Hb Hw Hreq. pose proof (begins_Inv _ Hb Hw) as HI.
  assert (∀ st', Inv (st_committed st) st' → good (st_committed st) (st_committed st')) as Hg.
  { by intros st' (_ & ? & ? & _). }
  destruct req; try done; simpl;
    [..|by apply account_serve_good|by apply patch_profile_good]; apply Hg.
  - by apply maintains_token_post.
  - by apply maintains_introspection.
  - by apply maintains_revocation.
  - by apply maintains_load_consent.
  - by apply maintains_accept_consent.
  - by apply maintains_lookup_link.
  - by apply maintains_load_device.
  - by apply maintains_submit_device.
  - by apply maintains_device_authorize.
  - by apply maintains_authorization.
  - by apply maintains_client_registration.
  - by apply maintains_userinfo.
Qed.

Lemma good_overseen c c' : good c c' → wf c' ∧ evolves_by overseen c c'.
Proof. intros [Hw He]. split; [done|]. eapply evolves_by_mono, He. by left. Qed.

Lemma serve_good req st :
  begins st → wf (st_committed st) →
  wf (st_committed (serve req st)) ∧ evolves_by overseen (st_committed st) (st_committed (serve req st)).
Proof.
  intros Hb Hw. destruct (administers req) eqn:Hreq; [|by apply good_overseen, serve_plain].
  destruct req; try done; [by apply deactivate_user_good|by apply admin_serve_good].
Qed.

Lemma served_good db db' : wf db → served db db' → wf db' ∧ evolves_by overseen db db'.
Proof.
  intros Hw Hs. destruct Hs as [req st Hb|nc ub job m js Hm|utc net service p req st Hb].
  - by apply serve_good.
  - destruct (m js) as [res js'] eqn:H. apply good_overseen. by eapply run_job_good.
  - destruct (webhook_post utc net service p req st) as [res st'] eqn:H.
    apply good_overseen. by eapply webhook_post_good.
Qed.

Lemma step_good db db' : wf db → step db db' → wf db' ∧ changes db db'.
Proof.
  intros Hw Hs. destruct Hs as [db db' Hs|config job m js Hm]; [|by eapply user_job_good].
  apply served_good in Hs as [Hw' He]; [|done]. split; [done|]. by eapply evolves_changes.
Qed.

Lemma requests_good db db' : wf db → requests db db' → wf db' ∧ evolves_by governed db db'.
Proof.
  intros Hw Hh. induction Hh as [db|db db1 db2 Hs Hh IH]; [done|].
  apply served_good in Hs as [Hw' He]; [|done].
  destruct (IH Hw') as [Hw2 He2]. split; [done|]. etrans; [|done].
  eapply evolves_by_mono, He. apply rtc_once.
Qed.

Lemma history_good db db' : wf db → history db db' → wf db' ∧ changes db db'.
Proof.
  intros Hw Hh. induction Hh as [db|db db1 db2 Hs Hh IH]; [done|].
  apply step_good in Hs as [Hw' He]; [|done]. destruct (IH Hw') as [Hw2 He2]. split; [done|]. by etrans.
Qed.
End server.
