(* ===== verification/TokenProofs.v ===== *)
(** The theorems about the token endpoint: what a granted request has shown,
    what it changes, and what a refused one leaves behind. *)
From S2P Require Import Prelude Ids TokenFormat Scope Pkce Jose Keystore Domain Database Repository Handlers ClientAuth RepositorySpec TokenService World ClientAuthProofs TokenSpec Integrity.

Open Scope Z_scope.

(** ** What failed requests leave behind *)

(** The database, but for the ends and the names of the sessions. *)
Definition blind (db : DB) : DB := on_sessions (fmap (OAuthSessionRow_set None None None)) db.

Lemma blind_sessions_alter f k db :
  (∀ r, OAuthSessionRow_set None None None (f r) = OAuthSessionRow_set None None None r) →
  blind (on_sessions (alter f k) db) = blind db.
Proof.
  intros Hf. unfold blind, on_sessions. simpl. f_equal. apply map_eq. intros j.
  rewrite !lookup_fmap, lookup_alter. case_decide; [subst|done].
  destruct (db_sessions db !! j); simpl; [|done]. by rewrite Hf.
Qed.

(** Before the tokens are issued, nothing but sessions changes; after, nothing
    is saved. *)
Definition only_sessions (d : DB) (st : St) : Prop :=
  blind (st_db st) = d ∧ blind (st_committed st) = d.
Definition nothing_saved (d : DB) (st : St) : Prop := blind (st_committed st) = d.

Section failures.
Context {TX : TokenExternals} {PX : PkceExternals} {UX : UrlExternals}
        {DX : DbExternals} {HX : HandlerExternals}.
Context (d : DB).

Lemma only_keeps {E A} (m : M St E A) :
  keeps st_db m → keeps st_committed m → maintains (only_sessions d) m.
Proof. intros Hd Hc st HI. unfold only_sessions. by rewrite Hd, Hc. Qed.
Lemma only_save {E} : maintains (only_sessions d) (repo_save : M St E ()).
Proof. by intros st [Hd _]. Qed.
Lemma only_update v id f :
  (∀ r, OAuthSessionRow_set None None None (f r) = OAuthSessionRow_set None None None r) →
  maintains (only_sessions d) (update_by_id db_sessions on_sessions v id f).
Proof.
  intros Hf st [Hd Hc]. unfold update_by_id. repeat case_match; try done.
  split; [|done]. simpl. by rewrite blind_sessions_alter.
Qed.
Lemma only_ensure n k : maintains (only_sessions d) (ensure_affected_rows_usize n k).
Proof. apply only_keeps; auto with keeps. Qed.
Lemma only_clock {E} : maintains (only_sessions d) (clock_now : M St E _).
Proof. by apply only_keeps. Qed.
Lemma only_finish s : maintains (only_sessions d) (oauth2_session_finish s).
Proof.
  unfold oauth2_session_finish, update_one. repeat first [apply maintains_bind; [|intros ?]
    | apply only_clock | apply only_update; done | apply only_ensure | apply maintains_of_result].
Qed.
Lemma only_record_ua s ua : maintains (only_sessions d) (record_user_agent_opt s ua).
Proof.
  unfold record_user_agent_opt, oauth2_session_record_user_agent, update_one. case_match;
  repeat first [apply maintains_bind; [|intros ?]
    | apply only_update; done | apply only_ensure | apply maintains_ret].
Qed.
Lemma only_session_lookup id : maintains (only_sessions d) (oauth2_session_lookup id).
Proof. apply only_keeps; unfold oauth2_session_lookup, try_into; solve_keeps. Qed.
Lemma only_require {E} c (e : E) : maintains (only_sessions d) (require c e).
Proof. unfold require. destruct c; [apply maintains_ret|apply maintains_raise]. Qed.
Lemma only_may_keep s : maintains (only_sessions d) (session_may_keep_admin_scope s).
Proof.
  unfold session_may_keep_admin_scope, user_lookup. apply only_keeps; solve_keeps.
Qed.
Lemma only_refresh_token_find t : maintains (only_sessions d) (refresh_token_find_by_token t).
Proof. unfold refresh_token_find_by_token, try_into. apply only_keeps; solve_keeps. Qed.
#[local] Hint Resolve only_refresh_token_find only_save only_finish only_record_ua only_session_lookup only_require
  only_may_keep only_clock : maintains.

Lemma only_code_grant req c : maintains (only_sessions d) (code_exchange_grant req c).
Proof.
  unfold code_exchange_grant, authorization_grant_find_by_code, try_into, require.
  apply only_keeps; solve_keeps.
Qed.
Lemma only_code_stage g : maintains (only_sessions d) (code_exchange_stage g).
Proof. unfold code_exchange_stage. solve_maintains. Qed.
Lemma only_code_session g c sid ua : maintains (only_sessions d) (code_exchange_session g c sid ua).
Proof. unfold code_exchange_session. solve_maintains. Qed.
Lemma only_code_proof req g c s : maintains (only_sessions d) (code_exchange_proof req g c s).
Proof. unfold code_exchange_proof. solve_maintains. Qed.
Lemma only_code_admin s : maintains (only_sessions d) (code_exchange_admin s).
Proof. unfold code_exchange_admin. solve_maintains. Qed.
Lemma only_refresh_find req c ua : maintains (only_sessions d) (refresh_find req c ua).
Proof. unfold refresh_find. solve_maintains. Qed.
Lemma only_refresh_check c s : maintains (only_sessions d) (refresh_check_session c s).
Proof. unfold refresh_check_session. solve_maintains. Qed.

(** A program in two parts: sessions only, then nothing saved. *)
Lemma only_then {E A B} (m : M St E A) (k : A → M St E B) st :
  maintains (only_sessions d) m → (∀ a, keeps st_committed (k a)) →
  only_sessions d st → nothing_saved d ((m ≫= k) st).2.
Proof.
  intros Hm Hk HI. specialize (Hm st HI). unfold mbind, M_bind.
  destruct (m st) as [[a|e] st1]; simpl in *; [|apply Hm].
  unfold nothing_saved. rewrite Hk. apply Hm.
Qed.
Lemma only_bind {E A B} (m : M St E A) (k : A → M St E B) st :
  maintains (only_sessions d) m →
  (∀ a st1, only_sessions d st1 → nothing_saved d (k a st1).2) →
  only_sessions d st → nothing_saved d ((m ≫= k) st).2.
Proof.
  intros Hm Hk HI. specialize (Hm st HI). unfold mbind, M_bind.
  destruct (m st) as [[a|e] st1]; simpl in *; [by apply Hk|apply Hm].
Qed.

Lemma committed_code_issue g c s devs n ttl ip :
  keeps st_committed (code_exchange_issue g c s devs n ttl ip).
Proof.
  unfold code_exchange_issue, browser_session_lookup, browser_session_get_last_authentication,
    generate_token_pair, access_token_add, refresh_token_add, generate_id_token,
    user_acquire_lock_for_sync, provision_devices, authorization_grant_exchange, update_one, try_into.
  solve_keeps.
Qed.
Lemma committed_refresh_double rt : keeps st_committed (refresh_double rt).
Proof.
  unfold refresh_double, refresh_token_lookup, access_token_lookup, access_token_revoke,
    refresh_token_revoke, update_one, try_into, require.
  solve_keeps.
Qed.
Lemma committed_refresh_issue rt s ttl ip : keeps st_committed (refresh_issue rt s ttl ip).
Proof.
  unfold refresh_issue, generate_token_pair, access_token_add, refresh_token_add,
    refresh_token_consume, access_token_lookup, access_token_revoke, update_one.
  solve_keeps.
Qed.
Lemma committed_client_credentials g c ttl ip ua :
  keeps st_committed (handle_client_credentials g c ttl ip ua).
Proof.
  unfold handle_client_credentials, oauth2_session_add_from_client_credentials, oauth2_session_add,
    record_user_agent_opt, oauth2_session_record_user_agent, access_token_add, update_one, require.
  solve_keeps.
Qed.
Lemma committed_device g c ttl ip ua : keeps st_committed (exchange_device_code g c ttl ip ua).
Proof.
  unfold exchange_device_code, device_exchange_grant, device_exchange_browser_session,
    device_exchange_session, device_exchange_issue, device_grant_find_by_device_code,
    browser_session_lookup, oauth2_session_add_from_browser_session, oauth2_session_add,
    device_grant_exchange, record_user_agent_opt, oauth2_session_record_user_agent,
    access_token_add, refresh_token_add, generate_id_token, user_acquire_lock_for_sync,
    provision_devices, update_one, try_into, require.
  solve_keeps.
Qed.

Lemma nothing_saved_code req c ttl ip ua st :
  only_sessions d st → nothing_saved d (exchange_authorization_code req c ttl ip ua st).2.
Proof.
  intros HI. unfold exchange_authorization_code.
  apply only_bind; [apply only_code_grant|clear st HI|done]. intros g st HI.
  apply only_bind; [apply only_code_stage|clear st HI|done]. intros sid st HI.
  apply only_bind; [apply only_code_session|clear st HI|done]. intros sd st HI.
  apply only_bind; [apply only_code_proof|clear st HI|done]. intros u st HI.
  apply only_then; [apply only_code_admin|intros ?; apply committed_code_issue|done].
Qed.
Lemma nothing_saved_refresh req c ttl ip ua st :
  only_sessions d st → nothing_saved d (handle_refresh_token req c ttl ip ua st).2.
Proof.
  intros HI. unfold handle_refresh_token.
  apply only_bind; [apply only_refresh_find|clear st HI|done]. intros rs st HI.
  apply only_then; [apply only_refresh_check| |done]. intros u.
  apply keeps_bind; [apply committed_refresh_double|intros ?; apply committed_refresh_issue].
Qed.

(** The grants before the endpoint saves. *)
Lemma nothing_saved_dispatch form c ttl ip ua st e st' :
  only_sessions d st → token_dispatch form c ttl ip ua st = (Err e, st') → nothing_saved d st'.
Proof.
  intros HI [H|(r & st1 & _ & H)]%bind_Err_inv; [|by apply bind_Err_inv in H as [|(?&?&?&?)]].
  destruct form as [g|g|g|g|];
    [apply try_with_Err_inv in H as (e' & H & _); apply (f_equal snd) in H; simpl in H; rewrite <-H..|].
  - by apply nothing_saved_code.
  - by apply nothing_saved_refresh.
  - unfold nothing_saved. rewrite committed_client_credentials. apply HI.
  - unfold nothing_saved. rewrite committed_device. apply HI.
  - injection H as _ <-. apply HI.
Qed.
End failures.

(** ** Runs that can be computed *)

Lemma session_lookup_run sid srow s st :
  db_sessions (st_db st) !! sid = Some srow → Session_try_from sid srow = Ok s →
  oauth2_session_lookup sid st = (Ok (Some s), st).
Proof.
  intros Hs Ht. unfold oauth2_session_lookup, select_by_id, gets, mbind, M_bind. rewrite Hs. simpl.
  unfold mbind, M_bind, of_result. by rewrite Ht.
Qed.

(** The end of a session, and the refusal to end it twice: the row is written
    in both cases, and the transition checked after. *)
Lemma session_finish_run s srow st :
  db_sessions (st_db st) !! Session_id s = Some srow →
  ∃ r st', oauth2_session_finish s st = (r, st') ∧
    match Session_state s with
    | Session_Valid => ∃ s', r = Ok s'
    | Session_Finished _ => r = Err Db_InvalidOperation
    end ∧
    ran st st' (on_sessions (alter (OAuthSessionRow_set_finished_at (st_clock st 0%nat)) (Session_id s))).
Proof.
  intros Hs. unfold oauth2_session_finish, update_one, update_by_id, mbind, M_bind. simpl.
  rewrite Hs. simpl. unfold of_result, Session_finish.
  destruct (Session_state s); simpl; (eexists _, _; split; [reflexivity|]; split; [by eauto|done]).
Qed.

Section grants.
Context {UX : UrlExternals}.

Lemma code_grant_run req c st gid row g :
  Client_has_grant_type c GrantType_AuthorizationCode = true →
  find_first (has_code (code_grant_code req)) (db_grants (st_db st)) = Some (gid, row) →
  AuthorizationGrant_try_from gid row = Ok g →
  code_exchange_grant req c st = (Ok g, st).
Proof.
  intros Hc Hf Hg. unfold code_exchange_grant, require. rewrite Hc.
  unfold mbind, M_bind, try_with, authorization_grant_find_by_code, select_first, gets. simpl.
  unfold mbind, M_bind. rewrite Hf. simpl. unfold mbind, M_bind, of_result. by rewrite Hg.
Qed.

(** The late replay of a code. *)
Lemma code_stage_late g sid f x srow s st :
  AuthorizationGrant_stage g = Grant_Exchanged sid f x →
  REPLAY_GRACE < st_clock st 0%nat - x →
  db_sessions (st_db st) !! sid = Some srow → Session_try_from sid srow = Ok s →
  ∃ st', code_exchange_stage g st =
      (Err match Session_state s with
           | Session_Valid => Ace_InvalidGrant (AuthorizationGrant_id g)
           | Session_Finished _ => Ace_Repository Db_InvalidOperation
           end, st') ∧
    st_committed st' =
      match Session_state s with
      | Session_Valid =>
          on_sessions (alter (OAuthSessionRow_set_finished_at (st_clock st 1%nat)) sid) (st_db st)
      | Session_Finished _ => st_committed st
      end.
Proof.
  intros Hst Hlate Hs Hts. destruct (Session_try_from_inv _ _ _ Hts) as [Hsid _].
  unfold code_exchange_stage. erewrite bind_Ok; [|reflexivity]. rewrite Hst.
  rewrite bool_decide_eq_true_2 by done.
  set (st1 := with_clock (λ n, st_clock st (S n)) st).
  assert (oauth2_session_lookup sid st1 = (Ok (Some s), st1)) as Hl
    by (eapply session_lookup_run; eauto).
  destruct (session_finish_run s srow st1) as (r & st2 & Hfin & Hr & [Hd Hc]); [by rewrite Hsid|].
  unfold mbind, M_bind, try_with. rewrite Hl. cbn [ok_or mret M_ret]. rewrite Hfin.
  destruct (Session_state s); [destruct Hr as [s' ->]|subst r]; simpl; eexists; (split; [done|]).
  - simpl. by rewrite Hd, Hsid.
  - by rewrite Hc.
Qed.
End grants.

(** ** What an issued access token stands for *)

(** The database knows a token by this text, for a session with this scope and user. *)
Definition issued_for (db : DB) (text : string) (scope : ScopeSet) (user : option Ulid) : Prop :=
  ∃ aid arow srow, db_access_tokens db !! aid = Some arow ∧
    AccessTokenRow_access_token arow = text ∧
    db_sessions db !! AccessTokenRow_oauth2_session_id arow = Some srow ∧
    scope_of_list (OAuthSessionRow_scope_list srow) = scope ∧
    OAuthSessionRow_user_id srow = user.

Section issued.
Context {TX : TokenExternals} {PX : PkceExternals} {UX : UrlExternals}
        {DX : DbExternals} {HX : HandlerExternals}.

Lemma record_ua_row ua sid db srow :
  db_sessions db !! sid = Some srow →
  ∃ srow', db_sessions (record_ua ua sid db) !! sid = Some srow' ∧
    OAuthSessionRow_scope_list srow' = OAuthSessionRow_scope_list srow ∧
    OAuthSessionRow_user_id srow' = OAuthSessionRow_user_id srow.
Proof.
  intros Hs. destruct ua as [ua|]; simpl; [|by eauto].
  rewrite lookup_alter_eq, Hs. simpl. by eauto.
Qed.

Lemma code_issued req c ttl ip ua st resp st' :
  exchange_authorization_code req c ttl ip ua st = (Ok resp, st') →
  ∃ scope user, issued_for (st_db st') (Response_access_token resp) scope user ∧
    Response_scope resp = Some scope ∧
    (requires_admin scope = true → is_admin (st_db st') user).
Proof.
  intros (gid & g & sid & s & Ha & a & r & arow & rrow & t & Hp & Hr & _ & _ & [Hd _])%code_exchange_inv.
  destruct Ha as (_ & (srow & Hsr & Hts) & _ & _ & _ & _ & _ & Hadm).
  destruct (Session_try_from_inv _ _ _ Hts) as (_ & _ & Hu & _ & Hsc & _).
  destruct (fresh_pair_keys _ _ _ _ _ _ _ Hp) as (_ & _ & Hsid & Htext).
  destruct (record_ua_row ua sid _ _ Hsr) as (srow' & Hsr' & Hl & Hu').
  apply Scope_from_list_Ok in Hsc as [Hsc _]. destruct Hr as (Hra & _ & _ & Hrs).
  exists (Session_scope s), (Session_user_id s). rewrite Hd. split; [|split; [done|]].
  - exists (AccessToken_id a), arow, srow'. simpl. rewrite lookup_insert_eq, Hsid, Htext.
    split_and!; congruence.
  - intros Hq. specialize (Hadm Hq). unfold is_admin in *. by destruct ua.
Qed.

Lemma revoke_old_row old t db i row :
  db_access_tokens db !! i = Some row →
  ∃ row', db_access_tokens (revoke_old old t db) !! i = Some row' ∧
    AccessTokenRow_oauth2_session_id row' = AccessTokenRow_oauth2_session_id row ∧
    AccessTokenRow_access_token row' = AccessTokenRow_access_token row.
Proof.
  intros Hi. destruct old as [old|]; simpl; [|by eauto].
  rewrite lookup_alter. case_decide as Hd; [subst|by eauto]. rewrite Hi. simpl.
  eexists. split; [done|]. unfold revoke_live. by case_match.
Qed.
Lemma revoke_old_sessions old t db : db_sessions (revoke_old old t db) = db_sessions db.
Proof. by destruct old. Qed.
Lemma revoke_old_users old t db : db_users (revoke_old old t db) = db_users db.
Proof. by destruct old. Qed.

Lemma refresh_issued req c ttl ip ua st resp st' :
  handle_refresh_token req c ttl ip ua st = (Ok resp, st') →
  ∃ scope user, issued_for (st_db st') (Response_access_token resp) scope user ∧
    Response_scope resp = Some scope ∧
    (requires_admin scope = true → is_admin (st_db st') user).
Proof.
  intros (rid & rt & s & lost & Ha & a & r & arow & rrow & t1 & t2 & Hp & Hr & _ & _ & [Hd _])%refresh_inv.
  destruct Ha as (_ & (srow & Hsr & Hts) & _ & _ & _ & Hadm & Hlost).
  destruct (Session_try_from_inv _ _ _ Hts) as (Hid & _ & Hu & _ & Hsc & _).
  destruct (fresh_pair_keys _ _ _ _ _ _ _ Hp) as (_ & _ & Hsid & Htext).
  rewrite <-Hid in Hsr. destruct (record_ua_row ua (Session_id s) _ _ Hsr) as (srow' & Hsr' & Hl & Hu').
  apply Scope_from_list_Ok in Hsc as [Hsc _]. destruct Hr as (Hra & _ & _ & Hrs).
  assert (∀ db, db_sessions (lost db) = db_sessions db ∧ db_users (lost db) = db_users db) as Hls.
  { intros db. by destruct Hlost as [[_ ->]|(?&?&?&?&?&?&?&?&_&_&_&_&_&_&_&_&->)]. }
  exists (Session_scope s), (Session_user_id s). rewrite Hd. split; [|split; [done|]].
  - unfold rotated.
    match goal with |- issued_for (revoke_old ?o ?t ?d) _ _ _ =>
      destruct (revoke_old_row o t d (AccessToken_id a) arow) as (arow' & Har & Hs' & Ht');
        [by apply lookup_insert_eq|] end.
    exists (AccessToken_id a), arow', srow'. rewrite Hs', Ht', revoke_old_sessions, Hsid, Htext.
    simpl. rewrite (proj1 (Hls _)). split_and!; congruence.
  - intros Hq. specialize (Hadm Hq). unfold is_admin, rotated in *. rewrite revoke_old_users. simpl.
    rewrite (proj2 (Hls _)), record_ua_users. done.
Qed.

Lemma device_issued req c ttl ip ua st resp st' :
  exchange_device_code req c ttl ip ua st = (Ok resp, st') →
  ∃ scope user, issued_for (st_db st') (Response_access_token resp) scope user ∧
    default ∅ (Response_scope resp) = scope ∧
    (requires_admin scope = true → is_admin (st_db st') user).
Proof.
  intros (gid & g & bs & Ha & sid & t1 & t2 & srow & a & arow & ins & Hsrow & Hnone & Hp & Hra & Hrs
    & Hins & [Hd _])%device_inv.
  destruct Ha as (_ & _ & _ & _ & _ & Hadm & usrow & urow & _ & Hur & Hbs).
  destruct Hp as (ta & rng & Harow & _ & Htext & _).
  destruct (record_ua_row ua sid (on_device_grants (alter (DeviceGrantRow_set_exchanged t2 sid) gid)
    (on_sessions <[sid := srow]> (st_db st))) srow) as (srow' & Hsr' & Hl & Hu').
  { apply lookup_insert_eq. }
  assert (∀ db, db_sessions (ins db) = db_sessions db ∧ db_users (ins db) = db_users db ∧
                db_access_tokens (ins db) = db_access_tokens db) as Hi.
  { intros db. unfold device_refresh in Hins. case_match; [|by destruct Hins as [_ ->]].
    by destruct Hins as (?&?&?&_&_&_&_&_&->). }
  exists (DeviceCodeGrant_scope g), (Some (User_id (BrowserSession_user bs))). rewrite Hd.
  split; [|split].
  - exists (AccessToken_id a), arow, srow'. destruct (Hi (on_access_tokens <[AccessToken_id a:=arow]>
      (device_session_created ua sid srow t2 gid (st_db st)))) as (-> & _ & ->).
    cbn [db_access_tokens on_access_tokens db_sessions]. rewrite lookup_insert_eq, Harow.
    cbn [AccessTokenRow_access_token AccessTokenRow_oauth2_session_id new_access_token_row].
    split; [done|]. split; [done|]. split; [done|]. split.
    + rewrite Hl, Hsrow. apply scope_of_iter.
    + by rewrite Hu', Hsrow.
  - rewrite Hrs. destruct (Scope_is_empty (DeviceCodeGrant_scope g)) eqn:He; simpl; [|done].
    apply bool_decide_eq_true in He. by rewrite He.
  - intros Hq. unfold admin_scope_allowed in Hadm. rewrite Hq in Hadm. simpl in Hadm.
    unfold is_admin. exists (UserSessionRow_user_id usrow), urow. rewrite Hbs in *. simpl in *.
    rewrite (proj1 (proj2 (Hi _))). simpl. unfold device_session_created. rewrite record_ua_users. done.
Qed.
End issued.

(** The session of a client credentials grant has no user. *)
Lemma client_credentials_refused `{TokenExternals, PkceExternals, UrlExternals, DbExternals,
    HandlerExternals} g c ttl ip ua st :
  ∃ e, (handle_client_credentials g c ttl ip ua st).1 = Err e.
Proof.
  destruct (handle_client_credentials g c ttl ip ua st) as [[r|e] st'] eqn:H'; [|by eexists].
  unfold handle_client_credentials, oauth2_session_add_from_client_credentials in H'.
  repeat (apply bind_Ok_inv in H' as (?&?&?&H')).
  match goal with H : try_with _ (oauth2_session_add _ _ _ _) _ = _ |- _ =>
    apply try_with_Ok_inv, session_add_inv in H as (?&?&_&_&_&_&_&_&Hv&_) end.
  done.
Qed.

(** ** The authorization code grant *)

Section theorems.
Context {TX : TokenExternals} {PX : PkceExternals} {UX : UrlExternals}
        {DX : DbExternals} {HX : HandlerExternals}.

(** C1. An authorization code is exchanged only by a client that may use the
    grant, that the fulfilling session belongs to, and that repeats the redirect
    URI and answers the PKCE challenge, within ten minutes of the consent, and
    never for an administrative scope of a user who is not an administrator.
    The database then holds exactly the recorded user agent, a fresh pair of
    tokens for that session, and the grant marked as exchanged; the reply
    carries that pair, and an ID token exactly for the scope [openid]. Nothing
    is committed yet. *)
Theorem code_exchange_correct req c ttl ip ua st resp st' :
  exchange_authorization_code req c ttl ip ua st = (Ok resp, st') →
  ∃ gid g sid s, code_authorised req c (st_clock st 0%nat) (st_db st) gid g sid s ∧
  ∃ a r arow rrow t,
    fresh_pair (record_ua ua sid (st_db st)) sid ttl a r arow rrow ∧
    pair_response a r ttl s resp ∧
    (is_Some (Response_id_token resp) ↔ Scope_contains (Session_scope s) OPENID = true) ∧
    ran st st' (code_exchanged ua sid (AccessToken_id a) arow (RefreshToken_id r) rrow t gid).
Proof.
  intros (gid & g & sid & s & Ha & a & r & arow & rrow & t & Hp & Hr & Hi & _ & Hran)%code_exchange_inv.
  exists gid, g, sid, s. split; [done|]. by exists a, r, arow, rrow, t.
Qed.

(** A code presented again more than twenty seconds after its exchange, by
    whichever client, is refused, and the live session it was exchanged for is
    ended in the committed database. *)
Theorem code_replay_ends_session req c ttl ip ua st gid row g sid f x srow s :
  Client_has_grant_type c GrantType_AuthorizationCode = true →
  find_first (has_code (code_grant_code req)) (db_grants (st_db st)) = Some (gid, row) →
  AuthorizationGrant_try_from gid row = Ok g →
  AuthorizationGrant_stage g = Grant_Exchanged sid f x →
  REPLAY_GRACE < st_clock st 0%nat - x →
  db_sessions (st_db st) !! sid = Some srow → Session_try_from sid srow = Ok s →
  Session_state s = Session_Valid →
  ∃ st', exchange_authorization_code req c ttl ip ua st = (Err (Ace_InvalidGrant gid), st') ∧
    st_committed st' =
      on_sessions (alter (OAuthSessionRow_set_finished_at (st_clock st 1%nat)) sid) (st_db st).
Proof.
  intros Hc Hf Hg Hst Hlate Hs Hts Hv. destruct (Grant_try_from_inv _ _ _ Hg) as [Hgid _].
  destruct (code_stage_late _ _ _ _ _ _ _ Hst Hlate Hs Hts) as (st' & Hrun & Hco).
  rewrite Hv, Hgid in Hrun. rewrite Hv in Hco. exists st'. split; [|done].
  unfold exchange_authorization_code. rewrite (bind_Ok _ _ _ _ _ (code_grant_run _ _ _ _ _ _ Hc Hf Hg)).
  by apply bind_Err.
Qed.

(** The same late replay, when the session was already ended: the attempt to
    end it again is an invalid transition, so the client is told of a server
    error instead of an invalid grant, and nothing is committed. *)
Theorem code_replay_of_finished_session_errors req c ttl ip ua st gid row g sid f x srow s fin :
  Client_has_grant_type c GrantType_AuthorizationCode = true →
  find_first (has_code (code_grant_code req)) (db_grants (st_db st)) = Some (gid, row) →
  AuthorizationGrant_try_from gid row = Ok g →
  AuthorizationGrant_stage g = Grant_Exchanged sid f x →
  REPLAY_GRACE < st_clock st 0%nat - x →
  db_sessions (st_db st) !! sid = Some srow → Session_try_from sid srow = Ok s →
  Session_state s = Session_Finished fin →
  ∃ st', token_dispatch (Request_AuthorizationCode req) c ttl ip ua st = (Err Route_Internal, st') ∧
    TokenRouteError_render Route_Internal = (500, ServerError) ∧
    st_committed st' = st_committed st.
Proof.
  intros Hc Hf Hg Hst Hlate Hs Hts Hv.
  destruct (code_stage_late _ _ _ _ _ _ _ Hst Hlate Hs Hts) as (st' & Hrun & Hco).
  rewrite Hv in Hrun. rewrite Hv in Hco. exists st'. split_and!; [|done..].
  unfold token_dispatch. apply bind_Err.
  change Route_Internal with (route_of_code_error (Ace_Repository Db_InvalidOperation)).
  apply try_with_Err. unfold exchange_authorization_code.
  rewrite (bind_Ok _ _ _ _ _ (code_grant_run _ _ _ _ _ _ Hc Hf Hg)). by apply bind_Err.
Qed.

(** ** The refresh token grant *)

(** C2. A refresh token is exchanged only by the client its live session belongs
    to; it must be unused, or else the pair that replaced it must never have been
    used (the reply was lost), and that pair is revoked first. The request then
    issues a fresh pair, marks the presented token as consumed and replaced by
    the new one, and revokes the access token it came with. *)
Theorem refresh_exchange_correct req c ttl ip ua st resp st' :
  handle_refresh_token req c ttl ip ua st = (Ok resp, st') →
  ∃ rid rt s lost, refresh_authorised req c (st_db st) rid rt s lost ∧
  ∃ a r arow rrow t1 t2,
    fresh_pair (lost (record_ua ua (Session_id s) (st_db st))) (Session_id s) ttl a r arow rrow ∧
    pair_response a r ttl s resp ∧ Response_id_token resp = None ∧
    ran st st' (λ db, rotated rid (RefreshToken_access_token_id rt)
      (AccessToken_id a) arow (RefreshToken_id r) rrow t1 t2
      (lost (record_ua ua (Session_id s) db))).
Proof.
  intros (rid & rt & s & lost & Ha & a & r & arow & rrow & t1 & t2 & Hp & Hr & Hi & _ & Hran)%refresh_inv.
  exists rid, rt, s, lost. split; [done|]. by exists a, r, arow, rrow, t1, t2.
Qed.

(** ** The device code grant *)

(** C3. A device code is exchanged only by the client it was issued to, before it
    expires, once a user has fulfilled it from a browser session, and never for
    an administrative scope of a user who is not an administrator. A session is
    then created for that user and scope, the grant is marked as exchanged with
    it, and a fresh access token is issued, with a refresh token exactly if the
    client may use the refresh token grant. *)
Theorem device_exchange_correct req c ttl ip ua st resp st' :
  exchange_device_code req c ttl ip ua st = (Ok resp, st') →
  ∃ gid g bs, device_authorised req c (st_clock st 0%nat) (st_db st) gid g bs ∧
  ∃ sid t1 t2 srow a arow ins,
    srow = new_session_row (Some (User_id (BrowserSession_user bs))) (Some (BrowserSession_id bs))
             (Client_id c) (DeviceCodeGrant_scope g) t1 ∧
    db_sessions (st_db st) !! sid = None ∧
    fresh_access (device_session_created ua sid srow t2 gid (st_db st)) sid ttl a arow ∧
    Response_access_token resp = AccessToken_access_token a ∧
    device_refresh c (on_access_tokens <[AccessToken_id a := arow]>
      (device_session_created ua sid srow t2 gid (st_db st))) sid
      (AccessToken_id a) (Response_refresh_token resp) ins ∧
    ran st st' (λ db, ins (on_access_tokens <[AccessToken_id a := arow]>
      (device_session_created ua sid srow t2 gid db))).
Proof.
  intros (gid & g & bs & Ha & sid & t1 & t2 & srow & a & arow & ins & H1 & H2 & H3 & H4 & _ & H5 & H6)%device_inv.
  exists gid, g, bs. split; [done|]. by exists sid, t1, t2, srow, a, arow, ins.
Qed.

(** ** The client credentials grant *)

(** The client credentials grant never succeeds: the session it creates has
    no user, which the schema does not allow. A request that passes every check
    of the handler is answered with the violation. *)
Theorem client_credentials_never_granted g c ttl ip ua st :
  ∃ e, (handle_client_credentials g c ttl ip ua st).1 = Err e ∧
    (Client_has_grant_type c GrantType_ClientCredentials = true →
     requires_admin (default ∅ (cc_grant_scope g)) = false →
     policy_evaluate {| input_user := None; input_client := c; input_session_counts := None;
        input_scope := default ∅ (cc_grant_scope g); input_grant_type := Policy_ClientCredentials;
        input_ip_address := ip; input_user_agent := ua |} = Some [] →
     e = Cce_Repository (Db_Diesel (NotNullViolation "oauth2_sessions" "user_id"))).
Proof.
  unfold handle_client_credentials, require.
  destruct (Client_has_grant_type c GrantType_ClientCredentials); [|by eexists].
  erewrite bind_Ok by reflexivity.
  destruct (requires_admin (default ∅ (cc_grant_scope g))); [by eexists|].
  erewrite bind_Ok by reflexivity.
  destruct (policy_evaluate _) as [res|]; [|by eexists].
  erewrite bind_Ok by reflexivity.
  destruct (EvaluationResult_valid res) eqn:Hv; [|eexists; split; [done|]; by intros _ _ [= ->]].
  erewrite bind_Ok by reflexivity.
  erewrite bind_Err; [by eexists|]. apply try_with_Err.
  unfold oauth2_session_add_from_client_credentials, oauth2_session_add.
  unfold mbind, M_bind, insert_row, clock_now, with_rng. reflexivity.
Qed.

(** ** The endpoint *)

Lemma dispatch_saves form c ttl ip ua st resp st' :
  token_dispatch form c ttl ip ua st = (Ok resp, st') → st_committed st' = st_db st'.
Proof.
  intros H. unfold token_dispatch in H. apply bind_Ok_inv in H as (resp' & st1 & _ & Hs).
  unfold repo_save, mbind, M_bind in Hs. by injection Hs as _ <-.
Qed.

Lemma dispatch_issued form c ttl ip ua st resp st' :
  token_dispatch form c ttl ip ua st = (Ok resp, st') →
  ∃ user, issued_for (st_committed st') (Response_access_token resp)
            (default ∅ (Response_scope resp)) user ∧
    (requires_admin (default ∅ (Response_scope resp)) = true → is_admin (st_committed st') user).
Proof.
  intros H. unfold token_dispatch in H. apply bind_Ok_inv in H as (resp' & st1 & H & Hs).
  unfold repo_save, mbind, M_bind in Hs. injection Hs as -> <-. simpl.
  destruct form as [g|g|g|g|]; [apply try_with_Ok_inv in H..|done].
  - apply code_issued in H as (sc & u & Hi & Hs & Ha). rewrite Hs. eauto.
  - apply refresh_issued in H as (sc & u & Hi & Hs & Ha). rewrite Hs. eauto.
  - destruct (client_credentials_refused g c ttl ip ua st) as (e & He). rewrite H in He. done.
  - apply device_issued in H as (sc & u & Hi & Hs & Ha). rewrite Hs. eauto.
Qed.

(** C4. An access token granted by any grant stands, in the committed database,
    for a session whose scope is the one of the reply; if that scope is
    administrative, the session's user is an administrator. *)
Theorem granted_admin_scope_has_admin form c ttl ip ua st resp st' :
  token_dispatch form c ttl ip ua st = (Ok resp, st') →
  ∃ user, issued_for (st_committed st') (Response_access_token resp)
            (default ∅ (Response_scope resp)) user ∧
    (requires_admin (default ∅ (Response_scope resp)) = true → is_admin (st_committed st') user).
Proof. apply dispatch_issued. Qed.

Context {AX : ClientAuthExternals}.

(** A request either is refused before its grant is looked at, or its grant is
    served for the client it names and authenticates as. *)
Lemma token_handle_post_split req ttl ip ua st r st' :
  token_handle_post req ttl ip ua st = (r, st') →
  (∃ e, r = Err e ∧ same st st') ∨
  (∃ ca client form st1, extract_from_request req = Ok ca ∧
     client_of (st_db st) (authorization_credentials ca) = Some client ∧
     authenticated_by client (st_clock st 0%nat) (authorization_credentials ca) ∧
     authorization_form ca = Some form ∧ same st st1 ∧
     token_dispatch form client ttl ip ua st1 = (r, st')).
Proof.
  unfold token_handle_post. destruct (extract_from_request req) as [ca|]; [|intros [= <- <-]; left; by eexists].
  erewrite bind_Ok by reflexivity. unfold require.
  destruct policy_instantiates; [|intros [= <- <-]; left; by eexists]. erewrite bind_Ok by reflexivity.
  destruct (credentials_fetch (authorization_credentials ca) st) as [[o|e] st1] eqn:Hf.
  2:{ apply credentials_fetch_st in Hf as Hst. subst st1.
      erewrite bind_Err by (by apply try_with_Err). intros [= <- <-]. left. by eexists. }
  apply credentials_fetch_inv in Hf as Ho. destruct Ho as [-> ->].
  erewrite bind_Ok by (by apply try_with_Ok).
  destruct (client_of (st_db st) (authorization_credentials ca)) as [client|] eqn:Hcl; [|intros [= <- <-]; left; by eexists].
  erewrite bind_Ok by reflexivity.
  match goal with |- context [check_credentials ?a ?b ?c ?d client] =>
    destruct (check_credentials a b c d client st) as [[[]|e] st1] eqn:Hc end.
  2:{ apply check_credentials_st in Hc as Hs. erewrite bind_Err by done. intros [= <- <-]. left. by eexists. }
  apply check_credentials_inv in Hc as Ha. destruct Ha as [Ha Hs]. erewrite bind_Ok by done.
  destruct (authorization_form ca) as [form|] eqn:Hform; [|intros [= <- <-]; left; by eexists].
  erewrite bind_Ok by reflexivity. intros H. right. exists ca, client, form, st1.
  do 4 (split; [done|]). split; [exact Hs|exact H].
Qed.

(** A refused token request commits nothing, except that it may end a session
    and record its user agent: no token, grant or session is added, consumed or
    revoked. *)
Theorem refused_token_request_commits_no_token req ttl ip ua st e st' :
  st_db st = st_committed st →
  token_handle_post req ttl ip ua st = (Err e, st') →
  blind (st_committed st') = blind (st_committed st).
Proof.
  intros Hb [(e' & _ & [_ ->])|(ca & client & form & st1 & _ & _ & _ & _ & [Ed Ec] & H)]%token_handle_post_split.
  - done.
  - eapply nothing_saved_dispatch; [|exact H]. unfold only_sessions. by rewrite Ed, Ec, Hb.
Qed.

(** C5. Tokens are granted to authenticated clients only: the credentials of the
    request name a registered client, they are those of the method this client
    registered, and it is this client the grant is served for. The answer is
    committed, and its access token stands there for a session with the scope of
    the answer. *)
Theorem token_request_is_authenticated req ttl ip ua st resp st' :
  token_handle_post req ttl ip ua st = (Ok resp, st') →
  ∃ ca client form st1, extract_from_request req = Ok ca ∧
    client_of (st_db st) (authorization_credentials ca) = Some client ∧
    authenticated_by client (st_clock st 0%nat) (authorization_credentials ca) ∧
    authorization_form ca = Some form ∧ same st st1 ∧
    token_dispatch form client ttl ip ua st1 = (Ok resp, st') ∧
    st_committed st' = st_db st' ∧
    ∃ user, issued_for (st_committed st') (Response_access_token resp)
              (default ∅ (Response_scope resp)) user.
Proof.
  intros [(e & ? & _)|(ca & client & form & st1 & He & Hc & Ha & Hf & Hs & H)]%token_handle_post_split;
    [done|].
  exists ca, client, form, st1. split_and!; try done.
  - by eapply dispatch_saves.
  - apply dispatch_issued in H as (user & Hi & _). by exists user.
Qed.

(** A token request whose credentials cannot be read (a malformed header, form
    or assertion, or none at all) is answered as a server error, although the
    error itself is rendered as a bad request. *)
Theorem unreadable_credentials_are_server_errors req ttl ip ua st e :
  extract_from_request req = Err e →
  token_post req ttl ip ua st = (Err (500, ServerError), st) ∧
  (ClientAuthorizationError_render e).1 = 400.
Proof.
  intros He. split.
  - unfold token_post, token_handle_post. by rewrite He.
  - by destruct (extract_error_client req e He) as [->| ->].
Qed.
End theorems.

(** C39. Every token the endpoint answers with passes the format check, with its
    own type. *)
Theorem granted_tokens_are_well_formed (TX : TokenExternals) (HTX : TokenExternalsOk TX)
    (PX : PkceExternals) (UX : UrlExternals) (DX : DbExternals) (HX : HandlerExternals)
    form c ttl ip ua st resp st' :
  token_dispatch form c ttl ip ua st = (Ok resp, st') →
  TokenType_check (Response_access_token resp) = Ok TokenType_AccessToken ∧
  ∀ t, Response_refresh_token resp = Some t → TokenType_check t = Ok TokenType_RefreshToken.
Proof.
  intros H. unfold token_dispatch in H. apply bind_Ok_inv in H as (resp' & st1 & H & Hs).
  unfold repo_save, mbind, M_bind in Hs. injection Hs as -> <-.
  destruct form as [g|g|g|g|]; [apply try_with_Ok_inv in H..|done].
  - apply code_exchange_inv in H as (?&?&?&?&_&a&r&?&?&?&_&(-> & -> & _)&_&(r1&r2&->&->)&_).
    split; [|intros t Ht; apply (inj Some) in Ht as <-]; by apply check_generated.
  - apply refresh_inv in H as (?&?&?&?&_&a&r&?&?&?&?&_&(-> & -> & _)&_&(r1&r2&->&->)&_).
    split; [|intros t Ht; apply (inj Some) in Ht as <-]; by apply check_generated.
  - destruct (client_credentials_refused g c ttl ip ua st) as (e & He). by rewrite H in He.
  - apply device_inv in H as (?&g'&?&_&?&?&?&?&a&?&?&_&_&(?&r1&_&_&Ha&_)&->&_&Hr&_). rewrite Ha.
    split; [by apply check_generated|]. intros t Ht. unfold device_refresh in Hr.
    destruct (Client_has_grant_type c GrantType_RefreshToken).
    + destruct Hr as (r&?&?&E&_&_&_&(r2&E2)&_). rewrite E, E2 in Ht. apply (inj Some) in Ht as <-.
      by apply check_generated.
    + destruct Hr as [Hr _]. congruence.
Qed.

(** ** The theorems evaluated on a concrete world *)

#[local] Existing Instances World.TX World.PX World.UX World.DX World.HX World.AX.

Lemma code_exchange_correct_witness :
  ∃ resp st', exchange_authorization_code World.code_request World.app World.TTL None (Some "Firefox")
                World.st = (Ok resp, st') ∧
  ∃ gid g sid s, code_authorised World.code_request World.app World.NOW World.db gid g sid s.
Proof.
  destruct (ok_run (exchange_authorization_code World.code_request World.app World.TTL None
    (Some "Firefox") World.st)) as (resp & st' & E); [vm_compute; reflexivity|].
  exists resp, st'. split; [exact E|].
  destruct (code_exchange_correct _ _ _ _ _ _ _ _ E) as (gid & g & sid & s & Ha & _).
  exists gid, g, sid, s. exact Ha.
Defined.

Lemma refresh_exchange_correct_witness :
  ∃ resp st', handle_refresh_token World.refresh_request World.app World.TTL None None World.st
                = (Ok resp, st') ∧
  ∃ rid rt s lost, refresh_authorised World.refresh_request World.app World.db rid rt s lost.
Proof.
  destruct (ok_run (handle_refresh_token World.refresh_request World.app World.TTL None None World.st))
    as (resp & st' & E); [vm_compute; reflexivity|].
  exists resp, st'. split; [exact E|].
  destruct (refresh_exchange_correct _ _ _ _ _ _ _ _ E) as (rid & rt & s & lost & Ha & _).
  exists rid, rt, s, lost. exact Ha.
Defined.

Lemma device_exchange_correct_witness :
  ∃ resp st', exchange_device_code World.device_request World.app World.TTL None None World.st
                = (Ok resp, st') ∧
  ∃ gid g bs, device_authorised World.device_request World.app World.NOW World.db gid g bs.
Proof.
  destruct (ok_run (exchange_device_code World.device_request World.app World.TTL None None World.st))
    as (resp & st' & E); [vm_compute; reflexivity|].
  exists resp, st'. split; [exact E|].
  destruct (device_exchange_correct _ _ _ _ _ _ _ _ E) as (gid & g & bs & Ha & _).
  exists gid, g, bs. exact Ha.
Defined.

Lemma granted_admin_scope_has_admin_witness :
  ∃ resp st', token_dispatch (Request_AuthorizationCode World.code_request) World.app World.TTL None
                None World.st = (Ok resp, st') ∧
  ∃ user, issued_for (st_committed st') (Response_access_token resp)
            (default ∅ (Response_scope resp)) user.
Proof.
  destruct (ok_run (token_dispatch (Request_AuthorizationCode World.code_request) World.app World.TTL
    None None World.st)) as (resp & st' & E); [vm_compute; reflexivity|].
  exists resp, st'. split; [exact E|].
  destruct (granted_admin_scope_has_admin _ _ _ _ _ _ _ _ E) as (user & Hi & _).
  exists user. exact Hi.
Defined.

Lemma code_replay_ends_session_witness :
  ∃ st', exchange_authorization_code World.code_request World.app World.TTL None None
           (World.at_db World.exchanged_db) = (Err (Ace_InvalidGrant 2000), st') ∧
    st_committed st' = on_sessions (alter (OAuthSessionRow_set_finished_at (World.NOW + 1)) 1000)
                         World.exchanged_db.
Proof.
  eapply (code_replay_ends_session World.code_request World.app World.TTL None None
    (World.at_db World.exchanged_db) 2000 _ _ 1000 _ _ World.session_row);
    [reflexivity|vm_compute; reflexivity|vm_compute; reflexivity|reflexivity|vm_compute; reflexivity
    |vm_compute; reflexivity|vm_compute; reflexivity|reflexivity].
Defined.

Lemma code_replay_of_finished_session_errors_witness :
  ∃ st', token_dispatch (Request_AuthorizationCode World.code_request) World.app World.TTL None None
           (World.at_db World.exchanged_finished_db) = (Err Route_Internal, st') ∧
    TokenRouteError_render Route_Internal = (500, ServerError) ∧
    st_committed st' = World.exchanged_finished_db.
Proof.
  eapply (code_replay_of_finished_session_errors World.code_request World.app World.TTL None None
    (World.at_db World.exchanged_finished_db) 2000 _ _ 1000 _ _
    (OAuthSessionRow_set_finished_at (World.NOW - 20000000) World.session_row));
    [reflexivity|vm_compute; reflexivity|vm_compute; reflexivity|reflexivity|vm_compute; reflexivity
    |vm_compute; reflexivity|vm_compute; reflexivity|reflexivity].
Defined.

Lemma refused_token_request_commits_no_token_witness :
  ∃ e st', token_handle_post
             (World.public_request "100" (Request_AuthorizationCode World.code_request))
             World.TTL None None (World.at_db World.exchanged_db) = (Err e, st') ∧
    blind (st_committed st') = blind World.exchanged_db.
Proof.
  destruct (token_handle_post
    (World.public_request "100" (Request_AuthorizationCode World.code_request)) World.TTL None None
    (World.at_db World.exchanged_db)) as [[r|e] st'] eqn:E.
  - exfalso. apply (f_equal (λ p, is_ok p.1)) in E. vm_compute in E. discriminate E.
  - exists e, st'. split; [reflexivity|].
    refine (refused_token_request_commits_no_token _ _ _ _ _ _ _ _ E). reflexivity.
Defined.

Lemma token_request_is_authenticated_witness :
  ∃ resp st' client cr, token_handle_post
      (World.public_request "100" (Request_AuthorizationCode World.code_request))
      World.TTL None None World.st = (Ok resp, st') ∧
    client_of World.db cr = Some client ∧ authenticated_by client World.NOW cr.
Proof.
  destruct (ok_run (token_handle_post
    (World.public_request "100" (Request_AuthorizationCode World.code_request)) World.TTL None None
    World.st)) as (resp & st' & E); [vm_compute; reflexivity|].
  destruct (token_request_is_authenticated _ _ _ _ _ _ _ E) as (ca & client & form & st1 & _ & Hc & Ha & _).
  exists resp, st', client, (authorization_credentials ca). split; [exact E|]. split; [exact Hc|exact Ha].
Defined.

Lemma unreadable_credentials_are_server_errors_witness :
  extract_from_request (World.header_request "Basic !" (Request_AuthorizationCode World.code_request))
    = Err Cae_InvalidHeader ∧
  token_post (World.header_request "Basic !" (Request_AuthorizationCode World.code_request))
    World.TTL None None World.st = (Err (500, ServerError), World.st).
Proof.
  assert (E : extract_from_request
    (World.header_request "Basic !" (Request_AuthorizationCode World.code_request))
    = Err Cae_InvalidHeader) by reflexivity.
  split; [exact E|]. exact (proj1 (unreadable_credentials_are_server_errors _ _ _ _ _ _ E)).
Defined.

Lemma granted_tokens_are_well_formed_witness :
  ∃ resp st', token_dispatch (Request_RefreshToken World.refresh_request) World.app World.TTL None
                None World.st = (Ok resp, st') ∧
  TokenType_check (Response_access_token resp) = Ok TokenType_AccessToken.
Proof.
  destruct (ok_run (token_dispatch (Request_RefreshToken World.refresh_request) World.app World.TTL
    None None World.st)) as (resp & st' & E); [vm_compute; reflexivity|].
  exists resp, st'. split; [exact E|].
  exact (proj1 (granted_tokens_are_well_formed _ token_externals_example_ok _ _ _ _ _ _ _ _ _ _ _ _ E)).
Defined.
