(* ===== verification/IntrospectionProofs.v ===== *)
(** The theorems about introspection and revocation. [live_token] is the abstract
    specification: when the database holds a token that stands for someone, as a
    boolean function of the tables; [introspect_token] is proved to answer
    exactly the live tokens. *)
From S2P Require Import Prelude Ids TokenFormat Scope Pkce Jose Keystore Domain Database Repository Handlers ClientAuth RepositorySpec TokenService World ClientAuthProofs TokenSpec Introspection Revocation.

Open Scope Z_scope.

(** ** The specification *)

Definition unset {A} (o : option A) : bool := match o with None => true | Some _ => false end.

(** A user who exists, is not locked and not deactivated. *)
Definition user_live (db : DB) (user_id : Ulid) : bool :=
  match db_users db !! user_id with
  | Some row => unset (UserRow_locked_at row) && unset (UserRow_deactivated_at row)
  | None => false
  end.

(** A session that exists, is not finished, whose scope can be read and whose
    user, if any, is live. *)
Definition session_live (db : DB) (session_id : Ulid) : bool :=
  match db_sessions db !! session_id with
  | Some row =>
      unset (OAuthSessionRow_finished_at row) && is_ok (Scope_from_list (OAuthSessionRow_scope_list row))
      && match OAuthSessionRow_user_id row with Some u => user_live db u | None => true end
  | None => false
  end.

Section owner.
Context {UX : UrlExternals} {DX : DbExternals}.

(** The one owner of a personal session is live. *)
Definition owner_live (db : DB) (row : PersonalSessionRow) : bool :=
  match PersonalSessionRow_owner_user_id row, PersonalSessionRow_owner_oauth2_client_id row with
  | Some u, None => user_live db u
  | None, Some c => bool_decide (is_Some (client_at db c))
  | _, _ => false
  end.

Definition personal_session_live (db : DB) (session_id : Ulid) : bool :=
  match db_personal_sessions db !! session_id with
  | Some row =>
      unset (PersonalSessionRow_revoked_at row)
      && is_ok (Scope_from_list (PersonalSessionRow_scope_list row))
      && user_live db (PersonalSessionRow_actor_user_id row) && owner_live db row
  | None => false
  end.
End owner.

Section live.
Context {TX : TokenExternals} {UX : UrlExternals} {DX : DbExternals}.

Definition live_token (now : DateTime) (db : DB) (token : string) : bool :=
  match TokenType_check token with
  | Ok TokenType_AccessToken =>
      match find_first (has_access_token token) (db_access_tokens db) with
      | Some (_, row) =>
          unset (AccessTokenRow_revoked_at row)
          && match AccessTokenRow_expires_at row with Some e => now <=? e | None => true end
          && session_live db (AccessTokenRow_oauth2_session_id row)
      | None => false
      end
  | Ok TokenType_RefreshToken =>
      match find_first (has_refresh_token token) (db_refresh_tokens db) with
      | Some (_, row) =>
          unset (RefreshTokenRow_revoked_at row) && unset (RefreshTokenRow_consumed_at row)
          && unset (RefreshTokenRow_next_oauth2_refresh_token_id row)
          && session_live db (RefreshTokenRow_oauth2_session_id row)
      | None => false
      end
  | Ok TokenType_PersonalAccessToken =>
      match find_first (has_token_sha256 (sha256_digest token)) (db_personal_tokens db) with
      | Some (_, row) =>
          unset (PersonalTokenRow_revoked_at row)
          && match PersonalTokenRow_expires_at row with Some e => now <? e | None => true end
          && personal_session_live db (PersonalTokenRow_personal_session_id row)
      | None => false
      end
  | Err _ => false
  end.

(** The hint, if there is one, is about the type of the token. *)
Definition hint_agrees (token : string) (hint : option OAuthTokenTypeHint) : bool :=
  match hint, TokenType_check token with
  | Some hint, Ok t => TokenType_eq_hint t hint
  | _, _ => true
  end.

(** ** Equations of the parts of the handler *)

Lemma introspect_user_eq u st :
  introspect_user u st =
    (match db_users (st_db st) !! u with
     | None => Err (Int_CantLoadUser u)
     | Some row => if user_live (st_db st) u then Ok (User_build u row) else Err (Int_InvalidUser u)
     end, st).
Proof.
  unfold introspect_user, user_lookup, user_live, select_by_id, gets, try_with, mbind, M_bind.
  destruct (db_users (st_db st) !! u) as [row|]; [|done]. simpl. unfold require, User_is_valid. simpl.
  by destruct (UserRow_locked_at row), (UserRow_deactivated_at row).
Qed.

Lemma introspect_session_eq sid st :
  introspect_session sid st =
    (match db_sessions (st_db st) !! sid with
     | None => Err (Int_CantLoadOAuthSession sid)
     | Some row =>
         match Session_try_from sid row with
         | Err e => Err (Int_Repository e)
         | Ok s => if unset (OAuthSessionRow_finished_at row) then Ok s
                   else Err (Int_InvalidOAuthSession sid)
         end
     end, st).
Proof.
  unfold introspect_session, oauth2_session_lookup, select_by_id, gets, try_with, mbind, M_bind.
  destruct (db_sessions (st_db st) !! sid) as [row|]; [|done]. simpl.
  unfold of_result, mbind, M_bind, Session_try_from.
  destruct (Scope_from_list _); [|done]. simpl. unfold require, Session_is_valid. simpl.
  by destruct (OAuthSessionRow_finished_at row).
Qed.

(** The result of [f] on [Ok], seen as a boolean. *)
Lemma is_ok_bind {A B E} (m : M St E A) (k : A → M St E B) st :
  is_ok ((m ≫= k) st).1 =
    match m st with (Ok a, st') => is_ok (k a st').1 | (Err _, _) => false end.
Proof. unfold mbind, M_bind. by destruct (m st) as [[]]. Qed.

Lemma introspect_subject_ok s st :
  is_ok (introspect_subject s st).1 =
    match Session_user_id s with Some u => user_live (st_db st) u | None => true end ∧
  st_db (introspect_subject s st).2 = st_db st.
Proof.
  unfold introspect_subject. destruct (Session_user_id s) as [u|]; [|done].
  unfold mbind, M_bind. rewrite introspect_user_eq. unfold user_live.
  destruct (db_users (st_db st) !! u) as [row|]; [|done]. by destruct (_ && _).
Qed.

(** Marking a token that is there as used succeeds. *)
Lemma mark_used_ok a row st :
  db_access_tokens (st_db st) !! AccessToken_id a = Some row →
  ∃ a' st', access_token_mark_used a st = (Ok a', st') ∧
    db_users (st_db st') = db_users (st_db st) ∧
    AccessToken_expires_at a' = AccessToken_expires_at a.
Proof.
  intros Ha. unfold access_token_mark_used, update_one, update_by_id, mbind, M_bind. simpl.
  rewrite Ha. simpl. by eexists _, _.
Qed.

Lemma user_live_users db db' u : db_users db' = db_users db → user_live db' u = user_live db u.
Proof. unfold user_live. by intros ->. Qed.

(** The session and its user, checked by the handler one after the other. *)
Lemma session_then_user {B} sid st (k : Session → M St IntrospectionError B) :
  (∀ s, is_ok (k s st).1 =
     match Session_user_id s with Some u => user_live (st_db st) u | None => true end) →
  is_ok ((introspect_session sid ≫= k) st).1 = session_live (st_db st) sid.
Proof.
  intros Hk. rewrite is_ok_bind, introspect_session_eq. unfold session_live.
  destruct (db_sessions (st_db st) !! sid) as [row|]; [|done].
  destruct (Session_try_from sid row) as [s|e] eqn:Hs.
  - destruct (Session_try_from_inv _ _ _ Hs) as (_ & _ & Hu & _ & Hsc & _). rewrite Hsc.
    destruct (unset _); [|done]. rewrite Hk, Hu. done.
  - unfold Session_try_from in Hs. destruct (Scope_from_list _); [done|]. by rewrite andb_false_r.
Qed.

(** Once the subject is known, the reply is built without fail. *)
Lemma subject_then_reply {B} s st (k : option string * option string * bool → M St IntrospectionError B) :
  (∀ x st', is_ok (k x st').1 = true) →
  is_ok ((introspect_subject s ≫= k) st).1 =
    match Session_user_id s with Some u => user_live (st_db st) u | None => true end.
Proof.
  intros Hk. rewrite is_ok_bind. destruct (introspect_subject_ok s st) as [Hs _].
  rewrite <-Hs. destruct (introspect_subject s st) as [[x|e] st']; [by rewrite Hk|done].
Qed.

Lemma introspect_access_ok token st :
  is_ok (introspect_access_token token st).1 =
    match find_first (has_access_token token) (db_access_tokens (st_db st)) with
    | Some (_, row) =>
        unset (AccessTokenRow_revoked_at row)
        && match AccessTokenRow_expires_at row with Some e => st_clock st 0%nat <=? e | None => true end
        && session_live (st_db st) (AccessTokenRow_oauth2_session_id row)
    | None => false
    end.
Proof.
  unfold introspect_access_token. rewrite is_ok_bind.
  unfold access_token_find_by_token, select_first, gets, try_with at 1, mbind at 1, M_bind at 1.
  destruct (find_first _ _) as [[aid row]|] eqn:Hf; [|done]. cbn [fmap option_fmap option_map fst snd mret M_ret].
  apply find_first_Some in Hf as [Hrow _]. rewrite is_ok_bind. cbn [ok_or mret M_ret].
  rewrite is_ok_bind. cbn [clock_now]. rewrite is_ok_bind.
  unfold require at 1, AccessToken_is_valid, AccessToken_is_expired.
  cbn [AccessToken_from AccessToken_state AccessToken_expires_at AccessToken_session_id].
  destruct (AccessTokenRow_revoked_at row); [done|].
  cbn [AccessTokenState_is_valid unset andb].
  replace (match AccessTokenRow_expires_at row with Some e => st_clock st 0%nat <=? e | None => true end)
    with (negb (match AccessTokenRow_expires_at row with Some e => e <? st_clock st 0%nat | None => false end))
    by (destruct (AccessTokenRow_expires_at row); [by rewrite Z.leb_antisym|done]).
  destruct (negb _); [|done]. cbn [andb mret M_ret]. rewrite session_then_user; [done|].
  intros s. rewrite is_ok_bind. destruct (AccessToken_is_used _).
  - cbn [mret M_ret]. apply subject_then_reply. intros [[sub username] adm] st'.
    unfold remaining. by destruct (AccessToken_expires_at _).
  - destruct (mark_used_ok (AccessToken_from aid row) row (with_clock (λ n, st_clock st (S n)) st))
      as (a' & st' & Hm & Hu & _); [done|].
    erewrite try_with_Ok by exact Hm. rewrite subject_then_reply.
    + destruct (Session_user_id s); [|done]. by apply user_live_users.
    + intros [[sub username] adm] st''. unfold remaining. by destruct (AccessToken_expires_at _).
Qed.

Lemma introspect_refresh_ok token st :
  is_ok (introspect_refresh_token token st).1 =
    match find_first (has_refresh_token token) (db_refresh_tokens (st_db st)) with
    | Some (_, row) =>
        unset (RefreshTokenRow_revoked_at row) && unset (RefreshTokenRow_consumed_at row)
        && unset (RefreshTokenRow_next_oauth2_refresh_token_id row)
        && session_live (st_db st) (RefreshTokenRow_oauth2_session_id row)
    | None => false
    end.
Proof.
  unfold introspect_refresh_token. rewrite is_ok_bind.
  unfold refresh_token_find_by_token, select_first, gets, try_with, mbind at 1, M_bind at 1.
  destruct (find_first _ _) as [[rid row]|]; [|done]. unfold try_into, of_result, mbind at 1, M_bind at 1.
  unfold RefreshToken_try_from.
  destruct (RefreshTokenRow_revoked_at row), (RefreshTokenRow_consumed_at row),
    (RefreshTokenRow_next_oauth2_refresh_token_id row); try done.
  cbn [result_bind mret M_ret]. rewrite is_ok_bind. cbn [ok_or mret M_ret].
  rewrite is_ok_bind. cbn [require RefreshTokenState_is_valid RefreshToken_state mret M_ret unset andb].
  rewrite session_then_user; [done|]. intros s. apply subject_then_reply.
  by intros [[sub username] adm] st'.
Qed.

Lemma introspect_owner_ok row o adm st :
  owner_columns o = (PersonalSessionRow_owner_user_id row, PersonalSessionRow_owner_oauth2_client_id row) →
  is_ok (introspect_owner o adm st).1 = owner_live (st_db st) row.
Proof.
  unfold owner_live. destruct o as [u|c]; simpl; intros [= <- <-]; rewrite is_ok_bind.
  - rewrite introspect_user_eq. unfold user_live. destruct (db_users (st_db st) !! u); [|done].
    by destruct (_ && _).
  - unfold try_with. rewrite client_lookup_run. unfold client_at.
    destruct (db_clients (st_db st) !! c) as [crow|]; simpl; [|done]. by destruct (Client_try_from c crow).
Qed.

Lemma PersonalSession_try_from_live id r s :
  PersonalSession_try_from id r = Ok s →
  PersonalSession_id s = id ∧
  PersonalSession_actor_user_id s = PersonalSessionRow_actor_user_id r ∧
  PersonalSessionState_is_valid (PersonalSession_state s) = unset (PersonalSessionRow_revoked_at r) ∧
  is_ok (Scope_from_list (PersonalSessionRow_scope_list r)) = true ∧
  owner_columns (PersonalSession_owner s) =
    (PersonalSessionRow_owner_user_id r, PersonalSessionRow_owner_oauth2_client_id r).
Proof.
  unfold PersonalSession_try_from. destruct (Scope_from_list _); [|done]. simpl.
  destruct (PersonalSessionRow_owner_user_id r), (PersonalSessionRow_owner_oauth2_client_id r);
    try done; intros [= <-]; simpl; by destruct (PersonalSessionRow_revoked_at r).
Qed.

Lemma introspect_personal_ok token st :
  is_ok (introspect_personal_token token st).1 =
    match find_first (has_token_sha256 (sha256_digest token)) (db_personal_tokens (st_db st)) with
    | Some (_, row) =>
        unset (PersonalTokenRow_revoked_at row)
        && match PersonalTokenRow_expires_at row with Some e => st_clock st 0%nat <? e | None => true end
        && personal_session_live (st_db st) (PersonalTokenRow_personal_session_id row)
    | None => false
    end.
Proof.
  unfold introspect_personal_token. rewrite is_ok_bind.
  unfold personal_token_find_by_token, select_first, gets, try_with, mbind at 1, M_bind at 1.
  destruct (find_first _ _) as [[tid row]|]; [|done]. cbn [fmap option_fmap option_map fst snd mret M_ret].
  rewrite is_ok_bind. cbn [ok_or mret M_ret]. rewrite is_ok_bind. cbn [clock_now].
  rewrite is_ok_bind. unfold require at 1, PersonalAccessToken_is_valid.
  cbn [PersonalAccessToken_from PersonalAccessToken_revoked_at PersonalAccessToken_expires_at
       PersonalAccessToken_session_id].
  destruct (PersonalTokenRow_revoked_at row); [done|]. rewrite bool_decide_eq_false_2 by (by intros []).
  cbn [unset andb].
  destruct (match PersonalTokenRow_expires_at row with Some _ => _ | None => _ end); [|done].
  cbn [mret M_ret andb]. set (st1 := with_clock _ st).
  change (st_db st) with (st_db st1). unfold personal_session_live.
  rewrite is_ok_bind.
  unfold personal_session_lookup, select_by_id, gets, mbind at 1, M_bind at 1.
  destruct (db_personal_sessions (st_db st1) !! _) as [srow|]; [|done].
  cbn [keyed fmap option_fmap option_map]. unfold try_into, of_result, mbind at 1, M_bind at 1.
  destruct (PersonalSession_try_from _ srow) as [s|e] eqn:Hs.
  - destruct (PersonalSession_try_from_live _ _ _ Hs) as (Hid & Hact & Hst & Hsc & Hown).
    cbn [mret M_ret]. rewrite is_ok_bind. cbn [ok_or mret M_ret].
    rewrite is_ok_bind. unfold require. rewrite Hst, Hsc. destruct (unset _); [|done].
    cbn [mret M_ret andb]. rewrite is_ok_bind, introspect_user_eq, Hact. unfold user_live at 1.
    destruct (db_users (st_db st1) !! _) as [urow|] eqn:Hu; [|by unfold user_live; rewrite Hu].
    unfold user_live at 1. rewrite Hu.
    destruct (_ && _); [|done]. cbn [andb]. rewrite is_ok_bind.
    rewrite <-(introspect_owner_ok srow _ (User_can_request_admin (User_build (PersonalSessionRow_actor_user_id srow) urow)) st1 Hown).
    destruct (introspect_owner _ _ st1) as [[[adm cid]|e] st2]; [|done].
    unfold remaining. by destruct (PersonalTokenRow_expires_at row).
  - cbn [is_ok fst]. symmetry. unfold PersonalSession_try_from in Hs. unfold owner_live.
    destruct (Scope_from_list _); [|by rewrite andb_false_r].
    simpl in Hs. repeat case_match; try done; by rewrite andb_false_r.
Qed.

Lemma introspect_ok token hint st :
  is_ok (introspect_token token hint st).1 =
    hint_agrees token hint && live_token (st_clock st 0%nat) (st_db st) token.
Proof.
  unfold introspect_token, hint_agrees, live_token. rewrite is_ok_bind. unfold of_result.
  destruct (TokenType_check token) as [t|e]; [|by rewrite andb_false_r]. simpl.
  rewrite is_ok_bind. destruct hint as [h|]; simpl; unfold require;
    [destruct (TokenType_eq_hint t h); [|done]|]; simpl;
    destruct t; auto using introspect_access_ok, introspect_refresh_ok, introspect_personal_ok.
Qed.


(** ** The reply, and what introspection changes *)

Lemma introspect_user_inv u st user st' :
  introspect_user u st = (Ok user, st') →
  st' = st ∧ ∃ row, db_users (st_db st) !! u = Some row ∧ user = User_build u row.
Proof.
  rewrite introspect_user_eq. destruct (db_users (st_db st) !! u) as [row|]; [|done].
  destruct (user_live _ _); [|done]. intros [= <- <-]. by split; [|eexists].
Qed.

Lemma introspect_session_inv sid st s st' :
  introspect_session sid st = (Ok s, st') →
  st' = st ∧ ∃ row, db_sessions (st_db st) !! sid = Some row ∧ Session_try_from sid row = Ok s.
Proof.
  rewrite introspect_session_eq. destruct (db_sessions (st_db st) !! sid) as [row|]; [|done].
  destruct (Session_try_from sid row) eqn:Hs; [|done]. destruct (unset _); [|done].
  intros [= <- <-]. split; [done|]. by exists row.
Qed.

(** The subject: its [sub] names a user of the database, who decides about
    administrative scopes. *)
Definition subject_of (db : DB) (sub : option string) (is_admin : bool) : Prop :=
  is_admin = true → ∃ u row, sub = Some (ulid_to_string u) ∧ db_users db !! u = Some row ∧
                             UserRow_can_request_admin row = true.

Lemma introspect_subject_inv s st x st' :
  introspect_subject s st = (Ok x, st') → st' = st ∧ subject_of (st_db st) x.1.1 x.2.
Proof.
  unfold introspect_subject, subject_of. intros H. repo_inv.
  - match goal with H : introspect_user _ _ = _ |- _ =>
      apply introspect_user_inv in H as (-> & row & Hu & ->) end.
    split; [done|]. simpl. eauto.
  - done.
Qed.

(** A scope made for a subject only carries administrative tokens for an administrator. *)
Lemma subject_scope db sub b s :
  subject_of db sub b → requires_admin (normalize_scope (strip_admin_scope_unless s b)) = true →
  ∃ u row, sub = Some (ulid_to_string u) ∧ db_users db !! u = Some row ∧
           UserRow_can_request_admin row = true.
Proof.
  intros Hs. rewrite requires_admin_normalize. destruct b; [by intros _; apply Hs|].
  rewrite requires_admin_spec. intros (t & [_ [?|?]]%elem_of_strip_admin & ?); congruence.
Qed.

(** What introspection may change: the first use of the access token. *)
Definition first_use (token : string) (st st' : St) : Prop :=
  same st st' ∨
  ∃ aid row t, find_first (has_access_token token) (db_access_tokens (st_db st)) = Some (aid, row) ∧
    AccessTokenRow_first_used_at row = None ∧
    ran st st' (on_access_tokens (alter (AccessTokenRow_set_first_used_at t) aid)).

Definition reply_ok (db : DB) (r : IntrospectionResponse) : Prop :=
  resp_active r = true ∧
  ∃ scope, resp_scope r = Some scope ∧
    (requires_admin scope = true →
     ∃ u row, resp_sub r = Some (ulid_to_string u) ∧ db_users db !! u = Some row ∧
              UserRow_can_request_admin row = true).

Lemma remaining_inv {E} o st (x : option Duration) st' :
  (remaining o : M St E _) st = (Ok x, st') → same st st'.
Proof. unfold remaining. destruct o; by intros [= _ <-]. Qed.

Lemma introspect_access_inv token st r st' :
  introspect_access_token token st = (Ok r, st') →
  reply_ok (st_db st) r ∧ first_use token st st'.
Proof.
  unfold introspect_access_token, reply_ok, first_use. intros H.
  apply bind_Ok_inv in H as (o & st1 & Hf & H). apply try_with_Ok_inv in Hf.
  apply access_token_find_inv in Hf as [-> Ho].
  apply bind_Ok_inv in H as (a & st1 & Ha & H). apply ok_or_Ok_inv in Ha as [-> ->].
  apply bind_Ok_inv in H as (now & st1 & Hn & H). apply clock_now_inv in Hn as [-> Hn].
  apply bind_Ok_inv in H as (u & st2 & Hq & H). apply require_inv in Hq as [_ ->].
  apply bind_Ok_inv in H as (s & st2 & Hs & H). apply introspect_session_inv in Hs as [-> _].
  destruct Ho as (aid & row & Hfind & ->).
  apply bind_Ok_inv in H as (a & st3 & Hm & H).
  apply bind_Ok_inv in H as ([[sub username] adm] & st4 & Hsub & H).
  apply introspect_subject_inv in Hsub as [-> Hsub]. simpl in Hsub.
  apply bind_Ok_inv in H as (u2 & st5 & Hact & H). apply record_activity_inv in Hact.
  apply bind_Ok_inv in H as (e & st6 & He & H). apply remaining_inv in He.
  injection H as <- <-.
  assert (first_use token st st3 ∧ db_users (st_db st3) = db_users (st_db st)) as [Hfu Hus].
  { unfold first_use. destruct (AccessToken_is_used _) eqn:Hused.
    - injection Hm as _ <-. split; [by left|]. by rewrite (proj1 Hn).
    - apply try_with_Ok_inv, access_token_mark_used_inv in Hm as (t & _ & _ & _ & _ & Hr).
      pose proof (same_ran _ _ _ _ Hn Hr) as Hr'. split; [|by rewrite (proj1 Hr')].
      right. exists aid, row, t. split_and!; [done| |done].
      apply bool_decide_eq_false in Hused. by apply eq_None_not_Some. }
  split.
  - split; [done|]. eexists. split; [done|]. simpl. intros Hq.
    eapply subject_scope in Hq; [|exact Hsub]. by rewrite Hus in Hq.
  - destruct Hfu as [Hsame|(i & rw & t & H1 & H2 & H3)].
    + left. by do 2 (etrans; [|eassumption]).
    + right. exists i, rw, t. split_and!; [done..|]. eapply ran_same; [exact H3|]. by etrans.
Qed.

Lemma introspect_refresh_inv token st r st' :
  introspect_refresh_token token st = (Ok r, st') → reply_ok (st_db st) r ∧ same st st'.
Proof.
  unfold introspect_refresh_token. intros H.
  apply bind_Ok_inv in H as (o & st1 & Hf & H). apply try_with_Ok_inv in Hf.
  apply refresh_token_find_inv in Hf as [-> Ho].
  apply bind_Ok_inv in H as (rt & st1 & Ha & H). apply ok_or_Ok_inv in Ha as [-> ->].
  apply bind_Ok_inv in H as (u & st2 & Hq & H). apply require_inv in Hq as [_ ->].
  apply bind_Ok_inv in H as (s & st2 & Hs & H). apply introspect_session_inv in Hs as [-> _].
  apply bind_Ok_inv in H as ([[sub username] adm] & st4 & Hsub & H).
  apply introspect_subject_inv in Hsub as [-> Hsub]. simpl in Hsub.
  apply bind_Ok_inv in H as (u2 & st5 & Hact & H). apply record_activity_inv in Hact.
  injection H as <- <-. split; [|done]. split; [done|]. eexists. split; [done|].
  simpl. intros Hq. by eapply subject_scope.
Qed.

Lemma introspect_owner_inv o adm st x st' :
  introspect_owner o adm st = (Ok x, st') → st' = st ∧ (x.1 = true → adm = true).
Proof.
  unfold introspect_owner. intros H. repo_inv; simpl in *.
  - match goal with H : introspect_user _ _ = _ |- _ => apply introspect_user_inv in H as [-> _] end.
    split; [done|]. by destruct adm.
  - match goal with H : oauth2_client_lookup _ _ = _ |- _ => apply client_lookup_inv in H as [-> _] end.
    by split.
Qed.

Lemma introspect_personal_inv token st r st' :
  introspect_personal_token token st = (Ok r, st') → reply_ok (st_db st) r ∧ same st st'.
Proof.
  unfold introspect_personal_token. intros H.
  apply bind_Ok_inv in H as (o & st1 & Hf & H). apply try_with_Ok_inv in Hf.
  apply personal_token_find_inv in Hf as [-> Ho].
  apply bind_Ok_inv in H as (a & st1 & Ha & H). apply ok_or_Ok_inv in Ha as [-> ->].
  apply bind_Ok_inv in H as (now & st1 & Hn & H). apply clock_now_inv in Hn as [-> Hn].
  apply bind_Ok_inv in H as (u & st2 & Hq & H). apply require_inv in Hq as [_ ->].
  apply bind_Ok_inv in H as (s & st2 & Hs & H). apply try_with_Ok_inv in Hs.
  apply personal_session_lookup_inv in Hs as [-> _].
  apply bind_Ok_inv in H as (s' & st2 & Hs & H). apply ok_or_Ok_inv in Hs as [-> ->].
  apply bind_Ok_inv in H as (u2 & st2 & Hq & H). apply require_inv in Hq as [_ ->].
  apply bind_Ok_inv in H as (actor & st2 & Hac & H).
  apply introspect_user_inv in Hac as (-> & urow & Hu & ->).
  apply bind_Ok_inv in H as ([adm cid] & st2 & Hown & H).
  apply introspect_owner_inv in Hown as [-> Hown]. simpl in Hown.
  apply bind_Ok_inv in H as (u3 & st5 & Hact & H). apply record_activity_inv in Hact.
  apply bind_Ok_inv in H as (e & st6 & He & H). apply remaining_inv in He.
  injection H as <- <-. split; [|by do 2 (etrans; [|eassumption])].
  split; [done|]. eexists. split; [done|]. simpl. intros Hq.
  eapply subject_scope; [|exact Hq]. intros Hadm. rewrite (proj1 Hn) in Hu.
  eexists _, urow. split; [done|]. split; [done|]. by apply Hown.
Qed.

Lemma introspect_inv token hint st r st' :
  introspect_token token hint st = (Ok r, st') →
  reply_ok (st_db st) r ∧ first_use token st st'.
Proof.
  unfold introspect_token. intros H.
  apply bind_Ok_inv in H as (t & st1 & Ht & H). injection Ht as _ <-.
  apply bind_Ok_inv in H as (u & st1 & Hh & H).
  assert (st1 = st) as ->.
  { destruct hint; [by apply require_inv in Hh as [_ ->]|by injection Hh as _ <-]. }
  destruct t.
  - by apply introspect_access_inv.
  - apply introspect_refresh_inv in H as [? ?]. split; [assumption|by left].
  - apply introspect_personal_inv in H as [? ?]. split; [assumption|by left].
Qed.

(** An answer of introspection is active; it reports an administrative scope
    only for a subject who is an administrator; and all it changes in the
    database is the time of first use of an access token that had none. *)
Theorem introspection_reply_correct token hint st r st' :
  introspect_token token hint st = (Ok r, st') →
  reply_ok (st_db st) r ∧ first_use token st st'.
Proof. apply introspect_inv. Qed.

Lemma keeps_introspect_committed token hint : keeps st_committed (introspect_token token hint).
Proof.
  unfold introspect_token, introspect_access_token, introspect_refresh_token,
    introspect_personal_token, introspect_session, introspect_subject, introspect_owner,
    introspect_user, access_token_find_by_token, refresh_token_find_by_token,
    personal_token_find_by_token, oauth2_session_lookup, personal_session_lookup, user_lookup,
    oauth2_client_lookup, access_token_mark_used, update_one, remaining, require, try_into.
  solve_keeps.
Qed.

(** ** Who may introspect *)

Context {HX : HandlerExternals} {AX : ClientAuthExternals}.

(** The homeserver, or a registered client that authenticates with a secret or a key. *)
Definition introspection_caller (db : DB) (now : DateTime) (cr : Credentials) : Prop :=
  match bearer_token cr with
  | Some token => homeserver_verify_token token = Some true
  | None => ∃ client, client_of db cr = Some client ∧
              Client_token_endpoint_auth_method client ≠ Some Auth_None ∧
              authenticated_by client now cr
  end.

Lemma int_authenticate_inv cr st st' :
  introspection_authenticate cr st = (Ok tt, st') →
  introspection_caller (st_db st) (st_clock st 0%nat) cr ∧ same st st' ∧
  ∃ k, (k ≤ 1)%nat ∧ st_clock st' 0%nat = st_clock st k.
Proof.
  unfold introspection_authenticate, introspection_caller. intros H.
  destruct (bearer_token cr) as [token|].
  - apply bind_Ok_inv in H as (ok & st1 & Hv & H). apply ok_or_Ok_inv in Hv as [Hv ->].
    apply require_inv in H as [-> ->]. split_and!; [done..|]. exists 0%nat. by split; [lia|].
  - apply bind_Ok_inv in H as (o & st1 & Hf & H). apply try_with_Ok_inv in Hf.
    apply credentials_fetch_inv in Hf as [-> Hcl].
    apply bind_Ok_inv in H as (client & st1 & Ho & H). apply ok_or_Ok_inv in Ho as [-> ->].
    apply bind_Ok_inv in H as (method & st1 & Hm & H).
    assert (Client_token_endpoint_auth_method client = Some method ∧ method ≠ Auth_None ∧ st1 = st)
      as (Hmeth & Hpub & ->).
    { destruct (Client_token_endpoint_auth_method client) as [[]|]; try done; by injection Hm as <- <-. }
    injection H as Hv <-. split_and!; [|done..|by exists 1%nat; split; [lia|]].
    exists client. split; [done|]. split; [congruence|]. apply credentials_verify_ok.
    exists method. split; [done|]. destruct (credentials_verify cr method client _) as [[]|]; [|done].
    done.
Qed.

(** Before the token is looked at, a failure is an error status. *)
Lemma int_authenticate_Err cr st e st' :
  introspection_authenticate cr st = (Err e, st') →
  ∃ status code, IntrospectionRouteError_render e = IntOut_Error status code.
Proof.
  unfold introspection_authenticate, require. intros H.
  destruct (bearer_token cr) as [token|].
  - unfold ok_or, mbind, M_bind, mret, M_ret, raise in H.
    destruct (homeserver_verify_token token) as [[]|]; simplify_eq/=; by eexists _, _.
  - apply bind_Err_inv in H as [H|(o & st1 & _ & H)].
    { unfold try_with in H. destruct (credentials_fetch cr st) as [[o|e'] st1]; [done|].
      injection H as <- <-. by eexists _, _. }
    destruct o as [client|]; [|injection H as <- <-; by eexists _, _].
    destruct (Client_token_endpoint_auth_method client) as [[]|] eqn:Hm;
      unfold ok_or, mbind, M_bind, mret, M_ret, clock_now, of_result in H; simpl in H; rewrite Hm in H;
      simpl in H; try (injection H as <- <-; by eexists _, _);
      destruct (credentials_verify _ _ _ _); simplify_eq/=; by eexists _, _.
Qed.

(** The endpoint answers only the homeserver and the clients that
    authenticate with a secret or a key. To them, an unknown, expired, revoked or
    malformed token is answered as inactive, with nothing else and nothing
    committed; an active answer is only given about a live token that agrees with
    the hint. *)
Theorem introspection_post_active_is_live req st r st' :
  introspection_post req st = (IntOut_Reply r, st') →
  ∃ ca token hint, extract_from_request req = Ok ca ∧
    introspection_caller (st_db st) (st_clock st 0%nat) (authorization_credentials ca) ∧
    authorization_form ca = Some (token, hint) ∧
    (r = INACTIVE ∧ st_committed st' = st_committed st ∨
     resp_active r = true ∧ hint_agrees token hint = true ∧
       ∃ n, (n ≤ 1)%nat ∧ live_token (st_clock st n) (st_db st) token = true).
Proof.
  unfold introspection_post, introspection_handle_post.
  destruct (extract_from_request req) as [ca|]; [|done]. erewrite bind_Ok by reflexivity.
  destruct (introspection_authenticate (authorization_credentials ca) st) as [[[]|e] st1] eqn:Ha.
  2:{ erewrite bind_Err by done. apply int_authenticate_Err in Ha as (s & c & ->). done. }
  apply int_authenticate_inv in Ha as Hi. destruct Hi as (Hc & [Kd Kc] & k & Hk & Kk).
  erewrite bind_Ok by done.
  destruct (authorization_form ca) as [[token hint]|] eqn:Hform; [|done].
  unfold ok_or, mbind, M_bind, try_with. cbn [mret M_ret fst snd].
  pose proof (introspect_ok token hint st1) as Hok.
  pose proof (keeps_introspect_committed token hint st1) as Kc'. intros H.
  exists ca, token, hint. do 3 (split; [done|]). revert H.
  destruct (introspect_token token hint st1) as [[r'|e] st2] eqn:Hrun; simpl in Hok, Kc'.
  - intros [= <- <-]. right. apply introspect_inv in Hrun as [[Hact _] _].
    symmetry in Hok. apply andb_true_iff in Hok as [Hh Hl]. rewrite Kk, Kd in Hl. eauto.
  - intros [= Hr <-]. left. split; [|congruence]. destruct e; by simplify_eq/=.
Qed.
End live.

(** ** The theorems evaluated on a concrete world *)

#[local] Existing Instances World.TX World.PX World.UX World.DX World.HX World.AX.

Lemma introspection_reply_correct_witness :
  ∃ r st', introspect_token World.live_access None World.st = (Ok r, st') ∧ reply_ok World.db r.
Proof.
  destruct (ok_run (introspect_token World.live_access None World.st)) as (r & st' & E);
    [vm_compute; reflexivity|].
  exists r, st'. split; [exact E|]. exact (proj1 (introspection_reply_correct _ _ _ _ _ E)).
Defined.

(** Whether the endpoint replied, and with an active token. *)
Definition replied_active (o : IntrospectionOutput) : option bool :=
  match o with IntOut_Reply r => Some (resp_active r) | IntOut_Error _ _ => None end.

Lemma introspection_post_active_is_live_witness :
  ∃ r st', introspection_post (World.header_request "Basic MTAyOmh1bnRlcjI=" (World.live_access, None))
             World.st = (IntOut_Reply r, st') ∧ resp_active r = true ∧
    ∃ ca, introspection_caller World.db World.NOW ca.
Proof.
  destruct (introspection_post
    (World.header_request "Basic MTAyOmh1bnRlcjI=" (World.live_access, None)) World.st) as [o st'] eqn:E.
  assert (replied_active o = Some true) as Ho.
  { apply (f_equal (λ p, replied_active p.1)) in E. cbn [fst] in E. rewrite <-E. vm_compute. reflexivity. }
  destruct o as [s c|r]; [discriminate Ho|]. injection Ho as Ho.
  exists r, st'. split; [reflexivity|]. split; [exact Ho|].
  destruct (introspection_post_active_is_live _ _ _ _ E) as (ca & token & hint & _ & Hc & _).
  exists (authorization_credentials ca). exact Hc.
Defined.

(** The live tokens of the world are answered, on every branch. *)
Example live_tokens_answered :
  map (λ t, live_token World.NOW World.db t)
    [World.live_access; World.live_refresh; World.live_personal; "mat_unknown"]
  = [true; true; true; false].
Proof. vm_compute. reflexivity. Qed.

(** * Revocation: who may revoke, and what a revocation ends *)


Section revocation_proofs.
Context {TX : TokenExternals} {DX : DbExternals}.

(** The session of an OAuth token that is still good. *)
Definition token_session (now : DateTime) (db : DB) (token : string) (sid : Ulid) : Prop :=
  (TokenType_check token = Ok TokenType_AccessToken ∧
   ∃ aid row, find_first (has_access_token token) (db_access_tokens db) = Some (aid, row) ∧
     AccessTokenRow_revoked_at row = None ∧
     (∀ e, AccessTokenRow_expires_at row = Some e → now ≤ e) ∧
     AccessTokenRow_oauth2_session_id row = sid) ∨
  (TokenType_check token = Ok TokenType_RefreshToken ∧
   ∃ rid row rt, find_first (has_refresh_token token) (db_refresh_tokens db) = Some (rid, row) ∧
     RefreshToken_try_from rid row = Ok rt ∧ RefreshToken_state rt = RefreshToken_Valid ∧
     RefreshToken_session_id rt = sid).

Lemma revocation_session_inv token hint t st sid st' :
  TokenType_check token = Ok t → revocation_session_id token hint t st = (Ok sid, st') →
  same st st' ∧ token_session (st_clock st 0%nat) (st_db st) token sid.
Proof.
  intros Ht H. unfold revocation_session_id in H.
  destruct hint as [[]|], t; try discriminate H; repo_inv;
    repeat match goal with H : require _ _ _ = _ |- _ => apply require_inv in H as [H ->] end.
  all: try match goal with H : access_token_find_by_token _ _ = _ |- _ =>
    apply access_token_find_inv in H as [-> H]; subst; destruct H as (aid & row & Hf & ->);
    split; [done|]; left; split; [done|]; exists aid, row end.
  all: try match goal with H : refresh_token_find_by_token _ _ = _ |- _ =>
    apply refresh_token_find_inv in H as [-> H]; subst; destruct H as (rid & row & Hf & Hr);
    split; [done|]; right; split; [done|]; eexists rid, row, _ end.
  all: split_and!; try done.
  all: match goal with
  | H : AccessToken_is_valid _ _ = true |- _ =>
      apply andb_true_iff in H as [H1 H2]; simpl in H1, H2; unfold AccessToken_is_expired in H2;
      simpl in H2; apply negb_true_iff in H2;
      first [by destruct (AccessTokenRow_revoked_at row)
            |intros e He; rewrite He in H2; by apply Z.ltb_ge]
  | H : RefreshTokenState_is_valid _ = true |- _ => by destruct (RefreshToken_state _)
  end.
Qed.

(** The job that tells the homeserver about a user's devices. *)
Definition sync_scheduled (uid : Ulid) (f : DB → DB) : Prop :=
  ∃ id row, QueueJobRow_queue_name row = SYNC_DEVICES_QUEUE_NAME ∧ QueueJobRow_payload row = Payload_SyncDevices uid ∧
            f = on_jobs <[id := row]>.

Lemma revoke_session_inv ip sid client st u st' :
  revoke_session ip sid client st = (Ok u, st') →
  ∃ srow s t jobs, db_sessions (st_db st) !! sid = Some srow ∧ Session_try_from sid srow = Ok s ∧
    Session_state s = Session_Valid ∧
    (∀ c, client = Some c → c = Session_client_id s) ∧
    match Session_user_id s with
    | Some uid => sync_scheduled uid jobs ∧ is_Some (db_users (st_db st) !! uid)
    | None => jobs = id
    end ∧
    ran st st' (λ db, on_sessions (alter (OAuthSessionRow_set_finished_at t) sid) (jobs db)).
Proof.
  unfold revoke_session. intros H. repo_inv;
  repeat match goal with H : require _ _ _ = _ |- _ => apply require_inv in H as [H ->] end;
  match goal with H : oauth2_session_lookup _ _ = _ |- _ =>
    apply session_lookup_inv in H as [-> H]; subst; destruct H as (srow & Hsrow & Hs) end;
  destruct (Session_try_from_inv _ _ _ Hs) as [Hid _];
  match goal with H : oauth2_session_finish _ _ = _ |- _ =>
    apply session_finish_inv in H as (t & Hval & _ & Hfin) end; rewrite Hid in Hfin.
  - match goal with H : user_lookup _ _ = _ |- _ => apply user_lookup_inv in H as [-> H] end.
    match goal with H : schedule_sync_devices_job _ _ = _ |- _ =>
      apply schedule_job_inv in H as (jid & jrow & Hq & Hu & _ & Hj) end.
    match goal with H : same _ _ |- _ => pose proof (proj1 H) as Hdb end.
    ran_chain. eexists srow, _, t, (on_jobs <[jid := jrow]>).
    split; [done|]. split; [done|]. split; [done|]. split; [|split; [|done]].
    + intros c ->. by match goal with H : bool_decide _ = true |- _ => apply bool_decide_eq_true in H end.
    + match goal with H : Session_user_id _ = Some _ |- _ => rewrite H end.
      match goal with H : Some _ = User_build _ <$> _ |- _ =>
        symmetry in H; apply fmap_Some in H as (urow & Hur & ->) end.
      split; [by exists jid, jrow|]. by rewrite <-Hdb, Hur.
  - ran_chain. eexists srow, _, t, id.
    split; [done|]. split; [done|]. split; [done|]. split; [|split; [|done]].
    + intros c ->. by match goal with H : bool_decide _ = true |- _ => apply bool_decide_eq_true in H end.
    + by match goal with H : Session_user_id _ = None |- _ => rewrite H end.
Qed.

(** What revoking an OAuth token has shown and done. *)
Definition session_revoked (st st' : St) (token : string) (client : option Ulid) (sid : Ulid) : Prop :=
  token_session (st_clock st 0%nat) (st_db st) token sid ∧
  ∃ srow s t jobs, db_sessions (st_db st) !! sid = Some srow ∧ Session_try_from sid srow = Ok s ∧
    Session_state s = Session_Valid ∧ (∀ c, client = Some c → c = Session_client_id s) ∧
    match Session_user_id s with
    | Some uid => sync_scheduled uid jobs ∧ is_Some (db_users (st_db st) !! uid)
    | None => jobs = id
    end ∧
    ran st st' (λ db, on_sessions (alter (OAuthSessionRow_set_finished_at t) sid) (jobs db)).

(** What revoking a personal token has shown and done. *)
Definition personal_revoked (st st' : St) (token : string) (client : option Ulid) : Prop :=
  ∃ tid trow srow s t1 t2 jobs,
    find_first (has_token_sha256 (sha256_digest token)) (db_personal_tokens (st_db st))
      = Some (tid, trow) ∧
    PersonalTokenRow_revoked_at trow = None ∧
    let sid := PersonalTokenRow_personal_session_id trow in
    db_personal_sessions (st_db st) !! sid = Some srow ∧ PersonalSession_try_from sid srow = Ok s ∧
    PersonalSession_state s = Personal_Valid ∧
    (∀ c, client = Some c → PersonalSession_owner s = Owner_OAuth2Client c) ∧
    (if PersonalSession_has_device s then sync_scheduled (PersonalSession_actor_user_id s) jobs
     else jobs = id) ∧
    ran st st' (λ db, jobs (on_personal_sessions (alter (PersonalSessionRow_set_revoked_at t2) sid)
      (on_personal_tokens (fmap (revoke_session_tokens sid t2))
        (on_personal_tokens (alter (PersonalTokenRow_set_revoked_at t1) tid) db)))).

Lemma revoke_personal_inv ip token client st u st' :
  revoke_personal_token ip token client st = (Ok u, st') → personal_revoked st st' token client.
Proof.
  unfold revoke_personal_token, personal_revoked. intros H.
  apply bind_Ok_inv in H as (o & st1 & Hf & H). apply try_with_Ok_inv in Hf.
  apply personal_token_find_inv in Hf as [-> Ho].
  apply bind_Ok_inv in H as (a & st1 & Ha & H). apply ok_or_Ok_inv in Ha as [-> ->].
  destruct Ho as (tid & trow & Hfind & ->).
  apply bind_Ok_inv in H as (now & st1 & Hn & H). apply clock_now_inv in Hn as [-> Hn].
  apply bind_Ok_inv in H as (u1 & st2 & Hq & H). apply require_inv in Hq as [Hval ->].
  apply bind_Ok_inv in H as (o & st2 & Hs & H). apply try_with_Ok_inv in Hs.
  apply personal_session_lookup_inv in Hs as [-> Ho].
  apply bind_Ok_inv in H as (s & st2 & Hs & H). apply ok_or_Ok_inv in Hs as [-> ->].
  destruct Ho as (srow & Hsrow & Hs). cbn [PersonalAccessToken_session_id PersonalAccessToken_from] in *.
  apply bind_Ok_inv in H as (u2 & st2 & Hq & H). apply require_inv in Hq as [Hsv ->].
  apply bind_Ok_inv in H as (u3 & st2 & Hq & H). apply require_inv in Hq as [Hown ->].
  apply bind_Ok_inv in H as (u4 & st2 & Hact & H). apply record_activity_inv in Hact.
  apply bind_Ok_inv in H as (a' & st3 & Ht & H). apply try_with_Ok_inv, personal_token_revoke_inv in Ht as (t1 & Hr1).
  apply bind_Ok_inv in H as (s' & st4 & Ht & H).
  apply try_with_Ok_inv, personal_session_revoke_inv in Ht as (t2 & Hfin & _ & Hr2).
  destruct (PersonalSession_try_from_inv _ _ _ Hs) as (Hid & _). rewrite Hid in Hr2.
  assert (PersonalSession_has_device s' = PersonalSession_has_device s ∧
          PersonalSession_actor_user_id s' = PersonalSession_actor_user_id s) as [Hd Hact'].
  { unfold PersonalSession_finish in Hfin. destruct (PersonalSession_state s); simplify_eq/=. done. }
  rewrite Hd, Hact' in H. cbn [PersonalAccessToken_id PersonalAccessToken_from] in Hr1.
  assert (∃ jobs, (if PersonalSession_has_device s
      then sync_scheduled (PersonalSession_actor_user_id s) jobs else jobs = id) ∧
      ran st4 st' jobs) as (jobs & Hj & Hjr).
  { destruct (PersonalSession_has_device s).
    - apply try_with_Ok_inv, schedule_job_inv in H as (jid & jrow & Hq & Hu & _ & Hj).
      exists (on_jobs <[jid := jrow]>). split; [by exists jid, jrow|done].
    - injection H as _ <-. by exists id. }
  exists tid, trow, srow, s, t1, t2, jobs. split; [done|].
  unfold PersonalAccessToken_is_valid in Hval. cbn [PersonalAccessToken_revoked_at PersonalAccessToken_from] in Hval.
  split. { by destruct (PersonalTokenRow_revoked_at trow). }
  cbn zeta. rewrite (proj1 Hn) in Hsrow. split; [done|]. split; [done|].
  split. { by destruct (PersonalSession_state s). }
  split. { intros c ->. simpl in Hown. destruct (PersonalSession_owner s); [done|].
           apply bool_decide_eq_true in Hown. by subst. }
  split; [done|]. ran_chain. done.
Qed.

Lemma revoke_token_inv ip token hint client st u st' :
  revoke_token ip token hint client st = (Ok u, st') →
  (∃ sid, session_revoked st st' token client sid) ∨
  TokenType_check token = Ok TokenType_PersonalAccessToken ∧ personal_revoked st st' token client.
Proof.
  unfold revoke_token. intros H.
  apply bind_Ok_inv in H as (t & st1 & Ht & H). injection Ht as Ht <-.
  destruct (TokenType_check token) as [t'|] eqn:Hc; [|done]. injection Ht as ->.
  destruct t; [| |right].
  1,2: left; apply bind_Ok_inv in H as (sid & st1 & Hsid & H);
    apply (revocation_session_inv _ _ _ _ _ _ Hc) in Hsid as [[Hd Hco] Hts];
    apply revoke_session_inv in H as (srow & s & tt0 & jobs & H1 & H2 & H3 & H4 & H5 & [H6 H7]);
    exists sid; split; [done|]; rewrite Hd in *; exists srow, s, tt0, jobs; split_and!; try done; split; congruence.
  split; [done|]. apply bind_Ok_inv in H as (u1 & st1 & Hq & H). apply require_inv in Hq as [_ ->].
  by apply revoke_personal_inv in H.
Qed.

(** A granted revocation was asked for with a good token, by the homeserver
    or by the client of the token's session (the owner, for a personal session);
    it ends that session, schedules the synchronisation of its user's devices,
    and, for a personal token, revokes every token of the session. Nothing else
    changes. *)
Theorem revocation_ends_session ip token hint client st u st' :
  revoke_token ip token hint client st = (Ok u, st') →
  (∃ sid, session_revoked st st' token client sid) ∨
  TokenType_check token = Ok TokenType_PersonalAccessToken ∧ personal_revoked st st' token client.
Proof. apply revoke_token_inv. Qed.

(** ** The endpoint *)

Context {UX : UrlExternals} {HX : HandlerExternals} {AX : ClientAuthExternals}.

Lemma revoke_authenticate_inv cr st o st' :
  revoke_authenticate cr st = (Ok o, st') →
  same st st' ∧
  match o with
  | None => ∃ token, cr = Credentials_BearerToken token ∧ homeserver_verify_token token = Some true
  | Some id => ∃ c, client_of (st_db st) cr = Some c ∧ Client_id c = id ∧
                    authenticated_by c (st_clock st 0%nat) cr
  end.
Proof.
  unfold revoke_authenticate. intros H. apply bind_Ok_inv in H as (adm & st1 & Ha & H).
  assert (st1 = st ∧ (adm = true → ∃ token, cr = Credentials_BearerToken token ∧
                       homeserver_verify_token token = Some true)) as [-> Hadm].
  { destruct cr; simpl in Ha; [by injection Ha as <- <-..|]. apply ok_or_Ok_inv in Ha as [Ha ->].
    split; [done|]. intros ->. eauto. }
  destruct adm; [injection H as <- <-; split; [done|by apply Hadm]|].
  apply bind_Ok_inv in H as (o' & st1 & Hf & H). apply try_with_Ok_inv in Hf.
  apply credentials_fetch_inv in Hf as [-> Hcl].
  apply bind_Ok_inv in H as (c & st1 & Hc & H). apply ok_or_Ok_inv in Hc as [-> ->].
  apply bind_Ok_inv in H as ([] & st1 & Hv & H). injection H as <- <-.
  apply check_credentials_inv in Hv as [Hv Hs]. split; [exact Hs|]. eauto.
Qed.

(** Only the homeserver, with a bearer token it recognises, revokes on behalf
    of every client; any other caller is a registered client that authenticated
    with the method it registered, and it is held to its own sessions. What a
    granted request did is committed. *)
Theorem revocation_is_authenticated ip req st u st' :
  revoke_handle_post ip req st = (Ok u, st') →
  ∃ ca client token hint st1 st2, extract_from_request req = Ok ca ∧
    authorization_form ca = Some (token, hint) ∧ same st st1 ∧
    revoke_token ip token hint client st1 = (Ok tt, st2) ∧
    st_committed st' = st_db st2 ∧
    match client with
    | None => ∃ bearer, authorization_credentials ca = Credentials_BearerToken bearer ∧
                homeserver_verify_token bearer = Some true
    | Some id => ∃ c, client_of (st_db st) (authorization_credentials ca) = Some c ∧
                   Client_id c = id ∧ authenticated_by c (st_clock st 0%nat) (authorization_credentials ca)
    end.
Proof.
  unfold revoke_handle_post. intros H.
  destruct (extract_from_request req) as [ca|]; [|done].
  erewrite bind_Ok in H by reflexivity.
  apply bind_Ok_inv in H as (client & st1 & Ha & H). apply revoke_authenticate_inv in Ha as [Hs Ha].
  apply bind_Ok_inv in H as ([token hint] & st2 & Hf & H). apply ok_or_Ok_inv in Hf as [Hf ->].
  apply bind_Ok_inv in H as ([] & st2 & Hr & H). apply try_with_Ok_inv in Hr.
  injection H as _ <-. exists ca, client, token, hint, st1, st2. do 5 (split; [done|]). exact Ha.
Qed.
End revocation_proofs.

(** ** The theorems evaluated on a concrete world *)

#[local] Existing Instances World.TX World.PX World.UX World.DX World.HX World.AX.

Lemma revocation_ends_session_witness :
  ∃ u st', revoke_token None World.live_refresh None (Some 100) World.st = (Ok u, st') ∧
  ((∃ sid, session_revoked World.st st' World.live_refresh (Some 100) sid) ∨
   TokenType_check World.live_refresh = Ok TokenType_PersonalAccessToken ∧
   personal_revoked World.st st' World.live_refresh (Some 100)).
Proof.
  destruct (ok_run (revoke_token None World.live_refresh None (Some 100) World.st)) as (u & st' & E);
    [vm_compute; reflexivity|].
  exists u, st'. split; [exact E|]. exact (revocation_ends_session _ _ _ _ _ _ _ E).
Defined.

Lemma revocation_is_authenticated_witness :
  ∃ u st', revoke_handle_post None (World.public_request "100" (World.live_access, None)) World.st
             = (Ok u, st') ∧
  ∃ client token hint st1 st2, same World.st st1 ∧
    revoke_token None token hint client st1 = (Ok tt, st2).
Proof.
  destruct (ok_run (revoke_handle_post None (World.public_request "100" (World.live_access, None))
    World.st)) as (u & st' & E); [vm_compute; reflexivity|].
  exists u, st'. split; [exact E|].
  destruct (revocation_is_authenticated _ _ _ _ _ E)
    as (ca & client & token & hint & st1 & st2 & _ & _ & Hs & Hr & _).
  exists client, token, hint, st1, st2. split; [exact Hs|exact Hr].
Defined.
