(* ===== verification/ConsentProofs.v ===== *)
(** The theorems about consent: who can fulfil a grant, with what, and what is
    replayed to whom. *)
From S2P Require Import Prelude Ids TokenFormat Scope Pkce Jose Keystore Domain Database Repository Handlers ClientAuth RepositorySpec TokenService World ClientAuthProofs TokenSpec Introspection Consent.

Open Scope Z_scope.

Section consent_proofs.
Context {TX : TokenExternals} {UX : UrlExternals} {DX : DbExternals} {HX : HandlerExternals}
        {CX : ConsentExternals}.

(** The policy engine has nothing against the grant, given some session counts. *)
Definition policy_accepts (bs : BrowserSession) (c : Client) (scope : ScopeSet)
    (gt : PolicyGrantType) (ip : option IpAddr) (ua : option string) : Prop :=
  ∃ counts, policy_evaluate
    {| input_user := Some (BrowserSession_user bs); input_client := c;
       input_session_counts := Some counts; input_scope := scope; input_grant_type := gt;
       input_ip_address := ip; input_user_agent := ua |} = Some [].

Lemma has_policy_violation_inv bs c scope gt ip ua st b st' :
  has_policy_violation bs c scope gt ip ua st = (Ok b, st') →
  st' = st ∧
  (b = false → admin_scope_allowed (BrowserSession_user bs) scope = true ∧
               policy_accepts bs c scope gt ip ua).
Proof.
  unfold has_policy_violation. intros H.
  destruct (admin_scope_allowed _ _) eqn:Ha; simpl in H; [|by injection H as <- <-].
  apply bind_Ok_inv in H as (u & st1 & Hq & H). apply require_inv in Hq as [_ ->].
  apply bind_Ok_inv in H as (counts & st1 & Hc & H). apply try_with_Ok_inv in Hc.
  unfold count_user_sessions_for_limiting, oauth2_session_count_active_for_user,
    personal_session_count_active_for_user in Hc. injection Hc as _ <-.
  apply bind_Ok_inv in H as (res & st1 & He & H). apply ok_or_Ok_inv in He as [He ->].
  injection H as <- <-. split; [done|]. intros Hv. split; [done|]. exists counts. rewrite He.
  apply negb_false_iff, bool_decide_eq_true in Hv. by rewrite Hv.
Qed.

Lemma build_response_inv c g bs st p st' :
  build_authorization_response c g bs st = (Ok p, st') →
  same st st' ∧ authz_code p = AuthorizationCode_code <$> AuthorizationGrant_code g ∧
  (is_Some (authz_id_token p) ↔ AuthorizationGrant_response_type_id_token g = true) ∧
  authz_access_token p = None.
Proof.
  unfold build_authorization_response. intros H. repo_inv.
  - match goal with H : browser_session_get_last_authentication _ _ = _ |- _ =>
      apply last_authentication_inv in H as -> end.
    match goal with H : generate_id_token _ _ _ _ _ _ = _ |- _ => apply id_token_inv in H end.
    split; [done|]. split; [done|]. simpl. by split; [split; [|by eexists]|].
  - split; [done|]. split; [done|]. simpl. split; [|done]. split; [by intros []|done].
Qed.

(** The grant and the client a consent is about. *)
Definition consent_about (db : DB) (gid : Ulid) (g : AuthorizationGrant) (c : Client) : Prop :=
  (∃ row, db_grants db !! gid = Some row ∧ AuthorizationGrant_try_from gid row = Ok g) ∧
  client_at db (AuthorizationGrant_client_id g) = Some c.

(** The grant is fulfilled with a new session of the consenting user. *)
Definition consent_fulfilled (st st' : St) (bs : BrowserSession) (gid : Ulid)
    (g : AuthorizationGrant) (c : Client) (ip : option IpAddr) (ua : option string) : Prop :=
  AuthorizationGrant_stage g = Grant_Pending ∧
  admin_scope_allowed (BrowserSession_user bs) (AuthorizationGrant_scope g) = true ∧
  policy_accepts bs c (AuthorizationGrant_scope g) Policy_AuthorizationCode ip ua ∧
  ∃ sid t1 t2, db_sessions (st_db st) !! sid = None ∧
    st_committed st' = on_grants (alter (GrantRow_set_fulfilled t2 sid) gid)
      (on_sessions <[sid := new_session_row (Some (User_id (BrowserSession_user bs)))
         (Some (BrowserSession_id bs)) (Client_id c) (AuthorizationGrant_scope g) t1]> (st_db st)).

(** The callback of a fulfilled grant is repeated to the user who fulfilled it. *)
Definition consent_replayed (st st' : St) (bs : BrowserSession) (g : AuthorizationGrant)
    (d : AuthorizationConsentDecision) : Prop :=
  ∃ sid f row, AuthorizationGrant_stage g = Grant_Fulfilled sid f ∧
    db_sessions (st_db st) !! sid = Some row ∧ Session_try_from sid row = Ok (decision_session d) ∧
    OAuthSessionRow_user_id row = Some (User_id (BrowserSession_user bs)) ∧
    st_committed st' = st_committed st.

Lemma accept_consent_inv bs gid ip ua st d st' :
  accept_authorization_consent bs gid ip ua st = (Ok d, st') →
  ∃ g c, consent_about (st_db st) gid g c ∧
    CallbackDestination_try_from g = Ok (decision_callback_destination d) ∧
    authz_code (decision_params d) = AuthorizationCode_code <$> AuthorizationGrant_code g ∧
    (consent_fulfilled st st' bs gid g c ip ua ∨ consent_replayed st st' bs g d).
Proof.
  unfold accept_authorization_consent, consent_about. intros H.
  apply bind_Ok_inv in H as (o & st1 & Hl & H). apply try_with_Ok_inv in Hl.
  apply grant_lookup_inv in Hl as [-> Hl].
  apply bind_Ok_inv in H as (g & st1 & Hg & H). apply ok_or_Ok_inv in Hg as [-> ->].
  destruct Hl as (row & Hrow & Hg).
  apply bind_Ok_inv in H as (dest & st1 & Hd & H). apply of_result_map_err_inv in Hd as [Hd ->].
  apply bind_Ok_inv in H as (o & st1 & Hl & H). apply try_with_Ok_inv in Hl.
  apply client_lookup_inv in Hl as [-> ->].
  apply bind_Ok_inv in H as (c & st1 & Hc & H). apply ok_or_Ok_inv in Hc as [Hc ->].
  destruct (Grant_try_from_inv _ _ _ Hg) as [Hgid _].
  exists g, c. split; [by eauto|].
  destruct (AuthorizationGrant_stage g) as [|sid f| |] eqn:Hst.
  2:{ unfold replay_authorization_consent in H.
      apply bind_Ok_inv in H as (o & st1 & Hl & H). apply try_with_Ok_inv in Hl.
      apply session_lookup_inv in Hl as [-> Hl].
      apply bind_Ok_inv in H as (s & st1 & Hs & H). apply ok_or_Ok_inv in Hs as [-> ->].
      destruct Hl as (srow & Hsrow & Hs).
      apply bind_Ok_inv in H as (u & st1 & Hq & H). apply require_inv in Hq as [Hq ->].
      apply bool_decide_eq_true in Hq.
      apply bind_Ok_inv in H as (p & st1 & Hp & H). apply build_response_inv in Hp as (Hsame & Hcode & _).
      injection H as <- <-. split; [done|]. split; [done|]. right.
      destruct (Session_try_from_inv _ _ _ Hs) as (_ & _ & Hu & _).
      exists sid, f, srow. split_and!; [done..|by rewrite <-Hu|]. by rewrite <-(proj2 Hsame). }
  all: unfold fulfill_authorization_consent in H;
    apply bind_Ok_inv in H as (u & st1 & Hq & H); apply require_inv in Hq as [Hq ->];
    rewrite Hst in Hq; try discriminate Hq.
  apply bind_Ok_inv in H as (b & st1 & Hv & H). apply has_policy_violation_inv in Hv as [-> Hv].
  apply bind_Ok_inv in H as (u2 & st1 & Hb & H). apply require_inv in Hb as [Hb ->].
  destruct b; [done|]. destruct (Hv eq_refl) as [Hadm Hpol].
  apply bind_Ok_inv in H as (s & st1 & Hs & H). apply try_with_Ok_inv in Hs.
  apply session_add_inv in Hs as (t1 & srow & -> & _ & _ & _ & _ & _ & Hvi & Hr1).
  apply bind_Ok_inv in H as (g' & st2 & Hf & H). apply try_with_Ok_inv in Hf.
  apply grant_fulfill_inv in Hf as (t2 & _ & -> & _ & _ & Hr2).
  apply bind_Ok_inv in H as (p & st3 & Hp & H). apply build_response_inv in Hp as (Hsame & Hcode & _).
  injection H as <- <-. split; [done|]. split; [done|]. left. split_and!; [done..|].
  apply first_violation_None in Hvi. rewrite !Forall_cons in Hvi.
  destruct Hvi as (_ & Hpk%pk_taken_false & _). exists (Session_id s), t1, t2. split; [done|].
  simpl. by rewrite (proj1 Hsame), (proj1 Hr2), (proj1 Hr1), Hgid.
Qed.

(** C29. Accepting a consent gives out the code of the grant only in two cases.
    Either the grant is pending, the policy accepts it and its scope is not
    administrative unless the user is an administrator: the grant is then
    fulfilled, and committed, with a new session of the consenting user, the
    grant's client and the grant's scope. Or it was already fulfilled, by the
    same user: the callback is repeated and nothing changes. An exchanged or
    cancelled grant gives out nothing. *)
Theorem accept_consent_correct bs gid ip ua st d st' :
  accept_authorization_consent bs gid ip ua st = (Ok d, st') →
  ∃ g c, consent_about (st_db st) gid g c ∧
    CallbackDestination_try_from g = Ok (decision_callback_destination d) ∧
    authz_code (decision_params d) = AuthorizationCode_code <$> AuthorizationGrant_code g ∧
    (consent_fulfilled st st' bs gid g c ip ua ∨ consent_replayed st st' bs g d).
Proof. apply accept_consent_inv. Qed.

(** ** Device grants *)

Lemma device_consent_grant_inv gid st gc st' :
  device_consent_grant gid st = (Ok gc, st') →
  same st st' ∧ (∃ row, db_device_grants (st_db st) !! gid = Some row ∧
                        DeviceCodeGrant_try_from gid row = Ok gc.1) ∧
  client_at (st_db st) (DeviceCodeGrant_client_id gc.1) = Some gc.2 ∧
  st_clock st 0%nat ≤ DeviceCodeGrant_expires_at gc.1.
Proof.
  unfold device_consent_grant. intros H.
  apply bind_Ok_inv in H as (o & st1 & Hl & H). apply try_with_Ok_inv in Hl.
  apply device_lookup_inv in Hl as [-> Hl].
  apply bind_Ok_inv in H as (g & st1 & Hg & H). apply ok_or_Ok_inv in Hg as [-> ->].
  destruct Hl as (row & Hrow & Hg).
  apply bind_Ok_inv in H as (now & st1 & Hn & H). apply clock_now_inv in Hn as [-> Hn].
  apply bind_Ok_inv in H as (u & st2 & Hq & H). apply require_inv in Hq as [Hq ->].
  apply negb_true_iff, Z.ltb_ge in Hq.
  apply bind_Ok_inv in H as (o & st2 & Hl & H). apply try_with_Ok_inv in Hl.
  apply client_lookup_inv in Hl as [-> ->].
  apply bind_Ok_inv in H as (c & st2 & Hc & H). apply ok_or_Ok_inv in Hc as [Hc ->].
  injection H as <- <-. rewrite (proj1 Hn) in Hc. split_and!; [done|by exists row|done|done].
Qed.

(** The change a device consent makes. *)
Definition device_decided (bs : BrowserSession) (gid : Ulid) (action : DeviceConsentAction)
    (t : DateTime) : DB → DB :=
  on_device_grants (alter (match action with
    | Action_Consent => DeviceGrantRow_set_fulfilled t (BrowserSession_id bs)
    | Action_Reject => DeviceGrantRow_set_rejected t (BrowserSession_id bs)
    end) gid).

(** A device consent is only taken before the grant expires, when the policy
    accepts it and its scope is not administrative unless the user is an
    administrator. A pending grant is then fulfilled or rejected as the user
    asked, tied to the browser session, and committed; any other grant keeps its
    state, and the status reported is the one it has. *)
Theorem device_consent_correct bs gid action ip ua st status st' :
  submit_device_consent bs gid action ip ua st = (Ok status, st') →
  ∃ row g c, db_device_grants (st_db st) !! gid = Some row ∧ DeviceCodeGrant_try_from gid row = Ok g ∧
    client_at (st_db st) (DeviceCodeGrant_client_id g) = Some c ∧
    st_clock st 0%nat ≤ DeviceCodeGrant_expires_at g ∧
    admin_scope_allowed (BrowserSession_user bs) (DeviceCodeGrant_scope g) = true ∧
    policy_accepts bs c (DeviceCodeGrant_scope g) Policy_DeviceCode ip ua ∧
    match DeviceCodeGrant_state g with
    | Device_Pending =>
        status = match action with Action_Consent => Status_Fulfilled | Action_Reject => Status_Rejected end ∧
        ∃ t, st_committed st' = device_decided bs gid action t (st_db st)
    | Device_Rejected _ _ => status = Status_Rejected ∧ st_committed st' = st_db st
    | _ => status = Status_Fulfilled ∧ st_committed st' = st_db st
    end.
Proof.
  unfold submit_device_consent. intros H.
  apply bind_Ok_inv in H as ([g c] & st1 & Hg & H).
  apply device_consent_grant_inv in Hg as (Hs & (row & Hrow & Hg) & Hc & Hexp). simpl in *.
  apply bind_Ok_inv in H as (b & st2 & Hv & H). apply has_policy_violation_inv in Hv as [-> Hv].
  apply bind_Ok_inv in H as (u2 & st2 & Hb & H). apply require_inv in Hb as [Hb ->].
  destruct b; [done|]. destruct (Hv eq_refl) as [Hadm Hpol].
  apply bind_Ok_inv in H as (status' & st2 & Hst & H). injection H as <- <-.
  destruct (Device_try_from_inv _ _ _ Hg) as [Hgid _].
  exists row, g, c. split_and!; [done..|]. simpl.
  destruct (DeviceCodeGrant_state g) eqn:Hstate; simpl in Hst;
    [|injection Hst as <- <-; split; [done|by destruct Hs]..].
  destruct action; apply bind_Ok_inv in Hst as (g' & st3 & Hf & Hst); apply try_with_Ok_inv in Hf;
    injection Hst as <- <-; (split; [done|]).
  - apply device_fulfill_inv in Hf as (t & _ & _ & Hr). exists t.
    by rewrite (proj1 Hr), (proj1 Hs), Hgid.
  - apply device_reject_inv in Hf as (t & _ & _ & Hr). exists t.
    by rewrite (proj1 Hr), (proj1 Hs), Hgid.
Qed.

(** ** Device authorization *)

Context {AX : ClientAuthExternals}.

Lemma device_authorize_inv req ip ua s32 s6 st resp st' :
  device_authorize_handle_post req ip ua s32 s6 st = (Ok resp, st') →
  ∃ ca c gid t, extract_from_request req = Ok ca ∧
    client_of (st_db st) (authorization_credentials ca) = Some c ∧
    authenticated_by c (st_clock st 0%nat) (authorization_credentials ca) ∧
    Client_has_grant_type c GrantType_DeviceCode = true ∧
    device_resp_device_code resp = s32 ∧ device_resp_user_code resp = to_uppercase s6 ∧
    device_grant_violation gid (Client_id c) s32 (to_uppercase s6) (st_db st) = None ∧
    st_committed st' = on_device_grants <[gid := new_device_grant_row
      {| dg_client := c; dg_scope := default ∅ (authorization_form ca ≫= id); dg_device_code := s32;
         dg_user_code := to_uppercase s6; dg_expires_in := DEVICE_CODE_LIFETIME;
         dg_ip_address := ip; dg_user_agent := ua |} t (t + DEVICE_CODE_LIFETIME)]> (st_db st).
Proof.
  unfold device_authorize_handle_post. intros H.
  destruct (extract_from_request req) as [ca|]; [|done].
  erewrite bind_Ok in H by reflexivity.
  apply bind_Ok_inv in H as (o & st1 & Hf & H). apply try_with_Ok_inv in Hf.
  apply credentials_fetch_inv in Hf as [-> Hcl].
  apply bind_Ok_inv in H as (c & st1 & Hc & H). apply ok_or_Ok_inv in Hc as [-> ->].
  apply bind_Ok_inv in H as ([] & st1 & Hv & H). apply check_credentials_inv in Hv as [Hv Hn].
  apply bind_Ok_inv in H as (u2 & st2 & Hq & H). apply require_inv in Hq as [Hq ->].
  apply bind_Ok_inv in H as (g & st2 & Hg & H). apply try_with_Ok_inv in Hg.
  apply device_add_inv in Hg as (t & Hsc & Hdc & Huc & Hvi & Hr). injection H as <- <-.
  cbn [dg_client dg_scope dg_device_code dg_user_code dg_expires_in] in *.
  rewrite (proj1 Hn) in Hvi. exists ca, c, (DeviceCodeGrant_id g), t. split_and!; try done.
  simpl. by rewrite (proj1 Hr), (proj1 Hn).
Qed.

Lemma new_device_row_found db gid cid code ucode row :
  device_grant_violation gid cid code ucode db = None → DeviceGrantRow_device_code row = code →
  find_first (has_device_code code) (<[gid := row]> (db_device_grants db)) = Some (gid, row).
Proof.
  intros Hv Hrow. apply first_violation_None in Hv. rewrite !Forall_cons in Hv.
  destruct Hv as (_ & _ & Hd & _). simpl in Hd. rewrite col_taken_false in Hd.
  apply find_first_unique; [apply lookup_insert_eq|by apply bool_decide_eq_true|].
  intros k r [[-> _]|[_ Hk]]%lookup_insert_Some Hr; [done|]. apply Hd in Hk. congruence.
Qed.

(** A device that asks for no scope gets a device code that can never be
    exchanged: the empty scope is stored as an empty text, which does not parse
    back, so every exchange of the code is an internal error. *)
Theorem device_code_without_scope_is_unusable (PX : PkceExternals)
    req ip ua s32 s6 st resp st' c2 ttl ip2 ua2 st2 :
  device_authorize_handle_post req ip ua s32 s6 st = (Ok resp, st') →
  (∀ ca, extract_from_request req = Ok ca → authorization_form ca ≫= id = None) →
  st_db st2 = st_committed st' → Client_has_grant_type c2 GrantType_DeviceCode = true →
  ∃ gid, (token_dispatch (Request_DeviceCode
            {| device_grant_device_code := device_resp_device_code resp |}) c2 ttl ip2 ua2 st2).1
           = Err Route_Internal ∧
    device_grant_lookup gid st2 = (Err (inconsistent "oauth2_device_code_grant" "scope" gid), st2).
Proof.
  intros (ca & c & gid & t & Hca & _ & _ & _ & Hcode & _ & Hv & Hco)%device_authorize_inv Hform Hdb Hgt.
  rewrite (Hform ca Hca) in Hco. simpl in Hco. rewrite Hco in Hdb. exists gid.
  set (row := new_device_grant_row _ _ _) in Hdb.
  assert (DeviceCodeGrant_try_from gid row = Err (inconsistent "oauth2_device_code_grant" "scope" gid))
    as Hbad.
  { unfold DeviceCodeGrant_try_from. subst row. cbn [new_device_grant_row DeviceGrantRow_scope dg_scope].
    by rewrite Scope_empty_unreadable. }
  split.
  - unfold token_dispatch.
    assert (exchange_device_code {| device_grant_device_code := device_resp_device_code resp |} c2 ttl ip2 ua2 st2
      = (Err (Dce_Repository (inconsistent "oauth2_device_code_grant" "scope" gid)), st2)) as Hrun.
    { unfold exchange_device_code. apply bind_Err. unfold device_exchange_grant, require. rewrite Hgt.
      erewrite bind_Ok by reflexivity. apply bind_Err, try_with_Err.
      unfold device_grant_find_by_device_code, select_first, gets. erewrite bind_Ok by reflexivity.
      rewrite Hdb. cbn [db_device_grants on_device_grants device_grant_device_code]. rewrite Hcode.
      erewrite new_device_row_found; [|exact Hv|done]. simpl. apply bind_Err.
      unfold of_result. by rewrite Hbad. }
    erewrite bind_Err; [reflexivity|]. erewrite try_with_Err; [|exact Hrun]. reflexivity.
  - unfold device_grant_lookup, select_by_id, gets. erewrite bind_Ok by reflexivity. rewrite Hdb. simpl.
    rewrite lookup_insert_eq. simpl. apply bind_Err. unfold of_result. by rewrite Hbad.
Qed.

(** ** Grants are read back as they were written *)

(** A challenge method the row can name. *)
Definition known_method (p : option Pkce) : Prop :=
  match p with
  | Some p => pkce_challenge_method p = Plain ∨ pkce_challenge_method p = S256
  | None => True
  end.

Lemma new_grant_row_decodes gid cid raw scope code state nonce rm it lh lo t ru :
  valid_scope scope → scope ≠ ∅ → url_parse raw = Some ru →
  known_method (code ≫= AuthorizationCode_pkce) →
  ResponseMode_from_str (ResponseMode_to_string rm) = rm →
  AuthorizationGrant_try_from gid (new_grant_row cid raw scope code state nonce rm it lh lo t) =
    Ok {| AuthorizationGrant_id := gid;
          AuthorizationGrant_stage := Grant_Pending;
          AuthorizationGrant_code := code;
          AuthorizationGrant_client_id := cid;
          AuthorizationGrant_redirect_uri := ru;
          AuthorizationGrant_raw_redirect_uri := raw;
          AuthorizationGrant_scope := scope;
          AuthorizationGrant_state := state;
          AuthorizationGrant_nonce := nonce;
          AuthorizationGrant_response_mode := rm;
          AuthorizationGrant_response_type_id_token := it;
          AuthorizationGrant_created_at := t;
          AuthorizationGrant_login_hint := lh;
          AuthorizationGrant_locale := lo |}.
Proof.
  intros Hv Hne Hurl Hm Hrm. unfold AuthorizationGrant_try_from.
  cbn [new_grant_row GrantRow_scope GrantRow_redirect_uri]. rewrite Scope_parse_print, Hurl by done.
  cbn [result_map_err result_bind]. unfold Grant_decode_stage, Grant_decode_pkce, Grant_decode_code.
  simpl.
  rewrite Hrm.
  destruct code as [[code [[m ch]|]]|]; simpl in *; [|done..].
  by destruct Hm as [-> | ->].
Qed.

(** A grant is read back from its row exactly as it was created, for every
    valid non-empty scope, parsable redirect URI, challenge method and response
    mode the columns can name. *)
Theorem grant_reads_back_as_added c ru raw scope code state nonce rm it lh lo st g st' :
  authorization_grant_add c ru raw scope code state nonce rm it lh lo st = (Ok g, st') →
  valid_scope scope → scope ≠ ∅ → url_parse raw = Some ru →
  known_method (code ≫= AuthorizationCode_pkce) →
  ResponseMode_from_str (ResponseMode_to_string rm) = rm →
  authorization_grant_lookup (AuthorizationGrant_id g) st' = (Ok (Some g), st').
Proof.
  intros H Hv Hne Hurl Hm Hrm. unfold authorization_grant_add in H. repo_inv.
  match goal with H : ran _ _ _ |- _ => destruct H as [Hdb _] end.
  unfold authorization_grant_lookup, select_by_id, gets. erewrite bind_Ok by reflexivity.
  rewrite Hdb. cbn [db_grants on_grants AuthorizationGrant_id]. rewrite lookup_insert_eq. simpl.
  unfold mbind, M_bind, of_result. by erewrite new_grant_row_decodes.
Qed.
End consent_proofs.

(** ** The theorems evaluated on a concrete world *)

#[local] Existing Instances World.TX World.PX World.UX World.DX World.HX World.AX.

(** URLs without query or fragment, and the code as the only parameter. *)
Definition consent_world : ConsentExternals :=
  {| url_fragment _ := None;
     url_query _ := None;
     url_set_query u q := u +:+ "?" +:+ default EmptyString q;
     url_set_fragment u q := u +:+ "#" +:+ default EmptyString q;
     urlencoded_from_str _ := None;
     urlencoded_to_string _ _ p := (λ c, "code=" +:+ c) <$> authz_code p;
     device_code_link := "https://id.example/link";
     device_code_link_full c := "https://id.example/link?code=" +:+ c;
     homeserver_mxid u := "@" +:+ u +:+ ":example" |}.
#[local] Existing Instance consent_world.

Definition alice_browser : BrowserSession :=
  BrowserSession_from 10 World.browser (User_build 1 World.alice).

Lemma accept_consent_correct_witness :
  ∃ d st', accept_authorization_consent alice_browser 2001 None None World.st = (Ok d, st') ∧
  ∃ g c, consent_about World.db 2001 g c ∧
    (consent_fulfilled World.st st' alice_browser 2001 g c None None ∨
     consent_replayed World.st st' alice_browser g d).
Proof.
  destruct (ok_run (accept_authorization_consent alice_browser 2001 None None World.st))
    as (d & st' & E); [vm_compute; reflexivity|].
  exists d, st'. split; [exact E|].
  destruct (accept_consent_correct _ _ _ _ _ _ _ E) as (g & c & H1 & _ & _ & H2).
  exists g, c. split; [exact H1|exact H2].
Defined.

Lemma device_consent_correct_witness :
  ∃ status st', submit_device_consent alice_browser 5001 Action_Consent None None World.st
                  = (Ok status, st') ∧
  ∃ row g, db_device_grants World.db !! 5001 = Some row ∧ DeviceCodeGrant_try_from 5001 row = Ok g.
Proof.
  destruct (ok_run (submit_device_consent alice_browser 5001 Action_Consent None None World.st))
    as (status & st' & E); [vm_compute; reflexivity|].
  exists status, st'. split; [exact E|].
  destruct (device_consent_correct _ _ _ _ _ _ _ _ E) as (row & g & c & H1 & H2 & _).
  exists row, g. split; [exact H1|exact H2].
Defined.

Lemma device_code_without_scope_is_unusable_witness :
  ∃ resp st', device_authorize_handle_post (World.public_request "100" None) None None
                "fresh-device-code" "abcdef" World.st = (Ok resp, st') ∧
  ∃ gid, (token_dispatch (Request_DeviceCode
            {| device_grant_device_code := device_resp_device_code resp |}) World.app World.TTL None None
            (World.at_db (st_committed st'))).1 = Err Route_Internal ∧
    device_grant_lookup gid (World.at_db (st_committed st')) =
      (Err (inconsistent "oauth2_device_code_grant" "scope" gid), World.at_db (st_committed st')).
Proof.
  destruct (ok_run (device_authorize_handle_post (World.public_request "100" None) None None
    "fresh-device-code" "abcdef" World.st)) as (resp & st' & E); [vm_compute; reflexivity|].
  exists resp, st'. split; [exact E|].
  refine (device_code_without_scope_is_unusable _ _ _ _ _ _ _ _ _ World.app World.TTL None None _
    E _ _ _); [|reflexivity|reflexivity].
  intros ca Hca. vm_compute in Hca. injection Hca as <-. reflexivity.
Defined.

Lemma grant_reads_back_as_added_witness :
  ∃ g st', authorization_grant_add World.app "https://app.example/cb" "https://app.example/cb" {[ "openid" ]}
             (Some {| AuthorizationCode_code := "fresh-code"; AuthorizationCode_pkce := None |})
             None None ResponseMode_Query false None None World.st = (Ok g, st') ∧
  authorization_grant_lookup (AuthorizationGrant_id g) st' = (Ok (Some g), st').
Proof.
  destruct (ok_run (authorization_grant_add World.app "https://app.example/cb"
    "https://app.example/cb" {[ "openid" ]}
    (Some {| AuthorizationCode_code := "fresh-code"; AuthorizationCode_pkce := None |})
    None None ResponseMode_Query false None None World.st)) as (g & st' & E); [vm_compute; reflexivity|].
  exists g, st'. split; [exact E|].
  refine (grant_reads_back_as_added _ _ _ _ _ _ _ _ _ _ _ _ _ _ E _ _ _ _ _).
  - intros t Ht. apply elem_of_singleton in Ht as ->. apply ScopeToken_from_str_valid. reflexivity.
  - intros H. apply (f_equal (λ X, bool_decide ("openid" ∈ X))) in H. discriminate H.
  - reflexivity.
  - exact Logic.I.
  - reflexivity.
Defined.
