(* ===== verification/AuthorizationProofs.v ===== *)
(** Theorems on the authorization endpoint: the codes it samples, the grants it
    creates and the places it sends the browser to. *)
From S2P Require Import Prelude Ids TokenFormat Scope ResponseTypes Pkce Jose Keystore Domain Database Repository Handlers ClientAuth RepositorySpec TokenService World ClientAuthProofs TokenSpec Consent Authorization ConsentProofs.

Open Scope Z_scope.

(** ** Codes *)

(** The bytes the sampling keeps. *)
Definition kept (buf : list Z) : list Z := filter (λ b, b < CODE_LIMIT) buf.

Lemma push_code_bytes_spec out buf :
  (length out < CODE_LENGTH)%nat →
  push_code_bytes out buf = take CODE_LENGTH (out ++ (charset_char <$> kept buf)).
Proof.
  revert out. induction buf as [|b buf IH]; intros out Hout; simpl.
  - rewrite app_nil_r, take_ge; [done|lia].
  - unfold kept in *. rewrite filter_cons. destruct (Z.ltb_spec b CODE_LIMIT) as [Hb|Hb].
    + rewrite decide_True by done. rewrite fmap_cons.
      set (rest := charset_char <$> filter _ buf) in *.
      assert (out ++ charset_char b :: rest = (out ++ [charset_char b]) ++ rest) as ->
        by (by rewrite <-app_assoc).
      destruct (Nat.eqb_spec (length (out ++ [charset_char b])) CODE_LENGTH) as [Hl|Hl].
      * rewrite take_app_le by lia. by rewrite take_ge by lia.
      * by apply IH; rewrite length_app in *; simpl in *; lia.
    + rewrite decide_False by lia. by apply IH.
Qed.

(** The first [n] bytes a generator gives. *)
Definition rng_bytes (n : nat) (rng : Rng) : list Z := (fill_bytes n rng).1.

Lemma rng_bytes_add n m rng : rng_bytes (n + m) rng = rng_bytes n rng ++ rng_bytes m (rng_skip n rng).
Proof.
  unfold rng_bytes, fill_bytes. cbn [fst]. rewrite seq_app, fmap_app. f_equal.
  apply list_eq. intros i. rewrite !list_lookup_fmap. destruct (decide (i < m)%nat).
  - rewrite !lookup_seq_lt by done. simpl. unfold rng_skip. do 3 f_equal. lia.
  - by rewrite !lookup_seq_ge by lia.
Qed.

Lemma sample_code_loop_spec fuel out rng :
  (length out ≤ CODE_LENGTH)%nat →
  fst <$> sample_code_loop fuel out rng =
    let all := out ++ (charset_char <$> kept (rng_bytes (64 * fuel) rng)) in
    if decide (CODE_LENGTH ≤ length all)%nat then Some (take CODE_LENGTH all) else None.
Proof.
  revert out rng. induction fuel as [|fuel IH]; intros out rng Hout.
  - simpl. rewrite app_nil_r. destruct (Nat.ltb_spec (length out) CODE_LENGTH) as [Hl|Hl].
    + rewrite decide_False by lia. done.
    + rewrite decide_True by lia. simpl. by rewrite take_ge by lia.
  - replace (64 * S fuel)%nat with (64 + 64 * fuel)%nat by lia. rewrite rng_bytes_add.
    unfold kept. rewrite filter_app, fmap_app. fold (kept (rng_bytes 64 rng)). cbn zeta.
    cbn [sample_code_loop]. destruct (Nat.ltb_spec (length out) CODE_LENGTH) as [Hl|Hl].
    + destruct (fill_bytes 64 rng) as [buf rng'] eqn:Hf.
      assert (rng_bytes 64 rng = buf ∧ rng_skip 64 rng = rng') as [-> ->]
        by (unfold rng_bytes; rewrite Hf; split; [done|]; unfold fill_bytes in Hf; by injection Hf as _ <-).
      rewrite push_code_bytes_spec by done. rewrite IH by (rewrite length_take; lia). cbn zeta.
      rewrite app_assoc.
      set (a := out ++ (charset_char <$> kept buf)). set (r := charset_char <$> _).
      destruct (Nat.leb_spec CODE_LENGTH (length a)) as [Ha|Ha].
      * rewrite !decide_True by (rewrite ?length_app, ?length_take; lia).
        rewrite !take_app_le by (rewrite ?length_take; lia). by rewrite take_take, Nat.min_id.
      * by rewrite (take_ge a) by lia.
    + rewrite decide_True by (rewrite length_app; lia). simpl.
      rewrite take_app_le by lia. by rewrite take_ge by lia.
Qed.

(** How many of the bytes below the limit become the [i]-th character. *)
Definition bytes_for (i : nat) : nat :=
  length (filter (λ b, Some (charset_char b) = String.get i CHARSET)
            (kept (Z.of_nat <$> seq 0 256))).

(** The loop that samples a code ends as soon as the generator has given 32
    bytes below 248, and runs on as long as it has not; the code is then made of
    the first 32 of them, one alphanumeric character each. Every character stands
    for exactly four of the bytes kept, so a uniform generator gives uniform
    codes. *)
Theorem authorization_code_sampling fuel rng :
  match (sample_code fuel rng).1 with
  | Some code =>
      let bytes := take CODE_LENGTH (kept (rng_bytes (64 * fuel) rng)) in
      code = string_of_chars (charset_char <$> bytes) ∧ String.length code = CODE_LENGTH ∧
      str_all is_ascii_alphanumeric code = true
  | None => (length (kept (rng_bytes (64 * fuel) rng)) < CODE_LENGTH)%nat
  end ∧
  ∀ i, (i < String.length CHARSET)%nat → bytes_for i = 4%nat.
Proof.
  split.
  - pose proof (sample_code_loop_spec fuel [] rng ltac:(simpl; lia)) as H. cbn zeta in H.
    rewrite app_nil_l, length_fmap in H. unfold sample_code. generalize dependent (64 * fuel)%nat. intros n H.
    destruct (sample_code_loop fuel [] rng) as [[out rng']|]; simpl in H.
    + case_decide as Hd; [|done]. injection H as ->. cbn [fst]. rewrite <-fmap_take.
      split; [done|]. rewrite string_of_chars_length, length_fmap, length_take. split; [lia|].
      generalize (take CODE_LENGTH (kept (rng_bytes n rng))) as l.
      intros l. induction l as [|b l IH]; [done|]. rewrite fmap_cons. cbn [string_of_chars str_all].
      by rewrite charset_char_alphanumeric, IH.
    + case_decide; [done|]. cbn [fst]. lia.
  - assert (Forall (λ i, bytes_for i = 4%nat) (seq 0 (String.length CHARSET))) as H.
    { apply (bool_decide_unpack _). vm_compute. exact Logic.I. }
    intros i Hi. rewrite Forall_forall in H. apply H, elem_of_seq. lia.
Qed.

(** ** The handler *)

Section handler.
Context {UX : UrlExternals} {DX : DbExternals} {HX : HandlerExternals}
        {CX : ConsentExternals} {ZX : AuthorizationExternals}.

(** A page of the server itself. *)
Definition own_page (r : AuthorizationHttpResponse) : Prop :=
  ∃ path, r = Authz_Redirect (relative_url path).

(** Once there is a grant, it is saved and the browser stays with the server. *)
Lemma authorization_redirect_run ms prompt gid ip st :
  ∃ r st', authorization_redirect ms prompt gid ip st = (Ok r, st') ∧
    st_committed st' = st_db st ∧ own_page r.
Proof.
  unfold authorization_redirect, oauth2_session_count_for_browser_session, own_page, continue_at.
  destruct ms as [s|]; [|by eexists _, _; split_and!; [done|done|eexists]].
  case_bool_decide; [by eexists _, _; split_and!; [done|done|eexists]|].
  case_bool_decide; [by eexists _, _; split_and!; [done|done|eexists]|].
  unfold mbind, M_bind, try_with, gets, repo_save. simpl.
  destruct (_ && _); by eexists _, _; split_and!; [done|done|eexists].
Qed.

Lemma load_active_session_st current st r st' :
  load_active_session current st = (r, st') → same st st'.
Proof.
  apply same_keeps; unfold load_active_session, browser_session_lookup; solve_keeps.
Qed.

Lemma code_for_st fuel params st r st' :
  authorization_code_for fuel params st = (r, st') → same st st'.
Proof. apply same_keeps; unfold authorization_code_for; solve_keeps. Qed.

Lemma code_for_inv fuel params st code st' :
  authorization_code_for fuel params st = (Ok code, st') →
  (is_Some code ↔ ResponseType_has_code (auth_response_type (params_auth params)) = true) ∧
  (code ≫= AuthorizationCode_pkce) =
    if ResponseType_has_code (auth_response_type (params_auth params))
    then (λ p, {| pkce_challenge_method := p.1; pkce_challenge := p.2 |}) <$> params_pkce params
    else None.
Proof.
  unfold authorization_code_for. destruct (ResponseType_has_code _).
  - intros H. repo_inv. simpl. split; [|done]. split; [done|by eexists].
  - intros [= <- <-]. simpl. split; [|done]. split; [by intros []|done].
Qed.

(** The grant a request adds, and the checks it passed. *)
Definition grant_created (client : Client) (params : Params) (raw : string) (mode : ResponseMode)
    (locale : string) (db db' : DB) : Prop :=
  let auth := params_auth params in
  authorization_refusal client params = None ∧
  ∃ gid code t,
    grant_violation gid (Client_id client) (AuthorizationCode_code <$> code) db = None ∧
    (is_Some code ↔ ResponseType_has_code (auth_response_type auth) = true) ∧
    (code ≫= AuthorizationCode_pkce) =
      (if ResponseType_has_code (auth_response_type auth)
       then (λ p, {| pkce_challenge_method := p.1; pkce_challenge := p.2 |}) <$> params_pkce params
       else None) ∧
    db' = on_grants <[gid := new_grant_row (Client_id client) raw (auth_scope auth) code
            (auth_state auth) (auth_nonce auth) mode (ResponseType_has_id_token (auth_response_type auth))
            (auth_login_hint auth) (Some locale) t]> db.

Lemma grant_add_inv c ru raw scope code state nonce rm it lh lo st g st' :
  authorization_grant_add c ru raw scope code state nonce rm it lh lo st = (Ok g, st') →
  ∃ t, grant_violation (AuthorizationGrant_id g) (Client_id c) (AuthorizationCode_code <$> code)
         (st_db st) = None ∧
    ran st st' (on_grants <[AuthorizationGrant_id g :=
      new_grant_row (Client_id c) raw scope code state nonce rm it lh lo t]>).
Proof.
  unfold authorization_grant_add. intros H. repo_inv. same_norm. simpl.
  eexists. split; [exact Hv|]. done.
Qed.
Lemma grant_add_committed c ru raw scope code state nonce rm it lh lo :
  keeps st_committed (authorization_grant_add c ru raw scope code state nonce rm it lh lo).
Proof. unfold authorization_grant_add. solve_keeps. Qed.

Lemma authorization_inner_cases fuel client params cur loc uri raw mode dest ip st r st' :
  authorization_inner fuel client params cur loc uri raw mode dest ip st = (r, st') →
  (∃ resp, r = Ok resp ∧ own_page resp ∧
     grant_created client params raw mode loc (st_db st) (st_committed st')) ∨
  (st_committed st' = st_committed st ∧
   ∀ resp, r = Ok resp → ∃ code, CallbackDestination_go dest loc code = Some resp).
Proof.
  unfold authorization_inner. intros H.
  destruct (load_active_session cur st) as [[ms|e] st1] eqn:Hl;
    pose proof (load_active_session_st _ _ _ _ Hl) as [Ed Ec].
  2:{ erewrite bind_Err in H by (by apply try_with_Err). injection H as <- <-. by right. }
  erewrite bind_Ok in H by (by apply try_with_Ok).
  destruct (authorization_refusal client params) as [code|] eqn:Hr.
  { unfold go in H. destruct (CallbackDestination_go dest loc code) eqn:Hg; injection H as <- <-;
      right; (split; [done|]); [|done]. intros resp [= <-]. eauto. }
  destruct (authorization_code_for fuel params st1) as [[code|e] st2] eqn:Hcode;
    pose proof (code_for_st _ _ _ _ _ Hcode) as [Ed2 Ec2].
  2:{ erewrite bind_Err in H by done. injection H as <- <-. right. by rewrite Ec2. }
  erewrite bind_Ok in H by done. apply code_for_inv in Hcode as [Hhas Hpkce].
  match type of H with context [authorization_grant_add ?a ?b ?c ?d ?e ?f ?g ?h ?i ?j ?k] =>
    pose proof (grant_add_committed a b c d e f g h i j k st2) as Kc;
    destruct (authorization_grant_add a b c d e f g h i j k st2) as [[gr|e'] st3] eqn:Hadd end.
  2:{ erewrite bind_Err in H by (by apply try_with_Err). injection H as <- <-. right.
      simpl in Kc. by rewrite Kc, Ec2. }
  erewrite bind_Ok in H by (by apply try_with_Ok). apply grant_add_inv in Hadd as (t & Hv & [Hd _]).
  destruct (authorization_redirect_run ms (default [] (auth_prompt (params_auth params)))
    (AuthorizationGrant_id gr) ip st3) as (resp & st4 & Hrun & Hc & Hp).
  rewrite Hrun in H. injection H as <- <-. left. exists resp. split_and!; [done|done|].
  split; [done|]. exists (AuthorizationGrant_id gr), code, t. rewrite <-Ed, <-Ed2.
  split_and!; [done|done|done|]. by rewrite Hc, Hd.
Qed.

(** The request names a registered client, and a redirect URI it registered. *)
Definition authorization_target (db : DB) (req : AuthorizationHttpRequest) (params : Params)
    (client : Client) (uri : Url) (mode : ResponseMode) (dest : CallbackDestination) : Prop :=
  let auth := params_auth params in
  http_params req = Some params ∧
  ulid_from_string (auth_client_id auth) ≫= client_at db = Some client ∧
  Client_resolve_redirect_uri client (auth_redirect_uri auth) = Ok uri ∧
  (∀ raw u, http_redirect_uri req = Some raw → auth_redirect_uri auth = Some u →
     redirect_uri_matches_authorized raw u = true) ∧
  resolve_response_mode (auth_response_type auth) (auth_response_mode auth) = Ok mode ∧
  CallbackDestination_try_new mode uri (auth_state auth) = Ok dest.

Lemma authorization_handle_get_inv fuel req st r st' :
  authorization_handle_get fuel req st = (Ok r, st') →
  ∃ params client uri mode dest,
    authorization_target (st_db st) req params client uri mode dest ∧
    ((own_page r ∧ grant_created client params (default uri (http_redirect_uri req)) mode
        (http_locale req) (st_db st) (st_committed st')) ∨
     (st_committed st' = st_committed st ∧
      ∃ code, CallbackDestination_go dest (http_locale req) code = Some r)).
Proof.
  unfold authorization_handle_get. intros H.
  apply bind_Ok_inv in H as (params & st1 & Hp & H). apply ok_or_Ok_inv in Hp as [Hp ->].
  apply bind_Ok_inv in H as (cur & st1 & Hcur & H). apply ok_or_Ok_inv in Hcur as [_ ->].
  apply bind_Ok_inv in H as (o & st1 & Hf & H). apply try_with_Ok_inv in Hf.
  apply find_by_client_id_inv in Hf as [-> Hcl].
  apply bind_Ok_inv in H as (client & st1 & Ho & H). apply ok_or_Ok_inv in Ho as [-> ->].
  apply bind_Ok_inv in H as (u & st1 & Hq & H). apply require_inv in Hq as [Hq ->].
  apply bind_Ok_inv in H as (uri & st1 & Hu & H). apply of_result_map_err_inv in Hu as [Hu ->].
  apply bind_Ok_inv in H as (mode & st1 & Hm & H). injection Hm as Hm <-.
  apply bind_Ok_inv in H as (dest & st1 & Hd & H). apply of_result_map_err_inv in Hd as [Hd ->].
  exists params, client, uri, mode, dest. split.
  { split_and!; try done. intros raw u' Hraw Hu'. rewrite Hraw, Hu' in Hq.
    by destruct (redirect_uri_matches_authorized raw u'). }
  unfold or_server_error in H.
  destruct (authorization_inner _ _ _ _ _ _ _ _ _ _ st) as [r0 st1] eqn:Hin.
  apply authorization_inner_cases in Hin as [(resp & -> & Hown & Hg)|[Hc Hgo]].
  - injection H as <- <-. left. done.
  - right. destruct r0 as [resp|e].
    + injection H as <- <-. split; [done|]. by apply Hgo.
    + unfold go in H. destruct e; try done;
        destruct (CallbackDestination_go dest _ ServerError) eqn:Hg; try done;
        injection H as <- <-; (split; [done|by eexists]).
Qed.


(** A registered client never has the implicit grant type. *)
Lemma registered_client_not_implicit db id client :
  client_at db id = Some client → Client_has_grant_type client GrantType_Implicit = false.
Proof.
  unfold client_at. intros H. apply bind_Some in H as (row & _ & H).
  destruct (Client_try_from id row) as [c|] eqn:Hc; [|done]. injection H as ->.
  assert (Client_grant_types client = Client_decode_grant_types row) as Hg
    by (unfold Client_try_from, result_bind in Hc; repeat case_match; by simplify_eq/=).
  unfold Client_has_grant_type. rewrite Hg. unfold Client_decode_grant_types. clear.
  by repeat case_match.
Qed.

(** No request whose response type has [id_token] creates a grant, whatever
    the client registered: the row of a client has no column for the implicit
    grant type the endpoint asks for. The discovery document lists [id_token] and
    [code id_token] among the supported response types. *)
Theorem id_token_requests_are_refused fuel req params st r st' :
  authorization_handle_get fuel req st = (Ok r, st') →
  http_params req = Some params →
  ResponseType_has_id_token (auth_response_type (params_auth params)) = true →
  st_committed st' = st_committed st.
Proof.
  intros H Hp Hid. apply authorization_handle_get_inv in H
    as (params' & client & uri & mode & dest & (Hp' & Hcl & _) & [[_ [Hr _]]|[Hc _]]); [|done].
  exfalso. rewrite Hp in Hp'. injection Hp' as <-.
  apply bind_Some in Hcl as (id & _ & Hcl). apply registered_client_not_implicit in Hcl.
  unfold authorization_refusal in Hr. rewrite Hid, Hcl in Hr.
  repeat (case_match; try done).
Qed.
End handler.

(** ** The theorems evaluated on a concrete world *)

#[local] Existing Instances World.TX World.PX World.UX World.DX World.HX World.AX consent_world.

Definition authorization_world : AuthorizationExternals :=
  {| url_scheme _ := "https";
     url_port _ := None;
     urlencoded_error _ _ _ := Some "error=refused";
     render_form_post _ _ _ _ := Some "<form>";
     continue_grant_query id := Some ("id=" +:+ ulid_to_string id);
     relative_url p := p |}.
#[local] Existing Instance authorization_world.

(** Alice, in her browser, asks the application 100 for a session. *)
Definition authorize_request (rt : gset ResponseTypeToken) : AuthorizationHttpRequest :=
  {| http_params := Some {|
       params_auth := {|
         auth_response_type := rt; auth_client_id := "100";
         auth_redirect_uri := Some "https://app.example/cb";
         auth_scope := scope_of_list World.session_scopes; auth_state := Some "xyz";
         auth_response_mode := None; auth_nonce := None; auth_prompt := None;
         auth_login_hint := None; auth_request := None; auth_request_uri := None;
         auth_registration := None |};
       params_pkce := Some (S256, "s256:" +:+ World.pkce_verifier) |};
     http_redirect_uri := Some "https://app.example/cb";
     http_session := Some (Some 10);
     http_locale := "en";
     http_ip := None |}.


Lemma id_token_requests_are_refused_witness :
  ∃ r st', authorization_handle_get 1 (authorize_request {[ResponseType_Code; ResponseType_IdToken]})
             World.st = (Ok r, st') ∧ st_committed st' = World.db.
Proof.
  destruct (ok_run (authorization_handle_get 1
    (authorize_request {[ResponseType_Code; ResponseType_IdToken]}) World.st))
    as (r & st' & E); [vm_compute; reflexivity|].
  exists r, st'. split; [exact E|].
  exact (id_token_requests_are_refused _ _ _ _ _ _ E eq_refl eq_refl).
Defined.

(** The code flow, from the authorization request to the tokens: the grant is
    created, the user consents, and the code is exchanged for tokens. *)
Definition code_flow : option AccessTokenResponse :=
  let later db := mkSt db db (st_clock World.st) (λ n, Z.of_nat (n * 7 + 2)) (λ _, true) [] [] [] World.limiter [] in
  let db1 := st_committed
    (authorization_handle_get 1 (authorize_request {[ResponseType_Code]}) World.st).2 in
  '(gid, row) ← head (map_to_list (db_grants db1 ∖ db_grants World.db));
  code ← GrantRow_authorization_code row;
  let db2 := st_committed
    (accept_authorization_consent alice_browser gid None None (World.at_db db1)).2 in
  match token_dispatch (Request_AuthorizationCode
          {| code_grant_code := code; code_grant_redirect_uri := Some "https://app.example/cb";
             code_grant_code_verifier := Some World.pkce_verifier |})
          World.app World.TTL None None (later db2) with
  | (Ok reply, _) => Some reply
  | (Err _, _) => None
  end.

Example code_flow_gives_tokens :
  (λ reply, (Response_scope reply, bool_decide (is_Some (Response_id_token reply)))) <$> code_flow
  = Some (Some (scope_of_list World.session_scopes), true).
Proof. vm_compute. reflexivity. Qed.
