(* ===== verification/ServerProofs.v ===== *)
(** The theorems about histories of requests: what is ended, used or revoked
    stays so, whatever is asked of the server afterwards. *)
From S2P Require Import Prelude Ids RateLimit Passwords TokenFormat Scope Pkce Jose Keystore Domain Database Repository Notification Messaging ProviderMetadata AccountRepository Pagination AdminRepository AdminApi Profile Admin AdminIntegrity Notifications EmailWebhook Outbox Registration Login Handlers ClientAuth ClientMetadata ClientRegistration RepositorySpec TokenService World ClientAuthProofs TokenSpec Introspection Revocation Consent Authorization Integrity UserJobs Server TokenProofs IntrospectionProofs ConsentProofs AuthorizationProofs.

Open Scope Z_scope.

(** ** Checking that a concrete database is well formed *)

Definition unique_b {R K} `{EqDecision K} (col : R → option K) (m : gmap Z R) : bool :=
  bool_decide (NoDup (omap (col ∘ snd) (map_to_list m))).
Definition refers_b {R R'} (col : R → option Ulid) (m : gmap Z R) (m' : gmap Z R') : bool :=
  forallb (λ kr, match col kr.2 with Some i => bool_decide (is_Some (m' !! i)) | None => true end)
    (map_to_list m).

Lemma NoDup_omap_inj {A K} (f : A → option K) (l : list A) a b c :
  NoDup l → NoDup (omap f l) → a ∈ l → b ∈ l → f a = Some c → f b = Some c → a = b.
Proof.
  induction l as [|x l IH]; [by intros _ _ ?%elem_of_nil|].
  intros [Hx Hnd]%NoDup_cons Hu. simpl in Hu.
  assert (NoDup (omap f l)) as Hu'. { destruct (f x); [by apply NoDup_cons in Hu as [_ ?]|done]. }
  intros [->|Ha]%elem_of_cons [->|Hb]%elem_of_cons Hfa Hfb; [done| | |by apply IH].
  - rewrite Hfa in Hu. apply NoDup_cons in Hu as [Hn _]. destruct Hn. apply list_elem_of_omap. eauto.
  - rewrite Hfb in Hu. apply NoDup_cons in Hu as [Hn _]. destruct Hn. apply list_elem_of_omap. eauto.
Qed.
Lemma unique_b_sound {R K} `{EqDecision K} (col : R → option K) (m : gmap Z R) :
  unique_b col m = true → unique col m.
Proof.
  intros Hu%bool_decide_eq_true k1 k2 r1 r2 c H1 H2 Hc1 Hc2.
  apply elem_of_map_to_list in H1, H2.
  assert ((k1, r1) = (k2, r2)) as [= -> _]; [|done].
  eapply (NoDup_omap_inj (col ∘ snd)); eauto. apply NoDup_map_to_list.
Qed.
Lemma refers_b_sound {R R'} (col : R → option Ulid) (m : gmap Z R) (m' : gmap Z R') :
  refers_b col m m' = true → refers col m m'.
Proof.
  unfold refers_b. rewrite forallb_forall. intros Hr k r i Hk Hc.
  apply elem_of_map_to_list, list_elem_of_In in Hk. apply Hr in Hk. simpl in Hk. rewrite Hc in Hk.
  by apply bool_decide_eq_true in Hk.
Qed.

Definition wf_b (db : DB) : bool :=
  forallb (λ b, b)
    [ unique_b (Some ∘ AccessTokenRow_access_token) (db_access_tokens db);
      unique_b (Some ∘ RefreshTokenRow_refresh_token) (db_refresh_tokens db);
      unique_b GrantRow_authorization_code (db_grants db);
      unique_b (Some ∘ DeviceGrantRow_device_code) (db_device_grants db);
      unique_b (Some ∘ DeviceGrantRow_user_code) (db_device_grants db);
      unique_b ClientRow_metadata_digest (db_clients db);
      unique_b (Some ∘ PersonalTokenRow_access_token_sha256) (db_personal_tokens db);
      refers_b OAuthSessionRow_user_id (db_sessions db) (db_users db);
      forallb (λ kr, bool_decide (is_Some (OAuthSessionRow_user_id kr.2))) (map_to_list (db_sessions db));
      refers_b (Some ∘ OAuthSessionRow_oauth2_client_id) (db_sessions db) (db_clients db);
      refers_b (Some ∘ AccessTokenRow_oauth2_session_id) (db_access_tokens db) (db_sessions db);
      refers_b (Some ∘ RefreshTokenRow_oauth2_session_id) (db_refresh_tokens db) (db_sessions db);
      refers_b RefreshTokenRow_oauth2_access_token_id (db_refresh_tokens db) (db_access_tokens db);
      refers_b RefreshTokenRow_next_oauth2_refresh_token_id (db_refresh_tokens db) (db_refresh_tokens db);
      refers_b GrantRow_oauth2_session_id (db_grants db) (db_sessions db);
      refers_b (Some ∘ PersonalTokenRow_personal_session_id) (db_personal_tokens db)
        (db_personal_sessions db);
      bool_decide (size (db_notification_requests db) = 0%nat);
      bool_decide (size (db_notification_deliveries db) = 0%nat) ].

(** An outbox without messages. *)
Lemma outbox_empty ntf emails phones :
  size (ntf_requests ntf) = 0%nat → size (ntf_deliveries ntf) = 0%nat → outbox_wf ntf emails phones.
Proof.
  intros Hr%map_size_empty_inv Hd%map_size_empty_inv. split; rewrite ?Hr, ?Hd; intros *;
    rewrite lookup_empty; done.
Qed.

Lemma wf_b_sound db : wf_b db = true → wf db.
Proof.
  unfold wf_b. simpl. rewrite !andb_true_iff. intros H. destruct_and!.
  split; try (eapply unique_b_sound; eassumption); try (eapply refers_b_sound; eassumption).
  - intros k r Hk. rewrite forallb_forall in *.
    apply elem_of_map_to_list, list_elem_of_In in Hk.
    by match goal with H : ∀ x, In x _ → bool_decide _ = true |- _ =>
      apply H, bool_decide_eq_true in Hk end.
  - apply outbox_empty; by eapply bool_decide_eq_true.
Qed.

(** ** Finding a row again *)

Lemma unique_find {R K} (col : R → option K) (P : R → bool) (c : K) m k r :
  unique col m → (∀ x, P x = true ↔ col x = Some c) → m !! k = Some r → col r = Some c →
  find_first P m = Some (k, r).
Proof.
  intros Hu HP Hk Hc. apply find_first_unique; [done|by apply HP|].
  intros k' r' Hk' Hr'. apply HP in Hr'. eauto.
Qed.

(** A row found by a unique column is found again, evolved, in a later database. *)
Lemma refind {R K} (col : R → option K) (P : R → bool) (c : K) ok m m' k r :
  (∀ x, P x = true ↔ col x = Some c) → (∀ x y, ok x y → col y = col x) →
  unique col m' → rows_evolve ok m m' → m !! k = Some r → col r = Some c →
  ∃ r', find_first P m' = Some (k, r') ∧ ok r r'.
Proof.
  intros HP Hok Hu He Hk Hc. apply He in Hk as (r' & Hk' & Ho). exists r'. split; [|done].
  eapply unique_find; eauto. by rewrite (Hok _ _ Ho).
Qed.

Lemma has_code_iff c r : has_code c r = true ↔ GrantRow_authorization_code r = Some c.
Proof. apply bool_decide_eq_true. Qed.
Lemma has_device_code_iff c r :
  has_device_code c r = true ↔ (Some ∘ DeviceGrantRow_device_code) r = Some c.
Proof. unfold has_device_code, compose. rewrite bool_decide_eq_true. naive_solver. Qed.
Lemma has_access_token_iff t r :
  has_access_token t r = true ↔ (Some ∘ AccessTokenRow_access_token) r = Some t.
Proof. unfold has_access_token, compose. rewrite bool_decide_eq_true. naive_solver. Qed.
Lemma has_refresh_token_iff t r :
  has_refresh_token t r = true ↔ (Some ∘ RefreshTokenRow_refresh_token) r = Some t.
Proof. unfold has_refresh_token, compose. rewrite bool_decide_eq_true. naive_solver. Qed.

Section histories.
Context {TX : TokenExternals} {PX : PkceExternals} {UX : UrlExternals}
        {DX : DbExternals} {HX : HandlerExternals} {AX : ClientAuthExternals}
        {CX : ConsentExternals} {ZX : AuthorizationExternals} {LX : LimiterExternals}
        {XX : AccountExternals} {WX : PasswordExternals} {RX : RegistrationExternals}
        {GX : LoginExternals} {VX : UrlPartsExternals} {KX : MetadataExternals}
        {EX : ClientRegistrationExternals}
        {BX : UrlBuildExternals} {NX : NotificationExternals} {YX : WebhookExternals}
        {QX : AdminExternals} {CO : CollationExternals}.


(** The form of a request, under credentials that can be read. *)
Definition asks {F} (req : ClientRequest F) (form : F) : Prop :=
  ∃ ca, extract_from_request req = Ok ca ∧ authorization_form ca = Some form.

(** What a granted request of the token endpoint ran, and saved. *)
Lemma token_post_inv req f ttl ip ua st resp st' :
  asks req f → token_handle_post req ttl ip ua st = (Ok resp, st') →
  ∃ c st1 st2, same st st1 ∧ st_committed st' = st_db st2 ∧
    match f with
    | Request_AuthorizationCode g => exchange_authorization_code g c ttl ip ua st1 = (Ok resp, st2)
    | Request_RefreshToken g => handle_refresh_token g c ttl ip ua st1 = (Ok resp, st2)
    | Request_ClientCredentials g => handle_client_credentials g c ttl ip ua st1 = (Ok resp, st2)
    | Request_DeviceCode g => exchange_device_code g c ttl ip ua st1 = (Ok resp, st2)
    | Request_Unsupported => False
    end.
Proof.
  intros (ca & Hca & Hf)
    [(? & ? & _)|(ca' & c & f' & st1 & Hca' & _ & _ & Hf' & Hs & H)]%token_handle_post_split; [done|].
  rewrite Hca in Hca'. injection Hca' as <-. rewrite Hf in Hf'. injection Hf' as <-.
  unfold token_dispatch in H. apply bind_Ok_inv in H as (r & st3 & H & Hsv).
  injection Hsv as -> <-. exists c, st1, st3. do 2 (split; [done|]).
  destruct f; by apply try_with_Ok_inv in H || done.
Qed.

(** ** Codes *)

(** A grant that was exchanged never yields tokens. *)
Lemma exchanged_code_refused req c ttl ip ua st gid row :
  find_first (has_code (code_grant_code req)) (db_grants (st_db st)) = Some (gid, row) →
  is_Some (GrantRow_exchanged_at row) →
  is_ok (exchange_authorization_code req c ttl ip ua st).1 = false.
Proof.
  intros Hf Hx. destruct (exchange_authorization_code req c ttl ip ua st) as [[r|e] st'] eqn:H; [|done].
  apply code_exchange_inv in H as (gid' & g & sid & s & ((row' & Hf' & Hg) & _ & (f & Hst & _) & _) & _).
  rewrite Hf in Hf'. injection Hf' as <- <-.
  destruct (Grant_try_from_inv _ _ _ Hg) as (_ & Hd & _). rewrite Hst in Hd.
  unfold Grant_decode_stage in Hd. by destruct Hx as [x Hx]; rewrite Hx in Hd; repeat case_match.
Qed.

Lemma code_exchanged_row req c ttl ip ua st resp st' :
  exchange_authorization_code req c ttl ip ua st = (Ok resp, st') →
  ∃ gid row, db_grants (st_db st') !! gid = Some row ∧
    GrantRow_authorization_code row = Some (code_grant_code req) ∧ is_Some (GrantRow_exchanged_at row).
Proof.
  intros (gid & g & sid & s & ((row & Hf & _) & _) & a & r & arow & rrow & t & _ & _ & _ & _ & [Hd _])%code_exchange_inv.
  apply find_first_Some in Hf as [Hrow Hcode]. apply bool_decide_eq_true in Hcode.
  exists gid, (GrantRow_set_exchanged_at t row). rewrite Hd.
  cbn [code_exchanged on_grants db_grants insert_pair on_refresh_tokens on_access_tokens].
  rewrite lookup_alter_eq. assert (db_grants (record_ua ua sid (st_db st)) = db_grants (st_db st)) as ->
    by (by destruct ua). rewrite Hrow. split_and!; [done..|by eexists].
Qed.

(** The committed database after a request is well formed. *)
Lemma serve_wf req st :
  begins st → wf (st_committed st) →
  wf (st_committed (serve req st)) ∧ changes (st_committed st) (st_committed (serve req st)).
Proof.
  intros Hb Hw. destruct (serve_good req st Hb Hw) as [? He]. split; [done|].
  by eapply evolves_changes.
Qed.

Lemma token_post_wf req ttl ip ua st r st' :
  begins st → wf (st_committed st) →
  token_handle_post req ttl ip ua st = (r, st') → wf (st_committed st').
Proof.
  intros Hb Hw Hr. destruct (serve_wf (Req_Token req ttl ip ua) st Hb Hw) as [Hw' _].
  simpl in Hw'. by rewrite Hr in Hw'.
Qed.

(** C7. An authorization code yields tokens once: after a granted exchange, and
    after any further requests, every later exchange of the same code, by any
    client, is refused. *)
Theorem authorization_code_used_once req ttl ip ua g st resp st1 st2 req2 ttl2 ip2 ua2 g2 :
  begins st → wf (st_committed st) → asks req (Request_AuthorizationCode g) →
  token_handle_post req ttl ip ua st = (Ok resp, st1) →
  history (st_committed st1) (st_committed st2) → begins st2 →
  asks req2 (Request_AuthorizationCode g2) → code_grant_code g2 = code_grant_code g →
  is_ok (token_handle_post req2 ttl2 ip2 ua2 st2).1 = false.
Proof.
  intros Hb Hw Hq Hrun Hh Hb2 Hq2 Hcode. pose proof (token_post_wf _ _ _ _ _ _ _ Hb Hw Hrun) as Hw1.
  destruct (history_good _ _ Hw1 Hh) as [Hw2 He].
  apply (token_post_inv _ _ _ _ _ _ _ _ Hq) in Hrun as (c & sa & sb & _ & Hco & Hx).
  apply code_exchanged_row in Hx as (gid & row & Hrow & Hc & Hex). rewrite <-Hco in Hrow.
  destruct (refind GrantRow_authorization_code _ _ _ _ _ _ _ (has_code_iff (code_grant_code g))
    (λ x y, @proj1 _ _) (wf_code_unique _ Hw2) (ev_grants _ _ He) Hrow Hc) as (row' & Hf & Hev).
  destruct (token_handle_post req2 ttl2 ip2 ua2 st2) as [[r|e] st3] eqn:Hrun2; [|done].
  apply (token_post_inv _ _ _ _ _ _ _ _ Hq2) in Hrun2 as (c2 & sa2 & sb2 & Hs2 & _ & Hx2).
  rewrite <-Hb2, <-(proj1 Hs2), <-Hcode in Hf.
  assert (is_Some (GrantRow_exchanged_at row')) as Hex'.
  { destruct Hev as (_ & _ & _ & _ & _ & _ & _ & Hev). by apply Hev. }
  pose proof (exchanged_code_refused g2 c2 ttl2 ip2 ua2 sa2 gid row' Hf Hex') as Hno.
  by rewrite Hx2 in Hno.
Qed.

(** A device grant that was exchanged or rejected never yields tokens again,
    whatever requests are served in between. *)
Theorem device_code_used_once db gid row req c ttl ip ua st :
  wf db → db_device_grants db !! gid = Some row →
  is_Some (DeviceGrantRow_exchanged_at row) ∨ is_Some (DeviceGrantRow_rejected_at row) →
  history db (st_db st) → device_grant_device_code req = DeviceGrantRow_device_code row →
  is_ok (exchange_device_code req c ttl ip ua st).1 = false.
Proof.
  intros Hw Hrow Hend Hh Hreq. destruct (history_good _ _ Hw Hh) as [Hw2 He].
  destruct (exchange_device_code req c ttl ip ua st) as [[r|e] st'] eqn:H; [|done].
  apply device_inv in H as (gid' & g & bs & ((row2 & Hf2 & Hg) & (f & Hst) & _) & _).
  destruct (refind (Some ∘ DeviceGrantRow_device_code) _ _ device_evolves _ _ _ _
    (has_device_code_iff (device_grant_device_code req))
    (λ x y Hxy, f_equal Some (proj1 Hxy)) (wf_device_code_unique _ Hw2) (ev_devices _ _ He) Hrow)
    as (row' & Hf & Hev); [by rewrite Hreq|].
  rewrite Hf in Hf2. injection Hf2 as <- <-.
  destruct (Device_try_from_inv _ _ _ Hg) as (_ & Hd & _). rewrite Hst in Hd.
  unfold Device_decode_state in Hd.
  assert (is_Some (DeviceGrantRow_exchanged_at row') ∨ is_Some (DeviceGrantRow_rejected_at row')) as Hend'.
  { destruct Hev as (_ & _ & _ & _ & _ & _ & Hr & Hx). destruct Hend; [left; by apply Hx|right; by apply Hr]. }
  destruct Hend' as [[x Hx]|[x Hx]]; rewrite Hx in Hd; by repeat case_match.
Qed.

(** ** Sessions and tokens *)

(** The OAuth session a token stands for. *)
Definition oauth_session (db : DB) (token : string) : option Ulid :=
  match TokenType_check token with
  | Ok TokenType_AccessToken =>
      (λ kr, AccessTokenRow_oauth2_session_id kr.2)
      <$> find_first (has_access_token token) (db_access_tokens db)
  | Ok TokenType_RefreshToken =>
      (λ kr, RefreshTokenRow_oauth2_session_id kr.2)
      <$> find_first (has_refresh_token token) (db_refresh_tokens db)
  | _ => None
  end.

Lemma oauth_session_stays db db' token sid :
  wf db' → changes db db' → oauth_session db token = Some sid → oauth_session db' token = Some sid.
Proof.
  intros Hw He. unfold oauth_session. destruct (TokenType_check token) as [[]|]; [..|done|done].
  - intros ([k r] & Hf & ->)%fmap_Some. apply find_first_Some in Hf as [Hk Hr].
    apply has_access_token_iff in Hr.
    destruct (refind (Some ∘ AccessTokenRow_access_token) _ _ access_evolves _ _ _ _
      (has_access_token_iff token) (λ x y Hxy, f_equal Some (proj1 (proj2 Hxy)))
      (wf_access_unique _ Hw) (ev_access _ _ He) Hk Hr) as (r' & -> & Hev).
    simpl. by rewrite (proj1 Hev).
  - intros ([k r] & Hf & ->)%fmap_Some. apply find_first_Some in Hf as [Hk Hr].
    apply has_refresh_token_iff in Hr.
    destruct (refind (Some ∘ RefreshTokenRow_refresh_token) _ _ refresh_evolves _ _ _ _
      (has_refresh_token_iff token) (λ x y Hxy, f_equal Some (proj1 Hxy))
      (wf_refresh_unique _ Hw) (ev_refresh _ _ He) Hk Hr) as (r' & -> & Hev).
    simpl. by destruct Hev as (_ & _ & _ & -> & _).
Qed.

Lemma dead_session_not_live now db token sid row :
  oauth_session db token = Some sid → db_sessions db !! sid = Some row →
  is_Some (OAuthSessionRow_finished_at row) → live_token now db token = false.
Proof.
  intros Ho Hs [t Ht]. assert (session_live db sid = false) as Hl.
  { unfold session_live. by rewrite Hs, Ht. }
  unfold oauth_session, live_token in *. destruct (TokenType_check token) as [[]|]; try done;
  destruct (find_first _ _) as [[k r]|]; try done; injection Ho as ->; rewrite Hl; by rewrite andb_false_r.
Qed.

Lemma token_session_oauth now db token sid :
  token_session now db token sid → oauth_session db token = Some sid.
Proof.
  unfold oauth_session. intros [(-> & aid & row & -> & _ & _ & <-)|(-> & rid & row & rt & -> & Hr & _ & <-)];
    [done|]. simpl. f_equal.
  unfold RefreshToken_try_from in Hr. by repeat (case_match; simplify_eq/=).
Qed.


(** ** Rotation *)

(** What a lost reply leaves of the rows: only revocations. *)
Lemma lost_rows db db1 rt lost :
  lost_reply db rt lost →
  rows_evolve refresh_evolves (db_refresh_tokens db1) (db_refresh_tokens (lost db1)) ∧
  rows_evolve access_evolves (db_access_tokens db1) (db_access_tokens (lost db1)).
Proof.
  intros [[_ ->]|(?&?&?&?&?&?&?&?&_&_&_&_&_&_&_&_&->)]; [done|].
  split; (apply rows_alter; [apply _|]; row_evolves).
Qed.

Lemma record_ua_tokens ua sid db :
  db_refresh_tokens (record_ua ua sid db) = db_refresh_tokens db ∧
  db_access_tokens (record_ua ua sid db) = db_access_tokens db.
Proof. by destruct ua. Qed.

(** The presented refresh token is consumed, and the access token it came with is revoked. *)
Lemma rotated_rows req c ttl ip ua st resp st' :
  handle_refresh_token req c ttl ip ua st = (Ok resp, st') →
  ∃ rid row, find_first (has_refresh_token (refresh_grant_refresh_token req))
               (db_refresh_tokens (st_db st)) = Some (rid, row) ∧
    (∃ row', db_refresh_tokens (st_db st') !! rid = Some row' ∧
       RefreshTokenRow_refresh_token row' = refresh_grant_refresh_token req ∧
       is_Some (RefreshTokenRow_consumed_at row')) ∧
    ∀ aid arow, RefreshTokenRow_oauth2_access_token_id row = Some aid →
      db_access_tokens (st_db st) !! aid = Some arow →
      ∃ arow', db_access_tokens (st_db st') !! aid = Some arow' ∧
        AccessTokenRow_access_token arow' = AccessTokenRow_access_token arow ∧
        is_Some (AccessTokenRow_revoked_at arow').
Proof.
  intros (rid & rt & s & lost & Ha & a & r & arw & rrow & t1 & t2 & Hp & _ & _ & _ & [Hd _])%refresh_inv.
  destruct Ha as ((row & Hf & Hrt) & _ & _ & _ & _ & _ & Hlost). exists rid, row. split; [done|].
  destruct (record_ua_tokens ua (Session_id s) (st_db st)) as [Er Ea].
  destruct (lost_rows _ (record_ua ua (Session_id s) (st_db st)) _ _ Hlost) as [Lr La].
  rewrite Er in Lr. rewrite Ea in La.
  destruct (fresh_pair_keys _ _ _ _ _ _ _ Hp) as (Fa & Fr & _).
  apply find_first_Some in Hf as [Hrow Htext]. apply bool_decide_eq_true in Htext.
  assert (RefreshToken_access_token_id rt = RefreshTokenRow_oauth2_access_token_id row) as Eaid.
  { unfold RefreshToken_try_from in Hrt. by repeat (case_match; simplify_eq/=). }
  rewrite Hd. split.
  - apply Lr in Hrow as (row1 & Hrow1 & Hev). exists (RefreshTokenRow_set_consumed t1 (RefreshToken_id r) row1).
    assert (rid ≠ RefreshToken_id r) as Hne by (intros ->; congruence).
    unfold rotated. assert (∀ o t db, db_refresh_tokens (revoke_old o t db) = db_refresh_tokens db) as ->
      by (by intros []). simpl. rewrite lookup_alter_eq, lookup_insert_ne by done. rewrite Hrow1.
    split; [done|]. split; [|by eexists]. simpl. by rewrite (proj1 Hev).
  - intros aid arow Haid Harow. rewrite Eaid, Haid. apply La in Harow as (arow1 & Harow1 & Hev).
    assert (aid ≠ AccessToken_id a) as Hne by (intros ->; congruence).
    exists (revoke_live t2 arow1). simpl. rewrite lookup_alter_eq, lookup_insert_ne by done. rewrite Harow1.
    split; [done|]. unfold revoke_live.
    destruct (AccessTokenRow_revoked_at arow1) eqn:E; simpl; rewrite ?E; (split; [by apply Hev|by eexists]).
Qed.

(** C9. Once a refresh token was exchanged, neither it nor the access token it
    came with is ever reported as active again, whatever requests are served
    afterwards. *)
Theorem rotated_tokens_never_active creq ttl ip ua req st resp st1 st2 hint :
  begins st → wf (st_committed st) → asks creq (Request_RefreshToken req) →
  token_handle_post creq ttl ip ua st = (Ok resp, st1) →
  history (st_committed st1) (st_db st2) →
  TokenType_check (refresh_grant_refresh_token req) = Ok TokenType_RefreshToken →
  is_ok (introspect_token (refresh_grant_refresh_token req) hint st2).1 = false ∧
  ∀ rid row aid arow,
    find_first (has_refresh_token (refresh_grant_refresh_token req))
      (db_refresh_tokens (st_committed st)) = Some (rid, row) →
    RefreshTokenRow_oauth2_access_token_id row = Some aid →
    db_access_tokens (st_committed st) !! aid = Some arow →
    TokenType_check (AccessTokenRow_access_token arow) = Ok TokenType_AccessToken →
    is_ok (introspect_token (AccessTokenRow_access_token arow) hint st2).1 = false.
Proof.
  intros Hb Hw Hq Hrun Hh Hty. pose proof (token_post_wf _ _ _ _ _ _ _ Hb Hw Hrun) as Hw1.
  destruct (history_good _ _ Hw1 Hh) as [Hw2 He].
  apply (token_post_inv _ _ _ _ _ _ _ _ Hq) in Hrun as (c & sa & sb & Hs & Hco & Hx).
  apply rotated_rows in Hx as (rid & row & Hf & (row' & Hrow' & Ht & Hcons) & Hacc).
  rewrite (proj1 Hs), Hb in Hf, Hacc. rewrite <-Hco in Hrow'. split.
  - destruct (refind (Some ∘ RefreshTokenRow_refresh_token) _ _ refresh_evolves _ _ _ _
      (has_refresh_token_iff (refresh_grant_refresh_token req)) (λ x y Hxy, f_equal Some (proj1 Hxy))
      (wf_refresh_unique _ Hw2) (ev_refresh _ _ He) Hrow' (f_equal Some Ht)) as (row2 & Hf2 & Hev).
    rewrite introspect_ok. unfold live_token. rewrite Hty, Hf2.
    destruct Hev as (_ & _ & _ & _ & Hev & _). destruct (Hev Hcons) as [x ->].
    by rewrite !andb_false_r.
  - intros rid2 row2 aid arow Hf2 Haid Harow Htya. rewrite Hf in Hf2. injection Hf2 as <- <-.
    destruct (Hacc _ _ Haid Harow) as (arow' & Harow' & Hta & Hrev). rewrite <-Hco in Harow'.
    destruct (refind (Some ∘ AccessTokenRow_access_token) _ _ access_evolves _ _ _ _
      (has_access_token_iff (AccessTokenRow_access_token arow))
      (λ x y Hxy, f_equal Some (proj1 (proj2 Hxy)))
      (wf_access_unique _ Hw2) (ev_access _ _ He) Harow' (f_equal Some Hta)) as (row3 & Hf3 & Hev).
    rewrite introspect_ok. unfold live_token. rewrite Htya, Hf3.
    destruct Hev as (_ & _ & _ & _ & Hev & _). destruct (Hev Hrev) as [x ->].
    by rewrite !andb_false_r.
Qed.
End histories.

(** ** The theorems evaluated on a concrete world *)

#[local] Existing Instances World.TX World.PX World.UX World.DX World.HX World.AX World.LX World.XX World.WX World.RX World.GX World.VX World.BX World.NX World.YX World.QX World.CO World.MX World.CX consent_world authorization_world.

Lemma world_wf : wf World.db.
Proof. apply wf_b_sound. vm_compute. reflexivity. Qed.


Lemma world_asks {F} (form : F) : asks (World.public_request "100" form) form.
Proof. eexists. split; reflexivity. Qed.

Lemma authorization_code_used_once_witness :
  ∃ resp st1, token_handle_post
      (World.public_request "100" (Request_AuthorizationCode World.code_request))
      World.TTL None None World.st = (Ok resp, st1) ∧
    is_ok (token_handle_post
      (World.public_request "100" (Request_AuthorizationCode World.code_request))
      World.TTL None None (World.at_db (st_committed st1))).1 = false.
Proof.
  destruct (ok_run (token_handle_post
    (World.public_request "100" (Request_AuthorizationCode World.code_request)) World.TTL None None
    World.st)) as (resp & st1 & E); [vm_compute; reflexivity|].
  exists resp, st1. split; [exact E|].
  refine (authorization_code_used_once _ _ _ _ _ _ _ _ _ _ _ _ _ _ _ _ (world_asks _) E _ _
    (world_asks _) _); [reflexivity|exact world_wf|apply rtc_refl|reflexivity|reflexivity].
Defined.

Definition device_exchanged_db : DB :=
  on_device_grants (alter (DeviceGrantRow_set_exchanged World.NOW 1000) 5000) World.db.

Lemma device_code_used_once_witness :
  is_ok (exchange_device_code World.device_request World.app World.TTL None None
    (World.at_db device_exchanged_db)).1 = false.
Proof.
  refine (device_code_used_once device_exchanged_db 5000
    (DeviceGrantRow_set_exchanged World.NOW 1000 World.device_row) _ _ _ _ _ _ _ _ _ _ _).
  - apply wf_b_sound. vm_compute. reflexivity.
  - vm_compute. reflexivity.
  - left. eexists. reflexivity.
  - apply rtc_refl.
  - reflexivity.
Defined.


Lemma rotated_tokens_never_active_witness :
  ∃ resp st1, token_handle_post
      (World.public_request "100" (Request_RefreshToken World.refresh_request))
      World.TTL None None World.st = (Ok resp, st1) ∧
    is_ok (introspect_token World.live_refresh None (World.at_db (st_committed st1))).1 = false.
Proof.
  destruct (ok_run (token_handle_post
    (World.public_request "100" (Request_RefreshToken World.refresh_request)) World.TTL None None
    World.st)) as (resp & st1 & E); [vm_compute; reflexivity|].
  exists resp, st1. split; [exact E|].
  assert (TokenType_check (refresh_grant_refresh_token World.refresh_request) = Ok TokenType_RefreshToken)
    as Hty by (vm_compute; reflexivity).
  exact (proj1 (rotated_tokens_never_active _ _ _ _ _ World.st _ _ (World.at_db (st_committed st1))
    None eq_refl world_wf (world_asks _) E (rtc_refl _ _) Hty)).
Defined.
