(* ===== verification/Queue.v ===== *)
(** The job queue: the tables of jobs, workers, schedules and the leader lease
    (crates/data/src/pg/queue/{job,worker,schedule}.rs), and the workers that run
    on them (crates/tasks/src/new_queue/{repository,tracker,leader,shared}.rs).

    The runtime uses the repositories on a connection without a transaction, so
    what a statement wrote stays written when a later one fails. Statements of
    different workers are taken one after the other: no row is locked by another
    worker when [reserve] looks for jobs. *)
From S2P Require Import Prelude Ids Jose Database.

Open Scope Z_scope.

(** ** Tables *)

Record WorkerRow := {
  WorkerRow_registered_at : DateTime;
  WorkerRow_last_seen_at : DateTime;
  WorkerRow_shutdown_at : option DateTime;
}.

Record JobRow := {
  JobRow_status : string;
  JobRow_created_at : DateTime;
  JobRow_started_at : option DateTime;
  JobRow_started_by : option Ulid;
  JobRow_completed_at : option DateTime;
  JobRow_queue_name : string;
  JobRow_payload : Json;
  JobRow_metadata : Json;
  JobRow_failed_at : option DateTime;
  JobRow_failed_reason : option string;
  JobRow_attempt : Z;
  JobRow_next_attempt_id : option Ulid;
  JobRow_scheduled_at : option DateTime;
  JobRow_schedule_name : option string;
}.

Record ScheduleRow := {
  ScheduleRow_last_scheduled_at : option DateTime;
  ScheduleRow_last_scheduled_job_id : option Ulid;
}.

Record LeaderRow := {
  LeaderRow_elected_at : DateTime;
  LeaderRow_expires_at : DateTime;
  LeaderRow_queue_worker_id : Ulid;
}.

(** The leader table has one row at most, as its column [active] is unique.
    [q_now] is the time of the database, [q_clock] that of the workers. *)
Record QSt := mkQ {
  q_workers : gmap Z WorkerRow;
  q_jobs : gmap Z JobRow;
  q_schedules : gmap string ScheduleRow;
  q_leader : option LeaderRow;
  q_clock : nat → DateTime;
  q_now : nat → DateTime;
  q_rng : Rng;
  q_notified : list string;
}.

Definition set_workers (w : gmap Z WorkerRow) (st : QSt) : QSt :=
  mkQ w (q_jobs st) (q_schedules st) (q_leader st) (q_clock st) (q_now st) (q_rng st) (q_notified st).
Definition set_jobs (j : gmap Z JobRow) (st : QSt) : QSt :=
  mkQ (q_workers st) j (q_schedules st) (q_leader st) (q_clock st) (q_now st) (q_rng st) (q_notified st).
Definition set_schedules (s : gmap string ScheduleRow) (st : QSt) : QSt :=
  mkQ (q_workers st) (q_jobs st) s (q_leader st) (q_clock st) (q_now st) (q_rng st) (q_notified st).
Definition set_leader (l : option LeaderRow) (st : QSt) : QSt :=
  mkQ (q_workers st) (q_jobs st) (q_schedules st) l (q_clock st) (q_now st) (q_rng st) (q_notified st).

Abbreviation Q A := (M QSt DatabaseError A) (only parsing).

(** [clock.now()], [NOW()], [new_id(now, rng)], [NOTIFY] *)
Definition queue_clock : Q DateTime := λ st,
  (Ok (q_clock st 0%nat),
   mkQ (q_workers st) (q_jobs st) (q_schedules st) (q_leader st) (λ n, q_clock st (S n)) (q_now st)
     (q_rng st) (q_notified st)).
Definition database_now : Q DateTime := λ st,
  (Ok (q_now st 0%nat),
   mkQ (q_workers st) (q_jobs st) (q_schedules st) (q_leader st) (q_clock st) (λ n, q_now st (S n))
     (q_rng st) (q_notified st)).
Definition queue_new_id (now : DateTime) : Q Ulid := λ st,
  let '(id, rng) := new_id now (q_rng st) in
  (Ok id, mkQ (q_workers st) (q_jobs st) (q_schedules st) (q_leader st) (q_clock st) (q_now st)
            rng (q_notified st)).
Definition notify (channel : string) : Q () := λ st,
  (Ok tt, mkQ (q_workers st) (q_jobs st) (q_schedules st) (q_leader st) (q_clock st) (q_now st)
            (q_rng st) (q_notified st ++ [channel])).

Definition check_rows (actual expected : nat) : Q () :=
  if bool_decide (actual = expected) then mret tt else raise (Db_RowsAffected expected actual).
Definition check_constraint (violated : bool) (e : DieselError) : Q () :=
  if violated then raise (Db_Diesel e) else mret tt.

(** The statuses of a job. *)
Definition SCHEDULED : string := "scheduled".
Definition AVAILABLE : string := "available".
Definition RUNNING : string := "running".
Definition COMPLETED : string := "completed".
Definition FAILED : string := "failed".

(** ** The repository of jobs *)

(** A new row, with the defaults of the table. *)
Definition new_job_row (status queue_name : string) (payload metadata : Json) (created_at : DateTime)
    (attempt : Z) (scheduled_at : option DateTime) (schedule_name : option string) : JobRow :=
  {| JobRow_status := status; JobRow_created_at := created_at; JobRow_started_at := None;
     JobRow_started_by := None; JobRow_completed_at := None; JobRow_queue_name := queue_name;
     JobRow_payload := payload; JobRow_metadata := metadata; JobRow_failed_at := None;
     JobRow_failed_reason := None; JobRow_attempt := attempt; JobRow_next_attempt_id := None;
     JobRow_scheduled_at := scheduled_at; JobRow_schedule_name := schedule_name |}.

Definition insert_job (id : Ulid) (row : JobRow) : Q () :=
  jobs ← gets q_jobs;
  schedules ← gets q_schedules;
  _ ← check_constraint (pk_taken id jobs) (UniqueViolation "queue_jobs" "id");
  _ ← check_constraint (match JobRow_schedule_name row with
                        | Some s => bool_decide (schedules !! s = None)
                        | None => false
                        end) (ForeignKeyViolation "queue_jobs" "schedule_name");
  modify (set_jobs (<[id := row]> jobs)).

Definition job_schedule (queue_name : string) (payload metadata : Json) : Q () :=
  created_at ← queue_clock;
  id ← queue_new_id created_at;
  insert_job id (new_job_row AVAILABLE queue_name payload metadata created_at 0 None None).

Definition job_schedule_later (queue_name : string) (payload metadata : Json)
    (scheduled_at : DateTime) (schedule_name : option string) : Q () :=
  created_at ← queue_clock;
  id ← queue_new_id created_at;
  _ ← insert_job id
        (new_job_row SCHEDULED queue_name payload metadata created_at 0 (Some scheduled_at) schedule_name);
  match schedule_name with
  | None => mret tt
  | Some schedule_name =>
      schedules ← gets q_schedules;
      _ ← modify (set_schedules (alter (λ _,
            {| ScheduleRow_last_scheduled_at := Some scheduled_at;
               ScheduleRow_last_scheduled_job_id := Some id |}) schedule_name schedules));
      check_rows (if bool_decide (is_Some (schedules !! schedule_name)) then 1 else 0) 1
  end.

Definition JobRow_start (now : DateTime) (worker : Ulid) (r : JobRow) : JobRow :=
  {| JobRow_status := RUNNING; JobRow_created_at := JobRow_created_at r;
     JobRow_started_at := Some now; JobRow_started_by := Some worker;
     JobRow_completed_at := JobRow_completed_at r; JobRow_queue_name := JobRow_queue_name r;
     JobRow_payload := JobRow_payload r; JobRow_metadata := JobRow_metadata r;
     JobRow_failed_at := JobRow_failed_at r; JobRow_failed_reason := JobRow_failed_reason r;
     JobRow_attempt := JobRow_attempt r; JobRow_next_attempt_id := JobRow_next_attempt_id r;
     JobRow_scheduled_at := JobRow_scheduled_at r; JobRow_schedule_name := JobRow_schedule_name r |}.
Definition JobRow_complete (now : DateTime) (r : JobRow) : JobRow :=
  {| JobRow_status := COMPLETED; JobRow_created_at := JobRow_created_at r;
     JobRow_started_at := JobRow_started_at r; JobRow_started_by := JobRow_started_by r;
     JobRow_completed_at := Some now; JobRow_queue_name := JobRow_queue_name r;
     JobRow_payload := JobRow_payload r; JobRow_metadata := JobRow_metadata r;
     JobRow_failed_at := JobRow_failed_at r; JobRow_failed_reason := JobRow_failed_reason r;
     JobRow_attempt := JobRow_attempt r; JobRow_next_attempt_id := JobRow_next_attempt_id r;
     JobRow_scheduled_at := JobRow_scheduled_at r; JobRow_schedule_name := JobRow_schedule_name r |}.
Definition JobRow_fail (now : DateTime) (reason : string) (r : JobRow) : JobRow :=
  {| JobRow_status := FAILED; JobRow_created_at := JobRow_created_at r;
     JobRow_started_at := JobRow_started_at r; JobRow_started_by := JobRow_started_by r;
     JobRow_completed_at := JobRow_completed_at r; JobRow_queue_name := JobRow_queue_name r;
     JobRow_payload := JobRow_payload r; JobRow_metadata := JobRow_metadata r;
     JobRow_failed_at := Some now; JobRow_failed_reason := Some reason;
     JobRow_attempt := JobRow_attempt r; JobRow_next_attempt_id := JobRow_next_attempt_id r;
     JobRow_scheduled_at := JobRow_scheduled_at r; JobRow_schedule_name := JobRow_schedule_name r |}.
Definition JobRow_set_available (r : JobRow) : JobRow :=
  {| JobRow_status := AVAILABLE; JobRow_created_at := JobRow_created_at r;
     JobRow_started_at := JobRow_started_at r; JobRow_started_by := JobRow_started_by r;
     JobRow_completed_at := JobRow_completed_at r; JobRow_queue_name := JobRow_queue_name r;
     JobRow_payload := JobRow_payload r; JobRow_metadata := JobRow_metadata r;
     JobRow_failed_at := JobRow_failed_at r; JobRow_failed_reason := JobRow_failed_reason r;
     JobRow_attempt := JobRow_attempt r; JobRow_next_attempt_id := JobRow_next_attempt_id r;
     JobRow_scheduled_at := JobRow_scheduled_at r; JobRow_schedule_name := JobRow_schedule_name r |}.
Definition JobRow_set_next_attempt (next : Ulid) (r : JobRow) : JobRow :=
  {| JobRow_status := JobRow_status r; JobRow_created_at := JobRow_created_at r;
     JobRow_started_at := JobRow_started_at r; JobRow_started_by := JobRow_started_by r;
     JobRow_completed_at := JobRow_completed_at r; JobRow_queue_name := JobRow_queue_name r;
     JobRow_payload := JobRow_payload r; JobRow_metadata := JobRow_metadata r;
     JobRow_failed_at := JobRow_failed_at r; JobRow_failed_reason := JobRow_failed_reason r;
     JobRow_attempt := JobRow_attempt r; JobRow_next_attempt_id := Some next;
     JobRow_scheduled_at := JobRow_scheduled_at r; JobRow_schedule_name := JobRow_schedule_name r |}.

Record Job := {
  Job_id : Ulid;
  Job_queue_name : string;
  Job_payload : Json;
  Job_metadata : Json;
  Job_attempt : Z;
}.

Class QueueExternals := {
  (** [serde_json::from_value::<JobMetadata>] succeeds *)
  metadata_decodes : Json → bool;
}.

(** The identifiers of the rows that satisfy [P], in order. *)
Definition ids_where (P : JobRow → bool) (jobs : gmap Z JobRow) : list Z :=
  merge_sort Z.le (elements (dom (filter (λ kr, P kr.2 = true) jobs))).

(** An update of the rows in [ids]. *)
Definition update_jobs (f : JobRow → JobRow) (ids : list Z) (jobs : gmap Z JobRow) : gmap Z JobRow :=
  foldr (alter f) jobs ids.

Definition job_inconsistency (column : string) (id : Ulid) : DatabaseError :=
  Db_Inconsistency {| inconsistency_table := "queue_jobs"; inconsistency_column := Some column;
                      inconsistency_row := Some id |}.

Section queue.
Context {QX : QueueExternals}.

Definition Job_try_from (id : Ulid) (r : JobRow) : result Job DatabaseError :=
  if metadata_decodes (JobRow_metadata r) then
    if 0 <=? JobRow_attempt r then
      Ok {| Job_id := id; Job_queue_name := JobRow_queue_name r; Job_payload := JobRow_payload r;
            Job_metadata := JobRow_metadata r; Job_attempt := JobRow_attempt r |}
    else Err (job_inconsistency "attempt" id)
  else Err (job_inconsistency "metadata" id).

Fixpoint collect_jobs (l : list (result Job DatabaseError)) : result (list Job) DatabaseError :=
  match l with
  | [] => Ok []
  | Ok j :: l => match collect_jobs l with Ok js => Ok (j :: js) | Err e => Err e end
  | Err e :: _ => Err e
  end.

Definition is_reservable (queues : list string) (r : JobRow) : bool :=
  bool_decide (JobRow_status r = AVAILABLE) && bool_decide (JobRow_queue_name r ∈ queues).

Definition job_reserve (worker : Ulid) (queues : list string) (count : nat) : Q (list Job) :=
  now ← queue_clock;
  jobs ← gets q_jobs;
  workers ← gets q_workers;
  let locked := take count (ids_where (is_reservable queues) jobs) in
  _ ← check_constraint (negb (bool_decide (locked = [])) && fk_broken worker workers)
        (ForeignKeyViolation "queue_jobs" "started_by");
  _ ← modify (set_jobs (update_jobs (JobRow_start now worker) locked jobs));
  of_result (collect_jobs (omap (λ id, Job_try_from id <$> jobs !! id) locked)).

(** An update of the row of a running job. *)
Definition update_running (f : JobRow → JobRow) (id : Ulid) : Q () :=
  jobs ← gets q_jobs;
  let found := match jobs !! id with
               | Some r => bool_decide (JobRow_status r = RUNNING)
               | None => false
               end in
  _ ← modify (set_jobs (if found then alter f id jobs else jobs));
  check_rows (if found then 1 else 0) 1.

Definition job_mark_as_completed (id : Ulid) : Q () :=
  now ← queue_clock; update_running (JobRow_complete now) id.
Definition job_mark_as_failed (id : Ulid) (reason : string) : Q () :=
  now ← queue_clock; update_running (JobRow_fail now reason) id.

(** A copy of a failed job is inserted, the schedule of the job and the job
    itself point to it. *)
Definition job_retry (id : Ulid) (delay : Duration) : Q () :=
  now ← queue_clock;
  let scheduled_at := now + delay in
  new_id ← queue_new_id now;
  jobs ← gets q_jobs;
  _ ← match jobs !! id with
      | Some r =>
          if bool_decide (JobRow_status r = FAILED) then
            insert_job new_id
              (new_job_row SCHEDULED (JobRow_queue_name r) (JobRow_payload r) (JobRow_metadata r) now
                 (JobRow_attempt r + 1) (Some scheduled_at) (JobRow_schedule_name r))
          else check_rows 0 1
      | None => check_rows 0 1
      end;
  schedules ← gets q_schedules;
  _ ← modify (set_schedules ((λ s,
        if bool_decide (ScheduleRow_last_scheduled_job_id s = Some id) then
          {| ScheduleRow_last_scheduled_at := Some scheduled_at;
             ScheduleRow_last_scheduled_job_id := Some new_id |}
        else s) <$> schedules));
  jobs ← gets q_jobs;
  _ ← modify (set_jobs (alter (JobRow_set_next_attempt new_id) id jobs));
  check_rows (if bool_decide (is_Some (jobs !! id)) then 1 else 0) 1.

Definition is_due (now : DateTime) (r : JobRow) : bool :=
  bool_decide (JobRow_status r = SCHEDULED) &&
  match JobRow_scheduled_at r with Some t => t <=? now | None => false end.

Definition job_schedule_available_jobs : Q nat :=
  now ← queue_clock;
  jobs ← gets q_jobs;
  let due := ids_where (is_due now) jobs in
  _ ← modify (set_jobs (update_jobs JobRow_set_available due jobs));
  mret (length due).

Record AbandonedJob := {
  AbandonedJob_id : Ulid;
  AbandonedJob_queue_name : string;
  AbandonedJob_attempt : Z;
  AbandonedJob_started_by : Ulid;
}.

(** The running jobs of workers that are shut down. *)
Definition is_abandoned (workers : gmap Z WorkerRow) (r : JobRow) : bool :=
  bool_decide (JobRow_status r = RUNNING) &&
  match JobRow_started_by r ≫= λ w, workers !! w with
  | Some w => bool_decide (is_Some (WorkerRow_shutdown_at w))
  | None => false
  end.

Definition AbandonedJob_try_from (id : Ulid) (r : JobRow) : result AbandonedJob DatabaseError :=
  if 0 <=? JobRow_attempt r then
    Ok {| AbandonedJob_id := id; AbandonedJob_queue_name := JobRow_queue_name r;
          AbandonedJob_attempt := JobRow_attempt r;
          AbandonedJob_started_by := default 0 (JobRow_started_by r) |}
  else Err (job_inconsistency "attempt" id).

Fixpoint collect_abandoned (l : list (result AbandonedJob DatabaseError))
    : result (list AbandonedJob) DatabaseError :=
  match l with
  | [] => Ok []
  | Ok j :: l => match collect_abandoned l with Ok js => Ok (j :: js) | Err e => Err e end
  | Err e :: _ => Err e
  end.

Definition job_mark_abandoned_jobs_as_failed (reason : string) : Q (list AbandonedJob) :=
  now ← queue_clock;
  jobs ← gets q_jobs;
  workers ← gets q_workers;
  let abandoned := ids_where (is_abandoned workers) jobs in
  _ ← modify (set_jobs (update_jobs (JobRow_fail now reason) abandoned jobs));
  of_result (collect_abandoned (omap (λ id, AbandonedJob_try_from id <$> jobs !! id) abandoned)).

(** The finished jobs between two identifiers. *)
Definition is_finished (r : JobRow) : bool :=
  bool_decide (JobRow_status r = COMPLETED) || bool_decide (JobRow_status r = FAILED).

Definition jobs_to_delete (since : option Ulid) (until : Ulid) (limit : nat) (jobs : gmap Z JobRow)
    : list Z :=
  take limit (filter (λ id,
      match since with Some s => s <? id | None => true end && (id <=? until) = true)
    (ids_where is_finished jobs)).

(** Whether a row that stays refers to a row that goes. *)
Definition job_referenced (st : QSt) (gone : list Z) : bool :=
  existsb (λ s, match ScheduleRow_last_scheduled_job_id s with
                | Some id => bool_decide (id ∈ gone)
                | None => false
                end) (map_to_list (q_schedules st)).*2 ||
  existsb (λ '(id, r), negb (bool_decide (id ∈ gone)) &&
             match JobRow_next_attempt_id r with
             | Some next => bool_decide (next ∈ gone)
             | None => false
             end) (map_to_list (q_jobs st)).

Definition job_cleanup (since : option Ulid) (until : Ulid) (limit : nat)
    : Q (nat * option Ulid) :=
  jobs ← gets q_jobs;
  let gone := jobs_to_delete since until limit jobs in
  referenced ← gets (λ st, job_referenced st gone);
  _ ← check_constraint referenced (ForeignKeyViolation "queue_jobs" "id");
  _ ← modify (set_jobs (foldr delete jobs gone));
  mret (length gone, last gone).

(** ** The repository of workers *)

Definition worker_register : Q Ulid :=
  now ← queue_clock;
  worker_id ← queue_new_id now;
  workers ← gets q_workers;
  _ ← check_constraint (pk_taken worker_id workers) (UniqueViolation "queue_workers" "id");
  _ ← modify (set_workers (<[worker_id := {| WorkerRow_registered_at := now;
        WorkerRow_last_seen_at := now; WorkerRow_shutdown_at := None |}]> workers));
  mret worker_id.

Definition WorkerRow_seen (now : DateTime) (w : WorkerRow) : WorkerRow :=
  {| WorkerRow_registered_at := WorkerRow_registered_at w; WorkerRow_last_seen_at := now;
     WorkerRow_shutdown_at := WorkerRow_shutdown_at w |}.
Definition WorkerRow_shut (now : DateTime) (w : WorkerRow) : WorkerRow :=
  {| WorkerRow_registered_at := WorkerRow_registered_at w;
     WorkerRow_last_seen_at := WorkerRow_last_seen_at w; WorkerRow_shutdown_at := Some now |}.

Definition worker_heartbeat (worker : Ulid) : Q () :=
  now ← queue_clock;
  workers ← gets q_workers;
  let found := match workers !! worker with
               | Some w => bool_decide (WorkerRow_shutdown_at w = None)
               | None => false
               end in
  _ ← modify (set_workers (if found then alter (WorkerRow_seen now) worker workers else workers));
  check_rows (if found then 1 else 0) 1.

Definition worker_shutdown (worker : Ulid) : Q () :=
  now ← queue_clock;
  workers ← gets q_workers;
  _ ← modify (set_workers (alter (WorkerRow_shut now) worker workers));
  _ ← check_rows (if bool_decide (is_Some (workers !! worker)) then 1 else 0) 1;
  leader ← gets q_leader;
  match leader with
  | Some l =>
      if bool_decide (LeaderRow_queue_worker_id l = worker) then
        _ ← modify (set_leader None); notify "queue_leader_stepdown"
      else mret tt
  | None => mret tt
  end.

(** The workers not seen since [cutoff]. *)
Definition is_dead (cutoff : DateTime) (w : WorkerRow) : bool :=
  bool_decide (WorkerRow_shutdown_at w = None) && (WorkerRow_last_seen_at w <? cutoff).

Definition worker_shutdown_dead_workers (threshold : Duration) : Q () :=
  now ← queue_clock;
  let cutoff := now - threshold in
  workers ← gets q_workers;
  modify (set_workers ((λ w, if is_dead cutoff w then WorkerRow_shut now w else w) <$> workers)).

Definition worker_remove_leader_lease_if_expired : Q () :=
  now ← database_now;
  leader ← gets q_leader;
  modify (set_leader match leader with
                     | Some l => if LeaderRow_expires_at l <? now then None else Some l
                     | None => None
                     end).

Definition LEASE : Duration := 5 * 1000000.

(** The upsert: a new row, or a later expiry of the worker's own row. *)
Definition worker_try_get_leader_lease (worker : Ulid) : Q bool :=
  elected_at ← queue_clock;
  now ← database_now;
  leader ← gets q_leader;
  workers ← gets q_workers;
  match leader with
  | None =>
      _ ← check_constraint (fk_broken worker workers)
            (ForeignKeyViolation "queue_leader" "queue_worker_id");
      _ ← modify (set_leader (Some {| LeaderRow_elected_at := elected_at;
            LeaderRow_expires_at := now + LEASE; LeaderRow_queue_worker_id := worker |}));
      mret true
  | Some l =>
      if bool_decide (LeaderRow_queue_worker_id l = worker) then
        _ ← modify (set_leader (Some {| LeaderRow_elected_at := LeaderRow_elected_at l;
              LeaderRow_expires_at := now + LEASE; LeaderRow_queue_worker_id := worker |}));
        mret true
      else mret false
  end.

(** ** The repository of schedules *)

Record ScheduleStatus := {
  Status_schedule_name : string;
  Status_last_scheduled_at : option DateTime;
  Status_last_scheduled_job_completed : option bool;
}.

Definition no_schedule : ScheduleRow :=
  {| ScheduleRow_last_scheduled_at := None; ScheduleRow_last_scheduled_job_id := None |}.

Definition schedule_setup (schedules : list string) : Q () :=
  rows ← gets q_schedules;
  modify (set_schedules (foldr (λ name rows,
    match rows !! name with Some _ => rows | None => <[name := no_schedule]> rows end) rows schedules)).

Definition schedule_status (jobs : gmap Z JobRow) (name : string) (s : ScheduleRow) : ScheduleStatus :=
  {| Status_schedule_name := name;
     Status_last_scheduled_at := ScheduleRow_last_scheduled_at s;
     Status_last_scheduled_job_completed :=
       is_finished <$> (ScheduleRow_last_scheduled_job_id s ≫= λ id, jobs !! id) |}.

Definition schedule_list : Q (list ScheduleStatus) :=
  jobs ← gets q_jobs;
  rows ← gets q_schedules;
  mret ((λ '(name, s), schedule_status jobs name s) <$> map_to_list rows).

(** ** Running jobs *)

Definition MAX_CONCURRENT_JOBS : nat := 10.
Definition MAX_JOBS_TO_FETCH : nat := 5.
Definition MAX_ATTEMPTS : Z := 10.
Definition I64_MAX : Z := 2 ^ 63 - 1.

(** [2_i64.saturating_pow(exp) * 5_000] milliseconds; [None] if the product does
    not fit. *)
Definition retry_delay (attempt : Z) : option Duration :=
  let power := if attempt <? 63 then 2 ^ attempt else I64_MAX in
  if power * 5000 <=? I64_MAX then Some (power * 5000 * 1000) else None.

Definition jobs_to_fetch_capacity (running_jobs : nat) : nat :=
  Nat.min (MAX_CONCURRENT_JOBS - running_jobs) MAX_JOBS_TO_FETCH.

Record JobContext := {
  ctx_id : Ulid;
  ctx_queue_name : string;
  ctx_attempt : Z;
}.

(** How the task of a job ended. *)
Inductive JobOutcome :=
| Job_Ok
| Job_Fail (reason : string)
| Job_Retry (reason : string)
| Job_Crashed (reason : string).

(** The contexts of the tasks, by the job they run. *)
Record JobTracker := {
  tracker_queues : list string;
  tracker_contexts : gmap Z JobContext;
}.

Definition tracker_running_jobs (t : JobTracker) : nat := size (tracker_contexts t).

(** [retry] with the delay of the attempt; an overflow panics. *)
Definition retry_later (context : JobContext) : Q () :=
  match retry_delay (ctx_attempt context) with
  | Some delay => job_retry (ctx_id context) delay
  | None => raise Db_InvalidOperation
  end.

Definition process_result (context : JobContext) (outcome : JobOutcome) : Q () :=
  match outcome with
  | Job_Ok => job_mark_as_completed (ctx_id context)
  | Job_Fail reason => job_mark_as_failed (ctx_id context) reason
  | Job_Retry reason | Job_Crashed reason =>
      _ ← job_mark_as_failed (ctx_id context) reason;
      if ctx_attempt context <? MAX_ATTEMPTS then retry_later context else mret tt
  end.

(** [process_jobs]: [joined] are the tasks that have ended, in order. *)
Fixpoint process_jobs (joined : list (Z * JobOutcome)) (contexts : gmap Z JobContext)
    : Q (gmap Z JobContext) :=
  match joined with
  | [] => mret contexts
  | (id, outcome) :: joined =>
      match contexts !! id with
      | Some context =>
          _ ← process_result context outcome;
          process_jobs joined (delete id contexts)
      | None => process_jobs joined contexts
      end
  end.

Definition spawn_jobs (jobs : list Job) (contexts : gmap Z JobContext) : gmap Z JobContext :=
  foldl (λ contexts job,
    <[Job_id job := {| ctx_id := Job_id job; ctx_queue_name := Job_queue_name job;
                       ctx_attempt := Job_attempt job |}]> contexts) contexts jobs.

(** ** The worker *)

Record Worker := {
  worker_id : Ulid;
  worker_last_heartbeat : DateTime;
  worker_tracker : JobTracker;
  worker_am_i_leader : bool;
}.

Definition MINUTE : Duration := 60 * 1000000.

Definition tick_worker (w : Worker) (joined : list (Z * JobOutcome)) : Q Worker :=
  now ← queue_clock;
  let due := MINUTE <=? now - worker_last_heartbeat w in
  _ ← (if due then worker_heartbeat (worker_id w) else mret tt);
  _ ← worker_remove_leader_lease_if_expired;
  leader ← worker_try_get_leader_lease (worker_id w);
  let tracker := worker_tracker w in
  contexts ← process_jobs joined (tracker_contexts tracker);
  let max_jobs_to_fetch := jobs_to_fetch_capacity (size contexts) in
  jobs ← (if (max_jobs_to_fetch =? 0)%nat then mret []
          else job_reserve (worker_id w) (tracker_queues tracker) max_jobs_to_fetch);
  mret {| worker_id := worker_id w;
          worker_last_heartbeat := if due then now else worker_last_heartbeat w;
          worker_tracker := {| tracker_queues := tracker_queues tracker;
                               tracker_contexts := spawn_jobs jobs contexts |};
          worker_am_i_leader := leader |}.

(** [shutdown_worker]: the remaining tasks end, as [joined] says. *)
Definition shutdown_worker (w : Worker) (joined : list (Z * JobOutcome)) : Q () :=
  _ ← process_jobs joined (tracker_contexts (worker_tracker w));
  worker_shutdown (worker_id w).

(** ** The leader *)

Record ScheduleDefinition := {
  sd_schedule_name : string;
  (** [expression.after(&now).next().unwrap()] *)
  sd_next_after : DateTime → DateTime;
  sd_queue_name : string;
  sd_payload : Json;
}.

Definition recover_abandoned_jobs : Q () :=
  _ ← worker_shutdown_dead_workers (2 * MINUTE);
  abandoned_jobs ← job_mark_abandoned_jobs_as_failed "worker lost heartbeat";
  for_each (λ job,
    if AbandonedJob_attempt job <? MAX_ATTEMPTS then job_retry (AbandonedJob_id job) 0
    else mret tt) abandoned_jobs.

Definition missing_schedule_names (schedules : list ScheduleDefinition) (statuses : list ScheduleStatus)
    : list string :=
  omap (λ s, if bool_decide (sd_schedule_name s ∈ Status_schedule_name <$> statuses) then None
             else Some (sd_schedule_name s)) schedules.

(** One round of the loop over the schedules. *)
Definition run_schedule (statuses : list ScheduleStatus) (now : DateTime) (s : ScheduleDefinition)
    : Q () :=
  match find (λ st, String.eqb (Status_schedule_name st) (sd_schedule_name s)) statuses with
  | None => mret tt
  | Some status =>
      let skip := match Status_last_scheduled_at status with
                  | Some next_time =>
                      (now <? next_time)
                      || bool_decide (Status_last_scheduled_job_completed status = Some false)
                  | None => false
                  end in
      if skip then mret tt
      else job_schedule_later (sd_queue_name s) (sd_payload s) (Json_Object []) (sd_next_after s now)
             (Some (sd_schedule_name s))
  end.

(** [run_leader_duties], when the advisory lock was acquired or not. *)
Definition run_leader_duties (acquired : bool) (schedules : list ScheduleDefinition) : Q () :=
  if acquired then
    _ ← recover_abandoned_jobs;
    statuses ← schedule_list;
    let missing := missing_schedule_names schedules statuses in
    statuses ← (if bool_decide (missing = []) then mret statuses
                else _ ← schedule_setup missing; schedule_list);
    now ← queue_clock;
    _ ← for_each (run_schedule statuses now) schedules;
    _ ← job_schedule_available_jobs;
    mret tt
  else mret tt.
End queue.
