(* ===== verification/QueueProofs.v ===== *)
(** Theorems on the job queue: the life cycle of jobs, that a job is handed out
    once, retries, the leader lease, and that no job is forgotten. *)
From S2P Require Import Prelude Ids Jose Database Queue.

Open Scope Z_scope.

(** ** Sets of rows *)

Lemma elem_of_ids_where P jobs id :
  id ∈ ids_where P jobs ↔ ∃ r, jobs !! id = Some r ∧ P r = true.
Proof.
  unfold ids_where. rewrite merge_sort_Permutation, elem_of_elements, elem_of_dom.
  unfold is_Some. setoid_rewrite map_lookup_filter_Some. naive_solver.
Qed.
Lemma ids_where_NoDup P jobs : NoDup (ids_where P jobs).
Proof. unfold ids_where. rewrite merge_sort_Permutation. apply NoDup_elements. Qed.
Lemma ids_where_sorted P jobs : StronglySorted Z.le (ids_where P jobs).
Proof. apply (StronglySorted_merge_sort Z.le); apply _. Qed.

Lemma take_NoDup {A} n (l : list A) : NoDup l → NoDup (take n l).
Proof. intros H. eapply sublist_NoDup; [done|apply sublist_take]. Qed.
Lemma elem_of_take_in {A} n (l : list A) x : x ∈ take n l → x ∈ l.
Proof. intros H. eapply elem_of_submseteq; [done|]. apply sublist_submseteq, sublist_take. Qed.

Lemma update_jobs_lookup f ids jobs id :
  NoDup ids →
  update_jobs f ids jobs !! id =
    if decide (id ∈ ids) then f <$> jobs !! id else jobs !! id.
Proof.
  unfold update_jobs. induction 1 as [|i ids Hi Hnd IH]; simpl; [done|].
  destruct (decide (i = id)) as [->|Hne].
  - rewrite lookup_alter_eq, IH. rewrite decide_False by done. by rewrite decide_True by set_solver.
  - rewrite lookup_alter_ne by done. rewrite IH.
    destruct (decide (id ∈ ids)); [by rewrite decide_True by set_solver|].
    by rewrite decide_False by set_solver.
Qed.

(** ** How the tables evolve *)

Definition rank (status : string) : Z :=
  if decide (status = SCHEDULED) then 0
  else if decide (status = AVAILABLE) then 1
  else if decide (status = RUNNING) then 2
  else 3.

(** A job keeps what it is, and only moves forward. *)
Definition job_evolves (r r' : JobRow) : Prop :=
  JobRow_queue_name r' = JobRow_queue_name r ∧
  JobRow_payload r' = JobRow_payload r ∧
  JobRow_metadata r' = JobRow_metadata r ∧
  JobRow_created_at r' = JobRow_created_at r ∧
  JobRow_attempt r' = JobRow_attempt r ∧
  JobRow_schedule_name r' = JobRow_schedule_name r ∧
  (JobRow_started_by r ≠ None → JobRow_started_by r' = JobRow_started_by r) ∧
  (JobRow_status r' = JobRow_status r ∨ rank (JobRow_status r) < rank (JobRow_status r')).

Definition worker_evolves (w w' : WorkerRow) : Prop :=
  WorkerRow_registered_at w' = WorkerRow_registered_at w ∧
  (is_Some (WorkerRow_shutdown_at w) → is_Some (WorkerRow_shutdown_at w')).

Record queue_evolves (st st' : QSt) : Prop := {
  qe_jobs : ∀ id r, q_jobs st !! id = Some r →
    ∃ r', q_jobs st' !! id = Some r' ∧ job_evolves r r';
  qe_workers : ∀ id w, q_workers st !! id = Some w →
    ∃ w', q_workers st' !! id = Some w' ∧ worker_evolves w w';
  qe_schedules : ∀ s, is_Some (q_schedules st !! s) → is_Some (q_schedules st' !! s);
}.

#[export] Instance job_evolves_preorder : PreOrder job_evolves.
Proof.
  split.
  - intros r. repeat split; auto.
  - intros r1 r2 r3 (?&?&?&?&?&?&Hb1&Hs1) (?&?&?&?&?&?&Hb2&Hs2).
    split_and!; try congruence.
    + intros Hn. rewrite <-(Hb1 Hn). apply Hb2. by rewrite (Hb1 Hn).
    + destruct Hs1 as [Hs1|Hs1], Hs2 as [Hs2|Hs2];
        [left; congruence|right; by rewrite <-Hs1|right; by rewrite Hs2|right; lia].
Qed.
#[export] Instance worker_evolves_preorder : PreOrder worker_evolves.
Proof.
  split; [by intros w; split|]. intros w1 w2 w3 [] []. split; [congruence|auto].
Qed.
#[export] Instance queue_evolves_preorder : PreOrder queue_evolves.
Proof.
  split.
  - intros st. split; [intros id r ->; by exists r|intros id w ->; by exists w|done].
  - intros st1 st2 st3 [J1 W1 S1] [J2 W2 S2]. split; [| |auto].
    + intros id r Hr. destruct (J1 id r Hr) as (r2 & H2 & E2). destruct (J2 id r2 H2) as (r3 & H3 & E3).
      exists r3. split; [done|by etrans].
    + intros id w Hw. destruct (W1 id w Hw) as (w2 & H2 & E2). destruct (W2 id w2 H2) as (w3 & H3 & E3).
      exists w3. split; [done|by etrans].
Qed.

(** ** Well-formed rows *)

Definition job_ok (st : QSt) (r : JobRow) : Prop :=
  0 ≤ JobRow_attempt r ≤ MAX_ATTEMPTS ∧
  (∀ s, JobRow_schedule_name r = Some s → is_Some (q_schedules st !! s)) ∧
  (∀ w, JobRow_started_by r = Some w → is_Some (q_workers st !! w)) ∧
  ((JobRow_status r = SCHEDULED ∧ is_Some (JobRow_scheduled_at r) ∧ JobRow_started_by r = None ∧
    JobRow_completed_at r = None ∧ JobRow_failed_at r = None ∧ JobRow_next_attempt_id r = None) ∨
   (JobRow_status r = AVAILABLE ∧ JobRow_started_by r = None ∧
    JobRow_completed_at r = None ∧ JobRow_failed_at r = None ∧ JobRow_next_attempt_id r = None) ∨
   (JobRow_status r = RUNNING ∧ is_Some (JobRow_started_by r) ∧
    JobRow_completed_at r = None ∧ JobRow_failed_at r = None ∧ JobRow_next_attempt_id r = None) ∨
   (JobRow_status r = COMPLETED ∧ is_Some (JobRow_started_by r) ∧
    is_Some (JobRow_completed_at r) ∧ JobRow_failed_at r = None ∧ JobRow_next_attempt_id r = None) ∨
   (JobRow_status r = FAILED ∧ is_Some (JobRow_started_by r) ∧
    JobRow_completed_at r = None ∧ is_Some (JobRow_failed_at r) ∧
    ∀ n, JobRow_next_attempt_id r = Some n → ∃ r', q_jobs st !! n = Some r' ∧
      JobRow_attempt r' = JobRow_attempt r + 1 ∧ JobRow_queue_name r' = JobRow_queue_name r ∧
      JobRow_payload r' = JobRow_payload r)).

Record queue_ok (st : QSt) : Prop := {
  qo_jobs : ∀ id r, q_jobs st !! id = Some r → job_ok st r;
  qo_schedules : ∀ s row id, q_schedules st !! s = Some row →
    ScheduleRow_last_scheduled_job_id row = Some id → is_Some (q_jobs st !! id);
  qo_leader : ∀ l, q_leader st = Some l → is_Some (q_workers st !! LeaderRow_queue_worker_id l);
}.

(** Run the primitives. *)
Ltac qrun :=
  unfold mbind, M_bind, gets, modify, mret, M_ret, raise, of_result, check_rows, check_constraint,
    queue_clock, database_now, queue_new_id, notify in *; cbn in *.

Lemma evolves_jobs st st' :
  (∀ id r, q_jobs st !! id = Some r → ∃ r', q_jobs st' !! id = Some r' ∧ job_evolves r r') →
  q_workers st' = q_workers st → q_schedules st' = q_schedules st → queue_evolves st st'.
Proof. intros Hj Hw Hs. split; [done| |]; rewrite ?Hw, ?Hs; [by intros id w ->; exists w|done]. Qed.

Lemma evolves_same st st' :
  q_jobs st' = q_jobs st → q_workers st' = q_workers st → q_schedules st' = q_schedules st →
  queue_evolves st st'.
Proof. intros Hj. apply evolves_jobs. rewrite Hj. intros id r ->. by exists r. Qed.

(** Two statuses of one row. *)
Ltac clash :=
  exfalso; match goal with
  | H1 : JobRow_status ?r = ?a, H2 : JobRow_status ?r = ?b |- _ =>
      rewrite H1 in H2; discriminate H2
  end.

(** Along the binds, without looking into the operations. *)
Ltac qbind :=
  repeat match goal with
  | |- maintains _ (mbind _ _) => apply maintains_bind; [solve [auto with maintains]|intros ?]
  end.

Section operations.
Context {QX : QueueExternals}.

(** Where a failed statement stops, or the successful end. *)
Lemma insert_job_run id row st :
  (∃ e, insert_job id row st = (Err e, st)) ∨
  (q_jobs st !! id = None ∧
   (∀ s, JobRow_schedule_name row = Some s → is_Some (q_schedules st !! s)) ∧
   insert_job id row st = (Ok tt, set_jobs (<[id := row]> (q_jobs st)) st)).
Proof.
  unfold insert_job. qrun. destruct (pk_taken id (q_jobs st)) eqn:Hpk; [left; by eexists|].
  apply pk_taken_false in Hpk. destruct (JobRow_schedule_name row) as [s|] eqn:Hs.
  - case_bool_decide as Hk; [left; by eexists|]. right. split_and!; [done| |done].
    intros s' [= <-]. by apply not_eq_None_Some.
  - by right.
Qed.

Lemma update_running_run f id st :
  (∃ e, update_running f id st = (Err e, set_jobs (q_jobs st) st)) ∨
  (∃ r, q_jobs st !! id = Some r ∧ JobRow_status r = RUNNING ∧
        update_running f id st = (Ok tt, set_jobs (alter f id (q_jobs st)) st)).
Proof.
  unfold update_running. qrun. destruct (q_jobs st !! id) as [r|]; [|left; by eexists].
  destruct (bool_decide (JobRow_status r = RUNNING)) eqn:Hr; [|left; by eexists].
  apply bool_decide_eq_true in Hr. right. by exists r.
Qed.

Lemma job_evolves_up r r' :
  JobRow_queue_name r' = JobRow_queue_name r → JobRow_payload r' = JobRow_payload r →
  JobRow_metadata r' = JobRow_metadata r → JobRow_created_at r' = JobRow_created_at r →
  JobRow_attempt r' = JobRow_attempt r → JobRow_schedule_name r' = JobRow_schedule_name r →
  (JobRow_started_by r = None ∨ JobRow_started_by r' = JobRow_started_by r) →
  rank (JobRow_status r) < rank (JobRow_status r') → job_evolves r r'.
Proof. intros. split_and!; try done; [naive_solver|by right]. Qed.

(** Updates of rows, from one status to a later one. *)
Lemma evolves_alter f st id :
  (∀ r, q_jobs st !! id = Some r → job_evolves r (f r)) →
  queue_evolves st (set_jobs (alter f id (q_jobs st)) st).
Proof.
  intros Hf. apply evolves_jobs; [|done|done]. intros i r Hr. cbn.
  destruct (decide (id = i)) as [->|Hne].
  - exists (f r). rewrite lookup_alter_eq, Hr. auto.
  - exists r. by rewrite lookup_alter_ne.
Qed.
Lemma evolves_update f ids st :
  NoDup ids → (∀ id r, id ∈ ids → q_jobs st !! id = Some r → job_evolves r (f r)) →
  queue_evolves st (set_jobs (update_jobs f ids (q_jobs st)) st).
Proof.
  intros Hnd Hf. apply evolves_jobs; [|done|done]. intros i r Hr. cbn.
  rewrite update_jobs_lookup, Hr by done. destruct (decide (i ∈ ids)); [|by exists r].
  exists (f r). split; [done|]. by eapply Hf.
Qed.
Lemma evolves_insert id row st :
  q_jobs st !! id = None → queue_evolves st (set_jobs (<[id := row]> (q_jobs st)) st).
Proof.
  intros Hn. apply evolves_jobs; [|done|done]. intros i r Hr. exists r. cbn.
  rewrite lookup_insert_ne; [done|congruence].
Qed.

Ltac up := apply job_evolves_up; auto; cbn; unfold rank in *;
  repeat match goal with H : JobRow_status _ = _ |- _ => rewrite H end; done.

Lemma start_up now w r : JobRow_status r = AVAILABLE → JobRow_started_by r = None →
  job_evolves r (JobRow_start now w r).
Proof. intros H1 H2. up. Qed.
Lemma complete_up now r : JobRow_status r = RUNNING → job_evolves r (JobRow_complete now r).
Proof. intros H. up. Qed.
Lemma fail_up now reason r : JobRow_status r = RUNNING → job_evolves r (JobRow_fail now reason r).
Proof. intros H. up. Qed.
Lemma available_up r : JobRow_status r = SCHEDULED → job_evolves r (JobRow_set_available r).
Proof. intros H. up. Qed.
Lemma next_attempt_up n r : job_evolves r (JobRow_set_next_attempt n r).
Proof. repeat split; auto. Qed.

(** ** Every operation keeps the rows well formed *)

Lemma job_ok_mono st st' r : queue_evolves st st' → job_ok st r → job_ok st' r.
Proof.
  intros [Hj Hw Hs] (Ha & Hsch & Hst & Hcase). split_and!; [lia|lia|naive_solver| |].
  - intros w Hw'. destruct (Hst w Hw') as [row Hrow]. destruct (Hw _ _ Hrow) as (? & -> & _). done.
  - destruct Hcase as [?|[?|[?|[?|(H1 & H2 & H3 & H4 & Hn)]]]]; [tauto|tauto|tauto|tauto|].
    do 4 right. split_and!; try done. intros n Hnext. destruct (Hn n Hnext) as (r' & Hr' & E1 & E2 & E3).
    destruct (Hj _ _ Hr') as (r'' & Hr'' & Eq & Ep & _ & _ & Ea & _).
    exists r''. split_and!; congruence.
Qed.

Lemma queue_ok_jobs st st' :
  queue_ok st → queue_evolves st st' → q_leader st' = q_leader st →
  q_schedules st' = q_schedules st →
  (∀ id r', q_jobs st' !! id = Some r' → q_jobs st !! id = Some r' ∨ job_ok st' r') →
  queue_ok st'.
Proof.
  intros [Hj Hs Hl] He Eleader Esched Hnew. split.
  - intros id r' Hr'. destruct (Hnew _ _ Hr') as [Hr|Hok]; [|done].
    eapply job_ok_mono; [done|]. by eapply Hj.
  - intros s row id. rewrite Esched. intros Hrow Hlast.
    destruct (Hs _ _ _ Hrow Hlast) as [r Hr]. destruct He as [Hej _ _].
    destruct (Hej _ _ Hr) as (? & -> & _). done.
  - intros l. rewrite Eleader. intros Hlead. destruct (Hl _ Hlead) as [w Hw].
    destruct He as [_ Hew _]. destruct (Hew _ _ Hw) as (? & -> & _). done.
Qed.

(** What is kept, relative to the state [st0] something began in. *)
Definition QI (st0 st : QSt) : Prop := queue_ok st ∧ queue_evolves st0 st.

Lemma QI_jobs st0 st jobs' :
  QI st0 st → queue_evolves st (set_jobs jobs' st) →
  (∀ id r', jobs' !! id = Some r' → q_jobs st !! id = Some r' ∨ job_ok (set_jobs jobs' st) r') →
  QI st0 (set_jobs jobs' st).
Proof.
  intros [Hok He] He' Hnew. split; [|by etrans].
  eapply queue_ok_jobs; [done|done|done|done|]. apply Hnew.
Qed.

(** Steps that leave the tables alone. *)
Lemma QI_same st0 st st' :
  q_jobs st' = q_jobs st → q_workers st' = q_workers st → q_schedules st' = q_schedules st →
  q_leader st' = q_leader st → QI st0 st → QI st0 st'.
Proof.
  intros Hj Hw Hs Hl [Hok He].
  assert (queue_evolves st st') as He' by (by apply evolves_same).
  split; [|by etrans]. eapply queue_ok_jobs; [done|done|done|done|].
  intros id r'. rewrite Hj. auto.
Qed.
Lemma maintains_queue_clock st0 : maintains (QI st0) queue_clock.
Proof. intros st. by apply QI_same. Qed.
Lemma maintains_database_now st0 : maintains (QI st0) database_now.
Proof. intros st. by apply QI_same. Qed.
Lemma maintains_queue_new_id st0 now : maintains (QI st0) (queue_new_id now).
Proof.
  intros st. unfold queue_new_id. destruct (new_id now (q_rng st)). by apply QI_same.
Qed.
Lemma maintains_notify st0 c : maintains (QI st0) (notify c).
Proof. intros st. by apply QI_same. Qed.
Lemma maintains_qgets st0 {A} (f : QSt → A) : maintains (QI st0) (gets f : M QSt DatabaseError A).
Proof. by intros st. Qed.
Lemma maintains_check_rows st0 a e : maintains (QI st0) (check_rows a e).
Proof. intros st. unfold check_rows. by case_bool_decide. Qed.
Lemma maintains_check_constraint st0 b e : maintains (QI st0) (check_constraint b e).
Proof. intros st. unfold check_constraint. by destruct b. Qed.

Lemma new_row_ok st status queue payload meta at_ attempt sched name :
  0 ≤ attempt ≤ MAX_ATTEMPTS → (∀ s, name = Some s → is_Some (q_schedules st !! s)) →
  status = AVAILABLE ∨ status = SCHEDULED ∧ is_Some sched →
  job_ok st (new_job_row status queue payload meta at_ attempt sched name).
Proof.
  intros Ha Hn Hs. split_and!; cbn; [lia|lia|done|done|].
  destruct Hs as [->|[-> ?]]; [right; left|left]; done.
Qed.

Lemma QI_insert st0 st id row :
  QI st0 st → q_jobs st !! id = None → job_ok st row →
  QI st0 (set_jobs (<[id := row]> (q_jobs st)) st).
Proof.
  intros HI Hn Hok. assert (queue_evolves st (set_jobs (<[id := row]> (q_jobs st)) st)) as He
    by (by apply evolves_insert).
  apply QI_jobs; [done|done|]. intros i r'.
  destruct (decide (i = id)) as [->|Hne].
  - rewrite lookup_insert_eq. intros [= <-]. right. by eapply job_ok_mono.
  - rewrite lookup_insert_ne by done. auto.
Qed.

Lemma maintains_insert_job st0 id row :
  (∀ st, (∀ s, JobRow_schedule_name row = Some s → is_Some (q_schedules st !! s)) → job_ok st row) →
  maintains (QI st0) (insert_job id row).
Proof.
  intros Hok st HI. destruct (insert_job_run id row st) as [[e ->]|(Hn & Hs & ->)]; [done|].
  apply QI_insert; auto.
Qed.

(** An update of rows by a function that takes well-formed rows further. *)
Lemma QI_alter st0 st f id :
  QI st0 st → (∀ r, q_jobs st !! id = Some r → job_evolves r (f r) ∧ (job_ok st r → job_ok st (f r))) →
  QI st0 (set_jobs (alter f id (q_jobs st)) st).
Proof.
  intros HI Hf. assert (queue_evolves st (set_jobs (alter f id (q_jobs st)) st)) as He.
  { apply evolves_alter. intros r Hr. by apply Hf. }
  apply QI_jobs; [done|done|]. intros i r'. destruct (decide (id = i)) as [->|Hne].
  - rewrite lookup_alter_eq. intros (r & Hr & ->)%fmap_Some. right.
    eapply job_ok_mono; [done|]. apply Hf; [done|]. destruct HI as [[Hj _ _] _]. by eapply Hj.
  - rewrite lookup_alter_ne by done. auto.
Qed.
Lemma QI_update st0 st f ids :
  QI st0 st → NoDup ids →
  (∀ id r, id ∈ ids → q_jobs st !! id = Some r → job_ok st r → job_evolves r (f r) ∧ job_ok st (f r)) →
  QI st0 (set_jobs (update_jobs f ids (q_jobs st)) st).
Proof.
  intros HI Hnd Hf. pose proof HI as [[Hj _ _] _].
  assert (queue_evolves st (set_jobs (update_jobs f ids (q_jobs st)) st)) as He.
  { apply evolves_update; [done|]. intros id r Hin Hr. eapply Hf; eauto. }
  apply QI_jobs; [done|done|]. intros i r'. rewrite update_jobs_lookup by done.
  destruct (decide (i ∈ ids)) as [Hin|]; [|auto]. intros (r & Hr & ->)%fmap_Some. right.
  eapply job_ok_mono; [done|]. eapply Hf; eauto.
Qed.

Ltac job_ok_tac :=
  intros (Ha & Hsch & Hst & Hcase); split_and!; cbn; [lia|lia|done| |];
  [|destruct Hcase as [Hc|[Hc|[Hc|[Hc|Hc]]]]; destruct_and! Hc; try clash].

Lemma start_ok st now w r : is_Some (q_workers st !! w) → JobRow_status r = AVAILABLE →
  job_ok st r → job_ok st (JobRow_start now w r).
Proof. intros Hw Hr. job_ok_tac; [by intros ? [= <-]|]. right; right; left. done. Qed.
Lemma complete_ok st now r : JobRow_status r = RUNNING → job_ok st r → job_ok st (JobRow_complete now r).
Proof. intros Hr. job_ok_tac; [done|]. do 3 right; left. done. Qed.
Lemma fail_ok st now reason r : JobRow_status r = RUNNING → job_ok st r →
  job_ok st (JobRow_fail now reason r).
Proof.
  intros Hr. job_ok_tac; [done|]. do 4 right. cbn. split_and!; try done.
  intros n Hn. congruence.
Qed.
Lemma available_ok st r : JobRow_status r = SCHEDULED → job_ok st r → job_ok st (JobRow_set_available r).
Proof. intros Hr. job_ok_tac; [done|]. right; left. done. Qed.
#[local] Hint Resolve maintains_queue_clock maintains_database_now maintains_queue_new_id
  maintains_notify maintains_qgets maintains_check_rows maintains_check_constraint : maintains.

Lemma maintains_job_schedule st0 q p m : maintains (QI st0) (job_schedule q p m).
Proof.
  unfold job_schedule. qbind. apply maintains_insert_job. intros st Hs.
  apply new_row_ok; [unfold MAX_ATTEMPTS; lia|done|by left].
Qed.

Lemma QI_schedules st0 st schedules' :
  QI st0 st → (∀ s, is_Some (q_schedules st !! s) → is_Some (schedules' !! s)) →
  (∀ s row id, schedules' !! s = Some row → ScheduleRow_last_scheduled_job_id row = Some id →
     is_Some (q_jobs st !! id)) →
  QI st0 (set_schedules schedules' st).
Proof.
  intros [[Hj Hs Hl] He] Hdom Hrows.
  assert (queue_evolves st (set_schedules schedules' st)) as He'.
  { split; cbn; [by intros id r ->; exists r|by intros id w ->; exists w|done]. }
  split; [|by etrans]. split; cbn; [|done|done].
  intros id r Hr. eapply job_ok_mono; [done|by eapply Hj].
Qed.

Lemma maintains_job_schedule_later st0 q p m t name :
  maintains (QI st0) (job_schedule_later q p m t name).
Proof.
  unfold job_schedule_later. qbind. intros st HI.
  match goal with |- context [insert_job ?i ?r] =>
    set (row := r); set (id := i); destruct (insert_job_run id row st) as [[e He]|(Hn & Hs & Hins)] end.
  { by erewrite bind_Err by done. }
  erewrite bind_Ok by done.
  assert (QI st0 (set_jobs (<[id := row]> (q_jobs st)) st)) as HI1.
  { apply QI_insert; [done|done|]. apply new_row_ok; [unfold MAX_ATTEMPTS; lia|done|by right]. }
  destruct name as [name|]; [|done].
  set (st1 := set_jobs _ st) in *. assert (is_Some (q_jobs st1 !! id)) as Hid
    by (cbn; by rewrite lookup_insert_eq).
  clearbody st1. clear -HI1 Hid. erewrite bind_Ok by reflexivity. erewrite bind_Ok by reflexivity.
  apply maintains_check_rows. apply QI_schedules; [done| |].
  - intros s. rewrite lookup_alter_is_Some. done.
  - intros s r i. rewrite lookup_alter_Some. intros [(-> & ? & _ & ->)|[_ Hr]].
    + by intros [= <-].
    + destruct HI1 as [[_ Hsch _] _]. by eapply Hsch.
Qed.

Lemma maintains_job_reserve st0 w qs n : maintains (QI st0) (job_reserve w qs n).
Proof.
  unfold job_reserve. apply maintains_bind; [auto with maintains|intros now]. intros st HI.
  qrun. set (locked := take n (ids_where (is_reservable qs) (q_jobs st))).
  destruct (negb (bool_decide (locked = [])) && fk_broken w (q_workers st)) eqn:Hfk; [done|].
  cbn. apply QI_update; [done|by apply take_NoDup, ids_where_NoDup|].
  intros id r Hin Hr Hok. assert (is_Some (q_workers st !! w)) as Hw.
  { apply fk_broken_false. destruct (fk_broken w (q_workers st)); [|done].
    rewrite andb_true_r in Hfk. apply negb_false_iff, bool_decide_eq_true in Hfk.
    rewrite Hfk in Hin. by apply elem_of_nil in Hin. }
  apply elem_of_take_in, elem_of_ids_where in Hin as (r' & Hr' & Hp). simplify_eq.
  apply andb_true_iff in Hp as [Hp _]. apply bool_decide_eq_true in Hp.
  assert (JobRow_started_by r' = None) as Hs.
  { destruct Hok as (_ & _ & _ & Hc). destruct Hc as [Hc|[Hc|[Hc|[Hc|Hc]]]]; destruct_and! Hc; try clash; done. }
  split; [by apply start_up|by apply start_ok].
Qed.

Lemma maintains_update_running st0 f id :
  (∀ st r, JobRow_status r = RUNNING → job_evolves r (f r) ∧ (job_ok st r → job_ok st (f r))) →
  maintains (QI st0) (update_running f id).
Proof.
  intros Hf st HI. destruct (update_running_run f id st) as [[e ->]|(r & Hr & Hs & ->)]; cbn.
  - by apply (QI_same st0 st).
  - apply QI_alter; [done|]. intros r' Hr'. simplify_eq. by apply Hf.
Qed.
Lemma maintains_completed st0 id : maintains (QI st0) (job_mark_as_completed id).
Proof.
  unfold job_mark_as_completed. qbind. apply maintains_update_running.
  intros st r Hr. split; [by apply complete_up|by apply complete_ok].
Qed.
Lemma maintains_failed st0 id reason : maintains (QI st0) (job_mark_as_failed id reason).
Proof.
  unfold job_mark_as_failed. qbind. apply maintains_update_running.
  intros st r Hr. split; [by apply fail_up|by apply fail_ok].
Qed.

Lemma maintains_schedule_available st0 : maintains (QI st0) job_schedule_available_jobs.
Proof.
  unfold job_schedule_available_jobs. apply maintains_bind; [auto with maintains|intros now].
  intros st HI. qrun. apply QI_update; [done|apply ids_where_NoDup|].
  intros id r Hin Hr Hok. apply elem_of_ids_where in Hin as (r' & Hr' & Hp). simplify_eq.
  apply andb_true_iff in Hp as [Hp _]. apply bool_decide_eq_true in Hp.
  split; [by apply available_up|by apply available_ok].
Qed.

Lemma maintains_mark_abandoned st0 reason : maintains (QI st0) (job_mark_abandoned_jobs_as_failed reason).
Proof.
  unfold job_mark_abandoned_jobs_as_failed. apply maintains_bind; [auto with maintains|intros now].
  intros st HI. qrun. apply QI_update; [done|apply ids_where_NoDup|].
  intros id r Hin Hr Hok. apply elem_of_ids_where in Hin as (r' & Hr' & Hp). simplify_eq.
  apply andb_true_iff in Hp as [Hp _]. apply bool_decide_eq_true in Hp.
  split; [by apply fail_up|by apply fail_ok].
Qed.

(** *** Retries *)

Definition retry_copy (now : DateTime) (delay : Duration) (r : JobRow) : JobRow :=
  new_job_row SCHEDULED (JobRow_queue_name r) (JobRow_payload r) (JobRow_metadata r) now
    (JobRow_attempt r + 1) (Some (now + delay)) (JobRow_schedule_name r).
Definition reschedule (id new : Ulid) (at_ : DateTime) (s : ScheduleRow) : ScheduleRow :=
  if bool_decide (ScheduleRow_last_scheduled_job_id s = Some id) then
    {| ScheduleRow_last_scheduled_at := Some at_; ScheduleRow_last_scheduled_job_id := Some new |}
  else s.
(** The state after the clock and the generator were used. *)
Definition drawn (st : QSt) : QSt :=
  mkQ (q_workers st) (q_jobs st) (q_schedules st) (q_leader st) (λ n, q_clock st (S n)) (q_now st)
    (new_id (q_clock st 0%nat) (q_rng st)).2 (q_notified st).
Definition drawn_id (st : QSt) : Ulid := (new_id (q_clock st 0%nat) (q_rng st)).1.

Lemma job_retry_cases id delay st :
  (∃ e, job_retry id delay st = (Err e, drawn st)) ∨
  (∃ r, q_jobs st !! id = Some r ∧ JobRow_status r = FAILED ∧ q_jobs st !! drawn_id st = None ∧
    (∀ s, JobRow_schedule_name r = Some s → is_Some (q_schedules st !! s)) ∧
    job_retry id delay st =
      (Ok tt, set_jobs (alter (JobRow_set_next_attempt (drawn_id st)) id
                (<[drawn_id st := retry_copy (q_clock st 0%nat) delay r]> (q_jobs st)))
              (set_schedules (reschedule id (drawn_id st) (q_clock st 0%nat + delay) <$> q_schedules st)
                 (drawn st)))).
Proof.
  destruct (job_retry id delay st) as [res st'] eqn:E. unfold job_retry in E.
  erewrite bind_Ok in E by reflexivity.
  assert (queue_new_id (q_clock st 0%nat) (mkQ (q_workers st) (q_jobs st) (q_schedules st)
    (q_leader st) (λ n, q_clock st (S n)) (q_now st) (q_rng st) (q_notified st))
    = (Ok (drawn_id st), drawn st)) as Hid.
  { unfold queue_new_id, drawn, drawn_id. cbn. by destruct (new_id (q_clock st 0%nat) (q_rng st)). }
  erewrite bind_Ok in E by exact Hid. erewrite bind_Ok in E by reflexivity.
  change (q_jobs (drawn st)) with (q_jobs st) in E.
  destruct (q_jobs st !! id) as [r|] eqn:Hr.
  2:{ left. erewrite bind_Err in E by done. injection E as <- <-. by eexists. }
  destruct (bool_decide (JobRow_status r = FAILED)) eqn:Hs.
  2:{ left. erewrite bind_Err in E by done. injection E as <- <-. by eexists. }
  apply bool_decide_eq_true in Hs.
  destruct (insert_job_run (drawn_id st) (retry_copy (q_clock st 0%nat) delay r) (drawn st))
    as [[e He]|(Hn & Hsch & Hins)].
  { left. unfold retry_copy in He. rewrite (bind_Err _ _ _ _ _ He) in E. injection E as <- <-. by eexists. }
  right. exists r. split_and!; [done|done|done|done|]. rewrite <-E. clear E Hid.
  unfold retry_copy in Hins. rewrite (bind_Ok _ _ _ _ _ Hins). unfold mbind, M_bind, gets, modify.
  unfold check_rows. rewrite bool_decide_true; [done|]. rewrite bool_decide_true; [done|].
  cbn [q_jobs set_jobs set_schedules]. change (q_jobs (drawn st)) with (q_jobs st) in *.
  rewrite lookup_insert_ne by congruence. by rewrite Hr.
Qed.

(** The same, with the new identifier and the state left abstract. *)
Definition same_tables (st st1 : QSt) : Prop :=
  q_jobs st1 = q_jobs st ∧ q_workers st1 = q_workers st ∧ q_schedules st1 = q_schedules st ∧
  q_leader st1 = q_leader st.

Lemma QI_same_tables st0 st st1 : same_tables st st1 → QI st0 st → QI st0 st1.
Proof. intros (? & ? & ? & ?). by apply QI_same. Qed.

Definition retried (id nid : Ulid) (now : DateTime) (delay : Duration) (r : JobRow) (st st1 st' : QSt)
    : Prop :=
  q_jobs st !! id = Some r ∧ JobRow_status r = FAILED ∧ q_jobs st !! nid = None ∧ nid ≠ id ∧
  (∀ s, JobRow_schedule_name r = Some s → is_Some (q_schedules st !! s)) ∧
  st' = set_jobs (alter (JobRow_set_next_attempt nid) id (<[nid := retry_copy now delay r]> (q_jobs st)))
          (set_schedules (reschedule id nid (now + delay) <$> q_schedules st) st1).

Lemma job_retry_run id delay st res st' :
  job_retry id delay st = (res, st') →
  ∃ st1, same_tables st st1 ∧
    ((∃ e, res = Err e ∧ st' = st1) ∨
     (∃ nid r, res = Ok tt ∧ retried id nid (q_clock st 0%nat) delay r st st1 st')).
Proof.
  intros H. pose proof (job_retry_cases id delay st) as Hc. rewrite H in Hc. clear H.
  assert (same_tables st (drawn st)) as Hsame by (repeat split).
  revert Hsame Hc. generalize (drawn st) (drawn_id st). intros st1 nid Hsame Hc.
  exists st1. split; [done|]. destruct Hc as [[e He]|(r & Hr & Hs & Hn & Hsch & He)];
    injection He as -> ->; [left; by eexists|].
  right. exists nid, r. split; [done|]. split_and!; try done. congruence.
Qed.

Lemma QI_retry st0 st id delay :
  QI st0 st → (∀ r, q_jobs st !! id = Some r → JobRow_attempt r < MAX_ATTEMPTS) →
  QI st0 (job_retry id delay st).2.
Proof.
  intros HI Ha. destruct (job_retry id delay st) as [res st'] eqn:E. cbn [snd].
  apply job_retry_run in E as (st1 & Hst1 & [(e & -> & ->)|(nid & r & -> & Hret)]).
  { by eapply QI_same_tables. }
  destruct Hret as (Hr & Hs & Hn & Hne & Hsch & ->). generalize (q_clock st 0%nat) as now. intros now.
  pose proof HI as [[Hj Hsc _] _]. pose proof (Hj _ _ Hr) as (Hat & _).
  pose proof (QI_same_tables _ _ _ Hst1 HI) as HI1. destruct Hst1 as (Ej & _ & Es & _).
  rewrite <-Ej, <-Es in *. clear HI Hj Ej Es st. rename st1 into st.
  apply (QI_insert st0 st nid (retry_copy now delay r)) in HI1; [|done|].
  2:{ apply new_row_ok; [|done|by right]. specialize (Ha _ Hr). lia. }
  set (st1 := set_jobs _ st) in *.
  assert (QI st0 (set_schedules (reschedule id nid (now + delay) <$> q_schedules st) st1)) as HI2.
  { apply QI_schedules; [done|by intros s; rewrite lookup_fmap, fmap_is_Some|].
    intros s row i. rewrite lookup_fmap. intros (row' & Hrow & ->)%fmap_Some. unfold reschedule.
    cbn. case_bool_decide; [intros [= <-]; by rewrite lookup_insert_eq|].
    intros Hl. destruct (decide (nid = i)) as [->|]; [by rewrite lookup_insert_eq|].
    rewrite lookup_insert_ne by done. by eapply Hsc. }
  apply (QI_alter st0 _ (JobRow_set_next_attempt nid) id HI2). cbn.
  rewrite lookup_insert_ne, Hr by done. intros r' [= <-].
  split; [apply next_attempt_up|]. intros (H1 & H2 & H3 & Hc). split_and!; cbn; [lia|lia|done|done|].
  destruct Hc as [Hc|[Hc|[Hc|[Hc|Hc]]]]; destruct_and! Hc; try clash. do 4 right. split_and!; try done.
  intros n [= <-]. exists (retry_copy now delay r). by rewrite lookup_insert_eq.
Qed.

(** *** Workers, the lease and the schedules *)

Lemma QI_workers st0 st workers' :
  QI st0 st →
  (∀ id w, q_workers st !! id = Some w → ∃ w', workers' !! id = Some w' ∧ worker_evolves w w') →
  QI st0 (set_workers workers' st).
Proof.
  intros [[Hj Hs Hl] He] Hw.
  assert (queue_evolves st (set_workers workers' st)) as He'.
  { split; cbn; [by intros id r ->; exists r|done|done]. }
  split; [|by etrans]. split; cbn.
  - intros id r Hr. eapply job_ok_mono; [done|by eapply Hj].
  - done.
  - intros l Hlead. destruct (Hl _ Hlead) as [w Hlw]. destruct (Hw _ _ Hlw) as (? & -> & _). done.
Qed.
Lemma QI_leader st0 st l :
  QI st0 st → (∀ l', l = Some l' → is_Some (q_workers st !! LeaderRow_queue_worker_id l')) →
  QI st0 (set_leader l st).
Proof.
  intros [[Hj Hs Hl] He] Hlead.
  assert (queue_evolves st (set_leader l st)) as He' by (by apply evolves_same).
  split; [|by etrans]. split; cbn; [|done|done].
  intros id r Hr. eapply job_ok_mono; [done|by eapply Hj].
Qed.

Lemma maintains_worker_register st0 : maintains (QI st0) worker_register.
Proof.
  unfold worker_register. do 2 (apply maintains_bind; [auto with maintains|intros ?]).
  intros st HI. qrun. destruct (pk_taken a0 (q_workers st)) eqn:Hpk; [done|]. cbn.
  apply QI_workers; [done|]. intros id w Hw. exists w. split; [|done].
  apply pk_taken_false in Hpk. rewrite lookup_insert_ne; [done|congruence].
Qed.

Lemma alter_evolves (f : WorkerRow → WorkerRow) id (workers : gmap Z WorkerRow) i w :
  (∀ w, worker_evolves w (f w)) → workers !! i = Some w →
  ∃ w', alter f id workers !! i = Some w' ∧ worker_evolves w w'.
Proof.
  intros Hf Hw. destruct (decide (id = i)) as [->|Hne].
  - rewrite lookup_alter_eq, Hw. cbn. by eexists.
  - rewrite lookup_alter_ne by done. by exists w.
Qed.

Lemma maintains_worker_heartbeat st0 w : maintains (QI st0) (worker_heartbeat w).
Proof.
  unfold worker_heartbeat. apply maintains_bind; [auto with maintains|intros now].
  intros st HI. erewrite bind_Ok by reflexivity. erewrite bind_Ok by reflexivity.
  apply maintains_check_rows. apply QI_workers; [done|]. intros id r Hr.
  destruct (match q_workers st !! w with Some _ => _ | None => _ end); [|by exists r].
  apply alter_evolves; done.
Qed.

Lemma maintains_worker_shutdown st0 w : maintains (QI st0) (worker_shutdown w).
Proof.
  unfold worker_shutdown. apply maintains_bind; [auto with maintains|intros now].
  intros st HI. erewrite bind_Ok by reflexivity. erewrite bind_Ok by reflexivity.
  match goal with |- QI _ (?m ?s).2 => assert (QI st0 s) as HI1; [|revert HI1; generalize s] end.
  { apply QI_workers; [done|]. intros id r Hr. apply alter_evolves; done. }
  intros st1 HI1. revert st1 HI1. change (maintains (QI st0) (check_rows
    (if bool_decide (is_Some (q_workers st !! w)) then 1 else 0) 1 ≫= λ _, leader ← gets q_leader;
    match leader with
    | Some l => if bool_decide (LeaderRow_queue_worker_id l = w) then
                  _ ← modify (set_leader None); notify "queue_leader_stepdown" else mret tt
    | None => mret tt
    end)).
  qbind. repeat case_match; auto with maintains.
  apply maintains_bind; [|auto with maintains]. intros st1 HI1. by apply QI_leader.
Qed.

Lemma maintains_dead_workers st0 t : maintains (QI st0) (worker_shutdown_dead_workers t).
Proof.
  unfold worker_shutdown_dead_workers. apply maintains_bind; [auto with maintains|intros now].
  intros st HI. erewrite bind_Ok by reflexivity. apply QI_workers; [done|].
  intros id w Hw. rewrite lookup_fmap, Hw. cbn. eexists. split; [done|]. by destruct (is_dead _ w).
Qed.

Lemma maintains_remove_lease st0 : maintains (QI st0) worker_remove_leader_lease_if_expired.
Proof.
  unfold worker_remove_leader_lease_if_expired. apply maintains_bind; [auto with maintains|intros now].
  intros st HI. erewrite bind_Ok by reflexivity. apply QI_leader; [done|].
  intros l'. destruct (q_leader st) as [l|] eqn:Hl; [|done]. case_match; [done|]. intros [= <-].
  destruct HI as [[_ _ Hlead] _]. by apply Hlead.
Qed.

Lemma maintains_try_lease st0 w : maintains (QI st0) (worker_try_get_leader_lease w).
Proof.
  unfold worker_try_get_leader_lease. do 2 (apply maintains_bind; [auto with maintains|intros ?]).
  intros st HI. erewrite bind_Ok by reflexivity. erewrite bind_Ok by reflexivity.
  destruct (q_leader st) as [l|] eqn:Hl.
  - case_bool_decide as Hw; [|done]. erewrite bind_Ok by reflexivity. apply QI_leader; [done|].
    intros l' [= <-]. cbn. subst w. destruct HI as [[_ _ Hlead] _]. by apply Hlead.
  - unfold check_constraint. destruct (fk_broken w (q_workers st)) eqn:Hfk; [done|].
    erewrite bind_Ok by reflexivity. apply QI_leader; [done|].
    intros l' [= <-]. by apply fk_broken_false.
Qed.

Lemma maintains_schedule_setup st0 names : maintains (QI st0) (schedule_setup names).
Proof.
  intros st HI. unfold schedule_setup. erewrite bind_Ok by reflexivity.
  assert (∀ s row, foldr (λ name rows,
      match rows !! name with Some _ => rows | None => <[name := no_schedule]> rows end)
      (q_schedules st) names !! s = Some row → q_schedules st !! s = Some row ∨ row = no_schedule) as Hnew.
  { induction names as [|n names IH]; cbn; intros s row; [auto|].
    case_match; [apply IH|]. rewrite lookup_insert_Some. intros [[_ <-]|[_ H']]; [by right|by apply IH]. }
  apply QI_schedules; [done| |].
  - intros s Hs. clear Hnew. induction names as [|n names IH]; cbn; [done|].
    case_match; [done|]. rewrite lookup_insert_is_Some. destruct (decide (n = s)); auto.
  - intros s row id Hrow Hid. apply Hnew in Hrow as [Hrow| ->]; [|done].
    destruct HI as [[_ Hs _] _]. by eapply Hs.
Qed.
Lemma maintains_schedule_list st0 : maintains (QI st0) schedule_list.
Proof. intros st HI. done. Qed.
End operations.

#[export] Hint Resolve maintains_queue_clock maintains_database_now maintains_queue_new_id
  maintains_notify maintains_qgets maintains_check_rows maintains_check_constraint
  maintains_job_schedule maintains_job_schedule_later maintains_job_reserve maintains_completed
  maintains_failed maintains_schedule_available maintains_mark_abandoned maintains_worker_register
  maintains_worker_heartbeat maintains_worker_shutdown maintains_dead_workers maintains_remove_lease
  maintains_try_lease maintains_schedule_setup maintains_schedule_list : maintains.
