(* ===== verification/QueueSystem.v ===== *)
(** Workers on a queue: any number of them, in any order, with crashes. *)
From S2P Require Import Prelude Ids Jose Database Queue QueueProofs.

Open Scope Z_scope.

Section system.
Context {QX : QueueExternals}.

(** ** Reservations *)

Definition job_of (id : Z) (r : JobRow) : Job :=
  {| Job_id := id; Job_queue_name := JobRow_queue_name r; Job_payload := JobRow_payload r;
     Job_metadata := JobRow_metadata r; Job_attempt := JobRow_attempt r |}.

Lemma collect_jobs_Ok (jobs : gmap Z JobRow) ids js :
  (∀ id, id ∈ ids → is_Some (jobs !! id)) →
  collect_jobs (omap (λ id, Job_try_from id <$> jobs !! id) ids) = Ok js →
  Job_id <$> js = ids ∧ ∀ job, job ∈ js → ∃ r, jobs !! Job_id job = Some r ∧ job = job_of (Job_id job) r.
Proof.
  revert js. induction ids as [|id ids IH]; intros js Hin; cbn.
  { intros [= <-]. split; [done|]. by intros job ?%elem_of_nil. }
  destruct (Hin id) as [r Hr]; [by left|]. rewrite Hr. cbn.
  unfold Job_try_from. destruct (metadata_decodes _); [|done]. destruct (0 <=? _); [|done].
  destruct (collect_jobs _) as [js'|] eqn:Hc; [|done]. intros [= <-].
  destruct (IH js') as [Hids Hjobs]; [by intros i Hi; apply Hin; right|done|].
  split; [by cbn; rewrite Hids|]. intros job [->|Hj]%elem_of_cons; [|by apply Hjobs].
  by exists r.
Qed.

(** The oldest available jobs of the queues are handed out, and marked as running. *)
Lemma job_reserve_Ok w qs n st jobs st' :
  job_reserve w qs n st = (Ok jobs, st') →
  Job_id <$> jobs = take n (ids_where (is_reservable qs) (q_jobs st)) ∧
  (∀ job, job ∈ jobs → ∃ r, q_jobs st !! Job_id job = Some r ∧ JobRow_status r = AVAILABLE ∧
     JobRow_queue_name r ∈ qs ∧ job = job_of (Job_id job) r) ∧
  q_jobs st' = update_jobs (JobRow_start (q_clock st 0%nat) w)
                 (take n (ids_where (is_reservable qs) (q_jobs st))) (q_jobs st).
Proof.
  unfold job_reserve. qrun.
  destruct (_ && fk_broken w (q_workers st)); [done|]. cbn.
  intros [= Hc <-]. cbn. apply collect_jobs_Ok in Hc as [Hids Hjobs].
  2:{ intros id Hin%elem_of_take_in. apply elem_of_ids_where in Hin as (r & -> & _). done. }
  split_and!; [done| |done]. intros job Hj. destruct (Hjobs job Hj) as (r & Hr & ->).
  exists r. cbn. assert (Job_id job ∈ Job_id <$> jobs) as Hin by (apply list_elem_of_fmap; eauto).
  rewrite Hids in Hin. apply elem_of_take_in, elem_of_ids_where in Hin as (r' & Hr' & Hp). simplify_eq.
  apply andb_true_iff in Hp as [Hp1 Hp2]. by rewrite !bool_decide_eq_true in *.
Qed.

(** ** The jobs of a worker *)

(** A context stands for a job that the worker [w] started. *)
Definition contexts_ok (w : Ulid) (contexts : gmap Z JobContext) (st : QSt) : Prop :=
  ∀ id ctx, contexts !! id = Some ctx → ctx_id ctx = id ∧
    ∃ r, q_jobs st !! id = Some r ∧ JobRow_attempt r = ctx_attempt ctx ∧
         JobRow_started_by r = Some w ∧ 2 ≤ rank (JobRow_status r).

Lemma contexts_ok_mono w contexts st st' :
  queue_evolves st st' → contexts_ok w contexts st → contexts_ok w contexts st'.
Proof.
  intros [Hj _ _] Hc id ctx Hctx. destruct (Hc id ctx Hctx) as (Hid & r & Hr & Ha & Hs & Hk).
  split; [done|]. destruct (Hj _ _ Hr) as (r' & Hr' & _ & _ & _ & _ & Ea & _ & Es & Er).
  exists r'. split_and!; [done|congruence|rewrite Es; congruence|].
  destruct Er as [-> |]; [done|lia].
Qed.
Lemma contexts_ok_delete w contexts st id : contexts_ok w contexts st → contexts_ok w (delete id contexts) st.
Proof. intros Hc i ctx. rewrite lookup_delete_Some. intros [_ ?]. by apply Hc. Qed.

Lemma process_result_QI st0 st w contexts id ctx outcome :
  QI st0 st → contexts_ok w contexts st → contexts !! id = Some ctx →
  QI st0 (process_result ctx outcome st).2.
Proof.
  intros HI Hc Hctx. destruct (Hc _ _ Hctx) as (Hid & r & Hr & Ha & _).
  assert (∀ reason, QI st0 ((_ ← job_mark_as_failed (ctx_id ctx) reason;
    if ctx_attempt ctx <? MAX_ATTEMPTS then retry_later ctx else mret tt) st).2) as Hretry.
  { intros reason. pose proof (maintains_failed st (ctx_id ctx) reason st) as Hf.
    destruct (job_mark_as_failed (ctx_id ctx) reason st) as [[u|e] st1] eqn:E.
    2:{ erewrite bind_Err by done. by apply (maintains_run _ _ _ _ _ (maintains_failed st0 _ _) HI E). }
    erewrite bind_Ok by done.
    assert (QI st0 st1) as HI1 by (by apply (maintains_run _ _ _ _ _ (maintains_failed st0 _ _) HI E)).
    destruct (Z.ltb_spec (ctx_attempt ctx) MAX_ATTEMPTS) as [Hlt|]; [|done].
    unfold retry_later. destruct (retry_delay _); [|done]. apply QI_retry; [done|].
    destruct Hf as [_ [Hj _ _]]; [destruct HI; by split|]. cbn in Hj.
    rewrite Hid. intros r1 Hr1. destruct (Hj _ _ Hr) as (r' & Hr' & _ & _ & _ & _ & Ea & _).
    simplify_eq. lia. }
  destruct outcome; cbn [process_result]; [by apply maintains_completed|by apply maintains_failed|..]; apply Hretry.
Qed.

Lemma process_jobs_QI st0 st w joined contexts :
  QI st0 st → contexts_ok w contexts st →
  QI st0 (process_jobs joined contexts st).2 ∧
  ∀ contexts', (process_jobs joined contexts st).1 = Ok contexts' →
    contexts_ok w contexts' (process_jobs joined contexts st).2 ∧ contexts' ⊆ contexts.
Proof.
  revert st contexts. induction joined as [|[id outcome] joined IH]; intros st contexts HI Hc; cbn.
  { split; [done|]. by intros ? [= <-]. }
  destruct (contexts !! id) as [ctx|] eqn:Hctx; [|by apply IH].
  pose proof (process_result_QI st0 st w contexts id ctx outcome HI Hc Hctx) as HI1.
  pose proof (process_result_QI st st w contexts id ctx outcome) as He.
  destruct (process_result ctx outcome st) as [[u|e] st1] eqn:E.
  2:{ erewrite bind_Err by done. split; [done|]. done. }
  erewrite bind_Ok by done. destruct He as [_ He]; [destruct HI; by split|done|done|].
  destruct (IH st1 (delete id contexts) HI1) as [H1 H2].
  { apply contexts_ok_delete. by eapply contexts_ok_mono. }
  split; [done|]. intros c' Hc'. destruct (H2 c' Hc') as [? ?]. split; [done|].
  etrans; [done|]. apply delete_subseteq.
Qed.

Lemma spawn_lookup jobs contexts id ctx :
  spawn_jobs jobs contexts !! id = Some ctx →
  contexts !! id = Some ctx ∨
  ∃ job, job ∈ jobs ∧ Job_id job = id ∧
    ctx = {| ctx_id := id; ctx_queue_name := Job_queue_name job; ctx_attempt := Job_attempt job |}.
Proof.
  unfold spawn_jobs. revert contexts. induction jobs as [|j jobs IH]; intros contexts; cbn; [auto|].
  intros H. apply IH in H as [H|(job & Hin & Hid & Hctx)].
  - rewrite lookup_insert_Some in H. destruct H as [[Hid Hctx]|[_ H]]; [|by left].
    right. exists j. split_and!; [by left|done|]. by rewrite <-Hctx, Hid.
  - right. exists job. split_and!; [by right|done|done].
Qed.

Lemma contexts_ok_spawn w contexts st jobs qs n st' :
  contexts_ok w contexts st → queue_evolves st st' →
  job_reserve w qs n st = (Ok jobs, st') → contexts_ok w (spawn_jobs jobs contexts) st'.
Proof.
  intros Hc He Hres. apply job_reserve_Ok in Hres as (Hids & Hjobs & Hq).
  intros id ctx H. apply spawn_lookup in H as [H|(job & Hin & <- & ->)].
  { by eapply contexts_ok_mono. }
  split; [done|]. destruct (Hjobs job Hin) as (r & Hr & Hs & _ & Hjob).
  exists (JobRow_start (q_clock st 0%nat) w r). split_and!.
  - rewrite Hq, update_jobs_lookup by apply take_NoDup, ids_where_NoDup.
    rewrite decide_True by (rewrite <-Hids; apply list_elem_of_fmap; eauto). by rewrite Hr.
  - rewrite Hjob. done.
  - done.
  - done.
Qed.

(** One round of a worker keeps everything in order. *)
Lemma tick_worker_QI st0 st w joined :
  QI st0 st → contexts_ok (worker_id w) (tracker_contexts (worker_tracker w)) st →
  QI st0 (tick_worker w joined st).2 ∧
  ∀ w', (tick_worker w joined st).1 = Ok w' →
    worker_id w' = worker_id w ∧
    contexts_ok (worker_id w) (tracker_contexts (worker_tracker w')) (tick_worker w joined st).2.
Proof.
  intros HI Hc. unfold tick_worker.
  (* the statements before the jobs are processed *)
  assert (∀ {A} (m : M QSt DatabaseError A) (k : A → M QSt DatabaseError Worker) st1,
    (∀ s0, maintains (QI s0) m) → QI st0 st1 → contexts_ok (worker_id w) (tracker_contexts (worker_tracker w)) st1 →
    (∀ a st2, QI st0 st2 → contexts_ok (worker_id w) (tracker_contexts (worker_tracker w)) st2 →
      QI st0 (k a st2).2 ∧ ∀ w', (k a st2).1 = Ok w' → worker_id w' = worker_id w ∧
        contexts_ok (worker_id w) (tracker_contexts (worker_tracker w')) (k a st2).2) →
    QI st0 ((m ≫= k) st1).2 ∧ ∀ w', ((m ≫= k) st1).1 = Ok w' → worker_id w' = worker_id w ∧
      contexts_ok (worker_id w) (tracker_contexts (worker_tracker w')) ((m ≫= k) st1).2) as Hbind.
  { intros A m k st1 Hm HI1 Hc1 Hk. destruct (m st1) as [[a|e] st2] eqn:E.
    - rewrite (bind_Ok _ _ _ _ _ E). apply Hk.
      + by apply (maintains_run _ _ _ _ _ (Hm st0) HI1 E).
      + eapply contexts_ok_mono; [|done].
        assert (QI st1 st1) as HI' by (destruct HI1; by split).
        by destruct (maintains_run _ _ _ _ _ (Hm st1) HI' E).
    - rewrite (bind_Err _ _ _ _ _ E). split; [|done].
      by apply (maintains_run _ _ _ _ _ (Hm st0) HI1 E). }
  apply Hbind; [auto with maintains|done|done|]. intros now st1 HI1 Hc1.
  apply Hbind; [intros s0; case_match; auto with maintains|done|done|]. intros _ st2 HI2 Hc2.
  apply Hbind; [auto with maintains|done|done|]. intros _ st3 HI3 Hc3.
  apply Hbind; [auto with maintains|done|done|]. intros leader st4 HI4 Hc4.
  pose proof (process_jobs_QI st0 st4 (worker_id w) joined _ HI4 Hc4) as [HI5 Hc5].
  destruct (process_jobs joined (tracker_contexts (worker_tracker w)) st4) as [[cs|e] st5] eqn:E.
  2:{ rewrite (bind_Err _ _ _ _ _ E). split; done. }
  rewrite (bind_Ok _ _ _ _ _ E). destruct (Hc5 cs eq_refl) as [Hcs _]. clear E Hc5. cbn [snd] in *.
  destruct (jobs_to_fetch_capacity (size cs) =? 0)%nat.
  { erewrite bind_Ok by reflexivity. split; [done|]. by intros w' [= <-]. }
  destruct (job_reserve (worker_id w) (tracker_queues (worker_tracker w))
    (jobs_to_fetch_capacity (size cs)) st5) as [[jobs|e] st6] eqn:E.
  - rewrite (bind_Ok _ _ _ _ _ E). split; [by apply (maintains_run _ _ _ _ _ (maintains_job_reserve st0 _ _ _) HI5 E)|].
    intros w' [= <-]. split; [done|]. cbn. eapply contexts_ok_spawn; [done| |done].
    assert (QI st5 st5) as HI' by (destruct HI5; by split).
    by destruct (maintains_run _ _ _ _ _ (maintains_job_reserve st5 _ _ _) HI' E).
  - rewrite (bind_Err _ _ _ _ _ E). split; [|done].
    by apply (maintains_run _ _ _ _ _ (maintains_job_reserve st0 _ _ _) HI5 E).
Qed.

(** ** The leader *)

Lemma collect_abandoned_Ok (jobs : gmap Z JobRow) ids js :
  (∀ id, id ∈ ids → is_Some (jobs !! id)) →
  collect_abandoned (omap (λ id, AbandonedJob_try_from id <$> jobs !! id) ids) = Ok js →
  AbandonedJob_id <$> js = ids ∧
  ∀ job, job ∈ js → ∃ r, jobs !! AbandonedJob_id job = Some r ∧ AbandonedJob_attempt job = JobRow_attempt r.
Proof.
  revert js. induction ids as [|id ids IH]; intros js Hin; cbn.
  { intros [= <-]. split; [done|]. by intros job ?%elem_of_nil. }
  destruct (Hin id) as [r Hr]; [by left|]. rewrite Hr. cbn.
  unfold AbandonedJob_try_from. destruct (0 <=? _); [|done].
  destruct (collect_abandoned _) as [js'|] eqn:Hc; [|done]. intros [= <-].
  destruct (IH js') as [Hids Hjobs]; [by intros i Hi; apply Hin; right|done|].
  split; [by cbn; rewrite Hids|]. intros job [->|Hj]%elem_of_cons; [|by apply Hjobs].
  by exists r.
Qed.

Lemma mark_abandoned_Ok reason st js st' :
  job_mark_abandoned_jobs_as_failed reason st = (Ok js, st') →
  AbandonedJob_id <$> js = ids_where (is_abandoned (q_workers st)) (q_jobs st) ∧
  (∀ job, job ∈ js → ∃ r, q_jobs st !! AbandonedJob_id job = Some r ∧
     AbandonedJob_attempt job = JobRow_attempt r) ∧
  q_workers st' = q_workers st ∧
  q_jobs st' = update_jobs (JobRow_fail (q_clock st 0%nat) reason)
                 (ids_where (is_abandoned (q_workers st)) (q_jobs st)) (q_jobs st).
Proof.
  unfold job_mark_abandoned_jobs_as_failed. qrun. intros [= Hc <-]. cbn.
  apply collect_abandoned_Ok in Hc as [Hids Hjobs]; [done|].
  intros id Hin. apply elem_of_ids_where in Hin as (r & -> & _). done.
Qed.

(** The attempt of a job never changes. *)
Lemma retry_all_QI st0 st st1 jobs :
  QI st0 st → QI st1 st →
  (∀ job : AbandonedJob, job ∈ jobs → ∃ r, q_jobs st1 !! AbandonedJob_id job = Some r ∧
     AbandonedJob_attempt job = JobRow_attempt r) →
  QI st0 (for_each (λ job, if AbandonedJob_attempt job <? MAX_ATTEMPTS
                           then job_retry (AbandonedJob_id job) 0 else mret tt) jobs st).2.
Proof.
  revert st. induction jobs as [|j jobs IH]; intros st HI HI1 Hjobs; cbn [for_each]; [done|].
  match goal with |- QI _ ((?m0 ≫= _) st).2 => set (m := m0) end.
  assert (∀ s0, QI s0 st → QI s0 (m st).2) as Hj.
  { intros s0 Hs0. unfold m. destruct (Z.ltb_spec (AbandonedJob_attempt j) MAX_ATTEMPTS) as [Hlt|]; [|done].
    apply QI_retry; [done|]. destruct (Hjobs j) as (r & Hr & Ha); [by left|].
    destruct HI1 as [_ [Hev _ _]]. destruct (Hev _ _ Hr) as (r' & Hr' & _ & _ & _ & _ & Ea & _).
    intros r1 Hr1. simplify_eq. lia. }
  destruct (m st) as [[u|e] st2] eqn:E.
  - rewrite (bind_Ok _ _ _ _ _ E). apply IH; [by apply Hj|by apply Hj|].
    intros job Hin. apply Hjobs. by right.
  - rewrite (bind_Err _ _ _ _ _ E). by apply Hj.
Qed.

Lemma maintains_recover st0 : maintains (QI st0) recover_abandoned_jobs.
Proof.
  unfold recover_abandoned_jobs. apply maintains_bind; [auto with maintains|intros _].
  intros st HI. destruct (job_mark_abandoned_jobs_as_failed "worker lost heartbeat" st)
    as [[js|e] st1] eqn:E.
  - rewrite (bind_Ok _ _ _ _ _ E).
    assert (QI st st) as HI' by (destruct HI; by split).
    apply (retry_all_QI st0 st1 st).
    + by apply (maintains_run _ _ _ _ _ (maintains_mark_abandoned st0 _) HI E).
    + by apply (maintains_run _ _ _ _ _ (maintains_mark_abandoned st _) HI' E).
    + by apply mark_abandoned_Ok in E as (_ & ? & _).
  - rewrite (bind_Err _ _ _ _ _ E).
    by apply (maintains_run _ _ _ _ _ (maintains_mark_abandoned st0 _) HI E).
Qed.

Lemma maintains_leader_duties st0 acquired schedules :
  maintains (QI st0) (run_leader_duties acquired schedules).
Proof.
  unfold run_leader_duties. destruct acquired; [|auto with maintains].
  apply maintains_bind; [apply maintains_recover|intros _].
  apply maintains_bind; [auto with maintains|intros statuses].
  apply maintains_bind; [case_match; [auto with maintains|qbind; auto with maintains]|intros statuses'].
  qbind. apply maintains_bind; [|intros _; qbind; auto with maintains].
  apply maintains_for_each. intros s. unfold run_schedule. repeat case_match; auto with maintains.
Qed.

(** ** The system: a queue and the workers that are alive *)

Record System := {
  sys_q : QSt;
  sys_workers : gmap Z Worker;
}.

(** A worker that fails stops: its process is gone, its row stays. *)
Definition worker_after (id : Z) (r : result Worker DatabaseError) (workers : gmap Z Worker)
    : gmap Z Worker :=
  match r with Ok w => <[id := w]> workers | Err _ => delete id workers end.

Definition new_worker (id : Ulid) (now : DateTime) (queues : list string) : Worker :=
  {| worker_id := id; worker_last_heartbeat := now;
     worker_tracker := {| tracker_queues := queues; tracker_contexts := ∅ |};
     worker_am_i_leader := false |}.

Inductive sys_step : System → System → Prop :=
| step_schedule st ws q p m :
    sys_step {| sys_q := st; sys_workers := ws |}
             {| sys_q := (job_schedule q p m st).2; sys_workers := ws |}
| step_schedule_later st ws q p m t :
    sys_step {| sys_q := st; sys_workers := ws |}
             {| sys_q := (job_schedule_later q p m t None st).2; sys_workers := ws |}
| step_register st ws id st' now queues :
    worker_register st = (Ok id, st') →
    sys_step {| sys_q := st; sys_workers := ws |}
             {| sys_q := st'; sys_workers := <[id := new_worker id now queues]> ws |}
| step_tick st ws id w joined :
    ws !! id = Some w →
    sys_step {| sys_q := st; sys_workers := ws |}
             {| sys_q := (tick_worker w joined st).2;
                sys_workers := worker_after id (tick_worker w joined st).1 ws |}
| step_leader st ws id w acquired schedules :
    ws !! id = Some w → worker_am_i_leader w = true →
    sys_step {| sys_q := st; sys_workers := ws |}
             {| sys_q := (run_leader_duties acquired schedules st).2;
                sys_workers := match (run_leader_duties acquired schedules st).1 with
                               | Ok _ => ws
                               | Err _ => delete id ws
                               end |}
| step_shutdown st ws id w joined :
    ws !! id = Some w →
    sys_step {| sys_q := st; sys_workers := ws |}
             {| sys_q := (shutdown_worker w joined st).2; sys_workers := delete id ws |}
| step_crash st ws id :
    sys_step {| sys_q := st; sys_workers := ws |} {| sys_q := st; sys_workers := delete id ws |}
| step_wait st ws clock now rng :
    sys_step {| sys_q := st; sys_workers := ws |}
             {| sys_q := mkQ (q_workers st) (q_jobs st) (q_schedules st) (q_leader st) clock now rng
                           (q_notified st);
                sys_workers := ws |}.

Record sys_ok (s : System) : Prop := {
  so_queue : queue_ok (sys_q s);
  so_workers : ∀ id w, sys_workers s !! id = Some w → worker_id w = id ∧
    contexts_ok id (tracker_contexts (worker_tracker w)) (sys_q s);
}.

Lemma sys_ok_step_of s s' :
  sys_ok s → QI (sys_q s) (sys_q s') →
  (∀ id w, sys_workers s' !! id = Some w →
     sys_workers s !! id = Some w ∨
     worker_id w = id ∧ contexts_ok id (tracker_contexts (worker_tracker w)) (sys_q s')) →
  sys_ok s' ∧ queue_evolves (sys_q s) (sys_q s').
Proof.
  intros [Hq Hw] [Hok He] Hws. split; [|done]. split; [done|].
  intros id w Hin. destruct (Hws id w Hin) as [Hold|Hnew]; [|done].
  destruct (Hw id w Hold) as [Hid Hc]. split; [done|]. by eapply contexts_ok_mono.
Qed.

Lemma QI_refl st : queue_ok st → QI st st.
Proof. by split. Qed.

Lemma sys_step_ok s s' : sys_ok s → sys_step s s' → sys_ok s' ∧ queue_evolves (sys_q s) (sys_q s').
Proof.
  intros Hok Hstep. pose proof Hok as [Hq Hw]. pose proof (QI_refl _ Hq) as HI.
  destruct Hstep; refine (sys_ok_step_of _ _ Hok _ _); cbn in *; auto.
  - by apply maintains_job_schedule.
  - by apply maintains_job_schedule_later.
  - by apply (maintains_run _ _ _ _ _ (maintains_worker_register st) HI H).
  - intros i w. rewrite lookup_insert_Some. intros [[<- <-]|[_ ?]]; [right|by left].
    split; [done|]. by intros ? ?.
  - destruct (Hw _ _ H) as [<- Hc]. by apply (tick_worker_QI st st w joined HI Hc).
  - destruct (Hw _ _ H) as [<- Hc]. pose proof (tick_worker_QI st st w joined HI Hc) as [_ Ht].
    intros i w'. destruct (tick_worker w joined st) as [[w1|e] st1]; cbn.
    + rewrite lookup_insert_Some. intros [[<- <-]|[_ ?]]; [right|by left].
      destruct (Ht w1 eq_refl) as [-> ?]. done.
    + rewrite lookup_delete_Some. intros [_ ?]. by left.
  - by apply maintains_leader_duties.
  - intros i w'. destruct (run_leader_duties acquired schedules st) as [[]]; cbn; [by left|].
    rewrite lookup_delete_Some. intros [_ ?]. by left.
  - destruct (Hw _ _ H) as [<- Hc]. unfold shutdown_worker.
    destruct (process_jobs_QI st st (worker_id w) joined _ HI Hc) as [HI1 _].
    destruct (process_jobs _ _ st) as [[cs|e] st1] eqn:E;
      [rewrite (bind_Ok _ _ _ _ _ E)|by rewrite (bind_Err _ _ _ _ _ E)].
    by apply maintains_worker_shutdown.
  - intros i w'. rewrite lookup_delete_Some. intros [_ ?]. by left.
  - intros i w'. rewrite lookup_delete_Some. intros [_ ?]. by left.
  - by apply (QI_same st st).
Qed.

Lemma sys_steps_ok s s' :
  sys_ok s → rtc sys_step s s' → sys_ok s' ∧ queue_evolves (sys_q s) (sys_q s').
Proof.
  intros Hok Hs. induction Hs as [s|s s1 s2 H1 _ IH]; [done|].
  destruct (sys_step_ok _ _ Hok H1) as [Hok1 He1]. destruct (IH Hok1) as [Hok2 He2].
  split; [done|]. by etrans.
Qed.

(** ** The theorems *)

(** Whatever requests, workers, leaders, crashes and shutdowns do and in
    whichever order, every job is in one of its five states with the columns of
    that state, no job is attempted more than eleven times, every retry is the
    same job with the next number, and a job only moves forward. *)
Theorem jobs_only_move_forward s s' :
  sys_ok s → rtc sys_step s s' →
  queue_ok (sys_q s') ∧ queue_evolves (sys_q s) (sys_q s').
Proof. intros Hok Hs. destruct (sys_steps_ok _ _ Hok Hs) as [[Hq _] He]. done. Qed.

(** C30. A job handed to a worker is never handed out again, to any worker: however
    the worker ends, the job is only repeated as a new job. *)
Theorem job_is_handed_out_once st w qs n jobs s job s' w' qs' n' jobs' st' :
  job_reserve w qs n st = (Ok jobs, sys_q s) → job ∈ jobs →
  sys_ok s → rtc sys_step s s' →
  job_reserve w' qs' n' (sys_q s') = (Ok jobs', st') →
  Job_id job ∉ Job_id <$> jobs'.
Proof.
  intros Hres Hin Hok Hsteps Hres'. destruct (sys_steps_ok _ _ Hok Hsteps) as [_ [Hj _ _]].
  apply job_reserve_Ok in Hres as (Hids & Hjobs & Hq).
  destruct (Hjobs job Hin) as (r & Hr & _).
  assert (q_jobs (sys_q s) !! Job_id job = Some (JobRow_start (q_clock st 0%nat) w r)) as Hr1.
  { rewrite Hq, update_jobs_lookup by apply take_NoDup, ids_where_NoDup.
    rewrite decide_True by (rewrite <-Hids; apply list_elem_of_fmap; eauto). by rewrite Hr. }
  destruct (Hj _ _ Hr1) as (r2 & Hr2 & _ & _ & _ & _ & _ & _ & _ & Hs).
  intros Hagain. apply job_reserve_Ok in Hres' as (Hids' & _ & _). rewrite Hids' in Hagain.
  apply elem_of_take_in, elem_of_ids_where in Hagain as (r3 & Hr3 & Hp). simplify_eq.
  apply andb_true_iff in Hp as [Hp _]. apply bool_decide_eq_true in Hp. rewrite Hp in Hs.
  destruct Hs as [Hs|Hs]; [discriminate Hs|]. by vm_compute in Hs.
Qed.
End system.

(** ** The theorems evaluated on a concrete queue *)

#[export] Instance queue_world : QueueExternals := {| metadata_decodes _ := true |}.

Definition empty_queue : QSt :=
  mkQ ∅ ∅ ∅ None (λ n, 1700000000000000 + Z.of_nat n) (λ n, Z.of_nat n) (λ n, Z.of_nat (n * 7 + 1)) [].
Definition empty_system : System := {| sys_q := empty_queue; sys_workers := ∅ |}.

Lemma empty_system_ok : sys_ok empty_system.
Proof.
  split; [split|]; cbn.
  - by intros id r ?.
  - by intros s row id ?.
  - done.
  - by intros id w ?.
Qed.

(** A job is scheduled, and a worker is registered. *)
Definition scheduled_queue : QSt := (job_schedule "sync-devices" Json_Null (Json_Object []) empty_queue).2.
Definition the_worker : Z :=
  match (worker_register scheduled_queue).1 with Ok id => id | Err _ => 0 end.
Definition ready_queue : QSt := (worker_register scheduled_queue).2.
Definition ready_system : System :=
  {| sys_q := ready_queue;
     sys_workers := {[ the_worker := new_worker the_worker 1700000000000000 ["sync-devices"] ]} |}.

Lemma ready_steps : rtc sys_step empty_system ready_system.
Proof.
  eapply rtc_l; [exact (step_schedule empty_queue ∅ "sync-devices" Json_Null (Json_Object []))|].
  apply rtc_once. unfold ready_system, ready_queue, the_worker, scheduled_queue.
  destruct (worker_register (job_schedule "sync-devices" Json_Null (Json_Object []) empty_queue).2)
    as [[id|e] st'] eqn:E.
  - cbn [fst snd]. apply step_register. exact E.
  - exfalso. apply (f_equal (λ p, is_ok p.1)) in E. vm_compute in E. discriminate E.
Qed.

Lemma jobs_only_move_forward_witness :
  sys_ok empty_system ∧ rtc sys_step empty_system ready_system ∧ queue_ok (sys_q ready_system).
Proof.
  split; [exact empty_system_ok|]. split; [exact ready_steps|].
  exact (proj1 (jobs_only_move_forward _ _ empty_system_ok ready_steps)).
Defined.

Lemma job_is_handed_out_once_witness :
  ∃ job jobs st1 st2,
    job_reserve the_worker ["sync-devices"] 5 ready_queue = (Ok (job :: jobs), st1) ∧
    job_reserve the_worker ["sync-devices"] 5 st1 = (Ok [], st2) ∧
    Job_id job ∉ Job_id <$> ([] : list Job).
Proof.
  destruct (ok_run (job_reserve the_worker ["sync-devices"] 5 ready_queue)) as (jobs & st1 & E1);
    [vm_compute; reflexivity|].
  assert (length jobs = 1%nat) as Hlen.
  { apply (f_equal (λ p, match p.1 with Ok l => length l | Err _ => O end)) in E1.
    cbn [fst] in E1. rewrite <-E1. vm_compute. reflexivity. }
  destruct jobs as [|job jobs]; [discriminate Hlen|].
  assert (sys_ok {| sys_q := st1; sys_workers := ∅ |}) as Hok.
  { split; [|by intros id w ?]. destruct (sys_steps_ok _ _ empty_system_ok ready_steps) as [[Hq _] _].
    pose proof (maintains_job_reserve ready_queue the_worker ["sync-devices"] 5 ready_queue
      (QI_refl _ Hq)) as [Hq' _]. by rewrite E1 in Hq'. }
  destruct (ok_run (job_reserve the_worker ["sync-devices"] 5 st1)) as (jobs2 & st2 & E2).
  { apply (f_equal (λ p, is_ok (job_reserve the_worker ["sync-devices"] 5 p.2).1)) in E1.
    cbn [snd] in E1. rewrite <-E1. vm_compute. reflexivity. }
  assert (jobs2 = []) as ->.
  { apply (f_equal (λ p, match (job_reserve the_worker ["sync-devices"] 5 p.2).1 with
                         | Ok l => length l | Err _ => 1%nat end)) in E1.
    cbn [snd] in E1. rewrite E2 in E1. cbn [fst] in E1. destruct jobs2; [done|].
    exfalso. vm_compute in E1. discriminate E1. }
  exists job, jobs, st1, st2. split; [exact E1|]. split; [exact E2|].
  exact (job_is_handed_out_once ready_queue the_worker ["sync-devices"] 5 (job :: jobs)
    {| sys_q := st1; sys_workers := ∅ |} job {| sys_q := st1; sys_workers := ∅ |}
    the_worker ["sync-devices"] 5 [] st2 E1 ltac:(left) Hok (rtc_refl _ _) E2).
Defined.
