(* ===== verification/QueueLiveness.v ===== *)
(** The leader lease, the recovery of the jobs of dead workers, the order in
    which jobs are started, and the clean-up of finished jobs. *)
From S2P Require Import Prelude Ids Jose Database Queue QueueProofs QueueSystem.

Open Scope Z_scope.

(** A list without repetition inside another, with an element less. *)
Lemma strictly_shorter (l k : list Z) x :
  NoDup k → (∀ y, y ∈ k → y ∈ l) → x ∈ l → x ∉ k → (length k < length l)%nat.
Proof.
  intros Hnd Hsub Hx Hk. change (S (length k) ≤ length l)%nat.
  apply (submseteq_length (x :: k) l), NoDup_submseteq; [by apply NoDup_cons|].
  intros y [->|Hy]%elem_of_cons; auto.
Qed.

Section liveness.
Context {QX : QueueExternals}.

(** ** The leader lease *)

Definition lease (st : QSt) : option LeaderRow * (nat → DateTime) := (q_leader st, q_now st).

Lemma keeps_lease_clock : keeps lease queue_clock.
Proof. done. Qed.
Lemma keeps_lease_id t : keeps lease (queue_new_id t).
Proof. intros st. unfold queue_new_id. by destruct (new_id t (q_rng st)). Qed.
Lemma keeps_check_rows {T} (f : QSt → T) a e : keeps f (check_rows a e).
Proof. unfold check_rows. by case_match. Qed.
Lemma keeps_check_constraint {T} (f : QSt → T) b e : keeps f (check_constraint b e).
Proof. unfold check_constraint. by case_match. Qed.
Lemma keeps_lease_set_jobs j : keeps lease (modify (set_jobs j) : M QSt DatabaseError ()).
Proof. done. Qed.
Lemma keeps_lease_set_workers j : keeps lease (modify (set_workers j) : M QSt DatabaseError ()).
Proof. done. Qed.
Lemma keeps_lease_set_schedules j : keeps lease (modify (set_schedules j) : M QSt DatabaseError ()).
Proof. done. Qed.
#[local] Hint Resolve keeps_lease_clock keeps_lease_id keeps_check_rows keeps_check_constraint
  keeps_lease_set_jobs keeps_lease_set_workers keeps_lease_set_schedules : keeps.

Lemma keeps_lease_heartbeat w : keeps lease (worker_heartbeat w).
Proof. unfold worker_heartbeat. solve_keeps. Qed.
Lemma keeps_lease_reserve w qs n : keeps lease (job_reserve w qs n).
Proof. unfold job_reserve. solve_keeps. Qed.
Lemma keeps_lease_process joined contexts : keeps lease (process_jobs joined contexts).
Proof.
  revert contexts. induction joined as [|[id o] joined IH]; intros contexts; cbn [process_jobs]; [solve_keeps|].
  destruct (contexts !! id); [|apply IH]. apply keeps_bind; [|intros _; apply IH].
  unfold process_result, job_mark_as_completed, job_mark_as_failed, update_running, retry_later,
    job_retry, insert_job.
  solve_keeps.
Qed.

(** The leader lease is exclusive. A worker comes out of a round as the leader
    exactly if there was no lease, its own lease, or one that had expired by the
    time of the database; it then holds the lease for five more seconds.
    Otherwise the lease of the other worker, not yet expired, is left alone. *)
Theorem leader_lease_exclusive w joined st w' st' :
  tick_worker w joined st = (Ok w', st') →
  if worker_am_i_leader w' then
    (∀ l, q_leader st = Some l →
       LeaderRow_queue_worker_id l = worker_id w ∨ LeaderRow_expires_at l < q_now st 0%nat) ∧
    ∃ l', q_leader st' = Some l' ∧ LeaderRow_queue_worker_id l' = worker_id w ∧
      LeaderRow_expires_at l' = q_now st 1%nat + LEASE
  else
    ∃ l, q_leader st = Some l ∧ LeaderRow_queue_worker_id l ≠ worker_id w ∧
      q_now st 0%nat ≤ LeaderRow_expires_at l ∧ q_leader st' = Some l.
Proof.
  unfold tick_worker. intros H.
  apply bind_Ok_inv in H as (now & st1 & H1 & H). injection H1 as _ <-.
  apply bind_Ok_inv in H as (u & st2 & H2 & H).
  assert (lease st2 = lease st) as L2.
  { case_match; [by rewrite (keeps_run _ _ _ _ _ (keeps_lease_heartbeat _) H2)|by injection H2 as _ <-]. }
  clear H2. apply bind_Ok_inv in H as (u' & st3 & H3 & H). injection H3 as _ <-.
  apply bind_Ok_inv in H as (leader & st4 & H4 & H).
  apply bind_Ok_inv in H as (cs & st5 & H5 & H).
  apply (keeps_run lease) in H5; [|apply keeps_lease_process].
  apply bind_Ok_inv in H as (jobs & st6 & H6 & H).
  assert (lease st6 = lease st5) as L6.
  { destruct (jobs_to_fetch_capacity (size cs) =? 0)%nat;
      [by injection H6 as _ <-|by rewrite (keeps_run _ _ _ _ _ (keeps_lease_reserve _ _ _) H6)]. }
  injection H as <- <-. cbn [worker_am_i_leader]. unfold lease in *. injection L2 as El En.
  injection L6 as El6 _. injection H5 as El5 _.
  unfold worker_try_get_leader_lease in H4. qrun. rewrite El6, El5. rewrite <-El, <-En. clear El En El6 El5.
  destruct (q_leader st2) as [l|] eqn:Hl.
  - destruct (Z.ltb_spec (LeaderRow_expires_at l) (q_now st2 0%nat)) as [Hexp|Hexp]; cbn in H4.
    + destruct (fk_broken _ _); [done|]. injection H4 as <- <-. cbn. split; [|by eexists].
      intros l' [= <-]. by right.
    + case_bool_decide as Hw; injection H4 as <- <-; cbn.
      * split; [|by eexists]. intros l' [= <-]. by left.
      * by exists l.
  - destruct (fk_broken _ _); [done|]. injection H4 as <- <-. cbn. split; [done|by eexists].
Qed.

(** ** Recovery *)

(** A copy of the job [r] waits to be started. *)
Definition recovered (st : QSt) (id : Z) (r : JobRow) : Prop :=
  ∃ r' n c, q_jobs st !! id = Some r' ∧ JobRow_status r' = FAILED ∧
    JobRow_next_attempt_id r' = Some n ∧ q_jobs st !! n = Some c ∧ JobRow_status c = SCHEDULED ∧
    JobRow_attempt c = JobRow_attempt r + 1 ∧ JobRow_queue_name c = JobRow_queue_name r ∧
    JobRow_payload c = JobRow_payload r.

Lemma retried_other id nid now delay r st st1 st' i x :
  retried id nid now delay r st st1 st' → i ≠ id → q_jobs st !! i = Some x → q_jobs st' !! i = Some x.
Proof.
  intros (Hr & _ & Hn & Hne & _ & ->) Hi Hx. cbn. rewrite lookup_alter_ne by done.
  rewrite lookup_insert_ne; [done|congruence].
Qed.

Lemma retried_recovered id nid now delay r st st1 st' :
  retried id nid now delay r st st1 st' → recovered st' id r.
Proof.
  intros (Hr & Hs & Hn & Hne & _ & ->).
  exists (JobRow_set_next_attempt nid r), nid, (retry_copy now delay r). cbn.
  rewrite lookup_alter_eq, lookup_insert_ne, Hr by done.
  rewrite lookup_alter_ne, lookup_insert_eq by done. done.
Qed.

(** No row begins to run in a retry. *)
Lemma retry_running id delay st res st' i x :
  job_retry id delay st = (res, st') → q_jobs st' !! i = Some x → JobRow_status x = RUNNING →
  q_jobs st !! i = Some x.
Proof.
  intros H Hx Hs. apply job_retry_run in H as (st1 & (Ej & _) & [(e & _ & ->)|(nid & r & _ & Hret)]).
  { by rewrite <-Ej. }
  destruct Hret as (Hr & Hf & Hn & Hne & _ & ->). cbn in Hx. revert Hx.
  destruct (decide (id = i)) as [->|Hi].
  - rewrite lookup_alter_eq, lookup_insert_ne, Hr by done. cbn. intros [= <-]. cbn in Hs.
    rewrite Hf in Hs. discriminate Hs.
  - rewrite lookup_alter_ne by done. rewrite lookup_insert_Some. intros [[_ <-]|[_ ?]]; [|done].
    discriminate Hs.
Qed.

Definition retry_abandoned (job : AbandonedJob) : M QSt DatabaseError () :=
  if AbandonedJob_attempt job <? MAX_ATTEMPTS then job_retry (AbandonedJob_id job) 0 else mret tt.

Lemma retry_all_running jobs st res st' i x :
  for_each retry_abandoned jobs st = (res, st') → q_jobs st' !! i = Some x →
  JobRow_status x = RUNNING → q_jobs st !! i = Some x.
Proof.
  revert st. induction jobs as [|j jobs IH]; intros st; cbn [for_each]; [by intros [= _ <-]|].
  intros H Hx Hs. destruct (retry_abandoned j st) as [[u|e] st1] eqn:E.
  - rewrite (bind_Ok _ _ _ _ _ E) in H. specialize (IH _ H Hx Hs).
    unfold retry_abandoned in E. case_match; [by eapply retry_running|by injection E as _ <-].
  - rewrite (bind_Err _ _ _ _ _ E) in H. injection H as _ <-.
    unfold retry_abandoned in E. case_match; [by eapply retry_running|done].
Qed.

Lemma keeps_workers_retry job : keeps q_workers (retry_abandoned job).
Proof.
  intros st. unfold retry_abandoned. case_match; [|done].
  destruct (job_retry (AbandonedJob_id job) 0 st) as [res st'] eqn:E.
  apply job_retry_run in E as (st1 & (_ & Ew & _) & [(e & _ & ->)|(nid & r & _ & Hret)]); [done|].
  by destruct Hret as (_ & _ & _ & _ & _ & ->).
Qed.

Lemma recovered_stays job st res st' id r :
  retry_abandoned job st = (res, st') → AbandonedJob_id job ≠ id →
  (∀ x, q_jobs st !! AbandonedJob_id job = Some x → JobRow_status x = FAILED) →
  recovered st id r → recovered st' id r.
Proof.
  unfold retry_abandoned. case_match; [|by intros [= _ <-]].
  intros E Hne Hf (r' & n & c & H1 & H2 & H3 & H4 & H5 & H6).
  apply job_retry_run in E as (st1 & (Ej & _) & [(e & _ & ->)|(nid & r0 & _ & Hret)]).
  { exists r', n, c. by rewrite Ej. }
  exists r', n, c. split; [by eapply retried_other|]. split_and!; try done; [|tauto..].
  eapply retried_other; [done| |done]. intros ->. specialize (Hf _ H4). rewrite H5 in Hf. discriminate Hf.
Qed.

Lemma retry_abandoned_other job st st' i x :
  retry_abandoned job st = (Ok tt, st') → i ≠ AbandonedJob_id job →
  q_jobs st !! i = Some x → q_jobs st' !! i = Some x.
Proof.
  unfold retry_abandoned. case_match; [|by intros [= <-]]. intros E Hi Hx.
  apply job_retry_run in E as (s & _ & [(e & [=] & _)|(nid & r0 & _ & Hret)]).
  by eapply retried_other.
Qed.

(** The jobs that are to be retried, at some point of the loop. *)
Definition to_retry (jobs : list AbandonedJob) (st : QSt) : Prop :=
  NoDup (AbandonedJob_id <$> jobs) ∧
  ∀ job, job ∈ jobs → ∃ r, q_jobs st !! AbandonedJob_id job = Some r ∧ JobRow_status r = FAILED ∧
    JobRow_attempt r = AbandonedJob_attempt job.

Lemma to_retry_next j jobs st st1 :
  to_retry (j :: jobs) st → retry_abandoned j st = (Ok tt, st1) →
  to_retry jobs st1 ∧
  ∀ job r, job ∈ jobs → q_jobs st !! AbandonedJob_id job = Some r → q_jobs st1 !! AbandonedJob_id job = Some r.
Proof.
  intros [Hnd Hjobs] E. rewrite fmap_cons in Hnd. apply NoDup_cons in Hnd as [Hj Hnd].
  assert (∀ job r, job ∈ jobs → q_jobs st !! AbandonedJob_id job = Some r →
    q_jobs st1 !! AbandonedJob_id job = Some r) as Hsame.
  { intros job r Hin. eapply retry_abandoned_other; [done|]. intros Heq. apply Hj. rewrite <-Heq.
    apply list_elem_of_fmap. eauto. }
  split; [|done]. split; [done|]. intros job Hin.
  destruct (Hjobs job) as (r & Hr & ?); [by right|]. exists r. eauto.
Qed.

Lemma retry_all_keeps_recovered jobs st st' id r :
  to_retry jobs st → id ∉ AbandonedJob_id <$> jobs → for_each retry_abandoned jobs st = (Ok tt, st') →
  recovered st id r → recovered st' id r.
Proof.
  revert st. induction jobs as [|k jobs IH]; intros st Hto Hid H Hrec; cbn [for_each] in H;
    [by injection H as <-|].
  apply bind_Ok_inv in H as ([] & st2 & E & H). rewrite fmap_cons in Hid.
  apply not_elem_of_cons in Hid as [Hne Hid]. destruct (to_retry_next _ _ _ _ Hto E) as [Hto2 _].
  apply (IH st2); [done|done|done|]. eapply recovered_stays; [done|done| |done].
  intros x Hx. destruct Hto as [_ Hjobs]. destruct (Hjobs k) as (r1 & Hr1 & ? & _); [by left|]. by simplify_eq.
Qed.

Lemma retry_all_recovers jobs st st' job r :
  to_retry jobs st → for_each retry_abandoned jobs st = (Ok tt, st') →
  job ∈ jobs → q_jobs st !! AbandonedJob_id job = Some r → JobRow_attempt r < MAX_ATTEMPTS →
  recovered st' (AbandonedJob_id job) r.
Proof.
  revert st. induction jobs as [|j jobs IH]; intros st Hto; cbn [for_each]; [by intros _ ?%elem_of_nil|].
  intros H Hin Hr Hlt. apply bind_Ok_inv in H as ([] & st1 & E & H).
  destruct (to_retry_next _ _ _ _ Hto E) as [Hto1 Hsame].
  apply elem_of_cons in Hin as [->|Hin]; [|by eapply IH; eauto].
  destruct Hto as [Hnd Hjobs]. rewrite fmap_cons in Hnd. apply NoDup_cons in Hnd as [Hj _].
  destruct (Hjobs j) as (r1 & Hr1 & Hs1 & Ha1); [by left|]. simplify_eq.
  eapply retry_all_keeps_recovered; [done|done|done|].
  unfold retry_abandoned in E. rewrite <-Ha1 in E.
  destruct (Z.ltb_spec (JobRow_attempt r) MAX_ATTEMPTS); [|lia].
  apply job_retry_run in E as (s & _ & [(e & [=] & _)|(nid & r0 & _ & Hret)]).
  pose proof Hret as (Hr0 & _). simplify_eq. by eapply retried_recovered.
Qed.

(** A worker is lost when it is shut down, or was not seen for two minutes. *)
Definition lost (now : DateTime) (w : WorkerRow) : Prop :=
  is_Some (WorkerRow_shutdown_at w) ∨ WorkerRow_last_seen_at w < now - 2 * MINUTE.

Lemma dead_workers_run t st res st' :
  worker_shutdown_dead_workers t st = (res, st') →
  res = Ok tt ∧ q_jobs st' = q_jobs st ∧
  q_workers st' = (λ w, if is_dead (q_clock st 0%nat - t) w then WorkerRow_shut (q_clock st 0%nat) w else w)
                  <$> q_workers st.
Proof. unfold worker_shutdown_dead_workers. qrun. by intros [= <- <-]. Qed.

(** The jobs marked after that are those of lost workers. *)
Lemma abandoned_lost now (workers : gmap Z WorkerRow) r :
  is_abandoned ((λ w, if is_dead (now - 2 * MINUTE) w then WorkerRow_shut now w else w) <$> workers) r = true ↔
  JobRow_status r = RUNNING ∧ ∃ w row, JobRow_started_by r = Some w ∧ workers !! w = Some row ∧ lost now row.
Proof.
  unfold is_abandoned. rewrite andb_true_iff, bool_decide_eq_true. apply and_iff_compat_l.
  destruct (JobRow_started_by r) as [w|]; cbn; [|naive_solver]. rewrite lookup_fmap.
  destruct (workers !! w) as [row|] eqn:Hrow; cbn; [|naive_solver]. rewrite bool_decide_eq_true.
  assert (is_Some (WorkerRow_shutdown_at (if is_dead (now - 2 * MINUTE) row then WorkerRow_shut now row else row))
    ↔ lost now row) as ->.
  { unfold lost, is_dead.
    destruct (Z.ltb_spec (WorkerRow_last_seen_at row) (now - 2 * MINUTE));
      case_bool_decide as Hs; cbn; rewrite ?Hs.
    - split; [intros _; by right|done].
    - apply not_eq_None_Some in Hs. tauto.
    - split; [tauto|]. intros [?|?]; [done|lia].
    - split; [tauto|]. intros [?|?]; [done|lia]. }
  naive_solver.
Qed.

(** The three stages of the recovery. *)
Lemma recover_inv st st' :
  recover_abandoned_jobs st = (Ok tt, st') →
  ∃ ids jobs st2 now,
    NoDup ids ∧ AbandonedJob_id <$> jobs = ids ∧
    (∀ id, id ∈ ids ↔ ∃ r, q_jobs st !! id = Some r ∧ JobRow_status r = RUNNING ∧
       ∃ w row, JobRow_started_by r = Some w ∧ q_workers st !! w = Some row ∧ lost (q_clock st 0%nat) row) ∧
    (∀ id, q_jobs st2 !! id = if decide (id ∈ ids)
       then JobRow_fail now "worker lost heartbeat" <$> q_jobs st !! id else q_jobs st !! id) ∧
    q_workers st' = (λ w, if is_dead (q_clock st 0%nat - 2 * MINUTE) w
                          then WorkerRow_shut (q_clock st 0%nat) w else w) <$> q_workers st ∧
    to_retry jobs st2 ∧ for_each retry_abandoned jobs st2 = (Ok tt, st').
Proof.
  unfold recover_abandoned_jobs. intros H.
  apply bind_Ok_inv in H as (u & st1 & H1 & H). apply dead_workers_run in H1 as (_ & Ej & Ew).
  apply bind_Ok_inv in H as (jobs & st2 & H2 & H).
  apply mark_abandoned_Ok in H2 as (Hids & Hjobs & Ew2 & Ej2). rewrite Ej, Ew in *.
  change (for_each retry_abandoned jobs st2 = (Ok tt, st')) in H.
  exists (AbandonedJob_id <$> jobs), jobs, st2, (q_clock st1 0%nat).
  assert (NoDup (AbandonedJob_id <$> jobs)) as Hnd by (rewrite Hids; apply ids_where_NoDup).
  assert (∀ id, q_jobs st2 !! id = if decide (id ∈ AbandonedJob_id <$> jobs)
    then JobRow_fail (q_clock st1 0%nat) "worker lost heartbeat" <$> q_jobs st !! id
    else q_jobs st !! id) as Hl.
  { intros id. rewrite Ej2, Hids. apply update_jobs_lookup, ids_where_NoDup. }
  split_and!; [done|done| |done| |split; [done|]|done].
  - intros id. rewrite Hids, elem_of_ids_where. by setoid_rewrite abandoned_lost.
  - rewrite <-Ew2. eapply (keeps_run q_workers); [|done]. apply keeps_for_each, keeps_workers_retry.
  - intros job Hin. destruct (Hjobs job Hin) as (r & Hr & Ha).
    exists (JobRow_fail (q_clock st1 0%nat) "worker lost heartbeat" r). split; [|by split].
    rewrite Hl, decide_True, Hr; [done|]. apply list_elem_of_fmap. eauto.
Qed.

(** C31. The leader forgets no job. Once it has looked for lost workers, every
    running job belongs to a worker that is neither shut down nor unseen for two
    minutes, and every job of a lost worker that may be tried again has a copy,
    with the next attempt number, that waits to be started. *)
Theorem jobs_of_lost_workers_are_recovered st st' :
  queue_ok st → recover_abandoned_jobs st = (Ok tt, st') →
  (∀ id r, q_jobs st' !! id = Some r → JobRow_status r = RUNNING →
     ∃ w row, JobRow_started_by r = Some w ∧ q_workers st !! w = Some row ∧ ¬ lost (q_clock st 0%nat) row) ∧
  (∀ id r w row, q_jobs st !! id = Some r → JobRow_status r = RUNNING → JobRow_started_by r = Some w →
     q_workers st !! w = Some row → lost (q_clock st 0%nat) row → JobRow_attempt r < MAX_ATTEMPTS →
     recovered st' id r).
Proof.
  intros Hok H. apply recover_inv in H as (ids & jobs & st2 & now & _ & Hids & Hin & Hl & _ & Hto & H).
  split.
  - intros id r Hr Hs. pose proof (retry_all_running _ _ _ _ _ _ H Hr Hs) as Hr2. rewrite Hl in Hr2.
    destruct (decide (id ∈ ids)) as [Hi|Hi].
    { apply fmap_Some in Hr2 as (r0 & _ & ->). discriminate Hs. }
    destruct (qo_jobs _ Hok _ _ Hr2) as (_ & _ & Hst & Hc).
    assert (is_Some (JobRow_started_by r)) as [w Hw].
    { destruct Hc as [Hc|[Hc|[Hc|[Hc|Hc]]]]; destruct_and! Hc; try clash; done. }
    destruct (Hst w Hw) as [row Hrow]. exists w, row. split_and!; [done|done|].
    intros Hlost. apply Hi, Hin. exists r. eauto 10.
  - intros id r w row Hr Hs Hw Hrow Hlost Hlt.
    assert (id ∈ ids) as Hi by (apply Hin; eauto 10).
    pose proof (Hl id) as Hl2. rewrite decide_True, Hr in Hl2 by done.
    rewrite <-Hids in Hi. apply list_elem_of_fmap in Hi as (job & -> & Hjob).
    by apply (retry_all_recovers _ _ _ job _ Hto H Hjob Hl2).
Qed.

(** ** Jobs are started in order *)

Definition reservable (qs : list string) (st : QSt) : list Z := ids_where (is_reservable qs) (q_jobs st).
(** The jobs that go before a job. *)
Definition before (qs : list string) (id : Z) (st : QSt) : list Z := filter (λ i, i < id) (reservable qs st).

Definition started (id : Z) (st : QSt) : Prop :=
  ∃ r, q_jobs st !! id = Some r ∧ 2 ≤ rank (JobRow_status r).

Lemma started_mono id st st' : queue_evolves st st' → started id st → started id st'.
Proof.
  intros [Hj _ _] (r & Hr & Hk). destruct (Hj _ _ Hr) as (r' & Hr' & _ & _ & _ & _ & _ & _ & _ & Hs).
  exists r'. split; [done|]. destruct Hs as [->|]; [done|lia].
Qed.

Lemma reservable_rank qs st id :
  id ∈ reservable qs st ↔ ∃ r, q_jobs st !! id = Some r ∧ JobRow_status r = AVAILABLE ∧ JobRow_queue_name r ∈ qs.
Proof.
  unfold reservable. rewrite elem_of_ids_where. unfold is_reservable.
  setoid_rewrite andb_true_iff. by setoid_rewrite bool_decide_eq_true.
Qed.

Lemma reserve_effect w qs n st jobs st' id :
  job_reserve w qs n st = (Ok jobs, st') →
  (id ∈ take n (reservable qs st) → started id st') ∧
  (id ∈ reservable qs st' ↔ id ∈ reservable qs st ∧ id ∉ take n (reservable qs st)).
Proof.
  intros H. apply job_reserve_Ok in H as (_ & _ & Hq). fold (reservable qs st) in Hq.
  assert (NoDup (take n (reservable qs st))) as Hnd by apply take_NoDup, ids_where_NoDup.
  split.
  - intros Hin. pose proof Hin as Hres. apply elem_of_take_in, reservable_rank in Hres as (r & Hr & _).
    eexists. rewrite Hq, update_jobs_lookup, decide_True, Hr by done. split; [done|]. vm_compute. done.
  - rewrite !reservable_rank. rewrite Hq. setoid_rewrite update_jobs_lookup; [|done].
    destruct (decide (id ∈ take n (reservable qs st))) as [Hin|Hin].
    + split; [|tauto]. intros (r & Hr & Hs & _). apply fmap_Some in Hr as (r0 & _ & ->). discriminate Hs.
    + tauto.
Qed.

(** In a sorted list without repetition, what goes before an element is a prefix. *)
Lemma sorted_before (l : list Z) id n :
  StronglySorted Z.le l → NoDup l → id ∈ l → id ∉ take n l →
  take n l = take n (filter (λ i, i < id) l).
Proof.
  revert n. induction l as [|x l IH]; intros n Hs Hnd Hin Hnot; [by apply elem_of_nil in Hin|].
  apply StronglySorted_inv in Hs as [Hs Hall]. apply NoDup_cons in Hnd as [Hx Hnd].
  destruct n as [|n]; [done|]. cbn [take] in *. apply not_elem_of_cons in Hnot as [Hne Hnot].
  apply elem_of_cons in Hin as [->|Hin]; [done|].
  rewrite Forall_forall in Hall. specialize (Hall id Hin).
  rewrite filter_cons_True by lia. cbn [take]. f_equal. by apply IH.
Qed.

(** One round starts the job, or one that goes before it. *)
Lemma reserve_progress w qs n st jobs st' id :
  job_reserve w qs n st = (Ok jobs, st') → (0 < n)%nat → id ∈ reservable qs st →
  started id st' ∨
  (id ∈ reservable qs st' ∧ (length (before qs id st') < length (before qs id st))%nat).
Proof.
  intros H Hn Hin. destruct (decide (id ∈ take n (reservable qs st))) as [Ht|Ht].
  { left. by eapply reserve_effect. }
  right. split; [by eapply reserve_effect|].
  assert (take n (reservable qs st) = take n (before qs id st)) as Hb.
  { apply sorted_before; [apply ids_where_sorted|apply ids_where_NoDup|done|done]. }
  assert (∃ x, x ∈ before qs id st ∧ x ∉ before qs id st') as (x & Hx & Hx').
  { destruct (before qs id st) as [|x l] eqn:Eb.
    - exfalso. rewrite take_nil in Hb. destruct n; [lia|].
      destruct (reservable qs st); [by apply elem_of_nil in Hin|done].
    - exists x. split; [by left|]. intros Hx. unfold before in Hx. apply list_elem_of_filter in Hx as [_ Hx].
      eapply reserve_effect in Hx as [_ Hx]; [|done]. apply Hx. rewrite Hb. destruct n; [lia|]. by left. }
  apply (strictly_shorter (before qs id st) (before qs id st') x); [| |done|done].
  - apply NoDup_filter, ids_where_NoDup.
  - intros y Hy. unfold before in *. apply list_elem_of_filter in Hy as [Hlt Hy].
    eapply reserve_effect in Hy as [Hy _]; [|done]. by apply list_elem_of_filter.
Qed.

(** What other requests and workers do in between: no job becomes available
    before the job [id], and [id] stays in its queue until it is started. *)
Definition quiet (qs : list string) (id : Z) (st st' : QSt) : Prop :=
  queue_evolves st st' ∧ ∀ i, i < id → i ∈ reservable qs st' → i ∈ reservable qs st.

(** Rounds of workers with a free place, on the same queues. *)
Inductive rounds (qs : list string) (id : Z) : nat → QSt → QSt → Prop :=
| rounds_O st : rounds qs id 0 st st
| rounds_S k w n st jobs st1 st2 st' :
    job_reserve w qs n st = (Ok jobs, st1) → (0 < n)%nat → queue_ok st → quiet qs id st1 st2 →
    rounds qs id k st2 st' → rounds qs id (S k) st st'.

Lemma rounds_evolve qs id k st st' : rounds qs id k st st' → queue_evolves st st'.
Proof.
  induction 1 as [|k w n st jobs st1 st2 st' Hres _ Hok [He _] _ IH]; [done|].
  destruct (maintains_job_reserve st w qs n st (QI_refl _ Hok)) as [_ He1]. rewrite Hres in He1.
  etrans; [exact He1|]. by etrans.
Qed.

Lemma available_stays qs id st st' :
  queue_evolves st st' → id ∈ reservable qs st → started id st' ∨ id ∈ reservable qs st'.
Proof.
  intros [Hj _ _] Hin. apply reservable_rank in Hin as (r & Hr & Hs & Hq).
  destruct (Hj _ _ Hr) as (r' & Hr' & Eq & _ & _ & _ & _ & _ & _ & Hst).
  destruct Hst as [Hst|Hst].
  - right. apply reservable_rank. exists r'. rewrite Hst, Eq. done.
  - left. exists r'. split; [done|]. rewrite Hs in Hst. change (rank AVAILABLE) with 1 in Hst. lia.
Qed.

(** Every available job is started: with [k] jobs before it, after [k + 1]
    rounds of workers that have a free place, however many other jobs arrive or
    end meanwhile. *)
Theorem available_jobs_are_started qs id k st st' :
  id ∈ reservable qs st → (length (before qs id st) < k)%nat → rounds qs id k st st' → started id st'.
Proof.
  intros Hin Hk Hr. revert Hin Hk.
  induction Hr as [|k w n st jobs st1 st2 st' Hres Hn Hok [He Hq] Hr IH]; intros Hin Hk; [lia|].
  destruct (reserve_progress _ _ _ _ _ _ id Hres Hn Hin) as [Hs|[Hin1 Hlt]].
  { eapply started_mono; [by eapply rounds_evolve|]. by eapply started_mono. }
  destruct (available_stays _ _ _ _ He Hin1) as [Hs|Hin2].
  { eapply started_mono; [by eapply rounds_evolve|done]. }
  apply IH; [done|]. assert (length (before qs id st2) ≤ length (before qs id st1))%nat; [|lia].
  apply submseteq_length, NoDup_submseteq; [apply NoDup_filter, ids_where_NoDup|].
  intros i Hi. unfold before in *. apply list_elem_of_filter in Hi as [Hlti Hi].
  apply list_elem_of_filter. auto.
Qed.

(** The delay before a retry doubles with each attempt, from five seconds to
    five seconds times 512, and its computation never overflows. *)
Theorem retry_delay_doubles attempt :
  0 ≤ attempt < MAX_ATTEMPTS →
  retry_delay attempt = Some (5 * 1000000 * 2 ^ attempt) ∧
  5 * 1000000 ≤ 5 * 1000000 * 2 ^ attempt ≤ 5 * 1000000 * 512.
Proof.
  intros Ha. unfold MAX_ATTEMPTS in Ha. unfold retry_delay, I64_MAX.
  assert (2 ^ 0 ≤ 2 ^ attempt ≤ 2 ^ 9) as Hp by (split; apply Z.pow_le_mono_r; lia).
  destruct (Z.ltb_spec attempt 63); [|lia]. destruct (Z.leb_spec (2 ^ attempt * 5000) (2 ^ 63 - 1)).
  - split; [f_equal; lia|lia].
  - lia.
Qed.

(** ** Clean-up *)

(** A clean-up that succeeds deletes finished jobs of the given range only, and
    nothing that another row refers to. *)
Lemma job_cleanup_Ok since until limit st n next st' :
  job_cleanup since until limit st = (Ok (n, next), st') →
  q_schedules st' = q_schedules st ∧
  ∀ id, match q_jobs st' !! id with
        | Some r => q_jobs st !! id = Some r
        | None => q_jobs st !! id = None ∨
            ∃ r, q_jobs st !! id = Some r ∧ is_finished r = true ∧ id ≤ until
        end.
Proof.
  unfold job_cleanup. qrun. destruct (job_referenced st _); [done|]. cbn.
  intros [= _ _ <-]. cbn. split; [done|]. intros id.
  assert (∀ gone, foldr delete (q_jobs st) gone !! id =
    if decide (id ∈ gone) then None else q_jobs st !! id) as Hd.
  { induction gone as [|g gone IH]; cbn; [done|]. destruct (decide (g = id)) as [->|Hne].
    - rewrite lookup_delete_eq. by rewrite decide_True by set_solver.
    - rewrite lookup_delete_ne, IH by done. repeat case_decide; set_solver. }
  rewrite Hd. case_decide as Hin; [|by destruct (q_jobs st !! id); auto].
  right. unfold jobs_to_delete in Hin. apply elem_of_take_in, list_elem_of_filter in Hin as [Hc Hin].
  apply elem_of_ids_where in Hin as (r & Hr & Hf). exists r. split_and!; [done|done|].
  apply andb_true_iff in Hc as [_ Hc]. lia.
Qed.

(** As long as a schedule points to a finished job that the clean-up would
    delete, the clean-up fails and deletes nothing: the schedule of a recurring
    job that no longer exists blocks it for good. *)
Theorem stale_schedule_blocks_cleanup since until limit st name row id :
  q_schedules st !! name = Some row → ScheduleRow_last_scheduled_job_id row = Some id →
  id ∈ jobs_to_delete since until limit (q_jobs st) →
  job_cleanup since until limit st = (Err (Db_Diesel (ForeignKeyViolation "queue_jobs" "id")), st).
Proof.
  intros Hrow Hid Hin. unfold job_cleanup. qrun.
  assert (job_referenced st (jobs_to_delete since until limit (q_jobs st)) = true) as ->; [|done].
  unfold job_referenced. apply orb_true_iff. left. apply existsb_exists. exists row. split.
  - apply list_elem_of_In, list_elem_of_fmap. exists (name, row). split; [done|].
    by apply elem_of_map_to_list.
  - rewrite Hid. by apply bool_decide_eq_true.
Qed.
End liveness.

(** ** The theorems evaluated on a concrete queue *)

Lemma leader_lease_exclusive_witness :
  ∃ w' st', tick_worker (new_worker the_worker 1700000000000000 ["sync-devices"]) [] ready_queue
              = (Ok w', st') ∧
    (if worker_am_i_leader w' then
       ∃ l', q_leader st' = Some l' ∧ LeaderRow_queue_worker_id l' = the_worker
     else False).
Proof.
  destruct (ok_run (tick_worker (new_worker the_worker 1700000000000000 ["sync-devices"]) [] ready_queue))
    as (w' & st' & E); [vm_compute; reflexivity|].
  exists w', st'. split; [exact E|].
  pose proof (leader_lease_exclusive _ _ _ _ _ E) as H.
  destruct (worker_am_i_leader w').
  - destruct H as (_ & l' & Hl & Hw & _). exists l'. split; [exact Hl|exact Hw].
  - destruct H as (l & Hl & _). vm_compute in Hl. discriminate Hl.
Defined.

(** The job is started, and the worker is not seen for three minutes. *)
Definition started_queue : QSt := (job_reserve the_worker ["sync-devices"] 5 ready_queue).2.
Definition late_queue : QSt :=
  mkQ (q_workers started_queue) (q_jobs started_queue) (q_schedules started_queue)
    (q_leader started_queue) (λ n, 1700000000000000 + 3 * MINUTE + Z.of_nat n) (q_now started_queue)
    (λ n, Z.of_nat (n * 5 + 2)) (q_notified started_queue).
Definition the_job : Z := default 0 (head (elements (dom (q_jobs ready_queue)))).

Lemma late_queue_ok : queue_ok late_queue.
Proof.
  destruct (sys_steps_ok _ _ empty_system_ok ready_steps) as [[Hq _] _].
  pose proof (maintains_job_reserve ready_queue the_worker ["sync-devices"] 5 ready_queue (QI_refl _ Hq)) as HI.
  by eapply (QI_same ready_queue started_queue late_queue) in HI as [? _].
Qed.

Lemma jobs_of_lost_workers_are_recovered_witness :
  ∃ st' r, recover_abandoned_jobs late_queue = (Ok tt, st') ∧
    q_jobs late_queue !! the_job = Some r ∧ recovered st' the_job r.
Proof.
  destruct (ok_run (recover_abandoned_jobs late_queue)) as ([] & st' & E); [vm_compute; reflexivity|].
  destruct (q_jobs late_queue !! the_job) as [r|] eqn:Hr; [|vm_compute in Hr; discriminate Hr].
  destruct (q_workers late_queue !! the_worker) as [row|] eqn:Hrow; [|vm_compute in Hrow; discriminate Hrow].
  exists st', r. split; [exact E|]. split; [reflexivity|].
  apply (proj2 (jobs_of_lost_workers_are_recovered late_queue st' late_queue_ok E) the_job r the_worker row).
  - exact Hr.
  - vm_compute in Hr. injection Hr as <-. reflexivity.
  - vm_compute in Hr. injection Hr as <-. vm_compute. reflexivity.
  - exact Hrow.
  - right. vm_compute in Hrow. injection Hrow as <-. vm_compute. reflexivity.
  - vm_compute in Hr. injection Hr as <-. vm_compute. reflexivity.
Defined.

Lemma available_jobs_are_started_witness :
  the_job ∈ reservable ["sync-devices"] ready_queue ∧ started the_job started_queue.
Proof.
  assert (the_job ∈ reservable ["sync-devices"] ready_queue) as Hin.
  { apply (bool_decide_unpack _). vm_compute. exact Logic.I. }
  split; [exact Hin|].
  destruct (ok_run (job_reserve the_worker ["sync-devices"] 5 ready_queue)) as (jobs & st1 & E);
    [vm_compute; reflexivity|].
  apply (available_jobs_are_started ["sync-devices"] the_job 1 ready_queue).
  - exact Hin.
  - vm_compute. lia.
  - unfold started_queue. rewrite E. cbn [snd].
    eapply rounds_S; [exact E|lia| |split; [reflexivity|auto]|apply rounds_O].
    by destruct (sys_steps_ok _ _ empty_system_ok ready_steps) as [[Hq _] _].
Defined.

Lemma retry_delay_doubles_witness : 0 ≤ 3 < MAX_ATTEMPTS ∧ retry_delay 3 = Some 40000000.
Proof.
  assert (0 ≤ 3 < MAX_ATTEMPTS) as H by (unfold MAX_ATTEMPTS; lia).
  split; [exact H|]. exact (proj1 (retry_delay_doubles 3 H)).
Defined.

(** A recurring job that has run once, and whose schedule is gone from the code. *)
Definition stale_queue : QSt :=
  set_jobs {[ 10 := JobRow_complete 5 (JobRow_start 4 1
      (new_job_row AVAILABLE "cleanup-expired-tokens" Json_Null (Json_Object []) 3 0 None
         (Some "cleanup-expired-tokens"))) ]}
    (set_schedules {[ "cleanup-expired-tokens" :=
        {| ScheduleRow_last_scheduled_at := Some 4; ScheduleRow_last_scheduled_job_id := Some 10 |} ]}
      empty_queue).

Lemma stale_schedule_blocks_cleanup_witness :
  job_cleanup None 1000 1000 stale_queue =
    (Err (Db_Diesel (ForeignKeyViolation "queue_jobs" "id")), stale_queue).
Proof.
  apply (stale_schedule_blocks_cleanup None 1000 1000 stale_queue "cleanup-expired-tokens"
    {| ScheduleRow_last_scheduled_at := Some 4; ScheduleRow_last_scheduled_job_id := Some 10 |} 10).
  - vm_compute. reflexivity.
  - reflexivity.
  - apply (bool_decide_unpack _). vm_compute. exact Logic.I.
Defined.
