(* ===== verification/RegistrationProofs.v ===== *)
(** Registration: what finishing one requires and makes, that it happens once,
    that bootstrapping appoints one administrator, which codes are accepted, and
    how often codes are sent again. The statements over time hold for the
    histories of the whole server. *)
From S2P Require Import Prelude Ids RateLimit Passwords TokenFormat Scope Pkce Jose Keystore Domain Accounts Database Repository Notification Messaging ProviderMetadata AccountRepository Pagination AdminRepository AdminApi Profile Admin AdminIntegrity Notifications EmailWebhook Handlers ClientAuth ClientMetadata ClientRegistration TokenService Registration Login World RepositorySpec AccountSpec RegistrationSpec Introspection Revocation Consent Authorization ConsentProofs AuthorizationProofs Integrity UserJobs AccountServer AccountIntegrity Server ServerProofs.

Open Scope Z_scope.

(** ** One request *)

Section requests.
Context {UX : UrlExternals} {DX : DbExternals} {LX : LimiterExternals} {XX : AccountExternals}
        {WX : PasswordExternals} {RX : RegistrationExternals}.

(** C21. A registration that is finished was pending, not older than an hour, under a name that no
    user has and that the homeserver does not refuse, with a display name, with the contacts it
    names verified and its email address not in use. What is committed has exactly one more user, under a fresh key,
    with that name and that profile, neither locked nor deactivated, an administrator exactly when
    there was none and the token of the configuration was given; a session of that user, its
    contacts, its password; the registration is completed, the token is used, and no table of
    OAuth 2.0 changed. *)
Theorem registration_finished hs id bsp required configured requested ua st c st' :
  finish_registration hs id bsp required configured requested ua st = (Ok (Finish_Completed c), st') →
  ∃ row prepared admin,
    may_finish hs required (st_db st) (st_clock st 0%nat) id row prepared ∧
    (admin = true ↔ bootstrap_granted (st_db st) configured requested) ∧
    finished (st_db st) (st_committed st') id prepared admin ua (completed_user_session c) ∧
    BrowserSession_finished_at (completed_user_session c) = None.
Proof.
  intros H. apply finish_registration_inv in H as (row & prepared & admin & Hm & Ha & Hf & Hs & _).
  by exists row, prepared, admin.
Qed.

(** A registration that is not finished, because it is refused or because of an error at any
    step, the last ones included, leaves nothing behind. *)
Theorem unfinished_registration_commits_nothing hs id bsp required configured requested ua st r st' :
  finish_registration hs id bsp required configured requested ua st = (r, st') →
  (∀ c, r ≠ Ok (Finish_Completed c)) → st_committed st' = st_committed st.
Proof.
  intros H Hr. apply finish_commits_on_success in H as [[c ->]|]; [|done]. by destruct (Hr c).
Qed.

(** The registration as it is loaded. *)
Lemma load_progress_run id st row reg :
  db_registrations (st_db st) !! id = Some row → UserRegistration_try_from id row = Ok reg →
  load_registration_progress id st =
    (Ok {| progress_registration := reg;
           progress_email_authentication := email_auth_of (st_db st) row;
           progress_phone_authentication := phone_auth_of (st_db st) row |}, st).
Proof.
  intros Hrow Hd. pose proof (registration_decoded _ _ _ Hd) as (_ & _ & _ & _ & Ee & Ep & _).
  unfold load_registration_progress.
  assert (user_registration_lookup id st = (Ok (Some reg), st)) as Hl.
  { unfold user_registration_lookup, select_by_id. erewrite bind_Ok by reflexivity.
    rewrite Hrow. simpl. unfold of_result. erewrite bind_Ok; [|by rewrite Hd]. done. }
  erewrite bind_Ok; [|by apply try_with_Ok]. erewrite bind_Ok by reflexivity.
  unfold email_auth_of, phone_auth_of. rewrite Ee, Ep.
  by destruct (RegistrationRow_email_authentication_id row),
    (RegistrationRow_phone_authentication_id row).
Qed.

(** A registration is finished only from the step [ReadyToFinish] of its workflow: no step
    before it can be skipped, whatever the client asks for. *)
Theorem finished_only_when_ready hs id bsp required configured requested ua st c st' :
  finish_registration hs id bsp required configured requested ua st = (Ok (Finish_Completed c), st') →
  ∃ p, load_registration_progress id st = (Ok p, st) ∧ workflow_state p = ReadyToFinish ∧
       snapshot_next_step (workflow_snapshot p) = Some "finish".
Proof.
  intros (row & prepared & admin & Hm & _)%finish_registration_inv. destruct Hm as [Hrow Hd Hpend _ _ _ Hname Hemail Hphone _].
  pose proof (registration_decoded _ _ _ Hd) as (_ & _ & En & _ & Ee & Ep & _ & _ & Ec).
  eexists. split; [by apply load_progress_run|].
  assert (workflow_state {| progress_registration := prepared_registration prepared;
            progress_email_authentication := email_auth_of (st_db st) row;
            progress_phone_authentication := phone_auth_of (st_db st) row |} = ReadyToFinish ∧
          next_step {| progress_registration := prepared_registration prepared;
            progress_email_authentication := email_auth_of (st_db st) row;
            progress_phone_authentication := phone_auth_of (st_db st) row |} = "finish")
    as [Hw Hn]; [|by unfold workflow_snapshot; simpl; rewrite Hw, Hn].
  unfold workflow_state, next_step, next_registration_step, email_verified, phone_verified,
    email_auth_of, phone_auth_of; simpl. rewrite Ec, Hpend, Ee, Ep, En.
  destruct Hname as [n ->].
  destruct (RegistrationRow_email_authentication_id row) as [aid|]; simpl;
    [destruct Hemail as (auth & -> & [x Hx] & _ & _); simpl; rewrite Hx|];
  (destruct (RegistrationRow_phone_authentication_id row) as [pid|]; simpl;
    [destruct Hphone as (pauth & -> & [y Hy] & _); simpl; rewrite Hy|]; done).
Qed.

(** ** Which codes are accepted *)

(** The registration is pending with an unverified email address, its limit of attempts is not
    reached, and the text is a code that was stored for that very address. *)
Record email_code_stored (id : Ulid) (code : string) (st : St) (aid : Ulid) : Prop := {
  ecs_registration : ∃ row reg, db_registrations (st_db st) !! id = Some row ∧
    UserRegistration_try_from id row = Ok reg ∧ RegistrationRow_completed_at row = None ∧
    RegistrationRow_email_authentication_id row = Some aid;
  ecs_pending : ∃ auth, db_email_authentications (st_db st) !! aid = Some auth ∧
    EmailAuthRow_completed_at auth = None;
  ecs_attempt : is_ok (check_email_authentication_attempt aid (st_limiter st)).1 = true;
  ecs_code : ∃ k c, db_email_codes (st_db st) !! k = Some c ∧
    EmailCodeRow_user_email_authentication_id c = aid ∧ EmailCodeRow_code c = code;
}.

Lemma is_limited_run {E F} (m : M Limiter E ()) st :
  (is_limited m : M St F bool) st =
    (Ok (negb (is_ok (m (st_limiter st)).1)), set_limiter (m (st_limiter st)).2 st).
Proof. unfold is_limited, on_limiter. by destruct (m (st_limiter st)) as [[[]|e] l]. Qed.

Lemma submit_email_code_inv id code st next st' :
  submit_registration_email_code id code st = (Ok (Verification_Advanced next), st') →
  ∃ p, verify_registration_email_code id code st = (Ok p, st').
Proof.
  unfold submit_registration_email_code, catch.
  destruct (verify_registration_email_code id code st) as [[p|[]] st1]; simpl;
    intros H; simplify_eq. eauto.
Qed.

Lemma email_code_inv id code st p st' :
  verify_registration_email_code id code st = (Ok p, st') →
  ∃ aid t, email_code_stored id code st aid ∧
    st_committed st' = on_email_authentications (alter (EmailAuthRow_set_completed_at t) aid) (st_db st).
Proof.
  unfold verify_registration_email_code. intros H.
  apply bind_Ok_inv in H as (p0 & st1 & Hl%try_with_Ok_inv & H).
  apply load_progress_inv in Hl as (-> & row & Hrow & Hd & Hauth & _).
  pose proof (registration_decoded _ _ _ Hd) as (_ & _ & _ & _ & Ee & _ & _ & _ & Ec).
  apply bind_Ok_inv in H as (? & st1 & [Hp ->]%require_inv & H).
  apply bind_Ok_inv in H as (? & st1 & [_ ->]%require_inv & H).
  apply bind_Ok_inv in H as (auth & st1 & [Ha ->]%ok_or_Ok_inv & H).
  apply bind_Ok_inv in H as (? & st1 & [Hpend ->]%require_inv & H).
  apply bind_Ok_inv in H as (lim & st1 & Hlim & H). rewrite is_limited_run in Hlim.
  injection Hlim as <- <-. apply bind_Ok_inv in H as (? & st1 & [Hok ->]%require_inv & H).
  apply bind_Ok_inv in H as (c & st1 & Hc%try_with_Ok_inv & H).
  apply email_find_code_inv in Hc as [-> ->].
  apply bind_Ok_inv in H as (c & st1 & [Hcode ->]%ok_or_Ok_inv & H).
  apply bind_Ok_inv in H as (a & st1 & Hcomp%try_with_Ok_inv & H).
  apply email_complete_inv in Hcomp as (r & t & _ & _ & _ & [D _]).
  apply bind_Ok_inv in H as (? & st2 & Hs & H). injection Hs as _ <-. injection H as _ <-.
  rewrite Hauth in Ha. unfold email_auth_of in Ha.
  destruct (RegistrationRow_email_authentication_id row) as [aid|] eqn:Eaid; [|done]. simpl in Ha.
  apply fmap_Some in Ha as (arow & Harow & ->). simpl in *.
  apply fmap_Some in Hcode as ([k crow] & Hf & _). apply find_first_Some in Hf as [Hk Hm].
  unfold is_email_code in Hm. apply andb_true_iff in Hm as [H1 H2].
  apply bool_decide_eq_true in H1, H2. rewrite Ec in Hp. apply is_some_false in Hp, Hpend.
  rewrite negb_involutive in Hok. exists aid, t. split; [|by rewrite D]. split; eauto 10.
Qed.

Lemma require_true {E} c (e : E) (st : St) : c = true → require c e st = (Ok tt, st).
Proof. by intros ->. Qed.
Lemma ok_or_Some {E A} (e : E) (o : option A) a (st : St) : o = Some a → ok_or e o st = (Ok a, st).
Proof. by intros ->. Qed.

Lemma email_complete_run auth code st r :
  db_email_authentications (st_db st) !! UserEmailAuthentication_id auth = Some r →
  EmailAuthRow_completed_at r = None →
  ∃ a st', user_email_complete_authentication_with_code auth code st = (Ok a, st').
Proof.
  intros Hr Hp. unfold user_email_complete_authentication_with_code.
  erewrite bind_Ok by reflexivity. unfold update_one_where.
  assert (∀ f st1, st_db st1 = st_db st → update_where db_email_authentications
    on_email_authentications no_violation (UserEmailAuthentication_id auth)
    email_authentication_pending f st1 =
    (Ok 1%nat, on_db (on_email_authentications (alter f (UserEmailAuthentication_id auth))) st1)) as Hu.
  { intros f st1 E. unfold update_where, update_by_id, email_authentication_pending.
    by rewrite E, Hr, bool_decide_true. }
  erewrite bind_Ok; [eauto|]. erewrite bind_Ok; [|by apply Hu]. reflexivity.
Qed.

Lemma email_code_run id code st aid :
  email_code_stored id code st aid →
  ∃ p st', verify_registration_email_code id code st = (Ok p, st').
Proof.
  intros [(row & reg & Hrow & Hd & Hp & Haid) (auth & Hauth & Hpend) Hlim (k & c & Hk & E1 & E2)].
  pose proof (registration_decoded _ _ _ Hd) as (_ & _ & _ & _ & Ee & _ & _ & _ & Ec).
  assert (email_auth_of (st_db st) row = Some (UserEmailAuthentication_from aid auth)) as Ha.
  { unfold email_auth_of. rewrite Haid. simpl. by rewrite Hauth. }
  destruct (find_first (is_email_code aid code) (db_email_codes (st_db st))) as [[k' c']|] eqn:Hf.
  2:{ exfalso. rewrite find_first_None in Hf. specialize (Hf _ _ Hk). unfold is_email_code in Hf.
      by rewrite E1, E2, !bool_decide_true in Hf. }
  unfold verify_registration_email_code.
  erewrite bind_Ok; [|apply try_with_Ok; by apply load_progress_run]. cbv zeta.
  erewrite bind_Ok; [|apply require_true; simpl; by rewrite Ec, Hp].
  erewrite bind_Ok; [|apply require_true; simpl; by rewrite Ee, Haid].
  erewrite bind_Ok; [|by apply ok_or_Some].
  erewrite bind_Ok; [|apply require_true; simpl; by rewrite Hpend].
  erewrite bind_Ok; [|apply is_limited_run].
  erewrite bind_Ok; [|apply require_true; by rewrite negb_involutive].
  erewrite bind_Ok; [|apply try_with_Ok; unfold user_email_find_authentication_code;
    erewrite bind_Ok by reflexivity; reflexivity].
  erewrite bind_Ok; [|apply ok_or_Some; simpl; by rewrite Hf].
  edestruct email_complete_run as (a & st1 & Hrun); [| |erewrite bind_Ok; [eauto|by apply try_with_Ok]].
  - exact Hauth.
  - exact Hpend.
Qed.

(** A code submitted for the email address of a registration is accepted exactly when it is one
    of the codes stored for that address, whenever it was made: that the code has expired is not
    looked at. What is committed is the verification of that address, and nothing else. *)
Theorem email_code_accepted id code st :
  ((∃ next st', submit_registration_email_code id code st = (Ok (Verification_Advanced next), st'))
     ↔ ∃ aid, email_code_stored id code st aid) ∧
  (∀ next st',
     submit_registration_email_code id code st = (Ok (Verification_Advanced next), st') →
     ∃ aid t, email_code_stored id code st aid ∧
       st_committed st' =
         on_email_authentications (alter (EmailAuthRow_set_completed_at t) aid) (st_db st)).
Proof.
  split; [split|].
  - intros (next & st' & [p H]%submit_email_code_inv). apply email_code_inv in H as (aid & _ & H & _).
    eauto.
  - intros [aid (p & st' & H)%email_code_run]. unfold submit_registration_email_code, catch.
    rewrite H. simpl. eauto.
  - intros next st' [p H]%submit_email_code_inv. by apply email_code_inv in H.
Qed.
End requests.

(** ** Over time *)

Section histories.
Context {TX : TokenExternals} {PX : PkceExternals} {UX : UrlExternals}
        {DX : DbExternals} {HX : HandlerExternals} {AX : ClientAuthExternals}
        {CX : ConsentExternals} {ZX : AuthorizationExternals} {LX : LimiterExternals}
        {XX : AccountExternals} {WX : PasswordExternals} {RX : RegistrationExternals}
        {GX : LoginExternals} {VX : UrlPartsExternals} {KX : MetadataExternals}
        {EX : ClientRegistrationExternals}
        {BX : UrlBuildExternals} {NX : NotificationExternals} {YX : WebhookExternals}
        {QX : AdminExternals} {CO : CollationExternals}.

(** Completing a registration does not change how the rest of it is read. *)
Lemma decode_completed id row reg t :
  UserRegistration_try_from id row = Ok reg →
  ∃ reg', UserRegistration_try_from id (RegistrationRow_set_completed_at t row) = Ok reg' ∧
    UserRegistration_completed_at reg' = Some t.
Proof.
  unfold UserRegistration_try_from.
  change (Registration_decode_password id (RegistrationRow_set_completed_at t row))
    with (Registration_decode_password id row).
  change (Registration_decode_terms id (RegistrationRow_set_completed_at t row))
    with (Registration_decode_terms id row).
  destruct (Registration_decode_password id row); [|done]; simpl.
  destruct (Registration_decode_terms id row); [|done]; simpl. eauto.
Qed.

(** A completed registration is refused before anything else is looked at. *)
Lemma finish_completed_run hs id bsp required configured requested ua st row reg t :
  db_registrations (st_db st) !! id = Some row → UserRegistration_try_from id row = Ok reg →
  UserRegistration_completed_at reg = Some t →
  finish_registration hs id bsp required configured requested ua st =
    (Ok (Finish_Rejected "registration_already_completed"), st).
Proof.
  intros Hrow Hd Hc. unfold finish_registration, or_return, load_registration_finish_preparation.
  erewrite bind_Ok; [|apply try_with_Ok; by apply load_progress_run]. cbv zeta.
  assert (∀ m, (require (negb (is_some (UserRegistration_completed_at reg)))
            (Preparation_AlreadyCompleted reg) ≫= m
            : M St LoadRegistrationFinishPreparationError PreparedRegistrationCompletion) st =
          (Err (Preparation_AlreadyCompleted reg), st)) as -> by (intros m; by rewrite Hc).
  done.
Qed.

(** The row of a registration that was finished, in the database that was committed. *)
Lemma finish_row hs id bsp required configured requested ua st c st' :
  finish_registration hs id bsp required configured requested ua st = (Ok (Finish_Completed c), st') →
  ∃ row reg t, db_registrations (st_committed st') !! id = Some row ∧
    UserRegistration_try_from id row = Ok reg ∧ RegistrationRow_completed_at row = Some t ∧
    UserRegistration_completed_at reg = Some t.
Proof.
  intros (row & prepared & admin & Hm & _ & Hf & _)%finish_registration_inv.
  destruct (fin_registration _ _ _ _ _ _ _ Hf) as [t Er].
  destruct (decode_completed _ _ _ t (mf_decoded _ _ _ _ _ _ _ Hm)) as (reg' & Hd & Hc).
  exists (RegistrationRow_set_completed_at t row), reg', t.
  rewrite Er, lookup_alter_eq, (mf_row _ _ _ _ _ _ _ Hm). done.
Qed.

(** C22. A registration is finished once: after it was, whatever else the server did in between,
    finishing it again is refused, with whichever tokens, and commits nothing. *)
Theorem registration_finished_once hs id bsp required configured requested ua st c st1
    hs' bsp' required' configured' requested' ua' st2 :
  begins st → wf (st_committed st) →
  finish_registration hs id bsp required configured requested ua st = (Ok (Finish_Completed c), st1) →
  history (st_committed st1) (st_committed st2) → begins st2 →
  finish_registration hs' id bsp' required' configured' requested' ua' st2 =
    (Ok (Finish_Rejected "registration_already_completed"), st2).
Proof.
  intros Hb Hw Hf Hh Hb2.
  pose proof (finish_good hs id bsp required configured requested ua st Hb Hw) as [Hw1 _].
  rewrite Hf in Hw1. apply finish_row in Hf as (row & reg & t & Hrow & Hd & Ht & Hc).
  destruct (history_good _ _ Hw1 Hh) as [_ He].
  destruct (ev_registrations _ _ He _ _ Hrow) as (row' & Hrow' & _ & _ & _ & Hfr).
  rewrite Hfr in Hrow' by (by rewrite Ht). rewrite <-Hb2 in Hrow'. by eapply finish_completed_run.
Qed.

(** Bootstrapping appoints one administrator: a request that finds none makes at most one, and
    one that finds some changes them only where an active one is among them, and leaves an active
    one. *)
Theorem one_administrator_is_appointed db db' :
  wf db → served db db' →
  (no_admin db → ∀ k1 k2, admin_in (db_users db') k1 → admin_in (db_users db') k2 → k1 = k2) ∧
  (¬ no_admin db →
     (∀ k, admin_in (db_users db') k ↔ admin_in (db_users db) k) ∨
     (∃ k, active_in (db_users db) k) ∧ ∃ k, active_in (db_users db') k).
Proof.
  intros Hw Hs. destruct (served_good _ _ Hw Hs) as [_ He].
  rewrite no_admin_iff. destruct (ev_admins _ _ He) as [[E|[Hn [k0 E]]]|[[k Hk] Ha]]; split.
  - intros Hn k1 k2 Ha. by destruct (Hn k1); apply E.
  - intros _. left. intros k. apply E.
  - intros _ k1 k2 H1%E H2%E. congruence.
  - by intros [].
  - intros Hn. destruct (Hn k). by apply active_is_admin.
  - intros _. right. eauto.
Qed.

(** C40. Where registration tokens are required, nobody can register: no request gives a
    registration its token, so that over any history of a database in which no registration has one,
    no registration is ever finished. *)
Theorem required_token_blocks_registration db hs id bsp configured requested ua st c st' :
  wf db → (∀ k row, db_registrations db !! k = Some row →
             RegistrationRow_user_registration_token_id row = None) →
  history db (st_committed st) → begins st →
  finish_registration hs id bsp true configured requested ua st ≠ (Ok (Finish_Completed c), st').
Proof.
  intros Hw Hn Hh Hb (row & prepared & admin & Hm & _)%finish_registration_inv.
  destruct (mf_token _ _ _ _ _ _ _ Hm) as (tok & tid & trow & t & _ & Ht & _).
  pose proof (mf_row _ _ _ _ _ _ _ Hm) as Hrow. rewrite Hb in Hrow.
  destruct (history_good _ _ Hw Hh) as [_ He].
  destruct (ev_tokens _ _ He _ _ _ Hrow Ht) as (row0 & Hrow0 & Ht0). rewrite (Hn _ _ Hrow0) in Ht0.
  done.
Qed.
End histories.

(** ** How often a code is sent again *)

(** The life of a limiter: the checks of the gap between two messages, in their order, with
    anything else the limiter is asked in between; the list has the registrations that were let
    through, with the times. *)
Inductive resends : Limiter → list (Ulid * Z) → Limiter → Prop :=
| resends_nil l : resends l [] l
| resends_other l l1 l2 n sends :
    registration_email_resends l1 = registration_email_resends l →
    (∀ i, limiter_instants l1 i = limiter_instants l (n + i)%nat) →
    resends l1 sends l2 → resends l sends l2
| resends_check l l1 l2 id (allowed : bool) sends :
    check_registration_email_resend_cooldown (E:=Empty_set) id l = (Ok allowed, l1) →
    resends l1 sends l2 →
    resends l ((if allowed then [(id, limiter_instants l 0%nat)] else []) ++ sends) l2.

(** Time does not run backwards. *)
Definition monotonic (l : Limiter) : Prop :=
  ∀ i j, (i ≤ j)%nat → limiter_instants l i ≤ limiter_instants l j.

Section gap.
Context (id : Ulid).

(** The last message of the registration was sent at [t], and is remembered as long as it counts. *)
Definition remembered (t : Z) (l : Limiter) : Prop :=
  registration_email_resends l !! id = Some t ∨ RESEND_GAP ≤ limiter_instants l 0%nat - t.

Lemma check_run id' l allowed l1 :
  check_registration_email_resend_cooldown (E:=Empty_set) id' l = (Ok allowed, l1) →
  let now := limiter_instants l 0%nat in
  let sends := filter (λ '(_, last), now - last < RESEND_GAP) (registration_email_resends l) in
  (∀ i, limiter_instants l1 i = limiter_instants l (S i)) ∧
  registration_email_resends l1 = (if allowed then <[id' := now]> sends else sends) ∧
  (allowed = false ↔ is_Some (sends !! id')).
Proof.
  unfold check_registration_email_resend_cooldown. intros H.
  erewrite bind_Ok in H by reflexivity. unfold with_limiter in H. simpl in *.
  destruct (filter _ _ !! id') as [x|] eqn:Hs; injection H as <- <-; simpl; split_and!; try done;
    split; first [done|by intros []].
Qed.

Lemma monotonic_later l l1 n :
  (∀ i, limiter_instants l1 i = limiter_instants l (n + i)%nat) → monotonic l → monotonic l1.
Proof. intros E Hm i j Hij. rewrite !E. apply Hm. lia. Qed.

(** While it is remembered, the next message is sent after the gap. *)
Lemma remembered_gap l sends l' t :
  resends l sends l' → monotonic l → remembered t l →
  ∀ i u, sends !! i = Some (id, u) → RESEND_GAP ≤ u - t.
Proof.
  induction 1 as [l|l l1 l2 n sends Er Ei _ IH|l l1 l2 id' allowed sends Hc _ IH];
    intros Hm Hr i u Hi.
  - done.
  - eapply IH; [by eapply monotonic_later| |exact Hi]. destruct Hr as [Hr|Hr].
    + left. by rewrite Er.
    + right. rewrite Ei. specialize (Hm 0%nat (n + 0)%nat). lia.
  - apply check_run in Hc as (Ei & Er & Ha). pose proof (Hm 0%nat 1%nat ltac:(lia)) as H01.
    specialize (IH (monotonic_later l l1 1 Ei Hm)).
    assert (allowed = true → id' = id → RESEND_GAP ≤ limiter_instants l 0%nat - t) as Hgap.
    { intros -> ->. destruct Hr as [Hr|Hr]; [|done].
      destruct (decide (limiter_instants l 0%nat - t < RESEND_GAP)) as [Hlt|]; [|lia].
      destruct Ha as [_ Ha]. discriminate Ha. exists t. by apply map_lookup_filter_Some. }
    assert (remembered t l1) as Hr1.
    { destruct (decide (limiter_instants l 0%nat - t < RESEND_GAP)) as [Hlt|];
        [|right; rewrite Ei; lia].
      destruct Hr as [Hr|Hr]; [|lia]. left. rewrite Er.
      assert (filter (λ '(_, last), limiter_instants l 0%nat - last < RESEND_GAP)
                (registration_email_resends l) !! id = Some t) as Hf.
      { by apply map_lookup_filter_Some. }
      destruct allowed; [|done]. destruct (decide (id' = id)) as [->|]; [|by rewrite lookup_insert_ne].
      specialize (Hgap eq_refl eq_refl). lia. }
    destruct allowed; simpl in Hi; [|by eapply IH]. destruct i as [|i]; simpl in Hi; [|by eapply IH].
    injection Hi as -> <-. by apply Hgap.
Qed.
End gap.

(** Over the whole life of a limiter, two messages it lets through for one registration are
    sixty seconds apart, whatever else it is asked in between. *)
Theorem resends_are_a_minute_apart l sends l' :
  monotonic l → resends l sends l' →
  ∀ i j id t u, (i < j)%nat → sends !! i = Some (id, t) → sends !! j = Some (id, u) →
  60000000 ≤ u - t.
Proof.
  intros Hm Hs. induction Hs as [l|l l1 l2 n sends Er Ei _ IH|l l1 l2 id' allowed sends Hc Hs IH];
    intros i j id t u Hij Hi Hj.
  - done.
  - by eapply (IH (monotonic_later l l1 n Ei Hm)).
  - apply check_run in Hc as (Ei & Er & _). pose proof (monotonic_later l l1 1 Ei Hm) as Hm1.
    destruct allowed; simpl in Hi, Hj; [|by eapply IH].
    destruct j as [|j]; [lia|]. destruct i as [|i]; simpl in Hi, Hj;
      [|eapply (IH Hm1 i j); [lia|done..]].
    injection Hi as -> <-.
    apply (remembered_gap id _ _ _ _ Hs Hm1) with (i := j) (u := u); [|done]. left.
    rewrite Er. apply lookup_insert_eq.
Qed.

(** ** The theorems evaluated on a concrete world *)

#[local] Existing Instances World.TX World.PX World.UX World.DX World.HX World.AX World.LX World.XX World.WX World.WX_ok World.RX World.GX World.VX World.BX World.NX World.YX World.QX World.CO World.MX World.CX consent_world authorization_world.

(** Bob registered ten minutes ago, with an address he has verified since. *)
Definition bob_registration : UserRegistrationRow :=
  {| RegistrationRow_ip_address := None;
     RegistrationRow_user_agent := None;
     RegistrationRow_post_auth_action := None;
     RegistrationRow_username := "bob";
     RegistrationRow_display_name := Some "Bob";
     RegistrationRow_avatar_url := None;
     RegistrationRow_terms_url := None;
     RegistrationRow_email_authentication_id := Some 9100;
     RegistrationRow_phone_authentication_id := None;
     RegistrationRow_user_registration_token_id := None;
     RegistrationRow_hashed_password := Some "bcrypt:secret";
     RegistrationRow_hashed_password_version := Some 1;
     RegistrationRow_upstream_oauth_authorization_session_id := None;
     RegistrationRow_created_at := World.NOW - 600000000;
     RegistrationRow_completed_at := None |}.
Definition bob_email : UserEmailAuthenticationRow :=
  {| EmailAuthRow_user_session_id := None;
     EmailAuthRow_user_registration_id := Some 9000;
     EmailAuthRow_email := "bob@example.org";
     EmailAuthRow_created_at := World.NOW - 600000000;
     EmailAuthRow_completed_at := Some (World.NOW - 500000000) |}.
Definition registering_db : DB :=
  on_email_authentications <[9100 := bob_email]>
    (on_registrations <[9000 := bob_registration]> World.db).
Definition registering : St := World.at_db registering_db.

Lemma registering_wf : wf registering_db.
Proof. apply wf_b_sound. vm_compute. reflexivity. Qed.

Definition open_homeserver : Homeserver := λ _, Ok true.

Definition is_completed (r : result RegistrationFinishOutcome RegistrationFinishError) : bool :=
  match r with Ok (Finish_Completed _) => true | _ => false end.

(** Bob finishes. *)
Lemma bob_finishes :
  ∃ c st', finish_registration open_homeserver 9000 None false (Some "root") None (Some "browser")
    registering = (Ok (Finish_Completed c), st').
Proof.
  destruct (finish_registration open_homeserver 9000 None false (Some "root") None (Some "browser")
    registering) as [r st'] eqn:E.
  assert (is_completed r = true) as Hr.
  { change r with (r, st').1. rewrite <-E. vm_compute. reflexivity. }
  destruct r as [[c|]|]; [|done..]. eauto.
Qed.

Lemma registration_finished_witness :
  ∃ c st' row prepared admin,
    finish_registration open_homeserver 9000 None false (Some "root") None (Some "browser")
      registering = (Ok (Finish_Completed c), st') ∧
    may_finish open_homeserver false registering_db World.NOW 9000 row prepared ∧
    finished registering_db (st_committed st') 9000 prepared admin (Some "browser")
      (completed_user_session c).
Proof.
  destruct bob_finishes as (c & st' & E). exists c, st'.
  destruct (registration_finished _ _ _ _ _ _ _ _ _ _ E) as (row & prepared & admin & Hm & _ & Hf & _).
  exists row, prepared, admin. split_and!; [exact E|exact Hm|exact Hf].
Defined.

Lemma finished_only_when_ready_witness :
  ∃ p, load_registration_progress 9000 registering = (Ok p, registering) ∧
       workflow_state p = ReadyToFinish.
Proof.
  destruct bob_finishes as (c & st' & E).
  destruct (finished_only_when_ready _ _ _ _ _ _ _ _ _ _ E) as (p & Hp & Hw & _).
  exists p. split; [exact Hp|exact Hw].
Defined.

(** Without a display name, Bob is refused. *)
Definition nameless : St :=
  World.at_db (on_registrations (alter (λ r, new_registration_row (RegistrationRow_username r) None
    None None (RegistrationRow_created_at r)) 9000) registering_db).

Lemma unfinished_registration_commits_nothing_witness :
  st_committed (finish_registration open_homeserver 9000 None false None None None nameless).2 =
  st_committed nameless.
Proof.
  destruct (finish_registration open_homeserver 9000 None false None None None nameless)
    as [r st'] eqn:E.
  assert (is_completed r = false) as Hr.
  { change r with (r, st').1. rewrite <-E. vm_compute. reflexivity. }
  refine (unfinished_registration_commits_nothing _ _ _ _ _ _ _ _ _ _ E _).
  intros c ->. discriminate Hr.
Defined.

Lemma registration_finished_once_witness :
  ∃ c st1, finish_registration open_homeserver 9000 None false (Some "root") None (Some "browser")
      registering = (Ok (Finish_Completed c), st1) ∧
    finish_registration open_homeserver 9000 None false None None None
      (World.at_db (st_committed st1)) =
      (Ok (Finish_Rejected "registration_already_completed"), World.at_db (st_committed st1)).
Proof.
  destruct bob_finishes as (c & st1 & E). exists c, st1. split; [exact E|].
  refine (registration_finished_once _ _ _ _ _ _ _ registering c st1 _ _ _ _ _ _ _ _ _ E _ _);
    [reflexivity|exact registering_wf|apply rtc_refl|reflexivity].
Defined.

(** Nobody is an administrator yet; Bob finishes with the token of the configuration. *)
Definition first_db : DB := on_users (λ _, ∅) (on_sessions (λ _, ∅) (on_access_tokens (λ _, ∅)
  (on_refresh_tokens (λ _, ∅) (on_grants (λ _, ∅) registering_db)))).
Definition bob_bootstraps : AccountRequest :=
  Account_Finish open_homeserver 9000 None false (Some "root") (Some " root ") None.

Lemma first_wf : wf first_db.
Proof. apply wf_b_sound. vm_compute. reflexivity. Qed.

Lemma one_administrator_is_appointed_witness :
  ∃ db', served first_db db' ∧ no_admin first_db ∧
    (∃ k, admin_in (db_users db') k) ∧
    ∀ k1 k2, admin_in (db_users db') k1 → admin_in (db_users db') k2 → k1 = k2.
Proof.
  set (db' := st_committed (serve (Req_Account bob_bootstraps) (World.at_db first_db))).
  assert (served first_db db') as Hh.
  { exact (served_intro (Req_Account bob_bootstraps) (World.at_db first_db) eq_refl). }
  assert (no_admin first_db) as Hn by (intros k r Hk; exfalso; exact (lookup_empty_Some k r Hk)).
  exists db'. split; [exact Hh|]. split; [exact Hn|]. split.
  - assert (bool_decide (map_Exists (λ _ r, UserRow_can_request_admin r = true) (db_users db')) = true)
      as He by (vm_compute; reflexivity).
    apply bool_decide_eq_true in He. destruct He as (k & r & Hk & Hr).
    exists k, r. split; [exact Hk|exact Hr].
  - exact (proj1 (one_administrator_is_appointed _ _ first_wf Hh) Hn).
Defined.

Lemma required_token_blocks_registration_witness :
  is_completed (finish_registration open_homeserver 9000 None true None None None registering).1 = false.
Proof.
  destruct (finish_registration open_homeserver 9000 None true None None None registering)
    as [[[c|]|] st'] eqn:E; [exfalso|reflexivity..].
  revert E.
  refine (required_token_blocks_registration registering_db _ _ _ _ _ _ _ c st' registering_wf _ _ _);
    [|apply rtc_refl|reflexivity].
  intros k row Hk. apply (map_Forall_lookup_1 (λ _ row,
    RegistrationRow_user_registration_token_id row = None) _ _ _) in Hk; [exact Hk|].
  apply (bool_decide_eq_true_1 _). vm_compute. reflexivity.
Defined.

Lemma resends_check_at l l2 id (allowed : bool) sends sends' :
  (check_registration_email_resend_cooldown (E:=Empty_set) id l).1 = Ok allowed →
  sends' = (if allowed then [(id, limiter_instants l 0%nat)] else []) ++ sends →
  resends (check_registration_email_resend_cooldown (E:=Empty_set) id l).2 sends l2 →
  resends l sends' l2.
Proof.
  intros H1 -> H2. destruct (check_registration_email_resend_cooldown id l) as [r l1] eqn:E.
  simpl in *. subst. by eapply resends_check.
Qed.

(** A message, a refusal a second later, and another message after a minute. *)
Lemma two_resends : ∃ l', resends World.limiter [(9000, 0); (9000, 61000000)] l'.
Proof.
  eexists. apply (resends_check_at _ _ 9000 true [(9000, 61000000)]); [vm_compute; reflexivity..|].
  apply (resends_check_at _ _ 9000 false [(9000, 61000000)]); [vm_compute; reflexivity..|].
  match goal with
  | |- resends ?l _ _ =>
      eapply (resends_other l (set_limiter_instants (λ i, limiter_instants l (59 + i)) l) _ 59)
  end; [reflexivity|reflexivity|].
  eapply (resends_check_at _ _ 9000 true []); [vm_compute; reflexivity..|]. apply resends_nil.
Qed.

Lemma resends_are_a_minute_apart_witness : 60000000 ≤ 61000000 - 0.
Proof.
  assert (monotonic World.limiter) as Hm by (intros i j Hij; simpl; nia).
  destruct two_resends as [l' Hl].
  refine (resends_are_a_minute_apart _ _ _ Hm Hl 0 1 9000 0 61000000 _ _ _);
    [lia|reflexivity|reflexivity].
Defined.

(** A password hashed with the first scheme, under a manager that has moved to the second. *)
Definition first_scheme : InnerPasswordManager :=
  {| minimum_complexity := 0;
     current_hasher := {| hasher_algorithm := Bcrypt None; hasher_nfkc_normalize := false;
                          hasher_pepper := None |};
     current_version := 1;
     other_hashers := ∅ |}.
Definition second_scheme : InnerPasswordManager :=
  {| minimum_complexity := 3;
     current_hasher := {| hasher_algorithm := Argon2id; hasher_nfkc_normalize := true;
                          hasher_pepper := Some "pepper" |};
     current_version := 2;
     other_hashers := {[ 1 := current_hasher first_scheme ]} |}.

Lemma password_survives_scheme_change_witness :
  ∃ h', (verify_and_upgrade (Some second_scheme) 1 "hunter2" "bcrypt:hunter2" (λ n, Z.of_nat n)).1 =
        Ok (Password_Matched (Some (2, h'))).
Proof.
  destruct (PasswordManager_hash (Some first_scheme) "hunter2" (λ n, Z.of_nat n)) as [r rng1] eqn:E.
  assert (r = Ok (1, "bcrypt:hunter2")) as ->.
  { change r with (r, rng1).1. rewrite <-E. vm_compute. reflexivity. }
  destruct (password_survives_scheme_change first_scheme second_scheme "hunter2" "bcrypt:hunter2"
    (λ n, Z.of_nat n) _ (λ n, Z.of_nat n) 1 E eq_refl) as [_ H].
  clear E.
  destruct H as [(h' & E & _)|(e & E & _)]; [discriminate| |discriminate E].
  exists h'. exact E.
Defined.
