(* ===== verification/LoginProofs.v ===== *)
(** Login, passwords, recovery and contacts: what a login requires and makes, that
    a changed password decides the logins that follow, that a recovery sets one
    password, and how an address comes to a user. *)
From S2P Require Import Prelude Ids RateLimit Passwords TokenFormat Scope Pkce Jose Keystore Domain Accounts Database Repository Notification Messaging ProviderMetadata AccountRepository Pagination AdminRepository AdminApi Profile Admin AdminIntegrity Notifications EmailWebhook Handlers ClientAuth ClientMetadata ClientRegistration TokenService Registration Login World RepositorySpec AccountSpec RegistrationSpec Introspection Revocation Consent Authorization ConsentProofs AuthorizationProofs Integrity UserJobs AccountServer AccountIntegrity Server ServerProofs RegistrationProofs.

Open Scope Z_scope.

Section requests.
Context {UX : UrlExternals} {DX : DbExternals} {LX : LimiterExternals} {XX : AccountExternals}
        {WX : PasswordExternals} {RX : RegistrationExternals} {GX : LoginExternals}.

(** ** What the programs read *)

(** The user of a row of the database. *)
Definition user_in (db : DB) (user : User) : Prop :=
  ∃ row, db_users db !! User_id user = Some row ∧ user = User_build (User_id user) row.

(** A name stands for a user by its username, or by an address that no other row has. *)
Definition named (db : DB) (cfg : LoginConfig) (name : string) (user : User) : Prop :=
  user_in db user ∧
  ((∃ row, db_users db !! User_id user = Some row ∧ same_username name row = true) ∨
   (login_with_email_allowed cfg = true ∧ ∃ k e, db_emails db !! k = Some e ∧
      same_email name e = true ∧ EmailRow_user_id e = User_id user ∧
      ∀ k' e', db_emails db !! k' = Some e' → same_email name e' = true → k' = k)).

Lemma user_lookup_in id st o st' :
  user_lookup id st = (Ok o, st') →
  st' = st ∧ ∀ user, o = Some user → User_id user = id ∧ user_in (st_db st) user.
Proof.
  intros [-> ->]%user_lookup_inv. split; [done|].
  intros user (row & Hrow & ->)%fmap_Some. split; [done|]. by exists row.
Qed.

Lemma selected {R} (P : R → bool) (m : gmap Z R) k r :
  (k, r) ∈ filter (λ kr, P kr.2 = true) (map_to_list m) ↔ m !! k = Some r ∧ P r = true.
Proof. rewrite list_elem_of_filter, elem_of_map_to_list. naive_solver. Qed.

Lemma find_by_username_inv name st o st' :
  user_find_by_username name st = (Ok o, st') →
  st' = st ∧ ∀ user, o = Some user → ∃ row, db_users (st_db st) !! User_id user = Some row ∧
    same_username name row = true ∧ user = User_build (User_id user) row.
Proof.
  unfold user_find_by_username. intros H. apply bind_Ok_inv in H as (rows & st1 & Hs & H).
  injection Hs as Hs <-. injection H as <- <-. split; [done|].
  assert (∀ k row, (k, row) ∈ rows →
    db_users (st_db st) !! k = Some row ∧ same_username name row = true) as Hrows
    by (intros k row; rewrite <-Hs; apply selected).
  intros user. destruct rows as [|[k row] [|y l]]; [done| |].
  - intros [= <-]. destruct (Hrows k row) as [Hk Hn]; [set_solver|]. simpl. eauto.
  - intros ([k' row'] & Hh%head_Some_elem_of & ->)%fmap_Some.
    apply list_elem_of_filter in Hh as [_ Hh]. destruct (Hrows k' row') as [Hk Hn]; [done|].
    simpl. eauto.
Qed.

Lemma find_by_email_inv email st o st' :
  user_email_find_by_email email st = (Ok o, st') →
  st' = st ∧ ∀ e, o = Some e → ∃ row, db_emails (st_db st) !! UserEmail_id e = Some row ∧
    same_email email row = true ∧ UserEmail_user_id e = EmailRow_user_id row ∧
    ∀ k' e', db_emails (st_db st) !! k' = Some e' → same_email email e' = true → k' = UserEmail_id e.
Proof.
  unfold user_email_find_by_email. intros H. apply bind_Ok_inv in H as (rows & st1 & Hs & H).
  injection Hs as Hs <-. injection H as <- <-. split; [done|].
  intros e. destruct rows as [|[k row] [|]]; [done| |done]. intros [= <-]. simpl.
  assert (∀ k' e', db_emails (st_db st) !! k' = Some e' ∧ same_email email e' = true ↔
                   (k', e') = (k, row)) as Hrows
    by (intros; rewrite <-selected, Hs; apply list_elem_of_singleton).
  destruct (proj2 (Hrows k row) eq_refl) as [Hk He]. exists row. split_and!; [done..|].
  intros k' e' Hk' He'. by pose proof (proj1 (Hrows k' e') (conj Hk' He')) as [= -> ->].
Qed.

Lemma find_user_inv cfg name st o st' :
  find_user_by_email_or_by_username cfg name st = (Ok o, st') →
  st' = st ∧ ∀ user, o = Some user → named (st_db st) cfg name user.
Proof.
  unfold find_user_by_email_or_by_username. intros H.
  apply bind_Ok_inv in H as (by_email & st1 & H1 & H2).
  assert (st1 = st ∧ ∀ user, by_email = Some user → named (st_db st) cfg name user) as [-> He].
  { destruct (login_with_email_allowed cfg && contains_at name) eqn:Ha; [|by injection H1 as <- <-].
    apply andb_true_iff in Ha as [Ha _]. apply bind_Ok_inv in H1 as (me & st2 & Hf & H1).
    apply find_by_email_inv in Hf as [-> Hf]. destruct me as [e|]; [|by injection H1 as <- <-].
    apply user_lookup_in in H1 as [-> Hu]. split; [done|]. intros user ->.
    destruct (Hf _ eq_refl) as (row & Hk & Hs & Eu & Hun). destruct (Hu _ eq_refl) as [Ei Hin].
    split; [done|]. right. split; [done|]. exists (UserEmail_id e), row.
    split_and!; [done|done|congruence|done]. }
  destruct by_email as [user|]; [injection H2 as <- <-; by split|].
  apply find_by_username_inv in H2 as [-> Hn]. split; [done|]. intros user Eo.
  destruct (Hn _ Eo) as (row & Hrow & Hs & E). split; [by exists row|]. left. eauto.
Qed.

(** ** Logging in *)

(** The credentials of a request are those of a user who may log in. *)
Record may_login (manager : PasswordManager) (cfg : LoginConfig) (request : PasswordLoginRequest)
    (db : DB) (user : User) (p : Password) : Prop := {
  ml_enabled : password_login_enabled cfg = true;
  ml_named : named db cfg (default (login_username_or_email request)
               (localpart_of (login_username_or_email request))) user;
  ml_valid : User_locked_at user = None ∧ User_deactivated_at user = None;
  ml_password : active_password db (User_id user) p;
  ml_verified : PasswordManager_verify manager (Password_version p) (login_password request)
                  (Password_hashed_password p) = Ok (Password_Matched tt);
}.

(** The password row the session is authenticated with: the one that was there, or one made of
    the same password with the current scheme. *)
Inductive password_kept (manager : PasswordManager) (pw : string) (user : User) (p : Password) (db : DB)
    : Ulid → (gmap Z UserPasswordRow → gmap Z UserPasswordRow) → Prop :=
| kept_as_is inner :
    manager = Some inner → Password_version p = current_version inner →
    password_kept manager pw user p db (Password_id p) id
| kept_upgraded inner k row :
    manager = Some inner → Password_version p ≠ current_version inner →
    db_passwords db !! k = None → PasswordRow_user_id row = User_id user →
    PasswordRow_version row = current_version inner →
    PasswordRow_upgraded_from_id row = Some (Password_id p) →
    PasswordManager_verify manager (current_version inner) pw (PasswordRow_hashed_password row)
      = Ok (Password_Matched tt) →
    password_kept manager pw user p db k <[k := row]>.

(** A session of the user, authenticated by the password, and nothing else. *)
Definition logged_in (manager : PasswordManager) (request : PasswordLoginRequest) (db db' : DB)
    (user : User) (p : Password) (session : BrowserSession) : Prop :=
  ∃ k f aid arow t,
    password_kept manager (login_password request) user p db k f ∧
    db_user_sessions db !! BrowserSession_id session = None ∧
    db_authentications db !! aid = None ∧
    AuthenticationRow_user_session_id arow = BrowserSession_id session ∧
    AuthenticationRow_user_password_id arow = Some k ∧
    db' = on_authentications <[aid := arow]>
            (on_user_sessions <[BrowserSession_id session :=
               new_user_session_row (User_id user) t (login_user_agent request)]>
               (on_passwords f db)).

Lemma verify_and_upgrade_inv manager v pw h rng up :
  (verify_and_upgrade manager v pw h rng).1 = Ok (Password_Matched up) →
  ∃ inner, manager = Some inner ∧ PasswordManager_verify manager v pw h = Ok (Password_Matched tt) ∧
    match up with
    | None => v = current_version inner
    | Some (v', h') => v ≠ current_version inner ∧ v' = current_version inner ∧
        ∃ rng', PasswordManager_hash manager pw rng = (Ok (v', h'), rng')
    end.
Proof.
  unfold verify_and_upgrade. destruct manager as [inner|]; [|done].
  change (get_inner (Some inner)) with (@Ok _ AnyhowError inner). cbv beta iota.
  assert (∀ r : result (option (Z * string)) AnyhowError,
    result_bind (PasswordManager_verify (Some inner) v pw h)
      (λ outcome, result_bind r (λ n, Ok (map_data outcome n))) = Ok (Password_Matched up) →
    r = Ok up ∧ PasswordManager_verify (Some inner) v pw h = Ok (Password_Matched tt)) as Hr.
  { intros r. destruct (PasswordManager_verify _ _ _ _) as [[[]|]|]; destruct r; naive_solver. }
  case_bool_decide as Hc.
  - intros [[= <-] Hv]%Hr. eauto.
  - destruct (PasswordManager_hash (Some inner) pw rng) as [[[v' h']|e] rng'] eqn:Hh;
      intros H; [apply (Hr (Ok (Some (v', h')))) in H|apply (Hr (Err e)) in H];
      destruct H as [[=] Hv]. subst up.
    apply hash_inv in Hh as Hi. destruct Hi as (i & l & [= <-] & -> & _). eauto 10.
Qed.

Lemma verify_current inner pw h rng :
  verify_and_upgrade (Some inner) (current_version inner) pw h rng =
    (result_bind (PasswordManager_verify (Some inner) (current_version inner) pw h)
       (λ outcome, Ok (map_data outcome None)), rng).
Proof.
  unfold verify_and_upgrade. change (get_inner (Some inner)) with (@Ok _ AnyhowError inner).
  cbv beta iota. by rewrite bool_decide_true.
Qed.

Lemma of_result_inv {A E} (r : result A E) (st : St) a st' :
  of_result r st = (Ok a, st') → r = Ok a ∧ st' = st.
Proof. destruct r; by intros [= <- <-]. Qed.

Lemma verify_login_inv {WXok : PasswordExternalsOk WX} manager cfg request st user p' st' :
  verify_password_login manager cfg request st = (Ok (Verified_Authenticated user p'), st') →
  ∃ p f, may_login manager cfg request (st_db st) user p ∧
    password_kept manager (login_password request) user p (st_db st) (Password_id p') f ∧
    ran st st' (on_passwords f).
Proof.
  unfold verify_password_login. destruct (password_login_enabled cfg) eqn:He; [|done].
  simpl negb. cbv iota zeta. intros H.
  apply bind_Ok_inv in H as (o & st1 & Hf%try_with_Ok_inv & H).
  apply find_user_inv in Hf as [-> Hn]. destruct o as [u|]; [|done]. specialize (Hn _ eq_refl).
  apply bind_Ok_inv in H as (lim & st1 & Hl & H).
  assert (same st st1) as S1 
    by (unfold login_limited in Hl; destruct (login_skip_requester_limit request);
        by apply is_limited_inv in Hl).
  destruct lim; [done|].
  apply bind_Ok_inv in H as (op & st2 & Ha%try_with_Ok_inv & H).
  apply user_password_active_inv in Ha as [-> Ha]. destruct op as [p|]; [|done].
  specialize (Ha _ eq_refl). apply bind_Ok_inv in H as (res & st2 & Hr & H).
  apply with_rng_inv in Hr as [Hr S2].
  apply bind_Ok_inv in H as (m & st3 & Hm%try_with_Ok_inv & H).
  apply of_result_inv in Hm as [Hm ->]. rewrite Hm in Hr. destruct m as [up|]; [|done].
  symmetry in Hr. apply verify_and_upgrade_inv in Hr as (inner & -> & Hv & Hup).
  apply bind_Ok_inv in H as (pk & st3 & Hk & H).
  assert (same st st2) as S by (by etrans).
  assert (User_deactivated_at u = None ∧ User_locked_at u = None ∧ u = user ∧ pk = p' ∧ st3 = st')
    as (Hd & Hlk & -> & -> & ->).
  { revert H. repeat case_bool_decide; intros [=]; rewrite <-eq_None_not_Some in *; done. }
  destruct S1 as [D1 _]. rewrite D1 in Ha. exists p.
  destruct up as [[v h]|].
  - destruct Hup as (Hne & -> & rng' & Hh). apply try_with_Ok_inv in Hk.
    apply user_password_add_inv in Hk as (row & Eu & Eh & Ev & Ef & _ & Hnew & R).
    rewrite (proj1 S) in Hnew. exists <[Password_id p' := row]>.
    split_and!; [by split| |exact (same_ran _ _ _ _ S R)]. eapply kept_upgraded; [done..|].
    rewrite Eh. eapply hash_verifies; [done..|]. apply hasher_of_current.
  - injection Hk as -> ->. exists id. split_and!; [by split|by eapply kept_as_is|].
    destruct S as [D C]. split; [|done]. rewrite D. by destruct (st_db st) as [???????????? []].
Qed.

Lemma keeps_limited {E F} (m : M Limiter E ()) : keeps st_committed (is_limited m : M St F bool).
Proof. intros st. by rewrite is_limited_run. Qed.
Lemma keeps_try_into {R A X} (o : St → X) (dec : Ulid → R → result A DatabaseError) res :
  keeps o (try_into dec res).
Proof. unfold try_into. solve_keeps. Qed.
#[local] Hint Resolve keeps_limited keeps_try_into : keeps.

Lemma keeps_committed_verify_login manager cfg request :
  keeps st_committed (verify_password_login manager cfg request).
Proof.
  unfold verify_password_login, find_user_by_email_or_by_username, user_email_find_by_email,
    user_lookup, user_find_by_username, login_limited, user_password_active, user_password_add.
  solve_keeps.
Qed.

(** C23. A login that succeeds was allowed: logins by password are enabled, the name stands for a user
    who is neither locked nor deactivated, and the password is verified by that user's latest one.
    It commits a session of that user under a fresh key, authenticated by that password or by the
    same one hashed with the current scheme, and nothing else. A login with any other outcome,
    refused or failed, commits nothing. *)
Theorem login_correct {WXok : PasswordExternalsOk WX} manager cfg request st r st' :
  login_with_password manager cfg request st = (r, st') →
  match r with
  | Ok (Login_Authenticated user session) =>
      BrowserSession_user session = user ∧ BrowserSession_finished_at session = None ∧
      ∃ p, may_login manager cfg request (st_db st) user p ∧
        logged_in manager request (st_db st) (st_committed st') user p session
  | _ => st_committed st' = st_committed st
  end.
Proof.
  unfold login_with_password. intros H. pose proof (keeps_committed_verify_login manager cfg request) as K.
  destruct r as [out|e].
  - apply bind_Ok_inv in H as (o & st1 & Hv & H). pose proof (keeps_run _ _ _ _ _ K Hv) as C.
    destruct o; try (injection H as <- <-; exact C).
    apply verify_login_inv in Hv as (p & f & Hm & Hk & D1 & _).
    apply bind_Ok_inv in H as (bs & st2 & Hb%try_with_Ok_inv & H).
    apply browser_session_add_inv in Hb as (t & Eu & _ & Ef & Hnb & D2 & _).
    apply bind_Ok_inv in H as (a & st3 & Ha%try_with_Ok_inv & H).
    apply authenticate_with_password_inv in Ha as (aid & arow & Es & Ep & Hna & D3 & _).
    injection H as <- <-. split_and!; [done..|]. exists p. split; [done|].
    rewrite D2, D1 in Hna. rewrite D1 in Hnb. exists (Password_id user_password), f, aid, arow, t.
    split_and!; [done..|]. simpl. by rewrite D3, D2, D1.
  - revert H. apply commits_bind; [done|]. intros []; try (apply commits_keeps; solve [solve_keeps]).
    unfold browser_session_add, browser_session_authenticate_with_password, insert_authentication.
    repeat (apply commits_bind; [solve [solve_keeps]|intros ?]). apply commits_save.
Qed.
(** ** Setting a password *)

(** A new row for the user, made of the password with the current scheme. *)
Record sets_password (manager : PasswordManager) (user_id : Ulid) (pw : string) (now : DateTime)
    (passwords passwords' : gmap Z UserPasswordRow) (inner : InnerPasswordManager) (k : Ulid)
    (row : UserPasswordRow) : Prop := {
  sp_manager : manager = Some inner;
  sp_fresh : passwords !! k = None;
  sp_user : PasswordRow_user_id row = user_id;
  sp_version : PasswordRow_version row = current_version inner;
  sp_created : PasswordRow_created_at row = now;
  sp_verifies : PasswordManager_verify manager (current_version inner) pw
                  (PasswordRow_hashed_password row) = Ok (Password_Matched tt);
  sp_inserted : passwords' = <[k := row]> passwords;
}.

Definition login_decision (res : result (PasswordVerificationResult ()) AnyhowError) (user : User)
    (p : Password) : result PasswordVerificationOutcome PasswordLoginError :=
  match res with
  | Err e => Err (Login_Password e)
  | Ok Password_NotMatched => Ok Verified_InvalidCredentials
  | Ok (Password_Matched _) =>
      Ok (if bool_decide (is_Some (User_deactivated_at user)) then Verified_AccountDeactivated
          else if bool_decide (is_Some (User_locked_at user)) then Verified_AccountLocked
          else Verified_Authenticated user p)
  end.

(** Every login of the user that is not limited is decided by this hash alone. *)
Definition decides_logins (manager : PasswordManager) (user_id : Ulid) (row : UserPasswordRow)
    (db : DB) : Prop :=
  ∀ cfg request user st, st_db st = db → password_login_enabled cfg = true → User_id user = user_id →
    find_user_by_email_or_by_username cfg (default (login_username_or_email request)
      (localpart_of (login_username_or_email request))) st = (Ok (Some user), st) →
    (login_limited request user st).1 = Ok false →
    ∃ p, Password_hashed_password p = PasswordRow_hashed_password row ∧
      (verify_password_login manager cfg request st).1 =
        login_decision (PasswordManager_verify manager (PasswordRow_version row)
          (login_password request) (PasswordRow_hashed_password row)) user p.

Lemma hash_with_fresh_rng_inv manager pw st v h st' :
  hash_with_fresh_rng manager pw st = (Ok (v, h), st') →
  same st st' ∧ st_clock st' = st_clock st ∧
  ∃ rng rng', PasswordManager_hash manager pw rng = (Ok (v, h), rng').
Proof.
  unfold hash_with_fresh_rng. intros H. apply bind_Ok_inv in H as (r & st1 & Hr & H).
  apply of_result_inv in H as [-> ->]. unfold with_rng in Hr.
  destruct (chacha_from_rng (st_rng st)) as [local rng]. simpl in Hr.
  destruct (PasswordManager_hash manager pw local) as [r' rng'] eqn:Hh. injection Hr as Hr <-.
  simpl in Hr. subst r'. split_and!; [done..|eauto].
Qed.

Lemma set_password_inv {WXok : PasswordExternalsOk WX} {E} (f : AnyhowError → E) (g : DatabaseError → E)
    manager user pw st vh st1 p st' :
  try_with f (hash_with_fresh_rng manager pw) st = (Ok vh, st1) →
  try_with g (user_password_add user vh.1 vh.2 None) st1 = (Ok p, st') →
  ∃ inner row, sets_password manager (User_id user) pw (st_clock st 0%nat) (db_passwords (st_db st))
      (<[Password_id p := row]> (db_passwords (st_db st))) inner (Password_id p) row ∧
    ran st st' (on_passwords <[Password_id p := row]>).
Proof.
  destruct vh as [v h]. intros Hh%try_with_Ok_inv Hp%try_with_Ok_inv.
  apply hash_with_fresh_rng_inv in Hh as (S & Ec & rng & rng' & Hh).
  apply user_password_add_inv in Hp as (row & Eu & Eh & Ev & _ & Et & Hn & R).
  pose proof (hash_inv _ _ _ _ _ _ Hh) as (inner & l & Hm & Hv & _). rewrite Ec in Et.
  rewrite (proj1 S) in Hn. exists inner, row. split; [|exact (same_ran _ _ _ _ S R)].
  split; [done|done|done|simpl in Ev; congruence|done| |done]. rewrite Eh. simpl. subst manager v.
  eapply hash_verifies; [done..|]. apply hasher_of_current.
Qed.

(** A row that is later than the others of the user decides. *)
Lemma sets_password_decides manager user_id pw now db db' inner k row :
  sets_password manager user_id pw now (db_passwords db) (db_passwords db') inner k row →
  0 ≤ current_version inner < 2 ^ 16 →
  (∀ k r, db_passwords db !! k = Some r → PasswordRow_user_id r = user_id →
     PasswordRow_created_at r < now) →
  decides_logins manager user_id row db'.
Proof.
  intros [-> Hn Hu Hv Ht _ Hi] Hr Hlate cfg request user st Hdb He Huid Hf Hl.
  destruct (login_limited request user st) as [lim st1] eqn:El. simpl in Hl. subst lim.
  assert (st_db st1 = db') as Hdb1.
  { rewrite <-Hdb. unfold login_limited in El. destruct (login_skip_requester_limit request);
      by apply is_limited_inv in El as [? _]. }
  assert (∃ p, Password_try_from k row = Ok p ∧ Password_version p = PasswordRow_version row ∧
    Password_hashed_password p = PasswordRow_hashed_password row) as (p & Hd & Ev & Eh).
  { unfold Password_try_from, u16_of_i32. rewrite Hv.
    rewrite (proj2 (Z.leb_le 0 _)), (proj2 (Z.ltb_lt _ (2 ^ 16))) by lia. by eexists. }
  exists p. split; [done|]. unfold verify_password_login. rewrite He. change (negb true) with false.
  cbv beta iota zeta. erewrite bind_Ok; [|by apply try_with_Ok]. cbv iota. erewrite bind_Ok; [|exact El].
  cbv iota. erewrite bind_Ok; [|apply try_with_Ok, (user_password_active_run user st1 k row p)].
  - cbv iota. erewrite bind_Ok; [|unfold with_rng; by rewrite Ev, Eh, Hv, verify_current].
    rewrite Hv. cbn [fst]. destruct (PasswordManager_verify _ _ _ _) as [[[]|]|]; reflexivity.
  - by rewrite Hdb1, Hi, lookup_insert_eq.
  - congruence.
  - done.
  - intros k' r Hne. rewrite Hdb1, Hi, lookup_insert_ne by done. intros Hk' Hu'.
    rewrite Ht. apply (Hlate k'); [done|congruence].
Qed.

(** Somebody who is not an administrator gives the password in force, where the configuration allows
    it. *)
Definition may_change (manager : PasswordManager) (user_id : Ulid) (current : option string)
    (is_admin allowed : bool) (db : DB) : Prop :=
  is_admin = true ∨
  allowed = true ∧ ∃ p c, active_password db user_id p ∧ current = Some c ∧
    PasswordManager_verify manager (Password_version p) c (Password_hashed_password p)
      = Ok (Password_Matched tt).

Lemma check_current_password_inv manager user current allowed st u st' :
  check_current_password manager user current allowed st = (Ok u, st') →
  st' = st ∧ may_change manager (User_id user) current false allowed (st_db st).
Proof.
  unfold check_current_password. intros H.
  apply bind_Ok_inv in H as (? & st1 & [Ha ->]%require_inv & H).
  apply bind_Ok_inv in H as (o & st1 & Hp%try_with_Ok_inv & H).
  apply user_password_active_inv in Hp as [-> Hp].
  apply bind_Ok_inv in H as (p & st1 & [-> ->]%ok_or_Ok_inv & H).
  apply bind_Ok_inv in H as (c & st1 & [-> ->]%ok_or_Ok_inv & H).
  apply bind_Ok_inv in H as (res & st1 & Hr%try_with_Ok_inv & H).
  apply of_result_inv in Hr as [Hr ->]. apply require_inv in H as [Hs ->].
  split; [done|]. right. split; [done|]. destruct res as [[]|]; [|done]. eauto 10.
Qed.
Lemma complex_inv manager pw (st : St) b st' :
  of_result (is_password_complex_enough manager pw) st = (Ok b, st') → st' = st ∧
    (b = true → ∃ inner, manager = Some inner ∧ minimum_complexity inner ≤ zxcvbn pw).
Proof.
  intros [H ->]%of_result_inv. split; [done|]. intros ->. unfold is_password_complex_enough in H.
  destruct manager as [inner|]; [|done]. injection H as H%Z.leb_le. eauto.
Qed.

(** C24. A password is changed for a user by an administrator, or by somebody who gives the password in
    force where that is allowed, to one that is not empty and complex enough. One row is committed,
    for that user, which the new password verifies. Where the clock has moved on since the earlier
    passwords were set, that row alone decides the logins that follow: the new password is accepted,
    and another one only if it happens to be verified by the new hash. *)
Theorem password_change_takes_effect {WXok : PasswordExternalsOk WX} manager user_id current pw
    is_admin allowed st u st' :
  change_password manager user_id current pw is_admin allowed st = (Ok u, st') →
  pw ≠ "" ∧ may_change manager user_id current is_admin allowed (st_db st) ∧
  ∃ inner k row,
    minimum_complexity inner ≤ zxcvbn pw ∧
    sets_password manager user_id pw (st_clock st 0%nat) (db_passwords (st_db st))
      (db_passwords (st_committed st')) inner k row ∧
    st_committed st' = on_passwords <[k := row]> (st_db st) ∧
    (0 ≤ current_version inner < 2 ^ 16 →
     (∀ k r, db_passwords (st_db st) !! k = Some r → PasswordRow_user_id r = user_id →
        PasswordRow_created_at r < st_clock st 0%nat) →
     decides_logins manager user_id row (st_committed st')).
Proof.
  unfold change_password. intros H.
  apply bind_Ok_inv in H as (? & st1 & [Hne ->]%require_inv & H).
  apply negb_true_iff, bool_decide_eq_false in Hne.
  apply bind_Ok_inv in H as (? & st1 & [_ ->]%require_inv & H).
  apply bind_Ok_inv in H as (b & st1 & Hc%try_with_Ok_inv & H). apply complex_inv in Hc as [-> Hc].
  apply bind_Ok_inv in H as (? & st1 & [-> ->]%require_inv & H).
  apply bind_Ok_inv in H as (o & st1 & Hu%try_with_Ok_inv & H). apply user_lookup_in in Hu as [-> Hu].
  apply bind_Ok_inv in H as (user & st1 & [-> ->]%ok_or_Ok_inv & H).
  destruct (Hu _ eq_refl) as [<- _]. apply bind_Ok_inv in H as (? & st1 & Hm & H).
  assert (st1 = st ∧ may_change manager (User_id user) current is_admin allowed (st_db st)) as [-> Hmay].
  { destruct is_admin; [injection Hm as _ <-; split; [done|by left]|].
    by apply check_current_password_inv in Hm. }
  apply bind_Ok_inv in H as ([v h] & st1 & Hh & H). apply bind_Ok_inv in H as (p & st2 & Hp & H).
  injection H as _ <-. destruct (Hc eq_refl) as (inner & Em & Hcx).
  destruct (set_password_inv _ _ _ _ _ _ (v, h) _ _ _ Hh Hp) as (inner' & row & Hs & D & C).
  pose proof (sp_manager _ _ _ _ _ _ _ _ _ Hs) as Em'. assert (inner' = inner) as -> by congruence.
  split_and!; [done..|]. exists inner, (Password_id p), row. simpl. rewrite D.
  split_and!; [done|exact Hs|done|]. intros Hr Hlate. by eapply sets_password_decides.
Qed.

(** ** Recovery *)

(** The ticket is there, of a recovery that was not used, in its ten minutes, for an address of a user
    who is neither locked nor deactivated, and the password is complex enough. *)
Record may_recover (manager : PasswordManager) (pw : string) (allowed : bool) (db : DB)
    (now : DateTime) (text : string) (trow : UserRecoveryTicketRow) (user : User) : Prop := {
  mr_allowed : allowed = true;
  mr_complex : ∃ inner, manager = Some inner ∧ minimum_complexity inner ≤ zxcvbn pw;
  mr_ticket : ∃ k, find_first (has_ticket text) (db_recovery_tickets db) = Some (k, trow);
  mr_active : now < RecoveryTicketRow_expires_at trow;
  mr_session : ∃ srow, RecoverySessionRow_consumed_at srow = None ∧
    db_recovery_sessions db !! RecoveryTicketRow_user_recovery_session_id trow = Some srow;
  mr_email : ∃ erow, db_emails db !! RecoveryTicketRow_user_email_id trow = Some erow ∧
    EmailRow_user_id erow = User_id user;
  mr_user : user_in db user ∧ User_is_valid user = true;
}.

Lemma load_ticket_inv text st t s st' :
  load_account_recovery_ticket text st = (Ok (t, s), st') →
  st' = st ∧ ∃ k trow srow,
    find_first (has_ticket text) (db_recovery_tickets (st_db st)) = Some (k, trow) ∧
    t = UserRecoveryTicket_from k trow ∧
    db_recovery_sessions (st_db st) !! RecoveryTicketRow_user_recovery_session_id trow = Some srow ∧
    s = UserRecoverySession_from (RecoveryTicketRow_user_recovery_session_id trow) srow.
Proof.
  unfold load_account_recovery_ticket, user_recovery_find_ticket, user_recovery_lookup_session.
  intros H. apply bind_Ok_inv in H as (o & st1 & Ho%try_with_Ok_inv & H). injection Ho as <- <-.
  apply bind_Ok_inv in H as (t' & st1 & [Ht ->]%ok_or_Ok_inv & H).
  apply bind_Ok_inv in H as (o & st1 & Ho%try_with_Ok_inv & H). injection Ho as <- <-.
  apply bind_Ok_inv in H as (s' & st1 & [Hs ->]%ok_or_Ok_inv & H). injection H as <- <- <-.
  apply fmap_Some in Ht as ([k trow] & Ht & ->). apply fmap_Some in Hs as (srow & Hs & ->).
  split; [done|]. by exists k, trow, srow.
Qed.

Lemma consume_ticket_inv t s st s' st' :
  user_recovery_consume_ticket t s st = (Ok s', st') →
  ∃ now, ran st st' (on_recovery_sessions
    (alter (RecoverySessionRow_set_consumed_at now) (RecoverySession_id s))).
Proof.
  unfold user_recovery_consume_ticket. case_bool_decide; [done|]. intros Hrun. account_inv. same_norm.
  eauto.
Qed.

Lemma complete_recovery_inv {WXok : PasswordExternalsOk WX} manager text pw allowed st u st' :
  complete_account_recovery manager text pw allowed st = (Ok u, st') →
  ∃ trow user now inner k row,
    may_recover manager pw allowed (st_db st) (st_clock st 0%nat) text trow user ∧
    sets_password manager (User_id user) pw (st_clock st 1%nat) (db_passwords (st_db st))
      (db_passwords (st_committed st')) inner k row ∧
    st_committed st' =
      on_recovery_sessions (alter (RecoverySessionRow_set_consumed_at now)
                              (RecoveryTicketRow_user_recovery_session_id trow))
        (on_passwords <[k := row]> (st_db st)).
Proof.
  unfold complete_account_recovery. intros H.
  apply bind_Ok_inv in H as (? & st1 & [Ha ->]%require_inv & H). apply andb_true_iff in Ha as [_ Ha].
  apply bind_Ok_inv in H as (b & st1 & Hc%try_with_Ok_inv & H). apply complex_inv in Hc as [-> Hc].
  apply bind_Ok_inv in H as (? & st1 & [-> ->]%require_inv & H). specialize (Hc eq_refl).
  apply bind_Ok_inv in H as ([t s] & st1 & Hl%try_with_Ok_inv & H).
  apply load_ticket_inv in Hl as (-> & k & trow & srow & Ht & -> & Hs & ->).
  apply bind_Ok_inv in H as (? & st1 & [Hp ->]%require_inv & H). apply is_some_false in Hp.
  apply bind_Ok_inv in H as (now & st1 & Hn & H). injection Hn as <- Est1.
  apply bind_Ok_inv in H as (? & ? & [Hact ->]%require_inv & H).
  unfold RecoveryTicket_active in Hact. apply Z.ltb_lt in Hact. simpl in Hact.
  apply bind_Ok_inv in H as (o & st2 & Ho%try_with_Ok_inv & H). injection Ho as <- <-.
  apply bind_Ok_inv in H as (e & ? & [He ->]%ok_or_Ok_inv & H).
  apply fmap_Some in He as (erow & He & ->).
  apply bind_Ok_inv in H as (o & st2 & Hu%try_with_Ok_inv & H). apply user_lookup_in in Hu as [-> Hu].
  apply bind_Ok_inv in H as (user & ? & [-> ->]%ok_or_Ok_inv & H). destruct (Hu _ eq_refl) as [Eu Hin].
  apply bind_Ok_inv in H as (? & ? & [Hval ->]%require_inv & H).
  apply bind_Ok_inv in H as ([v h] & st2 & Hh & H). apply bind_Ok_inv in H as (p & st3 & Hpw & H).
  destruct (set_password_inv _ _ _ _ _ _ (v, h) _ _ _ Hh Hpw) as (inner & row & Hset & R1).
  apply bind_Ok_inv in H as (s' & st4 & Hcons%try_with_Ok_inv & H). injection H as _ <-.
  apply consume_ticket_inv in Hcons as (now & R2). pose proof (ran_ran _ _ _ _ _ R1 R2) as [D _].
  subst st1. simpl in *. exists trow, user, now, inner, (Password_id p), row. rewrite D.
  split_and!; [by split; eauto|exact Hset|done].
Qed.

(** C25. A recovery that succeeds was allowed: its ticket was stored and is younger than its ten minutes,
    its recovery was not used, and it names an address of a user who is neither locked nor
    deactivated. The recovery is used from then on and the user has one more password, made of the
    given one, which decides the logins that follow; nothing else changes. *)
Theorem recovery_sets_password {WXok : PasswordExternalsOk WX} manager text pw allowed st u st' :
  complete_account_recovery manager text pw allowed st = (Ok u, st') →
  ∃ trow user now inner k row,
    may_recover manager pw allowed (st_db st) (st_clock st 0%nat) text trow user ∧
    sets_password manager (User_id user) pw (st_clock st 1%nat) (db_passwords (st_db st))
      (db_passwords (st_committed st')) inner k row ∧
    st_committed st' =
      on_recovery_sessions (alter (RecoverySessionRow_set_consumed_at now)
                              (RecoveryTicketRow_user_recovery_session_id trow))
        (on_passwords <[k := row]> (st_db st)) ∧
    (0 ≤ current_version inner < 2 ^ 16 →
     (∀ k r, db_passwords (st_db st) !! k = Some r → PasswordRow_user_id r = User_id user →
        PasswordRow_created_at r < st_clock st 1%nat) →
     decides_logins manager (User_id user) row (st_committed st')).
Proof.
  intros (trow & user & now & inner & k & row & Hm & Hs & D)%complete_recovery_inv.
  exists trow, user, now, inner, k, row. split_and!; [done..|]. intros Hr Hlate.
  by eapply sets_password_decides.
Qed.
(** ** The addresses of a user *)

(** The code was stored for an address that this browser session asked to verify, has not expired, and
    the attempts are not used up. *)
Record contact_code_stored (id : Ulid) (session : BrowserSession) (code : string) (st : St)
    (auth : UserEmailAuthenticationRow) : Prop := {
  cc_authentication : db_email_authentications (st_db st) !! id = Some auth;
  cc_owned : EmailAuthRow_user_session_id auth = Some (BrowserSession_id session);
  cc_pending : EmailAuthRow_completed_at auth = None;
  cc_attempt : is_ok (check_email_authentication_attempt id (st_limiter st)).1 = true;
  cc_code : ∃ k c, db_email_codes (st_db st) !! k = Some c ∧
    EmailCodeRow_user_email_authentication_id c = id ∧ EmailCodeRow_code c = code ∧
    st_clock st 0%nat ≤ EmailCodeRow_expires_at c;
}.

(** The address is one of the user's, and was made so now if it was not. *)
Definition address_added (db db' : DB) (user : User) (email : string) : Prop :=
  (db' = db ∧ ∃ k e, db_emails db !! k = Some e ∧ EmailRow_user_id e = User_id user ∧
     same_email email e = true) ∨
  (∃ k e, db_emails db !! k = None ∧ EmailRow_user_id e = User_id user ∧ EmailRow_email e = email ∧
     (∀ k' e', db_emails db !! k' = Some e' → EmailRow_user_id e' = User_id user →
        same_email email e' = false) ∧
     db' = on_emails <[k := e]> db).

Lemma user_email_find_inv user email st o st' :
  user_email_find user email st = (Ok o, st') →
  st' = st ∧
  o = (λ '(id, r), UserEmail_from id r) <$>
        find_first (λ r, email_of_user (User_id user) r && same_email email r) (db_emails (st_db st)).
Proof. unfold user_email_find. intros H. by account_inv. Qed.

Lemma add_address_inv {E} (f : DatabaseError → E) user email st u st' :
  (existing ← try_with f (user_email_find user email);
   if is_some existing then mret tt
   else _ ← try_with f (user_email_add user email); mret tt) st = (Ok u, st') →
  address_added (st_db st) (st_db st') user email.
Proof.
  intros H. apply bind_Ok_inv in H as (o & st1 & Hf%try_with_Ok_inv & H).
  apply user_email_find_inv in Hf as [-> ->].
  destruct (find_first _ _) as [[k e]|] eqn:Hf; simpl in H.
  - injection H as _ <-. left. split; [done|]. apply find_first_Some in Hf as [Hk Hm].
    apply andb_true_iff in Hm as [Hu He]. apply bool_decide_eq_true in Hu. eauto.
  - apply bind_Ok_inv in H as (e & st1 & Ha%try_with_Ok_inv & H). injection H as _ <-.
    apply user_email_add_inv in Ha as (row & Eu & Ee & _ & _ & Hn & D & _).
    right. exists (UserEmail_id e), row. split_and!; [done..| |done]. intros k' e' Hk' Hu'.
    rewrite find_first_None in Hf. specialize (Hf _ _ Hk'). apply andb_false_iff in Hf as [Hf|]; [|done].
    by apply bool_decide_eq_false in Hf.
Qed.

(** An address comes to a user only with a code: the code was stored for that address after this very
    browser session asked for it, has not expired and the attempts are not used up. What is committed
    is the verification of the address and, unless the user has it already, the address, and nothing
    else. *)
Theorem contact_needs_its_code id session code st u st' :
  complete_email_verification id (Some session) code st = (Ok u, st') →
  ∃ auth t, contact_code_stored id session code st auth ∧
    address_added
      (on_email_authentications (alter (EmailAuthRow_set_completed_at t) id) (st_db st))
      (st_committed st') (BrowserSession_user session) (EmailAuthRow_email auth).
Proof.
  unfold complete_email_verification. intros H. apply bind_Ok_inv in H as (s & st1 & Hs & H).
  injection Hs as <- <-. apply bind_Ok_inv in H as (o & st1 & Ho%try_with_Ok_inv & H).
  apply email_lookup_authentication_inv in Ho as [-> ->].
  apply bind_Ok_inv in H as (a & st1 & [Ha ->]%ok_or_Ok_inv & H).
  apply fmap_Some in Ha as (auth & Ha & ->).
  apply bind_Ok_inv in H as (? & st1 & [Hown ->]%require_inv & H). apply bool_decide_eq_true in Hown.
  apply bind_Ok_inv in H as (? & st1 & [Hpend ->]%require_inv & H). apply is_some_false in Hpend.
  apply bind_Ok_inv in H as (lim & st1 & Hlim & H). rewrite is_limited_run in Hlim.
  injection Hlim as <- <-. apply bind_Ok_inv in H as (? & st1 & [Hok ->]%require_inv & H).
  rewrite negb_involutive in Hok.
  apply bind_Ok_inv in H as (c & st1 & Hc%try_with_Ok_inv & H).
  apply email_find_code_inv in Hc as [-> ->].
  apply bind_Ok_inv in H as (c & st1 & [Hc ->]%ok_or_Ok_inv & H).
  apply fmap_Some in Hc as ([k crow] & Hf & ->). apply find_first_Some in Hf as [Hk Hm].
  apply andb_true_iff in Hm as [H1 H2]. apply bool_decide_eq_true in H1, H2.
  apply bind_Ok_inv in H as (now & st1 & Hn & H). injection Hn as <- Est1.
  apply bind_Ok_inv in H as (? & st2 & [Hexp ->]%require_inv & H).
  apply negb_true_iff, Z.ltb_ge in Hexp.
  apply bind_Ok_inv in H as (a & st2 & Hcomp%try_with_Ok_inv & H).
  apply email_complete_inv in Hcomp as (r & t & _ & _ & _ & D & _). subst st1. simpl in *.
  apply bind_Ok_inv in H as (existing & st3 & Hex & H).
  apply bind_Ok_inv in H as (? & st4 & Hadd & H). injection H as _ <-.
  exists auth, t. split; [by split; eauto 10|]. rewrite <-D. simpl.
  eapply add_address_inv. by erewrite bind_Ok.
Qed.
End requests.

(** ** Over time *)

Section histories.
Context {TX : TokenExternals} {PX : PkceExternals} {UX : UrlExternals}
        {DX : DbExternals} {HX : HandlerExternals} {AX : ClientAuthExternals}
        {CX : ConsentExternals} {ZX : AuthorizationExternals} {LX : LimiterExternals}
        {XX : AccountExternals} {WX : PasswordExternals} {RX : RegistrationExternals}
        {GX : LoginExternals} {VX : UrlPartsExternals} {KX : MetadataExternals}
        {EX : ClientRegistrationExternals}
        {BX : UrlBuildExternals} {NX : NotificationExternals} {YX : WebhookExternals}
        {QX : AdminExternals} {CO : CollationExternals}.

(** The recovery a ticket belongs to. *)
Definition ticket_recovery (db : DB) (text : string) : option Ulid :=
  (λ '(_, r), RecoveryTicketRow_user_recovery_session_id r) <$>
    find_first (has_ticket text) (db_recovery_tickets db).

(** A recovery that was used is refused. *)
Lemma complete_used_run manager text pw allowed st sid srow :
  ticket_recovery (st_db st) text = Some sid → db_recovery_sessions (st_db st) !! sid = Some srow →
  is_Some (RecoverySessionRow_consumed_at srow) →
  ∃ e, complete_account_recovery manager text pw allowed st = (Err e, st).
Proof.
  intros Ht Hs [x Hc]. unfold complete_account_recovery.
  destruct (bool_decide (is_Some manager) && allowed); [|by eexists].
  erewrite bind_Ok by reflexivity.
  destruct (is_password_complex_enough manager pw) as [b|e]; [|by eexists].
  erewrite bind_Ok by reflexivity. destruct b; [|by eexists]. erewrite bind_Ok by reflexivity.
  unfold ticket_recovery in Ht. apply fmap_Some in Ht as ([k trow] & Hf & ->).
  erewrite bind_Ok; [|apply try_with_Ok; unfold load_account_recovery_ticket;
    erewrite bind_Ok by (apply try_with_Ok; reflexivity); simpl; rewrite Hf; simpl;
    erewrite bind_Ok by reflexivity;
    erewrite bind_Ok by (apply try_with_Ok; reflexivity); simpl; rewrite Hs; reflexivity].
  simpl. exists Recovery_AlreadyConsumed. unfold require, mbind, M_bind. by rewrite Hc.
Qed.

(** C26. A recovery sets one password: once one of its tickets was used, and whatever the server did
    since, every ticket of that recovery is refused, the same or another, and nothing is committed. *)
Theorem recovery_used_once {WXok : PasswordExternalsOk WX} manager text pw allowed st u st1 sid
    manager' text' pw' allowed' st2 :
  begins st → wf (st_committed st) → ticket_recovery (st_committed st) text = Some sid →
  complete_account_recovery manager text pw allowed st = (Ok u, st1) →
  history (st_committed st1) (st_committed st2) → begins st2 →
  ticket_recovery (st_committed st2) text' = Some sid →
  ∃ e, complete_account_recovery manager' text' pw' allowed' st2 = (Err e, st2).
Proof.
  intros Hb Hw Ht Hc Hh Hb2 Ht2.
  pose proof (serve_good (Req_Account (Account_CompleteRecovery manager text pw allowed)) st Hb Hw)
    as [Hw1 _].
  simpl in Hw1. rewrite Hc in Hw1. simpl in Hw1.
  apply complete_recovery_inv in Hc as (trow & user & t & inner & k & row & Hm & _ & D).
  destruct (mr_ticket _ _ _ _ _ _ _ _ Hm) as [tk Hf].
  destruct (mr_session _ _ _ _ _ _ _ _ Hm) as (srow & _ & Hs).
  unfold ticket_recovery in Ht. rewrite <-Hb, Hf in Ht. simpl in Ht. injection Ht as <-.
  destruct (history_good _ _ Hw1 Hh) as [_ He].
  destruct (ev_recoveries _ _ He (RecoveryTicketRow_user_recovery_session_id trow)
    (RecoverySessionRow_set_consumed_at t srow)) as (srow' & Hs' & _ & _ & Hstay).
  - rewrite D. change (alter (RecoverySessionRow_set_consumed_at t)
      (RecoveryTicketRow_user_recovery_session_id trow) (db_recovery_sessions (st_db st)) !!
      RecoveryTicketRow_user_recovery_session_id trow = Some (RecoverySessionRow_set_consumed_at t srow)).
    by rewrite lookup_alter_eq, Hs.
  - rewrite <-Hb2 in Hs', Ht2. eapply complete_used_run; [done..|]. by apply Hstay; eexists.
Qed.
End histories.

(** ** The theorems evaluated on a concrete world *)

#[local] Existing Instances World.TX World.PX World.UX World.DX World.HX World.AX World.LX World.XX World.WX World.WX_ok World.RX World.GX World.VX World.BX World.NX World.YX World.QX World.CO World.MX World.CX consent_world authorization_world.

(** Alice has a password, an address, a recovery with its ticket, and an address to verify. *)
Definition alice_password : UserPasswordRow :=
  {| PasswordRow_user_id := 1; PasswordRow_hashed_password := "bcrypt:secret"; PasswordRow_version := 1;
     PasswordRow_upgraded_from_id := None; PasswordRow_created_at := 10 |}.
Definition alice_address : UserEmailRow :=
  {| EmailRow_user_id := 1; EmailRow_email := "alice@example.org"; EmailRow_created_at := 10;
     EmailRow_updated_at := 10; EmailRow_confirmed_at := Some 10; EmailRow_is_primary := true |}.
Definition alice_recovery : UserRecoverySessionRow :=
  {| RecoverySessionRow_email := "alice@example.org"; RecoverySessionRow_user_agent := "browser";
     RecoverySessionRow_ip_address := None; RecoverySessionRow_locale := "en";
     RecoverySessionRow_created_at := World.NOW - 60000000; RecoverySessionRow_consumed_at := None |}.
Definition alice_ticket : UserRecoveryTicketRow :=
  {| RecoveryTicketRow_user_recovery_session_id := 60; RecoveryTicketRow_user_email_id := 55;
     RecoveryTicketRow_ticket := "ticket"; RecoveryTicketRow_created_at := World.NOW - 50000000;
     RecoveryTicketRow_expires_at := World.NOW + 550000000 |}.
Definition alice_verification : UserEmailAuthenticationRow :=
  {| EmailAuthRow_user_session_id := Some 10; EmailAuthRow_user_registration_id := None;
     EmailAuthRow_email := "alice@other.example"; EmailAuthRow_created_at := World.NOW - 60000000;
     EmailAuthRow_completed_at := None |}.
Definition alice_code : UserEmailAuthenticationCodeRow :=
  {| EmailCodeRow_user_email_authentication_id := 70; EmailCodeRow_code := "123456";
     EmailCodeRow_created_at := World.NOW - 60000000;
     EmailCodeRow_expires_at := World.NOW + 240000000 |}.
Definition alice_db : DB :=
  on_email_codes <[71 := alice_code]> (on_email_authentications <[70 := alice_verification]>
    (on_recovery_tickets <[61 := alice_ticket]> (on_recovery_sessions <[60 := alice_recovery]>
      (on_emails <[55 := alice_address]> (on_passwords <[77 := alice_password]> World.db))))).
Definition alice_st : St := World.at_db alice_db.

Lemma alice_wf : wf alice_db.
Proof. apply wf_b_sound. vm_compute. reflexivity. Qed.

Definition open_logins : LoginConfig :=
  {| password_login_enabled := true; login_with_email_allowed := true |}.
Definition alice_login : PasswordLoginRequest :=
  {| login_username_or_email := "alice@example.org"; login_password := "secret";
     login_user_agent := None; login_requester := None; login_skip_requester_limit := false |}.

Lemma login_correct_witness :
  ∃ user session p st',
    login_with_password (Some second_scheme) open_logins alice_login alice_st =
      (Ok (Login_Authenticated user session), st') ∧
    may_login (Some second_scheme) open_logins alice_login alice_db user p ∧
    logged_in (Some second_scheme) alice_login alice_db (st_committed st') user p session.
Proof.
  destruct (login_with_password (Some second_scheme) open_logins alice_login alice_st)
    as [r st'] eqn:E.
  pose proof (login_correct _ _ _ _ _ _ E) as H.
  assert (match r with Ok (Login_Authenticated _ _) => true | _ => false end = true) as Hr.
  { change r with (r, st').1. rewrite <-E. vm_compute. reflexivity. }
  destruct r as [[| | | | |user session]|e]; try discriminate Hr.
  destruct H as (_ & _ & p & Hm & Hl). exists user, session, p, st'.
  split; [reflexivity|]. split; [exact Hm|exact Hl].
Defined.

(** The row of a password is the only one of its user. *)
Lemma alice_passwords k r :
  db_passwords alice_db !! k = Some r → PasswordRow_created_at r < World.NOW.
Proof.
  intros Hk. apply (map_Forall_lookup_1 (λ _ r, PasswordRow_created_at r < World.NOW) _ _ _) in Hk;
    [exact Hk|]. apply (bool_decide_eq_true_1 _). vm_compute. reflexivity.
Qed.

Definition ok_unit {E} (r : result () E) : bool := match r with Ok _ => true | Err _ => false end.

Lemma password_change_takes_effect_witness :
  ∃ st' row,
    change_password (Some first_scheme) 1 (Some "secret") "hunter2" false true alice_st = (Ok tt, st') ∧
    PasswordManager_verify (Some first_scheme) 1 "hunter2" (PasswordRow_hashed_password row)
      = Ok (Password_Matched tt) ∧
    decides_logins (Some first_scheme) 1 row (st_committed st').
Proof.
  destruct (change_password (Some first_scheme) 1 (Some "secret") "hunter2" false true alice_st)
    as [r st'] eqn:E.
  assert (ok_unit r = true) as Hr.
  { change r with (r, st').1. rewrite <-E. vm_compute. reflexivity. }
  destruct r as [[]|]; [|discriminate Hr].
  destruct (password_change_takes_effect _ _ _ _ _ _ _ _ _ E)
    as (_ & _ & inner & k & row & _ & Hs & _ & Hd).
  destruct Hs as [[= <-] _ _ _ _ Hv _]. exists st', row. split; [reflexivity|]. split; [exact Hv|].
  apply Hd; [vm_compute; split; [discriminate|reflexivity]|].
  intros k' r Hk _. exact (alice_passwords k' r Hk).
Defined.

Lemma alice_recovers :
  ∃ st', complete_account_recovery (Some first_scheme) "ticket" "hunter2" true alice_st = (Ok tt, st').
Proof.
  destruct (complete_account_recovery (Some first_scheme) "ticket" "hunter2" true alice_st)
    as [r st'] eqn:E.
  assert (ok_unit r = true) as Hr.
  { change r with (r, st').1. rewrite <-E. vm_compute. reflexivity. }
  destruct r as [[]|]; [|discriminate Hr]. exists st'. reflexivity.
Qed.

Lemma recovery_sets_password_witness :
  ∃ st' trow user,
    complete_account_recovery (Some first_scheme) "ticket" "hunter2" true alice_st = (Ok tt, st') ∧
    may_recover (Some first_scheme) "hunter2" true alice_db World.NOW "ticket" trow user ∧
    ∃ row, decides_logins (Some first_scheme) (User_id user) row (st_committed st').
Proof.
  destruct alice_recovers as (st' & E).
  destruct (recovery_sets_password _ _ _ _ _ _ _ E)
    as (trow & user & now & inner & k & row & Hm & Hs & _ & Hd).
  destruct Hs as [[= <-] _ _ _ _ _ _].
  exists st', trow, user. split; [exact E|]. split; [exact Hm|]. exists row.
  apply Hd; [vm_compute; split; [discriminate|reflexivity]|].
  intros k' r Hk _. pose proof (alice_passwords k' r Hk). simpl st_clock. lia.
Defined.

Lemma recovery_used_once_witness :
  ∃ st1 e, complete_account_recovery (Some first_scheme) "ticket" "hunter2" true alice_st
      = (Ok tt, st1) ∧
    complete_account_recovery (Some first_scheme) "ticket" "sesame" true
      (World.at_db (st_committed st1)) = (Err e, World.at_db (st_committed st1)).
Proof.
  destruct alice_recovers as (st1 & E).
  assert (ticket_recovery (st_committed st1) "ticket" = Some 60) as Ht.
  { change st1 with ((Ok tt : result () CompleteAccountRecoveryError), st1).2. rewrite <-E.
    vm_compute. reflexivity. }
  destruct (recovery_used_once (Some first_scheme) "ticket" "hunter2" true alice_st tt st1 60
    (Some first_scheme) "ticket" "sesame" true (World.at_db (st_committed st1)) eq_refl alice_wf eq_refl
    E (rtc_refl _ _) eq_refl Ht) as [e He].
  exists st1, e. split; [exact E|exact He].
Defined.

Definition alice_session : BrowserSession :=
  BrowserSession_from 10 World.browser (User_build 1 World.alice).

Lemma contact_needs_its_code_witness :
  ∃ st' auth, complete_email_verification 70 (Some alice_session) "123456" alice_st = (Ok tt, st') ∧
    contact_code_stored 70 alice_session "123456" alice_st auth.
Proof.
  destruct (complete_email_verification 70 (Some alice_session) "123456" alice_st) as [r st'] eqn:E.
  assert (ok_unit r = true) as Hr.
  { change r with (r, st').1. rewrite <-E. vm_compute. reflexivity. }
  destruct r as [[]|]; [|discriminate Hr].
  destruct (contact_needs_its_code _ _ _ _ _ _ E) as (auth & t & Hc & _).
  exists st', auth. split; [reflexivity|exact Hc].
Defined.
