(* ===== verification/NotificationProofs.v ===== *)
(** The theorems about notifications: what the jobs queue, what a worker hands to the channels, how
    often it tries, and what the callbacks of the providers of email may change. *)
From stdpp Require Import pretty.
From S2P Require Import Prelude Ids RateLimit Passwords TokenFormat Scope Pkce Jose Keystore Domain Accounts Notification Database Messaging Repository ClientMetadata ProviderMetadata AccountRepository Pagination AdminRepository AdminApi Profile Admin AdminIntegrity Pagination NotificationRepository Notifications EmailWebhook Outbox Handlers ClientAuth ClientRegistration TokenService Registration Login World RepositorySpec AccountSpec RegistrationSpec NotificationSpec Introspection Revocation Consent Authorization ConsentProofs AuthorizationProofs Integrity UserJobs AccountServer AccountIntegrity NotificationIntegrity NotificationJobs WebhookIntegrity Server ServerProofs RegistrationProofs LoginProofs.

Open Scope Z_scope.

(** ** Codes *)

Definition six_digits (code : string) : Prop :=
  String.length code = 6%nat ∧ str_all is_ascii_digit code = true.

Lemma pretty_char_digit n : is_ascii_digit (pretty_N_char n) = true.
Proof. unfold pretty_N_char. by repeat case_match. Qed.

Lemma pretty_go_digits k n s :
  (n < 10 ^ N.of_nat k)%N → str_all is_ascii_digit s = true →
  str_all is_ascii_digit (pretty_N_go n s) = true ∧
  (String.length (pretty_N_go n s) ≤ k + String.length s)%nat.
Proof.
  revert n s. induction k as [|k IH]; intros n s Hn Hs.
  { assert (n = 0)%N as -> by (simpl in Hn; lia). by rewrite pretty_N_go_0. }
  destruct (decide (n = 0)%N) as [->|Hz]; [rewrite pretty_N_go_0; split; [done|lia]|].
  rewrite pretty_N_go_step by lia. destruct (IH (n `div` 10)%N (String (pretty_N_char (n `mod` 10)) s)) as [H1 H2].
  - apply N.Div0.div_lt_upper_bound. by rewrite Nat2N.inj_succ, N.pow_succ_r' in Hn.
  - cbn [str_all]. by rewrite pretty_char_digit.
  - split; [done|]. simpl in H2. lia.
Qed.

Lemma zeros_digits n : str_all is_ascii_digit (String.concat "" (replicate n "0")) = true ∧
  String.length (String.concat "" (replicate n "0")) = n.
Proof.
  induction n as [|[|n] IH]; [done..|]. destruct IH as [H1 H2].
  change (String.concat "" (replicate (S (S n)) "0")) with ("0" +:+ String.concat "" (replicate (S n) "0")).
  split; [by rewrite str_all_app, H1|]. by rewrite str_length_app, H2.
Qed.

Lemma pad6_digits n : 0 ≤ n < 1000000 → six_digits (pad6 n).
Proof.
  intros Hn. unfold pad6.
  assert (str_all is_ascii_digit (pretty n) = true ∧ (String.length (pretty n) ≤ 6)%nat) as [Hd Hl].
  { destruct n as [|p|p]; [split; [done|simpl; lia]| |lia]. unfold pretty, pretty_Z, pretty, pretty_positive, pretty, pretty_N.
    rewrite decide_False by done. destruct (pretty_go_digits 6 (N.pos p) "") as [H1 H2]; [lia|done|].
    split; [done|]. simpl in H2. lia. }
  destruct (zeros_digits (6 - String.length (pretty n))) as [Hz Hzl].
  split; [rewrite str_length_app, Hzl; lia|]. by rewrite str_all_app, Hz.
Qed.

(** A code that is not fixed by the configuration has six digits. *)
Lemma verification_code_digits nc rng :
  nc_fixed_verification_code nc = None → six_digits (verification_code nc rng).1.
Proof.
  intros Hn. unfold verification_code. rewrite Hn. destruct (next_u32 rng) as [n rng'].
  apply pad6_digits. apply Z.mod_pos_bound. lia.
Qed.

Section theorems.
Context {UX : UrlExternals} {VX : UrlPartsExternals} {BX : UrlBuildExternals} {DX : DbExternals}
  {LX : LimiterExternals} {XX : AccountExternals} {NX : NotificationExternals}.

(** ** The jobs that queue messages *)

(** The jobs that queue messages hand none out. *)
Lemma keeps_lift_handed {E A} (m : M St E A) : keeps js_handed (lift m).
Proof. by intros js. Qed.
Lemma keeps_or_retry_handed {A} (m : M St DatabaseError A) : keeps js_handed (or_retry m).
Proof. by intros js. Qed.
Lemma keeps_rng_handed {A} (f : Rng → A * Rng) : keeps js_handed (job_rng f).
Proof. by intros js. Qed.
Lemma keeps_utc_handed : keeps js_handed (utc_now : M JobSt JobError _).
Proof. by intros js. Qed.
#[local] Hint Resolve keeps_lift_handed keeps_or_retry_handed keeps_rng_handed keeps_utc_handed : keeps.
Lemma keeps_event_handed q d kind s meta : keeps js_handed (append_event q d kind s meta).
Proof. unfold append_event. solve_keeps. Qed.
#[local] Hint Resolve keeps_event_handed : keeps.
Lemma keeps_enqueue_handed t l s p d c b : keeps js_handed (enqueue_notification_request t l s p d c b).
Proof. unfold enqueue_notification_request. solve_keeps. Qed.
#[local] Hint Resolve keeps_enqueue_handed : keeps.
Lemma keeps_send_email_handed nc id l : keeps js_handed (send_email_authentication_code nc id l).
Proof.
  unfold send_email_authentication_code, job_repository, job_cancel, job_save, schedule_processing_job.
  solve_keeps.
Qed.

(** The failures of the job of a verification. *)
Lemma send_email_code_Err nc id language js e js' :
  send_email_authentication_code nc id language js = (Err e, js') →
  (db_email_authentications (st_committed (js_st js)) !! id = None ∧
   e = JobError_fail (Cause_Message "User email authentication not found")) ∨
  ∃ error, e = JobError_retry (Cause_Database error).
Proof.
  unfold send_email_authentication_code. intros H.
  apply bind_Err_inv in H as [H|(? & js1 & H1 & H)]; [done|]. injection H1 as _ <-.
  apply bind_Err_inv in H as [H|(found & js2 & H2 & H)]; [right; by apply only_db_retry in H|].
  apply or_retry_inv in H2 as [H2 _]. apply email_lookup_authentication_inv in H2 as [E2 ->].
  apply bind_Err_inv in H as [H|(auth & js3 & H3 & H)].
  { left. simpl in H. destruct (_ !! id); [done|]. simpl in H. by injection H as <- _. }
  right. case_bool_decide; [done|].
  apply bind_Err_inv in H as [H|(code & js4 & H4 & H)]; [done|].
  apply bind_Err_inv in H as [H|(c & js5 & H5 & H)]; [by apply only_db_retry in H|].
  case_bool_decide; [done|].
  apply bind_Err_inv in H as [H|(? & js6 & H6 & H)]; [by apply only_db_enqueue in H|].
  apply bind_Err_inv in H as [H|(? & js7 & H7 & H)]; [by apply only_db_retry in H|done].
Qed.

(** The job of an email verification hands no message out itself. When it succeeds it has committed nothing for an
    authentication that was completed; else the code, of six random digits unless the configuration
    fixes it, to expire after five minutes and in place of an equal one, and, unless the code is
    fixed, one request with one delivery, to the address of the authentication and no other, and the
    job that delivers it. When it fails it has committed nothing, and fails for good only where
    the authentication does not exist. *)
Theorem email_verification_queued nc id language js res js' :
  send_email_authentication_code nc id language js = (res, js') →
  let code := (verification_code nc (st_rng (js_st js))).1 in
  js_handed js' = js_handed js ∧
  (nc_fixed_verification_code nc = None → six_digits code) ∧
  match res with
  | Ok _ => email_code_sent nc id code (st_clock (js_st js) 0%nat) (js_committed js) (js_committed js')
  | Err e => js_committed js' = js_committed js ∧
      ((db_email_authentications (js_committed js) !! id = None ∧
        e = JobError_fail (Cause_Message "User email authentication not found")) ∨
       ∃ error, e = JobError_retry (Cause_Database error))
  end.
Proof.
  intros H code. split_and!; [|by apply verification_code_digits|].
  - pose proof (keeps_send_email_handed nc id language js) as Hk. by rewrite H in Hk.
  - destruct res as [u|e]; [by apply send_email_code_inv in H as [H _]|].
    split; [by apply fails_clean_email in H|by apply send_email_code_Err in H].
Qed.

(** C35. The job of a recovery ends: its loop over the pages of addresses does not run out. When it
    succeeds it has committed nothing for a recovery that was used; else it has stored, for each
    address the recovery is about and in the order of their keys, one ticket of thirty-two random
    characters and queued one message to that address, and the job that delivers them exactly
    where there is an address. When it fails it has committed nothing. *)
Theorem recovery_messages_queued nc id js res js' :
  send_account_recovery nc id js = (res, js') →
  match res with
  | Ok _ => recovery_sent nc id (js_committed js) (js_committed js') ∧ js_handed js' = js_handed js
  | Err e => js_committed js' = js_committed js ∧ e ≠ Job_OutOfFuel ∧
      ((db_recovery_sessions (js_committed js) !! id = None ∧
        e = JobError_fail (Cause_Message "User recovery session not found")) ∨
       ∃ error, e = JobError_retry (Cause_Database error))
  end.
Proof.
  intros H. pose proof (fails_clean_recovery nc id js) as Hc. rewrite H in Hc.
  apply send_account_recovery_inv in H. destruct res as [u|e]; [done|].
  split_and!; [by eapply Hc| |done]. destruct H as [[_ ->]|[? ->]]; done.
Qed.

(** ** What is handed out *)

(** A message to be handed out: a verification goes to the address of its authentication, which is
    pending, with a code that is stored for it; a message of a recovery, which is not used, goes to the
    address of a delivery that was queued for it. *)
Definition message_ok (c : DB) (out : OutboundNotification) : Prop :=
  match out with
  | Outbound_EmailVerification to code _ _ _ _ =>
      ∃ a auth row, db_email_authentications c !! a = Some auth ∧ EmailAuthRow_completed_at auth = None ∧
        address_parse (EmailAuthRow_email auth) = Ok (mailbox_email to) ∧
        db_email_codes c !! EmailCode_id code = Some row ∧
        code = UserEmailAuthenticationCode_from (EmailCode_id code) row ∧
        EmailCodeRow_user_email_authentication_id row = a
  | Outbound_SmsVerificationCode to _ _ =>
      ∃ a auth, db_phone_authentications c !! a = Some auth ∧ PhoneAuthRow_completed_at auth = None ∧
        to = PhoneAuthRow_phone auth
  | Outbound_EmailRecovery to _ session _ _ _ =>
      ∃ row k d r email, db_recovery_sessions c !! RecoverySession_id session = Some row ∧
        RecoverySessionRow_consumed_at row = None ∧
        db_notification_deliveries c !! k = Some d ∧
        db_notification_requests c !! DeliveryRow_notification_request_id d = Some r ∧
        RequestRow_source r = Source_UserRecoverySession (RecoverySession_id session) ∧
        DeliveryRow_destination d = Destination_Email email ∧
        address_parse email = Ok (mailbox_email to)
  end.

(** The tables a message is checked against. *)
Definition same_sources (c c' : DB) : Prop :=
  db_email_authentications c' = db_email_authentications c ∧
  db_phone_authentications c' = db_phone_authentications c ∧
  db_email_codes c' = db_email_codes c ∧ db_recovery_sessions c' = db_recovery_sessions c ∧
  (∀ k d', db_notification_deliveries c' !! k = Some d' →
     ∃ d, db_notification_deliveries c !! k = Some d ∧
       DeliveryRow_notification_request_id d = DeliveryRow_notification_request_id d' ∧
       DeliveryRow_destination d = DeliveryRow_destination d') ∧
  (∀ q r', db_notification_requests c' !! q = Some r' →
     ∃ r, db_notification_requests c !! q = Some r ∧ RequestRow_source r = RequestRow_source r').

#[local] Instance same_sources_preorder : PreOrder same_sources.
Proof.
  split; [intros c; split_and!; naive_solver|].
  intros c1 c2 c3 (A1&A2&A3&A4&A5&A6) (B1&B2&B3&B4&B5&B6). split_and!; try congruence.
  - intros k d (d2 & (d1 & ? & ? & ?)%A5 & ? & ?)%B5. exists d1. split_and!; [done|congruence..].
  - intros q r (r2 & (r1 & ? & ?)%A6 & ?)%B6. exists r1. split; [done|congruence].
Qed.

Lemma message_ok_sources c c' out : same_sources c c' → message_ok c' out → message_ok c out.
Proof.
  intros (A1&A2&A3&A4&A5&A6). destruct out; simpl; rewrite ?A1, ?A2, ?A3, ?A4; try done.
  intros (row & k & d & r & email & ? & ? & (d0 & ? & Eq & Ed)%A5 & (r0 & ? & Es)%A6 & ? & ? & ?).
  exists row, k, d0, r0, email. rewrite Eq, Ed, Es. done.
Qed.

Lemma at_rows_sources c0 k d d' q r r' st :
  at_rows c0 k d' q r' st → db_notification_deliveries c0 !! k = Some d →
  db_notification_requests c0 !! q = Some r →
  DeliveryRow_notification_request_id d' = DeliveryRow_notification_request_id d →
  DeliveryRow_destination d' = DeliveryRow_destination d → RequestRow_source r' = RequestRow_source r →
  same_sources c0 (st_db st).
Proof.
  intros (_ & jobs & events & ->) Hd Hr E1 E2 E3. split_and!; try done.
  - intros j x. unfold db_notification_deliveries. simpl.
    intros [[<- <-]|[_ Hx]]%lookup_insert_Some; [by exists d|by exists x].
  - intros j x. unfold db_notification_requests. simpl.
    intros [[<- <-]|[_ Hx]]%lookup_insert_Some; [by exists r|by exists x].
Qed.

(** What has been prepared is a message for the source of the request. *)
Lemma or_fail_inv {A} (m : M St DatabaseError A) st a st' :
  or_fail m st = (Ok a, st') → m st = (Ok a, st').
Proof. apply try_with_Ok_inv. Qed.
Lemma load_opt_inv {A} text (look : Ulid → M St DatabaseError (option A)) id st o st' :
  (∀ id, keeps (λ st, st) (look id)) → load_opt text look id st = (Ok o, st') → st' = st.
Proof.
  intros Hk H. assert (keeps (λ st, st) (load_opt text look id)) as Hl.
  { unfold load_opt, or_fail, context. solve_keeps. }
  specialize (Hl st). by rewrite H in Hl.
Qed.

Lemma prepare_verification_inv req del st out st' :
  prepare_email_verification req del st = (Ok (Prepared_Ready out), st') →
  ∃ a auth code row email to bs reg lang tags,
    nreq_source req = Source_UserEmailAuthentication a ∧
    db_email_authentications (st_db st) !! a = Some auth ∧ EmailAuthRow_completed_at auth = None ∧
    out = Outbound_EmailVerification to code bs reg lang tags ∧
    db_email_codes (st_db st) !! EmailCode_id code = Some row ∧
    code = UserEmailAuthenticationCode_from (EmailCode_id code) row ∧
    EmailCodeRow_user_email_authentication_id row = a ∧
    ndel_destination del = Destination_Email email ∧ address_parse email = Ok (mailbox_email to).
Proof.
  unfold prepare_email_verification, parse_verification_payload, email_source, bail. intros H.
  apply bind_Ok_inv in H as ([code language] & st1 & H1 & H).
  destruct (nreq_payload req); [|done]. injection H1 as -> -> <-.
  apply bind_Ok_inv in H as (a & st1 & H1 & H).
  destruct (nreq_source req) eqn:Hsrc; try done. injection H1 as -> <-.
  apply bind_Ok_inv in H as (found & st1 & H1 & H).
  apply or_fail_inv, email_lookup_authentication_inv in H1 as [-> ->].
  apply bind_Ok_inv in H as (auth & st1 & H1 & H). apply ok_or_Ok_inv in H1 as [H1 ->].
  apply fmap_Some in H1 as (auth' & Ha & ->). simpl in H.
  case_bool_decide as Hc; [done|]. apply eq_None_not_Some in Hc.
  apply bind_Ok_inv in H as (bs & st1 & H1 & H). apply load_opt_inv in H1 as ->.
  2:{ intros id. unfold browser_session_lookup, try_into. solve_keeps; by intros ?. }
  apply bind_Ok_inv in H as (reg & st1 & H1 & H). apply load_opt_inv in H1 as ->.
  2:{ intros id. unfold user_registration_lookup, try_into. solve_keeps; by intros ?. }
  apply bind_Ok_inv in H as (found & st1 & H1 & H).
  apply or_fail_inv, email_find_code_inv in H1 as [-> ->].
  apply bind_Ok_inv in H as (c & st1 & H1 & H). apply ok_or_Ok_inv in H1 as [H1 ->].
  apply fmap_Some in H1 as ([cid row] & Hf & ->). apply find_first_Some in Hf as [Hrow HP].
  unfold is_email_code in HP. apply andb_true_iff in HP as [HP _]. apply bool_decide_eq_true in HP.
  apply bind_Ok_inv in H as (email & st1 & H1 & H). unfold email_destination, bail in H1.
  destruct (ndel_destination del) as [email'| | |] eqn:Hd; try done. injection H1 as -> <-.
  apply bind_Ok_inv in H as (address & st1 & H1 & H). unfold parsed, of_result in H1.
  destruct (address_parse email) as [to|] eqn:Hto; [|done]. injection H1 as -> <-.
  apply bind_Ok_inv in H as (lang & st1 & H1 & H). injection H as <- _.
  eexists a, auth', _, row, email, _, _, _, _, _. split_and!; [done|done|done|reflexivity|done..].
Qed.

Lemma prepare_sms_inv req del st out st' :
  prepare_sms_verification req del st = (Ok (Prepared_Ready out), st') →
  ∃ a auth to code lang,
    nreq_source req = Source_UserPhoneAuthentication a ∧
    db_phone_authentications (st_db st) !! a = Some auth ∧ PhoneAuthRow_completed_at auth = None ∧
    out = Outbound_SmsVerificationCode to code lang ∧ ndel_destination del = Destination_Sms to.
Proof.
  unfold prepare_sms_verification, parse_verification_payload, phone_source, bail. intros H.
  apply bind_Ok_inv in H as ([code language] & st1 & H1 & H).
  destruct (nreq_payload req); [|done]. injection H1 as -> -> <-.
  apply bind_Ok_inv in H as (a & st1 & H1 & H).
  destruct (nreq_source req) eqn:Hsrc; try done. injection H1 as -> <-.
  apply bind_Ok_inv in H as (found & st1 & H1 & H).
  apply or_fail_inv, phone_lookup_authentication_inv in H1 as [-> ->].
  apply bind_Ok_inv in H as (auth & st1 & H1 & H). apply ok_or_Ok_inv in H1 as [H1 ->].
  apply fmap_Some in H1 as (auth' & Ha & ->). simpl in H.
  case_bool_decide as Hc; [done|]. apply eq_None_not_Some in Hc.
  apply bind_Ok_inv in H as (to & st1 & H1 & H). unfold sms_destination, bail in H1.
  destruct (ndel_destination del) eqn:Hd; try done. injection H1 as -> <-. injection H as <- _.
  eexists a, auth', to, _, _. done.
Qed.

Lemma prepare_recovery_inv ub req del st out st' :
  prepare_email_recovery ub req del st = (Ok (Prepared_Ready out), st') →
  ∃ session row email to user link lang tags,
    nreq_source req = Source_UserRecoverySession (RecoverySession_id session) ∧
    db_recovery_sessions (st_db st) !! RecoverySession_id session = Some row ∧
    RecoverySessionRow_consumed_at row = None ∧
    out = Outbound_EmailRecovery to user session link lang tags ∧
    ndel_destination del = Destination_Email email ∧ address_parse email = Ok (mailbox_email to).
Proof.
  unfold prepare_email_recovery, parse_recovery_payload, recovery_source, bail. intros H.
  apply bind_Ok_inv in H as ([user_id ticket] & st1 & H1 & H).
  destruct (nreq_payload req); [done|]. injection H1 as -> -> <-.
  apply bind_Ok_inv in H as (sid & st1 & H1 & H).
  destruct (nreq_source req) eqn:Hsrc; try done. injection H1 as -> <-.
  apply bind_Ok_inv in H as (found & st1 & H1 & H).
  apply or_fail_inv, recovery_lookup_inv in H1 as [-> ->].
  apply bind_Ok_inv in H as (session & st1 & H1 & H). apply ok_or_Ok_inv in H1 as [H1 ->].
  apply fmap_Some in H1 as (row & Hrow & ->). simpl in H.
  case_bool_decide as Hc; [done|]. apply eq_None_not_Some in Hc.
  apply bind_Ok_inv in H as (found & st1 & _ & H).
  apply bind_Ok_inv in H as (user & st2 & H1 & H). apply ok_or_Ok_inv in H1 as [-> ->].
  apply bind_Ok_inv in H as (lang & st2 & _ & H). apply bind_Ok_inv in H as (link & st3 & _ & H).
  apply bind_Ok_inv in H as (email & st4 & H1 & H). unfold email_destination, bail in H1.
  destruct (ndel_destination del) eqn:Hd; try done. injection H1 as -> <-.
  apply bind_Ok_inv in H as (address & st4 & H1 & H). unfold parsed, of_result in H1.
  destruct (address_parse email) as [to|] eqn:Hto; [|done]. injection H1 as -> <-. injection H as <- _.
  eexists (UserRecoverySession_from sid row), row, email, _, _, _, _, _.
  split_and!; [done|done|done|reflexivity|done..].
Qed.

(** The message prepared for a delivery of a well formed outbox. *)
Lemma prepared_message_ok ub c0 k d q r0 req del st out st' :
  wf c0 → db_notification_deliveries c0 !! k = Some d → DeliveryRow_notification_request_id d = q →
  db_notification_requests c0 !! q = Some r0 → nreq_source req = RequestRow_source r0 →
  ndel_destination del = DeliveryRow_destination d → same_sources c0 (st_db st) →
  prepare_delivery ub req del st = (Ok (Prepared_Ready out), st') → message_ok c0 out.
Proof.
  intros Hwf Hd Hq Hr Hsrc Hdest Hss H.
  destruct (ob_delivery _ _ _ _ (wf_outbox _ Hwf) k d Hd) as (r & Hr' & _ & _ & Had & _).
  assert (r = r0) as -> by (unfold db_notification_requests in Hr; rewrite Hq in Hr'; congruence).
  unfold addressed in Had. destruct Hss as (E1 & E2 & E3 & E4 & _). unfold prepare_delivery in H.
  destruct (String.eqb _ _); [|destruct (String.eqb _ _); [|destruct (String.eqb _ _); [|done]]].
  - apply prepare_verification_inv in H as (a & auth & code & row & email & to & bs & reg & lang & tags &
      Hs & Ha & Hc & -> & Hrow & Hcode & Hof & Hdd & Hto).
    rewrite <-Hsrc, Hs in Had. destruct Had as (auth' & Ha' & Hdd'). rewrite E1 in Ha. rewrite E3 in Hrow.
    exists a, auth, row. assert (auth' = auth) as -> by congruence.
    assert (email = EmailAuthRow_email auth) as -> by congruence. done.
  - apply prepare_sms_inv in H as (a & auth & to & code & lang & Hs & Ha & Hc & -> & Hdd).
    rewrite <-Hsrc, Hs in Had. destruct Had as (auth' & Ha' & Hdd'). rewrite E2 in Ha.
    exists a, auth. assert (auth' = auth) as -> by congruence.
    assert (to = PhoneAuthRow_phone auth) as -> by congruence. done.
  - apply prepare_recovery_inv in H as (session & row & email & to & user & link & lang & tags &
      Hs & Hrow & Hc & -> & Hdd & Hto).
    rewrite E4 in Hrow. exists row, k, d, r0, email. rewrite Hq. split_and!; try done; congruence.
Qed.

(** An attempt hands out at most the message that was prepared, however it ends. *)
Definition hands_at_most (out : OutboundNotification) (js js' : JobSt) : Prop :=
  js_handed js' = js_handed js ∨ js_handed js' = js_handed js ++ [out].
Lemma keeps_complete_failure_handed q d f : keeps js_handed (complete_delivery_with_failure q d f).
Proof. unfold complete_delivery_with_failure. solve_keeps. Qed.
Lemma keeps_complete_success_handed q d f : keeps js_handed (complete_delivery_with_success q d f).
Proof. unfold complete_delivery_with_success. solve_keeps. Qed.
Lemma keeps_cancel_handed q d s m : keeps js_handed (cancel_request q d s m).
Proof. unfold cancel_request. solve_keeps. Qed.

Lemma send_delivery_hands nc req del out js : hands_at_most out js (send_delivery nc req del out js).2.
Proof.
  unfold send_delivery. unfold mbind at 1, M_bind at 1.
  pose proof (keeps_or_retry_handed (notification_mark_delivery_sending del None) js) as K1.
  destruct (or_retry _ js) as [[del1|e] js1]; [|by left]. simpl in K1.
  unfold mbind at 1, M_bind at 1.
  match goal with |- context [append_event ?a ?b ?c ?d ?e js1] =>
    pose proof (keeps_event_handed a b c d e js1) as K2; destruct (append_event a b c d e js1) as [[?|?] js2] end;
    simpl in K2; [|left; simpl; congruence].
  unfold mbind, M_bind, attempt. destruct (dispatch nc out js2) as [answer js3] eqn:H3.
  apply dispatch_inv in H3 as [_ H3]. cbn [fst snd].
  assert (js_handed (match answer with
    | Ok result => complete_delivery_with_success req del1 result
    | Err error => complete_delivery_with_failure req del1 (notification_failure_from_error error)
    end js3).2 = js_handed js3) as K4.
  { destruct answer; [apply keeps_complete_success_handed|apply keeps_complete_failure_handed]. }
  unfold hands_at_most. destruct answer; rewrite K4; destruct H3 as [->|[-> _]]; rewrite K2, K1; auto.
Qed.

Lemma attempt_delivery_hands nc ub req del js :
  let js' := (attempt_delivery nc ub req del js).2 in
  js_handed js' = js_handed js ∨
  ∃ out, (prepare_delivery ub req del (js_st js)).1 = Ok (Prepared_Ready out) ∧
    js_handed js' = js_handed js ++ [out].
Proof.
  unfold attempt_delivery, mbind, M_bind, attempt, lift. cbn [fst snd].
  destruct (prepare_delivery ub req del (js_st js)) as [p st1]. cbn [fst snd].
  set (js1 := with_js_st st1 js). change (js_handed js) with (js_handed js1).
  destruct p as [[out|summary meta]|[text|]]; [| | |by left].
  - destruct (send_delivery_hands nc req del out js1) as [H|H]; [by left|]. right. by exists out.
  - left. apply keeps_cancel_handed.
  - left. apply keeps_complete_failure_handed.
Qed.

(** A round of processing, whatever its outcome, hands out at most one message, and a right one; the
    sources of messages are as before. *)
Lemma keeps_begin_handed d : keeps js_handed (begin_delivery d).
Proof. unfold begin_delivery. solve_keeps. Qed.

Lemma bind_run_inv {S E A B} (m : M S E A) (k : A → M S E B) st r st' :
  (m ≫= k) st = (r, st') →
  (∃ e, m st = (Err e, st') ∧ r = Err e) ∨ ∃ a st1, m st = (Ok a, st1) ∧ k a st1 = (r, st').
Proof.
  unfold mbind, M_bind. destruct (m st) as [[a|e] st1]; intros H; [right; eauto|].
  injection H as <- <-. left. eauto.
Qed.

Lemma process_single_hands nc ub js res js' :
  process_single_delivery nc ub js = (res, js') → wf (js_committed js) →
  js_handed js' = js_handed js ∨
  ∃ out, js_handed js' = js_handed js ++ [out] ∧ message_ok (js_committed js) out.
Proof.
  unfold process_single_delivery. intros H Hwf. set (c0 := js_committed js) in *.
  apply bind_run_inv in H as [(e & H1 & _)|(? & js1 & H1 & H)]; [done|]. injection H1 as _ <-.
  apply bind_run_inv in H as [(e & H1 & _)|(l & js2 & H2 & H)].
  { left. by apply lift_inv in H1 as [_ Hh]. }
  apply or_retry_inv in H2 as [H2 Hh2]. simpl in H2, Hh2.
  apply reserve_one_inv in H2 as [now H2]. destruct l as [|del rest].
  { left. apply bind_run_inv in H as [(e & H1 & _)|(? & js3 & H3 & H)]; [done|].
    injection H3 as _ <-. injection H as _ <-. exact Hh2. }
  destruct H2 as (-> & k & d & due & Hdue & Hdel & Hran). simpl in Hdue.
  change (st_committed (js_st js)) with c0 in Hdue. assert (db_notification_deliveries c0 !! k = Some d ∧ delivery_is_due now d = true) as [Hd _].
  { apply due_deliveries_elem. rewrite Hdue. by left. }
  destruct (ob_delivery _ _ _ _ (wf_outbox _ Hwf) k d Hd) as (r & Hr & _).
  pose proof (delivery_try_from_inv _ _ _ Hdel) as (Ik & Iq & Idest & _ & Ia & _). simpl in Iq, Ia, Idest.
  assert (at_rows c0 k (DeliveryRow_reserve now d) (DeliveryRow_notification_request_id d) r
            (js_st js2)) as Ha2 by (by eapply reserve_at_rows; [..|exact Hran]).
  apply bind_run_inv in H as [(e & H3 & _)|(req & js3 & H3 & H)].
  { left. pose proof (keeps_begin_handed del js2) as K. rewrite H3 in K. simpl in K. congruence. }
  eapply begin_delivery_inv in H3 as (r1 & Hof & Hev1 & Ha3 & Hh3); [|exact Iq|exact Ha2].
  assert (same_sources c0 (st_db (js_st js3))) as Hss.
  { eapply at_rows_sources; [exact Ha3|done|done|done|done|apply Hev1]. }
  pose proof (attempt_delivery_hands nc ub req del js3) as Hh. simpl in Hh.
  assert (js_handed js' = js_handed (attempt_delivery nc ub req del js3).2) as E.
  { apply bind_run_inv in H as [(e & H4 & _)|(? & js4 & H4 & H)]; rewrite H4; [done|]. simpl.
    apply bind_run_inv in H as [(e & H5 & _)|(? & js5 & H5 & H)]; [done|].
    injection H5 as _ <-. by injection H as _ <-. }
  rewrite E. destruct Hh as [Hh|(out & Hp & Hh)]; [left; congruence|]. right. exists out.
  split; [congruence|]. destruct (prepare_delivery ub req del (js_st js3)) as [p st'] eqn:Hpd. simpl in Hp.
  subst p. eapply (prepared_message_ok ub c0 k d _ r req del); [done|exact Hd|reflexivity|exact Hr|
    apply Hof|exact Idest|exact Hss|exact Hpd].
Qed.

Lemma process_single_sources nc ub js res js' :
  process_single_delivery nc ub js = (res, js') → wf (js_committed js) →
  same_sources (js_committed js) (js_committed js').
Proof.
  intros H Hwf. destruct res as [b|e]; [|apply process_single_Err in H; rewrite H; reflexivity].
  apply process_single_inv in H; [|done]. destruct b; [|destruct H as [E _]; unfold js_committed; by rewrite E].
  destruct H as (now & k & d & d' & r & r' & req & del & sent & [[due Hdue] Hr _ _ Hs Hev _ Hdb _] & _).
  destruct Hdb as (st & Ha & Ec). unfold js_committed. rewrite Ec.
  assert (db_notification_deliveries (st_committed (js_st js)) !! k = Some d ∧ delivery_is_due now d = true) as [Hd _].
  { apply due_deliveries_elem. rewrite Hdue. by left. }
  eapply at_rows_sources; [exact Ha|exact Hd|exact Hr|apply Hs|apply Hs|apply Hev].
Qed.

Lemma process_deliveries_hands limit nc ub js res js' :
  process_deliveries limit nc ub js = (res, js') → wf (js_committed js) →
  ∃ sent, js_handed js' = js_handed js ++ sent ∧ (length sent ≤ limit)%nat ∧
    Forall (message_ok (js_committed js)) sent.
Proof.
  revert js res js'. induction limit as [|limit IH]; intros js res js' H Hwf; simpl in H.
  { injection H as _ <-. exists []. rewrite app_nil_r. done. }
  destruct (process_single_delivery nc ub js) as [res1 js1] eqn:H1.
  pose proof (process_single_good _ _ _ _ _ H1 Hwf) as [Hwf1 _].
  pose proof (process_single_sources _ _ _ _ _ H1 Hwf) as Hss.
  assert (∃ s1, js_handed js1 = js_handed js ++ s1 ∧ (length s1 ≤ 1)%nat ∧
    Forall (message_ok (js_committed js)) s1) as (s1 & E1 & L1 & F1).
  { destruct (process_single_hands _ _ _ _ _ H1 Hwf) as [E|(out & E & Hok)].
    - exists []. rewrite app_nil_r. split_and!; [done|simpl; lia|done].
    - exists [out]. split_and!; [done|done|by apply Forall_singleton]. }
  assert (∀ js2, js_handed js2 = js_handed js1 →
    ∃ sent, js_handed js2 = js_handed js ++ sent ∧ (length sent ≤ S limit)%nat ∧
      Forall (message_ok (js_committed js)) sent) as Hstop.
  { intros js2 ->. exists s1. split_and!; [done|lia|done]. }
  apply bind_run_inv in H as [(e & H2 & _)|(b & js2 & H2 & H)]; rewrite H1 in H2; [by simplify_eq; apply Hstop|].
  injection H2 as -> <-. destruct b; [|injection H as _ <-; by apply Hstop].
  destruct (process_deliveries limit nc ub js1) as [res2 js2] eqn:H2.
  assert (js' = js2) as ->.
  { apply bind_run_inv in H as [(e & H3 & _)|(n & js3 & H3 & H)]; rewrite H2 in H3; [by simplify_eq|].
    injection H as _ <-. by simplify_eq. }
  apply IH in H2 as (s2 & E2 & L2 & F2); [|done]. exists (s1 ++ s2). split_and!.
  - rewrite E2, E1. by rewrite app_assoc.
  - rewrite length_app. lia.
  - apply Forall_app. split; [done|]. eapply Forall_impl; [exact F2|].
    intros out. by apply message_ok_sources.
Qed.


(** ** Attempts *)

(** A round of the job that delivers messages commits nothing when it fails or when no delivery is
    due. Else it attempts the delivery that was due first: only its row and that of its request
    change, apart from events and jobs; the attempt is counted; where it goes is kept; and it ends cancelled,
    accepted, to be retried after the delay of its attempt, or failed for good, with the request
    in the state that goes with it. At most the message prepared for it was handed out. *)
Theorem delivery_round_correct nc ub js res js' :
  process_single_delivery nc ub js = (res, js') → wf (js_committed js) →
  let c0 := js_committed js in let c1 := js_committed js' in
  match res with
  | Ok true => ∃ now k d d' r r' req del sent,
      round nc ub c0 c1 now k d d' r r' req del sent ∧ js_handed js' = js_handed js ++ sent ∧
      DeliveryRow_attempt_count d' = DeliveryRow_attempt_count d + 1
  | Ok false => c1 = c0 ∧ js_handed js' = js_handed js ∧
      ∃ now, due_deliveries now (db_notification_deliveries c0) = []
  | Err _ => c1 = c0
  end.
Proof.
  intros H Hwf. destruct res as [b|e]; [|by apply process_single_Err in H].
  apply process_single_inv in H; [|done]. destruct b; [|exact H].
  destruct H as (now & k & d & d' & r & r' & req & del & sent & Hr & Hh).
  exists now, k, d, d', r, r', req, del, sent. split_and!; [done|done|].
  by destruct (rd_same _ _ _ _ _ _ _ _ _ _ _ _ _ Hr) as (_ & _ & _ & _ & _ & ->).
Qed.
End theorems.

Section histories.
Context {TX : TokenExternals} {PX : PkceExternals} {UX : UrlExternals}
        {DX : DbExternals} {HX : HandlerExternals} {AX : ClientAuthExternals}
        {CX : ConsentExternals} {ZX : AuthorizationExternals} {LX : LimiterExternals}
        {XX : AccountExternals} {WX : PasswordExternals} {RX : RegistrationExternals}
        {GX : LoginExternals} {VX : UrlPartsExternals} {KX : MetadataExternals}
        {EX : ClientRegistrationExternals}
        {BX : UrlBuildExternals} {NX : NotificationExternals} {YX : WebhookExternals}
        {QX : AdminExternals} {CO : CollationExternals}.

End histories.

(** ** Examples *)

#[local] Existing Instances World.TX World.PX World.UX World.DX World.HX World.AX World.LX World.XX World.WX World.WX_ok World.RX World.GX World.VX World.BX World.NX World.YX World.QX World.CO World.MX World.CX consent_world authorization_world.

(** Messages go by email, and the channel accepts them. *)
Definition by_email : NotificationCenter :=
  {| nc_email := Some "email.resend"; nc_sms := None; nc_fixed_verification_code := None |}.
Definition example_urls : UrlBuilder :=
  {| ub_http_base := "https://id.example/"; ub_prefix := ""; ub_assets_base := "assets";
     ub_issuer := "https://id.example/" |}.
Definition worker_at (db : DB) : JobSt :=
  mkJobSt (World.at_db db) (λ _, World.NOW)
    (λ _, {| outcome_email := Ok (Some "message-1"); outcome_sms := Ok tt |}) [].

(** A worker that has queued the verification of Alice's address, and one that has queued her
    recovery. *)
Definition verification_queued : JobSt :=
  (send_email_authentication_code by_email 70 "en" (worker_at alice_db)).2.
Definition recovery_queued : JobSt := (send_account_recovery by_email 60 (worker_at alice_db)).2.

Lemma verification_queued_wf : wf (js_committed verification_queued).
Proof.
  unfold verification_queued.
  destruct (send_email_authentication_code by_email 70 "en" (worker_at alice_db)) as [res js'] eqn:H.
  eapply (run_job_good by_email example_urls (Payload_EmailAuthenticationCode 70 "en")); [done|exact H|].
  exact alice_wf.
Qed.

Lemma email_verification_queued_witness :
  ∃ js', send_email_authentication_code by_email 70 "en" (worker_at alice_db) = (Ok tt, js') ∧
    js_committed js' ≠ alice_db ∧
    email_code_sent by_email 70 (verification_code by_email (st_rng (js_st (worker_at alice_db)))).1
      World.NOW alice_db (js_committed js').
Proof.
  destruct (send_email_authentication_code by_email 70 "en" (worker_at alice_db)) as [res js'] eqn:H.
  assert (res = Ok tt) as ->.
  { change res with (res, js').1. rewrite <-H. vm_compute. reflexivity. }
  exists js'. split; [reflexivity|]. split.
  - intros E. assert (size (db_notification_deliveries (js_committed js')) = 1%nat) as Hs.
    { change js' with (Ok (E:=JobError) tt, js').2. rewrite <-H. vm_compute. reflexivity. }
    rewrite E in Hs. vm_compute in Hs. discriminate Hs.
  - exact (proj2 (proj2 (email_verification_queued _ _ _ _ _ _ H))).
Defined.

Lemma recovery_messages_queued_witness :
  ∃ js', send_account_recovery by_email 60 (worker_at alice_db) = (Ok tt, js') ∧
    size (db_notification_deliveries (js_committed js')) = 1%nat ∧
    recovery_sent by_email 60 alice_db (js_committed js').
Proof.
  destruct (send_account_recovery by_email 60 (worker_at alice_db)) as [res js'] eqn:H.
  assert (res = Ok tt) as ->.
  { change res with (res, js').1. rewrite <-H. vm_compute. reflexivity. }
  exists js'. split; [reflexivity|]. split.
  - change js' with (Ok (E:=JobError) tt, js').2. rewrite <-H. vm_compute. reflexivity.
  - exact (proj1 (recovery_messages_queued _ _ _ _ _ H)).
Defined.


Lemma delivery_round_correct_witness :
  ∃ js', process_single_delivery by_email example_urls verification_queued = (Ok true, js') ∧
  ∃ now k d d' r r' req del sent,
    round by_email example_urls (js_committed verification_queued) (js_committed js')
      now k d d' r r' req del sent ∧ DeliveryRow_attempt_count d' = DeliveryRow_attempt_count d + 1.
Proof.
  destruct (process_single_delivery by_email example_urls verification_queued) as [res js'] eqn:H.
  assert (res = Ok true) as ->.
  { change res with (res, js').1. rewrite <-H. vm_compute. reflexivity. }
  exists js'. split; [reflexivity|].
  destruct (delivery_round_correct _ _ _ _ _ H verification_queued_wf)
    as (now & k & d & d' & r & r' & req & del & sent & Hr & _ & Ha).
  exists now, k, d, d', r, r', req, del, sent. split; [exact Hr|exact Ha].
Defined.

