(* ===== verification/WebhookProofs.v ===== *)
(** The theorems about the callbacks of the providers of email (services/email_webhook.rs): only a
    callback that is authentic changes anything, and only the state of deliveries and of their
    requests; a callback that is served again changes nothing. *)
From stdpp Require Import pretty.
From S2P Require Import Prelude Ids RateLimit Passwords TokenFormat Scope Pkce Jose Keystore Domain Accounts Notification Database Messaging Repository ClientMetadata ProviderMetadata AccountRepository Pagination NotificationRepository Notifications EmailWebhook RepositorySpec AccountSpec Outbox NotificationSpec RegistrationSpec Integrity AccountIntegrity NotificationIntegrity NotificationJobs WebhookIntegrity World Server ServerProofs RegistrationProofs LoginProofs NotificationProofs.

Open Scope Z_scope.

Section webhook.
Context {UX : UrlExternals} {VX : UrlPartsExternals} {BX : UrlBuildExternals} {JX : JoseExternals}
  {DX : DbExternals} {NX : NotificationExternals} {WX : WebhookExternals}.

(** The authentic callbacks of each provider. Resend signs the identifier, the time and the body
    with a shared secret, and the time is recent; SendGrid signs the time and the body with its key;
    Brevo sends the headers agreed upon; SNS signs its message, of the topic configured, with the key of a
    certificate from a host that is allowed. *)
Definition authentic (utc_now : DateTime) (net : WebhookNetwork) (self : ProviderRuntime)
    (req : WebhookRequest) : Prop :=
  match self with
  | Runtime_Resend secret max_age =>
      ∃ id timestamp header secs signed_at part text signature,
        header_str (wrq_headers req) "svix-id" = Some id ∧
        header_str (wrq_headers req) "svix-timestamp" = Some timestamp ∧
        header_str (wrq_headers req) "svix-signature" = Some header ∧
        parse_i64 timestamp = Some secs ∧ datetime_from_timestamp secs = Some signed_at ∧
        Z.abs (utc_now - signed_at) < (max_age + 1) * 1000000 ∧
        part ∈ split_white "" header ∧ strip_prefix "v1," part = Some text ∧
        base64_standard_decode text = Some signature ∧
        hmac_sha256_verify secret (id +:+ "." +:+ pretty secs +:+ "." +:+ wrq_body req) signature = true
  | Runtime_Sendgrid _ key =>
      ∃ timestamp header signature,
        header_str (wrq_headers req) "x-twilio-email-event-webhook-timestamp" = Some timestamp ∧
        header_str (wrq_headers req) "x-twilio-email-event-webhook-signature" = Some header ∧
        base64_standard_decode header = Some signature ∧
        p256_verify key (timestamp +:+ wrq_body req) signature = true
  | Runtime_Brevo expected =>
      ∀ name value, (name, value) ∈ expected → header_str (wrq_headers req) name = Some value
  | Runtime_AwsSes topic _ prefixes =>
      ∃ value envelope certificate signature content sha1,
        json_from_slice (wrq_body req) = Some value ∧ sns_envelope value = Some envelope ∧
        sns_topic_arn envelope = topic ∧
        validate_sns_signing_cert_url (sns_signing_cert_url envelope) prefixes = Ok tt ∧
        net_certificate net = Some certificate ∧
        base64_standard_decode (sns_signature envelope) = Some signature ∧
        sns_signed_content envelope = Ok content ∧ rsa_verify sha1 certificate content signature = true
  end.

Lemma ok_or_r_Ok {A} e (o : option A) a : ok_or_r e o = Ok a → o = Some a.
Proof. destruct o; simpl; naive_solver. Qed.
Lemma web_check_Ok b e u : check b e = Ok u → b = true.
Proof. by destruct b. Qed.

(** Open a chain of fallible steps that ended well. *)
Ltac steps_Ok :=
  repeat match goal with
  | H : result_bind _ _ = Ok _ |- _ =>
      let a := fresh "a" in let H1 := fresh "HS" in apply result_bind_Ok in H as (a & H1 & H)
  | H : ok_or_r _ _ = Ok _ |- _ => apply ok_or_r_Ok in H
  | H : check _ _ = Ok _ |- _ => apply web_check_Ok in H
  end.

Lemma age_bound d m : Z.abs (Z.quot d 1000000) <=? m = true → Z.abs d < (m + 1) * 1000000.
Proof.
  intros H%Z.leb_le. pose proof (Z.quot_rem' d 1000000). pose proof (Z.rem_bound_abs d 1000000). lia.
Qed.

Lemma verify_expected_inv headers expected u name value :
  verify_expected_headers headers expected = Ok u → (name, value) ∈ expected →
  header_str headers name = Some value.
Proof.
  induction expected as [|[n v] expected IH]; simpl; [by intros _ ?%elem_of_nil|].
  destruct (header_str headers n) as [actual|] eqn:Hn; [|done].
  destruct (String.eqb_spec actual v) as [->|]; [|done].
  intros H [[= -> ->]|Hin]%elem_of_cons; [done|by apply IH].
Qed.

Lemma verify_resend_authentic utc_now secret max_age id timestamp header body u :
  verify_resend_signature utc_now secret max_age id timestamp header body = Ok u →
  ∃ secs signed_at part text signature,
    parse_i64 timestamp = Some secs ∧ datetime_from_timestamp secs = Some signed_at ∧
    Z.abs (utc_now - signed_at) < (max_age + 1) * 1000000 ∧
    part ∈ split_white "" header ∧ strip_prefix "v1," part = Some text ∧
    base64_standard_decode text = Some signature ∧
    hmac_sha256_verify secret (id +:+ "." +:+ pretty secs +:+ "." +:+ body) signature = true.
Proof.
  unfold verify_resend_signature. intros H. steps_Ok.
  apply existsb_exists in H as (part & Hin & Hm). unfold resend_signature_matches in Hm.
  destruct (strip_prefix "v1," part) as [text|] eqn:Hp; [|done]. simpl in Hm.
  destruct (base64_standard_decode text) as [signature|] eqn:Hb; [|done].
  eexists a, a0, part, text, signature. split_and!; try done; [by apply age_bound|].
  by apply list_elem_of_In.
Qed.

Lemma verify_sns_authentic net prefixes envelope u :
  verify_sns_signature net prefixes envelope = Ok u →
  ∃ certificate signature content sha1,
    validate_sns_signing_cert_url (sns_signing_cert_url envelope) prefixes = Ok tt ∧
    net_certificate net = Some certificate ∧
    base64_standard_decode (sns_signature envelope) = Some signature ∧
    sns_signed_content envelope = Ok content ∧ rsa_verify sha1 certificate content signature = true.
Proof.
  unfold verify_sns_signature. intros H. steps_Ok. destruct a.
  destruct (String.eqb _ "1"); [|destruct (String.eqb _ "2"); [|done]]; apply web_check_Ok in H;
    eexists _, _, _, _; split_and!; try exact H; done.
Qed.

Lemma parse_authentic utc_now net self req parsed :
  runtime_parse utc_now net self req = Ok parsed → authentic utc_now net self req.
Proof.
  destruct self as [secret max_age|key_name key|expected|topic auto prefixes]; simpl; intros H.
  - unfold resend_parse in H. steps_Ok.
    apply verify_resend_authentic in HS2 as (secs & at_ & part & text & sig & ? & ? & ? & ? & ? & ? & ?).
    eexists _, _, _, secs, at_, part, text, sig. split_and!; try eassumption.
  - unfold sendgrid_parse, verify_sendgrid_signature in H. steps_Ok. eexists _, _, _.
    split_and!; eassumption.
  - unfold brevo_parse in H. steps_Ok. intros name value. by eapply verify_expected_inv.
  - unfold aws_ses_parse in H. steps_Ok. apply String.eqb_eq in HS0. unfold from_slice in HS.
    apply ok_or_r_Ok, bind_Some in HS as (value & Hv & He).
    apply verify_sns_authentic in HS1 as (cert & sig & content & sha1 & ? & ? & ? & ? & ?).
    exists value, a, cert, sig, content, sha1. done.
Qed.


(** ** Callbacks served again *)

Ltac same_results :=
  repeat match goal with
  | H1 : ?x = Ok ?a, H2 : ?x = Ok ?b |- _ =>
      assert (b = a) by congruence; subst b; clear H2
  | H1 : ?x = Some ?a, H2 : ?x = Some ?b |- _ =>
      assert (b = a) by congruence; subst b; clear H2
  end.

(** What is parsed does not depend on when, nor on what the network answered. *)
Lemma parse_stable utc_now net utc_now' net' self req parsed parsed' :
  runtime_parse utc_now net self req = Ok parsed → runtime_parse utc_now' net' self req = Ok parsed' →
  parsed' = parsed.
Proof.
  destruct self as [secret max_age|key_name key|expected|topic auto prefixes]; simpl; intros H H'.
  - unfold resend_parse in H, H'. steps_Ok. same_results. congruence.
  - unfold sendgrid_parse in H, H'. steps_Ok. same_results. congruence.
  - unfold brevo_parse in H, H'. steps_Ok. same_results. congruence.
  - unfold aws_ses_parse in H, H'. steps_Ok. same_results.
    destruct (String.eqb _ "SubscriptionConfirmation"); [steps_Ok; congruence|].
    destruct (String.eqb _ "Notification"); [congruence|].
    destruct (String.eqb _ "UnsubscribeConfirmation"); congruence.
Qed.

(** What reconciling leaves alone. *)
Lemma reconcile_deliveries self q st u st' :
  reconcile_request_status self q st = (Ok u, st') →
  db_notification_deliveries (st_db st') = db_notification_deliveries (st_db st) ∧
  ∀ q' r req, db_notification_requests (st_db st) !! q' = Some r → NotificationRequest_try_from q' r = Ok req →
    ∃ r' req', db_notification_requests (st_db st') !! q' = Some r' ∧
      NotificationRequest_try_from q' r' = Ok req'.
Proof.
  unfold reconcile_request_status. intros H. apply bind_Ok_inv in H as (found & st1 & H1 & H).
  apply try_with_Ok_inv, lookup_request_inv in H1 as [-> Hf].
  destruct found as [req|]; [|injection H as _ <-; split; [done|eauto]].
  case_bool_decide as Hb1; [injection H as _ <-; split; [done|eauto]|].
  apply bind_Ok_inv in H as (l & st1 & H1 & H). apply try_with_Ok_inv, list_deliveries_inv in H1 as [-> _].
  case_bool_decide as Hb2; [injection H as _ <-; split; [done|eauto]|].
  apply bind_Ok_inv in H as (req' & st1 & H1 & H).
  apply try_with_Ok_inv, set_request_status_inv in H1 as (now & -> & _ & [D C]).
  assert (∃ f, st_db st' = on_notification_events f (st_db st1)) as [f Hf'].
  { destruct (reconcile_event _) as [[kind summary]|].
    - apply bind_Ok_inv in H as (? & st2 & H2 & H). apply try_with_Ok_inv, append_event_inv in H2 as [f [D2 _]].
      injection H as _ <-. by exists f.
    - injection H as _ <-. exists id. by destruct (st_db st1) as [???????????? ? []]. }
  rewrite Hf', D. split; [done|]. intros q' r rq Hr Hd. unfold db_notification_requests. simpl.
  rewrite lookup_alter. unfold db_notification_requests in Hr.
  case_decide as Eq; [|eauto]. subst q'. rewrite Hr.
  simpl. eexists _, _. split; [done|]. unfold NotificationRequest_try_from. simpl.
  by rewrite parse_request_status_to_db.
Qed.

Lemma lookup_delivery_run id st row :
  db_notification_deliveries (st_db st) !! id = row →
  notification_lookup_delivery id st =
    (match row with
     | None => Ok None
     | Some r => match NotificationDelivery_try_from id r with
                 | Ok d => Ok (Some d) | Err e => Err e end
     end, st).
Proof.
  intros <-. unfold notification_lookup_delivery, select_by_id, gets, keyed, try_into, of_result, mbind, M_bind.
  simpl. by destruct (_ !! id) as [r|]; simpl; [destruct (NotificationDelivery_try_from id r)|].
Qed.
Lemma lookup_request_run id st r req :
  db_notification_requests (st_db st) !! id = Some r → NotificationRequest_try_from id r = Ok req →
  notification_lookup_request id st = (Ok (Some req), st).
Proof.
  intros Hr Hd. unfold notification_lookup_request, select_by_id, gets, keyed, try_into, of_result, mbind, M_bind.
  simpl. rewrite Hr. simpl. by rewrite Hd.
Qed.

(** The update of a delivery has nothing more to say. *)
Definition said (update : DeliveryUpdate) (id : Ulid) (db : DB) : Prop :=
  ∀ row, db_notification_deliveries db !! id = Some row →
  ∃ del, NotificationDelivery_try_from id row = Ok del ∧
    (ndel_status del = Delivery_Cancelled ∨
     (∃ r req, db_notification_requests db !! ndel_notification_request_id del = Some r ∧
        NotificationRequest_try_from (ndel_notification_request_id del) r = Ok req) ∧
     should_apply_delivery_update (ndel_status del) (ndel_last_failure del) (du_status update) = false).

Lemma said_ignored self update id st :
  du_lookup update = Lookup_DeliveryId id → said update id (st_db st) →
  process_update self update st = (Ok None, st).
Proof.
  intros Hl Hq. unfold process_update, webhook_lookup_delivery, apply_delivery_update, or_internal. rewrite Hl.
  unfold try_with, mbind, M_bind. rewrite (lookup_delivery_run id st _ eq_refl).
  destruct (db_notification_deliveries (st_db st) !! id) as [row|] eqn:Hrow; [|done].
  destruct (Hq row Hrow) as (del & -> & [Hc|[(r & req & Hr & Hd) Hs]]); simpl.
  - by rewrite bool_decide_eq_true_2.
  - destruct (bool_decide (ndel_status del = Delivery_Cancelled)); [done|].
    rewrite (lookup_request_run _ _ _ _ Hr Hd). simpl. by rewrite Hs.
Qed.

(** What is persisted can be read again. *)
Lemma persisted_readable k row del del' :
  NotificationDelivery_try_from k row = Ok del →
  ∃ del2, NotificationDelivery_try_from k (DeliveryRow_persist del' row) = Ok del2 ∧
    ndel_status del2 = ndel_status del' ∧ ndel_last_failure del2 = ndel_last_failure del' ∧
    ndel_notification_request_id del2 = DeliveryRow_notification_request_id row.
Proof.
  unfold NotificationDelivery_try_from. simpl. intros (c & -> & H)%result_bind_Ok.
  apply result_bind_Ok in H as (n & Hn & _). simpl. rewrite Hn. simpl.
  rewrite parse_delivery_status_to_db. simpl. eexists. split; [done|]. done.
Qed.

Lemma process_update_said self update id st o st' :
  du_lookup update = Lookup_DeliveryId id → process_update self update st = (Ok o, st') →
  said update id (st_db st').
Proof.
  unfold process_update, webhook_lookup_delivery. intros -> H.
  apply bind_Ok_inv in H as (found & st1 & H1 & H). apply try_with_Ok_inv, lookup_delivery_inv in H1 as [-> Hf].
  destruct found as [del|]; [|injection H as _ <-; intros row Hr; congruence].
  destruct Hf as (row & Hrow & Hdec). destruct (bool_decide_reflect (ndel_status del = Delivery_Cancelled)) as [Hc|Hc].
  { injection H as _ <-. intros row' Hr'. replace row' with row by congruence. exists del. auto. }
  apply bind_Ok_inv in H as (found & st1 & H1 & H). apply try_with_Ok_inv, lookup_request_inv in H1 as [-> Hf].
  apply bind_Ok_inv in H as (req & st1 & H1 & H). apply ok_or_Ok_inv in H1 as [-> ->].
  destruct Hf as (r & Hr & Hreq).
  pose proof (delivery_try_from_inv _ _ _ Hdec) as (Hk & Hq & _).
  apply bind_Ok_inv in H as (changed & st2 & H2 & H). unfold apply_delivery_update in H2.
  destruct (should_apply_delivery_update _ _ _) eqn:Happ.
  2:{ injection H2 as <- <-. injection H as _ <-. intros row' Hr'. replace row' with row by congruence.
      exists del. split; [done|]. right. split; [by exists r, req|done]. }
  apply bind_Ok_inv in H2 as (del' & st3 & H2 & H3). injection H3 as <- <-.
  assert (∃ del', ran st st3 (on_notification_deliveries (alter (DeliveryRow_persist del') id)) ∧
    should_apply_delivery_update (ndel_status del') (ndel_last_failure del') (du_status update) = false)
    as (del2 & [D _] & Hs).
  { destruct (du_status update) as [|failure]; apply try_with_Ok_inv in H2.
    - apply mark_delivered_inv in H2 as (now & -> & _ & H2). rewrite Hk in H2. eexists. by split; [exact H2|].
    - apply mark_failed_inv in H2 as (now & -> & _ & H2). rewrite Hk in H2. eexists. split; [exact H2|].
      simpl. by rewrite bool_decide_eq_true_2. }
  apply bind_Ok_inv in H as (? & st4 & H4 & H). apply try_with_Ok_inv, append_event_inv in H4 as [f [D4 _]].
  injection H as _ <-. intros row' Hr'. rewrite D4, D in Hr'. unfold db_notification_deliveries in Hr', Hrow.
  simpl in Hr'. rewrite lookup_alter_eq, Hrow in Hr'. injection Hr' as <-.
  destruct (persisted_readable _ _ _ del2 Hdec) as (del3 & Hd3 & Es & Ef & Eq). exists del3. split; [done|].
  right. rewrite Es, Ef, Eq, <-Hq. split; [|done]. exists r, req. rewrite D4, D. done.
Qed.

Lemma said_reconcile self update id q st u st' :
  reconcile_request_status self q st = (Ok u, st') → said update id (st_db st) → said update id (st_db st').
Proof.
  intros [Ed Hr]%reconcile_deliveries Hq row Hrow. rewrite Ed in Hrow.
  destruct (Hq row Hrow) as (del & Hd & [Hc|[(r & req & H1 & H2) Hs]]); exists del; split; auto.
  right. split; [|done]. by eapply Hr.
Qed.
Lemma said_reconcile_all self update id l st u st' :
  for_each (reconcile_request_status self) l st = (Ok u, st') →
  said update id (st_db st) → said update id (st_db st').
Proof.
  revert st. induction l as [|q l IH]; intros st H Hq; simpl in H; [by injection H as _ <-|].
  apply bind_Ok_inv in H as (? & st1 & H1 & H). eapply IH; [exact H|]. by eapply said_reconcile.
Qed.

(** A callback about one delivery, named by the tag its message was given, that was accepted and is
    served again, at any time at which it is still accepted as authentic, is answered well, is
    ignored and changes nothing. *)
Theorem callback_again_is_ignored utc_now net utc_now' net' self provider req parsed update id st res st1 st2 :
  webhook_post utc_now net (Some self) provider req st = (Ok res, st1) →
  runtime_parse utc_now net self req = Ok parsed → pw_updates parsed = [update] →
  du_lookup update = Lookup_DeliveryId id →
  (∃ parsed', runtime_parse utc_now' net' self req = Ok parsed') →
  st_committed st2 = st_committed st1 → st_db st2 = st_committed st2 →
  ∃ st3, webhook_post utc_now' net' (Some self) provider req st2 =
    (Ok {| whr_processed := 0; whr_ignored := 1;
           whr_subscription_confirmed := pw_subscription_confirmed parsed |}, st3) ∧
    st_committed st3 = st_committed st2.
Proof.
  intros H Hp Hu Hl [parsed' Hp'] Ec Edb. assert (parsed' = parsed) as -> by (by eapply parse_stable).
  unfold webhook_post in H. apply bind_Ok_inv in H as (? & s1 & H1 & H). apply require_inv in H1 as [Hlen ->].
  apply bind_Ok_inv in H as (self' & s1 & H1 & H). apply ok_or_Ok_inv in H1 as [[= <-] ->].
  apply bind_Ok_inv in H as (r & s1 & H1 & H). apply try_with_Ok_inv in H1.
  apply bind_Ok_inv in H as (? & s2 & H2 & H). injection H2 as _ <-. injection H as _ <-. simpl in Ec.
  unfold webhook_process in H1. apply bind_Ok_inv in H1 as (? & s2 & H2 & H1). apply require_inv in H2 as [Hacc ->].
  apply bind_Ok_inv in H1 as (parsed0 & s2 & H2 & H1). rewrite Hp in H2. injection H2 as <- <-.
  apply bind_Ok_inv in H1 as ([touched n] & s2 & H2 & H1). rewrite Hu in H2. simpl in H2.
  apply bind_Ok_inv in H2 as (o & s3 & H2 & H3). injection H3 as _ <-.
  apply process_update_said with (id:=id) in H2; [|done].
  apply bind_Ok_inv in H1 as (? & s4 & H4 & H1). injection H1 as _ <-.
  eapply said_reconcile_all in H4; [|exact H2].
  assert (process_update self update st2 = (Ok None, st2)) as Hi.
  { apply said_ignored with (id:=id); [done|]. by rewrite Edb, Ec. }
  assert (webhook_process utc_now' net' self provider req st2 =
    (Ok {| whr_processed := 0; whr_ignored := 1;
           whr_subscription_confirmed := pw_subscription_confirmed parsed |}, st2)) as Hrun.
  { unfold webhook_process, require. rewrite Hacc, Hp'. cbn [of_result].
    unfold mbind, M_bind, mret, M_ret. cbn. rewrite Hu. cbn [process_updates].
    unfold mbind, M_bind. rewrite Hi. cbn. done. }
  exists (with_committed (st_db st2) (st_db st2) st2). split; [|simpl; congruence].
  unfold webhook_post, require. rewrite Hlen. unfold mbind, M_bind, try_with, mret, M_ret, ok_or.
  cbn -[webhook_process]. by rewrite Hrun.
Qed.

(** With the prefixes of the default configuration, a certificate is also taken from a bucket of
    AWS, which anyone may name so. *)
Lemma lookalike_signing_host_accepted text url :
  url_parse text = Some url → url_scheme url = "https" → url_username url = "" → url_password url = None →
  url_port url = None → url_query url = None → url_fragment url = None →
  url_host_str url = Some "sns-mine.s3.amazonaws.com" →
  url_path url = "/SimpleNotificationService-mine.pem" →
  validate_sns_signing_cert_url text ["https://sns."; "https://sns-"] = Ok tt.
Proof.
  intros H1 H2 H3 H4 H5 H6 H7 H8 H9. unfold validate_sns_signing_cert_url.
  rewrite H1. simpl. rewrite H2, H3, H4, H5, H6, H7, H8, H9. simpl. reflexivity.
Qed.
End webhook.

(** ** Examples *)

#[local] Existing Instances World.TX World.PX World.UX World.DX World.HX World.JX World.LX World.XX World.VX World.BX World.NX World.YX World.QX.

Definition resend : ProviderRuntime := Runtime_Resend [] 300.
Definition no_network : WebhookNetwork := {| net_certificate := None; net_confirmed := false |}.
Definition signed_callback (body : string) : WebhookRequest :=
  {| wrq_headers := <["svix-id" := "id"]> (<["svix-timestamp" := "1700000000"]>
       (<["svix-signature" := "v1,id.1700000000." +:+ body]> ∅));
     wrq_body := body |}.

(** The message of Alice's verification was delivered, then it bounces. *)
Definition delivered_db : DB :=
  js_committed (process_notification_deliveries by_email example_urls 10 verification_queued).2.
Lemma delivered_wf : wf delivered_db.
Proof.
  unfold delivered_db.
  destruct (process_notification_deliveries by_email example_urls 10 verification_queued) as [res js'] eqn:H.
  exact (proj1 (process_notification_deliveries_good _ _ _ _ _ _ H verification_queued_wf)).
Qed.


(** A delivery that waits, and its request. *)
Definition waiting_db : DB :=
  on_notifications (λ _, mkNotifications
    {[ 400 := {| RequestRow_template_key := TEMPLATE_EMAIL_VERIFICATION; RequestRow_locale := "en";
                 RequestRow_source := Source_UserEmailAuthentication 70;
                 RequestRow_payload := Payload_Verification "123456" "en";
                 RequestRow_dedupe_key := None; RequestRow_correlation_key := None;
                 RequestRow_status := "pending"; RequestRow_created_at := World.NOW;
                 RequestRow_scheduled_at := World.NOW; RequestRow_started_at := None;
                 RequestRow_completed_at := None; RequestRow_cancelled_at := None |} ]}
    {[ 500 := new_delivery_row World.NOW 400
                (delivery_params Channel_Email (Destination_Email "alice@other.example") (Some "email.resend")) ]}
    ∅ ∅) alice_db.

Lemma callback_again_is_ignored_witness :
  ∃ res st1 st3, webhook_post World.NOW no_network (Some resend) "resend" (signed_callback "tagged")
      (World.at_db waiting_db) = (Ok res, st1) ∧ whr_processed res = 1%nat ∧
    webhook_post (World.NOW + 1000000) no_network (Some resend) "resend" (signed_callback "tagged")
      (World.at_db (st_committed st1)) =
      (Ok {| whr_processed := 0; whr_ignored := 1; whr_subscription_confirmed := false |}, st3) ∧
    st_committed st3 = st_committed st1.
Proof.
  destruct (webhook_post World.NOW no_network (Some resend) "resend" (signed_callback "tagged")
      (World.at_db waiting_db)) as [res st1] eqn:H.
  assert (match res with Ok r => whr_processed r = 1%nat | Err _ => False end) as Hr.
  { change res with (res, st1).1. rewrite <-H. vm_compute. reflexivity. }
  destruct res as [r|e]; [|destruct Hr].
  destruct (runtime_parse World.NOW no_network resend (signed_callback "tagged")) as [parsed|] eqn:Hp;
    [|vm_compute in Hp; discriminate Hp].
  destruct (pw_updates parsed) as [|u [|u' l]] eqn:Hu;
    [vm_compute in Hp; injection Hp as <-; discriminate Hu| |vm_compute in Hp; injection Hp as <-; discriminate Hu].
  assert (du_lookup u = Lookup_DeliveryId 500) as Hl.
  { vm_compute in Hp. injection Hp as <-. injection Hu as <-. reflexivity. }
  assert (pw_subscription_confirmed parsed = false) as Hf.
  { vm_compute in Hp. injection Hp as <-. reflexivity. }
  assert (∃ parsed', runtime_parse (World.NOW + 1000000) no_network resend (signed_callback "tagged") = Ok parsed')
    as Hp' by (eexists; vm_compute; reflexivity).
  destruct (callback_again_is_ignored _ _ (World.NOW + 1000000) no_network _ _ _ _ _ _ _ _ _
    (World.at_db (st_committed st1)) H Hp Hu Hl Hp' eq_refl eq_refl) as (st3 & H3 & Hc).
  exists r, st1, st3. split; [reflexivity|]. split; [exact Hr|]. rewrite Hf in H3. split; [exact H3|exact Hc].
Defined.
