(* ===== verification/ClientRegistrationProofs.v ===== *)
(** Dynamic client registration: what a granted registration asks for and
    stores, that it is idempotent, and what the stored client can do. *)
From S2P Require Import Prelude Ids RateLimit TokenFormat ResponseTypes Scope Pkce Jose Keystore Domain Accounts Database Repository ClientMetadata ClientRepository Handlers ClientAuth ClientRegistration World RepositorySpec AccountSpec ClientAuthProofs AccountIntegrity.

Open Scope Z_scope.

(** ** Texts *)

Lemma substring_split n s :
  (n ≤ String.length s)%nat →
  s = String.substring 0 n s +:+ String.substring n (String.length s - n) s.
Proof.
  revert n. induction s as [|a s IH]; intros [|n] Hn; try done.
  - assert (∀ t, String.substring 0 (String.length t) t = t) as Hall.
    { intros t. induction t as [|b t IHt]; [done|]. simpl. by rewrite IHt. }
    rewrite Nat.sub_0_r, Hall. done.
  - simpl in Hn |- *. rewrite (IH n) at 1 by lia. done.
Qed.
Lemma ends_with_app suffix s : ends_with suffix s = true → ∃ p, s = p +:+ suffix.
Proof.
  unfold ends_with. rewrite andb_true_iff, Nat.leb_le, bool_decide_eq_true. intros [Hl Hs].
  exists (String.substring 0 (String.length s - String.length suffix) s).
  rewrite <-Hs at 2. rewrite (substring_split (String.length s - String.length suffix) s) at 1 by lia.
  do 2 f_equal. lia.
Qed.

(** ** What is asked of a request *)

Section registration.
Context {UX : UrlExternals} {VX : UrlPartsExternals} {DX : DbExternals} {KX : MetadataExternals}.
Context {HX : HandlerExternals} {CX : ClientRegistrationExternals}.

(** A redirect URI that belongs to the client of [base_host]: on its host or below it; for a
    native application also the loopback interface, or a scheme of the reversed host. *)
Inductive redirect_owned (base_host : string) (native : bool) (uri : Url) : Prop :=
| owned_https host :
    url_scheme uri = "https" → url_username uri = "" → url_password uri = None →
    url_host_str uri = Some host → (host = base_host ∨ ∃ p, host = p +:+ "." +:+ base_host) →
    redirect_owned base_host native uri
| owned_loopback :
    native = true → url_scheme uri = "http" → url_port uri = None →
    url_username uri = "" → url_password uri = None → is_loopback_host uri = true →
    redirect_owned base_host native uri
| owned_private :
    native = true → url_host_str uri = None → url_scheme uri ≠ "http" → url_scheme uri ≠ "https" →
    (url_scheme uri = reverse_host base_host ∨
     starts_with (reverse_host base_host +:+ ".") (url_scheme uri) = true) →
    redirect_owned base_host native uri.

Lemma redirect_uri_allowed_owned base_host native uri :
  redirect_uri_allowed base_host native uri = true → redirect_owned base_host native uri.
Proof.
  unfold redirect_uri_allowed, https_client_host, loopback_redirect, private_scheme.
  destruct (url_host_str uri) as [host|] eqn:Hh;
    rewrite !orb_true_iff, !andb_true_iff, ?orb_true_iff, ?andb_true_iff, ?orb_true_iff, ?negb_true_iff,
      ?bool_decide_eq_true, ?bool_decide_eq_false.
  - intros [[[[? ?] ?] [->|[p Hp]%ends_with_app]]|[-> [[[[[? ?] ?] ?] ?]|[[[? ?] ?] _]]]];
      [by eapply owned_https; eauto|by eapply owned_https; eauto|by apply owned_loopback|done].
  - intros [[_ ?]|[-> [[[[[? ?] ?] ?] ?]|[[[? ?] ?] Hs]]]];
      [done|by apply owned_loopback|by apply owned_private; rewrite ?orb_true_iff, ?bool_decide_eq_true in Hs].
Qed.

(** What the Matrix rules ask: an [https] client URI without credentials, and redirect URIs that
    belong to its host. *)
Definition redirects_bound (m : ClientMetadata) : Prop :=
  ∃ localized client_uri base_host,
    cm_client_uri m = Some localized ∧ localized_default_value localized = Some client_uri ∧
    url_scheme client_uri = "https" ∧ url_username client_uri = "" ∧ url_password client_uri = None ∧
    url_host_str client_uri = Some base_host ∧
    ∀ uri, uri ∈ default [] (cm_redirect_uris m) → redirect_owned base_host (is_native m) uri.

Lemma check_redirect_uris_Ok base_host native uris :
  check_redirect_uris base_host native uris = Ok tt →
  ∀ uri, uri ∈ uris → redirect_owned base_host native uri.
Proof.
  induction uris as [|u uris IH]; simpl; [by intros _ ? ?%elem_of_nil|].
  destruct (redirect_uri_allowed base_host native u) eqn:E; [|done].
  intros H uri [->|Hin]%elem_of_cons; [by apply redirect_uri_allowed_owned|by apply IH].
Qed.
Lemma validate_matrix_Ok m :
  validate_matrix_redirect_uris {| verified_inner := m |} = Ok tt → redirects_bound m.
Proof.
  unfold validate_matrix_redirect_uris, redirects_bound. simpl.
  destruct (cm_client_uri m) as [l|] eqn:El; [|done]. unfold Localized_non_localized.
  destruct (localized_default_value l) as [u|] eqn:Eu; [|done].
  destruct (decide (url_scheme u = "https")) as [Hs|Hs];
    [rewrite bool_decide_eq_true_2 by done|rewrite bool_decide_eq_false_2 by done; done].
  destruct (decide (url_username u = "")) as [Hn|Hn];
    [rewrite bool_decide_eq_true_2 by done|rewrite bool_decide_eq_false_2 by done; done].
  destruct (url_password u) as [w|] eqn:Hp; [rewrite bool_decide_eq_true_2 by done; done|].
  rewrite bool_decide_eq_false_2 by (by intros []). simpl.
  destruct (url_host_str u) as [h|] eqn:Hh; [|done]. intros Hc.
  exists l, u, h. split_and!; try done. intros uri Hin. by eapply check_redirect_uris_Ok.
Qed.

(** A request that passes every check, with its metadata in order. *)
Record request_accepted (raw : option Json) (ip : option IpAddr) (ua : option string)
    (m : ClientMetadata) : Prop := {
  ra_policy : policy_instantiates = true;
  ra_body : ∃ v body, raw = Some v ∧ metadata_from_value v = Some body ∧ m = ClientMetadata_sorted body ∧
            Forall (λ uri, loopback_redirect_has_explicit_port uri = false) (raw_redirect_uris v);
  ra_valid : metadata_valid m;
  ra_matrix : validate_matrix_redirect_uris {| verified_inner := m |} = Ok tt;
  ra_suffix : public_suffix_field {| verified_inner := m |} = None;
  ra_evaluated : evaluate_client_registration
    {| cri_client_metadata := {| verified_inner := m |}; cri_ip_address := ip; cri_user_agent := ua |}
    = Some [];
}.

(** What is left once the request is accepted. *)
Definition register_accepted (m : ClientMetadata) (sample20 : string) (nonce : list Z)
    : M St ClientRegistrationError RegistrationRouteResponse :=
  '(client_secret, encrypted_client_secret) ← generate_client_secret sample20 nonce m;
  '(digest_hash, existing_client) ← find_existing client_secret (metadata_to_string m);
  client ← match existing_client with
           | Some client => mret client
           | None => add_client {| verified_inner := m |} digest_hash encrypted_client_secret
           end;
  metadata ← of_result (result_map_err ClientReg_InvalidClientMetadata
    (ClientMetadata_validate (Client_into_metadata client)));
  _ ← repo_save;
  mret {| rrr_response := {| crr_client_id := Client_client_id client;
                             crr_client_secret := client_secret;
                             crr_client_id_issued_at := Some (Ulid_datetime (Client_id client));
                             crr_client_secret_expires_at := None |};
          rrr_metadata := metadata |}.

Lemma handle_post_accepted raw ip ua sample20 nonce st reply st' :
  client_registration_handle_post raw ip ua sample20 nonce st = (Ok reply, st') ↔
  ∃ m, request_accepted raw ip ua m ∧ register_accepted m sample20 nonce st = (Ok reply, st').
Proof.
  split.
  - unfold client_registration_handle_post. intros H.
    apply bind_Ok_inv in H as (? & ? & [Hpol ->]%require_inv & H).
    apply bind_Ok_inv in H as (v & ? & [-> ->]%ok_or_Ok_inv & H).
    apply bind_Ok_inv in H as (? & ? & [Hport ->]%require_inv & H).
    apply bind_Ok_inv in H as (body & ? & [Hbody ->]%ok_or_Ok_inv & H).
    apply bind_Ok_inv in H as (w & ? & [[-> Hv]%validate_Ok ->]%of_result_map_err_inv & H).
    apply bind_Ok_inv in H as ([] & ? & [= Hmat <-] & H).
    apply bind_Ok_inv in H as (? & ? & Hsuf & H).
    apply bind_Ok_inv in H as (res & ? & [Hev ->]%ok_or_Ok_inv & H).
    apply bind_Ok_inv in H as (? & ? & [Hok ->]%require_inv & H).
    destruct (public_suffix_field _) eqn:Hps; [done|]. injection Hsuf as _ <-.
    apply bool_decide_eq_true in Hok. subst res.
    exists (ClientMetadata_sorted body). split; [|exact H]. split; try done.
    exists v, body. split_and!; try done. rewrite negb_true_iff, existsb_false in Hport.
    by apply Forall_forall.
  - intros (m & [Hpol (v & body & -> & Hbody & -> & Hport) Hv Hmat Hps Hev] & H).
    unfold client_registration_handle_post. rewrite Hpol.
    assert (existsb loopback_redirect_has_explicit_port (raw_redirect_uris v) = false) as Hp'
      by (apply existsb_false; by apply Forall_forall).
    etrans; [apply (bind_Ok _ _ _ tt st); done|]. etrans; [apply (bind_Ok _ _ _ v st); done|].
    etrans; [apply (bind_Ok _ _ _ tt st); by rewrite Hp'|].
    etrans; [apply (bind_Ok _ _ _ body st); by rewrite Hbody|].
    etrans; [apply (bind_Ok _ _ _ {| verified_inner := ClientMetadata_sorted body |} st);
      by rewrite (proj2 (validate_Ok (ClientMetadata_sorted body) _) (conj eq_refl Hv))|].
    etrans; [apply (bind_Ok _ _ _ tt st); by rewrite Hmat|].
    etrans; [apply (bind_Ok _ _ _ tt st); by rewrite Hps|].
    etrans; [apply (bind_Ok _ _ _ [] st); by rewrite Hev|].
    etrans; [apply (bind_Ok _ _ _ tt st); done|]. exact H.
Qed.

(** ** What is stored *)

(** The row of a new client. *)
Definition registered_row (m : ClientMetadata) (digest secret : option string) : OAuth2ClientRow :=
  ClientRow_set_localized (localized_rows (collect_localized_metadata {| verified_inner := m |}))
    (new_client_row (new_client {| verified_inner := m |} digest secret)).

Lemma localized_rows_empty m : LocalizedClientMetadata_is_empty m = true → localized_rows m = [].
Proof.
  unfold LocalizedClientMetadata_is_empty, localized_rows. rewrite !andb_true_iff, !bool_decide_eq_true.
  by intros [[[[-> ->] ->] ->] ->].
Qed.

Lemma client_add_inv c st client st' :
  oauth2_client_add c st = (Ok client, st') →
  ∃ jwks, client = added_client (Client_id client) jwks c ∧ jwks_or_uri (nc_jwks c) (nc_jwks_uri c) = Ok jwks ∧
    client_violation (Client_id client) (nc_metadata_digest c) (st_db st) = None ∧
    ran st st' (on_clients <[Client_id client := new_client_row c]>).
Proof.
  unfold oauth2_client_add. intros H. repo_inv. same_norm. injection Hm0 as Hj ->. by exists a1.
Qed.

Lemma db_clients_on f db : db_clients (on_clients f db) = f (db_clients db).
Proof. done. Qed.
Lemma on_clients_on f g db : on_clients f (on_clients g db) = on_clients (λ m, f (g m)) db.
Proof. done. Qed.
Lemma on_clients_ext f g db : f (db_clients db) = g (db_clients db) → on_clients f db = on_clients g db.
Proof. intros E. unfold on_clients. by rewrite E. Qed.

Lemma update_clients_run id f st r :
  db_clients (st_db st) !! id = Some r →
  update_by_id db_clients on_clients no_violation id f st = (Ok 1%nat, on_db (on_clients (alter f id)) st).
Proof. intros E. unfold update_by_id. by rewrite E. Qed.

Lemma replace_localized_run id metadata st r :
  db_clients (st_db st) !! id = Some r →
  ∃ st', replace_localized_metadata id metadata st = (Ok tt, st') ∧
    ran st st' (on_clients (alter (ClientRow_set_localized (localized_rows metadata)) id)).
Proof.
  intros Hr. unfold replace_localized_metadata.
  rewrite (bind_Ok _ _ _ _ _ (update_clients_run id _ st r Hr)). case_bool_decide as He.
  - eexists. split; [reflexivity|]. by rewrite He.
  - assert (db_clients (st_db (on_db (on_clients (alter (ClientRow_set_localized []) id)) st)) !! id =
            Some (ClientRow_set_localized [] r)) as Hr2.
    { change (alter (ClientRow_set_localized []) id (db_clients (st_db st)) !! id =
        Some (ClientRow_set_localized [] r)). by rewrite lookup_alter_eq, Hr. }
    eexists. rewrite (bind_Ok _ _ _ _ _ (update_clients_run id _ _ _ Hr2)). split; [reflexivity|].
    split; [|done]. simpl. rewrite on_clients_on. apply on_clients_ext. apply map_eq. intros k.
    destruct (decide (k = id)) as [->|Hk].
    + rewrite !lookup_alter_eq, Hr. done.
    + by rewrite !lookup_alter_ne by done.
Qed.

(** Adding a client stores one row, under a key and a digest that were free. *)
Lemma add_client_inv m digest secret st client st' :
  add_client {| verified_inner := m |} digest secret st = (Ok client, st') →
  ∃ jwks, jwks_or_uri (cm_jwks m) (cm_jwks_uri m) = Ok jwks ∧
    client = Client_with_localized
      (added_client (Client_id client) jwks (new_client {| verified_inner := m |} digest secret))
      (collect_localized_metadata {| verified_inner := m |}) ∧
    client_violation (Client_id client) digest (st_db st) = None ∧
    ran st st' (on_clients <[Client_id client := registered_row m digest secret]>).
Proof.
  unfold add_client. intros H.
  apply bind_Ok_inv in H as (c & st1 & Hadd%try_with_Ok_inv & H).
  apply client_add_inv in Hadd as (jwks & Hc & Hj & Hv & Hr).
  set (c0 := new_client _ digest secret) in *. exists jwks. split; [exact Hj|].
  destruct (LocalizedClientMetadata_is_empty _) eqn:He; simpl in H.
  - injection H as <- <-. split_and!; [|done|].
    + rewrite Hc at 1. unfold LocalizedClientMetadata_is_empty in He.
      rewrite !andb_true_iff, !bool_decide_eq_true in He.
      destruct (collect_localized_metadata _) as [? ? ? ? ?]; simpl in He.
      destruct He as [[[[-> ->] ->] ->] ->]. done.
    + unfold registered_row. rewrite localized_rows_empty by done. exact Hr.
  - apply bind_Ok_inv in H as (u & st2 & Hrep%try_with_Ok_inv & [= <- <-]).
    destruct (replace_localized_run (Client_id c) (collect_localized_metadata {| verified_inner := m |})
      st1 (new_client_row c0)) as (st3 & E & Hr').
    { destruct Hr as [-> _]. rewrite db_clients_on. apply lookup_insert_eq. }
    rewrite E in Hrep. injection Hrep as _ <-. split_and!; [by rewrite Hc|done|].
    destruct Hr as [E1 C1], Hr' as [E2 C2]. split; [|by rewrite C2]. rewrite E2, E1, on_clients_on.
    apply on_clients_ext. simpl. by rewrite alter_insert_eq.
Qed.

Lemma Client_try_from_id id row c : Client_try_from id row = Ok c → Client_id c = id.
Proof. unfold Client_try_from, result_bind. intros Hd. repeat case_match; by simplify_eq/=. Qed.
Lemma Client_try_from_text id row c :
  Client_try_from id row = Ok c → Client_client_id c = ulid_to_string id.
Proof. unfold Client_try_from, result_bind. intros Hd. repeat case_match; by simplify_eq/=. Qed.
Lemma client_violation_free id digest db :
  client_violation id digest db = None → db_clients db !! id = None.
Proof.
  unfold client_violation, pk_taken. simpl. case_bool_decide as Hn; [done|]. intros _.
  by apply eq_None_not_Some.
Qed.
Lemma find_by_metadata_digest_inv d st o st' :
  oauth2_client_find_by_metadata_digest d st = (Ok o, st') →
  st' = st ∧ match o with
             | None => find_first (has_metadata_digest d) (db_clients (st_db st)) = None
             | Some c => ∃ row, find_first (has_metadata_digest d) (db_clients (st_db st)) = Some (Client_id c, row) ∧
                 Client_try_from (Client_id c) row = Ok c
             end.
Proof.
  unfold oauth2_client_find_by_metadata_digest. intros H. repo_inv. split; [done|].
  destruct o as [c|]; [|done]. destruct H as (id & row & Hf & Hd).
  pose proof (Client_try_from_id _ _ _ Hd) as E. rewrite E. eauto.
Qed.

(** The two outcomes of a registration that was accepted. *)
Lemma register_accepted_inv m sample20 nonce st reply st' :
  register_accepted m sample20 nonce st = (Ok reply, st') →
  ∃ client digest secret encrypted,
    (if secret_method (cm_token_endpoint_auth_method m)
     then secret = Some sample20 ∧ digest = None ∧
          ∃ e, encrypted = Some e ∧ encrypt_to_string nonce (as_bytes sample20) = Some e
     else secret = None ∧ encrypted = None ∧ digest = Some (sha256_hex (metadata_to_string m))) ∧
    rrr_response reply = {| crr_client_id := Client_client_id client; crr_client_secret := secret;
                            crr_client_id_issued_at := Some (Ulid_datetime (Client_id client));
                            crr_client_secret_expires_at := None |} ∧
    rrr_metadata reply = {| verified_inner := Client_into_metadata client |} ∧
    metadata_valid (Client_into_metadata client) ∧
    st_committed st' = st_db st' ∧
    ((∃ d row, digest = Some d ∧ st_db st' = st_db st ∧
        find_first (has_metadata_digest d) (db_clients (st_db st)) = Some (Client_id client, row) ∧
        Client_try_from (Client_id client) row = Ok client) ∨
     (∃ jwks, jwks_or_uri (cm_jwks m) (cm_jwks_uri m) = Ok jwks ∧
        client = Client_with_localized
          (added_client (Client_id client) jwks (new_client {| verified_inner := m |} digest encrypted))
          (collect_localized_metadata {| verified_inner := m |}) ∧
        client_violation (Client_id client) digest (st_db st) = None ∧
        st_db st' = on_clients <[Client_id client := registered_row m digest encrypted]> (st_db st))).
Proof.
  unfold register_accepted. intros H.
  apply bind_Ok_inv in H as ([secret encrypted] & st1 & Hgen & H).
  assert (st1 = st ∧ if secret_method (cm_token_endpoint_auth_method m)
     then secret = Some sample20 ∧
          ∃ e, encrypted = Some e ∧ encrypt_to_string nonce (as_bytes sample20) = Some e
     else secret = None ∧ encrypted = None) as [-> Hsec].
  { unfold generate_client_secret in Hgen. destruct (secret_method _); [|by injection Hgen as <- <- <-].
    apply bind_Ok_inv in Hgen as (e & ? & [He ->]%ok_or_Ok_inv & [= <- <- <-]). eauto. }
  clear Hgen.
  apply bind_Ok_inv in H as ([digest existing] & st2 & Hfind & H).
  assert (st2 = st ∧ (existing = None ∨ ∃ c d row, existing = Some c ∧ digest = Some d ∧
      find_first (has_metadata_digest d) (db_clients (st_db st)) = Some (Client_id c, row) ∧
      Client_try_from (Client_id c) row = Ok c) ∧
    digest = match secret with Some _ => None | None => Some (sha256_hex (metadata_to_string m)) end)
    as (-> & Hex & Hdig).
  { unfold find_existing in Hfind. destruct secret; [injection Hfind as <- <- <-; by auto|].
    apply bind_Ok_inv in Hfind as (c & st3 & Hf%try_with_Ok_inv & [= <- <- <-]).
    apply find_by_metadata_digest_inv in Hf as [-> Hc]. split; [done|]. split; [|done].
    destruct c as [c|]; [right|by left]. destruct Hc as (row & ? & ?). eauto 10. }
  clear Hfind. apply bind_Ok_inv in H as (client & st3 & Hcl & H).
  apply bind_Ok_inv in H as (md & ? & [[-> Hval]%validate_Ok ->]%of_result_map_err_inv & H).
  injection H as <- <-. exists client, digest, secret, encrypted. simpl.
  split; [|split; [done|split; [done|split; [done|split; [done|]]]]].
  - destruct (secret_method _); [destruct Hsec as (-> & ?)|destruct Hsec as [-> ->]]; by subst digest.
  - destruct Hex as [->|(c & d & row & -> & -> & Hf & Hd)].
    + right. apply add_client_inv in Hcl as (jwks & ? & ? & ? & [? _]). eauto.
    + left. injection Hcl as <- <-. exists d, row. split_and!; done.
Qed.

(** The metadata of a client say nothing of response types, so that [code] is assumed. *)
Lemma implicit_needs_code c m :
  Client_grant_types c = ClientMetadata_grant_types m → metadata_valid (Client_into_metadata c) →
  GrantType_Implicit ∈ ClientMetadata_grant_types m → GrantType_AuthorizationCode ∈ ClientMetadata_grant_types m.
Proof.
  intros E Hv Hi. rewrite <-E in Hi |- *.
  assert (ClientMetadata_grant_types (Client_into_metadata c) = Client_grant_types c) as Eg
    by (unfold Client_into_metadata; by destruct (Client_jwks c) as [[]|]).
  rewrite <-Eg. apply (mv_response_types _ Hv {[ResponseType_Code]}); [|set_solver].
  unfold checked_response_types, has_implicit. rewrite Eg, (bool_decide_eq_true_2 _ Hi), orb_true_r.
  unfold Client_into_metadata. destruct (Client_jwks c) as [[]|]; by left.
Qed.

Lemma registration_commits raw ip ua sample20 nonce :
  commits_on_success (client_registration_handle_post raw ip ua sample20 nonce).
Proof.
  unfold client_registration_handle_post.
  repeat (apply commits_bind; [solve [solve_keeps]|intros ?]).
  apply commits_bind; [unfold generate_client_secret; solve [solve_keeps]|intros []].
  apply commits_bind; [unfold find_existing, oauth2_client_find_by_metadata_digest, try_into; solve [solve_keeps]|intros []].
  apply commits_bind; [unfold add_client, oauth2_client_add, replace_localized_metadata; solve [solve_keeps]|intros ?].
  apply commits_bind; [solve [solve_keeps]|intros ?]. apply commits_save.
Qed.


(** ** What the stored client decodes to *)

(** The parsers of the libraries are the identity on what they give. *)
Class StableExternals : Prop := {
  url_parse_stable s u : url_parse s = Some u → url_parse u = Some u;
  jwks_stable v jwks : jwks_from_value v = Some jwks → jwks_from_value (jwks_to_value jwks) = Some jwks;
}.

Definition stable_url (u : Url) : Prop := url_parse u = Some u.
Definition stable_method (m : OAuthClientAuthenticationMethod) : Prop :=
  auth_method_from_str (auth_method_to_string m) = m.

Definition stable_alg (a : JsonWebSignatureAlg) : Prop :=
  JsonWebSignatureAlg_from_str (JsonWebSignatureAlg_to_string a) = a.

(** Metadata that a row keeps as they are. *)
Record stable (m : ClientMetadata) : Prop := {
  st_redirects : ∀ l, cm_redirect_uris m = Some l → Forall stable_url l;
  st_jwks_uri : ∀ u, cm_jwks_uri m = Some u → stable_url u;
  st_jwks : ∀ j, cm_jwks m = Some j → jwks_from_value (jwks_to_value j) = Some j;
  st_login : ∀ u, cm_initiate_login_uri m = Some u → stable_url u;
  st_method : ∀ a, cm_token_endpoint_auth_method m = Some a → stable_method a;
  st_alg : ∀ a, cm_token_endpoint_auth_signing_alg m = Some a → stable_alg a;
  st_logo : ∀ l u, cm_logo_uri m = Some l → localized_default_value l = Some u → stable_url u;
  st_client : ∀ l u, cm_client_uri m = Some l → localized_default_value l = Some u → stable_url u;
  st_policy : ∀ l u, cm_policy_uri m = Some l → localized_default_value l = Some u → stable_url u;
  st_tos : ∀ l u, cm_tos_uri m = Some l → localized_default_value l = Some u → stable_url u;
}.

Lemma auth_method_stable s : stable_method (auth_method_from_str s).
Proof.
  unfold stable_method, auth_method_from_str. repeat case_bool_decide; done.
Qed.
Lemma signature_alg_stable s : stable_alg (JsonWebSignatureAlg_from_str s).
Proof.
  unfold stable_alg. destruct (JsonWebSignatureAlg_from_str s) eqn:E; try reflexivity.
  assert (name = s) as ->; [|exact E]. revert E. unfold JsonWebSignatureAlg_from_str.
  destruct (list_find _ _) as [[i [k a]]|] eqn:El; [|by intros [= ->]]. intros ->. exfalso.
  apply list_find_Some in El as (Hi & _). do 17 (destruct i as [|i]; [discriminate Hi|]). discriminate Hi.
Qed.
Lemma flat_field_Some {A} (c : Codec A) entries key a :
  flat_field c entries key = Some (Some a) → ∃ v, codec_from c v = Some a.
Proof. unfold flat_field. intros H. repeat case_match; simplify_eq/=; apply fmap_Some in H as (? & ? & [= <-]); eauto. Qed.
Lemma parse_group_default {T} (c : Codec T) entries d tagged :
  parse_group c entries = Some (Some d, tagged) → ∃ v, codec_from c v = Some d.
Proof.
  revert d tagged. induction entries as [|[tag raw] entries IH]; intros d tagged; simpl; [done|].
  intros (p & Hp & H)%bind_Some. apply bind_Some in H as ([d' t'] & Hg & H).
  destruct tag; [injection H as -> <-; eauto|]. destruct d' as [d'|]; injection H as <- <-; eauto.
Qed.
Lemma parse_localized_default {T} (c : Codec T) grouped name l d :
  parse_localized_field c grouped name = Some (Some l) → localized_default_value l = Some d →
  ∃ v, codec_from c v = Some d.
Proof.
  unfold parse_localized_field. destruct (group_of grouped name) as [|e es]; [done|].
  intros ([d' tagged] & Hg & H)%bind_Some Hd. destruct d' as [d'|]; [|done]. injection H as <-.
  simpl in Hd. injection Hd as ->. by eapply parse_group_default.
Qed.

Section stable.
Context {SX : StableExternals}.

Lemma url_codec_stable v u : codec_from url_codec v = Some u → stable_url u.
Proof. simpl. destruct v; try done. apply url_parse_stable. Qed.
Lemma url_list_stable v l : codec_from (list_codec url_codec) v = Some l → Forall stable_url l.
Proof.
  simpl. destruct v as [| | | | |l'|]; try done. intros H%mapM_Some.
  induction H as [|x y l1 l2 Hx _ IH]; constructor; [by apply (url_codec_stable x)|done].
Qed.

(** Parsed metadata are stable, and sorting keeps them so. *)
Lemma parsed_stable v m : metadata_from_value v = Some m → stable m.
Proof.
  destruct v as [| | | | | |entries]; try done. unfold metadata_from_value, metadata_from_entries.
  intros ([flat grouped] & _ & H)%bind_Some.
  do 38 (let Hf := fresh "Hf" in apply bind_Some in H as (? & Hf & H)). injection H as <-.
  constructor; simpl; intros; subst;
    repeat match goal with
    | Hf : flat_field _ _ _ = Some (Some _) |- _ => apply flat_field_Some in Hf as [? Hf]
    end.
  all: try by eauto using url_codec_stable, url_list_stable.
  - by eapply jwks_stable.
  - match goal with Hf : codec_from auth_method_codec ?v = Some _ |- _ =>
      destruct v; try done; injection Hf as <- end. apply auth_method_stable.
  - match goal with Hf : codec_from signature_alg_codec ?v = Some _ |- _ =>
      destruct v; try done; injection Hf as <- end. apply signature_alg_stable.
  - match goal with Hf : parse_localized_field url_codec _ "logo_uri" = _ |- _ =>
      eapply parse_localized_default in Hf as [? ?]; [|done] end. by eapply url_codec_stable.
  - match goal with Hf : parse_localized_field url_codec _ "client_uri" = _ |- _ =>
      eapply parse_localized_default in Hf as [? ?]; [|done] end. by eapply url_codec_stable.
  - match goal with Hf : parse_localized_field url_codec _ "policy_uri" = _ |- _ =>
      eapply parse_localized_default in Hf as [? ?]; [|done] end. by eapply url_codec_stable.
  - match goal with Hf : parse_localized_field url_codec _ "tos_uri" = _ |- _ =>
      eapply parse_localized_default in Hf as [? ?]; [|done] end. by eapply url_codec_stable.
Qed.
Lemma sorted_stable m : stable m → stable (ClientMetadata_sorted m).
Proof.
  intros []. constructor; simpl; try done.
  - intros l (l' & Hl & ->)%fmap_Some. rewrite merge_sort_Permutation. eauto.
  - intros l u (l' & Hl & ->)%fmap_Some. eauto.
  - intros l u (l' & Hl & ->)%fmap_Some. eauto.
  - intros l u (l' & Hl & ->)%fmap_Some. eauto.
  - intros l u (l' & Hl & ->)%fmap_Some. eauto.
Qed.
End stable.

Lemma parse_url_column_stable id column o :
  (∀ u, o = Some u → stable_url u) → parse_url_column id column o = Ok o.
Proof. intros Ho. destruct o as [u|]; simpl; [|done]. by rewrite (Ho u eq_refl). Qed.
Lemma mapM_stable l : Forall stable_url l → mapM url_parse l = Some l.
Proof. intros H. apply mapM_Some. by induction H; constructor. Qed.
Lemma default_stable {T} (P : T → Prop) (o : option (Localized T)) :
  (∀ l u, o = Some l → localized_default_value l = Some u → P u) →
  ∀ u, (o ≫= Localized_non_localized) = Some u → P u.
Proof. intros H u (l & -> & Hu)%bind_Some. by eapply H. Qed.

(** The stored row is read back, with the fields that were asked for. *)
Lemma registered_row_decodes id m digest secret jwks :
  stable m → jwks_or_uri (cm_jwks m) (cm_jwks_uri m) = Ok jwks →
  ∃ c, Client_try_from id (registered_row m digest secret) = Ok c ∧
    Client_encrypted_client_secret c = secret ∧
    Client_redirect_uris c = default [] (cm_redirect_uris m) ∧
    Client_token_endpoint_auth_method c = cm_token_endpoint_auth_method m ∧
    Client_grant_types c = filter (λ t, t ∈ ClientMetadata_grant_types m)
      [GrantType_AuthorizationCode; GrantType_RefreshToken; GrantType_ClientCredentials; GrantType_DeviceCode] ∧
    Client_jwks c = jwks ∧
    Client_initiate_login_uri c = cm_initiate_login_uri m ∧
    Client_token_endpoint_auth_signing_alg c = cm_token_endpoint_auth_signing_alg m.
Proof.
  intros Hst Hj. unfold Client_try_from. simpl.
  rewrite mapM_stable.
  2:{ unfold Verified_redirect_uris. simpl. destruct (cm_redirect_uris m) eqn:E; [|constructor]. by apply Hst. }
  simpl. rewrite !parse_url_column_stable by (try apply default_stable; apply Hst). simpl.
  assert (Client_decode_jwks id (registered_row m digest secret) = Ok jwks) as ->.
  { unfold Client_decode_jwks. simpl. unfold jwks_or_uri in Hj.
    destruct (cm_jwks m) as [j|] eqn:Ej, (cm_jwks_uri m) as [u|] eqn:Eu; simpl; simplify_eq; try done.
    - by rewrite (st_jwks _ Hst _ Ej).
    - by rewrite (st_jwks_uri _ Hst _ Eu). }
  simpl. eexists. split; [reflexivity|]. simpl. split_and!; try done.
  - destruct (cm_token_endpoint_auth_method m) as [a|] eqn:E; simpl; [|done].
    by rewrite (st_method _ Hst _ E).
  - unfold Client_decode_grant_types. simpl.
    repeat first [rewrite filter_cons|rewrite filter_nil]. repeat case_decide; repeat case_bool_decide; done.
  - destruct (cm_token_endpoint_auth_signing_alg m) as [a|] eqn:E; simpl; [|done].
    by rewrite (st_alg _ Hst _ E).
Qed.

(** ** Secrets *)

Lemma as_bytes_byte s : Forall is_byte (as_bytes s).
Proof.
  induction s as [|a s IH]; constructor; [|done]. unfold is_byte, byte_of.
  pose proof (N_ascii_bounded a). lia.
Qed.
Lemma encrypt_decrypt {AX : ClientAuthExternals} {CXok : ClientRegistrationExternalsOk CX} nonce payload text :
  length nonce = 12%nat → Forall is_byte nonce → Forall is_byte payload →
  encrypt_to_string nonce payload = Some text → decrypt_string text = Some payload.
Proof.
  intros Hl Hn Hp (e & He & ->)%fmap_Some. destruct (aead_roundtrip _ _ _ Hl Hp He) as [Hb Hd].
  unfold decrypt_string. rewrite base64_standard_roundtrip by by apply Forall_app. simpl.
  rewrite length_app, Hl, take_app_length', drop_app_length' by done. simpl. exact Hd.
Qed.

(** ** Once more *)

(** The client that is read back is as valid as the one that was added. *)
Lemma valid_read_back c c' :
  metadata_valid (Client_into_metadata c) →
  Client_redirect_uris c' = Client_redirect_uris c → GrantType_Implicit ∉ Client_grant_types c' →
  Client_jwks c' = Client_jwks c →
  Client_token_endpoint_auth_method c' = Client_token_endpoint_auth_method c →
  Client_token_endpoint_auth_signing_alg c' = Client_token_endpoint_auth_signing_alg c →
  Client_initiate_login_uri c' = Client_initiate_login_uri c →
  metadata_valid (Client_into_metadata c').
Proof.
  unfold Client_into_metadata. intros Hv Er Hi Ej Em Ea El.
  destruct (Client_jwks c) as [[j|u]|]; rewrite Ej; destruct Hv; simpl in *; unfold
    ClientMetadata_token_endpoint_auth_method, ClientMetadata_grant_types,
    ClientMetadata_id_token_signed_response_alg, checked_response_types, has_authorization_code,
    has_implicit, uses_redirects, response_type_coherent, ClientMetadata_grant_types in *; simpl in *.
  all: constructor; simpl; unfold uses_redirects, checked_response_types, has_authorization_code,
    has_implicit, ClientMetadata_grant_types, ClientMetadata_token_endpoint_auth_method,
    response_type_coherent, ClientMetadata_grant_types; simpl; rewrite ?Er, ?Em, ?Ea, ?El; try done.
  all: intros rt; repeat case_bool_decide; simpl; rewrite ?list_elem_of_singleton, ?elem_of_nil; set_solver.
Qed.

(** A registration of metadata that are kept already: found, read and answered. *)
Lemma register_existing m sample20 nonce st c row :
  secret_method (cm_token_endpoint_auth_method m) = false →
  find_first (has_metadata_digest (sha256_hex (metadata_to_string m))) (db_clients (st_db st)) =
    Some (Client_id c, row) →
  Client_try_from (Client_id c) row = Ok c → metadata_valid (Client_into_metadata c) →
  ∃ reply st', register_accepted m sample20 nonce st = (Ok reply, st') ∧
    crr_client_id (rrr_response reply) = Client_client_id c ∧
    st_db st' = st_db st ∧ st_committed st' = st_db st.
Proof.
  intros Hs Hf Hd Hv. unfold register_accepted, generate_client_secret. rewrite Hs.
  eexists _, _. split; [|split; [|split]].
  - etrans; [apply (bind_Ok _ _ _ (None, None) st); done|]. cbv beta iota.
    etrans; [apply (bind_Ok _ _ _ (Some (sha256_hex (metadata_to_string m)), Some c) st)|].
    { unfold find_existing. etrans; [apply (bind_Ok _ _ _ (Some c) st)|done]. apply try_with_Ok.
      unfold oauth2_client_find_by_metadata_digest.
      etrans; [apply (bind_Ok _ _ _ (Some (Client_id c, row)) st)|].
      - unfold select_first, gets. by rewrite Hf.
      - unfold try_into, of_result, mbind, M_bind. by rewrite Hd. }
    cbv beta iota. etrans; [apply (bind_Ok _ _ _ c st); done|]. cbv beta.
    etrans; [apply (bind_Ok _ _ _ {| verified_inner := Client_into_metadata c |} st)|].
    { by rewrite (proj2 (validate_Ok (Client_into_metadata c) _) (conj eq_refl Hv)). }
    reflexivity.
  - reflexivity.
  - reflexivity.
  - reflexivity.
Qed.

Lemma find_first_inserted d id row db :
  client_violation id (Some d) db = None → ClientRow_metadata_digest row = Some d →
  find_first (has_metadata_digest d) (<[id := row]> (db_clients db)) = Some (id, row).
Proof.
  intros Hv Hd. apply find_first_unique; [apply lookup_insert_eq|by apply bool_decide_eq_true|].
  intros k r Hk HP. destruct (decide (k = id)) as [->|Hne]; [done|].
  rewrite lookup_insert_ne in Hk by done. exfalso. revert Hv. unfold client_violation, col_taken. simpl.
  destruct (pk_taken _ _); [done|]. case_bool_decide as Hc; [done|]. intros _. apply Hc.
  destruct (find_first _ _) eqn:E; [by eexists|]. rewrite find_first_None in E. specialize (E _ _ Hk). congruence.
Qed.

(** C18. Registering a client without a secret is idempotent: the same metadata, their lists in any
    order, registered again from the same requester, are granted the same client, and the
    database stays as it was. *)
Theorem registration_is_idempotent {SX : StableExternals} v1 v2 b1 b2 ip ua s1 n1 s2 n2 st reply1 st1 st2 :
  client_registration_handle_post (Some v1) ip ua s1 n1 st = (Ok reply1, st1) →
  crr_client_secret (rrr_response reply1) = None →
  metadata_from_value v1 = Some b1 → metadata_from_value v2 = Some b2 → same_metadata b1 b2 →
  Forall (λ uri, loopback_redirect_has_explicit_port uri = false) (raw_redirect_uris v2) →
  st_db st2 = st_db st1 →
  ∃ reply2 st2', client_registration_handle_post (Some v2) ip ua s2 n2 st2 = (Ok reply2, st2') ∧
    crr_client_id (rrr_response reply2) = crr_client_id (rrr_response reply1) ∧
    st_db st2' = st_db st2 ∧ st_committed st2' = st_db st2.
Proof.
  intros (m & Hacc & Hrun)%handle_post_accepted Hsec Hb1 Hb2 Hsame Hport Hdb.
  apply register_accepted_inv in Hrun as (c & digest & secret & enc & Hs & Hreply & _ & Hval & _ & Hout).
  rewrite Hreply in *. simpl in Hsec. subst secret.
  destruct (secret_method _) eqn:Hm; [by destruct Hs as [? _]|]. destruct Hs as (_ & -> & ->).
  assert (request_accepted (Some v2) ip ua m) as Hacc2.
  { destruct Hacc as [Hp (w & b & [= <-] & Hb & -> & _) ? ? ? ?]. split; try done.
    exists v2, b2. split_and!; try done. rewrite Hb1 in Hb. injection Hb as <-. by apply sorted_canonical. }
  assert (stable m) as Hst.
  { destruct Hacc as [_ (w & b & [= <-] & Hb & -> & _) _ _ _ _]. by eapply sorted_stable, parsed_stable. }
  assert (∃ c' row, Client_client_id c' = Client_client_id c ∧
    find_first (has_metadata_digest (sha256_hex (metadata_to_string m))) (db_clients (st_db st2)) =
      Some (Client_id c', row) ∧
    Client_try_from (Client_id c') row = Ok c' ∧ metadata_valid (Client_into_metadata c'))
    as (c' & row & Hid & Hf & Hd & Hv).
  { rewrite Hdb. destruct Hout as [(d & row & [= <-] & -> & Hf & Hd)|(jwks & Hj & Hc & Hviol & ->)]; [by eauto 10|].
    destruct (registered_row_decodes (Client_id c) m
      (Some (sha256_hex (metadata_to_string m))) None jwks Hst Hj) as (c' & Hd & _ & Er & Em & Eg & Ej & El & Ea).
    pose proof (Client_try_from_id _ _ _ Hd) as E. pose proof (Client_try_from_text _ _ _ Hd) as Et.
    exists c'. eexists. rewrite E. split; [by rewrite Et, Hc|]. split; [by apply find_first_inserted|].
    split; [exact Hd|]. eapply valid_read_back; [exact Hval|..]; try (rewrite Hc; done).
    rewrite Eg. intros [_ Hin]%list_elem_of_filter.
    repeat (apply elem_of_cons in Hin as [?|Hin]; [done|]). by apply elem_of_nil in Hin. }
  destruct (register_existing m s2 n2 st2 c' row Hm Hf Hd Hv) as (reply2 & st2' & Hr & Hi & E1 & E2).
  exists reply2, st2'. split; [apply handle_post_accepted; eauto|]. simpl. rewrite Hi, Hid. done.
Qed.

End registration.

(** ** Examples *)

Module Examples.
#[local] Existing Instances World.UX World.VX World.DX World.MX World.HX World.CX World.CX_ok World.AX.

#[export] Instance stable_world : StableExternals.
Proof. split; [by intros s u [= <-]|by intros v jwks [= <-]]. Qed.

(** A client with two redirect URIs, public or with a secret. *)
Definition body (method : string) (uris : list string) : Json :=
  Json_Object [("client_uri", Json_String "https://app.example/");
               ("client_name", Json_String "App"); ("client_name#fr", Json_String "Appli");
               ("token_endpoint_auth_method", Json_String method);
               ("redirect_uris", Json_Array (Json_String <$> uris))].
Definition uris : list string := ["https://app.example/cb"; "https://app.example/a"].
Definition nonce : list Z := [1; 2; 3; 4; 5; 6; 7; 8; 9; 10; 11; 12].
End Examples.

#[local] Existing Instances World.UX World.VX World.DX World.MX World.HX World.CX World.CX_ok World.AX Examples.stable_world.

Lemma registration_is_idempotent_witness :
  ∃ reply1 st1 reply2 st2,
    client_registration_handle_post (Some (Examples.body "none" Examples.uris)) None None "" [] World.st =
      (Ok reply1, st1) ∧
    client_registration_handle_post (Some (Examples.body "none" (reverse Examples.uris))) None None "" [] st1 =
      (Ok reply2, st2) ∧
    crr_client_id (rrr_response reply2) = crr_client_id (rrr_response reply1) ∧ st_db st2 = st_db st1.
Proof.
  destruct (metadata_from_value (Examples.body "none" Examples.uris)) as [b1|] eqn:E1;
    [|vm_compute in E1; discriminate].
  destruct (metadata_from_value (Examples.body "none" (reverse Examples.uris))) as [b2|] eqn:E2;
    [|vm_compute in E2; discriminate].
  destruct (client_registration_handle_post (Some (Examples.body "none" Examples.uris)) None None "" []
    World.st) as [r st1] eqn:Hrun.
  assert (is_ok r = true) as Hok.
  { change r with (r, st1).1. rewrite <-Hrun. vm_compute. reflexivity. }
  destruct r as [reply1|]; [|discriminate].
  assert (crr_client_secret (rrr_response reply1) = None) as Hsec.
  { assert (match (client_registration_handle_post (Some (Examples.body "none" Examples.uris)) None None "" []
      World.st).1 with Ok r => crr_client_secret (rrr_response r) = None | Err _ => False end) as H
      by (vm_compute; reflexivity). rewrite Hrun in H. exact H. }
  destruct (registration_is_idempotent (Examples.body "none" Examples.uris)
    (Examples.body "none" (reverse Examples.uris)) b1 b2 None None "" [] "" [] World.st reply1 st1 st1
    Hrun Hsec E1 E2) as (reply2 & st2 & H2 & Hid & Hdb & _).
  - vm_compute in E1, E2. injection E1 as <-. injection E2 as <-. constructor; simpl; try reflexivity; try constructor.
    + apply Permutation_swap.
    + constructor; simpl; [reflexivity|reflexivity|]. apply (bool_decide_eq_true_1 _). vm_compute. reflexivity.
    + constructor; simpl; [reflexivity|reflexivity|]. apply (bool_decide_eq_true_1 _). vm_compute. reflexivity.
  - apply (bool_decide_eq_true_1 _). vm_compute. reflexivity.
  - reflexivity.
  - exists reply1, st1, reply2, st2. split; [reflexivity|]. split; [exact H2|]. split; [exact Hid|exact Hdb].
Defined.

