(* ===== verification/UserinfoProofs.v ===== *)
(** The userinfo endpoint: whom it answers, and with what. *)
From S2P Require Import Prelude Ids RateLimit TokenFormat Scope Pkce Jose Keystore JoseProofs Domain Accounts Database Repository Handlers ClientAuth Userinfo World RepositorySpec IdTokenProofs.

Open Scope Z_scope.

Section userinfo.
Context {TX : TokenExternals} {UX : UrlExternals} {DX : DbExternals}.
Context {HX : HandlerExternals} {AX : ClientAuthExternals}.

(** The one token of a request: in its [Authorization] header or in its form, not in both. *)
Inductive presents_token {F} (req : UserRequest F) (text : string) : Prop :=
| in_header h :
    ureq_authorization req = Some h → bearer_decode h = Some text →
    (starts_with "application/x-www-form-urlencoded" (default "" (ureq_content_type req)) = true →
     ∃ inner, ureq_parse_form req = Ok (None, inner)) →
    presents_token req text
| in_form inner :
    ureq_authorization req = None →
    starts_with "application/x-www-form-urlencoded" (default "" (ureq_content_type req)) = true →
    ureq_parse_form req = Ok (Some text, inner) →
    presents_token req text.

Definition token_text (t : RequestToken) : option string :=
  match t with Token_Form t | Token_Header t => Some t | Token_None => None end.

Lemma extract_presents {F} (req : UserRequest F) a text :
  user_extract_from_request req = Ok a → token_text (user_access_token a) = Some text →
  presents_token req text.
Proof.
  unfold user_extract_from_request, token_from_header.
  destruct (ureq_authorization req) as [h|] eqn:Ha; simpl.
  - case_bool_decide; [|done]. destruct (bearer_decode h) as [t|] eqn:Hb; simpl; [|done].
    destruct (starts_with _ _) eqn:Hf; simpl.
    + destruct (ureq_parse_form req) as [[[t'|] inner]|] eqn:Hp; simpl; try done.
      intros [= <-] [= <-]. eapply in_header; eauto.
    + intros [= <-] [= <-]. eapply in_header; eauto. congruence.
  - destruct (starts_with _ _) eqn:Hf; simpl; [|by intros [= <-]].
    destruct (ureq_parse_form req) as [[[t'|] inner]|] eqn:Hp; simpl; try done; [|by intros [= <-]].
    intros [= <-] [= <-]. by eapply in_form.
Qed.

(** A live access token of a live session with the scope [openid]. *)
Record bears_openid (db : DB) (now : DateTime) (text : string) (id : Ulid) (session : Session) : Prop := {
  bo_row : ∃ row, find_first (has_access_token text) (db_access_tokens db) = Some (id, row) ∧
             AccessToken_is_valid (AccessToken_from id row) now = true ∧
             Session_id session = AccessTokenRow_oauth2_session_id row;
  bo_session : ∃ row, db_sessions db !! Session_id session = Some row ∧
                 Session_try_from (Session_id session) row = Ok session;
  bo_live : Session_is_valid session = true;
  bo_openid : OPENID ∈ Session_scope session;
}.

(** Only the time of the first use of the token may change. *)
Definition marked_used (id : Ulid) (db db' : DB) : Prop :=
  db' = db ∨ ∃ t, db' = on_access_tokens (alter (AccessTokenRow_set_first_used_at t) id) db.

Lemma fetch_inv t st tok session st' :
  request_token_fetch t st = (Ok (tok, session), st') →
  st' = st ∧ ∃ text id row srow, token_text t = Some text ∧
    find_first (has_access_token text) (db_access_tokens (st_db st)) = Some (id, row) ∧
    tok = AccessToken_from id row ∧
    db_sessions (st_db st) !! AccessTokenRow_oauth2_session_id row = Some srow ∧
    Session_try_from (AccessTokenRow_oauth2_session_id row) srow = Ok session.
Proof.
  unfold request_token_fetch. intros H.
  apply bind_Ok_inv in H as (text & ? & [Ht ->]%ok_or_Ok_inv & H).
  apply bind_Ok_inv in H as (f1 & st1 & H1%try_with_Ok_inv & H).
  apply access_token_find_inv in H1 as [-> H1].
  apply bind_Ok_inv in H as (tok' & ? & [-> ->]%ok_or_Ok_inv & H).
  apply bind_Ok_inv in H as (f2 & st2 & H2%try_with_Ok_inv & H).
  apply session_lookup_inv in H2 as [-> H2].
  apply bind_Ok_inv in H as (s' & ? & [-> ->]%ok_or_Ok_inv & [= <- <- <-]).
  destruct H1 as (id & row & Hf & ->), H2 as (srow & Hs & Hd). split; [done|].
  exists text, id, row, srow. by destruct t.
Qed.

Lemma required_openid session :
  ensure_required_scopes session [OPENID] = Ok tt → OPENID ∈ Session_scope session.
Proof.
  simpl. unfold Scope_contains. destruct (ScopeToken_from_str OPENID) as [t|] eqn:E; [|done].
  vm_compute in E. injection E as <-. case_bool_decide; [done|done].
Qed.

Lemma protected_inv {F} (self : UserAuthorization F) st session st' :
  protected self [OPENID] st = (Ok session, st') →
  ∃ text id, token_text (user_access_token self) = Some text ∧
    bears_openid (st_db st) (st_clock st 0%nat) text id session ∧
    marked_used id (st_db st) (st_db st') ∧ st_committed st' = st_committed st.
Proof.
  unfold protected. intros H.
  apply bind_Ok_inv in H as ([tok s] & st1 & Hf & H). apply fetch_inv in Hf as (-> & text & id & row & srow & Ht & Hf & -> & Hs & Hd).
  apply bind_Ok_inv in H as (now & st2 & [-> Hst]%clock_now_inv & H).
  apply bind_Ok_inv in H as (? & ? & [[Hv Hl]%andb_true_iff ->]%require_inv & H).
  apply bind_Ok_inv in H as ([] & ? & [= Hsc <-] & H). apply required_openid in Hsc.
  apply bind_Ok_inv in H as (? & st3 & Hu & [= -> <-]).
  pose proof (proj1 (Session_try_from_inv _ _ _ Hd)) as Hid.
  exists text, id. split; [done|]. split.
  { split; [exists row; by rewrite Hid|exists srow; by rewrite Hid|done|done]. }
  destruct (AccessToken_is_used _); simpl in Hu.
  - injection Hu as <- <-. destruct Hst as [-> ->]. by split; [left|].
  - apply bind_Ok_inv in Hu as (? & ? & Hm%try_with_Ok_inv & [= <- <-]).
    apply access_token_mark_used_inv in Hm as (t & _ & _ & _ & _ & [-> ->]). destruct Hst as [-> ->].
    split; [|done]. right. by exists t.
Qed.

(** What the answer says of the user: the claims as they are, or signed for the client with the
    algorithm it registered, by a key the server publishes. *)
Definition answers (response : UserinfoResponse) (client : Client) (user : User) : Prop :=
  match Client_userinfo_signed_response_alg client, response with
  | None, Userinfo_Json info => info = user_info_of user
  | Some alg, Userinfo_Jwt text =>
      ∃ jwt, Jwt_try_from text = Ok jwt ∧ verify_with_jwks jwt (public_jwks key_store) = true ∧
        header_alg (Jwt_header jwt) = alg ∧
        Jwt_payload jwt = signed_user_info (Client_client_id client) (user_info_of user)
  | _, _ => False
  end.

Lemma sign_answer (OK : JoseExternalsOk handler_jose handler_keystore) client user st response st' :
  userinfo_response client (user_info_of user) st = (Ok response, st') →
  answers response client user ∧ same st st'.
Proof.
  unfold userinfo_response, answers.
  destruct (Client_userinfo_signed_response_alg client) as [alg|]; [intros H|by intros [= <- <-]].
  apply bind_Ok_inv in H as ([kid signer] & st2 & Hk & H). apply ok_or_Ok_inv in Hk as [Hk ->].
  apply bind_Ok_inv in H as (signed & st2 & Hs & H). apply with_rng_inv in Hs as [Hs Hst].
  apply bind_Ok_inv in H as (jwt & st3 & Hj & H). apply of_result_map_err_inv in Hj as [-> ->].
  injection H as <- <-. cbn [fst snd] in Hs.
  destruct (sign_with_rng _ _ _ (st_rng st)) as [r rng'] eqn:Hsign. simpl in Hs. subst r.
  split; [|done]. exists jwt. split; [by eapply signed_decodes|]. split; [by eapply signed_verifies|].
  by apply sign_with_rng_inv in Hsign as (th & tc & sig & _ & _ & _ & ->).
Qed.

(** C20. The userinfo endpoint answers only to the bearer of a live access token, presented once, of a
    live session with the scope [openid]. It tells the profile of the user of that session, in the
    form the client registered: plain, or signed for that client so that the published keys
    verify it. Of the database at most the time of the first use of the token changes. *)
Theorem userinfo_answers_bearers (OK : JoseExternalsOk handler_jose handler_keystore) {F}
    (req : UserRequest F) ip st response st' :
  userinfo_handle_get req ip st = (Ok response, st') →
  ∃ text id session user_id row client,
    presents_token req text ∧ bears_openid (st_db st) (st_clock st 0%nat) text id session ∧
    Session_user_id session = Some user_id ∧ db_users (st_db st) !! user_id = Some row ∧
    client_at (st_db st) (Session_client_id session) = Some client ∧
    answers response client (User_build user_id row) ∧
    marked_used id (st_db st) (st_db st') ∧ st_committed st' = st_db st'.
Proof.
  unfold userinfo_handle_get. intros H.
  apply bind_Ok_inv in H as (a & ? & [Hx ->]%of_result_map_err_inv & H).
  apply bind_Ok_inv in H as (session & st1 & Hp%try_with_Ok_inv & H).
  apply protected_inv in Hp as (text & id & Ht & Hb & Hmark & Hcom).
  apply bind_Ok_inv in H as (user_id & ? & [Hu ->]%ok_or_Ok_inv & H).
  apply bind_Ok_inv in H as (? & st2 & Hact%record_activity_inv & H).
  apply bind_Ok_inv in H as (u & st3 & Hl%try_with_Ok_inv & H). apply user_lookup_inv in Hl as [-> ->].
  apply bind_Ok_inv in H as (user & ? & [Hrow ->]%ok_or_Ok_inv & H).
  apply bind_Ok_inv in H as (cl & st4 & Hl%try_with_Ok_inv & H). apply client_lookup_inv in Hl as [-> ->].
  apply bind_Ok_inv in H as (client & ? & [Hcl ->]%ok_or_Ok_inv & H).
  apply bind_Ok_inv in H as (? & st5 & [= <- <-] & H).
  assert (db_users (st_db st2) = db_users (st_db st) ∧ db_clients (st_db st2) = db_clients (st_db st))
    as [E1 E2].
  { destruct Hact as [-> _]. by destruct Hmark as [->|[t ->]]. }
  rewrite E1 in Hrow. apply fmap_Some in Hrow as (row & Hrow & ->).
  apply (sign_answer OK) in H as [Hans [Ed Ec]].
  exists text, id, session, user_id, row, client. split_and!; try done.
  - by eapply extract_presents.
  - unfold client_at in *. by rewrite <-E2.
  - rewrite Ed. simpl. destruct Hact as [-> _]. done.
  - by rewrite Ec, Ed.
Qed.
End userinfo.

(** A request with a live token in its form. *)
Definition example_request : UserRequest unit :=
  {| ureq_authorization := None;
     ureq_content_type := Some "application/x-www-form-urlencoded";
     ureq_parse_form := Ok (Some World.live_access, tt) |}.

#[local] Existing Instances World.UX World.DX World.AX.

Lemma userinfo_answers_bearers_witness :
  ∃ response st' text user_id row client,
    userinfo_handle_get (HX := example_handler) example_request None World.st = (Ok response, st') ∧
    presents_token example_request text ∧ db_users World.db !! user_id = Some row ∧
    answers (HX := example_handler) response client (User_build user_id row).
Proof.
  destruct (ok_run (userinfo_handle_get (HX := example_handler) example_request None World.st))
    as (response & st' & E); [vm_compute; reflexivity|].
  destruct (userinfo_answers_bearers (HX := example_handler) example_jose_ok _ _ _ _ _ E)
    as (text & id & session & user_id & row & client & H1 & _ & _ & H2 & _ & H3 & _).
  exists response, st', text, user_id, row, client.
  split; [exact E|]. split; [exact H1|]. split; [exact H2|exact H3].
Defined.
