(* ===== verification/AdminProofs.v ===== *)
(** The theorems about administration: who is served, that an active administrator remains,
    and what the tokens of personal sessions are worth. *)
From S2P Require Import Prelude Ids RateLimit Passwords TokenFormat Scope Pkce Jose Keystore Domain Accounts Notification Database Messaging Repository ClientMetadata ClientRepository ProviderMetadata AccountRepository Pagination AdminRepository AdminApi Notifications EmailWebhook Handlers ClientAuth ClientRegistration Userinfo TokenService Registration Login World RepositorySpec AccountSpec RegistrationSpec TokenSpec Introspection Revocation Consent Authorization Profile Admin Integrity UserJobs AccountServer AccountIntegrity NotificationJobs AdminIntegrity Server TokenProofs IntrospectionProofs ConsentProofs AuthorizationProofs ServerProofs.

Open Scope Z_scope.

(** ** Who is served *)

Section callers.
Context {TX : TokenExternals} {DX : DbExternals} {LX : LimiterExternals} {XX : AccountExternals}
        {WX : PasswordExternals} {RX : RegistrationExternals} {QX : AdminExternals}.

(** A handler that asks for its caller first. *)
Lemma asks_for_caller {B} req (k : CallContext → M St AppError B) st b st' :
  served_ok (call_context req ≫= k) st = (b, st') →
  b = true ∨ st_committed st' ≠ st_committed st →
  ∃ ctx st1, call_context req st = (Ok ctx, st1).
Proof.
  unfold served_ok. intros [= <- <-] H. unfold mbind, M_bind in H.
  destruct (call_context req st) as [[ctx|e] st1] eqn:E; [by eauto|]. simpl in H.
  destruct H as [?|H]; [done|]. destruct H.
  by apply (keeps_run _ _ _ _ _ (keeps_committed_context req)) in E.
Qed.

(** C11. The interface of administration serves administrators: whatever the request, it succeeds, or
    changes what is committed, only if its header has a token of a live session with the
    administrative scope, whose user is an active administrator; the owner of a personal
    session is an active administrator too. *)
Theorem administration_is_for_administrators request st b st' :
  admin_serve request st = (b, st') → b = true ∨ st_committed st' ≠ st_committed st →
  ∃ token ctx user, caller_bearer (http_authorization (admin_http request)) = Ok token ∧
    admin_caller (st_db st) (st_clock st 0%nat) token ctx user.
Proof.
  intros H Hb.
  assert (∃ ctx st1, call_context (admin_http request) st = (Ok ctx, st1)) as (ctx & st1 & Hc).
  { destruct request; by eapply asks_for_caller. }
  apply try_with_Ok_inv, call_context_inv in Hc as (_ & token & user & ? & ?). eauto.
Qed.
End callers.

(** ** The administrators of a deployment *)

Section histories.
Context {TX : TokenExternals} {PX : PkceExternals} {UX : UrlExternals}
        {DX : DbExternals} {HX : HandlerExternals} {AX : ClientAuthExternals}
        {CX : ConsentExternals} {ZX : AuthorizationExternals} {LX : LimiterExternals}
        {XX : AccountExternals} {WX : PasswordExternals} {RX : RegistrationExternals}
        {GX : LoginExternals} {VX : UrlPartsExternals} {KX : MetadataExternals}
        {EX : ClientRegistrationExternals}
        {BX : UrlBuildExternals} {NX : NotificationExternals} {YX : WebhookExternals}
        {QX : AdminExternals} {CO : CollationExternals}.

(** Without an active administrator, the administrators stay as they are. *)
Lemma governed_stuck m m' :
  governed m m' → (∃ k, admin_in m k) → (¬ ∃ k, active_in m k) →
  ∀ k, (admin_in m' k ↔ admin_in m k) ∧ ¬ active_in m' k.
Proof.
  induction 1 as [m|m m1 m2 [[E|[Hn _]]|[Ha _]] _ IH]; intros [j Hj] Hno.
  - intros k. split; [done|]. intros Hk. apply Hno. eauto.
  - intros k. destruct (E k) as [<- _]. apply IH.
    + exists j. by apply E.
    + intros [i Hi]. apply Hno. exists i. by apply E.
  - by destruct (Hn j).
  - done.
Qed.

(** C12. An active administrator remains: over any requests, messages and callbacks, whatever is locked,
    deactivated or no longer allowed, a database that has one keeps one; and one that has administrators
    of which none is active keeps exactly these. *)
Theorem an_active_administrator_remains db db' :
  wf db → requests db db' →
  ((∃ k, active_in (db_users db) k) → ∃ k, active_in (db_users db') k) ∧
  ((∃ k, admin_in (db_users db) k) → (¬ ∃ k, active_in (db_users db) k) →
   ∀ k, (admin_in (db_users db') k ↔ admin_in (db_users db) k) ∧ ¬ active_in (db_users db') k).
Proof.
  intros Hw Hh. destruct (requests_good _ _ Hw Hh) as [_ He]. apply ev_admins in He.
  split; [by apply governed_active|by apply governed_stuck].
Qed.
End histories.

(** ** Personal sessions *)

Lemma personal_session_add_inv owner actor name scope st s st' :
  personal_session_add owner actor name scope st = (Ok s, st') →
  ∃ t, s = {| PersonalSession_id := PersonalSession_id s; PersonalSession_state := Personal_Valid;
              PersonalSession_owner := owner; PersonalSession_actor_user_id := User_id actor;
              PersonalSession_human_name := name; PersonalSession_scope := scope;
              PersonalSession_created_at := t; PersonalSession_last_active_at := None;
              PersonalSession_last_active_ip := None |} ∧
    personal_session_violation (PersonalSession_id s) (owner_columns owner).1 (owner_columns owner).2
      (User_id actor) (st_db st) = None ∧
    ran st st' (on_personal_sessions
      <[PersonalSession_id s := new_personal_session_row owner (User_id actor) name scope t]>).
Proof.
  unfold personal_session_add. intros H. repo_inv. same_norm. exists (st_clock st 0%nat). done.
Qed.

Section personal.
Context {TX : TokenExternals} {TXok : TokenExternalsOk TX} {UX : UrlExternals} {DX : DbExternals}
        {QX : AdminExternals}.

(** The time a token expires. *)
Definition expiry (created_at : DateTime) (expires_in : option Z) : option DateTime :=
  (λ d, created_at + d) <$> (seconds <$> expires_in).

Lemma issue_personal_token_inv session expires_in st issued st' :
  issue_personal_token session expires_in st = (Ok issued, st') →
  ∃ t tid, TokenType_check issued.1 = Ok TokenType_PersonalAccessToken ∧
    PersonalAccessToken_expires_at issued.2 = expiry t expires_in ∧
    personal_token_violation tid (PersonalSession_id session) (sha256_digest issued.1) (st_db st) = None ∧
    ran st st' (on_personal_tokens
      <[tid := new_personal_token_row (PersonalSession_id session) (sha256_digest issued.1) t
                 (expiry t expires_in)]>).
Proof.
  unfold issue_personal_token, repo. intros H.
  apply bind_Ok_inv in H as (raw & st1 & Hr & H).
  assert (TokenType_check raw = Ok TokenType_PersonalAccessToken ∧ same st st1) as [Hraw S1].
  { unfold with_rng in Hr. pose proof (check_generated TX TXok TokenType_PersonalAccessToken (st_rng st)).
    destruct (TokenType_generate _ (st_rng st)) as [text rng]. by injection Hr as <- <-. }
  apply bind_Ok_inv in H as (rec & st2 & Ha%try_with_Ok_inv & H). injection H as <- <-.
  unfold personal_token_add in Ha. repo_inv. same_norm. eexists (st_clock st1 0%nat), _. done.
Qed.

(** What the token is worth that was just stored. *)
Lemma issued_token_live db now tid sid text t e :
  TokenType_check text = Ok TokenType_PersonalAccessToken →
  personal_token_violation tid sid (sha256_digest text) db = None →
  live_token now
    (on_personal_tokens <[tid := new_personal_token_row sid (sha256_digest text) t e]> db) text =
  match e with Some e => now <? e | None => true end && personal_session_live db sid.
Proof.
  intros Hty Hv. unfold live_token. rewrite Hty. simpl.
  apply first_violation_None in Hv. rewrite !Forall_cons in Hv. simpl in Hv.
  destruct Hv as (_ & Ht & _). rewrite col_taken_false in Ht.
  rewrite (find_first_unique _ _ tid (new_personal_token_row sid (sha256_digest text) t e));
    [done|apply lookup_insert_eq|by apply bool_decide_eq_true|].
  intros k r Hk HP. destruct (decide (k = tid)) as [|Hne]; [done|].
  rewrite lookup_insert_ne in Hk by done. specialize (Ht _ _ Hk). congruence.
Qed.

(** The caller owns what it makes. *)
Lemma caller_owner ctx db now token user :
  admin_caller db now token ctx user →
  personal_session_owner_from_caller (ctx_session ctx) = Owner_User (User_id user).
Proof.
  intros [_ _ _ Hid _]. destruct (ctx_session ctx); simpl in *; [by rewrite Hid|congruence].
Qed.
Lemma caller_live ctx db now token user :
  admin_caller db now token ctx user → user_live db (User_id user) = true.
Proof.
  intros [_ (row & Hrow & _ & _ & Hl & Hd) _ _ _]. unfold user_live. by rewrite Hrow, Hl, Hd.
Qed.

End personal.

Section regeneration.
Context {TX : TokenExternals} {TXok : TokenExternalsOk TX} {PX : PkceExternals} {UX : UrlExternals}
        {DX : DbExternals} {HX : HandlerExternals} {AX : ClientAuthExternals}
        {CX : ConsentExternals} {ZX : AuthorizationExternals} {LX : LimiterExternals}
        {XX : AccountExternals} {WX : PasswordExternals} {RX : RegistrationExternals}
        {GX : LoginExternals} {VX : UrlPartsExternals} {KX : MetadataExternals}
        {EX : ClientRegistrationExternals}
        {BX : UrlBuildExternals} {NX : NotificationExternals} {YX : WebhookExternals}
        {QX : AdminExternals} {CO : CollationExternals}.

(** The token of a session that was not revoked. *)
Definition active_token_of (sid : Ulid) (r : PersonalAccessTokenRow) : bool :=
  bool_decide (PersonalTokenRow_personal_session_id r = sid ∧ PersonalTokenRow_revoked_at r = None).

Lemma find_active_inv session st o st' :
  personal_token_find_active_for_session session st = (Ok o, st') →
  st' = st ∧ o = (λ kr, PersonalAccessToken_from kr.1 kr.2) <$>
    find_first (active_token_of (PersonalSession_id session)) (db_personal_tokens (st_db st)).
Proof. unfold personal_token_find_active_for_session. intros H. by repo_inv. Qed.

(** A token that was revoked is dead from then on. *)
Lemma revoked_token_dead c db2 tid row text now :
  wf c → history c db2 → db_personal_tokens c !! tid = Some row →
  is_Some (PersonalTokenRow_revoked_at row) →
  sha256_digest text = PersonalTokenRow_access_token_sha256 row →
  TokenType_check text = Ok TokenType_PersonalAccessToken → live_token now db2 text = false.
Proof.
  intros Hw Hh Hrow Hrev Ht Hty. destruct (history_good _ _ Hw Hh) as [Hw2 He].
  destruct (refind (Some ∘ PersonalTokenRow_access_token_sha256)
    (has_token_sha256 (sha256_digest text)) (sha256_digest text) personal_token_evolves
    (db_personal_tokens c) (db_personal_tokens db2) tid row)
    as (row2 & Hf & _ & _ & _ & Hst); [..|exact (wf_personal_unique _ Hw2)
    |exact (ev_personal_tokens _ _ He)|exact Hrow|exact (f_equal Some (eq_sym Ht))|].
  - intros x. unfold has_token_sha256, compose. rewrite bool_decide_eq_true. split; congruence.
  - intros x y (_ & E & _). unfold compose. by rewrite E.
  - unfold live_token. rewrite Hty, Hf. destruct (Hst Hrev) as [t ->]. done.
Qed.

(** What a regeneration checked and committed. *)
Lemma regenerate_inv req body st resp st' :
  regenerate_session req body st = (Ok resp, st') →
  ∃ api text sid srow tid row bearer ctx user t tid2 t2, resp = new_canonical api ∧
    ApiPersonalSession_access_token api = Some text ∧ http_id req ≫= ulid_from_string = Some sid ∧
    db_personal_sessions (st_db st) !! sid = Some srow ∧
    admin_caller (st_db st) (st_clock st 0%nat) bearer ctx user ∧
    PersonalSessionRow_owner_user_id srow = Some (User_id user) ∧
    find_first (active_token_of sid) (db_personal_tokens (st_db st)) = Some (tid, row) ∧
    TokenType_check text = Ok TokenType_PersonalAccessToken ∧
    let revoked := on_personal_tokens (alter (PersonalTokenRow_set_revoked_at t) tid) (st_db st) in
    personal_token_violation tid2 sid (sha256_digest text) revoked = None ∧
    st_committed st' = on_personal_tokens
      <[tid2 := new_personal_token_row sid (sha256_digest text) t2 (ApiPersonalSession_expires_at api)]>
      revoked.
Proof.
  unfold regenerate_session. intros H.
  apply bind_Ok_inv in H as (ctx & st1 & Hc%try_with_Ok_inv & H).
  apply call_context_inv in Hc as ([D1 C1] & bearer & user & _ & Hcaller).
  apply bind_Ok_inv in H as (sid & st2 & [Hid ->]%ok_or_Ok_inv & H).
  apply bind_Ok_inv in H as (entry & st2 & Hs%found_inv & H).
  apply personal_session_lookup_inv in Hs as [-> (srow & Hsrow & Hdec)].
  destruct (PersonalSession_try_from_inv _ _ _ Hdec) as (Eid & _ & Ecol & _). simpl in Eid.
  apply bind_Ok_inv in H as (? & st2 & [Hval ->]%require_inv & H).
  apply bind_Ok_inv in H as (? & st2 & [Hown ->]%require_inv & H). apply bool_decide_eq_true in Hown.
  apply bind_Ok_inv in H as (prev & st2 & [-> Hprev]%try_with_Ok_inv%find_active_inv & H).
  apply bind_Ok_inv in H as (previous & st2 & [Hp ->]%ok_or_Ok_inv & H).
  rewrite Hprev in Hp. apply fmap_Some in Hp as ([tid row] & Hf & ->). simpl in H.
  apply bind_Ok_inv in H as (? & st2 & Hr%try_with_Ok_inv & H).
  apply personal_token_revoke_inv in Hr as (t & [D2 C2]).
  apply bind_Ok_inv in H as (issued & st3 & Hi & H).
  apply issue_personal_token_inv in Hi as (t2 & tid2 & Hty & He & Hv & [D3 C3]).
  apply bind_Ok_inv in H as (? & st5 & Hsv & H). unfold repo_save in Hsv. injection Hsv as _ <-.
  apply bind_Ok_inv in H as (api & st5 & Ha & H). unfold of_result in Ha.
  unfold ApiPersonalSession_try_from in Ha. simpl in Ha. injection Ha as <- <-. injection H as <- <-.
  eexists _, issued.1, sid, srow, tid, row, bearer, ctx, user, t, tid2, t2. split; [done|]. simpl.
  rewrite Eid, D2, D1 in *. rewrite Hown, (caller_owner _ _ _ _ _ Hcaller) in Ecol.
  split_and!; try done; [by injection Ecol|]. by rewrite D3, He.
Qed.

End regeneration.

(** ** The theorems evaluated on a concrete world *)

#[local] Existing Instances World.TX World.PX World.UX World.DX World.HX World.AX World.LX World.XX World.WX World.RX World.GX World.VX World.BX World.NX World.YX World.QX World.CO World.MX World.CX consent_world authorization_world.

(** Alice administers; Bob does not. *)
Definition bob : UserRow :=
  {| UserRow_username := "bob"; UserRow_created_at := 0; UserRow_updated_at := 0;
     UserRow_locked_at := None; UserRow_deactivated_at := None;
     UserRow_can_request_admin := false; UserRow_is_guest := false;
     UserRow_display_name := None; UserRow_avatar_url := None; UserRow_preferred_locale := None |}.
Definition admin_db : DB :=
  on_users (λ users, <[2 := bob]> (alter (UserRow_set_admin true 0) 1 users))
    (on_sessions (λ _, {[ 1000 := new_session_row (Some 1) (Some 10) 100
                                    (scope_of_list ["openid"; ADMIN_SCOPE]) 0 ]}) World.db).
Definition by_alice (id : option string) : AdminHttp :=
  {| http_authorization := Some (Some ("Bearer " +:+ World.live_access)); http_id := id; http_ip := None |}.

Lemma admin_wf : wf admin_db.
Proof. apply wf_b_sound. vm_compute. reflexivity. Qed.

Lemma administration_is_for_administrators_witness :
  ∃ token ctx user, caller_bearer (http_authorization (by_alice (Some "2"))) = Ok token ∧
    admin_caller admin_db World.NOW token ctx user.
Proof.
  destruct (admin_serve (Admin_GetUser (by_alice (Some "2"))) (World.at_db admin_db)) as [b st'] eqn:H.
  assert (b = true) as Hb by (change b with (b, st').1; rewrite <-H; vm_compute; reflexivity).
  exact (administration_is_for_administrators _ _ _ _ H (or_introl Hb)).
Defined.

(** Alice makes Bob an administrator, and is locked; then nobody can lock Bob. *)
Definition grant_bob : Request :=
  Req_Admin (Admin_UpdateUser (by_alice (Some "2"))
    (Some {| update_patch := {| admin_patch_display_name := None; admin_patch_avatar_url := None;
               admin_patch_preferred_locale := None; admin_patch_can_request_admin := Some true;
               admin_patch_locked := None; admin_patch_deactivated := None |};
             update_hs_erase := None |})).
Definition lock_alice : Request :=
  Req_Admin (Admin_RiskAction (by_alice (Some "1"))
    (Some {| risk_action_name := "lock"; risk_action_reason := None |})).
Definition after_grant : DB := st_committed (serve grant_bob (World.at_db admin_db)).
Definition later (db : DB) : St :=
  mkSt db db (λ n, World.NOW + 1000000 + Z.of_nat n) (λ n, Z.of_nat (n * 7 + 1)) (λ _, true) [] [] []
    World.limiter [].
Definition after_lock : DB := st_committed (serve lock_alice (later after_grant)).

Lemma served_at req db : served db (st_committed (serve req (World.at_db db))).
Proof. exact (served_intro req (World.at_db db) eq_refl). Qed.
Lemma served_later req db : served db (st_committed (serve req (later db))).
Proof. exact (served_intro req (later db) eq_refl). Qed.

Lemma an_active_administrator_remains_witness :
  requests admin_db after_lock ∧ ¬ active_in (db_users after_lock) 1 ∧
  ∃ k, active_in (db_users after_lock) k.
Proof.
  assert (requests admin_db after_lock) as Hh.
  { exact (rtc_l _ _ _ _ (served_at grant_bob admin_db)
             (rtc_once _ _ (served_later lock_alice after_grant))). }
  split; [exact Hh|]. split.
  - assert (match db_users after_lock !! 1 with Some r => UserRow_locked_at r | None => None end ≠ None)
      as Hl by (vm_compute; intros E; discriminate E).
    intros (r & Hr & _ & Hno & _). rewrite Hr in Hl. exact (Hl Hno).
  - apply (proj1 (an_active_administrator_remains _ _ admin_wf Hh)).
    exists 1, (UserRow_set_admin true 0 World.alice). split; [vm_compute; reflexivity|].
    split; [reflexivity|]. split; reflexivity.
Defined.

(** Alice makes a session for Bob, with a token for an hour, and replaces the token of her own. *)
Definition for_bob : AddSessionRequest :=
  {| add_actor_user_id := 2; add_human_name := "robot"; add_scope := "openid"; add_expires_in := Some 3600 |}.


