(* ===== verification/UserJobsProofs.v ===== *)
(** The theorems about the jobs of users and their sessions: a deactivated user is shut out for good, and a
    synchronisation tells the homeserver exactly the devices of the active sessions. *)
From S2P Require Import Prelude Ids RateLimit Passwords TokenFormat Scope Pkce Jose Keystore Domain Accounts Notification Database Messaging Repository AccountRepository Pagination AdminRepository NotificationRepository ProviderMetadata Notifications EmailWebhook Outbox Handlers ClientAuth ClientMetadata ClientRegistration RepositorySpec TokenService Registration Login World ClientAuthProofs TokenSpec Introspection Revocation Consent Authorization Profile Admin Integrity AccountServer AccountIntegrity NotificationIntegrity NotificationJobs AdminIntegrity UserJobs Server TokenProofs IntrospectionProofs ConsentProofs AuthorizationProofs ServerProofs.

Open Scope Z_scope.

(** ** Pages of sessions *)

(** A device named by a token of a scope. *)
Definition names_device (scope : ScopeSet) (d : string) : Prop :=
  ∃ t, t ∈ scope ∧ extract_device_id t = Some d.

Lemma elem_insert_devices scope devices d :
  d ∈ insert_devices scope devices ↔ d ∈ devices ∨ names_device scope d.
Proof.
  assert (names_device scope d ↔ ∃ t, t ∈ scope_iter scope ∧ extract_device_id t = Some d) as ->
    by (unfold names_device; by setoid_rewrite elem_of_scope_iter).
  unfold insert_devices. generalize (scope_iter scope) as l. intros l. revert devices.
  induction l as [|t l IH]; intros devices; simpl.
  { split; [by left|]. by intros [?|(t & ?%elem_of_nil & _)]. }
  rewrite IH. setoid_rewrite elem_of_cons.
  destruct (extract_device_id t) as [i|] eqn:Ht; [rewrite elem_of_union, elem_of_singleton|]; naive_solver.
Qed.

Lemma elem_insert_all {A} (scope : A → ScopeSet) (l : list (Edge A)) devices d :
  d ∈ foldl (λ devices edge, insert_devices (scope (edge_node edge)) devices) devices l ↔
  d ∈ devices ∨ ∃ e, e ∈ l ∧ names_device (scope (edge_node e)) d.
Proof.
  revert devices. induction l as [|e l IH]; intros devices; simpl.
  { split; [by left|]. by intros [?|(t & ?%elem_of_nil & _)]. }
  rewrite IH, elem_insert_devices. setoid_rewrite elem_of_cons. naive_solver.
Qed.

(** The cursor after a page is that of its last edge. *)
Lemma fold_after {A} (l : list (Edge A)) p :
  foldl (λ cursor edge, Pagination_after cursor (edge_cursor edge)) p l =
  match last l with Some e => Pagination_after p (edge_cursor e) | None => p end.
Proof.
  induction l as [|e l IH] using rev_ind; [done|]. rewrite foldl_snoc, last_snoc, IH.
  by destruct (last l).
Qed.

Lemma edges_try_map_Ok {A B E} (f : A → result B E) (l : list (Edge A)) l' :
  edges_try_map f l = Ok l' →
  Forall2 (λ e e', edge_cursor e' = edge_cursor e ∧ f (edge_node e) = Ok (edge_node e')) l l'.
Proof.
  revert l'. induction l as [|e l IH]; intros l'; simpl; [by intros [= <-]|].
  destruct (f (edge_node e)) as [b|] eqn:Hb; simpl; [|done].
  destruct (edges_try_map f l) as [l1|]; simpl; [|done]. intros [= <-]. constructor; [done|]. by apply IH.
Qed.
Lemma edges_try_map_Err {A B E} (f : A → result B E) (l : list (Edge A)) x :
  edges_try_map f l = Err x → ∃ e, e ∈ l ∧ f (edge_node e) = Err x.
Proof.
  induction l as [|e l IH]; simpl; [done|].
  destruct (f (edge_node e)) as [b|y] eqn:Hb; simpl.
  - destruct (edges_try_map f l) as [l1|y]; simpl; [done|]. intros [= ->].
    destruct IH as (e' & ? & ?); [done|]. exists e'. by split; [right|].
  - intros [= ->]. exists e. by split; [left|].
Qed.

Lemma Forall2_elem_l {A B} (P : A → B → Prop) l k x : Forall2 P l k → x ∈ l → ∃ y, y ∈ k ∧ P x y.
Proof.
  intros H (i & Hi)%list_elem_of_lookup. destruct (Forall2_lookup_l _ _ _ _ _ H Hi) as (y & Hy & ?).
  exists y. split; [|done]. by eapply list_elem_of_lookup_2.
Qed.
Lemma Forall2_elem_r {A B} (P : A → B → Prop) l k y : Forall2 P l k → y ∈ k → ∃ x, x ∈ l ∧ P x y.
Proof.
  intros H (i & Hi)%list_elem_of_lookup. destruct (Forall2_lookup_r _ _ _ _ _ H Hi) as (x & Hx & ?).
  exists x. split; [|done]. by eapply list_elem_of_lookup_2.
Qed.
Lemma elem_take {A} n (l : list A) x : x ∈ take n l → x ∈ l.
Proof. intros (i & Hi & _)%elem_of_take. by eapply list_elem_of_lookup_2. Qed.

Lemma or_retry_run {B} (m : M St DatabaseError B) js r :
  m (js_st js) = (r, js_st js) →
  or_retry m js = (result_map_err (λ e, JobError_retry (Cause_Database e)) r, js).
Proof. intros H. unfold or_retry, lift, try_with. rewrite H. by destruct r, js. Qed.

Lemma sorted_le_filter {X} (Q : Z * X → Prop) `{∀ x, Decision (Q x)} (l : list (Z * X)) :
  StronglySorted key_le l → StronglySorted key_le (filter Q l).
Proof.
  induction 1 as [|x l Hl IH Hx]; [constructor|]. rewrite filter_cons. case_decide; [|done].
  constructor; [done|]. rewrite Forall_forall in *. intros y [_ Hy]%list_elem_of_filter. by apply Hx.
Qed.

Lemma sorted_lt_le {X} (l : list (Z * X)) : StronglySorted key_lt l → StronglySorted key_le l.
Proof.
  induction 1 as [|x l Hl IH Hx]; [constructor|]. constructor; [done|].
  eapply Forall_impl; [exact Hx|]. unfold key_lt, key_le. lia.
Qed.

(** What reading a sorted query page by page collects; a session may have several rows. *)
Section collect.
Context {A X : Type} (list_of : Pagination → M St DatabaseError (Page A)) (scope : A → ScopeSet).
Context (rows : list (Z * X)) (dec : Z * X → result A DatabaseError) (n : nat) (st : St).
Hypothesis Hn : (0 < n)%nat.
Hypothesis Hlist : ∀ p, forward p n →
  let l := rows_after (page_after p) rows in
  list_of p st = (Page_try_map dec
    {| has_next_page := bool_decide (n < length l)%nat; has_previous_page := false;
       edges := (λ row, {| edge_cursor := row.1; edge_node := row |}) <$> take n l |}, st).
Hypothesis Hsorted : StronglySorted key_le rows.
Hypothesis Hsame : ∀ x y a, x ∈ rows → y ∈ rows → x.1 = y.1 → dec x = Ok a →
  ∃ b, dec y = Ok b ∧ scope b = scope a.

(** The rows a page begins before. *)
Definition reaches (p : Pagination) (d : string) : Prop :=
  ∃ row a, row ∈ rows_after (page_after p) rows ∧ dec row = Ok a ∧ names_device (scope a) d.

Lemma rows_after_sorted c : StronglySorted key_le (rows_after c rows).
Proof.
  destruct c as [c|]; [|done]. by apply sorted_le_filter.
Qed.
Lemma rows_after_rows c x : x ∈ rows_after c rows → x ∈ rows.
Proof. destruct c as [c|]; [|done]. simpl. by intros [_ ?]%list_elem_of_filter. Qed.

(** A page is followed by the rows after its last one. *)
Lemma after_page c x :
  let l := rows_after c rows in
  last (take n l) = Some x →
  x ∈ l ∧
  rows_after (Some x.1) rows = filter (λ row, x.1 < row.1) l ∧
  (∀ y, y ∈ l → y ∈ take n l ∨ y.1 = x.1 ∨ y ∈ rows_after (Some x.1) rows).
Proof.
  intros l Hx. apply last_Some in Hx as [l0 Hx].
  assert (l = (l0 ++ [x]) ++ drop n l) as El by (by rewrite <-Hx, take_drop).
  assert (x ∈ l) as Hxl by (rewrite El; set_solver).
  assert (rows_after (Some x.1) rows = filter (λ row, x.1 < row.1) l) as Er.
  { subst l. destruct c as [c|]; [|done]. simpl in *. rewrite list_filter_filter.
    apply list_filter_iff. intros y. apply list_elem_of_filter in Hxl as [? _]. lia. }
  split; [done|]. split; [done|]. intros y Hy. rewrite El, elem_of_app in Hy.
  destruct Hy as [Hy|Hy]; [left; by rewrite Hx|right].
  pose proof (rows_after_sorted c) as Hs. fold l in Hs. rewrite El, <-app_assoc in Hs.
  apply StronglySorted_app in Hs as (_ & _ & Hs). inversion Hs as [|? ? _ Hx']; subst.
  rewrite Forall_forall in Hx'. specialize (Hx' y Hy). unfold key_le in Hx'.
  destruct (decide (y.1 = x.1)) as [?|?]; [by left|right]. rewrite Er.
  apply list_elem_of_filter. split; [lia|]. rewrite El. set_solver.
Qed.

(** The devices of one page. *)
Lemma page_devices l l' devices d :
  edges_try_map dec ((λ row, {| edge_cursor := row.1; edge_node := row |}) <$> l) = Ok l' →
  d ∈ foldl (λ devices edge, insert_devices (scope (edge_node edge)) devices) devices l' ↔
  d ∈ devices ∨ ∃ row a, row ∈ l ∧ dec row = Ok a ∧ names_device (scope a) d.
Proof.
  intros H%edges_try_map_Ok. rewrite elem_insert_all. apply or_iff_compat_l.
  apply Forall2_fmap_l in H. split.
  - intros (e & He & Hd). destruct (Forall2_elem_r _ _ _ _ H He) as (row & Hrow & _ & Hdec). eauto.
  - intros (row & a & Hrow & Hdec & Hd). destruct (Forall2_elem_l _ _ _ _ H Hrow) as (e & He & _ & Hdec').
    simpl in Hdec'. exists e. split; [done|]. by replace (edge_node e) with a by congruence.
Qed.
Lemma page_decoded l l' row :
  edges_try_map dec ((λ row, {| edge_cursor := row.1; edge_node := row |}) <$> l) = Ok l' →
  row ∈ l → ∃ a, dec row = Ok a.
Proof.
  intros H%edges_try_map_Ok Hrow. apply Forall2_fmap_l in H.
  destruct (Forall2_elem_l _ _ _ _ H Hrow) as (e & _ & _ & ?). eauto.
Qed.
Lemma page_cursor l l' p :
  edges_try_map dec ((λ row, {| edge_cursor := row.1; edge_node := row |}) <$> l) = Ok l' →
  foldl (λ cursor edge, Pagination_after cursor (edge_cursor edge)) p l' =
  match last l with Some x => Pagination_after p x.1 | None => p end.
Proof.
  intros H%edges_try_map_Ok. rewrite fold_after. apply Forall2_fmap_l in H.
  assert (edge_cursor <$> l' = l.*1) as E.
  { clear -H. induction H as [|x e l l' [Hc _] H IH]; [done|]. rewrite !fmap_cons, Hc. by f_equal. }
  apply (f_equal last) in E. rewrite !fmap_last in E. destruct (last l'), (last l); try done. injection E as ->. done.
Qed.

Lemma collect_inv fuel p devices js :
  js_st js = st → forward p n → (length (rows_after (page_after p) rows) < fuel)%nat →
  match collect_devices fuel list_of scope p devices js with
  | (Ok D, js') => js' = js ∧ (∀ row, row ∈ rows_after (page_after p) rows → ∃ a, dec row = Ok a) ∧
      ∀ d, d ∈ D ↔ d ∈ devices ∨ reaches p d
  | (Err e, js') => js' = js ∧ ∃ error row,
      e = JobError_retry (Cause_Database error) ∧ row ∈ rows ∧ dec row = Err error
  end.
Proof.
  intros Hst. revert p devices. induction fuel as [|fuel IH]; intros p devices Hp Hlen; [lia|].
  simpl. unfold mbind at 1, M_bind at 1.
  erewrite or_retry_run by (rewrite Hst; by apply Hlist).
  set (l := rows_after (page_after p) rows) in *. unfold Page_try_map. simpl.
  destruct (edges_try_map dec _) as [l'|error] eqn:Hl; simpl.
  2: { split; [done|]. apply edges_try_map_Err in Hl as (e & He & Hdec).
       apply list_elem_of_fmap in He as (row & -> & Hrow). exists error, row. split_and!; [done| |done].
       apply (rows_after_rows (page_after p)). by eapply elem_take. }
  rewrite (page_cursor _ _ p Hl). case_bool_decide as Hnext.
  - destruct (last (take n l)) as [x|] eqn:Hx.
    2: { apply last_None in Hx. apply (f_equal length) in Hx. rewrite length_take in Hx. simpl in Hx. lia. }
    destruct (after_page _ _ Hx) as (Hxl & Er & Hrest).
    specialize (IH (Pagination_after p x.1)
      (foldl (λ devices edge, insert_devices (scope (edge_node edge)) devices) devices l')).
    destruct (collect_devices _ _ _ _ _ _) as [[D|e] js']; destruct IH as [-> IH];
      try (by apply forward_after); try done.
    1,3: change (page_after _) with (Some x.1); rewrite Er; apply (Nat.lt_le_trans _ (length l)); [|lia];
      by apply length_filter_lt with (x := x); [|lia].
    destruct IH as [IHr IH]. split; [done|]. split.
    { intros row Hrow. destruct (Hrest _ Hrow) as [?|[Ek|?]]; [by eapply page_decoded| |by apply IHr].
      destruct (page_decoded _ _ x Hl) as [a Ha].
      { apply last_Some in Hx as [l0 ->]. set_solver. }
      destruct (Hsame x row a) as (b & Hb & _); eauto using rows_after_rows. }
    intros d. rewrite IH, (page_devices _ _ _ _ Hl).
    enough ((∃ row a, row ∈ take n l ∧ dec row = Ok a ∧ names_device (scope a) d) ∨
            reaches (Pagination_after p x.1) d ↔ reaches p d) by tauto.
    unfold reaches. fold l. split.
    + intros [(row & a & Hrow & ?)|(row & a & Hrow & ?)]; exists row, a; split; try done.
      * by eapply elem_take.
      * change (page_after _) with (Some x.1) in Hrow. rewrite Er in Hrow.
        by apply list_elem_of_filter in Hrow as [_ ?].
    + intros (row & a & Hrow & Hdec & Hd). destruct (Hrest _ Hrow) as [?|[Ek|?]]; [left; eauto| |right; eauto].
      left. destruct (Hsame row x a) as (b & Hb & Es); eauto using rows_after_rows.
      exists x, b. rewrite Es. split_and!; [|done..]. apply last_Some in Hx as [l0 ->]. set_solver.
  - rewrite take_ge in Hl by lia. split; [done|]. split; [by intros row; eapply page_decoded|].
    intros d. by rewrite (page_devices _ _ _ _ Hl).
Qed.
End collect.

(** ** The synchronisation of devices *)

Lemma column_null_true {A} (o : option A) : eqb (column_null o) true = true ↔ o = None.
Proof. by destruct o. Qed.

Lemma active_oauth2_matches user db r :
  oauth2_session_matches (active_oauth2_sessions_of user) db r = true ↔
  OAuthSessionRow_user_id r = Some (User_id user) ∧ OAuthSessionRow_finished_at r = None.
Proof.
  unfold oauth2_session_matches. simpl. rewrite !andb_true_r, andb_true_iff, bool_decide_eq_true.
  by rewrite column_null_true.
Qed.
Lemma acting_matches user r token :
  personal_session_matches (active_personal_sessions_acting user) r token = true ↔
  PersonalSessionRow_actor_user_id r = User_id user ∧ PersonalSessionRow_revoked_at r = None.
Proof.
  unfold personal_session_matches. simpl. rewrite !andb_true_r, andb_true_iff, bool_decide_eq_true.
  by rewrite column_null_true.
Qed.
Lemma owned_matches user r token :
  personal_session_matches (active_personal_sessions_owned user) r token = true ↔
  PersonalSessionRow_owner_user_id r = Some (User_id user) ∧ PersonalSessionRow_revoked_at r = None.
Proof.
  unfold personal_session_matches. simpl. rewrite !andb_true_r, andb_true_iff, bool_decide_eq_true.
  by rewrite column_null_true.
Qed.

Lemma elem_concat {A} (x : A) (ls : list (list A)) : x ∈ concat ls ↔ ∃ l, x ∈ l ∧ l ∈ ls.
Proof.
  induction ls as [|l ls IH]; simpl.
  - split; [by intros ?%elem_of_nil|]. by intros (l & _ & ?%elem_of_nil).
  - rewrite elem_of_app, IH. setoid_rewrite elem_of_cons. naive_solver.
Qed.

(** The rows of the join. *)
Lemma joined_tokens_some db k : ∃ token, token ∈ joined_tokens db k.
Proof.
  unfold joined_tokens. destruct (List.filter _ _) as [|t l]; [exists None; by left|].
  exists (Some t). by left.
Qed.
Lemma elem_personal_join db k r token :
  (k, (r, token)) ∈ personal_join db ↔
  db_personal_sessions db !! k = Some r ∧ token ∈ joined_tokens db k.
Proof.
  unfold personal_join. rewrite elem_concat. setoid_rewrite list_elem_of_fmap. split.
  - intros (l & Hin & (kr & -> & Hkr)). apply list_elem_of_fmap in Hin as (t & [= -> -> ->] & Ht).
    destruct kr. by apply elem_ordered_rows in Hkr.
  - intros [Hk Ht]. eexists. split; [|exists (k, r); split; [done|by apply elem_ordered_rows]].
    apply list_elem_of_fmap. by exists token.
Qed.
Lemma personal_join_sorted db : StronglySorted key_le (personal_join db).
Proof.
  unfold personal_join. pose proof (ordered_rows_sorted (db_personal_sessions db)) as Hs.
  induction Hs as [|[k r] l Hl IH Hk]; simpl; [constructor|].
  apply StronglySorted_app. split_and!; [| |done].
  - intros x y (t & -> & _)%list_elem_of_fmap Hy. unfold key_le. simpl.
    apply elem_concat in Hy as (l' & Hy & ([k' r'] & -> & Hin)%list_elem_of_fmap).
    apply list_elem_of_fmap in Hy as (t' & -> & _). simpl.
    rewrite Forall_forall in Hk. specialize (Hk _ Hin). unfold key_lt in Hk. simpl in Hk. lia.
  - generalize (joined_tokens db k) as ts. induction ts as [|t ts IHt]; simpl; constructor; [done|].
    apply Forall_forall. intros y (t' & -> & _)%list_elem_of_fmap. unfold key_le. simpl. lia.
Qed.

(** The devices a user is active on: those its active sessions name in their scopes. *)
Definition device_active (db : DB) (user_id : Ulid) (d : string) : Prop :=
  (∃ k r t, db_sessions db !! k = Some r ∧ OAuthSessionRow_user_id r = Some user_id ∧
     OAuthSessionRow_finished_at r = None ∧ t ∈ OAuthSessionRow_scope_list r ∧
     extract_device_id t = Some d) ∨
  (∃ k r t, db_personal_sessions db !! k = Some r ∧ PersonalSessionRow_actor_user_id r = user_id ∧
     PersonalSessionRow_revoked_at r = None ∧ t ∈ PersonalSessionRow_scope_list r ∧
     extract_device_id t = Some d).

(** An active session of the user whose row cannot be read. *)
Definition unreadable_session (db : DB) (user_id : Ulid) (error : DatabaseError) : Prop :=
  (∃ k r, db_sessions db !! k = Some r ∧ OAuthSessionRow_user_id r = Some user_id ∧
     OAuthSessionRow_finished_at r = None ∧ Session_try_from k r = Err error) ∨
  (∃ k r, db_personal_sessions db !! k = Some r ∧ PersonalSessionRow_actor_user_id r = user_id ∧
     PersonalSessionRow_revoked_at r = None ∧ PersonalSession_try_from k r = Err error).

Lemma names_device_list l scope d :
  Scope_from_list l = Ok scope →
  names_device scope d ↔ ∃ t, t ∈ l ∧ extract_device_id t = Some d.
Proof.
  intros [-> _]%Scope_from_list_Ok. unfold names_device, scope_of_list. by setoid_rewrite elem_of_list_to_set.
Qed.
Lemma Session_scope_list k r s :
  Session_try_from k r = Ok s → Scope_from_list (OAuthSessionRow_scope_list r) = Ok (Session_scope s).
Proof. unfold Session_try_from. destruct (Scope_from_list _); simpl; by intros [= <-]. Qed.
Lemma PersonalSession_scope_list k r s :
  PersonalSession_try_from k r = Ok s →
  Scope_from_list (PersonalSessionRow_scope_list r) = Ok (PersonalSession_scope s).
Proof.
  unfold PersonalSession_try_from. destruct (Scope_from_list _); simpl; [|done].
  repeat case_match; simpl; by intros [= <-].
Qed.

(** The devices of the sessions of either kind. *)
Lemma oauth2_devices_inv user devices js :
  match collect_devices_from_oauth2 user devices js with
  | (Ok D, js') => js' = js ∧ ∀ d, d ∈ D ↔ d ∈ devices ∨ ∃ k r t,
      db_sessions (st_db (js_st js)) !! k = Some r ∧ OAuthSessionRow_user_id r = Some (User_id user) ∧
      OAuthSessionRow_finished_at r = None ∧ t ∈ OAuthSessionRow_scope_list r ∧
      extract_device_id t = Some d
  | (Err e, js') => js' = js ∧ ∃ error, e = JobError_retry (Cause_Database error) ∧
      ∃ k r, db_sessions (st_db (js_st js)) !! k = Some r ∧
        OAuthSessionRow_user_id r = Some (User_id user) ∧
        OAuthSessionRow_finished_at r = None ∧ Session_try_from k r = Err error
  end.
Proof.
  unfold collect_devices_from_oauth2. erewrite bind_Ok by reflexivity.
  set (db := st_db (js_st js)).
  set (P := oauth2_session_matches (active_oauth2_sessions_of user) db).
  assert (∀ k r, (k, r) ∈ all_rows P (db_sessions db) ↔ db_sessions db !! k = Some r ∧
    OAuthSessionRow_user_id r = Some (User_id user) ∧ OAuthSessionRow_finished_at r = None) as Hin.
  { intros k r. by rewrite elem_all_rows, <-(active_oauth2_matches user db). }
  epose proof (collect_inv (oauth2_session_list (active_oauth2_sessions_of user)) Session_scope
    (all_rows P (db_sessions db)) (λ '(id, r), Session_try_from id r) (Z.to_nat SYNC_PAGE_SIZE) (js_st js)
    _ _ _ _ (S (size (db_sessions db))) (Pagination_first SYNC_PAGE_SIZE) devices js eq_refl _ _) as Hc.
  Unshelve.
  - destruct (collect_devices _ _ _ _ _ _) as [[D|e] js']; destruct Hc as [-> Hc]; (split; [done|]).
    + destruct Hc as [Hr Hc]. intros d. rewrite Hc. apply or_iff_compat_l. unfold reaches. simpl. split.
      * intros ([k r] & s & (Hk & Hu & Hf)%Hin & Hs & Hd).
        apply (names_device_list _ _ _ (Session_scope_list _ _ _ Hs)) in Hd as (t & ? & ?). by exists k, r, t.
      * intros (k & r & t & Hk & Hu & Hf & Ht & Hd).
        assert ((k, r) ∈ all_rows P (db_sessions db)) as Hrow by (by apply Hin).
        destruct (Hr _ Hrow) as [s Hs]. exists (k, r), s. split_and!; [done..|].
        apply (names_device_list _ _ _ (Session_scope_list _ _ _ Hs)). eauto.
    + destruct Hc as (error & [k r] & -> & (Hk & Hu & Hf)%Hin & Hs). eauto 10.
  - unfold SYNC_PAGE_SIZE. lia.
  - intros p Hp. unfold oauth2_session_list. erewrite bind_Ok by reflexivity. unfold of_result.
    by rewrite (list_page_forward p _ P _ Hp).
  - apply sorted_lt_le, all_rows_sorted.
  - intros [k r] [k' r'] s [Hk _]%Hin [Hk' _]%Hin [= <-] Hs.
    assert (r' = r) as -> by congruence. by exists s.
  - by repeat split.
  - simpl. unfold all_rows, matching, ordered_rows. apply Nat.lt_succ_r.
    etrans; [apply length_filter|]. by rewrite merge_sort_Permutation, length_map_to_list.
Qed.

Lemma personal_devices_inv user devices js :
  match collect_devices_from_personal user devices js with
  | (Ok D, js') => js' = js ∧ ∀ d, d ∈ D ↔ d ∈ devices ∨ ∃ k r t,
      db_personal_sessions (st_db (js_st js)) !! k = Some r ∧
      PersonalSessionRow_actor_user_id r = User_id user ∧
      PersonalSessionRow_revoked_at r = None ∧ t ∈ PersonalSessionRow_scope_list r ∧
      extract_device_id t = Some d
  | (Err e, js') => js' = js ∧ ∃ error, e = JobError_retry (Cause_Database error) ∧
      ∃ k r, db_personal_sessions (st_db (js_st js)) !! k = Some r ∧
        PersonalSessionRow_actor_user_id r = User_id user ∧
        PersonalSessionRow_revoked_at r = None ∧ PersonalSession_try_from k r = Err error
  end.
Proof.
  unfold collect_devices_from_personal. erewrite bind_Ok by reflexivity.
  set (db := st_db (js_st js)).
  set (P := λ row : PersonalSessionRow * option (Z * PersonalAccessTokenRow),
    personal_session_matches (active_personal_sessions_acting user) row.1 row.2).
  set (dec := λ row : Z * (PersonalSessionRow * option (Z * PersonalAccessTokenRow)),
    let '(id, (r, token)) := row in PersonalSessionAndAccessToken_try_from id r token).
  assert (∀ k r token, (k, (r, token)) ∈ matching P (personal_join db) ↔
    (db_personal_sessions db !! k = Some r ∧ token ∈ joined_tokens db k) ∧
    PersonalSessionRow_actor_user_id r = User_id user ∧ PersonalSessionRow_revoked_at r = None) as Hin.
  { intros k r token. unfold matching, P. rewrite list_elem_of_filter, elem_personal_join. simpl.
    rewrite acting_matches. tauto. }
  assert (∀ k r token node, dec (k, (r, token)) = Ok node → PersonalSession_try_from k r = Ok node.1) as Hok.
  { intros k r token node. simpl. unfold PersonalSessionAndAccessToken_try_from.
    destruct (PersonalSession_try_from k r); simpl; by intros [= <-]. }
  epose proof (collect_inv (personal_session_list (active_personal_sessions_acting user))
    (λ node, PersonalSession_scope node.1) (matching P (personal_join db)) dec
    (Z.to_nat SYNC_PAGE_SIZE) (js_st js) _ _ _ _ (S (length (personal_join db)))
    (Pagination_first SYNC_PAGE_SIZE) devices js eq_refl _ _) as Hc.
  Unshelve.
  - destruct (collect_devices _ _ _ _ _ _) as [[D|e] js']; destruct Hc as [-> Hc]; (split; [done|]).
    + destruct Hc as [Hr Hc]. intros d. rewrite Hc. apply or_iff_compat_l. unfold reaches. simpl. split.
      * intros ([k [r token]] & s & ([Hk _] & Hu & Hf)%Hin & Hs%Hok & Hd).
        apply (names_device_list _ _ _ (PersonalSession_scope_list _ _ _ Hs)) in Hd as (t & ? & ?).
        by exists k, r, t.
      * intros (k & r & t & Hk & Hu & Hf & Ht & Hd). destruct (joined_tokens_some db k) as [token Htok].
        assert ((k, (r, token)) ∈ matching P (personal_join db)) as Hrow by (by apply Hin).
        destruct (Hr _ Hrow) as [s Hs]. exists (k, (r, token)), s. split_and!; [done..|].
        apply Hok in Hs. apply (names_device_list _ _ _ (PersonalSession_scope_list _ _ _ Hs)). eauto.
    + destruct Hc as (error & [k [r token]] & -> & ([Hk _] & Hu & Hf)%Hin & Hs).
      exists error. split; [done|]. exists k, r. split_and!; [done..|]. simpl in Hs.
      unfold PersonalSessionAndAccessToken_try_from in Hs. by destruct (PersonalSession_try_from k r); simplify_eq/=.
  - unfold SYNC_PAGE_SIZE. lia.
  - intros p Hp. unfold personal_session_list. erewrite bind_Ok by reflexivity. unfold of_result.
    by rewrite (page_rows_forward p _ P _ Hp).
  - apply sorted_le_filter, personal_join_sorted.
  - intros [k [r token]] [k' [r' token']] s [[Hk _] _]%Hin [[Hk' _] _]%Hin [= <-] Hs%Hok.
    assert (r' = r) as -> by congruence. simpl. unfold PersonalSessionAndAccessToken_try_from.
    rewrite Hs. simpl. by eexists.
  - by repeat split.
  - apply Nat.lt_succ_r. apply length_filter.
Qed.

Section jobs.
Context {DX : DbExternals} {LX : LimiterExternals} {XX : AccountExternals} {CO : CollationExternals}.

Lemma job_user_run text id js :
  job_user text id js =
    (match db_users (st_db (js_st js)) !! id with
     | Some row => Ok (User_build id row)
     | None => Err (JobError_fail (Cause_Message text))
     end, js).
Proof.
  unfold job_user, mbind, M_bind.
  rewrite (or_retry_run _ _ (Ok (User_build id <$> db_users (st_db (js_st js)) !! id))) by done. simpl.
  by destruct (db_users _ !! id).
Qed.

Lemma hs_call_run call js :
  ∃ js', hs_call call js = (if st_homeserver (js_st js) 0%nat then Ok () else Err (JobError_retry Cause_Homeserver), js') ∧
    st_db (js_st js') = st_db (js_st js) ∧ st_committed (js_st js') = st_committed (js_st js) ∧
    st_calls (js_st js') = st_calls (js_st js) ++ if st_homeserver (js_st js) 0%nat then [call] else [].
Proof.
  unfold hs_call, lift, homeserver_call. destruct (st_homeserver (js_st js) 0%nat); simpl; eexists;
    split_and!; try done. simpl. by rewrite app_nil_r.
Qed.

(** C16. A synchronisation tells the homeserver the devices of a user: exactly those that the scopes of its
    active sessions name, whatever the number of pages they are read in. It fails only for a user that
    does not exist, where a stored session cannot be read, or where the homeserver refuses, and then
    tells nothing; the database is left as it is. *)
Theorem sync_tells_the_active_devices user_id js :
  let c := js_committed js in
  match sync_devices_job user_id js with
  | (Ok _, js') => js_committed js' = c ∧ ∃ row devices, db_users c !! user_id = Some row ∧
      st_calls (js_st js') = st_calls (js_st js) ++ [Hs_SyncDevices (UserRow_username row) devices] ∧
      ∀ d, d ∈ devices ↔ device_active c user_id d
  | (Err e, js') => js_committed js' = c ∧ st_calls (js_st js') = st_calls (js_st js) ∧
      ((e = JobError_fail (Cause_Message "user not found") ∧ db_users c !! user_id = None) ∨
       (∃ error, e = JobError_retry (Cause_Database error) ∧ unreadable_session c user_id error) ∨
       (e = JobError_retry Cause_Homeserver ∧ st_homeserver (js_st js) 0%nat = false))
  end.
Proof.
  intros c. unfold sync_devices_job. erewrite bind_Ok by reflexivity.
  change (with_js_st _ js) with (fresh js). unfold mbind at 1, M_bind at 1. rewrite job_user_run.
  change (st_db (js_st (fresh js))) with c. destruct (db_users c !! user_id) as [row|] eqn:Hrow.
  2: { split; [done|]. split; [done|]. by left. }
  erewrite bind_Ok by reflexivity. set (js1 := with_js_st _ (fresh js)).
  unfold mbind at 1, M_bind at 1.
  pose proof (oauth2_devices_inv (User_build user_id row) ∅ js1) as Ho. change (st_db (js_st js1)) with c in Ho.
  destruct (collect_devices_from_oauth2 _ _ _) as [[D|e] js2]; destruct Ho as [-> Ho].
  2: { destruct Ho as (error & -> & Ho). split; [done|]. split; [done|]. right. left.
       exists error. split; [done|]. by left. }
  unfold mbind at 1, M_bind at 1.
  pose proof (personal_devices_inv (User_build user_id row) D js1) as Hp. change (st_db (js_st js1)) with c in Hp.
  destruct (collect_devices_from_personal _ _ _) as [[D'|e] js2]; destruct Hp as [-> Hp].
  2: { destruct Hp as (error & -> & Hp). split; [done|]. split; [done|]. right. left.
       exists error. split; [done|]. by right. }
  unfold mbind at 1, M_bind at 1. simpl User_username.
  destruct (hs_call_run (Hs_SyncDevices (UserRow_username row) D') js1) as (js2 & -> & Hd & Hc & Hs).
  change (st_homeserver (js_st js1)) with (st_homeserver (js_st js)) in *.
  destruct (st_homeserver (js_st js) 0%nat) eqn:Hh; simpl.
  - unfold js_committed. simpl. split; [done|]. exists row, D'. split; [done|]. split; [done|].
    intros d. rewrite Hp, Ho. unfold device_active. simpl. set_solver.
  - unfold js_committed. split; [done|]. split; [by rewrite Hs, app_nil_r|]. by right; right.
Qed.

(** ** Deactivation *)

(** A user is shut out: nothing of it is left active, no address is left; other users are left alone. *)
Record shut_out (user_id : Ulid) (c c' : DB) : Prop := {
  so_user : ∃ row', db_users c' !! user_id = Some row' ∧ is_Some (UserRow_deactivated_at row');
  so_browser : ∀ k r, db_user_sessions c !! k = Some r → ∃ r', db_user_sessions c' !! k = Some r' ∧
    if decide (UserSessionRow_user_id r = user_id) then is_Some (UserSessionRow_finished_at r') else r' = r;
  so_oauth : ∀ k r, db_sessions c !! k = Some r → ∃ r', db_sessions c' !! k = Some r' ∧
    if decide (OAuthSessionRow_user_id r = Some user_id)
    then is_Some (OAuthSessionRow_finished_at r') else r' = r;
  so_personal : ∀ k r, db_personal_sessions c !! k = Some r → ∃ r', db_personal_sessions c' !! k = Some r' ∧
    if decide (PersonalSessionRow_actor_user_id r = user_id ∨ PersonalSessionRow_owner_user_id r = Some user_id)
    then is_Some (PersonalSessionRow_revoked_at r') else r' = r;
  so_emails : ∀ k r, db_emails c' !! k = Some r ↔
    db_emails c !! k = Some r ∧ EmailRow_user_id r ≠ user_id;
}.

Lemma finished_browser user t db k r :
  db_user_sessions db !! k = Some r →
  ∃ r', db_user_sessions (finish_matching (active_sessions_of user) t db) !! k = Some r' ∧
    if decide (UserSessionRow_user_id r = User_id user) then is_Some (UserSessionRow_finished_at r') else r' = r.
Proof.
  intros Hk. simpl. rewrite map_lookup_imap, Hk. simpl. eexists. split; [done|].
  unfold browser_session_matches. simpl. rewrite !andb_true_r. case_decide as Hu.
  - rewrite bool_decide_eq_true_2 by done. simpl. case_bool_decide as Hf; simpl; [by eexists|].
    by apply not_eq_None_Some.
  - by rewrite bool_decide_eq_false_2.
Qed.
Lemma finished_oauth2 user t db k r :
  db_sessions db !! k = Some r →
  ∃ r', db_sessions (finish_matching_oauth2 (active_oauth2_sessions_of user) t db) !! k = Some r' ∧
    if decide (OAuthSessionRow_user_id r = Some (User_id user))
    then is_Some (OAuthSessionRow_finished_at r') else r' = r.
Proof.
  intros Hk. simpl. rewrite lookup_fmap, Hk. simpl. eexists. split; [done|].
  pose proof (active_oauth2_matches user db r) as Hm.
  destruct (oauth2_session_matches _ db r); case_decide as Hu; simpl.
  - by eexists.
  - by destruct (proj1 Hm eq_refl).
  - apply not_eq_None_Some. intros Hf. by apply diff_false_true, Hm.
  - done.
Qed.

(** The filters do not look at the token. *)
Lemma existsb_tokens (f : option (Z * PersonalAccessTokenRow) → bool) db k (P : Prop) :
  (∀ token, f token = true ↔ P) → existsb f (joined_tokens db k) = true ↔ P.
Proof.
  intros Hf. rewrite existsb_exists. destruct (joined_tokens_some db k) as [token Ht]. split.
  - intros (x & _ & Hx). by apply Hf in Hx.
  - intros HP. exists token. split; [by apply list_elem_of_In|]. by apply Hf.
Qed.
Lemma revoked_matching filter t db k r (P : Prop) `{Decision P} :
  (∀ token, personal_session_matches filter r token = true ↔ P ∧ PersonalSessionRow_revoked_at r = None) →
  db_personal_sessions db !! k = Some r →
  ∃ r', db_personal_sessions (revoke_matching filter t db) !! k = Some r' ∧
    PersonalSessionRow_actor_user_id r' = PersonalSessionRow_actor_user_id r ∧
    PersonalSessionRow_owner_user_id r' = PersonalSessionRow_owner_user_id r ∧
    (is_Some (PersonalSessionRow_revoked_at r) → r' = r) ∧
    if decide P then is_Some (PersonalSessionRow_revoked_at r') else r' = r.
Proof.
  intros Hm Hk. simpl. rewrite map_lookup_imap, Hk. simpl. eexists. split; [done|].
  pose proof (existsb_tokens _ db k _ Hm) as He.
  destruct (existsb _ _).
  - destruct (proj1 He eq_refl) as [HP ->]. rewrite decide_True by done. split_and!; [done..| |by eexists].
    by intros [].
  - split_and!; [done..|]. case_decide as HP; [|done].
    apply not_eq_None_Some. intros Hf. by apply diff_false_true, He.
Qed.
Lemma revoked_personal user t1 t2 db k r :
  db_personal_sessions db !! k = Some r →
  ∃ r', db_personal_sessions (revoke_matching (active_personal_sessions_owned user) t2
          (revoke_matching (active_personal_sessions_acting user) t1 db)) !! k = Some r' ∧
    if decide (PersonalSessionRow_actor_user_id r = User_id user ∨
               PersonalSessionRow_owner_user_id r = Some (User_id user))
    then is_Some (PersonalSessionRow_revoked_at r') else r' = r.
Proof.
  intros Hk.
  destruct (revoked_matching _ t1 db k r _ (acting_matches user r) Hk) as (r1 & Hk1 & _ & Ho1 & _ & H1).
  destruct (revoked_matching _ t2 _ k r1 _ (owned_matches user r1) Hk1) as (r2 & Hk2 & _ & _ & Hs & H2).
  exists r2. split; [done|]. rewrite Ho1 in H2.
  destruct (decide (PersonalSessionRow_actor_user_id r = User_id user)) as [Ha|Ha];
    destruct (decide (PersonalSessionRow_owner_user_id r = Some (User_id user))) as [Hb|Hb];
    case_decide; try tauto; [..|by subst]; subst; try done.
Qed.

Lemma user_deactivate_run id row st :
  db_users (st_db st) !! id = Some row →
  ∃ u st1 f, user_deactivate (User_build id row) st = (Ok u, st1) ∧ User_id u = id ∧
    User_username u = UserRow_username row ∧ st_db st1 = on_users f (st_db st) ∧
    (∃ row', f (db_users (st_db st)) !! id = Some row' ∧ is_Some (UserRow_deactivated_at row')) ∧
    st_homeserver st1 = st_homeserver st ∧ st_calls st1 = st_calls st.
Proof.
  intros Hrow. unfold user_deactivate. case_bool_decide as Hd.
  - exists (User_build id row), st, (λ m, m). split_and!; try done; [by destruct (st_db st)|by exists row].
  - apply eq_None_not_Some in Hd. simpl in Hd. unfold user_patch. simpl.
    unfold mbind, M_bind, clock_now, update_by_id. simpl. rewrite Hd. simpl.
    rewrite orb_true_r. unfold update_one, mbind, M_bind, update_by_id. simpl. rewrite Hrow. simpl.
    eexists _, _, _. split; [reflexivity|]. split_and!; try done.
    rewrite lookup_alter_eq, Hrow. simpl. eexists. split; [done|]. by eexists.
Qed.

Lemma or_retry_Ok {B} (m : M St DatabaseError B) js b st1 :
  m (js_st js) = (Ok b, st1) → or_retry m js = (Ok b, with_js_st st1 js).
Proof. intros H. unfold or_retry, lift, try_with. by rewrite H. Qed.

Lemma remove_bulk_run filter st :
  ∃ n st1 f g, user_email_remove_bulk filter st = (Ok n, st1) ∧
    st_db st1 = on_recovery_tickets g (on_emails f (st_db st)) ∧
    (∀ k r, f (db_emails (st_db st)) !! k = Some r ↔
       db_emails (st_db st) !! k = Some r ∧ email_matches filter r = false) ∧
    st_homeserver st1 = st_homeserver st ∧ st_calls st1 = st_calls st.
Proof.
  unfold user_email_remove_bulk. erewrite bind_Ok by reflexivity. case_bool_decide as Hnil.
  - exists 0%nat, st, (λ m, m), (λ m, m). split_and!; try done; [by destruct (st_db st) as [? ? ? ? ? ? ? ? ? ? ? ? [] ? ?]|].
    intros k r. split; [|by intros []]. intros Hk. split; [done|]. apply not_true_is_false. intros Hm.
    assert ((k, r) ∈ base.filter (λ kr : Z * UserEmailRow, email_matches filter kr.2 = true)
              (map_to_list (db_emails (st_db st)))) as Hin.
    { apply list_elem_of_filter. split; [done|]. by apply elem_of_map_to_list. }
    rewrite Hnil in Hin. by apply elem_of_nil in Hin.
  - eexists _, _, _, _. split; [reflexivity|]. split; [reflexivity|]. split_and!; [|done..].
    intros k r. rewrite lookup_difference_Some, map_lookup_filter_None. split.
    + intros [Hk [?|Hn]]; [congruence|]. split; [done|]. apply not_true_is_false. by apply Hn.
    + intros [Hk Hm]. split; [done|]. right. intros x Hx. simpl. congruence.
Qed.

(** The four updates that end the sessions of a user. *)
Definition terminated (user : User) (t1 t2 t3 t4 : DateTime) (db : DB) : DB :=
  revoke_matching (active_personal_sessions_owned user) t4
    (revoke_matching (active_personal_sessions_acting user) t3
      (finish_matching_oauth2 (active_oauth2_sessions_of user) t2
        (finish_matching (active_sessions_of user) t1 db))).

Lemma terminate_run user js :
  ∃ t1 t2 t3 t4 js', terminate_all_sessions_for user js = (Ok (), js') ∧
    st_db (js_st js') = terminated user t1 t2 t3 t4 (st_db (js_st js)) ∧
    st_homeserver (js_st js') = st_homeserver (js_st js) ∧ st_calls (js_st js') = st_calls (js_st js).
Proof. by eexists _, _, _, _, _. Qed.

Lemma terminated_shut_out user f g h t1 t2 t3 t4 c :
  (∃ row', f (db_users c) !! User_id user = Some row' ∧ is_Some (UserRow_deactivated_at row')) →
  (∀ k r, g (db_emails c) !! k = Some r ↔ db_emails c !! k = Some r ∧ email_matches (emails_of user) r = false) →
  shut_out (User_id user) c
    (on_recovery_tickets h (on_emails g (terminated user t1 t2 t3 t4 (on_users f c)))).
Proof.
  intros Hdead Hem. split; [exact Hdead|intros k r Hk..|intros k r].
  - exact (finished_browser user t1 (on_users f c) k r Hk).
  - exact (finished_oauth2 user t2 (finish_matching (active_sessions_of user) t1 (on_users f c)) k r Hk).
  - exact (revoked_personal user t3 t4 (finish_matching_oauth2 (active_oauth2_sessions_of user) t2
             (finish_matching (active_sessions_of user) t1 (on_users f c))) k r Hk).
  - etransitivity; [exact (Hem k r)|]. unfold email_matches, email_of_user. simpl.
    by rewrite andb_true_r, bool_decide_eq_false.
Qed.

Lemma deactivate_job_run user_id erase js row :
  db_users (js_committed js) !! user_id = Some row →
  ∃ js', deactivate_user_job user_id erase js =
      (if st_homeserver (js_st js) 0%nat then Ok () else Err (JobError_retry Cause_Homeserver), js') ∧
    shut_out user_id (js_committed js) (js_committed js') ∧
    st_calls (js_st js') = st_calls (js_st js) ++
      if st_homeserver (js_st js) 0%nat then [Hs_DeleteUser (UserRow_username row) erase] else [].
Proof.
  intros Hrow. unfold deactivate_user_job. erewrite bind_Ok by reflexivity.
  change (with_js_st _ js) with (fresh js). unfold mbind at 1, M_bind at 1. rewrite job_user_run.
  change (st_db (js_st (fresh js))) with (js_committed js). rewrite Hrow.
  destruct (user_deactivate_run user_id row (js_st (fresh js)) Hrow)
    as (u & st1 & f & Hd & <- & Hname & Hdb & Hdead & Hh & Hc).
  erewrite bind_Ok by (by apply or_retry_Ok).
  destruct (terminate_run u (with_js_st st1 (fresh js))) as (t1 & t2 & t3 & t4 & js2 & Ht & Hdb2 & Hh2 & Hc2).
  erewrite bind_Ok by exact Ht. simpl in Hdb2, Hh2, Hc2. rewrite Hdb in Hdb2.
  destruct (remove_bulk_run (emails_of u) (js_st js2)) as (n & st3 & g & h & Hr & Hdb3 & Hem & Hh3 & Hc3).
  erewrite bind_Ok by (by apply or_retry_Ok). erewrite bind_Ok by reflexivity.
  match goal with |- ∃ js', _ ?js1 = _ ∧ _ => set (js4 := js1) end.
  destruct (hs_call_run (Hs_DeleteUser (User_username u) erase) js4) as (js5 & -> & _ & Hco5 & Hc5).
  exists js5.
  assert (st_homeserver (js_st js4) = st_homeserver (js_st js)) as Eh
    by exact (eq_trans Hh3 (eq_trans Hh2 Hh)).
  assert (st_calls (js_st js4) = st_calls (js_st js)) as Ec by exact (eq_trans Hc3 (eq_trans Hc2 Hc)).
  rewrite Eh, Ec, Hname in Hc5. rewrite Eh. split; [done|]. split; [|done].
  unfold js_committed at 2. rewrite Hco5. change (st_committed (js_st js4)) with (st_db st3).
  rewrite Hdb3, Hdb2. rewrite Hdb2 in Hem. by apply terminated_shut_out.
Qed.
End jobs.

(** ** A deactivated user is shut out *)

Section shut_out.
Context {TX : TokenExternals} {PX : PkceExternals} {UX : UrlExternals}
        {DX : DbExternals} {HX : HandlerExternals} {AX : ClientAuthExternals}
        {CX : ConsentExternals} {ZX : AuthorizationExternals} {LX : LimiterExternals}
        {XX : AccountExternals} {WX : PasswordExternals} {RX : RegistrationExternals}
        {GX : LoginExternals} {VX : UrlPartsExternals} {KX : MetadataExternals}
        {EX : ClientRegistrationExternals}
        {BX : UrlBuildExternals} {NX : NotificationExternals} {YX : WebhookExternals}
        {QX : AdminExternals} {CO : CollationExternals}.

(** The personal session of a token. *)
Definition personal_session_of (db : DB) (token : string) : option Ulid :=
  match TokenType_check token with
  | Ok TokenType_PersonalAccessToken =>
      (λ kr, PersonalTokenRow_personal_session_id kr.2)
      <$> find_first (has_token_sha256 (sha256_digest token)) (db_personal_tokens db)
  | _ => None
  end.

(** A token of a session of the user, or of one it acts in or owns. *)
Definition token_of_user (db : DB) (user_id : Ulid) (token : string) : Prop :=
  (∃ sid r, oauth_session db token = Some sid ∧ db_sessions db !! sid = Some r ∧
     OAuthSessionRow_user_id r = Some user_id) ∨
  (∃ sid r, personal_session_of db token = Some sid ∧ db_personal_sessions db !! sid = Some r ∧
     (PersonalSessionRow_actor_user_id r = user_id ∨ PersonalSessionRow_owner_user_id r = Some user_id)).

Lemma personal_session_stays db db' token sid :
  wf db' → changes db db' → personal_session_of db token = Some sid →
  personal_session_of db' token = Some sid.
Proof.
  intros Hw He. unfold personal_session_of. destruct (TokenType_check token) as [[]|]; try done.
  intros ([k r] & Hf & ->)%fmap_Some. apply find_first_Some in Hf as [Hk Hr].
  destruct (refind (Some ∘ PersonalTokenRow_access_token_sha256)
    (has_token_sha256 (sha256_digest token)) (sha256_digest token) personal_token_evolves
    (db_personal_tokens db) (db_personal_tokens db') k r)
    as (r' & -> & Hev); [..|exact (wf_personal_unique _ Hw)
    |exact (ev_personal_tokens _ _ He)|exact Hk| |].
  - intros x. unfold has_token_sha256, compose. rewrite bool_decide_eq_true. split; congruence.
  - intros x y (_ & E & _). unfold compose. by rewrite E.
  - unfold has_token_sha256 in Hr. apply bool_decide_eq_true in Hr. unfold compose. by f_equal.
  - simpl. by rewrite (proj1 Hev).
Qed.

Lemma dead_personal_session_not_live now db token sid row :
  personal_session_of db token = Some sid → db_personal_sessions db !! sid = Some row →
  is_Some (PersonalSessionRow_revoked_at row) → live_token now db token = false.
Proof.
  intros Ho Hs [t Ht]. assert (personal_session_live db sid = false) as Hl.
  { unfold personal_session_live. by rewrite Hs, Ht. }
  unfold personal_session_of, live_token in *. destruct (TokenType_check token) as [[]|]; try done.
  destruct (find_first _ _) as [[k r]|]; try done. injection Ho as ->. rewrite Hl. by rewrite andb_false_r.
Qed.

(** The tokens of a user that is shut out are dead, whatever follows. *)
Lemma shut_out_tokens_dead user_id c c' db token now :
  wf c' → changes c c' → shut_out user_id c c' → history c' db → token_of_user c user_id token →
  live_token now db token = false.
Proof.
  intros Hw1 He1 Hso Hh Htok. destruct (history_good _ _ Hw1 Hh) as [Hw2 He2].
  assert (changes c db) as He by (by etrans).
  destruct Htok as [(sid & r & Ht & Hr & Hu)|(sid & r & Ht & Hr & Hu)].
  - destruct (so_oauth _ _ _ Hso _ _ Hr) as (r1 & Hr1 & Hf). rewrite decide_True in Hf by done.
    destruct (ev_sessions _ _ He2 _ _ Hr1) as (r2 & Hr2 & (_ & _ & _ & _ & _ & Hst)).
    eapply dead_session_not_live; [by eapply oauth_session_stays|exact Hr2|by apply Hst].
  - destruct (so_personal _ _ _ Hso _ _ Hr) as (r1 & Hr1 & Hf). rewrite decide_True in Hf by done.
    destruct (ev_personal_sessions _ _ He2 _ _ Hr1) as (r2 & Hr2 & (_ & _ & _ & _ & Hst)).
    eapply dead_personal_session_not_live; [by eapply personal_session_stays|exact Hr2|by apply Hst].
Qed.


(** The jobs that provision and delete one device schedule a synchronisation in a transaction they do not
    save: whether they succeed or fail, nothing is committed and the homeserver is told nothing. *)
Theorem device_jobs_commit_nothing user_id device_id js :
  js_committed (provision_device_job user_id device_id js).2 = js_committed js ∧
  js_committed (delete_device_job user_id device_id js).2 = js_committed js ∧
  st_calls (js_st (provision_device_job user_id device_id js).2) = st_calls (js_st js) ∧
  st_calls (js_st (delete_device_job user_id device_id js).2) = st_calls (js_st js).
Proof.
  assert (js_committed (schedule_device_sync user_id js).2 = js_committed js ∧
    st_calls (js_st (schedule_device_sync user_id js).2) = st_calls (js_st js)) as [H1 H2]; [|done].
  unfold schedule_device_sync. erewrite bind_Ok by reflexivity. change (with_js_st _ js) with (fresh js).
  unfold mbind, M_bind. rewrite !job_user_run.
  destruct (db_users _ !! user_id); [|done].
  unfold or_retry, lift, try_with, schedule_sync_devices_job, queue_job_schedule, queue_job_insert,
    insert_row, mbind, M_bind, clock_now, with_rng. simpl.
  by destruct (pk_taken _ _).
Qed.
End shut_out.

(** ** A concrete run *)

#[local] Existing Instances World.TX World.PX World.UX World.DX World.HX World.AX World.LX World.XX World.WX World.RX World.GX World.VX World.BX World.NX World.YX World.QX World.CO World.MX World.CX consent_world authorization_world.

(** The job of Alice, user 1, while the homeserver answers or does not. *)
Definition alice_job (answers : bool) : JobSt :=
  mkJobSt
    (mkSt World.db World.db (λ n, World.NOW + Z.of_nat n) (λ n, Z.of_nat (n * 7 + 1)) (λ _, answers)
       [] [] [] World.limiter [])
    (λ n, World.NOW + Z.of_nat n) (λ _, {| outcome_email := Ok None; outcome_sms := Ok () |}) [].

